(* ===== verification/_CoqProject ===== *)
-Q . S2P
Prelude.v
Crc32c.v
Frame.v
PyFloat.v
PyValue.v
PyArith.v
Rfc8949.v
PyText.v
PyDecimal.v
PyJson.v
Cbor.v
CborScan.v
CborCodec.v
Opcode.v
WireEnums.v
WireCodec.v
WireHandshake.v
WireMemory.v
WireRecall.v
WireListing.v
WireTyped.v
WireReasoning.v
WireEvents.v
WireReads.v
WireMutations.v
WireSpaces.v
WireCorpus.v
WireLossless.v
Errors.v
Transport.v
Retry.v
PyCompare.v
Mux.v
MuxMoves.v
MuxSafety.v
MuxLiveness.v
MuxProperties.v
MuxWrite.v
AioMux.v
AioMuxSafety.v
AioMuxProperties.v
Pool.v
PoolProperties.v
Client.v
ClientProperties.v
SpaceId.v
Verbs.v
AioClient.v
AioClientProperties.v
Connect.v
HttpContract.v
HttpTypes.v
HttpTyped.v
HttpCore.v
HttpClient.v
Sse.v
HttpProperties.v
HttpVerbs.v
PyDict.v
ToolText.v
WireGate.v
ContractGate.v
BindingsGate.v
ApiGate.v
