(* ===== verification/Prelude.v ===== *)
(** * Verification of the Python client of Brain ([src/python/src/brain_db_sdk])

    The library models both tiers of the Python SDK: the wire tier (the bytes a
    client and a server exchange, the payloads those bytes stand for, the
    connection that carries many requests at once, threaded and on asyncio, and
    the pools of connections) and the HTTP tier (requests, retries, errors, the
    result types, every verb, and the change feed); and the gates that keep the
    SDK what the server and its contract say. Paths below are relative to
    [src/python/src/brain_db_sdk].

    ** The program

    A verb of [client.py] builds a payload dataclass of [wire/types.py];
    [encode_payload] renders it as a map and [wire/cbor.py] turns the map into
    CBOR through the third-party [cbor2]; [wire/frame.py] puts a 32-byte header
    with two CRC32C checksums ([wire/crc32c.py]) in front of the payload, with an
    opcode of [wire/opcode.py]; [transport.py] moves frames over a socket; and
    [mux.py] lets any number of threads issue requests over one socket, a reader
    thread giving each response frame to the queue of its stream. [errors.py] has
    the exceptions, [retry.py] the policy for repeating an operation. [pool.py]
    keeps connections and replaces dead ones. [aio/] has the same on coroutines.
    [http/client.py] is a second client, of a JSON edge: a verb makes one request,
    [http/retry.py] says when to repeat it, [http/errors.py] and [_error_from]
    what a failure becomes, [http/types.py] reads the answer, and [http/sse.py]
    is the change feed. The routes and documents of that edge are published in
    the repository ([src/contract/http-routes.json]). The repository keeps the SDK
    in step with the server, with that contract and with its sister SDKs by gates
    that run on every build ([src/tools], paths relative to [src]).

    ** The files

    - [Prelude]: the error monad for code that raises, bytes, big-endian
      integers, Python slices, the tactics and hint databases.
    - [Crc32c], [Frame]: [wire/crc32c.py] and [wire/frame.py], function by
      function, with the frame layout table as the abstract specification.
    - [PyFloat], [PyArith], [PyValue], [PyCompare]: the values of the language the
      code handles. A float is an exact dyadic rational, rounded as IEEE-754
      prescribes wherever the code rounds; [pyval] is a dynamically typed value;
      integers are unbounded, as in Python, and every conversion to a machine
      width checks its range as the code (or [struct]) does.
    - [PyText], [PyDecimal], [PyJson]: what the HTTP tier uses of the standard
      library: UTF-8 decoding, [urllib.parse] quoting and queries, decimal
      printing and parsing of floats, [json.dumps] and [json.loads], with their
      round trips.
    - [Rfc8949]: an executable CBOR encoder and decoder, the reference the codec
      is stated against. [cbor2] is not defined anywhere: it is the class
      [Cbor.Cbor2], and what the code relies on is [Cbor.Cbor2Conforms];
      [CborCodec.rfc8949_codec] is an instance that satisfies it.
    - [Cbor]: [wire/cbor.py]. [CborScan]: the grammar its item scanner decides.
      [CborCodec]: its float rule, round trips and vector section.
    - [Opcode], [WireEnums]: the constants.
    - [WireCodec]: [_as_map], [encode_payload], [decode_payload], the payload
      interface [WirePayload] with its law [WireLaws], and the field combinators.
      [WireHandshake], [WireMemory], [WireRecall], [WireListing], [WireTyped],
      [WireReasoning], [WireEvents], [WireReads], [WireMutations], [WireSpaces]:
      every dataclass of [wire/types.py], each with its record, its [to_map], its
      [from_map] and its instance of the law. [WireCorpus]: the repository's
      conformance corpus run through the model. [WireLossless]: the families put
      through the codec.
    - [Errors], [Transport], [Retry]: the modules of the same names; [Retry] also
      stands for [aio/retry.py], and [Transport] has [aio/transport.py].
    - [Mux]: [mux.py] as threads interleaved with the reader thread. [MuxMoves],
      [MuxSafety], [MuxLiveness]: the shape of its steps, its invariants, its
      progress; [MuxProperties]: what they guarantee. A write is one action there,
      and [sent] is the log of what the socket was given: an entry is a whole frame,
      or the prefix of one that had gone out when [sendall] raised. [MuxWrite] takes
      [_write] apart, lock and [sendall] piece by piece, and proves that action
      right.
    - [AioMux]: [aio/mux.py], every coroutine from one [await] to the next, with
      cancellation. [AioMuxSafety]: it refines the transition system of [Mux];
      [AioMuxProperties]: what that gives.
    - [Pool], [PoolProperties]: [pool.py] and [aio/pool.py]. The threaded pool has
      its own actions ([pool_choice]); the asyncio pool has its callers from one
      [await] to the next, and the actions only it has ([async_action]): the
      cancellation of a wait and the steps of an [aclose]. The invariants of the
      pool are proved over both together. An opening returns what it dialed, what
      is left open and what it closed again.
    - [Client], [ClientProperties]: [client.py], every verb as the call it issues
      and what it makes of the frames. [AioClient], [AioClientProperties]:
      [aio/client.py], every verb as a coroutine over the operations it awaits.
      [Connect]: opening and closing a connection and a client, with what becomes
      of the socket.
    - [SpaceId]: the identifiers of [client.py], down to SHA-1. [Verbs]: the
      request builders of [verbs.py].
    - [HttpContract]: the published routes and document types, with what it means
      for a document or a query to conform. [HttpTypes]: [http/types.py], every
      dataclass with its [from_dict] and its annotations as a predicate.
      [HttpTyped]: the interface [Decodes] between the two, an instance per
      document a verb reads. [HttpCore]: the client object, requests, errors, the
      retry loop ([http/client.py], [http/errors.py], [http/retry.py]).
      [HttpClient]: the verbs. [Sse]: [http/sse.py]. [HttpProperties],
      [HttpVerbs]: what the tier guarantees.
    - [PyDict], [ToolText]: the dicts and the text functions of [tools/].
      [WireGate]: [tools/compare_rust.py]. [ContractGate]:
      [tools/check_http_contract.py]. [BindingsGate]: [tools/compare_bindings.py].
      [ApiGate]: [tools/compare_api.py]. Each is the comparison and the verdict;
      what the parsers read off the sources is an argument.

    ** What the theorems show

    - Frames: encoding follows the layout table on every input and raises the
      exception of the first field that does not fit; decoding is its exact
      inverse; one corrupted byte is always detected; the table-driven CRC is the
      bit-serial CRC.
    - CBOR: the scanner recognises exactly the items nesting at most 128 deep and
      always ends; [from_cbor] inverts [to_cbor] over any conforming [cbor2];
      the shortest-float rule is faithful, and minimal for finite floats.
    - Payloads: every well-formed payload of every class comes back from the wire
      as it was. (That the corpus re-encodes byte for byte is an example.)
    - Transport: frames are read back the same however the stream is cut.
    - Multiplexer, over every reachable state of any number of threads: each
      request gets the frames of its own stream and no others; a request never
      outlives its connection; routes do not leak; what is sent is whole frames but
      for a prefix where [sendall] raised, whatever the interleaving inside the
      write lock; subscriptions deliver in order; heartbeats are answered; and
      which waits never end is said exactly, of every later state. The
      asyncio connection has the same, by refinement, whatever is cancelled.
    - Connecting: the handshake only accepts an offered version, its payload limit
      is the one in force on every later write, the client is bound to what the
      server said, and a failure leaves no socket open, but for the two steps
      before the [try] that a theorem names.
    - Pools: a dead member is replaced once, calls end, picks are fair, opening is
      all or nothing unless cancelled (what is left open then is stated); the
      callers of the asyncio pool take the steps of the threaded one.
    - Verbs of the wire client: each sends its own request and returns what the
      frames of its own response encode, across the whole stack, and the coroutine
      of the same name does the same; builders send what was set on them.
    - Identifiers: random and derived ids are UUIDs of their versions.
    - Retry, of either tier: attempts are bounded, only retryable errors are
      retried, and the backoff stays in its bounds.
    - HTTP: every verb follows the published routes, in both directions, and the
      server receives the very arguments given, each where it is declared; the feed
      delivers the same events however it is read; failures become the
      documented error, but for the three that escape.
    - Gates: a gate passes exactly when the two sides agree, as a relation
      between declarations says it; what it does not look at is not in the
      relation. Comments are blanked without moving anything, brackets matched,
      every client's spelling of a path brought to the manifest's.
    - Where the code does not do what it says, a theorem states what it does:
      large F64 fields, the exponential overflow, unjittered server hints,
      concurrent connection-level requests, subscriptions after a reset, writes
      after a torn frame, cancelled openings of a pool, answers that are not JSON,
      negative Retry-After headers.

    ** Fuel and bounds

    The item scanner recurses on a budget, its third argument, started at the
    length of the buffer plus two; [CborScan] proves that it never runs out. The
    JSON scanner recurses on twice the length of the text; [PyJson] proves that
    more changes nothing. The reader of [Transport] recurses on the list of
    events the socket will deliver, the feed on the reads of its response; its
    inner loop takes a byte off the buffer each time. The HTTP retry loop
    recurses on the attempts its policy allows. The exponent of the backoff is
    computed in the float format, as the code's power and multiplication are, so
    its overflow is the code's. Types in the gates are peeled on their length,
    and flattened documents on the number of documents; [ToolText],
    [BindingsGate] and [ContractGate] prove it enough. Stream ids are taken in the code's own range: the
    theorems on streams that need them distinct say how many may be handed out,
    2^31.

    ** What is not modelled

    What the operating system does with a socket ([Connect] takes its outcomes as
    arguments), TLS, HTTP itself ([urlopen] and its response are
    the environment: an answer, an error status, an exception, reads) and the
    operating system (bytes, [OSError], end of stream, expiry of a wait); memory
    and interpreter limits, except where the code turns them into an answer (the
    recursion limit of [json] and the limit on the digits of an integer are not);
    the text of exceptions, but for the messages the HTTP tier composes. Neither
    are the re-exporting façades, the Rust and TypeScript SDKs, the scripts of the
    repository, and of its gates the parsers (regular expressions and syntax
    trees over three languages) and the printing. *)

From stdpp Require Export base tactics list strings.
From Stdlib Require Export ZArith Lia.
From Stdlib Require Export Strings.Byte.
#[global] Open Scope string_scope.
#[global] Open Scope list_scope.
#[global] Open Scope Z_scope.

Declare Scope brain_scope.
Delimit Scope brain_scope with brain.
#[global] Open Scope brain_scope.

Abbreviation byte := Corelib.Init.Byte.byte.
Abbreviation bytes := (list byte).

(** ** Exceptions and the error monad *)

(** A computation that returns a value or raises an exception of type [E]. *)
Inductive result (E A : Type) : Type :=
| Ok (a : A)
| Raise (e : E).
Arguments Ok {E A} _.
Arguments Raise {E A} _.

(** The built-in exceptions of the language that the modelled code raises or
    lets through. *)
Inductive py_error : Type :=
| KeyError (key : string)
| IndexError
| TypeError
| ValueError
| AttributeError
| OverflowError
| StructError
| RecursionError
| ZeroDivisionError.

Definition bind {E A B} (c : result E A) (k : A -> result E B) : result E B :=
  match c with
  | Ok a => k a
  | Raise e => Raise e
  end.

Notation "'let*' x ':=' c 'in' k" := (bind c (fun x => k))
  (at level 10, x name, c at level 100, k at level 200)
  : brain_scope.
Notation "'let*' ' p ':=' c 'in' k" := (bind c (fun x => match x with p => k end))
  (at level 10, p strict pattern, c at level 100, k at level 200)
  : brain_scope.

(** [raise e from lower]: re-raising an error of a lower layer. *)
Definition lift_error {E F A} (f : E -> F) (c : result E A) : result F A :=
  match c with
  | Ok a => Ok a
  | Raise e => Raise (f e)
  end.

(** A comprehension [[f x for x in l]] whose body may raise: left to right,
    stopping at the first exception. *)
Fixpoint map_result {E A B} (f : A -> result E B) (l : list A) : result E (list B) :=
  match l with
  | [] => Ok []
  | x :: l =>
      let* y := f x in
      let* ys := map_result f l in
      Ok (y :: ys)
  end.

Definition is_ok {E A} (c : result E A) : bool :=
  match c with Ok _ => true | Raise _ => false end.

Lemma bind_ok_inv {E A B} (c : result E A) (k : A -> result E B) b :
  bind c k = Ok b -> exists a, c = Ok a /\ k a = Ok b.
Proof. destruct c; simpl; [eauto | discriminate]. Qed.

Lemma lift_error_ok_inv {E F A} (f : E -> F) (c : result E A) a :
  lift_error f c = Ok a -> c = Ok a.
Proof. destruct c; simpl; congruence. Qed.

Lemma bind_assoc {E A B C} (c : result E A) (f : A -> result E B) (g : B -> result E C) :
  bind (bind c f) g = bind c (fun a => bind (f a) g).
Proof. by destruct c. Qed.

Lemma map_result_ok_iff {E A B} (f : A -> result E B) l ys :
  map_result f l = Ok ys <-> Forall2 (fun x y => f x = Ok y) l ys.
Proof.
  revert ys; induction l as [|x l IH]; intros ys; simpl.
  - split; [intros [= <-]; constructor | by inversion 1].
  - split.
    + intros (y & Hy & (zs & Hzs & [= <-])%bind_ok_inv)%bind_ok_inv.
      constructor; [done | by apply IH].
    + inversion 1 as [|? y ? zs Hy Hzs]; subst.
      rewrite Hy. simpl. apply IH in Hzs. by rewrite Hzs.
Qed.

Lemma map_result_map {E A B C} (f : B -> result E C) (g : A -> B) l :
  map_result f (map g l) = map_result (fun x => f (g x)) l.
Proof. induction l as [|x l IH]; [done|]. simpl. by rewrite IH. Qed.

Lemma map_result_length {E A B} (f : A -> result E B) l ys :
  map_result f l = Ok ys -> length ys = length l.
Proof. intros H%map_result_ok_iff. symmetry. by eapply Forall2_length. Qed.

(** ** Tactics *)

(** Take apart every [bind ... = Ok _] hypothesis. *)
Ltac inv_binds :=
  repeat match goal with
  | H : bind _ _ = Ok _ |- _ =>
      let a := fresh "a" in let Ha := fresh "H" in
      apply bind_ok_inv in H; destruct H as (a & Ha & H)
  | H : Ok _ = Ok _ |- _ => injection H as H; subst
  | H : Raise _ = Ok _ |- _ => discriminate H
  end.

(** Decide a goal about a closed computation. *)
Ltac by_compute := vm_compute; first [reflexivity | done | repeat split; reflexivity].

(** ** Bytes and integers *)

Definition byte_to_Z (b : byte) : Z := Z.of_N (Byte.to_N b).

(** The byte of an integer, reduced to eight bits. *)
Definition Z_to_byte (z : Z) : byte :=
  match Byte.of_N (Z.to_N (z mod 256)) with
  | Some b => b
  | None => x00
  end.

#[export] Instance byte_eq_dec : EqDecision byte.
Proof. intros a b. destruct (Byte.byte_eq_dec a b); [by left | by right]. Defined.

Lemma byte_to_Z_range b : 0 <= byte_to_Z b < 256.
Proof. unfold byte_to_Z. pose proof (Byte.to_N_bounded b). lia. Qed.

Lemma byte_to_Z_Z_to_byte z : byte_to_Z (Z_to_byte z) = z mod 256.
Proof.
  unfold byte_to_Z, Z_to_byte.
  pose proof (Z.mod_pos_bound z 256 ltac:(lia)) as Hz.
  destruct (Byte.of_N (Z.to_N (z mod 256))) as [b|] eqn:E.
  - apply Byte.to_of_N in E. rewrite E. lia.
  - apply Byte.of_N_None_iff in E. lia.
Qed.

Lemma byte_to_Z_inj a b : byte_to_Z a = byte_to_Z b -> a = b.
Proof.
  unfold byte_to_Z. intros H%N2Z.inj.
  pose proof (Byte.of_to_N a) as Ha. pose proof (Byte.of_to_N b) as Hb.
  rewrite H in Ha. congruence.
Qed.

Lemma Z_to_byte_to_Z b : Z_to_byte (byte_to_Z b) = b.
Proof.
  apply byte_to_Z_inj. rewrite byte_to_Z_Z_to_byte.
  pose proof (byte_to_Z_range b). by apply Z.mod_small.
Qed.

(** [n.to_bytes(len, "big")] without its range check. *)
Fixpoint be_bytes (len : nat) (n : Z) : bytes :=
  match len with
  | O => []
  | S k => Z_to_byte (n / 256 ^ Z.of_nat k) :: be_bytes k n
  end.

(** [n.to_bytes(len, "big")]: a negative or too large integer raises. *)
Definition to_bytes_big (n : Z) (len : nat) : result py_error bytes :=
  if (0 <=? n) && (n <? 256 ^ Z.of_nat len) then Ok (be_bytes len n)
  else Raise OverflowError.

(** [int.from_bytes(bs, "big")]. *)
Definition from_bytes_big (bs : bytes) : Z :=
  fold_left (fun acc b => acc * 256 + byte_to_Z b) bs 0.

Lemma length_be_bytes len n : length (be_bytes len n) = len.
Proof. induction len; simpl; congruence. Qed.

Lemma from_bytes_big_acc bs acc :
  fold_left (fun acc b => acc * 256 + byte_to_Z b) bs acc
  = acc * 256 ^ Z.of_nat (length bs) + from_bytes_big bs.
Proof.
  unfold from_bytes_big. revert acc.
  induction bs as [|b bs IH]; intros acc.
  - cbn [fold_left length]. change (256 ^ Z.of_nat 0) with 1. lia.
  - cbn [fold_left length]. rewrite IH, (IH (0 * 256 + byte_to_Z b)).
    rewrite Nat2Z.inj_succ, Z.pow_succ_r by lia. ring.
Qed.

Lemma from_bytes_big_cons b bs :
  from_bytes_big (b :: bs) = byte_to_Z b * 256 ^ Z.of_nat (length bs) + from_bytes_big bs.
Proof. unfold from_bytes_big at 1. cbn [fold_left]. by rewrite from_bytes_big_acc. Qed.

Lemma from_bytes_big_range bs : 0 <= from_bytes_big bs < 256 ^ Z.of_nat (length bs).
Proof.
  induction bs as [|b bs IH]; [done|].
  rewrite from_bytes_big_cons. cbn [length]. rewrite Nat2Z.inj_succ, Z.pow_succ_r by lia.
  pose proof (byte_to_Z_range b). nia.
Qed.

Lemma from_be_bytes len n :
  from_bytes_big (be_bytes len n) = n mod 256 ^ Z.of_nat len.
Proof.
  induction len as [|k IH].
  - simpl. by rewrite Z.mod_1_r.
  - cbn [be_bytes]. rewrite from_bytes_big_cons, length_be_bytes, IH, byte_to_Z_Z_to_byte.
    rewrite Nat2Z.inj_succ, Z.pow_succ_r by lia.
    rewrite (Z.mul_comm 256), Z.rem_mul_r by lia. ring.
Qed.

(** Only the low [len] bytes of the integer matter. *)
Lemma be_bytes_add_high len z r :
  be_bytes len (z * 256 ^ Z.of_nat len + r) = be_bytes len r.
Proof.
  revert z r. induction len as [|k IH]; intros z r; [done|].
  cbn [be_bytes]. rewrite Nat2Z.inj_succ, Z.pow_succ_r by lia.
  assert (E : z * (256 * 256 ^ Z.of_nat k) + r = (z * 256) * 256 ^ Z.of_nat k + r) by ring.
  rewrite E. f_equal; [|apply IH].
  apply byte_to_Z_inj. rewrite !byte_to_Z_Z_to_byte, Z.div_add_l by lia.
  by rewrite Z.add_comm, Z.mod_add by lia.
Qed.

Lemma be_from_bytes bs : be_bytes (length bs) (from_bytes_big bs) = bs.
Proof.
  induction bs as [|b bs IH]; [done|]. cbn [length be_bytes].
  rewrite from_bytes_big_cons. pose proof (from_bytes_big_range bs) as Hr.
  f_equal.
  - rewrite Z.div_add_l, Z.div_small by lia. by rewrite Z.add_0_r, Z_to_byte_to_Z.
  - by rewrite be_bytes_add_high.
Qed.

Lemma to_bytes_big_ok n len :
  0 <= n < 256 ^ Z.of_nat len -> to_bytes_big n len = Ok (be_bytes len n).
Proof.
  intros [H1 H2]. unfold to_bytes_big.
  by rewrite (proj2 (Z.leb_le _ _) H1), (proj2 (Z.ltb_lt _ _) H2).
Qed.

Lemma to_bytes_big_inv n len bs :
  to_bytes_big n len = Ok bs -> 0 <= n < 256 ^ Z.of_nat len /\ bs = be_bytes len n.
Proof.
  unfold to_bytes_big. destruct (_ && _) eqn:E; [|discriminate].
  intros [= <-]. apply andb_true_iff in E as [?%Z.leb_le ?%Z.ltb_lt]. done.
Qed.

(** ** Python sequences *)

(** [len(x)], as an integer. *)
Definition zlen {A} (l : list A) : Z := Z.of_nat (length l).

(** [l[lo:hi]]. *)
Definition slice {A} (l : list A) (lo hi : nat) : list A := take (hi - lo) (drop lo l).

(** [l[lo:hi] = x] on a bytearray. *)
Definition set_slice {A} (l : list A) (lo hi : nat) (x : list A) : list A :=
  take lo l ++ x ++ drop hi l.

(** [b[i]] of a bytes object known to be long enough, as an integer. *)
Definition byte_at (b : bytes) (i : nat) : Z := byte_to_Z (nth i b x00).

Lemma zlen_app {A} (l k : list A) : zlen (l ++ k) = zlen l + zlen k.
Proof. unfold zlen. rewrite length_app. lia. Qed.

(** ** The hint databases of the development *)

(** Side conditions on integers and lengths. *)
Create HintDb brain.
Create Rewrite HintDb brain_len.
#[export] Hint Resolve byte_to_Z_range from_bytes_big_range : brain.
#[export] Hint Rewrite @length_app @length_cons @length_nil length_be_bytes @length_take
  @length_drop @length_map @length_rev : brain_len.
