(* ===== verification/Crc32c.v ===== *)
(** * Crc32c

    The frame checksum of [wire/crc32c.py]: the table built at import, the
    table-driven loop over the bytes, the bit-serial definition it must agree
    with, and the error-detection facts the frame codec relies on (two inputs
    that differ in a single byte never share a checksum). *)

From S2P Require Import Prelude.

(** ** Definitions *)

(** [_POLY], the reflected Castagnoli polynomial. *)
Definition POLY : Z := 0x82F63B78.

(** One round of the inner loop of [_build_table]. *)
Definition crc_shift (crc : Z) : Z :=
  if Z.land crc 1 =? 0 then Z.shiftr crc 1 else Z.lxor (Z.shiftr crc 1) POLY.

Definition build_table : list Z :=
  map (fun n => Nat.iter 8 crc_shift (Z.of_nat n)) (seq 0 256).

(** [_TABLE], computed once. *)
Definition TABLE : list Z := Eval vm_compute in build_table.

(** The body of the loop of [crc32c]. *)
Definition crc_step (crc : Z) (b : byte) : Z :=
  Z.lxor (Z.shiftr crc 8)
         (nth (Z.to_nat (Z.land (Z.lxor crc (byte_to_Z b)) 0xFF)) TABLE 0).

Definition crc32c (data : bytes) : Z :=
  Z.lxor (fold_left crc_step data 0xFFFFFFFF) 0xFFFFFFFF.

(** The bit-serial definition of the same checksum: every byte is folded into
    the register and shifted out one bit at a time, with no table. *)
Definition crc_step_serial (crc : Z) (b : byte) : Z :=
  Nat.iter 8 crc_shift (Z.lxor crc (byte_to_Z b)).

Definition crc32c_serial (data : bytes) : Z :=
  Z.lxor (fold_left crc_step_serial data 0xFFFFFFFF) 0xFFFFFFFF.

(** ** Bit lemmas *)

Lemma TABLE_is_build_table : TABLE = build_table.
Proof. by_compute. Qed.

Lemma TABLE_nth i : (i < 256)%nat -> nth i TABLE 0 = Nat.iter 8 crc_shift (Z.of_nat i).
Proof.
  intros Hi. rewrite TABLE_is_build_table. unfold build_table.
  rewrite (nth_indep _ 0 (Nat.iter 8 crc_shift (Z.of_nat 0))) by (rewrite length_map, length_seq; lia).
  rewrite (map_nth (fun n => Nat.iter 8 crc_shift (Z.of_nat n))).
  by rewrite seq_nth by lia.
Qed.

Lemma crc_shift_lxor a b : crc_shift (Z.lxor a b) = Z.lxor (crc_shift a) (crc_shift b).
Proof.
  assert (Hl : forall z, Z.land z 1 = z mod 2) by (intros z; exact (Z.land_ones z 1 ltac:(lia))).
  assert (Hx : Z.land (Z.lxor a b) 1 = Z.lxor (Z.land a 1) (Z.land b 1)).
  { apply Z.bits_inj'. intros n Hn. rewrite !Z.land_spec, !Z.lxor_spec, !Z.land_spec.
    by destruct (Z.testbit a n), (Z.testbit b n), (Z.testbit 1 n). }
  unfold crc_shift. rewrite Hx, Z.shiftr_lxor, !Hl.
  pose proof (Z.mod_pos_bound a 2 ltac:(lia)). pose proof (Z.mod_pos_bound b 2 ltac:(lia)).
  assert (Ha : a mod 2 = 0 \/ a mod 2 = 1) by lia.
  assert (Hb : b mod 2 = 0 \/ b mod 2 = 1) by lia.
  destruct Ha as [-> | ->], Hb as [-> | ->]; simpl; generalize POLY; intros P;
    apply Z.bits_inj'; intros n Hn; rewrite ?Z.lxor_spec;
    by destruct (Z.testbit (Z.shiftr a 1) n), (Z.testbit (Z.shiftr b 1) n), (Z.testbit P n).
Qed.

Lemma iter_crc_shift_lxor k a b :
  Nat.iter k crc_shift (Z.lxor a b)
  = Z.lxor (Nat.iter k crc_shift a) (Nat.iter k crc_shift b).
Proof. induction k as [|k IH]; [done|]. by rewrite !Nat.iter_succ, IH, crc_shift_lxor. Qed.

Lemma crc_shift_shiftl y n : 0 < n -> crc_shift (Z.shiftl y n) = Z.shiftl y (n - 1).
Proof.
  intros Hn. unfold crc_shift.
  assert (E : Z.land (Z.shiftl y n) 1 = 0).
  { apply Z.bits_inj'. intros i Hi. rewrite Z.land_spec, Z.bits_0.
    destruct (Z.eq_dec i 0) as [->|]; [by rewrite Z.shiftl_spec_low by lia|].
    rewrite (Z.bits_above_log2 1 i) by (simpl; lia). by rewrite andb_false_r. }
  rewrite E. simpl. rewrite Z.shiftr_shiftl_l by lia. done.
Qed.

Lemma iter_crc_shift_shiftl k y n :
  Z.of_nat k <= n -> Nat.iter k crc_shift (Z.shiftl y n) = Z.shiftl y (n - Z.of_nat k).
Proof.
  induction k as [|k IH]; intros Hk.
  - simpl. by rewrite Z.sub_0_r.
  - rewrite Nat.iter_succ, IH, crc_shift_shiftl by lia. f_equal. lia.
Qed.

(** A word is its low byte xored with the rest. *)
Lemma low_byte_split x : x = Z.lxor (Z.land x 255) (Z.shiftl (Z.shiftr x 8) 8).
Proof.
  change 255 with (Z.ones 8). apply Z.bits_inj'. intros n Hn.
  rewrite Z.lxor_spec, Z.land_spec.
  destruct (Z.lt_ge_cases n 8).
  - rewrite Z.ones_spec_low, Z.shiftl_spec_low by lia.
    by rewrite andb_true_r, xorb_false_r.
  - rewrite Z.ones_spec_high, Z.shiftl_spec_high, Z.shiftr_spec by lia.
    rewrite andb_false_r, xorb_false_l. f_equal. lia.
Qed.

Lemma low_byte_index x : (Z.to_nat (Z.land x 255) < 256)%nat.
Proof.
  change 255 with (Z.ones 8). rewrite Z.land_ones by lia.
  pose proof (Z.mod_pos_bound x (2 ^ 8) ltac:(lia)). lia.
Qed.

Lemma land_255_range x : 0 <= Z.land x 255 < 256.
Proof.
  change 255 with (Z.ones 8). rewrite Z.land_ones by lia.
  by apply Z.mod_pos_bound.
Qed.

Lemma shiftr_byte b : Z.shiftr (byte_to_Z b) 8 = 0.
Proof.
  rewrite Z.shiftr_div_pow2 by lia. apply Z.div_small. apply byte_to_Z_range.
Qed.

(** ** The table-driven loop is the bit-serial one *)

Lemma crc_step_is_serial crc b : crc_step crc b = crc_step_serial crc b.
Proof.
  unfold crc_step, crc_step_serial.
  set (x := Z.lxor crc (byte_to_Z b)).
  rewrite (low_byte_split x) at 2.
  rewrite iter_crc_shift_lxor, iter_crc_shift_shiftl by lia.
  rewrite TABLE_nth by apply low_byte_index.
  rewrite Z2Nat.id by apply land_255_range.
  change (8 - Z.of_nat 8) with 0. rewrite Z.shiftl_0_r.
  assert (E : Z.shiftr x 8 = Z.shiftr crc 8).
  { unfold x. by rewrite Z.shiftr_lxor, shiftr_byte, Z.lxor_0_r. }
  rewrite E. apply Z.lxor_comm.
Qed.

(** ** Range *)

Lemma lxor_u32 a b : 0 <= a < 2 ^ 32 -> 0 <= b < 2 ^ 32 -> 0 <= Z.lxor a b < 2 ^ 32.
Proof.
  intros Ha Hb. split; [apply Z.lxor_nonneg; lia|].
  destruct (Z.eq_dec (Z.lxor a b) 0) as [->|Hne]; [lia|].
  assert (Hnn : 0 <= Z.lxor a b) by (apply Z.lxor_nonneg; lia).
  apply Z.log2_lt_pow2; [lia|].
  assert (Hlog : forall x, 0 <= x < 2 ^ 32 -> Z.log2 x < 32).
  { intros x Hx. destruct (Z.eq_dec x 0) as [->|]; [simpl; lia|].
    apply Z.log2_lt_pow2; lia. }
  pose proof (Z.log2_lxor a b ltac:(lia) ltac:(lia)).
  pose proof (Hlog a Ha). pose proof (Hlog b Hb). lia.
Qed.

Lemma shiftr8_u32 a : 0 <= a < 2 ^ 32 -> 0 <= Z.shiftr a 8 < 2 ^ 24.
Proof.
  intros Ha. rewrite Z.shiftr_div_pow2 by lia. split.
  - apply Z.div_pos; lia.
  - apply Z.div_lt_upper_bound; lia.
Qed.

Lemma TABLE_u32 i : 0 <= nth i TABLE 0 < 2 ^ 32.
Proof.
  assert (H : Forall (fun e => 0 <= e < 2 ^ 32) TABLE).
  { apply Forall_forall. intros e He%list_elem_of_In.
    assert (Hb : forallb (fun e => (0 <=? e) && (e <? 2 ^ 32)) TABLE = true) by by_compute.
    rewrite forallb_forall in Hb. apply Hb in He. lia. }
  destruct (Nat.lt_ge_cases i (length TABLE)).
  - rewrite Forall_nth in H. by apply H.
  - rewrite nth_overflow by lia. lia.
Qed.

Lemma crc_step_u32 crc b : 0 <= crc < 2 ^ 32 -> 0 <= crc_step crc b < 2 ^ 32.
Proof.
  intros Hc. unfold crc_step. apply lxor_u32; [|apply TABLE_u32].
  pose proof (shiftr8_u32 crc Hc). lia.
Qed.

Lemma fold_crc_u32 data crc :
  0 <= crc < 2 ^ 32 -> 0 <= fold_left crc_step data crc < 2 ^ 32.
Proof.
  revert crc. induction data as [|b data IH]; intros crc Hc; [done|].
  simpl. by apply IH, crc_step_u32.
Qed.

Lemma crc32c_u32 data : 0 <= crc32c data < 2 ^ 32.
Proof. unfold crc32c. apply lxor_u32; [|lia]. apply fold_crc_u32. lia. Qed.

(** ** Injectivity: why a corrupted byte is always noticed *)

(** The top byte of a table entry determines the entry's index. *)
Lemma TABLE_top_byte_inj i j :
  (i < 256)%nat -> (j < 256)%nat ->
  Z.shiftr (nth i TABLE 0) 24 = Z.shiftr (nth j TABLE 0) 24 -> i = j.
Proof.
  intros Hi Hj E.
  set (tops := map (fun e => Z.shiftr e 24) TABLE).
  assert (Hd : NoDup tops).
  { apply (bool_decide_unpack (NoDup tops)). by_compute. }
  assert (Hlen : length TABLE = 256%nat) by by_compute.
  assert (Hn : forall k, (k < 256)%nat -> tops !! k = Some (Z.shiftr (nth k TABLE 0) 24)).
  { intros k Hk. unfold tops. rewrite list_lookup_fmap.
    assert (Hk' : (k < length TABLE)%nat) by lia.
    destruct (TABLE !! k) as [e|] eqn:Ek.
    - by rewrite (nth_lookup_Some TABLE k 0 e Ek).
    - apply lookup_ge_None in Ek. lia. }
  eapply NoDup_lookup; [exact Hd | apply Hn; done |]. rewrite Hn by done. by rewrite E.
Qed.

Lemma crc_step_index_inj c1 c2 b1 b2 :
  0 <= c1 < 2 ^ 32 -> 0 <= c2 < 2 ^ 32 -> crc_step c1 b1 = crc_step c2 b2 ->
  Z.land (Z.lxor c1 (byte_to_Z b1)) 255 = Z.land (Z.lxor c2 (byte_to_Z b2)) 255
  /\ Z.shiftr c1 8 = Z.shiftr c2 8.
Proof.
  intros H1 H2 E. unfold crc_step in E. change 0xFF with 255 in E.
  assert (Htop : forall c T, 0 <= c < 2 ^ 32 ->
            Z.shiftr (Z.lxor (Z.shiftr c 8) T) 24 = Z.shiftr T 24).
  { intros c T Hc. rewrite Z.shiftr_lxor, Z.shiftr_shiftr by lia.
    rewrite (Z.shiftr_div_pow2 c) by lia.
    change (2 ^ (8 + 24)) with (2 ^ 32). by rewrite Z.div_small by lia. }
  assert (Hi : Z.to_nat (Z.land (Z.lxor c1 (byte_to_Z b1)) 255)
             = Z.to_nat (Z.land (Z.lxor c2 (byte_to_Z b2)) 255)).
  { apply TABLE_top_byte_inj; [apply low_byte_index..|].
    etransitivity; [symmetry; apply (Htop c1 _ H1)|].
    etransitivity; [|apply (Htop c2 _ H2)]. by f_equal. }
  split.
  - pose proof (land_255_range (Z.lxor c1 (byte_to_Z b1))).
    pose proof (land_255_range (Z.lxor c2 (byte_to_Z b2))). lia.
  - rewrite Hi in E. apply (f_equal (fun x => Z.lxor x
      (nth (Z.to_nat (Z.land (Z.lxor c2 (byte_to_Z b2)) 255)) TABLE 0))) in E.
    by rewrite !Z.lxor_assoc, !Z.lxor_nilpotent, !Z.lxor_0_r in E.
Qed.

Lemma land_lxor_255 a b : Z.land (Z.lxor a b) 255 = Z.lxor (Z.land a 255) (Z.land b 255).
Proof.
  apply Z.bits_inj'. intros n Hn. rewrite !Z.land_spec, !Z.lxor_spec, !Z.land_spec.
  by destruct (Z.testbit a n), (Z.testbit b n), (Z.testbit 255 n).
Qed.

Lemma lxor_cancel_l a b c : Z.lxor a b = Z.lxor a c -> b = c.
Proof.
  intros E. apply (f_equal (Z.lxor a)) in E.
  by rewrite <- !Z.lxor_assoc, !Z.lxor_nilpotent, !Z.lxor_0_l in E.
Qed.

Lemma crc_step_inj_byte c b1 b2 :
  0 <= c < 2 ^ 32 -> crc_step c b1 = crc_step c b2 -> b1 = b2.
Proof.
  intros Hc E. apply crc_step_index_inj in E as [E _]; [|done..].
  rewrite !land_lxor_255 in E. apply lxor_cancel_l in E.
  change 255 with (Z.ones 8) in E. rewrite !Z.land_ones in E by lia.
  pose proof (byte_to_Z_range b1). pose proof (byte_to_Z_range b2).
  rewrite !Z.mod_small in E by lia. by apply byte_to_Z_inj.
Qed.

Lemma crc_step_inj_crc c1 c2 b :
  0 <= c1 < 2 ^ 32 -> 0 <= c2 < 2 ^ 32 -> crc_step c1 b = crc_step c2 b -> c1 = c2.
Proof.
  intros H1 H2 E. apply crc_step_index_inj in E as [E1 E2]; [|done..].
  rewrite !land_lxor_255, !(Z.lxor_comm (Z.land _ 255) (Z.land (byte_to_Z b) 255)) in E1.
  apply lxor_cancel_l in E1.
  rewrite (low_byte_split c1), (low_byte_split c2). by rewrite E1, E2.
Qed.

Lemma fold_crc_inj data c1 c2 :
  0 <= c1 < 2 ^ 32 -> 0 <= c2 < 2 ^ 32 ->
  fold_left crc_step data c1 = fold_left crc_step data c2 -> c1 = c2.
Proof.
  revert c1 c2. induction data as [|b data IH]; intros c1 c2 H1 H2 E; [done|].
  simpl in E. apply IH in E; [|by apply crc_step_u32..].
  by eapply crc_step_inj_crc.
Qed.

(** Changing one byte changes the checksum. *)
Lemma crc32c_single_byte p b1 b2 s :
  crc32c (p ++ b1 :: s) = crc32c (p ++ b2 :: s) -> b1 = b2.
Proof.
  unfold crc32c. intros E.
  rewrite !(Z.lxor_comm _ 0xFFFFFFFF) in E. apply lxor_cancel_l in E.
  rewrite !fold_left_app in E. simpl in E.
  set (c := fold_left crc_step p 0xFFFFFFFF) in *.
  assert (Hc : 0 <= c < 2 ^ 32) by (apply fold_crc_u32; lia).
  apply fold_crc_inj in E; [|by apply crc_step_u32..].
  by eapply crc_step_inj_byte.
Qed.

(** The same fact for an in-place update. *)
Lemma crc32c_insert data i b b' :
  data !! i = Some b -> crc32c (<[i := b']> data) = crc32c data -> b' = b.
Proof.
  intros Hi E. rewrite <- (take_drop_middle data i b Hi) in E at 2.
  rewrite insert_take_drop in E by (by eapply lookup_lt_Some).
  by eapply crc32c_single_byte.
Qed.

#[export] Hint Resolve crc32c_u32 : brain.

(** ** Properties *)

(** C32: the table-driven [crc32c] computes, on every input, the bit-serial
    reflected Castagnoli CRC it is meant to be, the result is an unsigned
    32-bit integer, and the import-time guard's check vector holds. *)
Theorem crc32c_correct :
  (forall data, crc32c data = crc32c_serial data)
  /\ (forall data, 0 <= crc32c data < 2 ^ 32)
  /\ crc32c [x31; x32; x33; x34; x35; x36; x37; x38; x39] = 0xE3069283.
Proof.
  split; [|split; [apply crc32c_u32 | by_compute]].
  intros data. unfold crc32c, crc32c_serial. f_equal.
  generalize 0xFFFFFFFF as c. induction data as [|b data IH]; intros c; [done|].
  simpl. by rewrite crc_step_is_serial.
Qed.
