(* ===== verification/Frame.v ===== *)
(** * Frame

    The frame codec of [wire/frame.py]: the 32-byte BRN0 header in front of a
    payload, its two checksums, and the decoder that validates a frame at the
    front of a buffer. *)

From S2P Require Import Prelude Crc32c.

(** ** Constants *)

Definition MAGIC : bytes := [x42; x52; x4e; x30].
Definition WIRE_VERSION : Z := 1.
Definition HEADER_SIZE : nat := 32.
Definition MAX_PAYLOAD_BYTES : Z := Z.shiftl 1 24 - 1.

Definition FLAG_EOS : Z := 0x80.
Definition FLAG_MPL : Z := 0x40.
Definition FLAG_CMP : Z := 0x20.
Definition FLAGS_DEFINED_MASK : Z := Z.lor (Z.lor FLAG_EOS FLAG_MPL) FLAG_CMP.

Definition OFF_MAGIC : nat := 0.
Definition OFF_VERSION : nat := 4.
Definition OFF_OPCODE : nat := 5.
Definition OFF_FLAGS : nat := 7.
Definition OFF_HEADER_CRC : nat := 8.
Definition OFF_STREAM_ID : nat := 12.
Definition OFF_PAYLOAD_LEN : nat := 16.
Definition OFF_RESERVED_A : nat := 19.
Definition OFF_PAYLOAD_CRC : nat := 20.
Definition OFF_RESERVED_B : nat := 24.

(** ** Data *)

(** [FrameError] and its subclasses; [FramePy] is a built-in exception of the
    integer conversions of [encode_frame]. *)
Inductive frame_error : Type :=
| BadMagic
| BadVersion (got : Z)
| BadHeaderCrc
| BadPayloadCrc
| OversizePayload (length : Z)
| ReservedNonZero
| TruncatedFrame (have need : Z)
| FramePy (e : py_error).

Record Frame : Type := mk_Frame {
  frame_opcode : Z;
  frame_flags : Z;
  frame_stream_id : Z;
  frame_payload : bytes
}.

(** ** Operations *)

Definition compute_header_crc (header : bytes) : Z :=
  crc32c (take OFF_HEADER_CRC header ++ slice header OFF_STREAM_ID HEADER_SIZE).

(** [header[i] = v] on a bytearray: the value must be a byte. *)
Definition set_byte (header : bytes) (i : nat) (v : Z) : result frame_error bytes :=
  if (0 <=? v) && (v <? 256) then Ok (<[i := Z_to_byte v]> header)
  else Raise (FramePy ValueError).

Definition to_bytes (n : Z) (len : nat) : result frame_error bytes :=
  lift_error FramePy (to_bytes_big n len).

Definition encode_frame (opcode stream_id flags : Z) (payload : bytes)
    : result frame_error bytes :=
  if MAX_PAYLOAD_BYTES <? zlen payload then Raise (OversizePayload (zlen payload))
  else
    let header := replicate HEADER_SIZE x00 in
    let header := set_slice header OFF_MAGIC (OFF_MAGIC + 4) MAGIC in
    let* header := set_byte header OFF_VERSION WIRE_VERSION in
    let* opcode_bytes := to_bytes opcode 2 in
    let header := set_slice header OFF_OPCODE (OFF_OPCODE + 2) opcode_bytes in
    let* header := set_byte header OFF_FLAGS flags in
    let* stream_bytes := to_bytes stream_id 4 in
    let header := set_slice header OFF_STREAM_ID (OFF_STREAM_ID + 4) stream_bytes in
    let* len_bytes := to_bytes (zlen payload) 3 in
    let header := set_slice header OFF_PAYLOAD_LEN (OFF_PAYLOAD_LEN + 3) len_bytes in
    let* payload_crc := to_bytes (crc32c payload) 4 in
    let header := set_slice header OFF_PAYLOAD_CRC (OFF_PAYLOAD_CRC + 4) payload_crc in
    let* header_crc := to_bytes (compute_header_crc header) 4 in
    let header := set_slice header OFF_HEADER_CRC (OFF_HEADER_CRC + 4) header_crc in
    Ok (header ++ payload).

Definition decode_frame (buf : bytes) : result frame_error (Frame * bytes) :=
  if zlen buf <? Z.of_nat HEADER_SIZE
  then Raise (TruncatedFrame (zlen buf) (Z.of_nat HEADER_SIZE)) else
  let header := take HEADER_SIZE buf in
  if bool_decide (slice header OFF_MAGIC (OFF_MAGIC + 4) <> MAGIC)
  then Raise BadMagic else
  if negb (byte_at header OFF_VERSION =? WIRE_VERSION)
  then Raise (BadVersion (byte_at header OFF_VERSION)) else
  if negb (byte_at header OFF_RESERVED_A =? 0)
     || bool_decide (slice header OFF_RESERVED_B HEADER_SIZE <> replicate 8 x00)
  then Raise ReservedNonZero else
  let flags := byte_at header OFF_FLAGS in
  if negb (Z.land flags (Z.lnot FLAGS_DEFINED_MASK) =? 0)
  then Raise ReservedNonZero else
  let stored_header_crc :=
    from_bytes_big (slice header OFF_HEADER_CRC (OFF_HEADER_CRC + 4)) in
  if negb (stored_header_crc =? compute_header_crc header)
  then Raise BadHeaderCrc else
  let payload_len := from_bytes_big (slice header OFF_PAYLOAD_LEN (OFF_PAYLOAD_LEN + 3)) in
  if MAX_PAYLOAD_BYTES <? payload_len
  then Raise (OversizePayload payload_len) else
  let need := Z.of_nat HEADER_SIZE + payload_len in
  if zlen buf <? need
  then Raise (TruncatedFrame (zlen buf) need) else
  let payload := slice buf HEADER_SIZE (Z.to_nat need) in
  let stored_payload_crc :=
    from_bytes_big (slice header OFF_PAYLOAD_CRC (OFF_PAYLOAD_CRC + 4)) in
  if negb (stored_payload_crc =? crc32c payload)
  then Raise BadPayloadCrc else
  Ok ({| frame_opcode := from_bytes_big (slice header OFF_OPCODE (OFF_OPCODE + 2));
         frame_flags := flags;
         frame_stream_id := from_bytes_big (slice header OFF_STREAM_ID (OFF_STREAM_ID + 4));
         frame_payload := payload |},
      drop (Z.to_nat need) buf).

(** ** The abstract layout of a frame *)

Definition wire_head (opcode flags : Z) : bytes :=
  MAGIC ++ [Z_to_byte WIRE_VERSION] ++ be_bytes 2 opcode ++ [Z_to_byte flags].

Definition wire_tail (stream_id len payload_crc : Z) : bytes :=
  be_bytes 4 stream_id ++ be_bytes 3 len ++ [x00] ++ be_bytes 4 payload_crc
  ++ replicate 8 x00.

(** The bytes of a frame, field by field, as the module's layout table has them. *)
Definition frame_layout (f : Frame) : bytes :=
  let head := wire_head (frame_opcode f) (frame_flags f) in
  let tail := wire_tail (frame_stream_id f) (zlen (frame_payload f))
                        (crc32c (frame_payload f)) in
  head ++ be_bytes 4 (crc32c (head ++ tail)) ++ tail ++ frame_payload f.

(** The field values a frame can carry on the wire. *)
Record frame_ok (f : Frame) : Prop := {
  frame_ok_opcode : 0 <= frame_opcode f < 2 ^ 16;
  frame_ok_flags : 0 <= frame_flags f < 2 ^ 8;
  frame_ok_stream : 0 <= frame_stream_id f < 2 ^ 32;
  frame_ok_len : zlen (frame_payload f) <= MAX_PAYLOAD_BYTES
}.

(** Only defined flag bits are set. *)
Definition flags_defined (flags : Z) : Prop := Z.land flags (Z.lnot FLAGS_DEFINED_MASK) = 0.

#[export] Instance frame_ok_dec f : Decision (frame_ok f).
Proof.
  refine (cast_if (decide (((0 <= frame_opcode f < 2 ^ 16) /\ (0 <= frame_flags f < 2 ^ 8))
    /\ (0 <= frame_stream_id f < 2 ^ 32) /\ zlen (frame_payload f) <= MAX_PAYLOAD_BYTES)));
    abstract (first [intuition auto; constructor; lia | intros []; tauto]).
Defined.

#[export] Instance frame_eq_dec : EqDecision Frame.
Proof. solve_decision. Defined.

#[local] Opaque crc32c.

Lemma set_byte_ok header i v :
  0 <= v < 256 -> set_byte header i v = Ok (<[i := Z_to_byte v]> header).
Proof.
  intros [H1 H2]. unfold set_byte.
  by rewrite (proj2 (Z.leb_le _ _) H1), (proj2 (Z.ltb_lt _ _) H2).
Qed.

Lemma to_bytes_ok n len : 0 <= n < 256 ^ Z.of_nat len -> to_bytes n len = Ok (be_bytes len n).
Proof. intros H. unfold to_bytes. by rewrite to_bytes_big_ok. Qed.

Lemma zlen_nonneg {A} (l : list A) : 0 <= zlen l.
Proof. unfold zlen. lia. Qed.

Lemma zlen_payload_u24 (payload : bytes) :
  zlen payload <= MAX_PAYLOAD_BYTES -> 0 <= zlen payload < 256 ^ Z.of_nat 3.
Proof. pose proof (zlen_nonneg payload). change MAX_PAYLOAD_BYTES with 16777215. lia. Qed.

Lemma crc32c_4_bytes data : 0 <= crc32c data < 256 ^ Z.of_nat 4.
Proof. apply crc32c_u32. Qed.

Lemma encode_frame_layout f :
  frame_ok f ->
  encode_frame (frame_opcode f) (frame_stream_id f) (frame_flags f) (frame_payload f)
  = Ok (frame_layout f).
Proof.
  destruct f as [opcode flags sid payload]. intros [Ho Hf Hs Hl]. simpl in *.
  unfold encode_frame, compute_header_crc.
  rewrite (proj2 (Z.ltb_ge _ _) Hl).
  rewrite !(to_bytes_ok (crc32c _)) by apply crc32c_4_bytes.
  rewrite (to_bytes_ok opcode), (to_bytes_ok sid), (to_bytes_ok (zlen payload))
    by (try apply zlen_payload_u24; done).
  cbn [bind]. rewrite !set_byte_ok by done.
  cbn [bind]. rewrite !set_byte_ok by done. cbn [bind].
  rewrite !(to_bytes_ok (crc32c _)) by apply crc32c_4_bytes.
  unfold frame_layout, wire_head, wire_tail. cbn [frame_opcode frame_flags frame_stream_id frame_payload].
  cbn -[crc32c Z_to_byte Z.div Z.pow Z.of_nat]. reflexivity.
Qed.

Lemma length_frame_layout f : length (frame_layout f) = (32 + length (frame_payload f))%nat.
Proof. unfold frame_layout, wire_head, wire_tail. rewrite !length_app, !length_be_bytes. done. Qed.

(** ** Decoding what was encoded *)

(** The header of a layout, as thirty-two explicit bytes. *)
Lemma frame_layout_split f :
  exists header, frame_layout f = header ++ frame_payload f
  /\ length header = HEADER_SIZE
  /\ slice header OFF_MAGIC (OFF_MAGIC + 4) = MAGIC
  /\ byte_at header OFF_VERSION = WIRE_VERSION
  /\ byte_at header OFF_RESERVED_A = 0
  /\ slice header OFF_RESERVED_B HEADER_SIZE = replicate 8 x00
  /\ byte_at header OFF_FLAGS = byte_to_Z (Z_to_byte (frame_flags f))
  /\ slice header OFF_HEADER_CRC (OFF_HEADER_CRC + 4)
     = be_bytes 4 (compute_header_crc header)
  /\ slice header OFF_PAYLOAD_LEN (OFF_PAYLOAD_LEN + 3)
     = be_bytes 3 (zlen (frame_payload f))
  /\ slice header OFF_PAYLOAD_CRC (OFF_PAYLOAD_CRC + 4)
     = be_bytes 4 (crc32c (frame_payload f))
  /\ slice header OFF_OPCODE (OFF_OPCODE + 2) = be_bytes 2 (frame_opcode f)
  /\ slice header OFF_STREAM_ID (OFF_STREAM_ID + 4) = be_bytes 4 (frame_stream_id f).
Proof.
  unfold frame_layout. cbv zeta.
  set (head := wire_head _ _). set (tail := wire_tail _ _ _).
  exists (head ++ be_bytes 4 (crc32c (head ++ tail)) ++ tail).
  split; [by rewrite <- !app_assoc|].
  subst head tail. unfold compute_header_crc, wire_head, wire_tail.
  repeat split; cbn -[crc32c Z_to_byte Z.div Z.pow Z.of_nat]; reflexivity.
Qed.

Lemma take_header header (payload rest : bytes) :
  length header = HEADER_SIZE -> take HEADER_SIZE ((header ++ payload) ++ rest) = header.
Proof. intros <-. by rewrite <- app_assoc, take_app_length. Qed.

Lemma decode_frame_layout f rest :
  frame_ok f -> flags_defined (frame_flags f) ->
  decode_frame (frame_layout f ++ rest) = Ok (f, rest).
Proof.
  intros [Ho Hf Hs Hl] Hfl.
  destruct (frame_layout_split f) as
    (header & -> & Hlen & Hm & Hv & Ha & Hb & Hflags & Hc & Hpl & Hpc & Hop & Hst).
  pose proof (zlen_payload_u24 _ Hl) as Hpl'.
  unfold decode_frame.
  assert (Hz : zlen ((header ++ frame_payload f) ++ rest)
               = 32 + zlen (frame_payload f) + zlen rest).
  { rewrite !zlen_app. unfold zlen at 1. rewrite Hlen. done. }
  pose proof (zlen_nonneg rest).
  rewrite take_header, Hz, Hm, Hv, Ha, Hb, Hflags, Hc, Hpl, Hpc, Hop, Hst by done.
  rewrite !from_be_bytes, byte_to_Z_Z_to_byte.
  rewrite (Z.mod_small (zlen _)), !(Z.mod_small (crc32c _)), (Z.mod_small (frame_opcode f)),
    (Z.mod_small (frame_stream_id f)), (Z.mod_small (frame_flags f))
    by (try apply crc32c_4_bytes; done).
  assert (E1 : (32 + zlen (frame_payload f) + zlen rest <? Z.of_nat HEADER_SIZE) = false)
    by (apply Z.ltb_ge; unfold HEADER_SIZE; lia).
  assert (E2 : (MAX_PAYLOAD_BYTES <? zlen (frame_payload f)) = false) by by apply Z.ltb_ge.
  assert (E3 : (32 + zlen (frame_payload f) + zlen rest
                <? Z.of_nat HEADER_SIZE + zlen (frame_payload f)) = false)
    by (apply Z.ltb_ge; unfold HEADER_SIZE; lia).
  assert (E4 : Z.to_nat (Z.of_nat HEADER_SIZE + zlen (frame_payload f))
               = length (header ++ frame_payload f)).
  { rewrite length_app, Hlen. unfold zlen. lia. }
  assert (E5 : slice ((header ++ frame_payload f) ++ rest) HEADER_SIZE
                 (length (header ++ frame_payload f)) = frame_payload f).
  { unfold slice. rewrite length_app, Hlen, Nat.add_comm, Nat.add_sub.
    by rewrite <- Hlen, <- app_assoc, drop_app_length, take_app_length. }
  unfold compute_header_crc.
  rewrite E1, E2, E3, E4, E5, Hfl, !Z.eqb_refl, (Z.mod_small (crc32c _))
    by apply crc32c_4_bytes.
  rewrite !Z.eqb_refl, drop_app_length.
  rewrite !bool_decide_eq_false_2 by (intros []; done).
  by destruct f.
Qed.

(** ** What a successful decode establishes *)

(** The checks of [decode_frame] that the header alone decides, and the way the
    frame is read out of it. *)
Record decoded (header payload : bytes) (f : Frame) : Prop := {
  dec_len : length header = HEADER_SIZE;
  dec_magic : slice header OFF_MAGIC (OFF_MAGIC + 4) = MAGIC;
  dec_version : byte_at header OFF_VERSION = WIRE_VERSION;
  dec_reserved_a : byte_at header OFF_RESERVED_A = 0;
  dec_reserved_b : slice header OFF_RESERVED_B HEADER_SIZE = replicate 8 x00;
  dec_flags : flags_defined (byte_at header OFF_FLAGS);
  dec_header_crc : from_bytes_big (slice header OFF_HEADER_CRC (OFF_HEADER_CRC + 4))
                   = compute_header_crc header;
  dec_payload_len : from_bytes_big (slice header OFF_PAYLOAD_LEN (OFF_PAYLOAD_LEN + 3))
                    = zlen payload;
  dec_payload_crc : from_bytes_big (slice header OFF_PAYLOAD_CRC (OFF_PAYLOAD_CRC + 4))
                    = crc32c payload;
  dec_frame : f = mk_Frame (from_bytes_big (slice header OFF_OPCODE (OFF_OPCODE + 2)))
                    (byte_at header OFF_FLAGS)
                    (from_bytes_big (slice header OFF_STREAM_ID (OFF_STREAM_ID + 4)))
                    payload
}.

Lemma decode_frame_inv buf f rest :
  decode_frame buf = Ok (f, rest) ->
  exists header, buf = header ++ frame_payload f ++ rest
                 /\ decoded header (frame_payload f) f.
Proof.
  unfold decode_frame.
  destruct (zlen buf <? _) eqn:E1; [discriminate|].
  destruct (bool_decide _) eqn:E2; [discriminate|].
  destruct (byte_at _ OFF_VERSION =? _) eqn:E3; [|discriminate].
  destruct (byte_at _ OFF_RESERVED_A =? _) eqn:E4; [|discriminate].
  cbn [negb orb].
  destruct (bool_decide (slice _ OFF_RESERVED_B _ <> _)) eqn:E5; [discriminate|].
  destruct (Z.land _ _ =? 0) eqn:E6; [|discriminate]. cbn [negb].
  destruct (from_bytes_big _ =? compute_header_crc _) eqn:E7; [|discriminate]. cbn [negb].
  destruct (MAX_PAYLOAD_BYTES <? _) eqn:E8; [discriminate|].
  destruct (zlen buf <? _ + _) eqn:E9; [discriminate|].
  destruct (from_bytes_big _ =? crc32c _) eqn:E10; [|discriminate]. cbn [negb].
  intros [= <- <-]. cbn [frame_payload].
  change 19%nat with (OFF_PAYLOAD_LEN + 3)%nat.
  apply Z.ltb_ge in E1, E9. apply Z.eqb_eq in E3, E4, E6, E7, E10.
  apply bool_decide_eq_false in E2, E5.
  set (header := take HEADER_SIZE buf) in *.
  set (plen := from_bytes_big (slice header OFF_PAYLOAD_LEN (OFF_PAYLOAD_LEN + 3))) in *.
  assert (Hp : 0 <= plen) by apply from_bytes_big_range.
  assert (Hlen : length header = HEADER_SIZE).
  { unfold header. rewrite length_take. unfold zlen in E1. lia. }
  exists header. split.
  - assert (En : Z.to_nat (Z.of_nat HEADER_SIZE + plen) = (HEADER_SIZE + Z.to_nat plen)%nat)
      by (clear -Hp; lia).
    unfold slice, header. rewrite En, (Nat.add_comm HEADER_SIZE), Nat.add_sub, Nat.add_comm.
    by rewrite <- drop_drop, take_drop, take_drop.
  - constructor; try done; try by apply dec_stable.
    fold plen. unfold zlen, slice. rewrite length_take, length_drop.
    unfold zlen in E9. clear -E9 Hp. lia.
Qed.

(** A buffer that decodes starts with the layout of the frame it decodes to. *)
Lemma decoded_layout header f :
  decoded header (frame_payload f) f ->
  header ++ frame_payload f = frame_layout f /\ frame_ok f /\ flags_defined (frame_flags f).
Proof.
  intros [Hlen Hm Hv Ha Hb Hfl Hc Hpl Hpc ->]. cbn [frame_payload frame_flags] in *.
  assert (Hpl' := from_bytes_big_range (slice header OFF_PAYLOAD_LEN (OFF_PAYLOAD_LEN + 3))).
  assert (Hop' := from_bytes_big_range (slice header OFF_OPCODE (OFF_OPCODE + 2))).
  assert (Hst' := from_bytes_big_range (slice header OFF_STREAM_ID (OFF_STREAM_ID + 4))).
  assert (Hf' := byte_to_Z_range (nth OFF_FLAGS header x00)).
  split; [|split; [|done]].
  - unfold frame_layout. cbn [frame_opcode frame_flags frame_stream_id frame_payload].
    rewrite <- Hpl, <- Hpc. unfold compute_header_crc in Hc.
    clear Hpl Hpc Hpl' Hop' Hst' Hf' Hfl.
    do 32 (destruct header as [|? header]; [discriminate Hlen|]).
    destruct header; [|discriminate Hlen]. clear Hlen.
    unfold slice, byte_at in *. cbn [take drop nth Nat.sub Nat.add OFF_MAGIC OFF_VERSION
      OFF_OPCODE OFF_FLAGS OFF_HEADER_CRC OFF_STREAM_ID OFF_PAYLOAD_LEN OFF_RESERVED_A
      OFF_PAYLOAD_CRC OFF_RESERVED_B HEADER_SIZE app] in *.
    injection Hm as -> -> -> ->. injection Hb as -> -> -> -> -> -> -> ->.
    change WIRE_VERSION with (byte_to_Z x01) in Hv. apply byte_to_Z_inj in Hv as ->.
    change 0 with (byte_to_Z x00) in Ha. apply byte_to_Z_inj in Ha as ->.
    unfold wire_head, wire_tail. rewrite Z_to_byte_to_Z.
    repeat match goal with |- context [be_bytes ?n (from_bytes_big ?l)] =>
      rewrite (be_from_bytes l : be_bytes n (from_bytes_big l) = l) end.
    change (Z_to_byte WIRE_VERSION) with x01. unfold MAGIC.
    cbn [app replicate]. rewrite <- Hc.
    match goal with |- context [be_bytes 4 (from_bytes_big ?l)] =>
      rewrite (be_from_bytes l : be_bytes 4 (from_bytes_big l) = l) end.
    reflexivity.
  - assert (Hl : forall lo n, (lo + n <= 32)%nat -> length (slice header lo (lo + n)) = n).
    { intros lo n Hn. unfold slice. rewrite length_take, length_drop, Hlen.
      unfold HEADER_SIZE. lia. }
    rewrite Hl in Hpl', Hop', Hst' by (cbn; lia).
    rewrite Hpl in Hpl'. constructor; cbn [frame_opcode frame_flags frame_stream_id frame_payload];
      [done|done|done|]. change MAX_PAYLOAD_BYTES with 16777215.
    change (256 ^ Z.of_nat 3) with 16777216 in Hpl'. lia.
Qed.

Lemma decode_frame_ok_iff buf f rest :
  decode_frame buf = Ok (f, rest) <->
  buf = frame_layout f ++ rest /\ frame_ok f /\ flags_defined (frame_flags f).
Proof.
  split.
  - intros (header & -> & Hd)%decode_frame_inv.
    apply decoded_layout in Hd as (<- & ? & ?). by rewrite <- app_assoc.
  - intros (-> & ? & ?). by apply decode_frame_layout.
Qed.

(** ** Short buffers *)

Lemma decode_frame_short buf :
  (length buf < HEADER_SIZE)%nat ->
  decode_frame buf = Raise (TruncatedFrame (zlen buf) (Z.of_nat HEADER_SIZE)).
Proof.
  intros H. unfold decode_frame.
  by rewrite (proj2 (Z.ltb_lt _ _)) by (unfold zlen; lia).
Qed.

(** A proper prefix of a frame asks for more bytes, and for no more than the
    frame has. *)
Lemma decode_frame_prefix f buf more :
  frame_ok f -> flags_defined (frame_flags f) ->
  frame_layout f = buf ++ more -> more <> [] ->
  exists need, decode_frame buf = Raise (TruncatedFrame (zlen buf) need)
               /\ zlen buf < need <= zlen (frame_layout f).
Proof.
  intros [Ho Hf Hs Hl] Hfl Hsplit Hmore.
  assert (Hlt : (length buf < length (frame_layout f))%nat).
  { rewrite Hsplit, length_app. destruct more; [done|]. simpl. lia. }
  rewrite length_frame_layout in Hlt.
  assert (Htot : zlen (frame_layout f) = 32 + zlen (frame_payload f)).
  { unfold zlen. rewrite length_frame_layout. lia. }
  destruct (Nat.lt_ge_cases (length buf) HEADER_SIZE) as [Hsh|Hge].
  { exists (Z.of_nat HEADER_SIZE). split; [by apply decode_frame_short|].
    rewrite Htot. pose proof (zlen_nonneg (frame_payload f)).
    unfold zlen at 1. unfold HEADER_SIZE in *. lia. }
  destruct (frame_layout_split f) as
    (header & Elay & Hlen & Hm & Hv & Ha & Hb & Hflags & Hc & Hpl & _).
  pose proof (zlen_payload_u24 _ Hl) as Hpl'.
  assert (Hhead : take HEADER_SIZE buf = header).
  { rewrite <- (take_app_le buf more) by done. rewrite <- Hsplit, Elay, <- Hlen.
    apply take_app_length. }
  exists (Z.of_nat HEADER_SIZE + zlen (frame_payload f)). split.
  2: { rewrite Htot. unfold zlen. unfold HEADER_SIZE. lia. }
  unfold decode_frame. rewrite Hhead, Hm, Hv, Ha, Hb, Hflags, Hc, Hpl.
  rewrite !from_be_bytes, byte_to_Z_Z_to_byte, (Z.mod_small (zlen (frame_payload f))),
    (Z.mod_small (frame_flags f)) by done.
  unfold compute_header_crc. rewrite (Z.mod_small (crc32c _)) by apply crc32c_4_bytes.
  rewrite Hfl, !Z.eqb_refl, !bool_decide_eq_false_2 by (intros []; done). cbn [negb orb].
  rewrite (proj2 (Z.ltb_ge _ _)) by (unfold zlen; lia).
  rewrite (proj2 (Z.ltb_ge _ _)) by done.
  by rewrite (proj2 (Z.ltb_lt _ _)) by (unfold zlen, HEADER_SIZE in *; lia).
Qed.

(** ** Corruption *)

Lemma from_bytes_big_insert_inj bs i b :
  from_bytes_big (<[i := b]> bs) = from_bytes_big bs -> <[i := b]> bs = bs.
Proof.
  intros E. transitivity (be_bytes (length bs) (from_bytes_big bs)); [|apply be_from_bytes].
  rewrite <- E, <- (length_insert bs i b). symmetry. apply be_from_bytes.
Qed.

Lemma insert_same_inv {A} (l : list A) i x y :
  l !! i = Some y -> <[i := x]> l = l -> x = y.
Proof.
  intros Hi E. assert (Hlt := lookup_lt_Some _ _ _ Hi).
  rewrite <- E, list_lookup_insert_eq in Hi by done. congruence.
Qed.

Lemma slice_insert_in {A} (l : list A) lo hi i x :
  (lo <= i < hi)%nat -> slice (<[i := x]> l) lo hi = <[(i - lo)%nat := x]> (slice l lo hi).
Proof.
  intros H. unfold slice. rewrite drop_insert_ge, take_insert_lt by lia. done.
Qed.

Lemma slice_insert_out {A} (l : list A) lo hi i x :
  (i < lo \/ hi <= i)%nat -> slice (<[i := x]> l) lo hi = slice l lo hi.
Proof.
  intros [H|H]; unfold slice.
  - by rewrite drop_insert_lt by lia.
  - destruct (Nat.le_gt_cases lo i).
    + rewrite drop_insert_ge by lia. by rewrite take_insert_ge by lia.
    + by rewrite drop_insert_lt by lia.
Qed.

(** Overwriting one header byte of a header whose checksum is right makes it
    wrong. *)
Lemma header_crc_insert header i b b' :
  length header = HEADER_SIZE -> header !! i = Some b ->
  from_bytes_big (slice header OFF_HEADER_CRC (OFF_HEADER_CRC + 4)) = compute_header_crc header ->
  from_bytes_big (slice (<[i := b']> header) OFF_HEADER_CRC (OFF_HEADER_CRC + 4))
    = compute_header_crc (<[i := b']> header) -> b' = b.
Proof.
  intros Hlen Hi E E'. unfold compute_header_crc in *.
  unfold OFF_HEADER_CRC, OFF_STREAM_ID, HEADER_SIZE in *. cbn [Nat.add] in *.
  assert (Hlt := lookup_lt_Some _ _ _ Hi).
  assert (L8 : length (take 8 header) = 8%nat) by (rewrite length_take; lia).
  destruct (Nat.lt_ge_cases i 8) as [H8|H8]; [|destruct (Nat.lt_ge_cases i 12) as [H12|H12]].
  - rewrite slice_insert_out, E, slice_insert_out, take_insert_lt in E' by lia.
    rewrite <- insert_app_l in E' by lia. symmetry in E'.
    eapply crc32c_insert; [|exact E'].
    rewrite lookup_app_l by lia. by rewrite lookup_take_lt by lia.
  - rewrite slice_insert_in, take_insert_ge, (slice_insert_out _ 12), <- E in E' by lia.
    apply from_bytes_big_insert_inj in E'. eapply insert_same_inv; [|exact E'].
    unfold slice. rewrite lookup_take_lt, lookup_drop by lia. by rewrite <- Hi; f_equal; lia.
  - rewrite slice_insert_out, E, take_insert_ge, slice_insert_in in E' by lia.
    assert (Ei : forall x, take 8 header ++ <[(i - 12)%nat := x]> (slice header 12 32)
                 = <[(i - 4)%nat := x]> (take 8 header ++ slice header 12 32)).
    { intros x. rewrite insert_app_r_alt by lia. by do 2 f_equal; lia. }
    rewrite Ei in E'. symmetry in E'. eapply crc32c_insert; [|exact E'].
    rewrite lookup_app_r by lia. rewrite L8. unfold slice.
    rewrite lookup_take_lt, lookup_drop by lia. by rewrite <- Hi; f_equal; lia.
Qed.

(** No single-byte corruption of a decodable frame decodes. *)
Lemma decode_frame_corrupt buf f rest i b b' :
  decode_frame buf = Ok (f, rest) ->
  (i < HEADER_SIZE + length (frame_payload f))%nat ->
  buf !! i = Some b -> b' <> b ->
  forall f' rest', decode_frame (<[i := b']> buf) <> Ok (f', rest').
Proof.
  intros (h & -> & D)%decode_frame_inv Hi Hb Hne f' rest' (h' & E & D')%decode_frame_inv.
  apply Hne. pose proof (dec_len _ _ _ D) as L. pose proof (dec_len _ _ _ D') as L'.
  destruct (Nat.lt_ge_cases i HEADER_SIZE) as [Hlt|Hge].
  - rewrite insert_app_l in E by lia.
    rewrite lookup_app_l in Hb by lia.
    assert (h' = <[i := b']> h) as ->.
    { apply (f_equal (take HEADER_SIZE)) in E. rewrite <- L' in E at 2.
      rewrite take_app_length, <- L, <- (length_insert h i b'), take_app_length in E. done. }
    eapply header_crc_insert; [exact L|exact Hb|apply D|apply D'].
  - rewrite insert_app_r_alt in E by lia. rewrite lookup_app_r in Hb by lia.
    assert (h' = h) as ->.
    { apply (f_equal (take HEADER_SIZE)) in E. rewrite <- L' in E at 2.
      rewrite take_app_length, <- L, take_app_length in E. done. }
    apply app_inv_head in E.
    rewrite insert_app_l in E by lia. rewrite lookup_app_l in Hb by lia.
    assert (frame_payload f' = <[(i - length h)%nat := b']> (frame_payload f)) as Hp.
    { pose proof (dec_payload_len _ _ _ D) as P. rewrite (dec_payload_len _ _ _ D') in P.
      apply (f_equal (take (length (frame_payload f)))) in E.
      rewrite <- (length_insert (frame_payload f) (i - length h) b') in E at 1.
      rewrite take_app_length in E. unfold zlen in P. apply Nat2Z.inj in P.
      rewrite <- P, take_app_length in E. done. }
    pose proof (dec_payload_crc _ _ _ D) as C. rewrite (dec_payload_crc _ _ _ D'), Hp in C.
    eapply crc32c_insert; [exact Hb|exact C].
Qed.

(** A three-byte big-endian field never exceeds the payload limit. *)
Lemma slice_u24 header lo :
  from_bytes_big (slice header lo (lo + 3)) <= MAX_PAYLOAD_BYTES.
Proof.
  pose proof (from_bytes_big_range (slice header lo (lo + 3))) as Hr.
  assert (Hl : (length (slice header lo (lo + 3)) <= 3)%nat).
  { unfold slice. rewrite length_take. lia. }
  assert (256 ^ Z.of_nat (length (slice header lo (lo + 3))) <= 256 ^ 3)
    by (apply Z.pow_le_mono_r; lia).
  change MAX_PAYLOAD_BYTES with (256 ^ 3 - 1). lia.
Qed.

(** ** Properties *)

(** A frame to evaluate the statements on: an EOS frame with opcode
    ENCODE_REQ, stream 1 and a three-byte payload. *)
Definition sample_frame : Frame := mk_Frame 0x0020 FLAG_EOS 1 [xa1; x61; x61].

(** What [encode_frame] does on every input, the order of its range checks
    included. *)
Definition encode_frame_spec (f : Frame) : result frame_error bytes :=
  if decide (MAX_PAYLOAD_BYTES < zlen (frame_payload f))
  then Raise (OversizePayload (zlen (frame_payload f)))
  else if decide (~ (0 <= frame_opcode f < 2 ^ 16)) then Raise (FramePy OverflowError)
  else if decide (~ (0 <= frame_flags f < 2 ^ 8)) then Raise (FramePy ValueError)
  else if decide (~ (0 <= frame_stream_id f < 2 ^ 32)) then Raise (FramePy OverflowError)
  else Ok (frame_layout f).

Lemma to_bytes_raises n len :
  ~ (0 <= n < 256 ^ Z.of_nat len) -> to_bytes n len = Raise (FramePy OverflowError).
Proof.
  intros H. unfold to_bytes, to_bytes_big. destruct (_ && _) eqn:E; [|done].
  apply andb_true_iff in E as [?%Z.leb_le ?%Z.ltb_lt]. by destruct H.
Qed.

Lemma set_byte_raises header i v :
  ~ (0 <= v < 256) -> set_byte header i v = Raise (FramePy ValueError).
Proof.
  intros H. unfold set_byte. destruct (_ && _) eqn:E; [|done].
  apply andb_true_iff in E as [?%Z.leb_le ?%Z.ltb_lt]. by destruct H.
Qed.

Lemma encode_frame_spec_eq f :
  encode_frame (frame_opcode f) (frame_stream_id f) (frame_flags f) (frame_payload f)
  = encode_frame_spec f.
Proof.
  unfold encode_frame_spec. case_decide as Hlen.
  { unfold encode_frame. by rewrite (proj2 (Z.ltb_lt _ _)) by done. }
  assert (Hl : zlen (frame_payload f) <= MAX_PAYLOAD_BYTES) by lia.
  case_decide as Ho; [|case_decide as Hf; [|case_decide as Hs]].
  4: by apply encode_frame_layout.
  all: unfold encode_frame; rewrite (proj2 (Z.ltb_ge _ _)) by lia;
    rewrite set_byte_ok by done; cbn [bind].
  - by rewrite to_bytes_raises.
  - rewrite to_bytes_ok by done. cbn [bind]. by rewrite set_byte_raises.
  - rewrite to_bytes_ok by done. cbn [bind]. rewrite set_byte_ok by done. cbn [bind].
    by rewrite (to_bytes_raises (frame_stream_id f)).
Qed.

(** C2: [encode_frame] refines the layout table: on every input it either
    returns exactly the thirty-two header bytes of the table followed by the
    payload, or raises the exception of the first field that does not fit
    (payload length, then opcode, then flags, then stream id). *)
Theorem encode_frame_refines_layout f :
  encode_frame (frame_opcode f) (frame_stream_id f) (frame_flags f) (frame_payload f)
  = encode_frame_spec f.
Proof. apply encode_frame_spec_eq. Qed.

(** C1: [decode_frame] is the exact inverse of [encode_frame]: a buffer decodes
    to a frame and a rest if and only if it is the encoding of that frame
    followed by that rest and only defined flag bits are set. In particular a
    frame has one encoding, and whatever follows it in the buffer is returned
    untouched. *)
Theorem decode_frame_inverts_encode buf f rest :
  decode_frame buf = Ok (f, rest) <->
  flags_defined (frame_flags f)
  /\ exists bs, encode_frame (frame_opcode f) (frame_stream_id f) (frame_flags f)
                  (frame_payload f) = Ok bs
                /\ buf = bs ++ rest.
Proof.
  rewrite decode_frame_ok_iff. split.
  - intros (-> & Hok & Hfl). split; [done|]. exists (frame_layout f).
    by rewrite encode_frame_layout.
  - intros (Hfl & bs & E & ->). rewrite encode_frame_spec_eq in E.
    unfold encode_frame_spec in E. repeat case_decide; try discriminate.
    injection E as <-. split; [done|]. split; [|done].
    constructor; try done. lia.
Qed.

(** C31: no corruption of a single byte is ever accepted: overwrite any one byte
    of a frame that decodes (magic, version, opcode, flags, either checksum,
    stream id, length, reserved bytes or payload) with any other value, and
    decoding raises. *)
Theorem decode_frame_detects_corruption buf f rest i b b' :
  decode_frame buf = Ok (f, rest) ->
  (i < HEADER_SIZE + length (frame_payload f))%nat ->
  buf !! i = Some b -> b' <> b ->
  exists e, decode_frame (<[i := b']> buf) = Raise e.
Proof.
  intros H Hi Hb Hne. destruct (decode_frame (<[i := b']> buf)) as [[f' rest']|e] eqn:E;
    [|by exists e].
  destruct (decode_frame_corrupt _ _ _ _ _ _ H Hi Hb Hne _ _ E).
Qed.

Lemma decode_frame_detects_corruption_witness :
  exists e, decode_frame (<[33%nat := x62]> (frame_layout sample_frame)) = Raise e.
Proof.
  apply (decode_frame_detects_corruption _ sample_frame [] 33 x61 x62);
    [vm_compute; reflexivity | vm_compute; lia | vm_compute; reflexivity | discriminate].
Defined.

(** The length check of [decode_frame] never fires: the length field is 24
    bits wide, so no buffer makes the decoder raise [OversizePayload], and a
    decoded payload never exceeds the maximum. *)
Theorem decode_frame_payload_bounded buf :
  (forall n, decode_frame buf <> Raise (OversizePayload n))
  /\ (forall f rest, decode_frame buf = Ok (f, rest) ->
        zlen (frame_payload f) <= MAX_PAYLOAD_BYTES
        /\ zlen buf = 32 + zlen (frame_payload f) + zlen rest).
Proof.
  split.
  - intros n E. unfold decode_frame in E.
    rewrite (proj2 (Z.ltb_ge _ _) (slice_u24 _ OFF_PAYLOAD_LEN)) in E.
    repeat case_match; discriminate.
  - intros f rest (-> & [] & _)%decode_frame_ok_iff. split; [done|].
    rewrite zlen_app. unfold zlen at 1. rewrite length_frame_layout. unfold zlen. lia.
Qed.
