(* ===== verification/PyFloat.v ===== *)
(** * PyFloat

    The floating-point values of the language and the three IEEE-754
    interchange formats that [struct.pack] / [struct.unpack] convert them to
    ([e] half, [f] single, [d] double). A finite non-zero float is a dyadic
    rational: a sign, an odd mantissa and a power of two, so that two finite
    floats are equal exactly when they are the same term. A NaN carries no
    payload. *)

From S2P Require Import Prelude.

(** ** Values *)

Inductive pyfloat : Type :=
| FNan
| FInf (neg : bool)
| FZero (neg : bool)
| FFin (neg : bool) (m : positive) (e : Z).

#[export] Instance pyfloat_eq_dec : EqDecision pyfloat.
Proof. solve_decision. Defined.

(** [a == b]: a NaN equals nothing and the two zeros are equal. *)
Definition float_eqb (a b : pyfloat) : bool :=
  match a, b with
  | FNan, _ | _, FNan => false
  | FZero _, FZero _ => true
  | _, _ => bool_decide (a = b)
  end.

Definition isnan (a : pyfloat) : bool := match a with FNan => true | _ => false end.
Definition isinf (a : pyfloat) : bool := match a with FInf _ => true | _ => false end.

(** ** Formats *)

(** [fmt_prec] bits of precision, subnormal quantum [2 ^ fmt_emin], finite
    values below [2 ^ fmt_emax], [fmt_bytes] bytes. *)
Record fmt : Type := mk_fmt { fmt_prec : Z; fmt_emin : Z; fmt_emax : Z; fmt_bytes : nat }.

Definition half : fmt := mk_fmt 11 (-24) 16 2.
Definition single : fmt := mk_fmt 24 (-149) 128 4.
Definition double : fmt := mk_fmt 53 (-1074) 1024 8.

(** The relations between the parameters that every interchange format has. *)
Record fmt_wf (F : fmt) : Prop := {
  wf_prec : 1 < fmt_prec F;
  wf_bias : fmt_emin F = 3 - fmt_emax F - fmt_prec F;
  wf_emax : 2 <= fmt_emax F;
  wf_width : 2 * fmt_emax F * 2 ^ fmt_prec F = 256 ^ Z.of_nat (fmt_bytes F)
}.

(** [m * 2 ^ e] is a value of the format, in odd-mantissa form. *)
Definition in_fmt (F : fmt) (m : positive) (e : Z) : bool :=
  Z.odd (Z.pos m) && (Z.pos m <? 2 ^ fmt_prec F) && (fmt_emin F <=? e)
  && (Z.log2 (Z.pos m) + e <? fmt_emax F).

(** The float is a value of the format. *)
Definition float_in (F : fmt) (a : pyfloat) : bool :=
  match a with
  | FFin _ m e => in_fmt F m e
  | _ => true
  end.

(** ** Rounding *)

(** Remove the trailing zero bits of a mantissa. *)
Fixpoint odd_part (m : positive) (e : Z) : positive * Z :=
  match m with
  | xO m' => odd_part m' (e + 1)
  | _ => (m, e)
  end.

(** The float with mantissa [n >= 0]. *)
Definition make_float (neg : bool) (n : Z) (e : Z) : pyfloat :=
  match n with
  | Z.pos m => let '(m, e) := odd_part m e in FFin neg m e
  | _ => FZero neg
  end.

(** [n / 2 ^ s] rounded to an integer, ties to even. *)
Definition round_half_even (n s : Z) : Z :=
  let q := Z.shiftr n s in
  let r := n - Z.shiftl q s in
  let h := 2 ^ (s - 1) in
  if (h <? r) || ((r =? h) && Z.odd q) then q + 1 else q.

(** The exponent of the last bit kept when [m * 2 ^ e] is rounded to the format. *)
Definition quantum (F : fmt) (m : positive) (e : Z) : Z :=
  Z.max (Z.log2 (Z.pos m) + e - (fmt_prec F - 1)) (fmt_emin F).

(** [m * 2 ^ e] rounded to the format, as a mantissa and an exponent. *)
Definition round_mantissa (F : fmt) (m : positive) (e : Z) : Z * Z :=
  let q := quantum F m e in
  if q <=? e then (Z.pos m, e) else (round_half_even (Z.pos m) (q - e), q).

(** The value rounded to nearest, ties to even; [None] when a finite value
    rounds past the largest finite one. *)
Definition round_to (F : fmt) (a : pyfloat) : option pyfloat :=
  match a with
  | FFin neg m e =>
      let '(n, q) := round_mantissa F m e in
      if (0 <? n) && (fmt_emax F <=? Z.log2 n + q) then None
      else Some (make_float neg n q)
  | _ => Some a
  end.

(** ** Bit patterns *)

(** The magnitude bits of a finite value of the format. *)
Definition magnitude_bits (F : fmt) (m : positive) (e : Z) : Z :=
  let q := quantum F m e in
  let sig := Z.shiftl (Z.pos m) (e - q) in
  sig + (q - fmt_emin F) * 2 ^ (fmt_prec F - 1).

(** The magnitude bits of an infinity. *)
Definition inf_bits (F : fmt) : Z := (2 * fmt_emax F - 1) * 2 ^ (fmt_prec F - 1).

Definition sign_bit (F : fmt) (neg : bool) : Z :=
  if neg then 2 * fmt_emax F * 2 ^ (fmt_prec F - 1) else 0.

(** The bit pattern of a value of the format. *)
Definition float_bits (F : fmt) (a : pyfloat) : Z :=
  match a with
  | FNan => inf_bits F + 2 ^ (fmt_prec F - 2)
  | FInf neg => sign_bit F neg + inf_bits F
  | FZero neg => sign_bit F neg
  | FFin neg m e => sign_bit F neg + magnitude_bits F m e
  end.

Definition float_of_bits (F : fmt) (b : Z) : pyfloat :=
  let top := 2 * fmt_emax F * 2 ^ (fmt_prec F - 1) in
  let neg := top <=? b in
  let mag := b mod top in
  let biased := mag / 2 ^ (fmt_prec F - 1) in
  let frac := mag mod 2 ^ (fmt_prec F - 1) in
  if biased =? 2 * fmt_emax F - 1
  then if frac =? 0 then FInf neg else FNan
  else if biased =? 0 then make_float neg frac (fmt_emin F)
  else make_float neg (frac + 2 ^ (fmt_prec F - 1)) (fmt_emin F + biased - 1).

(** ** [struct.pack] and [struct.unpack], big-endian *)

Definition struct_pack (F : fmt) (a : pyfloat) : result py_error bytes :=
  match round_to F a with
  | Some b => Ok (be_bytes (fmt_bytes F) (float_bits F b))
  | None => Raise OverflowError
  end.

(** [struct.unpack] of a buffer of exactly the format's size. *)
Definition struct_unpack (F : fmt) (bs : bytes) : result py_error pyfloat :=
  if decide (length bs = fmt_bytes F) then Ok (float_of_bits F (from_bytes_big bs))
  else Raise StructError.

(** ** Samples *)

Example pack_half_12_5 : struct_pack half (FFin false 25 (-1)) = Ok [x4a; x40].
Proof. by_compute. Qed.
Example pack_single_pi : struct_pack single (FFin false 7074237752028440 (-51)) = Ok [x40; x49; x0f; xdb].
Proof. by_compute. Qed.
Example pack_double_third :
  struct_pack double (FFin false 6004799503160661 (-54)) = Ok [x3f; xd5; x55; x55; x55; x55; x55; x55].
Proof. by_compute. Qed.
Example pack_half_over : struct_pack half (FFin false 65520 0) = Raise OverflowError.
Proof. by_compute. Qed.
Example pack_half_max : struct_pack half (FFin false 65519 0) = Ok [x7b; xff].
Proof. by_compute. Qed.
Example pack_half_sub : struct_pack half (FFin true 3 (-26)) = Ok [x80; x01].
Proof. by_compute. Qed.
Example unpack_half_min : struct_unpack half [x00; x01] = Ok (FFin false 1 (-24)).
Proof. by_compute. Qed.
Example unpack_single_inf : struct_unpack single [xff; x80; x00; x00] = Ok (FInf true).
Proof. by_compute. Qed.

(** ** Lemmas *)

Lemma half_wf : fmt_wf half. Proof. by split. Qed.
Lemma single_wf : fmt_wf single. Proof. by split. Qed.
Lemma double_wf : fmt_wf double. Proof. by split. Qed.
#[export] Hint Resolve half_wf single_wf double_wf : brain.

Lemma odd_part_spec m e m' e' :
  odd_part m e = (m', e') ->
  Z.odd (Z.pos m') = true /\ e <= e' /\ Z.pos m = Z.pos m' * 2 ^ (e' - e).
Proof.
  revert e. induction m as [m IH|m IH|]; intros e H; simpl in H.
  - injection H as <- <-. rewrite Z.sub_diag. split; [done|]. lia.
  - apply IH in H as (Ho & Hle & Hm). split; [done|]. split; [lia|].
    rewrite Pos2Z.inj_xO, Hm. replace (e' - e) with (Z.succ (e' - (e + 1))) by lia.
    rewrite Z.pow_succ_r by lia. ring.
  - injection H as <- <-. rewrite Z.sub_diag. split; [done|]. lia.
Qed.

Lemma odd_part_shift m k :
  Z.odd (Z.pos m) = true -> 0 <= k ->
  forall m' e, Z.pos m' = Z.pos m * 2 ^ k -> odd_part m' e = (m, e + k).
Proof.
  intros Ho Hk. pattern k. apply natlike_ind; [| |done]; clear k Hk.
  - intros m' e E. rewrite Z.mul_1_r in E. injection E as ->.
    rewrite Z.add_0_r. by destruct m.
  - intros k Hk IH m' e E. rewrite Z.pow_succ_r in E by lia.
    destruct m' as [m'|m'|]; [exfalso; lia| |exfalso; lia].
    simpl. rewrite (IH m' (e + 1)) by lia. f_equal. lia.
Qed.

Lemma make_float_shift neg m k e :
  Z.odd (Z.pos m) = true -> 0 <= k ->
  make_float neg (Z.pos m * 2 ^ k) e = FFin neg m (e + k).
Proof.
  intros Ho Hk. assert (0 < Z.pos m * 2 ^ k) by nia.
  destruct (Z.pos m * 2 ^ k) as [|m'|] eqn:E; [lia| |lia].
  simpl. by rewrite (odd_part_shift m k Ho Hk m' e) by done.
Qed.

Lemma make_float_odd neg m e :
  Z.odd (Z.pos m) = true -> make_float neg (Z.pos m) e = FFin neg m e.
Proof. by destruct m. Qed.

Lemma in_fmt_iff F m e :
  in_fmt F m e = true <->
  Z.odd (Z.pos m) = true /\ Z.pos m < 2 ^ fmt_prec F /\ fmt_emin F <= e
  /\ Z.log2 (Z.pos m) + e < fmt_emax F.
Proof. unfold in_fmt. rewrite !andb_true_iff, Z.leb_le, !Z.ltb_lt. tauto. Qed.

Lemma in_fmt_quantum F m e : in_fmt F m e = true -> quantum F m e <= e.
Proof.
  intros (Ho & Hm & He & _)%in_fmt_iff. unfold quantum.
  apply Z.log2_lt_pow2 in Hm; lia.
Qed.

(** A value of the format rounds to itself. *)
Lemma round_to_exact F a : float_in F a = true -> round_to F a = Some a.
Proof.
  destruct a as [| | |neg m e]; [done..|]. cbn [float_in round_to]. intros H.
  pose proof (in_fmt_quantum F m e H) as Hq. apply in_fmt_iff in H as (Ho & _ & _ & Hlt).
  unfold round_mantissa. rewrite (proj2 (Z.leb_le _ _) Hq).
  rewrite (proj2 (Z.leb_gt _ _) Hlt), andb_false_r. by rewrite make_float_odd.
Qed.

Lemma round_half_even_bound n s b :
  0 <= n -> 0 < s -> n < 2 ^ (b + s) -> 0 <= b -> 0 <= round_half_even n s <= 2 ^ b.
Proof.
  intros Hn Hs Hb Hb0. unfold round_half_even.
  assert (0 <= Z.shiftr n s < 2 ^ b).
  { rewrite Z.shiftr_div_pow2 by lia. split; [apply Z.div_pos; lia|].
    apply Z.div_lt_upper_bound; [lia|]. rewrite <- Z.pow_add_r by lia.
    by rewrite Z.add_comm. }
  case_match; lia.
Qed.

(** Rounding lands in the format. *)
Lemma round_to_in_fmt F a b :
  fmt_wf F -> float_in double a = true -> round_to F a = Some b -> float_in F b = true.
Proof.
  intros [Hp _ _ _]. destruct a as [| | |neg m e]; [by intros _ [= <-]..|].
  intros (Ho & _)%in_fmt_iff. unfold round_to, round_mantissa.
  set (q := quantum F m e).
  assert (Hq : Z.log2 (Z.pos m) + e - (fmt_prec F - 1) <= q /\ fmt_emin F <= q)
    by (unfold q, quantum; lia).
  pose proof (Z.log2_spec (Z.pos m) ltac:(lia)) as [_ Hlog].
  destruct (q <=? e) eqn:Hqe.
  - apply Z.leb_le in Hqe. destruct (_ && _) eqn:Hov; [discriminate|].
    rewrite make_float_odd by done. intros [= <-]. apply in_fmt_iff.
    rewrite (proj2 (Z.ltb_lt 0 (Z.pos m))) in Hov by lia. cbn [andb] in Hov.
    apply Z.leb_gt in Hov. split_and!; [done| |lia|lia].
    eapply Z.lt_le_trans; [exact Hlog|]. apply Z.pow_le_mono_r; lia.
  - apply Z.leb_gt in Hqe.
    assert (Hb : 0 <= round_half_even (Z.pos m) (q - e) <= 2 ^ fmt_prec F).
    { apply round_half_even_bound; [lia..| |lia].
      eapply Z.lt_le_trans; [exact Hlog|]. apply Z.pow_le_mono_r; lia. }
    destruct (round_half_even _ _) as [|n|n] eqn:Hn; [by intros [= <-]| |lia].
    rewrite (proj2 (Z.ltb_lt 0 (Z.pos n))) by lia. cbn [andb].
    destruct (fmt_emax F <=? _) eqn:Hov; [discriminate|]. apply Z.leb_gt in Hov.
    intros [= <-]. simpl. destruct (odd_part n q) as [m' e'] eqn:E.
    apply odd_part_spec in E as (Ho' & Hle & Hm'). apply in_fmt_iff.
    rewrite Hm', Z.log2_mul_pow2 in Hov by lia. split_and!; [done| |lia|lia].
    assert (Z.pos m' <= Z.pos n) by nia.
    destruct (Z.eq_dec (Z.pos m') (2 ^ fmt_prec F)) as [E|]; [|lia].
    exfalso. rewrite E in Ho'. rewrite Z.odd_pow in Ho' by lia. done.
Qed.

Lemma bits_decompose P top s sig k :
  0 < P -> 0 <= sig < 2 * P -> 0 <= k -> 0 < top -> k * P + sig < top ->
  (s = 0 \/ s = top) ->
  (s + (sig + k * P)) mod top = sig + k * P
  /\ (top <=? s + (sig + k * P)) = (0 <? s).
Proof.
  intros HP Hsig Hk Htop Hlt Hs. split.
  - destruct Hs as [-> | ->].
    + apply Z.mod_small. nia.
    + rewrite Z.add_comm, <- (Z.mul_1_l top) at 1. rewrite Z.mod_add by lia.
      apply Z.mod_small. nia.
  - destruct Hs as [-> | ->].
    + rewrite Z.ltb_irrefl. apply Z.leb_gt. lia.
    + rewrite (proj2 (Z.ltb_lt _ _)) by lia. apply Z.leb_le. nia.
Qed.

(** The pieces of [float_of_bits], from the sign and the two magnitude fields. *)
Lemma float_of_bits_fields F neg biased frac :
  fmt_wf F -> 0 <= frac < 2 ^ (fmt_prec F - 1) -> 0 <= biased < 2 * fmt_emax F ->
  float_of_bits F (sign_bit F neg + (frac + biased * 2 ^ (fmt_prec F - 1)))
  = (if biased =? 2 * fmt_emax F - 1
     then if frac =? 0 then FInf neg else FNan
     else if biased =? 0 then make_float neg frac (fmt_emin F)
     else make_float neg (frac + 2 ^ (fmt_prec F - 1)) (fmt_emin F + biased - 1)).
Proof.
  intros [Hp _ Hemax _] Hf Hb. unfold float_of_bits, sign_bit. cbv zeta.
  set (P := 2 ^ (fmt_prec F - 1)) in *.
  assert (HP : 0 < P) by (apply Z.pow_pos_nonneg; lia).
  set (top := 2 * fmt_emax F * P).
  assert (Htop : biased * P + frac < top) by (unfold top; nia).
  destruct (bits_decompose P top (if neg then top else 0) frac biased) as [Hm Hn];
    [lia..|nia|lia|by destruct neg; [right|left]|].
  rewrite Hm, Hn.
  assert (E : (0 <? (if neg then top else 0)) = neg).
  { destruct neg; [apply Z.ltb_lt; nia | done]. }
  assert (Ed : (frac + biased * P) / P = biased)
    by (rewrite Z.div_add by lia; rewrite Z.div_small by lia; lia).
  assert (Em : (frac + biased * P) mod P = frac)
    by (rewrite Z.mod_add by lia; apply Z.mod_small; lia).
  by rewrite E, Ed, Em.
Qed.

(** Unpacking the bits of a value of the format gives the value back. *)
Lemma float_of_float_bits F a :
  fmt_wf F -> float_in F a = true -> float_of_bits F (float_bits F a) = a.
Proof.
  intros Hwf Ha. pose proof Hwf as [Hp Hbias Hemax _].
  set (P := 2 ^ (fmt_prec F - 1)).
  assert (HP : 0 < P) by (apply Z.pow_pos_nonneg; lia).
  assert (HPP : 2 ^ fmt_prec F = 2 * P).
  { unfold P. rewrite <- Z.pow_succ_r by lia. f_equal. lia. }
  destruct a as [|neg|neg|neg m e]; cbn [float_bits].
  - assert (0 < 2 ^ (fmt_prec F - 2) < P).
    { split; [apply Z.pow_pos_nonneg; lia|]. apply Z.pow_lt_mono_r; lia. }
    unfold inf_bits. fold P.
    replace ((2 * fmt_emax F - 1) * P + 2 ^ (fmt_prec F - 2))
      with (sign_bit F false + (2 ^ (fmt_prec F - 2) + (2 * fmt_emax F - 1) * P))
      by (simpl; ring).
    unfold P in *. rewrite float_of_bits_fields by first [exact Hwf | lia].
    rewrite Z.eqb_refl. by rewrite (proj2 (Z.eqb_neq _ _)) by lia.
  - unfold inf_bits. rewrite <- (Z.add_0_l ((2 * fmt_emax F - 1) * _)).
    rewrite float_of_bits_fields by first [exact Hwf | lia]. by rewrite Z.eqb_refl.
  - replace (sign_bit F neg) with (sign_bit F neg + (0 + 0 * 2 ^ (fmt_prec F - 1))) by ring.
    rewrite float_of_bits_fields by first [exact Hwf | lia]. by rewrite (proj2 (Z.eqb_neq _ _)) by lia.
  - pose proof (in_fmt_quantum F m e Ha) as Hq.
    apply in_fmt_iff in Ha as (Ho & Hm & He & Hlt).
    pose proof (Z.log2_spec (Z.pos m) ltac:(lia)) as [Hl1 Hl2].
    assert (HL : 0 <= Z.log2 (Z.pos m) <= fmt_prec F - 1).
    { split; [apply Z.log2_nonneg|]. apply Z.log2_lt_pow2 in Hm; lia. }
    unfold magnitude_bits. rewrite Z.shiftl_mul_pow2 by lia. fold P.
    set (L := Z.log2 (Z.pos m)) in *. unfold quantum in *. fold L in Hq |- *.
    destruct (Z.le_gt_cases (fmt_emin F) (L + e - (fmt_prec F - 1))) as [Hn|Hs].
    + rewrite Z.max_l in Hq |- * by lia.
      set (q := L + e - (fmt_prec F - 1)) in *.
      assert (Hsig : P <= Z.pos m * 2 ^ (e - q) < 2 * P).
      { rewrite <- HPP. unfold P. replace (fmt_prec F - 1) with (L + (e - q)) by lia.
        replace (fmt_prec F) with (Z.succ L + (e - q)) by lia.
        rewrite !Z.pow_add_r by lia. assert (0 < 2 ^ (e - q)) by lia. nia. }
      replace (Z.pos m * 2 ^ (e - q) + (q - fmt_emin F) * P)
        with (Z.pos m * 2 ^ (e - q) - P + (q - fmt_emin F + 1) * P) by ring.
      unfold P in *. rewrite float_of_bits_fields by first [exact Hwf | lia].
      rewrite (proj2 (Z.eqb_neq _ _)), (proj2 (Z.eqb_neq _ _)) by lia.
      rewrite Z.sub_add, make_float_shift by first [exact Ho | lia]. f_equal. lia.
    + rewrite Z.max_r in Hq |- * by lia.
      assert (Hsig : 0 <= Z.pos m * 2 ^ (e - fmt_emin F) < P).
      { split; [nia|]. unfold P.
        apply Z.lt_le_trans with (2 ^ Z.succ L * 2 ^ (e - fmt_emin F)); [nia|].
        rewrite <- Z.pow_add_r by lia. apply Z.pow_le_mono_r; lia. }
      rewrite Z.sub_diag. unfold P in *. rewrite float_of_bits_fields by first [exact Hwf | lia].
      rewrite (proj2 (Z.eqb_neq _ _)) by lia. rewrite Z.eqb_refl.
      rewrite make_float_shift by first [exact Ho | lia]. f_equal. lia.
Qed.

Lemma magnitude_bits_range F m e :
  fmt_wf F -> in_fmt F m e = true ->
  0 <= magnitude_bits F m e < 2 * fmt_emax F * 2 ^ (fmt_prec F - 1).
Proof.
  intros [Hp Hbias Hemax _] H. pose proof (in_fmt_quantum F m e H) as Hq.
  apply in_fmt_iff in H as (Ho & Hm & He & Hlt).
  unfold magnitude_bits. rewrite Z.shiftl_mul_pow2 by lia.
  set (P := 2 ^ (fmt_prec F - 1)). set (q := quantum F m e) in *.
  assert (HP : 0 < P) by (apply Z.pow_pos_nonneg; lia).
  assert (Hqlo : fmt_emin F <= q) by (unfold q, quantum; lia).
  assert (Hqhi : q <= fmt_emax F - fmt_prec F) by (unfold q, quantum; lia).
  pose proof (Z.log2_spec (Z.pos m) ltac:(lia)) as [_ Hl2].
  assert (Hsig : 0 <= Z.pos m * 2 ^ (e - q) < 2 * P).
  { split; [nia|]. replace (2 * P) with (2 ^ fmt_prec F).
    2: { unfold P. rewrite <- Z.pow_succ_r by lia. f_equal. lia. }
    apply Z.lt_le_trans with (2 ^ Z.succ (Z.log2 (Z.pos m)) * 2 ^ (e - q)); [nia|].
    rewrite <- Z.pow_add_r by (pose proof (Z.log2_nonneg (Z.pos m)); lia).
    apply Z.pow_le_mono_r; unfold q, quantum; lia. }
  nia.
Qed.

Lemma float_bits_range F a :
  fmt_wf F -> float_in F a = true -> 0 <= float_bits F a < 256 ^ Z.of_nat (fmt_bytes F).
Proof.
  intros Hwf Ha. pose proof Hwf as [Hp Hbias Hemax Hw]. rewrite <- Hw.
  set (P := 2 ^ (fmt_prec F - 1)).
  assert (HP : 0 < P) by (apply Z.pow_pos_nonneg; lia).
  assert (HPP : 2 ^ fmt_prec F = 2 * P).
  { unfold P. rewrite <- Z.pow_succ_r by lia. f_equal. lia. }
  assert (H2 : 0 < 2 ^ (fmt_prec F - 2) <= P).
  { split; [apply Z.pow_pos_nonneg; lia|]. apply Z.pow_le_mono_r; lia. }
  assert (Hs : forall neg, sign_bit F neg = 0 \/ sign_bit F neg = 2 * fmt_emax F * P).
  { intros []; [by right|by left]. }
  rewrite HPP. destruct a as [|neg|neg|neg m e]; cbn [float_bits]; unfold inf_bits; fold P.
  - nia.
  - destruct (Hs neg) as [-> | ->]; nia.
  - destruct (Hs neg) as [-> | ->]; nia.
  - pose proof (magnitude_bits_range F m e Hwf Ha) as Hm. fold P in Hm.
    destruct (Hs neg) as [-> | ->]; nia.
Qed.

(** [struct.unpack] after [struct.pack] gives the rounded value. *)
Lemma struct_unpack_pack F a bs :
  fmt_wf F -> float_in double a = true -> struct_pack F a = Ok bs ->
  exists b, round_to F a = Some b /\ struct_unpack F bs = Ok b /\ length bs = fmt_bytes F.
Proof.
  intros Hwf Ha. unfold struct_pack, struct_unpack.
  destruct (round_to F a) as [b|] eqn:E; [|discriminate]. intros [= <-].
  exists b. split; [done|]. rewrite length_be_bytes, decide_True by done.
  split; [|done].
  pose proof (round_to_in_fmt F a b Hwf Ha E) as Hb.
  rewrite from_be_bytes, Z.mod_small by by apply float_bits_range.
  by rewrite float_of_float_bits.
Qed.
