(* ===== verification/PyValue.v ===== *)
(** * PyValue

    The dynamically typed values the wire layer moves between dataclasses and
    CBOR, and the operations of the language it applies to them: subscription,
    [dict.get], iteration, truth, [int()] and [float()]. A [str] is represented
    by its UTF-8 encoding. *)

From S2P Require Import Prelude PyFloat.
From Stdlib Require Import Strings.Ascii.

(** ** Values *)

(** The two markers of [wire/cbor.py] for a typed float field. *)
Inductive float_width : Type := F32 | F64.

#[warnings="-register-all"]
Inductive pyval : Type :=
| PNone
| PBool (b : bool)
| PInt (z : Z)
| PFloat (f : pyfloat)
| PStr (s : string)
| PBytes (bs : bytes)
| PList (l : list pyval)
| PDict (d : list (pyval * pyval))
| PFloatField (w : float_width) (f : pyfloat).

Section Induction.
Variable P : pyval -> Prop.
Hypothesis HNone : P PNone.
Hypothesis HBool : forall b, P (PBool b).
Hypothesis HInt : forall z, P (PInt z).
Hypothesis HFloat : forall f, P (PFloat f).
Hypothesis HStr : forall s, P (PStr s).
Hypothesis HBytes : forall bs, P (PBytes bs).
Hypothesis HList : forall l, Forall P l -> P (PList l).
Hypothesis HDict : forall d, Forall (fun kv => P kv.1 /\ P kv.2) d -> P (PDict d).
Hypothesis HField : forall w f, P (PFloatField w f).

(** Structural induction through the nested lists. *)
Fixpoint pyval_nested_ind (v : pyval) : P v :=
  match v with
  | PNone => HNone
  | PBool b => HBool b
  | PInt z => HInt z
  | PFloat f => HFloat f
  | PStr s => HStr s
  | PBytes bs => HBytes bs
  | PList l =>
      HList l ((fix go l : Forall P l :=
        match l with
        | [] => @List.Forall_nil _ _
        | x :: l => @List.Forall_cons _ _ x l (pyval_nested_ind x) (go l)
        end) l)
  | PDict d =>
      HDict d ((fix go d : Forall (fun kv => P kv.1 /\ P kv.2) d :=
        match d with
        | [] => @List.Forall_nil _ _
        | (k, x) :: d =>
            @List.Forall_cons _ _ (k, x) d (conj (pyval_nested_ind k) (pyval_nested_ind x)) (go d)
        end) d)
  | PFloatField w f => HField w f
  end.
End Induction.

(** ** Dictionaries with string keys *)

Abbreviation pyresult := (result py_error).

(** The value under a string key; a dict has at most one entry per key. *)
Fixpoint dict_get (d : list (pyval * pyval)) (k : string) : option pyval :=
  match d with
  | [] => None
  | (PStr k', v) :: d => if String.eqb k' k then Some v else dict_get d k
  | _ :: d => dict_get d k
  end.

(** [m[k]]. *)
Definition py_getitem (m : pyval) (k : string) : pyresult pyval :=
  match m with
  | PDict d => match dict_get d k with Some v => Ok v | None => Raise (KeyError k) end
  | _ => Raise TypeError
  end.

(** [m.get(k, default)]. *)
Definition py_get (m : pyval) (k : string) (default : pyval) : pyresult pyval :=
  match m with
  | PDict d => match dict_get d k with Some v => Ok v | None => Ok default end
  | _ => Raise AttributeError
  end.

(** [isinstance(v, dict) and k in v]. *)
Definition is_dict_with (v : pyval) (k : string) : bool :=
  match v with
  | PDict d => match dict_get d k with Some _ => true | None => false end
  | _ => false
  end.

(** A dict display whose values are computed left to right. *)
Definition entry : Type := string * pyresult pyval.
Definition mk_entry (k : string) (v : pyresult pyval) : entry := (k, v).
Notation "k '::=' v" := (mk_entry k v) (at level 70, no associativity) : brain_scope.

Definition py_dict (es : list entry) : pyresult pyval :=
  let* kvs := map_result (fun '(k, c) => let* v := c in Ok (PStr k, v)) es in
  Ok (PDict kvs).

(** ** Iteration and conversions *)

Definition is_continuation (c : ascii) : bool :=
  let n := N_of_ascii c in (128 <=? n)%N && (n <? 192)%N.

(** The characters of a [str], each as a one-character string: a lead byte and
    its continuation bytes. *)
Fixpoint utf8_chars (s : string) : list string :=
  match s with
  | EmptyString => []
  | String c s =>
      match utf8_chars s with
      | [] => [String c EmptyString]
      | t :: ts =>
          match t with
          | String c' _ => if is_continuation c' then String c t :: ts
                           else String c EmptyString :: t :: ts
          | EmptyString => String c EmptyString :: ts
          end
      end
  end.

(** The items [for x in v] ranges over. *)
Definition py_iter (v : pyval) : pyresult (list pyval) :=
  match v with
  | PList l => Ok l
  | PDict d => Ok (map fst d)
  | PStr s => Ok (map PStr (utf8_chars s))
  | PBytes bs => Ok (map (fun b => PInt (byte_to_Z b)) bs)
  | _ => Raise TypeError
  end.

(** [list(v)]. *)
Definition py_list (v : pyval) : pyresult pyval :=
  let* l := py_iter v in Ok (PList l).

(** [bool(v)]. *)
Definition py_bool (v : pyval) : bool :=
  match v with
  | PNone => false
  | PBool b => b
  | PInt z => negb (z =? 0)
  | PFloat (FZero _) => false
  | PFloat _ => true
  | PStr s => negb (String.eqb s "")
  | PBytes bs => match bs with [] => false | _ => true end
  | PList l => match l with [] => false | _ => true end
  | PDict d => match d with [] => false | _ => true end
  | PFloatField _ _ => true
  end.

Definition bool_to_Z (b : bool) : Z := if b then 1 else 0.

(** The integer an integral float is, towards zero otherwise. *)
Definition float_trunc (neg : bool) (m : positive) (e : Z) : Z :=
  let a := Z.shiftl (Z.pos m) e in if neg then - a else a.

(** Decimal digits with single underscores between them, as [int()] reads
    them; [seen] says that a digit comes right before. *)
Fixpoint int_digits (s : string) (acc : Z) (seen : bool) : option Z :=
  match s with
  | EmptyString => if seen then Some acc else None
  | String c s =>
      let n := Z.of_N (N_of_ascii c) in
      if (48 <=? n) && (n <=? 57) then int_digits s (acc * 10 + (n - 48)) true
      else if (n =? 95) && seen then
        match s with EmptyString => None | _ => int_digits s acc false end
      else None
  end.

Definition is_space (c : ascii) : bool :=
  let n := N_of_ascii c in ((9 <=? n)%N && (n <=? 13)%N) || ((28 <=? n)%N && (n <=? 32)%N).

Fixpoint strip_left (s : string) : string :=
  match s with
  | String c s' => if is_space c then strip_left s' else s
  | EmptyString => EmptyString
  end.

(** The string without its trailing white space. *)
Fixpoint strip_right (s : string) : string :=
  match s with
  | String c s' =>
      match strip_right s' with
      | EmptyString => if is_space c then EmptyString else String c EmptyString
      | t => String c t
      end
  | EmptyString => EmptyString
  end.

(** [int(s)] on ASCII digits, with optional sign and surrounding spaces. *)
Definition int_of_str (s : string) : pyresult Z :=
  let s := strip_right (strip_left s) in
  let r := match s with
           | String "-"%char s => option_map Z.opp (int_digits s 0 false)
           | String "+"%char s => int_digits s 0 false
           | _ => int_digits s 0 false
           end in
  match r with Some z => Ok z | None => Raise ValueError end.

(** The separators [int] strips from a str only. *)
Definition separator_byte (b : byte) : bool :=
  let n := Byte.to_N b in (28 <=? n)%N && (n <=? 31)%N.

(** [int(b)] of bytes. *)
Definition int_of_bytes (bs : bytes) : pyresult Z :=
  if existsb separator_byte bs then Raise ValueError
  else int_of_str (String.string_of_list_byte bs).

(** [int(v)]. *)
Definition py_int (v : pyval) : pyresult Z :=
  match v with
  | PInt z => Ok z
  | PBool b => Ok (bool_to_Z b)
  | PFloat (FFin neg m e) => Ok (float_trunc neg m e)
  | PFloat (FZero _) => Ok 0
  | PFloat FNan => Raise ValueError
  | PFloat (FInf _) => Raise OverflowError
  | PStr s => int_of_str s
  | PBytes bs => int_of_bytes bs
  | _ => Raise TypeError
  end.

(** [float(z)] of an integer: correctly rounded, too large raises. *)
Definition float_of_int (z : Z) : pyresult pyfloat :=
  match z with
  | 0 => Ok (FZero false)
  | Z.pos p | Z.neg p =>
      let '(m, e) := odd_part p 0 in
      match round_to double (FFin (z <? 0) m e) with
      | Some f => Ok f
      | None => Raise OverflowError
      end
  end.

(** [float(v)] (a numeric string is not parsed). *)
Definition py_float (v : pyval) : pyresult pyfloat :=
  match v with
  | PFloat f => Ok f
  | PFloatField _ f => Ok f
  | PInt z => float_of_int z
  | PBool b => float_of_int (bool_to_Z b)
  | PStr _ | PBytes _ => Raise ValueError
  | _ => Raise TypeError
  end.

(** [v == z] with an integer on the right. *)
Definition py_eq_int (v : pyval) (z : Z) : bool :=
  match v with
  | PInt y => y =? z
  | PBool b => bool_to_Z b =? z
  | PFloat f | PFloatField _ f =>
      match f with
      | FZero _ => z =? 0
      | FFin neg m e => (0 <=? e) && (float_trunc neg m e =? z)
      | _ => false
      end
  | _ => false
  end.

(** [v == s] with a [str] on the right. *)
Definition py_eq_str (v : pyval) (s : string) : bool :=
  match v with PStr s' => String.eqb s' s | _ => false end.

Definition is_none (v : pyval) : bool := match v with PNone => true | _ => false end.

(** ** Markers and nesting *)

(** The value with its float markers replaced by the floats they wrap: what a
    peer reads back. *)
Fixpoint unmark (v : pyval) : pyval :=
  match v with
  | PList l => PList (map unmark l)
  | PDict d => PDict (map (fun '(k, x) => (unmark k, unmark x)) d)
  | PFloatField _ f => PFloat f
  | _ => v
  end.

(** No float marker anywhere in the value. *)
Fixpoint plain (v : pyval) : bool :=
  match v with
  | PList l => forallb plain l
  | PDict d => forallb (fun '(k, x) => plain k && plain x) d
  | PFloatField _ _ => false
  | _ => true
  end.

(** How deep containers nest. *)
Fixpoint depth (v : pyval) : nat :=
  match v with
  | PList l => S (foldr (fun x n => Nat.max (depth x) n) 0%nat l)
  | PDict d => S (foldr (fun '(k, x) n => Nat.max (Nat.max (depth k) (depth x)) n) 0%nat d)
  | _ => 0%nat
  end.

(** ** Lemmas *)

Lemma unmark_plain v : plain v = true -> unmark v = v.
Proof.
  induction v as [| | | | | |l IH|d IH|] using pyval_nested_ind; try done; simpl; intros H.
  - f_equal. etransitivity; [|apply map_id]. apply map_ext_in. intros x Hx.
    rewrite forallb_forall in H. rewrite Forall_forall in IH.
    apply IH; [by apply list_elem_of_In | by apply H].
  - f_equal. etransitivity; [|apply map_id]. apply map_ext_in. intros [k x] Hx.
    rewrite forallb_forall in H. rewrite Forall_forall in IH.
    specialize (H _ Hx). apply andb_true_iff in H as [Hk Hv].
    destruct (IH (k, x)) as [IHk IHv]; [by apply list_elem_of_In|].
    simpl in *. by rewrite IHk, IHv.
Qed.

(** A [dict_get] sees through [unmark]. *)
Lemma dict_get_unmark d k :
  dict_get (map (fun '(k, x) => (unmark k, unmark x)) d) k = unmark <$> dict_get d k.
Proof.
  induction d as [|[k' x] d IH]; [done|].
  simpl. destruct k'; simpl; try done. by case_match.
Qed.

(** Two dicts with the same entries, in any order: what [m[k]] and
    [m.get(k)] can tell apart. *)
Definition dict_equiv (a b : pyval) : Prop :=
  match a, b with
  | PDict d, PDict e => forall k, dict_get d k = dict_get e k
  | _, _ => a = b
  end.

#[export] Instance dict_equiv_equivalence : Equivalence dict_equiv.
Proof.
  split.
  - intros []; simpl; done.
  - intros [] [] H; simpl in *; try done; congruence.
  - intros [] [] [] H1 H2; simpl in *; try done; try congruence.
Qed.

#[export] Instance py_getitem_proper : Proper (dict_equiv ==> eq ==> eq) py_getitem.
Proof. intros [] [] H k _ <-; simpl in *; try done. by rewrite H. Qed.

#[export] Instance py_get_proper : Proper (dict_equiv ==> eq ==> eq ==> eq) py_get.
Proof. intros [] [] H k _ <- v _ <-; simpl in *; try done. by rewrite H. Qed.

#[export] Instance is_dict_with_proper : Proper (dict_equiv ==> eq ==> eq) is_dict_with.
Proof. intros [] [] H k _ <-; simpl in *; try done. by rewrite H. Qed.

Lemma depth_list_le l x : x ∈ l -> (depth x < depth (PList l))%nat.
Proof.
  simpl. induction 1; simpl; lia.
Qed.

Lemma depth_dict_le d k x :
  (k, x) ∈ d -> (depth k < depth (PDict d))%nat /\ (depth x < depth (PDict d))%nat.
Proof.
  simpl. intros H. remember (k, x) as kv eqn:E. revert E.
  induction H as [? ?|? [k' x'] ? H IH]; intros ->; simpl; [lia|].
  specialize (IH eq_refl). lia.
Qed.
