(* ===== verification/PyArith.v ===== *)
(** * PyArith

    The float operations of the language that the client's policies use:
    comparison, [min], multiplication and division, correctly rounded. *)

From S2P Require Import Prelude PyFloat PyValue.

(** ** Comparison *)

(** The signed mantissa of a finite float at a smaller exponent. *)
Definition scaled (neg : bool) (m : positive) (e q : Z) : Z :=
  let a := Z.pos m * 2 ^ (e - q) in if neg then - a else a.

(** The order of two floats; [None] when one of them is a NaN. *)
Definition float_compare (a b : pyfloat) : option comparison :=
  match a, b with
  | FNan, _ | _, FNan => None
  | FInf n, FInf n' => Some (if n then (if n' then Eq else Lt) else (if n' then Gt else Eq))
  | FInf n, _ => Some (if n then Lt else Gt)
  | _, FInf n => Some (if n then Gt else Lt)
  | FZero _, FZero _ => Some Eq
  | FZero _, FFin n _ _ => Some (if n then Gt else Lt)
  | FFin n _ _, FZero _ => Some (if n then Lt else Gt)
  | FFin n m e, FFin n' m' e' =>
      let q := Z.min e e' in Some (scaled n m e q ?= scaled n' m' e' q)
  end.

Definition float_ltb (a b : pyfloat) : bool :=
  match float_compare a b with Some Lt => true | _ => false end.

Definition float_leb (a b : pyfloat) : bool :=
  match float_compare a b with Some (Lt | Eq) => true | _ => false end.

(** [min(a, b)]: the first argument unless the second is smaller. *)
Definition py_min (a b : pyfloat) : pyfloat := if float_ltb b a then b else a.

(** [bool(x)] of a float. *)
Definition float_truthy (a : pyfloat) : bool := match a with FZero _ => false | _ => true end.

(** ** Arithmetic *)

(** A result rounded to double; a finite result out of range is an infinity. *)
Definition rounded (neg : bool) (n e : Z) : pyfloat :=
  match make_float neg n e with
  | FFin neg m e => match round_to double (FFin neg m e) with Some f => f | None => FInf neg end
  | f => f
  end.

Definition sign_of (a : pyfloat) : bool :=
  match a with FNan => false | FInf n | FZero n | FFin n _ _ => n end.

(** [a * b]. *)
Definition float_mul (a b : pyfloat) : pyfloat :=
  let neg := xorb (sign_of a) (sign_of b) in
  match a, b with
  | FNan, _ | _, FNan | FInf _, FZero _ | FZero _, FInf _ => FNan
  | FInf _, _ | _, FInf _ => FInf neg
  | FZero _, _ | _, FZero _ => FZero neg
  | FFin _ m e, FFin _ m' e' => rounded neg (Z.pos m * Z.pos m') (e + e')
  end.

(** [a / b] by a finite non-zero float: the quotient to 64 more bits than the
    operands have, with a sticky bit for the remainder, rounded once. *)
Definition float_div (a b : pyfloat) : pyfloat :=
  let neg := xorb (sign_of a) (sign_of b) in
  match a, b with
  | FFin _ m e, FFin _ m' e' =>
      let k := 64 + Z.log2 (Z.pos m') in
      let n := Z.shiftl (Z.pos m) k in
      let q := n / Z.pos m' in
      let sticky := if n mod Z.pos m' =? 0 then 0 else 1 in
      rounded neg (2 * q + sticky) (e - e' - k - 1)
  | FNan, _ | _, FNan | FInf _, FInf _ | _, FZero _ => FNan
  | FZero _, _ | _, FInf _ => FZero neg
  | FInf _, _ => FInf neg
  end.

Example mul_tenth_4 :
  float_mul (FFin false 3602879701896397 (-55)) (FFin false 1 2) = FFin false 3602879701896397 (-53).
Proof. by_compute. Qed.
(** [1500 / 1000.0 = 1.5] and [100 / 1000.0 = 0.1]. *)
Example div_1500 : float_div (FFin false 375 2) (FFin false 125 3) = FFin false 3 (-1).
Proof. by_compute. Qed.
Example div_100 : float_div (FFin false 25 2) (FFin false 125 3) = FFin false 3602879701896397 (-55).
Proof. by_compute. Qed.

(** ** Lemmas *)

Lemma float_compare_antisym a b :
  float_compare b a = option_map CompOpp (float_compare a b).
Proof.
  destruct a as [|[]|[]|[] m e], b as [|[]|[]|[] m' e']; try done;
    cbn [float_compare option_map]; by rewrite (Z.min_comm e' e), Z.compare_antisym.
Qed.

Lemma float_compare_nan a b : isnan a = false -> isnan b = false -> float_compare a b <> None.
Proof. by destruct a, b. Qed.

Lemma float_ltb_false a b :
  isnan a = false -> isnan b = false -> float_ltb b a = false -> float_leb a b = true.
Proof.
  intros Ha Hb. unfold float_ltb, float_leb. rewrite float_compare_antisym.
  pose proof (float_compare_nan a b Ha Hb). by destruct (float_compare a b) as [[]|].
Qed.

Lemma float_ltb_leb a b : float_ltb a b = true -> float_leb a b = true.
Proof. unfold float_ltb, float_leb. by destruct (float_compare a b) as [[]|]. Qed.

Lemma float_leb_refl a : isnan a = false -> float_leb a a = true.
Proof.
  destruct a as [|[]|[]|n m e]; try done; intros _. unfold float_leb. cbn [float_compare].
  by rewrite Z.compare_refl.
Qed.

Lemma py_min_le_r a b : isnan a = false -> isnan b = false -> float_leb (py_min a b) b = true.
Proof.
  intros Ha Hb. unfold py_min. destruct (float_ltb b a) eqn:E.
  - by apply float_leb_refl.
  - by apply float_ltb_false.
Qed.

Lemma py_min_le_l a b : isnan a = false -> float_leb (py_min a b) a = true.
Proof.
  intros Ha. unfold py_min. destruct (float_ltb b a) eqn:E.
  - by apply float_ltb_leb.
  - by apply float_leb_refl.
Qed.

Lemma py_min_nan a b : isnan a = false -> isnan b = false -> isnan (py_min a b) = false.
Proof. intros. unfold py_min. by destruct (float_ltb b a). Qed.

(** [2 ** k] as a float. *)
Lemma odd_part_pow2 k e : 0 <= k -> odd_part (Z.to_pos (2 ^ k)) e = (1%positive, e + k).
Proof.
  intros Hk. apply (odd_part_shift 1); [done|done|].
  rewrite Z2Pos.id by (apply Z.pow_pos_nonneg; lia). lia.
Qed.

Lemma float_of_int_pow2 k :
  0 <= k -> float_of_int (2 ^ k)
            = if k <? 1024 then Ok (FFin false 1 k) else Raise OverflowError.
Proof.
  intros Hk. unfold float_of_int.
  assert (H : 0 < 2 ^ k) by (apply Z.pow_pos_nonneg; lia).
  destruct (2 ^ k) as [|p|p] eqn:E; [lia| |lia].
  assert (Ho : odd_part p 0 = (1%positive, k)).
  { rewrite <- (Z.add_0_l k) at 1. rewrite <- (odd_part_pow2 k 0 Hk), E. done. }
  rewrite Ho. cbn [round_to]. unfold round_mantissa, quantum. cbn [fmt_prec fmt_emin double].
  rewrite (proj2 (Z.leb_le _ _)) by (cbn; lia).
  change (fmt_emax double) with 1024. change (Z.log2 1) with 0. cbn [Z.ltb Z.compare andb].
  rewrite Z.add_0_l, Z.leb_antisym. by destruct (k <? 1024).
Qed.

Lemma make_float_nan neg n e : isnan (make_float neg n e) = false.
Proof. destruct n; simpl; [done| |done]. by destruct (odd_part p e). Qed.

Lemma round_to_nan F a b : round_to F a = Some b -> isnan b = isnan a.
Proof.
  destruct a; [by intros [= <-]..|]. cbn [round_to]. destruct (round_mantissa F m e) as [n q].
  destruct (_ && _); [done|]. intros [= <-]. by rewrite make_float_nan.
Qed.

Lemma rounded_nan neg n e : isnan (rounded neg n e) = false.
Proof.
  unfold rounded. pose proof (make_float_nan neg n e) as H.
  destruct (make_float neg n e) as [| | |s m q]; [done..|].
  destruct (round_to double (FFin s m q)) as [f|] eqn:E; [|done].
  by apply round_to_nan in E.
Qed.

Lemma float_mul_nan a s m e : isnan a = false -> isnan (float_mul a (FFin s m e)) = false.
Proof. destruct a; try done. intros _. apply rounded_nan. Qed.

(** The order is transitive. *)
Lemma scaled_mono neg m e q k : q <= e -> 0 <= k -> scaled neg m e (q - k) = scaled neg m e q * 2 ^ k.
Proof.
  intros Hq Hk. unfold scaled. replace (e - (q - k)) with ((e - q) + k) by lia.
  rewrite Z.pow_add_r by lia. destruct neg; ring.
Qed.

Lemma compare_scale a b k : 0 <= k -> (a * 2 ^ k ?= b * 2 ^ k) = (a ?= b).
Proof.
  intros Hk. assert (0 < 2 ^ k) by (apply Z.pow_pos_nonneg; lia).
  rewrite !(Z.mul_comm _ (2 ^ k)). symmetry. apply Zmult_compare_compat_l. lia.
Qed.

Lemma float_compare_at n m e n' m' e' q :
  q <= Z.min e e' ->
  float_compare (FFin n m e) (FFin n' m' e') = Some (scaled n m e q ?= scaled n' m' e' q).
Proof.
  intros Hq. cbn [float_compare]. f_equal. symmetry.
  replace q with (Z.min e e' - (Z.min e e' - q)) by lia.
  rewrite !scaled_mono by lia. apply compare_scale. lia.
Qed.

Lemma scaled_sign (n : bool) m e q :
  q <= e -> if n then scaled n m e q < 0 else 0 < scaled n m e q.
Proof.
  intros Hq. assert (0 < 2 ^ (e - q)) by (apply Z.pow_pos_nonneg; lia).
  unfold scaled. destruct n; nia.
Qed.

(** A float as a point of an ordered set: minus infinity, the finite values at
    a common exponent [q], infinity. *)
Definition float_key (q : Z) (a : pyfloat) : Z * Z :=
  match a with
  | FInf n => (if n then -1 else 1, 0)
  | FFin n m e => (0, scaled n m e q)
  | _ => (0, 0)
  end.

Definition float_exp (a : pyfloat) : Z := match a with FFin _ _ e => e | _ => 0 end.

Lemma float_leb_key q a b :
  isnan a = false -> isnan b = false -> q <= float_exp a -> q <= float_exp b ->
  float_leb a b = true <->
  (float_key q a).1 < (float_key q b).1
  \/ ((float_key q a).1 = (float_key q b).1 /\ (float_key q a).2 <= (float_key q b).2).
Proof.
  intros Ha Hb Hqa Hqb. unfold float_leb.
  destruct a as [|na|na|na ma ea], b as [|nb|nb|nb mb eb]; try done; cbn [float_exp] in *.
  - destruct na, nb; cbn; intuition (lia || done).
  - destruct na; cbn; intuition (lia || done).
  - destruct na; cbn; intuition (lia || done).
  - destruct nb; cbn; intuition (lia || done).
  - cbn; intuition (lia || done).
  - pose proof (scaled_sign nb mb eb q Hqb). destruct nb; cbn [float_compare float_key fst snd];
      intuition (lia || done).
  - destruct nb; cbn; intuition (lia || done).
  - pose proof (scaled_sign na ma ea q Hqa). destruct na; cbn [float_compare float_key fst snd];
      intuition (lia || done).
  - rewrite (float_compare_at na ma ea nb mb eb q) by lia. cbn [float_key fst snd].
    destruct (Z.compare_spec (scaled na ma ea q) (scaled nb mb eb q)); intuition (lia || done).
Qed.

Lemma float_leb_not_nan a b : float_leb a b = true -> isnan a = false /\ isnan b = false.
Proof. destruct a, b; done. Qed.

Lemma float_leb_trans a b c :
  float_leb a b = true -> float_leb b c = true -> float_leb a c = true.
Proof.
  intros Hab Hbc. destruct (float_leb_not_nan _ _ Hab). destruct (float_leb_not_nan _ _ Hbc).
  set (q := Z.min (float_exp a) (Z.min (float_exp b) (float_exp c))).
  rewrite (float_leb_key q) in Hab, Hbc |- * by (done || lia). lia.
Qed.
