(* ===== verification/Rfc8949.v ===== *)
(** * Rfc8949

    The part of RFC 8949 (CBOR) that the payloads use, as an executable encoder
    and decoder over [pyval]: preferred-length integers, definite-length
    strings, arrays and maps, bignums, the simple values and the three float
    widths. It is the contract the third-party [cbor2] package documents (in
    its default, non-canonical mode) and the reference the components of
    [wire/cbor.py] are stated against; nothing of [cbor2] itself is defined. *)

From S2P Require Import Prelude PyFloat PyValue.

(** ** Encoding *)

(** The initial byte and argument of an item, in the shortest form. *)
Definition item_head (major arg : Z) : bytes :=
  if arg <? 24 then [Z_to_byte (major * 32 + arg)]
  else if arg <? 2 ^ 8 then Z_to_byte (major * 32 + 24) :: be_bytes 1 arg
  else if arg <? 2 ^ 16 then Z_to_byte (major * 32 + 25) :: be_bytes 2 arg
  else if arg <? 2 ^ 32 then Z_to_byte (major * 32 + 26) :: be_bytes 4 arg
  else Z_to_byte (major * 32 + 27) :: be_bytes 8 arg.

(** The big-endian bytes of a bignum, without leading zeros. *)
Definition bignum_bytes (n : Z) : bytes := be_bytes (Z.to_nat (Z.log2 n / 8 + 1)) n.

Definition encode_int (z : Z) : bytes :=
  let '(major, n) := if 0 <=? z then (0, z) else (1, -1 - z) in
  if n <? 2 ^ 64 then item_head major n
  else item_head 6 (2 + major) ++ item_head 2 (zlen (bignum_bytes n)) ++ bignum_bytes n.

Definition str_bytes (s : string) : bytes := String.list_byte_of_string s.

Section Encode.
(** The encoder's hook for values it has no encoding for. *)
Variable hook : pyval -> pyresult bytes.

Fixpoint rfc_encode (v : pyval) : pyresult bytes :=
  match v with
  | PNone => Ok [xf6]
  | PBool false => Ok [xf4]
  | PBool true => Ok [xf5]
  | PInt z => Ok (encode_int z)
  | PFloat f => let* bs := struct_pack double f in Ok (xfb :: bs)
  | PBytes bs => Ok (item_head 2 (zlen bs) ++ bs)
  | PStr s => Ok (item_head 3 (zlen (str_bytes s)) ++ str_bytes s)
  | PList l =>
      let* parts := map_result rfc_encode l in
      Ok (item_head 4 (zlen l) ++ concat parts)
  | PDict d =>
      let* parts := map_result (fun '(k, x) =>
        let* kb := rfc_encode k in let* xb := rfc_encode x in Ok (kb ++ xb)) d in
      Ok (item_head 5 (zlen d) ++ concat parts)
  | PFloatField _ _ => hook v
  end.
End Encode.

(** ** Decoding *)

Definition in_range (lo hi b : Z) : bool := (lo <=? b) && (b <=? hi).

(** A well-formed UTF-8 byte sequence. *)
Fixpoint valid_utf8 (s : list Z) : bool :=
  match s with
  | [] => true
  | b :: s1 =>
      if b <? 0x80 then valid_utf8 s1 else
      match s1 with
      | [] => false
      | c1 :: s2 =>
          if in_range 0xC2 0xDF b then in_range 0x80 0xBF c1 && valid_utf8 s2 else
          match s2 with
          | [] => false
          | c2 :: s3 =>
              if in_range 0xE0 0xEF b then
                in_range (if b =? 0xE0 then 0xA0 else 0x80) (if b =? 0xED then 0x9F else 0xBF) c1
                && in_range 0x80 0xBF c2 && valid_utf8 s3
              else
              match s3 with
              | [] => false
              | c3 :: s4 =>
                  in_range 0xF0 0xF4 b
                  && in_range (if b =? 0xF0 then 0x90 else 0x80) (if b =? 0xF4 then 0x8F else 0xBF) c1
                  && in_range 0x80 0xBF c2 && in_range 0x80 0xBF c3 && valid_utf8 s4
              end
          end
      end
  end.

Definition utf8_ok (bs : bytes) : bool := valid_utf8 (map byte_to_Z bs).

(** The first [n] bytes and the rest, when there are as many. *)
Definition split_at (n : Z) (bs : bytes) : option (bytes * bytes) :=
  if n <=? zlen bs then Some (take (Z.to_nat n) bs, drop (Z.to_nat n) bs) else None.

(** The number of argument bytes an additional-information code announces. *)
Definition arg_width (ai : Z) : option nat :=
  match ai with
  | 24 => Some 1%nat | 25 => Some 2%nat | 26 => Some 4%nat | 27 => Some 8%nat
  | _ => None
  end.

(** Major type, additional information, argument and what follows. *)
Definition decode_head (bs : bytes) : option (Z * Z * Z * bytes) :=
  match bs with
  | [] => None
  | ib :: rest =>
      let major := byte_to_Z ib / 32 in
      let ai := byte_to_Z ib mod 32 in
      if ai <? 24 then Some (major, ai, ai, rest)
      else match arg_width ai with
           | Some w =>
               match split_at (Z.of_nat w) rest with
               | Some (a, rest) => Some (major, ai, from_bytes_big a, rest)
               | None => None
               end
           | None => None
           end
  end.

(** [n] items one after the other, with fuel. *)
Fixpoint decode_n {A} (dec : bytes -> option (A * bytes)) (fuel : nat) (n : Z) (bs : bytes)
    : option (list A * bytes) :=
  if n <=? 0 then Some ([], bs)
  else match fuel with
       | O => None
       | S fuel =>
           match dec bs with
           | Some (x, bs) =>
               match decode_n dec fuel (n - 1) bs with
               | Some (xs, bs) => Some (x :: xs, bs)
               | None => None
               end
           | None => None
           end
       end.

Definition is_str (v : pyval) : bool := match v with PStr _ => true | _ => false end.

Fixpoint str_in (s : string) (l : list pyval) : bool :=
  match l with
  | [] => false
  | PStr t :: l => String.eqb t s || str_in s l
  | _ :: l => str_in s l
  end.

(** The keys are pairwise distinct strings. *)
Fixpoint str_keys (l : list pyval) : bool :=
  match l with
  | [] => true
  | PStr s :: l => negb (str_in s l) && str_keys l
  | _ => false
  end.

(** One item at the front of a buffer; [None] when there is none, or when it
    has no meaning here (other tags, undefined, indefinite lengths). *)
Fixpoint rfc_decode (fuel : nat) (bs : bytes) : option (pyval * bytes) :=
  match fuel with
  | O => None
  | S fuel =>
      match decode_head bs with
      | None => None
      | Some (major, ai, arg, rest) =>
          match major with
          | 0 => Some (PInt arg, rest)
          | 1 => Some (PInt (-1 - arg), rest)
          | 2 => '(s, rest) ← split_at arg rest; Some (PBytes s, rest)
          | 3 => '(s, rest) ← split_at arg rest;
                 if utf8_ok s then Some (PStr (String.string_of_list_byte s), rest) else None
          | 4 => '(l, rest) ← decode_n (rfc_decode fuel) fuel arg rest; Some (PList l, rest)
          | 5 => '(d, rest) ← decode_n (fun bs =>
                    '(k, bs) ← rfc_decode fuel bs; '(x, bs) ← rfc_decode fuel bs;
                    Some ((k, x), bs)) fuel arg rest;
                 if str_keys (map fst d) then Some (PDict d, rest) else None
          | 6 => '(v, rest) ← rfc_decode fuel rest;
                 match arg, v with
                 | 2, PBytes s => Some (PInt (from_bytes_big s), rest)
                 | 3, PBytes s => Some (PInt (-1 - from_bytes_big s), rest)
                 | _, _ => None
                 end
          | _ => match ai with
                 | 20 => Some (PBool false, rest)
                 | 21 => Some (PBool true, rest)
                 | 22 => Some (PNone, rest)
                 | 25 => Some (PFloat (float_of_bits half arg), rest)
                 | 26 => Some (PFloat (float_of_bits single arg), rest)
                 | 27 => Some (PFloat (float_of_bits double arg), rest)
                 | _ => None
                 end
          end
      end
  end.

(** Exactly one item. *)
Definition rfc_loads (bs : bytes) : option pyval :=
  match rfc_decode (S (length bs)) bs with
  | Some (v, []) => Some v
  | _ => None
  end.

(** ** The values of the payloads *)

(** What the wire layer hands the encoder: integers up to 128 bits, finite
    doubles, well-formed text, maps with distinct string keys, markers. *)
Fixpoint cbor_ok (v : pyval) : bool :=
  match v with
  | PNone | PBool _ => true
  | PInt z => (- 2 ^ 128 <=? z) && (z <? 2 ^ 128)
  | PFloat f => float_in double f && negb (isnan f) && negb (isinf f)
  | PStr s => utf8_ok (str_bytes s) && (zlen (str_bytes s) <? 2 ^ 64)
  | PBytes bs => zlen bs <? 2 ^ 64
  | PList l => forallb cbor_ok l && (zlen l <? 2 ^ 64)
  | PDict d => forallb (fun '(k, x) => cbor_ok k && cbor_ok x) d && (zlen d <? 2 ^ 64)
               && str_keys (map fst d)
  | PFloatField _ f => float_in double f
  end.

Example enc_dec_sample :
  let v := PDict [(PStr "a", PInt (-500)); (PStr "id", PInt (2 ^ 127));
                  (PStr "l", PList [PNone; PBool true; PBytes [x01]; PFloat (FFin true 5 (-1))])] in
  match rfc_encode (fun _ => Raise TypeError) v with
  | Ok bs => rfc_loads bs = Some v
  | Raise _ => False
  end.
Proof. by_compute. Qed.

(** ** Lemmas: heads *)

Lemma split_at_app a (rest : bytes) : split_at (zlen a) (a ++ rest) = Some (a, rest).
Proof.
  unfold split_at. rewrite zlen_app, (proj2 (Z.leb_le _ _)) by (unfold zlen; lia).
  unfold zlen. by rewrite Nat2Z.id, take_app_length, drop_app_length.
Qed.

Lemma initial_byte major ai :
  0 <= major < 8 -> 0 <= ai < 32 ->
  byte_to_Z (Z_to_byte (major * 32 + ai)) / 32 = major
  /\ byte_to_Z (Z_to_byte (major * 32 + ai)) mod 32 = ai.
Proof.
  intros. rewrite byte_to_Z_Z_to_byte, Z.mod_small by lia. split.
  - rewrite Z.div_add_l by lia. rewrite Z.div_small by lia. lia.
  - rewrite Z.add_comm, Z.mod_add by lia. by apply Z.mod_small.
Qed.

Lemma decode_head_wide major ai w arg rest :
  0 <= major < 8 -> 24 <= ai < 32 -> arg_width ai = Some w ->
  0 <= arg < 256 ^ Z.of_nat w ->
  decode_head ((Z_to_byte (major * 32 + ai) :: be_bytes w arg) ++ rest)
  = Some (major, ai, arg, rest).
Proof.
  intros Hm Ha Hw Harg. cbn [app decode_head].
  destruct (initial_byte major ai) as [-> ->]; [done|lia|].
  rewrite (proj2 (Z.ltb_ge _ _)), Hw by lia.
  replace (Z.of_nat w) with (zlen (be_bytes w arg)) by (unfold zlen; by rewrite length_be_bytes).
  by rewrite split_at_app, from_be_bytes, Z.mod_small.
Qed.

Lemma decode_item_head major arg rest :
  0 <= major < 8 -> 0 <= arg < 2 ^ 64 ->
  exists ai, decode_head (item_head major arg ++ rest) = Some (major, ai, arg, rest).
Proof.
  intros Hm Ha. unfold item_head.
  destruct (arg <? 24) eqn:E1.
  { exists arg. cbn [app decode_head]. apply Z.ltb_lt in E1 as E1'.
    destruct (initial_byte major arg) as [-> ->]; [done|lia|]. by rewrite E1. }
  destruct (arg <? 2 ^ 8) eqn:E2; [|destruct (arg <? 2 ^ 16) eqn:E3;
    [|destruct (arg <? 2 ^ 32) eqn:E4]]; rewrite ?Z.ltb_lt, ?Z.ltb_ge in *;
    eexists; apply decode_head_wide; done || lia.
Qed.

Lemma item_head_cons major arg : exists ib tl, item_head major arg = ib :: tl.
Proof. unfold item_head. repeat case_match; eauto. Qed.

Lemma length_item_head major arg : (0 < length (item_head major arg))%nat.
Proof. destruct (item_head_cons major arg) as (? & ? & ->). simpl. lia. Qed.

(** ** Lemmas: decoding what was encoded *)

(** [bs] is an encoding of [v], whatever follows it and given enough fuel. *)
Definition decodes_to (bs : bytes) (v : pyval) : Prop :=
  forall fuel rest, (length bs < fuel)%nat -> rfc_decode fuel (bs ++ rest) = Some (v, rest).

Lemma decodes_to_nonempty bs v : decodes_to bs v -> (0 < length bs)%nat.
Proof. intros H. destruct bs; [|simpl; lia]. by specialize (H 1%nat [] ltac:(simpl; lia)). Qed.

Lemma decode_n_concat {A B} (dec : bytes -> option (B * bytes)) (f : A -> B) l parts fuel rest :
  Forall2 (fun x b => forall rest, dec (b ++ rest) = Some (f x, rest)) l parts ->
  (length l <= fuel)%nat ->
  decode_n dec fuel (zlen l) (concat parts ++ rest) = Some (map f l, rest).
Proof.
  intros H. revert fuel. induction H as [|x b l parts Hx H IH]; intros fuel Hf.
  - by destruct fuel.
  - destruct fuel as [|fuel]; [simpl in Hf; lia|]. cbn [decode_n].
    rewrite (proj2 (Z.leb_gt _ _)) by (unfold zlen; simpl; lia).
    cbn [concat]. rewrite <- app_assoc, Hx.
    replace (zlen (x :: l) - 1) with (zlen l) by (unfold zlen; simpl length; lia).
    rewrite IH by (simpl in Hf; lia). done.
Qed.

Lemma concat_length_le {A} (parts : list (list A)) b :
  b ∈ parts -> (length b <= length (concat parts))%nat.
Proof. induction 1; simpl; rewrite length_app; lia. Qed.

Lemma length_concat_ge {A} (parts : list (list A)) :
  Forall (fun b => 0 < length b)%nat parts -> (length parts <= length (concat parts))%nat.
Proof. induction 1; simpl; [lia|]. rewrite length_app. lia. Qed.

Lemma encode_int_decodes z :
  - 2 ^ 128 <= z < 2 ^ 128 -> decodes_to (encode_int z) (PInt z).
Proof.
  intros Hz fuel rest. unfold encode_int.
  set (mn := if 0 <=? z then (0, z) else (1, -1 - z)).
  assert (Hmn : (mn.1 = 0 \/ mn.1 = 1) /\ 0 <= mn.2 < 2 ^ 128
                /\ (if mn.1 =? 0 then mn.2 else -1 - mn.2) = z).
  { unfold mn. destruct (0 <=? z) eqn:E; [apply Z.leb_le in E | apply Z.leb_gt in E];
      simpl; split_and!; lia || tauto. }
  clearbody mn. destruct mn as [major n]. simpl in Hmn. destruct Hmn as (Hmaj & Hn & Hval).
  destruct (n <? 2 ^ 64) eqn:E; [apply Z.ltb_lt in E | apply Z.ltb_ge in E]; intros Hf.
  - destruct fuel as [|fuel]; [lia|]. cbn [rfc_decode].
    destruct (decode_item_head major n rest) as [ai ->]; [lia..|].
    destruct Hmaj as [-> | ->]; by rewrite <- Hval.
  - assert (Hlog : 64 <= Z.log2 n < 128).
    { split; [by apply Z.log2_le_pow2; lia|]. apply Z.log2_lt_pow2; lia. }
    set (bs := bignum_bytes n) in *.
    assert (Hbs : length bs = Z.to_nat (Z.log2 n / 8 + 1)) by apply length_be_bytes.
    assert (Hdiv : 8 <= Z.log2 n / 8 < 16).
    { split; [by apply Z.div_le_lower_bound; lia | apply Z.div_lt_upper_bound; lia]. }
    assert (Hval' : from_bytes_big bs = n).
    { unfold bs, bignum_bytes. rewrite from_be_bytes. apply Z.mod_small. split; [lia|].
      apply Z.lt_le_trans with (2 ^ Z.succ (Z.log2 n)); [apply Z.log2_spec; lia|].
      change 256 with (2 ^ 8). rewrite <- Z.pow_mul_r by lia. apply Z.pow_le_mono_r; [lia|].
      rewrite Z2Nat.id by lia. pose proof (Z.mul_succ_div_gt (Z.log2 n) 8 ltac:(lia)). lia. }
    pose proof (length_item_head 2 (zlen bs)) as Hh2.
    rewrite !length_app in Hf. pose proof (length_item_head 6 (2 + major)) as Hh6.
    destruct fuel as [|[|fuel]]; [lia..|]. rewrite <- !app_assoc. cbn [rfc_decode].
    destruct (decode_item_head 6 (2 + major) (item_head 2 (zlen bs) ++ bs ++ rest)) as [ai ->];
      [lia..|]. cbn [rfc_decode].
    destruct (decode_item_head 2 (zlen bs) (bs ++ rest)) as [ai' ->]; [lia|unfold zlen; lia|].
    rewrite split_at_app. cbn. destruct Hmaj as [-> | ->]; by rewrite Hval', <- Hval.
Qed.

(** The hook emits an encoding of the float that a marker wraps. *)
Definition hook_ok (hook : pyval -> pyresult bytes) : Prop :=
  forall w f bs, float_in double f = true -> hook (PFloatField w f) = Ok bs ->
  decodes_to bs (PFloat f).

Lemma str_keys_unmark l : str_keys l = true -> str_keys (map unmark l) = true.
Proof.
  intros H. assert (E : map unmark l = l); [|by rewrite E].
  induction l as [|x l IH]; [done|]. simpl in *. destruct x; try done.
  apply andb_true_iff in H as [_ H]. simpl. by rewrite IH.
Qed.

(** The additional information of a float of each format. *)
Inductive float_ai : fmt -> Z -> Prop :=
| ai_half : float_ai half 25
| ai_single : float_ai single 26
| ai_double : float_ai double 27.

Lemma float_decodes F ai f :
  float_ai F ai -> float_in F f = true ->
  decodes_to (Z_to_byte (7 * 32 + ai) :: be_bytes (fmt_bytes F) (float_bits F f)) (PFloat f).
Proof.
  intros Hai Hin [|fuel] rest Hf; [lia|].
  assert (Hwf : fmt_wf F) by (destruct Hai; auto with brain).
  pose proof (float_bits_range F f Hwf Hin) as Hr.
  pose proof (float_of_float_bits F f Hwf Hin) as Hb.
  cbn [rfc_decode].
  rewrite (decode_head_wide 7 ai (fmt_bytes F)) by (destruct Hai; done || lia).
  by destruct Hai; rewrite Hb.
Qed.

(** Enough fuel for the concatenation is enough for every part. *)
Lemma decodes_to_parts {A} (f : A -> pyval) l parts fuel :
  Forall2 (fun x b => decodes_to b (f x)) l parts ->
  (length (concat parts) < fuel)%nat ->
  Forall2 (fun x b => forall rest, rfc_decode fuel (b ++ rest) = Some (f x, rest)) l parts
  /\ (length l <= fuel)%nat.
Proof.
  intros H Hf. split.
  - revert Hf. induction H as [|x b l parts Hx H IH]; intros Hf; constructor.
    + intros rest. apply Hx. simpl in Hf. rewrite length_app in Hf. lia.
    + apply IH. simpl in Hf. rewrite length_app in Hf. lia.
  - pose proof (Forall2_length _ _ _ H) as ->.
    enough (length parts <= length (concat parts))%nat by lia.
    apply length_concat_ge. clear -H. induction H; constructor; [|done].
    by eapply decodes_to_nonempty.
Qed.

Section RoundTrip.
Context (hook : pyval -> pyresult bytes) (Hhook : hook_ok hook).

Let good (v : pyval) : Prop :=
  cbor_ok v = true -> forall bs, rfc_encode hook v = Ok bs -> decodes_to bs (unmark v).

Lemma encode_list_decodes l : Forall good l -> good (PList l).
Proof.
  intros IH Hok bs E fuel rest Hf. cbn [cbor_ok] in Hok.
  apply andb_true_iff in Hok as [Hl Hlen%Z.ltb_lt].
  cbn [rfc_encode] in E. apply bind_ok_inv in E as (parts & Hp & [= <-]).
  apply map_result_ok_iff in Hp.
  assert (Hd : Forall2 (fun x b => decodes_to b (unmark x)) l parts).
  { clear -IH Hl Hp. induction Hp as [|x b l parts Hx Hp IHp]; [constructor|].
    inversion_clear IH as [|? ? Hg IHl]. simpl in Hl. apply andb_true_iff in Hl as [Hx' Hl].
    constructor; [by apply Hg | by apply IHp]. }
  rewrite length_app in Hf. pose proof (length_item_head 4 (zlen l)).
  destruct fuel as [|fuel]; [lia|]. rewrite <- app_assoc. cbn [rfc_decode].
  destruct (decode_item_head 4 (zlen l) (concat parts ++ rest)) as [ai ->];
    [lia|unfold zlen in *; lia|].
  destruct (decodes_to_parts unmark l parts fuel Hd ltac:(lia)) as [Hd' Hk].
  by rewrite (decode_n_concat _ unmark).
Qed.

Lemma encode_dict_decodes d :
  Forall (fun kv => good kv.1 /\ good kv.2) d -> good (PDict d).
Proof.
  intros IH Hok bs E fuel rest Hf. cbn [cbor_ok] in Hok.
  apply andb_true_iff in Hok as [[Hl Hlen%Z.ltb_lt]%andb_true_iff Hkeys].
  cbn [rfc_encode] in E. apply bind_ok_inv in E as (parts & Hp & [= <-]).
  apply map_result_ok_iff in Hp.
  assert (Hd : Forall2 (fun kx b => exists kb xb, b = kb ++ xb
                 /\ decodes_to kb (unmark kx.1) /\ decodes_to xb (unmark kx.2)) d parts).
  { clear -IH Hl Hp. induction Hp as [|[k x] b l parts Hx Hp IHp]; [constructor|].
    inversion_clear IH as [|? ? [Hgk Hgx] IHl]. simpl in Hl.
    apply andb_true_iff in Hl as [[Hk' Hx']%andb_true_iff Hl].
    constructor; [|by apply IHp]. inv_binds. simpl in *. eauto 10. }
  rewrite length_app in Hf. pose proof (length_item_head 5 (zlen d)).
  destruct fuel as [|fuel]; [lia|]. rewrite <- app_assoc. cbn [rfc_decode].
  destruct (decode_item_head 5 (zlen d) (concat parts ++ rest)) as [ai ->];
    [lia|unfold zlen in *; lia|].
  rewrite (decode_n_concat _ (fun '(k, x) => (unmark k, unmark x))).
  - simpl. rewrite map_map.
    rewrite (map_ext _ (fun kx => unmark kx.1)) by (by intros []).
    rewrite <- (map_map fst unmark), str_keys_unmark by done. done.
  - assert (Hc : (length (concat parts) < fuel)%nat) by lia.
    clear -Hd Hc. induction Hd as [|[k x] b d parts (kb & xb & -> & Hk & Hx) Hd IH];
      constructor; simpl in Hc; rewrite !length_app in Hc; [|apply IH; lia].
    intros r. rewrite <- app_assoc. simpl in Hk, Hx.
    rewrite Hk by lia. simpl. by rewrite Hx by lia.
  - pose proof (Forall2_length _ _ _ Hd) as ->.
    enough (length parts <= length (concat parts))%nat by lia.
    apply length_concat_ge. clear -Hd.
    induction Hd as [|kx b d parts (kb & xb & -> & Hk%decodes_to_nonempty & _) Hd IH];
      constructor; [|done]. rewrite length_app. lia.
Qed.

(** The decoder reads back, up to markers, what the encoder wrote. *)
Lemma rfc_decode_encode v bs :
  cbor_ok v = true -> rfc_encode hook v = Ok bs -> decodes_to bs (unmark v).
Proof.
  intros Hok. revert bs. revert Hok. change (good v). induction v as [|b|z|f|s|bs|l IH|d IH|w f] using pyval_nested_ind.
  - intros _ bs [= <-] [|fuel] rest Hf; [simpl in Hf; lia|]. done.
  - intros _ bs E [|fuel] rest Hf; [lia|]. destruct b; by injection E as <-.
  - intros Hok bs [= <-]. apply encode_int_decodes. simpl in Hok.
    apply andb_true_iff in Hok as [?%Z.leb_le ?%Z.ltb_lt]. lia.
  - intros Hok bs E. cbn [cbor_ok] in Hok. cbn [rfc_encode] in E.
    apply andb_true_iff in Hok as [[Hf _]%andb_true_iff _].
    unfold struct_pack in E. rewrite round_to_exact in E by done. injection E as <-.
    exact (float_decodes double 27 f ai_double Hf).
  - intros Hok bs [= <-] fuel rest Hf. cbn [cbor_ok] in Hok.
    apply andb_true_iff in Hok as [Hu Hlen%Z.ltb_lt].
    rewrite length_app in Hf. pose proof (length_item_head 3 (zlen (str_bytes s))).
    destruct fuel as [|fuel]; [lia|]. rewrite <- app_assoc. cbn [rfc_decode].
    destruct (decode_item_head 3 (zlen (str_bytes s)) (str_bytes s ++ rest)) as [ai ->];
      [lia|unfold zlen in *; lia|].
    rewrite split_at_app. simpl. rewrite Hu. unfold str_bytes.
    by rewrite String.string_of_list_byte_of_string.
  - intros Hok bs' [= <-] fuel rest Hf. cbn [cbor_ok] in Hok. apply Z.ltb_lt in Hok.
    rewrite length_app in Hf. pose proof (length_item_head 2 (zlen bs)).
    destruct fuel as [|fuel]; [lia|]. rewrite <- app_assoc. cbn [rfc_decode].
    destruct (decode_item_head 2 (zlen bs) (bs ++ rest)) as [ai ->];
      [lia|unfold zlen in *; lia|].
    by rewrite split_at_app.
  - by apply encode_list_decodes.
  - by apply encode_dict_decodes.
  - intros Hok bs E. by eapply Hhook.
Qed.
End RoundTrip.

Lemma decodes_to_loads bs v : decodes_to bs v -> rfc_loads bs = Some v.
Proof.
  intros H. specialize (H (S (length bs)) [] ltac:(lia)).
  unfold rfc_loads. rewrite app_nil_r in H. by rewrite H.
Qed.
