(* ===== verification/PyText.v ===== *)
(** * PyText

    The operations of the language and its standard library on text that the
    HTTP tier uses: decoding UTF-8 strictly and with replacement characters,
    splitting and trimming, decimal integers, and the percent-encoding of
    [urllib.parse]. A [str] is its UTF-8 encoding, as in [PyValue]. *)

From S2P Require Import Prelude PyFloat PyValue Rfc8949.
From Stdlib Require Import Strings.Ascii.

(** ** UTF-8 *)

(** The lead bytes of more than one byte: the bounds of the second byte and the
    number of continuation bytes. *)
Definition utf8_lead (b : Z) : option (Z * Z * nat) :=
  if in_range 0xC2 0xDF b then Some (0x80, 0xBF, 1%nat)
  else if in_range 0xE0 0xEF b then
    Some (if b =? 0xE0 then 0xA0 else 0x80, if b =? 0xED then 0x9F else 0xBF, 2%nat)
  else if in_range 0xF0 0xF4 b then
    Some (if b =? 0xF0 then 0x90 else 0x80, if b =? 0xF4 then 0x8F else 0xBF, 3%nat)
  else None.

(** How many of the first [n] bytes are continuation bytes. *)
Fixpoint utf8_tail (n : nat) (bs : bytes) : nat :=
  match n, bs with
  | S n, b :: bs => if in_range 0x80 0xBF (byte_to_Z b) then S (utf8_tail n bs) else O
  | _, _ => O
  end.

(** What a decoder finds at the head of a non-empty input: whether it is a
    character, and how many bytes the character or the ill-formed sequence
    (its longest well-formed prefix) takes. *)
Definition utf8_head (b : byte) (bs : bytes) : bool * nat :=
  if byte_to_Z b <? 0x80 then (true, 1%nat)
  else match utf8_lead (byte_to_Z b) with
       | None => (false, 1%nat)
       | Some (lo, hi, n) =>
           match bs with
           | c :: cs =>
               if in_range lo hi (byte_to_Z c) then
                 let k := utf8_tail (n - 1) cs in
                 ((k =? n - 1)%nat, (2 + k)%nat)
               else (false, 1%nat)
           | [] => (false, 1%nat)
           end
       end.

(** U+FFFD. *)
Definition replacement : bytes := [xef; xbf; xbd].

(** The bytes of [bs.decode("utf-8", "replace")]; [skip] bytes belong to what
    has been read already. *)
Fixpoint utf8_replace (skip : nat) (bs : bytes) : bytes :=
  match bs with
  | [] => []
  | b :: rest =>
      match skip with
      | S skip => utf8_replace skip rest
      | O =>
          let '(ok, n) := utf8_head b rest in
          (if ok then take n bs else replacement) ++ utf8_replace (n - 1) rest
      end
  end.

(** [bs.decode("utf-8", "replace")]. *)
Definition decode_replace (bs : bytes) : string :=
  String.string_of_list_byte (utf8_replace 0 bs).

(** [bs.decode()]. *)
Definition decode_strict (bs : bytes) : pyresult string :=
  if utf8_ok bs then Ok (String.string_of_list_byte bs) else Raise ValueError.

(** A string that is one: its bytes are well-formed UTF-8. *)
Definition str_ok (s : string) : bool := utf8_ok (str_bytes s).

(** ** Splitting and trimming *)

(** The bytes before and after the first [b]. *)
Fixpoint cut_byte (b : byte) (bs : bytes) : option (bytes * bytes) :=
  match bs with
  | [] => None
  | c :: bs =>
      if decide (c = b) then Some ([], bs)
      else match cut_byte b bs with
           | Some (l, r) => Some (c :: l, r)
           | None => None
           end
  end.

(** [bs.rstrip(b)]. *)
Fixpoint rstrip_byte (b : byte) (bs : bytes) : bytes :=
  match bs with
  | [] => []
  | c :: bs =>
      match rstrip_byte b bs with
      | [] => if decide (c = b) then [] else [c]
      | bs => c :: bs
      end
  end.

(** [s.partition(c)], without the separator it returns in the middle. *)
Fixpoint partition (c : ascii) (s : string) : string * string :=
  match s with
  | EmptyString => (EmptyString, EmptyString)
  | String c' s =>
      if Ascii.eqb c' c then (EmptyString, s)
      else let '(l, r) := partition c s in (String c' l, r)
  end.

(** [s.removeprefix(c)] of one character. *)
Definition remove_char (c : ascii) (s : string) : string :=
  match s with
  | String c' s' => if Ascii.eqb c' c then s' else s
  | EmptyString => EmptyString
  end.

(** [s.startswith(c)] of one character. *)
Definition starts_with (c : ascii) (s : string) : bool :=
  match s with String c' _ => Ascii.eqb c' c | EmptyString => false end.

(** The character does not occur. *)
Fixpoint lacks (c : ascii) (s : string) : bool :=
  match s with
  | EmptyString => true
  | String c' s => negb (Ascii.eqb c' c) && lacks c s
  end.

(** [s.split(c)]. *)
Fixpoint split_char (c : ascii) (s : string) : list string :=
  match s with
  | EmptyString => [EmptyString]
  | String c' s =>
      if Ascii.eqb c' c then EmptyString :: split_char c s
      else match split_char c s with
           | p :: ps => String c' p :: ps
           | [] => [String c' EmptyString]
           end
  end.

(** ** Decimal integers *)

Definition digit_char (n : Z) : ascii := ascii_of_N (Z.to_N (48 + n)).

(** The decimal digits of [n], in front of [acc]. *)
Fixpoint dec_digits (fuel : nat) (n : Z) (acc : string) : string :=
  match fuel with
  | O => acc
  | S fuel =>
      let acc := String (digit_char (n mod 10)) acc in
      if n / 10 =? 0 then acc else dec_digits fuel (n / 10) acc
  end.

(** A number below [10 ^ dec_fuel n]. *)
Definition dec_fuel (n : Z) : nat := S (Z.to_nat (Z.log2 n)).

(** [str(z)]. *)
Definition str_of_int (z : Z) : string :=
  if z <? 0 then String "-" (dec_digits (dec_fuel (- z)) (- z) "")
  else dec_digits (dec_fuel z) z "".

(** ** Percent-encoding *)

Definition is_alnum (n : Z) : bool :=
  in_range 48 57 n || in_range 65 90 n || in_range 97 122 n.

(** The characters [quote] never encodes: letters, digits and [_.-~]. *)
Definition unreserved (n : Z) : bool :=
  is_alnum n || (n =? 95) || (n =? 46) || (n =? 45) || (n =? 126).

Definition byte_char (b : byte) : ascii := ascii_of_byte b.

(** An upper-case hexadecimal digit. *)
Definition hex_char (n : Z) : ascii :=
  ascii_of_N (Z.to_N (if n <? 10 then 48 + n else 55 + n)).

Definition percent (b : byte) : list ascii :=
  ["%"%char; hex_char (byte_to_Z b / 16); hex_char (byte_to_Z b mod 16)].

(** What one byte becomes; [space] is what a space does. *)
Definition quote_byte (space : list ascii) (b : byte) : list ascii :=
  if unreserved (byte_to_Z b) then [byte_char b]
  else if byte_to_Z b =? 32 then space
  else percent b.

(** [urllib.parse.quote(s, safe="")]. *)
Definition quote (s : string) : string :=
  String.string_of_list_ascii (concat (map (quote_byte (percent x20)) (str_bytes s))).

(** [urllib.parse.quote_plus(s)]. *)
Definition quote_plus (s : string) : string :=
  String.string_of_list_ascii (concat (map (quote_byte ["+"%char]) (str_bytes s))).

(** [urllib.parse.urlencode(pairs)] of string pairs. *)
Definition urlencode (pairs : list (string * string)) : string :=
  String.concat "&" (map (fun '(k, v) => quote_plus k +:+ "=" +:+ quote_plus v) pairs).

(** *** What a server makes of it *)

Definition hex_value (c : ascii) : option Z :=
  let n := Z.of_N (N_of_ascii c) in
  if in_range 48 57 n then Some (n - 48)
  else if in_range 65 70 n then Some (n - 55)
  else if in_range 97 102 n then Some (n - 87)
  else None.

(** The bytes a percent-encoded component stands for; [plus] is the byte of a
    plus sign. *)
Fixpoint percent_decode (plus : byte) (s : list ascii) : bytes :=
  match s with
  | [] => []
  | c :: s =>
      if Ascii.eqb c "%" then
        match s with
        | h :: l :: s' =>
            match hex_value h, hex_value l with
            | Some h, Some l => Z_to_byte (h * 16 + l) :: percent_decode plus s'
            | _, _ => byte_of_ascii c :: percent_decode plus s
            end
        | _ => byte_of_ascii c :: percent_decode plus s
        end
      else if Ascii.eqb c "+" then plus :: percent_decode plus s
      else byte_of_ascii c :: percent_decode plus s
  end.

Definition unquote_with (plus : byte) (s : string) : string :=
  String.string_of_list_byte (percent_decode plus (String.list_ascii_of_string s)).

(** A path segment, and a component of a query. *)
Definition unquote : string -> string := unquote_with x2b.
Definition unquote_plus : string -> string := unquote_with x20.

(** The pairs of a query string (what follows the question mark). *)
Definition parse_qsl (s : string) : list (string * string) :=
  map (fun p => let '(k, v) := partition "=" p in (unquote_plus k, unquote_plus v))
      (filter (fun p => p ≠ "") (split_char "&" s)).

(** ** Lemmas *)

(** *** UTF-8 *)

Lemma utf8_replace_skip n bs : utf8_replace n bs = utf8_replace 0 (drop n bs).
Proof.
  revert bs; induction n as [|n IH]; intros [|b bs]; cbn [drop]; try done.
  cbn [utf8_replace]. apply IH.
Qed.

Lemma utf8_replace_cons b rest n :
  utf8_head b rest = (true, S n) ->
  utf8_replace 0 (b :: rest) = b :: take n rest ++ utf8_replace 0 (drop n rest).
Proof.
  intros H. cbn [utf8_replace]. rewrite H. cbn [take]. rewrite utf8_replace_skip. simpl.
  by rewrite Nat.sub_0_r.
Qed.

(** A well-formed sequence starts with a character, and goes on well-formed. *)
Lemma utf8_head_ok b rest :
  utf8_ok (b :: rest) = true ->
  exists n, utf8_head b rest = (true, S n) /\ utf8_ok (drop n rest) = true.
Proof.
  unfold utf8_ok, utf8_head. cbn [map valid_utf8]. intros H.
  destruct (byte_to_Z b <? 128) eqn:E0; [by exists 0%nat|].
  destruct rest as [|c1 [|c2 [|c3 rest]]]; cbn [map valid_utf8] in H; unfold utf8_lead;
    [done|..]; destruct (in_range 194 223 (byte_to_Z b)) eqn:E1;
    rewrite ?andb_true_iff in H; try done.
  all: try (lazymatch type of H with _ /\ _ => destruct H as [-> H] end;
               exists 1%nat; split; [done|exact H]).
  all: destruct (in_range 224 239 (byte_to_Z b)) eqn:E2; rewrite ?andb_true_iff in H; try done.
  all: try (destruct H as [[-> H2] H]; exists 2%nat; split; [|exact H];
            simpl; by rewrite H2).
  destruct H as [[[[-> ->] H2] H3] H]. exists 3%nat. split; [|exact H].
  simpl. by rewrite H2, H3.
Qed.

Lemma utf8_replace_ok bs : utf8_ok bs = true -> utf8_replace 0 bs = bs.
Proof.
  remember (length bs) as n eqn:E. revert bs E.
  induction n as [n IH] using lt_wf_ind; intros [|b rest] E H; [done|]. subst n.
  destruct (utf8_head_ok _ _ H) as (k & Hk & Hrest).
  rewrite (utf8_replace_cons _ _ _ Hk). f_equal.
  rewrite (IH (length (drop k rest))); [by rewrite take_drop|rewrite length_drop; simpl; lia|done|done].
Qed.

Lemma str_bytes_string bs : str_bytes (String.string_of_list_byte bs) = bs.
Proof. apply String.list_byte_of_string_of_list_byte. Qed.

Lemma string_str_bytes s : String.string_of_list_byte (str_bytes s) = s.
Proof. apply String.string_of_list_byte_of_string. Qed.

Lemma decode_replace_str s : str_ok s = true -> decode_replace (str_bytes s) = s.
Proof.
  intros H. unfold decode_replace. rewrite utf8_replace_ok by done. apply string_str_bytes.
Qed.

Lemma decode_strict_str s : str_ok s = true -> decode_strict (str_bytes s) = Ok s.
Proof. intros H. unfold decode_strict. fold (str_ok s). by rewrite H, string_str_bytes. Qed.

(** *** Splitting and trimming *)

Lemma cut_byte_app b l r : b ∉ l -> cut_byte b (l ++ b :: r) = Some (l, r).
Proof.
  induction l as [|c l IH]; intros Hl; simpl; [by rewrite decide_True|].
  apply not_elem_of_cons in Hl as [Hc Hl]. rewrite decide_False by congruence. by rewrite IH.
Qed.

Lemma cut_byte_Some b bs l r : cut_byte b bs = Some (l, r) <-> bs = l ++ b :: r /\ b ∉ l.
Proof.
  split; [|intros [-> Hl]; by apply cut_byte_app].
  revert l r; induction bs as [|c bs IH]; intros l r; simpl; [done|].
  destruct (decide (c = b)) as [->|Hne].
  - intros [= <- <-]. split; [done|apply not_elem_of_nil].
  - destruct (cut_byte b bs) as [[l' r']|] eqn:E; [|done]. intros [= <- <-].
    destruct (IH _ _ eq_refl) as [-> Hl]. split; [done|].
    apply not_elem_of_cons. split; [congruence|done].
Qed.

Lemma cut_byte_None b bs : cut_byte b bs = None <-> b ∉ bs.
Proof.
  split.
  - intros E H. apply list_elem_of_split in H as (l & r & ->).
    assert (exists l1 r1, l ++ b :: r = l1 ++ b :: r1 /\ b ∉ l1) as (l1 & r1 & E1 & Hn).
    { clear E. induction l as [|c l IH]; [by exists [], r; split; [|apply not_elem_of_nil]|].
      destruct (decide (c = b)) as [->|Hne].
      - exists [], (l ++ b :: r). split; [done|apply not_elem_of_nil].
      - destruct IH as (l1 & r1 & E1 & Hn). exists (c :: l1), r1. simpl. rewrite E1.
        split; [done|]. apply not_elem_of_cons. split; [congruence|done]. }
    rewrite E1, cut_byte_app in E by done. done.
  - intros H. destruct (cut_byte b bs) as [[l r]|] eqn:E; [|done].
    apply cut_byte_Some in E as [-> _]. exfalso. apply H, elem_of_app. right. by left.
Qed.

Lemma cut_byte_length b bs l r : cut_byte b bs = Some (l, r) -> (length r < length bs)%nat.
Proof. intros [-> _]%cut_byte_Some. rewrite length_app. simpl. lia. Qed.

(** More bytes behind do not move the first cut. *)
Lemma cut_byte_app_l b bs l r bs' :
  cut_byte b bs = Some (l, r) -> cut_byte b (bs ++ bs') = Some (l, r ++ bs').
Proof. intros [-> Hl]%cut_byte_Some. rewrite <- app_assoc. by apply cut_byte_app. Qed.

Lemma rstrip_byte_snoc b bs : rstrip_byte b (bs ++ [b]) = rstrip_byte b bs.
Proof.
  induction bs as [|c bs IH]; simpl; [by rewrite decide_True|]. by rewrite IH.
Qed.

Lemma rstrip_byte_id b bs : last bs <> Some b -> rstrip_byte b bs = bs.
Proof.
  induction bs as [|c bs IH]; intros H; [done|]. simpl.
  destruct bs as [|d bs]; [simpl in *; by rewrite decide_False by congruence|].
  by rewrite IH.
Qed.

Lemma partition_app c k v : lacks c k = true -> partition c (k +:+ String c v) = (k, v).
Proof.
  induction k as [|c' k IH]; simpl; [by rewrite Ascii.eqb_refl|].
  intros [H1%negb_true_iff H2]%andb_true_iff. by rewrite H1, IH.
Qed.

Lemma split_char_lacks c p : lacks c p = true -> split_char c p = [p].
Proof.
  induction p as [|c' p IH]; simpl; [done|].
  intros [H1%negb_true_iff H2]%andb_true_iff. by rewrite H1, IH.
Qed.

Lemma split_char_app c p s : lacks c p = true -> split_char c (p +:+ String c s) = p :: split_char c s.
Proof.
  induction p as [|c' p IH]; simpl; [by rewrite Ascii.eqb_refl|].
  intros [H1%negb_true_iff H2]%andb_true_iff. by rewrite H1, IH.
Qed.

Lemma split_char_concat c ps :
  ps <> [] -> Forall (fun p => lacks c p = true) ps -> split_char c (String.concat (String c "") ps) = ps.
Proof.
  induction ps as [|p ps IH]; intros Hne H; [done|].
  apply Forall_cons in H as [Hp H]. destruct ps as [|q ps]; [by apply split_char_lacks|].
  transitivity (split_char c (p +:+ String c (String.concat (String c "") (q :: ps)))); [done|].
  by rewrite split_char_app, IH.
Qed.

(** *** Decimal integers *)

Lemma digit_char_code n : 0 <= n < 10 -> Z.of_N (N_of_ascii (digit_char n)) = 48 + n.
Proof.
  intros H. unfold digit_char. rewrite N_ascii_embedding by lia. lia.
Qed.

Lemma int_digits_digit n s acc seen :
  0 <= n < 10 -> int_digits (String (digit_char n) s) acc seen = int_digits s (acc * 10 + n) true.
Proof.
  intros H. cbn [int_digits]. rewrite digit_char_code by done.
  rewrite (proj2 (Z.leb_le _ _)) by lia. rewrite (proj2 (Z.leb_le _ _)) by lia.
  cbn [andb]. f_equal. lia.
Qed.

(** The digits are read back, whatever follows them. *)
Lemma int_digits_dec fuel n s acc seen :
  0 <= n < 10 ^ Z.of_nat fuel -> (0 < fuel)%nat ->
  exists k, 0 <= k /\ n < 10 ^ k
    /\ int_digits (dec_digits fuel n s) acc seen = int_digits s (acc * 10 ^ k + n) true.
Proof.
  revert n s acc seen. induction fuel as [|fuel IH]; intros n s acc seen Hn Hf; [lia|].
  cbn [dec_digits]. pose proof (Z.mod_pos_bound n 10 ltac:(lia)) as Hm.
  pose proof (Z.div_mod n 10 ltac:(lia)) as Hd.
  destruct (n / 10 =? 0) eqn:E; [apply Z.eqb_eq in E|apply Z.eqb_neq in E].
  - exists 1. split; [lia|]. split; [lia|]. rewrite int_digits_digit by done. f_equal. lia.
  - rewrite Nat2Z.inj_succ, Z.pow_succ_r in Hn by lia.
    assert (Hq : 0 <= n / 10 < 10 ^ Z.of_nat fuel) by lia.
    destruct fuel as [|fuel]; [change (10 ^ Z.of_nat 0) with 1 in Hq; lia|].
    destruct (IH (n / 10) (String (digit_char (n mod 10)) s) acc seen Hq ltac:(lia))
      as (k & Hk & Hlt & ->).
    exists (k + 1). split; [lia|]. rewrite Z.pow_add_r by lia. split; [lia|].
    rewrite int_digits_digit by done. f_equal. lia.
Qed.

Lemma dec_fuel_ok n : 0 <= n -> n < 10 ^ Z.of_nat (dec_fuel n).
Proof.
  intros Hn. unfold dec_fuel. rewrite Nat2Z.inj_succ, Z2Nat.id by apply Z.log2_nonneg.
  destruct (decide (n = 0)) as [->|Hne]; [done|].
  pose proof (Z.log2_spec n ltac:(lia)) as [_ H].
  eapply Z.lt_le_trans; [exact H|]. apply Z.pow_le_mono_l. lia.
Qed.

(** The first and the last character of a printed number is a digit. *)
Lemma dec_digits_ends fuel n s :
  exists d t, 0 <= d < 10 /\ dec_digits (S fuel) n s = String (digit_char d) t.
Proof.
  revert n s; induction fuel as [|fuel IH]; intros n s;
    pose proof (Z.mod_pos_bound n 10 ltac:(lia)) as Hm.
  - cbn [dec_digits]. destruct (n / 10 =? 0); by eexists _, _.
  - remember (S fuel) as f. cbn [dec_digits]. subst f.
    destruct (n / 10 =? 0); [by eexists _, _|]. apply IH.
Qed.

Definition is_digit (c : ascii) : bool := in_range 48 57 (Z.of_N (N_of_ascii c)).

Fixpoint all_digits (s : string) : bool :=
  match s with EmptyString => true | String c s => is_digit c && all_digits s end.

Lemma digit_char_is_digit n : 0 <= n < 10 -> is_digit (digit_char n) = true.
Proof.
  intros H. unfold is_digit, in_range. rewrite digit_char_code by done.
  apply andb_true_iff. rewrite !Z.leb_le. lia.
Qed.

Lemma dec_digits_all fuel n s : all_digits s = true -> all_digits (dec_digits fuel n s) = true.
Proof.
  revert n s; induction fuel as [|fuel IH]; intros n s Hs; [done|]. cbn [dec_digits].
  assert (H : all_digits (String (digit_char (n mod 10)) s) = true).
  { cbn [all_digits]. rewrite digit_char_is_digit; [done|]. apply Z.mod_pos_bound. lia. }
  destruct (n / 10 =? 0); [done|]. by apply IH.
Qed.

Lemma digit_not_space c : is_digit c = true -> is_space c = false.
Proof.
  unfold is_digit, is_space, in_range. rewrite andb_true_iff, !Z.leb_le. intros H.
  rewrite orb_false_iff, !andb_false_iff, !N.leb_gt. lia.
Qed.

Lemma strip_right_digits s : all_digits s = true -> strip_right s = s.
Proof.
  induction s as [|c s IH]; [done|]. cbn [all_digits]. intros [Hc Hs]%andb_true_iff.
  cbn [strip_right]. rewrite (IH Hs). destruct s; [|done]. by rewrite digit_not_space.
Qed.

Lemma int_of_str_of_int z : int_of_str (str_of_int z) = Ok z.
Proof.
  assert (Hpos : forall n, 0 <= n -> exists d t, dec_digits (dec_fuel n) n "" = String (digit_char d) t
            /\ 0 <= d < 10 /\ strip_right (String (digit_char d) t) = String (digit_char d) t
            /\ int_digits (String (digit_char d) t) 0 false = Some n).
  { intros n Hn. destruct (dec_digits_ends (Z.to_nat (Z.log2 n)) n "") as (d & t & Hd & E).
    exists d, t. fold (dec_fuel n) in E. split; [exact E|]. split; [done|]. rewrite <- E.
    split; [by apply strip_right_digits, dec_digits_all|].
    destruct (int_digits_dec (dec_fuel n) n "" 0 false) as (k & _ & _ & ->);
      [split; [lia|by apply dec_fuel_ok]|unfold dec_fuel; lia|]. done. }
  unfold str_of_int, int_of_str. destruct (z <? 0) eqn:E.
  - apply Z.ltb_lt in E. destruct (Hpos (- z) ltac:(lia)) as (d & t & -> & Hd & Hs & Hi).
    cbn [strip_left]. change (is_space "-") with false. cbn match.
    cbn [strip_right]. cbn [strip_right] in Hs. rewrite Hs. cbv beta iota zeta.
    rewrite Hi. cbn [option_map]. f_equal. lia.
  - apply Z.ltb_ge in E. destruct (Hpos z E) as (d & t & -> & Hd & Hs & Hi).
    cbn [strip_left]. rewrite digit_not_space by by apply digit_char_is_digit. rewrite Hs.
    destruct (digit_char d) as [[] [] [] [] [] [] [] []] eqn:Ed; try by rewrite Hi.
    all: exfalso; pose proof (digit_char_code d Hd) as Hc; rewrite Ed in Hc;
      cbn in Hc; lia.
Qed.

(** *** Percent-encoding *)

(** Every byte of a component comes back from its encoding, for a path segment
    as for a form component. *)
Lemma percent_decode_byte plus b rest :
  percent_decode plus (quote_byte (percent x20) b ++ rest) = b :: percent_decode plus rest.
Proof. by destruct b. Qed.

Lemma percent_decode_form_byte b rest :
  percent_decode x20 (quote_byte ["+"%char] b ++ rest) = b :: percent_decode x20 rest.
Proof. by destruct b. Qed.

Lemma unquote_quote s : unquote (quote s) = s.
Proof.
  unfold unquote, unquote_with, quote. rewrite String.list_ascii_of_string_of_list_ascii.
  rewrite <- (string_str_bytes s) at 2. f_equal.
  induction (str_bytes s) as [|b bs IH]; [done|]. cbn [map concat].
  by rewrite percent_decode_byte, IH.
Qed.

Lemma unquote_plus_quote_plus s : unquote_plus (quote_plus s) = s.
Proof.
  unfold unquote_plus, unquote_with, quote_plus. rewrite String.list_ascii_of_string_of_list_ascii.
  rewrite <- (string_str_bytes s) at 2. f_equal.
  induction (str_bytes s) as [|b bs IH]; [done|]. cbn [map concat].
  by rewrite percent_decode_form_byte, IH.
Qed.

(** The characters an encoded component is made of. *)
Definition component_char (c : ascii) : bool :=
  unreserved (Z.of_N (N_of_ascii c)) || Ascii.eqb c "%" || Ascii.eqb c "+".

Fixpoint all_chars (p : ascii -> bool) (s : string) : bool :=
  match s with EmptyString => true | String c s => p c && all_chars p s end.

Lemma all_chars_list p l :
  all_chars p (String.string_of_list_ascii l) = forallb p l.
Proof. induction l as [|c l IH]; [done|]. simpl. by rewrite IH. Qed.

Lemma all_chars_lacks p c s : p c = false -> all_chars p s = true -> lacks c s = true.
Proof.
  intros Hc. induction s as [|c' s IH]; simpl; [done|].
  intros [H1 H2]%andb_true_iff. rewrite IH, andb_true_r by done.
  apply negb_true_iff, Ascii.eqb_neq. congruence.
Qed.

Lemma quote_chars s : all_chars component_char (quote s) = true.
Proof.
  unfold quote. rewrite all_chars_list. induction (str_bytes s) as [|b bs IH]; [done|].
  cbn [map concat]. rewrite forallb_app, IH, andb_true_r. by destruct b.
Qed.

Lemma quote_plus_chars s : all_chars component_char (quote_plus s) = true.
Proof.
  unfold quote_plus. rewrite all_chars_list. induction (str_bytes s) as [|b bs IH]; [done|].
  cbn [map concat]. rewrite forallb_app, IH, andb_true_r. by destruct b.
Qed.

Lemma lacks_app c s t : lacks c (s +:+ t) = lacks c s && lacks c t.
Proof. induction s as [|c' s IH]; simpl; [done|]. by rewrite IH, andb_assoc. Qed.

Lemma string_app_assoc (a b c : string) : (a +:+ b) +:+ c = a +:+ b +:+ c.
Proof.
  induction a as [|x a IH]; [done|].
  change (String x ((a +:+ b) +:+ c) = String x (a +:+ b +:+ c)). by rewrite IH.
Qed.

(** A server reads back exactly the pairs that were encoded. *)
Lemma parse_qsl_urlencode pairs : parse_qsl (urlencode pairs) = pairs.
Proof.
  unfold parse_qsl, urlencode. destruct pairs as [|kv pairs]; [done|].
  set (render := fun '(k, v) => quote_plus k +:+ "=" +:+ quote_plus v).
  assert (Hamp : Forall (fun p => lacks "&" p = true) (map render (kv :: pairs))).
  { apply List.Forall_map, Forall_true. intros [k v]. simpl.
    rewrite !lacks_app, !andb_true_iff. split; [|split; [done|]];
      (eapply all_chars_lacks; [|apply quote_plus_chars]; done). }
  rewrite split_char_concat by done. clear Hamp.
  induction (kv :: pairs) as [|[k v] l IH]; [done|]. cbn [map]. rewrite filter_cons_True.
  - cbn [map]. rewrite IH. f_equal. cbn [render].
    change ("=" +:+ quote_plus v) with (String "=" (quote_plus v)). rewrite partition_app.
    + by rewrite !unquote_plus_quote_plus.
    + eapply all_chars_lacks; [|apply quote_plus_chars]. done.
  - simpl. by destruct (quote_plus k).
Qed.

(** Two components are told apart by their encodings. *)
#[export] Instance quote_inj : Inj (=) (=) quote.
Proof. intros s t H. by rewrite <- (unquote_quote s), <- (unquote_quote t), H. Qed.
