(* ===== verification/PyDecimal.v ===== *)
(** * PyDecimal

    Decimal numerals of the language: the text of an integer or a float
    ([repr], the shortest numeral that rounds to the float) and the numeral
    grammar of JSON, whose conversion rounds once, to nearest even. *)

From S2P Require Import Prelude PyFloat PyValue PyArith Rfc8949 PyText.
From Stdlib Require Import Strings.Ascii.

(** ** Decimal values as floats *)

(** [num / den] rounded to a float: the quotient to more bits than any float
    has, with a sticky bit for the remainder, rounded once. *)
Definition float_of_ratio (neg : bool) (num den : Z) : pyfloat :=
  let n := num * 2 ^ 1200 in
  let sticky := if n mod den =? 0 then 0 else 1 in
  rounded neg (2 * (n / den) + sticky) (-1201).

(** [mantissa * 10 ^ exponent] as a fraction. *)
Definition decimal_ratio (mantissa exponent : Z) : Z * Z :=
  (mantissa * 10 ^ Z.max 0 exponent, 10 ^ Z.max 0 (- exponent)).

(** The float nearest to [mantissa * 10 ^ exponent]. *)
Definition float_of_decimal (neg : bool) (mantissa exponent : Z) : pyfloat :=
  let '(num, den) := decimal_ratio mantissa exponent in float_of_ratio neg num den.

(** ** Reading a numeral *)

(** The digits at the front: their value after [acc], their number, the rest. *)
Fixpoint take_digits (s : string) (acc count : Z) : Z * Z * string :=
  match s with
  | EmptyString => (acc, count, EmptyString)
  | String c s' =>
      if is_digit c then take_digits s' (acc * 10 + (Z.of_N (N_of_ascii c) - 48)) (count + 1)
      else (acc, count, s)
  end.

(** The integer part: a zero, or digits without a leading zero. *)
Definition scan_int_part (s : string) : option (Z * string) :=
  match s with
  | String c s' =>
      if Ascii.eqb c "0" then Some (0, s')
      else if is_digit c then let '(v, _, r) := take_digits s 0 0 in Some (v, r)
      else None
  | EmptyString => None
  end.

(** A fraction: its digits' value and number, when there is one. *)
Definition scan_fraction (s : string) : option (Z * Z) * string :=
  match s with
  | String "."%char s' =>
      let '(v, n, r) := take_digits s' 0 0 in
      if n =? 0 then (None, s) else (Some (v, n), r)
  | _ => (None, s)
  end.

Definition scan_exponent_digits (neg : bool) (s s' : string) : option Z * string :=
  let '(v, n, r) := take_digits s' 0 0 in
  if n =? 0 then (None, s) else (Some (if neg then - v else v), r).

(** An exponent, when there is one. *)
Definition scan_exponent (s : string) : option Z * string :=
  match s with
  | String c s' =>
      if Ascii.eqb c "e" || Ascii.eqb c "E" then
        match s' with
        | String "-"%char s'' => scan_exponent_digits true s s''
        | String "+"%char s'' => scan_exponent_digits false s s''
        | _ => scan_exponent_digits false s s'
        end
      else (None, s)
  | EmptyString => (None, s)
  end.

Definition scan_sign (s : string) : bool * string :=
  match s with
  | String "-"%char s' => (true, s')
  | _ => (false, s)
  end.

(** A number of JSON at the front of the text, and the rest. *)
Definition scan_number (s : string) : option (pyval * string) :=
  let '(neg, s) := scan_sign s in
  match scan_int_part s with
  | None => None
  | Some (v, r) =>
      let '(frac, r) := scan_fraction r in
      let '(exp, r) := scan_exponent r in
      Some (match frac, exp with
            | None, None => PInt (if neg then - v else v)
            | _, _ =>
                let '(f, n) := default (0, 0) frac in
                PFloat (float_of_decimal neg (v * 10 ^ n + f) (default 0 exp - n))
            end, r)
  end.

(** ** Writing a numeral *)

(** The last [width] decimal digits of [n], with leading zeros. *)
Fixpoint pad_digits (width : nat) (n : Z) : string :=
  match width with
  | O => EmptyString
  | S w => String (digit_char (n / 10 ^ Z.of_nat w mod 10)) (pad_digits w n)
  end.

(** [integer.fraction] and perhaps an exponent. *)
Definition show_exponent (x : Z) : string :=
  (if x <? 0 then "e-" else "e+")
  +:+ (if Z.abs x <? 100 then pad_digits 2 (Z.abs x) else str_of_int (Z.abs x)).

Definition show_point (i : Z) (width : nat) (f : Z) : string :=
  str_of_int i +:+ "." +:+ pad_digits width f.

(** The numeral with digits [d], [nd] of them, and the decimal point after the
    first [p]: positional for the exponents -4 to 15, scientific beyond. *)
Definition show_decimal (d nd p : Z) : string :=
  if (p <=? -4) || (16 <? p) then
    (if nd =? 1 then str_of_int d
     else show_point (d / 10 ^ (nd - 1)) (Z.to_nat (nd - 1)) (d mod 10 ^ (nd - 1)))
    +:+ show_exponent (p - 1)
  else if nd <=? p then show_point (d * 10 ^ (p - nd)) 1 0
  else show_point (d / 10 ^ (nd - p)) (Z.to_nat (nd - p)) (d mod 10 ^ (nd - p)).

(** The value [m * 2 ^ e] as a fraction. *)
Definition binary_ratio (m e : Z) : Z * Z := (m * 2 ^ Z.max 0 e, 2 ^ Z.max 0 (- e)).

(** [num / den < 10 ^ p]. *)
Definition below_pow10 (num den p : Z) : bool :=
  num * 10 ^ Z.max 0 (- p) <? den * 10 ^ Z.max 0 p.

(** The number of digits before the point: [10 ^ (p-1) <= num / den < 10 ^ p]. *)
Definition decimal_exponent (num den : Z) : Z :=
  let p := (Z.log2 num - Z.log2 den) * 30103 / 100000 + 1 in
  if below_pow10 num den (p - 1) then p - 1
  else if below_pow10 num den p then p
  else if below_pow10 num den (p + 1) then p + 1
  else p + 2.

(** The two [nd]-digit integers around [num / den * 10 ^ (nd - p)], the nearer
    one first. *)
Definition candidates (num den nd p : Z) : list Z :=
  let n := num * 10 ^ Z.max 0 (nd - p) in
  let d := den * 10 ^ Z.max 0 (p - nd) in
  let lo := n / d in
  let r := 2 * (n mod d) in
  if (r <? d) || ((r =? d) && Z.even lo) then [lo; lo + 1] else [lo + 1; lo].

Definition same_float (a b : pyfloat) : bool :=
  match a, b with
  | FNan, FNan => true
  | FInf s, FInf s' | FZero s, FZero s' => Bool.eqb s s'
  | FFin s m e, FFin s' m' e' => Bool.eqb s s' && (m =? m')%positive && (e =? e')
  | _, _ => false
  end.

(** The digits as printed: a carry to [10 ^ nd] leaves a single 1. *)
Definition carry (d nd p : Z) : Z * Z * Z := if d =? 10 ^ nd then (1, 1, p + 1) else (d, nd, p).

Definition reads_back (f : pyfloat) (c : Z * Z * Z) : bool :=
  let '(d, nd, p) := c in
  (0 <? d) && (d <? 10 ^ nd) && (1 <=? nd) && same_float (float_of_decimal false d (p - nd)) f.

(** The shortest digits that read back as the float, from [nd] digits on. *)
Fixpoint shortest_digits (fuel : nat) (f : pyfloat) (num den p nd : Z) : option (Z * Z * Z) :=
  match fuel with
  | O => None
  | S fuel =>
      match find (reads_back f) (map (fun d => carry d nd p) (candidates num den nd p)) with
      | Some c => Some c
      | None => shortest_digits fuel f num den p (nd + 1)
      end
  end.

(** The exact value in decimal, as a numeral that reads back whatever it is.
    Seventeen digits always do, so it is never needed. *)
Definition show_exact (m e : Z) : string :=
  let '(num, x) := if 0 <=? e then (m * 2 ^ e, 0) else (m * 5 ^ (- e), e) in
  show_point num 1 0 +:+ show_exponent x.

(** The text of a positive finite float. *)
Definition repr_finite (m : positive) (e : Z) : string :=
  let '(num, den) := binary_ratio (Z.pos m) e in
  match shortest_digits 17 (FFin false m e) num den (decimal_exponent num den) 1 with
  | Some (d, nd, p) => show_decimal d nd p
  | None => show_exact (Z.pos m) e
  end.

(** [repr(f)]. *)
Definition float_repr (f : pyfloat) : string :=
  match f with
  | FNan => "nan"
  | FInf neg => if neg then "-inf" else "inf"
  | FZero neg => if neg then "-0.0" else "0.0"
  | FFin neg m e => if neg then "-" +:+ repr_finite m e else repr_finite m e
  end.

Example repr_tenth : float_repr (FFin false 3602879701896397 (-55)) = "0.1".
Proof. by_compute. Qed.
Example repr_small : float_repr (FFin true 1 (-44)) = "-5.684341886080802e-14".
Proof. by_compute. Qed.
Example repr_large : float_repr (FFin false 1 80) = "1.2089258196146292e+24".
Proof. by_compute. Qed.
Example repr_least : float_repr (FFin false 1 (-1074)) = "5e-324".
Proof. by_compute. Qed.
Example repr_fixed : map float_repr [FFin false 25 2; FFin false 5 (-10); FFin false 4097 (-12)]
  = ["100.0"; "0.0048828125"; "1.000244140625"].
Proof. by_compute. Qed.
Example repr_1e16 : float_repr (FFin false 152587890625 16) = "1e+16".
Proof. by_compute. Qed.

(** ** Lemmas *)

(** *** Fractions *)

Lemma float_of_ratio_scale neg num den k :
  0 < den -> 0 < k -> float_of_ratio neg (num * k) (den * k) = float_of_ratio neg num den.
Proof.
  intros Hd Hk. unfold float_of_ratio. replace (num * k * 2 ^ 1200) with (num * 2 ^ 1200 * k) by ring.
  rewrite Z.div_mul_cancel_r, Z.mul_mod_distr_r by lia.
  destruct (Z.eqb_spec (num * 2 ^ 1200 mod den) 0) as [->|Hr]; [done|].
  rewrite (proj2 (Z.eqb_neq _ _)); [done|nia].
Qed.

(** Equal fractions round alike. *)
Lemma float_of_ratio_cross neg num den num' den' :
  0 < den -> 0 < den' -> num * den' = num' * den ->
  float_of_ratio neg num den = float_of_ratio neg num' den'.
Proof.
  intros Hd Hd' E. rewrite <- (float_of_ratio_scale neg num den den') by done.
  rewrite <- (float_of_ratio_scale neg num' den' den) by done. f_equal; lia.
Qed.

Lemma pow10_pos k : 0 <= k -> 0 < 10 ^ k.
Proof. intros. by apply Z.pow_pos_nonneg. Qed.

Lemma decimal_ratio_den m e : 0 < (decimal_ratio m e).2.
Proof. simpl. apply pow10_pos. lia. Qed.

(** Moving zeros between the mantissa and the exponent. *)
Lemma float_of_decimal_shift neg m e k :
  0 <= k -> float_of_decimal neg (m * 10 ^ k) (e - k) = float_of_decimal neg m e.
Proof.
  intros Hk. unfold float_of_decimal, decimal_ratio. apply float_of_ratio_cross;
    [apply pow10_pos; lia..|].
  rewrite <- !Z.mul_assoc, <- !Z.pow_add_r by lia. do 2 f_equal. lia.
Qed.

(** A float of the format is the nearest to its own value. *)
Lemma rounded_exact neg m e k :
  in_fmt double m e = true -> 0 <= k -> rounded neg (Z.pos m * 2 ^ k) (e - k) = FFin neg m e.
Proof.
  intros H Hk. pose proof H as (Ho & _)%in_fmt_iff. unfold rounded.
  rewrite make_float_shift by done. replace (e - k + k) with e by lia.
  by rewrite round_to_exact.
Qed.

Lemma float_of_binary_ratio neg m e :
  in_fmt double m e = true ->
  (let '(num, den) := binary_ratio (Z.pos m) e in float_of_ratio neg num den) = FFin neg m e.
Proof.
  intros H. pose proof H as (_ & _ & He & _)%in_fmt_iff. cbn [fmt_emin double] in He.
  unfold binary_ratio, float_of_ratio.
  assert (E : Z.pos m * 2 ^ Z.max 0 e * 2 ^ 1200 = Z.pos m * 2 ^ (e + 1200) * 2 ^ Z.max 0 (- e)).
  { rewrite <- !Z.mul_assoc, <- !Z.pow_add_r by lia. do 2 f_equal. lia. }
  rewrite E, Z.mod_mul, Z.div_mul by (apply Z.pow_nonzero; lia).
  cbn [Z.eqb]. rewrite Z.add_0_r.
  replace (2 * (Z.pos m * 2 ^ (e + 1200))) with (Z.pos m * 2 ^ (e + 1201)).
  - replace (-1201) with (e - (e + 1201)) by lia. apply rounded_exact; [done|lia].
  - replace (e + 1201) with (1 + (e + 1200)) by lia. rewrite Z.pow_add_r by lia. ring.
Qed.

Lemma float_of_exact_decimal neg m e :
  in_fmt double m e = true ->
  (let '(num, x) := if 0 <=? e then (Z.pos m * 2 ^ e, 0) else (Z.pos m * 5 ^ (- e), e) in
   float_of_decimal neg num x) = FFin neg m e.
Proof.
  intros H. rewrite <- (float_of_binary_ratio neg m e H).
  unfold binary_ratio, float_of_decimal, decimal_ratio. destruct (Z.leb_spec 0 e).
  - cbn [Z.opp]. rewrite (Z.max_r 0 e), (Z.max_l 0 (- e)), Z.max_id by lia. by rewrite Z.mul_1_r.
  - rewrite (Z.max_l 0 e), (Z.max_r 0 (- e)) by lia.
    apply float_of_ratio_cross; [apply Z.pow_pos_nonneg; lia..|].
    replace (10 ^ (- e)) with (5 ^ (- e) * 2 ^ (- e)) by by rewrite <- Z.pow_mul_l.
    change (2 ^ 0) with 1. change (10 ^ 0) with 1. ring.
Qed.

(** *** Digits *)

Lemma digit_char_digit n : 0 <= n < 10 -> is_digit (digit_char n) = true.
Proof. apply digit_char_is_digit. Qed.

Lemma take_digits_digit n s acc count :
  0 <= n < 10 ->
  take_digits (String (digit_char n) s) acc count = take_digits s (acc * 10 + n) (count + 1).
Proof.
  intros H. cbn [take_digits]. rewrite digit_char_digit, digit_char_code by done.
  do 2 f_equal. lia.
Qed.

Lemma take_digits_pad width n s acc count :
  0 <= n < 10 ^ Z.of_nat width ->
  take_digits (pad_digits width n +:+ s) acc count
  = take_digits s (acc * 10 ^ Z.of_nat width + n) (count + Z.of_nat width).
Proof.
  assert (Hgen : forall n acc count,
    take_digits (pad_digits width n +:+ s) acc count
    = take_digits s (acc * 10 ^ Z.of_nat width + n mod 10 ^ Z.of_nat width) (count + Z.of_nat width)).
  { induction width as [|w IH]; intros n' acc' count'.
    - cbn [pad_digits]. change (10 ^ Z.of_nat 0) with 1. rewrite Z.mod_1_r.
      change ("" +:+ s) with s. f_equal; lia.
    - change (pad_digits (S w) n' +:+ s)
        with (String (digit_char (n' / 10 ^ Z.of_nat w mod 10)) (pad_digits w n' +:+ s)).
      rewrite take_digits_digit by (apply Z.mod_pos_bound; lia). rewrite IH.
      rewrite Nat2Z.inj_succ, Z.pow_succ_r by lia. pose proof (pow10_pos (Z.of_nat w) ltac:(lia)).
      rewrite (Z.mul_comm 10), Z.rem_mul_r by lia. f_equal; [ring|lia]. }
  intros H. rewrite Hgen. by rewrite Z.mod_small.
Qed.

(** The text goes on with something that is not a digit. *)
Definition no_digit (s : string) : bool :=
  match s with String c _ => negb (is_digit c) | EmptyString => true end.

Lemma take_digits_stop s acc count : no_digit s = true -> take_digits s acc count = (acc, count, s).
Proof. destruct s as [|c s]; [done|]. simpl. by intros ->%negb_true_iff. Qed.

(** The printed digits of a number, without a leading zero. *)
Lemma dec_digits_scan fuel n s :
  0 < n < 10 ^ Z.of_nat fuel ->
  exists d t, 1 <= d < 10 /\ dec_digits fuel n s = String (digit_char d) t
    /\ forall acc count, exists k,
         take_digits (String (digit_char d) t) acc count
         = take_digits s (acc * 10 ^ k + n) (count + k) /\ 1 <= k.
Proof.
  revert n s. induction fuel as [|fuel IH]; intros n s Hn; [change (10 ^ Z.of_nat 0) with 1 in Hn; lia|].
  cbn [dec_digits]. pose proof (Z.mod_pos_bound n 10 ltac:(lia)) as Hm.
  pose proof (Z.div_mod n 10 ltac:(lia)) as Hd.
  destruct (n / 10 =? 0) eqn:E; [apply Z.eqb_eq in E|apply Z.eqb_neq in E].
  - exists (n mod 10), s. split; [lia|]. split; [done|]. intros acc count. exists 1.
    rewrite take_digits_digit by done. split; [|lia]. f_equal. lia.
  - rewrite Nat2Z.inj_succ, Z.pow_succ_r in Hn by lia.
    destruct (IH (n / 10) (String (digit_char (n mod 10)) s) ltac:(lia)) as (d & t & Hd' & Et & Ht).
    exists d, t. split; [done|]. split; [done|]. intros acc count.
    destruct (Ht acc count) as (k & Ek & Hk). exists (k + 1). rewrite Ek, take_digits_digit by done.
    split; [|lia]. rewrite Z.pow_add_r by lia. f_equal; lia.
Qed.

Lemma dec_digits_append fuel n s t : dec_digits fuel n s +:+ t = dec_digits fuel n (s +:+ t).
Proof.
  revert n s; induction fuel as [|fuel IH]; intros n s; [done|].
  cbn [dec_digits]. destruct (n / 10 =? 0); [done|]. by rewrite IH.
Qed.

Lemma digit_char_zero d : 1 <= d < 10 -> Ascii.eqb (digit_char d) "0" = false.
Proof.
  intros H. apply Ascii.eqb_neq. intros E.
  pose proof (digit_char_code d ltac:(lia)) as Hc. rewrite E in Hc. cbn in Hc. lia.
Qed.

Lemma scan_int_part_str i s :
  0 <= i -> no_digit s = true -> scan_int_part (str_of_int i +:+ s) = Some (i, s).
Proof.
  intros Hi Hs. unfold str_of_int. rewrite (proj2 (Z.ltb_ge _ _)) by lia.
  rewrite dec_digits_append. change ("" +:+ s) with s.
  destruct (decide (i = 0)) as [->|Hne].
  - unfold dec_fuel. cbn. by destruct s.
  - destruct (dec_digits_scan (dec_fuel i) i s) as (d & t & Hd & -> & Ht);
      [split; [lia|by apply dec_fuel_ok; lia]|].
    cbn [scan_int_part]. rewrite digit_char_zero, digit_char_digit by lia.
    destruct (Ht 0 0) as (k & -> & _). rewrite take_digits_stop by done. done.
Qed.

(** *** Numerals *)

(** What may follow a number: not another character of a number. *)
Definition number_end (s : string) : bool :=
  match s with
  | String c _ => negb (is_digit c || Ascii.eqb c "." || Ascii.eqb c "e" || Ascii.eqb c "E")
  | EmptyString => true
  end.

Lemma number_end_parts s :
  number_end s = true ->
  no_digit s = true /\ scan_fraction s = (None, s) /\ scan_exponent s = (None, s).
Proof.
  destruct s as [|c s]; [done|]. cbn [number_end no_digit].
  rewrite negb_true_iff, !orb_false_iff. intros [[[-> Hp] He] HE].
  split; [done|]. split; [|cbn [scan_exponent]; by rewrite He, HE].
  unfold scan_fraction. destruct c as [[] [] [] [] [] [] [] []]; done.
Qed.

Lemma scan_fraction_pad width f s :
  (0 < width)%nat -> 0 <= f < 10 ^ Z.of_nat width -> no_digit s = true ->
  scan_fraction ("." +:+ pad_digits width f +:+ s) = (Some (f, Z.of_nat width), s).
Proof.
  intros Hw Hf Hs. change ("." +:+ pad_digits width f +:+ s) with (String "." (pad_digits width f +:+ s)).
  cbn [scan_fraction]. rewrite take_digits_pad, take_digits_stop by done.
  rewrite (proj2 (Z.eqb_neq _ _)) by lia. done.
Qed.

Lemma take_digits_exponent a s :
  0 <= a -> no_digit s = true ->
  exists k, 1 <= k /\
    take_digits ((if a <? 100 then pad_digits 2 a else str_of_int a) +:+ s) 0 0 = (a, k, s).
Proof.
  intros Ha Hs. destruct (Z.ltb_spec a 100).
  - exists 2. split; [lia|]. rewrite take_digits_pad by (simpl; lia). by rewrite take_digits_stop.
  - unfold str_of_int. rewrite (proj2 (Z.ltb_ge _ _)) by lia. rewrite dec_digits_append.
    destruct (dec_digits_scan (dec_fuel a) a ("" +:+ s)) as (d & t & _ & -> & Ht);
      [split; [lia|apply dec_fuel_ok; lia]|].
    destruct (Ht 0 0) as (k & -> & Hk). exists k. split; [done|].
    by rewrite take_digits_stop.
Qed.

Lemma scan_exponent_show x s :
  no_digit s = true -> scan_exponent (show_exponent x +:+ s) = (Some x, s).
Proof.
  intros Hs. unfold show_exponent. rewrite string_app_assoc.
  destruct (take_digits_exponent (Z.abs x) s ltac:(lia) Hs) as (k & Hk & E).
  set (t := (if Z.abs x <? 100 then pad_digits 2 (Z.abs x) else str_of_int (Z.abs x)) +:+ s) in *.
  destruct (Z.ltb_spec x 0).
  - change ("e-" +:+ t) with (String "e" (String "-" t)). cbn. unfold scan_exponent_digits.
    rewrite E, (proj2 (Z.eqb_neq _ _)) by lia. do 2 f_equal. lia.
  - change ("e+" +:+ t) with (String "e" (String "+" t)). cbn. unfold scan_exponent_digits.
    rewrite E, (proj2 (Z.eqb_neq _ _)) by lia. do 2 f_equal. lia.
Qed.

Lemma scan_sign_digit c s : is_digit c = true -> scan_sign (String c s) = (false, String c s).
Proof. destruct c as [[] [] [] [] [] [] [] []]; done. Qed.

(** A non-negative integer is printed from its first digit on. *)
Lemma str_of_int_head i : 0 <= i -> exists c t, str_of_int i = String c t /\ is_digit c = true.
Proof.
  intros Hi. unfold str_of_int. rewrite (proj2 (Z.ltb_ge _ _)) by lia.
  destruct (dec_digits_ends (Z.to_nat (Z.log2 i)) i "") as (d & t & Hd & E).
  fold (dec_fuel i) in E. exists (digit_char d), t. split; [done|]. by apply digit_char_digit.
Qed.

Definition sign_text (neg : bool) : string := if neg then "-" else "".

Lemma scan_sign_text neg i s :
  0 <= i -> scan_sign (sign_text neg +:+ str_of_int i +:+ s) = (neg, str_of_int i +:+ s).
Proof.
  intros Hi. destruct neg; [done|]. destruct (str_of_int_head i Hi) as (c & t & -> & Hc).
  exact (scan_sign_digit c (t +:+ s) Hc).
Qed.

(** An integer reads back. *)
Lemma scan_number_int z s : number_end s = true -> scan_number (str_of_int z +:+ s) = Some (PInt z, s).
Proof.
  intros Hs. apply number_end_parts in Hs as (Hd & Hf & He).
  assert (E : str_of_int z = sign_text (z <? 0) +:+ str_of_int (Z.abs z)).
  { unfold str_of_int. rewrite (proj2 (Z.ltb_ge (Z.abs z) 0)) by lia.
    destruct (Z.ltb_spec z 0); [by rewrite Z.abs_neq by lia|by rewrite Z.abs_eq by lia]. }
  rewrite E, string_app_assoc. unfold scan_number. rewrite scan_sign_text by lia.
  rewrite scan_int_part_str by (done || lia). rewrite Hf, He.
  do 3 f_equal. destruct (Z.ltb_spec z 0); lia.
Qed.

(** A numeral with a point reads back as the float nearest to its value. *)
Lemma scan_number_point neg i width f x e s :
  0 <= i -> (0 < width)%nat -> 0 <= f < 10 ^ Z.of_nat width -> number_end s = true ->
  (e = "" /\ x = 0 \/ e = show_exponent x) ->
  scan_number (sign_text neg +:+ show_point i width f +:+ e +:+ s)
  = Some (PFloat (float_of_decimal neg (i * 10 ^ Z.of_nat width + f) (x - Z.of_nat width)), s).
Proof.
  intros Hi Hw Hf Hs He. apply number_end_parts in Hs as (Hd & _ & Hx).
  unfold show_point, scan_number. rewrite !string_app_assoc, scan_sign_text by done.
  rewrite scan_int_part_str by done.
  assert (Hes : no_digit (e +:+ s) = true /\ scan_exponent (e +:+ s) = (if String.eqb e "" then None else Some x, s)).
  { destruct He as [[-> ->]| ->]; [done|]. rewrite scan_exponent_show by done.
    unfold show_exponent. by destruct (x <? 0). }
  destruct Hes as [Hes Hee]. rewrite scan_fraction_pad by done. rewrite Hee.
  destruct (String.eqb_spec e "") as [->|Hne]; cbn [default]; [|done].
  destruct He as [[_ ->]|He]; [done|]. exfalso. unfold show_exponent in He. by destruct (x <? 0).
Qed.

(** An integer with an exponent, as the shortest numeral of one digit is. *)
Lemma scan_number_scientific neg i x s :
  0 <= i -> number_end s = true ->
  scan_number (sign_text neg +:+ str_of_int i +:+ show_exponent x +:+ s)
  = Some (PFloat (float_of_decimal neg i x), s).
Proof.
  intros Hi Hs. apply number_end_parts in Hs as (Hd & _ & _).
  unfold scan_number. rewrite scan_sign_text by done.
  assert (Hhead : exists t, show_exponent x +:+ s = String "e" t).
  { unfold show_exponent. rewrite string_app_assoc. by destruct (x <? 0); eexists. }
  destruct Hhead as [t Et].
  rewrite scan_int_part_str by (rewrite ?Et; done).
  assert (scan_fraction (show_exponent x +:+ s) = (None, show_exponent x +:+ s)) as ->
    by by rewrite Et.
  rewrite scan_exponent_show by done. cbn [default].
  change (default (0, 0) None) with (0, 0). cbv iota zeta.
  replace (i * 10 ^ 0 + 0) with i by (change (10 ^ 0) with 1; lia). by rewrite Z.sub_0_r.
Qed.

(** *** The shortest numeral *)

Lemma show_decimal_scan neg d nd p s :
  0 < d < 10 ^ nd -> 1 <= nd -> number_end s = true ->
  scan_number (sign_text neg +:+ show_decimal d nd p +:+ s)
  = Some (PFloat (float_of_decimal neg d (p - nd)), s).
Proof.
  intros Hd Hn Hs. unfold show_decimal.
  assert (Hsplit : forall k, 1 <= k -> 0 <= d / 10 ^ k /\ 0 <= d mod 10 ^ k < 10 ^ Z.of_nat (Z.to_nat k)
            /\ d / 10 ^ k * 10 ^ Z.of_nat (Z.to_nat k) + d mod 10 ^ k = d).
  { intros k Hk. pose proof (pow10_pos k ltac:(lia)). rewrite Z2Nat.id by lia.
    split; [apply Z.div_pos; lia|]. split; [apply Z.mod_pos_bound; lia|].
    pose proof (Z.div_mod d (10 ^ k) ltac:(lia)). lia. }
  destruct ((p <=? -4) || (16 <? p)); [|destruct (Z.leb_spec nd p)].
  - destruct (Z.eqb_spec nd 1) as [->|Hnd]; rewrite !string_app_assoc.
    + by apply scan_number_scientific; [lia|].
    + destruct (Hsplit (nd - 1) ltac:(lia)) as (H1 & H2 & H3).
      rewrite (scan_number_point _ _ _ _ (p - 1)) by (done || lia || by right).
      do 3 f_equal. rewrite H3. f_equal. lia.
  - pose proof (scan_number_point neg (d * 10 ^ (p - nd)) 1 0 0 "" s) as E.
    change ("" +:+ s) with s in E. rewrite E; clear E;
      [|pose proof (pow10_pos (p - nd)); nia|lia|done|done|by left].
    do 2 f_equal. f_equal. change (Z.of_nat 1) with 1. rewrite Z.add_0_r.
    rewrite <- Z.mul_assoc, <- Z.pow_add_r by lia.
    rewrite <- (float_of_decimal_shift neg d (p - nd) (p - nd + 1)) by lia.
    f_equal. lia.
  - destruct (Hsplit (nd - p) ltac:(lia)) as (H1 & H2 & H3).
    pose proof (scan_number_point neg (d / 10 ^ (nd - p)) (Z.to_nat (nd - p)) (d mod 10 ^ (nd - p)) 0 "" s) as E.
    change ("" +:+ s) with s in E. rewrite E; clear E; [|done|lia|done|done|by left].
    do 3 f_equal. rewrite H3. f_equal. lia.
Qed.

Lemma same_float_eq a b : same_float a b = true -> a = b.
Proof.
  destruct a as [|[]|[]|[] m e], b as [|[]|[]|[] m' e']; simpl; try done.
  all: rewrite andb_true_iff, Pos.eqb_eq, Z.eqb_eq; by intros [-> ->].
Qed.

Lemma shortest_digits_reads fuel f num den p nd d k q :
  shortest_digits fuel f num den p nd = Some (d, k, q) -> reads_back f (d, k, q) = true.
Proof.
  revert nd; induction fuel as [|fuel IH]; intros nd; cbn [shortest_digits]; [done|].
  destruct (find _ _) as [[[d' k'] q']|] eqn:E; [|apply IH].
  intros [= <- <- <-]. by apply find_some in E as [_ E].
Qed.

(** The sign of a finite result is the sign of the numeral. *)
Lemma float_of_decimal_neg m e d x :
  float_of_decimal false d x = FFin false m e -> float_of_decimal true d x = FFin true m e.
Proof.
  unfold float_of_decimal, float_of_ratio, rounded. destruct (decimal_ratio d x) as [num den].
  set (n := 2 * _ + _). destruct n as [|n|n]; cbn [make_float]; [done| |done].
  destruct (odd_part n (-1201)) as [n' e']. unfold round_to.
  destruct (round_mantissa double n' e') as [k q]. destruct (_ && _); [done|].
  unfold make_float. destruct k as [|k|k]; [done| |done].
  destruct (odd_part k q). by intros [= -> ->].
Qed.

(** A finite float of the language reads back from its text. *)
Lemma repr_finite_scan neg m e s :
  in_fmt double m e = true -> number_end s = true ->
  scan_number (sign_text neg +:+ repr_finite m e +:+ s) = Some (PFloat (FFin neg m e), s).
Proof.
  intros Hm Hs. unfold repr_finite. destruct (binary_ratio (Z.pos m) e) as [num den].
  destruct (shortest_digits _ _ _ _ _ _) as [[[d nd] p]|] eqn:E.
  - apply shortest_digits_reads in E. unfold reads_back in E.
    apply andb_true_iff in E as [[[Hd%Z.ltb_lt Hd']%andb_true_iff Hn%Z.leb_le]%andb_true_iff Hf%same_float_eq].
    apply Z.ltb_lt in Hd'. rewrite show_decimal_scan by done. do 3 f_equal.
    destruct neg; [by apply float_of_decimal_neg|done].
  - pose proof (float_of_exact_decimal neg m e Hm) as Ex. unfold show_exact.
    destruct (if 0 <=? e then _ else _) as [n x] eqn:En.
    assert (0 <= n).
    { destruct (0 <=? e); injection En as <- <-; pose proof (Z.pow_nonneg 2 e); pose proof (Z.pow_nonneg 5 (- e)); nia. }
    rewrite string_app_assoc, (scan_number_point _ _ _ _ x) by (done || lia || by right).
    do 3 f_equal. rewrite <- Ex. rewrite <- (float_of_decimal_shift neg n x 1) by lia. f_equal. lia.
Qed.

Lemma float_repr_scan f s :
  float_in double f = true -> isnan f = false -> isinf f = false -> number_end s = true ->
  scan_number (float_repr f +:+ s) = Some (PFloat f, s).
Proof.
  intros Hf Hn Hi Hs. destruct f as [|neg|neg|neg m e]; try done.
  - destruct neg.
    + apply (scan_number_point true 0 1 0 0 "" s); [done|lia|done|done|by left].
    + apply (scan_number_point false 0 1 0 0 "" s); [done|lia|done|done|by left].
  - cbn [float_repr]. destruct neg.
    + rewrite string_app_assoc. exact (repr_finite_scan true m e s Hf Hs).
    + exact (repr_finite_scan false m e s Hf Hs).
Qed.
