(* ===== verification/PyJson.v ===== *)
(** * PyJson

    [json.dumps] and [json.loads] as the HTTP tier calls them (the default
    options): ASCII output with escapes, strict input, the last of two equal
    keys winning, and [NaN] and the infinities accepted both ways. *)

From S2P Require Import Prelude PyFloat PyValue PyArith Rfc8949 PyText PyDecimal.
From Stdlib Require Import Strings.Ascii.

(** ** Code points *)

(** The UTF-8 encoding of a code point (a surrogate as any other). *)
Definition utf8_encode (c : Z) : bytes :=
  if c <? 0x80 then [Z_to_byte c]
  else if c <? 0x800 then [Z_to_byte (0xC0 + c / 64); Z_to_byte (0x80 + c mod 64)]
  else if c <? 0x10000 then
    [Z_to_byte (0xE0 + c / 4096); Z_to_byte (0x80 + c / 64 mod 64); Z_to_byte (0x80 + c mod 64)]
  else
    [Z_to_byte (0xF0 + c / 262144); Z_to_byte (0x80 + c / 4096 mod 64);
     Z_to_byte (0x80 + c / 64 mod 64); Z_to_byte (0x80 + c mod 64)].

(** The code point one character's bytes encode. *)
Definition char_code (bs : bytes) : Z :=
  match map byte_to_Z bs with
  | [b; c] => (b - 0xC0) * 64 + (c - 0x80)
  | [b; c; d] => (b - 0xE0) * 4096 + (c - 0x80) * 64 + (d - 0x80)
  | [b; c; d; e] => (b - 0xF0) * 262144 + (c - 0x80) * 4096 + (d - 0x80) * 64 + (e - 0x80)
  | b :: _ => b
  | [] => 0
  end.

(** The code points of a string's bytes; [skip] of them have been read. *)
Fixpoint code_points (skip : nat) (bs : bytes) : list Z :=
  match bs with
  | [] => []
  | b :: rest =>
      match skip with
      | S skip => code_points skip rest
      | O => let '(_, n) := utf8_head b rest in
             char_code (b :: take (n - 1) rest) :: code_points (n - 1) rest
      end
  end.

(** ** Writing *)

Definition quote_mark : ascii := "034"%char.
Definition backslash : ascii := "\"%char.

(** A lower-case hexadecimal digit. *)
Definition lower_hex (n : Z) : ascii := ascii_of_N (Z.to_N (if n <? 10 then 48 + n else 87 + n)).

(** [\uXXXX]. *)
Definition unicode_escape (u : Z) (rest : string) : string :=
  String backslash (String "u" (String (lower_hex (u / 4096 mod 16)) (String (lower_hex (u / 256 mod 16))
    (String (lower_hex (u / 16 mod 16)) (String (lower_hex (u mod 16)) rest))))).

(** The two-character escapes. *)
Definition short_escape (c : Z) : option ascii :=
  match c with
  | 34 => Some quote_mark
  | 92 => Some backslash
  | 8 => Some "b"%char
  | 12 => Some "f"%char
  | 10 => Some "n"%char
  | 13 => Some "r"%char
  | 9 => Some "t"%char
  | _ => None
  end.

(** One character of a string, in front of the rest. *)
Definition escape_char (c : Z) (rest : string) : string :=
  match short_escape c with
  | Some e => String backslash (String e rest)
  | None =>
      if in_range 32 126 c then String (ascii_of_N (Z.to_N c)) rest
      else if c <? 0x10000 then unicode_escape c rest
      else unicode_escape (0xD800 + (c - 0x10000) / 1024)
             (unicode_escape (0xDC00 + (c - 0x10000) mod 1024) rest)
  end.

Definition json_string (s : string) (rest : string) : string :=
  String quote_mark (foldr escape_char (String quote_mark rest) (code_points 0 (str_bytes s))).

(** The text of a float. *)
Definition json_float (f : pyfloat) : string :=
  match f with
  | FNan => "NaN"
  | FInf neg => if neg then "-Infinity" else "Infinity"
  | _ => float_repr f
  end.

(** A key of an object. *)
Definition json_key (k : pyval) : pyresult string :=
  match k with
  | PStr s => Ok s
  | PFloat f => Ok (json_float f)
  | PBool b => Ok (if b then "true" else "false")
  | PNone => Ok "null"
  | PInt z => Ok (str_of_int z)
  | _ => Raise TypeError
  end.

(** [json.dumps(v)]. *)
Fixpoint dumps (v : pyval) : pyresult string :=
  match v with
  | PNone => Ok "null"
  | PBool b => Ok (if b then "true" else "false")
  | PInt z => Ok (str_of_int z)
  | PFloat f => Ok (json_float f)
  | PStr s => Ok (json_string s "")
  | PList l =>
      let* parts := map_result dumps l in
      Ok ("[" +:+ String.concat ", " parts +:+ "]")
  | PDict d =>
      let* parts := map_result (fun '(k, x) =>
        let* k := json_key k in let* x := dumps x in Ok (json_string k ": " +:+ x)) d in
      Ok ("{" +:+ String.concat ", " parts +:+ "}")
  | PBytes _ | PFloatField _ _ => Raise TypeError
  end.

(** ** Reading *)

Definition is_json_space (c : ascii) : bool :=
  Ascii.eqb c " " || Ascii.eqb c "009" || Ascii.eqb c "010" || Ascii.eqb c "013".

Fixpoint skip_space (s : string) : string :=
  match s with
  | String c s' => if is_json_space c then skip_space s' else s
  | EmptyString => EmptyString
  end.

Definition hex4 (a b c d : ascii) : option Z :=
  match hex_value a, hex_value b, hex_value c, hex_value d with
  | Some a, Some b, Some c, Some d => Some (a * 4096 + b * 256 + c * 16 + d)
  | _, _, _, _ => None
  end.

Definition simple_escape (e : ascii) : option byte :=
  if Ascii.eqb e quote_mark then Some x22
  else if Ascii.eqb e backslash then Some x5c
  else if Ascii.eqb e "/" then Some x2f
  else if Ascii.eqb e "b" then Some x08
  else if Ascii.eqb e "f" then Some x0c
  else if Ascii.eqb e "n" then Some x0a
  else if Ascii.eqb e "r" then Some x0d
  else if Ascii.eqb e "t" then Some x09
  else None.

Definition prepend (bs : bytes) (r : option (bytes * string)) : option (bytes * string) :=
  match r with Some (t, s) => Some (bs ++ t, s) | None => None end.

(** A string after its opening quotation mark: its bytes, and the rest. A high
    surrogate joins the low one that may follow it. *)
Fixpoint scan_string (s : string) : option (bytes * string) :=
  match s with
  | EmptyString => None
  | String c s =>
      if Ascii.eqb c quote_mark then Some ([], s)
      else if Ascii.eqb c backslash then
        match s with
        | EmptyString => None
        | String e s =>
            match simple_escape e with
            | Some b => prepend [b] (scan_string s)
            | None =>
                if Ascii.eqb e "u" then
                  match s with
                  | String h1 (String h2 (String h3 (String h4 s))) =>
                      match hex4 h1 h2 h3 h4 with
                      | None => None
                      | Some u =>
                          let alone := prepend (utf8_encode u) (scan_string s) in
                          if in_range 0xD800 0xDBFF u then
                            match s with
                            | String b (String v (String l1 (String l2 (String l3 (String l4 s))))) =>
                                if Ascii.eqb b backslash && Ascii.eqb v "u" then
                                  match hex4 l1 l2 l3 l4 with
                                  | None => None
                                  | Some l =>
                                      if in_range 0xDC00 0xDFFF l then
                                        prepend (utf8_encode
                                          (0x10000 + (u - 0xD800) * 1024 + (l - 0xDC00))) (scan_string s)
                                      else alone
                                  end
                                else alone
                            | _ => alone
                            end
                          else alone
                      end
                  | _ => None
                  end
                else None
            end
        end
      else if (N_of_ascii c <? 32)%N then None
      else prepend [byte_of_ascii c] (scan_string s)
  end.

(** What follows a literal. *)
Fixpoint after (p s : string) : option string :=
  match p, s with
  | EmptyString, _ => Some s
  | String c p, String c' s => if Ascii.eqb c c' then after p s else None
  | _, _ => None
  end.

Definition literals : list (string * pyval) :=
  [("null", PNone); ("true", PBool true); ("false", PBool false); ("NaN", PFloat FNan);
   ("Infinity", PFloat (FInf false)); ("-Infinity", PFloat (FInf true))].

Fixpoint scan_literal (ls : list (string * pyval)) (s : string) : option (pyval * string) :=
  match ls with
  | [] => None
  | (p, v) :: ls => match after p s with Some r => Some (v, r) | None => scan_literal ls s end
  end.

(** [d[k] = v] on a dict with string keys. *)
Fixpoint dict_set (d : list (pyval * pyval)) (k : string) (v : pyval) : list (pyval * pyval) :=
  match d with
  | [] => [(PStr k, v)]
  | (PStr k', v') :: d =>
      if String.eqb k' k then (PStr k', v) :: d else (PStr k', v') :: dict_set d k v
  | kv :: d => kv :: dict_set d k v
  end.

(** A value at the front of the text, the items of an array and the members of
    an object up to their closing bracket. *)
Fixpoint scan_value (fuel : nat) (s : string) : option (pyval * string) :=
  match fuel with
  | O => None
  | S fuel =>
      match s with
      | EmptyString => None
      | String c s' =>
          if Ascii.eqb c quote_mark then
            match scan_string s' with
            | Some (bs, r) => Some (PStr (String.string_of_list_byte bs), r)
            | None => None
            end
          else if Ascii.eqb c "[" then
            match skip_space s' with
            | String "]"%char r => Some (PList [], r)
            | t => scan_items fuel [] t
            end
          else if Ascii.eqb c "{" then
            match skip_space s' with
            | String "}"%char r => Some (PDict [], r)
            | t => scan_members fuel [] t
            end
          else match scan_literal literals s with
               | Some r => Some r
               | None => scan_number s
               end
      end
  end
with scan_items (fuel : nat) (acc : list pyval) (s : string) : option (pyval * string) :=
  match fuel with
  | O => None
  | S fuel =>
      match scan_value fuel s with
      | None => None
      | Some (v, r) =>
          match skip_space r with
          | String "]"%char r => Some (PList (acc ++ [v]), r)
          | String ","%char r => scan_items fuel (acc ++ [v]) (skip_space r)
          | _ => None
          end
      end
  end
with scan_members (fuel : nat) (acc : list (pyval * pyval)) (s : string) : option (pyval * string) :=
  match fuel with
  | O => None
  | S fuel =>
      match s with
      | String c s' =>
          if Ascii.eqb c quote_mark then
            match scan_string s' with
            | None => None
            | Some (k, r) =>
                match skip_space r with
                | String ":"%char r =>
                    match scan_value fuel (skip_space r) with
                    | None => None
                    | Some (v, r) =>
                        let acc := dict_set acc (String.string_of_list_byte k) v in
                        match skip_space r with
                        | String "}"%char r => Some (PDict acc, r)
                        | String ","%char r => scan_members fuel acc (skip_space r)
                        | _ => None
                        end
                    end
                | _ => None
                end
            end
          else None
      | EmptyString => None
      end
  end.

(** A text cannot nest values deeper than it is long. *)
Definition scan_fuel (s : string) : nat := S (2 * String.length s).

(** U+FEFF, which [json.loads] refuses at the front of a text. *)
Definition byte_order_mark : string := String.string_of_list_byte [xef; xbb; xbf].

(** [json.loads(s)]; a text that is not JSON raises [JSONDecodeError], a
    [ValueError]. *)
Definition loads (s : string) : pyresult pyval :=
  match after byte_order_mark s with
  | Some _ => Raise ValueError
  | None =>
      match scan_value (scan_fuel (skip_space s)) (skip_space s) with
      | Some (v, r) => if String.eqb (skip_space r) "" then Ok v else Raise ValueError
      | None => Raise ValueError
      end
  end.

(** ** The fuel is enough *)

Abbreviation slen := String.length.

Lemma skip_space_length s : (slen (skip_space s) <= slen s)%nat.
Proof. induction s as [|c s IH]; simpl; [done|]. case_match; simpl; lia. Qed.

Lemma take_digits_length s acc count v n r :
  take_digits s acc count = (v, n, r) -> (slen r <= slen s)%nat.
Proof.
  revert acc count; induction s as [|c s IH]; intros acc count; simpl; [by intros [= <- <- <-]|].
  destruct (is_digit c); [intros H%IH; lia|intros [= <- <- <-]; simpl; lia].
Qed.

Lemma scan_number_length s v r : scan_number s = Some (v, r) -> (slen r < slen s)%nat.
Proof.
  unfold scan_number. destruct (scan_sign s) as [neg s1] eqn:E1.
  assert (H1 : (slen s1 <= slen s)%nat).
  { destruct s as [|c s]; [by injection E1 as <- <-|].
    destruct c as [[] [] [] [] [] [] [] []]; injection E1 as <- <-; simpl; lia. }
  destruct (scan_int_part s1) as [[i r1]|] eqn:E2; [|done].
  assert (H2 : (slen r1 < slen s1)%nat).
  { destruct s1 as [|c s1]; [done|]. cbn [scan_int_part] in E2.
    destruct (Ascii.eqb c "0"); [injection E2 as <- <-; simpl; lia|].
    destruct (is_digit c) eqn:Ed; [|done]. cbn [take_digits] in E2. rewrite Ed in E2.
    destruct (take_digits s1 _ _) as [[v' n'] r'] eqn:Et. injection E2 as <- <-.
    apply take_digits_length in Et. simpl; lia. }
  destruct (scan_fraction r1) as [frac r2] eqn:E3.
  assert (H3 : (slen r2 <= slen r1)%nat).
  { unfold scan_fraction in E3. destruct r1 as [|c r1]; [by injection E3 as <- <-|].
    destruct c as [[] [] [] [] [] [] [] []]; try (injection E3 as <- <-; done).
    destruct (take_digits r1 0 0) as [[v' n'] r'] eqn:Et. apply take_digits_length in Et.
    destruct (n' =? 0); injection E3 as <- <-; simpl; lia. }
  destruct (scan_exponent r2) as [exp r3] eqn:E4.
  assert (H4 : (slen r3 <= slen r2)%nat).
  { assert (Hx : forall neg s s' o q, scan_exponent_digits neg s s' = (o, q) ->
              (slen s' <= slen s)%nat -> (slen q <= slen s)%nat).
    { intros neg' t t' o q. unfold scan_exponent_digits.
      destruct (take_digits t' 0 0) as [[v' n'] r'] eqn:Et. apply take_digits_length in Et.
      destruct (n' =? 0); intros [= <- <-]; lia. }
    unfold scan_exponent in E4. destruct r2 as [|c r2]; [by injection E4 as <- <-|].
    destruct (_ || _); [|by injection E4 as <- <-].
    destruct r2 as [|c' r2]; [by eapply Hx; [exact E4|simpl; lia]|].
    destruct c' as [[] [] [] [] [] [] [] []]; eapply Hx; first [exact E4|simpl; lia]. }
  intros [= <- <-]. lia.
Qed.

Lemma scan_string_length s bs r : scan_string s = Some (bs, r) -> (slen r < slen s)%nat.
Proof.
  remember (slen s) as n eqn:En. revert s En bs r.
  induction n as [n IH] using lt_wf_ind; intros s -> bs r.
  assert (Hp : forall p t bs r, prepend p (scan_string t) = Some (bs, r) ->
            (slen t < slen s)%nat -> (slen r < slen s)%nat).
  { intros p t bs' r' H Ht. destruct (scan_string t) as [[q u]|] eqn:E; [|done].
    injection H as <- <-. specialize (IH _ Ht t eq_refl _ _ E). lia. }
  destruct s as [|c s]; cbn [scan_string]; [done|]. intros H.
  repeat case_match; simplify_eq; first [simpl; lia | done | eapply Hp; [eassumption|simpl; lia]].
Qed.

Lemma after_length p s r : after p s = Some r -> (slen r + slen p = slen s)%nat.
Proof.
  revert s; induction p as [|c p IH]; intros s; simpl; [intros [= ->]; lia|].
  destruct s as [|c' s]; [done|]. destruct (Ascii.eqb c c'); [|done].
  intros H%IH. simpl. lia.
Qed.

Lemma scan_literal_length ls s v r :
  Forall (fun pv => pv.1 <> "") ls -> scan_literal ls s = Some (v, r) -> (slen r < slen s)%nat.
Proof.
  induction 1 as [|[p w] ls Hp _ IH]; simpl; [done|].
  destruct (after p s) as [r'|] eqn:E; [|done]. intros [= <- <-].
  apply after_length in E. destruct p; [done|]. simpl in E. lia.
Qed.

Lemma literals_nonempty : Forall (fun pv => pv.1 <> "") literals.
Proof. by repeat constructor. Qed.

(** The lengths a step of the scanner can leave; destructs what it matched. *)
Ltac scan_lengths :=
  repeat match goal with
  | H : scan_string _ = Some (_, _) |- _ => apply scan_string_length in H
  | H : scan_number _ = Some (_, _) |- _ => apply scan_number_length in H
  | H : scan_literal literals _ = Some (_, _) |- _ =>
      apply (scan_literal_length _ _ _ _ literals_nonempty) in H
  | H : skip_space ?s = _ |- _ =>
      let L := fresh "L" in pose proof (skip_space_length s) as L; rewrite H in L; clear H
  end;
  repeat match goal with
  | |- context [skip_space ?s] =>
      lazymatch goal with
      | _ : (slen (skip_space s) <= slen s)%nat |- _ => fail
      | _ => pose proof (skip_space_length s)
      end
  | H : context [skip_space ?s] |- _ =>
      lazymatch goal with
      | _ : (slen (skip_space s) <= slen s)%nat |- _ => fail
      | _ => pose proof (skip_space_length s)
      end
  end;
  cbn [String.length] in *.

Lemma scan_lengths_all fuel :
  (forall s v r, scan_value fuel s = Some (v, r) -> (slen r < slen s)%nat)
  /\ (forall acc s v r, scan_items fuel acc s = Some (v, r) -> (slen r < slen s)%nat)
  /\ (forall acc s v r, scan_members fuel acc s = Some (v, r) -> (slen r < slen s)%nat).
Proof.
  induction fuel as [|fuel (IHv & IHi & IHm)]; [done|].
  split_and!; intros *; cbn [scan_value scan_items scan_members]; intros H;
    repeat case_match; simplify_eq;
    repeat match goal with
    | H : scan_value fuel _ = Some _ |- _ => apply IHv in H
    | H : scan_items fuel _ _ = Some _ |- _ => apply IHi in H
    | H : scan_members fuel _ _ = Some _ |- _ => apply IHm in H
    end; scan_lengths; lia.
Qed.

(** Any two budgets above twice the length of the text give the same answer. *)
Lemma scan_fuel_irrelevant fuel fuel' :
  (forall s, (2 * slen s < fuel)%nat -> (2 * slen s < fuel')%nat ->
     scan_value fuel s = scan_value fuel' s)
  /\ (forall acc s, (2 * slen s + 1 < fuel)%nat -> (2 * slen s + 1 < fuel')%nat ->
     scan_items fuel acc s = scan_items fuel' acc s)
  /\ (forall acc s, (2 * slen s + 1 < fuel)%nat -> (2 * slen s + 1 < fuel')%nat ->
     scan_members fuel acc s = scan_members fuel' acc s).
Proof.
  revert fuel'; induction fuel as [|fuel IH]; intros fuel'; [split_and!; intros; lia|].
  destruct fuel' as [|fuel']; [split_and!; intros; lia|].
  specialize (IH fuel') as (IHv & IHi & IHm).
  pose proof (scan_lengths_all fuel') as (Lv & _ & _).
  split_and!; intros *; intros H H'; cbn [scan_value scan_items scan_members].
  - destruct s as [|c s]; [done|]. cbn [String.length] in *.
    destruct (Ascii.eqb c quote_mark); [done|].
    pose proof (skip_space_length s) as L.
    destruct (Ascii.eqb c "["); [|destruct (Ascii.eqb c "{"); [|done]].
    all: destruct (skip_space s) as [|c' s']; [first [apply IHi | apply IHm]; cbn in *; lia|];
      destruct c' as [[] [] [] [] [] [] [] []]; first [done | apply IHi | apply IHm]; cbn in *; lia.
  - rewrite IHv by lia. destruct (scan_value fuel' s) as [[v r]|] eqn:E; [|done].
    apply Lv in E. pose proof (skip_space_length r) as L.
    destruct (skip_space r) as [|c r']; [done|].
    pose proof (skip_space_length r') as L'. cbn [String.length] in *.
    destruct c as [[] [] [] [] [] [] [] []]; first [done | apply IHi; lia].
  - destruct s as [|c s]; [done|]. cbn [String.length] in *.
    destruct (Ascii.eqb c quote_mark); [|done].
    destruct (scan_string s) as [[k r]|] eqn:Es; [|done]. apply scan_string_length in Es.
    pose proof (skip_space_length r) as L. destruct (skip_space r) as [|c1 r1]; [done|].
    pose proof (skip_space_length r1) as L1. cbn [String.length] in *.
    destruct c1 as [[] [] [] [] [] [] [] []]; try done.
    rewrite IHv by lia. destruct (scan_value fuel' (skip_space r1)) as [[v r2]|] eqn:E; [|done].
    apply Lv in E. pose proof (skip_space_length r2) as L2.
    destruct (skip_space r2) as [|c3 r3]; [done|].
    pose proof (skip_space_length r3) as L3. cbn [String.length] in *.
    destruct c3 as [[] [] [] [] [] [] [] []]; first [done | apply IHm; lia].
Qed.

(** [loads] at any larger budget. *)
Lemma scan_value_fuel fuel s :
  (2 * slen s < fuel)%nat -> scan_value (scan_fuel s) s = scan_value fuel s.
Proof. intros H. apply scan_fuel_irrelevant; unfold scan_fuel; lia. Qed.

(** ** A text reads back *)

(** *** Characters *)

Lemma byte_eq_Z b z : byte_to_Z b = z mod 256 -> Z_to_byte z = b.
Proof. intros H. apply byte_to_Z_inj. by rewrite byte_to_Z_Z_to_byte. Qed.

Lemma byte_of_char b : byte_of_ascii (ascii_of_N (Z.to_N (byte_to_Z b))) = b.
Proof. by destruct b. Qed.

(** The characters of a well-formed string: their bytes, a code point outside
    the surrogates, and its encoding. *)
Definition char_ok (cs : bytes) : Prop :=
  utf8_encode (char_code cs) = cs
  /\ (0 <= char_code cs < 0xD800 \/ 0xE000 <= char_code cs < 0x110000).

Ltac solve_ranges :=
  unfold in_range in *; rewrite ?andb_true_iff, ?Z.leb_le, ?Z.ltb_lt, ?Z.ltb_ge in *.

Lemma utf8_head_char b rest n :
  utf8_ok (b :: rest) = true -> utf8_head b rest = (true, S n) ->
  char_ok (b :: take n rest).
Proof.
  intros Hok Hh. unfold utf8_head in Hh. pose proof (byte_to_Z_range b) as Hb.
  destruct (byte_to_Z b <? 128) eqn:E0.
  { injection Hh as <-. cbn [take]; rewrite ?take_0. apply Z.ltb_lt in E0. unfold char_ok, char_code. cbn [map].
    unfold utf8_encode. rewrite (proj2 (Z.ltb_lt _ _)) by lia. split; [|lia].
    by rewrite Z_to_byte_to_Z. }
  apply Z.ltb_ge in E0. unfold utf8_lead in Hh.
  destruct rest as [|c1 rest]; [by repeat case_match|].
  pose proof (byte_to_Z_range c1) as H1.
  destruct (in_range 194 223 (byte_to_Z b)) eqn:E1.
  { destruct (in_range 128 191 (byte_to_Z c1)) eqn:Ec; [|done]. injection Hh as <-.
    cbn [take]; rewrite ?take_0. solve_ranges. unfold char_ok, char_code. cbn [map].
    set (x := byte_to_Z b) in *. set (y := byte_to_Z c1) in *.
    unfold utf8_encode. rewrite (proj2 (Z.ltb_ge _ _)), (proj2 (Z.ltb_lt _ _)) by lia.
    split; [|lia]. f_equal; [|f_equal]; apply byte_eq_Z; fold x y;
      Z.to_euclidean_division_equations; lia. }
  destruct (in_range 224 239 (byte_to_Z b)) eqn:E2.
  { destruct (in_range _ _ (byte_to_Z c1)) eqn:Ec; [|done].
    destruct rest as [|c2 rest]; cbn in Hh; [done|].
    pose proof (byte_to_Z_range c2) as H2.
    destruct (in_range 128 191 (byte_to_Z c2)) eqn:Ec2; [|done]. simpl in Hh.
    injection Hh as <-. cbn [take]; rewrite ?take_0. solve_ranges. unfold char_ok, char_code. cbn [map].
    set (x := byte_to_Z b) in *. set (y := byte_to_Z c1) in *. set (z := byte_to_Z c2) in *.
    assert (Hy : 0x80 <= y <= 0xBF /\ (x = 0xE0 -> 0xA0 <= y) /\ (x = 0xED -> y <= 0x9F)).
    { destruct (Z.eqb_spec x 224), (Z.eqb_spec x 237); lia. }
    clear Ec. unfold utf8_encode.
    rewrite (proj2 (Z.ltb_ge _ _)) by lia. rewrite (proj2 (Z.ltb_ge _ _)) by lia.
    rewrite (proj2 (Z.ltb_lt _ _)) by lia.
    split; [|lia]. f_equal; [|f_equal; [|f_equal]]; apply byte_eq_Z; fold x y z;
      Z.to_euclidean_division_equations; lia. }
  destruct (in_range 240 244 (byte_to_Z b)) eqn:E3; [|done].
  destruct (in_range _ _ (byte_to_Z c1)) eqn:Ec; [|done].
  destruct rest as [|c2 rest]; cbn in Hh; [done|].
  destruct (in_range 128 191 (byte_to_Z c2)) eqn:Ec2; [|done].
  destruct rest as [|c3 rest]; cbn in Hh; [done|].
  pose proof (byte_to_Z_range c2) as H2. pose proof (byte_to_Z_range c3) as H3.
  destruct (in_range 128 191 (byte_to_Z c3)) eqn:Ec3; [|done]. simpl in Hh.
  injection Hh as <-. cbn [take]; rewrite ?take_0. solve_ranges. unfold char_ok, char_code. cbn [map].
  set (x := byte_to_Z b) in *. set (y := byte_to_Z c1) in *.
  set (z := byte_to_Z c2) in *. set (w := byte_to_Z c3) in *.
  assert (Hy : 0x80 <= y <= 0xBF /\ (x = 0xF0 -> 0x90 <= y) /\ (x = 0xF4 -> y <= 0x8F)).
  { destruct (Z.eqb_spec x 240), (Z.eqb_spec x 244); lia. }
  clear Ec. unfold utf8_encode.
  rewrite (proj2 (Z.ltb_ge _ _)) by lia. rewrite (proj2 (Z.ltb_ge _ _)) by lia.
  rewrite (proj2 (Z.ltb_ge _ _)) by lia.
  split; [|lia]. f_equal; [|f_equal; [|f_equal; [|f_equal]]]; apply byte_eq_Z; fold x y z w;
    Z.to_euclidean_division_equations; lia.
Qed.

Lemma prepend_app p q r : prepend p (prepend q r) = prepend (p ++ q) r.
Proof. destruct r as [[t s]|]; simpl; [by rewrite app_assoc|done]. Qed.

Lemma hex_value_lower d : 0 <= d < 16 -> hex_value (lower_hex d) = Some d.
Proof.
  assert (H : Forall (fun d => hex_value (lower_hex d) = Some d) (seqZ 0 16))
    by by repeat constructor.
  rewrite Forall_forall in H. intros Hd. apply H, elem_of_seqZ. lia.
Qed.

Lemma hex4_lower u :
  0 <= u < 65536 ->
  hex4 (lower_hex (u / 4096 mod 16)) (lower_hex (u / 256 mod 16))
       (lower_hex (u / 16 mod 16)) (lower_hex (u mod 16)) = Some u.
Proof.
  intros H. unfold hex4. rewrite !hex_value_lower by (apply Z.mod_pos_bound; lia).
  f_equal. Z.to_euclidean_division_equations. lia.
Qed.

Lemma in_range_false lo hi b : b < lo \/ hi < b -> in_range lo hi b = false.
Proof. intros H. unfold in_range. apply andb_false_iff. rewrite !Z.leb_gt. lia. Qed.

Lemma in_range_true lo hi b : lo <= b <= hi -> in_range lo hi b = true.
Proof. intros H. unfold in_range. apply andb_true_iff. rewrite !Z.leb_le. lia. Qed.

Lemma scan_unicode_escape u s :
  0 <= u < 0xD800 \/ 0xE000 <= u < 0x10000 ->
  scan_string (unicode_escape u s) = prepend (utf8_encode u) (scan_string s).
Proof.
  intros H. unfold unicode_escape. cbn [scan_string].
  change (Ascii.eqb backslash quote_mark) with false. change (Ascii.eqb backslash backslash) with true.
  change (simple_escape "u") with (@None byte). change (Ascii.eqb "u" "u") with true.
  cbv iota. rewrite hex4_lower by lia. by rewrite in_range_false by lia.
Qed.

Lemma scan_surrogate_pair c s :
  0x10000 <= c < 0x110000 ->
  scan_string (unicode_escape (0xD800 + (c - 0x10000) / 1024)
    (unicode_escape (0xDC00 + (c - 0x10000) mod 1024) s)) = prepend (utf8_encode c) (scan_string s).
Proof.
  intros H. set (h := 0xD800 + (c - 0x10000) / 1024). set (l := 0xDC00 + (c - 0x10000) mod 1024).
  assert (Hh : 0xD800 <= h <= 0xDBFF) by (unfold h; Z.to_euclidean_division_equations; lia).
  assert (Hl : 0xDC00 <= l <= 0xDFFF) by (unfold l; Z.to_euclidean_division_equations; lia).
  assert (Hc : 0x10000 + (h - 0xD800) * 1024 + (l - 0xDC00) = c)
    by (unfold h, l; Z.to_euclidean_division_equations; lia).
  clearbody h l. unfold unicode_escape. cbn [scan_string].
  change (Ascii.eqb backslash quote_mark) with false. change (Ascii.eqb backslash backslash) with true.
  change (simple_escape "u") with (@None byte). change (Ascii.eqb "u" "u") with true.
  cbv iota. rewrite hex4_lower, in_range_true by lia. cbn [andb].
  rewrite hex4_lower, in_range_true by lia. by rewrite Hc.
Qed.

(** A printable character stands for itself. *)
Lemma scan_plain b s :
  in_range 32 126 (byte_to_Z b) = true -> short_escape (byte_to_Z b) = None ->
  scan_string (String (ascii_of_N (Z.to_N (byte_to_Z b))) s) = prepend [b] (scan_string s).
Proof. destruct b; intros H1 H2; try discriminate H1; try discriminate H2; reflexivity. Qed.

Lemma scan_escape_char c s :
  0 <= c < 0xD800 \/ 0xE000 <= c < 0x110000 ->
  scan_string (escape_char c s) = prepend (utf8_encode c) (scan_string s).
Proof.
  intros H. unfold escape_char. destruct (short_escape c) as [e|] eqn:E.
  - assert (Hc : c = 34 \/ c = 92 \/ c = 8 \/ c = 12 \/ c = 10 \/ c = 13 \/ c = 9).
    { unfold short_escape in E. repeat case_match; simplify_eq; lia. }
    repeat destruct Hc as [->|Hc]; [..|subst c]; injection E as <-; reflexivity.
  - destruct (in_range 32 126 c) eqn:Ep; [|destruct (Z.ltb_spec c 0x10000)].
    + pose proof Ep as Hp. unfold in_range in Hp. apply andb_true_iff in Hp as [H1%Z.leb_le H2%Z.leb_le].
      assert (Eb : byte_to_Z (Z_to_byte c) = c) by (rewrite byte_to_Z_Z_to_byte; apply Z.mod_small; lia).
      rewrite <- Eb in Ep, E. rewrite <- Eb at 1. rewrite scan_plain by done.
      unfold utf8_encode. by rewrite (proj2 (Z.ltb_lt _ _)) by lia.
    + apply scan_unicode_escape. lia.
    + apply scan_surrogate_pair. lia.
Qed.

(** *** Strings *)

Lemma code_points_char b rest :
  utf8_ok (b :: rest) = true ->
  exists cs rest', b :: rest = cs ++ rest' /\ char_ok cs /\ utf8_ok rest' = true
    /\ (length rest' < length (b :: rest))%nat
    /\ code_points 0 (b :: rest) = char_code cs :: code_points 0 rest'.
Proof.
  intros H. destruct (utf8_head_ok _ _ H) as (n & Hh & Hr).
  exists (b :: take n rest), (drop n rest). split; [by rewrite <- app_comm_cons, take_drop|].
  split; [by apply utf8_head_char|]. split; [done|].
  split; [rewrite length_drop; simpl; lia|].
  cbn [code_points]. rewrite Hh. cbn [Nat.sub]. rewrite Nat.sub_0_r. f_equal.
  clear. revert rest. induction n as [|n IH]; intros [|b rest]; cbn [drop]; try done.
  cbn [code_points]. apply IH.
Qed.

Lemma scan_escaped bs rest :
  utf8_ok bs = true ->
  scan_string (foldr escape_char (String quote_mark rest) (code_points 0 bs)) = Some (bs, rest).
Proof.
  remember (length bs) as n eqn:E. revert bs E.
  induction n as [n IH] using lt_wf_ind; intros [|b bs] E H; [done|]. subst n.
  destruct (code_points_char _ _ H) as (cs & rest' & Eb & [He Hr] & Hok & Hlen & ->).
  cbn [foldr]. rewrite scan_escape_char by done. rewrite He, Eb.
  by rewrite (IH _ Hlen rest' eq_refl Hok).
Qed.

(** A string reads back, whatever follows it. *)
Lemma scan_json_string s rest :
  str_ok s = true ->
  exists t, json_string s rest = String quote_mark t /\ scan_string t = Some (str_bytes s, rest).
Proof. intros H. eexists. split; [reflexivity|]. by apply scan_escaped. Qed.

Lemma escape_char_app c s t : escape_char c s +:+ t = escape_char c (s +:+ t).
Proof.
  unfold escape_char, unicode_escape. destruct (short_escape c); [done|].
  destruct (in_range 32 126 c); [done|]. by destruct (c <? 65536).
Qed.

Lemma json_string_app s rest t : json_string s rest +:+ t = json_string s (rest +:+ t).
Proof.
  unfold json_string.
  change (String quote_mark (foldr escape_char (String quote_mark rest) (code_points 0 (str_bytes s))) +:+ t)
    with (String quote_mark (foldr escape_char (String quote_mark rest) (code_points 0 (str_bytes s)) +:+ t)).
  f_equal. induction (code_points 0 (str_bytes s)) as [|c cs IH]; [done|].
  cbn [foldr]. by rewrite escape_char_app, IH.
Qed.

(** *** Values *)

(** The key of an entry, and the keys of a dict with string keys. *)
Definition key_text (k : pyval) : string := match k with PStr s => s | _ => "" end.
Definition is_str (k : pyval) : bool := match k with PStr _ => true | _ => false end.
Definition dict_keys (d : list (pyval * pyval)) : list string := map (fun kv => key_text kv.1) d.

(** What a JSON text can stand for: strings that are, floats of the language,
    string keys without repetition. *)
Fixpoint json_ok (v : pyval) : bool :=
  match v with
  | PNone | PBool _ | PInt _ => true
  | PFloat f => float_in double f
  | PStr s => str_ok s
  | PList l => forallb json_ok l
  | PDict d =>
      forallb (fun '(k, x) => is_str k && str_ok (key_text k) && json_ok x) d
      && bool_decide (NoDup (dict_keys d))
  | PBytes _ | PFloatField _ _ => false
  end.

Lemma dict_set_fresh d k v : k ∉ dict_keys d -> dict_set d k v = d ++ [(PStr k, v)].
Proof.
  induction d as [|[k' v'] d IH]; [done|]. unfold dict_keys. cbn [map fst].
  intros [Hk H]%not_elem_of_cons. cbn [dict_set app].
  destruct k'; try by rewrite IH. cbn [key_text] in Hk.
  rewrite (proj2 (String.eqb_neq _ _)) by congruence. by rewrite IH.
Qed.

(** How the text of a value starts: not with a space, a closing bracket or a
    byte order mark. *)
Definition value_head (s : string) : bool :=
  match s with
  | String c _ => negb (is_json_space c || Ascii.eqb c "]" || Ascii.eqb c "}" || Ascii.eqb c "239")
  | EmptyString => false
  end.

Lemma value_head_skip s : value_head s = true -> skip_space s = s.
Proof.
  destruct s as [|c s]; [done|]. cbn [value_head skip_space].
  rewrite negb_true_iff, !orb_false_iff. by intros [[[-> _] _] _].
Qed.

Lemma scan_sign_inv s neg t : scan_sign s = (neg, t) -> s = sign_text neg +:+ t.
Proof. unfold scan_sign. intros H. repeat case_match; by simplify_eq. Qed.

(** A text that scans as a number is scanned as one. *)
Lemma scan_int_part_head s v r :
  scan_int_part s = Some (v, r) -> exists c t, s = String c t /\ is_digit c = true.
Proof.
  destruct s as [|c t]; cbn [scan_int_part]; [done|]. intros H. exists c, t. split; [done|].
  destruct (Ascii.eqb_spec c "0") as [->|]; [done|]. by destruct (is_digit c).
Qed.

Lemma digit_dispatch c t :
  is_digit c = true ->
  value_head (String c t) = true /\ scan_sign (String c t) = (false, String c t)
  /\ scan_literal literals (String c t) = None /\ scan_literal literals (String "-" (String c t)) = None
  /\ Ascii.eqb c quote_mark = false /\ Ascii.eqb c "[" = false /\ Ascii.eqb c "{" = false.
Proof. destruct c as [[] [] [] [] [] [] [] []]; intros H; try discriminate H; by split_and!. Qed.

Lemma scan_value_number fuel s v r :
  scan_number s = Some (v, r) -> scan_value (S fuel) s = Some (v, r) /\ value_head s = true.
Proof.
  intros H. pose proof H as H0. unfold scan_number in H0.
  destruct (scan_sign s) as [neg s1] eqn:Es.
  destruct (scan_int_part s1) as [[i r1]|] eqn:Ei; [|done].
  apply scan_int_part_head in Ei as (c & t & -> & Hc).
  destruct (digit_dispatch c t Hc) as (Hh & Hs & Hl & Hl' & Hq & Hb & Hb').
  destruct neg.
  - assert (s = String "-" (String c t)) as ->.
    { by apply scan_sign_inv in Es. }
    split; [|done]. cbn [scan_value]. change (Ascii.eqb "-" quote_mark) with false.
    change (Ascii.eqb "-" "[") with false. change (Ascii.eqb "-" "{") with false. cbv iota.
    by rewrite Hl', H.
  - assert (s = String c t) as ->.
    { by apply scan_sign_inv in Es. }
    split; [|done]. cbn [scan_value]. by rewrite Hq, Hb, Hb', Hl, H.
Qed.

Lemma scan_value_int fuel z s :
  number_end s = true ->
  scan_value (S fuel) (str_of_int z +:+ s) = Some (PInt z, s) /\ value_head (str_of_int z +:+ s) = true.
Proof. intros H. apply scan_value_number. by apply scan_number_int. Qed.

Lemma scan_value_float fuel f s :
  float_in double f = true -> number_end s = true ->
  scan_value (S fuel) (json_float f +:+ s) = Some (PFloat f, s)
  /\ value_head (json_float f +:+ s) = true.
Proof.
  intros Hf Hs. destruct f as [|[]|neg|neg m e]; [done..| |];
    apply scan_value_number; by apply float_repr_scan.
Qed.

(** [text] is a text of [v]: followed by anything that cannot go on a number it
    scans as [v], with any budget above twice its length. *)
Definition text_of (v : pyval) (text : string) : Prop :=
  forall rest fuel, number_end rest = true -> (2 * slen (text +:+ rest) < fuel)%nat ->
    scan_value fuel (text +:+ rest) = Some (v, rest) /\ value_head (text +:+ rest) = true.

Lemma slen_app s t : slen (s +:+ t) = (slen s + slen t)%nat.
Proof. induction s as [|c s IH]; [done|]. exact (f_equal S IH). Qed.

Lemma concat_cons sep (t : string) ts :
  String.concat sep (t :: ts) = t +:+ foldr (fun u acc => sep +:+ u +:+ acc) "" ts.
Proof.
  revert t; induction ts as [|u ts IH]; intros t; cbn [foldr]; [induction t as [|c t IHt]; [done|]|].
  - change (String c t +:+ "") with (String c (t +:+ "")). by rewrite <- IHt.
  - change (String.concat sep (t :: u :: ts)) with (t +:+ sep +:+ String.concat sep (u :: ts)).
    by rewrite IH.
Qed.

(** What follows an item: more items and the closing bracket. *)
Definition more (texts : list string) (close : string) : string :=
  foldr (fun u acc => ", " +:+ u +:+ acc) close texts.

Lemma more_cons t ts close : more (t :: ts) close = ", " +:+ t +:+ more ts close.
Proof. done. Qed.

Lemma more_app ts close rest : more ts close +:+ rest = more ts (close +:+ rest).
Proof.
  induction ts as [|t ts IH]; [done|].
  change ((", " +:+ t +:+ more ts close) +:+ rest = ", " +:+ t +:+ more ts (close +:+ rest)).
  by rewrite !string_app_assoc, IH.
Qed.

Lemma concat_more t ts close :
  String.concat ", " (t :: ts) +:+ close = t +:+ more ts close.
Proof.
  rewrite concat_cons, string_app_assoc. f_equal.
  change (foldr _ _ ts) with (more ts ""). by rewrite more_app.
Qed.

Lemma more_end ts c close :
  number_end (String c close) = true -> number_end (more ts (String c close)) = true.
Proof. by destruct ts. Qed.

Lemma scan_items_texts ts vs acc v t rest fuel :
  text_of v t -> Forall2 text_of vs ts ->
  (2 * slen (t +:+ more ts (String "]" rest)) + 1 < fuel)%nat ->
  scan_items fuel acc (t +:+ more ts (String "]" rest)) = Some (PList (acc ++ v :: vs), rest).
Proof.
  intros Ht Hts. revert acc v t fuel Ht. induction Hts as [|v' t' vs ts Ht' Hts IH];
    intros acc v t fuel Ht Hf; (destruct fuel as [|fuel]; [lia|]); cbn [scan_items].
  - change (more [] (String "]" rest)) with (String "]" rest) in *.
    by rewrite (proj1 (Ht (String "]" rest) fuel eq_refl ltac:(lia))).
  - destruct (Ht (more (t' :: ts) (String "]" rest)) fuel eq_refl ltac:(lia)) as [-> _].
    rewrite slen_app in Hf. rewrite more_cons in *.
    set (next := t' +:+ more ts (String "]" rest)) in *.
    change (slen (", " +:+ next)) with (S (S (slen next))) in Hf.
    change (skip_space (", " +:+ next)) with (String "," (String " " next)). cbv iota.
    assert (Hn : value_head next = true).
    { apply (Ht' (more ts (String "]" rest)) (S (2 * slen next))); [by apply more_end|fold next; lia]. }
    change (skip_space (String " " next)) with (skip_space next). rewrite value_head_skip by done.
    unfold next. rewrite (IH (acc ++ [v]) v' t' fuel Ht' ltac:(fold next; lia)).
    by rewrite <- app_assoc.
Qed.

(** The text of a member. *)
Definition member_of (kv : pyval * pyval) (text : string) : Prop :=
  exists k t, kv.1 = PStr k /\ str_ok k = true /\ text_of kv.2 t
    /\ text = json_string k ": " +:+ t.

Lemma scan_member fuel acc k v t rest :
  str_ok k = true -> text_of v t -> number_end rest = true ->
  (2 * slen (json_string k ": " +:+ t +:+ rest) + 1 < S fuel)%nat ->
  scan_members (S fuel) acc (json_string k ": " +:+ t +:+ rest)
  = match skip_space rest with
    | String "}"%char r => Some (PDict (dict_set acc k v), r)
    | String ","%char r => scan_members fuel (dict_set acc k v) (skip_space r)
    | _ => None
    end.
Proof.
  intros Hk Ht Hr Hf. rewrite json_string_app in *.
  destruct (scan_json_string k (": " +:+ t +:+ rest) Hk) as (u & Eu & Es). rewrite Eu in *.
  apply scan_string_length in Es as Hu.
  change (slen (": " +:+ t +:+ rest)) with (S (S (slen (t +:+ rest)))) in Hu.
  cbn [String.length] in Hf. cbn [scan_members].
  change (Ascii.eqb quote_mark quote_mark) with true. cbv iota. rewrite Es.
  change (skip_space (": " +:+ t +:+ rest)) with (String ":" (String " " (t +:+ rest))). cbv iota.
  change (skip_space (String " " (t +:+ rest))) with (skip_space (t +:+ rest)).
  destruct (Ht rest fuel Hr ltac:(lia)) as [Hv Hh]. rewrite value_head_skip by done. rewrite Hv.
  by rewrite string_str_bytes.
Qed.

Lemma member_head kv t rest : member_of kv t -> value_head (t +:+ rest) = true.
Proof. intros (k & u & _ & _ & _ & ->). done. Qed.

Lemma scan_members_texts ts kvs acc kv t rest fuel :
  member_of kv t -> Forall2 member_of kvs ts ->
  NoDup (dict_keys (acc ++ kv :: kvs)) ->
  (2 * slen (t +:+ more ts (String "}" rest)) + 1 < fuel)%nat ->
  scan_members fuel acc (t +:+ more ts (String "}" rest)) = Some (PDict (acc ++ kv :: kvs), rest).
Proof.
  intros Ht Hts. revert acc kv t fuel Ht. induction Hts as [|kv' t' kvs ts Ht' Hts IH];
    intros acc [k0 v] t fuel (k & u & Ek & Hk & Hu & ->) Hnd Hf; cbn [fst snd] in *; subst k0;
    (destruct fuel as [|fuel]; [lia|]);
    (assert (Hfresh : dict_set acc k v = acc ++ [(PStr k, v)]);
      [apply dict_set_fresh; unfold dict_keys in Hnd; rewrite map_app in Hnd;
       apply NoDup_app in Hnd as (_ & Hnd & _); intros Hin; eapply Hnd; [exact Hin|by left]|]);
    rewrite string_app_assoc in *; rewrite (scan_member fuel acc k v) by (done || by apply more_end || lia).
  - by rewrite Hfresh.
  - rewrite more_cons in *.
    set (next := t' +:+ more ts (String "}" rest)) in *.
    rewrite !slen_app in Hf. change (slen ", ") with 2%nat in Hf.
    change (skip_space (", " +:+ next)) with (String "," (String " " next)). cbv iota.
    change (skip_space (String " " next)) with (skip_space next).
    rewrite value_head_skip by by eapply member_head. rewrite Hfresh.
    unfold next. rewrite (IH (acc ++ [(PStr k, v)]) kv' t' fuel Ht').
    + by rewrite <- app_assoc.
    + by rewrite <- app_assoc.
    + fold next. lia.
Qed.

Lemma scan_value_array fuel u :
  value_head u = true -> scan_value (S fuel) (String "[" u) = scan_items fuel [] u.
Proof.
  intros Hu. cbn [scan_value]. change (Ascii.eqb "[" quote_mark) with false.
  change (Ascii.eqb "[" "[") with true. cbv iota. rewrite value_head_skip by done.
  destruct u as [|c u]; [done|]. by destruct c as [[] [] [] [] [] [] [] []].
Qed.

Lemma scan_value_object fuel u :
  value_head u = true -> scan_value (S fuel) (String "{" u) = scan_members fuel [] u.
Proof.
  intros Hu. cbn [scan_value]. change (Ascii.eqb "{" quote_mark) with false.
  change (Ascii.eqb "{" "[") with false. change (Ascii.eqb "{" "{") with true. cbv iota.
  rewrite value_head_skip by done.
  destruct u as [|c u]; [done|]. by destruct c as [[] [] [] [] [] [] [] []].
Qed.

(** Comprehensions whose every item gives a related text. *)
Lemma map_result_related {A} (R : A -> string -> Prop) (f : A -> pyresult string) l :
  Forall (fun x => exists t, f x = Ok t /\ R x t) l ->
  exists ts, map_result f l = Ok ts /\ Forall2 R l ts.
Proof.
  induction 1 as [|x l (t & E & Ht) _ (ts & Es & Hts)]; [by exists []|].
  exists (t :: ts). cbn [map_result]. rewrite E. cbn [bind]. rewrite Es. by split; [|constructor].
Qed.

Lemma text_of_intro v t :
  (forall rest fuel, number_end rest = true -> (2 * slen (t +:+ rest) < S fuel)%nat ->
     scan_value (S fuel) (t +:+ rest) = Some (v, rest) /\ value_head (t +:+ rest) = true) ->
  text_of v t.
Proof. intros H rest [|fuel] Hr Hf; [lia|]. by apply H. Qed.

(** The text [dumps] writes is a text of the value. *)
Lemma dumps_text v :
  json_ok v = true -> exists t, dumps v = Ok t /\ text_of v t.
Proof.
  induction v as [|b|z|f|s|bs|l IH|d IH|] using pyval_nested_ind; cbn [json_ok]; intros Hv; try done.
  - exists "null". by split; [|apply text_of_intro].
  - exists (if b then "true" else "false"). by split; [|apply text_of_intro; destruct b].
  - exists (str_of_int z). split; [done|]. apply text_of_intro. intros. by apply scan_value_int.
  - exists (json_float f). split; [done|]. apply text_of_intro. intros. by apply scan_value_float.
  - exists (json_string s ""). split; [done|]. apply text_of_intro. intros rest fuel Hr _.
    rewrite json_string_app. destruct (scan_json_string s ("" +:+ rest) Hv) as (t & -> & Hs).
    split; [|done]. cbn [scan_value]. change (Ascii.eqb quote_mark quote_mark) with true.
    cbv iota. by rewrite Hs, string_str_bytes.
  - rewrite forallb_forall in Hv. destruct (map_result_related text_of dumps l) as (ts & Es & Hts).
    { rewrite Forall_forall in IH |- *. intros x Hx. apply IH; [done|].
      by apply Hv, list_elem_of_In. }
    eexists. cbn [dumps]. rewrite Es. split; [reflexivity|].
    apply text_of_intro. intros rest fuel Hr Hf. split; [|done].
    destruct Hts as [|v t l ts Ht Hts]; [done|].
    rewrite string_app_assoc, string_app_assoc in *. change ("]" +:+ rest) with (String "]" rest) in *.
    rewrite concat_more in *. set (u := t +:+ more ts (String "]" rest)) in *.
    change (slen ("[" +:+ u)) with (S (slen u)) in Hf.
    change ("[" +:+ u) with (String "[" u). rewrite scan_value_array.
    + by apply (scan_items_texts ts l [] v t); [..|fold u; lia].
    + by apply (Ht (more ts (String "]" rest)) (S (2 * slen u))); [apply more_end|fold u; lia].
  - apply andb_true_iff in Hv as [Hv Hnd%bool_decide_eq_true]. rewrite forallb_forall in Hv.
    destruct (map_result_related member_of (fun '(k, x) =>
        let* k := json_key k in let* x := dumps x in Ok (json_string k ": " +:+ x)) d)
      as (ts & Es & Hts).
    { rewrite Forall_forall in IH |- *. intros [k x] Hx. destruct (IH _ Hx) as [_ IHx].
      specialize (Hv (k, x) ltac:(by apply list_elem_of_In)). cbn in Hv.
      apply andb_true_iff in Hv as [[Hk Hs]%andb_true_iff Hv].
      destruct (IHx Hv) as (t & Et & Ht). destruct k as [| | | |k| | | |]; try done.
      eexists. cbn [json_key bind fst snd]. cbn [snd] in Et. rewrite Et. cbn [bind].
      split; [reflexivity|]. by exists k, t. }
    eexists. cbn [dumps]. rewrite Es. split; [reflexivity|].
    apply text_of_intro. intros rest fuel Hr Hf. split; [|done].
    destruct Hts as [|kv t d ts Ht Hts]; [done|].
    rewrite string_app_assoc, string_app_assoc in *. change ("}" +:+ rest) with (String "}" rest) in *.
    rewrite concat_more in *. set (u := t +:+ more ts (String "}" rest)) in *.
    change (slen ("{" +:+ u)) with (S (slen u)) in Hf.
    change ("{" +:+ u) with (String "{" u). rewrite scan_value_object.
    + by apply (scan_members_texts ts d [] kv t); [..|fold u; lia].
    + by eapply member_head.
Qed.

Lemma after_value_head s : value_head s = true -> after byte_order_mark s = None.
Proof.
  destruct s as [|c s]; [done|]. cbn [value_head].
  rewrite negb_true_iff, !orb_false_iff. intros [_ Hc].
  change byte_order_mark with (String "239" (String "187" (String "191" ""))). cbn [after].
  by rewrite Ascii.eqb_sym, Hc.
Qed.

Lemma string_app_nil (s : string) : s +:+ "" = s.
Proof. induction s as [|c s IH]; [done|]. exact (f_equal (String c) IH). Qed.

(** [json.loads] inverts [json.dumps]. *)
Lemma loads_dumps v : json_ok v = true -> exists t, dumps v = Ok t /\ loads t = Ok v.
Proof.
  intros Hv. destruct (dumps_text v Hv) as (t & E & Ht). exists t. split; [done|].
  destruct (Ht "" (scan_fuel t) eq_refl) as [Hs Hh];
    [rewrite string_app_nil; unfold scan_fuel; lia|].
  rewrite string_app_nil in Hs, Hh. unfold loads.
  by rewrite after_value_head, value_head_skip, Hs by done.
Qed.

Example loads_escapes :
  loads (String.concat (String quote_mark "") ["["; "caf\u00e9 \ud83d\ude00"; ", -1.5e3, null ]"])
  = Ok (PList [PStr (String.string_of_list_byte [x63; x61; x66; xc3; xa9; x20; xf0; x9f; x98; x80]);
               PFloat (FFin true 375 2); PNone]).
Proof. by_compute. Qed.

Example loads_errors :
  map loads [""; "[1,]"; "01"; "nul"; "{1:2}"; "1 2"] = repeat (Raise ValueError) 6.
Proof. by_compute. Qed.
