(* ===== verification/Cbor.v ===== *)
(** * Cbor

    [wire/cbor.py]: the shortest-float encoding hook, the structural scanner
    that measures the first CBOR item of a buffer, the codec entry points over
    the third-party [cbor2] package (an interface, [Cbor2]), and the raw
    little-endian vector section. *)

From S2P Require Import Prelude PyFloat PyValue Rfc8949.

(** ** Errors *)

(** [CborError] and its subclasses, with the built-in exceptions let through.
    [ScanFuel] is not an exception of the code: it says that the model's
    recursion budget ran out. *)
Inductive cbor_error : Type :=
| CborError
| TrailingBytesError (extra : Z)
| RaggedVectorError (len : Z)
| CborPy (e : py_error)
| ScanFuel.

(** ** Float markers and the [default] hook *)

(** [_shortest_float_bytes]. *)
Definition shortest_float_bytes (value : pyfloat) : pyresult bytes :=
  let as_double := let* d := struct_pack double value in Ok (xfb :: d) in
  let as_single_or_double :=
    let* s := struct_pack single value in
    let* back := struct_unpack single s in
    if float_eqb back value then Ok (xfa :: s) else as_double in
  if negb (isnan value) && negb (isinf value) then
    let half_attempt :=
      let* h := struct_pack half value in
      let* back := struct_unpack half h in
      Ok (h, back) in
    match half_attempt with
    | Ok (h, back) => if float_eqb back value then Ok (xf9 :: h) else as_single_or_double
    | Raise OverflowError | Raise StructError => as_single_or_double
    | Raise e => Raise e
    end
  else as_double.

(** [_default_hook]. *)
Definition default_hook (value : pyval) : pyresult bytes :=
  match value with
  | PFloatField _ f => shortest_float_bytes f
  | _ => Raise TypeError
  end.

(** The argument conversion of the float formats of [struct.pack]. *)
Definition struct_float_arg (x : pyval) : pyresult pyfloat :=
  match x with
  | PFloat f | PFloatField _ f => Ok f
  | PInt z => float_of_int z
  | PBool b => float_of_int (bool_to_Z b)
  | _ => Raise StructError
  end.

(** [round_f32]. *)
Definition round_f32 (x : pyval) : pyresult pyval :=
  let* f := struct_float_arg x in
  let* packed := struct_pack single f in
  let* r := struct_unpack single packed in
  Ok (PFloatField F32 r).

(** [mark_f64]. *)
Definition mark_f64 (x : pyval) : pyresult pyval :=
  let* f := py_float x in Ok (PFloatField F64 f).

(** ** The interface of [cbor2] *)

(** [cbor2.dumps(value, default=hook)] and [cbor2.loads(data)] ([None]: some
    exception). *)
Class Cbor2 : Type := {
  cbor2_dumps : (pyval -> pyresult bytes) -> pyval -> pyresult bytes;
  cbor2_loads : bytes -> option pyval
}.

(** [_MAX_NESTING_DEPTH]. *)
Definition MAX_NESTING_DEPTH : Z := 128.

(** What the code relies on: on the payloads' values [dumps] writes the RFC 8949
    encoding in insertion order and defers to the hook for the markers, and
    [loads] reads RFC 8949 items that nest no deeper than the scanner allows. *)
Class Cbor2Conforms (C : Cbor2) : Prop := {
  dumps_ok : forall hook v bs,
    cbor_ok v = true -> rfc_encode hook v = Ok bs -> cbor2_dumps hook v = Ok bs;
  dumps_raises : forall hook v e,
    cbor_ok v = true -> rfc_encode hook v = Raise e -> exists e', cbor2_dumps hook v = Raise e';
  loads_ok : forall bs v,
    rfc_loads bs = Some v -> Z.of_nat (depth v) <= MAX_NESTING_DEPTH -> cbor2_loads bs = Some v
}.

(** ** The item scanner *)

Section Scanner.
Variable data : bytes.

(** [need(i, k)]. *)
Definition need (i k : Z) : result cbor_error unit :=
  if zlen data <? i + k then Raise CborError else Ok tt.

(** [data[i]]. *)
Definition data_at (i : Z) : Z := byte_at data (Z.to_nat i).

(** [int.from_bytes(data[i : i + k], "big")]. *)
Definition data_int (i k : Z) : Z := from_bytes_big (slice data (Z.to_nat i) (Z.to_nat (i + k))).

(** The initial byte and the argument ([None] for an indefinite length):
    major type, argument and the offset after them. *)
Definition scan_head (i : Z) : result cbor_error (Z * option Z * Z) :=
  let* _ := need i 1 in
  let ib := data_at i in
  let i := i + 1 in
  let major := Z.shiftr ib 5 in
  let ai := Z.land ib 0x1F in
  if ai <? 24 then Ok (major, Some ai, i)
  else if ai =? 24 then let* _ := need i 1 in Ok (major, Some (data_at i), i + 1)
  else if ai =? 25 then let* _ := need i 2 in Ok (major, Some (data_int i 2), i + 2)
  else if ai =? 26 then let* _ := need i 4 in Ok (major, Some (data_int i 4), i + 4)
  else if ai =? 27 then let* _ := need i 8 in Ok (major, Some (data_int i 8), i + 8)
  else if ai =? 31 then Ok (major, None, i)
  else Raise CborError.

(** [for _ in range(n): i = step(i)]. *)
Fixpoint scan_times (step : Z -> result cbor_error Z) (fuel : nat) (n i : Z)
    : result cbor_error Z :=
  if n <=? 0 then Ok i
  else match fuel with
       | O => Raise ScanFuel
       | S fuel => let* i := step i in scan_times step fuel (n - 1) i
       end.

(** [while True: need(i, 1); if data[i] == 0xFF: return i + 1; i = step(i)]. *)
Fixpoint scan_until_break (step : Z -> result cbor_error Z) (fuel : nat) (i : Z)
    : result cbor_error Z :=
  match fuel with
  | O => Raise ScanFuel
  | S fuel =>
      let* _ := need i 1 in
      if data_at i =? 0xFF then Ok (i + 1)
      else let* i := step i in scan_until_break step fuel i
  end.

(** [scan]. *)
Fixpoint scan (fuel : nat) (i depth : Z) : result cbor_error Z :=
  match fuel with
  | O => Raise ScanFuel
  | S fuel =>
      if MAX_NESTING_DEPTH <? depth then Raise CborError else
      let* '(major, arg, i) := scan_head i in
      let one := fun i => scan fuel i (depth + 1) in
      let two := fun i => let* i := one i in one i in
      if (major =? 0) || (major =? 1) then Ok i
      else if major =? 7 then Ok i
      else if (major =? 2) || (major =? 3) then
        match arg with
        | None => scan_until_break one fuel i
        | Some n => let* _ := need i n in Ok (i + n)
        end
      else if major =? 4 then
        match arg with
        | None => scan_until_break one fuel i
        | Some n => scan_times one fuel n i
        end
      else if major =? 5 then
        match arg with
        | None => scan_until_break two fuel i
        | Some n => scan_times two fuel n i
        end
      else if major =? 6 then one i
      else Raise CborError
  end.
End Scanner.

(** [_cbor_item_end]. *)
Definition cbor_item_end (data : bytes) (start : Z) : result cbor_error Z :=
  scan data (S (S (length data))) start 0.

(** ** Entry points *)

Section Codec.
Context `{Cbor2}.

Definition to_cbor (value : pyval) : pyresult bytes := cbor2_dumps default_hook value.

Definition from_cbor_prefix (data : bytes) : result cbor_error (pyval * Z) :=
  let* consumed := cbor_item_end data 0 in
  match cbor2_loads (take (Z.to_nat consumed) data) with
  | Some value => Ok (value, consumed)
  | None => Raise CborError
  end.

Definition from_cbor (data : bytes) : result cbor_error pyval :=
  let* '(value, consumed) := from_cbor_prefix data in
  if negb (consumed =? zlen data) then Raise (TrailingBytesError (zlen data - consumed))
  else Ok value.
End Codec.

(** ** The raw vector section *)

(** [f32_list_to_le_bytes]. *)
Definition f32_list_to_le_bytes (values : list pyval) : pyresult bytes :=
  let* parts := map_result (fun x =>
    let* f := struct_float_arg x in
    let* b := struct_pack single f in
    Ok (rev b)) values in
  Ok (concat parts).

(** The consecutive four-byte groups of a buffer. *)
Fixpoint chunks4 (bs : bytes) : list bytes :=
  match bs with
  | a :: b :: c :: d :: bs => [a; b; c; d] :: chunks4 bs
  | _ => []
  end.

(** [le_bytes_to_f32_list]. *)
Definition le_bytes_to_f32_list (data : bytes) : result cbor_error (list pyval) :=
  if negb (zlen data mod 4 =? 0) then Raise (RaggedVectorError (zlen data))
  else lift_error CborPy (map_result (fun c =>
         let* f := struct_unpack single (rev c) in Ok (PFloat f)) (chunks4 data)).

Example scan_sample : cbor_item_end [x82; x01; x9f; x02; xff; x07] 0 = Ok 5.
Proof. by_compute. Qed.
Example shortest_12_5 : shortest_float_bytes (FFin false 25 (-1)) = Ok [xf9; x4a; x40].
Proof. by_compute. Qed.
Example shortest_tenth :
  shortest_float_bytes (FFin false 3602879701896397 (-55)) = Ok [xfb; x3f; xb9; x99; x99; x99; x99; x99; x9a].
Proof. by_compute. Qed.
