(* ===== verification/CborScan.v ===== *)
(** * CborScan

    What the item scanner of [Cbor] accepts, as a grammar of byte strings, and
    the proof that the scanner recognises exactly that grammar, terminates
    within its budget and measures RFC 8949 encodings exactly. *)

From S2P Require Import Prelude PyFloat PyValue Rfc8949 Cbor.

(** ** The grammar *)

(** The bytes of an initial byte with its argument. *)
Inductive head_bytes : bytes -> Z -> option Z -> Prop :=
| head_direct ib :
    byte_to_Z ib mod 32 < 24 ->
    head_bytes [ib] (byte_to_Z ib / 32) (Some (byte_to_Z ib mod 32))
| head_wide ib w a :
    arg_width (byte_to_Z ib mod 32) = Some w -> length a = w ->
    head_bytes (ib :: a) (byte_to_Z ib / 32) (Some (from_bytes_big a))
| head_indefinite ib :
    byte_to_Z ib mod 32 = 31 ->
    head_bytes [ib] (byte_to_Z ib / 32) None.

(** [item d bs]: [bs] is one data item at nesting depth [d]; [group d pairs bs]:
    one item, or a key and a value; [items d pairs n bs]: [n] groups one after
    the other; [until_break d pairs bs]: groups up to and including the break
    byte. *)
Inductive item : Z -> bytes -> Prop :=
| item_atom d hb major arg :
    d <= MAX_NESTING_DEPTH -> head_bytes hb major arg ->
    major = 0 \/ major = 1 \/ major = 7 -> item d hb
| item_string d hb major n s :
    d <= MAX_NESTING_DEPTH -> head_bytes hb major (Some n) ->
    major = 2 \/ major = 3 -> zlen s = n -> item d (hb ++ s)
| item_chunks d hb major s :
    d <= MAX_NESTING_DEPTH -> head_bytes hb major None ->
    major = 2 \/ major = 3 \/ major = 4 -> until_break (d + 1) false s -> item d (hb ++ s)
| item_array d hb n s :
    d <= MAX_NESTING_DEPTH -> head_bytes hb 4 (Some n) -> items (d + 1) false n s -> item d (hb ++ s)
| item_map d hb n s :
    d <= MAX_NESTING_DEPTH -> head_bytes hb 5 (Some n) -> items (d + 1) true n s -> item d (hb ++ s)
| item_map_indefinite d hb s :
    d <= MAX_NESTING_DEPTH -> head_bytes hb 5 None -> until_break (d + 1) true s -> item d (hb ++ s)
| item_tag d hb arg s :
    d <= MAX_NESTING_DEPTH -> head_bytes hb 6 arg -> item (d + 1) s -> item d (hb ++ s)
with group : Z -> bool -> bytes -> Prop :=
| group_one d a : item d a -> group d false a
| group_two d a b : item d a -> item d b -> group d true (a ++ b)
with items : Z -> bool -> Z -> bytes -> Prop :=
| items_nil d pairs : items d pairs 0 []
| items_cons d pairs n g s :
    0 <= n -> group d pairs g -> items d pairs n s -> items d pairs (n + 1) (g ++ s)
with until_break : Z -> bool -> bytes -> Prop :=
| break_here d pairs : until_break d pairs [xff]
| break_cons d pairs g s :
    head g <> Some xff -> group d pairs g -> until_break d pairs s ->
    until_break d pairs (g ++ s).

Scheme item_min := Minimality for item Sort Prop
  with group_min := Minimality for group Sort Prop
  with items_min := Minimality for items Sort Prop
  with until_break_min := Minimality for until_break Sort Prop.
Combined Scheme item_mutual from item_min, group_min, items_min, until_break_min.

(** ** Heads *)

Lemma shiftr_5 z : Z.shiftr z 5 = z / 32.
Proof. by rewrite Z.shiftr_div_pow2. Qed.

Lemma land_31 z : Z.land z 0x1F = z mod 32.
Proof. exact (Z.land_ones z 5 ltac:(lia)). Qed.

Lemma head_bytes_nonempty hb major arg : head_bytes hb major arg -> 0 < zlen hb.
Proof. unfold zlen. inversion 1; simpl; lia. Qed.

Lemma item_nonempty d bs : item d bs -> 0 < zlen bs.
Proof.
  destruct 1; rewrite ?zlen_app;
    match goal with H : head_bytes _ _ _ |- _ => apply head_bytes_nonempty in H end;
    unfold zlen in *; lia.
Qed.

Lemma group_nonempty d p bs : group d p bs -> 0 < zlen bs.
Proof.
  destruct 1; rewrite ?zlen_app;
    match goal with H : item _ _ |- _ => apply item_nonempty in H end;
    unfold zlen in *; lia.
Qed.

Section Data.
Variable data : bytes.

Lemma need_ok i k : 0 <= i -> i + k <= zlen data -> need data i k = Ok tt.
Proof. intros. unfold need. by rewrite (proj2 (Z.ltb_ge _ _)) by lia. Qed.

Lemma need_inv i k u : need data i k = Ok u -> i + k <= zlen data.
Proof. unfold need. destruct (_ <? _) eqn:E; [discriminate|]. by apply Z.ltb_ge in E. Qed.

Lemma data_at_app pre b post :
  data = pre ++ b :: post -> data_at data (zlen pre) = byte_to_Z b.
Proof.
  intros ->. unfold data_at, byte_at, zlen. rewrite Nat2Z.id.
  by rewrite app_nth2, Nat.sub_diag by lia.
Qed.

Lemma data_int_app pre a post k :
  data = pre ++ a ++ post -> zlen a = k ->
  data_int data (zlen pre) k = from_bytes_big a.
Proof.
  intros -> <-. unfold data_int, slice, zlen.
  rewrite <- Nat2Z.inj_add, !Nat2Z.id, drop_app_length.
  rewrite Nat.add_comm, Nat.add_sub. by rewrite take_app_length.
Qed.

(** What is left at an offset. *)
Lemma split_offset i :
  0 <= i <= zlen data -> exists pre, data = pre ++ drop (Z.to_nat i) data /\ zlen pre = i.
Proof.
  intros Hi. exists (take (Z.to_nat i) data). split; [by rewrite take_drop|].
  unfold zlen in *. rewrite length_take. lia.
Qed.

Lemma scan_head_complete pre hb post major arg :
  data = pre ++ hb ++ post -> head_bytes hb major arg ->
  scan_head data (zlen pre) = Ok (major, arg, zlen pre + zlen hb).
Proof.
  intros Hd Hh.
  assert (Hlen : zlen data = zlen pre + zlen hb + zlen post) by (rewrite Hd, !zlen_app; lia).
  pose proof (head_bytes_nonempty _ _ _ Hh). assert (0 <= zlen pre) by (unfold zlen; lia).
  assert (0 <= zlen post) by (unfold zlen; lia).
  unfold scan_head. rewrite need_ok by lia. cbn [bind].
  rewrite shiftr_5, land_31.
  inversion Hh as [ib Hai|ib w a Hw Ha|ib Hai]; subst hb major arg;
    rewrite (data_at_app _ _ _ Hd).
  - by rewrite (proj2 (Z.ltb_lt _ _) Hai).
  - assert (Hd' : data = (pre ++ [ib]) ++ a ++ post) by (by rewrite Hd, <- app_assoc).
    assert (Hp : zlen (pre ++ [ib]) = zlen pre + 1) by by rewrite zlen_app.
    assert (Hza : zlen (ib :: a) = 1 + Z.of_nat w) by (unfold zlen; simpl length; lia).
    assert (Hwa : zlen a = Z.of_nat w) by (unfold zlen; lia).
    rewrite <- Hp. destruct (byte_to_Z ib mod 32) as [|ai|] eqn:Eai; [discriminate| |discriminate].
    assert (Hcases : Z.pos ai = 24 /\ w = 1%nat \/ Z.pos ai = 25 /\ w = 2%nat
              \/ Z.pos ai = 26 /\ w = 4%nat \/ Z.pos ai = 27 /\ w = 8%nat).
    { repeat (destruct ai; try discriminate Hw); injection Hw as <-; tauto. }
    destruct Hcases as [[-> ->]|[[-> ->]|[[-> ->]|[-> ->]]]]; cbn [Z.ltb Z.eqb Z.compare Pos.compare
      Pos.compare_cont Pos.eqb]; rewrite need_ok by lia; cbn [bind];
      rewrite ?(data_int_app _ _ _ _ Hd') by done.
    + destruct a as [|b []]; [discriminate Ha| |discriminate Ha].
      rewrite (data_at_app _ _ _ Hd'). unfold from_bytes_big. simpl fold_left.
      rewrite Z.add_0_l. do 2 f_equal. rewrite Hp. unfold zlen; simpl length. lia.
    + do 2 f_equal. lia.
    + do 2 f_equal. lia.
    + do 2 f_equal. lia.
  - by rewrite Hai.
Qed.

Lemma scan_head_sound i major arg i' :
  0 <= i -> scan_head data i = Ok (major, arg, i') ->
  exists hb post, drop (Z.to_nat i) data = hb ++ post /\ head_bytes hb major arg
                  /\ i' = i + zlen hb /\ i' <= zlen data.
Proof.
  intros Hi E. unfold scan_head in E.
  apply bind_ok_inv in E as ([] & Hn1%need_inv & E).
  destruct (split_offset i) as (pre & Hd & Hpre); [lia|].
  destruct (drop (Z.to_nat i) data) as [|ib rest] eqn:Edrop.
  { rewrite Hd, app_nil_r in Hn1. lia. }
  rewrite <- Hpre, (data_at_app _ _ _ Hd), shiftr_5, land_31, Hpre in E.
  assert (Hd' : data = (pre ++ [ib]) ++ rest) by (by rewrite <- app_assoc).
  assert (Hp : i + 1 = zlen (pre ++ [ib])) by (rewrite zlen_app, Hpre; done).
  assert (Hrest : zlen data = i + 1 + zlen rest) by (rewrite Hd', zlen_app, <- Hp; lia).
  assert (Hwide : forall w k, arg_width (byte_to_Z ib mod 32) = Some w -> Z.of_nat w = k ->
    need data (i + 1) k = Ok tt ->
    exists a post, rest = a ++ post /\ length a = w
      /\ (exists hb post, ib :: rest = hb ++ post
           /\ head_bytes hb (byte_to_Z ib / 32) (Some (from_bytes_big a))
           /\ i + 1 + k = i + zlen hb /\ i + 1 + k <= zlen data)
      /\ data_int data (i + 1) k = from_bytes_big a).
  { intros w k Hw <- Hn%need_inv. exists (take w rest), (drop w rest).
    assert (Hl : length (take w rest) = w) by (rewrite length_take; unfold zlen in *; lia).
    split; [by rewrite take_drop|]. split; [done|]. split.
    - exists (ib :: take w rest), (drop w rest). rewrite <- app_comm_cons, take_drop.
      split; [done|]. split; [by eapply head_wide|]. unfold zlen in *. simpl length. lia.
    - rewrite Hp. apply (data_int_app _ _ (drop w rest)); [by rewrite take_drop|].
      unfold zlen; lia. }
  destruct (byte_to_Z ib mod 32 <? 24) eqn:E0.
  { injection E as <- <- <-. exists [ib], rest. split; [done|]. split; [|split; [done|lia]].
    apply head_direct. by apply Z.ltb_lt. }
  destruct (_ =? 24) eqn:E1; [|destruct (_ =? 25) eqn:E2; [|destruct (_ =? 26) eqn:E3;
    [|destruct (_ =? 27) eqn:E4; [|destruct (_ =? 31) eqn:E5; [|discriminate]]]]].
  - apply Z.eqb_eq in E1. apply bind_ok_inv in E as ([] & Hn & [= <- <- <-]).
    destruct (Hwide 1%nat 1) as (a & post & Hr & Ha & Hh & _); [by rewrite E1|done|done|].
    destruct a as [|b []]; [discriminate| |discriminate].
    rewrite Hp, (data_at_app (pre ++ [ib]) b post), <- Hp by (by rewrite Hd', Hr).
    by change (byte_to_Z b) with (from_bytes_big [b]).
  - apply Z.eqb_eq in E2. apply bind_ok_inv in E as ([] & Hn & [= <- <- <-]).
    destruct (Hwide 2%nat 2) as (a & post & Hr & Ha & Hh & Hi'); [by rewrite E2|done|done|].
    by rewrite Hi'.
  - apply Z.eqb_eq in E3. apply bind_ok_inv in E as ([] & Hn & [= <- <- <-]).
    destruct (Hwide 4%nat 4) as (a & post & Hr & Ha & Hh & Hi'); [by rewrite E3|done|done|].
    by rewrite Hi'.
  - apply Z.eqb_eq in E4. apply bind_ok_inv in E as ([] & Hn & [= <- <- <-]).
    destruct (Hwide 8%nat 8) as (a & post & Hr & Ha & Hh & Hi'); [by rewrite E4|done|done|].
    by rewrite Hi'.
  - injection E as <- <- <-. exists [ib], rest. split; [done|]. split; [|split; [done|lia]].
    apply head_indefinite. by apply Z.eqb_eq.
Qed.
End Data.

(** ** Completeness: every item of the grammar is accepted *)

(** The loop body of the scanner: one item, or a key and a value. *)
Definition pair_step (pairs : bool) (step : Z -> result cbor_error Z) : Z -> result cbor_error Z :=
  if pairs then fun i => let* i := step i in step i else step.

Definition scan_ok (d : Z) (bs : bytes) : Prop :=
  forall data pre post fuel, data = pre ++ bs ++ post -> (length bs < fuel)%nat ->
  scan data fuel (zlen pre) d = Ok (zlen pre + zlen bs).

Definition step_ok (d : Z) (pairs : bool) (bs : bytes) : Prop :=
  forall data pre post fuel, data = pre ++ bs ++ post -> (length bs < fuel)%nat ->
  pair_step pairs (fun i => scan data fuel i d) (zlen pre) = Ok (zlen pre + zlen bs).

Definition times_ok (d : Z) (pairs : bool) (n : Z) (bs : bytes) : Prop :=
  forall data pre post fuel k, data = pre ++ bs ++ post ->
  (length bs < fuel)%nat -> (length bs <= k)%nat ->
  scan_times (pair_step pairs (fun i => scan data fuel i d)) k n (zlen pre)
  = Ok (zlen pre + zlen bs).

Definition break_ok (d : Z) (pairs : bool) (bs : bytes) : Prop :=
  forall data pre post fuel k, data = pre ++ bs ++ post ->
  (length bs < fuel)%nat -> (length bs <= k)%nat ->
  scan_until_break data (pair_step pairs (fun i => scan data fuel i d)) k (zlen pre)
  = Ok (zlen pre + zlen bs).

(** Entering an item: the head is scanned and the offset stands after it. *)
Lemma scan_enter data pre hb s post fuel major arg d :
  data = pre ++ (hb ++ s) ++ post -> d <= MAX_NESTING_DEPTH -> head_bytes hb major arg ->
  (length (hb ++ s) < fuel)%nat ->
  exists f, fuel = S f /\ (MAX_NESTING_DEPTH <? d) = false
    /\ scan_head data (zlen pre) = Ok (major, arg, zlen (pre ++ hb))
    /\ data = (pre ++ hb) ++ s ++ post /\ (length s < f)%nat
    /\ zlen (pre ++ hb) + zlen s = zlen pre + zlen (hb ++ s).
Proof.
  intros Hd Hdep Hh Hf. pose proof (head_bytes_nonempty _ _ _ Hh). rewrite length_app in Hf.
  destruct fuel as [|f]; [lia|]. exists f. split; [done|]. split; [by apply Z.ltb_ge|].
  split; [|split; [by rewrite Hd, <- !app_assoc|split; [unfold zlen in *; lia|]]].
  - rewrite zlen_app. apply (scan_head_complete _ _ _ (s ++ post)); [|done].
    by rewrite Hd, <- !app_assoc.
  - rewrite !zlen_app. lia.
Qed.

(** Use [scan_enter] and unfold one level of [scan]. *)
Ltac enter_item major arg :=
  match goal with
  | Hd : ?data = ?pre ++ (?hb ++ ?s) ++ ?post, Hf : (length (?hb ++ ?s) < ?fuel)%nat,
    Hdep : ?d <= MAX_NESTING_DEPTH |- _ =>
      destruct (scan_enter data pre hb s post fuel major arg d)
        as (f & -> & E1 & E2 & Hd' & Hs & E3); [done..|];
      cbn [scan]; rewrite E1, E2; cbn [bind]
  end.

Lemma item_atom_ok d hb major arg :
  d <= MAX_NESTING_DEPTH -> head_bytes hb major arg ->
  major = 0 \/ major = 1 \/ major = 7 -> scan_ok d hb.
Proof.
  intros Hdep Hh Hmaj data pre post fuel Hd Hf.
  destruct (scan_enter data pre hb [] post fuel major arg d)
    as (f & -> & E1 & E2 & _ & _ & E3); rewrite ?app_nil_r; [done..|].
  cbn [scan]. rewrite E1, E2. cbn [bind]. rewrite app_nil_r in E3.
  replace (zlen (pre ++ hb)) with (zlen pre + zlen hb) by (by rewrite zlen_app).
  by destruct Hmaj as [-> | [-> | ->]].
Qed.

Lemma item_string_ok d hb major n s :
  d <= MAX_NESTING_DEPTH -> head_bytes hb major (Some n) ->
  major = 2 \/ major = 3 -> zlen s = n -> scan_ok d (hb ++ s).
Proof.
  intros Hdep Hh Hmaj Hn data pre post fuel Hd Hf. enter_item major (Some n).
  assert (Hneed : need data (zlen (pre ++ hb)) n = Ok tt).
  { apply need_ok; [unfold zlen; lia|]. rewrite Hd', !zlen_app. unfold zlen in *. lia. }
  rewrite <- E3, <- Hn in *. destruct Hmaj as [-> | ->]; cbn; by rewrite Hneed.
Qed.

Lemma item_chunks_ok d hb major s :
  d <= MAX_NESTING_DEPTH -> head_bytes hb major None ->
  major = 2 \/ major = 3 \/ major = 4 -> break_ok (d + 1) false s -> scan_ok d (hb ++ s).
Proof.
  intros Hdep Hh Hmaj IH data pre post fuel Hd Hf. enter_item major (@None Z).
  specialize (IH data (pre ++ hb) post f f Hd' Hs ltac:(lia)). rewrite E3 in IH.
  by destruct Hmaj as [-> | [-> | ->]].
Qed.

Lemma item_counted_ok d hb major pairs n s :
  d <= MAX_NESTING_DEPTH -> head_bytes hb major (Some n) ->
  major = (if pairs : bool then 5 else 4) ->
  times_ok (d + 1) pairs n s -> scan_ok d (hb ++ s).
Proof.
  intros Hdep Hh Hmaj IH data pre post fuel Hd Hf. enter_item major (Some n).
  specialize (IH data (pre ++ hb) post f f Hd' Hs ltac:(lia)). rewrite E3 in IH.
  by destruct pairs; subst major.
Qed.

Lemma item_map_indefinite_ok d hb s :
  d <= MAX_NESTING_DEPTH -> head_bytes hb 5 None ->
  break_ok (d + 1) true s -> scan_ok d (hb ++ s).
Proof.
  intros Hdep Hh IH data pre post fuel Hd Hf. enter_item 5 (@None Z).
  specialize (IH data (pre ++ hb) post f f Hd' Hs ltac:(lia)). by rewrite E3 in IH.
Qed.

Lemma item_tag_ok d hb arg s :
  d <= MAX_NESTING_DEPTH -> head_bytes hb 6 arg -> scan_ok (d + 1) s -> scan_ok d (hb ++ s).
Proof.
  intros Hdep Hh IH data pre post fuel Hd Hf. enter_item 6 arg.
  specialize (IH data (pre ++ hb) post f Hd' Hs). by rewrite E3 in IH.
Qed.

Lemma group_two_ok d a b : scan_ok d a -> scan_ok d b -> step_ok d true (a ++ b).
Proof.
  intros IHa IHb data pre post fuel Hd Hf. rewrite length_app in Hf. cbn [pair_step].
  rewrite (IHa data pre (b ++ post)) by (lia || by rewrite Hd, <- !app_assoc).
  cbn [bind]. rewrite <- (zlen_app pre a).
  rewrite (IHb data (pre ++ a) post) by (lia || by rewrite Hd, <- !app_assoc).
  f_equal. rewrite !zlen_app. lia.
Qed.

Lemma items_cons_ok d pairs n g s :
  0 <= n -> group d pairs g -> step_ok d pairs g -> times_ok d pairs n s ->
  times_ok d pairs (n + 1) (g ++ s).
Proof.
  intros Hn Hg%group_nonempty IHg IHs data pre post fuel k Hd Hf Hk. rewrite length_app in Hf, Hk.
  destruct k as [|k]; [unfold zlen in *; lia|]. cbn [scan_times].
  rewrite (proj2 (Z.leb_gt _ _)), Z.add_simpl_r by lia.
  rewrite (IHg data pre (s ++ post)) by (lia || by rewrite Hd, <- !app_assoc).
  cbn [bind]. rewrite <- (zlen_app pre g).
  rewrite (IHs data (pre ++ g) post)
    by (lia || (unfold zlen in *; lia) || by rewrite Hd, <- !app_assoc).
  f_equal. rewrite !zlen_app. lia.
Qed.

Lemma break_here_ok d pairs : break_ok d pairs [xff].
Proof.
  intros data pre post fuel [|k] Hd Hf Hk; [simpl in Hk; lia|]. cbn [scan_until_break].
  rewrite need_ok; [|unfold zlen; lia|rewrite Hd, !zlen_app; unfold zlen; simpl length; lia].
  cbn [bind]. by rewrite (data_at_app data pre xff post).
Qed.

Lemma break_cons_ok d pairs g s :
  head g <> Some xff -> group d pairs g -> step_ok d pairs g -> break_ok d pairs s ->
  break_ok d pairs (g ++ s).
Proof.
  intros Hff Hg%group_nonempty IHg IHs data pre post fuel k Hd Hf Hk.
  rewrite length_app in Hf, Hk.
  destruct k as [|k]; [unfold zlen in *; lia|]. cbn [scan_until_break].
  rewrite need_ok; [|unfold zlen; lia|rewrite Hd, !zlen_app; unfold zlen in *; lia].
  cbn [bind]. destruct g as [|b0 g]; [unfold zlen in *; simpl in *; lia|].
  rewrite (data_at_app data pre b0 (g ++ s ++ post)) by (by rewrite Hd, <- !app_assoc).
  destruct (byte_to_Z b0 =? 0xFF) eqn:E.
  { apply Z.eqb_eq in E. change 0xFF with (byte_to_Z xff) in E.
    apply byte_to_Z_inj in E as ->. by destruct Hff. }
  rewrite (IHg data pre (s ++ post)) by (lia || by rewrite Hd, <- !app_assoc).
  cbn [bind]. rewrite <- (zlen_app pre (b0 :: g)).
  rewrite (IHs data (pre ++ b0 :: g) post)
    by (lia || (unfold zlen in *; lia) || by rewrite Hd, <- !app_assoc).
  f_equal. rewrite !zlen_app. lia.
Qed.

Create HintDb scan_complete.
#[local] Hint Resolve item_atom_ok item_string_ok item_chunks_ok item_map_indefinite_ok
  item_tag_ok group_two_ok items_cons_ok break_here_ok break_cons_ok : scan_complete.

Lemma scan_complete_mutual :
  (forall d bs, item d bs -> scan_ok d bs)
  /\ (forall d pairs bs, group d pairs bs -> step_ok d pairs bs)
  /\ (forall d pairs n bs, items d pairs n bs -> times_ok d pairs n bs)
  /\ (forall d pairs bs, until_break d pairs bs -> break_ok d pairs bs).
Proof.
  apply item_mutual; intros; eauto with scan_complete.
  - by eapply (item_counted_ok _ _ 4 false).
  - by eapply (item_counted_ok _ _ 5 true).
  - intros data pre post fuel [|k] Hd Hf Hk; simpl; by rewrite Z.add_0_r.
Qed.

(** ** Soundness: what is accepted is an item of the grammar *)

(** [bs] stands in [data] from offset [i] up to [i']. *)
Definition segment (data : bytes) (i i' : Z) (bs : bytes) : Prop :=
  exists pre post, data = pre ++ bs ++ post /\ zlen pre = i /\ i' = i + zlen bs.

Lemma segment_bounds data i i' bs : segment data i i' bs -> 0 <= i <= i' /\ i' <= zlen data.
Proof. intros (pre & post & -> & <- & ->). rewrite !zlen_app. unfold zlen. lia. Qed.

Lemma segment_app data i j k a b :
  segment data i j a -> segment data j k b -> segment data i k (a ++ b).
Proof.
  intros (pre & post & Hd & <- & ->) (pre' & post' & Hd' & Hp & ->).
  rewrite Hd, app_assoc in Hd'. rewrite <- zlen_app in Hp. unfold zlen in Hp.
  apply app_inj_1 in Hd' as [<- ->]; [|lia].
  exists pre, post'. split; [by rewrite Hd, <- !app_assoc|]. rewrite zlen_app. lia.
Qed.

Lemma segment_nil data i : 0 <= i <= zlen data -> segment data i i [].
Proof.
  intros H. destruct (split_offset data i H) as (pre & Hd & Hp).
  exists pre, (drop (Z.to_nat i) data). rewrite Z.add_0_r. done.
Qed.

Lemma segment_take data i bs : segment data 0 i bs -> bs = take (Z.to_nat i) data.
Proof.
  intros (pre & post & -> & Hp & ->). destruct pre; [|unfold zlen in Hp; simpl in Hp; lia].
  rewrite Z.add_0_l, app_nil_l. unfold zlen. by rewrite Nat2Z.id, take_app_length.
Qed.

Lemma segment_head data i i' bs :
  segment data i i' bs -> i < i' -> byte_to_Z <$> head bs = Some (data_at data i).
Proof.
  intros (pre & post & Hd & <- & ->) Hlt.
  destruct bs as [|b bs]; [unfold zlen in Hlt; simpl in Hlt; lia|].
  simpl. by rewrite (data_at_app data pre b (bs ++ post)).
Qed.

Lemma scan_head_segment data i major arg i' :
  0 <= i -> scan_head data i = Ok (major, arg, i') ->
  exists hb, segment data i i' hb /\ head_bytes hb major arg.
Proof.
  intros Hi E. destruct (scan_head_sound data i major arg i' Hi E) as (hb & post & Hd & Hh & -> & Hle).
  exists hb. split; [|done]. exists (take (Z.to_nat i) data), post.
  rewrite <- Hd, take_drop. split; [done|]. split; [|done].
  pose proof (head_bytes_nonempty _ _ _ Hh). unfold zlen in *. rewrite length_take. lia.
Qed.

(** A loop body that only accepts groups. *)
Definition step_sound (data : bytes) (d : Z) (pairs : bool) (step : Z -> result cbor_error Z) : Prop :=
  forall i i', 0 <= i -> step i = Ok i' -> exists g, segment data i i' g /\ group d pairs g.

Lemma scan_times_sound data d pairs step k n i i' :
  step_sound data d pairs step -> 0 <= i <= zlen data -> 0 <= n ->
  scan_times step k n i = Ok i' -> exists s, segment data i i' s /\ items d pairs n s.
Proof.
  intros Hs. revert n i. induction k as [|k IH]; intros n i Hi Hn E; simpl in E;
    (destruct (n <=? 0) eqn:En; [apply Z.leb_le in En; injection E as <-;
      replace n with 0 by lia; exists []; split; [by apply segment_nil|constructor]|]).
  - discriminate.
  - apply Z.leb_gt in En. apply bind_ok_inv in E as (j & Ej & E).
    destruct (Hs i j) as (g & Hseg & Hg); [lia|done|].
    pose proof (segment_bounds _ _ _ _ Hseg).
    destruct (IH (n - 1) j) as (s & Hseg' & Hits); [lia|lia|done|].
    exists (g ++ s). split; [by eapply segment_app|].
    replace n with (n - 1 + 1) by lia. constructor; [lia|done|done].
Qed.

Lemma scan_until_break_sound data d pairs step k i i' :
  step_sound data d pairs step -> 0 <= i <= zlen data ->
  scan_until_break data step k i = Ok i' -> exists s, segment data i i' s /\ until_break d pairs s.
Proof.
  intros Hs. revert i. induction k as [|k IH]; intros i Hi E; simpl in E; [discriminate|].
  apply bind_ok_inv in E as ([] & Hn%need_inv & E). destruct (data_at data i =? 0xFF) eqn:Eb.
  - apply Z.eqb_eq in Eb. injection E as <-. exists [xff]. split; [|constructor].
    destruct (split_offset data i ltac:(lia)) as (pre & Hd & Hp).
    destruct (drop (Z.to_nat i) data) as [|b rest] eqn:Edrop;
      [rewrite Hd, zlen_app in Hn; unfold zlen in *; simpl in Hn; lia|].
    rewrite <- Hp, (data_at_app data pre b rest Hd) in Eb.
    change 0xFF with (byte_to_Z xff) in Eb. apply byte_to_Z_inj in Eb as ->.
    by exists pre, rest.
  - apply Z.eqb_neq in Eb. apply bind_ok_inv in E as (j & Ej & E).
    destruct (Hs i j) as (g & Hseg & Hg); [lia|done|].
    pose proof (segment_bounds _ _ _ _ Hseg).
    destruct (IH j) as (s & Hseg' & Hu); [lia|done|].
    exists (g ++ s). split; [by eapply segment_app|]. constructor; [|done|done].
    intros Hh. pose proof (group_nonempty _ _ _ Hg).
    assert (Hlt : i < j) by (destruct Hseg as (? & ? & _ & _ & ->); lia).
    pose proof (segment_head _ _ _ _ Hseg Hlt) as Hhd. rewrite Hh in Hhd. simpl in Hhd.
    injection Hhd as Hhd. by rewrite <- Hhd in Eb.
Qed.

Lemma pair_step_sound data d pairs (step : Z -> result cbor_error Z) :
  (forall i i', 0 <= i -> step i = Ok i' -> exists bs, segment data i i' bs /\ item d bs) ->
  step_sound data d pairs (pair_step pairs step).
Proof.
  intros Hs i i' Hi E. destruct pairs; simpl in E.
  - apply bind_ok_inv in E as (j & Ej & E). destruct (Hs i j Hi Ej) as (a & Ha & Hia).
    pose proof (segment_bounds _ _ _ _ Ha).
    destruct (Hs j i') as (b & Hb & Hib); [lia|done|].
    exists (a ++ b). split; [by eapply segment_app|by constructor].
  - destruct (Hs i i' Hi E) as (a & Ha & Hia). exists a. split; [done|by constructor].
Qed.

Lemma head_major hb major arg : head_bytes hb major arg -> 0 <= major <= 7.
Proof.
  assert (H : forall b, 0 <= byte_to_Z b / 32 <= 7).
  { intros b. pose proof (byte_to_Z_range b).
    assert (byte_to_Z b / 32 < 8) by (apply Z.div_lt_upper_bound; lia).
    assert (0 <= byte_to_Z b / 32) by (apply Z.div_pos; lia). lia. }
  inversion 1; apply H.
Qed.

Lemma head_arg hb major n : head_bytes hb major (Some n) -> 0 <= n.
Proof.
  inversion 1; [apply Z.mod_pos_bound; lia|].
  match goal with |- 0 <= from_bytes_big ?a => pose proof (from_bytes_big_range a) end. lia.
Qed.

Lemma scan_sound data fuel i d i' :
  0 <= i -> scan data fuel i d = Ok i' -> exists bs, segment data i i' bs /\ item d bs.
Proof.
  revert i d i'. induction fuel as [|fuel IH]; intros i d i' Hi E; [discriminate|].
  cbn [scan] in E. destruct (MAX_NESTING_DEPTH <? d) eqn:Ed; [discriminate|].
  apply Z.ltb_ge in Ed. apply bind_ok_inv in E as ([[major arg] j] & Eh & E).
  destruct (scan_head_segment data i major arg j Hi Eh) as (hb & Hseg & Hh).
  pose proof (segment_bounds _ _ _ _ Hseg) as Hb. pose proof (head_major _ _ _ Hh) as Hm.
  assert (Hone : forall a b, 0 <= a -> scan data fuel a (d + 1) = Ok b ->
                   exists bs, segment data a b bs /\ item (d + 1) bs) by (intros; by apply IH).
  assert (Hin : forall s, segment data j i' s -> item d (hb ++ s) ->
                   exists bs, segment data i i' bs /\ item d bs).
  { intros s Hs Hit. exists (hb ++ s). split; [by eapply segment_app|done]. }
  assert (Hj : 0 <= j <= zlen data) by lia.
  pose proof (fun p => pair_step_sound data (d + 1) p _ Hone) as Hstep.
  assert (Hcases : major = 0 \/ major = 1 \/ major = 2 \/ major = 3 \/ major = 4 \/ major = 5
                   \/ major = 6 \/ major = 7) by lia.
  destruct Hcases as [->|[->|[->|[->|[->|[->|[->| ->]]]]]]]; cbn in E;
    try (injection E as <-; exists hb; split; [done|]; eapply item_atom; eauto; fail);
    try (destruct (Hone j i') as (s & Hs & Hit); [lia|done|];
         apply (Hin s Hs); by eapply item_tag);
    destruct arg as [n|].
  1, 3: pose proof (head_arg _ _ _ Hh); apply bind_ok_inv in E as ([] & Hn%need_inv & [= <-]);
    destruct (split_offset data j ltac:(lia)) as (pre & Hd & Hp);
    apply (Hin (take (Z.to_nat n) (drop (Z.to_nat j) data)));
    [exists pre, (drop (Z.to_nat n) (drop (Z.to_nat j) data)); rewrite take_drop
    |eapply item_string; eauto];
    unfold zlen in *; rewrite length_take, length_drop; intuition lia.
  1, 2, 4: destruct (scan_until_break_sound data (d + 1) false _ _ _ _ (Hstep false) Hj E) as (s & Hs & Hu); apply (Hin s Hs); eapply item_chunks; eauto.
  - destruct (scan_times_sound data (d + 1) false _ _ _ _ _ (Hstep false) Hj (head_arg _ _ _ Hh) E) as (s & Hs & Hu). apply (Hin s Hs). by eapply item_array.
  - destruct (scan_times_sound data (d + 1) true _ _ _ _ _ (Hstep true) Hj (head_arg _ _ _ Hh) E) as (s & Hs & Hu). apply (Hin s Hs). by eapply item_map.
  - destruct (scan_until_break_sound data (d + 1) true _ _ _ _ (Hstep true) Hj E) as (s & Hs & Hu). apply (Hin s Hs). by eapply item_map_indefinite.
Qed.

(** ** Termination: the budget is enough *)

(** The only error is the [CborError] of the code. *)
Definition only_cbor_error {A} (c : result cbor_error A) : Prop :=
  forall e, c = Raise e -> e = CborError.

Lemma only_cbor_bind {A B} (c : result cbor_error A) (k : A -> result cbor_error B) :
  only_cbor_error c -> (forall a, c = Ok a -> only_cbor_error (k a)) -> only_cbor_error (bind c k).
Proof. unfold only_cbor_error. destruct c; simpl; [eauto | intros H _ e' [= ->]; by apply H]. Qed.

Lemma need_only_cbor data i k : only_cbor_error (need data i k).
Proof. unfold only_cbor_error, need. destruct (_ <? _); by intros ? [=]. Qed.

Lemma scan_head_only_cbor data i : only_cbor_error (scan_head data i).
Proof.
  unfold scan_head. apply only_cbor_bind; [apply need_only_cbor|intros [] _].
  repeat case_match; try (by intros ? [=]); apply only_cbor_bind; (apply need_only_cbor || by intros ? ? ? [=]).
Qed.

(** A loop body that, near enough to the end of the data, neither runs out of
    budget nor stands still. *)
Definition step_progress (data : bytes) (r : Z) (step : Z -> result cbor_error Z) : Prop :=
  forall i, 0 <= i <= zlen data -> zlen data - i <= r ->
  only_cbor_error (step i) /\ forall j, step i = Ok j -> i < j <= zlen data.

Lemma scan_times_only_cbor data r step k n i :
  step_progress data r step -> 0 <= i <= zlen data -> zlen data - i <= r ->
  zlen data - i < Z.of_nat k -> only_cbor_error (scan_times step k n i).
Proof.
  intros Hs. revert n i. induction k as [|k IH]; intros n i Hi Hr Hk; [lia|].
  cbn [scan_times]. destruct (n <=? 0); [by intros ? [=]|]. destruct (Hs i Hi Hr) as [Hf Hj].
  apply only_cbor_bind; [done|]. intros j Ej%Hj. apply IH; lia.
Qed.

Lemma scan_until_break_only_cbor data r step k i :
  step_progress data r step -> 0 <= i <= zlen data -> zlen data - i <= r ->
  zlen data - i < Z.of_nat k -> only_cbor_error (scan_until_break data step k i).
Proof.
  intros Hs. revert i. induction k as [|k IH]; intros i Hi Hr Hk; [lia|].
  cbn [scan_until_break]. apply only_cbor_bind; [apply need_only_cbor|intros [] _].
  destruct (_ =? _); [by intros ? [=]|]. destruct (Hs i Hi Hr) as [Hf Hj].
  apply only_cbor_bind; [done|]. intros j Ej%Hj. apply IH; lia.
Qed.

Lemma pair_step_progress data r pairs step :
  step_progress data r step -> step_progress data r (pair_step pairs step).
Proof.
  intros Hs i Hi Hr. destruct pairs; [|by apply Hs]. cbn [pair_step].
  destruct (Hs i Hi Hr) as [Hf Hj]. split.
  - apply only_cbor_bind; [done|]. intros j Ej%Hj. apply Hs; lia.
  - intros k (j & Ej%Hj & Ek)%bind_ok_inv. destruct (Hs j ltac:(lia) ltac:(lia)) as [_ Hk].
    apply Hk in Ek. lia.
Qed.

Lemma scan_advances data fuel i d j :
  0 <= i -> scan data fuel i d = Ok j -> i < j <= zlen data.
Proof.
  intros Hi E. destruct (scan_sound _ _ _ _ _ Hi E) as (bs & Hs & Hit%item_nonempty).
  pose proof (segment_bounds _ _ _ _ Hs). destruct Hs as (? & ? & _ & _ & ->). lia.
Qed.

Lemma scan_only_cbor data fuel i d :
  0 <= i <= zlen data -> zlen data - i < Z.of_nat fuel -> only_cbor_error (scan data fuel i d).
Proof.
  revert i d. induction fuel as [|fuel IH]; intros i d Hi Hf; [lia|]. cbn [scan].
  destruct (_ <? _); [by intros ? [=]|]. apply only_cbor_bind; [apply scan_head_only_cbor|].
  intros [[major arg] j] Eh. destruct (scan_head_segment data i major arg j) as (hb & Hs & Hh);
    [lia|done|].
  pose proof (head_bytes_nonempty _ _ _ Hh). pose proof (segment_bounds _ _ _ _ Hs).
  assert (Hj : 0 <= j <= zlen data /\ zlen data - j < Z.of_nat fuel)
    by (destruct Hs as (? & ? & _ & _ & ->); lia).
  assert (Hone : step_progress data (zlen data - j) (fun i => scan data fuel i (d + 1))).
  { intros a Ha Hr. split; [apply IH; lia|]. intros b. apply scan_advances. lia. }
  pose proof (pair_step_progress _ _ true _ Hone) as Htwo.
  repeat case_match; try (by intros ? [=]).
  all: try (apply only_cbor_bind; [apply need_only_cbor|by intros ? ? ? [=]]).
  all: try (apply IH; lia).
  all: try (eapply scan_times_only_cbor; first [exact Hone | exact Htwo | lia]).
  all: eapply scan_until_break_only_cbor; first [exact Hone | exact Htwo | lia].
Qed.


(** C3: the scanner of [_cbor_item_end] decides the item grammar: it returns an
    offset exactly when the bytes before it are one data item nesting at most
    128 deep (definite and indefinite lengths, tags and chunked strings
    included), and otherwise raises [CborError]; its recursion and its loops
    always finish. *)
Theorem cbor_item_end_correct data :
  (forall n, cbor_item_end data 0 = Ok n
             <-> 0 <= n <= zlen data /\ item 0 (take (Z.to_nat n) data))
  /\ (forall e, cbor_item_end data 0 = Raise e -> e = CborError).
Proof.
  split; [intros n; split|].
  - intros E. destruct (scan_sound data _ 0 0 n (Z.le_refl 0) E) as (bs & Hs & Hit).
    pose proof (segment_bounds _ _ _ _ Hs). apply segment_take in Hs as ->. split; [lia|done].
  - intros [Hn Hit]. unfold cbor_item_end.
    pose proof (proj1 scan_complete_mutual _ _ Hit data [] (drop (Z.to_nat n) data)
                  (S (S (length data)))) as E.
    rewrite app_nil_l, take_drop in E. change (zlen (@nil byte)) with 0 in E.
    rewrite E; [|done|rewrite length_take; lia].
    f_equal. unfold zlen in *. rewrite length_take. lia.
  - apply scan_only_cbor; unfold zlen; lia.
Qed.

(** ** Encodings are items *)

Lemma be_bytes_from len n :
  0 <= n < 256 ^ Z.of_nat len -> from_bytes_big (be_bytes len n) = n.
Proof. intros. rewrite from_be_bytes. by apply Z.mod_small. Qed.

Lemma head_bytes_wide major ai w n :
  0 <= major < 8 -> 24 <= ai < 32 -> arg_width ai = Some w -> 0 <= n < 256 ^ Z.of_nat w ->
  head_bytes (Z_to_byte (major * 32 + ai) :: be_bytes w n) major (Some n).
Proof.
  intros Hm Ha Hw Hn. destruct (initial_byte major ai) as [E1 E2]; [done|lia|].
  pose proof (head_wide (Z_to_byte (major * 32 + ai)) w (be_bytes w n)) as H.
  rewrite E1, E2, be_bytes_from in H by done. apply H; [done|]. apply length_be_bytes.
Qed.

Lemma head_bytes_direct major ai :
  0 <= major < 8 -> 0 <= ai < 24 -> head_bytes [Z_to_byte (major * 32 + ai)] major (Some ai).
Proof.
  intros Hm Ha. destruct (initial_byte major ai) as [E1 E2]; [done|lia|].
  pose proof (head_direct (Z_to_byte (major * 32 + ai))) as H. rewrite E1, E2 in H. apply H. lia.
Qed.

Lemma item_head_bytes major n :
  0 <= major < 8 -> 0 <= n < 2 ^ 64 -> head_bytes (item_head major n) major (Some n).
Proof.
  intros Hm Hn. unfold item_head.
  destruct (n <? 24) eqn:E1; [apply Z.ltb_lt in E1; apply head_bytes_direct; lia|].
  destruct (n <? 2 ^ 8) eqn:E2; [|destruct (n <? 2 ^ 16) eqn:E3; [|destruct (n <? 2 ^ 32) eqn:E4]];
    rewrite ?Z.ltb_lt, ?Z.ltb_ge in *; apply head_bytes_wide; done || lia.
Qed.

Definition hook_items (hook : pyval -> pyresult bytes) : Prop :=
  forall w f bs d, d <= MAX_NESTING_DEPTH -> float_in double f = true -> hook (PFloatField w f) = Ok bs -> item d bs.

Lemma length_struct_pack fmt f bs : struct_pack fmt f = Ok bs -> length bs = fmt_bytes fmt.
Proof. unfold struct_pack. destruct (round_to _ _); [|done]. intros [= <-]. apply length_be_bytes. Qed.

(** Initial byte and width of the float formats. *)
Lemma float_item d ib fmt f bs :
  d <= MAX_NESTING_DEPTH ->
  byte_to_Z ib / 32 = 7 -> arg_width (byte_to_Z ib mod 32) = Some (fmt_bytes fmt) ->
  struct_pack fmt f = Ok bs -> item d (ib :: bs).
Proof.
  intros Hd H7 Hw E%length_struct_pack.
  eapply item_atom; [done|by eapply head_wide|]. tauto.
Qed.

Section Items.
Context (hook : pyval -> pyresult bytes) (Hhook : hook_items hook).

Let itemised (v : pyval) : Prop :=
  cbor_ok v = true -> forall d bs, d + Z.of_nat (depth v) < MAX_NESTING_DEPTH ->
  rfc_encode hook v = Ok bs -> item d bs.

Lemma encode_int_item d z :
  - 2 ^ 128 <= z < 2 ^ 128 -> d < MAX_NESTING_DEPTH -> item d (encode_int z).
Proof.
  intros Hz Hd. unfold encode_int.
  set (mn := if 0 <=? z then (0, z) else (1, -1 - z)).
  assert (Hmn : (mn.1 = 0 \/ mn.1 = 1) /\ 0 <= mn.2 < 2 ^ 128).
  { unfold mn. destruct (0 <=? z) eqn:E; [apply Z.leb_le in E | apply Z.leb_gt in E];
      simpl; split_and!; lia || tauto. }
  clearbody mn. destruct mn as [major n]. simpl in Hmn. destruct Hmn as [Hmaj Hn].
  destruct (n <? 2 ^ 64) eqn:E; [apply Z.ltb_lt in E | apply Z.ltb_ge in E].
  - eapply item_atom; [lia|apply item_head_bytes; lia|lia].
  - eapply item_tag; [lia|apply (item_head_bytes 6); lia|].
    eapply item_string; [lia|apply (item_head_bytes 2)|by left|done]; [lia|].
    assert (Z.log2 n < 128) by (apply Z.log2_lt_pow2; lia).
    assert (Z.log2 n / 8 < 16) by (apply Z.div_lt_upper_bound; lia).
    assert (0 <= Z.log2 n / 8) by (apply Z.div_pos; [apply Z.log2_nonneg|lia]).
    unfold zlen, bignum_bytes. rewrite length_be_bytes. lia.
Qed.

Lemma items_concat {A} d pairs (l : list A) parts :
  Forall2 (fun _ p => group d pairs p) l parts -> items d pairs (zlen l) (concat parts).
Proof.
  induction 1 as [|x p l parts Hp H IH]; [constructor|].
  replace (zlen (x :: l)) with (zlen l + 1) by (unfold zlen; simpl length; lia).
  cbn [concat]. constructor; [unfold zlen; lia|done|done].
Qed.

(** What the encoder writes is one item of the grammar. *)
Lemma rfc_encode_item v : itemised v.
Proof.
  induction v as [|b|z|f|s|bs|l IH|dd IH|w f] using pyval_nested_ind; intros Hok d bs' Hd E;
    cbn [rfc_encode] in E; cbn [depth] in Hd.
  - injection E as <-. apply (item_atom _ _ 7 (Some 22)); [lia| |lia].
    by apply (head_bytes_direct 7 22).
  - destruct b; injection E as <-.
    + apply (item_atom _ _ 7 (Some 21)); [lia| |lia]. by apply (head_bytes_direct 7 21).
    + apply (item_atom _ _ 7 (Some 20)); [lia| |lia]. by apply (head_bytes_direct 7 20).
  - injection E as <-. simpl in Hok. apply andb_true_iff in Hok as [?%Z.leb_le ?%Z.ltb_lt].
    apply encode_int_item; lia.
  - apply bind_ok_inv in E as (p & Ep & [= <-]).
    apply (float_item d xfb double f); [lia|done|done|done].
  - injection E as <-. cbn [cbor_ok] in Hok. apply andb_true_iff in Hok as [_ ?%Z.ltb_lt].
    eapply item_string; [lia|apply (item_head_bytes 3); unfold zlen in *; lia|by right|done].
  - injection E as <-. cbn [cbor_ok] in Hok. apply Z.ltb_lt in Hok.
    eapply item_string; [lia|apply (item_head_bytes 2); unfold zlen in *; lia|by left|done].
  - apply bind_ok_inv in E as (parts & Hp & [= <-]). cbn [cbor_ok] in Hok.
    apply andb_true_iff in Hok as [Hl ?%Z.ltb_lt]. apply map_result_ok_iff in Hp.
    eapply item_array; [lia|apply item_head_bytes; unfold zlen in *; lia|].
    apply items_concat. clear -IH Hl Hp Hd.
    assert (Hdep : forall x, x ∈ l -> d + 1 + Z.of_nat (depth x) < MAX_NESTING_DEPTH).
    { intros x Hx%depth_list_le. simpl in Hx. lia. }
    clear Hd. induction Hp as [|x p l parts Hx Hp IHp]; [constructor|].
    inversion_clear IH as [|? ? Hg IHl]. simpl in Hl. apply andb_true_iff in Hl as [Hx' Hl].
    constructor; [|apply IHp; [done..|]; intros y Hy; apply Hdep; by constructor].
    constructor. apply Hg; [done| |done]. apply Hdep. by constructor.
  - apply bind_ok_inv in E as (parts & Hp & [= <-]). cbn [cbor_ok] in Hok.
    apply andb_true_iff in Hok as [[Hl ?%Z.ltb_lt]%andb_true_iff _].
    apply map_result_ok_iff in Hp.
    eapply item_map; [lia|apply item_head_bytes; unfold zlen in *; lia|].
    apply items_concat. clear -IH Hl Hp Hd.
    assert (Hdep : forall k x, (k, x) ∈ dd -> d + 1 + Z.of_nat (depth k) < MAX_NESTING_DEPTH
                               /\ d + 1 + Z.of_nat (depth x) < MAX_NESTING_DEPTH).
    { intros k x Hx%depth_dict_le. simpl in Hx. lia. }
    clear Hd. induction Hp as [|[k x] p l parts Hx Hp IHp]; [constructor|].
    inversion_clear IH as [|? ? [Hgk Hgx] IHl]. simpl in Hl.
    apply andb_true_iff in Hl as [[Hk' Hx']%andb_true_iff Hl].
    constructor; [|apply IHp; [done..|]; intros k' y Hy; apply Hdep; by constructor].
    inv_binds. destruct (Hdep k x ltac:(by constructor)).
    constructor; [by apply Hgk|by apply Hgx].
  - eapply Hhook; [|done..]. lia.
Qed.
End Items.
