(* ===== verification/CborCodec.v ===== *)
(** * CborCodec

    What [to_cbor], [from_cbor] and the vector section promise the payload
    codec: the shortest-float rule, the round trip of every payload value over
    any conforming [cbor2], and the raw vector round trip. *)

From S2P Require Import Prelude PyFloat PyValue Rfc8949 Cbor CborScan.

(** ** The shortest-float rule *)

Lemma float_in_double_finite f : isnan f = false -> isinf f = false ->
  (exists s, f = FZero s) \/ exists s m e, f = FFin s m e.
Proof. destruct f; try discriminate; eauto. Qed.

Lemma float_eqb_rounded F f g :
  round_to F f = Some g -> isnan f = false -> float_eqb g f = true -> g = f.
Proof.
  destruct f as [| |s|s m e]; [done|by intros [= <-]..|].
  intros E _ H. destruct g; simpl in H; try done; by apply bool_decide_eq_true in H.
Qed.

Lemma float_eqb_refl f : isnan f = false -> float_eqb f f = true.
Proof. destruct f; try done; intros _; simpl; by apply bool_decide_eq_true. Qed.

(** Packing and unpacking compare equal exactly on the values of the format. *)
Lemma round_trips_iff F f g :
  fmt_wf F -> float_in double f = true -> isnan f = false -> round_to F f = Some g ->
  float_eqb g f = float_in F f.
Proof.
  intros HF Hd Hn Hg. destruct (float_in F f) eqn:Hin.
  - rewrite round_to_exact in Hg by done. injection Hg as <-. by apply float_eqb_refl.
  - destruct (float_eqb g f) eqn:E; [|done].
    apply (float_eqb_rounded F) in E as ->; [|done..].
    by rewrite (round_to_in_fmt F f f HF Hd Hg) in Hin.
Qed.

Definition packed (F : fmt) (f : pyfloat) : bytes := be_bytes (fmt_bytes F) (float_bits F f).

Lemma struct_pack_exact F f : float_in F f = true -> struct_pack F f = Ok (packed F f).
Proof. intros H. unfold struct_pack. by rewrite round_to_exact. Qed.

(** The encoding the rule asks for: the narrowest of the three formats that
    holds the value; a finite value beyond the range of [>f] raises. *)
Definition shortest_spec (f : pyfloat) : pyresult bytes :=
  if isnan f || isinf f then Ok (xfb :: packed double f)
  else if float_in half f then Ok (xf9 :: packed half f)
  else match round_to single f with
       | None => Raise OverflowError
       | Some _ => if float_in single f then Ok (xfa :: packed single f)
                   else Ok (xfb :: packed double f)
       end.

Lemma shortest_float_bytes_eq f :
  float_in double f = true -> shortest_float_bytes f = shortest_spec f.
Proof.
  intros Hd. unfold shortest_float_bytes, shortest_spec.
  rewrite (struct_pack_exact double f Hd). cbn [bind].
  destruct (isnan f) eqn:En; [done|]. destruct (isinf f) eqn:Ei; [done|]. cbn [negb andb orb].
  assert (Hw : forall F, fmt_wf F -> struct_pack F f = match round_to F f with
                 | Some g => Ok (packed F g) | None => Raise OverflowError end) by done.
  assert (Hu : forall F g, fmt_wf F -> round_to F f = Some g -> struct_unpack F (packed F g) = Ok g).
  { intros F g HF Hg. destruct (struct_unpack_pack F f (packed F g) HF Hd) as (g' & Hg' & H & _).
    - unfold struct_pack. by rewrite Hg.
    - congruence. }
  assert (Hs : (let* s := struct_pack single f in
                let* back := struct_unpack single s in
                if float_eqb back f then Ok (xfa :: s) else Ok (xfb :: packed double f))
               = match round_to single f with
                 | None => Raise OverflowError
                 | Some _ => if float_in single f then Ok (xfa :: packed single f)
                             else Ok (xfb :: packed double f)
                 end).
  { rewrite Hw by auto with brain. destruct (round_to single f) as [g|] eqn:Eg; [|done].
    cbn [bind]. rewrite (Hu single g) by auto with brain. cbn [bind].
    rewrite (round_trips_iff single f g) by auto with brain.
    destruct (float_in single f) eqn:Hin; [|done].
    rewrite round_to_exact in Eg by done. by injection Eg as <-. }
  rewrite Hs. rewrite Hw by auto with brain. destruct (round_to half f) as [g|] eqn:Eg; cbn [bind].
  - rewrite (Hu half g) by auto with brain. cbn [bind].
    rewrite (round_trips_iff half f g) by auto with brain.
    destruct (float_in half f) eqn:Hin; [|done].
    rewrite round_to_exact in Eg by done. by injection Eg as <-.
  - destruct (float_in half f) eqn:Hin; [|done]. by rewrite round_to_exact in Eg.
Qed.

(** The range the single-precision attempt accepts. *)
Definition marker_ok (f : pyfloat) : bool :=
  isnan f || isinf f || match round_to single f with Some _ => true | None => false end.

Lemma half_in_single f : float_in half f = true -> float_in single f = true.
Proof.
  destruct f as [| | |s m e]; [done..|]. cbn [float_in]. rewrite !in_fmt_iff.
  unfold half, single. cbn [fmt_prec fmt_emin fmt_emax].
  change (2 ^ 11) with 2048. change (2 ^ 24) with 16777216. intuition lia.
Qed.

Lemma shortest_spec_ok f :
  (exists bs, shortest_spec f = Ok bs) <-> marker_ok f = true.
Proof.
  unfold shortest_spec, marker_ok. destruct (isnan f || isinf f); [split; eauto|]. cbn [orb].
  destruct (float_in half f) eqn:Eh.
  - rewrite (round_to_exact single f (half_in_single f Eh)). split; eauto.
  - destruct (round_to single f); [destruct (float_in single f); split; eauto|].
    split; [by intros [? [=]]|intros [=]].
Qed.

Lemma shortest_spec_decodes f bs :
  float_in double f = true -> shortest_spec f = Ok bs -> decodes_to bs (PFloat f).
Proof.
  intros Hd E. unfold shortest_spec in E.
  assert (H64 : decodes_to (xfb :: packed double f) (PFloat f))
    by exact (float_decodes double 27 f ai_double Hd).
  repeat case_match; try discriminate E; injection E as <-; try done.
  - match goal with H : float_in half f = true |- _ =>
      exact (float_decodes half 25 f ai_half H) end.
  - match goal with H : float_in single f = true |- _ =>
      exact (float_decodes single 26 f ai_single H) end.
Qed.

Lemma default_hook_ok : hook_ok default_hook.
Proof.
  intros w f bs Hd E. cbn [default_hook] in E. rewrite shortest_float_bytes_eq in E by done.
  by apply shortest_spec_decodes.
Qed.

Lemma default_hook_items w f bs d :
  d <= MAX_NESTING_DEPTH -> float_in double f = true ->
  default_hook (PFloatField w f) = Ok bs -> item d bs.
Proof.
  intros Hd Hf E. cbn [default_hook] in E. rewrite shortest_float_bytes_eq in E by done.
  assert (Hp : forall F, float_in F f = true -> struct_pack F f = Ok (packed F f))
    by (intros; by apply struct_pack_exact).
  unfold shortest_spec in E. repeat case_match; try discriminate E; injection E as <-.
  - by apply (float_item d xfb double f); auto.
  - by apply (float_item d xf9 half f); auto.
  - by apply (float_item d xfa single f); auto.
  - by apply (float_item d xfb double f); auto.
Qed.

(** ** Round trips *)

(** No float marker of the value is beyond the range of the encoder's hook. *)
Fixpoint markers_ok (v : pyval) : bool :=
  match v with
  | PList l => forallb markers_ok l
  | PDict d => forallb (fun '(k, x) => markers_ok k && markers_ok x) d
  | PFloatField _ f => marker_ok f
  | _ => true
  end.

(** The values the codec carries faithfully: representable in CBOR, markers in
    range, nesting within the scanner's limit. *)
Definition encodable (v : pyval) : bool :=
  cbor_ok v && markers_ok v && (Z.of_nat (depth v) <? MAX_NESTING_DEPTH).

Lemma map_result_total {E A B} (f : A -> result E B) l :
  (forall x, x ∈ l -> exists y, f x = Ok y) -> exists ys, map_result f l = Ok ys.
Proof.
  induction l as [|x l IH]; intros H; [by exists []|].
  destruct (H x ltac:(by constructor)) as [y Hy].
  destruct IH as [ys Hys]; [intros z Hz; apply H; by constructor|].
  exists (y :: ys). simpl. by rewrite Hy, Hys.
Qed.

Lemma encode_total v :
  cbor_ok v = true -> markers_ok v = true -> exists bs, rfc_encode default_hook v = Ok bs.
Proof.
  induction v as [|[]|z|f|s|bs|l IH|d IH|w f] using pyval_nested_ind; cbn [cbor_ok markers_ok rfc_encode];
    intros Hc Hm; try (by eauto).
  - apply andb_true_iff in Hc as [[Hc _]%andb_true_iff _]. rewrite struct_pack_exact by done.
    simpl. eauto.
  - apply andb_true_iff in Hc as [Hc _]. rewrite forallb_forall in Hc, Hm.
    rewrite Forall_forall in IH.
    destruct (map_result_total (rfc_encode default_hook) l) as [ys ->]; [|simpl; eauto].
    intros x Hx. pose proof (proj1 (list_elem_of_In _ _) Hx). apply IH; auto.
  - apply andb_true_iff in Hc as [[Hc _]%andb_true_iff _]. rewrite forallb_forall in Hc, Hm.
    rewrite Forall_forall in IH.
    match goal with |- context [map_result ?f d] => destruct (map_result_total f d) as [ys ->] end;
      [|simpl; eauto].
    intros [k x] Hx. pose proof (proj1 (list_elem_of_In _ _) Hx) as Hin.
    apply Hc in Hin as Hc'. apply Hm in Hin as Hm'. destruct (IH _ Hx) as [IHk IHx].
    apply andb_true_iff in Hc' as [? ?]. apply andb_true_iff in Hm' as [? ?].
    destruct IHk as [kb Hk]; [done..|]. destruct IHx as [xb Hxb]; [done..|].
    simpl in Hk, Hxb. rewrite Hk. simpl. rewrite Hxb. simpl. eauto.
  - cbn [default_hook]. rewrite shortest_float_bytes_eq by done. by apply shortest_spec_ok.
Qed.

Lemma depth_unmark v : depth (unmark v) = depth v.
Proof.
  induction v as [| | | | | |l IH|d IH|] using pyval_nested_ind; try done; simpl; f_equal.
  - induction IH as [|x l Hx _ IHl]; [done|]. simpl. by rewrite Hx, IHl.
  - induction IH as [|[k x] d [Hk Hx] _ IHd]; [done|]. simpl in *. by rewrite Hk, Hx, IHd.
Qed.

(** The RFC encoding of an encodable value is scanned to its very end, whatever
    follows it. *)
Lemma encode_item_end v bs rest :
  encodable v = true -> rfc_encode default_hook v = Ok bs ->
  cbor_item_end (bs ++ rest) 0 = Ok (zlen bs).
Proof.
  intros Hv E. apply andb_true_iff in Hv as [[Hc Hm]%andb_true_iff Hd%Z.ltb_lt].
  assert (Hit : item 0 bs).
  { eapply (rfc_encode_item default_hook); [|exact Hc| |exact E]; [|lia].
    intros w f b d Hle Hf. by apply default_hook_items. }
  pose proof (proj1 scan_complete_mutual _ _ Hit (bs ++ rest) [] rest
                (S (S (length (bs ++ rest))))) as Hs.
  unfold cbor_item_end. change 0 with (zlen (@nil byte)) at 1.
  rewrite Hs; [by rewrite Z.add_0_l|done|]. rewrite length_app. lia.
Qed.

Section RoundTrip.
Context `{HC : Cbor2Conforms}.

(** Encoding an encodable value succeeds, and decoding the front of a buffer
    that starts with the encoding gives the value and the length back. *)
Lemma codec_round_trip v :
  encodable v = true ->
  exists bs, to_cbor v = Ok bs
    /\ forall rest, from_cbor_prefix (bs ++ rest) = Ok (unmark v, zlen bs).
Proof.
  intros Hv. pose proof Hv as [[Hc Hm]%andb_true_iff Hd%Z.ltb_lt]%andb_true_iff.
  destruct (encode_total v Hc Hm) as [bs E]. exists bs. split.
  - unfold to_cbor. by apply dumps_ok.
  - intros rest. unfold from_cbor_prefix. rewrite (encode_item_end v bs rest Hv E).
    cbn [bind]. unfold zlen at 1. rewrite Nat2Z.id, take_app_length.
    rewrite (loads_ok bs (unmark v)); [done| |rewrite depth_unmark; lia].
    apply decodes_to_loads. by apply (rfc_decode_encode default_hook default_hook_ok).
Qed.

Lemma from_cbor_prefix_consumed bs v n :
  from_cbor_prefix bs = Ok (v, n) -> 0 <= n <= zlen bs.
Proof.
  unfold from_cbor_prefix. intros (k & Ek & E)%bind_ok_inv.
  apply scan_advances in Ek; [|lia]. case_match; [|done]. injection E as _ <-. lia.
Qed.
End RoundTrip.

(** ** A conforming instance *)

(** RFC 8949 itself, for closed examples. *)
#[export] Instance rfc8949_codec : Cbor2 := {| cbor2_dumps := rfc_encode; cbor2_loads := rfc_loads |}.

#[export] Instance rfc8949_conforms : Cbor2Conforms rfc8949_codec.
Proof. split; simpl; [done|by eauto|done]. Defined.

(** ** Properties *)

(** C4: over any conforming [cbor2], [from_cbor] inverts [to_cbor] on every
    encodable value (its float markers read back as the floats they wrap),
    [from_cbor_prefix] reads the same value from the front of a longer buffer,
    and [from_cbor] reports exactly the number of extra bytes. *)
Theorem from_cbor_inverts_to_cbor `{HC : Cbor2Conforms} v :
  encodable v = true ->
  exists bs, to_cbor v = Ok bs
    /\ from_cbor bs = Ok (unmark v)
    /\ (forall rest, from_cbor_prefix (bs ++ rest) = Ok (unmark v, zlen bs))
    /\ (forall rest, rest <> [] -> from_cbor (bs ++ rest) = Raise (TrailingBytesError (zlen rest))).
Proof.
  intros Hv. destruct (codec_round_trip v Hv) as (bs & E & Hp). exists bs.
  split; [done|]. split; [|split; [done|]].
  - unfold from_cbor. specialize (Hp []). rewrite app_nil_r in Hp. rewrite Hp. cbn [bind].
    by rewrite Z.eqb_refl.
  - intros rest Hr. unfold from_cbor. rewrite Hp. cbn [bind].
    rewrite (proj2 (Z.eqb_neq _ _)); [|rewrite zlen_app; destruct rest; [done|];
      unfold zlen; simpl length; lia].
    simpl. rewrite zlen_app. do 2 f_equal. lia.
Qed.

Lemma from_cbor_inverts_to_cbor_witness :
  let v := PDict [(PStr "a", PList [PInt (-7); PFloatField F32 (FFin false 25 (-1))])] in
  exists bs, to_cbor v = Ok bs
    /\ from_cbor bs = Ok (unmark v)
    /\ (forall rest, from_cbor_prefix (bs ++ rest) = Ok (unmark v, zlen bs))
    /\ (forall rest, rest <> [] -> from_cbor (bs ++ rest) = Raise (TrailingBytesError (zlen rest))).
Proof. intros v. apply from_cbor_inverts_to_cbor. reflexivity. Defined.

(** ** The vector section *)

(** The floats of a vector, rounded to single precision. *)
Definition vector_f32 (values : list pyval) : pyresult (list pyval) :=
  map_result (fun x =>
    let* f := struct_float_arg x in
    match round_to single f with Some g => Ok (PFloat g) | None => Raise OverflowError end) values.

Lemma chunks4_cons a b c d bs : chunks4 (a :: b :: c :: d :: bs) = [a; b; c; d] :: chunks4 bs.
Proof. done. Qed.

Lemma chunks4_app p bs : length p = 4%nat -> chunks4 (p ++ bs) = p :: chunks4 bs.
Proof. intros H. by do 5 (destruct p as [|? p]; try discriminate H). Qed.

(** Every argument of the vector is a float the language can hold. *)
Definition vector_args_ok (values : list pyval) : Prop :=
  forall x f, x ∈ values -> struct_float_arg x = Ok f -> float_in double f = true.

Lemma vector_bytes_back values bs :
  vector_args_ok values -> f32_list_to_le_bytes values = Ok bs ->
  zlen bs = 4 * zlen values
  /\ exists vs, vector_f32 values = Ok vs
     /\ map_result (fun c => let* f := struct_unpack single (rev c) in Ok (PFloat f)) (chunks4 bs)
        = Ok vs.
Proof.
  intros Hargs. unfold f32_list_to_le_bytes. intros (parts & Hp & [= <-])%bind_ok_inv.
  revert parts Hp. induction values as [|x values IH]; intros parts Hp; simpl in Hp.
  { injection Hp as <-. split; [done|]. by exists []. }
  apply bind_ok_inv in Hp as (b & Hb & (ps & Hps & [= <-])%bind_ok_inv).
  apply bind_ok_inv in Hb as (f & Hf & (sb & Hsb & [= <-])%bind_ok_inv).
  destruct (IH (fun y g Hy => Hargs y g ltac:(by constructor)) ps Hps) as (Hlen & vs & Hvs & Hch).
  destruct (struct_unpack_pack single f sb single_wf) as (g & Hg & Hu & Hl);
    [eapply Hargs; [by constructor|done]|done|].
  cbn [concat]. split.
  { rewrite zlen_app, Hlen. unfold zlen. rewrite length_rev, Hl. cbn [length]. simpl fmt_bytes. lia. }
  exists (PFloat g :: vs). unfold vector_f32 in *. cbn [map_result]. rewrite Hf. cbn [bind].
  rewrite Hg, Hvs. split; [done|].
  rewrite chunks4_app by (by rewrite length_rev, Hl). cbn [map_result].
  rewrite rev_involutive, Hu. cbn [bind]. by rewrite Hch.
Qed.

(** The raw vector section: [f32_list_to_le_bytes] writes four bytes per
    element and [le_bytes_to_f32_list] reads back each element rounded to single
    precision; a buffer is refused, with its length, exactly when that length
    is not a multiple of four. *)
Lemma vector_section_round_trip values bs :
  vector_args_ok values -> f32_list_to_le_bytes values = Ok bs ->
  zlen bs = 4 * zlen values
  /\ le_bytes_to_f32_list bs = lift_error CborPy (vector_f32 values)
  /\ forall tail, 0 < zlen tail < 4 ->
     le_bytes_to_f32_list (bs ++ tail) = Raise (RaggedVectorError (4 * zlen values + zlen tail)).
Proof.
  intros Hargs E. destruct (vector_bytes_back values bs Hargs E) as (Hlen & vs & Hvs & Hback).
  split; [done|]. unfold le_bytes_to_f32_list. split.
  - rewrite Hlen, Z.mul_comm, Z.mod_mul by lia. simpl. by rewrite Hback, Hvs.
  - intros tail Ht. rewrite zlen_app, Hlen.
    rewrite (Z.add_comm (4 * _)), (Z.mul_comm 4), Z.mod_add, Z.mod_small by lia.
    rewrite (proj2 (Z.eqb_neq _ _)) by lia. simpl. by rewrite Z.add_comm.
Qed.

Example vector_section_sample :
  let values := [PFloat (FFin false 25 (-1)); PInt 3] in
  let bs := [x00; x00; x48; x41; x00; x00; x40; x40] in
  zlen bs = 4 * zlen values
  /\ le_bytes_to_f32_list bs = lift_error CborPy (vector_f32 values)
  /\ forall tail, 0 < zlen tail < 4 ->
     le_bytes_to_f32_list (bs ++ tail) = Raise (RaggedVectorError (4 * zlen values + zlen tail)).
Proof.
  apply vector_section_round_trip; [|vm_compute; reflexivity].
  intros x f Hx. rewrite !elem_of_cons in Hx.
  destruct Hx as [->|[->|Hx]]; [..|by inversion Hx];
    intros E; vm_compute in E; injection E as <-; reflexivity.
Defined.

(** ** A limit of the float rule *)

Lemma round_half_even_lower n s : 0 < s -> Z.shiftr n s <= round_half_even n s.
Proof. intros Hs. unfold round_half_even. case_match; lia. Qed.

Lemma round_to_beyond_single neg m e :
  128 <= Z.log2 (Z.pos m) + e -> round_to single (FFin neg m e) = None.
Proof.
  intros H. cbn [round_to]. unfold round_mantissa.
  set (q := quantum single m e).
  destruct (q <=? e) eqn:Eq; [by rewrite (proj2 (Z.leb_le _ _)) by exact H|].
  apply Z.leb_gt in Eq. pose proof (round_half_even_lower (Z.pos m) (q - e) ltac:(lia)) as Hr.
  assert (Hlog : 24 <= Z.log2 (Z.pos m)).
  { unfold q, quantum, single in Eq. cbn [fmt_prec fmt_emin] in Eq. lia. }
  assert (Hq : q - e <= Z.log2 (Z.pos m)).
  { unfold q, quantum, single. cbn [fmt_prec fmt_emin]. lia. }
  assert (Hs : 2 ^ (Z.log2 (Z.pos m) - (q - e)) <= Z.shiftr (Z.pos m) (q - e)).
  { rewrite Z.shiftr_div_pow2 by lia. apply Z.div_le_lower_bound; [lia|].
    rewrite <- Z.pow_add_r by lia. replace (q - e + _) with (Z.log2 (Z.pos m)) by lia.
    apply Z.log2_spec. lia. }
  set (n := round_half_even (Z.pos m) (q - e)) in *.
  assert (0 < 2 ^ (Z.log2 (Z.pos m) - (q - e))) by (apply Z.pow_pos_nonneg; lia).
  rewrite (proj2 (Z.ltb_lt 0 n)) by lia. cbn [andb].
  rewrite (proj2 (Z.leb_le _ _)); [done|].
  pose proof (Z.log2_le_mono _ _ Hs). pose proof (Z.log2_le_mono _ _ Hr) as Hmono.
  rewrite Z.log2_pow2 in H1 by lia. change (fmt_emax single) with 128. lia.
Qed.

(** A finite double of magnitude 2^128 or more has no encoding as an F64 field. *)
Lemma large_f64_field_overflows neg m e :
  float_in double (FFin neg m e) = true -> 128 <= Z.log2 (Z.pos m) + e ->
  default_hook (PFloatField F64 (FFin neg m e)) = Raise OverflowError.
Proof.
  intros Hd H. cbn [default_hook]. rewrite shortest_float_bytes_eq by done.
  unfold shortest_spec. cbn [isnan isinf orb].
  rewrite round_to_beyond_single by done.
  destruct (float_in half (FFin neg m e)) eqn:Eh; [|done].
  apply half_in_single in Eh. apply in_fmt_iff in Eh. change (fmt_emax single) with 128 in Eh. lia.
Qed.

(** C35: [_shortest_float_bytes] writes an encoding that reads back as the very
    float. For a finite float that is no longer than any of the half, single and
    double encodings that hold it; an infinity or a NaN is not shortened: it is
    written as the nine bytes of a double, though the three bytes of a half hold
    it. The only failure is an [OverflowError] on a finite float beyond the
    single-precision range; so a double of magnitude 2^128 or more in an F64 field
    cannot be encoded at all: the hook never reaches the double-precision encoding. *)
Theorem shortest_float_bytes_shortest f :
  float_in double f = true ->
  (match shortest_float_bytes f with
  | Ok bs => decodes_to bs (PFloat f)
             /\ (forall F ai, float_ai F ai -> float_in F f = true ->
                 isnan f = false -> isinf f = false -> zlen bs <= 1 + Z.of_nat (fmt_bytes F))
             /\ (isnan f = true \/ isinf f = true ->
                 zlen bs = 9
                 /\ exists half_bytes, decodes_to half_bytes (PFloat f) /\ zlen half_bytes = 3)
  | Raise e => e = OverflowError /\ isnan f = false /\ isinf f = false
               /\ round_to single f = None
  end)
  /\ forall neg m e, f = FFin neg m e -> 128 <= Z.log2 (Z.pos m) + e ->
       default_hook (PFloatField F64 f) = Raise OverflowError.
Proof.
  intros Hd. split; [|intros neg m e -> ?; by apply large_f64_field_overflows]. rewrite shortest_float_bytes_eq by done.
  assert (Hl : forall F ib, zlen (ib :: packed F f) = 1 + Z.of_nat (fmt_bytes F)).
  { intros. unfold zlen, packed. cbn [length]. rewrite length_be_bytes. lia. }
  destruct (shortest_spec f) as [bs|e] eqn:E.
  - split; [by apply shortest_spec_decodes|]. split.
    + intros F ai Hai Hin Hn Hi.
      unfold shortest_spec in E. rewrite Hn, Hi in E. cbn [orb] in E.
      repeat case_match; try discriminate E; injection E as <-; rewrite Hl;
        destruct Hai; simpl; first [lia | congruence].
    + intros Hspecial. unfold shortest_spec in E.
      assert (Hs : isnan f || isinf f = true) by (apply orb_true_iff; exact Hspecial).
      rewrite Hs in E. injection E as <-. rewrite Hl. split; [done|].
      exists (xf9 :: packed half f). rewrite Hl. split; [|done].
      apply (float_decodes half 25 f ai_half). by destruct f.
  - unfold shortest_spec in E. destruct (isnan f), (isinf f); try discriminate E. cbn [orb] in E.
    repeat case_match; try discriminate E. by injection E as <-.
Qed.

(** On an infinity. *)
Lemma shortest_float_bytes_shortest_witness :
  match shortest_float_bytes (FInf false) with
  | Ok bs => decodes_to bs (PFloat (FInf false)) /\ zlen bs = 9
  | Raise e => False
  end
  /\ match shortest_float_bytes (FFin false 25 (-1)) with
     | Ok bs => decodes_to bs (PFloat (FFin false 25 (-1))) /\ zlen bs = 3
     | Raise e => False
     end.
Proof.
  destruct (shortest_float_bytes_shortest (FInf false) eq_refl) as [H1 _].
  destruct (shortest_float_bytes_shortest (FFin false 25 (-1)) eq_refl) as [H2 _].
  split.
  - destruct (shortest_float_bytes (FInf false)) as [bs|e] eqn:E; [|destruct H1 as (_ & _ & H1 & _); discriminate].
    destruct H1 as (Hd & _ & Hs). split; [exact Hd|]. apply Hs. by right.
  - destruct (shortest_float_bytes (FFin false 25 (-1))) as [bs|e] eqn:E; [|vm_compute in E; discriminate].
    split; [exact (proj1 H2)|]. vm_compute in E. injection E as <-. reflexivity.
Defined.
