(* ===== verification/Opcode.v ===== *)
(** * Opcode

    [wire/opcode.py]: every wire opcode with its value. *)

From S2P Require Import Prelude.

Inductive Opcode : Set :=
  | HELLO | WELCOME | AUTH | AUTH_OK | BYE | PING | PONG | CLIENT_PONG | SERVER_PING
  | CANCEL_STREAM | CANCEL_STREAM_ACK | ENCODE_REQ | ENCODE_RESP | RECALL_REQ | RECALL_RESP
  | PLAN_REQ | PLAN_RESP | REASON_REQ | REASON_RESP | FORGET_REQ | FORGET_RESP | LINK_REQ
  | LINK_RESP | UNLINK_REQ | UNLINK_RESP | MEMORY_LIST_REQ | MEMORY_LIST_RESP
  | MEMORY_INSPECT_REQ | MEMORY_INSPECT_RESP | ENCODE_VECTOR_DIRECT_REQ
  | ENCODE_VECTOR_DIRECT_RESP | SUBSCRIBE_REQ | SUBSCRIBE_EVENT | UNSUBSCRIBE_REQ
  | UNSUBSCRIBE_RESP | GET_CAPABILITIES_REQ | GET_CAPABILITIES_RESP | SPACE_CREATE_REQ
  | SPACE_CREATE_RESP | SPACE_LIST_REQ | SPACE_LIST_RESP | SPACE_DELETE_REQ | SPACE_DELETE_RESP
  | SESSION_CREATE_REQ | SESSION_CREATE_RESP | SESSION_LIST_REQ | SESSION_LIST_RESP
  | SESSION_DELETE_REQ | SESSION_DELETE_RESP | TXN_BEGIN | TXN_BEGIN_RESP | TXN_COMMIT
  | TXN_COMMIT_RESP | TXN_ABORT | TXN_ABORT_RESP | ERROR | SCHEMA_UPLOAD_REQ
  | SCHEMA_UPLOAD_RESP | SCHEMA_GET_REQ | SCHEMA_GET_RESP | SCHEMA_LIST_REQ | SCHEMA_LIST_RESP
  | SCHEMA_VALIDATE_REQ | SCHEMA_VALIDATE_RESP | SCHEMA_DROP_REQ | SCHEMA_DROP_RESP
  | SCHEMA_REPLACE_REQ | SCHEMA_REPLACE_RESP | EXTRACTOR_LIST_REQ | EXTRACTOR_LIST_RESP
  | ENTITY_CREATE_REQ | ENTITY_CREATE_RESP | ENTITY_GET_REQ | ENTITY_GET_RESP
  | ENTITY_RESOLVE_REQ | ENTITY_RESOLVE_RESP | ENTITY_LIST_REQ | ENTITY_LIST_RESP
  | ENTITY_UPDATE_REQ | ENTITY_UPDATE_RESP | ENTITY_RENAME_REQ | ENTITY_RENAME_RESP
  | ENTITY_MERGE_REQ | ENTITY_MERGE_RESP | ENTITY_UNMERGE_REQ | ENTITY_UNMERGE_RESP
  | ENTITY_TOMBSTONE_REQ | ENTITY_TOMBSTONE_RESP | STATEMENT_CREATE_REQ | STATEMENT_CREATE_RESP
  | STATEMENT_GET_REQ | STATEMENT_GET_RESP | STATEMENT_LIST_REQ | STATEMENT_LIST_RESP
  | STATEMENT_SUPERSEDE_REQ | STATEMENT_SUPERSEDE_RESP | STATEMENT_TOMBSTONE_REQ
  | STATEMENT_TOMBSTONE_RESP | STATEMENT_RETRACT_REQ | STATEMENT_RETRACT_RESP
  | STATEMENT_HISTORY_REQ | STATEMENT_HISTORY_RESP | RELATION_CREATE_REQ | RELATION_CREATE_RESP
  | RELATION_LIST_FROM_REQ | RELATION_LIST_FROM_RESP | RELATION_LIST_TO_REQ
  | RELATION_LIST_TO_RESP | RELATION_GET_REQ | RELATION_GET_RESP | RELATION_SUPERSEDE_REQ
  | RELATION_SUPERSEDE_RESP | RELATION_TOMBSTONE_REQ | RELATION_TOMBSTONE_RESP
  | RELATION_TRAVERSE_REQ | RELATION_TRAVERSE_RESP | QUERY_EXPLAIN_REQ | QUERY_EXPLAIN_RESP
  | QUERY_TRACE_REQ | QUERY_TRACE_RESP | GRAPH_FETCH_REQ | GRAPH_FETCH_RESP
  | MATERIALIZE_PROCEDURAL_REQ | MATERIALIZE_PROCEDURAL_RESP.

(** [int(opcode)]. *)
Definition opcode_value (o : Opcode) : Z :=
  match o with
  | HELLO => 0x0001 | WELCOME => 0x0081 | AUTH => 0x0002 | AUTH_OK => 0x0082 | BYE => 0x001F
  | PING => 0x0010 | PONG => 0x0090 | CLIENT_PONG => 0x0011 | SERVER_PING => 0x0091
  | CANCEL_STREAM => 0x0050 | CANCEL_STREAM_ACK => 0x00D0 | ENCODE_REQ => 0x0020
  | ENCODE_RESP => 0x00A0 | RECALL_REQ => 0x0021 | RECALL_RESP => 0x00A1 | PLAN_REQ => 0x0022
  | PLAN_RESP => 0x00A2 | REASON_REQ => 0x0023 | REASON_RESP => 0x00A3 | FORGET_REQ => 0x0024
  | FORGET_RESP => 0x00A4 | LINK_REQ => 0x0025 | LINK_RESP => 0x00A5 | UNLINK_REQ => 0x0026
  | UNLINK_RESP => 0x00A6 | MEMORY_LIST_REQ => 0x0027 | MEMORY_LIST_RESP => 0x00A7
  | MEMORY_INSPECT_REQ => 0x0028 | MEMORY_INSPECT_RESP => 0x00A8
  | ENCODE_VECTOR_DIRECT_REQ => 0x002A | ENCODE_VECTOR_DIRECT_RESP => 0x00AA
  | SUBSCRIBE_REQ => 0x0030 | SUBSCRIBE_EVENT => 0x00B0 | UNSUBSCRIBE_REQ => 0x0031
  | UNSUBSCRIBE_RESP => 0x00B1 | GET_CAPABILITIES_REQ => 0x0032
  | GET_CAPABILITIES_RESP => 0x00B2 | SPACE_CREATE_REQ => 0x0070 | SPACE_CREATE_RESP => 0x00F0
  | SPACE_LIST_REQ => 0x0071 | SPACE_LIST_RESP => 0x00F1 | SPACE_DELETE_REQ => 0x0072
  | SPACE_DELETE_RESP => 0x00F2 | SESSION_CREATE_REQ => 0x0073 | SESSION_CREATE_RESP => 0x00F3
  | SESSION_LIST_REQ => 0x0074 | SESSION_LIST_RESP => 0x00F4 | SESSION_DELETE_REQ => 0x0075
  | SESSION_DELETE_RESP => 0x00F5 | TXN_BEGIN => 0x0040 | TXN_BEGIN_RESP => 0x00C0
  | TXN_COMMIT => 0x0041 | TXN_COMMIT_RESP => 0x00C1 | TXN_ABORT => 0x0042
  | TXN_ABORT_RESP => 0x00C2 | ERROR => 0x00FF | SCHEMA_UPLOAD_REQ => 0x0120
  | SCHEMA_UPLOAD_RESP => 0x01A0 | SCHEMA_GET_REQ => 0x0121 | SCHEMA_GET_RESP => 0x01A1
  | SCHEMA_LIST_REQ => 0x0122 | SCHEMA_LIST_RESP => 0x01A2 | SCHEMA_VALIDATE_REQ => 0x0123
  | SCHEMA_VALIDATE_RESP => 0x01A3 | SCHEMA_DROP_REQ => 0x0125 | SCHEMA_DROP_RESP => 0x01A5
  | SCHEMA_REPLACE_REQ => 0x0127 | SCHEMA_REPLACE_RESP => 0x01A7 | EXTRACTOR_LIST_REQ => 0x0124
  | EXTRACTOR_LIST_RESP => 0x01A4 | ENTITY_CREATE_REQ => 0x0130 | ENTITY_CREATE_RESP => 0x01B0
  | ENTITY_GET_REQ => 0x0131 | ENTITY_GET_RESP => 0x01B1 | ENTITY_RESOLVE_REQ => 0x0136
  | ENTITY_RESOLVE_RESP => 0x01B6 | ENTITY_LIST_REQ => 0x0137 | ENTITY_LIST_RESP => 0x01B7
  | ENTITY_UPDATE_REQ => 0x0132 | ENTITY_UPDATE_RESP => 0x01B2 | ENTITY_RENAME_REQ => 0x0133
  | ENTITY_RENAME_RESP => 0x01B3 | ENTITY_MERGE_REQ => 0x0134 | ENTITY_MERGE_RESP => 0x01B4
  | ENTITY_UNMERGE_REQ => 0x0135 | ENTITY_UNMERGE_RESP => 0x01B5
  | ENTITY_TOMBSTONE_REQ => 0x0138 | ENTITY_TOMBSTONE_RESP => 0x01B8
  | STATEMENT_CREATE_REQ => 0x0140 | STATEMENT_CREATE_RESP => 0x01C0
  | STATEMENT_GET_REQ => 0x0141 | STATEMENT_GET_RESP => 0x01C1 | STATEMENT_LIST_REQ => 0x0146
  | STATEMENT_LIST_RESP => 0x01C6 | STATEMENT_SUPERSEDE_REQ => 0x0142
  | STATEMENT_SUPERSEDE_RESP => 0x01C2 | STATEMENT_TOMBSTONE_REQ => 0x0143
  | STATEMENT_TOMBSTONE_RESP => 0x01C3 | STATEMENT_RETRACT_REQ => 0x0144
  | STATEMENT_RETRACT_RESP => 0x01C4 | STATEMENT_HISTORY_REQ => 0x0145
  | STATEMENT_HISTORY_RESP => 0x01C5 | RELATION_CREATE_REQ => 0x0150
  | RELATION_CREATE_RESP => 0x01D0 | RELATION_LIST_FROM_REQ => 0x0154
  | RELATION_LIST_FROM_RESP => 0x01D4 | RELATION_LIST_TO_REQ => 0x0155
  | RELATION_LIST_TO_RESP => 0x01D5 | RELATION_GET_REQ => 0x0151 | RELATION_GET_RESP => 0x01D1
  | RELATION_SUPERSEDE_REQ => 0x0152 | RELATION_SUPERSEDE_RESP => 0x01D2
  | RELATION_TOMBSTONE_REQ => 0x0153 | RELATION_TOMBSTONE_RESP => 0x01D3
  | RELATION_TRAVERSE_REQ => 0x0156 | RELATION_TRAVERSE_RESP => 0x01D6
  | QUERY_EXPLAIN_REQ => 0x0161 | QUERY_EXPLAIN_RESP => 0x01E1 | QUERY_TRACE_REQ => 0x0162
  | QUERY_TRACE_RESP => 0x01E2 | GRAPH_FETCH_REQ => 0x0163 | GRAPH_FETCH_RESP => 0x01E3
  | MATERIALIZE_PROCEDURAL_REQ => 0x0164 | MATERIALIZE_PROCEDURAL_RESP => 0x01E4
  end.

Definition all_opcodes : list Opcode :=
  [HELLO; WELCOME; AUTH; AUTH_OK; BYE; PING; PONG; CLIENT_PONG; SERVER_PING; CANCEL_STREAM;
   CANCEL_STREAM_ACK; ENCODE_REQ; ENCODE_RESP; RECALL_REQ; RECALL_RESP; PLAN_REQ; PLAN_RESP;
   REASON_REQ; REASON_RESP; FORGET_REQ; FORGET_RESP; LINK_REQ; LINK_RESP; UNLINK_REQ;
   UNLINK_RESP; MEMORY_LIST_REQ; MEMORY_LIST_RESP; MEMORY_INSPECT_REQ; MEMORY_INSPECT_RESP;
   ENCODE_VECTOR_DIRECT_REQ; ENCODE_VECTOR_DIRECT_RESP; SUBSCRIBE_REQ; SUBSCRIBE_EVENT;
   UNSUBSCRIBE_REQ; UNSUBSCRIBE_RESP; GET_CAPABILITIES_REQ; GET_CAPABILITIES_RESP;
   SPACE_CREATE_REQ; SPACE_CREATE_RESP; SPACE_LIST_REQ; SPACE_LIST_RESP; SPACE_DELETE_REQ;
   SPACE_DELETE_RESP; SESSION_CREATE_REQ; SESSION_CREATE_RESP; SESSION_LIST_REQ;
   SESSION_LIST_RESP; SESSION_DELETE_REQ; SESSION_DELETE_RESP; TXN_BEGIN; TXN_BEGIN_RESP;
   TXN_COMMIT; TXN_COMMIT_RESP; TXN_ABORT; TXN_ABORT_RESP; ERROR; SCHEMA_UPLOAD_REQ;
   SCHEMA_UPLOAD_RESP; SCHEMA_GET_REQ; SCHEMA_GET_RESP; SCHEMA_LIST_REQ; SCHEMA_LIST_RESP;
   SCHEMA_VALIDATE_REQ; SCHEMA_VALIDATE_RESP; SCHEMA_DROP_REQ; SCHEMA_DROP_RESP;
   SCHEMA_REPLACE_REQ; SCHEMA_REPLACE_RESP; EXTRACTOR_LIST_REQ; EXTRACTOR_LIST_RESP;
   ENTITY_CREATE_REQ; ENTITY_CREATE_RESP; ENTITY_GET_REQ; ENTITY_GET_RESP; ENTITY_RESOLVE_REQ;
   ENTITY_RESOLVE_RESP; ENTITY_LIST_REQ; ENTITY_LIST_RESP; ENTITY_UPDATE_REQ;
   ENTITY_UPDATE_RESP; ENTITY_RENAME_REQ; ENTITY_RENAME_RESP; ENTITY_MERGE_REQ;
   ENTITY_MERGE_RESP; ENTITY_UNMERGE_REQ; ENTITY_UNMERGE_RESP; ENTITY_TOMBSTONE_REQ;
   ENTITY_TOMBSTONE_RESP; STATEMENT_CREATE_REQ; STATEMENT_CREATE_RESP; STATEMENT_GET_REQ;
   STATEMENT_GET_RESP; STATEMENT_LIST_REQ; STATEMENT_LIST_RESP; STATEMENT_SUPERSEDE_REQ;
   STATEMENT_SUPERSEDE_RESP; STATEMENT_TOMBSTONE_REQ; STATEMENT_TOMBSTONE_RESP;
   STATEMENT_RETRACT_REQ; STATEMENT_RETRACT_RESP; STATEMENT_HISTORY_REQ;
   STATEMENT_HISTORY_RESP; RELATION_CREATE_REQ; RELATION_CREATE_RESP; RELATION_LIST_FROM_REQ;
   RELATION_LIST_FROM_RESP; RELATION_LIST_TO_REQ; RELATION_LIST_TO_RESP; RELATION_GET_REQ;
   RELATION_GET_RESP; RELATION_SUPERSEDE_REQ; RELATION_SUPERSEDE_RESP; RELATION_TOMBSTONE_REQ;
   RELATION_TOMBSTONE_RESP; RELATION_TRAVERSE_REQ; RELATION_TRAVERSE_RESP; QUERY_EXPLAIN_REQ;
   QUERY_EXPLAIN_RESP; QUERY_TRACE_REQ; QUERY_TRACE_RESP; GRAPH_FETCH_REQ; GRAPH_FETCH_RESP;
   MATERIALIZE_PROCEDURAL_REQ; MATERIALIZE_PROCEDURAL_RESP].

(** The opcode of a value, if there is one. *)
Definition opcode_of_value (v : Z) : option Opcode :=
  find (fun o => opcode_value o =? v) all_opcodes.

(** Bit 7 of the low byte: set on what the server sends. *)
Definition client_bound (o : Opcode) : bool := Z.testbit (opcode_value o) 7.

(** The opcode that answers a request: the value with bit 7 set. *)
Definition response_of (o : Opcode) : option Opcode :=
  if client_bound o then None else opcode_of_value (Z.lor (opcode_value o) 0x80).

Lemma all_opcodes_complete o : o ∈ all_opcodes.
Proof. destruct o; apply list_elem_of_In; vm_compute; tauto. Qed.

(** A decidable fact about opcodes holds when it holds of the listed ones. *)
Lemma opcodes_forall (P : Opcode -> bool) :
  forallb P all_opcodes = true -> forall o, P o = true.
Proof.
  intros H o. rewrite forallb_forall in H. apply H, list_elem_of_In, all_opcodes_complete.
Qed.

Lemma opcode_of_value_value o : opcode_of_value (opcode_value o) = Some o.
Proof. destruct o; reflexivity. Qed.

#[export] Instance Opcode_eq_dec : EqDecision Opcode.
Proof.
  intros o p. destruct (decide (opcode_value o = opcode_value p)) as [E|E].
  - left. pose proof (opcode_of_value_value o). pose proof (opcode_of_value_value p). congruence.
  - right. congruence.
Defined.

(** The opcode space: every opcode is a 16-bit value in the connection or the
    typed-graph name space, no two opcodes share a value, the value determines
    the opcode, and the answer to a request is the request with bit 7 set: every
    request but BYE has one, every answer answers exactly one request, and only
    ERROR answers none. *)
Lemma opcode_space :
  (forall o, 0 <= opcode_value o < 0x200)
  /\ (forall o p, opcode_value o = opcode_value p -> o = p)
  /\ (forall o, opcode_of_value (opcode_value o) = Some o)
  /\ (forall o, client_bound o = false -> o = BYE \/ exists r, response_of o = Some r /\ client_bound r = true)
  /\ (forall r, client_bound r = true -> r = ERROR \/ exists o, response_of o = Some r)
  /\ (forall o p r, response_of o = Some r -> response_of p = Some r -> o = p).
Proof.
  split_and!.
  - intros o. enough (H : (0 <=? opcode_value o) && (opcode_value o <? 0x200) = true) by lia.
    revert o. apply opcodes_forall. by vm_compute.
  - intros o p H. pose proof (opcode_of_value_value o). pose proof (opcode_of_value_value p).
    congruence.
  - apply opcode_of_value_value.
  - intros o H.
    assert (E : client_bound o || bool_decide (o = BYE)
                || match response_of o with Some r => client_bound r | None => false end = true).
    { clear H. revert o. apply opcodes_forall. by vm_compute. }
    rewrite H in E. cbn [orb] in E. apply orb_true_iff in E as [E%bool_decide_eq_true | E];
      [by left|right]. destruct (response_of o) as [r|]; [by exists r|done].
  - intros r H.
    assert (E : negb (client_bound r) || bool_decide (r = ERROR)
                || existsb (fun o => bool_decide (response_of o = Some r)) all_opcodes = true).
    { clear H. revert r. apply opcodes_forall. by vm_compute. }
    rewrite H in E. cbn [orb negb] in E. apply orb_true_iff in E as [E%bool_decide_eq_true | E];
      [by left|right]. apply existsb_exists in E as (o & _ & E%bool_decide_eq_true). by exists o.
  - intros o p r Ho Hp.
    assert (E : forallb (fun p => negb (bool_decide (response_of o = response_of p))
                  || bool_decide (o = p) || bool_decide (response_of o = None)) all_opcodes = true).
    { clear Ho. revert o. apply opcodes_forall. by vm_compute. }
    rewrite forallb_forall in E.
    specialize (E p (proj1 (list_elem_of_In _ _) (all_opcodes_complete p))).
    rewrite Ho, Hp in E. rewrite (bool_decide_eq_true_2 _ (eq_refl (Some r))) in E.
    cbn [orb negb] in E. apply orb_true_iff in E as [E%bool_decide_eq_true | E%bool_decide_eq_true];
      [done|discriminate].
Qed.
