(* ===== verification/WireEnums.v ===== *)
(** * WireEnums

    The constant classes of [wire/types.py]: each enumeration with the
    discriminant it has on the wire, an integer or a variant name. *)

From S2P Require Import Prelude.

Inductive MemoryKind : Set := | MemoryKind_EPISODIC | MemoryKind_SEMANTIC
  | MemoryKind_CONSOLIDATED.
Definition MemoryKind_value (e : MemoryKind) : Z :=
  match e with
  | MemoryKind_EPISODIC => 0 | MemoryKind_SEMANTIC => 1 | MemoryKind_CONSOLIDATED => 2
  end.

Inductive EdgeKind : Set := | EdgeKind_CAUSED | EdgeKind_FOLLOWED_BY | EdgeKind_DERIVED_FROM
  | EdgeKind_SIMILAR_TO | EdgeKind_CONTRADICTS | EdgeKind_SUPPORTS | EdgeKind_REFERENCES
  | EdgeKind_PART_OF.
Definition EdgeKind_value (e : EdgeKind) : Z :=
  match e with
  | EdgeKind_CAUSED => 0 | EdgeKind_FOLLOWED_BY => 1 | EdgeKind_DERIVED_FROM => 2
  | EdgeKind_SIMILAR_TO => 3 | EdgeKind_CONTRADICTS => 4 | EdgeKind_SUPPORTS => 5
  | EdgeKind_REFERENCES => 6 | EdgeKind_PART_OF => 7
  end.

Inductive ForgetMode : Set := | ForgetMode_SOFT | ForgetMode_HARD.
Definition ForgetMode_value (e : ForgetMode) : Z :=
  match e with
  | ForgetMode_SOFT => 0 | ForgetMode_HARD => 1
  end.

Inductive StageKind : Set := | StageKind_AUTO_EDGE | StageKind_TEMPORAL_EDGE | StageKind_EXTRACTOR
  | StageKind_HYPE.
Definition StageKind_value (e : StageKind) : Z :=
  match e with
  | StageKind_AUTO_EDGE => 0 | StageKind_TEMPORAL_EDGE => 1 | StageKind_EXTRACTOR => 2
  | StageKind_HYPE => 3
  end.

Inductive WaitMode : Set := | WaitMode_ACK | WaitMode_DERIVED.
Definition WaitMode_value (e : WaitMode) : Z :=
  match e with
  | WaitMode_ACK => 0 | WaitMode_DERIVED => 1
  end.

Inductive AuthMethod : Set := | AuthMethod_TOKEN | AuthMethod_MTLS.
Definition AuthMethod_value (e : AuthMethod) : Z :=
  match e with
  | AuthMethod_TOKEN => 0 | AuthMethod_MTLS => 1
  end.

Inductive RetrieverName : Set := | RetrieverName_SEMANTIC | RetrieverName_LEXICAL
  | RetrieverName_GRAPH.
Definition RetrieverName_value (e : RetrieverName) : Z :=
  match e with
  | RetrieverName_SEMANTIC => 0 | RetrieverName_LEXICAL => 1 | RetrieverName_GRAPH => 2
  end.

Inductive Retriever : Set := | Retriever_SEMANTIC | Retriever_LEXICAL | Retriever_GRAPH.
Definition Retriever_value (e : Retriever) : string :=
  match e with
  | Retriever_SEMANTIC => "Semantic" | Retriever_LEXICAL => "Lexical" | Retriever_GRAPH => "Graph"
  end.

Inductive ErrorCategory : Set := | ErrorCategory_PROTOCOL | ErrorCategory_AUTHENTICATION
  | ErrorCategory_AUTHORIZATION | ErrorCategory_VALIDATION | ErrorCategory_NOT_FOUND
  | ErrorCategory_CONFLICT | ErrorCategory_RESOURCE_EXHAUSTED | ErrorCategory_INTERNAL
  | ErrorCategory_UNAVAILABLE.
Definition ErrorCategory_value (e : ErrorCategory) : Z :=
  match e with
  | ErrorCategory_PROTOCOL => 0 | ErrorCategory_AUTHENTICATION => 1
  | ErrorCategory_AUTHORIZATION => 2 | ErrorCategory_VALIDATION => 3
  | ErrorCategory_NOT_FOUND => 4 | ErrorCategory_CONFLICT => 5
  | ErrorCategory_RESOURCE_EXHAUSTED => 6 | ErrorCategory_INTERNAL => 7
  | ErrorCategory_UNAVAILABLE => 8
  end.

Inductive ErrorCode : Set := | ErrorCode_PERMISSION_DENIED | ErrorCode_ADMIN_PERMISSION_REQUIRED
  | ErrorCode_WRONG_SHARD | ErrorCode_ACT_AS_DENIED | ErrorCode_LLM_CREDENTIAL_MISSING
  | ErrorCode_LLM_CREDENTIAL_UNAVAILABLE.
Definition ErrorCode_value (e : ErrorCode) : Z :=
  match e with
  | ErrorCode_PERMISSION_DENIED => 48 | ErrorCode_ADMIN_PERMISSION_REQUIRED => 49
  | ErrorCode_WRONG_SHARD => 50 | ErrorCode_ACT_AS_DENIED => 51
  | ErrorCode_LLM_CREDENTIAL_MISSING => 102 | ErrorCode_LLM_CREDENTIAL_UNAVAILABLE => 149
  end.

Inductive EncodeTraceStageStatus : Set := | EncodeTraceStageStatus_OK
  | EncodeTraceStageStatus_SKIPPED | EncodeTraceStageStatus_FAILED
  | EncodeTraceStageStatus_TIMEOUT.
Definition EncodeTraceStageStatus_value (e : EncodeTraceStageStatus) : Z :=
  match e with
  | EncodeTraceStageStatus_OK => 0 | EncodeTraceStageStatus_SKIPPED => 1
  | EncodeTraceStageStatus_FAILED => 2 | EncodeTraceStageStatus_TIMEOUT => 3
  end.

Inductive EdgeDirectionWire : Set := | EdgeDirectionWire_OUTGOING | EdgeDirectionWire_INCOMING.
Definition EdgeDirectionWire_value (e : EdgeDirectionWire) : Z :=
  match e with
  | EdgeDirectionWire_OUTGOING => 0 | EdgeDirectionWire_INCOMING => 1
  end.

Inductive AnswerKind : Set := | AnswerKind_SINGLE | AnswerKind_MANY | AnswerKind_NONE.
Definition AnswerKind_value (e : AnswerKind) : string :=
  match e with
  | AnswerKind_SINGLE => "Single" | AnswerKind_MANY => "Many" | AnswerKind_NONE => "None"
  end.

Inductive RecallScope : Set := | RecallScope_SPACE | RecallScope_NAMESPACE.
Definition RecallScope_value (e : RecallScope) : string :=
  match e with
  | RecallScope_SPACE => "Space" | RecallScope_NAMESPACE => "Namespace"
  end.

Inductive RecallTraceRetrieverStatus : Set := | RecallTraceRetrieverStatus_SUCCESS
  | RecallTraceRetrieverStatus_SKIPPED | RecallTraceRetrieverStatus_TIMEOUT
  | RecallTraceRetrieverStatus_FAILURE.
Definition RecallTraceRetrieverStatus_value (e : RecallTraceRetrieverStatus) : Z :=
  match e with
  | RecallTraceRetrieverStatus_SUCCESS => 0 | RecallTraceRetrieverStatus_SKIPPED => 1
  | RecallTraceRetrieverStatus_TIMEOUT => 2 | RecallTraceRetrieverStatus_FAILURE => 3
  end.

Inductive RankedItemKindWire : Set := | RankedItemKindWire_MEMORY | RankedItemKindWire_STATEMENT
  | RankedItemKindWire_ENTITY | RankedItemKindWire_RELATION.
Definition RankedItemKindWire_value (e : RankedItemKindWire) : Z :=
  match e with
  | RankedItemKindWire_MEMORY => 0 | RankedItemKindWire_STATEMENT => 1
  | RankedItemKindWire_ENTITY => 2 | RankedItemKindWire_RELATION => 3
  end.

Inductive MemoryListSort : Set := | MemoryListSort_CREATED | MemoryListSort_SALIENCE
  | MemoryListSort_OCCURRED | MemoryListSort_LAST_ACCESSED.
Definition MemoryListSort_value (e : MemoryListSort) : Z :=
  match e with
  | MemoryListSort_CREATED => 0 | MemoryListSort_SALIENCE => 1 | MemoryListSort_OCCURRED => 2
  | MemoryListSort_LAST_ACCESSED => 3
  end.

Inductive MemoryListDir : Set := | MemoryListDir_ASC | MemoryListDir_DESC.
Definition MemoryListDir_value (e : MemoryListDir) : Z :=
  match e with
  | MemoryListDir_ASC => 0 | MemoryListDir_DESC => 1
  end.

Inductive MemoryListTimeAxis : Set := | MemoryListTimeAxis_CREATED | MemoryListTimeAxis_OCCURRED.
Definition MemoryListTimeAxis_value (e : MemoryListTimeAxis) : Z :=
  match e with
  | MemoryListTimeAxis_CREATED => 0 | MemoryListTimeAxis_OCCURRED => 1
  end.

Inductive PlanStrategy : Set := | PlanStrategy_AUTO | PlanStrategy_A_STAR | PlanStrategy_MCTS
  | PlanStrategy_ATTRACTOR_ROLLOUT.
Definition PlanStrategy_value (e : PlanStrategy) : Z :=
  match e with
  | PlanStrategy_AUTO => 0 | PlanStrategy_A_STAR => 1 | PlanStrategy_MCTS => 2
  | PlanStrategy_ATTRACTOR_ROLLOUT => 3
  end.

Inductive PlanStatus : Set := | PlanStatus_GOAL_REACHED | PlanStatus_BUDGET_EXHAUSTED
  | PlanStatus_NO_PATH_FOUND | PlanStatus_CANCELLED.
Definition PlanStatus_value (e : PlanStatus) : Z :=
  match e with
  | PlanStatus_GOAL_REACHED => 0 | PlanStatus_BUDGET_EXHAUSTED => 1
  | PlanStatus_NO_PATH_FOUND => 2 | PlanStatus_CANCELLED => 3
  end.

Inductive PlanTraceDirection : Set := | PlanTraceDirection_FORWARD | PlanTraceDirection_BACKWARD.
Definition PlanTraceDirection_value (e : PlanTraceDirection) : Z :=
  match e with
  | PlanTraceDirection_FORWARD => 0 | PlanTraceDirection_BACKWARD => 1
  end.

Inductive ReasonStatus : Set := | ReasonStatus_COMPLETE | ReasonStatus_BUDGET_EXHAUSTED
  | ReasonStatus_DEPTH_LIMIT_REACHED | ReasonStatus_CANCELLED.
Definition ReasonStatus_value (e : ReasonStatus) : Z :=
  match e with
  | ReasonStatus_COMPLETE => 0 | ReasonStatus_BUDGET_EXHAUSTED => 1
  | ReasonStatus_DEPTH_LIMIT_REACHED => 2 | ReasonStatus_CANCELLED => 3
  end.

Inductive EventType : Set := | EventType_ENCODED | EventType_FORGOTTEN | EventType_RECLAIMED
  | EventType_KIND_CHANGED | EventType_ENTITY_CREATED | EventType_ENTITY_UPDATED
  | EventType_ENTITY_RENAMED | EventType_ENTITY_MERGED | EventType_ENTITY_UNMERGED
  | EventType_ENTITY_TOMBSTONED | EventType_STATEMENT_CREATED | EventType_STATEMENT_SUPERSEDED
  | EventType_STATEMENT_TOMBSTONED | EventType_RELATION_CREATED | EventType_RELATION_SUPERSEDED
  | EventType_STAGE_COMPLETED | EventType_SCHEMA_UPDATED | EventType_RELATION_TOMBSTONED
  | EventType_EDGE_ADDED | EventType_EDGE_REMOVED | EventType_EDGE_SUPERSEDED.
Definition EventType_value (e : EventType) : Z :=
  match e with
  | EventType_ENCODED => 0 | EventType_FORGOTTEN => 1 | EventType_RECLAIMED => 2
  | EventType_KIND_CHANGED => 3 | EventType_ENTITY_CREATED => 16 | EventType_ENTITY_UPDATED => 17
  | EventType_ENTITY_RENAMED => 18 | EventType_ENTITY_MERGED => 19
  | EventType_ENTITY_UNMERGED => 20 | EventType_ENTITY_TOMBSTONED => 21
  | EventType_STATEMENT_CREATED => 22 | EventType_STATEMENT_SUPERSEDED => 23
  | EventType_STATEMENT_TOMBSTONED => 24 | EventType_RELATION_CREATED => 25
  | EventType_RELATION_SUPERSEDED => 26 | EventType_STAGE_COMPLETED => 27
  | EventType_SCHEMA_UPDATED => 29 | EventType_RELATION_TOMBSTONED => 30
  | EventType_EDGE_ADDED => 31 | EventType_EDGE_REMOVED => 32 | EventType_EDGE_SUPERSEDED => 33
  end.

Inductive StageOutcome : Set := | StageOutcome_OK | StageOutcome_EMPTY | StageOutcome_FAILED.
Definition StageOutcome_value (e : StageOutcome) : Z :=
  match e with
  | StageOutcome_OK => 0 | StageOutcome_EMPTY => 1 | StageOutcome_FAILED => 2
  end.

Inductive StageAuditStatus : Set := | StageAuditStatus_SUCCEEDED
  | StageAuditStatus_PARTIALLY_APPLIED | StageAuditStatus_FAILED | StageAuditStatus_SKIPPED.
Definition StageAuditStatus_value (e : StageAuditStatus) : Z :=
  match e with
  | StageAuditStatus_SUCCEEDED => 0 | StageAuditStatus_PARTIALLY_APPLIED => 1
  | StageAuditStatus_FAILED => 2 | StageAuditStatus_SKIPPED => 3
  end.

Inductive ResolutionOutcome : Set := | ResolutionOutcome_RESOLVED | ResolutionOutcome_CREATED
  | ResolutionOutcome_AMBIGUOUS | ResolutionOutcome_NOT_FOUND.
Definition ResolutionOutcome_value (e : ResolutionOutcome) : Z :=
  match e with
  | ResolutionOutcome_RESOLVED => 1 | ResolutionOutcome_CREATED => 2
  | ResolutionOutcome_AMBIGUOUS => 3 | ResolutionOutcome_NOT_FOUND => 4
  end.

Abbreviation WaitMode_ACK_wire := (WaitMode_value WaitMode_ACK).
Abbreviation RecallScope_SPACE_wire := (RecallScope_value RecallScope_SPACE).
