(* ===== verification/WireCodec.v ===== *)
(** * WireCodec

    The seam of [wire/types.py] between payload dataclasses and wire bytes:
    [_as_map], [encode_payload], [decode_payload]; the interface every payload
    class implements ([WirePayload], with its law [WireLaws]); and the field
    encoders and decoders the classes are built from, with what each of them
    promises. The client proofs use the interface only. *)

From S2P Require Import Prelude PyFloat PyValue Rfc8949 Cbor CborScan CborCodec.

(** ** Field encoders and decoders *)

(** [[f(x) for x in xs]] over typed elements, as a value. *)
Definition to_list {A} (f : A -> pyresult pyval) (xs : list A) : pyresult pyval :=
  let* l := map_result f xs in Ok (PList l).

(** [[g(x) for x in v]]. *)
Definition from_list {A} (g : pyval -> pyresult A) (v : pyval) : pyresult (list A) :=
  let* l := py_iter v in map_result g l.

(** [None if o is None else f(o)] on a typed optional field. *)
Definition to_option {A} (f : A -> pyresult pyval) (o : option A) : pyresult pyval :=
  match o with None => Ok PNone | Some x => f x end.

(** [None if v is None else g(v)]. *)
Definition from_option {A} (g : pyval -> pyresult A) (v : pyval) : pyresult (option A) :=
  if is_none v then Ok None else let* x := g v in Ok (Some x).

(** [None if v is None else f(v)] on an untyped field. *)
Definition none_or (f : pyval -> pyresult pyval) (v : pyval) : pyresult pyval :=
  if is_none v then Ok PNone else f v.

(** [if c: m[k] = ...]: entries added under a condition. *)
Definition when (c : bool) (es : list entry) : list entry := if c then es else [].

(** [if o is not None: m[k] = f(o)]. *)
Definition emit_some {A} (k : string) (f : A -> pyresult pyval) (o : option A) : list entry :=
  match o with None => [] | Some x => [k ::= f x] end.

(** One element of a [bytes(iterable)] call. *)
Definition byte_elem (v : pyval) : pyresult byte :=
  match v with
  | PInt z => if (0 <=? z) && (z <? 256) then Ok (Z_to_byte z) else Raise ValueError
  | PBool b => Ok (Z_to_byte (bool_to_Z b))
  | _ => Raise TypeError
  end.

(** [bytes(v)]: a copy, the bytes of an iterable of small integers, or as many
    zero bytes as an integer says. *)
Definition py_bytes (v : pyval) : pyresult pyval :=
  match v with
  | PBytes bs => Ok (PBytes bs)
  | PInt z => if z <? 0 then Raise ValueError else Ok (PBytes (repeat x00 (Z.to_nat z)))
  | PBool b => Ok (PBytes (repeat x00 (Z.to_nat (bool_to_Z b))))
  | PList l => let* bs := map_result byte_elem l in Ok (PBytes bs)
  | PDict d => let* bs := map_result byte_elem (map fst d) in Ok (PBytes bs)
  | _ => Raise TypeError
  end.

(** [PInt] and [PBool] around [int(v)] and [bool(v)]. *)
Definition to_int (v : pyval) : pyresult pyval := let* z := py_int v in Ok (PInt z).
Definition to_bool (v : pyval) : pyresult pyval := Ok (PBool (py_bool v)).
Definition to_float (v : pyval) : pyresult pyval := let* f := py_float v in Ok (PFloat f).

(** [{k: v}] with a computed key: a list or a dict is not hashable. *)
Definition py_single (k v : pyval) : pyresult pyval :=
  match k with
  | PList _ | PDict _ => Raise TypeError
  | _ => Ok (PDict [(k, v)])
  end.

(** [((k, v),) = d.items()]. *)
Definition py_single_item (d : pyval) : pyresult (pyval * pyval) :=
  match d with
  | PDict [kv] => Ok kv
  | PDict _ => Raise ValueError
  | _ => Raise AttributeError
  end.

(** [isinstance(v, dict)], [isinstance(v, list)], [isinstance(v, str)] and
    [isinstance(v, (bytes, list))]. *)
Definition is_dict (v : pyval) : bool := match v with PDict _ => true | _ => false end.
Definition is_list (v : pyval) : bool := match v with PList _ => true | _ => false end.
Definition is_bytes (v : pyval) : bool := match v with PBytes _ => true | _ => false end.

(** [str(v)]: the identity on strings; what it prints of other values is left
    to the interpreter. *)
Class PyStr : Type := { str_of_object : pyval -> string }.
Definition py_str `{PyStr} (v : pyval) : pyval :=
  match v with PStr s => PStr s | _ => PStr (str_of_object v) end.

(** ** The payload interface *)

(** [to_map], [from_map] and, for the one class that has it, the embedding that
    rides behind the map: how to read it and how to put it back. *)
Class WirePayload (T : Type) : Type := {
  to_map : T -> pyresult pyval;
  from_map : pyval -> pyresult T;
  vector_section : option ((T -> list pyval) * (T -> list pyval -> T))
}.

(** Encoding and decoding agree on [x]; the encoding is never [None]. *)
Definition wire_ok {T} (to : T -> pyresult pyval) (from : pyval -> pyresult T) (x : T) : Prop :=
  exists m, to x = Ok m /\ is_none m = false /\ from (unmark m) = Ok x.

(** The elements of an embedding: single-precision floats. *)
Definition vector_ok (values : list pyval) : Prop :=
  Forall (fun x => exists f, x = PFloat f /\ float_in single f = true) values.

(** What a payload class promises the codec on its well-formed values. *)
Class WireLaws (T : Type) `{WirePayload T} : Type := {
  wire_wf : T -> Prop;
  to_map_dict : forall x m, to_map x = Ok m -> is_dict m = true;
  wire_round_trip : forall x, wire_wf x ->
    exists m, to_map x = Ok m /\
    match vector_section with
    | None => from_map (unmark m) = Ok x
    | Some (vector, set_vector) =>
        vector_ok (vector x)
        /\ exists y, from_map (unmark m) = Ok y /\ set_vector y (vector x) = x
    end
}.

(** [_as_map]. *)
Definition as_map (value : pyval) : result cbor_error pyval :=
  if is_dict value then Ok value else Raise (CborPy TypeError).

Section Seam.
Context `{Cbor2} {T : Type} `{WirePayload T}.

(** [encode_payload]. *)
Definition encode_payload (value : T) : pyresult bytes :=
  let* m := to_map value in
  let* cbor := to_cbor m in
  match vector_section with
  | Some (vector, _) =>
      let* raw := f32_list_to_le_bytes (vector value) in Ok (cbor ++ raw)
  | None => Ok cbor
  end.

(** [decode_payload]. *)
Definition decode_payload (data : bytes) : result cbor_error T :=
  match vector_section with
  | Some (_, set_vector) =>
      let* '(raw, consumed) := from_cbor_prefix data in
      let* m := as_map raw in
      let* vec := lift_error CborPy (from_map m) in
      let* vector := le_bytes_to_f32_list (drop (Z.to_nat consumed) data) in
      Ok (set_vector vec vector)
  | None =>
      let* raw := from_cbor data in
      let* m := as_map raw in
      lift_error CborPy (from_map m)
  end.
End Seam.

(** ** The seam is lossless *)

(** A well-formed payload renders as a map, and when CBOR can carry the map,
    decoding the encoded payload gives it back. *)
Definition lossless `{Cbor2} (T : Type) `{WireLaws T} : Prop :=
  forall x : T, wire_wf x ->
  exists m, to_map x = Ok m /\
    (encodable m = true ->
     exists bs, encode_payload x = Ok bs /\ decode_payload bs = Ok x).

Lemma is_dict_unmark v : is_dict (unmark v) = is_dict v.
Proof. by destruct v. Qed.

Lemma vector_bytes_ok values :
  vector_ok values ->
  exists bs, f32_list_to_le_bytes values = Ok bs /\ le_bytes_to_f32_list bs = Ok values.
Proof.
  intros Hv.
  assert (Hb : exists parts, map_result (fun x =>
      let* f := struct_float_arg x in let* b := struct_pack single f in Ok (rev b)) values = Ok parts).
  { apply map_result_total. intros x Hx. unfold vector_ok in Hv; rewrite Forall_forall in Hv.
    destruct (Hv x Hx) as (f & -> & Hf). simpl. rewrite struct_pack_exact by done. simpl. eauto. }
  destruct Hb as [parts Hb]. exists (concat parts).
  assert (E : f32_list_to_le_bytes values = Ok (concat parts))
    by (unfold f32_list_to_le_bytes; by rewrite Hb).
  split; [done|]. apply vector_bytes_back in E as (Hlen & vs & Hvs & Hback).
  - unfold le_bytes_to_f32_list. rewrite Hlen, Z.mul_comm, Z.mod_mul by lia. simpl.
    rewrite Hback. simpl. f_equal. clear -Hv Hvs. revert vs Hvs.
    induction Hv as [|x l (f & -> & Hf) Hv IH]; intros vs Hvs; [by injection Hvs|].
    unfold vector_f32 in Hvs. cbn [map_result struct_float_arg bind] in Hvs.
    rewrite (round_to_exact single f Hf) in Hvs. cbn [bind] in Hvs.
    apply bind_ok_inv in Hvs as (ws & Hws & [= <-]). f_equal. by apply IH.
  - intros x f Hx Ef. unfold vector_ok in Hv; rewrite Forall_forall in Hv. destruct (Hv x Hx) as (g & -> & Hg).
    injection Ef as <-. destruct g as [| | |s m e]; [done..|]. cbn [float_in] in *.
    rewrite in_fmt_iff in *. unfold single, double in *. cbn [fmt_prec fmt_emin fmt_emax] in *.
    change (2 ^ 24) with 16777216 in Hg. change (2 ^ 53) with 9007199254740992. intuition lia.
Qed.

Lemma lossless_intro `{HC : Cbor2Conforms} (T : Type) `{WireLaws T} : lossless T.
Proof.
  intros x Hx. destruct (wire_round_trip x Hx) as (m & Em & Hrt). exists m. split; [done|].
  intros Henc. destruct (codec_round_trip m Henc) as (cbor & Ec & Hp).
  assert (Ha : as_map (unmark m) = Ok (unmark m)).
  { unfold as_map. by rewrite is_dict_unmark, (to_map_dict x m Em). }
  unfold encode_payload, decode_payload. rewrite Em. cbn [bind]. rewrite Ec. cbn [bind].
  destruct vector_section as [[vector set_vector]|].
  - destruct Hrt as (Hv & y & Hy & Hset). destruct (vector_bytes_ok _ Hv) as (raw & -> & Hraw).
    exists (cbor ++ raw). split; [done|]. rewrite Hp. cbn [bind]. rewrite Ha. cbn [bind].
    rewrite Hy. cbn [lift_error bind]. unfold zlen. rewrite Nat2Z.id, drop_app_length, Hraw.
    cbn [bind]. by rewrite Hset.
  - exists cbor. split; [done|]. unfold from_cbor. specialize (Hp []).
    rewrite app_nil_r in Hp. rewrite Hp. cbn [bind]. rewrite Z.eqb_refl. cbn [negb bind].
    rewrite Ha. cbn [bind]. by rewrite Hrt.
Qed.

(** ** What the field encoders promise *)

(** Well-formed fields: passed through; a list; a byte string; an integer; a
    boolean; a single or double precision float; any of these or [None]. *)
Definition raw_ok (v : pyval) : Prop := plain v = true.
Definition list_ok (v : pyval) : Prop := is_list v = true /\ plain v = true.
Definition bytes_ok (v : pyval) : Prop := is_bytes v = true.
Definition int_ok (v : pyval) : Prop := exists z, v = PInt z.
Definition bool_ok (v : pyval) : Prop := exists b, v = PBool b.
Definition f32_ok (v : pyval) : Prop := exists f, v = PFloat f /\ float_in single f = true.
Definition f64_ok (v : pyval) : Prop := exists f, v = PFloat f /\ float_in double f = true.
Definition none_or_ok (P : pyval -> Prop) (v : pyval) : Prop := v = PNone \/ P v.
Definition option_ok {A} (P : A -> Prop) (o : option A) : Prop :=
  match o with None => True | Some x => P x end.

Definition nonempty {A} (l : list A) : bool := match l with [] => false | _ => true end.

Lemma list_ok_list v : list_ok v -> py_list v = Ok v /\ unmark v = v.
Proof. intros [H1 H2]. split; [by destruct v|]. by apply unmark_plain. Qed.

Lemma list_ok_falsy v : list_ok v -> py_bool v = false -> v = PList [].
Proof. intros [H _]. by destruct v as [| | | | | |[]| |]. Qed.

Lemma int_ok_int v : int_ok v -> to_int v = Ok v /\ unmark v = v.
Proof. by intros [z ->]. Qed.

Lemma int_ok_falsy v : int_ok v -> py_bool v = false -> v = PInt 0.
Proof. intros [z ->] H. simpl in H. by apply negb_false_iff, Z.eqb_eq in H as ->. Qed.

Lemma int_ok_eq v z : int_ok v -> negb (py_eq_int v z) = false -> v = PInt z.
Proof. intros [y ->] H. simpl in H. by apply negb_false_iff, Z.eqb_eq in H as ->. Qed.

Lemma bool_ok_bool v : bool_ok v -> to_bool v = Ok v /\ unmark v = v.
Proof. by intros [b ->]. Qed.

Lemma bool_ok_falsy v : bool_ok v -> py_bool v = false -> v = PBool false.
Proof. by intros [[] ->]. Qed.

Lemma is_none_true v : negb (is_none v) = false -> v = PNone.
Proof. by destruct v. Qed.

Lemma round_f32_single f :
  float_in single f = true -> round_f32 (PFloat f) = Ok (PFloatField F32 f).
Proof.
  intros Hf. unfold round_f32. cbn [struct_float_arg bind]. unfold struct_pack.
  rewrite round_to_exact by done. cbn [bind]. unfold struct_unpack.
  rewrite decide_True by apply length_be_bytes. cbn [bind].
  pose proof (float_bits_range single f single_wf Hf).
  rewrite from_be_bytes, Z.mod_small by done.
  by rewrite float_of_float_bits by auto with brain.
Qed.

Lemma f32_ok_round v : f32_ok v -> exists w, round_f32 v = Ok w /\ unmark w = v.
Proof. intros (f & -> & Hf). exists (PFloatField F32 f). by rewrite round_f32_single. Qed.

Lemma f64_ok_mark v : f64_ok v -> exists w, mark_f64 v = Ok w /\ unmark w = v.
Proof. intros (f & -> & Hf). by exists (PFloatField F64 f). Qed.

Lemma none_or_list_ok v : none_or_ok list_ok v -> none_or py_list v = Ok v /\ unmark v = v.
Proof.
  intros [->|H]; [done|]. destruct (list_ok_list v H) as [E ->]. split; [|done].
  destruct H as [H _]. by destruct v.
Qed.

Lemma none_or_f32_ok v :
  none_or_ok f32_ok v -> exists w, none_or round_f32 v = Ok w /\ unmark w = v.
Proof.
  intros [->|H]; [by exists PNone|]. destruct (f32_ok_round v H) as (w & E & U).
  exists w. split; [|done]. destruct H as (f & -> & _). done.
Qed.

(** The classes a field can nest: well-formed values of the class survive. *)
Class Nested {A} (P : A -> Prop) (to : A -> pyresult pyval) (from : pyval -> pyresult A) : Prop :=
  nested_ok : forall x, P x -> wire_ok to from x.

#[export] Instance nested_f32 : Nested f32_ok round_f32 to_float.
Proof. intros v (f & -> & Hf). exists (PFloatField F32 f). by rewrite round_f32_single. Qed.

Lemma byte_elems bs :
  map_result byte_elem (map unmark (map (fun b => PInt (byte_to_Z b)) bs)) = Ok bs.
Proof.
  induction bs as [|b bs IH]; [done|]. cbn [map unmark map_result byte_elem].
  pose proof (byte_to_Z_range b).
  rewrite (proj2 (Z.leb_le _ _)), (proj2 (Z.ltb_lt _ _)) by lia. cbn [andb bind].
  by rewrite Z_to_byte_to_Z, IH.
Qed.

#[export] Instance nested_bytes : Nested bytes_ok py_list py_bytes.
Proof.
  intros v H. destruct v as [| | | | |bs| | |]; try discriminate H.
  eexists. split; [reflexivity|]. split; [done|]. cbn [unmark py_bytes].
  by rewrite byte_elems.
Qed.

Lemma from_option_some {A} (from : pyval -> pyresult A) v x :
  is_none v = false -> from v = Ok x -> from_option from v = Ok (Some x).
Proof. intros Hn E. unfold from_option. by rewrite Hn, E. Qed.

Section NestedFields.
Context {A} {P : A -> Prop} {to from} {HN : Nested P to from}.

Lemma nested_some x : P x ->
  exists w, to x = Ok w /\ from_option from (unmark w) = Ok (Some x).
Proof.
  intros H. destruct (nested_ok x H) as (w & E & Hn & D). exists w. split; [done|].
  apply from_option_some; [|done]. by destruct w.
Qed.

Lemma nested_plain x : P x -> exists w, to x = Ok w /\ from (unmark w) = Ok x.
Proof. intros H. destruct (nested_ok x H) as (w & E & Hn & D). eauto. Qed.

Lemma nested_option o : option_ok P o ->
  exists w, to_option to o = Ok w /\ from_option from (unmark w) = Ok o.
Proof.
  destruct o as [x|]; [|by exists PNone]. apply nested_some.
Qed.

Lemma nested_list l : Forall P l ->
  exists w, to_list to l = Ok w /\ from_list from (unmark w) = Ok l.
Proof.
  intros H. unfold to_list, from_list.
  enough (exists ms, map_result to l = Ok ms /\ map_result from (map unmark ms) = Ok l)
    as (ms & E & D) by (exists (PList ms); by rewrite E).
  induction H as [|x l Hx H (ms & E & D)]; [by exists []|].
  destruct (nested_plain x Hx) as (w & Ew & Dw). exists (w :: ms). simpl.
  by rewrite Ew, E, Dw, D.
Qed.

Lemma nested_none_or_list o : option_ok (Forall P) o ->
  exists w, to_option (to_list to) o = Ok w /\ from_option (from_list from) (unmark w) = Ok o.
Proof.
  destruct o as [l|]; [|by exists PNone]. intros H. destruct (nested_list l H) as (w & E & D).
  exists w. split; [done|]. apply from_option_some; [|done].
  simpl in E. unfold to_list in E. destruct (map_result to l); [|done]. by injection E as <-.
Qed.
End NestedFields.

(** ** Payload classes that are maps *)

Lemma py_dict_is_dict es m : py_dict es = Ok m -> is_dict m = true.
Proof. unfold py_dict. by intros (kvs & _ & [= <-])%bind_ok_inv. Qed.

(** A payload class without a trailing section. *)
Definition map_payload {T} (to : T -> pyresult pyval) (from : pyval -> pyresult T) : WirePayload T :=
  {| to_map := to; from_map := from; vector_section := None |}.

Section MapLaws.
Context {T : Type} (P : T -> Prop) to from {HN : Nested P to from}.
Context (Hdict : forall x m, to x = Ok m -> is_dict m = true).

Lemma map_round_trip x : P x -> exists m, to x = Ok m /\ from (unmark m) = Ok x.
Proof. apply nested_plain. Qed.

Definition map_laws : @WireLaws T (map_payload to from) :=
  {| wire_wf := P : T -> Prop; to_map_dict := Hdict : forall x m, @to_map T (map_payload to from) x = Ok m -> _;
     wire_round_trip := map_round_trip |}.
End MapLaws.

(** ** Automation *)

Lemma getitem_unmark d k :
  py_getitem (unmark (PDict d)) k
  = match dict_get d k with Some v => Ok (unmark v) | None => Raise (KeyError k) end.
Proof. cbn [unmark py_getitem]. rewrite dict_get_unmark. by destruct (dict_get d k). Qed.

Lemma get_unmark d k default :
  py_get (unmark (PDict d)) k default
  = match dict_get d k with Some v => Ok (unmark v) | None => Ok default end.
Proof. cbn [unmark py_get]. rewrite dict_get_unmark. by destruct (dict_get d k). Qed.


(** Reduce the projections of a destructed record and nothing else. *)
Ltac wire_fields :=
  with_strategy opaque [py_dict py_getitem py_get py_list bind when emit_some mk_entry to_list from_list to_option from_option none_or round_f32 mark_f64 py_bool py_eq_int] cbn.

(** Write out the entries of a payload map, and look keys up in it. *)
Ltac wire_entries := cbv beta iota delta [app map_result bind when emit_some py_dict mk_entry].
Ltac wire_lookups :=
  rewrite ?getitem_unmark, ?get_unmark; cbv beta iota delta [dict_get String.eqb Ascii.eqb Bool.eqb bind].

Lemma single_item_unmark k w :
  py_single_item (unmark (PDict [(PStr k, w)])) = Ok (PStr k, unmark w).
Proof. done. Qed.

(** Evaluate the encoder or the decoder of a tagged union. *)
Ltac wire_eval := repeat (progress (wire_fields; unfold bind, py_dict, mk_entry, py_getitem)).

(** Use one field's well-formedness. *)
Ltac wire_field :=
  match goal with
  | H : raw_ok ?f |- _ => apply (unmark_plain f) in H
  | H : list_ok ?f |- _ => let E := fresh "E" in
      destruct (list_ok_list f H) as [E ?]; clear H; rewrite ?E
  | H : int_ok ?f |- _ => let E := fresh "E" in
      destruct (int_ok_int f H) as [E ?]; clear H
  | H : bool_ok ?f |- _ => let E := fresh "E" in
      destruct (bool_ok_bool f H) as [E ?]; clear H
  | H : f32_ok ?f |- _ => let E := fresh "E" in
      destruct (f32_ok_round f H) as (? & E & ?); clear H; rewrite E
  | H : f64_ok ?f |- _ => let E := fresh "E" in
      destruct (f64_ok_mark f H) as (? & E & ?); clear H; rewrite E
  | H : none_or_ok list_ok ?f |- _ => let E := fresh "E" in
      destruct (none_or_list_ok f H) as [E ?]; clear H; rewrite ?E
  | H : none_or_ok f32_ok ?f |- _ => let E := fresh "E" in
      destruct (none_or_f32_ok f H) as (? & E & ?); clear H; rewrite E
  | H : option_ok (Forall _) ?f |- _ => let E := fresh "E" in
      destruct (nested_none_or_list f H) as (? & E & ?); clear H; rewrite E
  | H : option_ok _ (Some ?f) |- _ => let E := fresh "E" in
      destruct (nested_some f H) as (? & E & ?); clear H; rewrite E
  | H : option_ok _ None |- _ => clear H
  | H : option_ok _ ?f |- _ => let E := fresh "E" in
      destruct (nested_option f H) as (? & E & ?); clear H; rewrite E
  | H : Forall _ [] |- _ => clear H
  | H : Forall _ ?f |- _ => let E := fresh "E" in
      destruct (nested_list f H) as (? & E & ?); clear H; rewrite E
  | H : ?P ?f |- _ => let E := fresh "E" in
      destruct (nested_plain (P := P) f H) as (? & E & ?); clear H; rewrite E
  end.

(** A field whose entry is omitted holds its default. *)
Ltac wire_omitted C :=
  match type of C with
  | negb (is_none ?f) = false => apply is_none_true in C
  | negb (py_eq_int ?f _) = false =>
      match goal with H : int_ok f |- _ => apply (int_ok_eq f _ H) in C end
  | py_bool ?f = false =>
      match goal with
      | H : list_ok f |- _ => apply (list_ok_falsy f H) in C
      | H : int_ok f |- _ => apply (int_ok_falsy f H) in C
      | H : bool_ok f |- _ => apply (bool_ok_falsy f H) in C
      end
  end.

(** Split on the conditions under which entries are written. *)
Ltac wire_conditions :=
  repeat match goal with
  | |- context [emit_some _ _ ?o] => is_var o; destruct o
  | |- context [when (nonempty ?l) _] => is_var l; destruct l
  | |- context [when ?c _] =>
      lazymatch c with
      | true => fail
      | false => fail
      | nonempty _ => fail
      | _ => let C := fresh "C" in destruct c eqn:C; [clear C | wire_omitted C; subst]
      end
  end.

(** One case of the conditions: encode every field, look every key up, decode. *)
Ltac wire_case :=
  wire_entries;
  repeat (wire_field; cbv beta iota delta [bind]);
  eexists; split; [reflexivity|]; split; [reflexivity|];
  wire_lookups;
  repeat match goal with
  | H : unmark _ = _ |- _ => progress rewrite ?H; clear H
  | H : _ = Ok _ |- _ => progress (rewrite ?H; cbv beta iota delta [bind]); clear H
  end;
  try reflexivity;
  try (unfold none_or in *; repeat match goal with H : _ = Ok _ |- _ => rewrite H end; reflexivity).

(** [wire_ok] of a payload class, its record destructed, from the
    well-formedness of its fields. *)
Tactic Notation "wire_class" reference(wf) reference(to) reference(from) :=
  unfold wf, to, from, wire_ok; wire_fields; intros;
  repeat match goal with H : _ /\ _ |- _ => destruct H end;
  wire_conditions; wire_case.
