(* ===== verification/WireHandshake.v ===== *)
(** * WireHandshake

    [wire/types.py], the handshake and keepalive payloads: HELLO, AUTH, WELCOME,
    AUTH_OK, BYE, PING and PONG, and the [ActAs] selector the other families
    nest. Every class has its record, [to_map], [from_map], the
    well-formedness of its fields and the proof that it survives the wire. *)

From S2P Require Import Prelude PyFloat PyValue Rfc8949 Cbor CborScan CborCodec WireEnums WireCodec.

(** ** [HelloCapabilities] *)

Record HelloCapabilities : Type := mk_HelloCapabilities {
  HelloCapabilities_streaming : pyval; HelloCapabilities_compression_zstd : pyval;
  HelloCapabilities_server_push : pyval
}.

Definition HelloCapabilities_to_map (self : HelloCapabilities) : pyresult pyval :=
  py_dict
    ["streaming" ::= Ok (HelloCapabilities_streaming self);
     "compression_zstd" ::= Ok (HelloCapabilities_compression_zstd self);
     "server_push" ::= Ok (HelloCapabilities_server_push self)].

Definition HelloCapabilities_from_map (m : pyval) : pyresult HelloCapabilities :=
  let* streaming := py_getitem m "streaming" in
  let* compression_zstd := py_getitem m "compression_zstd" in
  let* server_push := py_getitem m "server_push" in
  Ok (mk_HelloCapabilities streaming compression_zstd server_push).

Definition HelloCapabilities_wf (self : HelloCapabilities) : Prop :=
 raw_ok (HelloCapabilities_streaming self) /\ raw_ok (HelloCapabilities_compression_zstd self) /\
  raw_ok (HelloCapabilities_server_push self).

#[export] Instance HelloCapabilities_nested :
  Nested HelloCapabilities_wf HelloCapabilities_to_map HelloCapabilities_from_map.
Proof.
  intros []. wire_class HelloCapabilities_wf HelloCapabilities_to_map HelloCapabilities_from_map.
Qed.

(** ** [HelloPayload] *)

Record HelloPayload : Type := mk_HelloPayload {
  HelloPayload_client_id : pyval; HelloPayload_supported_versions : pyval;
  HelloPayload_capabilities : HelloCapabilities; HelloPayload_client_connection_token : pyval
}.

Definition HelloPayload_to_map (self : HelloPayload) : pyresult pyval :=
  py_dict
    ["client_id" ::= Ok (HelloPayload_client_id self);
     "supported_versions" ::= py_list (HelloPayload_supported_versions self);
     "capabilities" ::= HelloCapabilities_to_map (HelloPayload_capabilities self);
     "client_connection_token" ::= Ok (HelloPayload_client_connection_token self)].

Definition HelloPayload_from_map (m : pyval) : pyresult HelloPayload :=
  let* client_id := py_getitem m "client_id" in
  let* supported_versions := bind (py_getitem m "supported_versions") py_list in
  let* capabilities := bind (py_getitem m "capabilities") HelloCapabilities_from_map in
  let* client_connection_token := py_getitem m "client_connection_token" in
  Ok (mk_HelloPayload client_id supported_versions capabilities client_connection_token).

Definition HelloPayload_wf (self : HelloPayload) : Prop :=
 raw_ok (HelloPayload_client_id self) /\ list_ok (HelloPayload_supported_versions self) /\
  HelloCapabilities_wf (HelloPayload_capabilities self) /\
  raw_ok (HelloPayload_client_connection_token self).

#[export] Instance HelloPayload_nested :
  Nested HelloPayload_wf HelloPayload_to_map HelloPayload_from_map.
Proof. intros []. wire_class HelloPayload_wf HelloPayload_to_map HelloPayload_from_map. Qed.

#[export] Instance HelloPayload_payload : WirePayload HelloPayload :=
  map_payload HelloPayload_to_map HelloPayload_from_map.
#[export] Instance HelloPayload_laws : WireLaws HelloPayload :=
  map_laws _ _ _ (fun self m E => py_dict_is_dict _ _ E).

(** ** [MtlsClaim] *)

Record MtlsClaim : Type := mk_MtlsClaim {
  MtlsClaim_cert_fingerprint : pyval; MtlsClaim_asserted_subject : pyval
}.

Definition MtlsClaim_to_map (self : MtlsClaim) : pyresult pyval :=
  py_dict
    ["cert_fingerprint" ::= Ok (MtlsClaim_cert_fingerprint self);
     "asserted_subject" ::= Ok (MtlsClaim_asserted_subject self)].

Definition MtlsClaim_from_map (m : pyval) : pyresult MtlsClaim :=
  let* cert_fingerprint := py_getitem m "cert_fingerprint" in
  let* asserted_subject := py_getitem m "asserted_subject" in
  Ok (mk_MtlsClaim cert_fingerprint asserted_subject).

Definition MtlsClaim_wf (self : MtlsClaim) : Prop :=
 raw_ok (MtlsClaim_cert_fingerprint self) /\ raw_ok (MtlsClaim_asserted_subject self).

#[export] Instance MtlsClaim_nested : Nested MtlsClaim_wf MtlsClaim_to_map MtlsClaim_from_map.
Proof. intros []. wire_class MtlsClaim_wf MtlsClaim_to_map MtlsClaim_from_map. Qed.

(** ** [AuthCredentials] *)

(** What the [value] field holds: a plain value or a claim object. *)
Inductive AuthCredentials_value_t : Type :=
| CredentialPlain (v : pyval)
| CredentialClaim (c : MtlsClaim).

Record AuthCredentials : Type := mk_AuthCredentials {
  AuthCredentials_variant : pyval; AuthCredentials_value : AuthCredentials_value_t
}.

Definition AuthCredentials_token (raw : bytes) : AuthCredentials :=
  mk_AuthCredentials (PStr "Token")
    (CredentialPlain (PList (map (fun b => PInt (byte_to_Z b)) raw))).

Definition AuthCredentials_mtls (claim : MtlsClaim) : AuthCredentials :=
  mk_AuthCredentials (PStr "Mtls") (CredentialClaim claim).

Definition AuthCredentials_to_cbor_value (self : AuthCredentials) : pyresult pyval :=
  match AuthCredentials_value self with
  | CredentialPlain v =>
      if py_eq_str (AuthCredentials_variant self) "Token" && is_list v
      then py_dict ["Token" ::= py_list v]
      else Raise ValueError
  | CredentialClaim c =>
      if py_eq_str (AuthCredentials_variant self) "Mtls"
      then py_dict ["Mtls" ::= MtlsClaim_to_map c]
      else Raise ValueError
  end.

Definition AuthCredentials_from_cbor_value (v : pyval) : pyresult AuthCredentials :=
  if is_dict_with v "Token" then
    let* l := bind (py_getitem v "Token") (from_list to_int) in
    Ok (mk_AuthCredentials (PStr "Token") (CredentialPlain (PList l)))
  else if is_dict_with v "Mtls" then
    let* c := bind (py_getitem v "Mtls") MtlsClaim_from_map in
    Ok (mk_AuthCredentials (PStr "Mtls") (CredentialClaim c))
  else Raise ValueError.

Definition AuthCredentials_wf (self : AuthCredentials) : Prop :=
  match AuthCredentials_value self with
  | CredentialPlain v => AuthCredentials_variant self = PStr "Token"
                         /\ exists l, v = PList l /\ Forall int_ok l
  | CredentialClaim c => AuthCredentials_variant self = PStr "Mtls" /\ MtlsClaim_wf c
  end.

#[export] Instance AuthCredentials_nested :
  Nested AuthCredentials_wf AuthCredentials_to_cbor_value AuthCredentials_from_cbor_value.
Proof.
  intros [variant [v|c]]; wire_fields; intros [-> H].
  - destruct H as (l & -> & Hl). unfold wire_ok. eexists. split; [reflexivity|]. split; [done|].
    assert (map unmark l = l /\ map_result to_int l = Ok l) as [Hm Hr].
    { clear -Hl. induction Hl as [|x l [z ->] Hl [IH1 IH2]]; [done|]. wire_fields. by rewrite IH1, IH2. }
    unfold AuthCredentials_from_cbor_value, from_list, py_getitem, bind. wire_fields.
    by rewrite Hm, Hr.
  - destruct (nested_plain c H) as (w & E & D). unfold wire_ok, AuthCredentials_to_cbor_value. wire_fields.
    wire_eval. rewrite E. eexists. split; [reflexivity|]. split; [done|].
    unfold AuthCredentials_from_cbor_value. wire_eval. by rewrite D.
Qed.

(** ** [AuthPayload] *)

Record AuthPayload : Type := mk_AuthPayload {
  AuthPayload_method : pyval; AuthPayload_credentials : AuthCredentials
}.

Definition AuthPayload_to_map (self : AuthPayload) : pyresult pyval :=
  py_dict
    ["method" ::= Ok (AuthPayload_method self);
     "credentials" ::= AuthCredentials_to_cbor_value (AuthPayload_credentials self)].

Definition AuthPayload_from_map (m : pyval) : pyresult AuthPayload :=
  let* method := py_getitem m "method" in
  let* credentials := bind (py_getitem m "credentials") AuthCredentials_from_cbor_value in
  Ok (mk_AuthPayload method credentials).

Definition AuthPayload_wf (self : AuthPayload) : Prop :=
 raw_ok (AuthPayload_method self) /\ AuthCredentials_wf (AuthPayload_credentials self).

#[export] Instance AuthPayload_nested :
  Nested AuthPayload_wf AuthPayload_to_map AuthPayload_from_map.
Proof. intros []. wire_class AuthPayload_wf AuthPayload_to_map AuthPayload_from_map. Qed.

#[export] Instance AuthPayload_payload : WirePayload AuthPayload :=
  map_payload AuthPayload_to_map AuthPayload_from_map.
#[export] Instance AuthPayload_laws : WireLaws AuthPayload :=
  map_laws _ _ _ (fun self m E => py_dict_is_dict _ _ E).

(** ** [SpacePermissions] *)

Record SpacePermissions : Type := mk_SpacePermissions {
  SpacePermissions_can_encode : pyval; SpacePermissions_can_recall : pyval;
  SpacePermissions_can_plan : pyval; SpacePermissions_can_reason : pyval;
  SpacePermissions_can_forget : pyval; SpacePermissions_can_admin : pyval;
  SpacePermissions_can_act_as : pyval
}.

Definition SpacePermissions_to_map (self : SpacePermissions) : pyresult pyval :=
  py_dict
    ["can_encode" ::= Ok (SpacePermissions_can_encode self);
     "can_recall" ::= Ok (SpacePermissions_can_recall self);
     "can_plan" ::= Ok (SpacePermissions_can_plan self);
     "can_reason" ::= Ok (SpacePermissions_can_reason self);
     "can_forget" ::= Ok (SpacePermissions_can_forget self);
     "can_admin" ::= Ok (SpacePermissions_can_admin self);
     "can_act_as" ::= Ok (SpacePermissions_can_act_as self)].

Definition SpacePermissions_from_map (m : pyval) : pyresult SpacePermissions :=
  let* can_encode := py_getitem m "can_encode" in
  let* can_recall := py_getitem m "can_recall" in
  let* can_plan := py_getitem m "can_plan" in
  let* can_reason := py_getitem m "can_reason" in
  let* can_forget := py_getitem m "can_forget" in
  let* can_admin := py_getitem m "can_admin" in
  let* can_act_as := py_getitem m "can_act_as" in
  Ok (mk_SpacePermissions can_encode can_recall can_plan can_reason can_forget can_admin can_act_as).

Definition SpacePermissions_wf (self : SpacePermissions) : Prop :=
 raw_ok (SpacePermissions_can_encode self) /\ raw_ok (SpacePermissions_can_recall self) /\
  raw_ok (SpacePermissions_can_plan self) /\ raw_ok (SpacePermissions_can_reason self) /\
  raw_ok (SpacePermissions_can_forget self) /\ raw_ok (SpacePermissions_can_admin self) /\
  raw_ok (SpacePermissions_can_act_as self).

#[export] Instance SpacePermissions_nested :
  Nested SpacePermissions_wf SpacePermissions_to_map SpacePermissions_from_map.
Proof.
  intros []. wire_class SpacePermissions_wf SpacePermissions_to_map SpacePermissions_from_map.
Qed.

(** ** [ServerFeatures] *)

Record ServerFeatures : Type := mk_ServerFeatures {
  ServerFeatures_max_payload_size : pyval; ServerFeatures_max_concurrent_streams : pyval;
  ServerFeatures_idle_timeout_seconds : pyval; ServerFeatures_auth_methods : pyval
}.

Definition ServerFeatures_to_map (self : ServerFeatures) : pyresult pyval :=
  py_dict
    ["max_payload_size" ::= Ok (ServerFeatures_max_payload_size self);
     "max_concurrent_streams" ::= Ok (ServerFeatures_max_concurrent_streams self);
     "idle_timeout_seconds" ::= Ok (ServerFeatures_idle_timeout_seconds self);
     "auth_methods" ::= py_list (ServerFeatures_auth_methods self)].

Definition ServerFeatures_from_map (m : pyval) : pyresult ServerFeatures :=
  let* max_payload_size := py_getitem m "max_payload_size" in
  let* max_concurrent_streams := py_getitem m "max_concurrent_streams" in
  let* idle_timeout_seconds := py_getitem m "idle_timeout_seconds" in
  let* auth_methods := bind (py_getitem m "auth_methods") py_list in
  Ok (mk_ServerFeatures max_payload_size max_concurrent_streams idle_timeout_seconds auth_methods).

Definition ServerFeatures_wf (self : ServerFeatures) : Prop :=
 raw_ok (ServerFeatures_max_payload_size self) /\
  raw_ok (ServerFeatures_max_concurrent_streams self) /\
  raw_ok (ServerFeatures_idle_timeout_seconds self) /\ list_ok (ServerFeatures_auth_methods self).

#[export] Instance ServerFeatures_nested :
  Nested ServerFeatures_wf ServerFeatures_to_map ServerFeatures_from_map.
Proof. intros []. wire_class ServerFeatures_wf ServerFeatures_to_map ServerFeatures_from_map. Qed.

(** ** [WelcomePayload] *)

Record WelcomePayload : Type := mk_WelcomePayload {
  WelcomePayload_server_id : pyval; WelcomePayload_chosen_version : pyval;
  WelcomePayload_connection_id : pyval; WelcomePayload_capabilities : HelloCapabilities;
  WelcomePayload_server_features : ServerFeatures
}.

Definition WelcomePayload_to_map (self : WelcomePayload) : pyresult pyval :=
  py_dict
    ["server_id" ::= Ok (WelcomePayload_server_id self);
     "chosen_version" ::= Ok (WelcomePayload_chosen_version self);
     "connection_id" ::= Ok (WelcomePayload_connection_id self);
     "capabilities" ::= HelloCapabilities_to_map (WelcomePayload_capabilities self);
     "server_features" ::= ServerFeatures_to_map (WelcomePayload_server_features self)].

Definition WelcomePayload_from_map (m : pyval) : pyresult WelcomePayload :=
  let* server_id := py_getitem m "server_id" in
  let* chosen_version := py_getitem m "chosen_version" in
  let* connection_id := py_getitem m "connection_id" in
  let* capabilities := bind (py_getitem m "capabilities") HelloCapabilities_from_map in
  let* server_features := bind (py_getitem m "server_features") ServerFeatures_from_map in
  Ok (mk_WelcomePayload server_id chosen_version connection_id capabilities server_features).

Definition WelcomePayload_wf (self : WelcomePayload) : Prop :=
 raw_ok (WelcomePayload_server_id self) /\ raw_ok (WelcomePayload_chosen_version self) /\
  raw_ok (WelcomePayload_connection_id self) /\
  HelloCapabilities_wf (WelcomePayload_capabilities self) /\
  ServerFeatures_wf (WelcomePayload_server_features self).

#[export] Instance WelcomePayload_nested :
  Nested WelcomePayload_wf WelcomePayload_to_map WelcomePayload_from_map.
Proof. intros []. wire_class WelcomePayload_wf WelcomePayload_to_map WelcomePayload_from_map. Qed.

#[export] Instance WelcomePayload_payload : WirePayload WelcomePayload :=
  map_payload WelcomePayload_to_map WelcomePayload_from_map.
#[export] Instance WelcomePayload_laws : WireLaws WelcomePayload :=
  map_laws _ _ _ (fun self m E => py_dict_is_dict _ _ E).

(** ** [AuthOkPayload] *)

Record AuthOkPayload : Type := mk_AuthOkPayload {
  AuthOkPayload_space_id : pyval; AuthOkPayload_bound_shard_id : pyval;
  AuthOkPayload_permissions : SpacePermissions; AuthOkPayload_namespace : pyval;
  AuthOkPayload_server_time_unix_nanos : pyval
}.

Definition AuthOkPayload_to_map (self : AuthOkPayload) : pyresult pyval :=
  py_dict
    ["space_id" ::= Ok (AuthOkPayload_space_id self);
     "bound_shard_id" ::= Ok (AuthOkPayload_bound_shard_id self);
     "permissions" ::= SpacePermissions_to_map (AuthOkPayload_permissions self);
     "namespace" ::= Ok (AuthOkPayload_namespace self);
     "server_time_unix_nanos" ::= Ok (AuthOkPayload_server_time_unix_nanos self)].

Definition AuthOkPayload_from_map (m : pyval) : pyresult AuthOkPayload :=
  let* space_id := py_getitem m "space_id" in
  let* bound_shard_id := py_getitem m "bound_shard_id" in
  let* permissions := bind (py_getitem m "permissions") SpacePermissions_from_map in
  let* namespace := py_getitem m "namespace" in
  let* server_time_unix_nanos := py_getitem m "server_time_unix_nanos" in
  Ok (mk_AuthOkPayload space_id bound_shard_id permissions namespace server_time_unix_nanos).

Definition AuthOkPayload_wf (self : AuthOkPayload) : Prop :=
 raw_ok (AuthOkPayload_space_id self) /\ raw_ok (AuthOkPayload_bound_shard_id self) /\
  SpacePermissions_wf (AuthOkPayload_permissions self) /\ raw_ok (AuthOkPayload_namespace self) /\
  raw_ok (AuthOkPayload_server_time_unix_nanos self).

#[export] Instance AuthOkPayload_nested :
  Nested AuthOkPayload_wf AuthOkPayload_to_map AuthOkPayload_from_map.
Proof. intros []. wire_class AuthOkPayload_wf AuthOkPayload_to_map AuthOkPayload_from_map. Qed.

#[export] Instance AuthOkPayload_payload : WirePayload AuthOkPayload :=
  map_payload AuthOkPayload_to_map AuthOkPayload_from_map.
#[export] Instance AuthOkPayload_laws : WireLaws AuthOkPayload :=
  map_laws _ _ _ (fun self m E => py_dict_is_dict _ _ E).

(** ** [ByeRequest] *)

Record ByeRequest : Type := mk_ByeRequest {
  ByeRequest_reason : pyval
}.

Definition ByeRequest_to_map (self : ByeRequest) : pyresult pyval :=
  py_dict
    ["reason" ::= Ok (ByeRequest_reason self)].

Definition ByeRequest_from_map (m : pyval) : pyresult ByeRequest :=
  let* reason := py_get m "reason" PNone in
  Ok (mk_ByeRequest reason).

Definition ByeRequest_wf (self : ByeRequest) : Prop :=
 raw_ok (ByeRequest_reason self).

#[export] Instance ByeRequest_nested : Nested ByeRequest_wf ByeRequest_to_map ByeRequest_from_map.
Proof. intros []. wire_class ByeRequest_wf ByeRequest_to_map ByeRequest_from_map. Qed.

#[export] Instance ByeRequest_payload : WirePayload ByeRequest :=
  map_payload ByeRequest_to_map ByeRequest_from_map.
#[export] Instance ByeRequest_laws : WireLaws ByeRequest :=
  map_laws _ _ _ (fun self m E => py_dict_is_dict _ _ E).

(** ** [PingRequest] *)

Record PingRequest : Type := mk_PingRequest {
  PingRequest_client_timestamp_unix_nanos : pyval
}.

Definition PingRequest_to_map (self : PingRequest) : pyresult pyval :=
  py_dict
    ["client_timestamp_unix_nanos" ::= Ok (PingRequest_client_timestamp_unix_nanos self)].

Definition PingRequest_from_map (m : pyval) : pyresult PingRequest :=
  let* client_timestamp_unix_nanos := py_get m "client_timestamp_unix_nanos" (PInt 0) in
  Ok (mk_PingRequest client_timestamp_unix_nanos).

Definition PingRequest_wf (self : PingRequest) : Prop :=
 raw_ok (PingRequest_client_timestamp_unix_nanos self).

#[export] Instance PingRequest_nested :
  Nested PingRequest_wf PingRequest_to_map PingRequest_from_map.
Proof. intros []. wire_class PingRequest_wf PingRequest_to_map PingRequest_from_map. Qed.

#[export] Instance PingRequest_payload : WirePayload PingRequest :=
  map_payload PingRequest_to_map PingRequest_from_map.
#[export] Instance PingRequest_laws : WireLaws PingRequest :=
  map_laws _ _ _ (fun self m E => py_dict_is_dict _ _ E).

(** ** [PongResponse] *)

Record PongResponse : Type := mk_PongResponse {
  PongResponse_client_timestamp_unix_nanos : pyval;
  PongResponse_server_timestamp_unix_nanos : pyval
}.

Definition PongResponse_to_map (self : PongResponse) : pyresult pyval :=
  py_dict
    ["client_timestamp_unix_nanos" ::= Ok (PongResponse_client_timestamp_unix_nanos self);
     "server_timestamp_unix_nanos" ::= Ok (PongResponse_server_timestamp_unix_nanos self)].

Definition PongResponse_from_map (m : pyval) : pyresult PongResponse :=
  let* client_timestamp_unix_nanos := py_get m "client_timestamp_unix_nanos" (PInt 0) in
  let* server_timestamp_unix_nanos := py_get m "server_timestamp_unix_nanos" (PInt 0) in
  Ok (mk_PongResponse client_timestamp_unix_nanos server_timestamp_unix_nanos).

Definition PongResponse_wf (self : PongResponse) : Prop :=
 raw_ok (PongResponse_client_timestamp_unix_nanos self) /\
  raw_ok (PongResponse_server_timestamp_unix_nanos self).

#[export] Instance PongResponse_nested :
  Nested PongResponse_wf PongResponse_to_map PongResponse_from_map.
Proof. intros []. wire_class PongResponse_wf PongResponse_to_map PongResponse_from_map. Qed.

#[export] Instance PongResponse_payload : WirePayload PongResponse :=
  map_payload PongResponse_to_map PongResponse_from_map.
#[export] Instance PongResponse_laws : WireLaws PongResponse :=
  map_laws _ _ _ (fun self m E => py_dict_is_dict _ _ E).

(** ** [ServerPingResponse] *)

Record ServerPingResponse : Type := mk_ServerPingResponse {
  ServerPingResponse_server_timestamp_unix_nanos : pyval
}.

Definition ServerPingResponse_to_map (self : ServerPingResponse) : pyresult pyval :=
  py_dict
    ["server_timestamp_unix_nanos" ::= Ok (ServerPingResponse_server_timestamp_unix_nanos self)].

Definition ServerPingResponse_from_map (m : pyval) : pyresult ServerPingResponse :=
  let* server_timestamp_unix_nanos := py_get m "server_timestamp_unix_nanos" (PInt 0) in
  Ok (mk_ServerPingResponse server_timestamp_unix_nanos).

Definition ServerPingResponse_wf (self : ServerPingResponse) : Prop :=
 raw_ok (ServerPingResponse_server_timestamp_unix_nanos self).

#[export] Instance ServerPingResponse_nested :
  Nested ServerPingResponse_wf ServerPingResponse_to_map ServerPingResponse_from_map.
Proof.
  intros []. wire_class ServerPingResponse_wf ServerPingResponse_to_map ServerPingResponse_from_map.
Qed.

#[export] Instance ServerPingResponse_payload : WirePayload ServerPingResponse :=
  map_payload ServerPingResponse_to_map ServerPingResponse_from_map.
#[export] Instance ServerPingResponse_laws : WireLaws ServerPingResponse :=
  map_laws _ _ _ (fun self m E => py_dict_is_dict _ _ E).

(** ** [ClientPongRequest] *)

Record ClientPongRequest : Type := mk_ClientPongRequest {
  ClientPongRequest_server_timestamp_unix_nanos : pyval;
  ClientPongRequest_client_timestamp_unix_nanos : pyval
}.

Definition ClientPongRequest_to_map (self : ClientPongRequest) : pyresult pyval :=
  py_dict
    ["server_timestamp_unix_nanos" ::= Ok (ClientPongRequest_server_timestamp_unix_nanos self);
     "client_timestamp_unix_nanos" ::= Ok (ClientPongRequest_client_timestamp_unix_nanos self)].

Definition ClientPongRequest_from_map (m : pyval) : pyresult ClientPongRequest :=
  let* server_timestamp_unix_nanos := py_get m "server_timestamp_unix_nanos" (PInt 0) in
  let* client_timestamp_unix_nanos := py_get m "client_timestamp_unix_nanos" (PInt 0) in
  Ok (mk_ClientPongRequest server_timestamp_unix_nanos client_timestamp_unix_nanos).

Definition ClientPongRequest_wf (self : ClientPongRequest) : Prop :=
 raw_ok (ClientPongRequest_server_timestamp_unix_nanos self) /\
  raw_ok (ClientPongRequest_client_timestamp_unix_nanos self).

#[export] Instance ClientPongRequest_nested :
  Nested ClientPongRequest_wf ClientPongRequest_to_map ClientPongRequest_from_map.
Proof.
  intros []. wire_class ClientPongRequest_wf ClientPongRequest_to_map ClientPongRequest_from_map.
Qed.

#[export] Instance ClientPongRequest_payload : WirePayload ClientPongRequest :=
  map_payload ClientPongRequest_to_map ClientPongRequest_from_map.
#[export] Instance ClientPongRequest_laws : WireLaws ClientPongRequest :=
  map_laws _ _ _ (fun self m E => py_dict_is_dict _ _ E).

(** ** [ActAs] *)

Record ActAs : Type := mk_ActAs {
  ActAs_namespace : pyval; ActAs_space : pyval; ActAs_grant : pyval
}.

Definition ActAs_to_map (self : ActAs) : pyresult pyval :=
  py_dict (
    ["namespace" ::= Ok (ActAs_namespace self); "space" ::= Ok (ActAs_space self)]
    ++ when (py_bool (ActAs_grant self)) ["grant" ::= Ok (ActAs_grant self)]).

Definition ActAs_from_map (m : pyval) : pyresult ActAs :=
  let* namespace := py_getitem m "namespace" in
  let* space := py_getitem m "space" in
  let* grant := bind (py_get m "grant" (PInt 0)) to_int in
  Ok (mk_ActAs namespace space grant).

Definition ActAs_wf (self : ActAs) : Prop :=
 raw_ok (ActAs_namespace self) /\ raw_ok (ActAs_space self) /\ int_ok (ActAs_grant self).

#[export] Instance ActAs_nested : Nested ActAs_wf ActAs_to_map ActAs_from_map.
Proof. intros []. wire_class ActAs_wf ActAs_to_map ActAs_from_map. Qed.
