(* ===== verification/WireMemory.v ===== *)
(** * WireMemory

    [wire/types.py], ENCODE and its synchronous trace, the direct-vector ENCODE
    with its trailing embedding, and MEMORY_INSPECT. *)

From S2P Require Import Prelude PyFloat PyValue Rfc8949 Cbor CborScan CborCodec WireEnums WireCodec.
From S2P Require Import WireHandshake.

(** ** [EdgeRequest] *)

Record EdgeRequest : Type := mk_EdgeRequest {
  EdgeRequest_target : pyval; EdgeRequest_kind : pyval; EdgeRequest_weight : pyval
}.

Definition EdgeRequest_to_map (self : EdgeRequest) : pyresult pyval :=
  py_dict
    ["target" ::= Ok (EdgeRequest_target self); "kind" ::= Ok (EdgeRequest_kind self);
     "weight" ::= round_f32 (EdgeRequest_weight self)].

Definition EdgeRequest_from_map (m : pyval) : pyresult EdgeRequest :=
  let* target := py_getitem m "target" in
  let* kind := py_getitem m "kind" in
  let* weight := py_getitem m "weight" in
  Ok (mk_EdgeRequest target kind weight).

Definition EdgeRequest_wf (self : EdgeRequest) : Prop :=
 raw_ok (EdgeRequest_target self) /\ raw_ok (EdgeRequest_kind self) /\
  f32_ok (EdgeRequest_weight self).

#[export] Instance EdgeRequest_nested :
  Nested EdgeRequest_wf EdgeRequest_to_map EdgeRequest_from_map.
Proof. intros []. wire_class EdgeRequest_wf EdgeRequest_to_map EdgeRequest_from_map. Qed.

#[export] Instance EdgeRequest_payload : WirePayload EdgeRequest :=
  map_payload EdgeRequest_to_map EdgeRequest_from_map.
#[export] Instance EdgeRequest_laws : WireLaws EdgeRequest :=
  map_laws _ _ _ (fun self m E => py_dict_is_dict _ _ E).

(** ** [EncodeRequest] *)

Record EncodeRequest : Type := mk_EncodeRequest {
  EncodeRequest_text : pyval; EncodeRequest_session_id : pyval; EncodeRequest_request_id : pyval;
  EncodeRequest_txn_id : pyval; EncodeRequest_occurred_at_unix_nanos : pyval;
  EncodeRequest_act_as : option ActAs; EncodeRequest_wait : pyval;
  EncodeRequest_allow_duplicates : pyval
}.

Definition EncodeRequest_to_map (self : EncodeRequest) : pyresult pyval :=
  py_dict (
    ["text" ::= Ok (EncodeRequest_text self); "session_id" ::= Ok (EncodeRequest_session_id self);
     "request_id" ::= Ok (EncodeRequest_request_id self);
     "txn_id" ::= Ok (EncodeRequest_txn_id self);
     "occurred_at_unix_nanos" ::= Ok (EncodeRequest_occurred_at_unix_nanos self)]
    ++ emit_some "act_as" ActAs_to_map (EncodeRequest_act_as self)
    ++ when (negb (py_eq_int (EncodeRequest_wait self) WaitMode_ACK_wire))
         ["wait" ::= Ok (EncodeRequest_wait self)]
    ++ when (py_bool (EncodeRequest_allow_duplicates self))
         ["allow_duplicates" ::= Ok (EncodeRequest_allow_duplicates self)]).

Definition EncodeRequest_from_map (m : pyval) : pyresult EncodeRequest :=
  let* act_as := py_get m "act_as" PNone in
  let* text := py_getitem m "text" in
  let* session_id := py_getitem m "session_id" in
  let* request_id := py_getitem m "request_id" in
  let* txn_id := py_getitem m "txn_id" in
  let* occurred_at_unix_nanos := py_getitem m "occurred_at_unix_nanos" in
  let* act_as := from_option ActAs_from_map act_as in
  let* wait := bind (py_get m "wait" (PInt WaitMode_ACK_wire)) to_int in
  let* allow_duplicates := bind (py_get m "allow_duplicates" (PBool false)) to_bool in
  Ok (mk_EncodeRequest text session_id request_id txn_id occurred_at_unix_nanos act_as wait
    allow_duplicates).

Definition EncodeRequest_wf (self : EncodeRequest) : Prop :=
 raw_ok (EncodeRequest_text self) /\ raw_ok (EncodeRequest_session_id self) /\
  raw_ok (EncodeRequest_request_id self) /\ raw_ok (EncodeRequest_txn_id self) /\
  raw_ok (EncodeRequest_occurred_at_unix_nanos self) /\
  option_ok ActAs_wf (EncodeRequest_act_as self) /\ int_ok (EncodeRequest_wait self) /\
  bool_ok (EncodeRequest_allow_duplicates self).

#[export] Instance EncodeRequest_nested :
  Nested EncodeRequest_wf EncodeRequest_to_map EncodeRequest_from_map.
Proof. intros []. wire_class EncodeRequest_wf EncodeRequest_to_map EncodeRequest_from_map. Qed.

#[export] Instance EncodeRequest_payload : WirePayload EncodeRequest :=
  map_payload EncodeRequest_to_map EncodeRequest_from_map.
#[export] Instance EncodeRequest_laws : WireLaws EncodeRequest :=
  map_laws _ _ _ (fun self m E => py_dict_is_dict _ _ E).

(** ** [EncodeVectorDirectRequest] *)

Record EncodeVectorDirectRequest : Type := mk_EncodeVectorDirectRequest {
  EncodeVectorDirectRequest_text : pyval; EncodeVectorDirectRequest_model_fingerprint : pyval;
  EncodeVectorDirectRequest_session_id : pyval; EncodeVectorDirectRequest_kind : pyval;
  EncodeVectorDirectRequest_salience_hint : pyval;
  EncodeVectorDirectRequest_edges : list EdgeRequest;
  EncodeVectorDirectRequest_request_id : pyval; EncodeVectorDirectRequest_txn_id : pyval;
  EncodeVectorDirectRequest_deduplicate : pyval; EncodeVectorDirectRequest_vector : list pyval;
  EncodeVectorDirectRequest_act_as : option ActAs
}.

Definition EncodeVectorDirectRequest_to_map (self : EncodeVectorDirectRequest) : pyresult pyval :=
  py_dict (
    ["text" ::= Ok (EncodeVectorDirectRequest_text self);
     "model_fingerprint" ::= Ok (EncodeVectorDirectRequest_model_fingerprint self);
     "session_id" ::= Ok (EncodeVectorDirectRequest_session_id self);
     "kind" ::= Ok (EncodeVectorDirectRequest_kind self);
     "salience_hint" ::= round_f32 (EncodeVectorDirectRequest_salience_hint self);
     "edges" ::= to_list EdgeRequest_to_map (EncodeVectorDirectRequest_edges self);
     "request_id" ::= Ok (EncodeVectorDirectRequest_request_id self);
     "txn_id" ::= Ok (EncodeVectorDirectRequest_txn_id self);
     "deduplicate" ::= Ok (EncodeVectorDirectRequest_deduplicate self)]
    ++ emit_some "act_as" ActAs_to_map (EncodeVectorDirectRequest_act_as self)).

Definition EncodeVectorDirectRequest_from_map (m : pyval) : pyresult EncodeVectorDirectRequest :=
  let* act_as := py_get m "act_as" PNone in
  let* text := py_getitem m "text" in
  let* model_fingerprint := py_getitem m "model_fingerprint" in
  let* session_id := py_getitem m "session_id" in
  let* kind := py_getitem m "kind" in
  let* salience_hint := py_getitem m "salience_hint" in
  let* edges := bind (py_getitem m "edges") (from_list EdgeRequest_from_map) in
  let* request_id := py_getitem m "request_id" in
  let* txn_id := py_getitem m "txn_id" in
  let* deduplicate := py_getitem m "deduplicate" in
  let* act_as := from_option ActAs_from_map act_as in
  Ok (mk_EncodeVectorDirectRequest text model_fingerprint session_id kind salience_hint edges
    request_id txn_id deduplicate [] act_as).

Definition EncodeVectorDirectRequest_wf (self : EncodeVectorDirectRequest) : Prop :=
 raw_ok (EncodeVectorDirectRequest_text self) /\
  raw_ok (EncodeVectorDirectRequest_model_fingerprint self) /\
  raw_ok (EncodeVectorDirectRequest_session_id self) /\
  raw_ok (EncodeVectorDirectRequest_kind self) /\
  f32_ok (EncodeVectorDirectRequest_salience_hint self) /\
  Forall EdgeRequest_wf (EncodeVectorDirectRequest_edges self) /\
  raw_ok (EncodeVectorDirectRequest_request_id self) /\
  raw_ok (EncodeVectorDirectRequest_txn_id self) /\
  raw_ok (EncodeVectorDirectRequest_deduplicate self) /\
  option_ok ActAs_wf (EncodeVectorDirectRequest_act_as self).

(** [vec.vector = vector]. *)
Definition EncodeVectorDirectRequest_set_vector (self : EncodeVectorDirectRequest)
    (vector : list pyval) : EncodeVectorDirectRequest :=
  mk_EncodeVectorDirectRequest (EncodeVectorDirectRequest_text self)
    (EncodeVectorDirectRequest_model_fingerprint self) (EncodeVectorDirectRequest_session_id self)
    (EncodeVectorDirectRequest_kind self) (EncodeVectorDirectRequest_salience_hint self)
    (EncodeVectorDirectRequest_edges self) (EncodeVectorDirectRequest_request_id self)
    (EncodeVectorDirectRequest_txn_id self) (EncodeVectorDirectRequest_deduplicate self)
    vector (EncodeVectorDirectRequest_act_as self).

(** The embedding is the trailing section. *)
#[export] Instance EncodeVectorDirectRequest_payload : WirePayload EncodeVectorDirectRequest :=
  {| to_map := EncodeVectorDirectRequest_to_map;
     from_map := EncodeVectorDirectRequest_from_map;
     vector_section := Some (EncodeVectorDirectRequest_vector, EncodeVectorDirectRequest_set_vector) |}.

Lemma EncodeVectorDirectRequest_map_ok self :
  EncodeVectorDirectRequest_wf self -> EncodeVectorDirectRequest_vector self = [] ->
  wire_ok EncodeVectorDirectRequest_to_map EncodeVectorDirectRequest_from_map self.
Proof.
  destruct self as [? ? ? ? ? ? ? ? ? vector ?]. intros Hwf Hv. cbn in Hv. subst vector.
  revert Hwf. wire_class EncodeVectorDirectRequest_wf EncodeVectorDirectRequest_to_map
    EncodeVectorDirectRequest_from_map.
Qed.

Lemma EncodeVectorDirectRequest_round_trip self :
  EncodeVectorDirectRequest_wf self /\ vector_ok (EncodeVectorDirectRequest_vector self) ->
  exists m, to_map self = Ok m
    /\ vector_ok (EncodeVectorDirectRequest_vector self)
    /\ exists y, from_map (unmark m) = Ok y
       /\ EncodeVectorDirectRequest_set_vector y (EncodeVectorDirectRequest_vector self) = self.
Proof.
  intros [Hwf Hv]. pose (bare := EncodeVectorDirectRequest_set_vector self []).
  destruct (EncodeVectorDirectRequest_map_ok bare Hwf eq_refl) as (m & E & _ & D).
  exists m. split; [exact E|]. split; [done|]. exists bare. split; [exact D|]. by destruct self.
Qed.

#[export] Instance EncodeVectorDirectRequest_laws : WireLaws EncodeVectorDirectRequest :=
  {| wire_wf := fun self => EncodeVectorDirectRequest_wf self
                            /\ vector_ok (EncodeVectorDirectRequest_vector self);
     to_map_dict := fun self m E => py_dict_is_dict _ _ E;
     wire_round_trip := EncodeVectorDirectRequest_round_trip |}.

(** ** [EncodeStageRecord] *)

Record EncodeStageRecord : Type := mk_EncodeStageRecord {
  EncodeStageRecord_memory_id : pyval; EncodeStageRecord_kind : pyval;
  EncodeStageRecord_salience : pyval; EncodeStageRecord_created_at_unix_nanos : pyval;
  EncodeStageRecord_occurred_at_unix_nanos : pyval; EncodeStageRecord_vector_dim : pyval;
  EncodeStageRecord_text_len : pyval; EncodeStageRecord_lsn : pyval
}.

Definition EncodeStageRecord_to_map (self : EncodeStageRecord) : pyresult pyval :=
  py_dict
    ["memory_id" ::= Ok (EncodeStageRecord_memory_id self);
     "kind" ::= Ok (EncodeStageRecord_kind self);
     "salience" ::= round_f32 (EncodeStageRecord_salience self);
     "created_at_unix_nanos" ::= Ok (EncodeStageRecord_created_at_unix_nanos self);
     "occurred_at_unix_nanos" ::= Ok (EncodeStageRecord_occurred_at_unix_nanos self);
     "vector_dim" ::= Ok (EncodeStageRecord_vector_dim self);
     "text_len" ::= Ok (EncodeStageRecord_text_len self);
     "lsn" ::= Ok (EncodeStageRecord_lsn self)].

Definition EncodeStageRecord_from_map (m : pyval) : pyresult EncodeStageRecord :=
  let* memory_id := py_getitem m "memory_id" in
  let* kind := py_getitem m "kind" in
  let* salience := py_getitem m "salience" in
  let* created_at_unix_nanos := py_getitem m "created_at_unix_nanos" in
  let* occurred_at_unix_nanos := py_getitem m "occurred_at_unix_nanos" in
  let* vector_dim := py_getitem m "vector_dim" in
  let* text_len := py_getitem m "text_len" in
  let* lsn := py_getitem m "lsn" in
  Ok (mk_EncodeStageRecord memory_id kind salience created_at_unix_nanos occurred_at_unix_nanos
    vector_dim text_len lsn).

Definition EncodeStageRecord_wf (self : EncodeStageRecord) : Prop :=
 raw_ok (EncodeStageRecord_memory_id self) /\ raw_ok (EncodeStageRecord_kind self) /\
  f32_ok (EncodeStageRecord_salience self) /\
  raw_ok (EncodeStageRecord_created_at_unix_nanos self) /\
  raw_ok (EncodeStageRecord_occurred_at_unix_nanos self) /\
  raw_ok (EncodeStageRecord_vector_dim self) /\ raw_ok (EncodeStageRecord_text_len self) /\
  raw_ok (EncodeStageRecord_lsn self).

#[export] Instance EncodeStageRecord_nested :
  Nested EncodeStageRecord_wf EncodeStageRecord_to_map EncodeStageRecord_from_map.
Proof.
  intros []. wire_class EncodeStageRecord_wf EncodeStageRecord_to_map EncodeStageRecord_from_map.
Qed.

(** ** [EncodeStageKeywordField] *)

Record EncodeStageKeywordField : Type := mk_EncodeStageKeywordField {
  EncodeStageKeywordField_field : pyval; EncodeStageKeywordField_terms : pyval
}.

Definition EncodeStageKeywordField_to_map (self : EncodeStageKeywordField) : pyresult pyval :=
  py_dict
    ["field" ::= Ok (EncodeStageKeywordField_field self);
     "terms" ::= py_list (EncodeStageKeywordField_terms self)].

Definition EncodeStageKeywordField_from_map (m : pyval) : pyresult EncodeStageKeywordField :=
  let* field := py_getitem m "field" in
  let* terms := bind (py_getitem m "terms") py_list in
  Ok (mk_EncodeStageKeywordField field terms).

Definition EncodeStageKeywordField_wf (self : EncodeStageKeywordField) : Prop :=
 raw_ok (EncodeStageKeywordField_field self) /\ list_ok (EncodeStageKeywordField_terms self).

#[export] Instance EncodeStageKeywordField_nested :
  Nested EncodeStageKeywordField_wf EncodeStageKeywordField_to_map EncodeStageKeywordField_from_map.
Proof.
  intros []. wire_class EncodeStageKeywordField_wf EncodeStageKeywordField_to_map EncodeStageKeywordField_from_map.
Qed.

(** ** [EncodeGraphNode] *)

Record EncodeGraphNode : Type := mk_EncodeGraphNode {
  EncodeGraphNode_id : pyval; EncodeGraphNode_name : pyval; EncodeGraphNode_kind : pyval;
  EncodeGraphNode_type_qname : pyval
}.

Definition EncodeGraphNode_to_map (self : EncodeGraphNode) : pyresult pyval :=
  py_dict
    ["id" ::= Ok (EncodeGraphNode_id self); "name" ::= Ok (EncodeGraphNode_name self);
     "kind" ::= Ok (EncodeGraphNode_kind self);
     "type_qname" ::= Ok (EncodeGraphNode_type_qname self)].

Definition EncodeGraphNode_from_map (m : pyval) : pyresult EncodeGraphNode :=
  let* id := py_getitem m "id" in
  let* name := py_getitem m "name" in
  let* kind := py_getitem m "kind" in
  let* type_qname := py_getitem m "type_qname" in
  Ok (mk_EncodeGraphNode id name kind type_qname).

Definition EncodeGraphNode_wf (self : EncodeGraphNode) : Prop :=
 raw_ok (EncodeGraphNode_id self) /\ raw_ok (EncodeGraphNode_name self) /\
  raw_ok (EncodeGraphNode_kind self) /\ raw_ok (EncodeGraphNode_type_qname self).

#[export] Instance EncodeGraphNode_nested :
  Nested EncodeGraphNode_wf EncodeGraphNode_to_map EncodeGraphNode_from_map.
Proof.
  intros []. wire_class EncodeGraphNode_wf EncodeGraphNode_to_map EncodeGraphNode_from_map.
Qed.

(** ** [EncodeGraphEdge] *)

Record EncodeGraphEdge : Type := mk_EncodeGraphEdge {
  EncodeGraphEdge_source : pyval; EncodeGraphEdge_target : pyval;
  EncodeGraphEdge_predicate : pyval; EncodeGraphEdge_kind : pyval;
  EncodeGraphEdge_confidence : pyval; EncodeGraphEdge_event_at_unix_nanos : pyval
}.

Definition EncodeGraphEdge_to_map (self : EncodeGraphEdge) : pyresult pyval :=
  py_dict (
    ["source" ::= Ok (EncodeGraphEdge_source self); "target" ::= Ok (EncodeGraphEdge_target self);
     "predicate" ::= Ok (EncodeGraphEdge_predicate self);
     "kind" ::= Ok (EncodeGraphEdge_kind self);
     "confidence" ::= round_f32 (EncodeGraphEdge_confidence self)]
    ++ when (negb (is_none (EncodeGraphEdge_event_at_unix_nanos self)))
         ["event_at_unix_nanos" ::= Ok (EncodeGraphEdge_event_at_unix_nanos self)]).

Definition EncodeGraphEdge_from_map (m : pyval) : pyresult EncodeGraphEdge :=
  let* source := py_getitem m "source" in
  let* target := py_getitem m "target" in
  let* predicate := py_getitem m "predicate" in
  let* kind := py_getitem m "kind" in
  let* confidence := py_getitem m "confidence" in
  let* event_at_unix_nanos := py_get m "event_at_unix_nanos" PNone in
  Ok (mk_EncodeGraphEdge source target predicate kind confidence event_at_unix_nanos).

Definition EncodeGraphEdge_wf (self : EncodeGraphEdge) : Prop :=
 raw_ok (EncodeGraphEdge_source self) /\ raw_ok (EncodeGraphEdge_target self) /\
  raw_ok (EncodeGraphEdge_predicate self) /\ raw_ok (EncodeGraphEdge_kind self) /\
  f32_ok (EncodeGraphEdge_confidence self) /\ raw_ok (EncodeGraphEdge_event_at_unix_nanos self).

#[export] Instance EncodeGraphEdge_nested :
  Nested EncodeGraphEdge_wf EncodeGraphEdge_to_map EncodeGraphEdge_from_map.
Proof.
  intros []. wire_class EncodeGraphEdge_wf EncodeGraphEdge_to_map EncodeGraphEdge_from_map.
Qed.

(** ** [EncodeStageGraph] *)

Record EncodeStageGraph : Type := mk_EncodeStageGraph {
  EncodeStageGraph_nodes : list EncodeGraphNode; EncodeStageGraph_edges : list EncodeGraphEdge
}.

Definition EncodeStageGraph_to_map (self : EncodeStageGraph) : pyresult pyval :=
  py_dict
    ["nodes" ::= to_list EncodeGraphNode_to_map (EncodeStageGraph_nodes self);
     "edges" ::= to_list EncodeGraphEdge_to_map (EncodeStageGraph_edges self)].

Definition EncodeStageGraph_from_map (m : pyval) : pyresult EncodeStageGraph :=
  let* nodes := bind (py_getitem m "nodes") (from_list EncodeGraphNode_from_map) in
  let* edges := bind (py_getitem m "edges") (from_list EncodeGraphEdge_from_map) in
  Ok (mk_EncodeStageGraph nodes edges).

Definition EncodeStageGraph_wf (self : EncodeStageGraph) : Prop :=
 Forall EncodeGraphNode_wf (EncodeStageGraph_nodes self) /\
  Forall EncodeGraphEdge_wf (EncodeStageGraph_edges self).

#[export] Instance EncodeStageGraph_nested :
  Nested EncodeStageGraph_wf EncodeStageGraph_to_map EncodeStageGraph_from_map.
Proof.
  intros []. wire_class EncodeStageGraph_wf EncodeStageGraph_to_map EncodeStageGraph_from_map.
Qed.

(** ** [EncodeStageArtifact] *)

Record EncodeStageArtifact : Type := mk_EncodeStageArtifact {
  EncodeStageArtifact_vector : list pyval; EncodeStageArtifact_record : option EncodeStageRecord;
  EncodeStageArtifact_hype_questions : pyval;
  EncodeStageArtifact_keyword_fields : list EncodeStageKeywordField;
  EncodeStageArtifact_graph : option EncodeStageGraph
}.

Definition EncodeStageArtifact_to_map (self : EncodeStageArtifact) : pyresult pyval :=
  py_dict (
    when (nonempty (EncodeStageArtifact_vector self))
         ["vector" ::= to_list round_f32 (EncodeStageArtifact_vector self)]
    ++ emit_some "record" EncodeStageRecord_to_map (EncodeStageArtifact_record self)
    ++ when (py_bool (EncodeStageArtifact_hype_questions self))
         ["hype_questions" ::= py_list (EncodeStageArtifact_hype_questions self)]
    ++ when (nonempty (EncodeStageArtifact_keyword_fields self))
         ["keyword_fields" ::= to_list EncodeStageKeywordField_to_map (EncodeStageArtifact_keyword_fields self)]
    ++ emit_some "graph" EncodeStageGraph_to_map (EncodeStageArtifact_graph self)).

Definition EncodeStageArtifact_from_map (m : pyval) : pyresult EncodeStageArtifact :=
  let* record := py_get m "record" PNone in
  let* graph := py_get m "graph" PNone in
  let* vector := bind (py_get m "vector" (PList [])) (from_list to_float) in
  let* record := from_option EncodeStageRecord_from_map record in
  let* hype_questions := bind (py_get m "hype_questions" (PList [])) py_list in
  let* keyword_fields :=
    bind (py_get m "keyword_fields" (PList [])) (from_list EncodeStageKeywordField_from_map) in
  let* graph := from_option EncodeStageGraph_from_map graph in
  Ok (mk_EncodeStageArtifact vector record hype_questions keyword_fields graph).

Definition EncodeStageArtifact_wf (self : EncodeStageArtifact) : Prop :=
 Forall f32_ok (EncodeStageArtifact_vector self) /\
  option_ok EncodeStageRecord_wf (EncodeStageArtifact_record self) /\
  list_ok (EncodeStageArtifact_hype_questions self) /\
  Forall EncodeStageKeywordField_wf (EncodeStageArtifact_keyword_fields self) /\
  option_ok EncodeStageGraph_wf (EncodeStageArtifact_graph self).

#[export] Instance EncodeStageArtifact_nested :
  Nested EncodeStageArtifact_wf EncodeStageArtifact_to_map EncodeStageArtifact_from_map.
Proof.
  intros []. wire_class EncodeStageArtifact_wf EncodeStageArtifact_to_map EncodeStageArtifact_from_map.
Qed.

(** ** [EncodeTraceStage] *)

Record EncodeTraceStage : Type := mk_EncodeTraceStage {
  EncodeTraceStage_name : pyval; EncodeTraceStage_status : pyval;
  EncodeTraceStage_latency_us : pyval; EncodeTraceStage_detail : pyval;
  EncodeTraceStage_artifact : option EncodeStageArtifact
}.

Definition EncodeTraceStage_to_map (self : EncodeTraceStage) : pyresult pyval :=
  py_dict (
    ["name" ::= Ok (EncodeTraceStage_name self); "status" ::= Ok (EncodeTraceStage_status self);
     "latency_us" ::= Ok (EncodeTraceStage_latency_us self);
     "detail" ::= Ok (EncodeTraceStage_detail self)]
    ++ emit_some "artifact" EncodeStageArtifact_to_map (EncodeTraceStage_artifact self)).

Definition EncodeTraceStage_from_map (m : pyval) : pyresult EncodeTraceStage :=
  let* artifact := py_get m "artifact" PNone in
  let* name := py_getitem m "name" in
  let* status := py_getitem m "status" in
  let* latency_us := py_getitem m "latency_us" in
  let* detail := py_getitem m "detail" in
  let* artifact := from_option EncodeStageArtifact_from_map artifact in
  Ok (mk_EncodeTraceStage name status latency_us detail artifact).

Definition EncodeTraceStage_wf (self : EncodeTraceStage) : Prop :=
 raw_ok (EncodeTraceStage_name self) /\ raw_ok (EncodeTraceStage_status self) /\
  raw_ok (EncodeTraceStage_latency_us self) /\ raw_ok (EncodeTraceStage_detail self) /\
  option_ok EncodeStageArtifact_wf (EncodeTraceStage_artifact self).

#[export] Instance EncodeTraceStage_nested :
  Nested EncodeTraceStage_wf EncodeTraceStage_to_map EncodeTraceStage_from_map.
Proof.
  intros []. wire_class EncodeTraceStage_wf EncodeTraceStage_to_map EncodeTraceStage_from_map.
Qed.

(** ** [EncodeTraceEntity] *)

Record EncodeTraceEntity : Type := mk_EncodeTraceEntity {
  EncodeTraceEntity_id : pyval; EncodeTraceEntity_name : pyval;
  EncodeTraceEntity_type_qname : pyval
}.

Definition EncodeTraceEntity_to_map (self : EncodeTraceEntity) : pyresult pyval :=
  py_dict
    ["id" ::= Ok (EncodeTraceEntity_id self); "name" ::= Ok (EncodeTraceEntity_name self);
     "type_qname" ::= Ok (EncodeTraceEntity_type_qname self)].

Definition EncodeTraceEntity_from_map (m : pyval) : pyresult EncodeTraceEntity :=
  let* id := py_getitem m "id" in
  let* name := py_getitem m "name" in
  let* type_qname := py_getitem m "type_qname" in
  Ok (mk_EncodeTraceEntity id name type_qname).

Definition EncodeTraceEntity_wf (self : EncodeTraceEntity) : Prop :=
 raw_ok (EncodeTraceEntity_id self) /\ raw_ok (EncodeTraceEntity_name self) /\
  raw_ok (EncodeTraceEntity_type_qname self).

#[export] Instance EncodeTraceEntity_nested :
  Nested EncodeTraceEntity_wf EncodeTraceEntity_to_map EncodeTraceEntity_from_map.
Proof.
  intros []. wire_class EncodeTraceEntity_wf EncodeTraceEntity_to_map EncodeTraceEntity_from_map.
Qed.

(** ** [EncodeTraceStatement] *)

Record EncodeTraceStatement : Type := mk_EncodeTraceStatement {
  EncodeTraceStatement_id : pyval; EncodeTraceStatement_subject_name : pyval;
  EncodeTraceStatement_predicate : pyval; EncodeTraceStatement_object_name : pyval;
  EncodeTraceStatement_confidence : pyval; EncodeTraceStatement_event_at_unix_nanos : pyval
}.

Definition EncodeTraceStatement_to_map (self : EncodeTraceStatement) : pyresult pyval :=
  py_dict (
    ["id" ::= Ok (EncodeTraceStatement_id self);
     "subject_name" ::= Ok (EncodeTraceStatement_subject_name self);
     "predicate" ::= Ok (EncodeTraceStatement_predicate self);
     "object_name" ::= Ok (EncodeTraceStatement_object_name self);
     "confidence" ::= round_f32 (EncodeTraceStatement_confidence self)]
    ++ when (negb (is_none (EncodeTraceStatement_event_at_unix_nanos self)))
         ["event_at_unix_nanos" ::= Ok (EncodeTraceStatement_event_at_unix_nanos self)]).

Definition EncodeTraceStatement_from_map (m : pyval) : pyresult EncodeTraceStatement :=
  let* id := py_getitem m "id" in
  let* subject_name := py_getitem m "subject_name" in
  let* predicate := py_getitem m "predicate" in
  let* object_name := py_getitem m "object_name" in
  let* confidence := py_getitem m "confidence" in
  let* event_at_unix_nanos := py_get m "event_at_unix_nanos" PNone in
  Ok (mk_EncodeTraceStatement id subject_name predicate object_name confidence event_at_unix_nanos).

Definition EncodeTraceStatement_wf (self : EncodeTraceStatement) : Prop :=
 raw_ok (EncodeTraceStatement_id self) /\ raw_ok (EncodeTraceStatement_subject_name self) /\
  raw_ok (EncodeTraceStatement_predicate self) /\
  raw_ok (EncodeTraceStatement_object_name self) /\
  f32_ok (EncodeTraceStatement_confidence self) /\
  raw_ok (EncodeTraceStatement_event_at_unix_nanos self).

#[export] Instance EncodeTraceStatement_nested :
  Nested EncodeTraceStatement_wf EncodeTraceStatement_to_map EncodeTraceStatement_from_map.
Proof.
  intros []. wire_class EncodeTraceStatement_wf EncodeTraceStatement_to_map EncodeTraceStatement_from_map.
Qed.

(** ** [EncodeTraceRelation] *)

Record EncodeTraceRelation : Type := mk_EncodeTraceRelation {
  EncodeTraceRelation_source_name : pyval; EncodeTraceRelation_predicate : pyval;
  EncodeTraceRelation_target_name : pyval
}.

Definition EncodeTraceRelation_to_map (self : EncodeTraceRelation) : pyresult pyval :=
  py_dict
    ["source_name" ::= Ok (EncodeTraceRelation_source_name self);
     "predicate" ::= Ok (EncodeTraceRelation_predicate self);
     "target_name" ::= Ok (EncodeTraceRelation_target_name self)].

Definition EncodeTraceRelation_from_map (m : pyval) : pyresult EncodeTraceRelation :=
  let* source_name := py_getitem m "source_name" in
  let* predicate := py_getitem m "predicate" in
  let* target_name := py_getitem m "target_name" in
  Ok (mk_EncodeTraceRelation source_name predicate target_name).

Definition EncodeTraceRelation_wf (self : EncodeTraceRelation) : Prop :=
 raw_ok (EncodeTraceRelation_source_name self) /\ raw_ok (EncodeTraceRelation_predicate self) /\
  raw_ok (EncodeTraceRelation_target_name self).

#[export] Instance EncodeTraceRelation_nested :
  Nested EncodeTraceRelation_wf EncodeTraceRelation_to_map EncodeTraceRelation_from_map.
Proof.
  intros []. wire_class EncodeTraceRelation_wf EncodeTraceRelation_to_map EncodeTraceRelation_from_map.
Qed.

(** ** [EncodeTraceIndex] *)

Record EncodeTraceIndex : Type := mk_EncodeTraceIndex {
  EncodeTraceIndex_name : pyval; EncodeTraceIndex_status : pyval
}.

Definition EncodeTraceIndex_to_map (self : EncodeTraceIndex) : pyresult pyval :=
  py_dict
    ["name" ::= Ok (EncodeTraceIndex_name self); "status" ::= Ok (EncodeTraceIndex_status self)].

Definition EncodeTraceIndex_from_map (m : pyval) : pyresult EncodeTraceIndex :=
  let* name := py_getitem m "name" in
  let* status := py_getitem m "status" in
  Ok (mk_EncodeTraceIndex name status).

Definition EncodeTraceIndex_wf (self : EncodeTraceIndex) : Prop :=
 raw_ok (EncodeTraceIndex_name self) /\ raw_ok (EncodeTraceIndex_status self).

#[export] Instance EncodeTraceIndex_nested :
  Nested EncodeTraceIndex_wf EncodeTraceIndex_to_map EncodeTraceIndex_from_map.
Proof.
  intros []. wire_class EncodeTraceIndex_wf EncodeTraceIndex_to_map EncodeTraceIndex_from_map.
Qed.

(** ** [EncodeTraceDedup] *)

Record EncodeTraceDedup : Type := mk_EncodeTraceDedup {
  EncodeTraceDedup_was_deduplicated : pyval; EncodeTraceDedup_matched_memory_id : pyval
}.

Definition EncodeTraceDedup_to_map (self : EncodeTraceDedup) : pyresult pyval :=
  py_dict
    ["was_deduplicated" ::= Ok (EncodeTraceDedup_was_deduplicated self);
     "matched_memory_id" ::= Ok (EncodeTraceDedup_matched_memory_id self)].

Definition EncodeTraceDedup_from_map (m : pyval) : pyresult EncodeTraceDedup :=
  let* was_deduplicated := py_getitem m "was_deduplicated" in
  let* matched_memory_id := py_getitem m "matched_memory_id" in
  Ok (mk_EncodeTraceDedup was_deduplicated matched_memory_id).

Definition EncodeTraceDedup_wf (self : EncodeTraceDedup) : Prop :=
 raw_ok (EncodeTraceDedup_was_deduplicated self) /\
  raw_ok (EncodeTraceDedup_matched_memory_id self).

#[export] Instance EncodeTraceDedup_nested :
  Nested EncodeTraceDedup_wf EncodeTraceDedup_to_map EncodeTraceDedup_from_map.
Proof.
  intros []. wire_class EncodeTraceDedup_wf EncodeTraceDedup_to_map EncodeTraceDedup_from_map.
Qed.

(** ** [EncodeTraceArtifacts] *)

Record EncodeTraceArtifacts : Type := mk_EncodeTraceArtifacts {
  EncodeTraceArtifacts_entities : list EncodeTraceEntity;
  EncodeTraceArtifacts_statements : list EncodeTraceStatement;
  EncodeTraceArtifacts_relations : list EncodeTraceRelation;
  EncodeTraceArtifacts_indexes : list EncodeTraceIndex;
  EncodeTraceArtifacts_dedup : EncodeTraceDedup
}.

Definition EncodeTraceArtifacts_to_map (self : EncodeTraceArtifacts) : pyresult pyval :=
  py_dict
    ["entities" ::= to_list EncodeTraceEntity_to_map (EncodeTraceArtifacts_entities self);
     "statements" ::= to_list EncodeTraceStatement_to_map (EncodeTraceArtifacts_statements self);
     "relations" ::= to_list EncodeTraceRelation_to_map (EncodeTraceArtifacts_relations self);
     "indexes" ::= to_list EncodeTraceIndex_to_map (EncodeTraceArtifacts_indexes self);
     "dedup" ::= EncodeTraceDedup_to_map (EncodeTraceArtifacts_dedup self)].

Definition EncodeTraceArtifacts_from_map (m : pyval) : pyresult EncodeTraceArtifacts :=
  let* entities := bind (py_getitem m "entities") (from_list EncodeTraceEntity_from_map) in
  let* statements := bind (py_getitem m "statements") (from_list EncodeTraceStatement_from_map) in
  let* relations := bind (py_getitem m "relations") (from_list EncodeTraceRelation_from_map) in
  let* indexes := bind (py_getitem m "indexes") (from_list EncodeTraceIndex_from_map) in
  let* dedup := bind (py_getitem m "dedup") EncodeTraceDedup_from_map in
  Ok (mk_EncodeTraceArtifacts entities statements relations indexes dedup).

Definition EncodeTraceArtifacts_wf (self : EncodeTraceArtifacts) : Prop :=
 Forall EncodeTraceEntity_wf (EncodeTraceArtifacts_entities self) /\
  Forall EncodeTraceStatement_wf (EncodeTraceArtifacts_statements self) /\
  Forall EncodeTraceRelation_wf (EncodeTraceArtifacts_relations self) /\
  Forall EncodeTraceIndex_wf (EncodeTraceArtifacts_indexes self) /\
  EncodeTraceDedup_wf (EncodeTraceArtifacts_dedup self).

#[export] Instance EncodeTraceArtifacts_nested :
  Nested EncodeTraceArtifacts_wf EncodeTraceArtifacts_to_map EncodeTraceArtifacts_from_map.
Proof.
  intros []. wire_class EncodeTraceArtifacts_wf EncodeTraceArtifacts_to_map EncodeTraceArtifacts_from_map.
Qed.

(** ** [EncodeTrace] *)

Record EncodeTrace : Type := mk_EncodeTrace {
  EncodeTrace_stages : list EncodeTraceStage; EncodeTrace_artifacts : EncodeTraceArtifacts;
  EncodeTrace_total_latency_us : pyval
}.

Definition EncodeTrace_to_map (self : EncodeTrace) : pyresult pyval :=
  py_dict
    ["stages" ::= to_list EncodeTraceStage_to_map (EncodeTrace_stages self);
     "artifacts" ::= EncodeTraceArtifacts_to_map (EncodeTrace_artifacts self);
     "total_latency_us" ::= Ok (EncodeTrace_total_latency_us self)].

Definition EncodeTrace_from_map (m : pyval) : pyresult EncodeTrace :=
  let* stages := bind (py_getitem m "stages") (from_list EncodeTraceStage_from_map) in
  let* artifacts := bind (py_getitem m "artifacts") EncodeTraceArtifacts_from_map in
  let* total_latency_us := py_getitem m "total_latency_us" in
  Ok (mk_EncodeTrace stages artifacts total_latency_us).

Definition EncodeTrace_wf (self : EncodeTrace) : Prop :=
 Forall EncodeTraceStage_wf (EncodeTrace_stages self) /\
  EncodeTraceArtifacts_wf (EncodeTrace_artifacts self) /\
  raw_ok (EncodeTrace_total_latency_us self).

#[export] Instance EncodeTrace_nested :
  Nested EncodeTrace_wf EncodeTrace_to_map EncodeTrace_from_map.
Proof. intros []. wire_class EncodeTrace_wf EncodeTrace_to_map EncodeTrace_from_map. Qed.

(** ** [EncodeResponse] *)

Record EncodeResponse : Type := mk_EncodeResponse {
  EncodeResponse_memory_id : pyval; EncodeResponse_was_deduplicated : pyval;
  EncodeResponse_salience : pyval; EncodeResponse_auto_edges_added : pyval;
  EncodeResponse_lsn : pyval; EncodeResponse_space_id : pyval; EncodeResponse_session_id : pyval;
  EncodeResponse_kind : pyval; EncodeResponse_created_at_unix_nanos : pyval;
  EncodeResponse_edges_out_count : pyval; EncodeResponse_embedding_model_fp : pyval;
  EncodeResponse_pending_stages : pyval; EncodeResponse_has_active_schema : pyval;
  EncodeResponse_trace : option EncodeTrace
}.

Definition EncodeResponse_to_map (self : EncodeResponse) : pyresult pyval :=
  py_dict (
    ["memory_id" ::= Ok (EncodeResponse_memory_id self);
     "was_deduplicated" ::= Ok (EncodeResponse_was_deduplicated self);
     "salience" ::= round_f32 (EncodeResponse_salience self);
     "auto_edges_added" ::= Ok (EncodeResponse_auto_edges_added self);
     "lsn" ::= Ok (EncodeResponse_lsn self); "space_id" ::= Ok (EncodeResponse_space_id self);
     "session_id" ::= Ok (EncodeResponse_session_id self);
     "kind" ::= Ok (EncodeResponse_kind self);
     "created_at_unix_nanos" ::= Ok (EncodeResponse_created_at_unix_nanos self);
     "edges_out_count" ::= Ok (EncodeResponse_edges_out_count self);
     "embedding_model_fp" ::= Ok (EncodeResponse_embedding_model_fp self);
     "pending_stages" ::= py_list (EncodeResponse_pending_stages self);
     "has_active_schema" ::= Ok (EncodeResponse_has_active_schema self)]
    ++ emit_some "trace" EncodeTrace_to_map (EncodeResponse_trace self)).

Definition EncodeResponse_from_map (m : pyval) : pyresult EncodeResponse :=
  let* trace := py_get m "trace" PNone in
  let* memory_id := py_getitem m "memory_id" in
  let* was_deduplicated := py_getitem m "was_deduplicated" in
  let* salience := py_getitem m "salience" in
  let* auto_edges_added := py_getitem m "auto_edges_added" in
  let* lsn := py_getitem m "lsn" in
  let* space_id := py_getitem m "space_id" in
  let* session_id := py_getitem m "session_id" in
  let* kind := py_getitem m "kind" in
  let* created_at_unix_nanos := py_getitem m "created_at_unix_nanos" in
  let* edges_out_count := py_getitem m "edges_out_count" in
  let* embedding_model_fp := py_getitem m "embedding_model_fp" in
  let* pending_stages := bind (py_getitem m "pending_stages") py_list in
  let* has_active_schema := py_getitem m "has_active_schema" in
  let* trace := from_option EncodeTrace_from_map trace in
  Ok (mk_EncodeResponse memory_id was_deduplicated salience auto_edges_added lsn space_id session_id
    kind created_at_unix_nanos edges_out_count embedding_model_fp pending_stages has_active_schema
    trace).

Definition EncodeResponse_wf (self : EncodeResponse) : Prop :=
 raw_ok (EncodeResponse_memory_id self) /\ raw_ok (EncodeResponse_was_deduplicated self) /\
  f32_ok (EncodeResponse_salience self) /\ raw_ok (EncodeResponse_auto_edges_added self) /\
  raw_ok (EncodeResponse_lsn self) /\ raw_ok (EncodeResponse_space_id self) /\
  raw_ok (EncodeResponse_session_id self) /\ raw_ok (EncodeResponse_kind self) /\
  raw_ok (EncodeResponse_created_at_unix_nanos self) /\
  raw_ok (EncodeResponse_edges_out_count self) /\
  raw_ok (EncodeResponse_embedding_model_fp self) /\
  list_ok (EncodeResponse_pending_stages self) /\
  raw_ok (EncodeResponse_has_active_schema self) /\
  option_ok EncodeTrace_wf (EncodeResponse_trace self).

#[export] Instance EncodeResponse_nested :
  Nested EncodeResponse_wf EncodeResponse_to_map EncodeResponse_from_map.
Proof. intros []. wire_class EncodeResponse_wf EncodeResponse_to_map EncodeResponse_from_map. Qed.

#[export] Instance EncodeResponse_payload : WirePayload EncodeResponse :=
  map_payload EncodeResponse_to_map EncodeResponse_from_map.
#[export] Instance EncodeResponse_laws : WireLaws EncodeResponse :=
  map_laws _ _ _ (fun self m E => py_dict_is_dict _ _ E).

(** ** [MemoryInspectRequest] *)

Record MemoryInspectRequest : Type := mk_MemoryInspectRequest {
  MemoryInspectRequest_memory_id : pyval; MemoryInspectRequest_act_as : option ActAs
}.

Definition MemoryInspectRequest_to_map (self : MemoryInspectRequest) : pyresult pyval :=
  py_dict (
    ["memory_id" ::= Ok (MemoryInspectRequest_memory_id self)]
    ++ emit_some "act_as" ActAs_to_map (MemoryInspectRequest_act_as self)).

Definition MemoryInspectRequest_from_map (m : pyval) : pyresult MemoryInspectRequest :=
  let* act_as := py_get m "act_as" PNone in
  let* memory_id := py_getitem m "memory_id" in
  let* act_as := from_option ActAs_from_map act_as in
  Ok (mk_MemoryInspectRequest memory_id act_as).

Definition MemoryInspectRequest_wf (self : MemoryInspectRequest) : Prop :=
 raw_ok (MemoryInspectRequest_memory_id self) /\
  option_ok ActAs_wf (MemoryInspectRequest_act_as self).

#[export] Instance MemoryInspectRequest_nested :
  Nested MemoryInspectRequest_wf MemoryInspectRequest_to_map MemoryInspectRequest_from_map.
Proof.
  intros []. wire_class MemoryInspectRequest_wf MemoryInspectRequest_to_map MemoryInspectRequest_from_map.
Qed.

#[export] Instance MemoryInspectRequest_payload : WirePayload MemoryInspectRequest :=
  map_payload MemoryInspectRequest_to_map MemoryInspectRequest_from_map.
#[export] Instance MemoryInspectRequest_laws : WireLaws MemoryInspectRequest :=
  map_laws _ _ _ (fun self m E => py_dict_is_dict _ _ E).

(** ** [MemoryEdge] *)

Record MemoryEdge : Type := mk_MemoryEdge {
  MemoryEdge_kind : pyval; MemoryEdge_direction : pyval; MemoryEdge_peer : pyval;
  MemoryEdge_weight : pyval; MemoryEdge_created_at_unix_nanos : pyval;
  MemoryEdge_annotation : pyval
}.

Definition MemoryEdge_to_map (self : MemoryEdge) : pyresult pyval :=
  py_dict
    ["kind" ::= Ok (MemoryEdge_kind self); "direction" ::= Ok (MemoryEdge_direction self);
     "peer" ::= Ok (MemoryEdge_peer self); "weight" ::= round_f32 (MemoryEdge_weight self);
     "created_at_unix_nanos" ::= Ok (MemoryEdge_created_at_unix_nanos self);
     "annotation" ::= Ok (MemoryEdge_annotation self)].

Definition MemoryEdge_from_map (m : pyval) : pyresult MemoryEdge :=
  let* kind := py_getitem m "kind" in
  let* direction := py_getitem m "direction" in
  let* peer := py_getitem m "peer" in
  let* weight := py_getitem m "weight" in
  let* created_at_unix_nanos := py_getitem m "created_at_unix_nanos" in
  let* annotation := py_get m "annotation" PNone in
  Ok (mk_MemoryEdge kind direction peer weight created_at_unix_nanos annotation).

Definition MemoryEdge_wf (self : MemoryEdge) : Prop :=
 raw_ok (MemoryEdge_kind self) /\ raw_ok (MemoryEdge_direction self) /\
  raw_ok (MemoryEdge_peer self) /\ f32_ok (MemoryEdge_weight self) /\
  raw_ok (MemoryEdge_created_at_unix_nanos self) /\ raw_ok (MemoryEdge_annotation self).

#[export] Instance MemoryEdge_nested : Nested MemoryEdge_wf MemoryEdge_to_map MemoryEdge_from_map.
Proof. intros []. wire_class MemoryEdge_wf MemoryEdge_to_map MemoryEdge_from_map. Qed.

(** ** [MemoryInspectResponse] *)

Record MemoryInspectResponse : Type := mk_MemoryInspectResponse {
  MemoryInspectResponse_memory_id : pyval; MemoryInspectResponse_text : pyval;
  MemoryInspectResponse_artifact : EncodeStageArtifact;
  MemoryInspectResponse_edges : list MemoryEdge
}.

Definition MemoryInspectResponse_to_map (self : MemoryInspectResponse) : pyresult pyval :=
  py_dict
    ["memory_id" ::= Ok (MemoryInspectResponse_memory_id self);
     "text" ::= Ok (MemoryInspectResponse_text self);
     "artifact" ::= EncodeStageArtifact_to_map (MemoryInspectResponse_artifact self);
     "edges" ::= to_list MemoryEdge_to_map (MemoryInspectResponse_edges self)].

Definition MemoryInspectResponse_from_map (m : pyval) : pyresult MemoryInspectResponse :=
  let* memory_id := py_getitem m "memory_id" in
  let* text := py_getitem m "text" in
  let* artifact := bind (py_getitem m "artifact") EncodeStageArtifact_from_map in
  let* edges := bind (py_get m "edges" (PList [])) (from_list MemoryEdge_from_map) in
  Ok (mk_MemoryInspectResponse memory_id text artifact edges).

Definition MemoryInspectResponse_wf (self : MemoryInspectResponse) : Prop :=
 raw_ok (MemoryInspectResponse_memory_id self) /\ raw_ok (MemoryInspectResponse_text self) /\
  EncodeStageArtifact_wf (MemoryInspectResponse_artifact self) /\
  Forall MemoryEdge_wf (MemoryInspectResponse_edges self).

#[export] Instance MemoryInspectResponse_nested :
  Nested MemoryInspectResponse_wf MemoryInspectResponse_to_map MemoryInspectResponse_from_map.
Proof.
  intros []. wire_class MemoryInspectResponse_wf MemoryInspectResponse_to_map MemoryInspectResponse_from_map.
Qed.

#[export] Instance MemoryInspectResponse_payload : WirePayload MemoryInspectResponse :=
  map_payload MemoryInspectResponse_to_map MemoryInspectResponse_from_map.
#[export] Instance MemoryInspectResponse_laws : WireLaws MemoryInspectResponse :=
  map_laws _ _ _ (fun self m E => py_dict_is_dict _ _ E).
