(* ===== verification/WireRecall.v ===== *)
(** * WireRecall

    [wire/types.py], RECALL: the request, the streamed response frames with
    their enrichment, the retrieval trace, and FORGET. *)

From S2P Require Import Prelude PyFloat PyValue Rfc8949 Cbor CborScan CborCodec WireEnums WireCodec.
From S2P Require Import WireHandshake.

(** ** [RecallRequest] *)

Record RecallRequest : Type := mk_RecallRequest {
  RecallRequest_cue_text : pyval; RecallRequest_subject_name : pyval;
  RecallRequest_max_results : pyval; RecallRequest_confidence_threshold : pyval;
  RecallRequest_session_filter : pyval; RecallRequest_age_bound_unix_nanos : pyval;
  RecallRequest_as_of_record_time_unix_nanos : pyval; RecallRequest_kind_filter : pyval;
  RecallRequest_salience_floor : pyval; RecallRequest_include_edges : pyval;
  RecallRequest_include_graph : pyval; RecallRequest_include_text : pyval;
  RecallRequest_request_id : pyval; RecallRequest_txn_id : pyval; RecallRequest_trace : pyval;
  RecallRequest_act_as : option ActAs; RecallRequest_scope : pyval
}.

Definition RecallRequest_to_map (self : RecallRequest) : pyresult pyval :=
  py_dict (
    ["cue_text" ::= Ok (RecallRequest_cue_text self);
     "subject_name" ::= Ok (RecallRequest_subject_name self);
     "max_results" ::= Ok (RecallRequest_max_results self);
     "confidence_threshold" ::= round_f32 (RecallRequest_confidence_threshold self);
     "session_filter" ::= none_or py_list (RecallRequest_session_filter self);
     "age_bound_unix_nanos" ::= Ok (RecallRequest_age_bound_unix_nanos self);
     "as_of_record_time_unix_nanos" ::= Ok (RecallRequest_as_of_record_time_unix_nanos self);
     "kind_filter" ::= none_or py_list (RecallRequest_kind_filter self);
     "salience_floor" ::= round_f32 (RecallRequest_salience_floor self);
     "include_edges" ::= Ok (RecallRequest_include_edges self);
     "include_graph" ::= Ok (RecallRequest_include_graph self);
     "include_text" ::= Ok (RecallRequest_include_text self);
     "request_id" ::= Ok (RecallRequest_request_id self);
     "txn_id" ::= Ok (RecallRequest_txn_id self); "trace" ::= Ok (RecallRequest_trace self)]
    ++ emit_some "act_as" ActAs_to_map (RecallRequest_act_as self)
    ++ ["scope" ::= Ok (RecallRequest_scope self)]).

Definition RecallRequest_from_map (m : pyval) : pyresult RecallRequest :=
  let* act_as := py_get m "act_as" PNone in
  let* cue_text := py_getitem m "cue_text" in
  let* subject_name := py_getitem m "subject_name" in
  let* max_results := py_getitem m "max_results" in
  let* confidence_threshold := py_getitem m "confidence_threshold" in
  let* session_filter := bind (py_getitem m "session_filter") (none_or py_list) in
  let* age_bound_unix_nanos := py_getitem m "age_bound_unix_nanos" in
  let* as_of_record_time_unix_nanos := py_getitem m "as_of_record_time_unix_nanos" in
  let* kind_filter := bind (py_getitem m "kind_filter") (none_or py_list) in
  let* salience_floor := py_getitem m "salience_floor" in
  let* include_edges := py_getitem m "include_edges" in
  let* include_graph := py_getitem m "include_graph" in
  let* include_text := py_getitem m "include_text" in
  let* request_id := py_getitem m "request_id" in
  let* txn_id := py_getitem m "txn_id" in
  let* trace := bind (py_get m "trace" (PBool false)) to_bool in
  let* act_as := from_option ActAs_from_map act_as in
  let* scope := py_get m "scope" (PStr RecallScope_SPACE_wire) in
  Ok (mk_RecallRequest cue_text subject_name max_results confidence_threshold session_filter
    age_bound_unix_nanos as_of_record_time_unix_nanos kind_filter salience_floor include_edges
    include_graph include_text request_id txn_id trace act_as scope).

Definition RecallRequest_wf (self : RecallRequest) : Prop :=
 raw_ok (RecallRequest_cue_text self) /\ raw_ok (RecallRequest_subject_name self) /\
  raw_ok (RecallRequest_max_results self) /\ f32_ok (RecallRequest_confidence_threshold self) /\
  none_or_ok list_ok (RecallRequest_session_filter self) /\
  raw_ok (RecallRequest_age_bound_unix_nanos self) /\
  raw_ok (RecallRequest_as_of_record_time_unix_nanos self) /\
  none_or_ok list_ok (RecallRequest_kind_filter self) /\
  f32_ok (RecallRequest_salience_floor self) /\ raw_ok (RecallRequest_include_edges self) /\
  raw_ok (RecallRequest_include_graph self) /\ raw_ok (RecallRequest_include_text self) /\
  raw_ok (RecallRequest_request_id self) /\ raw_ok (RecallRequest_txn_id self) /\
  bool_ok (RecallRequest_trace self) /\ option_ok ActAs_wf (RecallRequest_act_as self) /\
  raw_ok (RecallRequest_scope self).

#[export] Instance RecallRequest_nested :
  Nested RecallRequest_wf RecallRequest_to_map RecallRequest_from_map.
Proof. intros []. wire_class RecallRequest_wf RecallRequest_to_map RecallRequest_from_map. Qed.

#[export] Instance RecallRequest_payload : WirePayload RecallRequest :=
  map_payload RecallRequest_to_map RecallRequest_from_map.
#[export] Instance RecallRequest_laws : WireLaws RecallRequest :=
  map_laws _ _ _ (fun self m E => py_dict_is_dict _ _ E).

(** ** [EdgeView] *)

Record EdgeView : Type := mk_EdgeView {
  EdgeView_target : pyval; EdgeView_kind : pyval; EdgeView_weight : pyval
}.

Definition EdgeView_to_map (self : EdgeView) : pyresult pyval :=
  py_dict
    ["target" ::= Ok (EdgeView_target self); "kind" ::= Ok (EdgeView_kind self);
     "weight" ::= round_f32 (EdgeView_weight self)].

Definition EdgeView_from_map (m : pyval) : pyresult EdgeView :=
  let* target := py_getitem m "target" in
  let* kind := py_getitem m "kind" in
  let* weight := py_getitem m "weight" in
  Ok (mk_EdgeView target kind weight).

Definition EdgeView_wf (self : EdgeView) : Prop :=
 raw_ok (EdgeView_target self) /\ raw_ok (EdgeView_kind self) /\ f32_ok (EdgeView_weight self).

#[export] Instance EdgeView_nested : Nested EdgeView_wf EdgeView_to_map EdgeView_from_map.
Proof. intros []. wire_class EdgeView_wf EdgeView_to_map EdgeView_from_map. Qed.

(** ** [EnrichedEntity] *)

Record EnrichedEntity : Type := mk_EnrichedEntity {
  EnrichedEntity_id : pyval; EnrichedEntity_name : pyval; EnrichedEntity_type_qname : pyval
}.

Definition EnrichedEntity_to_map (self : EnrichedEntity) : pyresult pyval :=
  py_dict
    ["id" ::= Ok (EnrichedEntity_id self); "name" ::= Ok (EnrichedEntity_name self);
     "type_qname" ::= Ok (EnrichedEntity_type_qname self)].

Definition EnrichedEntity_from_map (m : pyval) : pyresult EnrichedEntity :=
  let* id := py_getitem m "id" in
  let* name := py_getitem m "name" in
  let* type_qname := py_getitem m "type_qname" in
  Ok (mk_EnrichedEntity id name type_qname).

Definition EnrichedEntity_wf (self : EnrichedEntity) : Prop :=
 raw_ok (EnrichedEntity_id self) /\ raw_ok (EnrichedEntity_name self) /\
  raw_ok (EnrichedEntity_type_qname self).

#[export] Instance EnrichedEntity_nested :
  Nested EnrichedEntity_wf EnrichedEntity_to_map EnrichedEntity_from_map.
Proof. intros []. wire_class EnrichedEntity_wf EnrichedEntity_to_map EnrichedEntity_from_map. Qed.

(** ** [EnrichedStatement] *)

Record EnrichedStatement : Type := mk_EnrichedStatement {
  EnrichedStatement_id : pyval; EnrichedStatement_subject_name : pyval;
  EnrichedStatement_predicate : pyval; EnrichedStatement_object_label : pyval;
  EnrichedStatement_confidence : pyval; EnrichedStatement_event_at_unix_nanos : pyval;
  EnrichedStatement_object_entity_id : pyval
}.

Definition EnrichedStatement_to_map (self : EnrichedStatement) : pyresult pyval :=
  py_dict (
    ["id" ::= Ok (EnrichedStatement_id self);
     "subject_name" ::= Ok (EnrichedStatement_subject_name self);
     "predicate" ::= Ok (EnrichedStatement_predicate self);
     "object_label" ::= Ok (EnrichedStatement_object_label self);
     "confidence" ::= round_f32 (EnrichedStatement_confidence self)]
    ++ when (negb (is_none (EnrichedStatement_event_at_unix_nanos self)))
         ["event_at_unix_nanos" ::= Ok (EnrichedStatement_event_at_unix_nanos self)]
    ++ when (negb (is_none (EnrichedStatement_object_entity_id self)))
         ["object_entity_id" ::= Ok (EnrichedStatement_object_entity_id self)]).

Definition EnrichedStatement_from_map (m : pyval) : pyresult EnrichedStatement :=
  let* id := py_getitem m "id" in
  let* subject_name := py_getitem m "subject_name" in
  let* predicate := py_getitem m "predicate" in
  let* object_label := py_getitem m "object_label" in
  let* confidence := py_getitem m "confidence" in
  let* event_at_unix_nanos := py_get m "event_at_unix_nanos" PNone in
  let* object_entity_id := py_get m "object_entity_id" PNone in
  Ok (mk_EnrichedStatement id subject_name predicate object_label confidence event_at_unix_nanos
    object_entity_id).

Definition EnrichedStatement_wf (self : EnrichedStatement) : Prop :=
 raw_ok (EnrichedStatement_id self) /\ raw_ok (EnrichedStatement_subject_name self) /\
  raw_ok (EnrichedStatement_predicate self) /\ raw_ok (EnrichedStatement_object_label self) /\
  f32_ok (EnrichedStatement_confidence self) /\
  raw_ok (EnrichedStatement_event_at_unix_nanos self) /\
  raw_ok (EnrichedStatement_object_entity_id self).

#[export] Instance EnrichedStatement_nested :
  Nested EnrichedStatement_wf EnrichedStatement_to_map EnrichedStatement_from_map.
Proof.
  intros []. wire_class EnrichedStatement_wf EnrichedStatement_to_map EnrichedStatement_from_map.
Qed.

(** ** [EnrichedRelation] *)

Record EnrichedRelation : Type := mk_EnrichedRelation {
  EnrichedRelation_from_name : pyval; EnrichedRelation_predicate : pyval;
  EnrichedRelation_to_name : pyval
}.

Definition EnrichedRelation_to_map (self : EnrichedRelation) : pyresult pyval :=
  py_dict
    ["from_name" ::= Ok (EnrichedRelation_from_name self);
     "predicate" ::= Ok (EnrichedRelation_predicate self);
     "to_name" ::= Ok (EnrichedRelation_to_name self)].

Definition EnrichedRelation_from_map (m : pyval) : pyresult EnrichedRelation :=
  let* from_name := py_getitem m "from_name" in
  let* predicate := py_getitem m "predicate" in
  let* to_name := py_getitem m "to_name" in
  Ok (mk_EnrichedRelation from_name predicate to_name).

Definition EnrichedRelation_wf (self : EnrichedRelation) : Prop :=
 raw_ok (EnrichedRelation_from_name self) /\ raw_ok (EnrichedRelation_predicate self) /\
  raw_ok (EnrichedRelation_to_name self).

#[export] Instance EnrichedRelation_nested :
  Nested EnrichedRelation_wf EnrichedRelation_to_map EnrichedRelation_from_map.
Proof.
  intros []. wire_class EnrichedRelation_wf EnrichedRelation_to_map EnrichedRelation_from_map.
Qed.

(** ** [GraphEnrichment] *)

Record GraphEnrichment : Type := mk_GraphEnrichment {
  GraphEnrichment_entities : list EnrichedEntity;
  GraphEnrichment_statements : list EnrichedStatement;
  GraphEnrichment_relations : list EnrichedRelation
}.

Definition GraphEnrichment_to_map (self : GraphEnrichment) : pyresult pyval :=
  py_dict
    ["entities" ::= to_list EnrichedEntity_to_map (GraphEnrichment_entities self);
     "statements" ::= to_list EnrichedStatement_to_map (GraphEnrichment_statements self);
     "relations" ::= to_list EnrichedRelation_to_map (GraphEnrichment_relations self)].

Definition GraphEnrichment_from_map (m : pyval) : pyresult GraphEnrichment :=
  let* entities := bind (py_getitem m "entities") (from_list EnrichedEntity_from_map) in
  let* statements := bind (py_getitem m "statements") (from_list EnrichedStatement_from_map) in
  let* relations := bind (py_getitem m "relations") (from_list EnrichedRelation_from_map) in
  Ok (mk_GraphEnrichment entities statements relations).

Definition GraphEnrichment_wf (self : GraphEnrichment) : Prop :=
 Forall EnrichedEntity_wf (GraphEnrichment_entities self) /\
  Forall EnrichedStatement_wf (GraphEnrichment_statements self) /\
  Forall EnrichedRelation_wf (GraphEnrichment_relations self).

#[export] Instance GraphEnrichment_nested :
  Nested GraphEnrichment_wf GraphEnrichment_to_map GraphEnrichment_from_map.
Proof.
  intros []. wire_class GraphEnrichment_wf GraphEnrichment_to_map GraphEnrichment_from_map.
Qed.

(** ** [MemoryResult] *)

Record MemoryResult : Type := mk_MemoryResult {
  MemoryResult_memory_id : pyval; MemoryResult_text : pyval;
  MemoryResult_similarity_score : pyval; MemoryResult_confidence : pyval;
  MemoryResult_salience : pyval; MemoryResult_kind : pyval; MemoryResult_space_id : pyval;
  MemoryResult_session_id : pyval; MemoryResult_created_at_unix_nanos : pyval;
  MemoryResult_last_accessed_at_unix_nanos : pyval; MemoryResult_edges : option (list EdgeView);
  MemoryResult_contributing_retrievers : pyval; MemoryResult_fused_score : pyval;
  MemoryResult_rerank_score : pyval; MemoryResult_salience_initial : pyval;
  MemoryResult_access_count : pyval; MemoryResult_lsn : pyval; MemoryResult_flags : pyval;
  MemoryResult_consolidated_at_unix_nanos : pyval; MemoryResult_occurred_at_unix_nanos : pyval;
  MemoryResult_edges_out_count : pyval; MemoryResult_edges_in_count : pyval;
  MemoryResult_graph : option GraphEnrichment
}.

Definition MemoryResult_to_map (self : MemoryResult) : pyresult pyval :=
  py_dict
    ["memory_id" ::= Ok (MemoryResult_memory_id self); "text" ::= Ok (MemoryResult_text self);
     "similarity_score" ::= round_f32 (MemoryResult_similarity_score self);
     "confidence" ::= round_f32 (MemoryResult_confidence self);
     "salience" ::= round_f32 (MemoryResult_salience self);
     "kind" ::= Ok (MemoryResult_kind self); "space_id" ::= Ok (MemoryResult_space_id self);
     "session_id" ::= Ok (MemoryResult_session_id self);
     "created_at_unix_nanos" ::= Ok (MemoryResult_created_at_unix_nanos self);
     "last_accessed_at_unix_nanos" ::= Ok (MemoryResult_last_accessed_at_unix_nanos self);
     "edges" ::= to_option (to_list EdgeView_to_map) (MemoryResult_edges self);
     "contributing_retrievers" ::= py_list (MemoryResult_contributing_retrievers self);
     "fused_score" ::= round_f32 (MemoryResult_fused_score self);
     "rerank_score" ::= none_or round_f32 (MemoryResult_rerank_score self);
     "salience_initial" ::= round_f32 (MemoryResult_salience_initial self);
     "access_count" ::= Ok (MemoryResult_access_count self); "lsn" ::= Ok (MemoryResult_lsn self);
     "flags" ::= Ok (MemoryResult_flags self);
     "consolidated_at_unix_nanos" ::= Ok (MemoryResult_consolidated_at_unix_nanos self);
     "occurred_at_unix_nanos" ::= Ok (MemoryResult_occurred_at_unix_nanos self);
     "edges_out_count" ::= Ok (MemoryResult_edges_out_count self);
     "edges_in_count" ::= Ok (MemoryResult_edges_in_count self);
     "graph" ::= to_option GraphEnrichment_to_map (MemoryResult_graph self)].

Definition MemoryResult_from_map (m : pyval) : pyresult MemoryResult :=
  let* memory_id := py_getitem m "memory_id" in
  let* text := py_getitem m "text" in
  let* similarity_score := py_getitem m "similarity_score" in
  let* confidence := py_getitem m "confidence" in
  let* salience := py_getitem m "salience" in
  let* kind := py_getitem m "kind" in
  let* space_id := py_getitem m "space_id" in
  let* session_id := py_getitem m "session_id" in
  let* created_at_unix_nanos := py_getitem m "created_at_unix_nanos" in
  let* last_accessed_at_unix_nanos := py_getitem m "last_accessed_at_unix_nanos" in
  let* edges := bind (py_getitem m "edges") (from_option (from_list EdgeView_from_map)) in
  let* contributing_retrievers := bind (py_getitem m "contributing_retrievers") py_list in
  let* fused_score := py_getitem m "fused_score" in
  let* rerank_score := py_getitem m "rerank_score" in
  let* salience_initial := py_getitem m "salience_initial" in
  let* access_count := py_getitem m "access_count" in
  let* lsn := py_getitem m "lsn" in
  let* flags := py_getitem m "flags" in
  let* consolidated_at_unix_nanos := py_getitem m "consolidated_at_unix_nanos" in
  let* occurred_at_unix_nanos := py_getitem m "occurred_at_unix_nanos" in
  let* edges_out_count := py_getitem m "edges_out_count" in
  let* edges_in_count := py_getitem m "edges_in_count" in
  let* graph := bind (py_getitem m "graph") (from_option GraphEnrichment_from_map) in
  Ok (mk_MemoryResult memory_id text similarity_score confidence salience kind space_id session_id
    created_at_unix_nanos last_accessed_at_unix_nanos edges contributing_retrievers fused_score
    rerank_score salience_initial access_count lsn flags consolidated_at_unix_nanos
    occurred_at_unix_nanos edges_out_count edges_in_count graph).

Definition MemoryResult_wf (self : MemoryResult) : Prop :=
 raw_ok (MemoryResult_memory_id self) /\ raw_ok (MemoryResult_text self) /\
  f32_ok (MemoryResult_similarity_score self) /\ f32_ok (MemoryResult_confidence self) /\
  f32_ok (MemoryResult_salience self) /\ raw_ok (MemoryResult_kind self) /\
  raw_ok (MemoryResult_space_id self) /\ raw_ok (MemoryResult_session_id self) /\
  raw_ok (MemoryResult_created_at_unix_nanos self) /\
  raw_ok (MemoryResult_last_accessed_at_unix_nanos self) /\
  option_ok (Forall EdgeView_wf) (MemoryResult_edges self) /\
  list_ok (MemoryResult_contributing_retrievers self) /\ f32_ok (MemoryResult_fused_score self) /\
  none_or_ok f32_ok (MemoryResult_rerank_score self) /\
  f32_ok (MemoryResult_salience_initial self) /\ raw_ok (MemoryResult_access_count self) /\
  raw_ok (MemoryResult_lsn self) /\ raw_ok (MemoryResult_flags self) /\
  raw_ok (MemoryResult_consolidated_at_unix_nanos self) /\
  raw_ok (MemoryResult_occurred_at_unix_nanos self) /\
  raw_ok (MemoryResult_edges_out_count self) /\ raw_ok (MemoryResult_edges_in_count self) /\
  option_ok GraphEnrichment_wf (MemoryResult_graph self).

#[export] Instance MemoryResult_nested :
  Nested MemoryResult_wf MemoryResult_to_map MemoryResult_from_map.
Proof. intros []. wire_class MemoryResult_wf MemoryResult_to_map MemoryResult_from_map. Qed.

(** ** [RecallTraceCandidate] *)

Record RecallTraceCandidate : Type := mk_RecallTraceCandidate {
  RecallTraceCandidate_item_id : pyval; RecallTraceCandidate_kind : pyval;
  RecallTraceCandidate_text : pyval; RecallTraceCandidate_score : pyval
}.

Definition RecallTraceCandidate_to_map (self : RecallTraceCandidate) : pyresult pyval :=
  py_dict
    ["item_id" ::= Ok (RecallTraceCandidate_item_id self);
     "kind" ::= Ok (RecallTraceCandidate_kind self);
     "text" ::= Ok (RecallTraceCandidate_text self);
     "score" ::= round_f32 (RecallTraceCandidate_score self)].

Definition RecallTraceCandidate_from_map (m : pyval) : pyresult RecallTraceCandidate :=
  let* item_id := py_getitem m "item_id" in
  let* kind := py_getitem m "kind" in
  let* text := py_getitem m "text" in
  let* score := py_getitem m "score" in
  Ok (mk_RecallTraceCandidate item_id kind text score).

Definition RecallTraceCandidate_wf (self : RecallTraceCandidate) : Prop :=
 raw_ok (RecallTraceCandidate_item_id self) /\ raw_ok (RecallTraceCandidate_kind self) /\
  raw_ok (RecallTraceCandidate_text self) /\ f32_ok (RecallTraceCandidate_score self).

#[export] Instance RecallTraceCandidate_nested :
  Nested RecallTraceCandidate_wf RecallTraceCandidate_to_map RecallTraceCandidate_from_map.
Proof.
  intros []. wire_class RecallTraceCandidate_wf RecallTraceCandidate_to_map RecallTraceCandidate_from_map.
Qed.

(** ** [RecallTraceRetriever] *)

Record RecallTraceRetriever : Type := mk_RecallTraceRetriever {
  RecallTraceRetriever_name : pyval; RecallTraceRetriever_status : pyval;
  RecallTraceRetriever_status_detail : pyval; RecallTraceRetriever_latency_ms : pyval;
  RecallTraceRetriever_candidate_count : pyval;
  RecallTraceRetriever_candidates : list RecallTraceCandidate
}.

Definition RecallTraceRetriever_to_map (self : RecallTraceRetriever) : pyresult pyval :=
  py_dict
    ["name" ::= Ok (RecallTraceRetriever_name self);
     "status" ::= Ok (RecallTraceRetriever_status self);
     "status_detail" ::= Ok (RecallTraceRetriever_status_detail self);
     "latency_ms" ::= mark_f64 (RecallTraceRetriever_latency_ms self);
     "candidate_count" ::= Ok (RecallTraceRetriever_candidate_count self);
     "candidates" ::= to_list RecallTraceCandidate_to_map (RecallTraceRetriever_candidates self)].

Definition RecallTraceRetriever_from_map (m : pyval) : pyresult RecallTraceRetriever :=
  let* name := py_getitem m "name" in
  let* status := py_getitem m "status" in
  let* status_detail := py_getitem m "status_detail" in
  let* latency_ms := py_getitem m "latency_ms" in
  let* candidate_count := py_getitem m "candidate_count" in
  let* candidates :=
    bind (py_get m "candidates" (PList [])) (from_list RecallTraceCandidate_from_map) in
  Ok (mk_RecallTraceRetriever name status status_detail latency_ms candidate_count candidates).

Definition RecallTraceRetriever_wf (self : RecallTraceRetriever) : Prop :=
 raw_ok (RecallTraceRetriever_name self) /\ raw_ok (RecallTraceRetriever_status self) /\
  raw_ok (RecallTraceRetriever_status_detail self) /\
  f64_ok (RecallTraceRetriever_latency_ms self) /\
  raw_ok (RecallTraceRetriever_candidate_count self) /\
  Forall RecallTraceCandidate_wf (RecallTraceRetriever_candidates self).

#[export] Instance RecallTraceRetriever_nested :
  Nested RecallTraceRetriever_wf RecallTraceRetriever_to_map RecallTraceRetriever_from_map.
Proof.
  intros []. wire_class RecallTraceRetriever_wf RecallTraceRetriever_to_map RecallTraceRetriever_from_map.
Qed.

(** ** [RecallTraceDroppedId] *)

Record RecallTraceDroppedId : Type := mk_RecallTraceDroppedId {
  RecallTraceDroppedId_kind : pyval; RecallTraceDroppedId_id : pyval
}.

Definition RecallTraceDroppedId_to_map (self : RecallTraceDroppedId) : pyresult pyval :=
  py_dict
    ["kind" ::= Ok (RecallTraceDroppedId_kind self); "id" ::= Ok (RecallTraceDroppedId_id self)].

Definition RecallTraceDroppedId_from_map (m : pyval) : pyresult RecallTraceDroppedId :=
  let* kind := py_getitem m "kind" in
  let* id := py_getitem m "id" in
  Ok (mk_RecallTraceDroppedId kind id).

Definition RecallTraceDroppedId_wf (self : RecallTraceDroppedId) : Prop :=
 raw_ok (RecallTraceDroppedId_kind self) /\ raw_ok (RecallTraceDroppedId_id self).

#[export] Instance RecallTraceDroppedId_nested :
  Nested RecallTraceDroppedId_wf RecallTraceDroppedId_to_map RecallTraceDroppedId_from_map.
Proof.
  intros []. wire_class RecallTraceDroppedId_wf RecallTraceDroppedId_to_map RecallTraceDroppedId_from_map.
Qed.

(** ** [RecallTraceFilterChain] *)

Record RecallTraceFilterChain : Type := mk_RecallTraceFilterChain {
  RecallTraceFilterChain_before : pyval; RecallTraceFilterChain_after_type : pyval;
  RecallTraceFilterChain_after_temporal : pyval; RecallTraceFilterChain_after_confidence : pyval;
  RecallTraceFilterChain_after_tombstone : pyval;
  RecallTraceFilterChain_after_supersession : pyval; RecallTraceFilterChain_after_as_of : pyval;
  RecallTraceFilterChain_after_limit : pyval; RecallTraceFilterChain_dropped_by_type : pyval;
  RecallTraceFilterChain_dropped_by_temporal : pyval;
  RecallTraceFilterChain_dropped_by_confidence : pyval;
  RecallTraceFilterChain_dropped_by_tombstone : pyval;
  RecallTraceFilterChain_dropped_by_supersession : list RecallTraceDroppedId;
  RecallTraceFilterChain_dropped_by_as_of : list RecallTraceDroppedId;
  RecallTraceFilterChain_dropped_by_limit : list RecallTraceDroppedId
}.

Definition RecallTraceFilterChain_to_map (self : RecallTraceFilterChain) : pyresult pyval :=
  py_dict
    ["before" ::= Ok (RecallTraceFilterChain_before self);
     "after_type" ::= Ok (RecallTraceFilterChain_after_type self);
     "after_temporal" ::= Ok (RecallTraceFilterChain_after_temporal self);
     "after_confidence" ::= Ok (RecallTraceFilterChain_after_confidence self);
     "after_tombstone" ::= Ok (RecallTraceFilterChain_after_tombstone self);
     "after_supersession" ::= Ok (RecallTraceFilterChain_after_supersession self);
     "after_as_of" ::= Ok (RecallTraceFilterChain_after_as_of self);
     "after_limit" ::= Ok (RecallTraceFilterChain_after_limit self);
     "dropped_by_type" ::= py_list (RecallTraceFilterChain_dropped_by_type self);
     "dropped_by_temporal" ::= py_list (RecallTraceFilterChain_dropped_by_temporal self);
     "dropped_by_confidence" ::= py_list (RecallTraceFilterChain_dropped_by_confidence self);
     "dropped_by_tombstone" ::= py_list (RecallTraceFilterChain_dropped_by_tombstone self);
     "dropped_by_supersession" ::= to_list RecallTraceDroppedId_to_map (RecallTraceFilterChain_dropped_by_supersession self);
     "dropped_by_as_of" ::= to_list RecallTraceDroppedId_to_map (RecallTraceFilterChain_dropped_by_as_of self);
     "dropped_by_limit" ::= to_list RecallTraceDroppedId_to_map (RecallTraceFilterChain_dropped_by_limit self)].

Definition RecallTraceFilterChain_from_map (m : pyval) : pyresult RecallTraceFilterChain :=
  let* before := py_getitem m "before" in
  let* after_type := py_getitem m "after_type" in
  let* after_temporal := py_getitem m "after_temporal" in
  let* after_confidence := py_getitem m "after_confidence" in
  let* after_tombstone := py_getitem m "after_tombstone" in
  let* after_supersession := py_getitem m "after_supersession" in
  let* after_as_of := py_getitem m "after_as_of" in
  let* after_limit := py_getitem m "after_limit" in
  let* dropped_by_type := bind (py_get m "dropped_by_type" (PList [])) py_list in
  let* dropped_by_temporal := bind (py_get m "dropped_by_temporal" (PList [])) py_list in
  let* dropped_by_confidence := bind (py_get m "dropped_by_confidence" (PList [])) py_list in
  let* dropped_by_tombstone := bind (py_get m "dropped_by_tombstone" (PList [])) py_list in
  let* dropped_by_supersession :=
    bind (py_get m "dropped_by_supersession" (PList [])) (from_list RecallTraceDroppedId_from_map) in
  let* dropped_by_as_of :=
    bind (py_get m "dropped_by_as_of" (PList [])) (from_list RecallTraceDroppedId_from_map) in
  let* dropped_by_limit :=
    bind (py_get m "dropped_by_limit" (PList [])) (from_list RecallTraceDroppedId_from_map) in
  Ok (mk_RecallTraceFilterChain before after_type after_temporal after_confidence after_tombstone
    after_supersession after_as_of after_limit dropped_by_type dropped_by_temporal
    dropped_by_confidence dropped_by_tombstone dropped_by_supersession dropped_by_as_of
    dropped_by_limit).

Definition RecallTraceFilterChain_wf (self : RecallTraceFilterChain) : Prop :=
 raw_ok (RecallTraceFilterChain_before self) /\ raw_ok (RecallTraceFilterChain_after_type self) /\
  raw_ok (RecallTraceFilterChain_after_temporal self) /\
  raw_ok (RecallTraceFilterChain_after_confidence self) /\
  raw_ok (RecallTraceFilterChain_after_tombstone self) /\
  raw_ok (RecallTraceFilterChain_after_supersession self) /\
  raw_ok (RecallTraceFilterChain_after_as_of self) /\
  raw_ok (RecallTraceFilterChain_after_limit self) /\
  list_ok (RecallTraceFilterChain_dropped_by_type self) /\
  list_ok (RecallTraceFilterChain_dropped_by_temporal self) /\
  list_ok (RecallTraceFilterChain_dropped_by_confidence self) /\
  list_ok (RecallTraceFilterChain_dropped_by_tombstone self) /\
  Forall RecallTraceDroppedId_wf (RecallTraceFilterChain_dropped_by_supersession self) /\
  Forall RecallTraceDroppedId_wf (RecallTraceFilterChain_dropped_by_as_of self) /\
  Forall RecallTraceDroppedId_wf (RecallTraceFilterChain_dropped_by_limit self).

#[export] Instance RecallTraceFilterChain_nested :
  Nested RecallTraceFilterChain_wf RecallTraceFilterChain_to_map RecallTraceFilterChain_from_map.
Proof.
  intros []. wire_class RecallTraceFilterChain_wf RecallTraceFilterChain_to_map RecallTraceFilterChain_from_map.
Qed.

(** ** [RecallTraceRerank] *)

Record RecallTraceRerank : Type := mk_RecallTraceRerank {
  RecallTraceRerank_applied : pyval; RecallTraceRerank_candidates : pyval;
  RecallTraceRerank_latency_ms : pyval; RecallTraceRerank_before_order : pyval;
  RecallTraceRerank_after_order : pyval
}.

Definition RecallTraceRerank_to_map (self : RecallTraceRerank) : pyresult pyval :=
  py_dict
    ["applied" ::= Ok (RecallTraceRerank_applied self);
     "candidates" ::= Ok (RecallTraceRerank_candidates self);
     "latency_ms" ::= mark_f64 (RecallTraceRerank_latency_ms self);
     "before_order" ::= py_list (RecallTraceRerank_before_order self);
     "after_order" ::= py_list (RecallTraceRerank_after_order self)].

Definition RecallTraceRerank_from_map (m : pyval) : pyresult RecallTraceRerank :=
  let* applied := py_getitem m "applied" in
  let* candidates := py_getitem m "candidates" in
  let* latency_ms := py_getitem m "latency_ms" in
  let* before_order := bind (py_get m "before_order" (PList [])) py_list in
  let* after_order := bind (py_get m "after_order" (PList [])) py_list in
  Ok (mk_RecallTraceRerank applied candidates latency_ms before_order after_order).

Definition RecallTraceRerank_wf (self : RecallTraceRerank) : Prop :=
 raw_ok (RecallTraceRerank_applied self) /\ raw_ok (RecallTraceRerank_candidates self) /\
  f64_ok (RecallTraceRerank_latency_ms self) /\ list_ok (RecallTraceRerank_before_order self) /\
  list_ok (RecallTraceRerank_after_order self).

#[export] Instance RecallTraceRerank_nested :
  Nested RecallTraceRerank_wf RecallTraceRerank_to_map RecallTraceRerank_from_map.
Proof.
  intros []. wire_class RecallTraceRerank_wf RecallTraceRerank_to_map RecallTraceRerank_from_map.
Qed.

(** ** Lane scores *)

(** [v[i]] on a sequence. *)
Definition subscript (v : pyval) (i : nat) : pyresult pyval :=
  let at_ (l : list pyval) := match nth_error l i with Some x => Ok x | None => Raise IndexError end in
  match v with
  | PList l => at_ l
  | PStr s => at_ (map PStr (utf8_chars s))
  | PBytes bs => at_ (map (fun b => PInt (byte_to_Z b)) bs)
  | PDict _ => Raise (KeyError "")
  | _ => Raise TypeError
  end.

Definition lane_score_to (pair : pyval * pyval) : pyresult pyval :=
  let* score := round_f32 pair.2 in Ok (PList [pair.1; score]).

Definition lane_score_from (pair : pyval) : pyresult (pyval * pyval) :=
  let* name := subscript pair 0 in
  let* score := subscript pair 1 in
  Ok (name, score).

Definition lane_score_ok (pair : pyval * pyval) : Prop := raw_ok pair.1 /\ f32_ok pair.2.

#[export] Instance lane_score_nested : Nested lane_score_ok lane_score_to lane_score_from.
Proof.
  intros [name score] [Hn%unmark_plain Hs]. simpl in Hn. destruct (f32_ok_round _ Hs) as (w & E & U).
  simpl in E, U. unfold wire_ok, lane_score_to. simpl. rewrite E. eexists. split; [reflexivity|].
  split; [done|]. cbn. by rewrite Hn, U.
Qed.

(** ** [RecallTraceFusionItem] *)

Record RecallTraceFusionItem : Type := mk_RecallTraceFusionItem {
  RecallTraceFusionItem_memory_id : pyval; RecallTraceFusionItem_rrf_score : pyval;
  RecallTraceFusionItem_lane_scores : list (pyval * pyval)
}.

Definition RecallTraceFusionItem_to_map (self : RecallTraceFusionItem) : pyresult pyval :=
  py_dict
    ["memory_id" ::= Ok (RecallTraceFusionItem_memory_id self);
     "rrf_score" ::= round_f32 (RecallTraceFusionItem_rrf_score self);
     "lane_scores" ::= to_list lane_score_to (RecallTraceFusionItem_lane_scores self)].

Definition RecallTraceFusionItem_from_map (m : pyval) : pyresult RecallTraceFusionItem :=
  let* memory_id := py_getitem m "memory_id" in
  let* rrf_score := py_getitem m "rrf_score" in
  let* lane_scores := bind (py_getitem m "lane_scores") (from_list lane_score_from) in
  Ok (mk_RecallTraceFusionItem memory_id rrf_score lane_scores).

Definition RecallTraceFusionItem_wf (self : RecallTraceFusionItem) : Prop :=
 raw_ok (RecallTraceFusionItem_memory_id self) /\ f32_ok (RecallTraceFusionItem_rrf_score self) /\
  Forall lane_score_ok (RecallTraceFusionItem_lane_scores self).

#[export] Instance RecallTraceFusionItem_nested :
  Nested RecallTraceFusionItem_wf RecallTraceFusionItem_to_map RecallTraceFusionItem_from_map.
Proof.
  intros []. wire_class RecallTraceFusionItem_wf RecallTraceFusionItem_to_map RecallTraceFusionItem_from_map.
Qed.

(** ** [RecallTraceFusion] *)

Record RecallTraceFusion : Type := mk_RecallTraceFusion {
  RecallTraceFusion_items : list RecallTraceFusionItem
}.

Definition RecallTraceFusion_to_map (self : RecallTraceFusion) : pyresult pyval :=
  py_dict
    ["items" ::= to_list RecallTraceFusionItem_to_map (RecallTraceFusion_items self)].

Definition RecallTraceFusion_from_map (m : pyval) : pyresult RecallTraceFusion :=
  let* items := bind (py_getitem m "items") (from_list RecallTraceFusionItem_from_map) in
  Ok (mk_RecallTraceFusion items).

Definition RecallTraceFusion_wf (self : RecallTraceFusion) : Prop :=
 Forall RecallTraceFusionItem_wf (RecallTraceFusion_items self).

#[export] Instance RecallTraceFusion_nested :
  Nested RecallTraceFusion_wf RecallTraceFusion_to_map RecallTraceFusion_from_map.
Proof.
  intros []. wire_class RecallTraceFusion_wf RecallTraceFusion_to_map RecallTraceFusion_from_map.
Qed.

(** ** [RecallTrace] *)

Record RecallTrace : Type := mk_RecallTrace {
  RecallTrace_retrievers : list RecallTraceRetriever;
  RecallTrace_filter_chain : RecallTraceFilterChain;
  RecallTrace_rerank : option RecallTraceRerank; RecallTrace_total_latency_ms : pyval;
  RecallTrace_fusion : option RecallTraceFusion
}.

Definition RecallTrace_to_map (self : RecallTrace) : pyresult pyval :=
  py_dict
    ["retrievers" ::= to_list RecallTraceRetriever_to_map (RecallTrace_retrievers self);
     "filter_chain" ::= RecallTraceFilterChain_to_map (RecallTrace_filter_chain self);
     "rerank" ::= to_option RecallTraceRerank_to_map (RecallTrace_rerank self);
     "total_latency_ms" ::= mark_f64 (RecallTrace_total_latency_ms self);
     "fusion" ::= to_option RecallTraceFusion_to_map (RecallTrace_fusion self)].

Definition RecallTrace_from_map (m : pyval) : pyresult RecallTrace :=
  let* rerank := py_getitem m "rerank" in
  let* fusion := py_get m "fusion" PNone in
  let* retrievers := bind (py_getitem m "retrievers") (from_list RecallTraceRetriever_from_map) in
  let* filter_chain := bind (py_getitem m "filter_chain") RecallTraceFilterChain_from_map in
  let* rerank := from_option RecallTraceRerank_from_map rerank in
  let* total_latency_ms := py_getitem m "total_latency_ms" in
  let* fusion := from_option RecallTraceFusion_from_map fusion in
  Ok (mk_RecallTrace retrievers filter_chain rerank total_latency_ms fusion).

Definition RecallTrace_wf (self : RecallTrace) : Prop :=
 Forall RecallTraceRetriever_wf (RecallTrace_retrievers self) /\
  RecallTraceFilterChain_wf (RecallTrace_filter_chain self) /\
  option_ok RecallTraceRerank_wf (RecallTrace_rerank self) /\
  f64_ok (RecallTrace_total_latency_ms self) /\
  option_ok RecallTraceFusion_wf (RecallTrace_fusion self).

#[export] Instance RecallTrace_nested :
  Nested RecallTrace_wf RecallTrace_to_map RecallTrace_from_map.
Proof. intros []. wire_class RecallTrace_wf RecallTrace_to_map RecallTrace_from_map. Qed.

(** ** [RecallResponseFrame] *)

Record RecallResponseFrame : Type := mk_RecallResponseFrame {
  RecallResponseFrame_answer_kind : pyval; RecallResponseFrame_memories : list MemoryResult;
  RecallResponseFrame_is_final : pyval; RecallResponseFrame_cumulative_count : pyval;
  RecallResponseFrame_estimated_remaining : pyval; RecallResponseFrame_trace : option RecallTrace
}.

Definition RecallResponseFrame_to_map (self : RecallResponseFrame) : pyresult pyval :=
  py_dict (
    ["answer_kind" ::= Ok (RecallResponseFrame_answer_kind self);
     "memories" ::= to_list MemoryResult_to_map (RecallResponseFrame_memories self);
     "is_final" ::= Ok (RecallResponseFrame_is_final self);
     "cumulative_count" ::= Ok (RecallResponseFrame_cumulative_count self);
     "estimated_remaining" ::= Ok (RecallResponseFrame_estimated_remaining self)]
    ++ emit_some "trace" RecallTrace_to_map (RecallResponseFrame_trace self)).

Definition RecallResponseFrame_from_map (m : pyval) : pyresult RecallResponseFrame :=
  let* trace := py_get m "trace" PNone in
  let* answer_kind := py_getitem m "answer_kind" in
  let* memories := bind (py_getitem m "memories") (from_list MemoryResult_from_map) in
  let* is_final := py_getitem m "is_final" in
  let* cumulative_count := py_getitem m "cumulative_count" in
  let* estimated_remaining := py_getitem m "estimated_remaining" in
  let* trace := from_option RecallTrace_from_map trace in
  Ok (mk_RecallResponseFrame answer_kind memories is_final cumulative_count estimated_remaining
    trace).

Definition RecallResponseFrame_wf (self : RecallResponseFrame) : Prop :=
 raw_ok (RecallResponseFrame_answer_kind self) /\
  Forall MemoryResult_wf (RecallResponseFrame_memories self) /\
  raw_ok (RecallResponseFrame_is_final self) /\
  raw_ok (RecallResponseFrame_cumulative_count self) /\
  raw_ok (RecallResponseFrame_estimated_remaining self) /\
  option_ok RecallTrace_wf (RecallResponseFrame_trace self).

#[export] Instance RecallResponseFrame_nested :
  Nested RecallResponseFrame_wf RecallResponseFrame_to_map RecallResponseFrame_from_map.
Proof.
  intros []. wire_class RecallResponseFrame_wf RecallResponseFrame_to_map RecallResponseFrame_from_map.
Qed.

#[export] Instance RecallResponseFrame_payload : WirePayload RecallResponseFrame :=
  map_payload RecallResponseFrame_to_map RecallResponseFrame_from_map.
#[export] Instance RecallResponseFrame_laws : WireLaws RecallResponseFrame :=
  map_laws _ _ _ (fun self m E => py_dict_is_dict _ _ E).

(** ** [RecallAnswer] *)

(** A drained recall: the terminal kind and the memories of every frame. *)
Record RecallAnswer : Type := mk_RecallAnswer {
  RecallAnswer_answer_kind : pyval; RecallAnswer_memories : list MemoryResult
}.

Definition RecallAnswer_is_empty (self : RecallAnswer) : bool :=
  py_eq_str (RecallAnswer_answer_kind self) (AnswerKind_value AnswerKind_NONE)
  || negb (nonempty (RecallAnswer_memories self)).

(** ** [ForgetRequest] *)

Record ForgetRequest : Type := mk_ForgetRequest {
  ForgetRequest_memory_id : pyval; ForgetRequest_mode : pyval; ForgetRequest_request_id : pyval;
  ForgetRequest_txn_id : pyval; ForgetRequest_act_as : option ActAs
}.

Definition ForgetRequest_to_map (self : ForgetRequest) : pyresult pyval :=
  py_dict (
    ["memory_id" ::= Ok (ForgetRequest_memory_id self); "mode" ::= Ok (ForgetRequest_mode self);
     "request_id" ::= Ok (ForgetRequest_request_id self);
     "txn_id" ::= Ok (ForgetRequest_txn_id self)]
    ++ emit_some "act_as" ActAs_to_map (ForgetRequest_act_as self)).

Definition ForgetRequest_from_map (m : pyval) : pyresult ForgetRequest :=
  let* act_as := py_get m "act_as" PNone in
  let* memory_id := py_getitem m "memory_id" in
  let* mode := py_getitem m "mode" in
  let* request_id := py_getitem m "request_id" in
  let* txn_id := py_getitem m "txn_id" in
  let* act_as := from_option ActAs_from_map act_as in
  Ok (mk_ForgetRequest memory_id mode request_id txn_id act_as).

Definition ForgetRequest_wf (self : ForgetRequest) : Prop :=
 raw_ok (ForgetRequest_memory_id self) /\ raw_ok (ForgetRequest_mode self) /\
  raw_ok (ForgetRequest_request_id self) /\ raw_ok (ForgetRequest_txn_id self) /\
  option_ok ActAs_wf (ForgetRequest_act_as self).

#[export] Instance ForgetRequest_nested :
  Nested ForgetRequest_wf ForgetRequest_to_map ForgetRequest_from_map.
Proof. intros []. wire_class ForgetRequest_wf ForgetRequest_to_map ForgetRequest_from_map. Qed.

#[export] Instance ForgetRequest_payload : WirePayload ForgetRequest :=
  map_payload ForgetRequest_to_map ForgetRequest_from_map.
#[export] Instance ForgetRequest_laws : WireLaws ForgetRequest :=
  map_laws _ _ _ (fun self m E => py_dict_is_dict _ _ E).

(** ** [ForgetResponse] *)

Record ForgetResponse : Type := mk_ForgetResponse {
  ForgetResponse_memory_id : pyval; ForgetResponse_was_already_forgotten : pyval;
  ForgetResponse_edges_removed : pyval
}.

Definition ForgetResponse_to_map (self : ForgetResponse) : pyresult pyval :=
  py_dict
    ["memory_id" ::= Ok (ForgetResponse_memory_id self);
     "was_already_forgotten" ::= Ok (ForgetResponse_was_already_forgotten self);
     "edges_removed" ::= Ok (ForgetResponse_edges_removed self)].

Definition ForgetResponse_from_map (m : pyval) : pyresult ForgetResponse :=
  let* memory_id := py_getitem m "memory_id" in
  let* was_already_forgotten := py_getitem m "was_already_forgotten" in
  let* edges_removed := py_getitem m "edges_removed" in
  Ok (mk_ForgetResponse memory_id was_already_forgotten edges_removed).

Definition ForgetResponse_wf (self : ForgetResponse) : Prop :=
 raw_ok (ForgetResponse_memory_id self) /\ raw_ok (ForgetResponse_was_already_forgotten self) /\
  raw_ok (ForgetResponse_edges_removed self).

#[export] Instance ForgetResponse_nested :
  Nested ForgetResponse_wf ForgetResponse_to_map ForgetResponse_from_map.
Proof. intros []. wire_class ForgetResponse_wf ForgetResponse_to_map ForgetResponse_from_map. Qed.

#[export] Instance ForgetResponse_payload : WirePayload ForgetResponse :=
  map_payload ForgetResponse_to_map ForgetResponse_from_map.
#[export] Instance ForgetResponse_laws : WireLaws ForgetResponse :=
  map_laws _ _ _ (fun self m E => py_dict_is_dict _ _ E).
