(* ===== verification/WireListing.v ===== *)
(** * WireListing

    [wire/types.py], the paged reads MEMORY_LIST and GRAPH_FETCH, and the ERROR
    payload. *)

From S2P Require Import Prelude PyFloat PyValue Rfc8949 Cbor CborScan CborCodec WireEnums WireCodec.
From S2P Require Import WireHandshake.

(** ** [MemoryListRequest] *)

Record MemoryListRequest : Type := mk_MemoryListRequest {
  MemoryListRequest_sort : pyval; MemoryListRequest_dir : pyval; MemoryListRequest_limit : pyval;
  MemoryListRequest_cursor : pyval; MemoryListRequest_kinds : pyval;
  MemoryListRequest_include_tombstoned : pyval; MemoryListRequest_time_axis : pyval;
  MemoryListRequest_from_unix_nanos : pyval; MemoryListRequest_to_unix_nanos : pyval;
  MemoryListRequest_salience_min : pyval; MemoryListRequest_salience_max : pyval;
  MemoryListRequest_text_contains : pyval; MemoryListRequest_act_as : option ActAs
}.

Definition MemoryListRequest_to_map (self : MemoryListRequest) : pyresult pyval :=
  py_dict (
    ["sort" ::= Ok (MemoryListRequest_sort self); "dir" ::= Ok (MemoryListRequest_dir self);
     "limit" ::= Ok (MemoryListRequest_limit self);
     "cursor" ::= py_list (MemoryListRequest_cursor self);
     "kinds" ::= py_list (MemoryListRequest_kinds self);
     "include_tombstoned" ::= Ok (MemoryListRequest_include_tombstoned self);
     "time_axis" ::= Ok (MemoryListRequest_time_axis self);
     "from_unix_nanos" ::= Ok (MemoryListRequest_from_unix_nanos self);
     "to_unix_nanos" ::= Ok (MemoryListRequest_to_unix_nanos self);
     "salience_min" ::= round_f32 (MemoryListRequest_salience_min self);
     "salience_max" ::= round_f32 (MemoryListRequest_salience_max self);
     "text_contains" ::= Ok (MemoryListRequest_text_contains self)]
    ++ emit_some "act_as" ActAs_to_map (MemoryListRequest_act_as self)).

Definition MemoryListRequest_from_map (m : pyval) : pyresult MemoryListRequest :=
  let* act_as := py_get m "act_as" PNone in
  let* sort := py_getitem m "sort" in
  let* dir := py_getitem m "dir" in
  let* limit := py_getitem m "limit" in
  let* cursor := bind (py_getitem m "cursor") py_bytes in
  let* kinds := bind (py_getitem m "kinds") py_list in
  let* include_tombstoned := py_getitem m "include_tombstoned" in
  let* time_axis := py_getitem m "time_axis" in
  let* from_unix_nanos := py_getitem m "from_unix_nanos" in
  let* to_unix_nanos := py_getitem m "to_unix_nanos" in
  let* salience_min := py_getitem m "salience_min" in
  let* salience_max := py_getitem m "salience_max" in
  let* text_contains := py_getitem m "text_contains" in
  let* act_as := from_option ActAs_from_map act_as in
  Ok (mk_MemoryListRequest sort dir limit cursor kinds include_tombstoned time_axis from_unix_nanos
    to_unix_nanos salience_min salience_max text_contains act_as).

Definition MemoryListRequest_wf (self : MemoryListRequest) : Prop :=
 raw_ok (MemoryListRequest_sort self) /\ raw_ok (MemoryListRequest_dir self) /\
  raw_ok (MemoryListRequest_limit self) /\ bytes_ok (MemoryListRequest_cursor self) /\
  list_ok (MemoryListRequest_kinds self) /\ raw_ok (MemoryListRequest_include_tombstoned self) /\
  raw_ok (MemoryListRequest_time_axis self) /\ raw_ok (MemoryListRequest_from_unix_nanos self) /\
  raw_ok (MemoryListRequest_to_unix_nanos self) /\ f32_ok (MemoryListRequest_salience_min self) /\
  f32_ok (MemoryListRequest_salience_max self) /\ raw_ok (MemoryListRequest_text_contains self) /\
  option_ok ActAs_wf (MemoryListRequest_act_as self).

#[export] Instance MemoryListRequest_nested :
  Nested MemoryListRequest_wf MemoryListRequest_to_map MemoryListRequest_from_map.
Proof.
  intros []. wire_class MemoryListRequest_wf MemoryListRequest_to_map MemoryListRequest_from_map.
Qed.

#[export] Instance MemoryListRequest_payload : WirePayload MemoryListRequest :=
  map_payload MemoryListRequest_to_map MemoryListRequest_from_map.
#[export] Instance MemoryListRequest_laws : WireLaws MemoryListRequest :=
  map_laws _ _ _ (fun self m E => py_dict_is_dict _ _ E).

(** ** [MemoryListItem] *)

Record MemoryListItem : Type := mk_MemoryListItem {
  MemoryListItem_memory_id : pyval; MemoryListItem_space_id : pyval;
  MemoryListItem_session_id : pyval; MemoryListItem_text : pyval; MemoryListItem_kind : pyval;
  MemoryListItem_state : pyval; MemoryListItem_created_at_unix_nanos : pyval;
  MemoryListItem_occurred_at_unix_nanos : pyval;
  MemoryListItem_last_accessed_at_unix_nanos : pyval; MemoryListItem_salience : pyval;
  MemoryListItem_access_count : pyval; MemoryListItem_source_request_id : pyval;
  MemoryListItem_statement_count : pyval; MemoryListItem_entity_count : pyval;
  MemoryListItem_relation_count : pyval
}.

Definition MemoryListItem_to_map (self : MemoryListItem) : pyresult pyval :=
  py_dict
    ["memory_id" ::= Ok (MemoryListItem_memory_id self);
     "space_id" ::= Ok (MemoryListItem_space_id self);
     "session_id" ::= Ok (MemoryListItem_session_id self);
     "text" ::= Ok (MemoryListItem_text self); "kind" ::= Ok (MemoryListItem_kind self);
     "state" ::= Ok (MemoryListItem_state self);
     "created_at_unix_nanos" ::= Ok (MemoryListItem_created_at_unix_nanos self);
     "occurred_at_unix_nanos" ::= Ok (MemoryListItem_occurred_at_unix_nanos self);
     "last_accessed_at_unix_nanos" ::= Ok (MemoryListItem_last_accessed_at_unix_nanos self);
     "salience" ::= round_f32 (MemoryListItem_salience self);
     "access_count" ::= Ok (MemoryListItem_access_count self);
     "source_request_id" ::= Ok (MemoryListItem_source_request_id self);
     "statement_count" ::= Ok (MemoryListItem_statement_count self);
     "entity_count" ::= Ok (MemoryListItem_entity_count self);
     "relation_count" ::= Ok (MemoryListItem_relation_count self)].

Definition MemoryListItem_from_map (m : pyval) : pyresult MemoryListItem :=
  let* memory_id := py_getitem m "memory_id" in
  let* space_id := py_getitem m "space_id" in
  let* session_id := py_getitem m "session_id" in
  let* text := py_getitem m "text" in
  let* kind := py_getitem m "kind" in
  let* state := py_getitem m "state" in
  let* created_at_unix_nanos := py_getitem m "created_at_unix_nanos" in
  let* occurred_at_unix_nanos := py_getitem m "occurred_at_unix_nanos" in
  let* last_accessed_at_unix_nanos := py_getitem m "last_accessed_at_unix_nanos" in
  let* salience := py_getitem m "salience" in
  let* access_count := py_getitem m "access_count" in
  let* source_request_id := py_getitem m "source_request_id" in
  let* statement_count := py_getitem m "statement_count" in
  let* entity_count := py_getitem m "entity_count" in
  let* relation_count := py_getitem m "relation_count" in
  Ok (mk_MemoryListItem memory_id space_id session_id text kind state created_at_unix_nanos
    occurred_at_unix_nanos last_accessed_at_unix_nanos salience access_count source_request_id
    statement_count entity_count relation_count).

Definition MemoryListItem_wf (self : MemoryListItem) : Prop :=
 raw_ok (MemoryListItem_memory_id self) /\ raw_ok (MemoryListItem_space_id self) /\
  raw_ok (MemoryListItem_session_id self) /\ raw_ok (MemoryListItem_text self) /\
  raw_ok (MemoryListItem_kind self) /\ raw_ok (MemoryListItem_state self) /\
  raw_ok (MemoryListItem_created_at_unix_nanos self) /\
  raw_ok (MemoryListItem_occurred_at_unix_nanos self) /\
  raw_ok (MemoryListItem_last_accessed_at_unix_nanos self) /\
  f32_ok (MemoryListItem_salience self) /\ raw_ok (MemoryListItem_access_count self) /\
  raw_ok (MemoryListItem_source_request_id self) /\
  raw_ok (MemoryListItem_statement_count self) /\ raw_ok (MemoryListItem_entity_count self) /\
  raw_ok (MemoryListItem_relation_count self).

#[export] Instance MemoryListItem_nested :
  Nested MemoryListItem_wf MemoryListItem_to_map MemoryListItem_from_map.
Proof. intros []. wire_class MemoryListItem_wf MemoryListItem_to_map MemoryListItem_from_map. Qed.

(** ** [MemoryListResponseFrame] *)

Record MemoryListResponseFrame : Type := mk_MemoryListResponseFrame {
  MemoryListResponseFrame_items : list MemoryListItem;
  MemoryListResponseFrame_next_cursor : pyval; MemoryListResponseFrame_cumulative_count : pyval;
  MemoryListResponseFrame_is_final : pyval
}.

Definition MemoryListResponseFrame_to_map (self : MemoryListResponseFrame) : pyresult pyval :=
  py_dict
    ["items" ::= to_list MemoryListItem_to_map (MemoryListResponseFrame_items self);
     "next_cursor" ::= py_list (MemoryListResponseFrame_next_cursor self);
     "cumulative_count" ::= Ok (MemoryListResponseFrame_cumulative_count self);
     "is_final" ::= Ok (MemoryListResponseFrame_is_final self)].

Definition MemoryListResponseFrame_from_map (m : pyval) : pyresult MemoryListResponseFrame :=
  let* items := bind (py_getitem m "items") (from_list MemoryListItem_from_map) in
  let* next_cursor := bind (py_getitem m "next_cursor") py_bytes in
  let* cumulative_count := py_getitem m "cumulative_count" in
  let* is_final := py_getitem m "is_final" in
  Ok (mk_MemoryListResponseFrame items next_cursor cumulative_count is_final).

Definition MemoryListResponseFrame_wf (self : MemoryListResponseFrame) : Prop :=
 Forall MemoryListItem_wf (MemoryListResponseFrame_items self) /\
  bytes_ok (MemoryListResponseFrame_next_cursor self) /\
  raw_ok (MemoryListResponseFrame_cumulative_count self) /\
  raw_ok (MemoryListResponseFrame_is_final self).

#[export] Instance MemoryListResponseFrame_nested :
  Nested MemoryListResponseFrame_wf MemoryListResponseFrame_to_map MemoryListResponseFrame_from_map.
Proof.
  intros []. wire_class MemoryListResponseFrame_wf MemoryListResponseFrame_to_map MemoryListResponseFrame_from_map.
Qed.

#[export] Instance MemoryListResponseFrame_payload : WirePayload MemoryListResponseFrame :=
  map_payload MemoryListResponseFrame_to_map MemoryListResponseFrame_from_map.
#[export] Instance MemoryListResponseFrame_laws : WireLaws MemoryListResponseFrame :=
  map_laws _ _ _ (fun self m E => py_dict_is_dict _ _ E).

(** ** [GraphNode] *)

Record GraphNode : Type := mk_GraphNode {
  GraphNode_id : pyval; GraphNode_kind : pyval; GraphNode_label : pyval;
  GraphNode_type_qname : pyval
}.

Definition GraphNode_to_map (self : GraphNode) : pyresult pyval :=
  py_dict
    ["id" ::= Ok (GraphNode_id self); "kind" ::= Ok (GraphNode_kind self);
     "label" ::= Ok (GraphNode_label self); "type_qname" ::= Ok (GraphNode_type_qname self)].

Definition GraphNode_from_map (m : pyval) : pyresult GraphNode :=
  let* id := py_getitem m "id" in
  let* kind := py_getitem m "kind" in
  let* label := py_getitem m "label" in
  let* type_qname := py_getitem m "type_qname" in
  Ok (mk_GraphNode id kind label type_qname).

Definition GraphNode_wf (self : GraphNode) : Prop :=
 raw_ok (GraphNode_id self) /\ raw_ok (GraphNode_kind self) /\ raw_ok (GraphNode_label self) /\
  raw_ok (GraphNode_type_qname self).

#[export] Instance GraphNode_nested : Nested GraphNode_wf GraphNode_to_map GraphNode_from_map.
Proof. intros []. wire_class GraphNode_wf GraphNode_to_map GraphNode_from_map. Qed.

(** ** [GraphEdge] *)

Record GraphEdge : Type := mk_GraphEdge {
  GraphEdge_from_id : pyval; GraphEdge_to_id : pyval; GraphEdge_kind : pyval;
  GraphEdge_label : pyval
}.

Definition GraphEdge_to_map (self : GraphEdge) : pyresult pyval :=
  py_dict
    ["from_id" ::= Ok (GraphEdge_from_id self); "to_id" ::= Ok (GraphEdge_to_id self);
     "kind" ::= Ok (GraphEdge_kind self); "label" ::= Ok (GraphEdge_label self)].

Definition GraphEdge_from_map (m : pyval) : pyresult GraphEdge :=
  let* from_id := py_getitem m "from_id" in
  let* to_id := py_getitem m "to_id" in
  let* kind := py_getitem m "kind" in
  let* label := py_getitem m "label" in
  Ok (mk_GraphEdge from_id to_id kind label).

Definition GraphEdge_wf (self : GraphEdge) : Prop :=
 raw_ok (GraphEdge_from_id self) /\ raw_ok (GraphEdge_to_id self) /\
  raw_ok (GraphEdge_kind self) /\ raw_ok (GraphEdge_label self).

#[export] Instance GraphEdge_nested : Nested GraphEdge_wf GraphEdge_to_map GraphEdge_from_map.
Proof. intros []. wire_class GraphEdge_wf GraphEdge_to_map GraphEdge_from_map. Qed.

(** ** [GraphFetchRequest] *)

Record GraphFetchRequest : Type := mk_GraphFetchRequest {
  GraphFetchRequest_limit : pyval; GraphFetchRequest_cursor : pyval;
  GraphFetchRequest_include_statements : pyval; GraphFetchRequest_include_memories : pyval;
  GraphFetchRequest_include_memory_edges : pyval; GraphFetchRequest_include_tombstoned : pyval;
  GraphFetchRequest_act_as : option ActAs
}.

Definition GraphFetchRequest_to_map (self : GraphFetchRequest) : pyresult pyval :=
  py_dict (
    ["limit" ::= Ok (GraphFetchRequest_limit self);
     "cursor" ::= py_list (GraphFetchRequest_cursor self);
     "include_statements" ::= Ok (GraphFetchRequest_include_statements self);
     "include_memories" ::= Ok (GraphFetchRequest_include_memories self);
     "include_memory_edges" ::= Ok (GraphFetchRequest_include_memory_edges self);
     "include_tombstoned" ::= Ok (GraphFetchRequest_include_tombstoned self)]
    ++ emit_some "act_as" ActAs_to_map (GraphFetchRequest_act_as self)).

Definition GraphFetchRequest_from_map (m : pyval) : pyresult GraphFetchRequest :=
  let* act_as := py_get m "act_as" PNone in
  let* limit := py_getitem m "limit" in
  let* cursor := bind (py_getitem m "cursor") py_bytes in
  let* include_statements := py_getitem m "include_statements" in
  let* include_memories := py_getitem m "include_memories" in
  let* include_memory_edges := py_getitem m "include_memory_edges" in
  let* include_tombstoned := py_getitem m "include_tombstoned" in
  let* act_as := from_option ActAs_from_map act_as in
  Ok (mk_GraphFetchRequest limit cursor include_statements include_memories include_memory_edges
    include_tombstoned act_as).

Definition GraphFetchRequest_wf (self : GraphFetchRequest) : Prop :=
 raw_ok (GraphFetchRequest_limit self) /\ bytes_ok (GraphFetchRequest_cursor self) /\
  raw_ok (GraphFetchRequest_include_statements self) /\
  raw_ok (GraphFetchRequest_include_memories self) /\
  raw_ok (GraphFetchRequest_include_memory_edges self) /\
  raw_ok (GraphFetchRequest_include_tombstoned self) /\
  option_ok ActAs_wf (GraphFetchRequest_act_as self).

#[export] Instance GraphFetchRequest_nested :
  Nested GraphFetchRequest_wf GraphFetchRequest_to_map GraphFetchRequest_from_map.
Proof.
  intros []. wire_class GraphFetchRequest_wf GraphFetchRequest_to_map GraphFetchRequest_from_map.
Qed.

#[export] Instance GraphFetchRequest_payload : WirePayload GraphFetchRequest :=
  map_payload GraphFetchRequest_to_map GraphFetchRequest_from_map.
#[export] Instance GraphFetchRequest_laws : WireLaws GraphFetchRequest :=
  map_laws _ _ _ (fun self m E => py_dict_is_dict _ _ E).

(** ** [GraphFetchResponseFrame] *)

Record GraphFetchResponseFrame : Type := mk_GraphFetchResponseFrame {
  GraphFetchResponseFrame_nodes : list GraphNode; GraphFetchResponseFrame_edges : list GraphEdge;
  GraphFetchResponseFrame_next_cursor : pyval; GraphFetchResponseFrame_is_final : pyval
}.

Definition GraphFetchResponseFrame_to_map (self : GraphFetchResponseFrame) : pyresult pyval :=
  py_dict
    ["nodes" ::= to_list GraphNode_to_map (GraphFetchResponseFrame_nodes self);
     "edges" ::= to_list GraphEdge_to_map (GraphFetchResponseFrame_edges self);
     "next_cursor" ::= py_list (GraphFetchResponseFrame_next_cursor self);
     "is_final" ::= Ok (GraphFetchResponseFrame_is_final self)].

Definition GraphFetchResponseFrame_from_map (m : pyval) : pyresult GraphFetchResponseFrame :=
  let* nodes := bind (py_getitem m "nodes") (from_list GraphNode_from_map) in
  let* edges := bind (py_getitem m "edges") (from_list GraphEdge_from_map) in
  let* next_cursor := bind (py_getitem m "next_cursor") py_bytes in
  let* is_final := py_getitem m "is_final" in
  Ok (mk_GraphFetchResponseFrame nodes edges next_cursor is_final).

Definition GraphFetchResponseFrame_wf (self : GraphFetchResponseFrame) : Prop :=
 Forall GraphNode_wf (GraphFetchResponseFrame_nodes self) /\
  Forall GraphEdge_wf (GraphFetchResponseFrame_edges self) /\
  bytes_ok (GraphFetchResponseFrame_next_cursor self) /\
  raw_ok (GraphFetchResponseFrame_is_final self).

#[export] Instance GraphFetchResponseFrame_nested :
  Nested GraphFetchResponseFrame_wf GraphFetchResponseFrame_to_map GraphFetchResponseFrame_from_map.
Proof.
  intros []. wire_class GraphFetchResponseFrame_wf GraphFetchResponseFrame_to_map GraphFetchResponseFrame_from_map.
Qed.

#[export] Instance GraphFetchResponseFrame_payload : WirePayload GraphFetchResponseFrame :=
  map_payload GraphFetchResponseFrame_to_map GraphFetchResponseFrame_from_map.
#[export] Instance GraphFetchResponseFrame_laws : WireLaws GraphFetchResponseFrame :=
  map_laws _ _ _ (fun self m E => py_dict_is_dict _ _ E).

(** ** [ErrorDetails] *)

Record ErrorDetails : Type := mk_ErrorDetails {
  ErrorDetails_field : pyval; ErrorDetails_expected : pyval; ErrorDetails_actual : pyval
}.

Definition ErrorDetails_to_map (self : ErrorDetails) : pyresult pyval :=
  py_dict
    ["field" ::= Ok (ErrorDetails_field self); "expected" ::= Ok (ErrorDetails_expected self);
     "actual" ::= Ok (ErrorDetails_actual self)].

Definition ErrorDetails_from_map (m : pyval) : pyresult ErrorDetails :=
  let* field := py_getitem m "field" in
  let* expected := py_getitem m "expected" in
  let* actual := py_getitem m "actual" in
  Ok (mk_ErrorDetails field expected actual).

Definition ErrorDetails_wf (self : ErrorDetails) : Prop :=
 raw_ok (ErrorDetails_field self) /\ raw_ok (ErrorDetails_expected self) /\
  raw_ok (ErrorDetails_actual self).

#[export] Instance ErrorDetails_nested :
  Nested ErrorDetails_wf ErrorDetails_to_map ErrorDetails_from_map.
Proof. intros []. wire_class ErrorDetails_wf ErrorDetails_to_map ErrorDetails_from_map. Qed.

(** ** [ErrorResponse] *)

Record ErrorResponse : Type := mk_ErrorResponse {
  ErrorResponse_code : pyval; ErrorResponse_category : pyval; ErrorResponse_message : pyval;
  ErrorResponse_details : option ErrorDetails; ErrorResponse_retry_after_ms : pyval
}.

Definition ErrorResponse_to_map (self : ErrorResponse) : pyresult pyval :=
  py_dict
    ["code" ::= Ok (ErrorResponse_code self); "category" ::= Ok (ErrorResponse_category self);
     "message" ::= Ok (ErrorResponse_message self);
     "details" ::= to_option ErrorDetails_to_map (ErrorResponse_details self);
     "retry_after_ms" ::= Ok (ErrorResponse_retry_after_ms self)].

Definition ErrorResponse_from_map (m : pyval) : pyresult ErrorResponse :=
  let* code := py_getitem m "code" in
  let* category := py_getitem m "category" in
  let* message := py_getitem m "message" in
  let* details := bind (py_getitem m "details") (from_option ErrorDetails_from_map) in
  let* retry_after_ms := py_getitem m "retry_after_ms" in
  Ok (mk_ErrorResponse code category message details retry_after_ms).

Definition ErrorResponse_wf (self : ErrorResponse) : Prop :=
 raw_ok (ErrorResponse_code self) /\ raw_ok (ErrorResponse_category self) /\
  raw_ok (ErrorResponse_message self) /\ option_ok ErrorDetails_wf (ErrorResponse_details self) /\
  raw_ok (ErrorResponse_retry_after_ms self).

#[export] Instance ErrorResponse_nested :
  Nested ErrorResponse_wf ErrorResponse_to_map ErrorResponse_from_map.
Proof. intros []. wire_class ErrorResponse_wf ErrorResponse_to_map ErrorResponse_from_map. Qed.

#[export] Instance ErrorResponse_payload : WirePayload ErrorResponse :=
  map_payload ErrorResponse_to_map ErrorResponse_from_map.
#[export] Instance ErrorResponse_laws : WireLaws ErrorResponse :=
  map_laws _ _ _ (fun self m E => py_dict_is_dict _ _ E).
