(* ===== verification/WireTyped.v ===== *)
(** * WireTyped

    [wire/types.py], the typed graph: the externally tagged statement values,
    objects and evidence, entity, statement and relation creation, schemas,
    stream cancellation, QUERY and procedural materialisation. *)

From S2P Require Import Prelude PyFloat PyValue Rfc8949 Cbor CborScan CborCodec WireEnums WireCodec.
From S2P Require Import WireHandshake WireRecall.

(** ** [StatementKind] *)

Definition StatementKind_BY_BYTE : list (Z * string) :=
  [(0, "Fact"); (1, "Preference"); (2, "Event"); (3, "Attribute"); (4, "Relation");
   (5, "Directive")].

(** The wire value of a [Custom] kind. *)
Definition StatementKind_custom (byte : Z) : pyval := PDict [(PStr "Custom", PInt byte)].

Definition StatementKind_from_storage_byte (byte : Z) : pyval :=
  match find (fun '(b, _) => b =? byte) StatementKind_BY_BYTE with
  | Some (_, name) => PStr name
  | None => StatementKind_custom byte
  end.

(** [_TO_BYTE[kind]] on anything but a dict. *)
Definition StatementKind_to_storage_byte (kind : pyval) : pyresult Z :=
  match kind with
  | PDict _ => if is_dict_with kind "Custom" then bind (py_getitem kind "Custom") py_int
               else Raise ValueError
  | PStr s =>
      match find (fun '(_, name) => String.eqb name s) StatementKind_BY_BYTE with
      | Some (b, _) => Ok b
      | None => Raise (KeyError s)
      end
  | PList _ => Raise TypeError
  | _ => Raise (KeyError "")
  end.

(** ** [StatementValue] *)

Record StatementValue : Type := mk_StatementValue {
  StatementValue_variant : pyval; StatementValue_value : pyval
}.

Definition StatementValue_to_cbor_value (self : StatementValue) : pyresult pyval :=
  let variant := StatementValue_variant self in
  let value := StatementValue_value self in
  if py_eq_str variant "Blob" then
    if negb (is_bytes value || is_list value) then Raise TypeError
    else py_dict ["Blob" ::= py_list value]
  else if py_eq_str variant "Float" then
    if is_bytes value || is_list value then Raise TypeError
    else py_dict ["Float" ::= to_float value]
  else py_single variant value.

Definition StatementValue_from_cbor_value (v : pyval) : pyresult StatementValue :=
  let* '(variant, value) := py_single_item v in
  if py_eq_str variant "Blob" then
    let* l := py_list value in Ok (mk_StatementValue (PStr "Blob") l)
  else Ok (mk_StatementValue variant value).

Definition StatementValue_wf (self : StatementValue) : Prop :=
  exists s, StatementValue_variant self = PStr s
    /\ (if String.eqb s "Blob" then list_ok (StatementValue_value self)
        else if String.eqb s "Float" then exists f, StatementValue_value self = PFloat f
        else raw_ok (StatementValue_value self)).

#[export] Instance StatementValue_nested :
  Nested StatementValue_wf StatementValue_to_cbor_value StatementValue_from_cbor_value.
Proof.
  intros [variant value] (s & Hs & H). cbn in Hs, H. subst variant.
  unfold wire_ok, StatementValue_to_cbor_value, StatementValue_from_cbor_value. wire_fields.
  destruct (String.eqb s "Blob") eqn:E1; [|destruct (String.eqb s "Float") eqn:E2].
  - apply String.eqb_eq in E1 as ->. destruct (list_ok_list _ H) as [E U]. destruct H as [H _].
    rewrite H, orb_true_r. wire_eval. rewrite E. eexists. split; [reflexivity|].
    split; [done|]. wire_eval. by rewrite U, E.
  - apply String.eqb_eq in E2 as ->. destruct H as [f ->]. by eexists.
  - eexists. split; [reflexivity|]. split; [done|]. wire_eval. by rewrite E1, (unmark_plain _ H).
Qed.

(** ** [StatementObject] *)

(** What the [value] field holds: a nested value object or a plain id. *)
Inductive StatementObject_value_t : Type :=
| ObjectValue (v : StatementValue)
| ObjectPlain (v : pyval).

Record StatementObject : Type := mk_StatementObject {
  StatementObject_variant : pyval; StatementObject_value : StatementObject_value_t
}.

(** A [StatementValue] under another variant stays an object in the map, which
    the encoder's hook refuses with the [TypeError] raised here. *)
Definition StatementObject_to_cbor_value (self : StatementObject) : pyresult pyval :=
  match StatementObject_value self with
  | ObjectValue v =>
      if py_eq_str (StatementObject_variant self) "Value"
      then py_dict ["Value" ::= StatementValue_to_cbor_value v]
      else Raise TypeError
  | ObjectPlain v => py_single (StatementObject_variant self) v
  end.

Definition StatementObject_from_cbor_value (v : pyval) : pyresult StatementObject :=
  let* '(variant, value) := py_single_item v in
  if py_eq_str variant "Value" then
    let* sv := StatementValue_from_cbor_value value in
    Ok (mk_StatementObject (PStr "Value") (ObjectValue sv))
  else Ok (mk_StatementObject variant (ObjectPlain value)).

Definition StatementObject_wf (self : StatementObject) : Prop :=
  match StatementObject_value self with
  | ObjectValue v => StatementObject_variant self = PStr "Value" /\ StatementValue_wf v
  | ObjectPlain v => exists s, StatementObject_variant self = PStr s
                               /\ String.eqb s "Value" = false /\ raw_ok v
  end.

#[export] Instance StatementObject_nested :
  Nested StatementObject_wf StatementObject_to_cbor_value StatementObject_from_cbor_value.
Proof.
  intros [variant [v|v]]; wire_fields; unfold wire_ok, StatementObject_to_cbor_value,
    StatementObject_from_cbor_value; wire_fields.
  - intros [-> H]. destruct (nested_plain v H) as (w & E & D). wire_eval. rewrite E.
    eexists. split; [reflexivity|]. split; [done|]. wire_eval. by rewrite D.
  - intros (s & -> & E1 & H). eexists. split; [reflexivity|]. split; [done|]. wire_eval.
    by rewrite E1, (unmark_plain _ H).
Qed.

(** ** [EvidenceRef] *)

Record EvidenceRef : Type := mk_EvidenceRef {
  EvidenceRef_variant : pyval; EvidenceRef_value : pyval
}.

Definition EvidenceRef_inline (ids : pyval) : pyresult EvidenceRef :=
  let* l := py_list ids in Ok (mk_EvidenceRef (PStr "Inline") l).

Definition EvidenceRef_to_cbor_value (self : EvidenceRef) : pyresult pyval :=
  let value := EvidenceRef_value self in
  if py_eq_str (EvidenceRef_variant self) "Inline" then
    if negb (is_bytes value || is_list value) then Raise TypeError
    else py_dict ["Inline" ::= py_list value]
  else py_dict ["Overflow" ::= Ok value].

Definition EvidenceRef_from_cbor_value (v : pyval) : pyresult EvidenceRef :=
  let* '(variant, value) := py_single_item v in
  if py_eq_str variant "Inline" then
    let* l := py_list value in Ok (mk_EvidenceRef (PStr "Inline") l)
  else Ok (mk_EvidenceRef (PStr "Overflow") value).

Definition EvidenceRef_wf (self : EvidenceRef) : Prop :=
  (EvidenceRef_variant self = PStr "Inline" /\ list_ok (EvidenceRef_value self))
  \/ (EvidenceRef_variant self = PStr "Overflow" /\ raw_ok (EvidenceRef_value self)).

#[export] Instance EvidenceRef_nested :
  Nested EvidenceRef_wf EvidenceRef_to_cbor_value EvidenceRef_from_cbor_value.
Proof.
  intros [variant value]; unfold EvidenceRef_wf; wire_fields; unfold wire_ok, EvidenceRef_to_cbor_value,
    EvidenceRef_from_cbor_value; wire_fields; intros [[-> H]|[-> H]]; wire_fields.
  - destruct (list_ok_list _ H) as [E U]. destruct H as [H _]. rewrite H, orb_true_r.
    wire_eval. rewrite E. eexists. split; [reflexivity|]. split; [done|]. wire_eval.
    by rewrite U, E.
  - eexists. split; [reflexivity|]. split; [done|]. wire_eval. by rewrite (unmark_plain _ H).
Qed.

(** ** [EntityCreateRequest] *)

Record EntityCreateRequest : Type := mk_EntityCreateRequest {
  EntityCreateRequest_entity_type_id : pyval; EntityCreateRequest_canonical_name : pyval;
  EntityCreateRequest_aliases : pyval; EntityCreateRequest_attributes_blob : pyval;
  EntityCreateRequest_session_id : pyval; EntityCreateRequest_request_id : pyval;
  EntityCreateRequest_act_as : option ActAs
}.

Definition EntityCreateRequest_to_map (self : EntityCreateRequest) : pyresult pyval :=
  py_dict (
    ["entity_type_id" ::= Ok (EntityCreateRequest_entity_type_id self);
     "canonical_name" ::= Ok (EntityCreateRequest_canonical_name self);
     "aliases" ::= py_list (EntityCreateRequest_aliases self);
     "attributes_blob" ::= py_list (EntityCreateRequest_attributes_blob self);
     "session_id" ::= Ok (EntityCreateRequest_session_id self);
     "request_id" ::= Ok (EntityCreateRequest_request_id self)]
    ++ emit_some "act_as" ActAs_to_map (EntityCreateRequest_act_as self)).

Definition EntityCreateRequest_from_map (m : pyval) : pyresult EntityCreateRequest :=
  let* act_as := py_get m "act_as" PNone in
  let* entity_type_id := py_getitem m "entity_type_id" in
  let* canonical_name := py_getitem m "canonical_name" in
  let* aliases := bind (py_getitem m "aliases") py_list in
  let* attributes_blob := bind (py_getitem m "attributes_blob") py_list in
  let* session_id := py_getitem m "session_id" in
  let* request_id := py_getitem m "request_id" in
  let* act_as := from_option ActAs_from_map act_as in
  Ok (mk_EntityCreateRequest entity_type_id canonical_name aliases attributes_blob session_id
    request_id act_as).

Definition EntityCreateRequest_wf (self : EntityCreateRequest) : Prop :=
 raw_ok (EntityCreateRequest_entity_type_id self) /\
  raw_ok (EntityCreateRequest_canonical_name self) /\
  list_ok (EntityCreateRequest_aliases self) /\
  list_ok (EntityCreateRequest_attributes_blob self) /\
  raw_ok (EntityCreateRequest_session_id self) /\ raw_ok (EntityCreateRequest_request_id self) /\
  option_ok ActAs_wf (EntityCreateRequest_act_as self).

#[export] Instance EntityCreateRequest_nested :
  Nested EntityCreateRequest_wf EntityCreateRequest_to_map EntityCreateRequest_from_map.
Proof.
  intros []. wire_class EntityCreateRequest_wf EntityCreateRequest_to_map EntityCreateRequest_from_map.
Qed.

#[export] Instance EntityCreateRequest_payload : WirePayload EntityCreateRequest :=
  map_payload EntityCreateRequest_to_map EntityCreateRequest_from_map.
#[export] Instance EntityCreateRequest_laws : WireLaws EntityCreateRequest :=
  map_laws _ _ _ (fun self m E => py_dict_is_dict _ _ E).

(** ** [EntityCreateResponse] *)

Record EntityCreateResponse : Type := mk_EntityCreateResponse {
  EntityCreateResponse_entity_id : pyval
}.

Definition EntityCreateResponse_to_map (self : EntityCreateResponse) : pyresult pyval :=
  py_dict
    ["entity_id" ::= Ok (EntityCreateResponse_entity_id self)].

Definition EntityCreateResponse_from_map (m : pyval) : pyresult EntityCreateResponse :=
  let* entity_id := py_getitem m "entity_id" in
  Ok (mk_EntityCreateResponse entity_id).

Definition EntityCreateResponse_wf (self : EntityCreateResponse) : Prop :=
 raw_ok (EntityCreateResponse_entity_id self).

#[export] Instance EntityCreateResponse_nested :
  Nested EntityCreateResponse_wf EntityCreateResponse_to_map EntityCreateResponse_from_map.
Proof.
  intros []. wire_class EntityCreateResponse_wf EntityCreateResponse_to_map EntityCreateResponse_from_map.
Qed.

#[export] Instance EntityCreateResponse_payload : WirePayload EntityCreateResponse :=
  map_payload EntityCreateResponse_to_map EntityCreateResponse_from_map.
#[export] Instance EntityCreateResponse_laws : WireLaws EntityCreateResponse :=
  map_laws _ _ _ (fun self m E => py_dict_is_dict _ _ E).

(** ** [StatementCreateRequest] *)

Record StatementCreateRequest : Type := mk_StatementCreateRequest {
  StatementCreateRequest_kind : pyval; StatementCreateRequest_subject : pyval;
  StatementCreateRequest_predicate : pyval; StatementCreateRequest_object : StatementObject;
  StatementCreateRequest_confidence : pyval; StatementCreateRequest_evidence : EvidenceRef;
  StatementCreateRequest_extractor_id : pyval;
  StatementCreateRequest_valid_from_unix_nanos : pyval;
  StatementCreateRequest_valid_to_unix_nanos : pyval;
  StatementCreateRequest_event_at_unix_nanos : pyval;
  StatementCreateRequest_schema_version : pyval; StatementCreateRequest_session_id : pyval;
  StatementCreateRequest_request_id : pyval; StatementCreateRequest_act_as : option ActAs
}.

Definition StatementCreateRequest_to_map (self : StatementCreateRequest) : pyresult pyval :=
  py_dict (
    ["kind" ::= Ok (StatementCreateRequest_kind self);
     "subject" ::= Ok (StatementCreateRequest_subject self);
     "predicate" ::= Ok (StatementCreateRequest_predicate self);
     "object" ::= StatementObject_to_cbor_value (StatementCreateRequest_object self);
     "confidence" ::= round_f32 (StatementCreateRequest_confidence self);
     "evidence" ::= EvidenceRef_to_cbor_value (StatementCreateRequest_evidence self);
     "extractor_id" ::= Ok (StatementCreateRequest_extractor_id self);
     "valid_from_unix_nanos" ::= Ok (StatementCreateRequest_valid_from_unix_nanos self);
     "valid_to_unix_nanos" ::= Ok (StatementCreateRequest_valid_to_unix_nanos self);
     "event_at_unix_nanos" ::= Ok (StatementCreateRequest_event_at_unix_nanos self);
     "schema_version" ::= Ok (StatementCreateRequest_schema_version self);
     "session_id" ::= Ok (StatementCreateRequest_session_id self);
     "request_id" ::= Ok (StatementCreateRequest_request_id self)]
    ++ emit_some "act_as" ActAs_to_map (StatementCreateRequest_act_as self)).

Definition StatementCreateRequest_from_map (m : pyval) : pyresult StatementCreateRequest :=
  let* act_as := py_get m "act_as" PNone in
  let* kind := py_getitem m "kind" in
  let* subject := py_getitem m "subject" in
  let* predicate := py_getitem m "predicate" in
  let* object := bind (py_getitem m "object") StatementObject_from_cbor_value in
  let* confidence := py_getitem m "confidence" in
  let* evidence := bind (py_getitem m "evidence") EvidenceRef_from_cbor_value in
  let* extractor_id := py_getitem m "extractor_id" in
  let* valid_from_unix_nanos := py_getitem m "valid_from_unix_nanos" in
  let* valid_to_unix_nanos := py_getitem m "valid_to_unix_nanos" in
  let* event_at_unix_nanos := py_getitem m "event_at_unix_nanos" in
  let* schema_version := py_getitem m "schema_version" in
  let* session_id := py_getitem m "session_id" in
  let* request_id := py_getitem m "request_id" in
  let* act_as := from_option ActAs_from_map act_as in
  Ok (mk_StatementCreateRequest kind subject predicate object confidence evidence extractor_id
    valid_from_unix_nanos valid_to_unix_nanos event_at_unix_nanos schema_version session_id
    request_id act_as).

Definition StatementCreateRequest_wf (self : StatementCreateRequest) : Prop :=
 raw_ok (StatementCreateRequest_kind self) /\ raw_ok (StatementCreateRequest_subject self) /\
  raw_ok (StatementCreateRequest_predicate self) /\
  StatementObject_wf (StatementCreateRequest_object self) /\
  f32_ok (StatementCreateRequest_confidence self) /\
  EvidenceRef_wf (StatementCreateRequest_evidence self) /\
  raw_ok (StatementCreateRequest_extractor_id self) /\
  raw_ok (StatementCreateRequest_valid_from_unix_nanos self) /\
  raw_ok (StatementCreateRequest_valid_to_unix_nanos self) /\
  raw_ok (StatementCreateRequest_event_at_unix_nanos self) /\
  raw_ok (StatementCreateRequest_schema_version self) /\
  raw_ok (StatementCreateRequest_session_id self) /\
  raw_ok (StatementCreateRequest_request_id self) /\
  option_ok ActAs_wf (StatementCreateRequest_act_as self).

#[export] Instance StatementCreateRequest_nested :
  Nested StatementCreateRequest_wf StatementCreateRequest_to_map StatementCreateRequest_from_map.
Proof.
  intros []. wire_class StatementCreateRequest_wf StatementCreateRequest_to_map StatementCreateRequest_from_map.
Qed.

#[export] Instance StatementCreateRequest_payload : WirePayload StatementCreateRequest :=
  map_payload StatementCreateRequest_to_map StatementCreateRequest_from_map.
#[export] Instance StatementCreateRequest_laws : WireLaws StatementCreateRequest :=
  map_laws _ _ _ (fun self m E => py_dict_is_dict _ _ E).

(** ** [StatementCreateResponse] *)

Record StatementCreateResponse : Type := mk_StatementCreateResponse {
  StatementCreateResponse_statement_id : pyval; StatementCreateResponse_auto_superseded : pyval;
  StatementCreateResponse_chain_root : pyval
}.

Definition StatementCreateResponse_to_map (self : StatementCreateResponse) : pyresult pyval :=
  py_dict
    ["statement_id" ::= Ok (StatementCreateResponse_statement_id self);
     "auto_superseded" ::= Ok (StatementCreateResponse_auto_superseded self);
     "chain_root" ::= Ok (StatementCreateResponse_chain_root self)].

Definition StatementCreateResponse_from_map (m : pyval) : pyresult StatementCreateResponse :=
  let* statement_id := py_getitem m "statement_id" in
  let* auto_superseded := py_getitem m "auto_superseded" in
  let* chain_root := py_getitem m "chain_root" in
  Ok (mk_StatementCreateResponse statement_id auto_superseded chain_root).

Definition StatementCreateResponse_wf (self : StatementCreateResponse) : Prop :=
 raw_ok (StatementCreateResponse_statement_id self) /\
  raw_ok (StatementCreateResponse_auto_superseded self) /\
  raw_ok (StatementCreateResponse_chain_root self).

#[export] Instance StatementCreateResponse_nested :
  Nested StatementCreateResponse_wf StatementCreateResponse_to_map StatementCreateResponse_from_map.
Proof.
  intros []. wire_class StatementCreateResponse_wf StatementCreateResponse_to_map StatementCreateResponse_from_map.
Qed.

#[export] Instance StatementCreateResponse_payload : WirePayload StatementCreateResponse :=
  map_payload StatementCreateResponse_to_map StatementCreateResponse_from_map.
#[export] Instance StatementCreateResponse_laws : WireLaws StatementCreateResponse :=
  map_laws _ _ _ (fun self m E => py_dict_is_dict _ _ E).

(** ** [RelationCreateRequest] *)

Record RelationCreateRequest : Type := mk_RelationCreateRequest {
  RelationCreateRequest_relation_type : pyval; RelationCreateRequest_from_entity : pyval;
  RelationCreateRequest_to_entity : pyval; RelationCreateRequest_properties_blob : pyval;
  RelationCreateRequest_evidence : EvidenceRef; RelationCreateRequest_extractor_id : pyval;
  RelationCreateRequest_confidence : pyval; RelationCreateRequest_valid_from_unix_nanos : pyval;
  RelationCreateRequest_valid_to_unix_nanos : pyval; RelationCreateRequest_session_id : pyval;
  RelationCreateRequest_request_id : pyval; RelationCreateRequest_act_as : option ActAs
}.

Definition RelationCreateRequest_to_map (self : RelationCreateRequest) : pyresult pyval :=
  py_dict (
    ["relation_type" ::= Ok (RelationCreateRequest_relation_type self);
     "from_entity" ::= Ok (RelationCreateRequest_from_entity self);
     "to_entity" ::= Ok (RelationCreateRequest_to_entity self);
     "properties_blob" ::= py_list (RelationCreateRequest_properties_blob self);
     "evidence" ::= EvidenceRef_to_cbor_value (RelationCreateRequest_evidence self);
     "extractor_id" ::= Ok (RelationCreateRequest_extractor_id self);
     "confidence" ::= round_f32 (RelationCreateRequest_confidence self);
     "valid_from_unix_nanos" ::= Ok (RelationCreateRequest_valid_from_unix_nanos self);
     "valid_to_unix_nanos" ::= Ok (RelationCreateRequest_valid_to_unix_nanos self);
     "session_id" ::= Ok (RelationCreateRequest_session_id self);
     "request_id" ::= Ok (RelationCreateRequest_request_id self)]
    ++ emit_some "act_as" ActAs_to_map (RelationCreateRequest_act_as self)).

Definition RelationCreateRequest_from_map (m : pyval) : pyresult RelationCreateRequest :=
  let* act_as := py_get m "act_as" PNone in
  let* relation_type := py_getitem m "relation_type" in
  let* from_entity := py_getitem m "from_entity" in
  let* to_entity := py_getitem m "to_entity" in
  let* properties_blob := bind (py_getitem m "properties_blob") py_list in
  let* evidence := bind (py_getitem m "evidence") EvidenceRef_from_cbor_value in
  let* extractor_id := py_getitem m "extractor_id" in
  let* confidence := py_getitem m "confidence" in
  let* valid_from_unix_nanos := py_getitem m "valid_from_unix_nanos" in
  let* valid_to_unix_nanos := py_getitem m "valid_to_unix_nanos" in
  let* session_id := py_getitem m "session_id" in
  let* request_id := py_getitem m "request_id" in
  let* act_as := from_option ActAs_from_map act_as in
  Ok (mk_RelationCreateRequest relation_type from_entity to_entity properties_blob evidence
    extractor_id confidence valid_from_unix_nanos valid_to_unix_nanos session_id request_id
    act_as).

Definition RelationCreateRequest_wf (self : RelationCreateRequest) : Prop :=
 raw_ok (RelationCreateRequest_relation_type self) /\
  raw_ok (RelationCreateRequest_from_entity self) /\
  raw_ok (RelationCreateRequest_to_entity self) /\
  list_ok (RelationCreateRequest_properties_blob self) /\
  EvidenceRef_wf (RelationCreateRequest_evidence self) /\
  raw_ok (RelationCreateRequest_extractor_id self) /\
  f32_ok (RelationCreateRequest_confidence self) /\
  raw_ok (RelationCreateRequest_valid_from_unix_nanos self) /\
  raw_ok (RelationCreateRequest_valid_to_unix_nanos self) /\
  raw_ok (RelationCreateRequest_session_id self) /\
  raw_ok (RelationCreateRequest_request_id self) /\
  option_ok ActAs_wf (RelationCreateRequest_act_as self).

#[export] Instance RelationCreateRequest_nested :
  Nested RelationCreateRequest_wf RelationCreateRequest_to_map RelationCreateRequest_from_map.
Proof.
  intros []. wire_class RelationCreateRequest_wf RelationCreateRequest_to_map RelationCreateRequest_from_map.
Qed.

#[export] Instance RelationCreateRequest_payload : WirePayload RelationCreateRequest :=
  map_payload RelationCreateRequest_to_map RelationCreateRequest_from_map.
#[export] Instance RelationCreateRequest_laws : WireLaws RelationCreateRequest :=
  map_laws _ _ _ (fun self m E => py_dict_is_dict _ _ E).

(** ** [RelationCreateResponse] *)

Record RelationCreateResponse : Type := mk_RelationCreateResponse {
  RelationCreateResponse_relation_id : pyval
}.

Definition RelationCreateResponse_to_map (self : RelationCreateResponse) : pyresult pyval :=
  py_dict
    ["relation_id" ::= Ok (RelationCreateResponse_relation_id self)].

Definition RelationCreateResponse_from_map (m : pyval) : pyresult RelationCreateResponse :=
  let* relation_id := py_getitem m "relation_id" in
  Ok (mk_RelationCreateResponse relation_id).

Definition RelationCreateResponse_wf (self : RelationCreateResponse) : Prop :=
 raw_ok (RelationCreateResponse_relation_id self).

#[export] Instance RelationCreateResponse_nested :
  Nested RelationCreateResponse_wf RelationCreateResponse_to_map RelationCreateResponse_from_map.
Proof.
  intros []. wire_class RelationCreateResponse_wf RelationCreateResponse_to_map RelationCreateResponse_from_map.
Qed.

#[export] Instance RelationCreateResponse_payload : WirePayload RelationCreateResponse :=
  map_payload RelationCreateResponse_to_map RelationCreateResponse_from_map.
#[export] Instance RelationCreateResponse_laws : WireLaws RelationCreateResponse :=
  map_laws _ _ _ (fun self m E => py_dict_is_dict _ _ E).

(** ** [SchemaUploadRequest] *)

Record SchemaUploadRequest : Type := mk_SchemaUploadRequest {
  SchemaUploadRequest_schema_document : pyval; SchemaUploadRequest_dry_run : pyval;
  SchemaUploadRequest_allow_breaking : pyval; SchemaUploadRequest_request_id : pyval;
  SchemaUploadRequest_act_as : option ActAs
}.

Definition SchemaUploadRequest_to_map (self : SchemaUploadRequest) : pyresult pyval :=
  py_dict (
    ["schema_document" ::= Ok (SchemaUploadRequest_schema_document self);
     "dry_run" ::= Ok (SchemaUploadRequest_dry_run self);
     "allow_breaking" ::= Ok (SchemaUploadRequest_allow_breaking self);
     "request_id" ::= Ok (SchemaUploadRequest_request_id self)]
    ++ emit_some "act_as" ActAs_to_map (SchemaUploadRequest_act_as self)).

Definition SchemaUploadRequest_from_map (m : pyval) : pyresult SchemaUploadRequest :=
  let* act_as := py_get m "act_as" PNone in
  let* schema_document := py_getitem m "schema_document" in
  let* dry_run := py_getitem m "dry_run" in
  let* allow_breaking := py_getitem m "allow_breaking" in
  let* request_id := py_getitem m "request_id" in
  let* act_as := from_option ActAs_from_map act_as in
  Ok (mk_SchemaUploadRequest schema_document dry_run allow_breaking request_id act_as).

Definition SchemaUploadRequest_wf (self : SchemaUploadRequest) : Prop :=
 raw_ok (SchemaUploadRequest_schema_document self) /\ raw_ok (SchemaUploadRequest_dry_run self) /\
  raw_ok (SchemaUploadRequest_allow_breaking self) /\
  raw_ok (SchemaUploadRequest_request_id self) /\
  option_ok ActAs_wf (SchemaUploadRequest_act_as self).

#[export] Instance SchemaUploadRequest_nested :
  Nested SchemaUploadRequest_wf SchemaUploadRequest_to_map SchemaUploadRequest_from_map.
Proof.
  intros []. wire_class SchemaUploadRequest_wf SchemaUploadRequest_to_map SchemaUploadRequest_from_map.
Qed.

#[export] Instance SchemaUploadRequest_payload : WirePayload SchemaUploadRequest :=
  map_payload SchemaUploadRequest_to_map SchemaUploadRequest_from_map.
#[export] Instance SchemaUploadRequest_laws : WireLaws SchemaUploadRequest :=
  map_laws _ _ _ (fun self m E => py_dict_is_dict _ _ E).

(** ** [SchemaValidationError] *)

Record SchemaValidationError : Type := mk_SchemaValidationError {
  SchemaValidationError_code : pyval; SchemaValidationError_message : pyval;
  SchemaValidationError_line : pyval; SchemaValidationError_column : pyval;
  SchemaValidationError_length : pyval; SchemaValidationError_severity : pyval
}.

Definition SchemaValidationError_to_map (self : SchemaValidationError) : pyresult pyval :=
  py_dict
    ["code" ::= Ok (SchemaValidationError_code self);
     "message" ::= Ok (SchemaValidationError_message self);
     "line" ::= Ok (SchemaValidationError_line self);
     "column" ::= Ok (SchemaValidationError_column self);
     "length" ::= Ok (SchemaValidationError_length self);
     "severity" ::= Ok (SchemaValidationError_severity self)].

Definition SchemaValidationError_from_map (m : pyval) : pyresult SchemaValidationError :=
  let* code := py_getitem m "code" in
  let* message := py_getitem m "message" in
  let* line := py_getitem m "line" in
  let* column := py_getitem m "column" in
  let* length := py_getitem m "length" in
  let* severity := py_getitem m "severity" in
  Ok (mk_SchemaValidationError code message line column length severity).

Definition SchemaValidationError_wf (self : SchemaValidationError) : Prop :=
 raw_ok (SchemaValidationError_code self) /\ raw_ok (SchemaValidationError_message self) /\
  raw_ok (SchemaValidationError_line self) /\ raw_ok (SchemaValidationError_column self) /\
  raw_ok (SchemaValidationError_length self) /\ raw_ok (SchemaValidationError_severity self).

#[export] Instance SchemaValidationError_nested :
  Nested SchemaValidationError_wf SchemaValidationError_to_map SchemaValidationError_from_map.
Proof.
  intros []. wire_class SchemaValidationError_wf SchemaValidationError_to_map SchemaValidationError_from_map.
Qed.

(** ** [SchemaDropRequest] *)

Record SchemaDropRequest : Type := mk_SchemaDropRequest {
  SchemaDropRequest_namespace : pyval; SchemaDropRequest_target_kind : pyval;
  SchemaDropRequest_target_name : pyval; SchemaDropRequest_force : pyval;
  SchemaDropRequest_request_id : pyval; SchemaDropRequest_act_as : option ActAs
}.

Definition SchemaDropRequest_to_map (self : SchemaDropRequest) : pyresult pyval :=
  py_dict (
    ["namespace" ::= Ok (SchemaDropRequest_namespace self);
     "target_kind" ::= Ok (SchemaDropRequest_target_kind self);
     "target_name" ::= Ok (SchemaDropRequest_target_name self);
     "force" ::= Ok (SchemaDropRequest_force self);
     "request_id" ::= Ok (SchemaDropRequest_request_id self)]
    ++ emit_some "act_as" ActAs_to_map (SchemaDropRequest_act_as self)).

Definition SchemaDropRequest_from_map (m : pyval) : pyresult SchemaDropRequest :=
  let* act_as := py_get m "act_as" PNone in
  let* namespace := py_getitem m "namespace" in
  let* target_kind := py_getitem m "target_kind" in
  let* target_name := py_getitem m "target_name" in
  let* force := py_getitem m "force" in
  let* request_id := py_getitem m "request_id" in
  let* act_as := from_option ActAs_from_map act_as in
  Ok (mk_SchemaDropRequest namespace target_kind target_name force request_id act_as).

Definition SchemaDropRequest_wf (self : SchemaDropRequest) : Prop :=
 raw_ok (SchemaDropRequest_namespace self) /\ raw_ok (SchemaDropRequest_target_kind self) /\
  raw_ok (SchemaDropRequest_target_name self) /\ raw_ok (SchemaDropRequest_force self) /\
  raw_ok (SchemaDropRequest_request_id self) /\
  option_ok ActAs_wf (SchemaDropRequest_act_as self).

#[export] Instance SchemaDropRequest_nested :
  Nested SchemaDropRequest_wf SchemaDropRequest_to_map SchemaDropRequest_from_map.
Proof.
  intros []. wire_class SchemaDropRequest_wf SchemaDropRequest_to_map SchemaDropRequest_from_map.
Qed.

#[export] Instance SchemaDropRequest_payload : WirePayload SchemaDropRequest :=
  map_payload SchemaDropRequest_to_map SchemaDropRequest_from_map.
#[export] Instance SchemaDropRequest_laws : WireLaws SchemaDropRequest :=
  map_laws _ _ _ (fun self m E => py_dict_is_dict _ _ E).

(** ** [SchemaDropResponse] *)

Record SchemaDropResponse : Type := mk_SchemaDropResponse {
  SchemaDropResponse_namespace : pyval; SchemaDropResponse_schema_version : pyval;
  SchemaDropResponse_target_kind : pyval; SchemaDropResponse_target_name : pyval;
  SchemaDropResponse_dropped : pyval; SchemaDropResponse_live_rows : pyval;
  SchemaDropResponse_validation_errors : list SchemaValidationError
}.

Definition SchemaDropResponse_to_map (self : SchemaDropResponse) : pyresult pyval :=
  py_dict
    ["namespace" ::= Ok (SchemaDropResponse_namespace self);
     "schema_version" ::= Ok (SchemaDropResponse_schema_version self);
     "target_kind" ::= Ok (SchemaDropResponse_target_kind self);
     "target_name" ::= Ok (SchemaDropResponse_target_name self);
     "dropped" ::= Ok (SchemaDropResponse_dropped self);
     "live_rows" ::= Ok (SchemaDropResponse_live_rows self);
     "validation_errors" ::= to_list SchemaValidationError_to_map (SchemaDropResponse_validation_errors self)].

Definition SchemaDropResponse_from_map (m : pyval) : pyresult SchemaDropResponse :=
  let* namespace := py_getitem m "namespace" in
  let* schema_version := py_getitem m "schema_version" in
  let* target_kind := py_getitem m "target_kind" in
  let* target_name := py_getitem m "target_name" in
  let* dropped := py_getitem m "dropped" in
  let* live_rows := py_getitem m "live_rows" in
  let* validation_errors :=
    bind (py_get m "validation_errors" (PList [])) (from_list SchemaValidationError_from_map) in
  Ok (mk_SchemaDropResponse namespace schema_version target_kind target_name dropped live_rows
    validation_errors).

Definition SchemaDropResponse_wf (self : SchemaDropResponse) : Prop :=
 raw_ok (SchemaDropResponse_namespace self) /\ raw_ok (SchemaDropResponse_schema_version self) /\
  raw_ok (SchemaDropResponse_target_kind self) /\ raw_ok (SchemaDropResponse_target_name self) /\
  raw_ok (SchemaDropResponse_dropped self) /\ raw_ok (SchemaDropResponse_live_rows self) /\
  Forall SchemaValidationError_wf (SchemaDropResponse_validation_errors self).

#[export] Instance SchemaDropResponse_nested :
  Nested SchemaDropResponse_wf SchemaDropResponse_to_map SchemaDropResponse_from_map.
Proof.
  intros []. wire_class SchemaDropResponse_wf SchemaDropResponse_to_map SchemaDropResponse_from_map.
Qed.

#[export] Instance SchemaDropResponse_payload : WirePayload SchemaDropResponse :=
  map_payload SchemaDropResponse_to_map SchemaDropResponse_from_map.
#[export] Instance SchemaDropResponse_laws : WireLaws SchemaDropResponse :=
  map_laws _ _ _ (fun self m E => py_dict_is_dict _ _ E).

(** ** [SchemaReplaceRequest] *)

Record SchemaReplaceRequest : Type := mk_SchemaReplaceRequest {
  SchemaReplaceRequest_schema_document : pyval; SchemaReplaceRequest_force_drop_existing : pyval;
  SchemaReplaceRequest_request_id : pyval; SchemaReplaceRequest_act_as : option ActAs
}.

Definition SchemaReplaceRequest_to_map (self : SchemaReplaceRequest) : pyresult pyval :=
  py_dict (
    ["schema_document" ::= Ok (SchemaReplaceRequest_schema_document self);
     "force_drop_existing" ::= Ok (SchemaReplaceRequest_force_drop_existing self);
     "request_id" ::= Ok (SchemaReplaceRequest_request_id self)]
    ++ emit_some "act_as" ActAs_to_map (SchemaReplaceRequest_act_as self)).

Definition SchemaReplaceRequest_from_map (m : pyval) : pyresult SchemaReplaceRequest :=
  let* act_as := py_get m "act_as" PNone in
  let* schema_document := py_getitem m "schema_document" in
  let* force_drop_existing := py_getitem m "force_drop_existing" in
  let* request_id := py_getitem m "request_id" in
  let* act_as := from_option ActAs_from_map act_as in
  Ok (mk_SchemaReplaceRequest schema_document force_drop_existing request_id act_as).

Definition SchemaReplaceRequest_wf (self : SchemaReplaceRequest) : Prop :=
 raw_ok (SchemaReplaceRequest_schema_document self) /\
  raw_ok (SchemaReplaceRequest_force_drop_existing self) /\
  raw_ok (SchemaReplaceRequest_request_id self) /\
  option_ok ActAs_wf (SchemaReplaceRequest_act_as self).

#[export] Instance SchemaReplaceRequest_nested :
  Nested SchemaReplaceRequest_wf SchemaReplaceRequest_to_map SchemaReplaceRequest_from_map.
Proof.
  intros []. wire_class SchemaReplaceRequest_wf SchemaReplaceRequest_to_map SchemaReplaceRequest_from_map.
Qed.

#[export] Instance SchemaReplaceRequest_payload : WirePayload SchemaReplaceRequest :=
  map_payload SchemaReplaceRequest_to_map SchemaReplaceRequest_from_map.
#[export] Instance SchemaReplaceRequest_laws : WireLaws SchemaReplaceRequest :=
  map_laws _ _ _ (fun self m E => py_dict_is_dict _ _ E).

(** ** [SchemaReplaceResponse] *)

Record SchemaReplaceResponse : Type := mk_SchemaReplaceResponse {
  SchemaReplaceResponse_namespace : pyval; SchemaReplaceResponse_schema_version : pyval;
  SchemaReplaceResponse_dropped_count : pyval;
  SchemaReplaceResponse_validation_errors : list SchemaValidationError
}.

Definition SchemaReplaceResponse_to_map (self : SchemaReplaceResponse) : pyresult pyval :=
  py_dict
    ["namespace" ::= Ok (SchemaReplaceResponse_namespace self);
     "schema_version" ::= Ok (SchemaReplaceResponse_schema_version self);
     "dropped_count" ::= Ok (SchemaReplaceResponse_dropped_count self);
     "validation_errors" ::= to_list SchemaValidationError_to_map (SchemaReplaceResponse_validation_errors self)].

Definition SchemaReplaceResponse_from_map (m : pyval) : pyresult SchemaReplaceResponse :=
  let* namespace := py_getitem m "namespace" in
  let* schema_version := py_getitem m "schema_version" in
  let* dropped_count := py_getitem m "dropped_count" in
  let* validation_errors :=
    bind (py_get m "validation_errors" (PList [])) (from_list SchemaValidationError_from_map) in
  Ok (mk_SchemaReplaceResponse namespace schema_version dropped_count validation_errors).

Definition SchemaReplaceResponse_wf (self : SchemaReplaceResponse) : Prop :=
 raw_ok (SchemaReplaceResponse_namespace self) /\
  raw_ok (SchemaReplaceResponse_schema_version self) /\
  raw_ok (SchemaReplaceResponse_dropped_count self) /\
  Forall SchemaValidationError_wf (SchemaReplaceResponse_validation_errors self).

#[export] Instance SchemaReplaceResponse_nested :
  Nested SchemaReplaceResponse_wf SchemaReplaceResponse_to_map SchemaReplaceResponse_from_map.
Proof.
  intros []. wire_class SchemaReplaceResponse_wf SchemaReplaceResponse_to_map SchemaReplaceResponse_from_map.
Qed.

#[export] Instance SchemaReplaceResponse_payload : WirePayload SchemaReplaceResponse :=
  map_payload SchemaReplaceResponse_to_map SchemaReplaceResponse_from_map.
#[export] Instance SchemaReplaceResponse_laws : WireLaws SchemaReplaceResponse :=
  map_laws _ _ _ (fun self m E => py_dict_is_dict _ _ E).

(** ** [CancelStreamRequest] *)

Record CancelStreamRequest : Type := mk_CancelStreamRequest {
  CancelStreamRequest_target_stream_id : pyval; CancelStreamRequest_reason : pyval
}.

Definition CancelStreamRequest_to_map (self : CancelStreamRequest) : pyresult pyval :=
  py_dict
    ["target_stream_id" ::= Ok (CancelStreamRequest_target_stream_id self);
     "reason" ::= Ok (CancelStreamRequest_reason self)].

Definition CancelStreamRequest_from_map (m : pyval) : pyresult CancelStreamRequest :=
  let* target_stream_id := py_getitem m "target_stream_id" in
  let* reason := py_get m "reason" (PStr "ClientUnneeded") in
  Ok (mk_CancelStreamRequest target_stream_id reason).

Definition CancelStreamRequest_wf (self : CancelStreamRequest) : Prop :=
 raw_ok (CancelStreamRequest_target_stream_id self) /\ raw_ok (CancelStreamRequest_reason self).

#[export] Instance CancelStreamRequest_nested :
  Nested CancelStreamRequest_wf CancelStreamRequest_to_map CancelStreamRequest_from_map.
Proof.
  intros []. wire_class CancelStreamRequest_wf CancelStreamRequest_to_map CancelStreamRequest_from_map.
Qed.

#[export] Instance CancelStreamRequest_payload : WirePayload CancelStreamRequest :=
  map_payload CancelStreamRequest_to_map CancelStreamRequest_from_map.
#[export] Instance CancelStreamRequest_laws : WireLaws CancelStreamRequest :=
  map_laws _ _ _ (fun self m E => py_dict_is_dict _ _ E).

(** ** [CancelStreamAck] *)

Record CancelStreamAck : Type := mk_CancelStreamAck {
  CancelStreamAck_target_stream_id : pyval; CancelStreamAck_cancelled_at_unix_nanos : pyval
}.

Definition CancelStreamAck_to_map (self : CancelStreamAck) : pyresult pyval :=
  py_dict
    ["target_stream_id" ::= Ok (CancelStreamAck_target_stream_id self);
     "cancelled_at_unix_nanos" ::= Ok (CancelStreamAck_cancelled_at_unix_nanos self)].

Definition CancelStreamAck_from_map (m : pyval) : pyresult CancelStreamAck :=
  let* target_stream_id := py_getitem m "target_stream_id" in
  let* cancelled_at_unix_nanos := py_getitem m "cancelled_at_unix_nanos" in
  Ok (mk_CancelStreamAck target_stream_id cancelled_at_unix_nanos).

Definition CancelStreamAck_wf (self : CancelStreamAck) : Prop :=
 raw_ok (CancelStreamAck_target_stream_id self) /\
  raw_ok (CancelStreamAck_cancelled_at_unix_nanos self).

#[export] Instance CancelStreamAck_nested :
  Nested CancelStreamAck_wf CancelStreamAck_to_map CancelStreamAck_from_map.
Proof.
  intros []. wire_class CancelStreamAck_wf CancelStreamAck_to_map CancelStreamAck_from_map.
Qed.

#[export] Instance CancelStreamAck_payload : WirePayload CancelStreamAck :=
  map_payload CancelStreamAck_to_map CancelStreamAck_from_map.
#[export] Instance CancelStreamAck_laws : WireLaws CancelStreamAck :=
  map_laws _ _ _ (fun self m E => py_dict_is_dict _ _ E).

(** ** [SchemaUploadResponse] *)

Record SchemaUploadResponse : Type := mk_SchemaUploadResponse {
  SchemaUploadResponse_namespace : pyval; SchemaUploadResponse_schema_version : pyval;
  SchemaUploadResponse_validation_errors : list SchemaValidationError;
  SchemaUploadResponse_backward_compatible : pyval;
  SchemaUploadResponse_migration_summary_blob : pyval
}.

Definition SchemaUploadResponse_to_map (self : SchemaUploadResponse) : pyresult pyval :=
  py_dict
    ["namespace" ::= Ok (SchemaUploadResponse_namespace self);
     "schema_version" ::= Ok (SchemaUploadResponse_schema_version self);
     "validation_errors" ::= to_list SchemaValidationError_to_map (SchemaUploadResponse_validation_errors self);
     "backward_compatible" ::= Ok (SchemaUploadResponse_backward_compatible self);
     "migration_summary_blob" ::= py_list (SchemaUploadResponse_migration_summary_blob self)].

Definition SchemaUploadResponse_from_map (m : pyval) : pyresult SchemaUploadResponse :=
  let* namespace := py_getitem m "namespace" in
  let* schema_version := py_getitem m "schema_version" in
  let* validation_errors :=
    bind (py_getitem m "validation_errors") (from_list SchemaValidationError_from_map) in
  let* backward_compatible := py_getitem m "backward_compatible" in
  let* migration_summary_blob := bind (py_getitem m "migration_summary_blob") py_list in
  Ok (mk_SchemaUploadResponse namespace schema_version validation_errors backward_compatible
    migration_summary_blob).

Definition SchemaUploadResponse_wf (self : SchemaUploadResponse) : Prop :=
 raw_ok (SchemaUploadResponse_namespace self) /\
  raw_ok (SchemaUploadResponse_schema_version self) /\
  Forall SchemaValidationError_wf (SchemaUploadResponse_validation_errors self) /\
  raw_ok (SchemaUploadResponse_backward_compatible self) /\
  list_ok (SchemaUploadResponse_migration_summary_blob self).

#[export] Instance SchemaUploadResponse_nested :
  Nested SchemaUploadResponse_wf SchemaUploadResponse_to_map SchemaUploadResponse_from_map.
Proof.
  intros []. wire_class SchemaUploadResponse_wf SchemaUploadResponse_to_map SchemaUploadResponse_from_map.
Qed.

#[export] Instance SchemaUploadResponse_payload : WirePayload SchemaUploadResponse :=
  map_payload SchemaUploadResponse_to_map SchemaUploadResponse_from_map.
#[export] Instance SchemaUploadResponse_laws : WireLaws SchemaUploadResponse :=
  map_laws _ _ _ (fun self m E => py_dict_is_dict _ _ E).

(** ** [TimeRange] *)

Record TimeRange : Type := mk_TimeRange {
  TimeRange_from_unix_ms : pyval; TimeRange_to_unix_ms : pyval
}.

Definition TimeRange_to_map (self : TimeRange) : pyresult pyval :=
  py_dict
    ["from_unix_ms" ::= Ok (TimeRange_from_unix_ms self);
     "to_unix_ms" ::= Ok (TimeRange_to_unix_ms self)].

Definition TimeRange_from_map (m : pyval) : pyresult TimeRange :=
  let* from_unix_ms := py_getitem m "from_unix_ms" in
  let* to_unix_ms := py_getitem m "to_unix_ms" in
  Ok (mk_TimeRange from_unix_ms to_unix_ms).

Definition TimeRange_wf (self : TimeRange) : Prop :=
 raw_ok (TimeRange_from_unix_ms self) /\ raw_ok (TimeRange_to_unix_ms self).

#[export] Instance TimeRange_nested : Nested TimeRange_wf TimeRange_to_map TimeRange_from_map.
Proof. intros []. wire_class TimeRange_wf TimeRange_to_map TimeRange_from_map. Qed.

(** ** [FusionConfig] *)

Record FusionConfig : Type := mk_FusionConfig {
  FusionConfig_k : pyval; FusionConfig_semantic_weight : pyval;
  FusionConfig_lexical_weight : pyval; FusionConfig_graph_weight : pyval
}.

Definition FusionConfig_to_map (self : FusionConfig) : pyresult pyval :=
  py_dict
    ["k" ::= Ok (FusionConfig_k self);
     "semantic_weight" ::= round_f32 (FusionConfig_semantic_weight self);
     "lexical_weight" ::= round_f32 (FusionConfig_lexical_weight self);
     "graph_weight" ::= round_f32 (FusionConfig_graph_weight self)].

Definition FusionConfig_from_map (m : pyval) : pyresult FusionConfig :=
  let* k := py_getitem m "k" in
  let* semantic_weight := py_getitem m "semantic_weight" in
  let* lexical_weight := py_getitem m "lexical_weight" in
  let* graph_weight := py_getitem m "graph_weight" in
  Ok (mk_FusionConfig k semantic_weight lexical_weight graph_weight).

Definition FusionConfig_wf (self : FusionConfig) : Prop :=
 raw_ok (FusionConfig_k self) /\ f32_ok (FusionConfig_semantic_weight self) /\
  f32_ok (FusionConfig_lexical_weight self) /\ f32_ok (FusionConfig_graph_weight self).

#[export] Instance FusionConfig_nested :
  Nested FusionConfig_wf FusionConfig_to_map FusionConfig_from_map.
Proof. intros []. wire_class FusionConfig_wf FusionConfig_to_map FusionConfig_from_map. Qed.

(** ** [RetrieverSelection] *)

Record RetrieverSelection : Type := mk_RetrieverSelection {
  RetrieverSelection_variant : pyval; RetrieverSelection_value : pyval
}.

Definition RetrieverSelection_to_cbor_value (self : RetrieverSelection) : pyresult pyval :=
  let value := RetrieverSelection_value self in
  if py_eq_str (RetrieverSelection_variant self) "Auto" then Ok (PStr "Auto")
  else py_dict ["Explicit" ::= if is_list value then py_list value else Ok (PList [])].

Definition RetrieverSelection_from_cbor_value `{PyStr} (v : pyval) : pyresult RetrieverSelection :=
  if py_eq_str v "Auto" then Ok (mk_RetrieverSelection (PStr "Auto") PNone)
  else if is_dict v then
    let* e := py_getitem v "Explicit" in
    let* l := py_iter e in
    Ok (mk_RetrieverSelection (PStr "Explicit") (PList (map py_str l)))
  else Raise ValueError.

Definition RetrieverSelection_wf (self : RetrieverSelection) : Prop :=
  (RetrieverSelection_variant self = PStr "Auto" /\ RetrieverSelection_value self = PNone)
  \/ (RetrieverSelection_variant self = PStr "Explicit"
      /\ exists names, RetrieverSelection_value self = PList (map PStr names)).

#[export] Instance RetrieverSelection_nested `{PyStr} :
  Nested RetrieverSelection_wf RetrieverSelection_to_cbor_value RetrieverSelection_from_cbor_value.
Proof.
  intros [variant value]; unfold RetrieverSelection_wf; wire_fields;
    unfold wire_ok, RetrieverSelection_to_cbor_value, RetrieverSelection_from_cbor_value; wire_fields;
    intros [[-> ->]|(-> & names & ->)]; wire_fields.
  - by eexists.
  - eexists. split; [reflexivity|]. split; [done|]. wire_eval. by rewrite !map_map.
Qed.

(** ** [QueryRequest] *)

Record QueryRequest : Type := mk_QueryRequest {
  QueryRequest_text : pyval; QueryRequest_entity_anchor : pyval; QueryRequest_kind_filter : pyval;
  QueryRequest_predicate_filter : pyval; QueryRequest_session_filter : pyval;
  QueryRequest_time_filter : option TimeRange; QueryRequest_as_of_record_time_unix_nanos : pyval;
  QueryRequest_confidence_min : pyval; QueryRequest_include_tombstoned : pyval;
  QueryRequest_include_superseded : pyval; QueryRequest_limit : pyval;
  QueryRequest_retrievers : RetrieverSelection; QueryRequest_fusion_config : option FusionConfig;
  QueryRequest_request_id : pyval
}.

Definition QueryRequest_to_map (self : QueryRequest) : pyresult pyval :=
  py_dict
    ["text" ::= Ok (QueryRequest_text self);
     "entity_anchor" ::= Ok (QueryRequest_entity_anchor self);
     "kind_filter" ::= py_list (QueryRequest_kind_filter self);
     "predicate_filter" ::= py_list (QueryRequest_predicate_filter self);
     "session_filter" ::= none_or py_list (QueryRequest_session_filter self);
     "time_filter" ::= to_option TimeRange_to_map (QueryRequest_time_filter self);
     "as_of_record_time_unix_nanos" ::= Ok (QueryRequest_as_of_record_time_unix_nanos self);
     "confidence_min" ::= none_or round_f32 (QueryRequest_confidence_min self);
     "include_tombstoned" ::= Ok (QueryRequest_include_tombstoned self);
     "include_superseded" ::= Ok (QueryRequest_include_superseded self);
     "limit" ::= Ok (QueryRequest_limit self);
     "retrievers" ::= RetrieverSelection_to_cbor_value (QueryRequest_retrievers self);
     "fusion_config" ::= to_option FusionConfig_to_map (QueryRequest_fusion_config self);
     "request_id" ::= Ok (QueryRequest_request_id self)].

Definition QueryRequest_from_map `{PyStr} (m : pyval) : pyresult QueryRequest :=
  let* text := py_getitem m "text" in
  let* entity_anchor := py_getitem m "entity_anchor" in
  let* kind_filter := bind (py_getitem m "kind_filter") py_list in
  let* predicate_filter := bind (py_getitem m "predicate_filter") py_list in
  let* session_filter := bind (py_getitem m "session_filter") (none_or py_list) in
  let* time_filter := bind (py_getitem m "time_filter") (from_option TimeRange_from_map) in
  let* as_of_record_time_unix_nanos := py_getitem m "as_of_record_time_unix_nanos" in
  let* confidence_min := py_getitem m "confidence_min" in
  let* include_tombstoned := py_getitem m "include_tombstoned" in
  let* include_superseded := py_getitem m "include_superseded" in
  let* limit := py_getitem m "limit" in
  let* retrievers := bind (py_getitem m "retrievers") RetrieverSelection_from_cbor_value in
  let* fusion_config := bind (py_getitem m "fusion_config") (from_option FusionConfig_from_map) in
  let* request_id := py_getitem m "request_id" in
  Ok (mk_QueryRequest text entity_anchor kind_filter predicate_filter session_filter time_filter
    as_of_record_time_unix_nanos confidence_min include_tombstoned include_superseded limit
    retrievers fusion_config request_id).

Definition QueryRequest_wf (self : QueryRequest) : Prop :=
 raw_ok (QueryRequest_text self) /\ raw_ok (QueryRequest_entity_anchor self) /\
  list_ok (QueryRequest_kind_filter self) /\ list_ok (QueryRequest_predicate_filter self) /\
  none_or_ok list_ok (QueryRequest_session_filter self) /\
  option_ok TimeRange_wf (QueryRequest_time_filter self) /\
  raw_ok (QueryRequest_as_of_record_time_unix_nanos self) /\
  none_or_ok f32_ok (QueryRequest_confidence_min self) /\
  raw_ok (QueryRequest_include_tombstoned self) /\
  raw_ok (QueryRequest_include_superseded self) /\ raw_ok (QueryRequest_limit self) /\
  RetrieverSelection_wf (QueryRequest_retrievers self) /\
  option_ok FusionConfig_wf (QueryRequest_fusion_config self) /\
  raw_ok (QueryRequest_request_id self).

#[export] Instance QueryRequest_nested `{PyStr} :
  Nested QueryRequest_wf QueryRequest_to_map QueryRequest_from_map.
Proof. intros []. wire_class QueryRequest_wf QueryRequest_to_map QueryRequest_from_map. Qed.

#[export] Instance QueryRequest_payload `{PyStr} : WirePayload QueryRequest :=
  map_payload QueryRequest_to_map QueryRequest_from_map.
#[export] Instance QueryRequest_laws `{PyStr} : WireLaws QueryRequest :=
  map_laws _ _ _ (fun self m E => py_dict_is_dict _ _ E).

(** ** [MaterializeProceduralRequest] *)

Record MaterializeProceduralRequest : Type := mk_MaterializeProceduralRequest {
  MaterializeProceduralRequest_space_id : pyval;
  MaterializeProceduralRequest_session_filter : pyval; MaterializeProceduralRequest_top_k : pyval;
  MaterializeProceduralRequest_min_confidence : pyval;
  MaterializeProceduralRequest_categories : pyval;
  MaterializeProceduralRequest_request_id : pyval;
  MaterializeProceduralRequest_act_as : option ActAs
}.

Definition MaterializeProceduralRequest_to_map (self : MaterializeProceduralRequest) : pyresult pyval :=
  py_dict (
    ["space_id" ::= Ok (MaterializeProceduralRequest_space_id self);
     "session_filter" ::= none_or py_list (MaterializeProceduralRequest_session_filter self);
     "top_k" ::= Ok (MaterializeProceduralRequest_top_k self);
     "min_confidence" ::= round_f32 (MaterializeProceduralRequest_min_confidence self);
     "categories" ::= py_list (MaterializeProceduralRequest_categories self);
     "request_id" ::= Ok (MaterializeProceduralRequest_request_id self)]
    ++ emit_some "act_as" ActAs_to_map (MaterializeProceduralRequest_act_as self)).

Definition MaterializeProceduralRequest_from_map (m : pyval) : pyresult MaterializeProceduralRequest :=
  let* act_as := py_get m "act_as" PNone in
  let* space_id := py_getitem m "space_id" in
  let* session_filter := bind (py_getitem m "session_filter") (none_or py_list) in
  let* top_k := py_getitem m "top_k" in
  let* min_confidence := py_getitem m "min_confidence" in
  let* categories := bind (py_getitem m "categories") py_list in
  let* request_id := py_getitem m "request_id" in
  let* act_as := from_option ActAs_from_map act_as in
  Ok (mk_MaterializeProceduralRequest space_id session_filter top_k min_confidence categories
    request_id act_as).

Definition MaterializeProceduralRequest_wf (self : MaterializeProceduralRequest) : Prop :=
 raw_ok (MaterializeProceduralRequest_space_id self) /\
  none_or_ok list_ok (MaterializeProceduralRequest_session_filter self) /\
  raw_ok (MaterializeProceduralRequest_top_k self) /\
  f32_ok (MaterializeProceduralRequest_min_confidence self) /\
  list_ok (MaterializeProceduralRequest_categories self) /\
  raw_ok (MaterializeProceduralRequest_request_id self) /\
  option_ok ActAs_wf (MaterializeProceduralRequest_act_as self).

#[export] Instance MaterializeProceduralRequest_nested :
  Nested MaterializeProceduralRequest_wf MaterializeProceduralRequest_to_map MaterializeProceduralRequest_from_map.
Proof.
  intros []. wire_class MaterializeProceduralRequest_wf MaterializeProceduralRequest_to_map MaterializeProceduralRequest_from_map.
Qed.

#[export] Instance MaterializeProceduralRequest_payload : WirePayload MaterializeProceduralRequest :=
  map_payload MaterializeProceduralRequest_to_map MaterializeProceduralRequest_from_map.
#[export] Instance MaterializeProceduralRequest_laws : WireLaws MaterializeProceduralRequest :=
  map_laws _ _ _ (fun self m E => py_dict_is_dict _ _ E).

(** ** [MaterializeProceduralResponse] *)

Record MaterializeProceduralResponse : Type := mk_MaterializeProceduralResponse {
  MaterializeProceduralResponse_system_block : pyval;
  MaterializeProceduralResponse_statement_ids : pyval;
  MaterializeProceduralResponse_total_candidates : pyval;
  MaterializeProceduralResponse_trimmed_by_budget : pyval
}.

Definition MaterializeProceduralResponse_to_map (self : MaterializeProceduralResponse) : pyresult pyval :=
  py_dict
    ["system_block" ::= Ok (MaterializeProceduralResponse_system_block self);
     "statement_ids" ::= py_list (MaterializeProceduralResponse_statement_ids self);
     "total_candidates" ::= Ok (MaterializeProceduralResponse_total_candidates self);
     "trimmed_by_budget" ::= Ok (MaterializeProceduralResponse_trimmed_by_budget self)].

Definition MaterializeProceduralResponse_from_map (m : pyval) : pyresult MaterializeProceduralResponse :=
  let* system_block := py_getitem m "system_block" in
  let* statement_ids := bind (py_getitem m "statement_ids") py_list in
  let* total_candidates := py_getitem m "total_candidates" in
  let* trimmed_by_budget := py_getitem m "trimmed_by_budget" in
  Ok (mk_MaterializeProceduralResponse system_block statement_ids total_candidates
    trimmed_by_budget).

Definition MaterializeProceduralResponse_wf (self : MaterializeProceduralResponse) : Prop :=
 raw_ok (MaterializeProceduralResponse_system_block self) /\
  list_ok (MaterializeProceduralResponse_statement_ids self) /\
  raw_ok (MaterializeProceduralResponse_total_candidates self) /\
  raw_ok (MaterializeProceduralResponse_trimmed_by_budget self).

#[export] Instance MaterializeProceduralResponse_nested :
  Nested MaterializeProceduralResponse_wf MaterializeProceduralResponse_to_map MaterializeProceduralResponse_from_map.
Proof.
  intros []. wire_class MaterializeProceduralResponse_wf MaterializeProceduralResponse_to_map MaterializeProceduralResponse_from_map.
Qed.

#[export] Instance MaterializeProceduralResponse_payload : WirePayload MaterializeProceduralResponse :=
  map_payload MaterializeProceduralResponse_to_map MaterializeProceduralResponse_from_map.
#[export] Instance MaterializeProceduralResponse_laws : WireLaws MaterializeProceduralResponse :=
  map_laws _ _ _ (fun self m E => py_dict_is_dict _ _ E).
