(* ===== verification/WireReasoning.v ===== *)
(** * WireReasoning

    [wire/types.py], LINK and UNLINK, PLAN and REASON with their traces. *)

From S2P Require Import Prelude PyFloat PyValue Rfc8949 Cbor CborScan CborCodec WireEnums WireCodec.
From S2P Require Import WireHandshake WireRecall.

(** ** [LinkRequest] *)

Record LinkRequest : Type := mk_LinkRequest {
  LinkRequest_source : pyval; LinkRequest_target : pyval; LinkRequest_kind : pyval;
  LinkRequest_weight : pyval; LinkRequest_request_id : pyval; LinkRequest_txn_id : pyval;
  LinkRequest_act_as : option ActAs
}.

Definition LinkRequest_to_map (self : LinkRequest) : pyresult pyval :=
  py_dict (
    ["source" ::= Ok (LinkRequest_source self); "target" ::= Ok (LinkRequest_target self);
     "kind" ::= Ok (LinkRequest_kind self); "weight" ::= round_f32 (LinkRequest_weight self);
     "request_id" ::= Ok (LinkRequest_request_id self); "txn_id" ::= Ok (LinkRequest_txn_id self)]
    ++ emit_some "act_as" ActAs_to_map (LinkRequest_act_as self)).

Definition LinkRequest_from_map (m : pyval) : pyresult LinkRequest :=
  let* act_as := py_get m "act_as" PNone in
  let* source := py_getitem m "source" in
  let* target := py_getitem m "target" in
  let* kind := py_getitem m "kind" in
  let* weight := py_getitem m "weight" in
  let* request_id := py_getitem m "request_id" in
  let* txn_id := py_getitem m "txn_id" in
  let* act_as := from_option ActAs_from_map act_as in
  Ok (mk_LinkRequest source target kind weight request_id txn_id act_as).

Definition LinkRequest_wf (self : LinkRequest) : Prop :=
 raw_ok (LinkRequest_source self) /\ raw_ok (LinkRequest_target self) /\
  raw_ok (LinkRequest_kind self) /\ f32_ok (LinkRequest_weight self) /\
  raw_ok (LinkRequest_request_id self) /\ raw_ok (LinkRequest_txn_id self) /\
  option_ok ActAs_wf (LinkRequest_act_as self).

#[export] Instance LinkRequest_nested :
  Nested LinkRequest_wf LinkRequest_to_map LinkRequest_from_map.
Proof. intros []. wire_class LinkRequest_wf LinkRequest_to_map LinkRequest_from_map. Qed.

#[export] Instance LinkRequest_payload : WirePayload LinkRequest :=
  map_payload LinkRequest_to_map LinkRequest_from_map.
#[export] Instance LinkRequest_laws : WireLaws LinkRequest :=
  map_laws _ _ _ (fun self m E => py_dict_is_dict _ _ E).

(** ** [LinkResponse] *)

Record LinkResponse : Type := mk_LinkResponse {
  LinkResponse_source : pyval; LinkResponse_target : pyval; LinkResponse_kind : pyval;
  LinkResponse_weight : pyval; LinkResponse_created_at_unix_nanos : pyval;
  LinkResponse_already_existed : pyval
}.

Definition LinkResponse_to_map (self : LinkResponse) : pyresult pyval :=
  py_dict
    ["source" ::= Ok (LinkResponse_source self); "target" ::= Ok (LinkResponse_target self);
     "kind" ::= Ok (LinkResponse_kind self); "weight" ::= round_f32 (LinkResponse_weight self);
     "created_at_unix_nanos" ::= Ok (LinkResponse_created_at_unix_nanos self);
     "already_existed" ::= Ok (LinkResponse_already_existed self)].

Definition LinkResponse_from_map (m : pyval) : pyresult LinkResponse :=
  let* source := py_getitem m "source" in
  let* target := py_getitem m "target" in
  let* kind := py_getitem m "kind" in
  let* weight := py_getitem m "weight" in
  let* created_at_unix_nanos := py_getitem m "created_at_unix_nanos" in
  let* already_existed := py_getitem m "already_existed" in
  Ok (mk_LinkResponse source target kind weight created_at_unix_nanos already_existed).

Definition LinkResponse_wf (self : LinkResponse) : Prop :=
 raw_ok (LinkResponse_source self) /\ raw_ok (LinkResponse_target self) /\
  raw_ok (LinkResponse_kind self) /\ f32_ok (LinkResponse_weight self) /\
  raw_ok (LinkResponse_created_at_unix_nanos self) /\ raw_ok (LinkResponse_already_existed self).

#[export] Instance LinkResponse_nested :
  Nested LinkResponse_wf LinkResponse_to_map LinkResponse_from_map.
Proof. intros []. wire_class LinkResponse_wf LinkResponse_to_map LinkResponse_from_map. Qed.

#[export] Instance LinkResponse_payload : WirePayload LinkResponse :=
  map_payload LinkResponse_to_map LinkResponse_from_map.
#[export] Instance LinkResponse_laws : WireLaws LinkResponse :=
  map_laws _ _ _ (fun self m E => py_dict_is_dict _ _ E).

(** ** [UnlinkRequest] *)

Record UnlinkRequest : Type := mk_UnlinkRequest {
  UnlinkRequest_source : pyval; UnlinkRequest_target : pyval; UnlinkRequest_kind : pyval;
  UnlinkRequest_request_id : pyval; UnlinkRequest_txn_id : pyval;
  UnlinkRequest_act_as : option ActAs
}.

Definition UnlinkRequest_to_map (self : UnlinkRequest) : pyresult pyval :=
  py_dict (
    ["source" ::= Ok (UnlinkRequest_source self); "target" ::= Ok (UnlinkRequest_target self);
     "kind" ::= Ok (UnlinkRequest_kind self); "request_id" ::= Ok (UnlinkRequest_request_id self);
     "txn_id" ::= Ok (UnlinkRequest_txn_id self)]
    ++ emit_some "act_as" ActAs_to_map (UnlinkRequest_act_as self)).

Definition UnlinkRequest_from_map (m : pyval) : pyresult UnlinkRequest :=
  let* act_as := py_get m "act_as" PNone in
  let* source := py_getitem m "source" in
  let* target := py_getitem m "target" in
  let* kind := py_getitem m "kind" in
  let* request_id := py_getitem m "request_id" in
  let* txn_id := py_getitem m "txn_id" in
  let* act_as := from_option ActAs_from_map act_as in
  Ok (mk_UnlinkRequest source target kind request_id txn_id act_as).

Definition UnlinkRequest_wf (self : UnlinkRequest) : Prop :=
 raw_ok (UnlinkRequest_source self) /\ raw_ok (UnlinkRequest_target self) /\
  raw_ok (UnlinkRequest_kind self) /\ raw_ok (UnlinkRequest_request_id self) /\
  raw_ok (UnlinkRequest_txn_id self) /\ option_ok ActAs_wf (UnlinkRequest_act_as self).

#[export] Instance UnlinkRequest_nested :
  Nested UnlinkRequest_wf UnlinkRequest_to_map UnlinkRequest_from_map.
Proof. intros []. wire_class UnlinkRequest_wf UnlinkRequest_to_map UnlinkRequest_from_map. Qed.

#[export] Instance UnlinkRequest_payload : WirePayload UnlinkRequest :=
  map_payload UnlinkRequest_to_map UnlinkRequest_from_map.
#[export] Instance UnlinkRequest_laws : WireLaws UnlinkRequest :=
  map_laws _ _ _ (fun self m E => py_dict_is_dict _ _ E).

(** ** [UnlinkResponse] *)

Record UnlinkResponse : Type := mk_UnlinkResponse {
  UnlinkResponse_source : pyval; UnlinkResponse_target : pyval; UnlinkResponse_kind : pyval;
  UnlinkResponse_removed : pyval
}.

Definition UnlinkResponse_to_map (self : UnlinkResponse) : pyresult pyval :=
  py_dict
    ["source" ::= Ok (UnlinkResponse_source self); "target" ::= Ok (UnlinkResponse_target self);
     "kind" ::= Ok (UnlinkResponse_kind self); "removed" ::= Ok (UnlinkResponse_removed self)].

Definition UnlinkResponse_from_map (m : pyval) : pyresult UnlinkResponse :=
  let* source := py_getitem m "source" in
  let* target := py_getitem m "target" in
  let* kind := py_getitem m "kind" in
  let* removed := py_getitem m "removed" in
  Ok (mk_UnlinkResponse source target kind removed).

Definition UnlinkResponse_wf (self : UnlinkResponse) : Prop :=
 raw_ok (UnlinkResponse_source self) /\ raw_ok (UnlinkResponse_target self) /\
  raw_ok (UnlinkResponse_kind self) /\ raw_ok (UnlinkResponse_removed self).

#[export] Instance UnlinkResponse_nested :
  Nested UnlinkResponse_wf UnlinkResponse_to_map UnlinkResponse_from_map.
Proof. intros []. wire_class UnlinkResponse_wf UnlinkResponse_to_map UnlinkResponse_from_map. Qed.

#[export] Instance UnlinkResponse_payload : WirePayload UnlinkResponse :=
  map_payload UnlinkResponse_to_map UnlinkResponse_from_map.
#[export] Instance UnlinkResponse_laws : WireLaws UnlinkResponse :=
  map_laws _ _ _ (fun self m E => py_dict_is_dict _ _ E).

(** ** [PlanState] *)

Record PlanState : Type := mk_PlanState { PlanState_variant : pyval; PlanState_value : pyval }.

Definition PlanState_by_vector (offset dim : pyval) : PlanState :=
  mk_PlanState (PStr "ByVector") (PDict [(PStr "offset", offset); (PStr "dim", dim)]).

Definition PlanState_to_cbor_value (self : PlanState) : pyresult pyval :=
  py_single (PlanState_variant self) (PlanState_value self).

Definition PlanState_from_cbor_value (v : pyval) : pyresult PlanState :=
  let* '(variant, value) := py_single_item v in
  if py_eq_str variant "ByVector" then
    let* d := py_dict ["offset" ::= py_getitem value "offset"; "dim" ::= py_getitem value "dim"] in
    Ok (mk_PlanState (PStr "ByVector") d)
  else Ok (mk_PlanState variant value).

Definition PlanState_wf (self : PlanState) : Prop :=
  exists s, PlanState_variant self = PStr s /\
  if String.eqb s "ByVector"
  then exists offset dim, self = PlanState_by_vector offset dim /\ raw_ok offset /\ raw_ok dim
  else raw_ok (PlanState_value self).

#[export] Instance PlanState_nested :
  Nested PlanState_wf PlanState_to_cbor_value PlanState_from_cbor_value.
Proof.
  intros [variant value] (s & Hs & H). cbn in Hs, H. subst variant. unfold wire_ok.
  destruct (String.eqb s "ByVector") eqn:E1.
  - destruct H as (offset & dim & [= -> ->] & H1%unmark_plain & H2%unmark_plain).
    eexists. split; [reflexivity|]. split; [done|]. wire_eval. by rewrite H1, H2.
  - eexists. split; [reflexivity|]. split; [done|]. unfold PlanState_from_cbor_value. wire_eval.
    by rewrite E1, (unmark_plain _ H).
Qed.

(** ** [TransitionKind] *)

Record TransitionKind : Type := mk_TransitionKind {
  TransitionKind_variant : pyval; TransitionKind_value : pyval
}.

Definition TransitionKind_to_cbor_value (self : TransitionKind) : pyresult pyval :=
  if py_eq_str (TransitionKind_variant self) "Other"
  then py_dict ["Other" ::= Ok (TransitionKind_value self)]
  else Ok (TransitionKind_variant self).

Definition TransitionKind_from_cbor_value `{PyStr} (v : pyval) : pyresult TransitionKind :=
  if is_dict v then
    let* '(variant, value) := py_single_item v in
    Ok (mk_TransitionKind (py_str variant) value)
  else if is_str v then Ok (mk_TransitionKind v PNone)
  else Raise ValueError.

Definition TransitionKind_wf (self : TransitionKind) : Prop :=
  exists s, TransitionKind_variant self = PStr s
    /\ if String.eqb s "Other" then raw_ok (TransitionKind_value self)
       else TransitionKind_value self = PNone.

#[export] Instance TransitionKind_nested `{PyStr} :
  Nested TransitionKind_wf TransitionKind_to_cbor_value TransitionKind_from_cbor_value.
Proof.
  intros [variant value] (s & Hs & H0). cbn in Hs, H0. subst variant.
  unfold wire_ok, TransitionKind_to_cbor_value, TransitionKind_from_cbor_value. wire_fields.
  destruct (String.eqb s "Other") eqn:E1.
  - apply String.eqb_eq in E1 as ->. eexists. split; [reflexivity|]. split; [done|]. wire_eval.
    by rewrite (unmark_plain _ H0).
  - subst value. by eexists.
Qed.

(** ** [PlanBudget] *)

Record PlanBudget : Type := mk_PlanBudget {
  PlanBudget_max_steps : pyval; PlanBudget_max_wall_time_ms : pyval;
  PlanBudget_max_branches_explored : pyval
}.

Definition PlanBudget_to_map (self : PlanBudget) : pyresult pyval :=
  py_dict
    ["max_steps" ::= Ok (PlanBudget_max_steps self);
     "max_wall_time_ms" ::= Ok (PlanBudget_max_wall_time_ms self);
     "max_branches_explored" ::= Ok (PlanBudget_max_branches_explored self)].

Definition PlanBudget_from_map (m : pyval) : pyresult PlanBudget :=
  let* max_steps := py_getitem m "max_steps" in
  let* max_wall_time_ms := py_getitem m "max_wall_time_ms" in
  let* max_branches_explored := py_getitem m "max_branches_explored" in
  Ok (mk_PlanBudget max_steps max_wall_time_ms max_branches_explored).

Definition PlanBudget_wf (self : PlanBudget) : Prop :=
 raw_ok (PlanBudget_max_steps self) /\ raw_ok (PlanBudget_max_wall_time_ms self) /\
  raw_ok (PlanBudget_max_branches_explored self).

#[export] Instance PlanBudget_nested : Nested PlanBudget_wf PlanBudget_to_map PlanBudget_from_map.
Proof. intros []. wire_class PlanBudget_wf PlanBudget_to_map PlanBudget_from_map. Qed.

(** ** [PlanTraceNode] *)

Record PlanTraceNode : Type := mk_PlanTraceNode {
  PlanTraceNode_memory_id : pyval; PlanTraceNode_text : pyval; PlanTraceNode_direction : pyval;
  PlanTraceNode_depth : pyval; PlanTraceNode_parent_edge : pyval;
  PlanTraceNode_alignment_score : pyval
}.

Definition PlanTraceNode_to_map (self : PlanTraceNode) : pyresult pyval :=
  py_dict
    ["memory_id" ::= Ok (PlanTraceNode_memory_id self); "text" ::= Ok (PlanTraceNode_text self);
     "direction" ::= Ok (PlanTraceNode_direction self); "depth" ::= Ok (PlanTraceNode_depth self);
     "parent_edge" ::= Ok (PlanTraceNode_parent_edge self);
     "alignment_score" ::= none_or round_f32 (PlanTraceNode_alignment_score self)].

Definition PlanTraceNode_from_map (m : pyval) : pyresult PlanTraceNode :=
  let* memory_id := py_getitem m "memory_id" in
  let* text := py_getitem m "text" in
  let* direction := py_getitem m "direction" in
  let* depth := py_getitem m "depth" in
  let* parent_edge := py_getitem m "parent_edge" in
  let* alignment_score := py_getitem m "alignment_score" in
  Ok (mk_PlanTraceNode memory_id text direction depth parent_edge alignment_score).

Definition PlanTraceNode_wf (self : PlanTraceNode) : Prop :=
 raw_ok (PlanTraceNode_memory_id self) /\ raw_ok (PlanTraceNode_text self) /\
  raw_ok (PlanTraceNode_direction self) /\ raw_ok (PlanTraceNode_depth self) /\
  raw_ok (PlanTraceNode_parent_edge self) /\
  none_or_ok f32_ok (PlanTraceNode_alignment_score self).

#[export] Instance PlanTraceNode_nested :
  Nested PlanTraceNode_wf PlanTraceNode_to_map PlanTraceNode_from_map.
Proof. intros []. wire_class PlanTraceNode_wf PlanTraceNode_to_map PlanTraceNode_from_map. Qed.

(** ** [PlanTraceMeetingPoint] *)

Record PlanTraceMeetingPoint : Type := mk_PlanTraceMeetingPoint {
  PlanTraceMeetingPoint_memory_id : pyval; PlanTraceMeetingPoint_text : pyval;
  PlanTraceMeetingPoint_included_in_result : pyval
}.

Definition PlanTraceMeetingPoint_to_map (self : PlanTraceMeetingPoint) : pyresult pyval :=
  py_dict
    ["memory_id" ::= Ok (PlanTraceMeetingPoint_memory_id self);
     "text" ::= Ok (PlanTraceMeetingPoint_text self);
     "included_in_result" ::= Ok (PlanTraceMeetingPoint_included_in_result self)].

Definition PlanTraceMeetingPoint_from_map (m : pyval) : pyresult PlanTraceMeetingPoint :=
  let* memory_id := py_getitem m "memory_id" in
  let* text := py_getitem m "text" in
  let* included_in_result := py_getitem m "included_in_result" in
  Ok (mk_PlanTraceMeetingPoint memory_id text included_in_result).

Definition PlanTraceMeetingPoint_wf (self : PlanTraceMeetingPoint) : Prop :=
 raw_ok (PlanTraceMeetingPoint_memory_id self) /\ raw_ok (PlanTraceMeetingPoint_text self) /\
  raw_ok (PlanTraceMeetingPoint_included_in_result self).

#[export] Instance PlanTraceMeetingPoint_nested :
  Nested PlanTraceMeetingPoint_wf PlanTraceMeetingPoint_to_map PlanTraceMeetingPoint_from_map.
Proof.
  intros []. wire_class PlanTraceMeetingPoint_wf PlanTraceMeetingPoint_to_map PlanTraceMeetingPoint_from_map.
Qed.

(** ** [PlanTrace] *)

Record PlanTrace : Type := mk_PlanTrace {
  PlanTrace_explored : list PlanTraceNode; PlanTrace_meeting_points : list PlanTraceMeetingPoint
}.

Definition PlanTrace_to_map (self : PlanTrace) : pyresult pyval :=
  py_dict
    ["explored" ::= to_list PlanTraceNode_to_map (PlanTrace_explored self);
     "meeting_points" ::= to_list PlanTraceMeetingPoint_to_map (PlanTrace_meeting_points self)].

Definition PlanTrace_from_map (m : pyval) : pyresult PlanTrace :=
  let* explored := bind (py_getitem m "explored") (from_list PlanTraceNode_from_map) in
  let* meeting_points :=
    bind (py_getitem m "meeting_points") (from_list PlanTraceMeetingPoint_from_map) in
  Ok (mk_PlanTrace explored meeting_points).

Definition PlanTrace_wf (self : PlanTrace) : Prop :=
 Forall PlanTraceNode_wf (PlanTrace_explored self) /\
  Forall PlanTraceMeetingPoint_wf (PlanTrace_meeting_points self).

#[export] Instance PlanTrace_nested : Nested PlanTrace_wf PlanTrace_to_map PlanTrace_from_map.
Proof. intros []. wire_class PlanTrace_wf PlanTrace_to_map PlanTrace_from_map. Qed.

(** ** [PlanRequest] *)

Record PlanRequest : Type := mk_PlanRequest {
  PlanRequest_start : PlanState; PlanRequest_goal : PlanState; PlanRequest_budget : PlanBudget;
  PlanRequest_strategy_hint : pyval; PlanRequest_session_filter : pyval;
  PlanRequest_request_id : pyval; PlanRequest_txn_id : pyval; PlanRequest_trace : pyval;
  PlanRequest_act_as : option ActAs
}.

Definition PlanRequest_to_map (self : PlanRequest) : pyresult pyval :=
  py_dict (
    ["start" ::= PlanState_to_cbor_value (PlanRequest_start self);
     "goal" ::= PlanState_to_cbor_value (PlanRequest_goal self);
     "budget" ::= PlanBudget_to_map (PlanRequest_budget self);
     "strategy_hint" ::= Ok (PlanRequest_strategy_hint self);
     "session_filter" ::= none_or py_list (PlanRequest_session_filter self);
     "request_id" ::= Ok (PlanRequest_request_id self); "txn_id" ::= Ok (PlanRequest_txn_id self);
     "trace" ::= Ok (PlanRequest_trace self)]
    ++ emit_some "act_as" ActAs_to_map (PlanRequest_act_as self)).

Definition PlanRequest_from_map (m : pyval) : pyresult PlanRequest :=
  let* act_as := py_get m "act_as" PNone in
  let* start := bind (py_getitem m "start") PlanState_from_cbor_value in
  let* goal := bind (py_getitem m "goal") PlanState_from_cbor_value in
  let* budget := bind (py_getitem m "budget") PlanBudget_from_map in
  let* strategy_hint := py_getitem m "strategy_hint" in
  let* session_filter := bind (py_getitem m "session_filter") (none_or py_list) in
  let* request_id := py_getitem m "request_id" in
  let* txn_id := py_getitem m "txn_id" in
  let* trace := bind (py_get m "trace" (PBool false)) to_bool in
  let* act_as := from_option ActAs_from_map act_as in
  Ok (mk_PlanRequest start goal budget strategy_hint session_filter request_id txn_id trace act_as).

Definition PlanRequest_wf (self : PlanRequest) : Prop :=
 PlanState_wf (PlanRequest_start self) /\ PlanState_wf (PlanRequest_goal self) /\
  PlanBudget_wf (PlanRequest_budget self) /\ raw_ok (PlanRequest_strategy_hint self) /\
  none_or_ok list_ok (PlanRequest_session_filter self) /\ raw_ok (PlanRequest_request_id self) /\
  raw_ok (PlanRequest_txn_id self) /\ bool_ok (PlanRequest_trace self) /\
  option_ok ActAs_wf (PlanRequest_act_as self).

#[export] Instance PlanRequest_nested :
  Nested PlanRequest_wf PlanRequest_to_map PlanRequest_from_map.
Proof. intros []. wire_class PlanRequest_wf PlanRequest_to_map PlanRequest_from_map. Qed.

#[export] Instance PlanRequest_payload : WirePayload PlanRequest :=
  map_payload PlanRequest_to_map PlanRequest_from_map.
#[export] Instance PlanRequest_laws : WireLaws PlanRequest :=
  map_laws _ _ _ (fun self m E => py_dict_is_dict _ _ E).

(** ** [PlanStep] *)

Record PlanStep : Type := mk_PlanStep {
  PlanStep_step_index : pyval; PlanStep_memory_id : pyval; PlanStep_text : pyval;
  PlanStep_transition_kind : TransitionKind; PlanStep_confidence : pyval;
  PlanStep_estimated_distance_to_goal : pyval
}.

Definition PlanStep_to_map (self : PlanStep) : pyresult pyval :=
  py_dict
    ["step_index" ::= Ok (PlanStep_step_index self); "memory_id" ::= Ok (PlanStep_memory_id self);
     "text" ::= Ok (PlanStep_text self);
     "transition_kind" ::= TransitionKind_to_cbor_value (PlanStep_transition_kind self);
     "confidence" ::= round_f32 (PlanStep_confidence self);
     "estimated_distance_to_goal" ::= round_f32 (PlanStep_estimated_distance_to_goal self)].

Definition PlanStep_from_map `{PyStr} (m : pyval) : pyresult PlanStep :=
  let* step_index := py_getitem m "step_index" in
  let* memory_id := py_getitem m "memory_id" in
  let* text := py_getitem m "text" in
  let* transition_kind := bind (py_getitem m "transition_kind") TransitionKind_from_cbor_value in
  let* confidence := py_getitem m "confidence" in
  let* estimated_distance_to_goal := py_getitem m "estimated_distance_to_goal" in
  Ok (mk_PlanStep step_index memory_id text transition_kind confidence estimated_distance_to_goal).

Definition PlanStep_wf (self : PlanStep) : Prop :=
 raw_ok (PlanStep_step_index self) /\ raw_ok (PlanStep_memory_id self) /\
  raw_ok (PlanStep_text self) /\ TransitionKind_wf (PlanStep_transition_kind self) /\
  f32_ok (PlanStep_confidence self) /\ f32_ok (PlanStep_estimated_distance_to_goal self).

#[export] Instance PlanStep_nested `{PyStr} : Nested PlanStep_wf PlanStep_to_map PlanStep_from_map.
Proof. intros []. wire_class PlanStep_wf PlanStep_to_map PlanStep_from_map. Qed.

(** ** [PlanResponseFrame] *)

Record PlanResponseFrame : Type := mk_PlanResponseFrame {
  PlanResponseFrame_steps : list PlanStep; PlanResponseFrame_is_final : pyval;
  PlanResponseFrame_plan_status : pyval; PlanResponseFrame_trace : option PlanTrace
}.

Definition PlanResponseFrame_to_map (self : PlanResponseFrame) : pyresult pyval :=
  py_dict (
    ["steps" ::= to_list PlanStep_to_map (PlanResponseFrame_steps self);
     "is_final" ::= Ok (PlanResponseFrame_is_final self);
     "plan_status" ::= Ok (PlanResponseFrame_plan_status self)]
    ++ emit_some "trace" PlanTrace_to_map (PlanResponseFrame_trace self)).

Definition PlanResponseFrame_from_map `{PyStr} (m : pyval) : pyresult PlanResponseFrame :=
  let* trace := py_get m "trace" PNone in
  let* steps := bind (py_getitem m "steps") (from_list PlanStep_from_map) in
  let* is_final := py_getitem m "is_final" in
  let* plan_status := py_getitem m "plan_status" in
  let* trace := from_option PlanTrace_from_map trace in
  Ok (mk_PlanResponseFrame steps is_final plan_status trace).

Definition PlanResponseFrame_wf (self : PlanResponseFrame) : Prop :=
 Forall PlanStep_wf (PlanResponseFrame_steps self) /\ raw_ok (PlanResponseFrame_is_final self) /\
  raw_ok (PlanResponseFrame_plan_status self) /\
  option_ok PlanTrace_wf (PlanResponseFrame_trace self).

#[export] Instance PlanResponseFrame_nested `{PyStr} :
  Nested PlanResponseFrame_wf PlanResponseFrame_to_map PlanResponseFrame_from_map.
Proof.
  intros []. wire_class PlanResponseFrame_wf PlanResponseFrame_to_map PlanResponseFrame_from_map.
Qed.

#[export] Instance PlanResponseFrame_payload `{PyStr} : WirePayload PlanResponseFrame :=
  map_payload PlanResponseFrame_to_map PlanResponseFrame_from_map.
#[export] Instance PlanResponseFrame_laws `{PyStr} : WireLaws PlanResponseFrame :=
  map_laws _ _ _ (fun self m E => py_dict_is_dict _ _ E).

(** ** [ObservationInput] *)

Record ObservationInput : Type := mk_ObservationInput {
  ObservationInput_variant : pyval; ObservationInput_value : pyval
}.

Definition ObservationInput_to_cbor_value (self : ObservationInput) : pyresult pyval :=
  py_single (ObservationInput_variant self) (ObservationInput_value self).

Definition ObservationInput_from_cbor_value (v : pyval) : pyresult ObservationInput :=
  let* '(variant, value) := py_single_item v in Ok (mk_ObservationInput variant value).

Definition ObservationInput_wf (self : ObservationInput) : Prop :=
  (exists s, ObservationInput_variant self = PStr s) /\ raw_ok (ObservationInput_value self).

#[export] Instance ObservationInput_nested :
  Nested ObservationInput_wf ObservationInput_to_cbor_value ObservationInput_from_cbor_value.
Proof.
  intros [variant value] [(s & Hs) H]. cbn in Hs, H. subst variant.
  eexists. split; [reflexivity|]. split; [done|]. wire_eval. by rewrite (unmark_plain _ H).
Qed.

(** ** [InferenceKind] *)

Record InferenceKind : Type := mk_InferenceKind {
  InferenceKind_variant : pyval; InferenceKind_value : pyval
}.

Definition InferenceKind_to_cbor_value (self : InferenceKind) : pyresult pyval :=
  if py_eq_str (InferenceKind_variant self) "Other"
  then py_dict ["Other" ::= Ok (InferenceKind_value self)]
  else Ok (InferenceKind_variant self).

Definition InferenceKind_from_cbor_value `{PyStr} (v : pyval) : pyresult InferenceKind :=
  if is_dict v then
    let* '(variant, value) := py_single_item v in
    Ok (mk_InferenceKind (py_str variant) value)
  else if is_str v then Ok (mk_InferenceKind v PNone)
  else Raise ValueError.

Definition InferenceKind_wf (self : InferenceKind) : Prop :=
  exists s, InferenceKind_variant self = PStr s
    /\ if String.eqb s "Other" then raw_ok (InferenceKind_value self)
       else InferenceKind_value self = PNone.

#[export] Instance InferenceKind_nested `{PyStr} :
  Nested InferenceKind_wf InferenceKind_to_cbor_value InferenceKind_from_cbor_value.
Proof.
  intros [variant value] (s & Hs & H0). cbn in Hs, H0. subst variant.
  unfold wire_ok, InferenceKind_to_cbor_value, InferenceKind_from_cbor_value. wire_fields.
  destruct (String.eqb s "Other") eqn:E1.
  - apply String.eqb_eq in E1 as ->. eexists. split; [reflexivity|]. split; [done|]. wire_eval.
    by rewrite (unmark_plain _ H0).
  - subst value. by eexists.
Qed.

(** ** [ReasonTraceCandidate] *)

Record ReasonTraceCandidate : Type := mk_ReasonTraceCandidate {
  ReasonTraceCandidate_memory_id : pyval; ReasonTraceCandidate_text : pyval;
  ReasonTraceCandidate_score : pyval
}.

Definition ReasonTraceCandidate_to_map (self : ReasonTraceCandidate) : pyresult pyval :=
  py_dict
    ["memory_id" ::= Ok (ReasonTraceCandidate_memory_id self);
     "text" ::= Ok (ReasonTraceCandidate_text self);
     "score" ::= round_f32 (ReasonTraceCandidate_score self)].

Definition ReasonTraceCandidate_from_map (m : pyval) : pyresult ReasonTraceCandidate :=
  let* memory_id := py_getitem m "memory_id" in
  let* text := py_getitem m "text" in
  let* score := py_getitem m "score" in
  Ok (mk_ReasonTraceCandidate memory_id text score).

Definition ReasonTraceCandidate_wf (self : ReasonTraceCandidate) : Prop :=
 raw_ok (ReasonTraceCandidate_memory_id self) /\ raw_ok (ReasonTraceCandidate_text self) /\
  f32_ok (ReasonTraceCandidate_score self).

#[export] Instance ReasonTraceCandidate_nested :
  Nested ReasonTraceCandidate_wf ReasonTraceCandidate_to_map ReasonTraceCandidate_from_map.
Proof.
  intros []. wire_class ReasonTraceCandidate_wf ReasonTraceCandidate_to_map ReasonTraceCandidate_from_map.
Qed.

(** ** [ReasonTraceBase] *)

Record ReasonTraceBase : Type := mk_ReasonTraceBase {
  ReasonTraceBase_candidates : list ReasonTraceCandidate
}.

Definition ReasonTraceBase_to_map (self : ReasonTraceBase) : pyresult pyval :=
  py_dict
    ["candidates" ::= to_list ReasonTraceCandidate_to_map (ReasonTraceBase_candidates self)].

Definition ReasonTraceBase_from_map (m : pyval) : pyresult ReasonTraceBase :=
  let* candidates := bind (py_getitem m "candidates") (from_list ReasonTraceCandidate_from_map) in
  Ok (mk_ReasonTraceBase candidates).

Definition ReasonTraceBase_wf (self : ReasonTraceBase) : Prop :=
 Forall ReasonTraceCandidate_wf (ReasonTraceBase_candidates self).

#[export] Instance ReasonTraceBase_nested :
  Nested ReasonTraceBase_wf ReasonTraceBase_to_map ReasonTraceBase_from_map.
Proof.
  intros []. wire_class ReasonTraceBase_wf ReasonTraceBase_to_map ReasonTraceBase_from_map.
Qed.

(** ** [ReasonTraceEdgeCandidate] *)

Record ReasonTraceEdgeCandidate : Type := mk_ReasonTraceEdgeCandidate {
  ReasonTraceEdgeCandidate_memory_id : pyval; ReasonTraceEdgeCandidate_text : pyval;
  ReasonTraceEdgeCandidate_edge_kind : pyval; ReasonTraceEdgeCandidate_depth : pyval;
  ReasonTraceEdgeCandidate_from_memory_id : pyval; ReasonTraceEdgeCandidate_raw_score : pyval
}.

Definition ReasonTraceEdgeCandidate_to_map (self : ReasonTraceEdgeCandidate) : pyresult pyval :=
  py_dict
    ["memory_id" ::= Ok (ReasonTraceEdgeCandidate_memory_id self);
     "text" ::= Ok (ReasonTraceEdgeCandidate_text self);
     "edge_kind" ::= Ok (ReasonTraceEdgeCandidate_edge_kind self);
     "depth" ::= Ok (ReasonTraceEdgeCandidate_depth self);
     "from_memory_id" ::= Ok (ReasonTraceEdgeCandidate_from_memory_id self);
     "raw_score" ::= round_f32 (ReasonTraceEdgeCandidate_raw_score self)].

Definition ReasonTraceEdgeCandidate_from_map (m : pyval) : pyresult ReasonTraceEdgeCandidate :=
  let* memory_id := py_getitem m "memory_id" in
  let* text := py_getitem m "text" in
  let* edge_kind := py_getitem m "edge_kind" in
  let* depth := py_getitem m "depth" in
  let* from_memory_id := py_getitem m "from_memory_id" in
  let* raw_score := py_getitem m "raw_score" in
  Ok (mk_ReasonTraceEdgeCandidate memory_id text edge_kind depth from_memory_id raw_score).

Definition ReasonTraceEdgeCandidate_wf (self : ReasonTraceEdgeCandidate) : Prop :=
 raw_ok (ReasonTraceEdgeCandidate_memory_id self) /\
  raw_ok (ReasonTraceEdgeCandidate_text self) /\
  raw_ok (ReasonTraceEdgeCandidate_edge_kind self) /\
  raw_ok (ReasonTraceEdgeCandidate_depth self) /\
  raw_ok (ReasonTraceEdgeCandidate_from_memory_id self) /\
  f32_ok (ReasonTraceEdgeCandidate_raw_score self).

#[export] Instance ReasonTraceEdgeCandidate_nested :
  Nested ReasonTraceEdgeCandidate_wf ReasonTraceEdgeCandidate_to_map ReasonTraceEdgeCandidate_from_map.
Proof.
  intros []. wire_class ReasonTraceEdgeCandidate_wf ReasonTraceEdgeCandidate_to_map ReasonTraceEdgeCandidate_from_map.
Qed.

(** ** [ReasonTraceIdWithText] *)

Record ReasonTraceIdWithText : Type := mk_ReasonTraceIdWithText {
  ReasonTraceIdWithText_memory_id : pyval; ReasonTraceIdWithText_text : pyval
}.

Definition ReasonTraceIdWithText_to_map (self : ReasonTraceIdWithText) : pyresult pyval :=
  py_dict
    ["memory_id" ::= Ok (ReasonTraceIdWithText_memory_id self);
     "text" ::= Ok (ReasonTraceIdWithText_text self)].

Definition ReasonTraceIdWithText_from_map (m : pyval) : pyresult ReasonTraceIdWithText :=
  let* memory_id := py_getitem m "memory_id" in
  let* text := py_getitem m "text" in
  Ok (mk_ReasonTraceIdWithText memory_id text).

Definition ReasonTraceIdWithText_wf (self : ReasonTraceIdWithText) : Prop :=
 raw_ok (ReasonTraceIdWithText_memory_id self) /\ raw_ok (ReasonTraceIdWithText_text self).

#[export] Instance ReasonTraceIdWithText_nested :
  Nested ReasonTraceIdWithText_wf ReasonTraceIdWithText_to_map ReasonTraceIdWithText_from_map.
Proof.
  intros []. wire_class ReasonTraceIdWithText_wf ReasonTraceIdWithText_to_map ReasonTraceIdWithText_from_map.
Qed.

(** ** [ReasonTraceScoredId] *)

Record ReasonTraceScoredId : Type := mk_ReasonTraceScoredId {
  ReasonTraceScoredId_memory_id : pyval; ReasonTraceScoredId_text : pyval;
  ReasonTraceScoredId_score : pyval
}.

Definition ReasonTraceScoredId_to_map (self : ReasonTraceScoredId) : pyresult pyval :=
  py_dict
    ["memory_id" ::= Ok (ReasonTraceScoredId_memory_id self);
     "text" ::= Ok (ReasonTraceScoredId_text self);
     "score" ::= round_f32 (ReasonTraceScoredId_score self)].

Definition ReasonTraceScoredId_from_map (m : pyval) : pyresult ReasonTraceScoredId :=
  let* memory_id := py_getitem m "memory_id" in
  let* text := py_getitem m "text" in
  let* score := py_getitem m "score" in
  Ok (mk_ReasonTraceScoredId memory_id text score).

Definition ReasonTraceScoredId_wf (self : ReasonTraceScoredId) : Prop :=
 raw_ok (ReasonTraceScoredId_memory_id self) /\ raw_ok (ReasonTraceScoredId_text self) /\
  f32_ok (ReasonTraceScoredId_score self).

#[export] Instance ReasonTraceScoredId_nested :
  Nested ReasonTraceScoredId_wf ReasonTraceScoredId_to_map ReasonTraceScoredId_from_map.
Proof.
  intros []. wire_class ReasonTraceScoredId_wf ReasonTraceScoredId_to_map ReasonTraceScoredId_from_map.
Qed.

(** ** [ReasonTraceWalk] *)

Record ReasonTraceWalk : Type := mk_ReasonTraceWalk {
  ReasonTraceWalk_considered : list ReasonTraceEdgeCandidate;
  ReasonTraceWalk_dropped_by_edge_kind : list ReasonTraceEdgeCandidate;
  ReasonTraceWalk_dropped_by_tombstone : list ReasonTraceIdWithText;
  ReasonTraceWalk_dropped_by_visited : list ReasonTraceIdWithText;
  ReasonTraceWalk_dropped_by_confidence : list ReasonTraceScoredId;
  ReasonTraceWalk_dropped_by_max_supporting : list ReasonTraceIdWithText;
  ReasonTraceWalk_dropped_by_max_contradicting : list ReasonTraceIdWithText
}.

Definition ReasonTraceWalk_to_map (self : ReasonTraceWalk) : pyresult pyval :=
  py_dict
    ["considered" ::= to_list ReasonTraceEdgeCandidate_to_map (ReasonTraceWalk_considered self);
     "dropped_by_edge_kind" ::= to_list ReasonTraceEdgeCandidate_to_map (ReasonTraceWalk_dropped_by_edge_kind self);
     "dropped_by_tombstone" ::= to_list ReasonTraceIdWithText_to_map (ReasonTraceWalk_dropped_by_tombstone self);
     "dropped_by_visited" ::= to_list ReasonTraceIdWithText_to_map (ReasonTraceWalk_dropped_by_visited self);
     "dropped_by_confidence" ::= to_list ReasonTraceScoredId_to_map (ReasonTraceWalk_dropped_by_confidence self);
     "dropped_by_max_supporting" ::= to_list ReasonTraceIdWithText_to_map (ReasonTraceWalk_dropped_by_max_supporting self);
     "dropped_by_max_contradicting" ::= to_list ReasonTraceIdWithText_to_map (ReasonTraceWalk_dropped_by_max_contradicting self)].

Definition ReasonTraceWalk_from_map (m : pyval) : pyresult ReasonTraceWalk :=
  let* considered :=
    bind (py_getitem m "considered") (from_list ReasonTraceEdgeCandidate_from_map) in
  let* dropped_by_edge_kind :=
    bind (py_getitem m "dropped_by_edge_kind") (from_list ReasonTraceEdgeCandidate_from_map) in
  let* dropped_by_tombstone :=
    bind (py_getitem m "dropped_by_tombstone") (from_list ReasonTraceIdWithText_from_map) in
  let* dropped_by_visited :=
    bind (py_getitem m "dropped_by_visited") (from_list ReasonTraceIdWithText_from_map) in
  let* dropped_by_confidence :=
    bind (py_getitem m "dropped_by_confidence") (from_list ReasonTraceScoredId_from_map) in
  let* dropped_by_max_supporting :=
    bind (py_getitem m "dropped_by_max_supporting") (from_list ReasonTraceIdWithText_from_map) in
  let* dropped_by_max_contradicting :=
    bind (py_getitem m "dropped_by_max_contradicting") (from_list ReasonTraceIdWithText_from_map) in
  Ok (mk_ReasonTraceWalk considered dropped_by_edge_kind dropped_by_tombstone dropped_by_visited
    dropped_by_confidence dropped_by_max_supporting dropped_by_max_contradicting).

Definition ReasonTraceWalk_wf (self : ReasonTraceWalk) : Prop :=
 Forall ReasonTraceEdgeCandidate_wf (ReasonTraceWalk_considered self) /\
  Forall ReasonTraceEdgeCandidate_wf (ReasonTraceWalk_dropped_by_edge_kind self) /\
  Forall ReasonTraceIdWithText_wf (ReasonTraceWalk_dropped_by_tombstone self) /\
  Forall ReasonTraceIdWithText_wf (ReasonTraceWalk_dropped_by_visited self) /\
  Forall ReasonTraceScoredId_wf (ReasonTraceWalk_dropped_by_confidence self) /\
  Forall ReasonTraceIdWithText_wf (ReasonTraceWalk_dropped_by_max_supporting self) /\
  Forall ReasonTraceIdWithText_wf (ReasonTraceWalk_dropped_by_max_contradicting self).

#[export] Instance ReasonTraceWalk_nested :
  Nested ReasonTraceWalk_wf ReasonTraceWalk_to_map ReasonTraceWalk_from_map.
Proof.
  intros []. wire_class ReasonTraceWalk_wf ReasonTraceWalk_to_map ReasonTraceWalk_from_map.
Qed.

(** ** [ReasonTraceScoreBreakdown] *)

Record ReasonTraceScoreBreakdown : Type := mk_ReasonTraceScoreBreakdown {
  ReasonTraceScoreBreakdown_memory_id : pyval; ReasonTraceScoreBreakdown_text : pyval;
  ReasonTraceScoreBreakdown_base_similarity : pyval; ReasonTraceScoreBreakdown_decay : pyval;
  ReasonTraceScoreBreakdown_weight_product : pyval; ReasonTraceScoreBreakdown_alignment : pyval;
  ReasonTraceScoreBreakdown_analogical_fit : pyval; ReasonTraceScoreBreakdown_final_score : pyval
}.

Definition ReasonTraceScoreBreakdown_to_map (self : ReasonTraceScoreBreakdown) : pyresult pyval :=
  py_dict
    ["memory_id" ::= Ok (ReasonTraceScoreBreakdown_memory_id self);
     "text" ::= Ok (ReasonTraceScoreBreakdown_text self);
     "base_similarity" ::= round_f32 (ReasonTraceScoreBreakdown_base_similarity self);
     "decay" ::= round_f32 (ReasonTraceScoreBreakdown_decay self);
     "weight_product" ::= round_f32 (ReasonTraceScoreBreakdown_weight_product self);
     "alignment" ::= round_f32 (ReasonTraceScoreBreakdown_alignment self);
     "analogical_fit" ::= round_f32 (ReasonTraceScoreBreakdown_analogical_fit self);
     "final_score" ::= round_f32 (ReasonTraceScoreBreakdown_final_score self)].

Definition ReasonTraceScoreBreakdown_from_map (m : pyval) : pyresult ReasonTraceScoreBreakdown :=
  let* memory_id := py_getitem m "memory_id" in
  let* text := py_getitem m "text" in
  let* base_similarity := py_getitem m "base_similarity" in
  let* decay := py_getitem m "decay" in
  let* weight_product := py_getitem m "weight_product" in
  let* alignment := py_getitem m "alignment" in
  let* analogical_fit := py_getitem m "analogical_fit" in
  let* final_score := py_getitem m "final_score" in
  Ok (mk_ReasonTraceScoreBreakdown memory_id text base_similarity decay weight_product alignment
    analogical_fit final_score).

Definition ReasonTraceScoreBreakdown_wf (self : ReasonTraceScoreBreakdown) : Prop :=
 raw_ok (ReasonTraceScoreBreakdown_memory_id self) /\
  raw_ok (ReasonTraceScoreBreakdown_text self) /\
  f32_ok (ReasonTraceScoreBreakdown_base_similarity self) /\
  f32_ok (ReasonTraceScoreBreakdown_decay self) /\
  f32_ok (ReasonTraceScoreBreakdown_weight_product self) /\
  f32_ok (ReasonTraceScoreBreakdown_alignment self) /\
  f32_ok (ReasonTraceScoreBreakdown_analogical_fit self) /\
  f32_ok (ReasonTraceScoreBreakdown_final_score self).

#[export] Instance ReasonTraceScoreBreakdown_nested :
  Nested ReasonTraceScoreBreakdown_wf ReasonTraceScoreBreakdown_to_map ReasonTraceScoreBreakdown_from_map.
Proof.
  intros []. wire_class ReasonTraceScoreBreakdown_wf ReasonTraceScoreBreakdown_to_map ReasonTraceScoreBreakdown_from_map.
Qed.

(** ** [ReasonTraceCentroid] *)

Record ReasonTraceCentroid : Type := mk_ReasonTraceCentroid {
  ReasonTraceCentroid_computed : pyval; ReasonTraceCentroid_skipped_reason : pyval
}.

Definition ReasonTraceCentroid_to_map (self : ReasonTraceCentroid) : pyresult pyval :=
  py_dict
    ["computed" ::= Ok (ReasonTraceCentroid_computed self);
     "skipped_reason" ::= Ok (ReasonTraceCentroid_skipped_reason self)].

Definition ReasonTraceCentroid_from_map (m : pyval) : pyresult ReasonTraceCentroid :=
  let* computed := py_getitem m "computed" in
  let* skipped_reason := py_getitem m "skipped_reason" in
  Ok (mk_ReasonTraceCentroid computed skipped_reason).

Definition ReasonTraceCentroid_wf (self : ReasonTraceCentroid) : Prop :=
 raw_ok (ReasonTraceCentroid_computed self) /\ raw_ok (ReasonTraceCentroid_skipped_reason self).

#[export] Instance ReasonTraceCentroid_nested :
  Nested ReasonTraceCentroid_wf ReasonTraceCentroid_to_map ReasonTraceCentroid_from_map.
Proof.
  intros []. wire_class ReasonTraceCentroid_wf ReasonTraceCentroid_to_map ReasonTraceCentroid_from_map.
Qed.

(** ** [ReasonTrace] *)

Record ReasonTrace : Type := mk_ReasonTrace {
  ReasonTrace_base : ReasonTraceBase; ReasonTrace_walk : ReasonTraceWalk;
  ReasonTrace_scoring : list ReasonTraceScoreBreakdown; ReasonTrace_centroid : ReasonTraceCentroid
}.

Definition ReasonTrace_to_map (self : ReasonTrace) : pyresult pyval :=
  py_dict
    ["base" ::= ReasonTraceBase_to_map (ReasonTrace_base self);
     "walk" ::= ReasonTraceWalk_to_map (ReasonTrace_walk self);
     "scoring" ::= to_list ReasonTraceScoreBreakdown_to_map (ReasonTrace_scoring self);
     "centroid" ::= ReasonTraceCentroid_to_map (ReasonTrace_centroid self)].

Definition ReasonTrace_from_map (m : pyval) : pyresult ReasonTrace :=
  let* base := bind (py_getitem m "base") ReasonTraceBase_from_map in
  let* walk := bind (py_getitem m "walk") ReasonTraceWalk_from_map in
  let* scoring := bind (py_getitem m "scoring") (from_list ReasonTraceScoreBreakdown_from_map) in
  let* centroid := bind (py_getitem m "centroid") ReasonTraceCentroid_from_map in
  Ok (mk_ReasonTrace base walk scoring centroid).

Definition ReasonTrace_wf (self : ReasonTrace) : Prop :=
 ReasonTraceBase_wf (ReasonTrace_base self) /\ ReasonTraceWalk_wf (ReasonTrace_walk self) /\
  Forall ReasonTraceScoreBreakdown_wf (ReasonTrace_scoring self) /\
  ReasonTraceCentroid_wf (ReasonTrace_centroid self).

#[export] Instance ReasonTrace_nested :
  Nested ReasonTrace_wf ReasonTrace_to_map ReasonTrace_from_map.
Proof. intros []. wire_class ReasonTrace_wf ReasonTrace_to_map ReasonTrace_from_map. Qed.

(** ** [ReasonRequest] *)

Record ReasonRequest : Type := mk_ReasonRequest {
  ReasonRequest_observation : ObservationInput; ReasonRequest_depth : pyval;
  ReasonRequest_confidence_threshold : pyval; ReasonRequest_session_filter : pyval;
  ReasonRequest_max_inferences : pyval; ReasonRequest_budget_wall_time_ms : pyval;
  ReasonRequest_request_id : pyval; ReasonRequest_txn_id : pyval; ReasonRequest_trace : pyval;
  ReasonRequest_act_as : option ActAs
}.

Definition ReasonRequest_to_map (self : ReasonRequest) : pyresult pyval :=
  py_dict (
    ["observation" ::= ObservationInput_to_cbor_value (ReasonRequest_observation self);
     "depth" ::= Ok (ReasonRequest_depth self);
     "confidence_threshold" ::= round_f32 (ReasonRequest_confidence_threshold self);
     "session_filter" ::= none_or py_list (ReasonRequest_session_filter self);
     "max_inferences" ::= Ok (ReasonRequest_max_inferences self);
     "budget_wall_time_ms" ::= Ok (ReasonRequest_budget_wall_time_ms self);
     "request_id" ::= Ok (ReasonRequest_request_id self);
     "txn_id" ::= Ok (ReasonRequest_txn_id self); "trace" ::= Ok (ReasonRequest_trace self)]
    ++ emit_some "act_as" ActAs_to_map (ReasonRequest_act_as self)).

Definition ReasonRequest_from_map (m : pyval) : pyresult ReasonRequest :=
  let* act_as := py_get m "act_as" PNone in
  let* observation := bind (py_getitem m "observation") ObservationInput_from_cbor_value in
  let* depth := py_getitem m "depth" in
  let* confidence_threshold := py_getitem m "confidence_threshold" in
  let* session_filter := bind (py_getitem m "session_filter") (none_or py_list) in
  let* max_inferences := py_getitem m "max_inferences" in
  let* budget_wall_time_ms := py_getitem m "budget_wall_time_ms" in
  let* request_id := py_getitem m "request_id" in
  let* txn_id := py_getitem m "txn_id" in
  let* trace := bind (py_get m "trace" (PBool false)) to_bool in
  let* act_as := from_option ActAs_from_map act_as in
  Ok (mk_ReasonRequest observation depth confidence_threshold session_filter max_inferences
    budget_wall_time_ms request_id txn_id trace act_as).

Definition ReasonRequest_wf (self : ReasonRequest) : Prop :=
 ObservationInput_wf (ReasonRequest_observation self) /\ raw_ok (ReasonRequest_depth self) /\
  f32_ok (ReasonRequest_confidence_threshold self) /\
  none_or_ok list_ok (ReasonRequest_session_filter self) /\
  raw_ok (ReasonRequest_max_inferences self) /\ raw_ok (ReasonRequest_budget_wall_time_ms self) /\
  raw_ok (ReasonRequest_request_id self) /\ raw_ok (ReasonRequest_txn_id self) /\
  bool_ok (ReasonRequest_trace self) /\ option_ok ActAs_wf (ReasonRequest_act_as self).

#[export] Instance ReasonRequest_nested :
  Nested ReasonRequest_wf ReasonRequest_to_map ReasonRequest_from_map.
Proof. intros []. wire_class ReasonRequest_wf ReasonRequest_to_map ReasonRequest_from_map. Qed.

#[export] Instance ReasonRequest_payload : WirePayload ReasonRequest :=
  map_payload ReasonRequest_to_map ReasonRequest_from_map.
#[export] Instance ReasonRequest_laws : WireLaws ReasonRequest :=
  map_laws _ _ _ (fun self m E => py_dict_is_dict _ _ E).

(** ** [InferenceStep] *)

Record InferenceStep : Type := mk_InferenceStep {
  InferenceStep_step_index : pyval; InferenceStep_claim : pyval;
  InferenceStep_supporting_memories : pyval; InferenceStep_contradicting_memories : pyval;
  InferenceStep_confidence : pyval; InferenceStep_inference_kind : InferenceKind
}.

Definition InferenceStep_to_map (self : InferenceStep) : pyresult pyval :=
  py_dict
    ["step_index" ::= Ok (InferenceStep_step_index self); "claim" ::= Ok (InferenceStep_claim self);
     "supporting_memories" ::= py_list (InferenceStep_supporting_memories self);
     "contradicting_memories" ::= py_list (InferenceStep_contradicting_memories self);
     "confidence" ::= round_f32 (InferenceStep_confidence self);
     "inference_kind" ::= InferenceKind_to_cbor_value (InferenceStep_inference_kind self)].

Definition InferenceStep_from_map `{PyStr} (m : pyval) : pyresult InferenceStep :=
  let* step_index := py_getitem m "step_index" in
  let* claim := py_getitem m "claim" in
  let* supporting_memories := bind (py_getitem m "supporting_memories") py_list in
  let* contradicting_memories := bind (py_getitem m "contradicting_memories") py_list in
  let* confidence := py_getitem m "confidence" in
  let* inference_kind := bind (py_getitem m "inference_kind") InferenceKind_from_cbor_value in
  Ok (mk_InferenceStep step_index claim supporting_memories contradicting_memories confidence
    inference_kind).

Definition InferenceStep_wf (self : InferenceStep) : Prop :=
 raw_ok (InferenceStep_step_index self) /\ raw_ok (InferenceStep_claim self) /\
  list_ok (InferenceStep_supporting_memories self) /\
  list_ok (InferenceStep_contradicting_memories self) /\ f32_ok (InferenceStep_confidence self) /\
  InferenceKind_wf (InferenceStep_inference_kind self).

#[export] Instance InferenceStep_nested `{PyStr} :
  Nested InferenceStep_wf InferenceStep_to_map InferenceStep_from_map.
Proof. intros []. wire_class InferenceStep_wf InferenceStep_to_map InferenceStep_from_map. Qed.

(** ** [ReasonResponseFrame] *)

Record ReasonResponseFrame : Type := mk_ReasonResponseFrame {
  ReasonResponseFrame_inferences : list InferenceStep; ReasonResponseFrame_is_final : pyval;
  ReasonResponseFrame_reason_status : pyval; ReasonResponseFrame_trace : option ReasonTrace
}.

Definition ReasonResponseFrame_to_map (self : ReasonResponseFrame) : pyresult pyval :=
  py_dict (
    ["inferences" ::= to_list InferenceStep_to_map (ReasonResponseFrame_inferences self);
     "is_final" ::= Ok (ReasonResponseFrame_is_final self);
     "reason_status" ::= Ok (ReasonResponseFrame_reason_status self)]
    ++ emit_some "trace" ReasonTrace_to_map (ReasonResponseFrame_trace self)).

Definition ReasonResponseFrame_from_map `{PyStr} (m : pyval) : pyresult ReasonResponseFrame :=
  let* trace := py_get m "trace" PNone in
  let* inferences := bind (py_getitem m "inferences") (from_list InferenceStep_from_map) in
  let* is_final := py_getitem m "is_final" in
  let* reason_status := py_getitem m "reason_status" in
  let* trace := from_option ReasonTrace_from_map trace in
  Ok (mk_ReasonResponseFrame inferences is_final reason_status trace).

Definition ReasonResponseFrame_wf (self : ReasonResponseFrame) : Prop :=
 Forall InferenceStep_wf (ReasonResponseFrame_inferences self) /\
  raw_ok (ReasonResponseFrame_is_final self) /\ raw_ok (ReasonResponseFrame_reason_status self) /\
  option_ok ReasonTrace_wf (ReasonResponseFrame_trace self).

#[export] Instance ReasonResponseFrame_nested `{PyStr} :
  Nested ReasonResponseFrame_wf ReasonResponseFrame_to_map ReasonResponseFrame_from_map.
Proof.
  intros []. wire_class ReasonResponseFrame_wf ReasonResponseFrame_to_map ReasonResponseFrame_from_map.
Qed.

#[export] Instance ReasonResponseFrame_payload `{PyStr} : WirePayload ReasonResponseFrame :=
  map_payload ReasonResponseFrame_to_map ReasonResponseFrame_from_map.
#[export] Instance ReasonResponseFrame_laws `{PyStr} : WireLaws ReasonResponseFrame :=
  map_laws _ _ _ (fun self m E => py_dict_is_dict _ _ E).
