(* ===== verification/WireEvents.v ===== *)
(** * WireEvents

    [wire/types.py], transactions, the change feed with its tagged stage and
    graph events, capabilities and the extractor listing. *)

From S2P Require Import Prelude PyFloat PyValue Rfc8949 Cbor CborScan CborCodec WireEnums WireCodec.
From S2P Require Import WireHandshake.

(** ** [TxnBeginRequest] *)

Record TxnBeginRequest : Type := mk_TxnBeginRequest {
  TxnBeginRequest_txn_id : pyval; TxnBeginRequest_timeout_seconds : pyval;
  TxnBeginRequest_act_as : option ActAs
}.

Definition TxnBeginRequest_to_map (self : TxnBeginRequest) : pyresult pyval :=
  py_dict (
    ["txn_id" ::= Ok (TxnBeginRequest_txn_id self);
     "timeout_seconds" ::= Ok (TxnBeginRequest_timeout_seconds self)]
    ++ emit_some "act_as" ActAs_to_map (TxnBeginRequest_act_as self)).

Definition TxnBeginRequest_from_map (m : pyval) : pyresult TxnBeginRequest :=
  let* act_as := py_get m "act_as" PNone in
  let* txn_id := py_getitem m "txn_id" in
  let* timeout_seconds := py_getitem m "timeout_seconds" in
  let* act_as := from_option ActAs_from_map act_as in
  Ok (mk_TxnBeginRequest txn_id timeout_seconds act_as).

Definition TxnBeginRequest_wf (self : TxnBeginRequest) : Prop :=
 raw_ok (TxnBeginRequest_txn_id self) /\ raw_ok (TxnBeginRequest_timeout_seconds self) /\
  option_ok ActAs_wf (TxnBeginRequest_act_as self).

#[export] Instance TxnBeginRequest_nested :
  Nested TxnBeginRequest_wf TxnBeginRequest_to_map TxnBeginRequest_from_map.
Proof.
  intros []. wire_class TxnBeginRequest_wf TxnBeginRequest_to_map TxnBeginRequest_from_map.
Qed.

#[export] Instance TxnBeginRequest_payload : WirePayload TxnBeginRequest :=
  map_payload TxnBeginRequest_to_map TxnBeginRequest_from_map.
#[export] Instance TxnBeginRequest_laws : WireLaws TxnBeginRequest :=
  map_laws _ _ _ (fun self m E => py_dict_is_dict _ _ E).

(** ** [TxnBeginResponse] *)

Record TxnBeginResponse : Type := mk_TxnBeginResponse {
  TxnBeginResponse_txn_id : pyval; TxnBeginResponse_timeout_seconds : pyval;
  TxnBeginResponse_started_at_unix_nanos : pyval
}.

Definition TxnBeginResponse_to_map (self : TxnBeginResponse) : pyresult pyval :=
  py_dict
    ["txn_id" ::= Ok (TxnBeginResponse_txn_id self);
     "timeout_seconds" ::= Ok (TxnBeginResponse_timeout_seconds self);
     "started_at_unix_nanos" ::= Ok (TxnBeginResponse_started_at_unix_nanos self)].

Definition TxnBeginResponse_from_map (m : pyval) : pyresult TxnBeginResponse :=
  let* txn_id := py_getitem m "txn_id" in
  let* timeout_seconds := py_getitem m "timeout_seconds" in
  let* started_at_unix_nanos := py_getitem m "started_at_unix_nanos" in
  Ok (mk_TxnBeginResponse txn_id timeout_seconds started_at_unix_nanos).

Definition TxnBeginResponse_wf (self : TxnBeginResponse) : Prop :=
 raw_ok (TxnBeginResponse_txn_id self) /\ raw_ok (TxnBeginResponse_timeout_seconds self) /\
  raw_ok (TxnBeginResponse_started_at_unix_nanos self).

#[export] Instance TxnBeginResponse_nested :
  Nested TxnBeginResponse_wf TxnBeginResponse_to_map TxnBeginResponse_from_map.
Proof.
  intros []. wire_class TxnBeginResponse_wf TxnBeginResponse_to_map TxnBeginResponse_from_map.
Qed.

#[export] Instance TxnBeginResponse_payload : WirePayload TxnBeginResponse :=
  map_payload TxnBeginResponse_to_map TxnBeginResponse_from_map.
#[export] Instance TxnBeginResponse_laws : WireLaws TxnBeginResponse :=
  map_laws _ _ _ (fun self m E => py_dict_is_dict _ _ E).

(** ** [TxnCommitRequest] *)

Record TxnCommitRequest : Type := mk_TxnCommitRequest {
  TxnCommitRequest_txn_id : pyval
}.

Definition TxnCommitRequest_to_map (self : TxnCommitRequest) : pyresult pyval :=
  py_dict
    ["txn_id" ::= Ok (TxnCommitRequest_txn_id self)].

Definition TxnCommitRequest_from_map (m : pyval) : pyresult TxnCommitRequest :=
  let* txn_id := py_getitem m "txn_id" in
  Ok (mk_TxnCommitRequest txn_id).

Definition TxnCommitRequest_wf (self : TxnCommitRequest) : Prop :=
 raw_ok (TxnCommitRequest_txn_id self).

#[export] Instance TxnCommitRequest_nested :
  Nested TxnCommitRequest_wf TxnCommitRequest_to_map TxnCommitRequest_from_map.
Proof.
  intros []. wire_class TxnCommitRequest_wf TxnCommitRequest_to_map TxnCommitRequest_from_map.
Qed.

#[export] Instance TxnCommitRequest_payload : WirePayload TxnCommitRequest :=
  map_payload TxnCommitRequest_to_map TxnCommitRequest_from_map.
#[export] Instance TxnCommitRequest_laws : WireLaws TxnCommitRequest :=
  map_laws _ _ _ (fun self m E => py_dict_is_dict _ _ E).

(** ** [TxnCommitResponse] *)

Record TxnCommitResponse : Type := mk_TxnCommitResponse {
  TxnCommitResponse_txn_id : pyval; TxnCommitResponse_committed_at_unix_nanos : pyval;
  TxnCommitResponse_operations_applied : pyval
}.

Definition TxnCommitResponse_to_map (self : TxnCommitResponse) : pyresult pyval :=
  py_dict
    ["txn_id" ::= Ok (TxnCommitResponse_txn_id self);
     "committed_at_unix_nanos" ::= Ok (TxnCommitResponse_committed_at_unix_nanos self);
     "operations_applied" ::= Ok (TxnCommitResponse_operations_applied self)].

Definition TxnCommitResponse_from_map (m : pyval) : pyresult TxnCommitResponse :=
  let* txn_id := py_getitem m "txn_id" in
  let* committed_at_unix_nanos := py_getitem m "committed_at_unix_nanos" in
  let* operations_applied := py_getitem m "operations_applied" in
  Ok (mk_TxnCommitResponse txn_id committed_at_unix_nanos operations_applied).

Definition TxnCommitResponse_wf (self : TxnCommitResponse) : Prop :=
 raw_ok (TxnCommitResponse_txn_id self) /\
  raw_ok (TxnCommitResponse_committed_at_unix_nanos self) /\
  raw_ok (TxnCommitResponse_operations_applied self).

#[export] Instance TxnCommitResponse_nested :
  Nested TxnCommitResponse_wf TxnCommitResponse_to_map TxnCommitResponse_from_map.
Proof.
  intros []. wire_class TxnCommitResponse_wf TxnCommitResponse_to_map TxnCommitResponse_from_map.
Qed.

#[export] Instance TxnCommitResponse_payload : WirePayload TxnCommitResponse :=
  map_payload TxnCommitResponse_to_map TxnCommitResponse_from_map.
#[export] Instance TxnCommitResponse_laws : WireLaws TxnCommitResponse :=
  map_laws _ _ _ (fun self m E => py_dict_is_dict _ _ E).

(** ** [TxnAbortRequest] *)

Record TxnAbortRequest : Type := mk_TxnAbortRequest {
  TxnAbortRequest_txn_id : pyval
}.

Definition TxnAbortRequest_to_map (self : TxnAbortRequest) : pyresult pyval :=
  py_dict
    ["txn_id" ::= Ok (TxnAbortRequest_txn_id self)].

Definition TxnAbortRequest_from_map (m : pyval) : pyresult TxnAbortRequest :=
  let* txn_id := py_getitem m "txn_id" in
  Ok (mk_TxnAbortRequest txn_id).

Definition TxnAbortRequest_wf (self : TxnAbortRequest) : Prop :=
 raw_ok (TxnAbortRequest_txn_id self).

#[export] Instance TxnAbortRequest_nested :
  Nested TxnAbortRequest_wf TxnAbortRequest_to_map TxnAbortRequest_from_map.
Proof.
  intros []. wire_class TxnAbortRequest_wf TxnAbortRequest_to_map TxnAbortRequest_from_map.
Qed.

#[export] Instance TxnAbortRequest_payload : WirePayload TxnAbortRequest :=
  map_payload TxnAbortRequest_to_map TxnAbortRequest_from_map.
#[export] Instance TxnAbortRequest_laws : WireLaws TxnAbortRequest :=
  map_laws _ _ _ (fun self m E => py_dict_is_dict _ _ E).

(** ** [TxnAbortResponse] *)

Record TxnAbortResponse : Type := mk_TxnAbortResponse {
  TxnAbortResponse_txn_id : pyval; TxnAbortResponse_operations_discarded : pyval
}.

Definition TxnAbortResponse_to_map (self : TxnAbortResponse) : pyresult pyval :=
  py_dict
    ["txn_id" ::= Ok (TxnAbortResponse_txn_id self);
     "operations_discarded" ::= Ok (TxnAbortResponse_operations_discarded self)].

Definition TxnAbortResponse_from_map (m : pyval) : pyresult TxnAbortResponse :=
  let* txn_id := py_getitem m "txn_id" in
  let* operations_discarded := py_getitem m "operations_discarded" in
  Ok (mk_TxnAbortResponse txn_id operations_discarded).

Definition TxnAbortResponse_wf (self : TxnAbortResponse) : Prop :=
 raw_ok (TxnAbortResponse_txn_id self) /\ raw_ok (TxnAbortResponse_operations_discarded self).

#[export] Instance TxnAbortResponse_nested :
  Nested TxnAbortResponse_wf TxnAbortResponse_to_map TxnAbortResponse_from_map.
Proof.
  intros []. wire_class TxnAbortResponse_wf TxnAbortResponse_to_map TxnAbortResponse_from_map.
Qed.

#[export] Instance TxnAbortResponse_payload : WirePayload TxnAbortResponse :=
  map_payload TxnAbortResponse_to_map TxnAbortResponse_from_map.
#[export] Instance TxnAbortResponse_laws : WireLaws TxnAbortResponse :=
  map_laws _ _ _ (fun self m E => py_dict_is_dict _ _ E).

(** ** [StageAutoEdgePayload] *)

Record StageAutoEdgePayload : Type := mk_StageAutoEdgePayload {
  StageAutoEdgePayload_edges_written : pyval
}.

Definition StageAutoEdgePayload_to_map (self : StageAutoEdgePayload) : pyresult pyval :=
  py_dict
    ["edges_written" ::= Ok (StageAutoEdgePayload_edges_written self)].

Definition StageAutoEdgePayload_from_map (m : pyval) : pyresult StageAutoEdgePayload :=
  let* edges_written := py_getitem m "edges_written" in
  Ok (mk_StageAutoEdgePayload edges_written).

Definition StageAutoEdgePayload_wf (self : StageAutoEdgePayload) : Prop :=
 raw_ok (StageAutoEdgePayload_edges_written self).

#[export] Instance StageAutoEdgePayload_nested :
  Nested StageAutoEdgePayload_wf StageAutoEdgePayload_to_map StageAutoEdgePayload_from_map.
Proof.
  intros []. wire_class StageAutoEdgePayload_wf StageAutoEdgePayload_to_map StageAutoEdgePayload_from_map.
Qed.

#[export] Instance StageAutoEdgePayload_payload : WirePayload StageAutoEdgePayload :=
  map_payload StageAutoEdgePayload_to_map StageAutoEdgePayload_from_map.
#[export] Instance StageAutoEdgePayload_laws : WireLaws StageAutoEdgePayload :=
  map_laws _ _ _ (fun self m E => py_dict_is_dict _ _ E).

(** ** [StageTemporalEdgePayload] *)

Record StageTemporalEdgePayload : Type := mk_StageTemporalEdgePayload {
  StageTemporalEdgePayload_edges_written : pyval
}.

Definition StageTemporalEdgePayload_to_map (self : StageTemporalEdgePayload) : pyresult pyval :=
  py_dict
    ["edges_written" ::= Ok (StageTemporalEdgePayload_edges_written self)].

Definition StageTemporalEdgePayload_from_map (m : pyval) : pyresult StageTemporalEdgePayload :=
  let* edges_written := py_getitem m "edges_written" in
  Ok (mk_StageTemporalEdgePayload edges_written).

Definition StageTemporalEdgePayload_wf (self : StageTemporalEdgePayload) : Prop :=
 raw_ok (StageTemporalEdgePayload_edges_written self).

#[export] Instance StageTemporalEdgePayload_nested :
  Nested StageTemporalEdgePayload_wf StageTemporalEdgePayload_to_map StageTemporalEdgePayload_from_map.
Proof.
  intros []. wire_class StageTemporalEdgePayload_wf StageTemporalEdgePayload_to_map StageTemporalEdgePayload_from_map.
Qed.

#[export] Instance StageTemporalEdgePayload_payload : WirePayload StageTemporalEdgePayload :=
  map_payload StageTemporalEdgePayload_to_map StageTemporalEdgePayload_from_map.
#[export] Instance StageTemporalEdgePayload_laws : WireLaws StageTemporalEdgePayload :=
  map_laws _ _ _ (fun self m E => py_dict_is_dict _ _ E).

(** ** [StageHypePayload] *)

Record StageHypePayload : Type := mk_StageHypePayload {
  StageHypePayload_questions_written : pyval; StageHypePayload_cost_micro_usd : pyval;
  StageHypePayload_error_message : pyval
}.

Definition StageHypePayload_to_map (self : StageHypePayload) : pyresult pyval :=
  py_dict
    ["questions_written" ::= Ok (StageHypePayload_questions_written self);
     "cost_micro_usd" ::= Ok (StageHypePayload_cost_micro_usd self);
     "error_message" ::= Ok (StageHypePayload_error_message self)].

Definition StageHypePayload_from_map (m : pyval) : pyresult StageHypePayload :=
  let* questions_written := py_getitem m "questions_written" in
  let* cost_micro_usd := py_getitem m "cost_micro_usd" in
  let* error_message := py_getitem m "error_message" in
  Ok (mk_StageHypePayload questions_written cost_micro_usd error_message).

Definition StageHypePayload_wf (self : StageHypePayload) : Prop :=
 raw_ok (StageHypePayload_questions_written self) /\
  raw_ok (StageHypePayload_cost_micro_usd self) /\ raw_ok (StageHypePayload_error_message self).

#[export] Instance StageHypePayload_nested :
  Nested StageHypePayload_wf StageHypePayload_to_map StageHypePayload_from_map.
Proof.
  intros []. wire_class StageHypePayload_wf StageHypePayload_to_map StageHypePayload_from_map.
Qed.

#[export] Instance StageHypePayload_payload : WirePayload StageHypePayload :=
  map_payload StageHypePayload_to_map StageHypePayload_from_map.
#[export] Instance StageHypePayload_laws : WireLaws StageHypePayload :=
  map_laws _ _ _ (fun self m E => py_dict_is_dict _ _ E).

(** ** [StageExtractorPayload] *)

Record StageExtractorPayload : Type := mk_StageExtractorPayload {
  StageExtractorPayload_entity_count : pyval; StageExtractorPayload_statement_count : pyval;
  StageExtractorPayload_relation_count : pyval; StageExtractorPayload_audit_status : pyval;
  StageExtractorPayload_error_message : pyval
}.

Definition StageExtractorPayload_to_map (self : StageExtractorPayload) : pyresult pyval :=
  py_dict
    ["entity_count" ::= Ok (StageExtractorPayload_entity_count self);
     "statement_count" ::= Ok (StageExtractorPayload_statement_count self);
     "relation_count" ::= Ok (StageExtractorPayload_relation_count self);
     "audit_status" ::= Ok (StageExtractorPayload_audit_status self);
     "error_message" ::= Ok (StageExtractorPayload_error_message self)].

Definition StageExtractorPayload_from_map (m : pyval) : pyresult StageExtractorPayload :=
  let* entity_count := py_getitem m "entity_count" in
  let* statement_count := py_getitem m "statement_count" in
  let* relation_count := py_getitem m "relation_count" in
  let* audit_status := py_getitem m "audit_status" in
  let* error_message := py_getitem m "error_message" in
  Ok (mk_StageExtractorPayload entity_count statement_count relation_count audit_status
    error_message).

Definition StageExtractorPayload_wf (self : StageExtractorPayload) : Prop :=
 raw_ok (StageExtractorPayload_entity_count self) /\
  raw_ok (StageExtractorPayload_statement_count self) /\
  raw_ok (StageExtractorPayload_relation_count self) /\
  raw_ok (StageExtractorPayload_audit_status self) /\
  raw_ok (StageExtractorPayload_error_message self).

#[export] Instance StageExtractorPayload_nested :
  Nested StageExtractorPayload_wf StageExtractorPayload_to_map StageExtractorPayload_from_map.
Proof.
  intros []. wire_class StageExtractorPayload_wf StageExtractorPayload_to_map StageExtractorPayload_from_map.
Qed.

#[export] Instance StageExtractorPayload_payload : WirePayload StageExtractorPayload :=
  map_payload StageExtractorPayload_to_map StageExtractorPayload_from_map.
#[export] Instance StageExtractorPayload_laws : WireLaws StageExtractorPayload :=
  map_laws _ _ _ (fun self m E => py_dict_is_dict _ _ E).

(** ** [StagePayload] *)

(** The stage bodies a payload nests. *)
Inductive StageDetail : Type :=
| StageDetail_AutoEdge (d : StageAutoEdgePayload)
| StageDetail_TemporalEdge (d : StageTemporalEdgePayload)
| StageDetail_Extractor (d : StageExtractorPayload)
| StageDetail_Hype (d : StageHypePayload).

Definition StageDetail_to_map (d : StageDetail) : pyresult pyval :=
  match d with
  | StageDetail_AutoEdge d => StageAutoEdgePayload_to_map d
  | StageDetail_TemporalEdge d => StageTemporalEdgePayload_to_map d
  | StageDetail_Extractor d => StageExtractorPayload_to_map d
  | StageDetail_Hype d => StageHypePayload_to_map d
  end.

Record StagePayload : Type := mk_StagePayload {
  StagePayload_variant : pyval; StagePayload_value : StageDetail
}.

Definition StagePayload_to_cbor_value (self : StagePayload) : pyresult pyval :=
  let* m := StageDetail_to_map (StagePayload_value self) in
  py_single (StagePayload_variant self) m.

Definition StagePayload_from_cbor_value (v : pyval) : pyresult StagePayload :=
  let* '(variant, value) := py_single_item v in
  if py_eq_str variant "AutoEdge" then
    let* d := StageAutoEdgePayload_from_map value in
    Ok (mk_StagePayload (PStr "AutoEdge") (StageDetail_AutoEdge d))
  else if py_eq_str variant "TemporalEdge" then
    let* d := StageTemporalEdgePayload_from_map value in
    Ok (mk_StagePayload (PStr "TemporalEdge") (StageDetail_TemporalEdge d))
  else if py_eq_str variant "Extractor" then
    let* d := StageExtractorPayload_from_map value in
    Ok (mk_StagePayload (PStr "Extractor") (StageDetail_Extractor d))
  else if py_eq_str variant "Hype" then
    let* d := StageHypePayload_from_map value in
    Ok (mk_StagePayload (PStr "Hype") (StageDetail_Hype d))
  else Raise ValueError.

(** The variant names the body it carries. *)
Definition StagePayload_wf (self : StagePayload) : Prop :=
  match StagePayload_value self with
  | StageDetail_AutoEdge d =>
      StagePayload_variant self = PStr "AutoEdge" /\ StageAutoEdgePayload_wf d
  | StageDetail_TemporalEdge d =>
      StagePayload_variant self = PStr "TemporalEdge" /\ StageTemporalEdgePayload_wf d
  | StageDetail_Extractor d =>
      StagePayload_variant self = PStr "Extractor" /\ StageExtractorPayload_wf d
  | StageDetail_Hype d => StagePayload_variant self = PStr "Hype" /\ StageHypePayload_wf d
  end.

#[export] Instance StagePayload_nested :
  Nested StagePayload_wf StagePayload_to_cbor_value StagePayload_from_cbor_value.
Proof.
  intros [variant value]; destruct value; intros [Hv H]; cbn in Hv, H; subst variant;
    destruct (nested_plain _ H) as (w & E & D);
    unfold wire_ok, StagePayload_to_cbor_value; wire_eval; rewrite E;
    (eexists; split; [reflexivity|]; split; [done|]); unfold StagePayload_from_cbor_value;
    rewrite single_item_unmark; cbv beta iota delta [bind py_eq_str String.eqb Ascii.eqb Bool.eqb];
    by rewrite D.
Qed.

(** ** [SimilarityFilter] *)

Record SimilarityFilter : Type := mk_SimilarityFilter {
  SimilarityFilter_reference_memory_id : pyval; SimilarityFilter_threshold : pyval
}.

Definition SimilarityFilter_to_map (self : SimilarityFilter) : pyresult pyval :=
  py_dict
    ["reference_memory_id" ::= Ok (SimilarityFilter_reference_memory_id self);
     "threshold" ::= round_f32 (SimilarityFilter_threshold self)].

Definition SimilarityFilter_from_map (m : pyval) : pyresult SimilarityFilter :=
  let* reference_memory_id := py_getitem m "reference_memory_id" in
  let* threshold := py_getitem m "threshold" in
  Ok (mk_SimilarityFilter reference_memory_id threshold).

Definition SimilarityFilter_wf (self : SimilarityFilter) : Prop :=
 raw_ok (SimilarityFilter_reference_memory_id self) /\ f32_ok (SimilarityFilter_threshold self).

#[export] Instance SimilarityFilter_nested :
  Nested SimilarityFilter_wf SimilarityFilter_to_map SimilarityFilter_from_map.
Proof.
  intros []. wire_class SimilarityFilter_wf SimilarityFilter_to_map SimilarityFilter_from_map.
Qed.

(** ** [SubscriptionFilter] *)

Record SubscriptionFilter : Type := mk_SubscriptionFilter {
  SubscriptionFilter_session_filter : pyval; SubscriptionFilter_kinds : pyval;
  SubscriptionFilter_similar_to : option SimilarityFilter; SubscriptionFilter_spaces : pyval;
  SubscriptionFilter_memory_ids : pyval
}.

Definition SubscriptionFilter_to_map (self : SubscriptionFilter) : pyresult pyval :=
  py_dict
    ["session_filter" ::= none_or py_list (SubscriptionFilter_session_filter self);
     "kinds" ::= none_or py_list (SubscriptionFilter_kinds self);
     "similar_to" ::= to_option SimilarityFilter_to_map (SubscriptionFilter_similar_to self);
     "spaces" ::= none_or py_list (SubscriptionFilter_spaces self);
     "memory_ids" ::= none_or py_list (SubscriptionFilter_memory_ids self)].

Definition SubscriptionFilter_from_map (m : pyval) : pyresult SubscriptionFilter :=
  let* session_filter := bind (py_getitem m "session_filter") (none_or py_list) in
  let* kinds := bind (py_getitem m "kinds") (none_or py_list) in
  let* similar_to := bind (py_getitem m "similar_to") (from_option SimilarityFilter_from_map) in
  let* spaces := bind (py_getitem m "spaces") (none_or py_list) in
  let* memory_ids := py_get m "memory_ids" PNone in
  let* memory_ids := (if is_none memory_ids then Ok PNone else bind (py_getitem m "memory_ids") py_list) in
  Ok (mk_SubscriptionFilter session_filter kinds similar_to spaces memory_ids).

Definition SubscriptionFilter_wf (self : SubscriptionFilter) : Prop :=
 none_or_ok list_ok (SubscriptionFilter_session_filter self) /\
  none_or_ok list_ok (SubscriptionFilter_kinds self) /\
  option_ok SimilarityFilter_wf (SubscriptionFilter_similar_to self) /\
  none_or_ok list_ok (SubscriptionFilter_spaces self) /\
  none_or_ok list_ok (SubscriptionFilter_memory_ids self).

#[export] Instance SubscriptionFilter_nested :
  Nested SubscriptionFilter_wf SubscriptionFilter_to_map SubscriptionFilter_from_map.
Proof.
  intros []. wire_class SubscriptionFilter_wf SubscriptionFilter_to_map SubscriptionFilter_from_map.
Qed.

(** ** [SubscribeRequest] *)

Record SubscribeRequest : Type := mk_SubscribeRequest {
  SubscribeRequest_filter : SubscriptionFilter; SubscribeRequest_include_history : pyval;
  SubscribeRequest_from_lsn : pyval; SubscribeRequest_max_inflight : pyval;
  SubscribeRequest_act_as : option ActAs
}.

Definition SubscribeRequest_to_map (self : SubscribeRequest) : pyresult pyval :=
  py_dict (
    ["filter" ::= SubscriptionFilter_to_map (SubscribeRequest_filter self);
     "include_history" ::= Ok (SubscribeRequest_include_history self);
     "from_lsn" ::= Ok (SubscribeRequest_from_lsn self);
     "max_inflight" ::= Ok (SubscribeRequest_max_inflight self)]
    ++ emit_some "act_as" ActAs_to_map (SubscribeRequest_act_as self)).

Definition SubscribeRequest_from_map (m : pyval) : pyresult SubscribeRequest :=
  let* act_as := py_get m "act_as" PNone in
  let* filter := bind (py_getitem m "filter") SubscriptionFilter_from_map in
  let* include_history := py_getitem m "include_history" in
  let* from_lsn := py_getitem m "from_lsn" in
  let* max_inflight := py_getitem m "max_inflight" in
  let* act_as := from_option ActAs_from_map act_as in
  Ok (mk_SubscribeRequest filter include_history from_lsn max_inflight act_as).

Definition SubscribeRequest_wf (self : SubscribeRequest) : Prop :=
 SubscriptionFilter_wf (SubscribeRequest_filter self) /\
  raw_ok (SubscribeRequest_include_history self) /\ raw_ok (SubscribeRequest_from_lsn self) /\
  raw_ok (SubscribeRequest_max_inflight self) /\
  option_ok ActAs_wf (SubscribeRequest_act_as self).

#[export] Instance SubscribeRequest_nested :
  Nested SubscribeRequest_wf SubscribeRequest_to_map SubscribeRequest_from_map.
Proof.
  intros []. wire_class SubscribeRequest_wf SubscribeRequest_to_map SubscribeRequest_from_map.
Qed.

#[export] Instance SubscribeRequest_payload : WirePayload SubscribeRequest :=
  map_payload SubscribeRequest_to_map SubscribeRequest_from_map.
#[export] Instance SubscribeRequest_laws : WireLaws SubscribeRequest :=
  map_laws _ _ _ (fun self m E => py_dict_is_dict _ _ E).

(** ** [EdgeEventPayload] *)

Record EdgeEventPayload : Type := mk_EdgeEventPayload {
  EdgeEventPayload_from_kind : pyval; EdgeEventPayload_from_id : pyval;
  EdgeEventPayload_to_kind : pyval; EdgeEventPayload_to_id : pyval;
  EdgeEventPayload_edge_kind_tag : pyval; EdgeEventPayload_edge_kind_byte : pyval;
  EdgeEventPayload_relation_type_id : pyval; EdgeEventPayload_weight : pyval;
  EdgeEventPayload_relation_id : pyval; EdgeEventPayload_superseded_relation_id : pyval;
  EdgeEventPayload_origin : pyval
}.

Definition EdgeEventPayload_to_map (self : EdgeEventPayload) : pyresult pyval :=
  py_dict
    ["from_kind" ::= Ok (EdgeEventPayload_from_kind self);
     "from_id" ::= Ok (EdgeEventPayload_from_id self);
     "to_kind" ::= Ok (EdgeEventPayload_to_kind self);
     "to_id" ::= Ok (EdgeEventPayload_to_id self);
     "edge_kind_tag" ::= Ok (EdgeEventPayload_edge_kind_tag self);
     "edge_kind_byte" ::= Ok (EdgeEventPayload_edge_kind_byte self);
     "relation_type_id" ::= Ok (EdgeEventPayload_relation_type_id self);
     "weight" ::= round_f32 (EdgeEventPayload_weight self);
     "relation_id" ::= Ok (EdgeEventPayload_relation_id self);
     "superseded_relation_id" ::= Ok (EdgeEventPayload_superseded_relation_id self);
     "origin" ::= Ok (EdgeEventPayload_origin self)].

Definition EdgeEventPayload_from_map (m : pyval) : pyresult EdgeEventPayload :=
  let* from_kind := py_getitem m "from_kind" in
  let* from_id := py_getitem m "from_id" in
  let* to_kind := py_getitem m "to_kind" in
  let* to_id := py_getitem m "to_id" in
  let* edge_kind_tag := py_getitem m "edge_kind_tag" in
  let* edge_kind_byte := py_getitem m "edge_kind_byte" in
  let* relation_type_id := py_getitem m "relation_type_id" in
  let* weight := py_getitem m "weight" in
  let* relation_id := py_getitem m "relation_id" in
  let* superseded_relation_id := py_getitem m "superseded_relation_id" in
  let* origin := py_getitem m "origin" in
  Ok (mk_EdgeEventPayload from_kind from_id to_kind to_id edge_kind_tag edge_kind_byte
    relation_type_id weight relation_id superseded_relation_id origin).

Definition EdgeEventPayload_wf (self : EdgeEventPayload) : Prop :=
 raw_ok (EdgeEventPayload_from_kind self) /\ raw_ok (EdgeEventPayload_from_id self) /\
  raw_ok (EdgeEventPayload_to_kind self) /\ raw_ok (EdgeEventPayload_to_id self) /\
  raw_ok (EdgeEventPayload_edge_kind_tag self) /\ raw_ok (EdgeEventPayload_edge_kind_byte self) /\
  raw_ok (EdgeEventPayload_relation_type_id self) /\ f32_ok (EdgeEventPayload_weight self) /\
  raw_ok (EdgeEventPayload_relation_id self) /\
  raw_ok (EdgeEventPayload_superseded_relation_id self) /\ raw_ok (EdgeEventPayload_origin self).

#[export] Instance EdgeEventPayload_nested :
  Nested EdgeEventPayload_wf EdgeEventPayload_to_map EdgeEventPayload_from_map.
Proof.
  intros []. wire_class EdgeEventPayload_wf EdgeEventPayload_to_map EdgeEventPayload_from_map.
Qed.

#[export] Instance EdgeEventPayload_payload : WirePayload EdgeEventPayload :=
  map_payload EdgeEventPayload_to_map EdgeEventPayload_from_map.
#[export] Instance EdgeEventPayload_laws : WireLaws EdgeEventPayload :=
  map_laws _ _ _ (fun self m E => py_dict_is_dict _ _ E).

(** ** [EntityCreatedEvent] *)

Record EntityCreatedEvent : Type := mk_EntityCreatedEvent {
  EntityCreatedEvent_entity_id : pyval; EntityCreatedEvent_entity_type_id : pyval;
  EntityCreatedEvent_canonical_name : pyval
}.

Definition EntityCreatedEvent_to_map (self : EntityCreatedEvent) : pyresult pyval :=
  py_dict
    ["entity_id" ::= Ok (EntityCreatedEvent_entity_id self);
     "entity_type_id" ::= Ok (EntityCreatedEvent_entity_type_id self);
     "canonical_name" ::= Ok (EntityCreatedEvent_canonical_name self)].

Definition EntityCreatedEvent_from_map (m : pyval) : pyresult EntityCreatedEvent :=
  let* entity_id := py_getitem m "entity_id" in
  let* entity_type_id := py_getitem m "entity_type_id" in
  let* canonical_name := py_getitem m "canonical_name" in
  Ok (mk_EntityCreatedEvent entity_id entity_type_id canonical_name).

Definition EntityCreatedEvent_wf (self : EntityCreatedEvent) : Prop :=
 raw_ok (EntityCreatedEvent_entity_id self) /\ raw_ok (EntityCreatedEvent_entity_type_id self) /\
  raw_ok (EntityCreatedEvent_canonical_name self).

#[export] Instance EntityCreatedEvent_nested :
  Nested EntityCreatedEvent_wf EntityCreatedEvent_to_map EntityCreatedEvent_from_map.
Proof.
  intros []. wire_class EntityCreatedEvent_wf EntityCreatedEvent_to_map EntityCreatedEvent_from_map.
Qed.

(** ** [EntityUpdatedEvent] *)

Record EntityUpdatedEvent : Type := mk_EntityUpdatedEvent {
  EntityUpdatedEvent_entity_id : pyval; EntityUpdatedEvent_entity_type_id : pyval;
  EntityUpdatedEvent_canonical_name : pyval; EntityUpdatedEvent_embedding_version_changed : pyval
}.

Definition EntityUpdatedEvent_to_map (self : EntityUpdatedEvent) : pyresult pyval :=
  py_dict
    ["entity_id" ::= Ok (EntityUpdatedEvent_entity_id self);
     "entity_type_id" ::= Ok (EntityUpdatedEvent_entity_type_id self);
     "canonical_name" ::= Ok (EntityUpdatedEvent_canonical_name self);
     "embedding_version_changed" ::= Ok (EntityUpdatedEvent_embedding_version_changed self)].

Definition EntityUpdatedEvent_from_map (m : pyval) : pyresult EntityUpdatedEvent :=
  let* entity_id := py_getitem m "entity_id" in
  let* entity_type_id := py_getitem m "entity_type_id" in
  let* canonical_name := py_getitem m "canonical_name" in
  let* embedding_version_changed := py_getitem m "embedding_version_changed" in
  Ok (mk_EntityUpdatedEvent entity_id entity_type_id canonical_name embedding_version_changed).

Definition EntityUpdatedEvent_wf (self : EntityUpdatedEvent) : Prop :=
 raw_ok (EntityUpdatedEvent_entity_id self) /\ raw_ok (EntityUpdatedEvent_entity_type_id self) /\
  raw_ok (EntityUpdatedEvent_canonical_name self) /\
  raw_ok (EntityUpdatedEvent_embedding_version_changed self).

#[export] Instance EntityUpdatedEvent_nested :
  Nested EntityUpdatedEvent_wf EntityUpdatedEvent_to_map EntityUpdatedEvent_from_map.
Proof.
  intros []. wire_class EntityUpdatedEvent_wf EntityUpdatedEvent_to_map EntityUpdatedEvent_from_map.
Qed.

(** ** [EntityRenamedEvent] *)

Record EntityRenamedEvent : Type := mk_EntityRenamedEvent {
  EntityRenamedEvent_entity_id : pyval; EntityRenamedEvent_old_canonical_name : pyval;
  EntityRenamedEvent_new_canonical_name : pyval; EntityRenamedEvent_old_moved_to_alias : pyval
}.

Definition EntityRenamedEvent_to_map (self : EntityRenamedEvent) : pyresult pyval :=
  py_dict
    ["entity_id" ::= Ok (EntityRenamedEvent_entity_id self);
     "old_canonical_name" ::= Ok (EntityRenamedEvent_old_canonical_name self);
     "new_canonical_name" ::= Ok (EntityRenamedEvent_new_canonical_name self);
     "old_moved_to_alias" ::= Ok (EntityRenamedEvent_old_moved_to_alias self)].

Definition EntityRenamedEvent_from_map (m : pyval) : pyresult EntityRenamedEvent :=
  let* entity_id := py_getitem m "entity_id" in
  let* old_canonical_name := py_getitem m "old_canonical_name" in
  let* new_canonical_name := py_getitem m "new_canonical_name" in
  let* old_moved_to_alias := py_getitem m "old_moved_to_alias" in
  Ok (mk_EntityRenamedEvent entity_id old_canonical_name new_canonical_name old_moved_to_alias).

Definition EntityRenamedEvent_wf (self : EntityRenamedEvent) : Prop :=
 raw_ok (EntityRenamedEvent_entity_id self) /\
  raw_ok (EntityRenamedEvent_old_canonical_name self) /\
  raw_ok (EntityRenamedEvent_new_canonical_name self) /\
  raw_ok (EntityRenamedEvent_old_moved_to_alias self).

#[export] Instance EntityRenamedEvent_nested :
  Nested EntityRenamedEvent_wf EntityRenamedEvent_to_map EntityRenamedEvent_from_map.
Proof.
  intros []. wire_class EntityRenamedEvent_wf EntityRenamedEvent_to_map EntityRenamedEvent_from_map.
Qed.

(** ** [EntityMergedEvent] *)

Record EntityMergedEvent : Type := mk_EntityMergedEvent {
  EntityMergedEvent_survivor : pyval; EntityMergedEvent_merged : pyval;
  EntityMergedEvent_audit_id : pyval; EntityMergedEvent_confidence : pyval;
  EntityMergedEvent_statements_rerouted : pyval; EntityMergedEvent_relations_rerouted : pyval
}.

Definition EntityMergedEvent_to_map (self : EntityMergedEvent) : pyresult pyval :=
  py_dict
    ["survivor" ::= Ok (EntityMergedEvent_survivor self);
     "merged" ::= Ok (EntityMergedEvent_merged self);
     "audit_id" ::= Ok (EntityMergedEvent_audit_id self);
     "confidence" ::= round_f32 (EntityMergedEvent_confidence self);
     "statements_rerouted" ::= Ok (EntityMergedEvent_statements_rerouted self);
     "relations_rerouted" ::= Ok (EntityMergedEvent_relations_rerouted self)].

Definition EntityMergedEvent_from_map (m : pyval) : pyresult EntityMergedEvent :=
  let* survivor := py_getitem m "survivor" in
  let* merged := py_getitem m "merged" in
  let* audit_id := py_getitem m "audit_id" in
  let* confidence := py_getitem m "confidence" in
  let* statements_rerouted := py_getitem m "statements_rerouted" in
  let* relations_rerouted := py_getitem m "relations_rerouted" in
  Ok (mk_EntityMergedEvent survivor merged audit_id confidence statements_rerouted
    relations_rerouted).

Definition EntityMergedEvent_wf (self : EntityMergedEvent) : Prop :=
 raw_ok (EntityMergedEvent_survivor self) /\ raw_ok (EntityMergedEvent_merged self) /\
  raw_ok (EntityMergedEvent_audit_id self) /\ f32_ok (EntityMergedEvent_confidence self) /\
  raw_ok (EntityMergedEvent_statements_rerouted self) /\
  raw_ok (EntityMergedEvent_relations_rerouted self).

#[export] Instance EntityMergedEvent_nested :
  Nested EntityMergedEvent_wf EntityMergedEvent_to_map EntityMergedEvent_from_map.
Proof.
  intros []. wire_class EntityMergedEvent_wf EntityMergedEvent_to_map EntityMergedEvent_from_map.
Qed.

(** ** [EntityUnmergedEvent] *)

Record EntityUnmergedEvent : Type := mk_EntityUnmergedEvent {
  EntityUnmergedEvent_restored_entity_id : pyval; EntityUnmergedEvent_from_survivor : pyval;
  EntityUnmergedEvent_audit_id : pyval
}.

Definition EntityUnmergedEvent_to_map (self : EntityUnmergedEvent) : pyresult pyval :=
  py_dict
    ["restored_entity_id" ::= Ok (EntityUnmergedEvent_restored_entity_id self);
     "from_survivor" ::= Ok (EntityUnmergedEvent_from_survivor self);
     "audit_id" ::= Ok (EntityUnmergedEvent_audit_id self)].

Definition EntityUnmergedEvent_from_map (m : pyval) : pyresult EntityUnmergedEvent :=
  let* restored_entity_id := py_getitem m "restored_entity_id" in
  let* from_survivor := py_getitem m "from_survivor" in
  let* audit_id := py_getitem m "audit_id" in
  Ok (mk_EntityUnmergedEvent restored_entity_id from_survivor audit_id).

Definition EntityUnmergedEvent_wf (self : EntityUnmergedEvent) : Prop :=
 raw_ok (EntityUnmergedEvent_restored_entity_id self) /\
  raw_ok (EntityUnmergedEvent_from_survivor self) /\ raw_ok (EntityUnmergedEvent_audit_id self).

#[export] Instance EntityUnmergedEvent_nested :
  Nested EntityUnmergedEvent_wf EntityUnmergedEvent_to_map EntityUnmergedEvent_from_map.
Proof.
  intros []. wire_class EntityUnmergedEvent_wf EntityUnmergedEvent_to_map EntityUnmergedEvent_from_map.
Qed.

(** ** [EntityTombstonedEvent] *)

Record EntityTombstonedEvent : Type := mk_EntityTombstonedEvent {
  EntityTombstonedEvent_entity_id : pyval; EntityTombstonedEvent_reason : pyval
}.

Definition EntityTombstonedEvent_to_map (self : EntityTombstonedEvent) : pyresult pyval :=
  py_dict
    ["entity_id" ::= Ok (EntityTombstonedEvent_entity_id self);
     "reason" ::= Ok (EntityTombstonedEvent_reason self)].

Definition EntityTombstonedEvent_from_map (m : pyval) : pyresult EntityTombstonedEvent :=
  let* entity_id := py_getitem m "entity_id" in
  let* reason := py_getitem m "reason" in
  Ok (mk_EntityTombstonedEvent entity_id reason).

Definition EntityTombstonedEvent_wf (self : EntityTombstonedEvent) : Prop :=
 raw_ok (EntityTombstonedEvent_entity_id self) /\ raw_ok (EntityTombstonedEvent_reason self).

#[export] Instance EntityTombstonedEvent_nested :
  Nested EntityTombstonedEvent_wf EntityTombstonedEvent_to_map EntityTombstonedEvent_from_map.
Proof.
  intros []. wire_class EntityTombstonedEvent_wf EntityTombstonedEvent_to_map EntityTombstonedEvent_from_map.
Qed.

(** ** [StatementCreatedEvent] *)

Record StatementCreatedEvent : Type := mk_StatementCreatedEvent {
  StatementCreatedEvent_statement_id : pyval; StatementCreatedEvent_kind : pyval;
  StatementCreatedEvent_subject : pyval; StatementCreatedEvent_predicate : pyval;
  StatementCreatedEvent_confidence : pyval
}.

Definition StatementCreatedEvent_to_map (self : StatementCreatedEvent) : pyresult pyval :=
  py_dict
    ["statement_id" ::= Ok (StatementCreatedEvent_statement_id self);
     "kind" ::= Ok (StatementCreatedEvent_kind self);
     "subject" ::= Ok (StatementCreatedEvent_subject self);
     "predicate" ::= Ok (StatementCreatedEvent_predicate self);
     "confidence" ::= round_f32 (StatementCreatedEvent_confidence self)].

Definition StatementCreatedEvent_from_map (m : pyval) : pyresult StatementCreatedEvent :=
  let* statement_id := py_getitem m "statement_id" in
  let* kind := py_getitem m "kind" in
  let* subject := py_getitem m "subject" in
  let* predicate := py_getitem m "predicate" in
  let* confidence := py_getitem m "confidence" in
  Ok (mk_StatementCreatedEvent statement_id kind subject predicate confidence).

Definition StatementCreatedEvent_wf (self : StatementCreatedEvent) : Prop :=
 raw_ok (StatementCreatedEvent_statement_id self) /\ raw_ok (StatementCreatedEvent_kind self) /\
  raw_ok (StatementCreatedEvent_subject self) /\ raw_ok (StatementCreatedEvent_predicate self) /\
  f32_ok (StatementCreatedEvent_confidence self).

#[export] Instance StatementCreatedEvent_nested :
  Nested StatementCreatedEvent_wf StatementCreatedEvent_to_map StatementCreatedEvent_from_map.
Proof.
  intros []. wire_class StatementCreatedEvent_wf StatementCreatedEvent_to_map StatementCreatedEvent_from_map.
Qed.

(** ** [StatementSupersededEvent] *)

Record StatementSupersededEvent : Type := mk_StatementSupersededEvent {
  StatementSupersededEvent_old_statement_id : pyval;
  StatementSupersededEvent_new_statement_id : pyval; StatementSupersededEvent_chain_root : pyval
}.

Definition StatementSupersededEvent_to_map (self : StatementSupersededEvent) : pyresult pyval :=
  py_dict
    ["old_statement_id" ::= Ok (StatementSupersededEvent_old_statement_id self);
     "new_statement_id" ::= Ok (StatementSupersededEvent_new_statement_id self);
     "chain_root" ::= Ok (StatementSupersededEvent_chain_root self)].

Definition StatementSupersededEvent_from_map (m : pyval) : pyresult StatementSupersededEvent :=
  let* old_statement_id := py_getitem m "old_statement_id" in
  let* new_statement_id := py_getitem m "new_statement_id" in
  let* chain_root := py_getitem m "chain_root" in
  Ok (mk_StatementSupersededEvent old_statement_id new_statement_id chain_root).

Definition StatementSupersededEvent_wf (self : StatementSupersededEvent) : Prop :=
 raw_ok (StatementSupersededEvent_old_statement_id self) /\
  raw_ok (StatementSupersededEvent_new_statement_id self) /\
  raw_ok (StatementSupersededEvent_chain_root self).

#[export] Instance StatementSupersededEvent_nested :
  Nested StatementSupersededEvent_wf StatementSupersededEvent_to_map StatementSupersededEvent_from_map.
Proof.
  intros []. wire_class StatementSupersededEvent_wf StatementSupersededEvent_to_map StatementSupersededEvent_from_map.
Qed.

(** ** [StatementTombstonedEvent] *)

Record StatementTombstonedEvent : Type := mk_StatementTombstonedEvent {
  StatementTombstonedEvent_statement_id : pyval; StatementTombstonedEvent_reason : pyval
}.

Definition StatementTombstonedEvent_to_map (self : StatementTombstonedEvent) : pyresult pyval :=
  py_dict
    ["statement_id" ::= Ok (StatementTombstonedEvent_statement_id self);
     "reason" ::= Ok (StatementTombstonedEvent_reason self)].

Definition StatementTombstonedEvent_from_map (m : pyval) : pyresult StatementTombstonedEvent :=
  let* statement_id := py_getitem m "statement_id" in
  let* reason := py_getitem m "reason" in
  Ok (mk_StatementTombstonedEvent statement_id reason).

Definition StatementTombstonedEvent_wf (self : StatementTombstonedEvent) : Prop :=
 raw_ok (StatementTombstonedEvent_statement_id self) /\
  raw_ok (StatementTombstonedEvent_reason self).

#[export] Instance StatementTombstonedEvent_nested :
  Nested StatementTombstonedEvent_wf StatementTombstonedEvent_to_map StatementTombstonedEvent_from_map.
Proof.
  intros []. wire_class StatementTombstonedEvent_wf StatementTombstonedEvent_to_map StatementTombstonedEvent_from_map.
Qed.

(** ** [RelationCreatedEvent] *)

Record RelationCreatedEvent : Type := mk_RelationCreatedEvent {
  RelationCreatedEvent_relation_id : pyval; RelationCreatedEvent_relation_type : pyval;
  RelationCreatedEvent_from_ : pyval; RelationCreatedEvent_to : pyval
}.

Definition RelationCreatedEvent_to_map (self : RelationCreatedEvent) : pyresult pyval :=
  py_dict
    ["relation_id" ::= Ok (RelationCreatedEvent_relation_id self);
     "relation_type" ::= Ok (RelationCreatedEvent_relation_type self);
     "from" ::= Ok (RelationCreatedEvent_from_ self); "to" ::= Ok (RelationCreatedEvent_to self)].

Definition RelationCreatedEvent_from_map (m : pyval) : pyresult RelationCreatedEvent :=
  let* relation_id := py_getitem m "relation_id" in
  let* relation_type := py_getitem m "relation_type" in
  let* from_ := py_getitem m "from" in
  let* to := py_getitem m "to" in
  Ok (mk_RelationCreatedEvent relation_id relation_type from_ to).

Definition RelationCreatedEvent_wf (self : RelationCreatedEvent) : Prop :=
 raw_ok (RelationCreatedEvent_relation_id self) /\
  raw_ok (RelationCreatedEvent_relation_type self) /\ raw_ok (RelationCreatedEvent_from_ self) /\
  raw_ok (RelationCreatedEvent_to self).

#[export] Instance RelationCreatedEvent_nested :
  Nested RelationCreatedEvent_wf RelationCreatedEvent_to_map RelationCreatedEvent_from_map.
Proof.
  intros []. wire_class RelationCreatedEvent_wf RelationCreatedEvent_to_map RelationCreatedEvent_from_map.
Qed.

(** ** [RelationSupersededEvent] *)

Record RelationSupersededEvent : Type := mk_RelationSupersededEvent {
  RelationSupersededEvent_old_relation_id : pyval; RelationSupersededEvent_new_relation_id : pyval
}.

Definition RelationSupersededEvent_to_map (self : RelationSupersededEvent) : pyresult pyval :=
  py_dict
    ["old_relation_id" ::= Ok (RelationSupersededEvent_old_relation_id self);
     "new_relation_id" ::= Ok (RelationSupersededEvent_new_relation_id self)].

Definition RelationSupersededEvent_from_map (m : pyval) : pyresult RelationSupersededEvent :=
  let* old_relation_id := py_getitem m "old_relation_id" in
  let* new_relation_id := py_getitem m "new_relation_id" in
  Ok (mk_RelationSupersededEvent old_relation_id new_relation_id).

Definition RelationSupersededEvent_wf (self : RelationSupersededEvent) : Prop :=
 raw_ok (RelationSupersededEvent_old_relation_id self) /\
  raw_ok (RelationSupersededEvent_new_relation_id self).

#[export] Instance RelationSupersededEvent_nested :
  Nested RelationSupersededEvent_wf RelationSupersededEvent_to_map RelationSupersededEvent_from_map.
Proof.
  intros []. wire_class RelationSupersededEvent_wf RelationSupersededEvent_to_map RelationSupersededEvent_from_map.
Qed.

(** ** [RelationTombstonedEvent] *)

Record RelationTombstonedEvent : Type := mk_RelationTombstonedEvent {
  RelationTombstonedEvent_relation_id : pyval; RelationTombstonedEvent_reason : pyval
}.

Definition RelationTombstonedEvent_to_map (self : RelationTombstonedEvent) : pyresult pyval :=
  py_dict
    ["relation_id" ::= Ok (RelationTombstonedEvent_relation_id self);
     "reason" ::= Ok (RelationTombstonedEvent_reason self)].

Definition RelationTombstonedEvent_from_map (m : pyval) : pyresult RelationTombstonedEvent :=
  let* relation_id := py_getitem m "relation_id" in
  let* reason := py_getitem m "reason" in
  Ok (mk_RelationTombstonedEvent relation_id reason).

Definition RelationTombstonedEvent_wf (self : RelationTombstonedEvent) : Prop :=
 raw_ok (RelationTombstonedEvent_relation_id self) /\
  raw_ok (RelationTombstonedEvent_reason self).

#[export] Instance RelationTombstonedEvent_nested :
  Nested RelationTombstonedEvent_wf RelationTombstonedEvent_to_map RelationTombstonedEvent_from_map.
Proof.
  intros []. wire_class RelationTombstonedEvent_wf RelationTombstonedEvent_to_map RelationTombstonedEvent_from_map.
Qed.

(** ** [SchemaUpdatedEvent] *)

Record SchemaUpdatedEvent : Type := mk_SchemaUpdatedEvent {
  SchemaUpdatedEvent_namespace : pyval; SchemaUpdatedEvent_from_version : pyval;
  SchemaUpdatedEvent_to_version : pyval; SchemaUpdatedEvent_backward_compatible : pyval
}.

Definition SchemaUpdatedEvent_to_map (self : SchemaUpdatedEvent) : pyresult pyval :=
  py_dict
    ["namespace" ::= Ok (SchemaUpdatedEvent_namespace self);
     "from_version" ::= Ok (SchemaUpdatedEvent_from_version self);
     "to_version" ::= Ok (SchemaUpdatedEvent_to_version self);
     "backward_compatible" ::= Ok (SchemaUpdatedEvent_backward_compatible self)].

Definition SchemaUpdatedEvent_from_map (m : pyval) : pyresult SchemaUpdatedEvent :=
  let* namespace := py_getitem m "namespace" in
  let* from_version := py_getitem m "from_version" in
  let* to_version := py_getitem m "to_version" in
  let* backward_compatible := py_getitem m "backward_compatible" in
  Ok (mk_SchemaUpdatedEvent namespace from_version to_version backward_compatible).

Definition SchemaUpdatedEvent_wf (self : SchemaUpdatedEvent) : Prop :=
 raw_ok (SchemaUpdatedEvent_namespace self) /\ raw_ok (SchemaUpdatedEvent_from_version self) /\
  raw_ok (SchemaUpdatedEvent_to_version self) /\
  raw_ok (SchemaUpdatedEvent_backward_compatible self).

#[export] Instance SchemaUpdatedEvent_nested :
  Nested SchemaUpdatedEvent_wf SchemaUpdatedEvent_to_map SchemaUpdatedEvent_from_map.
Proof.
  intros []. wire_class SchemaUpdatedEvent_wf SchemaUpdatedEvent_to_map SchemaUpdatedEvent_from_map.
Qed.

(** ** [GraphEventPayload] *)

(** The event bodies a payload nests. *)
Inductive GraphEvent : Type :=
| GraphEvent_EntityCreated (e : EntityCreatedEvent)
| GraphEvent_EntityUpdated (e : EntityUpdatedEvent)
| GraphEvent_EntityRenamed (e : EntityRenamedEvent)
| GraphEvent_EntityMerged (e : EntityMergedEvent)
| GraphEvent_EntityUnmerged (e : EntityUnmergedEvent)
| GraphEvent_EntityTombstoned (e : EntityTombstonedEvent)
| GraphEvent_StatementCreated (e : StatementCreatedEvent)
| GraphEvent_StatementSuperseded (e : StatementSupersededEvent)
| GraphEvent_StatementTombstoned (e : StatementTombstonedEvent)
| GraphEvent_RelationCreated (e : RelationCreatedEvent)
| GraphEvent_RelationSuperseded (e : RelationSupersededEvent)
| GraphEvent_RelationTombstoned (e : RelationTombstonedEvent)
| GraphEvent_SchemaUpdated (e : SchemaUpdatedEvent).

Definition GraphEvent_to_map (e : GraphEvent) : pyresult pyval :=
  match e with
  | GraphEvent_EntityCreated e => EntityCreatedEvent_to_map e
  | GraphEvent_EntityUpdated e => EntityUpdatedEvent_to_map e
  | GraphEvent_EntityRenamed e => EntityRenamedEvent_to_map e
  | GraphEvent_EntityMerged e => EntityMergedEvent_to_map e
  | GraphEvent_EntityUnmerged e => EntityUnmergedEvent_to_map e
  | GraphEvent_EntityTombstoned e => EntityTombstonedEvent_to_map e
  | GraphEvent_StatementCreated e => StatementCreatedEvent_to_map e
  | GraphEvent_StatementSuperseded e => StatementSupersededEvent_to_map e
  | GraphEvent_StatementTombstoned e => StatementTombstonedEvent_to_map e
  | GraphEvent_RelationCreated e => RelationCreatedEvent_to_map e
  | GraphEvent_RelationSuperseded e => RelationSupersededEvent_to_map e
  | GraphEvent_RelationTombstoned e => RelationTombstonedEvent_to_map e
  | GraphEvent_SchemaUpdated e => SchemaUpdatedEvent_to_map e
  end.

(** The decoder of an event class, its result in the union. *)
Definition graph_event {E} (from : pyval -> pyresult E) (inj : E -> GraphEvent) (m : pyval)
    : pyresult GraphEvent :=
  let* e := from m in Ok (inj e).

Definition GRAPH_EVENT_TYPES : list (string * (pyval -> pyresult GraphEvent)) :=
  [("EntityCreated", graph_event EntityCreatedEvent_from_map GraphEvent_EntityCreated);
   ("EntityUpdated", graph_event EntityUpdatedEvent_from_map GraphEvent_EntityUpdated);
   ("EntityRenamed", graph_event EntityRenamedEvent_from_map GraphEvent_EntityRenamed);
   ("EntityMerged", graph_event EntityMergedEvent_from_map GraphEvent_EntityMerged);
   ("EntityUnmerged", graph_event EntityUnmergedEvent_from_map GraphEvent_EntityUnmerged);
   ("EntityTombstoned", graph_event EntityTombstonedEvent_from_map GraphEvent_EntityTombstoned);
   ("StatementCreated", graph_event StatementCreatedEvent_from_map GraphEvent_StatementCreated);
   ("StatementSuperseded",
     graph_event StatementSupersededEvent_from_map GraphEvent_StatementSuperseded);
   ("StatementTombstoned",
     graph_event StatementTombstonedEvent_from_map GraphEvent_StatementTombstoned);
   ("RelationCreated", graph_event RelationCreatedEvent_from_map GraphEvent_RelationCreated);
   ("RelationSuperseded",
     graph_event RelationSupersededEvent_from_map GraphEvent_RelationSuperseded);
   ("RelationTombstoned",
     graph_event RelationTombstonedEvent_from_map GraphEvent_RelationTombstoned);
   ("SchemaUpdated", graph_event SchemaUpdatedEvent_from_map GraphEvent_SchemaUpdated)].

Record GraphEventPayload : Type := mk_GraphEventPayload {
  GraphEventPayload_variant : pyval; GraphEventPayload_value : GraphEvent
}.

Definition GraphEventPayload_to_cbor_value (self : GraphEventPayload) : pyresult pyval :=
  let* m := GraphEvent_to_map (GraphEventPayload_value self) in
  py_single (GraphEventPayload_variant self) m.

Definition GraphEventPayload_from_cbor_value (v : pyval) : pyresult GraphEventPayload :=
  let* '(variant, value) := py_single_item v in
  match find (fun '(name, _) => py_eq_str variant name) GRAPH_EVENT_TYPES with
  | None => Raise ValueError
  | Some (_, body_type) =>
      let* body := body_type value in Ok (mk_GraphEventPayload variant body)
  end.

(** The variant names the event it carries. *)
Definition GraphEventPayload_wf (self : GraphEventPayload) : Prop :=
  let named (name : string) (P : Prop) := GraphEventPayload_variant self = PStr name /\ P in
  match GraphEventPayload_value self with
  | GraphEvent_EntityCreated e => named "EntityCreated" (EntityCreatedEvent_wf e)
  | GraphEvent_EntityUpdated e => named "EntityUpdated" (EntityUpdatedEvent_wf e)
  | GraphEvent_EntityRenamed e => named "EntityRenamed" (EntityRenamedEvent_wf e)
  | GraphEvent_EntityMerged e => named "EntityMerged" (EntityMergedEvent_wf e)
  | GraphEvent_EntityUnmerged e => named "EntityUnmerged" (EntityUnmergedEvent_wf e)
  | GraphEvent_EntityTombstoned e => named "EntityTombstoned" (EntityTombstonedEvent_wf e)
  | GraphEvent_StatementCreated e => named "StatementCreated" (StatementCreatedEvent_wf e)
  | GraphEvent_StatementSuperseded e => named "StatementSuperseded" (StatementSupersededEvent_wf e)
  | GraphEvent_StatementTombstoned e => named "StatementTombstoned" (StatementTombstonedEvent_wf e)
  | GraphEvent_RelationCreated e => named "RelationCreated" (RelationCreatedEvent_wf e)
  | GraphEvent_RelationSuperseded e => named "RelationSuperseded" (RelationSupersededEvent_wf e)
  | GraphEvent_RelationTombstoned e => named "RelationTombstoned" (RelationTombstonedEvent_wf e)
  | GraphEvent_SchemaUpdated e => named "SchemaUpdated" (SchemaUpdatedEvent_wf e)
  end.

#[export] Instance GraphEventPayload_nested :
  Nested GraphEventPayload_wf GraphEventPayload_to_cbor_value GraphEventPayload_from_cbor_value.
Proof.
  intros [variant value]; destruct value; intros [Hv H]; cbn in Hv, H; subst variant;
    destruct (nested_plain _ H) as (w & E & D);
    unfold wire_ok, GraphEventPayload_to_cbor_value; wire_eval; rewrite E;
    (eexists; split; [reflexivity|]; split; [done|]); unfold GraphEventPayload_from_cbor_value;
    rewrite single_item_unmark;
    cbv beta iota delta [bind find GRAPH_EVENT_TYPES graph_event py_eq_str String.eqb Ascii.eqb Bool.eqb];
    by rewrite D.
Qed.

(** ** [SubscriptionEvent] *)

Record SubscriptionEvent : Type := mk_SubscriptionEvent {
  SubscriptionEvent_event_type : pyval; SubscriptionEvent_memory_id : pyval;
  SubscriptionEvent_session_id : pyval; SubscriptionEvent_text : pyval;
  SubscriptionEvent_kind : pyval; SubscriptionEvent_salience : pyval;
  SubscriptionEvent_timestamp_unix_nanos : pyval; SubscriptionEvent_lsn : pyval;
  SubscriptionEvent_graph_payload : option GraphEventPayload;
  SubscriptionEvent_edge_payload : option EdgeEventPayload; SubscriptionEvent_stage_kind : pyval;
  SubscriptionEvent_stage_outcome : pyval; SubscriptionEvent_stage_payload : option StagePayload
}.

Definition SubscriptionEvent_to_map (self : SubscriptionEvent) : pyresult pyval :=
  py_dict
    ["event_type" ::= Ok (SubscriptionEvent_event_type self);
     "memory_id" ::= Ok (SubscriptionEvent_memory_id self);
     "session_id" ::= Ok (SubscriptionEvent_session_id self);
     "text" ::= Ok (SubscriptionEvent_text self); "kind" ::= Ok (SubscriptionEvent_kind self);
     "salience" ::= round_f32 (SubscriptionEvent_salience self);
     "timestamp_unix_nanos" ::= Ok (SubscriptionEvent_timestamp_unix_nanos self);
     "lsn" ::= Ok (SubscriptionEvent_lsn self);
     "graph_payload" ::= to_option GraphEventPayload_to_cbor_value (SubscriptionEvent_graph_payload self);
     "edge_payload" ::= to_option EdgeEventPayload_to_map (SubscriptionEvent_edge_payload self);
     "stage_kind" ::= Ok (SubscriptionEvent_stage_kind self);
     "stage_outcome" ::= Ok (SubscriptionEvent_stage_outcome self);
     "stage_payload" ::= to_option StagePayload_to_cbor_value (SubscriptionEvent_stage_payload self)].

Definition SubscriptionEvent_from_map (m : pyval) : pyresult SubscriptionEvent :=
  let* event_type := py_getitem m "event_type" in
  let* memory_id := py_getitem m "memory_id" in
  let* session_id := py_getitem m "session_id" in
  let* text := py_getitem m "text" in
  let* kind := py_getitem m "kind" in
  let* salience := py_getitem m "salience" in
  let* timestamp_unix_nanos := py_getitem m "timestamp_unix_nanos" in
  let* lsn := py_getitem m "lsn" in
  let* graph_payload :=
    bind (py_getitem m "graph_payload") (from_option GraphEventPayload_from_cbor_value) in
  let* edge_payload :=
    bind (py_getitem m "edge_payload") (from_option EdgeEventPayload_from_map) in
  let* stage_kind := py_getitem m "stage_kind" in
  let* stage_outcome := py_getitem m "stage_outcome" in
  let* stage_payload :=
    bind (py_getitem m "stage_payload") (from_option StagePayload_from_cbor_value) in
  Ok (mk_SubscriptionEvent event_type memory_id session_id text kind salience timestamp_unix_nanos
    lsn graph_payload edge_payload stage_kind stage_outcome stage_payload).

Definition SubscriptionEvent_wf (self : SubscriptionEvent) : Prop :=
 raw_ok (SubscriptionEvent_event_type self) /\ raw_ok (SubscriptionEvent_memory_id self) /\
  raw_ok (SubscriptionEvent_session_id self) /\ raw_ok (SubscriptionEvent_text self) /\
  raw_ok (SubscriptionEvent_kind self) /\ f32_ok (SubscriptionEvent_salience self) /\
  raw_ok (SubscriptionEvent_timestamp_unix_nanos self) /\ raw_ok (SubscriptionEvent_lsn self) /\
  option_ok GraphEventPayload_wf (SubscriptionEvent_graph_payload self) /\
  option_ok EdgeEventPayload_wf (SubscriptionEvent_edge_payload self) /\
  raw_ok (SubscriptionEvent_stage_kind self) /\ raw_ok (SubscriptionEvent_stage_outcome self) /\
  option_ok StagePayload_wf (SubscriptionEvent_stage_payload self).

#[export] Instance SubscriptionEvent_nested :
  Nested SubscriptionEvent_wf SubscriptionEvent_to_map SubscriptionEvent_from_map.
Proof.
  intros []. wire_class SubscriptionEvent_wf SubscriptionEvent_to_map SubscriptionEvent_from_map.
Qed.

#[export] Instance SubscriptionEvent_payload : WirePayload SubscriptionEvent :=
  map_payload SubscriptionEvent_to_map SubscriptionEvent_from_map.
#[export] Instance SubscriptionEvent_laws : WireLaws SubscriptionEvent :=
  map_laws _ _ _ (fun self m E => py_dict_is_dict _ _ E).

(** ** [UnsubscribeRequest] *)

Record UnsubscribeRequest : Type := mk_UnsubscribeRequest {
  UnsubscribeRequest_target_stream_id : pyval
}.

Definition UnsubscribeRequest_to_map (self : UnsubscribeRequest) : pyresult pyval :=
  py_dict
    ["target_stream_id" ::= Ok (UnsubscribeRequest_target_stream_id self)].

Definition UnsubscribeRequest_from_map (m : pyval) : pyresult UnsubscribeRequest :=
  let* target_stream_id := py_getitem m "target_stream_id" in
  Ok (mk_UnsubscribeRequest target_stream_id).

Definition UnsubscribeRequest_wf (self : UnsubscribeRequest) : Prop :=
 raw_ok (UnsubscribeRequest_target_stream_id self).

#[export] Instance UnsubscribeRequest_nested :
  Nested UnsubscribeRequest_wf UnsubscribeRequest_to_map UnsubscribeRequest_from_map.
Proof.
  intros []. wire_class UnsubscribeRequest_wf UnsubscribeRequest_to_map UnsubscribeRequest_from_map.
Qed.

#[export] Instance UnsubscribeRequest_payload : WirePayload UnsubscribeRequest :=
  map_payload UnsubscribeRequest_to_map UnsubscribeRequest_from_map.
#[export] Instance UnsubscribeRequest_laws : WireLaws UnsubscribeRequest :=
  map_laws _ _ _ (fun self m E => py_dict_is_dict _ _ E).

(** ** [UnsubscribeResponse] *)

Record UnsubscribeResponse : Type := mk_UnsubscribeResponse {
  UnsubscribeResponse_target_stream_id : pyval; UnsubscribeResponse_final_lsn : pyval
}.

Definition UnsubscribeResponse_to_map (self : UnsubscribeResponse) : pyresult pyval :=
  py_dict
    ["target_stream_id" ::= Ok (UnsubscribeResponse_target_stream_id self);
     "final_lsn" ::= Ok (UnsubscribeResponse_final_lsn self)].

Definition UnsubscribeResponse_from_map (m : pyval) : pyresult UnsubscribeResponse :=
  let* target_stream_id := py_getitem m "target_stream_id" in
  let* final_lsn := py_getitem m "final_lsn" in
  Ok (mk_UnsubscribeResponse target_stream_id final_lsn).

Definition UnsubscribeResponse_wf (self : UnsubscribeResponse) : Prop :=
 raw_ok (UnsubscribeResponse_target_stream_id self) /\
  raw_ok (UnsubscribeResponse_final_lsn self).

#[export] Instance UnsubscribeResponse_nested :
  Nested UnsubscribeResponse_wf UnsubscribeResponse_to_map UnsubscribeResponse_from_map.
Proof.
  intros []. wire_class UnsubscribeResponse_wf UnsubscribeResponse_to_map UnsubscribeResponse_from_map.
Qed.

#[export] Instance UnsubscribeResponse_payload : WirePayload UnsubscribeResponse :=
  map_payload UnsubscribeResponse_to_map UnsubscribeResponse_from_map.
#[export] Instance UnsubscribeResponse_laws : WireLaws UnsubscribeResponse :=
  map_laws _ _ _ (fun self m E => py_dict_is_dict _ _ E).

(** ** [GetCapabilitiesRequest] *)

Record GetCapabilitiesRequest : Type := mk_GetCapabilitiesRequest {
  GetCapabilitiesRequest_act_as : option ActAs
}.

Definition GetCapabilitiesRequest_to_map (self : GetCapabilitiesRequest) : pyresult pyval :=
  py_dict (
    emit_some "act_as" ActAs_to_map (GetCapabilitiesRequest_act_as self)).

Definition GetCapabilitiesRequest_from_map (m : pyval) : pyresult GetCapabilitiesRequest :=
  let* act_as := py_get m "act_as" PNone in
  let* act_as := from_option ActAs_from_map act_as in
  Ok (mk_GetCapabilitiesRequest act_as).

Definition GetCapabilitiesRequest_wf (self : GetCapabilitiesRequest) : Prop :=
 option_ok ActAs_wf (GetCapabilitiesRequest_act_as self).

#[export] Instance GetCapabilitiesRequest_nested :
  Nested GetCapabilitiesRequest_wf GetCapabilitiesRequest_to_map GetCapabilitiesRequest_from_map.
Proof.
  intros []. wire_class GetCapabilitiesRequest_wf GetCapabilitiesRequest_to_map GetCapabilitiesRequest_from_map.
Qed.

#[export] Instance GetCapabilitiesRequest_payload : WirePayload GetCapabilitiesRequest :=
  map_payload GetCapabilitiesRequest_to_map GetCapabilitiesRequest_from_map.
#[export] Instance GetCapabilitiesRequest_laws : WireLaws GetCapabilitiesRequest :=
  map_laws _ _ _ (fun self m E => py_dict_is_dict _ _ E).

(** ** [Capabilities] *)

Record Capabilities : Type := mk_Capabilities {
  Capabilities_rerank : pyval; Capabilities_llm_extractor : pyval;
  Capabilities_classifier_extractor : pyval; Capabilities_pattern_extractor : pyval;
  Capabilities_schema_namespaces : pyval; Capabilities_vector_dim : pyval
}.

Definition Capabilities_to_map (self : Capabilities) : pyresult pyval :=
  py_dict
    ["rerank" ::= Ok (Capabilities_rerank self);
     "llm_extractor" ::= Ok (Capabilities_llm_extractor self);
     "classifier_extractor" ::= Ok (Capabilities_classifier_extractor self);
     "pattern_extractor" ::= Ok (Capabilities_pattern_extractor self);
     "schema_namespaces" ::= py_list (Capabilities_schema_namespaces self);
     "vector_dim" ::= Ok (Capabilities_vector_dim self)].

Definition Capabilities_from_map (m : pyval) : pyresult Capabilities :=
  let* rerank := py_getitem m "rerank" in
  let* llm_extractor := py_getitem m "llm_extractor" in
  let* classifier_extractor := py_getitem m "classifier_extractor" in
  let* pattern_extractor := py_getitem m "pattern_extractor" in
  let* schema_namespaces := bind (py_getitem m "schema_namespaces") py_list in
  let* vector_dim := py_getitem m "vector_dim" in
  Ok (mk_Capabilities rerank llm_extractor classifier_extractor pattern_extractor schema_namespaces
    vector_dim).

Definition Capabilities_wf (self : Capabilities) : Prop :=
 raw_ok (Capabilities_rerank self) /\ raw_ok (Capabilities_llm_extractor self) /\
  raw_ok (Capabilities_classifier_extractor self) /\
  raw_ok (Capabilities_pattern_extractor self) /\ list_ok (Capabilities_schema_namespaces self) /\
  raw_ok (Capabilities_vector_dim self).

#[export] Instance Capabilities_nested :
  Nested Capabilities_wf Capabilities_to_map Capabilities_from_map.
Proof. intros []. wire_class Capabilities_wf Capabilities_to_map Capabilities_from_map. Qed.

(** ** [GetCapabilitiesResponse] *)

Record GetCapabilitiesResponse : Type := mk_GetCapabilitiesResponse {
  GetCapabilitiesResponse_capabilities : Capabilities
}.

Definition GetCapabilitiesResponse_to_map (self : GetCapabilitiesResponse) : pyresult pyval :=
  py_dict
    ["capabilities" ::= Capabilities_to_map (GetCapabilitiesResponse_capabilities self)].

Definition GetCapabilitiesResponse_from_map (m : pyval) : pyresult GetCapabilitiesResponse :=
  let* capabilities := bind (py_getitem m "capabilities") Capabilities_from_map in
  Ok (mk_GetCapabilitiesResponse capabilities).

Definition GetCapabilitiesResponse_wf (self : GetCapabilitiesResponse) : Prop :=
 Capabilities_wf (GetCapabilitiesResponse_capabilities self).

#[export] Instance GetCapabilitiesResponse_nested :
  Nested GetCapabilitiesResponse_wf GetCapabilitiesResponse_to_map GetCapabilitiesResponse_from_map.
Proof.
  intros []. wire_class GetCapabilitiesResponse_wf GetCapabilitiesResponse_to_map GetCapabilitiesResponse_from_map.
Qed.

#[export] Instance GetCapabilitiesResponse_payload : WirePayload GetCapabilitiesResponse :=
  map_payload GetCapabilitiesResponse_to_map GetCapabilitiesResponse_from_map.
#[export] Instance GetCapabilitiesResponse_laws : WireLaws GetCapabilitiesResponse :=
  map_laws _ _ _ (fun self m E => py_dict_is_dict _ _ E).

(** ** [ExtractorListRequest] *)

Record ExtractorListRequest : Type := mk_ExtractorListRequest {
  ExtractorListRequest_act_as : option ActAs
}.

Definition ExtractorListRequest_to_map (self : ExtractorListRequest) : pyresult pyval :=
  py_dict (
    emit_some "act_as" ActAs_to_map (ExtractorListRequest_act_as self)).

Definition ExtractorListRequest_from_map (m : pyval) : pyresult ExtractorListRequest :=
  let* act_as := py_get m "act_as" PNone in
  let* act_as := from_option ActAs_from_map act_as in
  Ok (mk_ExtractorListRequest act_as).

Definition ExtractorListRequest_wf (self : ExtractorListRequest) : Prop :=
 option_ok ActAs_wf (ExtractorListRequest_act_as self).

#[export] Instance ExtractorListRequest_nested :
  Nested ExtractorListRequest_wf ExtractorListRequest_to_map ExtractorListRequest_from_map.
Proof.
  intros []. wire_class ExtractorListRequest_wf ExtractorListRequest_to_map ExtractorListRequest_from_map.
Qed.

#[export] Instance ExtractorListRequest_payload : WirePayload ExtractorListRequest :=
  map_payload ExtractorListRequest_to_map ExtractorListRequest_from_map.
#[export] Instance ExtractorListRequest_laws : WireLaws ExtractorListRequest :=
  map_laws _ _ _ (fun self m E => py_dict_is_dict _ _ E).

(** ** [ExtractorListItem] *)

Record ExtractorListItem : Type := mk_ExtractorListItem {
  ExtractorListItem_extractor_id : pyval; ExtractorListItem_namespace : pyval;
  ExtractorListItem_name : pyval; ExtractorListItem_kind : pyval;
  ExtractorListItem_schema_version : pyval; ExtractorListItem_created_at_unix_nanos : pyval
}.

Definition ExtractorListItem_to_map (self : ExtractorListItem) : pyresult pyval :=
  py_dict
    ["extractor_id" ::= Ok (ExtractorListItem_extractor_id self);
     "namespace" ::= Ok (ExtractorListItem_namespace self);
     "name" ::= Ok (ExtractorListItem_name self); "kind" ::= Ok (ExtractorListItem_kind self);
     "schema_version" ::= Ok (ExtractorListItem_schema_version self);
     "created_at_unix_nanos" ::= Ok (ExtractorListItem_created_at_unix_nanos self)].

Definition ExtractorListItem_from_map (m : pyval) : pyresult ExtractorListItem :=
  let* extractor_id := py_getitem m "extractor_id" in
  let* namespace := py_getitem m "namespace" in
  let* name := py_getitem m "name" in
  let* kind := py_getitem m "kind" in
  let* schema_version := py_getitem m "schema_version" in
  let* created_at_unix_nanos := py_getitem m "created_at_unix_nanos" in
  Ok (mk_ExtractorListItem extractor_id namespace name kind schema_version created_at_unix_nanos).

Definition ExtractorListItem_wf (self : ExtractorListItem) : Prop :=
 raw_ok (ExtractorListItem_extractor_id self) /\ raw_ok (ExtractorListItem_namespace self) /\
  raw_ok (ExtractorListItem_name self) /\ raw_ok (ExtractorListItem_kind self) /\
  raw_ok (ExtractorListItem_schema_version self) /\
  raw_ok (ExtractorListItem_created_at_unix_nanos self).

#[export] Instance ExtractorListItem_nested :
  Nested ExtractorListItem_wf ExtractorListItem_to_map ExtractorListItem_from_map.
Proof.
  intros []. wire_class ExtractorListItem_wf ExtractorListItem_to_map ExtractorListItem_from_map.
Qed.

(** ** [ExtractorListResponseFrame] *)

Record ExtractorListResponseFrame : Type := mk_ExtractorListResponseFrame {
  ExtractorListResponseFrame_items : list ExtractorListItem;
  ExtractorListResponseFrame_total : pyval; ExtractorListResponseFrame_is_final : pyval
}.

Definition ExtractorListResponseFrame_to_map (self : ExtractorListResponseFrame) : pyresult pyval :=
  py_dict
    ["items" ::= to_list ExtractorListItem_to_map (ExtractorListResponseFrame_items self);
     "total" ::= Ok (ExtractorListResponseFrame_total self);
     "is_final" ::= Ok (ExtractorListResponseFrame_is_final self)].

Definition ExtractorListResponseFrame_from_map (m : pyval) : pyresult ExtractorListResponseFrame :=
  let* items := bind (py_getitem m "items") (from_list ExtractorListItem_from_map) in
  let* total := py_getitem m "total" in
  let* is_final := py_getitem m "is_final" in
  Ok (mk_ExtractorListResponseFrame items total is_final).

Definition ExtractorListResponseFrame_wf (self : ExtractorListResponseFrame) : Prop :=
 Forall ExtractorListItem_wf (ExtractorListResponseFrame_items self) /\
  raw_ok (ExtractorListResponseFrame_total self) /\
  raw_ok (ExtractorListResponseFrame_is_final self).

#[export] Instance ExtractorListResponseFrame_nested :
  Nested ExtractorListResponseFrame_wf ExtractorListResponseFrame_to_map ExtractorListResponseFrame_from_map.
Proof.
  intros []. wire_class ExtractorListResponseFrame_wf ExtractorListResponseFrame_to_map ExtractorListResponseFrame_from_map.
Qed.

#[export] Instance ExtractorListResponseFrame_payload : WirePayload ExtractorListResponseFrame :=
  map_payload ExtractorListResponseFrame_to_map ExtractorListResponseFrame_from_map.
#[export] Instance ExtractorListResponseFrame_laws : WireLaws ExtractorListResponseFrame :=
  map_laws _ _ _ (fun self m E => py_dict_is_dict _ _ E).
