(* ===== verification/WireReads.v ===== *)
(** * WireReads

    [wire/types.py], the read side of the typed graph: entity, statement,
    relation and schema views, with their requests and responses. *)

From S2P Require Import Prelude PyFloat PyValue Rfc8949 Cbor CborScan CborCodec WireEnums WireCodec.
From S2P Require Import WireHandshake WireRecall WireTyped.

(** ** [EntityView] *)

Record EntityView : Type := mk_EntityView {
  EntityView_entity_id : pyval; EntityView_entity_type_id : pyval;
  EntityView_canonical_name : pyval; EntityView_normalized_name : pyval;
  EntityView_aliases : pyval; EntityView_attributes_blob : pyval;
  EntityView_mention_count : pyval; EntityView_created_at_unix_nanos : pyval;
  EntityView_updated_at_unix_nanos : pyval; EntityView_merged_into : pyval;
  EntityView_embedding_version : pyval; EntityView_flags : pyval
}.

Definition EntityView_to_map (self : EntityView) : pyresult pyval :=
  py_dict
    ["entity_id" ::= Ok (EntityView_entity_id self);
     "entity_type_id" ::= Ok (EntityView_entity_type_id self);
     "canonical_name" ::= Ok (EntityView_canonical_name self);
     "normalized_name" ::= Ok (EntityView_normalized_name self);
     "aliases" ::= py_list (EntityView_aliases self);
     "attributes_blob" ::= py_list (EntityView_attributes_blob self);
     "mention_count" ::= Ok (EntityView_mention_count self);
     "created_at_unix_nanos" ::= Ok (EntityView_created_at_unix_nanos self);
     "updated_at_unix_nanos" ::= Ok (EntityView_updated_at_unix_nanos self);
     "merged_into" ::= Ok (EntityView_merged_into self);
     "embedding_version" ::= Ok (EntityView_embedding_version self);
     "flags" ::= Ok (EntityView_flags self)].

Definition EntityView_from_map (m : pyval) : pyresult EntityView :=
  let* entity_id := py_getitem m "entity_id" in
  let* entity_type_id := py_getitem m "entity_type_id" in
  let* canonical_name := py_getitem m "canonical_name" in
  let* normalized_name := py_getitem m "normalized_name" in
  let* aliases := bind (py_getitem m "aliases") py_list in
  let* attributes_blob := bind (py_getitem m "attributes_blob") py_list in
  let* mention_count := py_getitem m "mention_count" in
  let* created_at_unix_nanos := py_getitem m "created_at_unix_nanos" in
  let* updated_at_unix_nanos := py_getitem m "updated_at_unix_nanos" in
  let* merged_into := py_getitem m "merged_into" in
  let* embedding_version := py_getitem m "embedding_version" in
  let* flags := py_getitem m "flags" in
  Ok (mk_EntityView entity_id entity_type_id canonical_name normalized_name aliases attributes_blob
    mention_count created_at_unix_nanos updated_at_unix_nanos merged_into embedding_version flags).

Definition EntityView_wf (self : EntityView) : Prop :=
 raw_ok (EntityView_entity_id self) /\ raw_ok (EntityView_entity_type_id self) /\
  raw_ok (EntityView_canonical_name self) /\ raw_ok (EntityView_normalized_name self) /\
  list_ok (EntityView_aliases self) /\ list_ok (EntityView_attributes_blob self) /\
  raw_ok (EntityView_mention_count self) /\ raw_ok (EntityView_created_at_unix_nanos self) /\
  raw_ok (EntityView_updated_at_unix_nanos self) /\ raw_ok (EntityView_merged_into self) /\
  raw_ok (EntityView_embedding_version self) /\ raw_ok (EntityView_flags self).

#[export] Instance EntityView_nested : Nested EntityView_wf EntityView_to_map EntityView_from_map.
Proof. intros []. wire_class EntityView_wf EntityView_to_map EntityView_from_map. Qed.

(** ** [EntityGetRequest] *)

Record EntityGetRequest : Type := mk_EntityGetRequest {
  EntityGetRequest_entity_id : pyval; EntityGetRequest_act_as : option ActAs
}.

Definition EntityGetRequest_to_map (self : EntityGetRequest) : pyresult pyval :=
  py_dict (
    ["entity_id" ::= Ok (EntityGetRequest_entity_id self)]
    ++ emit_some "act_as" ActAs_to_map (EntityGetRequest_act_as self)).

Definition EntityGetRequest_from_map (m : pyval) : pyresult EntityGetRequest :=
  let* act_as := py_get m "act_as" PNone in
  let* entity_id := py_getitem m "entity_id" in
  let* act_as := from_option ActAs_from_map act_as in
  Ok (mk_EntityGetRequest entity_id act_as).

Definition EntityGetRequest_wf (self : EntityGetRequest) : Prop :=
 raw_ok (EntityGetRequest_entity_id self) /\ option_ok ActAs_wf (EntityGetRequest_act_as self).

#[export] Instance EntityGetRequest_nested :
  Nested EntityGetRequest_wf EntityGetRequest_to_map EntityGetRequest_from_map.
Proof.
  intros []. wire_class EntityGetRequest_wf EntityGetRequest_to_map EntityGetRequest_from_map.
Qed.

#[export] Instance EntityGetRequest_payload : WirePayload EntityGetRequest :=
  map_payload EntityGetRequest_to_map EntityGetRequest_from_map.
#[export] Instance EntityGetRequest_laws : WireLaws EntityGetRequest :=
  map_laws _ _ _ (fun self m E => py_dict_is_dict _ _ E).

(** ** [EntityGetResponse] *)

Record EntityGetResponse : Type := mk_EntityGetResponse {
  EntityGetResponse_entity : EntityView; EntityGetResponse_resolved_from : list pyval
}.

Definition EntityGetResponse_to_map (self : EntityGetResponse) : pyresult pyval :=
  py_dict
    ["entity" ::= EntityView_to_map (EntityGetResponse_entity self);
     "resolved_from" ::= to_list py_list (EntityGetResponse_resolved_from self)].

Definition EntityGetResponse_from_map (m : pyval) : pyresult EntityGetResponse :=
  let* entity := bind (py_getitem m "entity") EntityView_from_map in
  let* resolved_from := bind (py_getitem m "resolved_from") (from_list py_bytes) in
  Ok (mk_EntityGetResponse entity resolved_from).

Definition EntityGetResponse_wf (self : EntityGetResponse) : Prop :=
 EntityView_wf (EntityGetResponse_entity self) /\
  Forall bytes_ok (EntityGetResponse_resolved_from self).

#[export] Instance EntityGetResponse_nested :
  Nested EntityGetResponse_wf EntityGetResponse_to_map EntityGetResponse_from_map.
Proof.
  intros []. wire_class EntityGetResponse_wf EntityGetResponse_to_map EntityGetResponse_from_map.
Qed.

#[export] Instance EntityGetResponse_payload : WirePayload EntityGetResponse :=
  map_payload EntityGetResponse_to_map EntityGetResponse_from_map.
#[export] Instance EntityGetResponse_laws : WireLaws EntityGetResponse :=
  map_laws _ _ _ (fun self m E => py_dict_is_dict _ _ E).

(** ** [EntityListRequest] *)

Record EntityListRequest : Type := mk_EntityListRequest {
  EntityListRequest_entity_type_id : pyval; EntityListRequest_name_prefix : pyval;
  EntityListRequest_mention_count_min : pyval; EntityListRequest_include_tombstoned : pyval;
  EntityListRequest_include_merged : pyval; EntityListRequest_limit : pyval;
  EntityListRequest_cursor : pyval; EntityListRequest_act_as : option ActAs
}.

Definition EntityListRequest_to_map (self : EntityListRequest) : pyresult pyval :=
  py_dict (
    ["entity_type_id" ::= Ok (EntityListRequest_entity_type_id self);
     "name_prefix" ::= Ok (EntityListRequest_name_prefix self);
     "mention_count_min" ::= Ok (EntityListRequest_mention_count_min self);
     "include_tombstoned" ::= Ok (EntityListRequest_include_tombstoned self);
     "include_merged" ::= Ok (EntityListRequest_include_merged self);
     "limit" ::= Ok (EntityListRequest_limit self);
     "cursor" ::= py_list (EntityListRequest_cursor self)]
    ++ emit_some "act_as" ActAs_to_map (EntityListRequest_act_as self)).

Definition EntityListRequest_from_map (m : pyval) : pyresult EntityListRequest :=
  let* act_as := py_get m "act_as" PNone in
  let* entity_type_id := py_getitem m "entity_type_id" in
  let* name_prefix := py_getitem m "name_prefix" in
  let* mention_count_min := py_getitem m "mention_count_min" in
  let* include_tombstoned := py_getitem m "include_tombstoned" in
  let* include_merged := py_getitem m "include_merged" in
  let* limit := py_getitem m "limit" in
  let* cursor := bind (py_getitem m "cursor") py_list in
  let* act_as := from_option ActAs_from_map act_as in
  Ok (mk_EntityListRequest entity_type_id name_prefix mention_count_min include_tombstoned
    include_merged limit cursor act_as).

Definition EntityListRequest_wf (self : EntityListRequest) : Prop :=
 raw_ok (EntityListRequest_entity_type_id self) /\ raw_ok (EntityListRequest_name_prefix self) /\
  raw_ok (EntityListRequest_mention_count_min self) /\
  raw_ok (EntityListRequest_include_tombstoned self) /\
  raw_ok (EntityListRequest_include_merged self) /\ raw_ok (EntityListRequest_limit self) /\
  list_ok (EntityListRequest_cursor self) /\ option_ok ActAs_wf (EntityListRequest_act_as self).

#[export] Instance EntityListRequest_nested :
  Nested EntityListRequest_wf EntityListRequest_to_map EntityListRequest_from_map.
Proof.
  intros []. wire_class EntityListRequest_wf EntityListRequest_to_map EntityListRequest_from_map.
Qed.

#[export] Instance EntityListRequest_payload : WirePayload EntityListRequest :=
  map_payload EntityListRequest_to_map EntityListRequest_from_map.
#[export] Instance EntityListRequest_laws : WireLaws EntityListRequest :=
  map_laws _ _ _ (fun self m E => py_dict_is_dict _ _ E).

(** ** [EntityListItem] *)

Record EntityListItem : Type := mk_EntityListItem {
  EntityListItem_entity : EntityView
}.

Definition EntityListItem_to_map (self : EntityListItem) : pyresult pyval :=
  py_dict
    ["entity" ::= EntityView_to_map (EntityListItem_entity self)].

Definition EntityListItem_from_map (m : pyval) : pyresult EntityListItem :=
  let* entity := bind (py_getitem m "entity") EntityView_from_map in
  Ok (mk_EntityListItem entity).

Definition EntityListItem_wf (self : EntityListItem) : Prop :=
 EntityView_wf (EntityListItem_entity self).

#[export] Instance EntityListItem_nested :
  Nested EntityListItem_wf EntityListItem_to_map EntityListItem_from_map.
Proof. intros []. wire_class EntityListItem_wf EntityListItem_to_map EntityListItem_from_map. Qed.

(** ** [EntityListResponseFrame] *)

Record EntityListResponseFrame : Type := mk_EntityListResponseFrame {
  EntityListResponseFrame_items : list EntityListItem;
  EntityListResponseFrame_next_cursor : pyval; EntityListResponseFrame_cumulative_count : pyval;
  EntityListResponseFrame_is_final : pyval
}.

Definition EntityListResponseFrame_to_map (self : EntityListResponseFrame) : pyresult pyval :=
  py_dict
    ["items" ::= to_list EntityListItem_to_map (EntityListResponseFrame_items self);
     "next_cursor" ::= py_list (EntityListResponseFrame_next_cursor self);
     "cumulative_count" ::= Ok (EntityListResponseFrame_cumulative_count self);
     "is_final" ::= Ok (EntityListResponseFrame_is_final self)].

Definition EntityListResponseFrame_from_map (m : pyval) : pyresult EntityListResponseFrame :=
  let* items := bind (py_getitem m "items") (from_list EntityListItem_from_map) in
  let* next_cursor := bind (py_getitem m "next_cursor") py_list in
  let* cumulative_count := py_getitem m "cumulative_count" in
  let* is_final := py_getitem m "is_final" in
  Ok (mk_EntityListResponseFrame items next_cursor cumulative_count is_final).

Definition EntityListResponseFrame_wf (self : EntityListResponseFrame) : Prop :=
 Forall EntityListItem_wf (EntityListResponseFrame_items self) /\
  list_ok (EntityListResponseFrame_next_cursor self) /\
  raw_ok (EntityListResponseFrame_cumulative_count self) /\
  raw_ok (EntityListResponseFrame_is_final self).

#[export] Instance EntityListResponseFrame_nested :
  Nested EntityListResponseFrame_wf EntityListResponseFrame_to_map EntityListResponseFrame_from_map.
Proof.
  intros []. wire_class EntityListResponseFrame_wf EntityListResponseFrame_to_map EntityListResponseFrame_from_map.
Qed.

#[export] Instance EntityListResponseFrame_payload : WirePayload EntityListResponseFrame :=
  map_payload EntityListResponseFrame_to_map EntityListResponseFrame_from_map.
#[export] Instance EntityListResponseFrame_laws : WireLaws EntityListResponseFrame :=
  map_laws _ _ _ (fun self m E => py_dict_is_dict _ _ E).

(** ** [EntityResolveRequest] *)

Record EntityResolveRequest : Type := mk_EntityResolveRequest {
  EntityResolveRequest_candidate_name : pyval; EntityResolveRequest_resolution_context : pyval;
  EntityResolveRequest_entity_type_hint : pyval; EntityResolveRequest_allow_create : pyval;
  EntityResolveRequest_request_id : pyval; EntityResolveRequest_act_as : option ActAs
}.

Definition EntityResolveRequest_to_map (self : EntityResolveRequest) : pyresult pyval :=
  py_dict (
    ["candidate_name" ::= Ok (EntityResolveRequest_candidate_name self);
     "resolution_context" ::= Ok (EntityResolveRequest_resolution_context self);
     "entity_type_hint" ::= Ok (EntityResolveRequest_entity_type_hint self);
     "allow_create" ::= Ok (EntityResolveRequest_allow_create self);
     "request_id" ::= Ok (EntityResolveRequest_request_id self)]
    ++ emit_some "act_as" ActAs_to_map (EntityResolveRequest_act_as self)).

Definition EntityResolveRequest_from_map (m : pyval) : pyresult EntityResolveRequest :=
  let* act_as := py_get m "act_as" PNone in
  let* candidate_name := py_getitem m "candidate_name" in
  let* resolution_context := py_getitem m "resolution_context" in
  let* entity_type_hint := py_getitem m "entity_type_hint" in
  let* allow_create := py_getitem m "allow_create" in
  let* request_id := py_getitem m "request_id" in
  let* act_as := from_option ActAs_from_map act_as in
  Ok (mk_EntityResolveRequest candidate_name resolution_context entity_type_hint allow_create
    request_id act_as).

Definition EntityResolveRequest_wf (self : EntityResolveRequest) : Prop :=
 raw_ok (EntityResolveRequest_candidate_name self) /\
  raw_ok (EntityResolveRequest_resolution_context self) /\
  raw_ok (EntityResolveRequest_entity_type_hint self) /\
  raw_ok (EntityResolveRequest_allow_create self) /\
  raw_ok (EntityResolveRequest_request_id self) /\
  option_ok ActAs_wf (EntityResolveRequest_act_as self).

#[export] Instance EntityResolveRequest_nested :
  Nested EntityResolveRequest_wf EntityResolveRequest_to_map EntityResolveRequest_from_map.
Proof.
  intros []. wire_class EntityResolveRequest_wf EntityResolveRequest_to_map EntityResolveRequest_from_map.
Qed.

#[export] Instance EntityResolveRequest_payload : WirePayload EntityResolveRequest :=
  map_payload EntityResolveRequest_to_map EntityResolveRequest_from_map.
#[export] Instance EntityResolveRequest_laws : WireLaws EntityResolveRequest :=
  map_laws _ _ _ (fun self m E => py_dict_is_dict _ _ E).

(** ** [EntityResolveResponse] *)

Record EntityResolveResponse : Type := mk_EntityResolveResponse {
  EntityResolveResponse_outcome : pyval; EntityResolveResponse_tier : pyval;
  EntityResolveResponse_confidence : pyval; EntityResolveResponse_resolved_entity : pyval;
  EntityResolveResponse_candidate_ids : pyval; EntityResolveResponse_audit_id : pyval
}.

Definition EntityResolveResponse_to_map (self : EntityResolveResponse) : pyresult pyval :=
  py_dict
    ["outcome" ::= Ok (EntityResolveResponse_outcome self);
     "tier" ::= Ok (EntityResolveResponse_tier self);
     "confidence" ::= round_f32 (EntityResolveResponse_confidence self);
     "resolved_entity" ::= Ok (EntityResolveResponse_resolved_entity self);
     "candidate_ids" ::= py_list (EntityResolveResponse_candidate_ids self);
     "audit_id" ::= Ok (EntityResolveResponse_audit_id self)].

Definition EntityResolveResponse_from_map (m : pyval) : pyresult EntityResolveResponse :=
  let* outcome := py_getitem m "outcome" in
  let* tier := py_getitem m "tier" in
  let* confidence := py_getitem m "confidence" in
  let* resolved_entity := py_getitem m "resolved_entity" in
  let* candidate_ids := bind (py_getitem m "candidate_ids") py_list in
  let* audit_id := py_getitem m "audit_id" in
  Ok (mk_EntityResolveResponse outcome tier confidence resolved_entity candidate_ids audit_id).

Definition EntityResolveResponse_wf (self : EntityResolveResponse) : Prop :=
 raw_ok (EntityResolveResponse_outcome self) /\ raw_ok (EntityResolveResponse_tier self) /\
  f32_ok (EntityResolveResponse_confidence self) /\
  raw_ok (EntityResolveResponse_resolved_entity self) /\
  list_ok (EntityResolveResponse_candidate_ids self) /\
  raw_ok (EntityResolveResponse_audit_id self).

#[export] Instance EntityResolveResponse_nested :
  Nested EntityResolveResponse_wf EntityResolveResponse_to_map EntityResolveResponse_from_map.
Proof.
  intros []. wire_class EntityResolveResponse_wf EntityResolveResponse_to_map EntityResolveResponse_from_map.
Qed.

#[export] Instance EntityResolveResponse_payload : WirePayload EntityResolveResponse :=
  map_payload EntityResolveResponse_to_map EntityResolveResponse_from_map.
#[export] Instance EntityResolveResponse_laws : WireLaws EntityResolveResponse :=
  map_laws _ _ _ (fun self m E => py_dict_is_dict _ _ E).

(** ** [StatementView] *)

Record StatementView : Type := mk_StatementView {
  StatementView_statement_id : pyval; StatementView_kind : pyval; StatementView_subject : pyval;
  StatementView_subject_pending_audit_id : pyval; StatementView_predicate : pyval;
  StatementView_object : StatementObject; StatementView_confidence : pyval;
  StatementView_evidence : EvidenceRef; StatementView_extractor_id : pyval;
  StatementView_extracted_at_unix_nanos : pyval; StatementView_schema_version : pyval;
  StatementView_valid_from_unix_nanos : pyval; StatementView_valid_to_unix_nanos : pyval;
  StatementView_event_at_unix_nanos : pyval; StatementView_version : pyval;
  StatementView_superseded_by : pyval; StatementView_supersedes : pyval;
  StatementView_chain_root : pyval; StatementView_tombstoned : pyval;
  StatementView_tombstoned_at_unix_nanos : pyval; StatementView_tombstone_reason : pyval;
  StatementView_flags : pyval; StatementView_is_stateful : pyval
}.

Definition StatementView_to_map (self : StatementView) : pyresult pyval :=
  py_dict
    ["statement_id" ::= Ok (StatementView_statement_id self);
     "kind" ::= Ok (StatementView_kind self); "subject" ::= Ok (StatementView_subject self);
     "subject_pending_audit_id" ::= Ok (StatementView_subject_pending_audit_id self);
     "predicate" ::= Ok (StatementView_predicate self);
     "object" ::= StatementObject_to_cbor_value (StatementView_object self);
     "confidence" ::= round_f32 (StatementView_confidence self);
     "evidence" ::= EvidenceRef_to_cbor_value (StatementView_evidence self);
     "extractor_id" ::= Ok (StatementView_extractor_id self);
     "extracted_at_unix_nanos" ::= Ok (StatementView_extracted_at_unix_nanos self);
     "schema_version" ::= Ok (StatementView_schema_version self);
     "valid_from_unix_nanos" ::= Ok (StatementView_valid_from_unix_nanos self);
     "valid_to_unix_nanos" ::= Ok (StatementView_valid_to_unix_nanos self);
     "event_at_unix_nanos" ::= Ok (StatementView_event_at_unix_nanos self);
     "version" ::= Ok (StatementView_version self);
     "superseded_by" ::= Ok (StatementView_superseded_by self);
     "supersedes" ::= Ok (StatementView_supersedes self);
     "chain_root" ::= Ok (StatementView_chain_root self);
     "tombstoned" ::= Ok (StatementView_tombstoned self);
     "tombstoned_at_unix_nanos" ::= Ok (StatementView_tombstoned_at_unix_nanos self);
     "tombstone_reason" ::= Ok (StatementView_tombstone_reason self);
     "flags" ::= Ok (StatementView_flags self);
     "is_stateful" ::= Ok (StatementView_is_stateful self)].

Definition StatementView_from_map (m : pyval) : pyresult StatementView :=
  let* statement_id := py_getitem m "statement_id" in
  let* kind := py_getitem m "kind" in
  let* subject := py_getitem m "subject" in
  let* subject_pending_audit_id := py_getitem m "subject_pending_audit_id" in
  let* predicate := py_getitem m "predicate" in
  let* object := bind (py_getitem m "object") StatementObject_from_cbor_value in
  let* confidence := py_getitem m "confidence" in
  let* evidence := bind (py_getitem m "evidence") EvidenceRef_from_cbor_value in
  let* extractor_id := py_getitem m "extractor_id" in
  let* extracted_at_unix_nanos := py_getitem m "extracted_at_unix_nanos" in
  let* schema_version := py_getitem m "schema_version" in
  let* valid_from_unix_nanos := py_getitem m "valid_from_unix_nanos" in
  let* valid_to_unix_nanos := py_getitem m "valid_to_unix_nanos" in
  let* event_at_unix_nanos := py_getitem m "event_at_unix_nanos" in
  let* version := py_getitem m "version" in
  let* superseded_by := py_getitem m "superseded_by" in
  let* supersedes := py_getitem m "supersedes" in
  let* chain_root := py_getitem m "chain_root" in
  let* tombstoned := py_getitem m "tombstoned" in
  let* tombstoned_at_unix_nanos := py_getitem m "tombstoned_at_unix_nanos" in
  let* tombstone_reason := py_getitem m "tombstone_reason" in
  let* flags := py_getitem m "flags" in
  let* is_stateful := py_getitem m "is_stateful" in
  Ok (mk_StatementView statement_id kind subject subject_pending_audit_id predicate object
    confidence evidence extractor_id extracted_at_unix_nanos schema_version valid_from_unix_nanos
    valid_to_unix_nanos event_at_unix_nanos version superseded_by supersedes chain_root tombstoned
    tombstoned_at_unix_nanos tombstone_reason flags is_stateful).

Definition StatementView_wf (self : StatementView) : Prop :=
 raw_ok (StatementView_statement_id self) /\ raw_ok (StatementView_kind self) /\
  raw_ok (StatementView_subject self) /\ raw_ok (StatementView_subject_pending_audit_id self) /\
  raw_ok (StatementView_predicate self) /\ StatementObject_wf (StatementView_object self) /\
  f32_ok (StatementView_confidence self) /\ EvidenceRef_wf (StatementView_evidence self) /\
  raw_ok (StatementView_extractor_id self) /\
  raw_ok (StatementView_extracted_at_unix_nanos self) /\
  raw_ok (StatementView_schema_version self) /\
  raw_ok (StatementView_valid_from_unix_nanos self) /\
  raw_ok (StatementView_valid_to_unix_nanos self) /\
  raw_ok (StatementView_event_at_unix_nanos self) /\ raw_ok (StatementView_version self) /\
  raw_ok (StatementView_superseded_by self) /\ raw_ok (StatementView_supersedes self) /\
  raw_ok (StatementView_chain_root self) /\ raw_ok (StatementView_tombstoned self) /\
  raw_ok (StatementView_tombstoned_at_unix_nanos self) /\
  raw_ok (StatementView_tombstone_reason self) /\ raw_ok (StatementView_flags self) /\
  raw_ok (StatementView_is_stateful self).

#[export] Instance StatementView_nested :
  Nested StatementView_wf StatementView_to_map StatementView_from_map.
Proof. intros []. wire_class StatementView_wf StatementView_to_map StatementView_from_map. Qed.

(** ** [StatementGetRequest] *)

Record StatementGetRequest : Type := mk_StatementGetRequest {
  StatementGetRequest_statement_id : pyval; StatementGetRequest_follow_supersession : pyval;
  StatementGetRequest_act_as : option ActAs
}.

Definition StatementGetRequest_to_map (self : StatementGetRequest) : pyresult pyval :=
  py_dict (
    ["statement_id" ::= Ok (StatementGetRequest_statement_id self);
     "follow_supersession" ::= Ok (StatementGetRequest_follow_supersession self)]
    ++ emit_some "act_as" ActAs_to_map (StatementGetRequest_act_as self)).

Definition StatementGetRequest_from_map (m : pyval) : pyresult StatementGetRequest :=
  let* act_as := py_get m "act_as" PNone in
  let* statement_id := py_getitem m "statement_id" in
  let* follow_supersession := py_getitem m "follow_supersession" in
  let* act_as := from_option ActAs_from_map act_as in
  Ok (mk_StatementGetRequest statement_id follow_supersession act_as).

Definition StatementGetRequest_wf (self : StatementGetRequest) : Prop :=
 raw_ok (StatementGetRequest_statement_id self) /\
  raw_ok (StatementGetRequest_follow_supersession self) /\
  option_ok ActAs_wf (StatementGetRequest_act_as self).

#[export] Instance StatementGetRequest_nested :
  Nested StatementGetRequest_wf StatementGetRequest_to_map StatementGetRequest_from_map.
Proof.
  intros []. wire_class StatementGetRequest_wf StatementGetRequest_to_map StatementGetRequest_from_map.
Qed.

#[export] Instance StatementGetRequest_payload : WirePayload StatementGetRequest :=
  map_payload StatementGetRequest_to_map StatementGetRequest_from_map.
#[export] Instance StatementGetRequest_laws : WireLaws StatementGetRequest :=
  map_laws _ _ _ (fun self m E => py_dict_is_dict _ _ E).

(** ** [StatementGetResponse] *)

Record StatementGetResponse : Type := mk_StatementGetResponse {
  StatementGetResponse_statement : StatementView;
  StatementGetResponse_returned_via_supersession : pyval
}.

Definition StatementGetResponse_to_map (self : StatementGetResponse) : pyresult pyval :=
  py_dict
    ["statement" ::= StatementView_to_map (StatementGetResponse_statement self);
     "returned_via_supersession" ::= Ok (StatementGetResponse_returned_via_supersession self)].

Definition StatementGetResponse_from_map (m : pyval) : pyresult StatementGetResponse :=
  let* statement := bind (py_getitem m "statement") StatementView_from_map in
  let* returned_via_supersession := py_getitem m "returned_via_supersession" in
  Ok (mk_StatementGetResponse statement returned_via_supersession).

Definition StatementGetResponse_wf (self : StatementGetResponse) : Prop :=
 StatementView_wf (StatementGetResponse_statement self) /\
  raw_ok (StatementGetResponse_returned_via_supersession self).

#[export] Instance StatementGetResponse_nested :
  Nested StatementGetResponse_wf StatementGetResponse_to_map StatementGetResponse_from_map.
Proof.
  intros []. wire_class StatementGetResponse_wf StatementGetResponse_to_map StatementGetResponse_from_map.
Qed.

#[export] Instance StatementGetResponse_payload : WirePayload StatementGetResponse :=
  map_payload StatementGetResponse_to_map StatementGetResponse_from_map.
#[export] Instance StatementGetResponse_laws : WireLaws StatementGetResponse :=
  map_laws _ _ _ (fun self m E => py_dict_is_dict _ _ E).

(** ** [StatementListRequest] *)

Record StatementListRequest : Type := mk_StatementListRequest {
  StatementListRequest_subject : pyval; StatementListRequest_predicate : pyval;
  StatementListRequest_kind : pyval; StatementListRequest_min_confidence : pyval;
  StatementListRequest_time_range_start_unix_nanos : pyval;
  StatementListRequest_time_range_end_unix_nanos : pyval;
  StatementListRequest_only_current : pyval; StatementListRequest_include_tombstoned : pyval;
  StatementListRequest_limit : pyval; StatementListRequest_cursor : pyval;
  StatementListRequest_act_as : option ActAs
}.

Definition StatementListRequest_to_map (self : StatementListRequest) : pyresult pyval :=
  py_dict (
    ["subject" ::= Ok (StatementListRequest_subject self);
     "predicate" ::= Ok (StatementListRequest_predicate self);
     "kind" ::= Ok (StatementListRequest_kind self);
     "min_confidence" ::= round_f32 (StatementListRequest_min_confidence self);
     "time_range_start_unix_nanos" ::= Ok (StatementListRequest_time_range_start_unix_nanos self);
     "time_range_end_unix_nanos" ::= Ok (StatementListRequest_time_range_end_unix_nanos self);
     "only_current" ::= Ok (StatementListRequest_only_current self);
     "include_tombstoned" ::= Ok (StatementListRequest_include_tombstoned self);
     "limit" ::= Ok (StatementListRequest_limit self);
     "cursor" ::= py_list (StatementListRequest_cursor self)]
    ++ emit_some "act_as" ActAs_to_map (StatementListRequest_act_as self)).

Definition StatementListRequest_from_map (m : pyval) : pyresult StatementListRequest :=
  let* act_as := py_get m "act_as" PNone in
  let* subject := py_getitem m "subject" in
  let* predicate := py_getitem m "predicate" in
  let* kind := py_getitem m "kind" in
  let* min_confidence := py_getitem m "min_confidence" in
  let* time_range_start_unix_nanos := py_getitem m "time_range_start_unix_nanos" in
  let* time_range_end_unix_nanos := py_getitem m "time_range_end_unix_nanos" in
  let* only_current := py_getitem m "only_current" in
  let* include_tombstoned := py_getitem m "include_tombstoned" in
  let* limit := py_getitem m "limit" in
  let* cursor := bind (py_getitem m "cursor") py_list in
  let* act_as := from_option ActAs_from_map act_as in
  Ok (mk_StatementListRequest subject predicate kind min_confidence time_range_start_unix_nanos
    time_range_end_unix_nanos only_current include_tombstoned limit cursor act_as).

Definition StatementListRequest_wf (self : StatementListRequest) : Prop :=
 raw_ok (StatementListRequest_subject self) /\ raw_ok (StatementListRequest_predicate self) /\
  raw_ok (StatementListRequest_kind self) /\ f32_ok (StatementListRequest_min_confidence self) /\
  raw_ok (StatementListRequest_time_range_start_unix_nanos self) /\
  raw_ok (StatementListRequest_time_range_end_unix_nanos self) /\
  raw_ok (StatementListRequest_only_current self) /\
  raw_ok (StatementListRequest_include_tombstoned self) /\
  raw_ok (StatementListRequest_limit self) /\ list_ok (StatementListRequest_cursor self) /\
  option_ok ActAs_wf (StatementListRequest_act_as self).

#[export] Instance StatementListRequest_nested :
  Nested StatementListRequest_wf StatementListRequest_to_map StatementListRequest_from_map.
Proof.
  intros []. wire_class StatementListRequest_wf StatementListRequest_to_map StatementListRequest_from_map.
Qed.

#[export] Instance StatementListRequest_payload : WirePayload StatementListRequest :=
  map_payload StatementListRequest_to_map StatementListRequest_from_map.
#[export] Instance StatementListRequest_laws : WireLaws StatementListRequest :=
  map_laws _ _ _ (fun self m E => py_dict_is_dict _ _ E).

(** ** [StatementListResponseFrame] *)

Record StatementListResponseFrame : Type := mk_StatementListResponseFrame {
  StatementListResponseFrame_items : list StatementView;
  StatementListResponseFrame_next_cursor : pyval;
  StatementListResponseFrame_cumulative_count : pyval; StatementListResponseFrame_is_final : pyval
}.

Definition StatementListResponseFrame_to_map (self : StatementListResponseFrame) : pyresult pyval :=
  py_dict
    ["items" ::= to_list StatementView_to_map (StatementListResponseFrame_items self);
     "next_cursor" ::= py_list (StatementListResponseFrame_next_cursor self);
     "cumulative_count" ::= Ok (StatementListResponseFrame_cumulative_count self);
     "is_final" ::= Ok (StatementListResponseFrame_is_final self)].

Definition StatementListResponseFrame_from_map (m : pyval) : pyresult StatementListResponseFrame :=
  let* items := bind (py_getitem m "items") (from_list StatementView_from_map) in
  let* next_cursor := bind (py_getitem m "next_cursor") py_list in
  let* cumulative_count := py_getitem m "cumulative_count" in
  let* is_final := py_getitem m "is_final" in
  Ok (mk_StatementListResponseFrame items next_cursor cumulative_count is_final).

Definition StatementListResponseFrame_wf (self : StatementListResponseFrame) : Prop :=
 Forall StatementView_wf (StatementListResponseFrame_items self) /\
  list_ok (StatementListResponseFrame_next_cursor self) /\
  raw_ok (StatementListResponseFrame_cumulative_count self) /\
  raw_ok (StatementListResponseFrame_is_final self).

#[export] Instance StatementListResponseFrame_nested :
  Nested StatementListResponseFrame_wf StatementListResponseFrame_to_map StatementListResponseFrame_from_map.
Proof.
  intros []. wire_class StatementListResponseFrame_wf StatementListResponseFrame_to_map StatementListResponseFrame_from_map.
Qed.

#[export] Instance StatementListResponseFrame_payload : WirePayload StatementListResponseFrame :=
  map_payload StatementListResponseFrame_to_map StatementListResponseFrame_from_map.
#[export] Instance StatementListResponseFrame_laws : WireLaws StatementListResponseFrame :=
  map_laws _ _ _ (fun self m E => py_dict_is_dict _ _ E).

(** ** [RelationView] *)

Record RelationView : Type := mk_RelationView {
  RelationView_relation_id : pyval; RelationView_chain_root : pyval;
  RelationView_relation_type : pyval; RelationView_from_entity : pyval;
  RelationView_to_entity : pyval; RelationView_properties_blob : pyval;
  RelationView_evidence : EvidenceRef; RelationView_extractor_id : pyval;
  RelationView_extracted_at_unix_nanos : pyval; RelationView_confidence : pyval;
  RelationView_valid_from_unix_nanos : pyval; RelationView_valid_to_unix_nanos : pyval;
  RelationView_version : pyval; RelationView_superseded_by : pyval;
  RelationView_supersedes : pyval; RelationView_tombstoned : pyval;
  RelationView_tombstoned_at_unix_nanos : pyval; RelationView_flags : pyval
}.

Definition RelationView_to_map (self : RelationView) : pyresult pyval :=
  py_dict
    ["relation_id" ::= Ok (RelationView_relation_id self);
     "chain_root" ::= Ok (RelationView_chain_root self);
     "relation_type" ::= Ok (RelationView_relation_type self);
     "from_entity" ::= Ok (RelationView_from_entity self);
     "to_entity" ::= Ok (RelationView_to_entity self);
     "properties_blob" ::= py_list (RelationView_properties_blob self);
     "evidence" ::= EvidenceRef_to_cbor_value (RelationView_evidence self);
     "extractor_id" ::= Ok (RelationView_extractor_id self);
     "extracted_at_unix_nanos" ::= Ok (RelationView_extracted_at_unix_nanos self);
     "confidence" ::= round_f32 (RelationView_confidence self);
     "valid_from_unix_nanos" ::= Ok (RelationView_valid_from_unix_nanos self);
     "valid_to_unix_nanos" ::= Ok (RelationView_valid_to_unix_nanos self);
     "version" ::= Ok (RelationView_version self);
     "superseded_by" ::= Ok (RelationView_superseded_by self);
     "supersedes" ::= Ok (RelationView_supersedes self);
     "tombstoned" ::= Ok (RelationView_tombstoned self);
     "tombstoned_at_unix_nanos" ::= Ok (RelationView_tombstoned_at_unix_nanos self);
     "flags" ::= Ok (RelationView_flags self)].

Definition RelationView_from_map (m : pyval) : pyresult RelationView :=
  let* relation_id := py_getitem m "relation_id" in
  let* chain_root := py_getitem m "chain_root" in
  let* relation_type := py_getitem m "relation_type" in
  let* from_entity := py_getitem m "from_entity" in
  let* to_entity := py_getitem m "to_entity" in
  let* properties_blob := bind (py_getitem m "properties_blob") py_list in
  let* evidence := bind (py_getitem m "evidence") EvidenceRef_from_cbor_value in
  let* extractor_id := py_getitem m "extractor_id" in
  let* extracted_at_unix_nanos := py_getitem m "extracted_at_unix_nanos" in
  let* confidence := py_getitem m "confidence" in
  let* valid_from_unix_nanos := py_getitem m "valid_from_unix_nanos" in
  let* valid_to_unix_nanos := py_getitem m "valid_to_unix_nanos" in
  let* version := py_getitem m "version" in
  let* superseded_by := py_getitem m "superseded_by" in
  let* supersedes := py_getitem m "supersedes" in
  let* tombstoned := py_getitem m "tombstoned" in
  let* tombstoned_at_unix_nanos := py_getitem m "tombstoned_at_unix_nanos" in
  let* flags := py_getitem m "flags" in
  Ok (mk_RelationView relation_id chain_root relation_type from_entity to_entity properties_blob
    evidence extractor_id extracted_at_unix_nanos confidence valid_from_unix_nanos
    valid_to_unix_nanos version superseded_by supersedes tombstoned tombstoned_at_unix_nanos
    flags).

Definition RelationView_wf (self : RelationView) : Prop :=
 raw_ok (RelationView_relation_id self) /\ raw_ok (RelationView_chain_root self) /\
  raw_ok (RelationView_relation_type self) /\ raw_ok (RelationView_from_entity self) /\
  raw_ok (RelationView_to_entity self) /\ list_ok (RelationView_properties_blob self) /\
  EvidenceRef_wf (RelationView_evidence self) /\ raw_ok (RelationView_extractor_id self) /\
  raw_ok (RelationView_extracted_at_unix_nanos self) /\ f32_ok (RelationView_confidence self) /\
  raw_ok (RelationView_valid_from_unix_nanos self) /\
  raw_ok (RelationView_valid_to_unix_nanos self) /\ raw_ok (RelationView_version self) /\
  raw_ok (RelationView_superseded_by self) /\ raw_ok (RelationView_supersedes self) /\
  raw_ok (RelationView_tombstoned self) /\ raw_ok (RelationView_tombstoned_at_unix_nanos self) /\
  raw_ok (RelationView_flags self).

#[export] Instance RelationView_nested :
  Nested RelationView_wf RelationView_to_map RelationView_from_map.
Proof. intros []. wire_class RelationView_wf RelationView_to_map RelationView_from_map. Qed.

(** ** [RelationListFromRequest] *)

Record RelationListFromRequest : Type := mk_RelationListFromRequest {
  RelationListFromRequest_from_entity : pyval;
  RelationListFromRequest_relation_type_filter : pyval;
  RelationListFromRequest_time_range_start_unix_nanos : pyval;
  RelationListFromRequest_time_range_end_unix_nanos : pyval;
  RelationListFromRequest_include_superseded : pyval;
  RelationListFromRequest_include_tombstoned : pyval; RelationListFromRequest_limit : pyval;
  RelationListFromRequest_cursor : pyval; RelationListFromRequest_act_as : option ActAs
}.

Definition RelationListFromRequest_to_map (self : RelationListFromRequest) : pyresult pyval :=
  py_dict (
    ["from_entity" ::= Ok (RelationListFromRequest_from_entity self);
     "relation_type_filter" ::= Ok (RelationListFromRequest_relation_type_filter self);
     "time_range_start_unix_nanos" ::= Ok (RelationListFromRequest_time_range_start_unix_nanos self);
     "time_range_end_unix_nanos" ::= Ok (RelationListFromRequest_time_range_end_unix_nanos self);
     "include_superseded" ::= Ok (RelationListFromRequest_include_superseded self);
     "include_tombstoned" ::= Ok (RelationListFromRequest_include_tombstoned self);
     "limit" ::= Ok (RelationListFromRequest_limit self);
     "cursor" ::= py_list (RelationListFromRequest_cursor self)]
    ++ emit_some "act_as" ActAs_to_map (RelationListFromRequest_act_as self)).

Definition RelationListFromRequest_from_map (m : pyval) : pyresult RelationListFromRequest :=
  let* act_as := py_get m "act_as" PNone in
  let* from_entity := py_getitem m "from_entity" in
  let* relation_type_filter := py_getitem m "relation_type_filter" in
  let* time_range_start_unix_nanos := py_getitem m "time_range_start_unix_nanos" in
  let* time_range_end_unix_nanos := py_getitem m "time_range_end_unix_nanos" in
  let* include_superseded := py_getitem m "include_superseded" in
  let* include_tombstoned := py_getitem m "include_tombstoned" in
  let* limit := py_getitem m "limit" in
  let* cursor := bind (py_getitem m "cursor") py_list in
  let* act_as := from_option ActAs_from_map act_as in
  Ok (mk_RelationListFromRequest from_entity relation_type_filter time_range_start_unix_nanos
    time_range_end_unix_nanos include_superseded include_tombstoned limit cursor act_as).

Definition RelationListFromRequest_wf (self : RelationListFromRequest) : Prop :=
 raw_ok (RelationListFromRequest_from_entity self) /\
  raw_ok (RelationListFromRequest_relation_type_filter self) /\
  raw_ok (RelationListFromRequest_time_range_start_unix_nanos self) /\
  raw_ok (RelationListFromRequest_time_range_end_unix_nanos self) /\
  raw_ok (RelationListFromRequest_include_superseded self) /\
  raw_ok (RelationListFromRequest_include_tombstoned self) /\
  raw_ok (RelationListFromRequest_limit self) /\ list_ok (RelationListFromRequest_cursor self) /\
  option_ok ActAs_wf (RelationListFromRequest_act_as self).

#[export] Instance RelationListFromRequest_nested :
  Nested RelationListFromRequest_wf RelationListFromRequest_to_map RelationListFromRequest_from_map.
Proof.
  intros []. wire_class RelationListFromRequest_wf RelationListFromRequest_to_map RelationListFromRequest_from_map.
Qed.

#[export] Instance RelationListFromRequest_payload : WirePayload RelationListFromRequest :=
  map_payload RelationListFromRequest_to_map RelationListFromRequest_from_map.
#[export] Instance RelationListFromRequest_laws : WireLaws RelationListFromRequest :=
  map_laws _ _ _ (fun self m E => py_dict_is_dict _ _ E).

(** ** [RelationListFromResponseFrame] *)

Record RelationListFromResponseFrame : Type := mk_RelationListFromResponseFrame {
  RelationListFromResponseFrame_items : list RelationView;
  RelationListFromResponseFrame_next_cursor : pyval;
  RelationListFromResponseFrame_cumulative_count : pyval;
  RelationListFromResponseFrame_is_final : pyval
}.

Definition RelationListFromResponseFrame_to_map (self : RelationListFromResponseFrame) : pyresult pyval :=
  py_dict
    ["items" ::= to_list RelationView_to_map (RelationListFromResponseFrame_items self);
     "next_cursor" ::= py_list (RelationListFromResponseFrame_next_cursor self);
     "cumulative_count" ::= Ok (RelationListFromResponseFrame_cumulative_count self);
     "is_final" ::= Ok (RelationListFromResponseFrame_is_final self)].

Definition RelationListFromResponseFrame_from_map (m : pyval) : pyresult RelationListFromResponseFrame :=
  let* items := bind (py_getitem m "items") (from_list RelationView_from_map) in
  let* next_cursor := bind (py_getitem m "next_cursor") py_list in
  let* cumulative_count := py_getitem m "cumulative_count" in
  let* is_final := py_getitem m "is_final" in
  Ok (mk_RelationListFromResponseFrame items next_cursor cumulative_count is_final).

Definition RelationListFromResponseFrame_wf (self : RelationListFromResponseFrame) : Prop :=
 Forall RelationView_wf (RelationListFromResponseFrame_items self) /\
  list_ok (RelationListFromResponseFrame_next_cursor self) /\
  raw_ok (RelationListFromResponseFrame_cumulative_count self) /\
  raw_ok (RelationListFromResponseFrame_is_final self).

#[export] Instance RelationListFromResponseFrame_nested :
  Nested RelationListFromResponseFrame_wf RelationListFromResponseFrame_to_map RelationListFromResponseFrame_from_map.
Proof.
  intros []. wire_class RelationListFromResponseFrame_wf RelationListFromResponseFrame_to_map RelationListFromResponseFrame_from_map.
Qed.

#[export] Instance RelationListFromResponseFrame_payload : WirePayload RelationListFromResponseFrame :=
  map_payload RelationListFromResponseFrame_to_map RelationListFromResponseFrame_from_map.
#[export] Instance RelationListFromResponseFrame_laws : WireLaws RelationListFromResponseFrame :=
  map_laws _ _ _ (fun self m E => py_dict_is_dict _ _ E).

(** ** [RelationListToRequest] *)

Record RelationListToRequest : Type := mk_RelationListToRequest {
  RelationListToRequest_to_entity : pyval; RelationListToRequest_relation_type_filter : pyval;
  RelationListToRequest_time_range_start_unix_nanos : pyval;
  RelationListToRequest_time_range_end_unix_nanos : pyval;
  RelationListToRequest_include_superseded : pyval;
  RelationListToRequest_include_tombstoned : pyval; RelationListToRequest_limit : pyval;
  RelationListToRequest_cursor : pyval; RelationListToRequest_act_as : option ActAs
}.

Definition RelationListToRequest_to_map (self : RelationListToRequest) : pyresult pyval :=
  py_dict (
    ["to_entity" ::= Ok (RelationListToRequest_to_entity self);
     "relation_type_filter" ::= Ok (RelationListToRequest_relation_type_filter self);
     "time_range_start_unix_nanos" ::= Ok (RelationListToRequest_time_range_start_unix_nanos self);
     "time_range_end_unix_nanos" ::= Ok (RelationListToRequest_time_range_end_unix_nanos self);
     "include_superseded" ::= Ok (RelationListToRequest_include_superseded self);
     "include_tombstoned" ::= Ok (RelationListToRequest_include_tombstoned self);
     "limit" ::= Ok (RelationListToRequest_limit self);
     "cursor" ::= py_list (RelationListToRequest_cursor self)]
    ++ emit_some "act_as" ActAs_to_map (RelationListToRequest_act_as self)).

Definition RelationListToRequest_from_map (m : pyval) : pyresult RelationListToRequest :=
  let* act_as := py_get m "act_as" PNone in
  let* to_entity := py_getitem m "to_entity" in
  let* relation_type_filter := py_getitem m "relation_type_filter" in
  let* time_range_start_unix_nanos := py_getitem m "time_range_start_unix_nanos" in
  let* time_range_end_unix_nanos := py_getitem m "time_range_end_unix_nanos" in
  let* include_superseded := py_getitem m "include_superseded" in
  let* include_tombstoned := py_getitem m "include_tombstoned" in
  let* limit := py_getitem m "limit" in
  let* cursor := bind (py_getitem m "cursor") py_list in
  let* act_as := from_option ActAs_from_map act_as in
  Ok (mk_RelationListToRequest to_entity relation_type_filter time_range_start_unix_nanos
    time_range_end_unix_nanos include_superseded include_tombstoned limit cursor act_as).

Definition RelationListToRequest_wf (self : RelationListToRequest) : Prop :=
 raw_ok (RelationListToRequest_to_entity self) /\
  raw_ok (RelationListToRequest_relation_type_filter self) /\
  raw_ok (RelationListToRequest_time_range_start_unix_nanos self) /\
  raw_ok (RelationListToRequest_time_range_end_unix_nanos self) /\
  raw_ok (RelationListToRequest_include_superseded self) /\
  raw_ok (RelationListToRequest_include_tombstoned self) /\
  raw_ok (RelationListToRequest_limit self) /\ list_ok (RelationListToRequest_cursor self) /\
  option_ok ActAs_wf (RelationListToRequest_act_as self).

#[export] Instance RelationListToRequest_nested :
  Nested RelationListToRequest_wf RelationListToRequest_to_map RelationListToRequest_from_map.
Proof.
  intros []. wire_class RelationListToRequest_wf RelationListToRequest_to_map RelationListToRequest_from_map.
Qed.

#[export] Instance RelationListToRequest_payload : WirePayload RelationListToRequest :=
  map_payload RelationListToRequest_to_map RelationListToRequest_from_map.
#[export] Instance RelationListToRequest_laws : WireLaws RelationListToRequest :=
  map_laws _ _ _ (fun self m E => py_dict_is_dict _ _ E).

(** ** [RelationListToResponseFrame] *)

Record RelationListToResponseFrame : Type := mk_RelationListToResponseFrame {
  RelationListToResponseFrame_items : list RelationView;
  RelationListToResponseFrame_next_cursor : pyval;
  RelationListToResponseFrame_cumulative_count : pyval;
  RelationListToResponseFrame_is_final : pyval
}.

Definition RelationListToResponseFrame_to_map (self : RelationListToResponseFrame) : pyresult pyval :=
  py_dict
    ["items" ::= to_list RelationView_to_map (RelationListToResponseFrame_items self);
     "next_cursor" ::= py_list (RelationListToResponseFrame_next_cursor self);
     "cumulative_count" ::= Ok (RelationListToResponseFrame_cumulative_count self);
     "is_final" ::= Ok (RelationListToResponseFrame_is_final self)].

Definition RelationListToResponseFrame_from_map (m : pyval) : pyresult RelationListToResponseFrame :=
  let* items := bind (py_getitem m "items") (from_list RelationView_from_map) in
  let* next_cursor := bind (py_getitem m "next_cursor") py_list in
  let* cumulative_count := py_getitem m "cumulative_count" in
  let* is_final := py_getitem m "is_final" in
  Ok (mk_RelationListToResponseFrame items next_cursor cumulative_count is_final).

Definition RelationListToResponseFrame_wf (self : RelationListToResponseFrame) : Prop :=
 Forall RelationView_wf (RelationListToResponseFrame_items self) /\
  list_ok (RelationListToResponseFrame_next_cursor self) /\
  raw_ok (RelationListToResponseFrame_cumulative_count self) /\
  raw_ok (RelationListToResponseFrame_is_final self).

#[export] Instance RelationListToResponseFrame_nested :
  Nested RelationListToResponseFrame_wf RelationListToResponseFrame_to_map RelationListToResponseFrame_from_map.
Proof.
  intros []. wire_class RelationListToResponseFrame_wf RelationListToResponseFrame_to_map RelationListToResponseFrame_from_map.
Qed.

#[export] Instance RelationListToResponseFrame_payload : WirePayload RelationListToResponseFrame :=
  map_payload RelationListToResponseFrame_to_map RelationListToResponseFrame_from_map.
#[export] Instance RelationListToResponseFrame_laws : WireLaws RelationListToResponseFrame :=
  map_laws _ _ _ (fun self m E => py_dict_is_dict _ _ E).

(** ** [SchemaGetRequest] *)

Record SchemaGetRequest : Type := mk_SchemaGetRequest {
  SchemaGetRequest_namespace : pyval; SchemaGetRequest_version : pyval;
  SchemaGetRequest_act_as : option ActAs
}.

Definition SchemaGetRequest_to_map (self : SchemaGetRequest) : pyresult pyval :=
  py_dict (
    ["namespace" ::= Ok (SchemaGetRequest_namespace self);
     "version" ::= Ok (SchemaGetRequest_version self)]
    ++ emit_some "act_as" ActAs_to_map (SchemaGetRequest_act_as self)).

Definition SchemaGetRequest_from_map (m : pyval) : pyresult SchemaGetRequest :=
  let* act_as := py_get m "act_as" PNone in
  let* namespace := py_getitem m "namespace" in
  let* version := py_getitem m "version" in
  let* act_as := from_option ActAs_from_map act_as in
  Ok (mk_SchemaGetRequest namespace version act_as).

Definition SchemaGetRequest_wf (self : SchemaGetRequest) : Prop :=
 raw_ok (SchemaGetRequest_namespace self) /\ raw_ok (SchemaGetRequest_version self) /\
  option_ok ActAs_wf (SchemaGetRequest_act_as self).

#[export] Instance SchemaGetRequest_nested :
  Nested SchemaGetRequest_wf SchemaGetRequest_to_map SchemaGetRequest_from_map.
Proof.
  intros []. wire_class SchemaGetRequest_wf SchemaGetRequest_to_map SchemaGetRequest_from_map.
Qed.

#[export] Instance SchemaGetRequest_payload : WirePayload SchemaGetRequest :=
  map_payload SchemaGetRequest_to_map SchemaGetRequest_from_map.
#[export] Instance SchemaGetRequest_laws : WireLaws SchemaGetRequest :=
  map_laws _ _ _ (fun self m E => py_dict_is_dict _ _ E).

(** ** [SchemaGetResponse] *)

Record SchemaGetResponse : Type := mk_SchemaGetResponse {
  SchemaGetResponse_namespace : pyval; SchemaGetResponse_schema_version : pyval;
  SchemaGetResponse_schema_document : pyval; SchemaGetResponse_source_blob : pyval;
  SchemaGetResponse_uploaded_at_unix_nanos : pyval; SchemaGetResponse_validator_version : pyval
}.

Definition SchemaGetResponse_to_map (self : SchemaGetResponse) : pyresult pyval :=
  py_dict
    ["namespace" ::= Ok (SchemaGetResponse_namespace self);
     "schema_version" ::= Ok (SchemaGetResponse_schema_version self);
     "schema_document" ::= Ok (SchemaGetResponse_schema_document self);
     "source_blob" ::= py_list (SchemaGetResponse_source_blob self);
     "uploaded_at_unix_nanos" ::= Ok (SchemaGetResponse_uploaded_at_unix_nanos self);
     "validator_version" ::= Ok (SchemaGetResponse_validator_version self)].

Definition SchemaGetResponse_from_map (m : pyval) : pyresult SchemaGetResponse :=
  let* namespace := py_getitem m "namespace" in
  let* schema_version := py_getitem m "schema_version" in
  let* schema_document := py_getitem m "schema_document" in
  let* source_blob := bind (py_getitem m "source_blob") py_list in
  let* uploaded_at_unix_nanos := py_getitem m "uploaded_at_unix_nanos" in
  let* validator_version := py_getitem m "validator_version" in
  Ok (mk_SchemaGetResponse namespace schema_version schema_document source_blob
    uploaded_at_unix_nanos validator_version).

Definition SchemaGetResponse_wf (self : SchemaGetResponse) : Prop :=
 raw_ok (SchemaGetResponse_namespace self) /\ raw_ok (SchemaGetResponse_schema_version self) /\
  raw_ok (SchemaGetResponse_schema_document self) /\
  list_ok (SchemaGetResponse_source_blob self) /\
  raw_ok (SchemaGetResponse_uploaded_at_unix_nanos self) /\
  raw_ok (SchemaGetResponse_validator_version self).

#[export] Instance SchemaGetResponse_nested :
  Nested SchemaGetResponse_wf SchemaGetResponse_to_map SchemaGetResponse_from_map.
Proof.
  intros []. wire_class SchemaGetResponse_wf SchemaGetResponse_to_map SchemaGetResponse_from_map.
Qed.

#[export] Instance SchemaGetResponse_payload : WirePayload SchemaGetResponse :=
  map_payload SchemaGetResponse_to_map SchemaGetResponse_from_map.
#[export] Instance SchemaGetResponse_laws : WireLaws SchemaGetResponse :=
  map_laws _ _ _ (fun self m E => py_dict_is_dict _ _ E).

(** ** [SchemaListRequest] *)

Record SchemaListRequest : Type := mk_SchemaListRequest {
  SchemaListRequest_namespace : pyval; SchemaListRequest_limit : pyval;
  SchemaListRequest_cursor : pyval; SchemaListRequest_act_as : option ActAs
}.

Definition SchemaListRequest_to_map (self : SchemaListRequest) : pyresult pyval :=
  py_dict (
    ["namespace" ::= Ok (SchemaListRequest_namespace self);
     "limit" ::= Ok (SchemaListRequest_limit self);
     "cursor" ::= py_list (SchemaListRequest_cursor self)]
    ++ emit_some "act_as" ActAs_to_map (SchemaListRequest_act_as self)).

Definition SchemaListRequest_from_map (m : pyval) : pyresult SchemaListRequest :=
  let* act_as := py_get m "act_as" PNone in
  let* namespace := py_getitem m "namespace" in
  let* limit := py_getitem m "limit" in
  let* cursor := bind (py_getitem m "cursor") py_list in
  let* act_as := from_option ActAs_from_map act_as in
  Ok (mk_SchemaListRequest namespace limit cursor act_as).

Definition SchemaListRequest_wf (self : SchemaListRequest) : Prop :=
 raw_ok (SchemaListRequest_namespace self) /\ raw_ok (SchemaListRequest_limit self) /\
  list_ok (SchemaListRequest_cursor self) /\ option_ok ActAs_wf (SchemaListRequest_act_as self).

#[export] Instance SchemaListRequest_nested :
  Nested SchemaListRequest_wf SchemaListRequest_to_map SchemaListRequest_from_map.
Proof.
  intros []. wire_class SchemaListRequest_wf SchemaListRequest_to_map SchemaListRequest_from_map.
Qed.

#[export] Instance SchemaListRequest_payload : WirePayload SchemaListRequest :=
  map_payload SchemaListRequest_to_map SchemaListRequest_from_map.
#[export] Instance SchemaListRequest_laws : WireLaws SchemaListRequest :=
  map_laws _ _ _ (fun self m E => py_dict_is_dict _ _ E).

(** ** [SchemaListItem] *)

Record SchemaListItem : Type := mk_SchemaListItem {
  SchemaListItem_schema_version : pyval; SchemaListItem_uploaded_at_unix_nanos : pyval;
  SchemaListItem_validator_version : pyval; SchemaListItem_has_source_text : pyval
}.

Definition SchemaListItem_to_map (self : SchemaListItem) : pyresult pyval :=
  py_dict
    ["schema_version" ::= Ok (SchemaListItem_schema_version self);
     "uploaded_at_unix_nanos" ::= Ok (SchemaListItem_uploaded_at_unix_nanos self);
     "validator_version" ::= Ok (SchemaListItem_validator_version self);
     "has_source_text" ::= Ok (SchemaListItem_has_source_text self)].

Definition SchemaListItem_from_map (m : pyval) : pyresult SchemaListItem :=
  let* schema_version := py_getitem m "schema_version" in
  let* uploaded_at_unix_nanos := py_getitem m "uploaded_at_unix_nanos" in
  let* validator_version := py_getitem m "validator_version" in
  let* has_source_text := py_getitem m "has_source_text" in
  Ok (mk_SchemaListItem schema_version uploaded_at_unix_nanos validator_version has_source_text).

Definition SchemaListItem_wf (self : SchemaListItem) : Prop :=
 raw_ok (SchemaListItem_schema_version self) /\
  raw_ok (SchemaListItem_uploaded_at_unix_nanos self) /\
  raw_ok (SchemaListItem_validator_version self) /\ raw_ok (SchemaListItem_has_source_text self).

#[export] Instance SchemaListItem_nested :
  Nested SchemaListItem_wf SchemaListItem_to_map SchemaListItem_from_map.
Proof. intros []. wire_class SchemaListItem_wf SchemaListItem_to_map SchemaListItem_from_map. Qed.

(** ** [SchemaListResponseFrame] *)

Record SchemaListResponseFrame : Type := mk_SchemaListResponseFrame {
  SchemaListResponseFrame_namespace : pyval; SchemaListResponseFrame_items : list SchemaListItem;
  SchemaListResponseFrame_total : pyval; SchemaListResponseFrame_next_cursor : pyval;
  SchemaListResponseFrame_is_final : pyval
}.

Definition SchemaListResponseFrame_to_map (self : SchemaListResponseFrame) : pyresult pyval :=
  py_dict
    ["namespace" ::= Ok (SchemaListResponseFrame_namespace self);
     "items" ::= to_list SchemaListItem_to_map (SchemaListResponseFrame_items self);
     "total" ::= Ok (SchemaListResponseFrame_total self);
     "next_cursor" ::= py_list (SchemaListResponseFrame_next_cursor self);
     "is_final" ::= Ok (SchemaListResponseFrame_is_final self)].

Definition SchemaListResponseFrame_from_map (m : pyval) : pyresult SchemaListResponseFrame :=
  let* namespace := py_getitem m "namespace" in
  let* items := bind (py_getitem m "items") (from_list SchemaListItem_from_map) in
  let* total := py_getitem m "total" in
  let* next_cursor := bind (py_getitem m "next_cursor") py_list in
  let* is_final := py_getitem m "is_final" in
  Ok (mk_SchemaListResponseFrame namespace items total next_cursor is_final).

Definition SchemaListResponseFrame_wf (self : SchemaListResponseFrame) : Prop :=
 raw_ok (SchemaListResponseFrame_namespace self) /\
  Forall SchemaListItem_wf (SchemaListResponseFrame_items self) /\
  raw_ok (SchemaListResponseFrame_total self) /\
  list_ok (SchemaListResponseFrame_next_cursor self) /\
  raw_ok (SchemaListResponseFrame_is_final self).

#[export] Instance SchemaListResponseFrame_nested :
  Nested SchemaListResponseFrame_wf SchemaListResponseFrame_to_map SchemaListResponseFrame_from_map.
Proof.
  intros []. wire_class SchemaListResponseFrame_wf SchemaListResponseFrame_to_map SchemaListResponseFrame_from_map.
Qed.

#[export] Instance SchemaListResponseFrame_payload : WirePayload SchemaListResponseFrame :=
  map_payload SchemaListResponseFrame_to_map SchemaListResponseFrame_from_map.
#[export] Instance SchemaListResponseFrame_laws : WireLaws SchemaListResponseFrame :=
  map_laws _ _ _ (fun self m E => py_dict_is_dict _ _ E).

(** ** [SchemaValidateRequest] *)

Record SchemaValidateRequest : Type := mk_SchemaValidateRequest {
  SchemaValidateRequest_schema_document : pyval; SchemaValidateRequest_act_as : option ActAs
}.

Definition SchemaValidateRequest_to_map (self : SchemaValidateRequest) : pyresult pyval :=
  py_dict (
    ["schema_document" ::= Ok (SchemaValidateRequest_schema_document self)]
    ++ emit_some "act_as" ActAs_to_map (SchemaValidateRequest_act_as self)).

Definition SchemaValidateRequest_from_map (m : pyval) : pyresult SchemaValidateRequest :=
  let* act_as := py_get m "act_as" PNone in
  let* schema_document := py_getitem m "schema_document" in
  let* act_as := from_option ActAs_from_map act_as in
  Ok (mk_SchemaValidateRequest schema_document act_as).

Definition SchemaValidateRequest_wf (self : SchemaValidateRequest) : Prop :=
 raw_ok (SchemaValidateRequest_schema_document self) /\
  option_ok ActAs_wf (SchemaValidateRequest_act_as self).

#[export] Instance SchemaValidateRequest_nested :
  Nested SchemaValidateRequest_wf SchemaValidateRequest_to_map SchemaValidateRequest_from_map.
Proof.
  intros []. wire_class SchemaValidateRequest_wf SchemaValidateRequest_to_map SchemaValidateRequest_from_map.
Qed.

#[export] Instance SchemaValidateRequest_payload : WirePayload SchemaValidateRequest :=
  map_payload SchemaValidateRequest_to_map SchemaValidateRequest_from_map.
#[export] Instance SchemaValidateRequest_laws : WireLaws SchemaValidateRequest :=
  map_laws _ _ _ (fun self m E => py_dict_is_dict _ _ E).

(** ** [SchemaValidateResponse] *)

Record SchemaValidateResponse : Type := mk_SchemaValidateResponse {
  SchemaValidateResponse_namespace : pyval; SchemaValidateResponse_would_be_version : pyval;
  SchemaValidateResponse_validation_errors : list SchemaValidationError
}.

Definition SchemaValidateResponse_to_map (self : SchemaValidateResponse) : pyresult pyval :=
  py_dict
    ["namespace" ::= Ok (SchemaValidateResponse_namespace self);
     "would_be_version" ::= Ok (SchemaValidateResponse_would_be_version self);
     "validation_errors" ::= to_list SchemaValidationError_to_map (SchemaValidateResponse_validation_errors self)].

Definition SchemaValidateResponse_from_map (m : pyval) : pyresult SchemaValidateResponse :=
  let* namespace := py_getitem m "namespace" in
  let* would_be_version := py_getitem m "would_be_version" in
  let* validation_errors :=
    bind (py_getitem m "validation_errors") (from_list SchemaValidationError_from_map) in
  Ok (mk_SchemaValidateResponse namespace would_be_version validation_errors).

Definition SchemaValidateResponse_wf (self : SchemaValidateResponse) : Prop :=
 raw_ok (SchemaValidateResponse_namespace self) /\
  raw_ok (SchemaValidateResponse_would_be_version self) /\
  Forall SchemaValidationError_wf (SchemaValidateResponse_validation_errors self).

#[export] Instance SchemaValidateResponse_nested :
  Nested SchemaValidateResponse_wf SchemaValidateResponse_to_map SchemaValidateResponse_from_map.
Proof.
  intros []. wire_class SchemaValidateResponse_wf SchemaValidateResponse_to_map SchemaValidateResponse_from_map.
Qed.

#[export] Instance SchemaValidateResponse_payload : WirePayload SchemaValidateResponse :=
  map_payload SchemaValidateResponse_to_map SchemaValidateResponse_from_map.
#[export] Instance SchemaValidateResponse_laws : WireLaws SchemaValidateResponse :=
  map_laws _ _ _ (fun self m E => py_dict_is_dict _ _ E).
