(* ===== verification/WireMutations.v ===== *)
(** * WireMutations

    [wire/types.py], the mutations of the typed graph: entities, statements and
    relations, and the QUERY explanations. *)

From S2P Require Import Prelude PyFloat PyValue Rfc8949 Cbor CborScan CborCodec WireEnums WireCodec.
From S2P Require Import WireHandshake WireRecall WireTyped WireReads.

(** ** [EntityUpdateRequest] *)

Record EntityUpdateRequest : Type := mk_EntityUpdateRequest {
  EntityUpdateRequest_entity_id : pyval; EntityUpdateRequest_canonical_name : pyval;
  EntityUpdateRequest_aliases : pyval; EntityUpdateRequest_attributes_blob : pyval;
  EntityUpdateRequest_request_id : pyval; EntityUpdateRequest_act_as : option ActAs
}.

Definition EntityUpdateRequest_to_map (self : EntityUpdateRequest) : pyresult pyval :=
  py_dict (
    ["entity_id" ::= Ok (EntityUpdateRequest_entity_id self);
     "canonical_name" ::= Ok (EntityUpdateRequest_canonical_name self);
     "aliases" ::= py_list (EntityUpdateRequest_aliases self);
     "attributes_blob" ::= py_list (EntityUpdateRequest_attributes_blob self);
     "request_id" ::= Ok (EntityUpdateRequest_request_id self)]
    ++ emit_some "act_as" ActAs_to_map (EntityUpdateRequest_act_as self)).

Definition EntityUpdateRequest_from_map (m : pyval) : pyresult EntityUpdateRequest :=
  let* act_as := py_get m "act_as" PNone in
  let* entity_id := py_getitem m "entity_id" in
  let* canonical_name := py_getitem m "canonical_name" in
  let* aliases := bind (py_getitem m "aliases") py_list in
  let* attributes_blob := bind (py_getitem m "attributes_blob") py_list in
  let* request_id := py_getitem m "request_id" in
  let* act_as := from_option ActAs_from_map act_as in
  Ok (mk_EntityUpdateRequest entity_id canonical_name aliases attributes_blob request_id act_as).

Definition EntityUpdateRequest_wf (self : EntityUpdateRequest) : Prop :=
 raw_ok (EntityUpdateRequest_entity_id self) /\
  raw_ok (EntityUpdateRequest_canonical_name self) /\
  list_ok (EntityUpdateRequest_aliases self) /\
  list_ok (EntityUpdateRequest_attributes_blob self) /\
  raw_ok (EntityUpdateRequest_request_id self) /\
  option_ok ActAs_wf (EntityUpdateRequest_act_as self).

#[export] Instance EntityUpdateRequest_nested :
  Nested EntityUpdateRequest_wf EntityUpdateRequest_to_map EntityUpdateRequest_from_map.
Proof.
  intros []. wire_class EntityUpdateRequest_wf EntityUpdateRequest_to_map EntityUpdateRequest_from_map.
Qed.

#[export] Instance EntityUpdateRequest_payload : WirePayload EntityUpdateRequest :=
  map_payload EntityUpdateRequest_to_map EntityUpdateRequest_from_map.
#[export] Instance EntityUpdateRequest_laws : WireLaws EntityUpdateRequest :=
  map_laws _ _ _ (fun self m E => py_dict_is_dict _ _ E).

(** ** [EntityUpdateResponse] *)

Record EntityUpdateResponse : Type := mk_EntityUpdateResponse {
  EntityUpdateResponse_entity : EntityView
}.

Definition EntityUpdateResponse_to_map (self : EntityUpdateResponse) : pyresult pyval :=
  py_dict
    ["entity" ::= EntityView_to_map (EntityUpdateResponse_entity self)].

Definition EntityUpdateResponse_from_map (m : pyval) : pyresult EntityUpdateResponse :=
  let* entity := bind (py_getitem m "entity") EntityView_from_map in
  Ok (mk_EntityUpdateResponse entity).

Definition EntityUpdateResponse_wf (self : EntityUpdateResponse) : Prop :=
 EntityView_wf (EntityUpdateResponse_entity self).

#[export] Instance EntityUpdateResponse_nested :
  Nested EntityUpdateResponse_wf EntityUpdateResponse_to_map EntityUpdateResponse_from_map.
Proof.
  intros []. wire_class EntityUpdateResponse_wf EntityUpdateResponse_to_map EntityUpdateResponse_from_map.
Qed.

#[export] Instance EntityUpdateResponse_payload : WirePayload EntityUpdateResponse :=
  map_payload EntityUpdateResponse_to_map EntityUpdateResponse_from_map.
#[export] Instance EntityUpdateResponse_laws : WireLaws EntityUpdateResponse :=
  map_laws _ _ _ (fun self m E => py_dict_is_dict _ _ E).

(** ** [EntityRenameRequest] *)

Record EntityRenameRequest : Type := mk_EntityRenameRequest {
  EntityRenameRequest_entity_id : pyval; EntityRenameRequest_new_canonical_name : pyval;
  EntityRenameRequest_move_to_alias : pyval; EntityRenameRequest_request_id : pyval;
  EntityRenameRequest_act_as : option ActAs
}.

Definition EntityRenameRequest_to_map (self : EntityRenameRequest) : pyresult pyval :=
  py_dict (
    ["entity_id" ::= Ok (EntityRenameRequest_entity_id self);
     "new_canonical_name" ::= Ok (EntityRenameRequest_new_canonical_name self);
     "move_to_alias" ::= Ok (EntityRenameRequest_move_to_alias self);
     "request_id" ::= Ok (EntityRenameRequest_request_id self)]
    ++ emit_some "act_as" ActAs_to_map (EntityRenameRequest_act_as self)).

Definition EntityRenameRequest_from_map (m : pyval) : pyresult EntityRenameRequest :=
  let* act_as := py_get m "act_as" PNone in
  let* entity_id := py_getitem m "entity_id" in
  let* new_canonical_name := py_getitem m "new_canonical_name" in
  let* move_to_alias := py_getitem m "move_to_alias" in
  let* request_id := py_getitem m "request_id" in
  let* act_as := from_option ActAs_from_map act_as in
  Ok (mk_EntityRenameRequest entity_id new_canonical_name move_to_alias request_id act_as).

Definition EntityRenameRequest_wf (self : EntityRenameRequest) : Prop :=
 raw_ok (EntityRenameRequest_entity_id self) /\
  raw_ok (EntityRenameRequest_new_canonical_name self) /\
  raw_ok (EntityRenameRequest_move_to_alias self) /\
  raw_ok (EntityRenameRequest_request_id self) /\
  option_ok ActAs_wf (EntityRenameRequest_act_as self).

#[export] Instance EntityRenameRequest_nested :
  Nested EntityRenameRequest_wf EntityRenameRequest_to_map EntityRenameRequest_from_map.
Proof.
  intros []. wire_class EntityRenameRequest_wf EntityRenameRequest_to_map EntityRenameRequest_from_map.
Qed.

#[export] Instance EntityRenameRequest_payload : WirePayload EntityRenameRequest :=
  map_payload EntityRenameRequest_to_map EntityRenameRequest_from_map.
#[export] Instance EntityRenameRequest_laws : WireLaws EntityRenameRequest :=
  map_laws _ _ _ (fun self m E => py_dict_is_dict _ _ E).

(** ** [EntityRenameResponse] *)

Record EntityRenameResponse : Type := mk_EntityRenameResponse {
  EntityRenameResponse_entity : EntityView
}.

Definition EntityRenameResponse_to_map (self : EntityRenameResponse) : pyresult pyval :=
  py_dict
    ["entity" ::= EntityView_to_map (EntityRenameResponse_entity self)].

Definition EntityRenameResponse_from_map (m : pyval) : pyresult EntityRenameResponse :=
  let* entity := bind (py_getitem m "entity") EntityView_from_map in
  Ok (mk_EntityRenameResponse entity).

Definition EntityRenameResponse_wf (self : EntityRenameResponse) : Prop :=
 EntityView_wf (EntityRenameResponse_entity self).

#[export] Instance EntityRenameResponse_nested :
  Nested EntityRenameResponse_wf EntityRenameResponse_to_map EntityRenameResponse_from_map.
Proof.
  intros []. wire_class EntityRenameResponse_wf EntityRenameResponse_to_map EntityRenameResponse_from_map.
Qed.

#[export] Instance EntityRenameResponse_payload : WirePayload EntityRenameResponse :=
  map_payload EntityRenameResponse_to_map EntityRenameResponse_from_map.
#[export] Instance EntityRenameResponse_laws : WireLaws EntityRenameResponse :=
  map_laws _ _ _ (fun self m E => py_dict_is_dict _ _ E).

(** ** [EntityMergeRequest] *)

Record EntityMergeRequest : Type := mk_EntityMergeRequest {
  EntityMergeRequest_survivor : pyval; EntityMergeRequest_merged : pyval;
  EntityMergeRequest_confidence : pyval; EntityMergeRequest_reason : pyval;
  EntityMergeRequest_request_id : pyval; EntityMergeRequest_act_as : option ActAs
}.

Definition EntityMergeRequest_to_map (self : EntityMergeRequest) : pyresult pyval :=
  py_dict (
    ["survivor" ::= Ok (EntityMergeRequest_survivor self);
     "merged" ::= Ok (EntityMergeRequest_merged self);
     "confidence" ::= round_f32 (EntityMergeRequest_confidence self);
     "reason" ::= Ok (EntityMergeRequest_reason self);
     "request_id" ::= Ok (EntityMergeRequest_request_id self)]
    ++ emit_some "act_as" ActAs_to_map (EntityMergeRequest_act_as self)).

Definition EntityMergeRequest_from_map (m : pyval) : pyresult EntityMergeRequest :=
  let* act_as := py_get m "act_as" PNone in
  let* survivor := py_getitem m "survivor" in
  let* merged := py_getitem m "merged" in
  let* confidence := py_getitem m "confidence" in
  let* reason := py_getitem m "reason" in
  let* request_id := py_getitem m "request_id" in
  let* act_as := from_option ActAs_from_map act_as in
  Ok (mk_EntityMergeRequest survivor merged confidence reason request_id act_as).

Definition EntityMergeRequest_wf (self : EntityMergeRequest) : Prop :=
 raw_ok (EntityMergeRequest_survivor self) /\ raw_ok (EntityMergeRequest_merged self) /\
  f32_ok (EntityMergeRequest_confidence self) /\ raw_ok (EntityMergeRequest_reason self) /\
  raw_ok (EntityMergeRequest_request_id self) /\
  option_ok ActAs_wf (EntityMergeRequest_act_as self).

#[export] Instance EntityMergeRequest_nested :
  Nested EntityMergeRequest_wf EntityMergeRequest_to_map EntityMergeRequest_from_map.
Proof.
  intros []. wire_class EntityMergeRequest_wf EntityMergeRequest_to_map EntityMergeRequest_from_map.
Qed.

#[export] Instance EntityMergeRequest_payload : WirePayload EntityMergeRequest :=
  map_payload EntityMergeRequest_to_map EntityMergeRequest_from_map.
#[export] Instance EntityMergeRequest_laws : WireLaws EntityMergeRequest :=
  map_laws _ _ _ (fun self m E => py_dict_is_dict _ _ E).

(** ** [EntityMergeResponse] *)

Record EntityMergeResponse : Type := mk_EntityMergeResponse {
  EntityMergeResponse_audit_id : pyval; EntityMergeResponse_grace_period_seconds : pyval
}.

Definition EntityMergeResponse_to_map (self : EntityMergeResponse) : pyresult pyval :=
  py_dict
    ["audit_id" ::= Ok (EntityMergeResponse_audit_id self);
     "grace_period_seconds" ::= Ok (EntityMergeResponse_grace_period_seconds self)].

Definition EntityMergeResponse_from_map (m : pyval) : pyresult EntityMergeResponse :=
  let* audit_id := py_getitem m "audit_id" in
  let* grace_period_seconds := py_getitem m "grace_period_seconds" in
  Ok (mk_EntityMergeResponse audit_id grace_period_seconds).

Definition EntityMergeResponse_wf (self : EntityMergeResponse) : Prop :=
 raw_ok (EntityMergeResponse_audit_id self) /\
  raw_ok (EntityMergeResponse_grace_period_seconds self).

#[export] Instance EntityMergeResponse_nested :
  Nested EntityMergeResponse_wf EntityMergeResponse_to_map EntityMergeResponse_from_map.
Proof.
  intros []. wire_class EntityMergeResponse_wf EntityMergeResponse_to_map EntityMergeResponse_from_map.
Qed.

#[export] Instance EntityMergeResponse_payload : WirePayload EntityMergeResponse :=
  map_payload EntityMergeResponse_to_map EntityMergeResponse_from_map.
#[export] Instance EntityMergeResponse_laws : WireLaws EntityMergeResponse :=
  map_laws _ _ _ (fun self m E => py_dict_is_dict _ _ E).

(** ** [EntityUnmergeRequest] *)

Record EntityUnmergeRequest : Type := mk_EntityUnmergeRequest {
  EntityUnmergeRequest_merged_entity : pyval; EntityUnmergeRequest_request_id : pyval;
  EntityUnmergeRequest_act_as : option ActAs
}.

Definition EntityUnmergeRequest_to_map (self : EntityUnmergeRequest) : pyresult pyval :=
  py_dict (
    ["merged_entity" ::= Ok (EntityUnmergeRequest_merged_entity self);
     "request_id" ::= Ok (EntityUnmergeRequest_request_id self)]
    ++ emit_some "act_as" ActAs_to_map (EntityUnmergeRequest_act_as self)).

Definition EntityUnmergeRequest_from_map (m : pyval) : pyresult EntityUnmergeRequest :=
  let* act_as := py_get m "act_as" PNone in
  let* merged_entity := py_getitem m "merged_entity" in
  let* request_id := py_getitem m "request_id" in
  let* act_as := from_option ActAs_from_map act_as in
  Ok (mk_EntityUnmergeRequest merged_entity request_id act_as).

Definition EntityUnmergeRequest_wf (self : EntityUnmergeRequest) : Prop :=
 raw_ok (EntityUnmergeRequest_merged_entity self) /\
  raw_ok (EntityUnmergeRequest_request_id self) /\
  option_ok ActAs_wf (EntityUnmergeRequest_act_as self).

#[export] Instance EntityUnmergeRequest_nested :
  Nested EntityUnmergeRequest_wf EntityUnmergeRequest_to_map EntityUnmergeRequest_from_map.
Proof.
  intros []. wire_class EntityUnmergeRequest_wf EntityUnmergeRequest_to_map EntityUnmergeRequest_from_map.
Qed.

#[export] Instance EntityUnmergeRequest_payload : WirePayload EntityUnmergeRequest :=
  map_payload EntityUnmergeRequest_to_map EntityUnmergeRequest_from_map.
#[export] Instance EntityUnmergeRequest_laws : WireLaws EntityUnmergeRequest :=
  map_laws _ _ _ (fun self m E => py_dict_is_dict _ _ E).

(** ** [EntityUnmergeResponse] *)

Record EntityUnmergeResponse : Type := mk_EntityUnmergeResponse {
  EntityUnmergeResponse_restored_entity_id : pyval
}.

Definition EntityUnmergeResponse_to_map (self : EntityUnmergeResponse) : pyresult pyval :=
  py_dict
    ["restored_entity_id" ::= Ok (EntityUnmergeResponse_restored_entity_id self)].

Definition EntityUnmergeResponse_from_map (m : pyval) : pyresult EntityUnmergeResponse :=
  let* restored_entity_id := py_getitem m "restored_entity_id" in
  Ok (mk_EntityUnmergeResponse restored_entity_id).

Definition EntityUnmergeResponse_wf (self : EntityUnmergeResponse) : Prop :=
 raw_ok (EntityUnmergeResponse_restored_entity_id self).

#[export] Instance EntityUnmergeResponse_nested :
  Nested EntityUnmergeResponse_wf EntityUnmergeResponse_to_map EntityUnmergeResponse_from_map.
Proof.
  intros []. wire_class EntityUnmergeResponse_wf EntityUnmergeResponse_to_map EntityUnmergeResponse_from_map.
Qed.

#[export] Instance EntityUnmergeResponse_payload : WirePayload EntityUnmergeResponse :=
  map_payload EntityUnmergeResponse_to_map EntityUnmergeResponse_from_map.
#[export] Instance EntityUnmergeResponse_laws : WireLaws EntityUnmergeResponse :=
  map_laws _ _ _ (fun self m E => py_dict_is_dict _ _ E).

(** ** [EntityTombstoneRequest] *)

Record EntityTombstoneRequest : Type := mk_EntityTombstoneRequest {
  EntityTombstoneRequest_entity_id : pyval; EntityTombstoneRequest_reason : pyval;
  EntityTombstoneRequest_request_id : pyval; EntityTombstoneRequest_act_as : option ActAs
}.

Definition EntityTombstoneRequest_to_map (self : EntityTombstoneRequest) : pyresult pyval :=
  py_dict (
    ["entity_id" ::= Ok (EntityTombstoneRequest_entity_id self);
     "reason" ::= Ok (EntityTombstoneRequest_reason self);
     "request_id" ::= Ok (EntityTombstoneRequest_request_id self)]
    ++ emit_some "act_as" ActAs_to_map (EntityTombstoneRequest_act_as self)).

Definition EntityTombstoneRequest_from_map (m : pyval) : pyresult EntityTombstoneRequest :=
  let* act_as := py_get m "act_as" PNone in
  let* entity_id := py_getitem m "entity_id" in
  let* reason := py_getitem m "reason" in
  let* request_id := py_getitem m "request_id" in
  let* act_as := from_option ActAs_from_map act_as in
  Ok (mk_EntityTombstoneRequest entity_id reason request_id act_as).

Definition EntityTombstoneRequest_wf (self : EntityTombstoneRequest) : Prop :=
 raw_ok (EntityTombstoneRequest_entity_id self) /\ raw_ok (EntityTombstoneRequest_reason self) /\
  raw_ok (EntityTombstoneRequest_request_id self) /\
  option_ok ActAs_wf (EntityTombstoneRequest_act_as self).

#[export] Instance EntityTombstoneRequest_nested :
  Nested EntityTombstoneRequest_wf EntityTombstoneRequest_to_map EntityTombstoneRequest_from_map.
Proof.
  intros []. wire_class EntityTombstoneRequest_wf EntityTombstoneRequest_to_map EntityTombstoneRequest_from_map.
Qed.

#[export] Instance EntityTombstoneRequest_payload : WirePayload EntityTombstoneRequest :=
  map_payload EntityTombstoneRequest_to_map EntityTombstoneRequest_from_map.
#[export] Instance EntityTombstoneRequest_laws : WireLaws EntityTombstoneRequest :=
  map_laws _ _ _ (fun self m E => py_dict_is_dict _ _ E).

(** ** [EntityTombstoneResponse] *)

Record EntityTombstoneResponse : Type := mk_EntityTombstoneResponse {
  EntityTombstoneResponse_tombstoned_at_unix_nanos : pyval
}.

Definition EntityTombstoneResponse_to_map (self : EntityTombstoneResponse) : pyresult pyval :=
  py_dict
    ["tombstoned_at_unix_nanos" ::= Ok (EntityTombstoneResponse_tombstoned_at_unix_nanos self)].

Definition EntityTombstoneResponse_from_map (m : pyval) : pyresult EntityTombstoneResponse :=
  let* tombstoned_at_unix_nanos := py_getitem m "tombstoned_at_unix_nanos" in
  Ok (mk_EntityTombstoneResponse tombstoned_at_unix_nanos).

Definition EntityTombstoneResponse_wf (self : EntityTombstoneResponse) : Prop :=
 raw_ok (EntityTombstoneResponse_tombstoned_at_unix_nanos self).

#[export] Instance EntityTombstoneResponse_nested :
  Nested EntityTombstoneResponse_wf EntityTombstoneResponse_to_map EntityTombstoneResponse_from_map.
Proof.
  intros []. wire_class EntityTombstoneResponse_wf EntityTombstoneResponse_to_map EntityTombstoneResponse_from_map.
Qed.

#[export] Instance EntityTombstoneResponse_payload : WirePayload EntityTombstoneResponse :=
  map_payload EntityTombstoneResponse_to_map EntityTombstoneResponse_from_map.
#[export] Instance EntityTombstoneResponse_laws : WireLaws EntityTombstoneResponse :=
  map_laws _ _ _ (fun self m E => py_dict_is_dict _ _ E).

(** ** [StatementSupersedeRequest] *)

Record StatementSupersedeRequest : Type := mk_StatementSupersedeRequest {
  StatementSupersedeRequest_old_statement_id : pyval;
  StatementSupersedeRequest_new_statement : StatementCreateRequest;
  StatementSupersedeRequest_request_id : pyval; StatementSupersedeRequest_act_as : option ActAs
}.

Definition StatementSupersedeRequest_to_map (self : StatementSupersedeRequest) : pyresult pyval :=
  py_dict (
    ["old_statement_id" ::= Ok (StatementSupersedeRequest_old_statement_id self);
     "new_statement" ::= StatementCreateRequest_to_map (StatementSupersedeRequest_new_statement self);
     "request_id" ::= Ok (StatementSupersedeRequest_request_id self)]
    ++ emit_some "act_as" ActAs_to_map (StatementSupersedeRequest_act_as self)).

Definition StatementSupersedeRequest_from_map (m : pyval) : pyresult StatementSupersedeRequest :=
  let* act_as := py_get m "act_as" PNone in
  let* old_statement_id := py_getitem m "old_statement_id" in
  let* new_statement := bind (py_getitem m "new_statement") StatementCreateRequest_from_map in
  let* request_id := py_getitem m "request_id" in
  let* act_as := from_option ActAs_from_map act_as in
  Ok (mk_StatementSupersedeRequest old_statement_id new_statement request_id act_as).

Definition StatementSupersedeRequest_wf (self : StatementSupersedeRequest) : Prop :=
 raw_ok (StatementSupersedeRequest_old_statement_id self) /\
  StatementCreateRequest_wf (StatementSupersedeRequest_new_statement self) /\
  raw_ok (StatementSupersedeRequest_request_id self) /\
  option_ok ActAs_wf (StatementSupersedeRequest_act_as self).

#[export] Instance StatementSupersedeRequest_nested :
  Nested StatementSupersedeRequest_wf StatementSupersedeRequest_to_map StatementSupersedeRequest_from_map.
Proof.
  intros []. wire_class StatementSupersedeRequest_wf StatementSupersedeRequest_to_map StatementSupersedeRequest_from_map.
Qed.

#[export] Instance StatementSupersedeRequest_payload : WirePayload StatementSupersedeRequest :=
  map_payload StatementSupersedeRequest_to_map StatementSupersedeRequest_from_map.
#[export] Instance StatementSupersedeRequest_laws : WireLaws StatementSupersedeRequest :=
  map_laws _ _ _ (fun self m E => py_dict_is_dict _ _ E).

(** ** [StatementSupersedeResponse] *)

Record StatementSupersedeResponse : Type := mk_StatementSupersedeResponse {
  StatementSupersedeResponse_new_statement_id : pyval;
  StatementSupersedeResponse_chain_root : pyval; StatementSupersedeResponse_version : pyval
}.

Definition StatementSupersedeResponse_to_map (self : StatementSupersedeResponse) : pyresult pyval :=
  py_dict
    ["new_statement_id" ::= Ok (StatementSupersedeResponse_new_statement_id self);
     "chain_root" ::= Ok (StatementSupersedeResponse_chain_root self);
     "version" ::= Ok (StatementSupersedeResponse_version self)].

Definition StatementSupersedeResponse_from_map (m : pyval) : pyresult StatementSupersedeResponse :=
  let* new_statement_id := py_getitem m "new_statement_id" in
  let* chain_root := py_getitem m "chain_root" in
  let* version := py_getitem m "version" in
  Ok (mk_StatementSupersedeResponse new_statement_id chain_root version).

Definition StatementSupersedeResponse_wf (self : StatementSupersedeResponse) : Prop :=
 raw_ok (StatementSupersedeResponse_new_statement_id self) /\
  raw_ok (StatementSupersedeResponse_chain_root self) /\
  raw_ok (StatementSupersedeResponse_version self).

#[export] Instance StatementSupersedeResponse_nested :
  Nested StatementSupersedeResponse_wf StatementSupersedeResponse_to_map StatementSupersedeResponse_from_map.
Proof.
  intros []. wire_class StatementSupersedeResponse_wf StatementSupersedeResponse_to_map StatementSupersedeResponse_from_map.
Qed.

#[export] Instance StatementSupersedeResponse_payload : WirePayload StatementSupersedeResponse :=
  map_payload StatementSupersedeResponse_to_map StatementSupersedeResponse_from_map.
#[export] Instance StatementSupersedeResponse_laws : WireLaws StatementSupersedeResponse :=
  map_laws _ _ _ (fun self m E => py_dict_is_dict _ _ E).

(** ** [StatementTombstoneRequest] *)

Record StatementTombstoneRequest : Type := mk_StatementTombstoneRequest {
  StatementTombstoneRequest_statement_id : pyval; StatementTombstoneRequest_reason : pyval;
  StatementTombstoneRequest_reason_message : pyval; StatementTombstoneRequest_request_id : pyval;
  StatementTombstoneRequest_act_as : option ActAs
}.

Definition StatementTombstoneRequest_to_map (self : StatementTombstoneRequest) : pyresult pyval :=
  py_dict (
    ["statement_id" ::= Ok (StatementTombstoneRequest_statement_id self);
     "reason" ::= Ok (StatementTombstoneRequest_reason self);
     "reason_message" ::= Ok (StatementTombstoneRequest_reason_message self);
     "request_id" ::= Ok (StatementTombstoneRequest_request_id self)]
    ++ emit_some "act_as" ActAs_to_map (StatementTombstoneRequest_act_as self)).

Definition StatementTombstoneRequest_from_map (m : pyval) : pyresult StatementTombstoneRequest :=
  let* act_as := py_get m "act_as" PNone in
  let* statement_id := py_getitem m "statement_id" in
  let* reason := py_getitem m "reason" in
  let* reason_message := py_getitem m "reason_message" in
  let* request_id := py_getitem m "request_id" in
  let* act_as := from_option ActAs_from_map act_as in
  Ok (mk_StatementTombstoneRequest statement_id reason reason_message request_id act_as).

Definition StatementTombstoneRequest_wf (self : StatementTombstoneRequest) : Prop :=
 raw_ok (StatementTombstoneRequest_statement_id self) /\
  raw_ok (StatementTombstoneRequest_reason self) /\
  raw_ok (StatementTombstoneRequest_reason_message self) /\
  raw_ok (StatementTombstoneRequest_request_id self) /\
  option_ok ActAs_wf (StatementTombstoneRequest_act_as self).

#[export] Instance StatementTombstoneRequest_nested :
  Nested StatementTombstoneRequest_wf StatementTombstoneRequest_to_map StatementTombstoneRequest_from_map.
Proof.
  intros []. wire_class StatementTombstoneRequest_wf StatementTombstoneRequest_to_map StatementTombstoneRequest_from_map.
Qed.

#[export] Instance StatementTombstoneRequest_payload : WirePayload StatementTombstoneRequest :=
  map_payload StatementTombstoneRequest_to_map StatementTombstoneRequest_from_map.
#[export] Instance StatementTombstoneRequest_laws : WireLaws StatementTombstoneRequest :=
  map_laws _ _ _ (fun self m E => py_dict_is_dict _ _ E).

(** ** [StatementTombstoneResponse] *)

Record StatementTombstoneResponse : Type := mk_StatementTombstoneResponse {
  StatementTombstoneResponse_tombstoned_at_unix_nanos : pyval
}.

Definition StatementTombstoneResponse_to_map (self : StatementTombstoneResponse) : pyresult pyval :=
  py_dict
    ["tombstoned_at_unix_nanos" ::= Ok (StatementTombstoneResponse_tombstoned_at_unix_nanos self)].

Definition StatementTombstoneResponse_from_map (m : pyval) : pyresult StatementTombstoneResponse :=
  let* tombstoned_at_unix_nanos := py_getitem m "tombstoned_at_unix_nanos" in
  Ok (mk_StatementTombstoneResponse tombstoned_at_unix_nanos).

Definition StatementTombstoneResponse_wf (self : StatementTombstoneResponse) : Prop :=
 raw_ok (StatementTombstoneResponse_tombstoned_at_unix_nanos self).

#[export] Instance StatementTombstoneResponse_nested :
  Nested StatementTombstoneResponse_wf StatementTombstoneResponse_to_map StatementTombstoneResponse_from_map.
Proof.
  intros []. wire_class StatementTombstoneResponse_wf StatementTombstoneResponse_to_map StatementTombstoneResponse_from_map.
Qed.

#[export] Instance StatementTombstoneResponse_payload : WirePayload StatementTombstoneResponse :=
  map_payload StatementTombstoneResponse_to_map StatementTombstoneResponse_from_map.
#[export] Instance StatementTombstoneResponse_laws : WireLaws StatementTombstoneResponse :=
  map_laws _ _ _ (fun self m E => py_dict_is_dict _ _ E).

(** ** [StatementRetractRequest] *)

Record StatementRetractRequest : Type := mk_StatementRetractRequest {
  StatementRetractRequest_statement_id : pyval; StatementRetractRequest_reason : pyval;
  StatementRetractRequest_reason_message : pyval; StatementRetractRequest_request_id : pyval;
  StatementRetractRequest_act_as : option ActAs
}.

Definition StatementRetractRequest_to_map (self : StatementRetractRequest) : pyresult pyval :=
  py_dict (
    ["statement_id" ::= Ok (StatementRetractRequest_statement_id self);
     "reason" ::= Ok (StatementRetractRequest_reason self);
     "reason_message" ::= Ok (StatementRetractRequest_reason_message self);
     "request_id" ::= Ok (StatementRetractRequest_request_id self)]
    ++ emit_some "act_as" ActAs_to_map (StatementRetractRequest_act_as self)).

Definition StatementRetractRequest_from_map (m : pyval) : pyresult StatementRetractRequest :=
  let* act_as := py_get m "act_as" PNone in
  let* statement_id := py_getitem m "statement_id" in
  let* reason := py_getitem m "reason" in
  let* reason_message := py_getitem m "reason_message" in
  let* request_id := py_getitem m "request_id" in
  let* act_as := from_option ActAs_from_map act_as in
  Ok (mk_StatementRetractRequest statement_id reason reason_message request_id act_as).

Definition StatementRetractRequest_wf (self : StatementRetractRequest) : Prop :=
 raw_ok (StatementRetractRequest_statement_id self) /\
  raw_ok (StatementRetractRequest_reason self) /\
  raw_ok (StatementRetractRequest_reason_message self) /\
  raw_ok (StatementRetractRequest_request_id self) /\
  option_ok ActAs_wf (StatementRetractRequest_act_as self).

#[export] Instance StatementRetractRequest_nested :
  Nested StatementRetractRequest_wf StatementRetractRequest_to_map StatementRetractRequest_from_map.
Proof.
  intros []. wire_class StatementRetractRequest_wf StatementRetractRequest_to_map StatementRetractRequest_from_map.
Qed.

#[export] Instance StatementRetractRequest_payload : WirePayload StatementRetractRequest :=
  map_payload StatementRetractRequest_to_map StatementRetractRequest_from_map.
#[export] Instance StatementRetractRequest_laws : WireLaws StatementRetractRequest :=
  map_laws _ _ _ (fun self m E => py_dict_is_dict _ _ E).

(** ** [StatementRetractResponse] *)

Record StatementRetractResponse : Type := mk_StatementRetractResponse {
  StatementRetractResponse_retracted_at_unix_nanos : pyval;
  StatementRetractResponse_will_zero_at_unix_nanos : pyval
}.

Definition StatementRetractResponse_to_map (self : StatementRetractResponse) : pyresult pyval :=
  py_dict
    ["retracted_at_unix_nanos" ::= Ok (StatementRetractResponse_retracted_at_unix_nanos self);
     "will_zero_at_unix_nanos" ::= Ok (StatementRetractResponse_will_zero_at_unix_nanos self)].

Definition StatementRetractResponse_from_map (m : pyval) : pyresult StatementRetractResponse :=
  let* retracted_at_unix_nanos := py_getitem m "retracted_at_unix_nanos" in
  let* will_zero_at_unix_nanos := py_getitem m "will_zero_at_unix_nanos" in
  Ok (mk_StatementRetractResponse retracted_at_unix_nanos will_zero_at_unix_nanos).

Definition StatementRetractResponse_wf (self : StatementRetractResponse) : Prop :=
 raw_ok (StatementRetractResponse_retracted_at_unix_nanos self) /\
  raw_ok (StatementRetractResponse_will_zero_at_unix_nanos self).

#[export] Instance StatementRetractResponse_nested :
  Nested StatementRetractResponse_wf StatementRetractResponse_to_map StatementRetractResponse_from_map.
Proof.
  intros []. wire_class StatementRetractResponse_wf StatementRetractResponse_to_map StatementRetractResponse_from_map.
Qed.

#[export] Instance StatementRetractResponse_payload : WirePayload StatementRetractResponse :=
  map_payload StatementRetractResponse_to_map StatementRetractResponse_from_map.
#[export] Instance StatementRetractResponse_laws : WireLaws StatementRetractResponse :=
  map_laws _ _ _ (fun self m E => py_dict_is_dict _ _ E).

(** ** [StatementHistoryRequest] *)

Record StatementHistoryRequest : Type := mk_StatementHistoryRequest {
  StatementHistoryRequest_anchor_id : pyval; StatementHistoryRequest_include_tombstoned : pyval;
  StatementHistoryRequest_limit : pyval; StatementHistoryRequest_cursor : pyval;
  StatementHistoryRequest_act_as : option ActAs
}.

Definition StatementHistoryRequest_to_map (self : StatementHistoryRequest) : pyresult pyval :=
  py_dict (
    ["anchor_id" ::= Ok (StatementHistoryRequest_anchor_id self);
     "include_tombstoned" ::= Ok (StatementHistoryRequest_include_tombstoned self);
     "limit" ::= Ok (StatementHistoryRequest_limit self);
     "cursor" ::= py_list (StatementHistoryRequest_cursor self)]
    ++ emit_some "act_as" ActAs_to_map (StatementHistoryRequest_act_as self)).

Definition StatementHistoryRequest_from_map (m : pyval) : pyresult StatementHistoryRequest :=
  let* act_as := py_get m "act_as" PNone in
  let* anchor_id := py_getitem m "anchor_id" in
  let* include_tombstoned := py_getitem m "include_tombstoned" in
  let* limit := py_getitem m "limit" in
  let* cursor := bind (py_getitem m "cursor") py_list in
  let* act_as := from_option ActAs_from_map act_as in
  Ok (mk_StatementHistoryRequest anchor_id include_tombstoned limit cursor act_as).

Definition StatementHistoryRequest_wf (self : StatementHistoryRequest) : Prop :=
 raw_ok (StatementHistoryRequest_anchor_id self) /\
  raw_ok (StatementHistoryRequest_include_tombstoned self) /\
  raw_ok (StatementHistoryRequest_limit self) /\ list_ok (StatementHistoryRequest_cursor self) /\
  option_ok ActAs_wf (StatementHistoryRequest_act_as self).

#[export] Instance StatementHistoryRequest_nested :
  Nested StatementHistoryRequest_wf StatementHistoryRequest_to_map StatementHistoryRequest_from_map.
Proof.
  intros []. wire_class StatementHistoryRequest_wf StatementHistoryRequest_to_map StatementHistoryRequest_from_map.
Qed.

#[export] Instance StatementHistoryRequest_payload : WirePayload StatementHistoryRequest :=
  map_payload StatementHistoryRequest_to_map StatementHistoryRequest_from_map.
#[export] Instance StatementHistoryRequest_laws : WireLaws StatementHistoryRequest :=
  map_laws _ _ _ (fun self m E => py_dict_is_dict _ _ E).

(** ** [StatementHistoryResponseFrame] *)

Record StatementHistoryResponseFrame : Type := mk_StatementHistoryResponseFrame {
  StatementHistoryResponseFrame_items : list StatementView;
  StatementHistoryResponseFrame_chain_root : pyval;
  StatementHistoryResponseFrame_total_versions : pyval;
  StatementHistoryResponseFrame_next_cursor : pyval;
  StatementHistoryResponseFrame_is_final : pyval
}.

Definition StatementHistoryResponseFrame_to_map (self : StatementHistoryResponseFrame) : pyresult pyval :=
  py_dict
    ["items" ::= to_list StatementView_to_map (StatementHistoryResponseFrame_items self);
     "chain_root" ::= Ok (StatementHistoryResponseFrame_chain_root self);
     "total_versions" ::= Ok (StatementHistoryResponseFrame_total_versions self);
     "next_cursor" ::= py_list (StatementHistoryResponseFrame_next_cursor self);
     "is_final" ::= Ok (StatementHistoryResponseFrame_is_final self)].

Definition StatementHistoryResponseFrame_from_map (m : pyval) : pyresult StatementHistoryResponseFrame :=
  let* items := bind (py_getitem m "items") (from_list StatementView_from_map) in
  let* chain_root := py_getitem m "chain_root" in
  let* total_versions := py_getitem m "total_versions" in
  let* next_cursor := bind (py_getitem m "next_cursor") py_list in
  let* is_final := py_getitem m "is_final" in
  Ok (mk_StatementHistoryResponseFrame items chain_root total_versions next_cursor is_final).

Definition StatementHistoryResponseFrame_wf (self : StatementHistoryResponseFrame) : Prop :=
 Forall StatementView_wf (StatementHistoryResponseFrame_items self) /\
  raw_ok (StatementHistoryResponseFrame_chain_root self) /\
  raw_ok (StatementHistoryResponseFrame_total_versions self) /\
  list_ok (StatementHistoryResponseFrame_next_cursor self) /\
  raw_ok (StatementHistoryResponseFrame_is_final self).

#[export] Instance StatementHistoryResponseFrame_nested :
  Nested StatementHistoryResponseFrame_wf StatementHistoryResponseFrame_to_map StatementHistoryResponseFrame_from_map.
Proof.
  intros []. wire_class StatementHistoryResponseFrame_wf StatementHistoryResponseFrame_to_map StatementHistoryResponseFrame_from_map.
Qed.

#[export] Instance StatementHistoryResponseFrame_payload : WirePayload StatementHistoryResponseFrame :=
  map_payload StatementHistoryResponseFrame_to_map StatementHistoryResponseFrame_from_map.
#[export] Instance StatementHistoryResponseFrame_laws : WireLaws StatementHistoryResponseFrame :=
  map_laws _ _ _ (fun self m E => py_dict_is_dict _ _ E).

(** ** [RelationGetRequest] *)

Record RelationGetRequest : Type := mk_RelationGetRequest {
  RelationGetRequest_relation_id : pyval; RelationGetRequest_follow_supersession : pyval;
  RelationGetRequest_act_as : option ActAs
}.

Definition RelationGetRequest_to_map (self : RelationGetRequest) : pyresult pyval :=
  py_dict (
    ["relation_id" ::= Ok (RelationGetRequest_relation_id self);
     "follow_supersession" ::= Ok (RelationGetRequest_follow_supersession self)]
    ++ emit_some "act_as" ActAs_to_map (RelationGetRequest_act_as self)).

Definition RelationGetRequest_from_map (m : pyval) : pyresult RelationGetRequest :=
  let* act_as := py_get m "act_as" PNone in
  let* relation_id := py_getitem m "relation_id" in
  let* follow_supersession := py_getitem m "follow_supersession" in
  let* act_as := from_option ActAs_from_map act_as in
  Ok (mk_RelationGetRequest relation_id follow_supersession act_as).

Definition RelationGetRequest_wf (self : RelationGetRequest) : Prop :=
 raw_ok (RelationGetRequest_relation_id self) /\
  raw_ok (RelationGetRequest_follow_supersession self) /\
  option_ok ActAs_wf (RelationGetRequest_act_as self).

#[export] Instance RelationGetRequest_nested :
  Nested RelationGetRequest_wf RelationGetRequest_to_map RelationGetRequest_from_map.
Proof.
  intros []. wire_class RelationGetRequest_wf RelationGetRequest_to_map RelationGetRequest_from_map.
Qed.

#[export] Instance RelationGetRequest_payload : WirePayload RelationGetRequest :=
  map_payload RelationGetRequest_to_map RelationGetRequest_from_map.
#[export] Instance RelationGetRequest_laws : WireLaws RelationGetRequest :=
  map_laws _ _ _ (fun self m E => py_dict_is_dict _ _ E).

(** ** [RelationGetResponse] *)

Record RelationGetResponse : Type := mk_RelationGetResponse {
  RelationGetResponse_relation : RelationView;
  RelationGetResponse_returned_via_supersession : pyval
}.

Definition RelationGetResponse_to_map (self : RelationGetResponse) : pyresult pyval :=
  py_dict
    ["relation" ::= RelationView_to_map (RelationGetResponse_relation self);
     "returned_via_supersession" ::= Ok (RelationGetResponse_returned_via_supersession self)].

Definition RelationGetResponse_from_map (m : pyval) : pyresult RelationGetResponse :=
  let* relation := bind (py_getitem m "relation") RelationView_from_map in
  let* returned_via_supersession := py_getitem m "returned_via_supersession" in
  Ok (mk_RelationGetResponse relation returned_via_supersession).

Definition RelationGetResponse_wf (self : RelationGetResponse) : Prop :=
 RelationView_wf (RelationGetResponse_relation self) /\
  raw_ok (RelationGetResponse_returned_via_supersession self).

#[export] Instance RelationGetResponse_nested :
  Nested RelationGetResponse_wf RelationGetResponse_to_map RelationGetResponse_from_map.
Proof.
  intros []. wire_class RelationGetResponse_wf RelationGetResponse_to_map RelationGetResponse_from_map.
Qed.

#[export] Instance RelationGetResponse_payload : WirePayload RelationGetResponse :=
  map_payload RelationGetResponse_to_map RelationGetResponse_from_map.
#[export] Instance RelationGetResponse_laws : WireLaws RelationGetResponse :=
  map_laws _ _ _ (fun self m E => py_dict_is_dict _ _ E).

(** ** [RelationSupersedeRequest] *)

Record RelationSupersedeRequest : Type := mk_RelationSupersedeRequest {
  RelationSupersedeRequest_old_relation_id : pyval;
  RelationSupersedeRequest_new_relation : RelationCreateRequest;
  RelationSupersedeRequest_request_id : pyval; RelationSupersedeRequest_act_as : option ActAs
}.

Definition RelationSupersedeRequest_to_map (self : RelationSupersedeRequest) : pyresult pyval :=
  py_dict (
    ["old_relation_id" ::= Ok (RelationSupersedeRequest_old_relation_id self);
     "new_relation" ::= RelationCreateRequest_to_map (RelationSupersedeRequest_new_relation self);
     "request_id" ::= Ok (RelationSupersedeRequest_request_id self)]
    ++ emit_some "act_as" ActAs_to_map (RelationSupersedeRequest_act_as self)).

Definition RelationSupersedeRequest_from_map (m : pyval) : pyresult RelationSupersedeRequest :=
  let* act_as := py_get m "act_as" PNone in
  let* old_relation_id := py_getitem m "old_relation_id" in
  let* new_relation := bind (py_getitem m "new_relation") RelationCreateRequest_from_map in
  let* request_id := py_getitem m "request_id" in
  let* act_as := from_option ActAs_from_map act_as in
  Ok (mk_RelationSupersedeRequest old_relation_id new_relation request_id act_as).

Definition RelationSupersedeRequest_wf (self : RelationSupersedeRequest) : Prop :=
 raw_ok (RelationSupersedeRequest_old_relation_id self) /\
  RelationCreateRequest_wf (RelationSupersedeRequest_new_relation self) /\
  raw_ok (RelationSupersedeRequest_request_id self) /\
  option_ok ActAs_wf (RelationSupersedeRequest_act_as self).

#[export] Instance RelationSupersedeRequest_nested :
  Nested RelationSupersedeRequest_wf RelationSupersedeRequest_to_map RelationSupersedeRequest_from_map.
Proof.
  intros []. wire_class RelationSupersedeRequest_wf RelationSupersedeRequest_to_map RelationSupersedeRequest_from_map.
Qed.

#[export] Instance RelationSupersedeRequest_payload : WirePayload RelationSupersedeRequest :=
  map_payload RelationSupersedeRequest_to_map RelationSupersedeRequest_from_map.
#[export] Instance RelationSupersedeRequest_laws : WireLaws RelationSupersedeRequest :=
  map_laws _ _ _ (fun self m E => py_dict_is_dict _ _ E).

(** ** [RelationSupersedeResponse] *)

Record RelationSupersedeResponse : Type := mk_RelationSupersedeResponse {
  RelationSupersedeResponse_new_relation_id : pyval; RelationSupersedeResponse_version : pyval
}.

Definition RelationSupersedeResponse_to_map (self : RelationSupersedeResponse) : pyresult pyval :=
  py_dict
    ["new_relation_id" ::= Ok (RelationSupersedeResponse_new_relation_id self);
     "version" ::= Ok (RelationSupersedeResponse_version self)].

Definition RelationSupersedeResponse_from_map (m : pyval) : pyresult RelationSupersedeResponse :=
  let* new_relation_id := py_getitem m "new_relation_id" in
  let* version := py_getitem m "version" in
  Ok (mk_RelationSupersedeResponse new_relation_id version).

Definition RelationSupersedeResponse_wf (self : RelationSupersedeResponse) : Prop :=
 raw_ok (RelationSupersedeResponse_new_relation_id self) /\
  raw_ok (RelationSupersedeResponse_version self).

#[export] Instance RelationSupersedeResponse_nested :
  Nested RelationSupersedeResponse_wf RelationSupersedeResponse_to_map RelationSupersedeResponse_from_map.
Proof.
  intros []. wire_class RelationSupersedeResponse_wf RelationSupersedeResponse_to_map RelationSupersedeResponse_from_map.
Qed.

#[export] Instance RelationSupersedeResponse_payload : WirePayload RelationSupersedeResponse :=
  map_payload RelationSupersedeResponse_to_map RelationSupersedeResponse_from_map.
#[export] Instance RelationSupersedeResponse_laws : WireLaws RelationSupersedeResponse :=
  map_laws _ _ _ (fun self m E => py_dict_is_dict _ _ E).

(** ** [RelationTombstoneRequest] *)

Record RelationTombstoneRequest : Type := mk_RelationTombstoneRequest {
  RelationTombstoneRequest_relation_id : pyval; RelationTombstoneRequest_reason : pyval;
  RelationTombstoneRequest_request_id : pyval; RelationTombstoneRequest_act_as : option ActAs
}.

Definition RelationTombstoneRequest_to_map (self : RelationTombstoneRequest) : pyresult pyval :=
  py_dict (
    ["relation_id" ::= Ok (RelationTombstoneRequest_relation_id self);
     "reason" ::= Ok (RelationTombstoneRequest_reason self);
     "request_id" ::= Ok (RelationTombstoneRequest_request_id self)]
    ++ emit_some "act_as" ActAs_to_map (RelationTombstoneRequest_act_as self)).

Definition RelationTombstoneRequest_from_map (m : pyval) : pyresult RelationTombstoneRequest :=
  let* act_as := py_get m "act_as" PNone in
  let* relation_id := py_getitem m "relation_id" in
  let* reason := py_getitem m "reason" in
  let* request_id := py_getitem m "request_id" in
  let* act_as := from_option ActAs_from_map act_as in
  Ok (mk_RelationTombstoneRequest relation_id reason request_id act_as).

Definition RelationTombstoneRequest_wf (self : RelationTombstoneRequest) : Prop :=
 raw_ok (RelationTombstoneRequest_relation_id self) /\
  raw_ok (RelationTombstoneRequest_reason self) /\
  raw_ok (RelationTombstoneRequest_request_id self) /\
  option_ok ActAs_wf (RelationTombstoneRequest_act_as self).

#[export] Instance RelationTombstoneRequest_nested :
  Nested RelationTombstoneRequest_wf RelationTombstoneRequest_to_map RelationTombstoneRequest_from_map.
Proof.
  intros []. wire_class RelationTombstoneRequest_wf RelationTombstoneRequest_to_map RelationTombstoneRequest_from_map.
Qed.

#[export] Instance RelationTombstoneRequest_payload : WirePayload RelationTombstoneRequest :=
  map_payload RelationTombstoneRequest_to_map RelationTombstoneRequest_from_map.
#[export] Instance RelationTombstoneRequest_laws : WireLaws RelationTombstoneRequest :=
  map_laws _ _ _ (fun self m E => py_dict_is_dict _ _ E).

(** ** [RelationTombstoneResponse] *)

Record RelationTombstoneResponse : Type := mk_RelationTombstoneResponse {
  RelationTombstoneResponse_tombstoned_at_unix_nanos : pyval
}.

Definition RelationTombstoneResponse_to_map (self : RelationTombstoneResponse) : pyresult pyval :=
  py_dict
    ["tombstoned_at_unix_nanos" ::= Ok (RelationTombstoneResponse_tombstoned_at_unix_nanos self)].

Definition RelationTombstoneResponse_from_map (m : pyval) : pyresult RelationTombstoneResponse :=
  let* tombstoned_at_unix_nanos := py_getitem m "tombstoned_at_unix_nanos" in
  Ok (mk_RelationTombstoneResponse tombstoned_at_unix_nanos).

Definition RelationTombstoneResponse_wf (self : RelationTombstoneResponse) : Prop :=
 raw_ok (RelationTombstoneResponse_tombstoned_at_unix_nanos self).

#[export] Instance RelationTombstoneResponse_nested :
  Nested RelationTombstoneResponse_wf RelationTombstoneResponse_to_map RelationTombstoneResponse_from_map.
Proof.
  intros []. wire_class RelationTombstoneResponse_wf RelationTombstoneResponse_to_map RelationTombstoneResponse_from_map.
Qed.

#[export] Instance RelationTombstoneResponse_payload : WirePayload RelationTombstoneResponse :=
  map_payload RelationTombstoneResponse_to_map RelationTombstoneResponse_from_map.
#[export] Instance RelationTombstoneResponse_laws : WireLaws RelationTombstoneResponse :=
  map_laws _ _ _ (fun self m E => py_dict_is_dict _ _ E).

(** ** [TraversalStepWire] *)

Record TraversalStepWire : Type := mk_TraversalStepWire {
  TraversalStepWire_relation_id : pyval; TraversalStepWire_from_ : pyval;
  TraversalStepWire_to : pyval; TraversalStepWire_relation_type : pyval;
  TraversalStepWire_depth : pyval
}.

Definition TraversalStepWire_to_map (self : TraversalStepWire) : pyresult pyval :=
  py_dict
    ["relation_id" ::= Ok (TraversalStepWire_relation_id self);
     "from" ::= Ok (TraversalStepWire_from_ self); "to" ::= Ok (TraversalStepWire_to self);
     "relation_type" ::= Ok (TraversalStepWire_relation_type self);
     "depth" ::= Ok (TraversalStepWire_depth self)].

Definition TraversalStepWire_from_map (m : pyval) : pyresult TraversalStepWire :=
  let* relation_id := py_getitem m "relation_id" in
  let* from_ := py_getitem m "from" in
  let* to := py_getitem m "to" in
  let* relation_type := py_getitem m "relation_type" in
  let* depth := py_getitem m "depth" in
  Ok (mk_TraversalStepWire relation_id from_ to relation_type depth).

Definition TraversalStepWire_wf (self : TraversalStepWire) : Prop :=
 raw_ok (TraversalStepWire_relation_id self) /\ raw_ok (TraversalStepWire_from_ self) /\
  raw_ok (TraversalStepWire_to self) /\ raw_ok (TraversalStepWire_relation_type self) /\
  raw_ok (TraversalStepWire_depth self).

#[export] Instance TraversalStepWire_nested :
  Nested TraversalStepWire_wf TraversalStepWire_to_map TraversalStepWire_from_map.
Proof.
  intros []. wire_class TraversalStepWire_wf TraversalStepWire_to_map TraversalStepWire_from_map.
Qed.

(** ** [TraversalPathWire] *)

Record TraversalPathWire : Type := mk_TraversalPathWire {
  TraversalPathWire_steps : list TraversalStepWire
}.

Definition TraversalPathWire_to_map (self : TraversalPathWire) : pyresult pyval :=
  py_dict
    ["steps" ::= to_list TraversalStepWire_to_map (TraversalPathWire_steps self)].

Definition TraversalPathWire_from_map (m : pyval) : pyresult TraversalPathWire :=
  let* steps := bind (py_getitem m "steps") (from_list TraversalStepWire_from_map) in
  Ok (mk_TraversalPathWire steps).

Definition TraversalPathWire_wf (self : TraversalPathWire) : Prop :=
 Forall TraversalStepWire_wf (TraversalPathWire_steps self).

#[export] Instance TraversalPathWire_nested :
  Nested TraversalPathWire_wf TraversalPathWire_to_map TraversalPathWire_from_map.
Proof.
  intros []. wire_class TraversalPathWire_wf TraversalPathWire_to_map TraversalPathWire_from_map.
Qed.

(** ** [RelationTraverseRequest] *)

Record RelationTraverseRequest : Type := mk_RelationTraverseRequest {
  RelationTraverseRequest_start_entity : pyval; RelationTraverseRequest_relation_types : pyval;
  RelationTraverseRequest_direction : pyval; RelationTraverseRequest_max_depth : pyval;
  RelationTraverseRequest_max_nodes : pyval; RelationTraverseRequest_time_at_unix_nanos : pyval;
  RelationTraverseRequest_include_superseded : pyval; RelationTraverseRequest_request_id : pyval;
  RelationTraverseRequest_act_as : option ActAs
}.

Definition RelationTraverseRequest_to_map (self : RelationTraverseRequest) : pyresult pyval :=
  py_dict (
    ["start_entity" ::= Ok (RelationTraverseRequest_start_entity self);
     "relation_types" ::= py_list (RelationTraverseRequest_relation_types self);
     "direction" ::= Ok (RelationTraverseRequest_direction self);
     "max_depth" ::= Ok (RelationTraverseRequest_max_depth self);
     "max_nodes" ::= Ok (RelationTraverseRequest_max_nodes self);
     "time_at_unix_nanos" ::= Ok (RelationTraverseRequest_time_at_unix_nanos self);
     "include_superseded" ::= Ok (RelationTraverseRequest_include_superseded self);
     "request_id" ::= Ok (RelationTraverseRequest_request_id self)]
    ++ emit_some "act_as" ActAs_to_map (RelationTraverseRequest_act_as self)).

Definition RelationTraverseRequest_from_map (m : pyval) : pyresult RelationTraverseRequest :=
  let* act_as := py_get m "act_as" PNone in
  let* start_entity := py_getitem m "start_entity" in
  let* relation_types := bind (py_getitem m "relation_types") py_list in
  let* direction := py_getitem m "direction" in
  let* max_depth := py_getitem m "max_depth" in
  let* max_nodes := py_getitem m "max_nodes" in
  let* time_at_unix_nanos := py_getitem m "time_at_unix_nanos" in
  let* include_superseded := py_getitem m "include_superseded" in
  let* request_id := py_getitem m "request_id" in
  let* act_as := from_option ActAs_from_map act_as in
  Ok (mk_RelationTraverseRequest start_entity relation_types direction max_depth max_nodes
    time_at_unix_nanos include_superseded request_id act_as).

Definition RelationTraverseRequest_wf (self : RelationTraverseRequest) : Prop :=
 raw_ok (RelationTraverseRequest_start_entity self) /\
  list_ok (RelationTraverseRequest_relation_types self) /\
  raw_ok (RelationTraverseRequest_direction self) /\
  raw_ok (RelationTraverseRequest_max_depth self) /\
  raw_ok (RelationTraverseRequest_max_nodes self) /\
  raw_ok (RelationTraverseRequest_time_at_unix_nanos self) /\
  raw_ok (RelationTraverseRequest_include_superseded self) /\
  raw_ok (RelationTraverseRequest_request_id self) /\
  option_ok ActAs_wf (RelationTraverseRequest_act_as self).

#[export] Instance RelationTraverseRequest_nested :
  Nested RelationTraverseRequest_wf RelationTraverseRequest_to_map RelationTraverseRequest_from_map.
Proof.
  intros []. wire_class RelationTraverseRequest_wf RelationTraverseRequest_to_map RelationTraverseRequest_from_map.
Qed.

#[export] Instance RelationTraverseRequest_payload : WirePayload RelationTraverseRequest :=
  map_payload RelationTraverseRequest_to_map RelationTraverseRequest_from_map.
#[export] Instance RelationTraverseRequest_laws : WireLaws RelationTraverseRequest :=
  map_laws _ _ _ (fun self m E => py_dict_is_dict _ _ E).

(** ** [RelationTraverseResponseFrame] *)

Record RelationTraverseResponseFrame : Type := mk_RelationTraverseResponseFrame {
  RelationTraverseResponseFrame_paths : list TraversalPathWire;
  RelationTraverseResponseFrame_total_paths : pyval;
  RelationTraverseResponseFrame_truncated : pyval; RelationTraverseResponseFrame_is_final : pyval
}.

Definition RelationTraverseResponseFrame_to_map (self : RelationTraverseResponseFrame) : pyresult pyval :=
  py_dict
    ["paths" ::= to_list TraversalPathWire_to_map (RelationTraverseResponseFrame_paths self);
     "total_paths" ::= Ok (RelationTraverseResponseFrame_total_paths self);
     "truncated" ::= Ok (RelationTraverseResponseFrame_truncated self);
     "is_final" ::= Ok (RelationTraverseResponseFrame_is_final self)].

Definition RelationTraverseResponseFrame_from_map (m : pyval) : pyresult RelationTraverseResponseFrame :=
  let* paths := bind (py_getitem m "paths") (from_list TraversalPathWire_from_map) in
  let* total_paths := py_getitem m "total_paths" in
  let* truncated := py_getitem m "truncated" in
  let* is_final := py_getitem m "is_final" in
  Ok (mk_RelationTraverseResponseFrame paths total_paths truncated is_final).

Definition RelationTraverseResponseFrame_wf (self : RelationTraverseResponseFrame) : Prop :=
 Forall TraversalPathWire_wf (RelationTraverseResponseFrame_paths self) /\
  raw_ok (RelationTraverseResponseFrame_total_paths self) /\
  raw_ok (RelationTraverseResponseFrame_truncated self) /\
  raw_ok (RelationTraverseResponseFrame_is_final self).

#[export] Instance RelationTraverseResponseFrame_nested :
  Nested RelationTraverseResponseFrame_wf RelationTraverseResponseFrame_to_map RelationTraverseResponseFrame_from_map.
Proof.
  intros []. wire_class RelationTraverseResponseFrame_wf RelationTraverseResponseFrame_to_map RelationTraverseResponseFrame_from_map.
Qed.

#[export] Instance RelationTraverseResponseFrame_payload : WirePayload RelationTraverseResponseFrame :=
  map_payload RelationTraverseResponseFrame_to_map RelationTraverseResponseFrame_from_map.
#[export] Instance RelationTraverseResponseFrame_laws : WireLaws RelationTraverseResponseFrame :=
  map_laws _ _ _ (fun self m E => py_dict_is_dict _ _ E).

(** ** [QueryExplainRequest] *)

Record QueryExplainRequest : Type := mk_QueryExplainRequest {
  QueryExplainRequest_query : QueryRequest; QueryExplainRequest_act_as : option ActAs
}.

Definition QueryExplainRequest_to_map (self : QueryExplainRequest) : pyresult pyval :=
  py_dict (
    ["query" ::= QueryRequest_to_map (QueryExplainRequest_query self)]
    ++ emit_some "act_as" ActAs_to_map (QueryExplainRequest_act_as self)).

Definition QueryExplainRequest_from_map `{PyStr} (m : pyval) : pyresult QueryExplainRequest :=
  let* act_as := py_get m "act_as" PNone in
  let* query := bind (py_getitem m "query") QueryRequest_from_map in
  let* act_as := from_option ActAs_from_map act_as in
  Ok (mk_QueryExplainRequest query act_as).

Definition QueryExplainRequest_wf (self : QueryExplainRequest) : Prop :=
 QueryRequest_wf (QueryExplainRequest_query self) /\
  option_ok ActAs_wf (QueryExplainRequest_act_as self).

#[export] Instance QueryExplainRequest_nested `{PyStr} :
  Nested QueryExplainRequest_wf QueryExplainRequest_to_map QueryExplainRequest_from_map.
Proof.
  intros []. wire_class QueryExplainRequest_wf QueryExplainRequest_to_map QueryExplainRequest_from_map.
Qed.

#[export] Instance QueryExplainRequest_payload `{PyStr} : WirePayload QueryExplainRequest :=
  map_payload QueryExplainRequest_to_map QueryExplainRequest_from_map.
#[export] Instance QueryExplainRequest_laws `{PyStr} : WireLaws QueryExplainRequest :=
  map_laws _ _ _ (fun self m E => py_dict_is_dict _ _ E).

(** ** [QueryExplainResponse] *)

Record QueryExplainResponse : Type := mk_QueryExplainResponse {
  QueryExplainResponse_plan_text : pyval; QueryExplainResponse_estimated_cost_ms : pyval
}.

Definition QueryExplainResponse_to_map (self : QueryExplainResponse) : pyresult pyval :=
  py_dict
    ["plan_text" ::= Ok (QueryExplainResponse_plan_text self);
     "estimated_cost_ms" ::= round_f32 (QueryExplainResponse_estimated_cost_ms self)].

Definition QueryExplainResponse_from_map (m : pyval) : pyresult QueryExplainResponse :=
  let* plan_text := py_getitem m "plan_text" in
  let* estimated_cost_ms := py_getitem m "estimated_cost_ms" in
  Ok (mk_QueryExplainResponse plan_text estimated_cost_ms).

Definition QueryExplainResponse_wf (self : QueryExplainResponse) : Prop :=
 raw_ok (QueryExplainResponse_plan_text self) /\
  f32_ok (QueryExplainResponse_estimated_cost_ms self).

#[export] Instance QueryExplainResponse_nested :
  Nested QueryExplainResponse_wf QueryExplainResponse_to_map QueryExplainResponse_from_map.
Proof.
  intros []. wire_class QueryExplainResponse_wf QueryExplainResponse_to_map QueryExplainResponse_from_map.
Qed.

#[export] Instance QueryExplainResponse_payload : WirePayload QueryExplainResponse :=
  map_payload QueryExplainResponse_to_map QueryExplainResponse_from_map.
#[export] Instance QueryExplainResponse_laws : WireLaws QueryExplainResponse :=
  map_laws _ _ _ (fun self m E => py_dict_is_dict _ _ E).

(** ** [QueryTraceRequest] *)

Record QueryTraceRequest : Type := mk_QueryTraceRequest {
  QueryTraceRequest_query : QueryRequest; QueryTraceRequest_act_as : option ActAs
}.

Definition QueryTraceRequest_to_map (self : QueryTraceRequest) : pyresult pyval :=
  py_dict (
    ["query" ::= QueryRequest_to_map (QueryTraceRequest_query self)]
    ++ emit_some "act_as" ActAs_to_map (QueryTraceRequest_act_as self)).

Definition QueryTraceRequest_from_map `{PyStr} (m : pyval) : pyresult QueryTraceRequest :=
  let* act_as := py_get m "act_as" PNone in
  let* query := bind (py_getitem m "query") QueryRequest_from_map in
  let* act_as := from_option ActAs_from_map act_as in
  Ok (mk_QueryTraceRequest query act_as).

Definition QueryTraceRequest_wf (self : QueryTraceRequest) : Prop :=
 QueryRequest_wf (QueryTraceRequest_query self) /\
  option_ok ActAs_wf (QueryTraceRequest_act_as self).

#[export] Instance QueryTraceRequest_nested `{PyStr} :
  Nested QueryTraceRequest_wf QueryTraceRequest_to_map QueryTraceRequest_from_map.
Proof.
  intros []. wire_class QueryTraceRequest_wf QueryTraceRequest_to_map QueryTraceRequest_from_map.
Qed.

#[export] Instance QueryTraceRequest_payload `{PyStr} : WirePayload QueryTraceRequest :=
  map_payload QueryTraceRequest_to_map QueryTraceRequest_from_map.
#[export] Instance QueryTraceRequest_laws `{PyStr} : WireLaws QueryTraceRequest :=
  map_laws _ _ _ (fun self m E => py_dict_is_dict _ _ E).

(** ** [QueryTraceResponse] *)

Record QueryTraceResponse : Type := mk_QueryTraceResponse {
  QueryTraceResponse_trace_text : pyval; QueryTraceResponse_total_latency_ms : pyval
}.

Definition QueryTraceResponse_to_map (self : QueryTraceResponse) : pyresult pyval :=
  py_dict
    ["trace_text" ::= Ok (QueryTraceResponse_trace_text self);
     "total_latency_ms" ::= mark_f64 (QueryTraceResponse_total_latency_ms self)].

Definition QueryTraceResponse_from_map (m : pyval) : pyresult QueryTraceResponse :=
  let* trace_text := py_getitem m "trace_text" in
  let* total_latency_ms := py_getitem m "total_latency_ms" in
  Ok (mk_QueryTraceResponse trace_text total_latency_ms).

Definition QueryTraceResponse_wf (self : QueryTraceResponse) : Prop :=
 raw_ok (QueryTraceResponse_trace_text self) /\ f64_ok (QueryTraceResponse_total_latency_ms self).

#[export] Instance QueryTraceResponse_nested :
  Nested QueryTraceResponse_wf QueryTraceResponse_to_map QueryTraceResponse_from_map.
Proof.
  intros []. wire_class QueryTraceResponse_wf QueryTraceResponse_to_map QueryTraceResponse_from_map.
Qed.

#[export] Instance QueryTraceResponse_payload : WirePayload QueryTraceResponse :=
  map_payload QueryTraceResponse_to_map QueryTraceResponse_from_map.
#[export] Instance QueryTraceResponse_laws : WireLaws QueryTraceResponse :=
  map_laws _ _ _ (fun self m E => py_dict_is_dict _ _ E).
