(* ===== verification/WireSpaces.v ===== *)
(** * WireSpaces

    [wire/types.py], the lifecycle of spaces and sessions. *)

From S2P Require Import Prelude PyFloat PyValue Rfc8949 Cbor CborScan CborCodec WireEnums WireCodec.
From S2P Require Import WireHandshake.

(** ** [SpaceView] *)

Record SpaceView : Type := mk_SpaceView {
  SpaceView_space : pyval; SpaceView_created_at_unix_nanos : pyval;
  SpaceView_last_active_unix_nanos : pyval; SpaceView_memory_count : pyval;
  SpaceView_session_count : pyval
}.

Definition SpaceView_to_map (self : SpaceView) : pyresult pyval :=
  py_dict
    ["space" ::= Ok (SpaceView_space self);
     "created_at_unix_nanos" ::= Ok (SpaceView_created_at_unix_nanos self);
     "last_active_unix_nanos" ::= Ok (SpaceView_last_active_unix_nanos self);
     "memory_count" ::= Ok (SpaceView_memory_count self);
     "session_count" ::= Ok (SpaceView_session_count self)].

Definition SpaceView_from_map (m : pyval) : pyresult SpaceView :=
  let* space := py_getitem m "space" in
  let* created_at_unix_nanos := py_getitem m "created_at_unix_nanos" in
  let* last_active_unix_nanos := py_getitem m "last_active_unix_nanos" in
  let* memory_count := py_getitem m "memory_count" in
  let* session_count := py_getitem m "session_count" in
  Ok (mk_SpaceView space created_at_unix_nanos last_active_unix_nanos memory_count session_count).

Definition SpaceView_wf (self : SpaceView) : Prop :=
 raw_ok (SpaceView_space self) /\ raw_ok (SpaceView_created_at_unix_nanos self) /\
  raw_ok (SpaceView_last_active_unix_nanos self) /\ raw_ok (SpaceView_memory_count self) /\
  raw_ok (SpaceView_session_count self).

#[export] Instance SpaceView_nested : Nested SpaceView_wf SpaceView_to_map SpaceView_from_map.
Proof. intros []. wire_class SpaceView_wf SpaceView_to_map SpaceView_from_map. Qed.

(** ** [SpaceCreateRequest] *)

Record SpaceCreateRequest : Type := mk_SpaceCreateRequest {
  SpaceCreateRequest_request_id : pyval; SpaceCreateRequest_metadata : pyval;
  SpaceCreateRequest_act_as : option ActAs
}.

Definition SpaceCreateRequest_to_map (self : SpaceCreateRequest) : pyresult pyval :=
  py_dict (
    when (negb (is_none (SpaceCreateRequest_metadata self)))
         ["metadata" ::= py_list (SpaceCreateRequest_metadata self)]
    ++ ["request_id" ::= Ok (SpaceCreateRequest_request_id self)]
    ++ emit_some "act_as" ActAs_to_map (SpaceCreateRequest_act_as self)).

Definition SpaceCreateRequest_from_map (m : pyval) : pyresult SpaceCreateRequest :=
  let* metadata := py_get m "metadata" PNone in
  let* act_as := py_get m "act_as" PNone in
  let* request_id := py_getitem m "request_id" in
  let* metadata := none_or py_list metadata in
  let* act_as := from_option ActAs_from_map act_as in
  Ok (mk_SpaceCreateRequest request_id metadata act_as).

Definition SpaceCreateRequest_wf (self : SpaceCreateRequest) : Prop :=
 raw_ok (SpaceCreateRequest_request_id self) /\
  none_or_ok list_ok (SpaceCreateRequest_metadata self) /\
  option_ok ActAs_wf (SpaceCreateRequest_act_as self).

#[export] Instance SpaceCreateRequest_nested :
  Nested SpaceCreateRequest_wf SpaceCreateRequest_to_map SpaceCreateRequest_from_map.
Proof.
  intros [rid meta act]. unfold SpaceCreateRequest_wf, SpaceCreateRequest_to_map,
    SpaceCreateRequest_from_map, wire_ok. wire_fields. intros (H1 & H2 & H3).
  destruct H2 as [-> | H2].
  - wire_fields. wire_conditions; wire_case.
  - replace (negb (is_none meta)) with true by (destruct H2 as [H2 _]; by destruct meta).
    destruct (list_ok_list meta H2) as [E U]. rewrite E.
    assert (none_or py_list meta = Ok meta) by (apply none_or_list_ok; by right).
    clear H2. wire_conditions; wire_case.
Qed.

#[export] Instance SpaceCreateRequest_payload : WirePayload SpaceCreateRequest :=
  map_payload SpaceCreateRequest_to_map SpaceCreateRequest_from_map.
#[export] Instance SpaceCreateRequest_laws : WireLaws SpaceCreateRequest :=
  map_laws _ _ _ (fun self m E => py_dict_is_dict _ _ E).

(** ** [SpaceCreateResponse] *)

Record SpaceCreateResponse : Type := mk_SpaceCreateResponse {
  SpaceCreateResponse_space : pyval; SpaceCreateResponse_created : pyval;
  SpaceCreateResponse_created_at_unix_nanos : pyval;
  SpaceCreateResponse_last_active_unix_nanos : pyval; SpaceCreateResponse_memory_count : pyval;
  SpaceCreateResponse_session_count : pyval
}.

Definition SpaceCreateResponse_to_map (self : SpaceCreateResponse) : pyresult pyval :=
  py_dict
    ["space" ::= Ok (SpaceCreateResponse_space self);
     "created" ::= Ok (SpaceCreateResponse_created self);
     "created_at_unix_nanos" ::= Ok (SpaceCreateResponse_created_at_unix_nanos self);
     "last_active_unix_nanos" ::= Ok (SpaceCreateResponse_last_active_unix_nanos self);
     "memory_count" ::= Ok (SpaceCreateResponse_memory_count self);
     "session_count" ::= Ok (SpaceCreateResponse_session_count self)].

Definition SpaceCreateResponse_from_map (m : pyval) : pyresult SpaceCreateResponse :=
  let* space := py_getitem m "space" in
  let* created := py_getitem m "created" in
  let* created_at_unix_nanos := py_getitem m "created_at_unix_nanos" in
  let* last_active_unix_nanos := py_getitem m "last_active_unix_nanos" in
  let* memory_count := py_getitem m "memory_count" in
  let* session_count := py_getitem m "session_count" in
  Ok (mk_SpaceCreateResponse space created created_at_unix_nanos last_active_unix_nanos memory_count
    session_count).

Definition SpaceCreateResponse_wf (self : SpaceCreateResponse) : Prop :=
 raw_ok (SpaceCreateResponse_space self) /\ raw_ok (SpaceCreateResponse_created self) /\
  raw_ok (SpaceCreateResponse_created_at_unix_nanos self) /\
  raw_ok (SpaceCreateResponse_last_active_unix_nanos self) /\
  raw_ok (SpaceCreateResponse_memory_count self) /\
  raw_ok (SpaceCreateResponse_session_count self).

#[export] Instance SpaceCreateResponse_nested :
  Nested SpaceCreateResponse_wf SpaceCreateResponse_to_map SpaceCreateResponse_from_map.
Proof.
  intros []. wire_class SpaceCreateResponse_wf SpaceCreateResponse_to_map SpaceCreateResponse_from_map.
Qed.

#[export] Instance SpaceCreateResponse_payload : WirePayload SpaceCreateResponse :=
  map_payload SpaceCreateResponse_to_map SpaceCreateResponse_from_map.
#[export] Instance SpaceCreateResponse_laws : WireLaws SpaceCreateResponse :=
  map_laws _ _ _ (fun self m E => py_dict_is_dict _ _ E).

(** ** [SpaceListRequest] *)

Record SpaceListRequest : Type := mk_SpaceListRequest {
  SpaceListRequest_limit : pyval; SpaceListRequest_act_as : option ActAs
}.

Definition SpaceListRequest_to_map (self : SpaceListRequest) : pyresult pyval :=
  py_dict (
    ["limit" ::= Ok (SpaceListRequest_limit self)]
    ++ emit_some "act_as" ActAs_to_map (SpaceListRequest_act_as self)).

Definition SpaceListRequest_from_map (m : pyval) : pyresult SpaceListRequest :=
  let* act_as := py_get m "act_as" PNone in
  let* limit := py_getitem m "limit" in
  let* act_as := from_option ActAs_from_map act_as in
  Ok (mk_SpaceListRequest limit act_as).

Definition SpaceListRequest_wf (self : SpaceListRequest) : Prop :=
 raw_ok (SpaceListRequest_limit self) /\ option_ok ActAs_wf (SpaceListRequest_act_as self).

#[export] Instance SpaceListRequest_nested :
  Nested SpaceListRequest_wf SpaceListRequest_to_map SpaceListRequest_from_map.
Proof.
  intros []. wire_class SpaceListRequest_wf SpaceListRequest_to_map SpaceListRequest_from_map.
Qed.

#[export] Instance SpaceListRequest_payload : WirePayload SpaceListRequest :=
  map_payload SpaceListRequest_to_map SpaceListRequest_from_map.
#[export] Instance SpaceListRequest_laws : WireLaws SpaceListRequest :=
  map_laws _ _ _ (fun self m E => py_dict_is_dict _ _ E).

(** ** [SpaceListResponse] *)

Record SpaceListResponse : Type := mk_SpaceListResponse {
  SpaceListResponse_spaces : list SpaceView; SpaceListResponse_cross_shard_complete : pyval
}.

Definition SpaceListResponse_to_map (self : SpaceListResponse) : pyresult pyval :=
  py_dict
    ["spaces" ::= to_list SpaceView_to_map (SpaceListResponse_spaces self);
     "cross_shard_complete" ::= Ok (SpaceListResponse_cross_shard_complete self)].

Definition SpaceListResponse_from_map (m : pyval) : pyresult SpaceListResponse :=
  let* spaces := bind (py_getitem m "spaces") (from_list SpaceView_from_map) in
  let* cross_shard_complete := py_getitem m "cross_shard_complete" in
  Ok (mk_SpaceListResponse spaces cross_shard_complete).

Definition SpaceListResponse_wf (self : SpaceListResponse) : Prop :=
 Forall SpaceView_wf (SpaceListResponse_spaces self) /\
  raw_ok (SpaceListResponse_cross_shard_complete self).

#[export] Instance SpaceListResponse_nested :
  Nested SpaceListResponse_wf SpaceListResponse_to_map SpaceListResponse_from_map.
Proof.
  intros []. wire_class SpaceListResponse_wf SpaceListResponse_to_map SpaceListResponse_from_map.
Qed.

#[export] Instance SpaceListResponse_payload : WirePayload SpaceListResponse :=
  map_payload SpaceListResponse_to_map SpaceListResponse_from_map.
#[export] Instance SpaceListResponse_laws : WireLaws SpaceListResponse :=
  map_laws _ _ _ (fun self m E => py_dict_is_dict _ _ E).

(** ** [SpaceDeleteRequest] *)

Record SpaceDeleteRequest : Type := mk_SpaceDeleteRequest {
  SpaceDeleteRequest_request_id : pyval; SpaceDeleteRequest_act_as : option ActAs
}.

Definition SpaceDeleteRequest_to_map (self : SpaceDeleteRequest) : pyresult pyval :=
  py_dict (
    ["request_id" ::= Ok (SpaceDeleteRequest_request_id self)]
    ++ emit_some "act_as" ActAs_to_map (SpaceDeleteRequest_act_as self)).

Definition SpaceDeleteRequest_from_map (m : pyval) : pyresult SpaceDeleteRequest :=
  let* act_as := py_get m "act_as" PNone in
  let* request_id := py_getitem m "request_id" in
  let* act_as := from_option ActAs_from_map act_as in
  Ok (mk_SpaceDeleteRequest request_id act_as).

Definition SpaceDeleteRequest_wf (self : SpaceDeleteRequest) : Prop :=
 raw_ok (SpaceDeleteRequest_request_id self) /\
  option_ok ActAs_wf (SpaceDeleteRequest_act_as self).

#[export] Instance SpaceDeleteRequest_nested :
  Nested SpaceDeleteRequest_wf SpaceDeleteRequest_to_map SpaceDeleteRequest_from_map.
Proof.
  intros []. wire_class SpaceDeleteRequest_wf SpaceDeleteRequest_to_map SpaceDeleteRequest_from_map.
Qed.

#[export] Instance SpaceDeleteRequest_payload : WirePayload SpaceDeleteRequest :=
  map_payload SpaceDeleteRequest_to_map SpaceDeleteRequest_from_map.
#[export] Instance SpaceDeleteRequest_laws : WireLaws SpaceDeleteRequest :=
  map_laws _ _ _ (fun self m E => py_dict_is_dict _ _ E).

(** ** [SpaceDeleteResponse] *)

Record SpaceDeleteResponse : Type := mk_SpaceDeleteResponse {
  SpaceDeleteResponse_space : pyval; SpaceDeleteResponse_existed : pyval;
  SpaceDeleteResponse_memories_forgotten : pyval
}.

Definition SpaceDeleteResponse_to_map (self : SpaceDeleteResponse) : pyresult pyval :=
  py_dict
    ["space" ::= Ok (SpaceDeleteResponse_space self);
     "existed" ::= Ok (SpaceDeleteResponse_existed self);
     "memories_forgotten" ::= Ok (SpaceDeleteResponse_memories_forgotten self)].

Definition SpaceDeleteResponse_from_map (m : pyval) : pyresult SpaceDeleteResponse :=
  let* space := py_getitem m "space" in
  let* existed := py_getitem m "existed" in
  let* memories_forgotten := py_getitem m "memories_forgotten" in
  Ok (mk_SpaceDeleteResponse space existed memories_forgotten).

Definition SpaceDeleteResponse_wf (self : SpaceDeleteResponse) : Prop :=
 raw_ok (SpaceDeleteResponse_space self) /\ raw_ok (SpaceDeleteResponse_existed self) /\
  raw_ok (SpaceDeleteResponse_memories_forgotten self).

#[export] Instance SpaceDeleteResponse_nested :
  Nested SpaceDeleteResponse_wf SpaceDeleteResponse_to_map SpaceDeleteResponse_from_map.
Proof.
  intros []. wire_class SpaceDeleteResponse_wf SpaceDeleteResponse_to_map SpaceDeleteResponse_from_map.
Qed.

#[export] Instance SpaceDeleteResponse_payload : WirePayload SpaceDeleteResponse :=
  map_payload SpaceDeleteResponse_to_map SpaceDeleteResponse_from_map.
#[export] Instance SpaceDeleteResponse_laws : WireLaws SpaceDeleteResponse :=
  map_laws _ _ _ (fun self m E => py_dict_is_dict _ _ E).

(** ** [SessionView] *)

Record SessionView : Type := mk_SessionView {
  SessionView_session_id : pyval; SessionView_created_at_unix_nanos : pyval;
  SessionView_last_active_unix_nanos : pyval; SessionView_memory_count : pyval;
  SessionView_title : pyval
}.

Definition SessionView_to_map (self : SessionView) : pyresult pyval :=
  py_dict (
    ["session_id" ::= Ok (SessionView_session_id self);
     "created_at_unix_nanos" ::= Ok (SessionView_created_at_unix_nanos self);
     "last_active_unix_nanos" ::= Ok (SessionView_last_active_unix_nanos self)]
    ++ when (negb (is_none (SessionView_title self))) ["title" ::= Ok (SessionView_title self)]
    ++ ["memory_count" ::= Ok (SessionView_memory_count self)]).

Definition SessionView_from_map (m : pyval) : pyresult SessionView :=
  let* session_id := py_getitem m "session_id" in
  let* created_at_unix_nanos := py_getitem m "created_at_unix_nanos" in
  let* last_active_unix_nanos := py_getitem m "last_active_unix_nanos" in
  let* memory_count := py_getitem m "memory_count" in
  let* title := py_get m "title" PNone in
  Ok (mk_SessionView session_id created_at_unix_nanos last_active_unix_nanos memory_count title).

Definition SessionView_wf (self : SessionView) : Prop :=
 raw_ok (SessionView_session_id self) /\ raw_ok (SessionView_created_at_unix_nanos self) /\
  raw_ok (SessionView_last_active_unix_nanos self) /\ raw_ok (SessionView_memory_count self) /\
  raw_ok (SessionView_title self).

#[export] Instance SessionView_nested :
  Nested SessionView_wf SessionView_to_map SessionView_from_map.
Proof. intros []. wire_class SessionView_wf SessionView_to_map SessionView_from_map. Qed.

(** ** [SessionCreateRequest] *)

Record SessionCreateRequest : Type := mk_SessionCreateRequest {
  SessionCreateRequest_session_id : pyval; SessionCreateRequest_request_id : pyval;
  SessionCreateRequest_title : pyval; SessionCreateRequest_act_as : option ActAs
}.

Definition SessionCreateRequest_to_map (self : SessionCreateRequest) : pyresult pyval :=
  py_dict (
    ["session_id" ::= Ok (SessionCreateRequest_session_id self)]
    ++ when (negb (is_none (SessionCreateRequest_title self)))
         ["title" ::= Ok (SessionCreateRequest_title self)]
    ++ ["request_id" ::= Ok (SessionCreateRequest_request_id self)]
    ++ emit_some "act_as" ActAs_to_map (SessionCreateRequest_act_as self)).

Definition SessionCreateRequest_from_map (m : pyval) : pyresult SessionCreateRequest :=
  let* act_as := py_get m "act_as" PNone in
  let* session_id := py_getitem m "session_id" in
  let* request_id := py_getitem m "request_id" in
  let* title := py_get m "title" PNone in
  let* act_as := from_option ActAs_from_map act_as in
  Ok (mk_SessionCreateRequest session_id request_id title act_as).

Definition SessionCreateRequest_wf (self : SessionCreateRequest) : Prop :=
 raw_ok (SessionCreateRequest_session_id self) /\ raw_ok (SessionCreateRequest_request_id self) /\
  raw_ok (SessionCreateRequest_title self) /\
  option_ok ActAs_wf (SessionCreateRequest_act_as self).

#[export] Instance SessionCreateRequest_nested :
  Nested SessionCreateRequest_wf SessionCreateRequest_to_map SessionCreateRequest_from_map.
Proof.
  intros []. wire_class SessionCreateRequest_wf SessionCreateRequest_to_map SessionCreateRequest_from_map.
Qed.

#[export] Instance SessionCreateRequest_payload : WirePayload SessionCreateRequest :=
  map_payload SessionCreateRequest_to_map SessionCreateRequest_from_map.
#[export] Instance SessionCreateRequest_laws : WireLaws SessionCreateRequest :=
  map_laws _ _ _ (fun self m E => py_dict_is_dict _ _ E).

(** ** [SessionCreateResponse] *)

Record SessionCreateResponse : Type := mk_SessionCreateResponse {
  SessionCreateResponse_space_id : pyval; SessionCreateResponse_session_id : pyval;
  SessionCreateResponse_created : pyval; SessionCreateResponse_created_at_unix_nanos : pyval;
  SessionCreateResponse_last_active_unix_nanos : pyval; SessionCreateResponse_memory_count : pyval
}.

Definition SessionCreateResponse_to_map (self : SessionCreateResponse) : pyresult pyval :=
  py_dict
    ["space_id" ::= Ok (SessionCreateResponse_space_id self);
     "session_id" ::= Ok (SessionCreateResponse_session_id self);
     "created" ::= Ok (SessionCreateResponse_created self);
     "created_at_unix_nanos" ::= Ok (SessionCreateResponse_created_at_unix_nanos self);
     "last_active_unix_nanos" ::= Ok (SessionCreateResponse_last_active_unix_nanos self);
     "memory_count" ::= Ok (SessionCreateResponse_memory_count self)].

Definition SessionCreateResponse_from_map (m : pyval) : pyresult SessionCreateResponse :=
  let* space_id := py_getitem m "space_id" in
  let* session_id := py_getitem m "session_id" in
  let* created := py_getitem m "created" in
  let* created_at_unix_nanos := py_getitem m "created_at_unix_nanos" in
  let* last_active_unix_nanos := py_getitem m "last_active_unix_nanos" in
  let* memory_count := py_getitem m "memory_count" in
  Ok (mk_SessionCreateResponse space_id session_id created created_at_unix_nanos
    last_active_unix_nanos memory_count).

Definition SessionCreateResponse_wf (self : SessionCreateResponse) : Prop :=
 raw_ok (SessionCreateResponse_space_id self) /\ raw_ok (SessionCreateResponse_session_id self) /\
  raw_ok (SessionCreateResponse_created self) /\
  raw_ok (SessionCreateResponse_created_at_unix_nanos self) /\
  raw_ok (SessionCreateResponse_last_active_unix_nanos self) /\
  raw_ok (SessionCreateResponse_memory_count self).

#[export] Instance SessionCreateResponse_nested :
  Nested SessionCreateResponse_wf SessionCreateResponse_to_map SessionCreateResponse_from_map.
Proof.
  intros []. wire_class SessionCreateResponse_wf SessionCreateResponse_to_map SessionCreateResponse_from_map.
Qed.

#[export] Instance SessionCreateResponse_payload : WirePayload SessionCreateResponse :=
  map_payload SessionCreateResponse_to_map SessionCreateResponse_from_map.
#[export] Instance SessionCreateResponse_laws : WireLaws SessionCreateResponse :=
  map_laws _ _ _ (fun self m E => py_dict_is_dict _ _ E).

(** ** [SessionListRequest] *)

Record SessionListRequest : Type := mk_SessionListRequest {
  SessionListRequest_limit : pyval; SessionListRequest_act_as : option ActAs
}.

Definition SessionListRequest_to_map (self : SessionListRequest) : pyresult pyval :=
  py_dict (
    ["limit" ::= Ok (SessionListRequest_limit self)]
    ++ emit_some "act_as" ActAs_to_map (SessionListRequest_act_as self)).

Definition SessionListRequest_from_map (m : pyval) : pyresult SessionListRequest :=
  let* act_as := py_get m "act_as" PNone in
  let* limit := py_getitem m "limit" in
  let* act_as := from_option ActAs_from_map act_as in
  Ok (mk_SessionListRequest limit act_as).

Definition SessionListRequest_wf (self : SessionListRequest) : Prop :=
 raw_ok (SessionListRequest_limit self) /\ option_ok ActAs_wf (SessionListRequest_act_as self).

#[export] Instance SessionListRequest_nested :
  Nested SessionListRequest_wf SessionListRequest_to_map SessionListRequest_from_map.
Proof.
  intros []. wire_class SessionListRequest_wf SessionListRequest_to_map SessionListRequest_from_map.
Qed.

#[export] Instance SessionListRequest_payload : WirePayload SessionListRequest :=
  map_payload SessionListRequest_to_map SessionListRequest_from_map.
#[export] Instance SessionListRequest_laws : WireLaws SessionListRequest :=
  map_laws _ _ _ (fun self m E => py_dict_is_dict _ _ E).

(** ** [SessionListResponse] *)

Record SessionListResponse : Type := mk_SessionListResponse {
  SessionListResponse_space_id : pyval; SessionListResponse_sessions : list SessionView
}.

Definition SessionListResponse_to_map (self : SessionListResponse) : pyresult pyval :=
  py_dict
    ["space_id" ::= Ok (SessionListResponse_space_id self);
     "sessions" ::= to_list SessionView_to_map (SessionListResponse_sessions self)].

Definition SessionListResponse_from_map (m : pyval) : pyresult SessionListResponse :=
  let* space_id := py_getitem m "space_id" in
  let* sessions := bind (py_getitem m "sessions") (from_list SessionView_from_map) in
  Ok (mk_SessionListResponse space_id sessions).

Definition SessionListResponse_wf (self : SessionListResponse) : Prop :=
 raw_ok (SessionListResponse_space_id self) /\
  Forall SessionView_wf (SessionListResponse_sessions self).

#[export] Instance SessionListResponse_nested :
  Nested SessionListResponse_wf SessionListResponse_to_map SessionListResponse_from_map.
Proof.
  intros []. wire_class SessionListResponse_wf SessionListResponse_to_map SessionListResponse_from_map.
Qed.

#[export] Instance SessionListResponse_payload : WirePayload SessionListResponse :=
  map_payload SessionListResponse_to_map SessionListResponse_from_map.
#[export] Instance SessionListResponse_laws : WireLaws SessionListResponse :=
  map_laws _ _ _ (fun self m E => py_dict_is_dict _ _ E).

(** ** [SessionDeleteRequest] *)

Record SessionDeleteRequest : Type := mk_SessionDeleteRequest {
  SessionDeleteRequest_session_id : pyval; SessionDeleteRequest_request_id : pyval;
  SessionDeleteRequest_hard : pyval; SessionDeleteRequest_act_as : option ActAs
}.

Definition SessionDeleteRequest_to_map (self : SessionDeleteRequest) : pyresult pyval :=
  py_dict (
    ["session_id" ::= Ok (SessionDeleteRequest_session_id self);
     "hard" ::= Ok (SessionDeleteRequest_hard self);
     "request_id" ::= Ok (SessionDeleteRequest_request_id self)]
    ++ emit_some "act_as" ActAs_to_map (SessionDeleteRequest_act_as self)).

Definition SessionDeleteRequest_from_map (m : pyval) : pyresult SessionDeleteRequest :=
  let* act_as := py_get m "act_as" PNone in
  let* session_id := py_getitem m "session_id" in
  let* request_id := py_getitem m "request_id" in
  let* hard := bind (py_get m "hard" (PBool false)) to_bool in
  let* act_as := from_option ActAs_from_map act_as in
  Ok (mk_SessionDeleteRequest session_id request_id hard act_as).

Definition SessionDeleteRequest_wf (self : SessionDeleteRequest) : Prop :=
 raw_ok (SessionDeleteRequest_session_id self) /\ raw_ok (SessionDeleteRequest_request_id self) /\
  bool_ok (SessionDeleteRequest_hard self) /\
  option_ok ActAs_wf (SessionDeleteRequest_act_as self).

#[export] Instance SessionDeleteRequest_nested :
  Nested SessionDeleteRequest_wf SessionDeleteRequest_to_map SessionDeleteRequest_from_map.
Proof.
  intros []. wire_class SessionDeleteRequest_wf SessionDeleteRequest_to_map SessionDeleteRequest_from_map.
Qed.

#[export] Instance SessionDeleteRequest_payload : WirePayload SessionDeleteRequest :=
  map_payload SessionDeleteRequest_to_map SessionDeleteRequest_from_map.
#[export] Instance SessionDeleteRequest_laws : WireLaws SessionDeleteRequest :=
  map_laws _ _ _ (fun self m E => py_dict_is_dict _ _ E).

(** ** [SessionDeleteResponse] *)

Record SessionDeleteResponse : Type := mk_SessionDeleteResponse {
  SessionDeleteResponse_space_id : pyval; SessionDeleteResponse_session_id : pyval;
  SessionDeleteResponse_existed : pyval; SessionDeleteResponse_memories_forgotten : pyval
}.

Definition SessionDeleteResponse_to_map (self : SessionDeleteResponse) : pyresult pyval :=
  py_dict
    ["space_id" ::= Ok (SessionDeleteResponse_space_id self);
     "session_id" ::= Ok (SessionDeleteResponse_session_id self);
     "existed" ::= Ok (SessionDeleteResponse_existed self);
     "memories_forgotten" ::= Ok (SessionDeleteResponse_memories_forgotten self)].

Definition SessionDeleteResponse_from_map (m : pyval) : pyresult SessionDeleteResponse :=
  let* space_id := py_getitem m "space_id" in
  let* session_id := py_getitem m "session_id" in
  let* existed := py_getitem m "existed" in
  let* memories_forgotten := py_getitem m "memories_forgotten" in
  Ok (mk_SessionDeleteResponse space_id session_id existed memories_forgotten).

Definition SessionDeleteResponse_wf (self : SessionDeleteResponse) : Prop :=
 raw_ok (SessionDeleteResponse_space_id self) /\ raw_ok (SessionDeleteResponse_session_id self) /\
  raw_ok (SessionDeleteResponse_existed self) /\
  raw_ok (SessionDeleteResponse_memories_forgotten self).

#[export] Instance SessionDeleteResponse_nested :
  Nested SessionDeleteResponse_wf SessionDeleteResponse_to_map SessionDeleteResponse_from_map.
Proof.
  intros []. wire_class SessionDeleteResponse_wf SessionDeleteResponse_to_map SessionDeleteResponse_from_map.
Qed.

#[export] Instance SessionDeleteResponse_payload : WirePayload SessionDeleteResponse :=
  map_payload SessionDeleteResponse_to_map SessionDeleteResponse_from_map.
#[export] Instance SessionDeleteResponse_laws : WireLaws SessionDeleteResponse :=
  map_laws _ _ _ (fun self m E => py_dict_is_dict _ _ E).
