(* ===== verification/WireCorpus.v ===== *)
(** * WireCorpus

    The byte-level oracle of the repository, [conformance/corpus], run through
    the model: every payload case decodes, as the class the conformance test
    assigns to it, to a value that encodes back to exactly the bytes of the
    corpus (key order, integer and float widths included), and every frame case
    decodes to a frame that encodes back to its bytes. *)

From S2P Require Import Prelude Crc32c Frame PyFloat PyValue Rfc8949 Cbor CborScan CborCodec.
From S2P Require Import WireEnums WireCodec WireHandshake WireMemory WireRecall WireListing.
From S2P Require Import WireTyped WireReasoning WireEvents WireReads WireMutations WireSpaces.
From Stdlib Require Import Strings.Ascii.

(** ** Reading the cases *)

Definition hex_digit (c : ascii) : Z :=
  let n := Z.of_N (N_of_ascii c) in if n <? 58 then n - 48 else n - 87.

Fixpoint hex_bytes (s : string) : bytes :=
  match s with
  | String a (String b s) => Z_to_byte (hex_digit a * 16 + hex_digit b) :: hex_bytes s
  | _ => []
  end.

Fixpoint bytes_eqb (a b : bytes) : bool :=
  match a, b with
  | [], [] => true
  | x :: a, y :: b => Byte.eqb x y && bytes_eqb a b
  | _, _ => false
  end.

(** No case needs [str()] of anything but a string. *)
#[local] Instance corpus_str : PyStr := {| str_of_object := fun _ => "" |}.

(** Decode as the class, encode again, compare. *)
Definition reencodes (T : Type) `{WirePayload T} (hex : string) : bool :=
  let bin := hex_bytes hex in
  match decode_payload (T := T) bin with
  | Ok value => match encode_payload value with
                | Ok again => bytes_eqb again bin
                | Raise _ => false
                end
  | Raise _ => false
  end.

(** The same for a frame and the payload it carries. *)
Definition frame_reencodes (T : Type) `{WirePayload T} (hex : string) : bool :=
  let bin := hex_bytes hex in
  match decode_frame bin with
  | Ok (frame, []) =>
      match encode_frame (frame_opcode frame) (frame_stream_id frame) (frame_flags frame) (frame_payload frame),
            decode_payload (T := T) (frame_payload frame) with
      | Ok again, Ok value =>
          match encode_payload value with
          | Ok payload => bytes_eqb again bin && bytes_eqb payload (frame_payload frame)
          | Raise _ => false
          end
      | _, _ => false
      end
  | _ => false
  end.

(** The request payloads of the corpus. *)
Definition request_cases : list bool := [
  (* req_hello *) reencodes HelloPayload "a469636c69656e745f696473627261696e2d636f6e666f726d616e63652f3172737570706f727465645f76657273696f6e7381016c6361706162696c6974696573a36973747265616d696e67f570636f6d7072657373696f6e5f7a737464f46b7365727665725f70757368f477636c69656e745f636f6e6e656374696f6e5f746f6b656ef6";
  (* req_auth *) reencodes AuthPayload "a2666d6574686f64006b63726564656e7469616c73a165546f6b656e8c186f18701861187118751865182d1874186f186b1865186e";
  (* req_encode *) reencodes EncodeRequest "a564746578746f74686520736b7920697320626c75656a73657373696f6e5f6964016a726571756573745f696450111111111111111111111111111111116674786e5f6964f6766f636375727265645f61745f756e69785f6e616e6f731b17979cfe362a0000";
  (* req_encode_trace *) reencodes EncodeRequest "a664746578746f74686520736b7920697320626c75656a73657373696f6e5f6964016a726571756573745f696450111111111111111111111111111111116674786e5f6964f6766f636375727265645f61745f756e69785f6e616e6f731b17979cfe362a0000647761697401";
  (* req_encode_allow_duplicates *) reencodes EncodeRequest "a664746578746f74686520736b7920697320626c75656a73657373696f6e5f6964016a726571756573745f696450111111111111111111111111111111116674786e5f6964f6766f636375727265645f61745f756e69785f6e616e6f731b17979cfe362a000070616c6c6f775f6475706c696361746573f5";
  (* req_encode_vector_direct *) reencodes EncodeVectorDirectRequest "a964746578746b707265636f6d7075746564716d6f64656c5f66696e6765727072696e7450333333333333333333333333333333336a73657373696f6e5f696401646b696e64006d73616c69656e63655f68696e74f93400656564676573806a726571756573745f696450111111111111111111111111111111116674786e5f6964f66b64656475706c6963617465f40000803f0000003f000080be0000003e";
  (* req_recall *) reencodes RecallRequest "b0686375655f74657874757768617420636f6c6f722069732074686520736b796c7375626a6563745f6e616d6563736b796b6d61785f726573756c74730a74636f6e666964656e63655f7468726573686f6c64fa3e99999a6e73657373696f6e5f66696c7465728101746167655f626f756e645f756e69785f6e616e6f73f6781c61735f6f665f7265636f72645f74696d655f756e69785f6e616e6f731b17bb23f0a5eb00006b6b696e645f66696c74657281006e73616c69656e63655f666c6f6f72fa3dcccccd6d696e636c7564655f6564676573f56d696e636c7564655f6772617068f46c696e636c7564655f74657874f56a726571756573745f696450111111111111111111111111111111116674786e5f6964f6657472616365f56573636f7065655370616365";
  (* req_recall_act_as *) reencodes RecallRequest "b1686375655f74657874757768617420636f6c6f722069732074686520736b796c7375626a6563745f6e616d6563736b796b6d61785f726573756c74730a74636f6e666964656e63655f7468726573686f6c64fa3e99999a6e73657373696f6e5f66696c7465728101746167655f626f756e645f756e69785f6e616e6f73f6781c61735f6f665f7265636f72645f74696d655f756e69785f6e616e6f73f66b6b696e645f66696c746572f66e73616c69656e63655f666c6f6f72f900006d696e636c7564655f6564676573f46d696e636c7564655f6772617068f46c696e636c7564655f74657874f46a726571756573745f696450111111111111111111111111111111116674786e5f6964f6657472616365f4666163745f6173a2696e616d6573706163656b74656e616e742d61636d6565737061636573737570706f72742d626f743a757365723132336573636f7065655370616365";
  (* req_forget *) reencodes ForgetRequest "a4696d656d6f72795f6964c24a07002a00000000123456646d6f6465006a726571756573745f696450111111111111111111111111111111116674786e5f6964f6";
  (* req_forget_act_as *) reencodes ForgetRequest "a5696d656d6f72795f6964c24a07002a00000000123456646d6f6465006a726571756573745f696450111111111111111111111111111111116674786e5f6964f6666163745f6173a2696e616d6573706163656b74656e616e742d61636d6565737061636573737570706f72742d626f743a75736572313233";
  (* req_encode_act_as *) reencodes EncodeRequest "a66474657874756f6e20626568616c66206f6620612074656e616e746a73657373696f6e5f6964016a726571756573745f696450111111111111111111111111111111116674786e5f6964f6766f636375727265645f61745f756e69785f6e616e6f73f6666163745f6173a2696e616d6573706163656b74656e616e742d61636d6565737061636573737570706f72742d626f743a75736572313233";
  (* req_plan_act_as *) reencodes PlanRequest "a9657374617274a166427954657874666f726967696e64676f616ca1664279546578746b64657374696e6174696f6e66627564676574a3696d61785f737465707308706d61785f77616c6c5f74696d655f6d731903e8756d61785f6272616e636865735f6578706c6f72656418406d73747261746567795f68696e74f66e73657373696f6e5f66696c746572f66a726571756573745f696450111111111111111111111111111111116674786e5f6964f6657472616365f5666163745f6173a2696e616d6573706163656b74656e616e742d61636d6565737061636573737570706f72742d626f743a75736572313233";
  (* req_reason_act_as *) reencodes ReasonRequest "aa6b6f62736572766174696f6ea1664279546578746b74686520636174207361746564657074680374636f6e666964656e63655f7468726573686f6c64f938006e73657373696f6e5f66696c746572f66e6d61785f696e666572656e63657305736275646765745f77616c6c5f74696d655f6d731903e86a726571756573745f696450111111111111111111111111111111116674786e5f6964f6657472616365f5666163745f6173a2696e616d6573706163656b74656e616e742d61636d6565737061636573737570706f72742d626f743a75736572313233";
  (* req_entity_create *) reencodes EntityCreateRequest "a66e656e746974795f747970655f6964016e63616e6f6e6963616c5f6e616d656341646167616c69617365738166416461204c2e6f617474726962757465735f626c6f628d1872186f186c1865183d1865186e18671869186e1865186518726a73657373696f6e5f6964006a726571756573745f69645011111111111111111111111111111111";
  (* req_entity_create_act_as *) reencodes EntityCreateRequest "a76e656e746974795f747970655f6964016e63616e6f6e6963616c5f6e616d656341646167616c69617365738166416461204c2e6f617474726962757465735f626c6f628d1872186f186c1865183d1865186e18671869186e1865186518726a73657373696f6e5f6964006a726571756573745f69645011111111111111111111111111111111666163745f6173a2696e616d6573706163656b74656e616e742d61636d6565737061636573737570706f72742d626f743a75736572313233";
  (* req_statement_create *) reencodes StatementCreateRequest "ad646b696e646446616374677375626a6563745044444444444444444444444444444444697072656469636174656c6f72673a776f726b735f6f6e666f626a656374a16556616c7565a1645465787465627261696e6a636f6e666964656e6365fa3f6666666865766964656e6365a166496e6c696e65815000000000000007002a000000001234566c657874726163746f725f6964007576616c69645f66726f6d5f756e69785f6e616e6f731b17979cfe362a00007376616c69645f746f5f756e69785f6e616e6f7300736576656e745f61745f756e69785f6e616e6f73006e736368656d615f76657273696f6e016a73657373696f6e5f6964076a726571756573745f69645011111111111111111111111111111111";
  (* req_relation_create *) reencodes RelationCreateRequest "ab6d72656c6174696f6e5f747970656b6f72673a6d656e746f72736b66726f6d5f656e74697479504444444444444444444444444444444469746f5f656e7469747950222222222222222222222222222222226f70726f706572746965735f626c6f62806865766964656e6365a166496e6c696e65815000000000000007002a000000001234566c657874726163746f725f6964006a636f6e666964656e6365fa3f6666667576616c69645f66726f6d5f756e69785f6e616e6f731b17979cfe362a00007376616c69645f746f5f756e69785f6e616e6f73006a73657373696f6e5f6964096a726571756573745f69645011111111111111111111111111111111";
  (* req_schema_upload *) reencodes SchemaUploadRequest "a46f736368656d615f646f63756d656e74783a6e616d657370616365206f72670a646566696e6520656e746974795f7479706520506572736f6e207b2061747472696275746573207b7d207d0a676472795f72756ef46e616c6c6f775f627265616b696e67f46a726571756573745f69645011111111111111111111111111111111";
  (* req_materialize_procedural *) reencodes MaterializeProceduralRequest "a66873706163655f696450222222222222222222222222222222226e73657373696f6e5f66696c746572810765746f705f6b146e6d696e5f636f6e666964656e6365f938006a63617465676f726965738164746f6e656a726571756573745f69645011111111111111111111111111111111";
  (* req_query_explain *) reencodes QueryExplainRequest "a1657175657279ae64746578747177686f206d656e746f7265642077686f6d6d656e746974795f616e63686f7250444444444444444444444444444444446b6b696e645f66696c746572820001707072656469636174655f66696c746572816c6f72673a776f726b735f6f6e6e73657373696f6e5f66696c7465728207096b74696d655f66696c746572a26c66726f6d5f756e69785f6d731b0000018bcfe568006a746f5f756e69785f6d73f6781c61735f6f665f7265636f72645f74696d655f756e69785f6e616e6f731b17bb23f0a5eb00006e636f6e666964656e63655f6d696ef9340072696e636c7564655f746f6d6273746f6e6564f472696e636c7564655f73757065727365646564f5656c696d6974146a72657472696576657273a1684578706c69636974826853656d616e7469636547726170686d667573696f6e5f636f6e666967a4616b183c6f73656d616e7469635f776569676874f938006e6c65786963616c5f776569676874f934006c67726170685f776569676874f934006a726571756573745f69645011111111111111111111111111111111";
  (* req_query_trace *) reencodes QueryTraceRequest "a1657175657279ae64746578747177686f206d656e746f7265642077686f6d6d656e746974795f616e63686f7250444444444444444444444444444444446b6b696e645f66696c746572820001707072656469636174655f66696c746572816c6f72673a776f726b735f6f6e6e73657373696f6e5f66696c7465728207096b74696d655f66696c746572a26c66726f6d5f756e69785f6d731b0000018bcfe568006a746f5f756e69785f6d73f6781c61735f6f665f7265636f72645f74696d655f756e69785f6e616e6f731b17bb23f0a5eb00006e636f6e666964656e63655f6d696ef9340072696e636c7564655f746f6d6273746f6e6564f472696e636c7564655f73757065727365646564f5656c696d6974146a72657472696576657273a1684578706c69636974826853656d616e7469636547726170686d667573696f6e5f636f6e666967a4616b183c6f73656d616e7469635f776569676874f938006e6c65786963616c5f776569676874f934006c67726170685f776569676874f934006a726571756573745f69645011111111111111111111111111111111";
  (* req_memory_list *) reencodes MemoryListRequest "ac64736f7274006364697201656c696d6974183266637572736f7285182a0018ff1818187b656b696e6473810072696e636c7564655f746f6d6273746f6e6564f46974696d655f61786973006f66726f6d5f756e69785f6e616e6f73006d746f5f756e69785f6e616e6f73006c73616c69656e63655f6d696ef900006c73616c69656e63655f6d6178f93c006d746578745f636f6e7461696e7360";
  (* req_memory_inspect *) reencodes MemoryInspectRequest "a1696d656d6f72795f6964c24a07002a00000000123456";
  (* req_graph_fetch *) reencodes GraphFetchRequest "a6656c696d697418c866637572736f7285182a0018ff1818187b72696e636c7564655f73746174656d656e7473f570696e636c7564655f6d656d6f72696573f574696e636c7564655f6d656d6f72795f6564676573f572696e636c7564655f746f6d6273746f6e6564f4";
  (* req_extractor_list *) reencodes ExtractorListRequest "a0";
  (* req_space_create *) reencodes SpaceCreateRequest "a2686d65746164617461830102036a726571756573745f69645011111111111111111111111111111111";
  (* req_space_list *) reencodes SpaceListRequest "a1656c696d69741864";
  (* req_space_delete *) reencodes SpaceDeleteRequest "a16a726571756573745f69645011111111111111111111111111111111";
  (* req_session_create *) reencodes SessionCreateRequest "a36a73657373696f6e5f696407657469746c656d70726f6a65637420616c7068616a726571756573745f69645011111111111111111111111111111111";
  (* req_session_list *) reencodes SessionListRequest "a1656c696d69741832";
  (* req_session_delete *) reencodes SessionDeleteRequest "a36a73657373696f6e5f6964076468617264f46a726571756573745f69645011111111111111111111111111111111";
  (* req_entity_get *) reencodes EntityGetRequest "a269656e746974795f69645044444444444444444444444444444444666163745f6173a2696e616d6573706163656b74656e616e742d61636d6565737061636573737570706f72742d626f743a75736572313233";
  (* req_entity_update *) reencodes EntityUpdateRequest "a569656e746974795f696450444444444444444444444444444444446e63616e6f6e6963616c5f6e616d656c416461204c6f76656c61636567616c69617365738366416461204c2e6b412e204c6f76656c61636574436f756e74657373206f66204c6f76656c6163656f617474726962757465735f626c6f6298291872186f186c1865183d186d1861187418681865186d186118741869186318691861186e183b187418651861186d183d1861186e1861186c18791874186918631861186c182d1865186e18671869186e18656a726571756573745f69645011111111111111111111111111111111";
  (* req_entity_rename *) reencodes EntityRenameRequest "a469656e746974795f69645044444444444444444444444444444444726e65775f63616e6f6e6963616c5f6e616d65704175677573746120416461204b696e676d6d6f76655f746f5f616c696173f56a726571756573745f69645011111111111111111111111111111111";
  (* req_entity_merge *) reencodes EntityMergeRequest "a5687375727669766f725044444444444444444444444444444444666d657267656450666666666666666666666666666666666a636f6e666964656e6365fa3f5eb85266726561736f6e782873616d65206769746875622068616e646c6520616e6420776f726b20656d61696c20646f6d61696e6a726571756573745f69645011111111111111111111111111111111";
  (* req_entity_unmerge *) reencodes EntityUnmergeRequest "a26d6d65726765645f656e7469747950666666666666666666666666666666666a726571756573745f69645011111111111111111111111111111111";
  (* req_entity_resolve *) reencodes EntityResolveRequest "a66e63616e6469646174655f6e616d6566416461204c2e727265736f6c7574696f6e5f636f6e7465787478327374616e647570206e6f7465733a206d656e74696f6e656420616c6f6e677369646520436861726c6573204261626261676570656e746974795f747970655f68696e74076c616c6c6f775f637265617465f56a726571756573745f69645011111111111111111111111111111111666163745f6173a2696e616d6573706163656b74656e616e742d61636d6565737061636573737570706f72742d626f743a75736572313233";
  (* req_entity_list *) reencodes EntityListRequest "a86e656e746974795f747970655f6964046b6e616d655f70726566697863416461716d656e74696f6e5f636f756e745f6d696e0372696e636c7564655f746f6d6273746f6e6564f56e696e636c7564655f6d6572676564f4656c696d697418fa66637572736f72931870186118671865183a1832183a186118641861182d186c186f18761865186c186118631865666163745f6173a2696e616d6573706163656b74656e616e742d61636d6565737061636573737570706f72742d626f743a75736572313233";
  (* req_entity_tombstone *) reencodes EntityTombstoneRequest "a369656e746974795f6964508888888888888888888888888888888866726561736f6e78346261642065787472616374696f6e3a206d61746368656420612070726f64756374206e616d652c206e6f74206120706572736f6e6a726571756573745f69645011111111111111111111111111111111";
  (* req_relation_get *) reencodes RelationGetRequest "a36b72656c6174696f6e5f696450606162636465666768696a6b6c6d6e6f73666f6c6c6f775f737570657273657373696f6ef5666163745f6173a2696e616d6573706163656b74656e616e742d61636d6565737061636573737570706f72742d626f743a75736572313233";
  (* req_relation_supersede *) reencodes RelationSupersedeRequest "a36f6f6c645f72656c6174696f6e5f696450717171717171717171717171717171716c6e65775f72656c6174696f6eac6d72656c6174696f6e5f747970656e6f72673a7265706f7274735f746f6b66726f6d5f656e74697479504444444444444444444444444444444469746f5f656e7469747950737373737373737373737373737373736f70726f706572746965735f626c6f62981c18731869186e18631865183d1832183018321834182d18301833182d18301831183b187718651869186718681874183d1830182e183818306865766964656e6365a166496e6c696e65825000000000000007002a0000000012345650606162636465666768696a6b6c6d6e6f6c657874726163746f725f6964036a636f6e666964656e6365fa3f3851ec7576616c69645f66726f6d5f756e69785f6e616e6f731b18867251edfa00007376616c69645f746f5f756e69785f6e616e6f731b1886c0e67f4900006a73657373696f6e5f69640b6a726571756573745f69645072727272727272727272727272727272666163745f6173a2696e616d6573706163656b74656e616e742d61636d6565737061636573737570706f72742d626f743a757365723132336a726571756573745f69645011111111111111111111111111111111";
  (* req_relation_tombstone *) reencodes RelationTombstoneRequest "a36b72656c6174696f6e5f696450606162636465666768696a6b6c6d6e6f66726561736f6e782873757065727365646564206279206120636f727265637465642065787472616374696f6e2072756e6a726571756573745f69645011111111111111111111111111111111";
  (* req_relation_list_from *) reencodes RelationListFromRequest "a96b66726f6d5f656e7469747950444444444444444444444444444444447472656c6174696f6e5f747970655f66696c7465726b6f72673a6d656e746f7273781b74696d655f72616e67655f73746172745f756e69785f6e616e6f731b18867251edfa0000781974696d655f72616e67655f656e645f756e69785f6e616e6f731b188675981eb2a00072696e636c7564655f73757065727365646564f572696e636c7564655f746f6d6273746f6e6564f4656c696d697418fa66637572736f728401189a182f00666163745f6173a2696e616d6573706163656b74656e616e742d61636d6565737061636573737570706f72742d626f743a75736572313233";
  (* req_relation_list_to *) reencodes RelationListToRequest "a969746f5f656e7469747950737373737373737373737373737373737472656c6174696f6e5f747970655f66696c7465726e6f72673a7265706f7274735f746f781b74696d655f72616e67655f73746172745f756e69785f6e616e6f731b18866bc58c88c000781974696d655f72616e67655f656e645f756e69785f6e616e6f731b188673f50656500072696e636c7564655f73757065727365646564f472696e636c7564655f746f6d6273746f6e6564f5656c696d6974184066637572736f728302187f11666163745f6173a2696e616d6573706163656b74656e616e742d61636d6565737061636573737570706f72742d626f743a75736572313233";
  (* req_relation_traverse *) reencodes RelationTraverseRequest "a96c73746172745f656e7469747950444444444444444444444444444444446e72656c6174696f6e5f7479706573826b6f72673a6d656e746f72736e6f72673a7265706f7274735f746f69646972656374696f6e02696d61785f646570746804696d61785f6e6f6465731901f47274696d655f61745f756e69785f6e616e6f731b18867251edfa000072696e636c7564655f73757065727365646564f56a726571756573745f69645011111111111111111111111111111111666163745f6173a2696e616d6573706163656b74656e616e742d61636d6565737061636573737570706f72742d626f743a75736572313233";
  (* req_statement_get *) reencodes StatementGetRequest "a36c73746174656d656e745f696450808182838485868788898a8b8c8d8e8f73666f6c6c6f775f737570657273657373696f6ef5666163745f6173a2696e616d6573706163656b74656e616e742d61636d6565737061636573737570706f72742d626f743a75736572313233";
  (* req_statement_supersede *) reencodes StatementSupersedeRequest "a3706f6c645f73746174656d656e745f696450919191919191919191919191919191916d6e65775f73746174656d656e74ae646b696e64654576656e74677375626a656374504444444444444444444444444444444469707265646963617465736f72673a736869707065645f72656c65617365666f626a656374a16556616c7565a164426c6f628418ca18fe18d00d6a636f6e666964656e6365fa3f547ae16865766964656e6365a166496e6c696e65825000000000000007002a0000000012345650919191919191919191919191919191916c657874726163746f725f6964057576616c69645f66726f6d5f756e69785f6e616e6f731b18867251edfa00007376616c69645f746f5f756e69785f6e616e6f731b18889861e7230000736576656e745f61745f756e69785f6e616e6f731b188673f5065650006e736368656d615f76657273696f6e046a73657373696f6e5f69640b6a726571756573745f69645092929292929292929292929292929292666163745f6173a2696e616d6573706163656b74656e616e742d61636d6565737061636573737570706f72742d626f743a757365723132336a726571756573745f69645011111111111111111111111111111111";
  (* req_statement_tombstone *) reencodes StatementTombstoneRequest "a46c73746174656d656e745f696450808182838485868788898a8b8c8d8e8f66726561736f6e036e726561736f6e5f6d657373616765782b707265646963617465206f72673a776f726b735f6f6e2072656d6f76656420696e20736368656d612076346a726571756573745f69645011111111111111111111111111111111";
  (* req_statement_retract *) reencodes StatementRetractRequest "a46c73746174656d656e745f6964509191919191919191919191919191919166726561736f6e026e726561736f6e5f6d6573736167657835757365722061736b656420746f2064656c6574652074686520646965746172792d707265666572656e63652073746174656d656e746a726571756573745f69645011111111111111111111111111111111";
  (* req_statement_history *) reencodes StatementHistoryRequest "a469616e63686f725f6964509191919191919191919191919191919172696e636c7564655f746f6d6273746f6e6564f5656c696d6974186466637572736f7280";
  (* req_statement_list *) reencodes StatementListRequest "ab677375626a6563745044444444444444444444444444444444697072656469636174656c6f72673a776f726b735f6f6e646b696e64026e6d696e5f636f6e666964656e6365fa3eb33333781b74696d655f72616e67655f73746172745f756e69785f6e616e6f731b18867251edfa0000781974696d655f72616e67655f656e645f756e69785f6e616e6f731b188fa7baf53c00006c6f6e6c795f63757272656e74f472696e636c7564655f746f6d6273746f6e6564f5656c696d697418fa66637572736f72840418be182109666163745f6173a2696e616d6573706163656b74656e616e742d61636d6565737061636573737570706f72742d626f743a75736572313233";
  (* req_schema_get *) reencodes SchemaGetRequest "a2696e616d657370616365636f72676776657273696f6e03";
  (* req_schema_list *) reencodes SchemaListRequest "a3696e616d657370616365636f7267656c696d6974181966637572736f7285189a02000003";
  (* req_schema_validate *) reencodes SchemaValidateRequest "a16f736368656d615f646f63756d656e7478456e616d657370616365206f72670a646566696e652072656c6174696f6e5f74797065206d656e746f7273207b2066726f6d20506572736f6e20746f20506572736f6e207d0a";
  (* req_schema_replace *) reencodes SchemaReplaceRequest "a36f736368656d615f646f63756d656e7478506e616d657370616365206f72670a646566696e6520656e746974795f7479706520506572736f6e207b2061747472696275746573207b206a6f696e65645f61743a2074696d657374616d70207d207d0a73666f7263655f64726f705f6578697374696e67f56a726571756573745f69645011111111111111111111111111111111";
  (* req_schema_drop *) reencodes SchemaDropRequest "a5696e616d657370616365636f72676b7461726765745f6b696e64016b7461726765745f6e616d65676d656e746f727365666f726365f56a726571756573745f69645011111111111111111111111111111111";
  (* req_schema_get_act_as *) reencodes SchemaGetRequest "a3696e616d657370616365636f72676776657273696f6e03666163745f6173a2696e616d657370616365636f726765737061636573737570706f72742d626f743a75736572313233";
  (* req_schema_list_act_as *) reencodes SchemaListRequest "a4696e616d657370616365636f7267656c696d6974181966637572736f7285189a02000003666163745f6173a2696e616d657370616365636f726765737061636573737570706f72742d626f743a75736572313233";
  (* req_schema_validate_act_as *) reencodes SchemaValidateRequest "a26f736368656d615f646f63756d656e7478456e616d657370616365206f72670a646566696e652072656c6174696f6e5f74797065206d656e746f7273207b2066726f6d20506572736f6e20746f20506572736f6e207d0a666163745f6173a2696e616d657370616365636f726765737061636573737570706f72742d626f743a75736572313233";
  (* req_schema_upload_act_as_grant *) reencodes SchemaUploadRequest "a56f736368656d615f646f63756d656e7478286e616d657370616365206f72670a646566696e6520656e746974795f7479706520506572736f6e0a676472795f72756ef46e616c6c6f775f627265616b696e67f46a726571756573745f69645011111111111111111111111111111111666163745f6173a3696e616d657370616365636f726765737061636573737570706f72742d626f743a75736572313233656772616e7410";
  (* req_schema_replace_act_as_grant *) reencodes SchemaReplaceRequest "a46f736368656d615f646f63756d656e7478506e616d657370616365206f72670a646566696e6520656e746974795f7479706520506572736f6e207b2061747472696275746573207b206a6f696e65645f61743a2074696d657374616d70207d207d0a73666f7263655f64726f705f6578697374696e67f56a726571756573745f69645011111111111111111111111111111111666163745f6173a3696e616d657370616365636f726765737061636573737570706f72742d626f743a75736572313233656772616e741820";
  (* req_schema_drop_act_as_grant *) reencodes SchemaDropRequest "a6696e616d657370616365636f72676b7461726765745f6b696e64016b7461726765745f6e616d65676d656e746f727365666f726365f56a726571756573745f69645011111111111111111111111111111111666163745f6173a3696e616d657370616365636f726765737061636573737570706f72742d626f743a75736572313233656772616e741820";
  (* req_txn_begin *) reencodes TxnBeginRequest "a26674786e5f696450888888888888888888888888888888886f74696d656f75745f7365636f6e6473182d";
  (* req_txn_commit *) reencodes TxnCommitRequest "a16674786e5f69645088888888888888888888888888888888";
  (* req_txn_abort *) reencodes TxnAbortRequest "a16674786e5f69645088888888888888888888888888888888";
  (* req_subscribe *) reencodes SubscribeRequest "a56666696c746572a56e73657373696f6e5f66696c746572820709656b696e64738201026a73696d696c61725f746fa2737265666572656e63655f6d656d6f72795f6964c24a07002a00000000123456697468726573686f6c64fa3f3851ec6673706163657382502222222222222222222222222222222250999999999999999999999999999999996a6d656d6f72795f69647382c24a05000d000000000abcdec24a09001f000000000fedcb6f696e636c7564655f686973746f7279f56866726f6d5f6c736e1910006c6d61785f696e666c696768741840666163745f6173a2696e616d6573706163656b74656e616e742d61636d6565737061636573737570706f72742d626f743a75736572313233";
  (* req_unsubscribe *) reencodes UnsubscribeRequest "a1707461726765745f73747265616d5f69640b";
  (* req_ping *) reencodes PingRequest "a1781b636c69656e745f74696d657374616d705f756e69785f6e616e6f731b17979cfe4510b280";
  (* req_client_pong *) reencodes ClientPongRequest "a2781b7365727665725f74696d657374616d705f756e69785f6e616e6f731b17979cfe362a0000781b636c69656e745f74696d657374616d705f756e69785f6e616e6f731b17979cfe62de1780";
  (* req_bye *) reencodes ByeRequest "a166726561736f6e7824636c69656e74207368757474696e6720646f776e3a20726f6c6c696e67206465706c6f79";
  (* req_cancel_stream *) reencodes CancelStreamRequest "a2707461726765745f73747265616d5f69640d66726561736f6ea1654f7468657277636c69656e742062756467657420657868617573746564";
  (* req_get_capabilities *) reencodes GetCapabilitiesRequest "a0";
  (* req_get_capabilities_act_as *) reencodes GetCapabilitiesRequest "a1666163745f6173a2696e616d6573706163656b74656e616e742d61636d6565737061636573737570706f72742d626f743a75736572313233";
  (* req_link *) reencodes LinkRequest "a766736f75726365c24a05000d000000000abcde66746172676574c24a09001f000000000fedcb646b696e640466776569676874f9ba006a726571756573745f696450111111111111111111111111111111116674786e5f69645088888888888888888888888888888888666163745f6173a2696e616d6573706163656b74656e616e742d61636d6565737061636573737570706f72742d626f743a75736572313233";
  (* req_unlink *) reencodes UnlinkRequest "a666736f75726365c24a05000d000000000abcde66746172676574c24a09001f000000000fedcb646b696e64076a726571756573745f696450111111111111111111111111111111116674786e5f69645088888888888888888888888888888888666163745f6173a2696e616d6573706163656b74656e616e742d61636d6565737061636573737570706f72742d626f743a75736572313233"].

(** The response payloads of the corpus. *)
Definition response_cases : list bool := [
  (* resp_welcome *) reencodes WelcomePayload "a5697365727665725f69647818627261696e2d7365727665722f636f6e666f726d616e63656e63686f73656e5f76657273696f6e016d636f6e6e656374696f6e5f696450555555555555555555555555555555556c6361706162696c6974696573a36973747265616d696e67f570636f6d7072657373696f6e5f7a737464f46b7365727665725f70757368f46f7365727665725f6665617475726573a4706d61785f7061796c6f61645f73697a651a00ffffff766d61785f636f6e63757272656e745f73747265616d731904007469646c655f74696d656f75745f7365636f6e647319012c6c617574685f6d6574686f6473820001";
  (* resp_auth_ok *) reencodes AuthOkPayload "a56873706163655f696450222222222222222222222222222222226e626f756e645f73686172645f6964056b7065726d697373696f6e73a76a63616e5f656e636f6465f56a63616e5f726563616c6cf56863616e5f706c616ef56a63616e5f726561736f6ef56a63616e5f666f72676574f56963616e5f61646d696ef46a63616e5f6163745f6173f4696e616d6573706163656461636d65767365727665725f74696d655f756e69785f6e616e6f731b17979cfe362a0000";
  (* resp_auth_ok_act_as *) reencodes AuthOkPayload "a56873706163655f696450222222222222222222222222222222226e626f756e645f73686172645f6964056b7065726d697373696f6e73a76a63616e5f656e636f6465f56a63616e5f726563616c6cf56863616e5f706c616ef56a63616e5f726561736f6ef56a63616e5f666f72676574f56963616e5f61646d696ef46a63616e5f6163745f6173f5696e616d6573706163656461636d65767365727665725f74696d655f756e69785f6e616e6f731b17979cfe362a0000";
  (* resp_encode *) reencodes EncodeResponse "ad696d656d6f72795f6964c24a07002a00000000123456707761735f64656475706c696361746564f46873616c69656e6365f93800706175746f5f65646765735f616464656401636c736e182a6873706163655f696450222222222222222222222222222222226a73657373696f6e5f696401646b696e640075637265617465645f61745f756e69785f6e616e6f731b17979cfe362a00006f65646765735f6f75745f636f756e740172656d62656464696e675f6d6f64656c5f667050333333333333333333333333333333336e70656e64696e675f7374616765738100716861735f6163746976655f736368656d61f5";
  (* resp_encode_trace *) reencodes EncodeResponse "ae696d656d6f72795f6964c24a07002a00000000123456707761735f64656475706c696361746564f46873616c69656e6365f93800706175746f5f65646765735f616464656401636c736e182a6873706163655f696450222222222222222222222222222222226a73657373696f6e5f696401646b696e640075637265617465645f61745f756e69785f6e616e6f731b17979cfe362a00006f65646765735f6f75745f636f756e740172656d62656464696e675f6d6f64656c5f667050333333333333333333333333333333336e70656e64696e675f7374616765738100716861735f6163746976655f736368656d61f5657472616365a36673746167657386a4646e616d656876616c696461746566737461747573006a6c6174656e63795f7573036664657461696c60a5646e616d6565656d62656466737461747573006a6c6174656e63795f75731904b06664657461696c6764696d3d333834686172746966616374a166766563746f7284fa3dcccccdfabe4ccccdfa3e99999afa3ecccccda4646e616d65677265736572766566737461747573006a6c6174656e63795f7573056664657461696c60a5646e616d65677065727369737466737461747573006a6c6174656e63795f75731903206664657461696c666c736e3d3432686172746966616374a1667265636f7264a8696d656d6f72795f6964c24a07002a00000000123456646b696e64006873616c69656e6365f9380075637265617465645f61745f756e69785f6e616e6f731b17979cfe362a0000766f636375727265645f61745f756e69785f6e616e6f73006a766563746f725f64696d19018068746578745f6c656e182a636c736e182aa5646e616d6569657874726163746f7266737461747573006a6c6174656e63795f757319a4106664657461696c7833656e7469746965733d322073746174656d656e74733d312072656c6174696f6e733d302061756469743d537563636565646564686172746966616374a36e687970655f7175657374696f6e73827357686f20776f726b73206f6e20627261696e3f78185768617420646f6573206e6972616a20776f726b206f6e3f6e6b6579776f72645f6669656c647381a2656669656c646b6d656d6f72795f74657874657465726d7383656e6972616a65627261696e65776f726b73656772617068a2656e6f64657382a46269645044444444444444444444444444444444646e616d65656e6972616a646b696e6466656e746974796a747970655f716e616d656a6f72673a706572736f6ea46269645000000000000007002a00000000123456646e616d6565627261696e646b696e6466656e746974796a747970655f716e616d656b6f72673a70726f6a65637465656467657381a666736f757263655044444444444444444444444444444444667461726765745000000000000007002a00000000123456697072656469636174656c6f72673a776f726b735f6f6e646b696e646973746174656d656e746a636f6e666964656e6365fa3f666666736576656e745f61745f756e69785f6e616e6f731b18867251edfa0000a4646e616d65696175746f5f6564676566737461747573036a6c6174656e63795f7573006664657461696c7833737461676520646964206e6f7420636f6d706c6574652077697468696e2074686520747261636520776169742077696e646f7769617274696661637473a568656e74697469657381a36269645044444444444444444444444444444444646e616d6565627261696e6a747970655f716e616d656b6f72673a70726f6a6563746a73746174656d656e747381a66269645000000000000007002a000000001234566c7375626a6563745f6e616d65656e6972616a697072656469636174656c6f72673a776f726b735f6f6e6b6f626a6563745f6e616d6565627261696e6a636f6e666964656e6365fa3f666666736576656e745f61745f756e69785f6e616e6f731b18867251edfa00006972656c6174696f6e7381a36b736f757263655f6e616d65656e6972616a697072656469636174656d6f72673a6d656d6265725f6f666b7461726765745f6e616d65686172632d6c61627367696e646578657383a2646e616d656b6d656d6f72795f686e73776673746174757300a2646e616d656b6d656d6f72795f746578746673746174757300a2646e616d656e73746174656d656e745f746578746673746174757300656465647570a2707761735f64656475706c696361746564f4716d6174636865645f6d656d6f72795f6964f670746f74616c5f6c6174656e63795f757319abea";
  (* resp_recall *) reencodes RecallResponseFrame "a56b616e737765725f6b696e64644e6f6e65686d656d6f72696573806869735f66696e616cf57063756d756c61746976655f636f756e740073657374696d617465645f72656d61696e696e6700";
  (* resp_recall_trace *) reencodes RecallResponseFrame "a66b616e737765725f6b696e64644e6f6e65686d656d6f72696573806869735f66696e616cf57063756d756c61746976655f636f756e740073657374696d617465645f72656d61696e696e6700657472616365a56a7265747269657665727382a6646e616d650066737461747573006d7374617475735f64657461696c606a6c6174656e63795f6d73f93e006f63616e6469646174655f636f756e740c6a63616e6469646174657380a6646e616d650266737461747573016d7374617475735f64657461696c696e6f20616e63686f726a6c6174656e63795f6d73f900006f63616e6469646174655f636f756e74006a63616e64696461746573806c66696c7465725f636861696eaf666265666f72650c6a61667465725f747970650c6e61667465725f74656d706f72616c0a7061667465725f636f6e666964656e6365086f61667465725f746f6d6273746f6e65087261667465725f737570657273657373696f6e076b61667465725f61735f6f66076b61667465725f6c696d6974056f64726f707065645f62795f74797065807364726f707065645f62795f74656d706f72616c807564726f707065645f62795f636f6e666964656e6365807464726f707065645f62795f746f6d6273746f6e65807764726f707065645f62795f737570657273657373696f6e81a2646b696e6401626964c24a07002a000000001234567064726f707065645f62795f61735f6f6681a2646b696e6403626964c24a07002a000000001234567064726f707065645f62795f6c696d697481a2646b696e6400626964c24a07002a0000000012345666726572616e6ba5676170706c696564f56a63616e64696461746573056a6c6174656e63795f6d73f940806c6265666f72655f6f72646572806b61667465725f6f726465728070746f74616c5f6c6174656e63795f6d73f944c066667573696f6ef6";
  (* resp_forget *) reencodes ForgetResponse "a3696d656d6f72795f6964c24a07002a00000000123456757761735f616c72656164795f666f72676f7474656ef46d65646765735f72656d6f76656402";
  (* resp_entity_create *) reencodes EntityCreateResponse "a169656e746974795f69645044444444444444444444444444444444";
  (* resp_statement_create *) reencodes StatementCreateResponse "a36c73746174656d656e745f696450111111111111111111111111111111116f6175746f5f7375706572736564656450000000000000000000000000000000006a636861696e5f726f6f745011111111111111111111111111111111";
  (* resp_relation_create *) reencodes RelationCreateResponse "a16b72656c6174696f6e5f69645011111111111111111111111111111111";
  (* resp_schema_upload *) reencodes SchemaUploadResponse "a5696e616d657370616365636f72676e736368656d615f76657273696f6e017176616c69646174696f6e5f6572726f727380736261636b776172645f636f6d70617469626c65f5766d6967726174696f6e5f73756d6d6172795f626c6f6280";
  (* resp_materialize_procedural *) reencodes MaterializeProceduralResponse "a46c73797374656d5f626c6f636b752323204265686176696f72730a2d207374657020316d73746174656d656e745f69647381501111111111111111111111111111111170746f74616c5f63616e6469646174657301717472696d6d65645f62795f627564676574f4";
  (* resp_query_explain *) reencodes QueryExplainResponse "a269706c616e5f74657874782b73656d616e74696320e288aa206772617068202d3e20727266286b3d363029202d3e206c696d697420323071657374696d617465645f636f73745f6d73f93d00";
  (* resp_query_trace *) reencodes QueryTraceResponse "a26a74726163655f74657874782b73656d616e74696320302e346d73202d3e20677261706820312e316d73202d3e206675736520302e326d7370746f74616c5f6c6174656e63795f6d73f94100";
  (* resp_entity_get *) reencodes EntityGetResponse "a266656e74697479ac69656e746974795f696450444444444444444444444444444444446e656e746974795f747970655f6964016e63616e6f6e6963616c5f6e616d65634164616f6e6f726d616c697a65645f6e616d656361646167616c69617365738166416461204c2e6f617474726962757465735f626c6f628d1872186f186c1865183d1865186e18671869186e1865186518726d6d656e74696f6e5f636f756e740375637265617465645f61745f756e69785f6e616e6f731b17979cfe362a000075757064617465645f61745f756e69785f6e616e6f731b17979cfe71c4ca006b6d65726765645f696e746f500000000000000000000000000000000071656d62656464696e675f76657273696f6e0165666c616773006d7265736f6c7665645f66726f6d8290070707070707070707070707070707079008080808080808080808080808080808";
  (* resp_entity_list *) reencodes EntityListResponseFrame "a4656974656d7381a166656e74697479ac69656e746974795f696450444444444444444444444444444444446e656e746974795f747970655f6964016e63616e6f6e6963616c5f6e616d65634164616f6e6f726d616c697a65645f6e616d656361646167616c69617365738166416461204c2e6f617474726962757465735f626c6f628d1872186f186c1865183d1865186e18671869186e1865186518726d6d656e74696f6e5f636f756e740375637265617465645f61745f756e69785f6e616e6f731b17979cfe362a000075757064617465645f61745f756e69785f6e616e6f731b17979cfe71c4ca006b6d65726765645f696e746f500000000000000000000000000000000071656d62656464696e675f76657273696f6e0165666c616773006b6e6578745f637572736f72807063756d756c61746976655f636f756e74016869735f66696e616cf5";
  (* resp_entity_resolve *) reencodes EntityResolveResponse "a6676f7574636f6d65016474696572026a636f6e666964656e6365fa3f7333336f7265736f6c7665645f656e7469747950444444444444444444444444444444446d63616e6469646174655f696473806861756469745f69645000000000000000000000000000000000";
  (* resp_statement_get *) reencodes StatementGetResponse "a26973746174656d656e74b76c73746174656d656e745f69645011111111111111111111111111111111646b696e646446616374677375626a656374504444444444444444444444444444444478187375626a6563745f70656e64696e675f61756469745f69645000000000000000000000000000000000697072656469636174656c6f72673a776f726b735f6f6e666f626a656374a16556616c7565a1645465787465627261696e6a636f6e666964656e6365fa3f6666666865766964656e6365a166496e6c696e65815000000000000007002a000000001234566c657874726163746f725f696400776578747261637465645f61745f756e69785f6e616e6f731b17979cfe362a00006e736368656d615f76657273696f6e017576616c69645f66726f6d5f756e69785f6e616e6f731b17979cfe362a00007376616c69645f746f5f756e69785f6e616e6f7300736576656e745f61745f756e69785f6e616e6f73006776657273696f6e016d737570657273656465645f627950000000000000000000000000000000006a7375706572736564657350000000000000000000000000000000006a636861696e5f726f6f7450111111111111111111111111111111116a746f6d6273746f6e6564f47818746f6d6273746f6e65645f61745f756e69785f6e616e6f730070746f6d6273746f6e655f726561736f6e0065666c616773006b69735f737461746566756cf4781972657475726e65645f7669615f737570657273657373696f6ef4";
  (* resp_statement_list *) reencodes StatementListResponseFrame "a4656974656d7381b76c73746174656d656e745f69645011111111111111111111111111111111646b696e646446616374677375626a656374504444444444444444444444444444444478187375626a6563745f70656e64696e675f61756469745f69645000000000000000000000000000000000697072656469636174656c6f72673a776f726b735f6f6e666f626a656374a16556616c7565a1645465787465627261696e6a636f6e666964656e6365fa3f6666666865766964656e6365a166496e6c696e65815000000000000007002a000000001234566c657874726163746f725f696400776578747261637465645f61745f756e69785f6e616e6f731b17979cfe362a00006e736368656d615f76657273696f6e017576616c69645f66726f6d5f756e69785f6e616e6f731b17979cfe362a00007376616c69645f746f5f756e69785f6e616e6f7300736576656e745f61745f756e69785f6e616e6f73006776657273696f6e016d737570657273656465645f627950000000000000000000000000000000006a7375706572736564657350000000000000000000000000000000006a636861696e5f726f6f7450111111111111111111111111111111116a746f6d6273746f6e6564f47818746f6d6273746f6e65645f61745f756e69785f6e616e6f730070746f6d6273746f6e655f726561736f6e0065666c616773006b69735f737461746566756cf46b6e6578745f637572736f72807063756d756c61746976655f636f756e74016869735f66696e616cf5";
  (* resp_relation_list *) reencodes RelationListFromResponseFrame "a4656974656d7381b26b72656c6174696f6e5f696450111111111111111111111111111111116a636861696e5f726f6f7450111111111111111111111111111111116d72656c6174696f6e5f747970656b6f72673a6d656e746f72736b66726f6d5f656e74697479504444444444444444444444444444444469746f5f656e7469747950222222222222222222222222222222226f70726f706572746965735f626c6f62806865766964656e6365a166496e6c696e65815000000000000007002a000000001234566c657874726163746f725f696400776578747261637465645f61745f756e69785f6e616e6f731b17979cfe362a00006a636f6e666964656e6365fa3f6666667576616c69645f66726f6d5f756e69785f6e616e6f731b17979cfe362a00007376616c69645f746f5f756e69785f6e616e6f73006776657273696f6e016d737570657273656465645f627950000000000000000000000000000000006a7375706572736564657350000000000000000000000000000000006a746f6d6273746f6e6564f47818746f6d6273746f6e65645f61745f756e69785f6e616e6f730065666c616773006b6e6578745f637572736f72807063756d756c61746976655f636f756e74016869735f66696e616cf5";
  (* resp_memory_list *) reencodes MemoryListResponseFrame "a4656974656d7381af696d656d6f72795f6964c250444444444444444444444444444444446873706163655f696450222222222222222222222222222222226a73657373696f6e5f69640164746578746f74686520736b7920697320626c7565646b696e64006573746174650075637265617465645f61745f756e69785f6e616e6f731b17979cfe362a0000766f636375727265645f61745f756e69785f6e616e6f7300781b6c6173745f61636365737365645f61745f756e69785f6e616e6f731b17979cfe71c4ca006873616c69656e6365f938006c6163636573735f636f756e740371736f757263655f726571756573745f696450111111111111111111111111111111116f73746174656d656e745f636f756e74006c656e746974795f636f756e74006e72656c6174696f6e5f636f756e74006b6e6578745f637572736f7285182a0018ff1818187b7063756d756c61746976655f636f756e74016869735f66696e616cf5";
  (* resp_memory_inspect *) reencodes MemoryInspectResponse "a4696d656d6f72795f6964c24a07002a000000001234566474657874746e6972616a20776f726b73206f6e20627261696e686172746966616374a566766563746f7284fa3dcccccdfabe4ccccdfa3e99999afa3ecccccd667265636f7264a8696d656d6f72795f6964c24a07002a00000000123456646b696e64006873616c69656e6365f9380075637265617465645f61745f756e69785f6e616e6f731b17979cfe362a0000766f636375727265645f61745f756e69785f6e616e6f73006a766563746f725f64696d19018068746578745f6c656e14636c736e182a6e687970655f7175657374696f6e73817357686f20776f726b73206f6e20627261696e3f6e6b6579776f72645f6669656c647381a2656669656c646b6d656d6f72795f74657874657465726d7383656e6972616a65627261696e65776f726b73656772617068a2656e6f64657381a46269645044444444444444444444444444444444646e616d65656e6972616a646b696e6466656e746974796a747970655f716e616d656a6f72673a706572736f6e65656467657381a566736f757263655044444444444444444444444444444444667461726765745000000000000007002a00000000123456697072656469636174656c6f72673a776f726b735f6f6e646b696e646973746174656d656e746a636f6e666964656e6365fa3f66666665656467657382a6646b696e640069646972656374696f6e006470656572c24a07002a0000000012345666776569676874f93c0075637265617465645f61745f756e69785f6e616e6f731b17979cfe362a00006a616e6e6f746174696f6ef6a6646b696e640569646972656374696f6e016470656572c24a07002a0000000012345666776569676874f9380075637265617465645f61745f756e69785f6e616e6f731b17979cfe362a00016a616e6e6f746174696f6e716d616e75616c6c79206173736572746564";
  (* resp_graph_fetch *) reencodes GraphFetchResponseFrame "a4656e6f64657384a46269645044444444444444444444444444444444646b696e6400656c6162656c6a5361726168204368656e6a747970655f716e616d656c627261696e3a506572736f6ea46269645011111111111111111111111111111111646b696e6400656c6162656c6f4175726f726120526f626f746963736a747970655f716e616d6572627261696e3a4f7267616e697a6174696f6ea46269645066666666666666666666666666666666646b696e6402656c6162656c78235361726168204368656e20776f726b73206174204175726f726120526f626f746963736a747970655f716e616d6560a46269645077777777777777777777777777777777646b696e6402656c6162656c781c5361726168206a6f696e6564204175726f726120696e204d617263686a747970655f716e616d656065656467657384a46766726f6d5f6964504444444444444444444444444444444465746f5f69645011111111111111111111111111111111646b696e6400656c6162656c6e627261696e3a776f726b735f6174a46766726f6d5f6964506666666666666666666666666666666665746f5f69645044444444444444444444444444444444646b696e6403656c6162656c60a46766726f6d5f6964506666666666666666666666666666666665746f5f69645077777777777777777777777777777777646b696e6407656c6162656c6a73696d696c61725f746fa46766726f6d5f6964506666666666666666666666666666666665746f5f69645077777777777777777777777777777777646b696e6405656c6162656c6b666f6c6c6f7765645f62796b6e6578745f637572736f7285182a0018ff1818187b6869735f66696e616cf5";
  (* resp_plan *) reencodes PlanResponseFrame "a365737465707381a66a737465705f696e64657800696d656d6f72795f6964c24a07002a0000000012345664746578746a666972737420737465706f7472616e736974696f6e5f6b696e646643617573616c6a636f6e666964656e6365fa3f4ccccd781a657374696d617465645f64697374616e63655f746f5f676f616cf938006869735f66696e616cf56b706c616e5f73746174757300";
  (* resp_reason *) reencodes ReasonResponseFrame "a36a696e666572656e63657381a66a737465705f696e6465780065636c61696d6f74686520736b7920697320626c756573737570706f7274696e675f6d656d6f7269657381c24a07002a0000000012345676636f6e74726164696374696e675f6d656d6f72696573806a636f6e666964656e6365fa3f59999a6e696e666572656e63655f6b696e647445766964656e6365416363756d756c6174696f6e6869735f66696e616cf56d726561736f6e5f73746174757300";
  (* resp_plan_trace *) reencodes PlanResponseFrame "a465737465707381a66a737465705f696e64657800696d656d6f72795f6964c24a07002a0000000012345664746578746a666972737420737465706f7472616e736974696f6e5f6b696e646643617573616c6a636f6e666964656e6365fa3f4ccccd781a657374696d617465645f64697374616e63655f746f5f676f616cf938006869735f66696e616cf56b706c616e5f73746174757300657472616365a2686578706c6f72656482a6696d656d6f72795f6964c24a07002a00000000123456647465787478206f726967696e3a20746865207472697020626567696e7320696e20706172697369646972656374696f6e00656465707468006b706172656e745f65646765f66f616c69676e6d656e745f73636f7265f6a6696d656d6f72795f6964c24a07002a000000001234566474657874782264657374696e6174696f6e3a20746865207472697020656e647320696e20726f6d6569646972656374696f6e01656465707468016b706172656e745f65646765c24a07002a000000001234566f616c69676e6d656e745f73636f7265fa3f1eb8526e6d656574696e675f706f696e747382a3696d656d6f72795f6964c24a07002a00000000123456647465787478236c61796f76657220696e206d696c616e20636f6e6e6563747320626f7468206c65677372696e636c756465645f696e5f726573756c74f5a3696d656d6f72795f6964c24a07002a00000000123456647465787478316c61796f76657220696e207a75726963682c2064697363617264656420627920746865206d61785f70617468732063617072696e636c756465645f696e5f726573756c74f4";
  (* resp_reason_trace *) reencodes ReasonResponseFrame "a46a696e666572656e63657381a66a737465705f696e6465780065636c61696d6f74686520736b7920697320626c756573737570706f7274696e675f6d656d6f7269657381c24a07002a0000000012345676636f6e74726164696374696e675f6d656d6f72696573806a636f6e666964656e6365fa3f59999a6e696e666572656e63655f6b696e647445766964656e6365416363756d756c6174696f6e6869735f66696e616cf56d726561736f6e5f73746174757300657472616365a46462617365a16a63616e6469646174657381a3696d656d6f72795f6964c24a07002a0000000012345664746578746f74686520736b7920697320626c75656573636f7265fa3f6666666477616c6ba76a636f6e7369646572656481a6696d656d6f72795f6964c24a07002a000000001234566474657874782474686520736b79207475726e6564206461726b206265666f7265207468652073746f726d69656467655f6b696e6400656465707468016e66726f6d5f6d656d6f72795f6964c24a07002a00000000123456697261775f73636f7265fa3f3333337464726f707065645f62795f656467655f6b696e64807464726f707065645f62795f746f6d6273746f6e6581a2696d656d6f72795f6964c24a07002a000000001234566474657874782b74686520736b792077617320626c7565207965737465726461792c206c61746572207265747261637465647264726f707065645f62795f76697369746564807564726f707065645f62795f636f6e666964656e636581a3696d656d6f72795f6964c24a07002a0000000012345664746578747828736f6d6520636c6f75647320776572652076697369626c6520696e207468652064697374616e63656573636f7265fa3e4ccccd781964726f707065645f62795f6d61785f737570706f7274696e6780781c64726f707065645f62795f6d61785f636f6e74726164696374696e6781a2696d656d6f72795f6964c24a07002a000000001234566474657874783174686520736b792069732061637475616c6c7920677265656e2c20706572206f6e65206f75746c696572207265706f72746773636f72696e6781a8696d656d6f72795f6964c24a07002a0000000012345664746578746f74686520736b7920697320626c75656f626173655f73696d696c6172697479fa3f666666656465636179fa3f7333336e7765696768745f70726f64756374f93c0069616c69676e6d656e74fa3f4ccccd6e616e616c6f676963616c5f666974fa3f9333336b66696e616c5f73636f7265fa3f495e9e6863656e74726f6964a268636f6d7075746564f46e736b69707065645f726561736f6e6e73696e676c65746f6e2062617365";
  (* resp_link *) reencodes LinkResponse "a666736f75726365c24a07002a0000000012345666746172676574c24a07002a00000000123456646b696e640066776569676874fa3f66666675637265617465645f61745f756e69785f6e616e6f731b17979cfe362a00006f616c72656164795f65786973746564f4";
  (* resp_txn_begin *) reencodes TxnBeginResponse "a36674786e5f696450111111111111111111111111111111116f74696d656f75745f7365636f6e6473181e75737461727465645f61745f756e69785f6e616e6f731b17979cfe362a0000";
  (* resp_txn_commit *) reencodes TxnCommitResponse "a36674786e5f6964501111111111111111111111111111111177636f6d6d69747465645f61745f756e69785f6e616e6f731b17979cfe71c4ca00726f7065726174696f6e735f6170706c69656403";
  (* resp_txn_abort *) reencodes TxnAbortResponse "a26674786e5f69645011111111111111111111111111111111746f7065726174696f6e735f64697363617264656402";
  (* resp_extractor_list *) reencodes ExtractorListResponseFrame "a3656974656d7381a66c657874726163746f725f696407696e616d657370616365636f7267646e616d656b6f72672e64656661756c74646b696e64026e736368656d615f76657273696f6e0175637265617465645f61745f756e69785f6e616e6f731b17979cfe362a000065746f74616c016869735f66696e616cf5";
  (* resp_space_create *) reencodes SpaceCreateResponse "a665737061636573737570706f72742d626f743a757365723132336763726561746564f575637265617465645f61745f756e69785f6e616e6f731b17979cfe362a0000766c6173745f6163746976655f756e69785f6e616e6f731b17979cfe362a00006c6d656d6f72795f636f756e74006d73657373696f6e5f636f756e7401";
  (* resp_space_list *) reencodes SpaceListResponse "a26673706163657381a565737061636573737570706f72742d626f743a7573657231323375637265617465645f61745f756e69785f6e616e6f731b17979cfe362a0000766c6173745f6163746976655f756e69785f6e616e6f731b17979cfe53f765006c6d656d6f72795f636f756e74182a6d73657373696f6e5f636f756e74037463726f73735f73686172645f636f6d706c657465f4";
  (* resp_space_delete *) reencodes SpaceDeleteResponse "a365737061636573737570706f72742d626f743a757365723132336765786973746564f5726d656d6f726965735f666f72676f7474656e182a";
  (* resp_session_create *) reencodes SessionCreateResponse "a66873706163655f696450222222222222222222222222222222226a73657373696f6e5f6964076763726561746564f575637265617465645f61745f756e69785f6e616e6f731b17979cfe362a0000766c6173745f6163746976655f756e69785f6e616e6f731b17979cfe362a00006c6d656d6f72795f636f756e7400";
  (* resp_session_list *) reencodes SessionListResponse "a26873706163655f696450222222222222222222222222222222226873657373696f6e7381a56a73657373696f6e5f69640775637265617465645f61745f756e69785f6e616e6f731b17979cfe362a0000766c6173745f6163746976655f756e69785f6e616e6f731b17979cfe6bcee900657469746c656d70726f6a65637420616c7068616c6d656d6f72795f636f756e740c";
  (* resp_session_delete *) reencodes SessionDeleteResponse "a46873706163655f696450222222222222222222222222222222226a73657373696f6e5f6964076765786973746564f5726d656d6f726965735f666f72676f7474656e0c";
  (* resp_get_capabilities *) reencodes GetCapabilitiesResponse "a16c6361706162696c6974696573a666726572616e6bf56d6c6c6d5f657874726163746f72f474636c61737369666965725f657874726163746f72f5717061747465726e5f657874726163746f72f571736368656d615f6e616d6573706163657381636f72676a766563746f725f64696d190180";
  (* resp_subscribe_event *) reencodes SubscriptionEvent "ad6a6576656e745f7479706500696d656d6f72795f6964c24a07002a000000001234566a73657373696f6e5f69640164746578746f74686520736b7920697320626c7565646b696e64006873616c69656e6365f938007474696d657374616d705f756e69785f6e616e6f731b17979cfe362a0000636c736e182a6d67726170685f7061796c6f6164f66c656467655f7061796c6f6164f66a73746167655f6b696e64f66d73746167655f6f7574636f6d65f66d73746167655f7061796c6f6164f6";
  (* resp_pong *) reencodes PongResponse "a2781b636c69656e745f74696d657374616d705f756e69785f6e616e6f731b17979cfe362a0000781b7365727665725f74696d657374616d705f756e69785f6e616e6f731b17979cfe53f76500";
  (* resp_server_ping *) reencodes ServerPingResponse "a1781b7365727665725f74696d657374616d705f756e69785f6e616e6f731b17979cfe362a0000";
  (* resp_error_protocol *) reencodes ErrorResponse "a564636f6465016863617465676f727900676d657373616765736669786564206572726f72206d6573736167656764657461696c73a3656669656c6465746f705f6b686578706563746564695b312c20313030305d6661637475616c64353030306e72657472795f61667465725f6d73f6";
  (* resp_error_authentication *) reencodes ErrorResponse "a564636f646518226863617465676f727901676d657373616765736669786564206572726f72206d6573736167656764657461696c73a3656669656c6465746f705f6b686578706563746564695b312c20313030305d6661637475616c64353030306e72657472795f61667465725f6d73f6";
  (* resp_error_authorization *) reencodes ErrorResponse "a564636f646518306863617465676f727902676d657373616765736669786564206572726f72206d6573736167656764657461696c73a3656669656c6465746f705f6b686578706563746564695b312c20313030305d6661637475616c64353030306e72657472795f61667465725f6d73f6";
  (* resp_error_validation *) reencodes ErrorResponse "a564636f646518406863617465676f727903676d657373616765736669786564206572726f72206d6573736167656764657461696c73a3656669656c6465746f705f6b686578706563746564695b312c20313030305d6661637475616c64353030306e72657472795f61667465725f6d73f6";
  (* resp_error_not_found *) reencodes ErrorResponse "a564636f646518506863617465676f727904676d657373616765736669786564206572726f72206d6573736167656764657461696c73a3656669656c6465746f705f6b686578706563746564695b312c20313030305d6661637475616c64353030306e72657472795f61667465725f6d73f6";
  (* resp_error_conflict *) reencodes ErrorResponse "a564636f646518606863617465676f727905676d657373616765736669786564206572726f72206d6573736167656764657461696c73a3656669656c6465746f705f6b686578706563746564695b312c20313030305d6661637475616c64353030306e72657472795f61667465725f6d73f6";
  (* resp_error_resource_exhausted *) reencodes ErrorResponse "a564636f646518706863617465676f727906676d657373616765736669786564206572726f72206d6573736167656764657461696c73a3656669656c6465746f705f6b686578706563746564695b312c20313030305d6661637475616c64353030306e72657472795f61667465725f6d73f6";
  (* resp_error_internal *) reencodes ErrorResponse "a564636f646518806863617465676f727907676d657373616765736669786564206572726f72206d6573736167656764657461696c73a3656669656c6465746f705f6b686578706563746564695b312c20313030305d6661637475616c64353030306e72657472795f61667465725f6d73f6";
  (* resp_error_unavailable *) reencodes ErrorResponse "a564636f646518906863617465676f727908676d657373616765736669786564206572726f72206d6573736167656764657461696c73a3656669656c6465746f705f6b686578706563746564695b312c20313030305d6661637475616c64353030306e72657472795f61667465725f6d73f6";
  (* resp_error_act_as_denied *) reencodes ErrorResponse "a564636f646518336863617465676f727902676d65737361676578207072696e636970616c206e6f7420656e7469746c656420746f206163745f61736764657461696c73f66e72657472795f61667465725f6d73f6";
  (* resp_entity_update *) reencodes EntityUpdateResponse "a166656e74697479ac69656e746974795f696450444444444444444444444444444444446e656e746974795f747970655f6964046e63616e6f6e6963616c5f6e616d656c416461204c6f76656c6163656f6e6f726d616c697a65645f6e616d656c616461206c6f76656c61636567616c69617365738366416461204c2e6b412e204c6f76656c61636574436f756e74657373206f66204c6f76656c6163656f617474726962757465735f626c6f6298291872186f186c1865183d186d1861187418681865186d186118741869186318691861186e183b187418651861186d183d1861186e1861186c18791874186918631861186c182d1865186e18671869186e18656d6d656e74696f6e5f636f756e741175637265617465645f61745f756e69785f6e616e6f731b1869392e2fe9800075757064617465645f61745f756e69785f6e616e6f731b18867251edfa00006b6d65726765645f696e746f500000000000000000000000000000000071656d62656464696e675f76657273696f6e0565666c61677300";
  (* resp_entity_rename *) reencodes EntityRenameResponse "a166656e74697479ac69656e746974795f696450444444444444444444444444444444446e656e746974795f747970655f6964046e63616e6f6e6963616c5f6e616d65704175677573746120416461204b696e676f6e6f726d616c697a65645f6e616d65706175677573746120616461206b696e6767616c69617365738466416461204c2e6b412e204c6f76656c61636574436f756e74657373206f66204c6f76656c6163656c416461204c6f76656c6163656f617474726962757465735f626c6f6298291872186f186c1865183d186d1861187418681865186d186118741869186318691861186e183b187418651861186d183d1861186e1861186c18791874186918631861186c182d1865186e18671869186e18656d6d656e74696f6e5f636f756e741175637265617465645f61745f756e69785f6e616e6f731b1869392e2fe9800075757064617465645f61745f756e69785f6e616e6f731b1886c0e67f4900006b6d65726765645f696e746f500000000000000000000000000000000071656d62656464696e675f76657273696f6e0665666c61677300";
  (* resp_entity_merge *) reencodes EntityMergeResponse "a26861756469745f696450777777777777777777777777777777777467726163655f706572696f645f7365636f6e64731a00093a80";
  (* resp_entity_unmerge *) reencodes EntityUnmergeResponse "a172726573746f7265645f656e746974795f69645066666666666666666666666666666666";
  (* resp_entity_tombstone *) reencodes EntityTombstoneResponse "a17818746f6d6273746f6e65645f61745f756e69785f6e616e6f731b1886c0e67f490000";
  (* resp_entity_get_merged *) reencodes EntityGetResponse "a266656e74697479ac69656e746974795f696450666666666666666666666666666666666e656e746974795f747970655f6964046e63616e6f6e6963616c5f6e616d656b412e204c6f76656c6163656f6e6f726d616c697a65645f6e616d656b612e206c6f76656c61636567616c6961736573816c4c6f76656c6163652c20412e6f617474726962757465735f626c6f62921872186f186c1865183d186d1861187418681865186d186118741869186318691861186e6d6d656e74696f6e5f636f756e740275637265617465645f61745f756e69785f6e616e6f731b186affed824cc00075757064617465645f61745f756e69785f6e616e6f731b1886c0e67f4900006b6d65726765645f696e746f504444444444444444444444444444444471656d62656464696e675f76657273696f6e0365666c616773036d7265736f6c7665645f66726f6d80";
  (* resp_relation_get *) reencodes RelationGetResponse "a26872656c6174696f6eb26b72656c6174696f6e5f696450727272727272727272727272727272726a636861696e5f726f6f7450606162636465666768696a6b6c6d6e6f6d72656c6174696f6e5f747970656e6f72673a7265706f7274735f746f6b66726f6d5f656e74697479504444444444444444444444444444444469746f5f656e7469747950737373737373737373737373737373736f70726f706572746965735f626c6f62981c18731869186e18631865183d1832183018321834182d18301833182d18301831183b187718651869186718681874183d1830182e183818306865766964656e6365a1684f766572666c6f7750747474747474747474747474747474746c657874726163746f725f696403776578747261637465645f61745f756e69785f6e616e6f731b18867251edfa00006a636f6e666964656e6365fa3f3851ec7576616c69645f66726f6d5f756e69785f6e616e6f731b18867251edfa00007376616c69645f746f5f756e69785f6e616e6f731b1886c0e67f4900006776657273696f6e036d737570657273656465645f627950000000000000000000000000000000006a7375706572736564657350717171717171717171717171717171716a746f6d6273746f6e6564f57818746f6d6273746f6e65645f61745f756e69785f6e616e6f731b18870f7b1098000065666c61677301781972657475726e65645f7669615f737570657273657373696f6ef5";
  (* resp_relation_supersede *) reencodes RelationSupersedeResponse "a26f6e65775f72656c6174696f6e5f696450727272727272727272727272727272726776657273696f6e03";
  (* resp_relation_tombstone *) reencodes RelationTombstoneResponse "a17818746f6d6273746f6e65645f61745f756e69785f6e616e6f731b18870f7b10980000";
  (* resp_relation_list_to *) reencodes RelationListToResponseFrame "a4656974656d7382b26b72656c6174696f6e5f696450727272727272727272727272727272726a636861696e5f726f6f7450606162636465666768696a6b6c6d6e6f6d72656c6174696f6e5f747970656e6f72673a7265706f7274735f746f6b66726f6d5f656e74697479504444444444444444444444444444444469746f5f656e7469747950737373737373737373737373737373736f70726f706572746965735f626c6f62981c18731869186e18631865183d1832183018321834182d18301833182d18301831183b187718651869186718681874183d1830182e183818306865766964656e6365a1684f766572666c6f7750747474747474747474747474747474746c657874726163746f725f696403776578747261637465645f61745f756e69785f6e616e6f731b18867251edfa00006a636f6e666964656e6365fa3f3851ec7576616c69645f66726f6d5f756e69785f6e616e6f731b18867251edfa00007376616c69645f746f5f756e69785f6e616e6f731b1886c0e67f4900006776657273696f6e036d737570657273656465645f627950000000000000000000000000000000006a7375706572736564657350717171717171717171717171717171716a746f6d6273746f6e6564f57818746f6d6273746f6e65645f61745f756e69785f6e616e6f731b18870f7b1098000065666c61677301b26b72656c6174696f6e5f696450717171717171717171717171717171716a636861696e5f726f6f7450606162636465666768696a6b6c6d6e6f6d72656c6174696f6e5f747970656b6f72673a6d656e746f72736b66726f6d5f656e74697479507373737373737373737373737373737369746f5f656e7469747950444444444444444444444444444444446f70726f706572746965735f626c6f629018731869186e18631865183d1832183018321833182d18311831182d183118346865766964656e6365a166496e6c696e65825000000000000007002a0000000012345650606162636465666768696a6b6c6d6e6f6c657874726163746f725f696407776578747261637465645f61745f756e69785f6e616e6f731b18866f0bbd4160006a636f6e666964656e6365fa3f0ccccd7576616c69645f66726f6d5f756e69785f6e616e6f731b18866bc58c88c0007376616c69645f746f5f756e69785f6e616e6f731b18867251edfa00006776657273696f6e026d737570657273656465645f627950727272727272727272727272727272726a7375706572736564657350606162636465666768696a6b6c6d6e6f6a746f6d6273746f6e6564f47818746f6d6273746f6e65645f61745f756e69785f6e616e6f730065666c616773006b6e6578745f637572736f72840318a1185c087063756d756c61746976655f636f756e74026869735f66696e616cf4";
  (* resp_relation_traverse *) reencodes RelationTraverseResponseFrame "a465706174687382a165737465707382a56b72656c6174696f6e5f696450606162636465666768696a6b6c6d6e6f6466726f6d504444444444444444444444444444444462746f50737373737373737373737373737373736d72656c6174696f6e5f747970656b6f72673a6d656e746f727365646570746801a56b72656c6174696f6e5f696450727272727272727272727272727272726466726f6d507373737373737373737373737373737362746f50555555555555555555555555555555556d72656c6174696f6e5f747970656e6f72673a7265706f7274735f746f65646570746802a165737465707381a56b72656c6174696f6e5f696450717171717171717171717171717171716466726f6d504444444444444444444444444444444462746f50555555555555555555555555555555556d72656c6174696f6e5f74797065756f72673a636f6c6c61626f72617465735f77697468656465707468016b746f74616c5f706174687302697472756e6361746564f56869735f66696e616cf5";
  (* resp_statement_supersede *) reencodes StatementSupersedeResponse "a3706e65775f73746174656d656e745f696450929292929292929292929292929292926a636861696e5f726f6f7450919191919191919191919191919191916776657273696f6e04";
  (* resp_statement_tombstone *) reencodes StatementTombstoneResponse "a17818746f6d6273746f6e65645f61745f756e69785f6e616e6f731b188675981eb2a000";
  (* resp_statement_retract *) reencodes StatementRetractResponse "a2777265747261637465645f61745f756e69785f6e616e6f731b188678de4f6b40007777696c6c5f7a65726f5f61745f756e69785f6e616e6f731b188fae4756ad4000";
  (* resp_statement_history *) reencodes StatementHistoryResponseFrame "a5656974656d7383b76c73746174656d656e745f69645091919191919191919191919191919191646b696e646a507265666572656e6365677375626a656374500000000000000000000000000000000078187375626a6563745f70656e64696e675f61756469745f6964509393939393939393939393939393939369707265646963617465746f72673a7072656665727265645f656469746f72666f626a656374a16556616c7565a169556e69784e616e6f731b18867251edfa00006a636f6e666964656e6365fa3f0ccccd6865766964656e6365a1684f766572666c6f7750949494949494949494949494949494946c657874726163746f725f696405776578747261637465645f61745f756e69785f6e616e6f731b188623bd5cab00006e736368656d615f76657273696f6e037576616c69645f66726f6d5f756e69785f6e616e6f731b188623bd5cab00007376616c69645f746f5f756e69785f6e616e6f731b18867251edfa0000736576656e745f61745f756e69785f6e616e6f73006776657273696f6e016d737570657273656465645f627950929292929292929292929292929292926a7375706572736564657350000000000000000000000000000000006a636861696e5f726f6f7450919191919191919191919191919191916a746f6d6273746f6e6564f57818746f6d6273746f6e65645f61745f756e69785f6e616e6f731b188675981eb2a00070746f6d6273746f6e655f726561736f6e0365666c616773016b69735f737461746566756cf5b76c73746174656d656e745f69645092929292929292929292929292929292646b696e64654576656e74677375626a6563745000000000000007002a0000000012345678187375626a6563745f70656e64696e675f61756469745f6964500000000000000000000000000000000069707265646963617465736f72673a736869707065645f72656c65617365666f626a656374a16c53746174656d656e7452656650919191919191919191919191919191916a636f6e666964656e6365fa3f547ae16865766964656e6365a166496e6c696e65825000000000000007002a0000000012345650919191919191919191919191919191916c657874726163746f725f696407776578747261637465645f61745f756e69785f6e616e6f731b18867251edfa00006e736368656d615f76657273696f6e047576616c69645f66726f6d5f756e69785f6e616e6f731b18867251edfa00007376616c69645f746f5f756e69785f6e616e6f731b18889861e7230000736576656e745f61745f756e69785f6e616e6f731b188673f5065650006776657273696f6e026d737570657273656465645f627950808182838485868788898a8b8c8d8e8f6a7375706572736564657350919191919191919191919191919191916a636861696e5f726f6f7450919191919191919191919191919191916a746f6d6273746f6e6564f47818746f6d6273746f6e65645f61745f756e69785f6e616e6f730070746f6d6273746f6e655f726561736f6e0065666c616773026b69735f737461746566756cf4b76c73746174656d656e745f696450808182838485868788898a8b8c8d8e8f646b696e64a166437573746f6d09677375626a656374504444444444444444444444444444444478187375626a6563745f70656e64696e675f61756469745f6964500000000000000000000000000000000069707265646963617465716f72673a637573746f6d5f7369676e616c666f626a656374a1694d656d6f72795265665000000000000007002a000000001234566a636f6e666964656e6365fa3f7d70a46865766964656e6365a166496e6c696e65815000000000000007002a000000001234566c657874726163746f725f69640b776578747261637465645f61745f756e69785f6e616e6f731b188675981eb2a0006e736368656d615f76657273696f6e057576616c69645f66726f6d5f756e69785f6e616e6f731b188675981eb2a0007376616c69645f746f5f756e69785f6e616e6f731b188abe71e04c0000736576656e745f61745f756e69785f6e616e6f73006776657273696f6e036d737570657273656465645f627950000000000000000000000000000000006a7375706572736564657350929292929292929292929292929292926a636861696e5f726f6f7450919191919191919191919191919191916a746f6d6273746f6e6564f47818746f6d6273746f6e65645f61745f756e69785f6e616e6f730070746f6d6273746f6e655f726561736f6e0065666c616773006b69735f737461746566756cf56a636861696e5f726f6f7450919191919191919191919191919191916e746f74616c5f76657273696f6e73036b6e6578745f637572736f72806869735f66696e616cf5";
  (* resp_schema_get *) reencodes SchemaGetResponse "a6696e616d657370616365636f72676e736368656d615f76657273696f6e036f736368656d615f646f63756d656e74783a6e616d657370616365206f72670a646566696e6520656e746974795f7479706520506572736f6e207b2061747472696275746573207b7d207d0a6b736f757263655f626c6f62982d187b1822186e1861186d1865187318701861186318651822183a1822186f187218671822182c18221865186e1874186918741879185f187418791870186518731822183a185b18221850186518721873186f186e1822185d187d7675706c6f616465645f61745f756e69785f6e616e6f731b18867251edfa00007176616c696461746f725f76657273696f6e02";
  (* resp_schema_list *) reencodes SchemaListResponseFrame "a5696e616d657370616365636f7267656974656d7382a46e736368656d615f76657273696f6e037675706c6f616465645f61745f756e69785f6e616e6f731b18867251edfa00007176616c696461746f725f76657273696f6e026f6861735f736f757263655f74657874f5a46e736368656d615f76657273696f6e027675706c6f616465645f61745f756e69785f6e616e6f731b188623bd5cab00007176616c696461746f725f76657273696f6e016f6861735f736f757263655f74657874f465746f74616c036b6e6578745f637572736f7285189a020000026869735f66696e616cf4";
  (* resp_schema_validate *) reencodes SchemaValidateResponse "a3696e616d657370616365636f726770776f756c645f62655f76657273696f6e007176616c69646174696f6e5f6572726f727381a664636f646574556e6b6e6f776e41747472696275746554797065676d6573736167657837756e6b6e6f776e206174747269627574652074797065202774696d657374616d707a27206f6e20506572736f6e2e6a6f696e65645f6174646c696e650466636f6c756d6e11666c656e6774680b68736576657269747902";
  (* resp_schema_replace *) reencodes SchemaReplaceResponse "a4696e616d657370616365636f72676e736368656d615f76657273696f6e046d64726f707065645f636f756e74117176616c69646174696f6e5f6572726f727380";
  (* resp_schema_drop *) reencodes SchemaDropResponse "a7696e616d657370616365636f72676e736368656d615f76657273696f6e046b7461726765745f6b696e64016b7461726765745f6e616d65676d656e746f72736764726f70706564f5696c6976655f726f7773057176616c69646174696f6e5f6572726f727380";
  (* resp_unsubscribe *) reencodes UnsubscribeResponse "a2707461726765745f73747265616d5f69640b6966696e616c5f6c736e191073";
  (* resp_unlink *) reencodes UnlinkResponse "a466736f75726365c24a05000d000000000abcde66746172676574c24a09001f000000000fedcb646b696e64076772656d6f766564f5";
  (* resp_encode_vector_direct *) reencodes EncodeResponse "ad696d656d6f72795f6964c24a09001f000000000fedcb707761735f64656475706c696361746564f56873616c69656e6365fa3f51eb85706175746f5f65646765735f616464656403636c736e1912676873706163655f696450222222222222222222222222222222226a73657373696f6e5f696409646b696e640175637265617465645f61745f756e69785f6e616e6f731b18867251edfa00006f65646765735f6f75745f636f756e740572656d62656464696e675f6d6f64656c5f667050333333333333333333333333333333336e70656e64696e675f737461676573820203716861735f6163746976655f736368656d61f5";
  (* resp_cancel_stream_ack *) reencodes CancelStreamAck "a2707461726765745f73747265616d5f69640d7763616e63656c6c65645f61745f756e69785f6e616e6f731b17979cfe3d9d5940"].

(** The frames of the corpus. *)
Definition frame_cases : list bool := [
  (* frame_hello *) frame_reencodes HelloPayload "42524e3001000100203efe8800000000000085000c4f941a0000000000000000a469636c69656e745f696473627261696e2d636f6e666f726d616e63652f3172737570706f727465645f76657273696f6e7381016c6361706162696c6974696573a36973747265616d696e67f570636f6d7072657373696f6e5f7a737464f46b7365727665725f70757368f477636c69656e745f636f6e6e656374696f6e5f746f6b656ef6";
  (* frame_welcome *) frame_reencodes WelcomePayload "42524e30010081003a241279000000000000f5005cbeead70000000000000000a5697365727665725f69647818627261696e2d7365727665722f636f6e666f726d616e63656e63686f73656e5f76657273696f6e016d636f6e6e656374696f6e5f696450555555555555555555555555555555556c6361706162696c6974696573a36973747265616d696e67f570636f6d7072657373696f6e5f7a737464f46b7365727665725f70757368f46f7365727665725f6665617475726573a4706d61785f7061796c6f61645f73697a651a00ffffff766d61785f636f6e63757272656e745f73747265616d731904007469646c655f74696d656f75745f7365636f6e647319012c6c617574685f6d6574686f6473820001";
  (* frame_encode *) frame_reencodes EncodeRequest "42524e3001002000b296840700000002000066006669bda40000000000000000a564746578746f74686520736b7920697320626c75656a73657373696f6e5f6964016a726571756573745f696450111111111111111111111111111111116674786e5f6964f6766f636375727265645f61745f756e69785f6e616e6f731b17979cfe362a0000";
  (* frame_encode_vector_direct *) frame_reencodes EncodeVectorDirectRequest "42524e3001002a003b4d860a000000030000a000fcd8294d0000000000000000a964746578746b707265636f6d7075746564716d6f64656c5f66696e6765727072696e7450333333333333333333333333333333336a73657373696f6e5f696401646b696e64006d73616c69656e63655f68696e74f93400656564676573806a726571756573745f696450111111111111111111111111111111116674786e5f6964f66b64656475706c6963617465f40000803f0000003f000080be0000003e";
  (* frame_error *) frame_reencodes ErrorResponse "42524e300100ff00b2d9b9000000000200004700b9a1efd80000000000000000a564636f646518506863617465676f727904676d657373616765736669786564206572726f72206d6573736167656764657461696c73f66e72657472795f61667465725f6d73f6";
  (* frame_recall_eos *) frame_reencodes RecallResponseFrame "42524e300100a1809d13adac0000000200004d008cb24cd80000000000000000a56b616e737765725f6b696e64644e6f6e65686d656d6f72696573806869735f66696e616cf57063756d756c61746976655f636f756e740073657374696d617465645f72656d61696e696e6700"].

(** Every case of the conformance corpus -- requests, responses and frames,
    the vector-bearing payload included -- decodes and encodes back to exactly
    the corpus bytes. *)
Example corpus_reencodes :
  forallb id request_cases = true /\ forallb id response_cases = true
  /\ forallb id frame_cases = true
  /\ length request_cases = 75%nat /\ length response_cases = 77%nat.
Proof. split_and!; vm_compute; reflexivity. Qed.
