(* ===== verification/WireLossless.v ===== *)
(** * WireLossless

    Every payload class of [wire/types.py] survives the wire: the instances of
    the payload law, class family by class family, put through the codec. *)

From S2P Require Import Prelude PyFloat PyValue Rfc8949 Cbor CborScan CborCodec WireEnums WireCodec.
From S2P Require Import WireHandshake WireMemory WireRecall WireListing WireTyped WireReasoning.
From S2P Require Import WireEvents WireReads WireMutations WireSpaces.

(** [str()] in closed examples. *)
#[local] Instance sample_str : PyStr := {| str_of_object := fun _ => "" |}.

(** C13: over any conforming [cbor2], every well-formed payload of every class, the
    handshake and keepalive, memory, recall, listing, typed-graph, schema, query,
    reasoning, transaction, change-feed, capability, extractor, space and session
    payloads and the ERROR response, renders as a map that, when CBOR can carry
    it, [encode_payload] turns into bytes from which [decode_payload] rebuilds the
    very payload. *)
Theorem payloads_lossless `{HC : Cbor2Conforms} `{PyStr} :
  lossless HelloPayload /\ lossless AuthPayload /\ lossless WelcomePayload /\
  lossless AuthOkPayload /\ lossless ByeRequest /\ lossless PingRequest /\
  lossless PongResponse /\ lossless ServerPingResponse /\ lossless ClientPongRequest /\
  lossless EdgeRequest /\ lossless EncodeRequest /\ lossless EncodeVectorDirectRequest /\
  lossless EncodeResponse /\ lossless MemoryInspectRequest /\ lossless MemoryInspectResponse /\
  lossless RecallRequest /\ lossless RecallResponseFrame /\ lossless ForgetRequest /\
  lossless ForgetResponse /\ lossless MemoryListRequest /\ lossless MemoryListResponseFrame /\
  lossless GraphFetchRequest /\ lossless GraphFetchResponseFrame /\ lossless ErrorResponse /\
  lossless EntityCreateRequest /\ lossless EntityCreateResponse /\
  lossless StatementCreateRequest /\ lossless StatementCreateResponse /\
  lossless RelationCreateRequest /\ lossless RelationCreateResponse /\
  lossless SchemaUploadRequest /\ lossless SchemaDropRequest /\ lossless SchemaDropResponse /\
  lossless SchemaReplaceRequest /\ lossless SchemaReplaceResponse /\
  lossless CancelStreamRequest /\ lossless CancelStreamAck /\ lossless SchemaUploadResponse /\
  lossless QueryRequest /\ lossless MaterializeProceduralRequest /\
  lossless MaterializeProceduralResponse /\ lossless EntityGetRequest /\
  lossless EntityGetResponse /\ lossless EntityListRequest /\ lossless EntityListResponseFrame /\
  lossless EntityResolveRequest /\ lossless EntityResolveResponse /\
  lossless StatementGetRequest /\ lossless StatementGetResponse /\
  lossless StatementListRequest /\ lossless StatementListResponseFrame /\
  lossless RelationListFromRequest /\ lossless RelationListFromResponseFrame /\
  lossless RelationListToRequest /\ lossless RelationListToResponseFrame /\
  lossless SchemaGetRequest /\ lossless SchemaGetResponse /\ lossless SchemaListRequest /\
  lossless SchemaListResponseFrame /\ lossless SchemaValidateRequest /\
  lossless SchemaValidateResponse /\ lossless EntityUpdateRequest /\
  lossless EntityUpdateResponse /\ lossless EntityRenameRequest /\
  lossless EntityRenameResponse /\ lossless EntityMergeRequest /\ lossless EntityMergeResponse /\
  lossless EntityUnmergeRequest /\ lossless EntityUnmergeResponse /\
  lossless EntityTombstoneRequest /\ lossless EntityTombstoneResponse /\
  lossless StatementSupersedeRequest /\ lossless StatementSupersedeResponse /\
  lossless StatementTombstoneRequest /\ lossless StatementTombstoneResponse /\
  lossless StatementRetractRequest /\ lossless StatementRetractResponse /\
  lossless StatementHistoryRequest /\ lossless StatementHistoryResponseFrame /\
  lossless RelationGetRequest /\ lossless RelationGetResponse /\
  lossless RelationSupersedeRequest /\ lossless RelationSupersedeResponse /\
  lossless RelationTombstoneRequest /\ lossless RelationTombstoneResponse /\
  lossless RelationTraverseRequest /\ lossless RelationTraverseResponseFrame /\
  lossless QueryExplainRequest /\ lossless QueryExplainResponse /\ lossless QueryTraceRequest /\
  lossless QueryTraceResponse /\ lossless LinkRequest /\ lossless LinkResponse /\
  lossless UnlinkRequest /\ lossless UnlinkResponse /\ lossless PlanRequest /\
  lossless PlanResponseFrame /\ lossless ReasonRequest /\ lossless ReasonResponseFrame /\
  lossless TxnBeginRequest /\ lossless TxnBeginResponse /\ lossless TxnCommitRequest /\
  lossless TxnCommitResponse /\ lossless TxnAbortRequest /\ lossless TxnAbortResponse /\
  lossless StageAutoEdgePayload /\ lossless StageTemporalEdgePayload /\
  lossless StageHypePayload /\ lossless StageExtractorPayload /\ lossless SubscribeRequest /\
  lossless EdgeEventPayload /\ lossless SubscriptionEvent /\ lossless UnsubscribeRequest /\
  lossless UnsubscribeResponse /\ lossless GetCapabilitiesRequest /\
  lossless GetCapabilitiesResponse /\ lossless ExtractorListRequest /\
  lossless ExtractorListResponseFrame /\ lossless SpaceCreateRequest /\
  lossless SpaceCreateResponse /\ lossless SpaceListRequest /\ lossless SpaceListResponse /\
  lossless SpaceDeleteRequest /\ lossless SpaceDeleteResponse /\ lossless SessionCreateRequest /\
  lossless SessionCreateResponse /\ lossless SessionListRequest /\ lossless SessionListResponse /\
  lossless SessionDeleteRequest /\ lossless SessionDeleteResponse.
Proof. split_and!; apply lossless_intro. Qed.

Definition sample : HelloPayload :=
  mk_HelloPayload (PStr "py") (PList [PInt 1])
    (mk_HelloCapabilities (PBool true) (PBool false) (PBool true)) PNone.

Lemma payloads_lossless_witness :
  exists m, to_map sample = Ok m /\
    (encodable m = true ->
     exists bs, encode_payload (H := rfc8949_codec) sample = Ok bs
                /\ decode_payload (H := rfc8949_codec) bs = Ok sample).
Proof.
  apply (proj1 (payloads_lossless (HC := rfc8949_conforms))).
  vm_compute; repeat (split; try reflexivity).
Defined.
