(* ===== verification/Errors.v ===== *)
(** * Errors

    [errors.py]: the exceptions a client operation raises, the choice of the
    [ServerError] subclass from the wire code, and [is_retryable]. *)

From S2P Require Import Prelude PyFloat PyValue Frame Cbor WireEnums WireListing.

(** ** Exceptions *)

(** [ServerError] and its subclasses. *)
Inductive server_error_class : Set :=
| ServerErrorBase
| ActAsDenied
| LlmCredentialMissing
| LlmCredentialUnavailable.

(** Every exception an operation of the client can raise: those of the layers
    below, the socket's [OSError] family, the cancellation of a task, and the
    [BrainError] family. *)
Inductive exn : Type :=
| FrameExn (e : frame_error)
| CborExn (e : cbor_error)
| PyExn (e : py_error)
| OSError
| CancelledError
| ProtocolError
| ConnectionClosed
| BrainTimeout (timeout : option pyfloat)
| VersionMismatch (chosen : pyval) (supported : list pyval)
| ServerError (cls : server_error_class) (response : ErrorResponse).

(** ** The structured server error *)

(** [_CODE_TO_ERROR]. *)
Definition CODE_TO_ERROR : list (ErrorCode * server_error_class) :=
  [(ErrorCode_ACT_AS_DENIED, ActAsDenied);
   (ErrorCode_LLM_CREDENTIAL_MISSING, LlmCredentialMissing);
   (ErrorCode_LLM_CREDENTIAL_UNAVAILABLE, LlmCredentialUnavailable)].

(** [_CODE_TO_ERROR.get(code, ServerError)]. *)
Definition error_class_of_code (code : pyval) : pyresult server_error_class :=
  match code with
  | PList _ | PDict _ => Raise TypeError
  | _ => match find (fun '(c, _) => py_eq_int code (ErrorCode_value c)) CODE_TO_ERROR with
         | Some (_, cls) => Ok cls
         | None => Ok ServerErrorBase
         end
  end.

(** [f"{code:#06x}"] in [ServerError.__init__]: only integers have that format. *)
Definition format_hex (code : pyval) : pyresult unit :=
  match code with
  | PInt _ | PBool _ => Ok tt
  | PStr _ | PFloat _ => Raise ValueError
  | _ => Raise TypeError
  end.

(** [ServerError.from_response]: the exception it builds, or the one building it
    raises. *)
Definition from_response (response : ErrorResponse) : pyresult exn :=
  let* cls := error_class_of_code (ErrorResponse_code response) in
  let* _ := format_hex (ErrorResponse_code response) in
  Ok (ServerError cls response).

(** [raise ServerError.from_response(response)]: either way something is raised. *)
Definition raise_from_response (response : ErrorResponse) : exn :=
  match from_response response with
  | Ok e => e
  | Raise e => PyExn e
  end.

(** ** Retryability *)

Definition CATEGORY_RESOURCE_EXHAUSTED : Z := 6.
Definition CATEGORY_UNAVAILABLE : Z := 8.

Definition is_retryable (e : exn) : bool :=
  match e with
  | ConnectionClosed | BrainTimeout _ | OSError => true
  | ServerError _ response =>
      let category := ErrorResponse_category response in
      py_eq_int category CATEGORY_RESOURCE_EXHAUSTED || py_eq_int category CATEGORY_UNAVAILABLE
  | _ => false
  end.

(** ** Properties *)

(** An ERROR payload with integer code and category. *)
Definition error_response (code category : Z) (message retry : pyval) : ErrorResponse :=
  mk_ErrorResponse (PInt code) (PInt category) message None retry.

Lemma from_response_int code category message retry :
  exists cls, from_response (error_response code category message retry)
              = Ok (ServerError cls (error_response code category message retry))
    /\ (cls = ActAsDenied <-> code = 0x33)
    /\ (cls = LlmCredentialMissing <-> code = 0x66)
    /\ (cls = LlmCredentialUnavailable <-> code = 0x95).
Proof.
  unfold from_response, error_class_of_code. cbn [error_response ErrorResponse_code].
  unfold CODE_TO_ERROR, find, py_eq_int. cbn [ErrorCode_value].
  destruct (code =? 51) eqn:E1; [|destruct (code =? 102) eqn:E2;
    [|destruct (code =? 149) eqn:E3]]; rewrite ?Z.eqb_eq, ?Z.eqb_neq in *;
    eexists; (split; [reflexivity|]); split_and!; split; intros; subst; done || lia.
Qed.

(** An ERROR frame's integer code decides the exception class: 0x33, 0x66 and
    0x95 give the three dedicated subclasses, every other code the base class,
    the response is kept whole, and the exception is retryable exactly when the
    category is ResourceExhausted or Unavailable; of the local failures, exactly
    a dropped connection, a timeout and an OS error are. *)
Theorem server_error_taxonomy :
  (forall code category message retry,
     let response := error_response code category message retry in
     exists cls, from_response response = Ok (ServerError cls response)
       /\ (cls = ActAsDenied <-> code = ErrorCode_value ErrorCode_ACT_AS_DENIED)
       /\ (cls = LlmCredentialMissing <-> code = ErrorCode_value ErrorCode_LLM_CREDENTIAL_MISSING)
       /\ (cls = LlmCredentialUnavailable
           <-> code = ErrorCode_value ErrorCode_LLM_CREDENTIAL_UNAVAILABLE)
       /\ (is_retryable (raise_from_response response) = true
           <-> category = ErrorCategory_value ErrorCategory_RESOURCE_EXHAUSTED
               \/ category = ErrorCategory_value ErrorCategory_UNAVAILABLE))
  /\ (forall e, is_retryable e = true ->
      e = ConnectionClosed \/ (exists t, e = BrainTimeout t) \/ e = OSError
      \/ exists cls r, e = ServerError cls r).
Proof.
  split.
  - intros code category message retry response.
    destruct (from_response_int code category message retry) as (cls & E & H1 & H2 & H3).
    exists cls. split; [done|]. split; [done|]. split; [done|]. split; [done|].
    unfold raise_from_response. unfold response. rewrite E.
    cbn [is_retryable error_response ErrorResponse_category]. unfold py_eq_int.
    by rewrite orb_true_iff, !Z.eqb_eq.
  - intros [] H; try discriminate H; eauto 10.
Qed.
