(* ===== verification/Transport.v ===== *)
(** * Transport

    [transport.py]: writing one frame to a socket, and reading one frame from
    the byte stream of a socket that hands out the bytes in chunks. *)

From S2P Require Import Prelude Crc32c Frame PyFloat PyValue Cbor Errors.

(** ** The socket *)

(** What one [sock.recv(READ_CHUNK)] does: return some bytes (none: the peer
    closed) or raise. *)
Inductive recv_event : Type :=
| Recv (chunk : bytes)
| RecvRaise (e : exn).

Definition READ_CHUNK : Z := 16 * 1024.

(** ** Operations *)

(** The bytes [write_frame] passes to [sock.sendall]. *)
Definition write_frame (frame : Frame) : result exn bytes :=
  lift_error FrameExn
    (encode_frame (frame_opcode frame) (frame_stream_id frame) (frame_flags frame)
       (frame_payload frame)).

(** How a [read_frame] ends: with a frame, the buffer it leaves and the events
    it has not consumed; by raising, with the same; or blocked in [recv] with
    the buffer filled so far. *)
Inductive read_outcome : Type :=
| ReadFrame (frame : Frame) (buf : bytes) (pending : list recv_event)
| ReadRaise (e : exn) (buf : bytes) (pending : list recv_event)
| ReadBlocked (buf : bytes).

Fixpoint read_frame (events : list recv_event) (buf : bytes) : read_outcome :=
  match decode_frame buf with
  | Ok (frame, rest) => ReadFrame frame (drop (length buf - length rest) buf) events
  | Raise (TruncatedFrame _ _) =>
      match events with
      | [] => ReadBlocked buf
      | RecvRaise e :: events => ReadRaise e buf events
      | Recv [] :: events => ReadRaise ConnectionClosed buf events
      | Recv chunk :: events => read_frame events (buf ++ chunk)
      end
  | Raise e => ReadRaise (FrameExn e) buf events
  end.

(** [n] frames one after the other, as the reader loop reads them. *)
Fixpoint read_frames (n : nat) (events : list recv_event) (buf : bytes)
    : list Frame * read_outcome :=
  match n with
  | O => ([], ReadBlocked buf)
  | S n =>
      match read_frame events buf with
      | ReadFrame f buf events =>
          match n with
          | O => ([f], ReadFrame f buf events)
          | _ => let '(fs, o) := read_frames n events buf in (f :: fs, o)
          end
      | o => ([], o)
      end
  end.

(** ** Lemmas *)

(** A frame a peer can send: every header field fits. *)
Definition sendable (f : Frame) : Prop := frame_ok f /\ flags_defined (frame_flags f).

Definition nonempty_chunks (cs : list bytes) : Prop := Forall (fun c => c <> []) cs.

Lemma decode_frame_layout_rest f rest :
  sendable f -> decode_frame (frame_layout f ++ rest) = Ok (f, rest).
Proof. intros [Hok Hfl]. by apply decode_frame_ok_iff. Qed.

Lemma read_frame_ready events buf f rest :
  decode_frame buf = Ok (f, rest) -> read_frame events buf = ReadFrame f rest events.
Proof.
  intros E. pose proof E as (Hb & _ & _)%decode_frame_ok_iff.
  assert (H : drop (length buf - length rest) buf = rest).
  { rewrite Hb, length_app, Nat.add_sub. apply drop_app_length. }
  destruct events; simpl; rewrite E, H; done.
Qed.

(** Reading one frame whose bytes arrive in any number of chunks. *)
Lemma read_frame_chunks f tail cs events buf :
  sendable f -> nonempty_chunks cs ->
  buf ++ concat cs = frame_layout f ++ tail ->
  exists buf' cs', read_frame (map Recv cs ++ events) buf
                   = ReadFrame f buf' (map Recv cs' ++ events)
    /\ nonempty_chunks cs' /\ buf' ++ concat cs' = tail.
Proof.
  intros Hf Hcs. revert buf. induction Hcs as [|c cs Hc Hcs IH]; intros buf E.
  - simpl in E. rewrite app_nil_r in E. subst buf.
    exists tail, []. rewrite (read_frame_ready _ _ f tail) by by apply decode_frame_layout_rest.
    split; [done|]. split; [constructor|]. apply app_nil_r.
  - destruct (decide (length (frame_layout f) <= length buf)%nat) as [Hlen|Hlen].
    + assert (Hb : buf = frame_layout f ++ drop (length (frame_layout f)) buf).
      { rewrite <- (take_drop (length (frame_layout f)) buf) at 1. f_equal.
        apply (f_equal (take (length (frame_layout f)))) in E.
        rewrite take_app_length, take_app_le in E by done. done. }
      rewrite (read_frame_ready _ buf f (drop (length (frame_layout f)) buf))
        by (rewrite Hb at 1; by apply decode_frame_layout_rest).
      exists (drop (length (frame_layout f)) buf), (c :: cs).
      split; [done|]. split; [by constructor|].
      rewrite Hb, <- app_assoc in E. by apply app_inv_head in E.
    + assert (Hpre : exists more, frame_layout f = buf ++ more /\ more <> []).
      { exists (drop (length buf) (frame_layout f)). split.
        - apply (f_equal (take (length buf))) in E.
          rewrite take_app_length, take_app_le in E by lia.
          rewrite E at 1. by rewrite take_drop.
        - intros H%(f_equal length). rewrite length_drop in H. cbn [length] in H. lia. }
      destruct Hpre as (more & Hlay & Hmore).
      destruct (decode_frame_prefix f buf more) as (need & Ed & _); [apply Hf..|done|done|].
      cbn [map app read_frame]. rewrite Ed. destruct c as [|b c]; [done|].
      apply IH. rewrite <- app_assoc. exact E.
Qed.

Lemma read_frames_chunks fs tail cs events buf :
  Forall sendable fs -> fs <> [] -> nonempty_chunks cs ->
  buf ++ concat cs = concat (map frame_layout fs) ++ tail ->
  exists f buf' cs', read_frames (length fs) (map Recv cs ++ events) buf
                   = (fs, ReadFrame f buf' (map Recv cs' ++ events))
    /\ nonempty_chunks cs' /\ buf' ++ concat cs' = tail.
Proof.
  intros Hfs Hne. revert cs buf. induction Hfs as [|f fs Hf Hfs IH]; intros cs buf Hcs E; [done|].
  cbn [map concat] in E. rewrite <- app_assoc in E.
  destruct (read_frame_chunks f _ cs events buf Hf Hcs E) as (buf' & cs' & Er & Hcs' & E').
  destruct fs as [|g fs].
  - exists f, buf', cs'. cbn [length read_frames]. rewrite Er. done.
  - destruct (IH ltac:(done) cs' buf' Hcs' E') as (h & b & c & Eh & Et). exists h, b, c.
    cbn [length read_frames] in *. rewrite Er. by rewrite Eh.
Qed.

(** ** Properties *)

Lemma read_frame_interrupted f more cs e events buf :
  sendable f -> nonempty_chunks cs -> more <> [] ->
  frame_layout f = (buf ++ concat cs) ++ more ->
  read_frame (map Recv cs ++ RecvRaise e :: events) buf = ReadRaise e (buf ++ concat cs) events
  /\ read_frame (map Recv cs ++ Recv [] :: events) buf
     = ReadRaise ConnectionClosed (buf ++ concat cs) events
  /\ read_frame (map Recv cs) buf = ReadBlocked (buf ++ concat cs).
Proof.
  intros Hf Hcs Hmore. revert buf. induction Hcs as [|c cs Hc Hcs IH]; intros buf E.
  - simpl in E. rewrite ?app_nil_r in *.
    destruct (decode_frame_prefix f buf more) as (need & Ed & _); [apply Hf..|done|done|].
    simpl. by rewrite !Ed, ?app_nil_r.
  - cbn [concat] in E.
    destruct (decode_frame_prefix f buf (c ++ concat cs ++ more)) as (need & Ed & _);
      [apply Hf..|by rewrite E, <- !app_assoc|by destruct c|].
    cbn [map app read_frame concat]. rewrite !Ed. destruct c as [|b c]; [done|].
    specialize (IH (buf ++ b :: c)). rewrite <- !app_assoc in IH. apply IH.
    by rewrite E, <- !app_assoc.
Qed.

(** C30: the transport is independent of how the byte stream is cut: frames written
    one after the other are read back, in order and unchanged, from any division
    of their bytes into non-empty [recv] chunks, with any part already buffered
    and any bytes after them, which stay for the next read; and a read that is cut
    short never returns a frame: when only a proper part of one has arrived, an
    error of the socket is raised as it is, an end of stream raises
    [ConnectionClosed], and otherwise the read stays blocked with every received
    byte kept. *)
Theorem transport_chunking cs events buf :
  nonempty_chunks cs ->
  (forall fs tail, Forall sendable fs -> fs <> [] ->
     buf ++ concat cs = concat (map frame_layout fs) ++ tail ->
     exists f buf' cs', read_frames (length fs) (map Recv cs ++ events) buf
                      = (fs, ReadFrame f buf' (map Recv cs' ++ events))
       /\ buf' ++ concat cs' = tail)
  /\ (forall f more e, sendable f -> more <> [] -> frame_layout f = (buf ++ concat cs) ++ more ->
        read_frame (map Recv cs ++ RecvRaise e :: events) buf = ReadRaise e (buf ++ concat cs) events
        /\ read_frame (map Recv cs ++ Recv [] :: events) buf
           = ReadRaise ConnectionClosed (buf ++ concat cs) events
        /\ read_frame (map Recv cs) buf = ReadBlocked (buf ++ concat cs)).
Proof.
  intros Hcs. split.
  - intros fs tail Hs Hne E.
    destruct (read_frames_chunks fs tail cs events buf Hs Hne Hcs E) as (f & b & c & Er & _ & Et). eauto.
  - intros f more e Hf Hm E. by apply (read_frame_interrupted f more).
Qed.

Lemma transport_chunking_witness :
  let f := mk_Frame 0x20 128 1 [x61] in
  let whole := frame_layout f ++ frame_layout f in
  exists g buf' cs',
    read_frames 2 (map Recv [slice whole 5 40; slice whole 40 66; [x42]] ++ []) (take 5 whole)
    = ([f; f], ReadFrame g buf' (map Recv cs' ++ [])) /\ buf' ++ concat cs' = [x42].
Proof.
  intros f whole. apply (proj1 (transport_chunking [slice whole 5 40; slice whole 40 66; [x42]] []
    (take 5 whole) ltac:(repeat constructor; vm_compute; discriminate)) [f; f] [x42]); [|done|].
  - repeat constructor; vm_compute; done || (split; congruence).
  - vm_compute. reflexivity.
Defined.
