(* ===== verification/Retry.v ===== *)
(** * Retry

    [retry.py] (and its coroutine twin [aio/retry.py], which imports the policy
    and differs only in how it waits): the backoff schedule, the jitter and the
    retry loop. Delays are floats of the language, computed with its rounding. *)

From S2P Require Import Prelude PyFloat PyValue PyArith WireListing Errors.

(** [random.uniform(a, b)] at the [n]-th draw. *)
Class RandomUniform : Type := { uniform : nat -> pyfloat -> pyfloat -> pyfloat }.

(** What [random] documents: a point between the two bounds. *)
Class UniformBounded (R : RandomUniform) : Prop :=
  uniform_bounded : forall n a b, isnan a = false -> isnan b = false -> float_ltb a b = true ->
    isnan (uniform n a b) = false
    /\ float_leb a (uniform n a b) = true /\ float_leb (uniform n a b) b = true.

(** ** Policy *)

Record RetryPolicy : Type := mk_RetryPolicy {
  max_attempts : Z;
  base_delay : pyfloat;
  max_delay : pyfloat
}.

(** The dataclass defaults: 3 attempts, 0.1 s, 5.0 s. *)
Definition default_policy : RetryPolicy :=
  mk_RetryPolicy 3 (FFin false 3602879701896397 (-55)) (FFin false 5 0).

(** [RetryPolicy.none]. *)
Definition policy_none : RetryPolicy := mk_RetryPolicy 1 (FZero false) (FZero false).

(** [policy.backoff(attempt, server_retry_after)]. *)
Definition backoff (policy : RetryPolicy) (attempt : Z) (server_retry_after : option pyfloat)
    : pyresult (option pyfloat) :=
  match server_retry_after with
  | Some s => Ok (Some (py_min s (max_delay policy)))
  | None =>
      if float_leb (base_delay policy) (FZero false) then Ok None
      else
        let* p := float_of_int (2 ^ Z.max 0 (attempt - 1)) in
        let delay := float_mul (base_delay policy) p in
        Ok (Some (py_min delay (max_delay policy)))
  end.

(** [_server_retry_after_seconds]. *)
Definition server_retry_after_seconds (e : exn) : pyresult (option pyfloat) :=
  match e with
  | ServerError _ response =>
      match ErrorResponse_retry_after_ms response with
      | PNone => Ok None
      | PInt _ | PBool _ | PFloat _ =>
          let* ms := py_float (ErrorResponse_retry_after_ms response) in
          Ok (Some (float_div ms (FFin false 125 3)))
      | _ => Raise TypeError
      end
  | _ => Ok None
  end.

Section Policy.
Context `{RandomUniform}.

(** [_jittered]. *)
Definition jittered (draw : nat) (delay floor : pyfloat) : pyfloat :=
  let floor := py_min floor delay in
  if float_leb delay floor then floor else uniform draw floor delay.

(** [sleep_before_retry]. *)
Definition sleep_before_retry (policy : RetryPolicy) (attempt : Z) (e : exn)
    : pyresult (option pyfloat) :=
  let* server_floor := server_retry_after_seconds e in
  let* delay := backoff policy attempt server_floor in
  match delay with
  | None => Ok None
  | Some delay =>
      if negb (float_truthy delay) then Ok None
      else
        let floor := match server_floor with
                     | Some s => py_min s (max_delay policy)
                     | None => FZero false
                     end in
        Ok (Some (jittered (Z.to_nat attempt) delay floor))
  end.

End Policy.

(** ** The loop *)

(** [time.sleep(delay)]: a negative or NaN delay raises, and so does one whose
    nanoseconds do not fit in 63 bits. *)
Definition time_sleep (delay : pyfloat) : pyresult unit :=
  if isnan delay || float_ltb delay (FZero false) then Raise ValueError
  else if float_leb (FFin false 1 63) (float_mul delay (FFin false 1953125 9)) then
    Raise OverflowError
  else Ok tt.

(** How a retry loop ends: its outcome, how often the operation ran and the
    sleeps between the runs. *)
Record retry_run (T : Type) : Type := mk_run {
  run_outcome : result exn T;
  run_calls : Z;
  run_sleeps : list (option pyfloat)
}.
Arguments mk_run {T} _ _ _.
Arguments run_outcome {T} _.
Arguments run_calls {T} _.
Arguments run_sleeps {T} _.

Section Loop.
(** [sleep] is [time.sleep] for threads and [asyncio.sleep] for coroutines. *)
Context `{RandomUniform} (sleep : pyfloat -> pyresult unit).

(** Waiting out what [sleep_before_retry] returned: [if delay: time.sleep(delay)]. *)
Definition wait (policy : RetryPolicy) (attempt : Z) (e : exn) : pyresult (option pyfloat) :=
  let* delay := sleep_before_retry policy attempt e in
  match delay with
  | None => Ok None
  | Some d => if float_truthy d then let* _ := sleep d in Ok (Some d) else Ok (Some d)
  end.

(** [while True]: the body of [with_retry] from the given attempt on; [op n] is
    what the [n]-th call of the operation does. The fuel is the number of
    attempts the policy still allows. *)
Fixpoint with_retry_from {T} (op : Z -> result exn T) (policy : RetryPolicy) (fuel : nat)
    (attempt : Z) : retry_run T :=
  match op attempt with
  | Ok v => mk_run (Ok v) attempt []
  | Raise e =>
      if (attempt <? max_attempts policy) && is_retryable e then
        match wait policy attempt e with
        | Raise pe => mk_run (Raise (PyExn pe)) attempt []
        | Ok slept =>
            match fuel with
            | O => mk_run (Raise e) attempt [slept]
            | S fuel =>
                let run := with_retry_from op policy fuel (attempt + 1) in
                mk_run (run_outcome run) (run_calls run) (slept :: run_sleeps run)
            end
        end
      else mk_run (Raise e) attempt []
  end.

(** [with_retry(op, policy)] of both tiers. *)
Definition with_retry_with {T} (op : Z -> result exn T) (policy : option RetryPolicy) : retry_run T :=
  let policy := default default_policy policy in
  with_retry_from op policy (Z.to_nat (max_attempts policy)) 1.
End Loop.

Definition with_retry `{RandomUniform} {T} := with_retry_with (T := T) time_sleep.

(** ** Lemmas *)

Lemma jittered_bounds `{HU : UniformBounded} draw delay floor :
  isnan delay = false -> isnan floor = false ->
  isnan (jittered draw delay floor) = false
  /\ float_leb (py_min floor delay) (jittered draw delay floor) = true
  /\ float_leb (jittered draw delay floor) delay = true.
Proof.
  intros Hd Hf. unfold jittered. pose proof (py_min_nan floor delay Hf Hd) as Hn.
  destruct (float_leb delay (py_min floor delay)) eqn:E.
  - split; [done|]. split; [by apply float_leb_refl|]. by apply py_min_le_r.
  - assert (Hlt : float_ltb (py_min floor delay) delay = true).
    { destruct (float_ltb (py_min floor delay) delay) eqn:E'; [done|].
      by rewrite (float_ltb_false delay _ Hd Hn E') in E. }
    apply (uniform_bounded draw _ _ Hn Hd Hlt).
Qed.

Section Runs.
Context `{RandomUniform} (sleep : pyfloat -> pyresult unit).
Context {T : Type} (op : Z -> result exn T) (policy : RetryPolicy).

(** What a run from an attempt on is: every call before the last raised a
    retryable error and was slept on, and the last one ends the run. *)
Definition run_ok (attempt : Z) (run : retry_run T) : Prop :=
  attempt <= run_calls run <= Z.max attempt (max_attempts policy)
  /\ zlen (run_sleeps run) = run_calls run - attempt
  /\ (forall n, attempt <= n < run_calls run ->
        exists e slept, op n = Raise e /\ is_retryable e = true
          /\ wait sleep policy n e = Ok slept
          /\ run_sleeps run !! Z.to_nat (n - attempt) = Some slept)
  /\ match op (run_calls run) with
     | Ok v => run_outcome run = Ok v
     | Raise e =>
         if (run_calls run <? max_attempts policy) && is_retryable e
         then exists pe, wait sleep policy (run_calls run) e = Raise pe
                         /\ run_outcome run = Raise (PyExn pe)
         else run_outcome run = Raise e
     end.

Lemma run_ok_last attempt outcome :
  (match op attempt with
   | Ok v => outcome = Ok v
   | Raise e =>
       if (attempt <? max_attempts policy) && is_retryable e
       then exists pe, wait sleep policy attempt e = Raise pe /\ outcome = Raise (PyExn pe)
       else outcome = Raise e
   end) ->
  run_ok attempt (mk_run outcome attempt []).
Proof.
  intros Hlast. split; [simpl; lia|]. split; [simpl; unfold zlen; simpl; lia|].
  split; [simpl; lia|exact Hlast].
Qed.

Lemma with_retry_from_ok fuel attempt :
  max_attempts policy - attempt <= Z.of_nat fuel ->
  run_ok attempt (with_retry_from sleep op policy fuel attempt).
Proof.
  revert attempt. induction fuel as [|fuel IH]; intros attempt Hfuel; cbn [with_retry_from];
    (destruct (op attempt) as [v|e] eqn:Eop; [apply run_ok_last; by rewrite Eop|]);
    (destruct ((attempt <? max_attempts policy) && is_retryable e) eqn:Eagain;
      [|apply run_ok_last; by rewrite Eop, Eagain]);
    pose proof Eagain as [Hlt%Z.ltb_lt Hr]%andb_true_iff; [lia|].
  destruct (wait sleep policy attempt e) as [slept|pe] eqn:Ew;
    [|apply run_ok_last; rewrite Eop, Eagain; by eexists].
  destruct (IH (attempt + 1) ltac:(lia)) as (Hc & Hl & Hn & Hlast).
  set (run := with_retry_from sleep op policy fuel (attempt + 1)) in *.
  split; [simpl; lia|]. split; [unfold zlen in *; simpl length; simpl run_calls; lia|].
  split; [|exact Hlast]. simpl. intros n Hrange.
  destruct (decide (n = attempt)) as [->|Hne].
  - exists e, slept. by rewrite Z.sub_diag.
  - destruct (Hn n ltac:(lia)) as (e' & s' & H1 & H2 & H3 & H4). exists e', s'.
    split_and!; try done. replace (Z.to_nat (n - attempt)) with (S (Z.to_nat (n - (attempt + 1)))) by lia.
    done.
Qed.
End Runs.

Lemma backoff_schedule policy attempt :
  float_leb (base_delay policy) (FZero false) = false -> 1 <= attempt <= 1024 ->
  backoff policy attempt None
  = Ok (Some (py_min (float_mul (base_delay policy) (FFin false 1 (attempt - 1)))
                     (max_delay policy))).
Proof.
  intros Hb Ha. unfold backoff. rewrite Hb, Z.max_r by lia. rewrite float_of_int_pow2 by lia.
  by rewrite (proj2 (Z.ltb_lt _ _)) by lia.
Qed.

(** ** Properties *)


(** C33: a retry loop, of either tier, runs the operation at least once and at
    most [max_attempts] times; every call but the last raised a retryable error
    and was followed by the wait [sleep_before_retry] computes for it; the last
    call succeeded, or raised an error that is not retryable or exhausted the
    attempts and is raised unchanged (only a wait that itself raises takes its
    place); the loop always ends. *)
Theorem with_retry_attempts `{RandomUniform} sleep {T} (op : Z -> result exn T) policy :
  let p := default default_policy policy in
  let run := with_retry_with sleep op policy in
  1 <= run_calls run <= Z.max 1 (max_attempts p)
  /\ zlen (run_sleeps run) = run_calls run - 1
  /\ (forall n, 1 <= n < run_calls run ->
        exists e slept, op n = Raise e /\ is_retryable e = true
          /\ wait sleep p n e = Ok slept /\ run_sleeps run !! Z.to_nat (n - 1) = Some slept)
  /\ match op (run_calls run) with
     | Ok v => run_outcome run = Ok v
     | Raise e =>
         if (run_calls run <? max_attempts p) && is_retryable e
         then exists pe, wait sleep p (run_calls run) e = Raise pe
                         /\ run_outcome run = Raise (PyExn pe)
         else run_outcome run = Raise e
     end.
Proof.
  intros p run. unfold run, with_retry_with. apply with_retry_from_ok. fold p. lia.
Qed.


(** From attempt 1025 on [2 ** (attempt - 1)] no longer converts to a float. *)
Lemma backoff_overflows `{RandomUniform} policy attempt e :
  server_retry_after_seconds e = Ok None -> float_leb (base_delay policy) (FZero false) = false ->
  1025 <= attempt ->
  sleep_before_retry policy attempt e = Raise OverflowError.
Proof.
  intros He Hb Ha. unfold sleep_before_retry, backoff. rewrite He. cbn [bind]. rewrite Hb.
  rewrite Z.max_r, float_of_int_pow2 by lia. by rewrite (proj2 (Z.ltb_ge _ _)) by lia.
Qed.

(** The sleep without a hint, on every attempt. *)
Lemma exponential_backoff `{HU : UniformBounded} policy attempt e :
  server_retry_after_seconds e = Ok None ->
  isnan (max_delay policy) = false -> float_leb (FZero false) (max_delay policy) = true ->
  isnan (base_delay policy) = false -> float_leb (base_delay policy) (FZero false) = false ->
  (forall d, 1 <= attempt <= 1024 -> sleep_before_retry policy attempt e = Ok (Some d) ->
     let ceiling := float_mul (base_delay policy) (FFin false 1 (attempt - 1)) in
     float_leb (py_min (FZero false) (py_min ceiling (max_delay policy))) d = true
     /\ float_leb d ceiling = true /\ float_leb d (max_delay policy) = true)
  /\ (1025 <= attempt -> sleep_before_retry policy attempt e = Raise OverflowError).
Proof.
  intros He Hm Hm0 Hb Hb0. split; [|by apply backoff_overflows].
  intros d Ha E ceiling. unfold sleep_before_retry in E. rewrite He in E.
  cbn [bind] in E. rewrite backoff_schedule in E by done. cbn [bind] in E. fold ceiling in E.
  destruct (negb _); [discriminate|]. injection E as <-.
  assert (Hc : isnan ceiling = false) by by apply float_mul_nan.
  assert (Hd : isnan (py_min ceiling (max_delay policy)) = false) by by apply py_min_nan.
  destruct (jittered_bounds (Z.to_nat attempt) (py_min ceiling (max_delay policy)) (FZero false) Hd
              eq_refl) as (_ & Hlo & Hhi).
  split_and!; [done|..]; eapply float_leb_trans; first [exact Hhi | by apply py_min_le_l
    | by apply py_min_le_r].
Qed.

(** The sleep with a hint. *)
Lemma hinted_backoff `{RandomUniform} policy attempt e s :
  server_retry_after_seconds e = Ok (Some s) ->
  isnan s = false -> isnan (max_delay policy) = false ->
  sleep_before_retry policy attempt e
  = Ok (if float_truthy (py_min s (max_delay policy)) then Some (py_min s (max_delay policy))
        else None).
Proof.
  intros He Hs Hm. unfold sleep_before_retry. rewrite He. cbn [bind backoff].
  pose proof (py_min_nan s (max_delay policy) Hs Hm) as Hn.
  destruct (float_truthy _); [|done]. cbn [negb]. unfold jittered.
  assert (E : py_min (py_min s (max_delay policy)) (py_min s (max_delay policy))
              = py_min s (max_delay policy)) by (unfold py_min at 1; by destruct (float_ltb _ _)).
  by rewrite E, float_leb_refl.
Qed.

(** C37: how long a retry sleeps. Without a server hint the sleep is drawn between
    zero and [base_delay * 2^(attempt-1)] capped at [max_delay], whatever
    [random.uniform] draws within its bounds, and from attempt 1025 on the
    schedule cannot be computed: an [OverflowError] takes the place of the error
    being retried. A hint leaves no room for jitter: every client told to wait
    [s] seconds sleeps exactly [min(s, max_delay)]. A hint that cannot be read
    raises. *)
Theorem retry_sleep_bounds `{HU : UniformBounded} policy attempt e :
  isnan (max_delay policy) = false ->
  match server_retry_after_seconds e with
  | Raise pe => sleep_before_retry policy attempt e = Raise pe
  | Ok (Some s) =>
      isnan s = false ->
      sleep_before_retry policy attempt e
      = Ok (if float_truthy (py_min s (max_delay policy)) then Some (py_min s (max_delay policy))
            else None)
  | Ok None =>
      float_leb (FZero false) (max_delay policy) = true ->
      isnan (base_delay policy) = false -> float_leb (base_delay policy) (FZero false) = false ->
      (forall d, 1 <= attempt <= 1024 -> sleep_before_retry policy attempt e = Ok (Some d) ->
         let ceiling := float_mul (base_delay policy) (FFin false 1 (attempt - 1)) in
         float_leb (py_min (FZero false) (py_min ceiling (max_delay policy))) d = true
         /\ float_leb d ceiling = true /\ float_leb d (max_delay policy) = true)
      /\ (1025 <= attempt -> sleep_before_retry policy attempt e = Raise OverflowError)
  end.
Proof.
  intros Hm. destruct (server_retry_after_seconds e) as [[s|]|pe] eqn:Es.
  - intros Hs. by apply hinted_backoff.
  - intros. by apply exponential_backoff.
  - unfold sleep_before_retry. by rewrite Es.
Qed.

(** The lower end of the interval, as a source of randomness. *)
#[local] Instance lower_uniform : RandomUniform := {| uniform := fun _ a _ => a |}.

Lemma lower_uniform_bounded : UniformBounded lower_uniform.
Proof.
  intros n a b Ha Hb Hlt. simpl. split; [done|]. split; [by apply float_leb_refl|].
  by apply float_ltb_leb.
Qed.

Definition busy_server : exn :=
  ServerError ServerErrorBase (error_response 0x90 8 (PStr "busy") (PInt 1500)).

Lemma retry_sleep_bounds_witness :
  sleep_before_retry default_policy 1 busy_server = Ok (Some (FFin false 3 (-1)))
  /\ sleep_before_retry default_policy 1025 ConnectionClosed = Raise OverflowError
  /\ float_leb (FZero false) (float_mul (base_delay default_policy) (FFin false 1 2)) = true.
Proof.
  split_and!.
  - apply (retry_sleep_bounds (HU := lower_uniform_bounded) default_policy 1 busy_server eq_refl eq_refl).
  - apply (proj2 (retry_sleep_bounds (HU := lower_uniform_bounded) default_policy 1025 ConnectionClosed
      eq_refl eq_refl eq_refl eq_refl)). lia.
  - apply (proj1 (proj2 (proj1 (retry_sleep_bounds (HU := lower_uniform_bounded) default_policy 3
      ConnectionClosed eq_refl eq_refl eq_refl eq_refl) (FZero false) ltac:(lia) eq_refl))).
Defined.
