(* ===== verification/PyCompare.v ===== *)
(** * PyCompare

    Equality and order of dynamically typed values, as the client's protocol
    checks use them: [v == w], [v in list] and [n > v] for an integer [n]. *)

From S2P Require Import Prelude PyFloat PyValue PyArith.

(** The number a value is, if it is one: [bool] is a subclass of [int]. *)
Definition py_number (v : pyval) : option pyfloat :=
  match v with
  | PInt z => Some (make_float (z <? 0) (Z.abs z) 0)
  | PBool b => Some (make_float false (bool_to_Z b) 0)
  | PFloat f | PFloatField _ f => Some f
  | _ => None
  end.

(** [a == b]: numbers by value, everything else by type and content. *)
Fixpoint py_eq (a b : pyval) : bool :=
  match a, b with
  | PNone, PNone => true
  | PStr s, PStr t => String.eqb s t
  | PBytes x, PBytes y => bool_decide (x = y)
  | PList l, PList k =>
      (fix go (l k : list pyval) : bool :=
         match l, k with
         | [], [] => true
         | x :: l, y :: k => py_eq x y && go l k
         | _, _ => false
         end) l k
  | PDict d, PDict e =>
      (length d =? length e)%nat
      && forallb (fun '(k, x) => existsb (fun '(k', y) => py_eq k k' && py_eq x y) e) d
  | _, _ =>
      match py_number a, py_number b with
      | Some x, Some y => match float_compare x y with Some Eq => true | _ => false end
      | _, _ => false
      end
  end.

(** [v in l]. *)
Definition py_in (v : pyval) (l : list pyval) : bool := existsb (fun x => py_eq x v) l.

(** [n > v]: only a number can be compared with an integer. *)
Definition py_int_gt (n : Z) (v : pyval) : pyresult bool :=
  match py_number v with
  | Some f => Ok (float_ltb f (make_float (n <? 0) (Z.abs n) 0))
  | None => Raise TypeError
  end.

Example eq_int_float : py_eq (PInt 1) (PFloat (FFin false 1 0)) = true.
Proof. by_compute. Qed.
Example in_versions : py_in (PInt 1) [PInt 2; PInt 1] = true.
Proof. by_compute. Qed.

(** ** Lemmas *)

Lemma make_float_exp n : 0 <= n -> 0 <= float_exp (make_float false n 0).
Proof.
  intros Hn. destruct n as [|p|p]; [done| |lia]. cbn [make_float].
  destruct (odd_part p 0) as [m e] eqn:E. apply odd_part_spec in E. simpl. lia.
Qed.

(** A non-negative integer as a float stands for that integer. *)
Lemma float_key_int n : 0 <= n -> float_key 0 (make_float false n 0) = (0, n).
Proof.
  intros Hn. destruct n as [|p|p]; [done| |lia]. cbn [make_float].
  destruct (odd_part p 0) as [m e] eqn:E. apply odd_part_spec in E as (_ & He & Hm).
  cbn [float_key]. unfold scaled. by rewrite <- Hm.
Qed.

Lemma float_leb_int a b : 0 <= a -> 0 <= b ->
  float_leb (make_float false a 0) (make_float false b 0) = (a <=? b).
Proof.
  intros Ha Hb. apply eq_true_iff_eq. rewrite (float_leb_key 0), !float_key_int by
    (done || apply make_float_nan || by apply make_float_exp). simpl. lia.
Qed.

Lemma float_ltb_negb a b : isnan a = false -> isnan b = false ->
  float_ltb a b = negb (float_leb b a).
Proof.
  intros Ha Hb. unfold float_ltb, float_leb. rewrite (float_compare_antisym a b).
  pose proof (float_compare_nan a b Ha Hb). by destruct (float_compare a b) as [[]|].
Qed.

(** Comparing a length with an integer limit. *)
Lemma py_int_gt_int n z : 0 <= n -> 0 <= z -> py_int_gt n (PInt z) = Ok (z <? n).
Proof.
  intros Hn Hz. unfold py_int_gt. cbn [py_number].
  rewrite (proj2 (Z.ltb_ge z 0)), (proj2 (Z.ltb_ge n 0)), !Z.abs_eq by lia.
  rewrite float_ltb_negb, float_leb_int by (done || apply make_float_nan).
  by rewrite Z.ltb_antisym.
Qed.

Lemma py_eq_int_int a b : 0 <= a -> 0 <= b -> py_eq (PInt a) (PInt b) = (a =? b).
Proof.
  intros Ha Hb. cbn [py_eq py_number].
  rewrite (proj2 (Z.ltb_ge a 0)), (proj2 (Z.ltb_ge b 0)), !Z.abs_eq by lia.
  pose proof (float_leb_int a b Ha Hb) as H1. pose proof (float_leb_int b a Hb Ha) as H2.
  unfold float_leb in *. rewrite (float_compare_antisym (make_float false a 0)) in H2.
  destruct (float_compare _ _) as [[]|] eqn:E; simpl in H2; lia.
Qed.
