(* ===== verification/Mux.v ===== *)
(** * Mux

    [mux.py]: the multiplexed connection. Its shared state is one record; every
    action that is atomic in the code (under a lock, or a single queue or socket
    operation) is a function on it; a caller's thread is a control state that
    [thread_step] advances by one such action; and [step] interleaves any number
    of threads with the reader thread. Queues are objects with an identity, so
    that a route replaced by another leaves the old waiter with the old queue.
    [sent] logs what each [sendall] did, in order: its whole frame, or the prefix
    the socket had taken when it raised. A [_write] is one action here; [MuxWrite]
    takes it apart into the lock and the partial sends, and shows it is one. *)

From S2P Require Import Prelude Frame PyFloat PyValue PyArith PyCompare Cbor WireCodec Opcode.
From S2P Require Import WireHandshake WireListing WireEvents Errors Transport.
From stdpp Require Import gmap.
#[local] Open Scope Z_scope.

(** ** State *)

(** What a route queue carries: a frame, or the [_Closed] sentinel. *)
Inductive route_item : Type :=
| Arrived (frame : Frame)
| Closed (error : exn).

(** Where the reader thread stands: in [read_frame], between the route lookup
    and the [put] of a frame, or finished. *)
Inductive reader_state : Type :=
| Reading
| Routing (frame : Frame) (q : nat)
| Stopped.

(** What one [sendall] did with its frame: the socket took all of it, or the call
    raised after the socket had taken some first bytes of it, possibly all. *)
Inductive wire_entry : Type :=
| Whole (frame : bytes)
| Cut (frame : bytes) (taken : nat).

(** The frame it was given, and the bytes it put on the wire. *)
Definition entry_frame (w : wire_entry) : bytes :=
  match w with Whole frame | Cut frame _ => frame end.

Definition entry_bytes (w : wire_entry) : bytes :=
  match w with Whole frame => frame | Cut frame n => take n frame end.

Definition on_wire (ws : list wire_entry) : bytes := concat (map entry_bytes ws).

Record mux : Type := mk_mux {
  request_timeout : option pyfloat;
  max_payload_size : pyval;
  routes : gmap Z nat;
  queues : gmap nat (list route_item);
  next_queue : nat;
  next_stream_id : Z;
  closed_error : option exn;
  reader : reader_state;
  read_buf : bytes;
  sent : list wire_entry
}.

Definition HANDSHAKE_STREAM_ID : Z := 0.

(** [MuxConnection.__init__]. *)
Definition new_connection (timeout : option pyfloat) : mux :=
  mk_mux timeout (PInt MAX_PAYLOAD_BYTES) ∅ ∅ 0%nat 1 None Reading [] [].

Definition set_routes (m : mux) (r : gmap Z nat) : mux :=
  mk_mux (request_timeout m) (max_payload_size m) r (queues m) (next_queue m) (next_stream_id m)
    (closed_error m) (reader m) (read_buf m) (sent m).

Definition set_queues (m : mux) (q : gmap nat (list route_item)) : mux :=
  mk_mux (request_timeout m) (max_payload_size m) (routes m) q (next_queue m) (next_stream_id m)
    (closed_error m) (reader m) (read_buf m) (sent m).

Definition set_sent (m : mux) (ws : list wire_entry) : mux :=
  mk_mux (request_timeout m) (max_payload_size m) (routes m) (queues m) (next_queue m)
    (next_stream_id m) (closed_error m) (reader m) (read_buf m) ws.

Definition set_max_payload (m : mux) (v : pyval) : mux :=
  mk_mux (request_timeout m) v (routes m) (queues m) (next_queue m) (next_stream_id m)
    (closed_error m) (reader m) (read_buf m) (sent m).

Definition set_next_stream_id (m : mux) (sid : Z) : mux :=
  mk_mux (request_timeout m) (max_payload_size m) (routes m) (queues m) (next_queue m) sid
    (closed_error m) (reader m) (read_buf m) (sent m).

Definition set_read_buf (m : mux) (buf : bytes) : mux :=
  mk_mux (request_timeout m) (max_payload_size m) (routes m) (queues m) (next_queue m)
    (next_stream_id m) (closed_error m) (reader m) buf (sent m).

Definition set_reader (m : mux) (r : reader_state) : mux :=
  mk_mux (request_timeout m) (max_payload_size m) (routes m) (queues m) (next_queue m)
    (next_stream_id m) (closed_error m) r (read_buf m) (sent m).

(** ** Atomic actions *)

(** [_register]: a fresh queue under the stream id, unless the connection has
    failed. *)
Definition register (m : mux) (sid : Z) : result exn (mux * nat) :=
  match closed_error m with
  | Some e => Raise e
  | None =>
      let q := next_queue m in
      Ok (mk_mux (request_timeout m) (max_payload_size m) (<[sid := q]> (routes m))
            (<[q := []]> (queues m)) (S q) (next_stream_id m) (closed_error m)
            (reader m) (read_buf m) (sent m), q)
  end.

(** [_deregister]. *)
Definition deregister (m : mux) (sid : Z) : mux := set_routes m (delete sid (routes m)).

(** [q.put(item)]. *)
Definition put (qs : gmap nat (list route_item)) (q : nat) (item : route_item)
    : gmap nat (list route_item) :=
  <[q := default [] (qs !! q) ++ [item]]> qs.

(** [_fail_all], with the end of the reader thread that calls it. *)
Definition fail_all (m : mux) (e : exn) : mux :=
  let error := match e with ConnectionClosed | OSError => e | _ => ConnectionClosed end in
  mk_mux (request_timeout m) (max_payload_size m) ∅
    (map_fold (fun _ q qs => put qs q (Closed error)) (queues m) (routes m))
    (next_queue m) (next_stream_id m)
    (match closed_error m with None => Some error | e => e end)
    Stopped (read_buf m) (sent m).

(** [_take_stream_id]. *)
Definition take_stream_id (m : mux) : Z * mux :=
  let sid := next_stream_id m in
  (sid, set_next_stream_id m (if sid + 2 <=? 0xFFFF_FFFF then sid + 2 else 1)).

(** How [sock.sendall] goes: it takes everything, or raises with the number of
    bytes the socket has taken by then, which the caller is not told. *)
Definition sendall_outcome : Type := option (exn * nat).

(** The bytes [_write] hands to [sendall], if it gets that far. *)
Definition frame_to_write (m : mux) (opcode : Opcode) (sid : Z) (payload : bytes)
    : result exn bytes :=
  let* over := lift_error PyExn (py_int_gt (zlen payload) (max_payload_size m)) in
  if over : bool then Raise ProtocolError
  else write_frame (mk_Frame (opcode_value opcode) FLAG_EOS sid payload).

(** [_write]: what it leaves of the connection, which stays in use when [sendall]
    raises, and what it raises. *)
Definition mux_write (m : mux) (opcode : Opcode) (sid : Z) (payload : bytes)
    (send : sendall_outcome) : mux * result exn unit :=
  match frame_to_write m opcode sid payload with
  | Raise e => (m, Raise e)
  | Ok bs =>
      match send with
      | Some (e, n) => (set_sent m (sent m ++ [Cut bs n]), Raise e)
      | None => (set_sent m (sent m ++ [Whole bs]), Ok tt)
      end
  end.

(** [self._write(opcode, stream_id, payload)] with its arguments still to be
    evaluated. *)
Definition write_evaluated (m : mux) (frame : result exn (Opcode * bytes)) (sid : Z)
    (send : sendall_outcome) : mux * result exn unit :=
  match frame with
  | Raise e => (m, Raise e)
  | Ok (opcode, payload) => mux_write m opcode sid payload send
  end.

(** How a [_next] can go: an item is there, or the deadline [expired] first, or
    it waits. *)
Inductive next_outcome : Type :=
| NextFrame (frame : Frame) (m : mux)
| NextRaise (e : exn) (m : mux)
| NextBlocks.

(** [Queue.get] refuses a negative timeout. *)
Definition negative_timeout (deadline : option pyfloat) : bool :=
  match deadline with Some d => float_ltb d (FZero false) | None => false end.

Definition mux_next (m : mux) (q : nat) (timeout : option pyfloat) (expired : bool)
    : next_outcome :=
  let deadline := match timeout with None => request_timeout m | Some _ => timeout end in
  if negative_timeout deadline then NextRaise (PyExn ValueError) m
  else
    match queues m !! q with
    | Some (item :: rest) =>
        let m := set_queues m (<[q := rest]> (queues m)) in
        match item with
        | Arrived frame => NextFrame frame m
        | Closed e => NextRaise e m
        end
    | _ =>
        match deadline with
        | Some _ => if expired then NextRaise (BrainTimeout deadline) m else NextBlocks
        | None => NextBlocks
        end
    end.

Section Connection.
Context `{Cbor2}.

(** [raise ServerError.from_response(decode_payload(ErrorResponse, payload))]. *)
Definition server_error (frame : Frame) : exn :=
  match decode_payload (T := ErrorResponse) (frame_payload frame) with
  | Ok response => raise_from_response response
  | Raise e => CborExn e
  end.

Definition is_opcode (frame : Frame) (o : Opcode) : bool := frame_opcode frame =? opcode_value o.

(** [frame.flags & FLAG_EOS]. *)
Definition is_eos (frame : Frame) : bool := negb (Z.land (frame_flags frame) FLAG_EOS =? 0).

(** [_expect], after its [_next]. *)
Definition expect (frame : Frame) (expected : Opcode) : result exn Frame :=
  if is_opcode frame ERROR then Raise (server_error frame)
  else if negb (is_opcode frame expected) then Raise ProtocolError
  else Ok frame.

(** The reader loop's route lookup for a frame. *)
Definition route_frame (m : mux) (frame : Frame) : mux :=
  match routes m !! frame_stream_id frame with
  | None => m
  | Some q => set_reader m (Routing frame q)
  end.

(** The reader loop's treatment of one frame: SERVER_PING is answered; for any
    other frame the queue of its stream is looked up, and a frame without one is
    dropped. *)
Definition on_frame (m : mux) (frame : Frame) (time_ns : Z) (send : sendall_outcome) : mux :=
  if is_opcode frame SERVER_PING then
    let server_ts :=
      match decode_payload (T := ServerPingResponse) (frame_payload frame) with
      | Ok p => ServerPingResponse_server_timestamp_unix_nanos p
      | Raise _ => PInt 0
      end in
    let pong := mk_ClientPongRequest server_ts (PInt time_ns) in
    fst (write_evaluated m
           (let* payload := lift_error PyExn (encode_payload pong) in Ok (CLIENT_PONG, payload))
           HANDSHAKE_STREAM_ID send)
  else route_frame m frame.

(** [q.put(frame)] in the reader loop. *)
Definition put_frame (m : mux) (frame : Frame) (q : nat) : mux :=
  set_reader (set_queues m (put (queues m) q (Arrived frame))) Reading.

(** [send_bye]. *)
Definition send_bye (m : mux) (send : sendall_outcome) : mux * result exn unit :=
  write_evaluated m
    (let* payload := lift_error PyExn (encode_payload (mk_ByeRequest PNone)) in Ok (BYE, payload))
    HANDSHAKE_STREAM_ID send.

(** [is_closed] and [route_count]. *)
Definition is_closed (m : mux) : bool :=
  match closed_error m with
  | Some _ => true
  | None => match reader m with Stopped => true | _ => false end
  end.

Definition route_count (m : mux) : nat := size (routes m).

(** ** Calls *)

(** The operations a caller's thread can run. *)
Inductive call : Type :=
| CallRequest (opcode : Opcode) (payload : bytes) (timeout : option pyfloat)
| CallOnConnection (opcode : Opcode) (payload : bytes)
| CallHandshake (hello : HelloPayload) (auth : AuthPayload)
| CallSubscribe (request : SubscribeRequest)
| CallBye.

(** What a finished operation returned: the stream it ran on and its frames, what
    the handshake negotiated, or nothing. *)
Inductive answer : Type :=
| AnswerFrames (sid : Z) (frames : list Frame)
| AnswerHandshake (welcome : WelcomePayload) (auth_ok : AuthOkPayload)
| AnswerNone.

Record Subscription : Type := mk_Subscription {
  sub_stream_id : Z;
  sub_queue : nat;
  sub_ended : bool
}.

Definition end_subscription (s : Subscription) : Subscription :=
  mk_Subscription (sub_stream_id s) (sub_queue s) true.

(** What a call of [Subscription.next] returns or raises. *)
Definition next_return : Type := result exn (option SubscriptionEvent).

(** Where in its operation a thread stands. [Leaving] is the [finally] that
    deregisters the route. After [subscribe] the thread drains the subscription:
    it keeps what each [next] has returned so far, and [Unrouting] is between
    [_ended = True] and [_deregister]. *)
Inductive thread : Type :=
| Calling (c : call)
| Identified (c : call) (sid : Z)
| Registered (c : call) (sid : Z) (q : nat)
| Collecting (c : call) (sid : Z) (q : nat) (frames : list Frame)
| AwaitWelcome (c : call) (hello : HelloPayload) (auth : AuthPayload) (sid : Z) (q : nat)
| SendAuth (c : call) (auth : AuthPayload) (welcome : WelcomePayload) (sid : Z) (q : nat)
| AwaitAuthOk (c : call) (welcome : WelcomePayload) (sid : Z) (q : nat)
| Leaving (c : call) (sid : Z) (q : nat) (r : result exn answer)
| Finished (c : call) (r : result exn answer)
| Subscribed (s : Subscription) (returned : list next_return)
| Unrouting (s : Subscription) (returned : list next_return) (r : option next_return).

(** What the environment decides about one step: whether the deadline of a wait
    has expired, how the [sendall] of a write goes, and whether the holder of a
    subscription closes it rather than asking for the next event. *)
Record env : Type := mk_env { expired : bool; send : sendall_outcome; closes : bool }.

(** The call and route of a thread inside an operation's [try]. *)
Definition running (t : thread) : option (call * Z * nat) :=
  match t with
  | Registered c sid q | Collecting c sid q _ | AwaitWelcome c _ _ sid q
  | SendAuth c _ _ sid q | AwaitAuthOk c _ sid q => Some (c, sid, q)
  | _ => None
  end.

(** The frame an operation sends first. *)
Definition call_frame (c : call) : result exn (Opcode * bytes) :=
  match c with
  | CallRequest opcode payload _ | CallOnConnection opcode payload => Ok (opcode, payload)
  | CallHandshake hello _ =>
      let* payload := lift_error PyExn (encode_payload hello) in Ok (HELLO, payload)
  | CallSubscribe request =>
      let* payload := lift_error PyExn (encode_payload request) in Ok (SUBSCRIBE_REQ, payload)
  | CallBye =>
      let* payload := lift_error PyExn (encode_payload (mk_ByeRequest PNone)) in Ok (BYE, payload)
  end.

Definition call_timeout (c : call) : option pyfloat :=
  match c with CallRequest _ _ timeout => timeout | _ => None end.

(** [offered = list(hello.supported_versions)]. *)
Definition offered_versions (hello : HelloPayload) : result exn (list pyval) :=
  lift_error PyExn (py_iter (HelloPayload_supported_versions hello)).

(** WELCOME received: the chosen version must be among the offered ones. *)
Definition accept_welcome (hello : HelloPayload) (frame : Frame) : result exn WelcomePayload :=
  let* frame := expect frame WELCOME in
  let* welcome := lift_error CborExn (decode_payload (T := WelcomePayload) (frame_payload frame)) in
  let* offered := offered_versions hello in
  if negb (py_in (WelcomePayload_chosen_version welcome) offered)
  then Raise (VersionMismatch (WelcomePayload_chosen_version welcome) offered)
  else Ok welcome.

(** AUTH_OK received. *)
Definition accept_auth_ok (frame : Frame) : result exn AuthOkPayload :=
  let* frame := expect frame AUTH_OK in
  lift_error CborExn (decode_payload (T := AuthOkPayload) (frame_payload frame)).

(** [welcome.server_features.max_payload_size or MAX_PAYLOAD_BYTES]. *)
Definition negotiated_max (welcome : WelcomePayload) : pyval :=
  let v := ServerFeatures_max_payload_size (WelcomePayload_server_features welcome) in
  if py_bool v then v else PInt MAX_PAYLOAD_BYTES.

(** One frame of a collecting request. *)
Definition collect (c : call) (sid : Z) (q : nat) (frames : list Frame) (frame : Frame) : thread :=
  if is_opcode frame ERROR then Leaving c sid q (Raise (server_error frame))
  else
    let frames := frames ++ [frame] in
    if is_eos frame then Leaving c sid q (Ok (AnswerFrames sid frames))
    else Collecting c sid q frames.

(** The thread after its first frame is written. *)
Definition after_write (c : call) (sid : Z) (q : nat) : thread :=
  match c with
  | CallSubscribe _ => Subscribed (mk_Subscription sid q false) []
  | CallHandshake hello auth => AwaitWelcome c hello auth sid q
  | _ => Collecting c sid q []
  end.

(** What [Subscription.next] makes of a frame. *)
Definition event_of (frame : Frame) : next_return :=
  if is_opcode frame ERROR then Raise (server_error frame)
  else if is_eos frame && match frame_payload frame with [] => true | _ => false end then Ok None
  else
    let* event := lift_error CborExn
                    (decode_payload (T := SubscriptionEvent) (frame_payload frame)) in
    Ok (Some event).

(** A frame that ends a subscription. *)
Definition ends_stream (frame : Frame) : bool := is_opcode frame ERROR || is_eos frame.

(** [Subscription.next] up to its [_deregister], where it has one. *)
Definition subscription_next (m : mux) (s : Subscription) (returned : list next_return)
    (timed_out : bool) : option (mux * thread) :=
  if sub_ended s then Some (m, Subscribed s (returned ++ [Ok None]))
  else
    match mux_next m (sub_queue s) None timed_out with
    | NextBlocks => None
    | NextRaise ConnectionClosed m =>
        Some (m, Unrouting (end_subscription s) returned (Some (Ok None)))
    | NextRaise e m => Some (m, Subscribed s (returned ++ [Raise e]))
    | NextFrame frame m =>
        Some (m, if ends_stream frame
                 then Unrouting (end_subscription s) returned (Some (event_of frame))
                 else Subscribed s (returned ++ [event_of frame]))
    end.

(** [Subscription.close], the same. *)
Definition subscription_close (s : Subscription) (returned : list next_return) : thread :=
  Unrouting (end_subscription s) returned None.

(** One atomic action of a thread; [None] while it waits or has none left. *)
Definition thread_step (m : mux) (t : thread) (e : env) : option (mux * thread) :=
  match t with
  | Calling c =>
      match c with
      | CallRequest _ _ _ | CallSubscribe _ =>
          let '(sid, m) := take_stream_id m in Some (m, Identified c sid)
      | CallOnConnection _ _ => Some (m, Identified c HANDSHAKE_STREAM_ID)
      | CallHandshake hello _ =>
          match offered_versions hello with
          | Raise e => Some (m, Finished c (Raise e))
          | Ok _ => Some (m, Identified c HANDSHAKE_STREAM_ID)
          end
      | CallBye =>
          let '(m, r) := send_bye m (send e) in
          Some (m, Finished c (let* _ := r in Ok AnswerNone))
      end
  | Identified c sid =>
      match register m sid with
      | Raise e => Some (m, Finished c (Raise e))
      | Ok (m, q) => Some (m, Registered c sid q)
      end
  | Registered c sid q =>
      let '(m, r) := write_evaluated m (call_frame c) sid (send e) in
      Some (m, match r with
               | Raise e => Leaving c sid q (Raise e)
               | Ok _ => after_write c sid q
               end)
  | Collecting c sid q frames =>
      match mux_next m q (call_timeout c) (expired e) with
      | NextBlocks => None
      | NextRaise e m => Some (m, Leaving c sid q (Raise e))
      | NextFrame frame m => Some (m, collect c sid q frames frame)
      end
  | AwaitWelcome c hello auth sid q =>
      match mux_next m q None (expired e) with
      | NextBlocks => None
      | NextRaise e m => Some (m, Leaving c sid q (Raise e))
      | NextFrame frame m =>
          Some (m, match accept_welcome hello frame with
                   | Raise e => Leaving c sid q (Raise e)
                   | Ok welcome => SendAuth c auth welcome sid q
                   end)
      end
  | SendAuth c auth welcome sid q =>
      let '(m, r) := write_evaluated m
                       (let* payload := lift_error PyExn (encode_payload auth) in
                        Ok (AUTH, payload)) sid (send e) in
      Some (m, match r with
               | Raise e => Leaving c sid q (Raise e)
               | Ok _ => AwaitAuthOk c welcome sid q
               end)
  | AwaitAuthOk c welcome sid q =>
      match mux_next m q None (expired e) with
      | NextBlocks => None
      | NextRaise e m => Some (m, Leaving c sid q (Raise e))
      | NextFrame frame m =>
          match accept_auth_ok frame with
          | Raise e => Some (m, Leaving c sid q (Raise e))
          | Ok auth_ok =>
              Some (set_max_payload m (negotiated_max welcome),
                    Leaving c sid q (Ok (AnswerHandshake welcome auth_ok)))
          end
      end
  | Leaving c sid q r => Some (deregister m sid, Finished c r)
  | Finished _ _ => None
  | Subscribed s returned =>
      if closes e then Some (m, subscription_close s returned)
      else subscription_next m s returned (expired e)
  | Unrouting s returned r =>
      Some (deregister m (sub_stream_id s), Subscribed s (returned ++ option_list r))
  end.

(** [request_one], on the outcome of the request. *)
Definition one_frame (r : result exn (list Frame)) : result exn Frame :=
  let* frames := r in
  match frames with [frame] => Ok frame | _ => Raise ProtocolError end.

(** [Subscription.unsubscribe]: the request it makes, and what it makes of the
    outcome. *)
Definition unsubscribe_call (s : Subscription) : result exn call :=
  let* payload := lift_error PyExn
                    (encode_payload (mk_UnsubscribeRequest (PInt (sub_stream_id s)))) in
  Ok (CallRequest UNSUBSCRIBE_REQ payload None).

Definition unsubscribe_answer (r : result exn (list Frame)) : result exn UnsubscribeResponse :=
  let* frame := one_frame r in
  if negb (is_opcode frame UNSUBSCRIBE_RESP) then Raise ProtocolError
  else lift_error CborExn (decode_payload (T := UnsubscribeResponse) (frame_payload frame)).

(** ** The system *)

(** A connection, the threads using it, and two histories: every frame the
    reader has looked a route up for, and every stream id handed out. *)
Record system : Type := mk_system {
  conn : mux;
  threads : gmap nat thread;
  arrived : list Frame;
  issued : list Z
}.

Definition start (timeout : option pyfloat) : system := mk_system (new_connection timeout) ∅ [] [].

(** The frames [on_frame] looks a route up for. *)
Definition routed (frame : Frame) : list Frame :=
  if is_opcode frame SERVER_PING then [] else [frame].

(** The stream id a thread's step hands out. *)
Definition ids_taken (t : thread) (m : mux) : list Z :=
  match t with
  | Calling (CallRequest _ _ _) | Calling (CallSubscribe _) => [next_stream_id m]
  | _ => []
  end.

Inductive step : system -> system -> Prop :=
| step_call s tid c :
    threads s !! tid = None ->
    step s (mk_system (conn s) (<[tid := Calling c]> (threads s)) (arrived s) (issued s))
| step_thread s tid t e m t' :
    threads s !! tid = Some t -> thread_step (conn s) t e = Some (m, t') ->
    step s (mk_system m (<[tid := t']> (threads s)) (arrived s)
              (issued s ++ ids_taken t (conn s)))
| step_read s events frame buf time_ns refused :
    reader (conn s) = Reading ->
    read_frame events (read_buf (conn s)) = ReadFrame frame buf [] ->
    step s (mk_system (on_frame (set_read_buf (conn s) buf) frame time_ns refused)
              (threads s) (arrived s ++ routed frame) (issued s))
| step_put s frame q :
    reader (conn s) = Routing frame q ->
    step s (mk_system (put_frame (conn s) frame q) (threads s) (arrived s) (issued s))
| step_read_fails s events e buf :
    reader (conn s) = Reading ->
    read_frame events (read_buf (conn s)) = ReadRaise e buf [] ->
    step s (mk_system (fail_all (set_read_buf (conn s) buf) e) (threads s) (arrived s) (issued s)).

Definition reachable (timeout : option pyfloat) (s : system) : Prop := rtc step (start timeout) s.

(** Induction over the reachable states. *)
Lemma reachable_ind_inv (P : system -> Prop) timeout :
  P (start timeout) -> (forall s s', reachable timeout s -> P s -> step s s' -> P s') ->
  forall s, reachable timeout s -> P s.
Proof.
  intros H0 Hs s Hr.
  refine (rtc_ind_r (fun s => P s) (start timeout) H0 _ s Hr).
  intros s1 s2 Hr1 Hst IH. by eapply Hs.
Qed.
End Connection.
