(* ===== verification/MuxMoves.v ===== *)
(** * MuxMoves

    The transition system behind the invariants of the multiplexer. [moves] keeps
    of a thread's step only what the invariants look at, [transition] does the
    same for the whole connection, and every step of the code's system in [Mux]
    is a sequence of transitions. The asyncio connection of [AioMux] refines the
    same transitions, so what [MuxSafety] proves of them holds of both. *)

From S2P Require Import Prelude Frame PyFloat PyValue PyArith PyCompare Cbor WireCodec Opcode.
From S2P Require Import WireHandshake WireListing WireEvents Errors Transport Mux.
From stdpp Require Import gmap.
#[local] Open Scope Z_scope.

Section Moves.
Context `{Cbor2}.

(** ** What a thread owns *)

(** The route a thread has yet to deregister. *)
Definition holds (t : thread) : option (Z * nat) :=
  match t with
  | Leaving _ sid q _ => Some (sid, q)
  | Subscribed s _ => if sub_ended s then None else Some (sub_stream_id s, sub_queue s)
  | Unrouting s _ _ => Some (sub_stream_id s, sub_queue s)
  | _ => match running t with Some (_, sid, q) => Some (sid, q) | None => None end
  end.

(** The queue a thread has ever had. *)
Definition queue_of (t : thread) : option nat :=
  match t with
  | Subscribed s _ => Some (sub_queue s)
  | _ => snd <$> holds t
  end.

(** The stream a thread inside an operation's [try] runs on. *)
Definition running_stream (t : thread) : option Z :=
  match running t with Some (_, sid, _) => Some sid | None => None end.

(** The operations that run on a stream of their own. *)
Definition op_call (c : call) : bool :=
  match c with CallRequest _ _ _ | CallSubscribe _ => true | _ => false end.

(** ** One step of a thread *)

Definition pop (m : mux) (q : nat) (rest : list route_item) : mux :=
  set_queues m (<[q := rest]> (queues m)).

Definition registered (m : mux) (sid : Z) : mux :=
  mk_mux (request_timeout m) (max_payload_size m) (<[sid := next_queue m]> (routes m))
    (<[next_queue m := []]> (queues m)) (S (next_queue m)) (next_stream_id m) None
    (reader m) (read_buf m) (sent m).

(** What a thread becomes when it takes a frame, the handshake's last apart. *)
Inductive takes_frame (frame : Frame) : thread -> thread -> Prop :=
| takes_collect c sid q frames :
    takes_frame frame (Collecting c sid q frames) (collect c sid q frames frame)
| takes_welcome c hello auth sid q welcome :
    accept_welcome hello frame = Ok welcome ->
    takes_frame frame (AwaitWelcome c hello auth sid q) (SendAuth c auth welcome sid q)
| takes_error t c sid q e :
    running t = Some (c, sid, q) -> takes_frame frame t (Leaving c sid q (Raise e))
| takes_event s returned :
    sub_ended s = false -> ends_stream frame = false ->
    takes_frame frame (Subscribed s returned) (Subscribed s (returned ++ [event_of frame]))
| takes_last_event s returned :
    sub_ended s = false -> ends_stream frame = true ->
    takes_frame frame (Subscribed s returned)
      (Unrouting (end_subscription s) returned (Some (event_of frame))).

(** What a thread becomes on a step that touches nothing shared. *)
Inductive quiet : thread -> thread -> Prop :=
| quiet_begin c : op_call c = false -> quiet (Calling c) (Identified c HANDSHAKE_STREAM_ID)
| quiet_refuse c e : op_call c = false -> quiet (Calling c) (Finished c (Raise e))
| quiet_fail t c sid q e : running t = Some (c, sid, q) -> quiet t (Leaving c sid q (Raise e))
| quiet_ended s returned :
    sub_ended s = true -> quiet (Subscribed s returned) (Subscribed s (returned ++ [Ok None]))
| quiet_next_raises s returned e :
    sub_ended s = false -> quiet (Subscribed s returned) (Subscribed s (returned ++ [Raise e]))
| quiet_bye : quiet (Calling CallBye) (Finished CallBye (Ok AnswerNone))
| quiet_close s returned :
    quiet (Subscribed s returned) (Unrouting (end_subscription s) returned None).

(** What a thread becomes when it takes the [_Closed] sentinel. *)
Inductive takes_closed : thread -> thread -> Prop :=
| closed_running t c sid q e :
    running t = Some (c, sid, q) -> takes_closed t (Leaving c sid q (Raise e))
| closed_next s returned :
    sub_ended s = false ->
    takes_closed (Subscribed s returned) (Unrouting (end_subscription s) returned (Some (Ok None)))
| closed_next_raises s returned e :
    sub_ended s = false ->
    takes_closed (Subscribed s returned) (Subscribed s (returned ++ [Raise e])).

Inductive moves (m : mux) : thread -> mux -> thread -> Prop :=
| moves_take c : op_call c = true ->
    moves m (Calling c) (snd (take_stream_id m)) (Identified c (next_stream_id m))
| moves_bye payload bs :
    write_frame (mk_Frame (opcode_value BYE) FLAG_EOS HANDSHAKE_STREAM_ID payload) = Ok bs ->
    moves m (Calling CallBye) (set_sent m (sent m ++ [Whole bs])) (Finished CallBye (Ok AnswerNone))
| moves_quiet t t' : quiet t t' -> moves m t m t'
| moves_cut t t' opcode sid payload bs n :
    quiet t t' -> sid = HANDSHAKE_STREAM_ID \/ running_stream t = Some sid ->
    write_frame (mk_Frame (opcode_value opcode) FLAG_EOS sid payload) = Ok bs ->
    moves m t (set_sent m (sent m ++ [Cut bs n])) t'
| moves_closed c sid e : closed_error m = Some e ->
    moves m (Identified c sid) m (Finished c (Raise e))
| moves_register c sid : closed_error m = None ->
    moves m (Identified c sid) (registered m sid) (Registered c sid (next_queue m))
| moves_write c sid q opcode payload bs :
    call_frame c = Ok (opcode, payload) ->
    write_frame (mk_Frame (opcode_value opcode) FLAG_EOS sid payload) = Ok bs ->
    moves m (Registered c sid q) (set_sent m (sent m ++ [Whole bs])) (after_write c sid q)
| moves_auth c auth welcome sid q payload bs :
    write_frame (mk_Frame (opcode_value AUTH) FLAG_EOS sid payload) = Ok bs ->
    moves m (SendAuth c auth welcome sid q) (set_sent m (sent m ++ [Whole bs]))
      (AwaitAuthOk c welcome sid q)
| moves_frame t t' q frame rest :
    queue_of t = Some q -> queues m !! q = Some (Arrived frame :: rest) ->
    takes_frame frame t t' -> moves m t (pop m q rest) t'
| moves_auth_ok c welcome sid q frame rest auth_ok :
    queues m !! q = Some (Arrived frame :: rest) ->
    moves m (AwaitAuthOk c welcome sid q)
      (set_max_payload (pop m q rest) (negotiated_max welcome))
      (Leaving c sid q (Ok (AnswerHandshake welcome auth_ok)))
| moves_sentinel t t' q e rest :
    queue_of t = Some q -> queues m !! q = Some (Closed e :: rest) ->
    takes_closed t t' -> moves m t (pop m q rest) t'
| moves_leave c sid q r : moves m (Leaving c sid q r) (deregister m sid) (Finished c r)
| moves_unroute s returned r :
    moves m (Unrouting s returned r) (deregister m (sub_stream_id s))
      (Subscribed s (returned ++ option_list r)).

(** A wait takes an item, or raises with nothing changed, or goes on. *)
Lemma mux_next_cases m q timeout ex :
  match mux_next m q timeout ex with
  | NextFrame f m' =>
      exists rest, queues m !! q = Some (Arrived f :: rest) /\ m' = pop m q rest
  | NextRaise e m' =>
      (m' = m /\ e <> ConnectionClosed)
      \/ (exists rest, queues m !! q = Some (Closed e :: rest) /\ m' = pop m q rest)
  | NextBlocks => True
  end.
Proof.
  unfold mux_next. destruct (negative_timeout _); [by left|].
  destruct (queues m !! q) as [[|[f|e] rest]|] eqn:E; eauto;
    repeat case_match; simplify_eq; eauto.
Qed.

(** A write logs its frame, whole or cut, or leaves the connection as it was. *)
Lemma mux_write_cases m opcode sid payload refused m' r :
  mux_write m opcode sid payload refused = (m', r) ->
  match r with
  | Ok _ => exists bs, write_frame (mk_Frame (opcode_value opcode) FLAG_EOS sid payload) = Ok bs
              /\ m' = set_sent m (sent m ++ [Whole bs])
  | Raise e => m' = m
      \/ exists bs n, write_frame (mk_Frame (opcode_value opcode) FLAG_EOS sid payload) = Ok bs
          /\ m' = set_sent m (sent m ++ [Cut bs n]) /\ refused = Some (e, n)
  end.
Proof.
  unfold mux_write. destruct (frame_to_write m opcode sid payload) as [bs|e] eqn:Ef.
  - assert (Ew : write_frame (mk_Frame (opcode_value opcode) FLAG_EOS sid payload) = Ok bs).
    { unfold frame_to_write in Ef. inv_binds. by destruct a. }
    destruct refused as [[e n]|]; intros [= <- <-]; [right|]; eauto.
  - intros [= <- <-]. by left.
Qed.

Lemma write_evaluated_cases m frame sid refused m' r :
  write_evaluated m frame sid refused = (m', r) ->
  match r with
  | Ok _ => exists opcode payload bs, frame = Ok (opcode, payload)
              /\ write_frame (mk_Frame (opcode_value opcode) FLAG_EOS sid payload) = Ok bs
              /\ m' = set_sent m (sent m ++ [Whole bs])
  | Raise _ => m' = m
      \/ exists opcode payload bs n, frame = Ok (opcode, payload)
          /\ write_frame (mk_Frame (opcode_value opcode) FLAG_EOS sid payload) = Ok bs
          /\ m' = set_sent m (sent m ++ [Cut bs n])
  end.
Proof.
  unfold write_evaluated. destruct frame as [[opcode payload]|e]; [|intros [= <- <-]; by left].
  intros E%mux_write_cases. destruct r; [|destruct E as [->|(? & ? & ? & ? & _)]];
    naive_solver.
Qed.

Lemma thread_step_moves m t e m' t' :
  thread_step m t e = Some (m', t') -> moves m t m' t'.
Proof.
  intros E. destruct t as [c|c sid|c sid q|c sid q fs|c hello auth sid q|c auth w sid q
    |c w sid q|c sid q r|c r|s rs|s rs r]; cbn [thread_step] in E.
  - destruct c as [opcode payload timeout|opcode payload|hello auth|request|].
    + injection E as <- <-. by apply moves_take.
    + simplify_eq. by apply moves_quiet, quiet_begin.
    + case_match; simplify_eq; apply moves_quiet; by constructor.
    + injection E as <- <-. by apply moves_take.
    + destruct (send_bye m (send e)) as [m1 [u|x]] eqn:Ew; apply write_evaluated_cases in Ew; simplify_eq.
      * destruct Ew as (o & p & bs & Ef & Ew & ->). inv_binds. by eapply moves_bye.
      * destruct Ew as [->|(o & p & bs & n & _ & Ew & ->)]; [by apply moves_quiet, quiet_refuse|].
        eapply moves_cut; [by apply quiet_refuse|by left|done].
  - unfold register in E. destruct (closed_error m) eqn:Ec; simplify_eq/=.
    + by apply moves_closed.
    + by apply moves_register.
  - destruct (write_evaluated _ _ _ _) as [m1 [u|x]] eqn:Ew; apply write_evaluated_cases in Ew; simplify_eq.
    + destruct Ew as (o & p & bs & Ef & Ew & ->). by eapply moves_write.
    + destruct Ew as [->|(o & p & bs & n & _ & Ew & ->)]; [apply moves_quiet; by econstructor|].
      eapply moves_cut; [by econstructor|by right|done].
  - pose proof (mux_next_cases m q (call_timeout c) (expired e)) as Hn.
    destruct (mux_next _ _ _ _); simplify_eq.
    + destruct Hn as (rest & Eq & ->). eapply moves_frame; [done|done|constructor].
    + destruct Hn as [[-> Hne]|(rest & Eq & ->)]; [apply moves_quiet; by econstructor|].
      eapply moves_sentinel; [done|done|by econstructor].
  - pose proof (mux_next_cases m q None (expired e)) as Hn.
    destruct (mux_next _ _ _ _); simplify_eq.
    + destruct Hn as (rest & Eq & ->). eapply moves_frame; [done|done|].
      case_match; by econstructor.
    + destruct Hn as [[-> Hne]|(rest & Eq & ->)]; [apply moves_quiet; by econstructor|].
      eapply moves_sentinel; [done|done|by econstructor].
  - destruct (write_evaluated _ _ _ _) as [m1 [u|x]] eqn:Ew; apply write_evaluated_cases in Ew; simplify_eq.
    + destruct Ew as (o & p & bs & Ef & Ew & ->). inv_binds. by eapply moves_auth.
    + destruct Ew as [->|(o & p & bs & n & _ & Ew & ->)]; [apply moves_quiet; by econstructor|].
      eapply moves_cut; [by econstructor|by right|done].
  - pose proof (mux_next_cases m q None (expired e)) as Hn.
    destruct (mux_next _ _ _ _); simplify_eq.
    + destruct Hn as (rest & Eq & ->). case_match; simplify_eq; [by eapply moves_auth_ok|].
      eapply moves_frame; [done|done|by econstructor].
    + destruct Hn as [[-> Hne]|(rest & Eq & ->)]; [apply moves_quiet; by econstructor|].
      eapply moves_sentinel; [done|done|by econstructor].
  - simplify_eq. constructor.
  - done.
  - destruct (closes e); simplify_eq; [apply moves_quiet, quiet_close|].
    unfold subscription_next in E. destruct (sub_ended s) eqn:Es; simplify_eq.
    { by apply moves_quiet, quiet_ended. }
    pose proof (mux_next_cases m (sub_queue s) None (expired e)) as Hn.
    destruct (mux_next _ _ _ _); simplify_eq.
    + destruct Hn as (rest & Eq & ->). eapply moves_frame; [done|done|].
      destruct (ends_stream frame) eqn:Ee; by constructor.
    + destruct Hn as [[-> Hne]|(rest & Eq & ->)]; case_match; simplify_eq;
        first [by apply moves_quiet, quiet_next_raises
              | eapply moves_sentinel; [done|done|by constructor]
              | idtac].
  - simplify_eq. constructor.
Qed.

(** ** Transitions of a connection *)

(** A change the invariants do not look at: the read buffer, and one heartbeat
    answer or BYE put on the wire, whole or cut. *)
Definition idles (m m' : mux) : Prop :=
  routes m' = routes m /\ queues m' = queues m /\ next_queue m' = next_queue m
  /\ next_stream_id m' = next_stream_id m /\ closed_error m' = closed_error m
  /\ reader m' = reader m /\ max_payload_size m' = max_payload_size m
  /\ (sent m' = sent m
      \/ exists o payload w, (o = CLIENT_PONG \/ o = BYE)
          /\ write_frame (mk_Frame (opcode_value o) FLAG_EOS HANDSHAKE_STREAM_ID payload)
             = Ok (entry_frame w)
          /\ sent m' = sent m ++ [w]).

(** The reader holds no frame it has looked a route up for. *)
Definition not_routing (m : mux) : Prop := forall f q, reader m <> Routing f q.

Inductive transition : system -> system -> Prop :=
| tr_call s tid c :
    threads s !! tid = None ->
    transition s (mk_system (conn s) (<[tid := Calling c]> (threads s)) (arrived s) (issued s))
| tr_refuse s tid c e :
    threads s !! tid = None ->
    transition s (mk_system (conn s) (<[tid := Finished c (Raise e)]> (threads s))
                    (arrived s) (issued s))
| tr_thread s tid t m t' :
    threads s !! tid = Some t -> moves (conn s) t m t' ->
    transition s (mk_system m (<[tid := t']> (threads s)) (arrived s)
                    (issued s ++ ids_taken t (conn s)))
| tr_route s f :
    reader (conn s) = Reading ->
    transition s (mk_system (route_frame (conn s) f) (threads s) (arrived s ++ [f]) (issued s))
| tr_put s f q :
    reader (conn s) = Routing f q ->
    transition s (mk_system (put_frame (conn s) f q) (threads s) (arrived s) (issued s))
| tr_fail s e :
    not_routing (conn s) ->
    transition s (mk_system (fail_all (conn s) e) (threads s) (arrived s) (issued s))
| tr_idle s m :
    idles (conn s) m -> transition s (mk_system m (threads s) (arrived s) (issued s)).

(** The states the transitions lead to. *)
Definition allowed (timeout : option pyfloat) (s : system) : Prop :=
  rtc transition (start timeout) s.

Lemma allowed_ind_inv (P : system -> Prop) timeout :
  P (start timeout) -> (forall s s', allowed timeout s -> P s -> transition s s' -> P s') ->
  forall s, allowed timeout s -> P s.
Proof.
  intros H0 Hs s Hr.
  refine (rtc_ind_r (fun s => P s) (start timeout) H0 _ s Hr).
  intros s1 s2 Hr1 Hst IH. by eapply Hs.
Qed.

Lemma not_routing_reading m : reader m = Reading -> not_routing m.
Proof. unfold not_routing. congruence. Qed.

(** Answering a SERVER_PING is idle. *)
Lemma ping_idles m f ts refused : is_opcode f SERVER_PING = true -> idles m (on_frame m f ts refused).
Proof.
  unfold on_frame. intros ->.
  destruct (write_evaluated _ _ _ _) as [m' r] eqn:Ew. cbn [fst].
  apply write_evaluated_cases in Ew as Ew'. destruct r.
  - destruct Ew' as (o & p & bs & Ef & Eb & ->). inv_binds. split_and!; try done.
    right. exists CLIENT_PONG, p, (Whole bs). auto.
  - destruct Ew' as [->|(o & p & bs & n & Ef & Eb & ->)]; [split_and!; auto|].
    inv_binds. split_and!; try done. right. exists CLIENT_PONG, p, (Cut bs n). auto.
Qed.

Lemma read_buf_idles m buf : idles m (set_read_buf m buf).
Proof. split_and!; auto. Qed.

Lemma idles_trans m1 m2 m3 :
  idles m1 m2 -> sent m2 = sent m1 -> idles m2 m3 -> idles m1 m3.
Proof.
  intros (? & ? & ? & ? & ? & ? & ? & _) Es (? & ? & ? & ? & ? & ? & ? & [?|(o & p & w & Ho & ? & ?)]);
    split_and!; try congruence; [left; congruence|].
  right. exists o, p, w. split_and!; [done..|]. congruence.
Qed.

Lemma step_transitions s s' : step s s' -> rtc transition s s'.
Proof.
  destruct 1 as [s tid c Ht|s tid t e m t' Ht E|s ev f buf ts refused Hr E|s f q Hr|s ev e buf Hr E].
  - by apply rtc_once, tr_call.
  - apply rtc_once, tr_thread; [done|]. by eapply thread_step_moves.
  - unfold routed. destruct (is_opcode f SERVER_PING) eqn:Ep.
    + rewrite app_nil_r. apply rtc_once, tr_idle.
      eapply idles_trans; [apply read_buf_idles|done|by apply ping_idles].
    + unfold on_frame. rewrite Ep. eapply rtc_l; [apply tr_idle, read_buf_idles|].
      apply rtc_once. by apply (tr_route (mk_system (set_read_buf (conn s) buf) (threads s) (arrived s) (issued s)) f).
  - by apply rtc_once, tr_put.
  - eapply rtc_l; [apply tr_idle, read_buf_idles|].
    apply rtc_once. apply (tr_fail (mk_system (set_read_buf (conn s) buf) (threads s) (arrived s) (issued s)) e).
    by apply not_routing_reading.
Qed.

Lemma reachable_allowed timeout s : reachable timeout s -> allowed timeout s.
Proof.
  unfold reachable, allowed. induction 1 as [|s1 s2 s3 Hs _ IH]; [done|].
  etrans; [by apply step_transitions|done].
Qed.

End Moves.
