(* ===== verification/MuxSafety.v ===== *)
(** * MuxSafety

    What the transitions of [MuxMoves] preserve: every route belongs to a thread
    that will remove it, each thread has taken exactly the frames of its own
    stream, stream ids are handed out once, and what goes out is whole frames.
    The theorems of [MuxProperties] and [AioMuxProperties] read them off. *)

From S2P Require Import Prelude Frame PyFloat PyValue PyArith PyCompare Cbor WireCodec Opcode.
From S2P Require Import WireHandshake WireListing WireEvents Errors Transport Mux MuxMoves.
From stdpp Require Import gmap.
#[local] Open Scope Z_scope.

Section Safety.
Context `{Cbor2}.

(** ** Ownership of routes and queues *)

Lemma running_holds t c sid q : running t = Some (c, sid, q) -> holds t = Some (sid, q).
Proof. destruct t; intros E; by simplify_eq/=. Qed.

Lemma holds_queue t sid q : holds t = Some (sid, q) -> queue_of t = Some q.
Proof.
  destruct t; intros E; cbn in *; simplify_eq; try done. by destruct (sub_ended s); simplify_eq.
Qed.

(** Taking a frame or the sentinel, or a quiet step, keeps the thread's route. *)
Definition keeps (t t' : thread) : Prop :=
  queue_of t' = queue_of t /\ forall x, holds t = Some x -> holds t' = Some x.

Lemma keeps_leaving t c sid q r : running t = Some (c, sid, q) -> keeps t (Leaving c sid q r).
Proof.
  intros E%running_holds. split; [|by rewrite E]. by rewrite (holds_queue _ _ _ E).
Qed.

Lemma unended_keeps s rs rs' :
  sub_ended s = false -> keeps (Subscribed s rs) (Subscribed s rs').
Proof. intros E. split; [done|]. cbn. by rewrite E. Qed.

Lemma unrouting_keeps s rs rs' r :
  keeps (Subscribed s rs) (Unrouting (end_subscription s) rs' r).
Proof. split; [done|]. intros x. cbn. by destruct (sub_ended s). Qed.

#[local] Hint Resolve keeps_leaving unended_keeps unrouting_keeps : core.

Lemma takes_frame_keeps f t t' : takes_frame f t t' -> keeps t t'.
Proof. destruct 1; eauto; unfold keeps, collect; by repeat case_match. Qed.

Lemma quiet_keeps t t' : quiet t t' -> keeps t t'.
Proof.
  destruct 1 as [| | |s rs E| | |]; eauto; split; try done; cbn; by rewrite E.
Qed.

Lemma takes_closed_keeps t t' : takes_closed t t' -> keeps t t'.
Proof. destruct 1; eauto. Qed.

Lemma moves_ownership m t m' t' :
  moves m t m' t' ->
  (routes m' = routes m /\ next_queue m' = next_queue m /\ keeps t t')
  \/ (exists sid, closed_error m = None /\ routes m' = <[sid := next_queue m]> (routes m)
        /\ next_queue m' = S (next_queue m) /\ queue_of t = None
        /\ holds t' = Some (sid, next_queue m))
  \/ (exists sid q, holds t = Some (sid, q) /\ routes m' = delete sid (routes m)
        /\ next_queue m' = next_queue m /\ (queue_of t' = queue_of t \/ queue_of t' = None)).
Proof.
  destruct 1 as [c Hc|pl bs Hw|t t' Hq|t t' o sid pl bs n Hq Hs Hw|c sid e He|c sid Hc|c sid q o p bs Hf Hw|c a w sid q p bs Hw
    |t t' q f rest Hq Hl Ht|c w sid q f rest a Hl|t t' q e rest Hq Hl Ht|c sid q r|s rs r].
  - left. done.
  - left. done.
  - left. split_and!; [done..|by apply quiet_keeps].
  - left. split_and!; [done..|by apply quiet_keeps].
  - left. done.
  - right; left. exists sid. done.
  - left. split_and!; [done..|]. destruct c; done.
  - left. done.
  - left. split_and!; [done..|by eapply takes_frame_keeps].
  - left. done.
  - left. split_and!; [done..|by eapply takes_closed_keeps].
  - right; right. exists sid, q. split_and!; [done..|by right].
  - right; right. exists (sub_stream_id s), (sub_queue s). split_and!; [done..|by left].
Qed.

Lemma moves_reader m t m' t' :
  moves m t m' t' -> reader m' = reader m /\ closed_error m' = closed_error m.
Proof. destruct 1; simpl; done. Qed.

(** Every route belongs to a thread that will deregister it, queues are not
    shared, and a failed connection has no routes. *)
Record owned (s : system) : Prop := {
  owned_route sid q : routes (conn s) !! sid = Some q ->
    exists tid t, threads s !! tid = Some t /\ holds t = Some (sid, q);
  owned_fresh tid t q : threads s !! tid = Some t -> queue_of t = Some q ->
    (q < next_queue (conn s))%nat;
  owned_distinct tid1 tid2 t1 t2 q : threads s !! tid1 = Some t1 -> threads s !! tid2 = Some t2 ->
    queue_of t1 = Some q -> queue_of t2 = Some q -> tid1 = tid2;
  owned_inflight f q : reader (conn s) = Routing f q -> (q < next_queue (conn s))%nat;
  owned_stopped : reader (conn s) = Stopped ->
    routes (conn s) = ∅ /\ closed_error (conn s) <> None
}.

(** A queue has one route at most. *)
Lemma owned_unique s sid1 sid2 q :
  owned s -> routes (conn s) !! sid1 = Some q -> routes (conn s) !! sid2 = Some q -> sid1 = sid2.
Proof.
  intros Ho (tid1 & t1 & H1 & Hh1)%(owned_route _ Ho) (tid2 & t2 & H2 & Hh2)%(owned_route _ Ho).
  pose proof (owned_distinct _ Ho _ _ _ _ _ H1 H2 (holds_queue _ _ _ Hh1) (holds_queue _ _ _ Hh2)).
  simplify_eq. done.
Qed.

Lemma owned_route_fresh s sid q :
  owned s -> routes (conn s) !! sid = Some q -> (q < next_queue (conn s))%nat.
Proof.
  intros Ho (tid & t & Ht & Hh)%(owned_route _ Ho). eapply (owned_fresh _ Ho); [done|].
  by eapply holds_queue.
Qed.

Lemma route_frame_shared m f :
  let m' := route_frame m f in
  routes m' = routes m /\ queues m' = queues m /\ next_queue m' = next_queue m
  /\ next_stream_id m' = next_stream_id m /\ closed_error m' = closed_error m
  /\ sent m' = sent m
  /\ ((routes m !! frame_stream_id f = None /\ reader m' = reader m)
      \/ exists q, routes m !! frame_stream_id f = Some q /\ reader m' = Routing f q).
Proof.
  cbn zeta. unfold route_frame.
  destruct (routes m !! frame_stream_id f) as [q|] eqn:Er; split_and!; eauto 10.
Qed.

Lemma owned_start timeout : owned (start timeout).
Proof. split; cbn; intros; try done; by simplify_map_eq. Qed.

Lemma owned_thread s tid t m t' ids :
  owned s -> threads s !! tid = Some t -> moves (conn s) t m t' ->
  owned (mk_system m (<[tid := t']> (threads s)) (arrived s) ids).
Proof.
  intros Ho Ht Hm. destruct (moves_reader _ _ _ _ Hm) as [Hr Hc].
  destruct (moves_ownership _ _ _ _ Hm) as [(Hro & Hn & Hq & Hh)
    |[(sid & Hnc & Hro & Hn & Hq & Hh)|(sid & q & Hh & Hro & Hn & Hq)]];
    split; cbn [conn threads]; rewrite ?Hro, ?Hn, ?Hr, ?Hc; try apply (owned_stopped _ Ho);
    try apply (owned_inflight _ Ho).
  - intros sid q (tid1 & t1 & H1 & Hh1)%(owned_route _ Ho).
    destruct (decide (tid1 = tid)) as [->|Hne]; simplify_eq.
    + exists tid, t'. split; [by simplify_map_eq|]. auto.
    + exists tid1, t1. by simplify_map_eq.
  - intros tid1 t1 q [[<- <-]|[Hne H1]]%lookup_insert_Some Hq1.
    + rewrite Hq in Hq1. by eapply (owned_fresh _ Ho).
    + by eapply (owned_fresh _ Ho).
  - intros tid1 tid2 t1 t2 q [[<- <-]|[Hne1 H1]]%lookup_insert_Some
      [[<- <-]|[Hne2 H2]]%lookup_insert_Some Hq1 Hq2; rewrite ?Hq in *; auto;
      by eapply (owned_distinct _ Ho).
  - intros sid' q [[<- <-]|[Hne Hl]]%lookup_insert_Some; [exists tid, t'; by simplify_map_eq|].
    apply (owned_route _ Ho) in Hl as (tid1 & t1 & H1 & Hh1).
    destruct (decide (tid1 = tid)) as [->|Hne1]; simplify_eq.
    + apply holds_queue in Hh1. congruence.
    + exists tid1, t1. by simplify_map_eq.
  - intros tid1 t1 q [[<- <-]|[Hne H1]]%lookup_insert_Some Hq1.
    + apply holds_queue in Hh. simplify_eq. lia.
    + pose proof (owned_fresh _ Ho _ _ _ H1 Hq1). lia.
  - apply holds_queue in Hh.
    intros tid1 tid2 t1 t2 q [[<- <-]|[Hne1 H1]]%lookup_insert_Some
      [[<- <-]|[Hne2 H2]]%lookup_insert_Some Hq1 Hq2; simplify_eq; auto.
    + pose proof (owned_fresh _ Ho _ _ _ H2 Hq2). lia.
    + pose proof (owned_fresh _ Ho _ _ _ H1 Hq1). lia.
    + by eapply (owned_distinct _ Ho).
  - intros f q Hf%(owned_inflight _ Ho). lia.
  - intros Hs. destruct (owned_stopped _ Ho Hs). congruence.
  - intros sid' q' [Hne (tid1 & t1 & H1 & Hh1)%(owned_route _ Ho)]%lookup_delete_Some.
    destruct (decide (tid1 = tid)) as [->|Hne1]; simplify_eq.
    exists tid1, t1. by simplify_map_eq.
  - apply holds_queue in Hh.
    intros tid1 t1 q1 [[<- <-]|[Hne H1]]%lookup_insert_Some Hq1; [|by eapply (owned_fresh _ Ho)].
    destruct Hq as [Hq|Hq]; rewrite Hq in Hq1; [|done]. by eapply (owned_fresh _ Ho).
  - intros tid1 tid2 t1 t2 q1 [[<- <-]|[Hne1 H1]]%lookup_insert_Some
      [[<- <-]|[Hne2 H2]]%lookup_insert_Some Hq1 Hq2; auto;
      destruct Hq as [Hq|Hq]; rewrite ?Hq in Hq1; rewrite ?Hq in Hq2; try done;
      by eapply (owned_distinct _ Ho).
  - intros [-> Hn']%(owned_stopped _ Ho). split; [apply delete_empty|done].
Qed.

(** Steps that keep the threads, the routes and the queue counter. *)
Lemma owned_reader s m arr :
  owned s -> routes m = routes (conn s) -> next_queue m = next_queue (conn s) ->
  closed_error m = closed_error (conn s) ->
  (reader m = reader (conn s) \/ reader m = Reading
   \/ exists f q, reader m = Routing f q /\ (q < next_queue (conn s))%nat) ->
  owned (mk_system m (threads s) arr (issued s)).
Proof.
  intros Ho Hr Hn Hc Hrd. split; cbn [conn threads]; rewrite ?Hr, ?Hn, ?Hc; try apply Ho;
    destruct Hrd as [-> |[E'|(f' & q' & E' & Hq)]]; try apply Ho; congruence.
Qed.

(** A new thread that owns nothing. *)
Lemma owned_new s tid t :
  owned s -> threads s !! tid = None -> holds t = None -> queue_of t = None ->
  owned (mk_system (conn s) (<[tid := t]> (threads s)) (arrived s) (issued s)).
Proof.
  intros Ho Ht Hh Hq0. split; cbn [conn threads]; try apply Ho.
  - intros sid q (tid1 & t1 & H1 & Hh1)%(owned_route _ Ho). exists tid1, t1.
    by rewrite lookup_insert_ne by congruence.
  - intros tid1 t1 q [[<- <-]|[Hne H1]]%lookup_insert_Some Hq; [congruence|].
    by eapply (owned_fresh _ Ho).
  - intros tid1 tid2 t1 t2 q [[<- <-]|[Hne1 H1]]%lookup_insert_Some
      [[<- <-]|[Hne2 H2]]%lookup_insert_Some Hq1 Hq2; try congruence.
    by eapply (owned_distinct _ Ho).
Qed.

Lemma owned_transition s s' : owned s -> transition s s' -> owned s'.
Proof.
  intros Ho Hst. destruct Hst as [s tid c Ht|s tid c e Ht|s tid t m t' Ht Hm|s f Hr|s f q Hr|s e Hr
    |s m (Er & _ & En & _ & Ec & Erd & _)].
  - by apply owned_new.
  - by apply owned_new.
  - by eapply owned_thread.
  - destruct (route_frame_shared (conn s) f) as (H1 & _ & H3 & _ & H5 & _ & Hf).
    apply owned_reader; [done..|]. destruct Hf as [[_ E]|(q & Hq & E)]; [by left|right; right].
    exists f, q. split; [done|]. by eapply owned_route_fresh.
  - apply owned_reader; auto.
  - split; cbn [conn threads]; try apply Ho; cbn [fail_all routes next_queue reader closed_error].
    + intros sid q Hl. by simplify_map_eq.
    + done.
    + intros _. split; [done|]. cbn. by destruct (closed_error (conn s)).
  - apply owned_reader; auto.
Qed.

Lemma allowed_owned timeout s : allowed timeout s -> owned s.
Proof.
  revert s. apply allowed_ind_inv; [apply owned_start|]. intros s s' _. apply owned_transition.
Qed.

(** ** What reaches a queue *)

(** The frames of one stream, in the order of their arrival. *)
Definition on_stream (sid : Z) (fs : list Frame) : list Frame :=
  filter (fun f => frame_stream_id f = sid) fs.

(** The items of a queue, the one the reader is about to put included. *)
Definition contents (m : mux) (q : nat) : list route_item :=
  default [] (queues m !! q)
  ++ match reader m with
     | Routing f q' => if decide (q' = q) then [Arrived f] else []
     | _ => []
     end.

Definition sentinel (items : list route_item) : Prop := items = [] \/ exists e, items = [Closed e].

(** The frames [taken] from a queue, and then those still in it, are exactly the
    frames of its stream from a contiguous part of what arrived, which reaches up
    to the present while the route is there. *)
Definition in_progress (s : system) (sid : Z) (q : nat) (taken : list Frame) : Prop :=
  exists pre seg post rest tail,
    arrived s = pre ++ seg ++ post
    /\ on_stream sid seg = taken ++ rest
    /\ contents (conn s) q = map Arrived rest ++ tail
    /\ sentinel tail
    /\ (routes (conn s) !! sid = Some q -> post = [] /\ tail = []).

(** [taken] is exactly the part of the stream that arrived in some interval. *)
Definition whole_segment (s : system) (sid : Z) (taken : list Frame) : Prop :=
  exists pre seg post, arrived s = pre ++ seg ++ post /\ on_stream sid seg = taken.

Lemma on_stream_cut sid seg taken rest :
  on_stream sid seg = taken ++ rest ->
  exists seg1 seg2, seg = seg1 ++ seg2 /\ on_stream sid seg1 = taken.
Proof.
  revert taken. induction seg as [|f seg IH]; intros taken E.
  - destruct taken; [|done]. by exists [], [].
  - destruct taken as [|g taken]; [by exists [], (f :: seg)|].
    unfold on_stream in E. rewrite filter_cons in E. case_decide as Hf.
    + injection E as -> E. destruct (IH taken E) as (s1 & s2 & -> & E1).
      exists (g :: s1), s2. split; [done|]. unfold on_stream. rewrite filter_cons_True by done.
      by f_equal.
    + destruct (IH (g :: taken) E) as (s1 & s2 & -> & E1). exists (f :: s1), s2. split; [done|].
      unfold on_stream. by rewrite filter_cons_False.
Qed.

Lemma in_progress_segment s sid q taken : in_progress s sid q taken -> whole_segment s sid taken.
Proof.
  intros (pre & seg & post & rest & tail & Ha & Hs & _).
  destruct (on_stream_cut _ _ _ _ Hs) as (s1 & s2 & -> & E).
  exists pre, s1, (s2 ++ post). by rewrite Ha, <- !app_assoc.
Qed.

Lemma whole_segment_grows s s' sid taken l :
  arrived s' = arrived s ++ l -> whole_segment s sid taken -> whole_segment s' sid taken.
Proof.
  intros E (pre & seg & post & Ha & Hs). exists pre, seg, (post ++ l).
  by rewrite E, Ha, <- !app_assoc.
Qed.

Lemma sentinel_nil : sentinel [].
Proof. by left. Qed.
#[local] Hint Resolve sentinel_nil : core.

(** A step that leaves the queue, its route and the arrivals alone, or removes
    the route. *)
Lemma in_progress_same s s' sid q taken :
  arrived s' = arrived s -> contents (conn s') q = contents (conn s) q ->
  (routes (conn s') !! sid = Some q -> routes (conn s) !! sid = Some q) ->
  in_progress s sid q taken -> in_progress s' sid q taken.
Proof.
  intros Ea Eq Er (pre & seg & post & rest & tail & Ha & Hs & Hc & Ht & Hr).
  exists pre, seg, post, rest, tail. rewrite Ea, Eq. split_and!; auto.
Qed.

Lemma in_progress_pop_frame s s' sid q taken f rest :
  arrived s' = arrived s -> contents (conn s) q = Arrived f :: rest ->
  contents (conn s') q = rest ->
  (routes (conn s') !! sid = Some q -> routes (conn s) !! sid = Some q) ->
  in_progress s sid q taken -> in_progress s' sid q (taken ++ [f]).
Proof.
  intros Ea Ef Eq Er (pre & seg & post & rs & tail & Ha & Hs & Hc & Ht & Hr).
  rewrite Ef in Hc. destruct rs as [|f' rs]; [by destruct Ht as [->|[e ->]]|].
  injection Hc as <- Hc.
  exists pre, seg, post, rs, tail. rewrite Ea, <- app_assoc, Eq. split_and!; auto.
Qed.

Lemma in_progress_pop_sentinel s s' sid q taken e rest :
  arrived s' = arrived s -> contents (conn s) q = Closed e :: rest ->
  contents (conn s') q = rest ->
  (routes (conn s') !! sid = Some q -> routes (conn s) !! sid = Some q) ->
  in_progress s sid q taken -> in_progress s' sid q taken.
Proof.
  intros Ea Ef Eq Er (pre & seg & post & rs & tail & Ha & Hs & Hc & Ht & Hr).
  rewrite Ef in Hc. destruct rs as [|f' rs]; [|discriminate]. cbn in Hc.
  exists pre, seg, post, [], []. rewrite Ea, Eq. split_and!; auto.
  - cbn. destruct Ht as [->|[e' ->]]; congruence.
  - intros Hq. apply Er, Hr in Hq as [-> _]. auto.
Qed.

(** A frame arrives: it joins the queue of its own route, and no other. *)
Lemma in_progress_arrival s s' sid q taken f :
  owned s -> arrived s' = arrived s ++ [f] -> routes (conn s') = routes (conn s) ->
  contents (conn s') q = contents (conn s) q
    ++ (if decide (routes (conn s) !! frame_stream_id f = Some q) then [Arrived f] else []) ->
  (forall sid', routes (conn s) !! sid' = Some q -> sid' = sid) ->
  in_progress s sid q taken -> in_progress s' sid q taken.
Proof.
  intros Ho Ea Er Eq Hu (pre & seg & post & rest & tail & Ha & Hs & Hc & Ht & Hr).
  destruct (decide (routes (conn s) !! sid = Some q)) as [Hq|Hq].
  - destruct (Hr Hq) as [-> ->]. rewrite app_nil_r in Ha, Hc.
    exists pre, (seg ++ [f]), [], (rest ++ on_stream sid [f]), [].
    split_and!; auto.
    + by rewrite Ea, Ha, app_nil_r, app_assoc.
    + unfold on_stream in *. by rewrite filter_app, Hs, app_assoc.
    + rewrite Eq, Hc, map_app, app_nil_r. f_equal. unfold on_stream. case_decide as Hf.
      * apply Hu in Hf. by rewrite filter_cons_True by done.
      * rewrite filter_cons_False; [done|]. intros Hsid. by rewrite Hsid in Hf.
  - exists pre, seg, (post ++ [f]), rest, tail. rewrite Ea, Ha, Er, <- !app_assoc.
    split_and!; auto; [|done]. rewrite Eq, Hc. case_decide as Hf; [|by rewrite app_nil_r].
    pose proof (Hu _ Hf). congruence.
Qed.

(** The connection fails: the queue gets the sentinel, if it has a route. *)
Lemma in_progress_fail s s' sid q taken e :
  arrived s' = arrived s -> routes (conn s') = ∅ ->
  (routes (conn s) !! sid = Some q ->
     contents (conn s') q = contents (conn s) q ++ [Closed e]) ->
  (routes (conn s) !! sid <> Some q -> contents (conn s') q = contents (conn s) q) ->
  in_progress s sid q taken -> in_progress s' sid q taken.
Proof.
  intros Ea Er E1 E2 (pre & seg & post & rest & tail & Ha & Hs & Hc & Ht & Hr).
  destruct (decide (routes (conn s) !! sid = Some q)) as [Hq|Hq].
  - destruct (Hr Hq) as [-> ->]. exists pre, seg, [], rest, [Closed e].
    rewrite app_nil_r in Hc. rewrite Ea, Er, E1, Hc, lookup_empty by done.
    split_and!; auto; [right; by exists e|done].
  - exists pre, seg, post, rest, tail. rewrite Ea, Er, E2 by done.
    split_and!; auto. by rewrite lookup_empty.
Qed.

(** ** How each step changes the contents of a queue *)

Lemma contents_pop m q item rest :
  queues m !! q = Some (item :: rest) -> contents m q = item :: contents (pop m q rest) q.
Proof. intros E. unfold contents. cbn. by rewrite E, lookup_insert_eq. Qed.

Lemma contents_insert m q q' items :
  q' <> q -> contents (pop m q items) q' = contents m q'.
Proof. intros Hne. unfold contents. cbn. by rewrite lookup_insert_ne. Qed.

Lemma contents_registered m sid :
  (forall f q, reader m = Routing f q -> (q < next_queue m)%nat) ->
  contents (registered m sid) (next_queue m) = [].
Proof.
  intros Hr. unfold contents. cbn. rewrite lookup_insert_eq.
  destruct (reader m) as [|f q|] eqn:E; [done| |done].
  rewrite decide_False; [done|]. pose proof (Hr f q eq_refl). lia.
Qed.

Lemma moves_contents m t m' t' q :
  moves m t m' t' -> (q < next_queue m)%nat -> queue_of t <> Some q ->
  contents m' q = contents m q.
Proof.
  intros Hm Hq Hne. destruct Hm as [| | | | |c sid Hc| | |t t' q1 f rest Hq1 Hl Ht|c w sid q1 f rest a Hl
    |t t' q1 e rest Hq1 Hl Ht| |]; try done.
  - apply (contents_insert m (next_queue m) q []). lia.
  - apply contents_insert. congruence.
  - apply (contents_insert m q1 q rest). cbn in Hne. congruence.
  - apply contents_insert. congruence.
Qed.

Lemma moves_routes m t m' t' sid q :
  moves m t m' t' -> (q < next_queue m)%nat ->
  routes m' !! sid = Some q -> routes m !! sid = Some q.
Proof.
  intros Hm Hq. destruct (moves_ownership _ _ _ _ Hm) as [(-> & _)
    |[(sid' & _ & -> & _)|(sid' & q' & _ & -> & _)]]; [done|..].
  - intros [[_ E]|[_ E]]%lookup_insert_Some; [lia|done].
  - by intros [_ E]%lookup_delete_Some.
Qed.

Lemma contents_route_frame m f q :
  reader m = Reading ->
  contents (route_frame m f) q
  = contents m q ++ (if decide (routes m !! frame_stream_id f = Some q) then [Arrived f] else []).
Proof.
  intros Hr. destruct (route_frame_shared m f) as (_ & Eq & _ & _ & _ & _ & Hf).
  destruct Hf as [[Hn E]|(q' & Hn & E)];
    unfold contents; rewrite Eq, E, Hr, Hn, app_nil_r; [by rewrite app_nil_r|].
  f_equal. do 2 case_decide; congruence.
Qed.

Lemma contents_put_frame m f q q' :
  reader m = Routing f q -> contents (put_frame m f q) q' = contents m q'.
Proof.
  intros Hr. unfold contents, put_frame, put. cbn. rewrite Hr, app_nil_r.
  destruct (decide (q = q')) as [->|Hne]; [by rewrite lookup_insert_eq|].
  by rewrite lookup_insert_ne, app_nil_r.
Qed.

Definition put_all (rs : gmap Z nat) (qs : gmap nat (list route_item)) (item : route_item) :=
  map_fold (fun _ q qs => put qs q item) qs rs.

(** [put_all] puts once into each queue that has a route. *)
Lemma put_all_lookup rs qs item q :
  (forall sid1 sid2 q, rs !! sid1 = Some q -> rs !! sid2 = Some q -> sid1 = sid2) ->
  ((forall sid, rs !! sid <> Some q) -> put_all rs qs item !! q = qs !! q)
  /\ forall sid, rs !! sid = Some q ->
       default [] (put_all rs qs item !! q) = default [] (qs !! q) ++ [item].
Proof.
  unfold put_all. revert rs. refine (map_fold_weak_ind
    (fun r rs => (forall sid1 sid2 q, rs !! sid1 = Some q -> rs !! sid2 = Some q -> sid1 = sid2) ->
       ((forall sid, rs !! sid <> Some q) -> r !! q = qs !! q)
       /\ forall sid, rs !! sid = Some q -> default [] (r !! q) = default [] (qs !! q) ++ [item])
    _ _ _ _).
  - intros _. split; [done|]. intros sid E. by simplify_map_eq.
  - intros sid q' rs r Hsid IH Hinj. destruct IH as [IH1 IH2].
    { intros s1 s2 q1 H1 H2. eapply Hinj; by rewrite lookup_insert_ne by congruence. }
    unfold put. destruct (decide (q' = q)) as [->|Hne].
    + split.
      * intros Hno. destruct (Hno sid). by simplify_map_eq.
      * intros sid' _. rewrite lookup_insert_eq. cbn. rewrite IH1; [done|].
        intros s1 H1. assert (sid = s1) by (eapply Hinj; by simplify_map_eq). congruence.
    + rewrite lookup_insert_ne by done. split.
      * intros Hno. apply IH1. intros s1 H1. apply (Hno s1).
        by rewrite lookup_insert_ne by congruence.
      * intros s1 [[-> ?]|[_ E]]%lookup_insert_Some; [done|]. by eapply IH2.
Qed.

(** The exception [_fail_all] hands to the waiters. *)
Definition failure (e : exn) : exn :=
  match e with ConnectionClosed | OSError => e | _ => ConnectionClosed end.

Lemma contents_fail_all m e sid q :
  (forall sid1 sid2 q, routes m !! sid1 = Some q -> routes m !! sid2 = Some q -> sid1 = sid2) ->
  not_routing m ->
  (forall sid', routes m !! sid' = Some q -> sid' = sid) ->
  (routes m !! sid = Some q -> contents (fail_all m e) q = contents m q ++ [Closed (failure e)])
  /\ (routes m !! sid <> Some q -> contents (fail_all m e) q = contents m q).
Proof.
  intros Hinj Hr Hu. unfold contents. cbn [fail_all reader queues].
  replace (match reader m with Routing _ _ => _ | _ => _ end) with (@nil route_item)
    by (destruct (reader m) as [|f q'|] eqn:E; [done|by destruct (Hr f q')|done]).
  rewrite !app_nil_r.
  destruct (put_all_lookup (routes m) (queues m) (Closed (failure e)) q Hinj) as [H1 H2].
  split; intros Hq; [by eapply H2|]. rewrite <- H1; [done|].
  intros sid' E. by rewrite (Hu _ E) in E.
Qed.

(** ** What every thread has seen *)

(** The events among what the calls of [Subscription.next] returned. *)
Definition events_of (returned : list next_return) : list SubscriptionEvent :=
  omap (fun r => match r with Ok ev => ev | Raise _ => None end) returned.

(** The request of [c] went out on stream [sid]. *)
Definition requested (s : system) (c : call) (sid : Z) : Prop :=
  exists opcode payload bs, call_frame c = Ok (opcode, payload)
    /\ write_frame (mk_Frame (opcode_value opcode) FLAG_EOS sid payload) = Ok bs
    /\ Whole bs ∈ sent (conn s).

(** A response: frames without an ERROR of which the last, and only it, has EOS. *)
Definition whole_response (frames : list Frame) : Prop :=
  exists body last, frames = body ++ [last]
    /\ Forall (fun f => ends_stream f = false) body
    /\ is_opcode last ERROR = false /\ is_eos last = true.

Definition delivered (s : system) (sub : Subscription) (returned : list next_return) : Prop :=
  exists taken, whole_segment s (sub_stream_id sub) taken
    /\ events_of returned = events_of (map event_of taken).

Definition version_offered (c : call) (welcome : WelcomePayload) : Prop :=
  exists hello auth offered, c = CallHandshake hello auth
    /\ offered_versions hello = Ok offered
    /\ py_in (WelcomePayload_chosen_version welcome) offered = true.

Definition answer_ok (s : system) (c : call) (a : answer) : Prop :=
  match a with
  | AnswerFrames sid frames =>
      whole_segment s sid frames /\ whole_response frames /\ requested s c sid
  | AnswerHandshake welcome _ => version_offered c welcome
  | AnswerNone => True
  end.

Definition thread_inv (s : system) (t : thread) : Prop :=
  match t with
  | Registered _ sid q => in_progress s sid q []
  | Collecting c sid q frames =>
      in_progress s sid q frames /\ requested s c sid
      /\ Forall (fun f => ends_stream f = false) frames
  | AwaitWelcome c hello auth _ _ => c = CallHandshake hello auth
  | SendAuth c _ welcome _ _ | AwaitAuthOk c welcome _ _ => version_offered c welcome
  | Leaving c _ _ (Ok a) | Finished c (Ok a) => answer_ok s c a
  | Subscribed sub returned =>
      if sub_ended sub then delivered s sub returned
      else exists taken, in_progress s (sub_stream_id sub) (sub_queue sub) taken
             /\ Forall (fun f => ends_stream f = false) taken
             /\ events_of returned = events_of (map event_of taken)
  | Unrouting sub returned r =>
      sub_ended sub = true /\ delivered s sub (returned ++ option_list r)
  | _ => True
  end.

(** The histories only grow. *)
Definition grows (s s' : system) : Prop :=
  (exists l, arrived s' = arrived s ++ l) /\ (exists l, sent (conn s') = sent (conn s) ++ l).

Lemma events_of_app r1 r2 : events_of (r1 ++ r2) = events_of r1 ++ events_of r2.
Proof. apply omap_app. Qed.

Lemma requested_grows s s' c sid : grows s s' -> requested s c sid -> requested s' c sid.
Proof.
  intros [_ [l E]] (o & p & bs & H1 & H2 & H3). exists o, p, bs.
  rewrite E, elem_of_app. auto.
Qed.

Lemma delivered_grows s s' sub rs : grows s s' -> delivered s sub rs -> delivered s' sub rs.
Proof.
  intros [[l E] _] (taken & H1 & H2). exists taken. split; [|done].
  by eapply whole_segment_grows.
Qed.

Lemma answer_ok_grows s s' c a : grows s s' -> answer_ok s c a -> answer_ok s' c a.
Proof.
  intros Hg. destruct a; cbn; [|done..]. intros (H1 & H2 & H3). split_and!; [|done|].
  - destruct Hg as [[l E] _]. by eapply whole_segment_grows.
  - by eapply requested_grows.
Qed.

Lemma thread_inv_mono s s' t :
  grows s s' ->
  (forall sid q taken, holds t = Some (sid, q) -> in_progress s sid q taken ->
     in_progress s' sid q taken) ->
  thread_inv s t -> thread_inv s' t.
Proof.
  intros Hg Hp. destruct t as [| | |c sid q fs| | | |c sid q r|c r|sub rs|sub rs r]; try done.
  - cbn. apply Hp. done.
  - cbn. intros (H1 & H2 & H3). split_and!; [by apply Hp|by eapply requested_grows|done].
  - destruct r; [|done]. by apply answer_ok_grows.
  - destruct r; [|done]. by apply answer_ok_grows.
  - cbn in *. destruct (sub_ended sub); [by apply delivered_grows|].
    intros (taken & H1 & H2). exists taken. split; [by apply Hp|done].
  - cbn. intros [He Hd]. split; [done|]. by eapply delivered_grows.
Qed.

Lemma moves_sent m t m' t' : moves m t m' t' -> exists l, sent m' = sent m ++ l.
Proof. destruct 1; try (by exists []; rewrite app_nil_r); by eexists. Qed.

(** A frame that ends nothing gives an event only if it is one. *)
Lemma event_of_only f rs taken :
  events_of rs = events_of (map event_of taken) ->
  events_of (rs ++ [event_of f]) = events_of (map event_of (taken ++ [f])).
Proof. intros E. by rewrite map_app, !events_of_app, E. Qed.

(** The state after a step of thread [tid]. *)
Definition stepped (s : system) (tid : nat) (m : mux) (t : thread) (ids : list Z) : system :=
  mk_system m (<[tid := t]> (threads s)) (arrived s) ids.

Section ThreadStep.
Variables (s : system) (tid : nat) (t : thread) (m : mux) (t' : thread)
  (ids : list Z).
Hypothesis (Ho : owned s) (Ht : threads s !! tid = Some t) (Hm : moves (conn s) t m t').
Let s' := stepped s tid m t' ids.

Lemma stepped_grows : grows s s'.
Proof.
  split; [by exists []; rewrite app_nil_r|]. by eapply moves_sent.
Qed.

Lemma stepped_routes sid q :
  queue_of t = Some q -> routes m !! sid = Some q -> routes (conn s) !! sid = Some q.
Proof. intros Hq. eapply moves_routes; [done|]. by eapply (owned_fresh _ Ho). Qed.

Lemma stepped_others sid q taken tid1 t1 :
  tid1 <> tid -> threads s !! tid1 = Some t1 -> queue_of t1 = Some q ->
  in_progress s sid q taken -> in_progress s' sid q taken.
Proof.
  intros Hne H1 Hq. assert (Hf : (q < next_queue (conn s))%nat) by by eapply (owned_fresh _ Ho).
  apply in_progress_same; [done| |].
  - eapply moves_contents; [done|done|]. intros Hq'. by eapply Hne, (owned_distinct _ Ho).
  - intros Hr. by eapply moves_routes.
Qed.
End ThreadStep.

Lemma collect_inv s c sid q frames f :
  in_progress s sid q (frames ++ [f]) -> requested s c sid ->
  Forall (fun f => ends_stream f = false) frames ->
  thread_inv s (collect c sid q frames f).
Proof.
  intros Hp Hr Hf. unfold collect. destruct (is_opcode f ERROR) eqn:Ee; [done|].
  destruct (is_eos f) eqn:Es.
  - cbn. split_and!; [by eapply in_progress_segment| |done]. by exists frames, f.
  - cbn. split_and!; [done..|]. apply Forall_app. split; [done|]. constructor; [|done].
    unfold ends_stream. by rewrite Ee, Es.
Qed.

Lemma takes_frame_inv s s' f t t' q rest :
  owned s -> arrived s' = arrived s -> conn s' = pop (conn s) q rest -> grows s s' ->
  queue_of t = Some q -> queues (conn s) !! q = Some (Arrived f :: rest) ->
  takes_frame f t t' -> thread_inv s t -> thread_inv s' t'.
Proof.
  intros Ho Ea Ec Hg Hq Hl Htf Hi.
  assert (Hpop : forall sid taken, in_progress s sid q taken -> in_progress s' sid q (taken ++ [f])).
  { intros sid taken. eapply in_progress_pop_frame; [done|by apply contents_pop|by rewrite Ec|].
    by rewrite Ec. }
  destruct Htf as [c sid q' frames|c hello auth sid q' w E|t c sid q' e E|sub rs Es Ee|sub rs Es Ee].
  - destruct Hi as (H1 & H2 & H3). cbn in Hq. simplify_eq.
    apply collect_inv; [by apply Hpop|by eapply requested_grows|done].
  - cbn in Hi. subst c. unfold accept_welcome in E. inv_binds. case_match; [discriminate|].
    simplify_eq. unfold version_offered. cbn. exists hello, auth. eexists.
    split_and!; [done..|]. by apply negb_false_iff.
  - done.
  - cbn in Hi, Hq |- *. rewrite Es in *. destruct Hi as (taken & H1 & H2 & H3). simplify_eq.
    exists (taken ++ [f]). split_and!; [by apply Hpop| |by apply event_of_only].
    apply Forall_app. auto.
  - cbn in Hi, Hq |- *. rewrite Es in *. destruct Hi as (taken & H1 & H2 & H3). simplify_eq.
    split; [done|]. exists (taken ++ [f]).
    split; [|by apply event_of_only]. by eapply in_progress_segment, Hpop.
Qed.

Lemma quiet_inv s s' t t' :
  grows s s' -> (forall sid q taken, in_progress s sid q taken -> in_progress s' sid q taken) ->
  quiet t t' -> thread_inv s t -> thread_inv s' t'.
Proof.
  intros Hg Hp Hq Hi.
  destruct Hq as [c E|c e E|t c sid q e E|sub rs E|sub rs e E| |sub rs]; try done; cbn in Hi |- *.
  - rewrite E in *. apply (delivered_grows _ _ _ _ Hg) in Hi as (taken & H1 & H2). exists taken.
    by rewrite events_of_app, app_nil_r.
  - rewrite E in *. destruct Hi as (taken & H1 & H2 & H3). exists taken.
    rewrite events_of_app, app_nil_r. split_and!; [|done..].
    by apply Hp.
  - split; [done|]. rewrite app_nil_r. destruct (sub_ended sub).
    + by apply (delivered_grows _ _ _ _ Hg) in Hi.
    + destruct Hi as (taken & H1 & H2 & H3). apply (delivered_grows s s'); [done|].
      exists taken. split; [|done]. by eapply in_progress_segment.
Qed.

Lemma takes_closed_inv s s' e t t' q rest :
  owned s -> arrived s' = arrived s -> conn s' = pop (conn s) q rest -> grows s s' ->
  queue_of t = Some q -> queues (conn s) !! q = Some (Closed e :: rest) ->
  takes_closed t t' -> thread_inv s t -> thread_inv s' t'.
Proof.
  intros Ho Ea Ec Hg Hq Hl Hc Hi.
  destruct Hc as [t c sid q' e' E|sub rs E|sub rs e' E]; [done|..]; cbn in Hi, Hq |- *;
    rewrite E in *; destruct Hi as (taken & H1 & H2 & H3).
  - split; [done|]. apply (delivered_grows s s'); [done|]. exists taken.
    rewrite events_of_app, app_nil_r. split; [|done]. by eapply in_progress_segment.
  - exists taken. rewrite events_of_app, app_nil_r. split_and!; [|done..]. simplify_eq.
    eapply in_progress_pop_sentinel; [done|by apply contents_pop|by rewrite Ec|by rewrite Ec|done].
Qed.

Lemma moves_inv s tid t m t' ids :
  owned s -> threads s !! tid = Some t -> moves (conn s) t m t' ->
  thread_inv s t -> thread_inv (stepped s tid m t' ids) t'.
Proof.
  intros Ho Ht Hm Hi. pose proof (stepped_grows s tid t m t' ids Hm) as Hg.
  destruct Hm as [c Hc|pl bs Hw|t t' Hq|t t' o sid pl bs n Hq Hs Hw|c sid e He|c sid Hc|c sid q o p bs Hf Hw|c a w sid q p bs Hw
    |t t' q f rest Hq Hl Htf|c w sid q f rest a Hl|t t' q e rest Hq Hl Htc|c sid q r|sub rs r].
  - done.
  - done.
  - eapply quiet_inv; [done| |done..]. intros. by eapply in_progress_same.
  - eapply quiet_inv; [done| |done..]. intros. by eapply in_progress_same.
  - done.
  - exists (arrived s), [], [], [], []. cbn [stepped conn arrived].
    rewrite contents_registered by (intros f q; apply (owned_inflight _ Ho)).
    by rewrite !app_nil_r.
  - assert (Hp : in_progress (stepped s tid (set_sent (conn s) (sent (conn s) ++ [Whole bs]))
      (after_write c sid q) ids) sid q []) by (eapply in_progress_same, Hi; done).
    assert (Hr : requested (stepped s tid (set_sent (conn s) (sent (conn s) ++ [Whole bs]))
      (after_write c sid q) ids) c sid).
    { exists o, p, bs. split_and!; [done..|]. cbn. rewrite elem_of_app. right. by left. }
    destruct c; cbn; [by split_and!|by split_and!|done|by exists []|by split_and!].
  - done.
  - by eapply takes_frame_inv.
  - done.
  - by eapply takes_closed_inv.
  - destruct r; [|done]. by apply (answer_ok_grows s).
  - cbn in Hi |- *. destruct Hi as [-> Hi]. by eapply delivered_grows.
Qed.

Definition threads_inv (s : system) : Prop :=
  forall tid t, threads s !! tid = Some t -> thread_inv s t.

Lemma threads_inv_thread s tid t m t' ids :
  owned s -> threads_inv s -> threads s !! tid = Some t -> moves (conn s) t m t' ->
  threads_inv (mk_system m (<[tid := t']> (threads s)) (arrived s) ids).
Proof.
  intros Ho Hi Ht Hm tid1 t1. cbn [threads]. intros [[<- <-]|[Hne H1]]%lookup_insert_Some.
  - apply (moves_inv s tid t m t' ids); [done..|]. by eapply Hi.
  - apply (thread_inv_mono s); [by eapply (stepped_grows s tid)| |by eapply Hi].
    intros sid q taken Hh%holds_queue.
    by apply (stepped_others s tid t m t' ids Ho Ht Hm _ _ _ tid1 t1).
Qed.

(** The part of the arrivals that a reader step adds. *)
Lemma threads_inv_reader s m arr :
  owned s -> threads_inv s ->
  grows s (mk_system m (threads s) arr (issued s)) ->
  (forall sid q taken,
     (forall sid', routes (conn s) !! sid' = Some q -> sid' = sid) ->
     in_progress s sid q taken ->
     in_progress (mk_system m (threads s) arr (issued s)) sid q taken) ->
  threads_inv (mk_system m (threads s) arr (issued s)).
Proof.
  intros Ho Hi Hg Hp tid t Ht. apply (thread_inv_mono s); [done| |by eapply Hi].
  intros sid q taken Hh. apply Hp. intros sid' (tid1 & t1 & H1 & Hh1)%(owned_route _ Ho).
  pose proof (owned_distinct _ Ho _ _ _ _ _ H1 Ht (holds_queue _ _ _ Hh1) (holds_queue _ _ _ Hh)).
  subst tid1. cbn [threads] in Ht. congruence.
Qed.

(** A new thread that has seen nothing. *)
Lemma threads_inv_new s tid t :
  threads_inv s -> thread_inv (mk_system (conn s) (<[tid := t]> (threads s)) (arrived s) (issued s)) t ->
  threads_inv (mk_system (conn s) (<[tid := t]> (threads s)) (arrived s) (issued s)).
Proof.
  intros Hi Ht tid1 t1. cbn [threads]. intros [[<- <-]|[Hne H1]]%lookup_insert_Some; [done|].
  apply (thread_inv_mono s); [|done|by eapply Hi].
  split; exists []; by rewrite app_nil_r.
Qed.

Lemma threads_inv_transition s s' : owned s -> threads_inv s -> transition s s' -> threads_inv s'.
Proof.
  intros Ho Hi Hst. destruct Hst as [s tid c Ht|s tid c e Ht|s tid t m t' Ht Hm|s f Hr|s f q Hr|s e Hr
    |s m (Er & Eq & _ & _ & _ & Erd & _ & Es)].
  - by apply threads_inv_new.
  - by apply threads_inv_new.
  - by eapply threads_inv_thread.
  - destruct (route_frame_shared (conn s) f) as (E1 & _ & _ & _ & _ & E6 & _).
    apply threads_inv_reader; [done..| |].
    + split; [by eexists|]. exists []. by rewrite app_nil_r.
    + intros sid q taken Hu Hp. eapply (in_progress_arrival s); [done..| |done|done].
      by apply contents_route_frame.
  - apply threads_inv_reader; [done..| |].
    + split; exists []; by rewrite app_nil_r.
    + intros sid q' taken _. by apply in_progress_same; [|apply contents_put_frame|].
  - apply threads_inv_reader; [done..| |].
    + split; exists []; by rewrite app_nil_r.
    + intros sid q taken Hu. destruct (contents_fail_all (conn s) e sid q) as [H1 H2]; [|done..|].
      { intros s1 s2 q'. by apply owned_unique. }
      by apply (in_progress_fail s _ sid q taken (failure e)).
  - apply threads_inv_reader; [done..| |].
    + split; [exists []; by rewrite app_nil_r|]. cbn.
      destruct Es as [-> |(o & p & bs & _ & _ & ->)]; [exists []; by rewrite app_nil_r|by eexists].
    + intros sid q taken _. apply (in_progress_same s); [done| |by cbn; rewrite Er].
      unfold contents. cbn. by rewrite Eq, Erd.
Qed.

Lemma allowed_threads_inv timeout s : allowed timeout s -> threads_inv s.
Proof.
  revert s. apply allowed_ind_inv.
  - intros tid t E. by simplify_map_eq.
  - intros s s' Hr Hi. apply threads_inv_transition; [by eapply allowed_owned|done].
Qed.

(** ** Stream ids *)

(** The [i]-th stream id: odd, and the same again only 2^31 requests later. *)
Definition nth_stream_id (i : Z) : Z := 2 * (i mod 2 ^ 31) + 1.

Definition first_ids (n : nat) : list Z := map (fun i => nth_stream_id (Z.of_nat i)) (seq 0 n).

Lemma next_stream_id_step i m :
  0 <= i -> next_stream_id m = nth_stream_id i ->
  next_stream_id (snd (take_stream_id m)) = nth_stream_id (i + 1).
Proof.
  intros Hi E. cbn. rewrite E. unfold nth_stream_id.
  pose proof (Z.mod_pos_bound i (2 ^ 31) ltac:(lia)).
  destruct (decide (i mod 2 ^ 31 = 2 ^ 31 - 1)) as [Hl|Hl].
  - rewrite Hl, <- Zplus_mod_idemp_l, Hl. done.
  - rewrite <- Zplus_mod_idemp_l, (Z.mod_small (i mod 2 ^ 31 + 1)) by lia.
    destruct (_ <=? _) eqn:E2; [lia|]. apply Z.leb_gt in E2. lia.
Qed.

Lemma nth_stream_id_range i : 1 <= nth_stream_id i <= 2 ^ 32 - 1 /\ Z.odd (nth_stream_id i) = true.
Proof.
  unfold nth_stream_id. pose proof (Z.mod_pos_bound i (2 ^ 31) ltac:(lia)). split; [lia|].
  by rewrite Z.add_comm, Z.odd_add_mul_2.
Qed.

Lemma first_ids_nodup n : Z.of_nat n <= 2 ^ 31 -> NoDup (first_ids n).
Proof.
  intros Hn. unfold first_ids. apply NoDup_fmap_2_strong; [|apply NoDup_seq].
  intros x y Hx%elem_of_seq Hy%elem_of_seq. unfold nth_stream_id.
  rewrite !Z.mod_small by lia. lia.
Qed.

Lemma first_ids_fresh n :
  Z.of_nat (S n) <= 2 ^ 31 -> nth_stream_id (Z.of_nat n) ∉ first_ids n.
Proof.
  intros Hn Hin. pose proof (first_ids_nodup (S n) Hn) as Hd. unfold first_ids in *.
  rewrite seq_S, map_app in Hd. apply NoDup_app in Hd as (_ & Hd & _).
  apply (Hd _ Hin). by left.
Qed.

(** The stream a thread works on. *)
Definition stream_of (t : thread) : option Z :=
  match t with
  | Identified _ sid => Some sid
  | Subscribed sub _ => Some (sub_stream_id sub)
  | _ => fst <$> holds t
  end.

(** The stream a thread has been handed an id for: those of the connection-level
    operations are left out, and a finished request keeps its own. *)
Definition op_stream (t : thread) : option Z :=
  match t with
  | Subscribed sub _ | Unrouting sub _ _ => Some (sub_stream_id sub)
  | Identified c sid | Registered c sid _ | Collecting c sid _ _ | AwaitWelcome c _ _ sid _
  | SendAuth c _ _ sid _ | AwaitAuthOk c _ sid _ | Leaving c sid _ _ 
  | Finished c (Ok (AnswerFrames sid _)) => if op_call c then Some sid else None
  | _ => None
  end.

Record streams_ok (s : system) : Prop := {
  streams_issued : issued s = first_ids (length (issued s));
  streams_next : next_stream_id (conn s) = nth_stream_id (zlen (issued s));
  streams_thread tid t sid : threads s !! tid = Some t -> stream_of t = Some sid ->
    op_stream t = Some sid \/ sid = HANDSHAKE_STREAM_ID;
  streams_of_issued tid t sid : threads s !! tid = Some t -> op_stream t = Some sid ->
    sid ∈ issued s;
  streams_distinct tid1 tid2 t1 t2 sid : zlen (issued s) <= 2 ^ 31 ->
    threads s !! tid1 = Some t1 -> threads s !! tid2 = Some t2 ->
    op_stream t1 = Some sid -> op_stream t2 = Some sid -> tid1 = tid2;
  streams_leaving tid c sid q sid' frames :
    threads s !! tid = Some (Leaving c sid q (Ok (AnswerFrames sid' frames))) -> sid' = sid
}.

Lemma running_streams t c sid q :
  running t = Some (c, sid, q) ->
  stream_of t = Some sid /\ op_stream t = if op_call c then Some sid else None.
Proof. destruct t; intros E; by simplify_eq/=. Qed.

(** The stream a step leaves a thread on. *)
Definition same_stream (t t' : thread) : Prop :=
  (forall sid, stream_of t = Some sid -> op_stream t = Some sid \/ sid = HANDSHAKE_STREAM_ID) ->
  (op_stream t' = op_stream t \/ op_stream t' = None)
  /\ (forall sid, stream_of t' = Some sid -> op_stream t' = Some sid \/ sid = HANDSHAKE_STREAM_ID).

Lemma same_stream_leaving t c sid q r :
  running t = Some (c, sid, q) -> same_stream t (Leaving c sid q r).
Proof.
  intros [E1 E2]%running_streams Hs. cbn. rewrite <- E2, <- E1. split; [by left|]. apply Hs.
Qed.

Lemma same_stream_refl t : same_stream t t.
Proof. split; [by left|done]. Qed.

Lemma same_stream_unrouting s rs rs' r :
  same_stream (Subscribed s rs) (Unrouting (end_subscription s) rs' r).
Proof. split; [by left|]. intros sid E. cbn in *. by left. Qed.

Lemma takes_frame_stream f t t' : takes_frame f t t' -> same_stream t t'.
Proof.
  destruct 1 as [c sid q frames|c hello auth sid q w E|t c sid q e E|s returned E E'|s returned E E'].
  - unfold collect. do 2 (case_match; [by eapply same_stream_leaving|]).
    apply (same_stream_refl (Collecting c sid q frames)).
  - apply (same_stream_refl (AwaitWelcome c hello auth sid q)).
  - by eapply same_stream_leaving.
  - apply (same_stream_refl (Subscribed s returned)).
  - apply same_stream_unrouting.
Qed.

Lemma quiet_stream t t' : quiet t t' -> same_stream t t'.
Proof.
  destruct 1 as [c E|c e E|t c sid q e E|s returned E|s returned e E| |s returned].
  - split; cbn; rewrite E; [by left|]. intros sid [= <-]. by right.
  - split; [by right|done].
  - by eapply same_stream_leaving.
  - apply (same_stream_refl (Subscribed s returned)).
  - apply (same_stream_refl (Subscribed s returned)).
  - split; [by right|done].
  - apply same_stream_unrouting.
Qed.

Lemma takes_closed_stream t t' : takes_closed t t' -> same_stream t t'.
Proof.
  destruct 1 as [t c sid q e E|s returned E|s returned e E].
  - by eapply same_stream_leaving.
  - apply same_stream_unrouting.
  - apply (same_stream_refl (Subscribed s returned)).
Qed.

Definition op_calling (t : thread) : bool := match t with Calling c => op_call c | _ => false end.

Lemma moves_streams m t m' t' :
  moves m t m' t' ->
  (forall c sid q sid' frames, t = Leaving c sid q (Ok (AnswerFrames sid' frames)) -> sid' = sid) ->
  (exists c, op_calling t = true /\ t' = Identified c (next_stream_id m) /\ op_call c = true
     /\ m' = snd (take_stream_id m))
  \/ (op_calling t = false /\ next_stream_id m' = next_stream_id m /\ same_stream t t').
Proof.
  intros Hm Hl.
  destruct Hm as [c Hc|pl bs Hw|t t' Hq|t t' o sid pl bs n Hq Hs Hw|c sid e He|c sid Hc|c sid q o p bs Hf Hw|c a w sid q p bs Hw
    |t t' q f rest Hq Hl' Htf|c w sid q f rest a Hl'|t t' q e rest Hq Hl' Htc|c sid q r|sub rs r];
    [left; by exists c|right..]; (split_and!; [| done|]); try done.
  - split; [by right|done].
  - destruct Hq as [| |t c sid q e E| | | |]; try done. by destruct t.
  - by apply quiet_stream.
  - destruct Hq as [| |t c sid1 q e E| | | |]; try done. by destruct t.
  - by apply quiet_stream.
  - split; [by right|done].
  - apply (same_stream_refl (Identified c sid)).
  - intros Hs. destruct c; (split; [by left|exact Hs]).
  - apply (same_stream_refl (SendAuth c a w sid q)).
  - destruct Htf as [| |t c sid q' e E| |]; try done. by destruct t.
  - by eapply takes_frame_stream.
  - by eapply same_stream_leaving.
  - destruct Htc as [t c sid q' e' E| |]; try done. by destruct t.
  - by eapply takes_closed_stream.
  - split; [|done]. destruct r as [[sid' frames| |]|]; [|by right..].
    rewrite (Hl c sid q sid' frames) by done. by left.
  - split; [by left|]. cbn. by left.
Qed.

Lemma moves_leaving m t m' c sid q sid' frames :
  moves m t m' (Leaving c sid q (Ok (AnswerFrames sid' frames))) -> sid' = sid.
Proof.
  intros Hm. remember (Leaving c sid q (Ok (AnswerFrames sid' frames))) as t' eqn:Et.
  destruct Hm as [| |t t' Hq|t t' o1 sid1 pl bs n Hq Hs Hw| | |c1 sid1 q1 o p bs Hf Hw| |t t' q1 f rest Hq1 Hl Htf| |t t' q1 e rest Hq1 Hl Htc| |];
    try discriminate.
  - by destruct Hq.
  - by destruct Hq.
  - by destruct c1.
  - destruct Htf; try discriminate. unfold collect in Et. repeat case_match; congruence.
  - by destruct Htc.
Qed.

Lemma streams_start timeout : streams_ok (start timeout).
Proof. split; cbn; intros; try done; by simplify_map_eq. Qed.

(** Steps that hand out no id. *)
Lemma streams_same s m ths arr :
  streams_ok s -> next_stream_id m = next_stream_id (conn s) ->
  (forall tid t, ths !! tid = Some t ->
     (forall sid, stream_of t = Some sid -> op_stream t = Some sid \/ sid = HANDSHAKE_STREAM_ID)
     /\ (forall sid, op_stream t = Some sid ->
           exists t0, threads s !! tid = Some t0 /\ op_stream t0 = Some sid)
     /\ (forall c sid q sid' frames, t = Leaving c sid q (Ok (AnswerFrames sid' frames)) ->
           sid' = sid)) ->
  streams_ok (mk_system m ths arr (issued s)).
Proof.
  intros Hs Hn Ht. split; cbn [conn threads issued]; rewrite ?Hn; try apply Hs.
  - intros tid t sid H1. by apply (Ht _ _ H1).
  - intros tid t sid H1 (t0 & H0 & E)%(Ht _ _ H1). by eapply (streams_of_issued _ Hs).
  - intros tid1 tid2 t1 t2 sid Hw H1 H2 (t3 & H3 & E3)%(Ht _ _ H1) (t4 & H4 & E4)%(Ht _ _ H2).
    by eapply (streams_distinct _ Hs).
  - intros tid c sid q sid' frames H1. by eapply (Ht _ _ H1).
Qed.

Lemma streams_threads s tid t :
  streams_ok s -> threads s !! tid = Some t ->
  (forall sid, stream_of t = Some sid -> op_stream t = Some sid \/ sid = HANDSHAKE_STREAM_ID)
  /\ (forall sid, op_stream t = Some sid ->
        exists t0, threads s !! tid = Some t0 /\ op_stream t0 = Some sid)
  /\ (forall c sid q sid' frames, t = Leaving c sid q (Ok (AnswerFrames sid' frames)) -> sid' = sid).
Proof.
  intros Hs Ht. split_and!.
  - intros sid. by eapply (streams_thread _ Hs).
  - intros sid E. by exists t.
  - intros c sid q sid' frames ->. by eapply (streams_leaving _ Hs).
Qed.

(** The step that hands out an id. *)
Lemma streams_take s tid c t arr :
  streams_ok s -> threads s !! tid = Some t -> op_call c = true ->
  streams_ok (mk_system (snd (take_stream_id (conn s)))
    (<[tid := Identified c (next_stream_id (conn s))]> (threads s)) arr
    (issued s ++ [next_stream_id (conn s)])).
Proof.
  intros Hs Ht Hc. set (sid0 := next_stream_id (conn s)).
  assert (Hf : zlen (issued s ++ [sid0]) <= 2 ^ 31 -> sid0 ∉ issued s).
  { rewrite zlen_app. unfold zlen. cbn. intros Hle. rewrite (streams_issued _ Hs).
    unfold sid0. rewrite (streams_next _ Hs). apply first_ids_fresh. lia. }
  split; cbn [conn threads issued].
  - unfold sid0. rewrite (streams_issued _ Hs) at 1. rewrite (streams_next _ Hs).
    unfold first_ids. by rewrite length_app, Nat.add_1_r, seq_S, map_app.
  - rewrite zlen_app. apply next_stream_id_step; [unfold zlen; lia|]. by apply streams_next.
  - intros tid1 t1 sid [[<- <-]|[Hne H1]]%lookup_insert_Some E.
    + left. cbn in *. by rewrite Hc.
    + by eapply (streams_thread _ Hs).
  - intros tid1 t1 sid [[<- <-]|[Hne H1]]%lookup_insert_Some E; rewrite elem_of_app.
    + cbn in E. rewrite Hc in E. simplify_eq. right. by left.
    + left. by eapply (streams_of_issued _ Hs).
  - intros tid1 tid2 t1 t2 sid Hw [[<- <-]|[Hne1 H1]]%lookup_insert_Some
      [[<- <-]|[Hne2 H2]]%lookup_insert_Some E1 E2; [done|..].
    + cbn in E1. rewrite Hc in E1. simplify_eq.
      destruct (Hf Hw). by eapply (streams_of_issued _ Hs).
    + cbn in E2. rewrite Hc in E2. simplify_eq.
      destruct (Hf Hw). by eapply (streams_of_issued _ Hs).
    + eapply (streams_distinct _ Hs); [|done..]. rewrite zlen_app in Hw. unfold zlen in *. lia.
  - intros tid1 c1 sid q sid' frames [[<- ?]|[Hne H1]]%lookup_insert_Some; [done|].
    by eapply (streams_leaving _ Hs).
Qed.

Lemma ids_taken_op t m : ids_taken t m = if op_calling t then [next_stream_id m] else [].
Proof. by destruct t as [[]| | | | | | | | | |]. Qed.

Lemma streams_thread_step s tid t m t' :
  streams_ok s -> threads s !! tid = Some t -> moves (conn s) t m t' ->
  streams_ok (mk_system m (<[tid := t']> (threads s)) (arrived s)
                (issued s ++ ids_taken t (conn s))).
Proof.
  intros Hs Ht Hm. destruct (streams_threads _ _ _ Hs Ht) as (H1 & _ & H3).
  rewrite ids_taken_op.
  destruct (moves_streams _ _ _ _ Hm H3) as [(c & Eo & -> & Hc & ->)|(Eo & En & Hss)]; rewrite Eo.
  - by eapply streams_take.
  - rewrite app_nil_r. apply streams_same; [done..|].
    intros tid1 t1 [[<- <-]|[Hne Ht1]]%lookup_insert_Some; [|by apply streams_threads].
    destruct (Hss H1) as [Ho Hst]. split_and!; [done| |].
    + intros sid E. destruct Ho as [Ho|Ho]; rewrite Ho in E; [|done]. by exists t.
    + intros c sid q sid' frames ->. by eapply moves_leaving.
Qed.

Lemma streams_transition s s' : streams_ok s -> transition s s' -> streams_ok s'.
Proof.
  intros Hs Hst. destruct Hst as [s tid c Ht|s tid c e Ht|s tid t m t' Ht Hm|s f Hr|s f q Hr|s e Hr
    |s m (_ & _ & _ & En & _)].
  - apply streams_same; [done..|].
    intros tid1 t1 [[<- <-]|[Hne Ht1]]%lookup_insert_Some; [done|by apply streams_threads].
  - apply streams_same; [done..|].
    intros tid1 t1 [[<- <-]|[Hne Ht1]]%lookup_insert_Some; [done|by apply streams_threads].
  - by eapply streams_thread_step.
  - apply streams_same; [done| |by intros; apply streams_threads].
    by destruct (route_frame_shared (conn s) f) as (_ & _ & _ & -> & _).
  - by apply streams_same; [..|intros; apply streams_threads].
  - by apply streams_same; [..|intros; apply streams_threads].
  - by apply streams_same; [..|intros; apply streams_threads].
Qed.

Lemma allowed_streams timeout s : allowed timeout s -> streams_ok s.
Proof.
  revert s. apply allowed_ind_inv; [apply streams_start|]. intros s s' _. apply streams_transition.
Qed.

(** ** What goes out *)

(** A frame the client may send: EOS alone, a known opcode, and stream 0 or an
    odd stream id. *)
Definition client_frame (f : Frame) : Prop :=
  frame_flags f = FLAG_EOS /\ (exists o, frame_opcode f = opcode_value o)
  /\ (frame_stream_id f = HANDSHAKE_STREAM_ID \/ Z.odd (frame_stream_id f) = true).

Definition sent_ok (s : system) : Prop :=
  exists frames, map entry_frame (sent (conn s)) = map frame_layout frames
    /\ Forall sendable frames /\ Forall client_frame frames.

Lemma write_frame_sendable o sid payload bs :
  write_frame (mk_Frame (opcode_value o) FLAG_EOS sid payload) = Ok bs ->
  bs = frame_layout (mk_Frame (opcode_value o) FLAG_EOS sid payload)
  /\ sendable (mk_Frame (opcode_value o) FLAG_EOS sid payload).
Proof.
  unfold write_frame. rewrite encode_frame_spec_eq. unfold encode_frame_spec.
  repeat case_decide; try discriminate. intros [= <-]. split; [done|].
  split; [constructor; lia|done].
Qed.

Lemma sent_ok_extend s m ths arr ids o sid payload w :
  sent_ok s ->
  write_frame (mk_Frame (opcode_value o) FLAG_EOS sid payload) = Ok (entry_frame w) ->
  sent m = sent (conn s) ++ [w] ->
  sid = HANDSHAKE_STREAM_ID \/ Z.odd sid = true ->
  sent_ok (mk_system m ths arr ids).
Proof.
  intros (frames & E & Hs & Hc) [Ew Hok]%write_frame_sendable Em Hsid.
  exists (frames ++ [mk_Frame (opcode_value o) FLAG_EOS sid payload]).
  cbn [conn]. rewrite Em, !map_app, E. cbn [map]. rewrite Ew.
  split_and!; [done|..]; apply Forall_app; split; try done;
    constructor; try done. split_and!; [done|by exists o|done].
Qed.

Lemma stream_sendable s tid t sid :
  streams_ok s -> threads s !! tid = Some t -> stream_of t = Some sid ->
  sid = HANDSHAKE_STREAM_ID \/ Z.odd sid = true.
Proof.
  intros Hs Ht E. destruct (streams_thread _ Hs _ _ _ Ht E) as [Hop|Hop]; [|by left]. right.
  pose proof (streams_of_issued _ Hs _ _ _ Ht Hop) as Hin.
  rewrite (streams_issued _ Hs) in Hin. apply list_elem_of_fmap in Hin as (i & -> & _).
  apply nth_stream_id_range.
Qed.

Lemma running_stream_of t sid : running_stream t = Some sid -> stream_of t = Some sid.
Proof. by destruct t; intros [= <-]. Qed.

Lemma sent_ok_transition s s' : streams_ok s -> sent_ok s -> transition s s' -> sent_ok s'.
Proof.
  intros Hs Hi Hst. destruct Hst as [s tid c Ht|s tid c e Ht|s tid t m t' Ht E|s f Hr|s f q Hr|s e Hr
    |s m (_ & _ & _ & _ & _ & _ & _ & Es)]; try exact Hi.
  - destruct E; try exact Hi.
    + eapply (sent_ok_extend s _ _ _ _ _ _ _ (Whole bs)); [done|done|done|]. by left.
    + eapply (sent_ok_extend s _ _ _ _ _ _ _ (Cut bs n)); [done|done|done|].
      match goal with Hs1 : sid = _ \/ _ |- _ => destruct Hs1 as [->|Hrs]; [by left|] end.
      eapply stream_sendable; [done..|]. by apply running_stream_of.
    + eapply (sent_ok_extend s _ _ _ _ _ _ _ (Whole bs)); [done|done|done|]. by eapply stream_sendable.
    + eapply (sent_ok_extend s _ _ _ _ _ _ _ (Whole bs)); [done|done|done|]. by eapply stream_sendable.
  - destruct (route_frame_shared (conn s) f) as (_ & _ & _ & _ & _ & E & _).
    unfold sent_ok. cbn [conn]. rewrite E. exact Hi.
  - destruct Es as [E|(o & p & w & _ & Ew & E)].
    + unfold sent_ok. cbn [conn]. rewrite E. exact Hi.
    + eapply sent_ok_extend; [done|done|done|]. by left.
Qed.

(** ** The payload limit *)

(** The WELCOME of a handshake that was answered. *)
Definition answered (t : thread) : option WelcomePayload :=
  match t with
  | Leaving _ _ _ (Ok (AnswerHandshake welcome _)) | Finished _ (Ok (AnswerHandshake welcome _)) =>
      Some welcome
  | _ => None
  end.

(** The limit in force is the 24-bit ceiling until a handshake is answered, and
    then what the WELCOME of an answered handshake says. *)
Definition limit_inv (s : system) : Prop :=
  (max_payload_size (conn s) = PInt MAX_PAYLOAD_BYTES
   /\ forall tid t, threads s !! tid = Some t -> answered t = None)
  \/ exists tid t welcome, threads s !! tid = Some t /\ answered t = Some welcome
       /\ max_payload_size (conn s) = negotiated_max welcome.

Lemma moves_answered m t m' t' :
  moves m t m' t' ->
  (max_payload_size m' = max_payload_size m /\ answered t' = answered t)
  \/ exists welcome, answered t' = Some welcome /\ max_payload_size m' = negotiated_max welcome.
Proof.
  destruct 1 as [c Hc|pl bs Hw|t t' Hq|t t' o sid pl bs n Hq Hs Hw|c sid e He|c sid Hc
    |c sid q o p bs Hf Hw|c a w sid q p bs Hw
    |t t' q f rest Hq Hl Ht|c w sid q f rest a Hl|t t' q e rest Hq Hl Ht|c sid q r|sub rs r];
    try (left; done).
  - left. split; [done|]. destruct Hq as [| |t c sid q e E| | | |]; try done. by destruct t.
  - left. split; [done|]. destruct Hq as [| |t c sid1 q e E| | | |]; try done. by destruct t.
  - left. split; [done|]. by destruct c.
  - left. split; [done|]. destruct Ht as [| |t c sid q' e E| |]; try done; [|by destruct t].
    cbn. unfold collect. by repeat case_match.
  - right. by exists w.
  - left. split; [done|]. destruct Ht as [t c sid q' e' E| |]; try done. by destruct t.
Qed.

(** A change that keeps the limit, and the answers the threads have. *)
Lemma limit_same s m ths arr ids :
  limit_inv s -> max_payload_size m = max_payload_size (conn s) ->
  (forall tid t, ths !! tid = Some t ->
     (exists t0, threads s !! tid = Some t0 /\ answered t = answered t0) \/ answered t = None) ->
  (forall tid t0, threads s !! tid = Some t0 ->
     exists t, ths !! tid = Some t /\ answered t = answered t0) ->
  limit_inv (mk_system m ths arr ids).
Proof.
  intros Hi Hm Hback Hforth. unfold limit_inv. cbn [conn threads]. rewrite Hm.
  destruct Hi as [[E Hn]|(tid & t & w & Et & Ea & E)].
  - left. split; [done|]. intros tid t Ht.
    destruct (Hback _ _ Ht) as [(t0 & E0 & ->)|Ea]; [by eapply Hn|done].
  - right. destruct (Hforth _ _ Et) as (t' & Et' & Ea'). exists tid, t', w.
    split_and!; [done|congruence|done].
Qed.

Lemma limit_insert s m tid t arr ids :
  limit_inv s -> max_payload_size m = max_payload_size (conn s) ->
  (forall t0, threads s !! tid = Some t0 -> answered t = answered t0) ->
  (threads s !! tid = None -> answered t = None) ->
  limit_inv (mk_system m (<[tid := t]> (threads s)) arr ids).
Proof.
  intros Hi Hm Hs Hn. apply (limit_same s); [done|done| |].
  - intros tid' t' [[<- <-]|[Hne E]]%lookup_insert_Some; [|left; by exists t'].
    destruct (threads s !! tid) as [t0|] eqn:E0; [left; exists t0|right]; auto.
  - intros tid' t0 E. destruct (decide (tid = tid')) as [<-|Hne].
    + exists t. rewrite lookup_insert_eq. auto.
    + exists t0. by rewrite lookup_insert_ne.
Qed.

Lemma limit_reader s m arr :
  limit_inv s -> max_payload_size m = max_payload_size (conn s) ->
  limit_inv (mk_system m (threads s) arr (issued s)).
Proof. intros Hi Hm. apply (limit_same s); eauto. Qed.

Lemma limit_transition s s' : limit_inv s -> transition s s' -> limit_inv s'.
Proof.
  intros Hi Hst. destruct Hst as [s tid c Ht|s tid c e Ht|s tid t m t' Ht E|s f Hr|s f q Hr|s e Hr
    |s m (_ & _ & _ & _ & _ & _ & Em & _)].
  - apply limit_insert; [done|done|congruence|done].
  - apply limit_insert; [done|done|congruence|done].
  - destruct (moves_answered _ _ _ _ E) as [[Em Ea]|(w & Ea & Em)].
    + apply limit_insert; [done|done| |congruence]. intros t0 E0. by simplify_eq.
    + right. exists tid, t', w. cbn [threads conn]. by rewrite lookup_insert_eq.
  - apply limit_reader; [done|]. unfold route_frame. by case_match.
  - by apply limit_reader.
  - by apply limit_reader.
  - by apply limit_reader.
Qed.

Lemma allowed_limit timeout s : allowed timeout s -> limit_inv s.
Proof.
  revert s. apply allowed_ind_inv.
  - left. split; [done|]. intros tid t E. cbn in E. by rewrite lookup_empty in E.
  - intros s s' _. apply limit_transition.
Qed.

(** After the only handshake of a connection, its WELCOME is the limit. *)
Lemma allowed_limit_only timeout s tid t welcome :
  allowed timeout s -> threads s !! tid = Some t -> answered t = Some welcome ->
  (forall tid' t', threads s !! tid' = Some t' -> answered t' <> None -> tid' = tid) ->
  max_payload_size (conn s) = negotiated_max welcome.
Proof.
  intros Ha Et Ea Hu. destruct (allowed_limit _ _ Ha) as [[_ Hn]|(tid' & t' & w & Et' & Ea' & E)].
  - rewrite (Hn _ _ Et) in Ea. done.
  - assert (tid' = tid) as -> by (eapply Hu; [done|congruence]). congruence.
Qed.

Lemma allowed_sent_ok timeout s : allowed timeout s -> sent_ok s.
Proof.
  revert s. apply allowed_ind_inv; [by exists []|].
  intros s s' Hr Hi. apply sent_ok_transition; [by eapply allowed_streams|done].
Qed.
End Safety.
