(* ===== verification/MuxLiveness.v ===== *)
(** * MuxLiveness

    Why no request hangs on a connection that has failed: a thread that waits has
    its route in place or the sentinel in its queue, and a thread running on its
    own then finishes; and what happens to a wait that has lost its route. *)

From S2P Require Import Prelude Frame PyFloat PyValue PyArith PyCompare Cbor WireCodec Opcode.
From S2P Require Import WireHandshake WireListing WireEvents Errors Transport Mux MuxMoves MuxSafety.
From stdpp Require Import gmap.
#[local] Open Scope Z_scope.

Section Liveness.
Context `{Cbor2}.

(** ** Progress *)

(** A request that waits for its frames, or will. *)
Definition waiting (t : thread) : option (Z * nat) :=
  match t with
  | Registered c sid q | Collecting c sid q _ => if op_call c then Some (sid, q) else None
  | _ => None
  end.

(** Its route is in place, or its queue ends with the sentinel. *)
Definition attended (m : mux) (sid : Z) (q : nat) : Prop :=
  routes m !! sid = Some q \/ exists e, last (contents m q) = Some (Closed e).

Lemma waiting_facts t sid q :
  waiting t = Some (sid, q) -> holds t = Some (sid, q) /\ op_stream t = Some sid.
Proof.
  destruct t as [|c|c sid' q'|c sid' q' fs| | | | | | |]; try done; cbn;
    destruct (op_call c) eqn:E; intros; by simplify_eq.
Qed.

(** Only the thread of a stream changes its route. *)
Lemma moves_other_route m t m' t' sid q :
  moves m t m' t' -> routes m !! sid = Some q -> stream_of t <> Some sid ->
  routes m' !! sid = Some q.
Proof.
  intros Hm Hr Hne. destruct Hm; try done; cbn in *.
  - rewrite lookup_insert_ne; [done|]. congruence.
  - rewrite lookup_delete_ne; [done|]. congruence.
  - rewrite lookup_delete_ne; [done|]. congruence.
Qed.

Lemma last_sentinel_pop f rest e :
  last (Arrived f :: rest) = Some (Closed e) -> last rest = Some (Closed e).
Proof. by destruct rest. Qed.

Lemma moves_attended m t m' t' sid q :
  moves m t m' t' -> waiting t' = Some (sid, q) ->
  (waiting t = Some (sid, q) -> attended m sid q) -> attended m' sid q.
Proof.
  intros Hm Hw Hi.
  destruct Hm as [| |t t' Hq|t t' o1 sid1 pl bs n Hq Hs Hwr| |c1 sid1 Hc|c1 sid1 q1 o p bs Hf Hb| |t t' q1 f rest Hq1 Hl Htf|
    |t t' q1 e rest Hq1 Hl Htc| |]; try discriminate.
  - by destruct Hq.
  - by destruct Hq.
  - cbn in Hw. destruct (op_call c1); [|done]. simplify_eq. left. apply lookup_insert_eq.
  - apply Hi. destruct c1; try done.
  - destruct Htf as [c2 sid2 q2 fs| | | |]; try discriminate.
    assert (Hwt : waiting (Collecting c2 sid2 q2 fs) = Some (sid, q)).
    { unfold collect in Hw. by repeat case_match. }
    destruct (Hi Hwt) as [Hr|[e He]]; [by left|]. right. exists e.
    apply waiting_facts in Hwt as [Hwt _]. cbn in Hwt, Hq1. simplify_eq.
    rewrite (contents_pop _ _ _ _ Hl) in He. by apply last_sentinel_pop in He.
  - by destruct Htc.
Qed.

Definition all_attended (s : system) : Prop :=
  zlen (issued s) <= 2 ^ 31 ->
  forall tid t sid q, threads s !! tid = Some t -> waiting t = Some (sid, q) ->
  attended (conn s) sid q.

Lemma issued_nonzero s sid : streams_ok s -> sid ∈ issued s -> sid <> HANDSHAKE_STREAM_ID.
Proof.
  intros Hs Hin ->. rewrite (streams_issued _ Hs) in Hin. unfold first_ids in Hin.
  apply list_elem_of_fmap in Hin as (i & E & _).
  pose proof (nth_stream_id_range (Z.of_nat i)). unfold HANDSHAKE_STREAM_ID in *. lia.
Qed.

Lemma attended_thread s tid t m t' :
  owned s -> streams_ok s -> all_attended s -> threads s !! tid = Some t ->
  moves (conn s) t m t' ->
  all_attended (mk_system m (<[tid := t']> (threads s)) (arrived s)
                  (issued s ++ ids_taken t (conn s))).
Proof.
  intros Ho Hs Ha Ht Hm Hw. cbn [issued] in Hw. rewrite zlen_app in Hw.
  assert (Hw' : zlen (issued s) <= 2 ^ 31) by (unfold zlen in *; lia).
  intros tid1 t1 sid q. cbn [threads conn].
  intros [[<- <-]|[Hne H1]]%lookup_insert_Some Hwt.
  - eapply moves_attended; [done|done|]. intros Hwt'. by eapply Ha.
  - pose proof (waiting_facts _ _ _ Hwt) as [Hh Hos]. pose proof (holds_queue _ _ _ Hh) as Hq.
    destruct (Ha Hw' _ _ _ _ H1 Hwt) as [Hr|[e He]].
    + left. eapply moves_other_route; [done..|]. intros Hst.
      destruct (streams_thread _ Hs _ _ _ Ht Hst) as [E| ->].
      * by eapply Hne, (streams_distinct _ Hs).
      * eapply (issued_nonzero s); [done| |done]. by eapply (streams_of_issued _ Hs).
    + right. exists e. erewrite moves_contents; [done|done|by eapply (owned_fresh _ Ho)|].
      intros Hq'. by eapply Hne, (owned_distinct _ Ho).
Qed.

(** A step of the reader. *)
Lemma attended_reader s m arr :
  owned s -> all_attended s ->
  (forall sid q, (forall sid', routes (conn s) !! sid' = Some q -> sid' = sid) ->
     attended (conn s) sid q -> attended m sid q) ->
  all_attended (mk_system m (threads s) arr (issued s)).
Proof.
  intros Ho Ha Hm Hw tid t sid q Ht Hwt. apply Hm; [|by eapply Ha].
  intros sid' (tid1 & t1 & H1 & Hh1)%(owned_route _ Ho).
  apply waiting_facts in Hwt as [Hh _]. cbn [threads] in Ht.
  pose proof (owned_distinct _ Ho _ _ _ _ _ H1 Ht (holds_queue _ _ _ Hh1) (holds_queue _ _ _ Hh)).
  subst tid1. congruence.
Qed.

Lemma attended_same m m' sid q :
  routes m' = routes m -> contents m' q = contents m q -> attended m sid q -> attended m' sid q.
Proof. unfold attended. by intros -> ->. Qed.

Lemma attended_transition s s' :
  owned s -> streams_ok s -> all_attended s -> transition s s' -> all_attended s'.
Proof.
  intros Ho Hs Ha Hst. destruct Hst as [s tid c Ht|s tid c e Ht|s tid t m t' Ht Hm|s f Hr|s f q Hr
    |s e Hr|s m (Er & Eq & _ & _ & _ & Erd & _)].
  - intros Hw tid1 t1 sid q. cbn [threads conn].
    intros [[<- <-]|[Hne H1]]%lookup_insert_Some Hwt; [done|]. by eapply Ha.
  - intros Hw tid1 t1 sid q. cbn [threads conn].
    intros [[<- <-]|[Hne H1]]%lookup_insert_Some Hwt; [done|]. by eapply Ha.
  - by apply attended_thread.
  - apply attended_reader; [done..|]. intros sid q Hu Hat.
    destruct (route_frame_shared (conn s) f) as (E1 & _).
    destruct (decide (routes (conn s) !! sid = Some q)) as [Hq|Hq]; [left; by rewrite E1|].
    apply (attended_same (conn s)); [done| |done].
    rewrite contents_route_frame by done. rewrite decide_False, app_nil_r; [done|].
    intros Hq'. apply Hq. by rewrite <- (Hu _ Hq').
  - apply attended_reader; [done..|]. intros sid q' _.
    by apply attended_same; [|apply contents_put_frame].
  - apply attended_reader; [done..|]. intros sid q Hu Hat.
    destruct (contents_fail_all (conn s) e sid q) as [H1 H2]; [|done..|].
    { intros s1 s2 q'. by apply owned_unique. }
    right. destruct (decide (routes (conn s) !! sid = Some q)) as [Hq|Hq].
    + exists (failure e). by rewrite H1, last_snoc.
    + rewrite H2 by done. by destruct Hat as [?|Hat].
  - apply attended_reader; [done..|]. intros sid q _.
    apply attended_same; [done|]. unfold contents. by rewrite Eq, Erd.
Qed.

Lemma allowed_attended timeout s : allowed timeout s -> all_attended s.
Proof.
  revert s. apply allowed_ind_inv.
  - intros _ tid t sid q E. cbn in E. by simplify_map_eq.
  - intros s s' Hr Ha.
    apply attended_transition; [by eapply allowed_owned|by eapply allowed_streams|done].
Qed.

(** ** Running one thread on a failed connection *)

(** A thread on its own, taking every action it can; [es] are the choices of the
    environment. *)
Fixpoint run (m : mux) (t : thread) (es : list env) : mux * thread :=
  match es with
  | [] => (m, t)
  | e :: es =>
      match thread_step m t e with
      | Some (m, t) => run m t es
      | None => run m t es
      end
  end.

Definition finished (t : thread) : bool := match t with Finished _ _ => true | _ => false end.

(** The thread of a [request]. *)
Definition request_thread (t : thread) : bool :=
  match t with
  | Calling c | Identified c _ | Registered c _ _ | Collecting c _ _ _ | Leaving c _ _ _
  | Finished c _ => match c with CallRequest _ _ _ => true | _ => false end
  | _ => false
  end.

Lemma run_finished m c r es : run m (Finished c r) es = (m, Finished c r).
Proof. induction es as [|e es IH]; [done|]. apply IH. Qed.

Lemma run_leaving m c sid q r es :
  (1 <= length es)%nat -> finished (snd (run m (Leaving c sid q r) es)) = true.
Proof. destruct es; cbn -[thread_step]; [lia|]. intros _. cbn. by rewrite run_finished. Qed.

Lemma collect_cases c sid q frames f :
  (exists r, collect c sid q frames f = Leaving c sid q r)
  \/ collect c sid q frames f = Collecting c sid q (frames ++ [f]).
Proof. unfold collect. repeat case_match; eauto. Qed.

(** A wait on a queue that holds an item ends. *)
Lemma mux_next_ready m q timeout ex item rest :
  queues m !! q = Some (item :: rest) ->
  (exists e m', mux_next m q timeout ex = NextRaise e m')
  \/ exists f, item = Arrived f /\ mux_next m q timeout ex = NextFrame f (pop m q rest).
Proof.
  intros E. unfold mux_next. destruct (negative_timeout _); [left; eauto|].
  rewrite E. destruct item; eauto.
Qed.

Lemma run_collecting c sid q es : forall m items frames e,
  queues m !! q = Some items -> last items = Some (Closed e) ->
  (length items + 1 <= length es)%nat ->
  finished (snd (run m (Collecting c sid q frames) es)) = true.
Proof.
  induction es as [|ev es IH]; intros m items frames e Hq Hl Hlen; [cbn in Hlen; lia|].
  destruct items as [|item rest]; [done|]. cbn [run thread_step length] in *.
  destruct (mux_next_ready m q (call_timeout c) (expired ev) item rest Hq)
    as [(e' & m' & ->)|(f & -> & ->)]; [apply run_leaving; lia|].
  destruct (collect_cases c sid q frames f) as [[r ->]| ->]; [apply run_leaving; lia|].
  eapply (IH (pop m q rest) rest); [apply lookup_insert_eq|by eapply last_sentinel_pop|lia].
Qed.

Lemma run_registered c sid q es m items e :
  (exists o p t, c = CallRequest o p t) ->
  queues m !! q = Some items -> last items = Some (Closed e) ->
  (length items + 2 <= length es)%nat ->
  finished (snd (run m (Registered c sid q) es)) = true.
Proof.
  intros (o & p & t & ->) Hq Hl Hlen. destruct es as [|ev es]; [cbn in Hlen; lia|].
  cbn [run thread_step length call_frame bind] in *.
  cbn [write_evaluated].
  destruct (mux_write m o sid p (send ev)) as [m' [u|e']] eqn:Ew; [|apply run_leaving; lia].
  apply mux_write_cases in Ew as (bs & _ & ->). eapply run_collecting; [done..|lia].
Qed.

Lemma run_identified c sid es m e :
  closed_error m = Some e -> (1 <= length es)%nat ->
  finished (snd (run m (Identified c sid) es)) = true.
Proof.
  intros Hc Hlen. destruct es as [|ev es]; [cbn in Hlen; lia|].
  cbn [run thread_step]. unfold register. rewrite Hc. by rewrite run_finished.
Qed.

Lemma run_calling c es m e :
  (exists o p t, c = CallRequest o p t) -> closed_error m = Some e -> (2 <= length es)%nat ->
  finished (snd (run m (Calling c) es)) = true.
Proof.
  intros (o & p & t & ->) Hc Hlen. destruct es as [|ev es]; [cbn in Hlen; lia|].
  cbn [run thread_step take_stream_id length] in *. eapply run_identified; [done|lia].
Qed.

(** The items a thread's queue holds. *)
Definition backlog (m : mux) (t : thread) : list route_item :=
  match queue_of t with Some q => default [] (queues m !! q) | None => [] end.

Lemma attended_stopped s sid q :
  owned s -> reader (conn s) = Stopped -> attended (conn s) sid q ->
  exists items e, queues (conn s) !! q = Some items /\ last items = Some (Closed e).
Proof.
  intros Ho Hr [Hq|[e He]].
  - rewrite (proj1 (owned_stopped _ Ho Hr)), lookup_empty in Hq. done.
  - unfold contents in He. rewrite Hr, app_nil_r in He.
    destruct (queues (conn s) !! q) as [items|]; [|done]. by exists items, e.
Qed.

Lemma request_thread_call c :
  match c with CallRequest _ _ _ => true | _ => false end = true ->
  exists o p t, c = CallRequest o p t.
Proof. destruct c; try done. eauto. Qed.

Lemma request_finishes s tid t es :
  owned s -> all_attended s -> zlen (issued s) <= 2 ^ 31 -> reader (conn s) = Stopped ->
  threads s !! tid = Some t -> request_thread t = true ->
  (length (backlog (conn s) t) + 2 <= length es)%nat ->
  finished (snd (run (conn s) t es)) = true.
Proof.
  intros Ho Ha Hw Hr Ht Hrt Hlen.
  destruct (owned_stopped _ Ho Hr) as [_ Hce].
  destruct (closed_error (conn s)) as [e|] eqn:Hc; [|done].
  assert (Hat : forall sid q, waiting t = Some (sid, q) ->
    exists items e, queues (conn s) !! q = Some items /\ last items = Some (Closed e)).
  { intros sid q Hwt. eapply (attended_stopped s sid q); [done..|]. by eapply Ha. }
  destruct t as [c|c sid|c sid q|c sid q fs| | | |c sid q r|c r| |]; try done;
    cbn in Hrt; pose proof (request_thread_call _ Hrt) as Hcall.
  - eapply run_calling; [done..|lia].
  - eapply run_identified; [done|lia].
  - destruct (Hat sid q) as (items & e' & Hq & Hl); [by destruct c|].
    unfold backlog in Hlen. cbn in Hlen. rewrite Hq in Hlen. cbn in Hlen.
    eapply run_registered; [done..|lia].
  - destruct (Hat sid q) as (items & e' & Hq & Hl); [by destruct c|].
    unfold backlog in Hlen. cbn in Hlen. rewrite Hq in Hlen. cbn in Hlen.
    eapply run_collecting; [done..|lia].
  - apply run_leaving. lia.
  - by rewrite run_finished.
Qed.
(** ** Waits without an end *)

(** The queue a thread waits on. *)
Definition waits_on (t : thread) : option nat :=
  match t with
  | Collecting _ _ q _ | AwaitWelcome _ _ _ _ q | AwaitAuthOk _ _ _ q => Some q
  | Subscribed s _ => if sub_ended s then None else Some (sub_queue s)
  | _ => None
  end.

(** The deadline of that wait. *)
Definition wait_deadline (m : mux) (t : thread) : option pyfloat :=
  match t with
  | Collecting c _ _ _ => match call_timeout c with None => request_timeout m | Some d => Some d end
  | _ => request_timeout m
  end.

(** A thread that waits, without a deadline, on an empty queue that has no route. *)
Record orphaned (s : system) (tid : nat) (t : thread) (q : nat) : Prop := {
  orphan_thread : threads s !! tid = Some t;
  orphan_waits : waits_on t = Some q;
  orphan_empty : contents (conn s) q = [];
  orphan_routes sid : routes (conn s) !! sid <> Some q;
  orphan_deadline : wait_deadline (conn s) t = None
}.

Lemma waits_on_queue t q : waits_on t = Some q -> queue_of t = Some q.
Proof.
  destruct t as [| | |c sid q' fs| | | | | |s rs|]; try done; cbn.
  by destruct (sub_ended s).
Qed.

Lemma mux_next_blocks m q timeout ex :
  queues m !! q = None \/ queues m !! q = Some [] ->
  match timeout with None => request_timeout m | Some d => Some d end = None ->
  mux_next m q timeout ex = NextBlocks.
Proof.
  intros Hq Hd. destruct timeout; [done|]. unfold mux_next. rewrite Hd. cbn.
  by destruct Hq as [-> | ->].
Qed.

Lemma contents_nil m q : contents m q = [] -> queues m !! q = None \/ queues m !! q = Some [].
Proof.
  unfold contents. intros E%app_eq_nil. destruct E as [E _].
  destruct (queues m !! q) as [l|]; [right|by left]. cbn in E. by subst.
Qed.

(** Such a thread has no step, but to close its subscription. *)
Lemma orphaned_blocked s tid t q e :
  orphaned s tid t q ->
  thread_step (conn s) t e = None
  \/ exists sub returned, t = Subscribed sub returned /\ closes e = true
       /\ thread_step (conn s) t e = Some (conn s, Unrouting (end_subscription sub) returned None).
Proof.
  intros [_ Hw He _ Hd]. apply contents_nil in He.
  destruct t as [| | |c sid q' fs|c hello auth sid q'| |c w sid q'| | |sub rs|]; try done;
    cbn [waits_on wait_deadline thread_step] in *; simplify_eq.
  - left. by rewrite (mux_next_blocks _ _ _ _ He Hd).
  - left. by rewrite (mux_next_blocks _ _ None _ He Hd).
  - left. by rewrite (mux_next_blocks _ _ None _ He Hd).
  - destruct (closes e) eqn:Ec; [right; by eauto|left].
    unfold subscription_next. destruct (sub_ended sub); [done|]. simplify_eq.
    by rewrite (mux_next_blocks _ _ None _ He Hd).
Qed.

Lemma thread_step_timeout m t e m' t' :
  thread_step m t e = Some (m', t') -> request_timeout m' = request_timeout m.
Proof. intros Hm%thread_step_moves. by destruct Hm. Qed.

Lemma on_frame_timeout m f ts refused : request_timeout (on_frame m f ts refused) = request_timeout m.
Proof.
  unfold on_frame, write_evaluated, mux_write, route_frame. by repeat case_match.
Qed.

Lemma wait_deadline_timeout m m' t :
  request_timeout m' = request_timeout m -> wait_deadline m' t = wait_deadline m t.
Proof. intros E. destruct t; cbn; rewrite ?E; done. Qed.

Lemma reachable_timeout timeout s : reachable timeout s -> request_timeout (conn s) = timeout.
Proof.
  revert s. apply reachable_ind_inv; [done|]. intros s s' _ E Hst.
  destruct Hst as [s tid c Ht|s tid t e m t' Ht Hs|s ev f buf ts refused Hr Hs|s f q Hr|s ev e buf Hr Hs];
    try done; cbn [conn].
  - by rewrite (thread_step_timeout _ _ _ _ _ Hs).
  - by rewrite on_frame_timeout.
Qed.

Lemma orphaned_same s s' tid t q :
  orphaned s tid t q -> threads s' !! tid = Some t -> contents (conn s') q = contents (conn s) q ->
  (forall sid, routes (conn s') !! sid = Some q -> routes (conn s) !! sid = Some q) ->
  request_timeout (conn s') = request_timeout (conn s) -> orphaned s' tid t q.
Proof.
  intros [Ht Hw He Hr Hd] Ht' Hc Hr' Hto. split; [done|done|by rewrite Hc| |].
  - intros sid E. by apply (Hr sid), Hr'.
  - by rewrite (wait_deadline_timeout _ _ _ Hto).
Qed.

(** What a subscription is from its [close] on. *)
Definition over (t : thread) : bool :=
  match t with Subscribed sub _ | Unrouting sub _ _ => sub_ended sub | _ => false end.

Lemma thread_step_over m t e m' t' : thread_step m t e = Some (m', t') -> over t = true -> over t' = true.
Proof.
  intros E Ho. destruct t as [| | | | | | | | |sub rs|sub rs r]; try done; cbn [thread_step] in E; cbn in Ho.
  - destruct (closes e); simplify_eq; [done|]. unfold subscription_next in E. rewrite Ho in E.
    by simplify_eq.
  - by simplify_eq.
Qed.

Lemma step_over s s' tid t :
  threads s !! tid = Some t -> over t = true -> step s s' ->
  exists t', threads s' !! tid = Some t' /\ over t' = true.
Proof.
  intros Ht Ho Hst.
  destruct Hst as [s tid1 c H1|s tid1 t1 e m t1' H1 E|s ev f buf ts refused Hr E|s f q1 Hr|s ev e buf Hr E];
    cbn [threads]; try (by exists t).
  - exists t. rewrite lookup_insert_ne; [done|]. congruence.
  - destruct (decide (tid1 = tid)) as [->|Hne]; [|exists t; by rewrite lookup_insert_ne].
    simplify_eq. exists t1'. rewrite lookup_insert_eq. split; [done|]. by eapply thread_step_over.
Qed.

(** Nothing is ever put into such a queue again. *)
Lemma orphaned_step s s' tid t q :
  owned s -> orphaned s tid t q -> step s s' ->
  orphaned s' tid t q
  \/ exists sub returned t', t = Subscribed sub returned
       /\ threads s' !! tid = Some t' /\ over t' = true.
Proof.
  intros Ho Hor Hst. pose proof Hor as [Ht Hw He Hr _]. pose proof (waits_on_queue _ _ Hw) as Hq.
  pose proof (owned_fresh _ Ho _ _ _ Ht Hq) as Hlt.
  destruct Hst as [s tid1 c H1|s tid1 t1 e m t1' H1 E|s ev f buf ts refused Hrd E|s f q1 Hrd|s ev e buf Hrd E].
  - left. apply (orphaned_same s); [done| |done|done|done]. cbn.
    rewrite lookup_insert_ne; [done|]. congruence.
  - destruct (decide (tid1 = tid)) as [->|Hne].
    + simplify_eq. destruct (orphaned_blocked _ _ _ _ e Hor) as [E'|(sub & rs & -> & _ & E')]; [congruence|].
      right. exists sub, rs, t1'. cbn [threads]. rewrite lookup_insert_eq. split_and!; [done|done|].
      rewrite E' in E. by simplify_eq.
    + left. pose proof (thread_step_moves _ _ _ _ _ E) as Hm. apply (orphaned_same s); [done|..]; cbn.
      * by rewrite lookup_insert_ne.
      * eapply moves_contents; [done|done|]. intros Hq1. by eapply Hne, (owned_distinct _ Ho).
      * intros sid. by eapply moves_routes.
      * by eapply thread_step_timeout.
  - left. apply (orphaned_same s); [done|done| | |]; cbn [conn].
    + destruct (is_opcode f SERVER_PING) eqn:Ep.
      * destruct (ping_idles (set_read_buf (conn s) buf) f ts refused Ep) as (_ & Eq & _ & _ & _ & Er & _).
        unfold contents. by rewrite Eq, Er.
      * unfold on_frame. rewrite Ep, contents_route_frame by done. rewrite decide_False, app_nil_r; [done|].
        apply Hr.
    + intros sid. destruct (is_opcode f SERVER_PING) eqn:Ep.
      * destruct (ping_idles (set_read_buf (conn s) buf) f ts refused Ep) as (-> & _). done.
      * unfold on_frame. rewrite Ep. by destruct (route_frame_shared (set_read_buf (conn s) buf) f) as (-> & _).
    + by rewrite on_frame_timeout.
  - left. apply (orphaned_same s); [done|done|by apply contents_put_frame|done|done].
  - left. apply (orphaned_same s); [done|done| |done|done]. cbn [conn].
    destruct (contents_fail_all (set_read_buf (conn s) buf) e HANDSHAKE_STREAM_ID q) as [_ H2].
    + intros s1 s2 q'. by apply (owned_unique s).
    + by apply not_routing_reading.
    + intros sid' Hsid. by destruct (Hr sid').
    + apply H2, Hr.
Qed.

Lemma orphaned_forever timeout s tid t q s' :
  reachable timeout s -> orphaned s tid t q -> rtc step s s' ->
  orphaned s' tid t q
  \/ exists sub returned t', t = Subscribed sub returned
       /\ threads s' !! tid = Some t' /\ over t' = true.
Proof.
  intros Hr Ho Hst. revert Hr Ho. induction Hst as [s|s1 s2 s3 H12 H23 IH]; intros Hr Ho; [by left|].
  assert (Hr2 : reachable timeout s2) by (eapply rtc_r; [exact Hr|done]).
  destruct (orphaned_step s1 s2 tid t q) as [Ho2|(sub & rs & t' & -> & Ht' & Hov)];
    [by eapply allowed_owned, reachable_allowed|done|done|by apply IH|].
  right. clear IH Ho Hr Hr2 H12. revert t' Ht' Hov. induction H23 as [s|s2 s3 s4 H23 _ IH]; intros t' Ht' Hov.
  - by exists sub, rs, t'.
  - destruct (step_over _ _ _ _ Ht' Hov H23) as (t2 & Ht2 & Ho2).
    by eapply IH.
Qed.

(** How a wait loses its route: another operation registers on the same stream. *)
Lemma displaced_orphaned s tid1 t1 q1 sid tid2 c2 m t2 e ids :
  owned s -> threads s !! tid1 = Some t1 -> waits_on t1 = Some q1 -> holds t1 = Some (sid, q1) ->
  contents (conn s) q1 = [] -> wait_deadline (conn s) t1 = None ->
  threads s !! tid2 = Some (Identified c2 sid) -> closed_error (conn s) = None ->
  thread_step (conn s) (Identified c2 sid) e = Some (m, t2) ->
  orphaned (mk_system m (<[tid2 := t2]> (threads s)) (arrived s) ids) tid1 t1 q1.
Proof.
  intros Ho H1 Hw Hh Hc Hd H2 Ece E. pose proof (waits_on_queue _ _ Hw) as Hq.
  pose proof (owned_fresh _ Ho _ _ _ H1 Hq) as Hlt.
  cbn [thread_step] in E. unfold register in E. rewrite Ece in E. injection E as <- <-.
  assert (Hne : tid2 <> tid1) by (intros ->; rewrite H1 in H2; by simplify_eq).
  split; cbn [threads conn]; [by rewrite lookup_insert_ne|done| | |].
  - etrans; [|exact Hc]. apply (moves_contents (conn s) (Identified c2 sid) (registered (conn s) sid)
      (Registered c2 sid (next_queue (conn s)))); [by apply moves_register|done|done].
  - cbn. intros sid'. rewrite lookup_insert_Some. intros [[_ Eq]|[Hs Er]]; [lia|].
    apply (owned_route _ Ho) in Er as (tid & t & Ht & Hht).
    assert (tid = tid1) as -> by (eapply (owned_distinct _ Ho); [done|done|by eapply holds_queue|done]).
    congruence.
  - by rewrite (wait_deadline_timeout (conn s)).
Qed.

(** How a subscription does: its connection fails, and [next] takes the sentinel
    without ending it. *)
Lemma failed_subscription_orphaned s tid sub returned e rest ev m t' ids :
  owned s -> threads_inv s -> threads s !! tid = Some (Subscribed sub returned) ->
  sub_ended sub = false -> request_timeout (conn s) = None ->
  queues (conn s) !! sub_queue sub = Some (Closed e :: rest) -> e <> ConnectionClosed ->
  closes ev = false -> thread_step (conn s) (Subscribed sub returned) ev = Some (m, t') ->
  t' = Subscribed sub (returned ++ [Raise e])
  /\ orphaned (mk_system m (<[tid := t']> (threads s)) (arrived s) ids) tid t' (sub_queue sub).
Proof.
  intros Ho Hi Ht Hs Hto Hq He Hcl E. pose proof (Hi _ _ Ht) as Hp. cbn in Hp. rewrite Hs in Hp.
  destruct Hp as (taken & (pre & seg & post & rs & tail & _ & _ & Hc & Htl & Hrt) & _).
  pose proof (contents_pop _ _ _ _ Hq) as Hpop. rewrite Hc in Hpop.
  destruct rs as [|f rs]; [cbn in Hpop|done].
  destruct Htl as [->|[e' ->]]; [done|]. injection Hpop as -> Hpop.
  cbn [thread_step] in E. rewrite Hcl in E. unfold subscription_next in E. rewrite Hs in E.
  assert (En : mux_next (conn s) (sub_queue sub) None (expired ev)
               = NextRaise e (pop (conn s) (sub_queue sub) rest)).
  { unfold mux_next. rewrite Hto. cbn. by rewrite Hq. }
  rewrite En in E.
  assert (t' = Subscribed sub (returned ++ [Raise e]) /\ m = pop (conn s) (sub_queue sub) rest) as [-> ->]
    by (destruct e; by simplify_eq).
  split; [done|]. split; cbn [threads conn].
  - apply lookup_insert_eq.
  - cbn. by rewrite Hs.
  - done.
  - intros sid Er. cbn in Er. pose proof Er as Er'.
    apply (owned_route _ Ho) in Er as (tid1 & t1 & Ht1 & Hh1).
    assert (tid1 = tid) as ->
      by (eapply (owned_distinct _ Ho); [exact Ht1|exact Ht|by eapply holds_queue|done]).
    simplify_eq. cbn in Hh1. rewrite Hs in Hh1. simplify_eq. by apply Hrt in Er' as [_ ?].
  - cbn. done.
Qed.

End Liveness.
