(* ===== verification/MuxProperties.v ===== *)
(** * MuxProperties

    The guarantees of the multiplexer, from the invariants of [MuxSafety], each
    evaluated on a concrete schedule, and the schedules on which the code does
    not do what it means to. *)

From S2P Require Import Prelude Frame PyFloat PyValue PyArith PyCompare Cbor CborCodec WireCodec.
From S2P Require Import Opcode WireHandshake WireListing WireEvents Errors Transport Mux MuxMoves MuxSafety.
From S2P Require Import MuxLiveness.
From stdpp Require Import gmap.
#[local] Open Scope Z_scope.

Section Schedules.
Context `{Cbor2}.

(** ** Schedules *)

(** One step of the system, as a choice. *)
Inductive choice : Type :=
| Start (tid : nat) (c : call)
| Advance (tid : nat) (e : env)
| Read (events : list recv_event) (time_ns : Z) (refused : sendall_outcome)
| Put.

(** The step chosen, if the state allows it. *)
Definition choose (s : system) (ch : choice) : option system :=
  match ch with
  | Start tid c =>
      match threads s !! tid with
      | None => Some (mk_system (conn s) (<[tid := Calling c]> (threads s)) (arrived s) (issued s))
      | Some _ => None
      end
  | Advance tid e =>
      match threads s !! tid with
      | Some t =>
          match thread_step (conn s) t e with
          | Some (m, t') => Some (mk_system m (<[tid := t']> (threads s)) (arrived s)
                                    (issued s ++ ids_taken t (conn s)))
          | None => None
          end
      | None => None
      end
  | Read events time_ns refused =>
      match reader (conn s) with
      | Reading =>
          match read_frame events (read_buf (conn s)) with
          | ReadFrame frame buf [] =>
              Some (mk_system (on_frame (set_read_buf (conn s) buf) frame time_ns refused)
                      (threads s) (arrived s ++ routed frame) (issued s))
          | ReadRaise e buf [] =>
              Some (mk_system (fail_all (set_read_buf (conn s) buf) e)
                      (threads s) (arrived s) (issued s))
          | _ => None
          end
      | _ => None
      end
  | Put =>
      match reader (conn s) with
      | Routing frame q =>
          Some (mk_system (put_frame (conn s) frame q) (threads s) (arrived s) (issued s))
      | _ => None
      end
  end.

(** A schedule, its impossible choices skipped. *)
Definition play (timeout : option pyfloat) (schedule : list choice) : system :=
  fold_left (fun s ch => default s (choose s ch)) schedule (start timeout).

Lemma choose_step s ch s' : choose s ch = Some s' -> step s s'.
Proof.
  destruct ch as [tid c|tid e|events ts refused|]; cbn [choose].
  - destruct (threads s !! tid) eqn:E; [done|]. intros [= <-]. by apply step_call.
  - destruct (threads s !! tid) as [t|] eqn:E; [|done].
    destruct (thread_step (conn s) t e) as [[m t']|] eqn:Et; [|done]. intros [= <-].
    by eapply step_thread.
  - destruct (reader (conn s)) eqn:Er; try done.
    destruct (read_frame events (read_buf (conn s))) as [f buf [|]|e buf [|]|] eqn:E; try done;
      intros [= <-]; [by eapply step_read|by eapply step_read_fails].
  - destruct (reader (conn s)) eqn:Er; try done. intros [= <-]. by apply step_put.
Qed.

Lemma choices_steps schedule s :
  rtc step s (fold_left (fun s ch => default s (choose s ch)) schedule s).
Proof.
  revert s. induction schedule as [|ch l IH]; intros s; [done|]. cbn [fold_left].
  destruct (choose s ch) as [s'|] eqn:E; [|apply IH].
  eapply rtc_l; [by eapply choose_step|apply IH].
Qed.

Lemma play_reachable timeout schedule : reachable timeout (play timeout schedule).
Proof. apply choices_steps. Qed.

(** [n] undisturbed steps of a thread. *)
Definition advance (tid : nat) (n : nat) : list choice :=
  replicate n (Advance tid (mk_env false None false)).

(** The reader reads a frame the peer sends and routes it. *)
Definition arrives (f : Frame) : list choice := [Read [Recv (frame_layout f)] 0 None; Put].

(** The peer closes the connection, or it breaks. *)
Definition peer_closes : list choice := [Read [Recv []] 0 None].
Definition peer_resets : list choice := [Read [RecvRaise OSError] 0 None].

Definition request_of (c : Opcode) : call := CallRequest c [x61] None.
Definition response (sid : Z) (eos : bool) (b : byte) : Frame :=
  mk_Frame (opcode_value RECALL_RESP) (if eos then FLAG_EOS else 0) sid [b].

(** ** Responses *)

(** C5: requests are isolated: in every reachable state, under any interleaving of
    any number of threads, the frames a finished request returned are exactly the
    frames that arrived for its own stream during some interval, in order and
    none missing, without an ERROR, the last and only the last with EOS; its
    request frame was sent on that stream; and until 2^31 stream ids have been
    handed out no other request or subscription was ever on that stream. *)
Theorem requests_are_isolated timeout s tid c sid frames :
  reachable timeout s ->
  threads s !! tid = Some (Finished c (Ok (AnswerFrames sid frames))) ->
  (exists pre seg post, arrived s = pre ++ seg ++ post /\ frames = on_stream sid seg)
  /\ whole_response frames
  /\ requested s c sid
  /\ (op_call c = true -> zlen (issued s) <= 2 ^ 31 ->
      forall tid' t', threads s !! tid' = Some t' -> op_stream t' = Some sid -> tid' = tid).
Proof.
  intros Hr Ht. destruct (allowed_threads_inv _ _ (reachable_allowed _ _ Hr) _ _ Ht) as ((pre & seg & post & Ha & Hs) & Hw & Hq).
  split_and!; [by exists pre, seg, post|done|done|].
  intros Hc Hn tid' t' Ht' Hos. eapply (streams_distinct _ (allowed_streams _ _ (reachable_allowed _ _ Hr))); [done..|].
  cbn. by rewrite Hc.
Qed.

(** Two requests whose response frames arrive interleaved. *)
Definition interleaved : system :=
  play None
    (Start 0 (request_of RECALL_REQ) :: Start 1 (request_of RECALL_REQ)
     :: advance 0 3 ++ advance 1 3
     ++ arrives (response 3 false x01) ++ arrives (response 1 false x02)
     ++ arrives (response 1 true x03) ++ arrives (response 3 true x04)
     ++ advance 0 3 ++ advance 1 3).

(** ** Failure *)

(** C6: no request outlives its connection: once the reader thread has stopped, a
    thread inside [request], wherever it stands, finishes within as many of its
    own steps as its queue still holds items, and two more, whatever the
    environment does and even without any deadline (up to 2^31 stream ids). *)
Theorem no_request_hangs timeout s tid t es :
  reachable timeout s -> zlen (issued s) <= 2 ^ 31 ->
  reader (conn s) = Stopped -> threads s !! tid = Some t -> request_thread t = true ->
  (length (backlog (conn s) t) + 2 <= length es)%nat ->
  finished (snd (run (conn s) t es)) = true.
Proof.
  intros Hr%reachable_allowed. apply request_finishes; [by eapply allowed_owned|by eapply allowed_attended].
Qed.

(** A request whose response stops after its first frame. *)
Definition cut_short : system :=
  play None (Start 0 (request_of RECALL_REQ) :: advance 0 3
             ++ arrives (response 1 false x01) ++ peer_closes).

(** C28: the route table does not leak: a route always belongs to a thread that is
    inside its operation or holds an open subscription, under that thread's stream
    id and queue; so when every operation has returned and every subscription has
    ended or been closed, [route_count] is 0, and it is 0 once the reader has
    stopped. *)
Theorem no_route_leaks timeout s :
  reachable timeout s ->
  (forall sid q, routes (conn s) !! sid = Some q ->
     exists tid t, threads s !! tid = Some t /\ holds t = Some (sid, q))
  /\ ((forall tid t, threads s !! tid = Some t -> holds t = None) -> route_count (conn s) = 0%nat)
  /\ (reader (conn s) = Stopped -> route_count (conn s) = 0%nat /\ is_closed (conn s) = true).
Proof.
  intros Hr. pose proof (allowed_owned _ _ (reachable_allowed _ _ Hr)) as Ho. split_and!.
  - apply (owned_route _ Ho).
  - intros Hn. unfold route_count. apply map_size_empty_iff, map_empty. intros sid.
    destruct (routes (conn s) !! sid) as [q|] eqn:E; [|done].
    apply (owned_route _ Ho) in E as (tid & t & Ht & Hh). by rewrite (Hn _ _ Ht) in Hh.
  - intros Hs. destruct (owned_stopped _ Ho Hs) as [E Hc]. unfold route_count, is_closed.
    rewrite E, Hs. split; [apply map_size_empty|]. by destruct (closed_error (conn s)).
Qed.

(** ** What goes out *)

(** The socket took all of it. *)
Definition taken_whole (w : wire_entry) : Prop := entry_bytes w = entry_frame w.

Lemma on_wire_whole ws : Forall taken_whole ws -> on_wire ws = concat (map entry_frame ws).
Proof. unfold on_wire. induction 1 as [|w ws Hw _ IH]; [done|]. cbn. by rewrite Hw, IH. Qed.

(** C29: what the peer reads is what was written: whatever the interleaving of the
    threads and of the reader's heartbeat answers, every [sendall] is given one
    whole frame, with EOS set, a known opcode and stream 0 or an odd stream id, and
    the bytes on the wire are those frames in the order of the writes, a prefix of
    a frame in place of the frame where [sendall] raised. As long as no write was
    cut, a peer that reads in any chunks gets back exactly the frames written, in
    order, and is left with exactly the bytes of the writes after them. *)
Theorem peer_reads_what_was_sent timeout s :
  reachable timeout s ->
  exists frames,
    map entry_frame (sent (conn s)) = map frame_layout frames
    /\ Forall client_frame frames
    /\ (forall w, w ∈ sent (conn s) -> entry_bytes w `prefix_of` entry_frame w)
    /\ forall k cs, (0 < k <= length frames)%nat -> Forall taken_whole (take k (sent (conn s))) ->
         nonempty_chunks cs -> concat cs = on_wire (sent (conn s)) ->
         exists f buf cs', read_frames k (map Recv cs) []
                           = (take k frames, ReadFrame f buf (map Recv cs'))
           /\ buf ++ concat cs' = on_wire (drop k (sent (conn s))).
Proof.
  intros Hr. destruct (allowed_sent_ok _ _ (reachable_allowed _ _ Hr)) as (frames & E & Hs & Hc).
  exists frames. split_and!; [done..| |].
  - intros [bs|bs n] _; [done|]. cbn. exists (drop n bs). by rewrite take_drop.
  - intros k cs Hk Hw Hcs Ecs.
    destruct (read_frames_chunks (take k frames) (on_wire (drop k (sent (conn s)))) cs [] [])
      as (f & buf & cs' & Er & _ & Et); [by apply Forall_take| |done| |].
    + intros En%(f_equal length). rewrite length_take in En. cbn in En. lia.
    + cbn [app]. rewrite Ecs. rewrite <- (take_drop k (sent (conn s))) at 1.
      unfold on_wire at 1. rewrite map_app, concat_app. fold (on_wire (take k (sent (conn s)))).
      rewrite (on_wire_whole _ Hw), <- !firstn_map, E. done.
    + exists f, buf, cs'. rewrite !app_nil_r, length_take, Nat.min_l in Er by lia. done.
Qed.

(** A request whose [sendall] is cut after ten bytes, and then another. *)
Definition cut_then_whole : system :=
  play None (Start 0 (request_of RECALL_REQ) :: advance 0 2
             ++ [Advance 0 (mk_env false (Some (OSError, 10%nat)) false)]
             ++ Start 1 (request_of RECALL_REQ) :: advance 1 3).

(** The connection stays in use after a write was cut, and the next frame follows
    the torn one, where the peer cannot read it. *)
Lemma cut_write_desynchronises :
  exists s bs bs', reachable None s /\ sent (conn s) = [Cut bs 10; Whole bs']
    /\ closed_error (conn s) = None
    /\ threads s !! 1%nat = Some (Collecting (request_of RECALL_REQ) 3 1 [])
    /\ exists e buf, read_frame [Recv (on_wire (sent (conn s)))] [] = ReadRaise e buf [].
Proof.
  exists cut_then_whole, (frame_layout (mk_Frame (opcode_value RECALL_REQ) FLAG_EOS 1 [x61])),
    (frame_layout (mk_Frame (opcode_value RECALL_REQ) FLAG_EOS 3 [x61])).
  split_and!; [apply play_reachable|by vm_compute..|]. eexists _, _. vm_compute. reflexivity.
Qed.

(** ** Subscriptions *)

(** C27: a subscription delivers its stream: the events [next] has returned so far,
    in order, are the events decoded from exactly the frames that arrived for the
    subscription's stream during some interval, none skipped and none twice;
    while it is open, none of those frames was an ERROR or had EOS. *)
Theorem subscription_delivers_its_stream timeout s tid sub returned :
  reachable timeout s -> threads s !! tid = Some (Subscribed sub returned) ->
  exists pre seg post, arrived s = pre ++ seg ++ post
    /\ events_of returned = events_of (map event_of (on_stream (sub_stream_id sub) seg))
    /\ (sub_ended sub = false ->
        Forall (fun f => ends_stream f = false) (on_stream (sub_stream_id sub) seg)).
Proof.
  intros Hr Ht. pose proof (allowed_threads_inv _ _ (reachable_allowed _ _ Hr) _ _ Ht) as Hi. cbn in Hi.
  destruct (sub_ended sub).
  - destruct Hi as (taken & (pre & seg & post & Ha & Hs) & He).
    exists pre, seg, post. rewrite Hs. split_and!; done.
  - destruct Hi as (taken & Hp & Hf & He).
    destruct (in_progress_segment _ _ _ _ Hp) as (pre & seg & post & Ha & Hs).
    exists pre, seg, post. rewrite Hs. split_and!; done.
Qed.

(** ** Handshake *)

(** The version a successful handshake settled on is one its HELLO offered. *)
Lemma handshake_version timeout s tid c welcome auth_ok :
  reachable timeout s ->
  threads s !! tid = Some (Finished c (Ok (AnswerHandshake welcome auth_ok))) ->
  exists hello auth offered, c = CallHandshake hello auth
    /\ offered_versions hello = Ok offered
    /\ py_in (WelcomePayload_chosen_version welcome) offered = true.
Proof. intros Hr Ht. apply (allowed_threads_inv _ _ (reachable_allowed _ _ Hr) _ _ Ht). Qed.

Lemma opcode_value_u16 o : 0 <= opcode_value o < 2 ^ 16.
Proof. destruct o; vm_compute; split; congruence. Qed.

Lemma negotiated_max_int welcome n :
  ServerFeatures_max_payload_size (WelcomePayload_server_features welcome) = PInt n ->
  negotiated_max welcome = PInt (if n =? 0 then MAX_PAYLOAD_BYTES else n).
Proof. unfold negotiated_max. intros ->. cbn. by destruct (n =? 0). Qed.

(** The advertised limit decides every write. *)
Lemma payload_limit m welcome n o sid payload refused :
  max_payload_size m = negotiated_max welcome ->
  ServerFeatures_max_payload_size (WelcomePayload_server_features welcome) = PInt n ->
  0 <= n <= MAX_PAYLOAD_BYTES -> 0 <= sid < 2 ^ 32 ->
  let limit := if n =? 0 then MAX_PAYLOAD_BYTES else n in
  let frame := frame_layout (mk_Frame (opcode_value o) FLAG_EOS sid payload) in
  (limit < zlen payload -> mux_write m o sid payload refused = (m, Raise ProtocolError))
  /\ (zlen payload <= limit ->
      mux_write m o sid payload refused
      = match refused with
        | Some (e, k) => (set_sent m (sent m ++ [Cut frame k]), Raise e)
        | None => (set_sent m (sent m ++ [Whole frame]), Ok tt)
        end).
Proof.
  intros Em En Hn Hsid. cbn zeta. rewrite (negotiated_max_int _ _ En) in Em.
  set (limit := if n =? 0 then _ else _) in *.
  assert (Hl : 0 <= limit <= MAX_PAYLOAD_BYTES) by (unfold limit; destruct (n =? 0); lia).
  unfold mux_write, frame_to_write. rewrite Em.
  rewrite (py_int_gt_int _ _ (zlen_nonneg payload)) by lia. cbn [lift_error bind]. split; intros Hz.
  - by rewrite (proj2 (Z.ltb_lt _ _) Hz).
  - rewrite (proj2 (Z.ltb_ge _ _) Hz). unfold write_frame.
    rewrite (encode_frame_layout (mk_Frame (opcode_value o) FLAG_EOS sid payload)); [done|].
    pose proof (opcode_value_u16 o). constructor; cbn; [done|done|done|lia].
Qed.

(** ** Heartbeats *)

(** A SERVER_PING never reaches a queue, whatever stream id it carries: the
    routes, the queues and the reader are left alone, and the reader answers with
    one CLIENT_PONG on stream 0, which echoes the server's timestamp, or 0 when
    the payload does not decode; a write that fails is not raised, and leaves no
    more than a torn answer on the wire. *)
Theorem heartbeat_answered m f ts refused :
  is_opcode f SERVER_PING = true ->
  let m' := on_frame m f ts refused in
  let echo := match decode_payload (T := ServerPingResponse) (frame_payload f) with
              | Ok p => ServerPingResponse_server_timestamp_unix_nanos p
              | Raise _ => PInt 0
              end in
  routes m' = routes m /\ queues m' = queues m /\ reader m' = reader m
  /\ (sent m' = sent m
      \/ exists pong w, encode_payload (mk_ClientPongRequest echo (PInt ts)) = Ok pong
          /\ sent m' = sent m ++ [w]
          /\ entry_frame w = frame_layout (mk_Frame (opcode_value CLIENT_PONG) FLAG_EOS 0 pong))
  /\ (forall pong, encode_payload (mk_ClientPongRequest echo (PInt ts)) = Ok pong ->
        forall n, max_payload_size m = PInt n -> zlen pong <= n <= MAX_PAYLOAD_BYTES ->
        refused = None ->
        sent m' = sent m ++ [Whole (frame_layout (mk_Frame (opcode_value CLIENT_PONG) FLAG_EOS 0 pong))]).
Proof.
  intros Hp. cbn zeta.
  destruct (ping_idles m f ts refused Hp) as (E1 & E2 & _ & _ & _ & E3 & _).
  split_and!; [done..| |].
  - unfold on_frame. rewrite Hp.
    destruct (write_evaluated _ _ _ _) as [m1 r] eqn:Ew. apply write_evaluated_cases in Ew. cbn [fst].
    assert (Hw : sent m1 = sent m
      \/ exists o p w, (let* payload := lift_error PyExn (encode_payload
             (mk_ClientPongRequest match decode_payload (T := ServerPingResponse) (frame_payload f) with
              | Ok p => ServerPingResponse_server_timestamp_unix_nanos p
              | Raise _ => PInt 0
              end (PInt ts))) in Ok (CLIENT_PONG, payload)) = Ok (o, p)
        /\ write_frame (mk_Frame (opcode_value o) FLAG_EOS HANDSHAKE_STREAM_ID p) = Ok (entry_frame w)
        /\ sent m1 = sent m ++ [w]).
    { destruct r; [|destruct Ew as [->|Ew]; [by left|]]; right.
      - destruct Ew as (o & p & bs & Ef & Eb & ->). by exists o, p, (Whole bs).
      - destruct Ew as (o & p & bs & n & Ef & Eb & ->). by exists o, p, (Cut bs n). }
    destruct Hw as [Hw|(o & p & w & Ef & [Eb _]%write_frame_sendable & Em)]; [by left|right].
    inv_binds. match goal with E : lift_error _ _ = Ok _ |- _ => apply lift_error_ok_inv in E end.
    by exists p, w.
  - intros pong Ee n Hn Hz ->. unfold on_frame. rewrite Hp, Ee. cbn [lift_error bind write_evaluated].
    unfold mux_write, frame_to_write. rewrite Hn, py_int_gt_int by (pose proof (zlen_nonneg pong); lia).
    cbn [lift_error bind]. rewrite (proj2 (Z.ltb_ge _ _)) by lia. unfold write_frame.
    rewrite (encode_frame_layout (mk_Frame (opcode_value CLIENT_PONG) FLAG_EOS HANDSHAKE_STREAM_ID pong)); [done|].
    constructor; cbn; [done|done|done|lia].
Qed.

(** ** Where waiting goes wrong *)

Definition ping_call : call := CallOnConnection PING [x61].

(** A subscription on a connection that breaks with an [OSError]. *)
Definition reset_subscription (request : SubscribeRequest) : system :=
  play None (Start 0 (CallSubscribe request) :: advance 0 3 ++ peer_resets ++ advance 0 1).
End Schedules.

(** ** Schedules evaluated *)

Lemma requests_are_isolated_witness :
  threads interleaved !! 0%nat
  = Some (Finished (request_of RECALL_REQ)
            (Ok (AnswerFrames 1 [response 1 false x02; response 1 true x03])))
  /\ whole_response [response 1 false x02; response 1 true x03].
Proof.
  assert (E : threads interleaved !! 0%nat
    = Some (Finished (request_of RECALL_REQ)
              (Ok (AnswerFrames 1 [response 1 false x02; response 1 true x03]))))
    by (vm_compute; reflexivity).
  split; [exact E|].
  apply (requests_are_isolated None interleaved 0 (request_of RECALL_REQ) 1
    [response 1 false x02; response 1 true x03] (play_reachable _ _) E).
Defined.

Lemma no_request_hangs_witness :
  let t := Collecting (request_of RECALL_REQ) 1 0 [] in
  threads cut_short !! 0%nat = Some t
  /\ finished (snd (run (conn cut_short) t (replicate 4 (mk_env false None false)))) = true.
Proof.
  assert (E : threads cut_short !! 0%nat = Some (Collecting (request_of RECALL_REQ) 1 0 []))
    by (vm_compute; reflexivity).
  split; [exact E|].
  apply (no_request_hangs None cut_short 0 _ _ (play_reachable _ _));
    [vm_compute; discriminate|vm_compute; reflexivity|exact E|reflexivity|vm_compute; lia].
Defined.

Lemma no_route_leaks_witness :
  route_count (conn interleaved) = 0%nat.
Proof.
  destruct (no_route_leaks None interleaved (play_reachable _ _)) as (_ & Hn & _). apply Hn.
  intros tid t E. apply (elem_of_map_to_list (M := gmap nat)) in E.
  assert (Forall (fun p => holds (p.2) = None) (map_to_list (threads interleaved))) as HF
    by (vm_compute; repeat constructor).
  rewrite Forall_forall in HF. apply (HF _ E).
Defined.

Lemma peer_reads_what_was_sent_witness :
  exists frames f buf cs',
    length frames = 2%nat
    /\ read_frames 2 [Recv (on_wire (sent (conn interleaved)))] []
       = (frames, ReadFrame f buf (map Recv cs')) /\ buf ++ concat cs' = [].
Proof.
  destruct (peer_reads_what_was_sent None interleaved (play_reachable _ _))
    as (frames & E & _ & _ & Hread).
  assert (Hl : length frames = 2%nat).
  { apply (f_equal length) in E. rewrite !length_map in E. rewrite <- E. vm_compute. reflexivity. }
  destruct (Hread 2%nat [on_wire (sent (conn interleaved))]) as (f & buf & cs' & Er & Et).
  - lia.
  - vm_compute. repeat constructor.
  - repeat constructor. vm_compute. discriminate.
  - apply app_nil_r.
  - exists frames, f, buf, cs'. rewrite <- Hl, firstn_all, Hl in Er.
    split; [exact Hl|]. split; [exact Er|]. rewrite Et. vm_compute. reflexivity.
Defined.

Definition bytes_of {E} (r : result E bytes) : bytes := match r with Ok b => b | Raise _ => [] end.

Definition sample_subscribe : SubscribeRequest :=
  mk_SubscribeRequest (mk_SubscriptionFilter PNone PNone None PNone PNone) (PBool false) PNone
    (PInt 64) None.

Definition sample_event (lsn : Z) : SubscriptionEvent :=
  mk_SubscriptionEvent (PStr "Encoded") PNone PNone PNone PNone (PFloat (FZero false)) (PInt 7) (PInt lsn)
    None None PNone PNone None.

Definition event_frame (sid lsn : Z) : Frame :=
  mk_Frame (opcode_value SUBSCRIBE_EVENT) 0 sid (bytes_of (encode_payload (sample_event lsn))).

(** A subscription that receives two events and is then ended by the server. *)
Definition two_events : system :=
  play None (Start 0 (CallSubscribe sample_subscribe) :: advance 0 3
             ++ arrives (event_frame 1 10) ++ arrives (event_frame 1 11)
             ++ arrives (mk_Frame (opcode_value SUBSCRIBE_EVENT) FLAG_EOS 1 [])
             ++ advance 0 5).

Lemma subscription_delivers_its_stream_witness :
  exists returned,
    threads two_events !! 0%nat = Some (Subscribed (mk_Subscription 1 0 true) returned)
    /\ length (events_of returned) = 2%nat
    /\ exists pre seg post, arrived two_events = pre ++ seg ++ post
         /\ events_of returned = events_of (map event_of (on_stream 1 seg)).
Proof.
  eexists. split; [vm_compute; reflexivity|]. split; [reflexivity|].
  edestruct (subscription_delivers_its_stream None two_events 0 (mk_Subscription 1 0 true))
    as (pre & seg & post & Ha & He & _); [apply play_reachable|vm_compute; reflexivity|].
  exists pre, seg, post. split; [exact Ha|exact He].
Defined.

Definition sample_hello : HelloPayload :=
  mk_HelloPayload (PStr "py") (PList [PInt 1])
    (mk_HelloCapabilities (PBool true) (PBool false) (PBool true)) PNone.
Definition sample_auth : AuthPayload :=
  mk_AuthPayload (PStr "Token") (AuthCredentials_token [x61]).
Definition sample_welcome : WelcomePayload :=
  mk_WelcomePayload (PStr "srv") (PInt 1) (PInt 5)
    (mk_HelloCapabilities (PBool true) (PBool false) (PBool true))
    (mk_ServerFeatures (PInt 0) (PInt 8) (PInt 60) (PList [])).
Definition sample_auth_ok : AuthOkPayload :=
  mk_AuthOkPayload (PStr "s") (PInt 0)
    (mk_SpacePermissions (PBool true) (PBool true) (PBool true) (PBool true) (PBool true)
       (PBool false) (PBool false)) (PStr "n") (PInt 9).

Definition shaken : system :=
  play None (Start 0 (CallHandshake sample_hello sample_auth) :: advance 0 3
    ++ arrives (mk_Frame (opcode_value WELCOME) FLAG_EOS 0 (bytes_of (encode_payload sample_welcome)))
    ++ advance 0 2
    ++ arrives (mk_Frame (opcode_value AUTH_OK) FLAG_EOS 0 (bytes_of (encode_payload sample_auth_ok)))
    ++ advance 0 2).

Lemma heartbeat_answered_witness :
  let f := mk_Frame (opcode_value SERVER_PING) FLAG_EOS 3
             (bytes_of (encode_payload (mk_ServerPingResponse (PInt 5)))) in
  exists m', on_frame (conn interleaved) f 6 None = m' /\ routes m' = routes (conn interleaved).
Proof.
  intros f. eexists. split; [reflexivity|].
  exact (proj1 (heartbeat_answered (conn interleaved) f 6 None eq_refl)).
Defined.

(** On a schedule: after a reset [next] raises the error once and leaves the
    subscription open. *)
Lemma reset_subscription_hangs :
  is_closed (conn (reset_subscription sample_subscribe)) = true
  /\ threads (reset_subscription sample_subscribe) !! 0%nat
     = Some (Subscribed (mk_Subscription 1 0 false) [Raise OSError])
  /\ forall timed_out,
      subscription_next (conn (reset_subscription sample_subscribe))
        (mk_Subscription 1 0 false) [Raise OSError] timed_out = None.
Proof. split_and!; [by vm_compute..|]. intros []; by vm_compute. Qed.

(** C38: what [no_request_hangs] does not extend to, on a connection without a
    request deadline. A thread that waits on an empty queue to which no route leads
    waits forever: in every state reachable from there it stands where it stood and
    has no step, unless it holds a subscription and that has been closed. Two things
    the code does bring a caller there: a thread waiting on a stream when another
    operation registers on the same one, as the second of two concurrent pings does
    on stream 0, loses its route to it; and a subscription on a connection that
    fails with anything but [ConnectionClosed] is not ended: [next] raises the error
    once, and every later [next] waits. *)
Theorem waits_that_never_end s tid t :
  reachable None s -> threads s !! tid = Some t ->
  (forall q s', orphaned s tid t q -> rtc step s s' ->
     (threads s' !! tid = Some t
      /\ forall e, closes e = false -> thread_step (conn s') t e = None)
     \/ exists sub returned t', t = Subscribed sub returned
          /\ threads s' !! tid = Some t' /\ over t' = true)
  /\ (forall q sid tid2 c2 e m t2,
        waits_on t = Some q -> holds t = Some (sid, q) -> contents (conn s) q = [] ->
        wait_deadline (conn s) t = None ->
        threads s !! tid2 = Some (Identified c2 sid) -> closed_error (conn s) = None ->
        thread_step (conn s) (Identified c2 sid) e = Some (m, t2) ->
        orphaned (mk_system m (<[tid2 := t2]> (threads s)) (arrived s) (issued s)) tid t q)
  /\ (forall sub returned e rest ev m t',
        t = Subscribed sub returned -> sub_ended sub = false ->
        queues (conn s) !! sub_queue sub = Some (Closed e :: rest) -> e <> ConnectionClosed ->
        closes ev = false -> thread_step (conn s) t ev = Some (m, t') ->
        t' = Subscribed sub (returned ++ [Raise e])
        /\ orphaned (mk_system m (<[tid := t']> (threads s)) (arrived s) (issued s)) tid t'
             (sub_queue sub)).
Proof.
  intros Hr Ht. pose proof (allowed_owned _ _ (reachable_allowed _ _ Hr)) as Ho. split_and!.
  - intros q s' Hor Hst.
    destruct (orphaned_forever _ _ _ _ _ _ Hr Hor Hst) as [Hor'|Hover]; [left|by right].
    split; [apply Hor'|]. intros e He.
    destruct (orphaned_blocked _ _ _ _ e Hor') as [E|(sub & rs & _ & Hc & _)]; [done|congruence].
  - intros q sid tid2 c2 e m t2 Hw Hh Hc Hd H2 Hce E. by eapply displaced_orphaned.
  - intros sub returned e rest ev m t' -> Hs Hq He Hcl E.
    eapply failed_subscription_orphaned; try done; [|by eapply reachable_timeout].
    by eapply allowed_threads_inv, reachable_allowed.
Qed.

(** Two pings: when the second registers, the first has lost its route, and after
    the connection has failed as well it still stands there. *)
Definition ping_waits : system :=
  play None (Start 0 ping_call :: advance 0 3 ++ Start 1 ping_call :: advance 1 1).

Definition ping_displaced : system :=
  default ping_waits (choose ping_waits (Advance 1 (mk_env false None false))).

Definition ping_fails : system :=
  fold_left (fun s ch => default s (choose s ch)) (advance 1 1 ++ peer_closes ++ advance 1 3)
    ping_displaced.

Lemma waits_that_never_end_witness :
  let t := Collecting ping_call HANDSHAKE_STREAM_ID 0 [] in
  orphaned ping_displaced 0 t 0 /\ is_closed (conn ping_fails) = true
  /\ threads ping_fails !! 0%nat = Some t
  /\ forall e, closes e = false -> thread_step (conn ping_fails) t e = None.
Proof.
  intros t.
  assert (Ht : threads ping_waits !! 0%nat = Some t) by (vm_compute; reflexivity).
  assert (Hr : reachable None ping_waits) by apply play_reachable.
  assert (Hor : orphaned ping_displaced 0 t 0).
  { destruct (waits_that_never_end ping_waits 0 t Hr Ht) as (_ & Hdisplaced & _).
    refine (Hdisplaced 0%nat HANDSHAKE_STREAM_ID 1%nat ping_call (mk_env false None false)
      (conn ping_displaced) (Registered ping_call HANDSHAKE_STREAM_ID 1) _ _ _ _ _ _ _);
      vm_compute; reflexivity. }
  split; [exact Hor|]. split; [vm_compute; reflexivity|].
  assert (Hst : rtc step ping_displaced ping_fails) by apply choices_steps.
  assert (Hr' : reachable None ping_displaced).
  { unfold reachable in Hr |- *. etrans; [exact Hr|].
    apply (choices_steps [Advance 1 (mk_env false None false)]). }
  assert (Ht' : threads ping_displaced !! 0%nat = Some t) by (vm_compute; reflexivity).
  destruct (proj1 (waits_that_never_end ping_displaced 0 t Hr' Ht') 0%nat ping_fails Hor Hst)
    as [[E H]|(sub & rs & t' & E & _)]; [split; [exact E|exact H]|discriminate].
Defined.
