(* ===== verification/MuxWrite.v ===== *)
(** * MuxWrite

    [MuxConnection._write] taken apart: the payload limit, the write lock, the
    encoding of the frame under it, and [sendall], which hands the socket some of
    the remaining bytes at a time and can raise after any of them. Any number of
    threads and the reader's heartbeat answers are in it at once. [Mux.mux_write]
    does all this in one action; here every interleaving of the pieces is shown to
    be some sequence of such actions, so that action is what the code does. *)

From S2P Require Import Prelude Frame PyFloat PyValue PyArith PyCompare Cbor WireCodec Opcode.
From S2P Require Import WireHandshake Errors Transport Mux MuxMoves.
From stdpp Require Import gmap.
#[local] Open Scope Z_scope.

(** ** State *)

(** One call of [_write], with the limit its payload was compared to. *)
Record write_op : Type := mk_write_op {
  op_opcode : Opcode;
  op_stream_id : Z;
  op_payload : bytes;
  op_limit : pyval
}.

Definition op_frame (op : write_op) : Frame :=
  mk_Frame (opcode_value (op_opcode op)) FLAG_EOS (op_stream_id op) (op_payload op).

(** Where a thread stands in [_write]: at the limit, at the lock, holding it, in
    [sendall] with the first [n] bytes taken, giving the lock back, or through. *)
Inductive writer : Type :=
| Entering (opcode : Opcode) (sid : Z) (payload : bytes)
| AtWriteLock (op : write_op)
| Holding (op : write_op)
| Sending (op : write_op) (frame : bytes) (n : nat)
| Releasing (op : write_op) (r : result exn unit)
| Wrote (op : write_op) (r : result exn unit).

(** The limit in force, the holder of the write lock, the bytes the socket has
    taken, the threads, and a history: the calls in the order they took effect,
    each with how its [sendall] went. *)
Record write_side : Type := mk_write_side {
  limit_now : pyval;
  lock_owner : option nat;
  socket_bytes : bytes;
  writers : gmap nat writer;
  history : list (nat * write_op * sendall_outcome)
}.

Definition idle_socket : write_side := mk_write_side (PInt MAX_PAYLOAD_BYTES) None [] ∅ [].

(** ** Steps *)

(** What the socket does with the bytes still to send: it takes some, [sendall]
    raises, or, when there are none left, it returns. *)
Inductive socket_act : Type :=
| Takes (k : nat)
| Breaks (e : exn)
| Returns.

Definition set_writer (w : write_side) (tid : nat) (b : writer) : write_side :=
  mk_write_side (limit_now w) (lock_owner w) (socket_bytes w) (<[tid := b]> (writers w)) (history w).

Definition set_owner (w : write_side) (owner : option nat) : write_side :=
  mk_write_side (limit_now w) owner (socket_bytes w) (writers w) (history w).

Definition socket_takes (w : write_side) (bs : bytes) : write_side :=
  mk_write_side (limit_now w) (lock_owner w) (socket_bytes w ++ bs) (writers w) (history w).

Definition takes_effect (w : write_side) (tid : nat) (op : write_op) (o : sendall_outcome)
    : write_side :=
  mk_write_side (limit_now w) (lock_owner w) (socket_bytes w) (writers w)
    (history w ++ [(tid, op, o)]).

(** [if len(payload) > self._max_payload_size]. *)
Definition over_limit (op : write_op) : result exn bool :=
  lift_error PyExn (py_int_gt (zlen (op_payload op)) (op_limit op)).

(** One action of a thread; [None] while it waits for the lock, or is through, or
    the socket cannot do what it is said to. *)
Definition writer_step (w : write_side) (tid : nat) (b : writer) (a : socket_act)
    : option (write_side * writer) :=
  match b with
  | Entering opcode sid payload =>
      let op := mk_write_op opcode sid payload (limit_now w) in
      Some match over_limit op with
           | Raise e => (takes_effect w tid op None, Wrote op (Raise e))
           | Ok true => (takes_effect w tid op None, Wrote op (Raise ProtocolError))
           | Ok false => (w, AtWriteLock op)
           end
  | AtWriteLock op =>
      match lock_owner w with
      | Some _ => None
      | None => Some (set_owner w (Some tid), Holding op)
      end
  | Holding op =>
      Some match write_frame (op_frame op) with
           | Raise e => (takes_effect w tid op None, Releasing op (Raise e))
           | Ok bs => (w, Sending op bs 0)
           end
  | Sending op bs n =>
      match a with
      | Takes k =>
          if bool_decide (0 < k <= length bs - n)%nat
          then Some (socket_takes w (take k (drop n bs)), Sending op bs (n + k))
          else None
      | Breaks e => Some (takes_effect w tid op (Some (e, n)), Releasing op (Raise e))
      | Returns =>
          if bool_decide (n = length bs)
          then Some (takes_effect w tid op None, Releasing op (Ok tt))
          else None
      end
  | Releasing op r => Some (set_owner w None, Wrote op r)
  | Wrote _ _ => None
  end.

(** What happens next: a call of [_write] begins, a thread advances, or a handshake
    sets the limit. *)
Inductive write_choice : Type :=
| WBegin (tid : nat) (opcode : Opcode) (sid : Z) (payload : bytes)
| WAdvance (tid : nat) (a : socket_act)
| WLimit (limit : pyval).

Definition write_choose (w : write_side) (ch : write_choice) : option write_side :=
  match ch with
  | WBegin tid opcode sid payload =>
      match writers w !! tid with
      | None => Some (set_writer w tid (Entering opcode sid payload))
      | Some _ => None
      end
  | WAdvance tid a =>
      match writers w !! tid with
      | Some b =>
          match writer_step w tid b a with
          | Some (w, b) => Some (set_writer w tid b)
          | None => None
          end
      | None => None
      end
  | WLimit limit =>
      Some (mk_write_side limit (lock_owner w) (socket_bytes w) (writers w) (history w))
  end.

Definition write_step (w w' : write_side) : Prop := exists ch, write_choose w ch = Some w'.

Definition write_reachable (w : write_side) : Prop := rtc write_step idle_socket w.

(** ** The specification *)

(** The same call as one action. *)
Definition atomic_write (m : mux) (op : write_op) (o : sendall_outcome) : mux * result exn unit :=
  mux_write (set_max_payload m (op_limit op)) (op_opcode op) (op_stream_id op) (op_payload op) o.

(** The connection after the calls of a history, one after the other. *)
Definition replay (h : list (nat * write_op * sendall_outcome)) : mux :=
  fold_left (fun m '(_, op, o) => fst (atomic_write m op o)) h (new_connection None).

(** The bytes of the frame being sent that the socket has taken. *)
Definition sending_bytes (b : writer) : bytes :=
  match b with Sending _ bs n => take n bs | _ => [] end.

Definition in_flight (w : write_side) : bytes :=
  match lock_owner w with
  | Some tid => match writers w !! tid with Some b => sending_bytes b | None => [] end
  | None => []
  end.

(** A thread between the acquisition of the lock and its release. *)
Definition critical (b : writer) : bool :=
  match b with Holding _ | Sending _ _ _ | Releasing _ _ => true | _ => false end.

(** The call a thread has made, and its outcome, once it has taken effect. *)
Definition decided (b : writer) : option (write_op * result exn unit) :=
  match b with Releasing op r | Wrote op r => Some (op, r) | _ => None end.

Definition committed (h : list (nat * write_op * sendall_outcome)) : list nat :=
  map (fun c => fst (fst c)) h.

(** ** The invariant *)

(** What is known of a thread: before its call has taken effect it is not in the
    history and its payload is within the limit it was compared to; afterwards it is
    there once, with the outcome the same call has as one action. *)
Definition took_effect (w : write_side) (tid : nat) (op : write_op) (r : result exn unit) : Prop :=
  exists pre o post, history w = pre ++ (tid, op, o) :: post
    /\ snd (atomic_write (replay pre) op o) = r.

Definition writer_ok (w : write_side) (tid : nat) (b : writer) : Prop :=
  match b with
  | Entering _ _ _ => tid ∉ committed (history w)
  | AtWriteLock op | Holding op =>
      (tid ∉ committed (history w)) /\ over_limit op = Ok false
  | Sending op bs n =>
      (tid ∉ committed (history w)) /\ over_limit op = Ok false
      /\ write_frame (op_frame op) = Ok bs /\ (n <= length bs)%nat
  | Releasing op r | Wrote op r => took_effect w tid op r
  end.

Record write_ok (w : write_side) : Prop := {
  ok_owner tid : lock_owner w = Some tid
    <-> exists b, writers w !! tid = Some b /\ critical b = true;
  ok_writer tid b : writers w !! tid = Some b -> writer_ok w tid b;
  ok_bytes : socket_bytes w = on_wire (sent (replay (history w))) ++ in_flight w;
  ok_committed : NoDup (committed (history w));
  ok_known tid : tid ∈ committed (history w) -> writers w !! tid <> None
}.

Lemma replay_snoc h tid op o :
  replay (h ++ [(tid, op, o)]) = fst (atomic_write (replay h) op o).
Proof. unfold replay. by rewrite fold_left_app. Qed.

Lemma committed_snoc h tid op o : committed (h ++ [(tid, op, o)]) = committed h ++ [tid].
Proof. unfold committed. by rewrite map_app. Qed.

Lemma on_wire_snoc ws e : on_wire (ws ++ [e]) = on_wire ws ++ entry_bytes e.
Proof. unfold on_wire. rewrite map_app, concat_app. cbn. by rewrite app_nil_r. Qed.

(** The three ways a call takes effect. *)
Lemma atomic_rejects m op e :
  (let* over := over_limit op in
   if over : bool then Raise ProtocolError else write_frame (op_frame op)) = Raise e ->
  forall o, snd (atomic_write m op o) = Raise e /\ sent (fst (atomic_write m op o)) = sent m.
Proof.
  intros E o. unfold atomic_write, mux_write, frame_to_write, over_limit, op_frame in *.
  cbn [max_payload_size set_max_payload]. by rewrite E.
Qed.

Lemma atomic_sends m op bs o :
  over_limit op = Ok false -> write_frame (op_frame op) = Ok bs ->
  snd (atomic_write m op o) = match o with Some (e, _) => Raise e | None => Ok tt end
  /\ sent (fst (atomic_write m op o))
     = sent m ++ [match o with Some (_, n) => Cut bs n | None => Whole bs end].
Proof.
  unfold over_limit. intros El Ew. unfold atomic_write, mux_write, frame_to_write.
  cbn [max_payload_size set_max_payload].
  destruct (py_int_gt _ _) as [[]|] eqn:Eg; simplify_eq/=; try discriminate.
  unfold op_frame in Ew. rewrite Ew. by destruct o as [[e n]|].
Qed.

Lemma took_effect_now w tid op o r :
  snd (atomic_write (replay (history w)) op o) = r ->
  took_effect (takes_effect w tid op o) tid op r.
Proof. intros E. exists (history w), o, []. by split. Qed.

Lemma took_effect_later w w' tid op r l :
  history w' = history w ++ l -> took_effect w tid op r -> took_effect w' tid op r.
Proof.
  intros E (pre & o & post & Eh & Er). exists pre, o, (post ++ l). by rewrite E, Eh, <- app_assoc.
Qed.

(** What another thread's call taking effect leaves of what is known. *)
Lemma writer_ok_other w w' tid b l :
  history w' = history w ++ l -> tid ∉ committed l -> writer_ok w tid b -> writer_ok w' tid b.
Proof.
  intros E Hl. assert (Hc : tid ∉ committed (history w) -> tid ∉ committed (history w')).
  { unfold committed in *. rewrite E, map_app, elem_of_app. tauto. }
  destruct b; cbn; try naive_solver; intros H; by eapply took_effect_later.
Qed.

(** ** Every step keeps it *)

Lemma owner_critical w tid b :
  write_ok w -> writers w !! tid = Some b -> (lock_owner w = Some tid <-> critical b = true).
Proof.
  intros Ho Et. rewrite (ok_owner _ Ho). split; [|by exists b].
  intros (b' & E & Hc). congruence.
Qed.

Lemma in_flight_owner w tid b :
  lock_owner w = Some tid -> in_flight (set_writer w tid b) = sending_bytes b.
Proof. intros E. unfold in_flight. cbn. by rewrite E, lookup_insert_eq. Qed.

Lemma in_flight_other w tid b :
  lock_owner w <> Some tid -> in_flight (set_writer w tid b) = in_flight w.
Proof.
  intros E. unfold in_flight. cbn. destruct (lock_owner w) as [tid'|]; [|done].
  rewrite lookup_insert_ne; [done|]. congruence.
Qed.

(** A thread goes from [b] to [b1]: what there is to check. *)
Lemma write_ok_advance w w1 tid b b1 l :
  write_ok w -> writers w !! tid = Some b -> writers w1 = writers w ->
  history w1 = history w ++ l ->
  (l = [] \/ ((tid ∉ committed (history w)) /\ exists op o, l = [(tid, op, o)])) ->
  writer_ok w1 tid b1 ->
  (lock_owner w1 = lock_owner w /\ critical b1 = critical b)
  \/ (lock_owner w = None /\ lock_owner w1 = Some tid /\ critical b1 = true)
  \/ (critical b = true /\ lock_owner w1 = None /\ critical b1 = false) ->
  socket_bytes w1 = on_wire (sent (replay (history w1))) ++ in_flight (set_writer w1 tid b1) ->
  write_ok (set_writer w1 tid b1).
Proof.
  intros Ho Et Ew Eh Hl Hb Hlock Hbytes. pose proof (owner_critical _ _ _ Ho Et) as Hoc.
  split; cbn [set_writer lock_owner socket_bytes writers history]; rewrite ?Ew; try done.
  - intros tid'. destruct (decide (tid' = tid)) as [->|Hne].
    + rewrite lookup_insert_eq. split.
      * intros E. exists b1. split; [done|].
        destruct Hlock as [[E1 ->]|[(_ & _ & ->)|(_ & E1 & _)]]; [apply Hoc; congruence|done|congruence].
      * intros (b' & [= <-] & Hc).
        destruct Hlock as [[-> E1]|[(_ & -> & _)|(_ & _ & E1)]]; [apply Hoc; congruence|done|congruence].
    + rewrite lookup_insert_ne by done. rewrite <- (ok_owner _ Ho).
      destruct Hlock as [[-> _]|[(-> & -> & _)|(Hc & -> & _)]]; [done|split; congruence|].
      apply Hoc in Hc. rewrite Hc. split; congruence.
  - intros tid' b' [[<- <-]|[Hne E]]%lookup_insert_Some; [done|].
    eapply (writer_ok_other w); [exact Eh| |by eapply (ok_writer _ Ho)].
    destruct Hl as [->|(_ & op & o & ->)]; [apply not_elem_of_nil|]. cbn.
    by rewrite list_elem_of_singleton.
  - unfold committed. rewrite Eh, map_app. fold (committed (history w)).
    destruct Hl as [->|(Hn & op & o & ->)]; cbn; [rewrite app_nil_r; apply Ho|].
    apply NoDup_app. split_and!; [apply Ho| |apply NoDup_singleton].
    intros x Hx ->%list_elem_of_singleton. done.
  - intros tid' Hin. destruct (decide (tid' = tid)) as [->|Hne].
    + by rewrite lookup_insert_eq.
    + rewrite lookup_insert_ne by done. apply (ok_known _ Ho).
      unfold committed in *. rewrite Eh, map_app in Hin. apply elem_of_app in Hin as [Hin|Hin]; [done|].
      destruct Hl as [->|(_ & op & o & ->)]; cbn in Hin; [by apply elem_of_nil in Hin|].
      by apply list_elem_of_singleton in Hin.
Qed.

(** A call that is refused before it sends anything. *)
Lemma write_ok_rejects w tid b b1 op e :
  write_ok w -> writers w !! tid = Some b -> tid ∉ committed (history w) ->
  (let* over := over_limit op in
   if over : bool then Raise ProtocolError else write_frame (op_frame op)) = Raise e ->
  decided b1 = Some (op, Raise e) -> critical b1 = critical b -> sending_bytes b = [] ->
  write_ok (set_writer (takes_effect w tid op None) tid b1).
Proof.
  intros Ho Et Hn Er Hd Hc Hs. destruct (atomic_rejects (replay (history w)) op e Er None) as [E1 E2].
  eapply write_ok_advance; [done|done|done|done|right; by eauto| |by left|].
  - destruct b1; simplify_eq/=; by apply took_effect_now.
  - cbn [socket_bytes takes_effect history]. rewrite replay_snoc, E2, (ok_bytes _ Ho). f_equal.
    assert (Hs1 : sending_bytes b1 = []) by (by destruct b1).
    destruct (decide (lock_owner w = Some tid)) as [El|El].
    + rewrite (in_flight_owner (takes_effect w tid op None)) by done. rewrite Hs1.
      unfold in_flight. by rewrite El, Et.
    + by rewrite (in_flight_other (takes_effect w tid op None)).
Qed.

(** A [sendall] that ends. *)
Lemma write_ok_sent w tid op bs n o :
  write_ok w -> writers w !! tid = Some (Sending op bs n) ->
  match o with Some (_, k) => k = n | None => n = length bs end ->
  write_ok (set_writer (takes_effect w tid op o) tid
              (Releasing op (match o with Some (e, _) => Raise e | None => Ok tt end))).
Proof.
  intros Ho Et Hn. destruct (ok_writer _ Ho _ _ Et) as (Hc & El & Ew & Hle).
  pose proof (proj2 (owner_critical _ _ _ Ho Et) eq_refl) as Hown.
  destruct (atomic_sends (replay (history w)) op bs o El Ew) as [E1 E2].
  eapply write_ok_advance; [done|done|done|done|right; by eauto| |by left|].
  - by apply took_effect_now.
  - rewrite in_flight_owner by done. cbn [socket_bytes takes_effect history sending_bytes].
    rewrite replay_snoc, E2, on_wire_snoc, (ok_bytes _ Ho), app_nil_r. f_equal.
    unfold in_flight. rewrite Hown, Et. cbn [sending_bytes].
    destruct o as [[e k]|]; cbn; subst; [done|by rewrite firstn_all].
Qed.

Lemma write_ok_writer_step w tid b a w1 b1 :
  write_ok w -> writers w !! tid = Some b -> writer_step w tid b a = Some (w1, b1) ->
  write_ok (set_writer w1 tid b1).
Proof.
  intros Ho Et E. pose proof (ok_writer _ Ho _ _ Et) as Hb.
  pose proof (owner_critical _ _ _ Ho Et) as Hoc.
  destruct b as [opcode sid payload|op|op|op bs n|op r|op r]; cbn [writer_step] in E; cbn in Hb.
  - destruct (over_limit _) as [[]|e] eqn:Eo; simplify_eq.
    + eapply write_ok_rejects; try done. by rewrite Eo.
    + apply (write_ok_advance w1 w1 _ (Entering opcode sid payload) _ []); try done;
        [by rewrite app_nil_r|by left|by left|].
      rewrite in_flight_other; [apply Ho|]. intros Hx. by apply Hoc in Hx.
    + eapply write_ok_rejects; try done. by rewrite Eo.
  - destruct (lock_owner w) eqn:El; simplify_eq.
    eapply (write_ok_advance w _ _ (AtWriteLock op) _ []); try done; cbn;
      [by rewrite app_nil_r|by left|by right; left|].
    rewrite (ok_bytes _ Ho). unfold in_flight. cbn. by rewrite El, lookup_insert_eq.
  - destruct Hb as [Hn Hlim]. pose proof (proj2 Hoc eq_refl) as Hown.
    destruct (write_frame (op_frame op)) as [bs|e] eqn:Ew; simplify_eq.
    + eapply (write_ok_advance w1 w1 _ (Holding op) _ []); try done; cbn;
        [by rewrite app_nil_r|by left|split_and!; [done..|lia]|by left|].
      rewrite in_flight_owner by done. rewrite (ok_bytes _ Ho). unfold in_flight. by rewrite Hown, Et.
    + eapply write_ok_rejects; try done. by rewrite Hlim.
  - destruct Hb as (Hn & Hlim & Ew & Hle). pose proof (proj2 Hoc eq_refl) as Hown. destruct a as [k|e|].
    + case_bool_decide as Hk; simplify_eq.
      eapply (write_ok_advance w _ _ (Sending op bs n) _ []); try done; cbn;
        [by rewrite app_nil_r|by left|split_and!; [done..|lia]|by left|].
      rewrite in_flight_owner by done. rewrite (ok_bytes _ Ho), <- app_assoc. f_equal.
      unfold in_flight. rewrite Hown, Et. cbn [sending_bytes].
      by rewrite <- take_take_drop.
    + simplify_eq. by apply (write_ok_sent w tid op bs n (Some (e, n))).
    + case_bool_decide; simplify_eq. by apply (write_ok_sent w tid op bs (length bs) None).
  - simplify_eq. pose proof (proj2 Hoc eq_refl) as Hown.
    eapply (write_ok_advance w _ _ (Releasing op r) _ []); try done; cbn;
      [by rewrite app_nil_r|by left|by right; right|].
    rewrite (ok_bytes _ Ho). unfold in_flight. cbn. by rewrite Hown, Et.
  - done.
Qed.

Lemma write_ok_step w w' : write_ok w -> write_step w w' -> write_ok w'.
Proof.
  intros Ho [ch E]. destruct ch as [tid opcode sid payload|tid a|limit]; cbn [write_choose] in E.
  - destruct (writers w !! tid) eqn:Et; simplify_eq.
    assert (Hn : tid ∉ committed (history w)) by (intros Hin; by apply (ok_known _ Ho) in Hin).
    assert (Hown : lock_owner w <> Some tid).
    { intros (b & E & _)%(ok_owner _ Ho). congruence. }
    split; cbn [set_writer lock_owner socket_bytes writers history]; try apply Ho.
    + intros tid'. rewrite (ok_owner _ Ho). destruct (decide (tid' = tid)) as [->|Hne].
      * rewrite lookup_insert_eq. split; [intros (b & E & _); congruence|].
        intros (b & [= <-] & Hc). done.
      * by rewrite lookup_insert_ne.
    + intros tid' b [[<- <-]|[Hne E]]%lookup_insert_Some; [done|].
      exact (ok_writer _ Ho _ _ E).
    + rewrite in_flight_other by done. apply Ho.
    + intros tid' Hin. destruct (decide (tid' = tid)) as [->|Hne]; [by rewrite lookup_insert_eq|].
      rewrite lookup_insert_ne by done. by apply (ok_known _ Ho).
  - destruct (writers w !! tid) as [b|] eqn:Et; [|done].
    destruct (writer_step w tid b a) as [[w1 b1]|] eqn:Eb; simplify_eq.
    by eapply write_ok_writer_step.
  - simplify_eq. split; try apply Ho.
Qed.

Lemma write_reachable_ok w : write_reachable w -> write_ok w.
Proof.
  intros Hr. refine (rtc_ind_r write_ok _ _ _ w Hr).
  - split; cbn; try done.
    + intros tid. split; [done|]. intros (b & E & _). by rewrite lookup_empty in E.
    + constructor.
    + intros tid Hin. by apply elem_of_nil in Hin.
  - intros w1 w2 _ Hst Ho. by eapply write_ok_step.
Qed.

(** ** The properties *)

(** C14: a [_write] is one action, however its pieces interleave with those of other
    threads. In every reachable state the bytes the socket has taken are those of
    the calls that have taken effect, made one after the other as
    [Mux.mux_write] makes them - each its whole frame, or the prefix its [sendall]
    had sent when it raised - followed by the part of one more frame that the
    holder of the write lock has sent so far; every call that has returned or
    raised took effect exactly once and did so with the outcome [mux_write] has
    under the payload limit that was in force when it was made;
    and the lock is held exactly between its acquisition and its release, by one
    thread at a time, whichever way that thread leaves. *)
Theorem writes_are_atomic w :
  write_reachable w ->
  socket_bytes w = on_wire (sent (replay (history w))) ++ in_flight w
  /\ (forall tid b op r, writers w !! tid = Some b -> decided b = Some (op, r) ->
        exists pre o post, history w = pre ++ (tid, op, o) :: post
          /\ snd (atomic_write (replay pre) op o) = r)
  /\ NoDup (committed (history w))
  /\ (forall tid, lock_owner w = Some tid
        <-> exists b, writers w !! tid = Some b /\ critical b = true)
  /\ (in_flight w <> [] -> exists tid op bs n,
        lock_owner w = Some tid /\ writers w !! tid = Some (Sending op bs n)
        /\ (tid ∉ committed (history w)) /\ write_frame (op_frame op) = Ok bs
        /\ in_flight w = take n bs).
Proof.
  intros Ho%write_reachable_ok. split_and!; try apply Ho.
  - intros tid b op r Et Hd. pose proof (ok_writer _ Ho _ _ Et) as Hb.
    destruct b; simplify_eq/=; exact Hb.
  - unfold in_flight. destruct (lock_owner w) as [tid|] eqn:El; [|done].
    destruct (writers w !! tid) as [b|] eqn:Et; [|done]. intros Hne.
    destruct b as [| | |op bs n| |]; try done.
    destruct (ok_writer _ Ho _ _ Et) as (Hn & _ & Ew & _). by exists tid, op, bs, n.
Qed.

(** Two threads at once: the second waits while the first sends in two pieces and
    is cut in the third, and then sends its own frame. *)
Definition write_play (w : write_side) (schedule : list write_choice) : write_side :=
  fold_left (fun w ch => default w (write_choose w ch)) schedule w.

Lemma write_play_reachable w schedule : write_reachable w -> write_reachable (write_play w schedule).
Proof.
  unfold write_play. revert w. induction schedule as [|ch l IH]; intros w Hr; [done|].
  cbn [fold_left]. apply IH. destruct (write_choose w ch) as [w'|] eqn:E; [|done].
  eapply rtc_r; [exact Hr|by exists ch].
Qed.

Definition two_writers : write_side :=
  write_play idle_socket
    [WBegin 0 RECALL_REQ 1 [x61]; WBegin 1 RECALL_REQ 3 [x62];
     WAdvance 0 Returns; WAdvance 1 Returns; WAdvance 0 Returns; WAdvance 1 Returns;
     WAdvance 0 Returns; WAdvance 0 (Takes 7); WAdvance 1 Returns; WAdvance 0 (Takes 5);
     WAdvance 0 (Breaks OSError); WAdvance 1 Returns; WAdvance 0 Returns;
     WAdvance 1 Returns; WAdvance 1 Returns; WAdvance 1 (Takes 33); WAdvance 1 Returns].

Lemma writes_are_atomic_witness :
  writers two_writers !! 0%nat
    = Some (Wrote (mk_write_op RECALL_REQ 1 [x61] (PInt MAX_PAYLOAD_BYTES)) (Raise OSError))
  /\ lock_owner two_writers = Some 1%nat
  /\ socket_bytes two_writers = on_wire (sent (replay (history two_writers))) ++ in_flight two_writers
  /\ length (socket_bytes two_writers) = (12 + 33)%nat.
Proof.
  split; [vm_compute; reflexivity|]. split; [vm_compute; reflexivity|].
  split; [|vm_compute; reflexivity].
  exact (proj1 (writes_are_atomic two_writers (write_play_reachable _ _ (rtc_refl _ _)))).
Defined.
