(* ===== verification/AioMux.v ===== *)
(** * AioMux

    [aio/mux.py] and [aio/transport.py]: the multiplexed connection on an event
    loop. A task runs undisturbed from one [await] to the next, so a step here is
    everything between two of them: to the write lock, from the lock to the
    [drain], from the drain to the queue, and one item of the queue. A task can
    also be cancelled wherever it waits, the connection can be closed under the
    waiters, and the reader itself waits for the write lock when it answers a
    heartbeat. The control states are those of [Mux], and [abstraction] forgets
    the lock, the drain and the cancellation. *)

From S2P Require Import Prelude Frame PyFloat PyValue PyArith PyCompare Cbor WireCodec Opcode.
From S2P Require Import WireHandshake WireListing WireEvents Errors Transport Mux.
From stdpp Require Import gmap.
#[local] Open Scope Z_scope.

(** ** State *)

Section AsyncConnection.
Context `{Cbor2}.

(** A coroutine of the connection: at one of the waits of [Mux.thread] or
    finished; waiting for [_write_lock] with a frame to write; in [drain] with
    the lock held, the operation to go on as [t]; or a [subscribe] that raised
    after its frame was written. *)
Inductive task : Type :=
| Plain (t : thread)
| AtLock (t : thread) (opcode : Opcode) (payload : bytes)
| AtDrain (t : thread)
| SubscribeFailed (s : Subscription) (e : exn).

(** The owner of [_write_lock]. *)
Inductive holder : Type := HeldByTask (tid : nat) | HeldByReader.

(** Where the reader task stands in [_pong]. *)
Inductive pong_state : Type := NoPong | PongAtLock (payload : bytes) | PongAtDrain.

(** An [AsyncMuxConnection], the tasks using it and the histories of
    [Mux.system]; [sent] holds the frames given to [writer.write]. *)
Record aio_system : Type := mk_aio {
  aconn : mux;
  write_lock : option holder;
  pong : pong_state;
  tasks : gmap nat task;
  aio_arrived : list Frame;
  aio_issued : list Z
}.

Definition aio_start (timeout : option pyfloat) : aio_system :=
  mk_aio (new_connection timeout) None NoPong ∅ [] [].

(** ** Operations of a task *)

(** The operation raises [e]: the [finally] of a request or of the handshake, and
    the [except BaseException] of [subscribe], drop the route first. *)
Definition abandon (m : mux) (t : thread) (e : exn) : mux * task :=
  match t with
  | Calling c => (m, Plain (Finished c (Raise e)))
  | Subscribed s _ => (deregister m (sub_stream_id s), SubscribeFailed s e)
  | _ =>
      match running t with
      | Some (c, sid, _) => (deregister m sid, Plain (Finished c (Raise e)))
      | None => (m, Plain t)
      end
  end.

(** [_write] up to its lock, with the payload evaluated before it. *)
Definition write_to_lock (m : mux) (t : thread) (frame : result exn (Opcode * bytes)) : mux * task :=
  match (let* '(opcode, payload) := frame in
         let* over := lift_error PyExn (py_int_gt (zlen payload) (max_payload_size m)) in
         if over : bool then Raise ProtocolError else Ok (opcode, payload)) with
  | Raise e => abandon m t e
  | Ok (opcode, payload) => (m, AtLock t opcode payload)
  end.

(** The stream id a thread writes on. *)
Definition write_stream (t : thread) : Z :=
  match running t with Some (_, sid, _) => sid | None => HANDSHAKE_STREAM_ID end.

(** The thread once its frame is written. *)
Definition written (t : thread) : thread :=
  match t with
  | Registered c sid q => after_write c sid q
  | SendAuth c _ welcome sid q => AwaitAuthOk c welcome sid q
  | _ => t
  end.

(** [write_frame] up to its [drain]; [send] is the exception of [writer.write], if
    it raises. *)
Definition write_to_drain (m : mux) (t : thread) (opcode : Opcode) (payload : bytes)
    (send : option exn) : result exn mux :=
  let* bs := write_frame (mk_Frame (opcode_value opcode) FLAG_EOS (write_stream t) payload) in
  match send with
  | Some e => Raise e
  | None => Ok (set_sent m (sent m ++ [Whole bs]))
  end.

(** After the [drain]: [send_bye] returns, every other operation goes on to wait. *)
Definition drained (t : thread) : task :=
  match t with
  | Calling c => Plain (Finished c (Ok AnswerNone))
  | _ => Plain t
  end.

(** Registering on a stream and going on to the first write. *)
Definition open_stream (m : mux) (c : call) (sid : Z) : mux * task :=
  match register m sid with
  | Raise e => (m, Plain (Finished c (Raise e)))
  | Ok (m, q) => write_to_lock m (Registered c sid q) (call_frame c)
  end.

(** An operation up to its first [await]: [_check_loop], the stream id, the route
    and the payload limit. *)
Definition begin_call (m : mux) (c : call) (same_loop : bool) : mux * task :=
  match c with
  | CallRequest _ _ _ | CallSubscribe _ =>
      if same_loop
      then let '(sid, m) := take_stream_id m in open_stream m c sid
      else (m, Plain (Finished c (Raise ProtocolError)))
  | CallOnConnection _ _ =>
      if same_loop
      then open_stream m c HANDSHAKE_STREAM_ID
      else (m, Plain (Finished c (Raise ProtocolError)))
  | CallHandshake hello _ =>
      match offered_versions hello with
      | Raise e => (m, Plain (Finished c (Raise e)))
      | Ok _ => open_stream m c HANDSHAKE_STREAM_ID
      end
  | CallBye => write_to_lock m (Calling c) (call_frame c)
  end.

(** The stream ids it hands out. *)
Definition ids_begun (m : mux) (c : call) (same_loop : bool) : list Z :=
  if same_loop then ids_taken (Calling c) m else [].

(** [_next]: [wait_for] with a deadline of zero or less expires at once, and an
    expiry can win against an item that is already there. *)
Definition aio_next (m : mux) (q : nat) (timeout : option pyfloat) (expired : bool)
    : next_outcome :=
  let deadline := match timeout with None => request_timeout m | Some _ => timeout end in
  if match deadline with Some d => float_leb d (FZero false) || expired | None => false end
  then NextRaise (BrainTimeout deadline) m
  else
    match queues m !! q with
    | Some (Arrived frame :: rest) => NextFrame frame (set_queues m (<[q := rest]> (queues m)))
    | Some (Closed e :: rest) => NextRaise e (set_queues m (<[q := rest]> (queues m)))
    | _ => NextBlocks
    end.

(** From a received item to the next [await] or the end. *)
Definition settle (m : mux) (t : thread) : mux * task :=
  match t with
  | Leaving c sid q r => (deregister m sid, Plain (Finished c r))
  | SendAuth _ auth _ _ _ =>
      write_to_lock m t
        (let* payload := lift_error PyExn (encode_payload auth) in Ok (AUTH, payload))
  | Unrouting s returned r =>
      (deregister m (sub_stream_id s), Plain (Subscribed s (returned ++ option_list r)))
  | _ => (m, Plain t)
  end.

(** [AsyncSubscription.next], up to its [_deregister]. *)
Definition aio_subscription_next (m : mux) (s : Subscription) (returned : list next_return)
    (timed_out : bool) : option (mux * thread) :=
  if sub_ended s then Some (m, Subscribed s (returned ++ [Ok None]))
  else
    match aio_next m (sub_queue s) None timed_out with
    | NextBlocks => None
    | NextRaise ConnectionClosed m =>
        Some (m, Unrouting (end_subscription s) returned (Some (Ok None)))
    | NextRaise e m => Some (m, Subscribed s (returned ++ [Raise e]))
    | NextFrame frame m =>
        Some (m, if ends_stream frame
                 then Unrouting (end_subscription s) returned (Some (event_of frame))
                 else Subscribed s (returned ++ [event_of frame]))
    end.

(** What a waiting operation does with the item or the expiry it waits for. *)
Definition receive (m : mux) (t : thread) (e : env) : option (mux * thread) :=
  match t with
  | Collecting c sid q frames =>
      match aio_next m q (call_timeout c) (expired e) with
      | NextBlocks => None
      | NextRaise x m => Some (m, Leaving c sid q (Raise x))
      | NextFrame frame m => Some (m, collect c sid q frames frame)
      end
  | AwaitWelcome c hello auth sid q =>
      match aio_next m q None (expired e) with
      | NextBlocks => None
      | NextRaise x m => Some (m, Leaving c sid q (Raise x))
      | NextFrame frame m =>
          Some (m, match accept_welcome hello frame with
                   | Raise x => Leaving c sid q (Raise x)
                   | Ok welcome => SendAuth c auth welcome sid q
                   end)
      end
  | AwaitAuthOk c welcome sid q =>
      match aio_next m q None (expired e) with
      | NextBlocks => None
      | NextRaise x m => Some (m, Leaving c sid q (Raise x))
      | NextFrame frame m =>
          match accept_auth_ok frame with
          | Raise x => Some (m, Leaving c sid q (Raise x))
          | Ok auth_ok =>
              Some (set_max_payload m (negotiated_max welcome),
                    Leaving c sid q (Ok (AnswerHandshake welcome auth_ok)))
          end
      end
  | Subscribed s returned =>
      if closes e then Some (m, subscription_close s returned)
      else aio_subscription_next m s returned (expired e)
  | _ => None
  end.

(** [task.cancel()] where the task waits: [CancelledError] is raised there. A
    cancelled [next] of a subscription leaves it open, with its queue as it was. *)
Definition cancel_task (m : mux) (k : task) : option (mux * task) :=
  match k with
  | Plain (Subscribed s returned) =>
      if sub_ended s then None
      else Some (m, Plain (Subscribed s (returned ++ [Raise CancelledError])))
  | Plain t =>
      match running t with
      | Some _ => Some (abandon m t CancelledError)
      | None => None
      end
  | AtLock t _ _ | AtDrain t => Some (abandon m t CancelledError)
  | SubscribeFailed _ _ => None
  end.

(** ** The reader task *)

(** [aio/transport.py]'s [read_frame]: what the awaited [reader.read] does takes
    the place of [sock.recv]. *)
Fixpoint aio_read_frame (events : list recv_event) (buf : bytes) : read_outcome :=
  match decode_frame buf with
  | Ok (frame, rest) => ReadFrame frame (drop (length buf - length rest) buf) events
  | Raise (TruncatedFrame _ _) =>
      match events with
      | [] => ReadBlocked buf
      | RecvRaise e :: events => ReadRaise e buf events
      | Recv chunk :: events =>
          match chunk with
          | [] => ReadRaise ConnectionClosed buf events
          | _ => aio_read_frame events (buf ++ chunk)
          end
      end
  | Raise e => ReadRaise (FrameExn e) buf events
  end.

(** [_pong] up to its lock: the payload it will write, if it gets that far. *)
Definition pong_payload (m : mux) (frame : Frame) (time_ns : Z) : result exn bytes :=
  let server_ts :=
    match decode_payload (T := ServerPingResponse) (frame_payload frame) with
    | Ok p => ServerPingResponse_server_timestamp_unix_nanos p
    | Raise _ => PInt 0
    end in
  let* payload := lift_error PyExn (encode_payload (mk_ClientPongRequest server_ts (PInt time_ns))) in
  let* over := lift_error PyExn (py_int_gt (zlen payload) (max_payload_size m)) in
  if over : bool then Raise ProtocolError else Ok payload.

(** [q.put_nowait(frame)] for the queue of the frame's stream, if it has one. *)
Definition put_nowait (m : mux) (frame : Frame) : mux :=
  match routes m !! frame_stream_id frame with
  | None => m
  | Some q => set_queues m (put (queues m) q (Arrived frame))
  end.

(** [is_closed]. *)
Definition aio_is_closed (s : aio_system) : bool :=
  match closed_error (aconn s) with
  | Some _ => true
  | None => match reader (aconn s) with Stopped => true | _ => false end
  end.

(** ** The system *)

(** What happens next: a call begins; a task acquires the free lock and writes;
    its drain ends; a waiting task receives; a task is cancelled; the reader
    reads, acquires the lock for a heartbeat answer, ends its drain, or takes the
    cancellation [aclose] left it; the connection is closed. *)
Inductive aio_choice : Type :=
| ABegin (tid : nat) (c : call) (same_loop : bool)
| AAcquire (tid : nat) (refused : option exn)
| ADrained (tid : nat) (failed : option exn)
| AReceive (tid : nat) (e : env)
| ACancel (tid : nat)
| ARead (events : list recv_event) (time_ns : Z)
| APongAcquire (refused : option exn)
| APongDrained (failed : option exn)
| AReaderCancelled
| AClose.

(** The state with the connection, the lock and one task changed. *)
Definition with_task (s : aio_system) (lock : option holder) (tid : nat) (mk : mux * task)
    (ids : list Z) : aio_system :=
  mk_aio (fst mk) lock (pong s) (<[tid := snd mk]> (tasks s)) (aio_arrived s) (aio_issued s ++ ids).

Definition with_reader (s : aio_system) (m : mux) (lock : option holder) (p : pong_state)
    (frames : list Frame) : aio_system :=
  mk_aio m lock p (tasks s) (aio_arrived s ++ frames) (aio_issued s).

Definition task_choose (s : aio_system) (ch : aio_choice) : option aio_system :=
  match ch with
  | ABegin tid c same_loop =>
      match tasks s !! tid with
      | None => Some (with_task s (write_lock s) tid (begin_call (aconn s) c same_loop)
                        (ids_begun (aconn s) c same_loop))
      | Some _ => None
      end
  | AAcquire tid refused =>
      match tasks s !! tid, write_lock s with
      | Some (AtLock t opcode payload), None =>
          Some (match write_to_drain (aconn s) t opcode payload refused with
                | Ok m => with_task s (Some (HeldByTask tid)) tid (m, AtDrain (written t)) []
                | Raise e => with_task s None tid (abandon (aconn s) t e) []
                end)
      | _, _ => None
      end
  | ADrained tid failed =>
      match tasks s !! tid with
      | Some (AtDrain t) =>
          Some (with_task s None tid (match failed with
                                      | None => (aconn s, drained t)
                                      | Some e => abandon (aconn s) t e
                                      end) [])
      | _ => None
      end
  | AReceive tid e =>
      match tasks s !! tid with
      | Some (Plain t) =>
          match receive (aconn s) t e with
          | Some (m, t) => Some (with_task s (write_lock s) tid (settle m t) [])
          | None => None
          end
      | _ => None
      end
  | ACancel tid =>
      match tasks s !! tid with
      | Some k =>
          match cancel_task (aconn s) k with
          | Some mk => Some (with_task s (match k with AtDrain _ => None | _ => write_lock s end)
                               tid mk [])
          | None => None
          end
      | None => None
      end
  | _ => None
  end.

Definition reader_choose (s : aio_system) (ch : aio_choice) : option aio_system :=
  match ch with
  | ARead events time_ns =>
      match reader (aconn s), pong s with
      | Reading, NoPong =>
          match aio_read_frame events (read_buf (aconn s)) with
          | ReadFrame frame buf [] =>
              let m := set_read_buf (aconn s) buf in
              Some (if is_opcode frame SERVER_PING
                    then with_reader s m (write_lock s)
                           (match pong_payload m frame time_ns with
                            | Ok payload => PongAtLock payload
                            | Raise _ => NoPong
                            end) []
                    else with_reader s (put_nowait m frame) (write_lock s) NoPong [frame])
          | ReadRaise e buf [] =>
              Some (with_reader s (fail_all (set_read_buf (aconn s) buf) e) (write_lock s) NoPong [])
          | _ => None
          end
      | _, _ => None
      end
  | APongAcquire refused =>
      match reader (aconn s), pong s, write_lock s with
      | Reading, PongAtLock payload, None =>
          Some (match (let* bs := write_frame (mk_Frame (opcode_value CLIENT_PONG) FLAG_EOS
                                                 HANDSHAKE_STREAM_ID payload) in
                       match refused with
                       | Some e => Raise e
                       | None => Ok (set_sent (aconn s) (sent (aconn s) ++ [Whole bs]))
                       end) with
                | Ok m => with_reader s m (Some HeldByReader) PongAtDrain []
                | Raise _ => with_reader s (aconn s) None NoPong []
                end)
      | _, _, _ => None
      end
  | APongDrained _ =>
      match reader (aconn s), pong s with
      | Reading, PongAtDrain => Some (with_reader s (aconn s) None NoPong [])
      | _, _ => None
      end
  | AReaderCancelled =>
      match reader (aconn s), pong s with
      | Stopped, PongAtLock _ => Some (with_reader s (aconn s) (write_lock s) NoPong [])
      | Stopped, PongAtDrain => Some (with_reader s (aconn s) None NoPong [])
      | _, _ => None
      end
  | AClose => Some (with_reader s (fail_all (aconn s) ConnectionClosed) (write_lock s) (pong s) [])
  | _ => None
  end.

Definition aio_choose (s : aio_system) (ch : aio_choice) : option aio_system :=
  match ch with
  | ABegin _ _ _ | AAcquire _ _ | ADrained _ _ | AReceive _ _ | ACancel _ => task_choose s ch
  | _ => reader_choose s ch
  end.

Definition aio_step (s s' : aio_system) : Prop := exists ch, aio_choose s ch = Some s'.

Definition aio_reachable (timeout : option pyfloat) (s : aio_system) : Prop :=
  rtc aio_step (aio_start timeout) s.

(** A schedule, its impossible choices skipped. *)
Definition aio_play (s : aio_system) (schedule : list aio_choice) : aio_system :=
  fold_left (fun s ch => default s (aio_choose s ch)) schedule s.

(** ** The connection underneath *)

(** The thread of [Mux] a task is. *)
Definition abs_task (k : task) : thread :=
  match k with
  | Plain t | AtLock t _ _ | AtDrain t => t
  | SubscribeFailed s _ => Subscribed (end_subscription s) []
  end.

Definition abstraction (s : aio_system) : system :=
  mk_system (aconn s) (abs_task <$> tasks s) (aio_arrived s) (aio_issued s).
End AsyncConnection.
