(* ===== verification/AioMuxSafety.v ===== *)
(** * AioMuxSafety

    The asyncio connection of [AioMux] against the transitions of [MuxMoves]:
    every choice of the event loop is a sequence of transitions of the connection
    underneath, so the invariants of [MuxSafety] hold of it as they do of the
    threads; and the write lock is held by exactly the task, or the reader, that
    stands between its write and the end of its drain. *)

From S2P Require Import Prelude Frame PyFloat PyValue PyArith PyCompare Cbor WireCodec Opcode.
From S2P Require Import WireHandshake WireListing WireEvents Errors Transport Mux MuxMoves MuxSafety.
From S2P Require Import MuxLiveness AioMux.
From stdpp Require Import gmap.
#[local] Open Scope Z_scope.

Section AsyncSafety.
Context `{Cbor2}.

(** ** Moves of one task *)

(** A move that hands out no stream id. *)
Definition plain_move (x y : mux * thread) : Prop :=
  moves (fst x) (snd x) (fst y) (snd y) /\ op_calling (snd x) = false.

Definition runs (m : mux) (t : thread) (mk : mux * task) : Prop :=
  rtc plain_move (m, t) (fst mk, abs_task (snd mk)).

Lemma runs_transitions s tid t x :
  rtc plain_move (conn s, t) x -> threads s !! tid = Some t ->
  rtc transition s (mk_system (fst x) (<[tid := snd x]> (threads s)) (arrived s) (issued s)).
Proof.
  intros Hr. remember (conn s, t) as y eqn:Ey. revert s t Ey.
  induction Hr as [x|y z x [Hm Hc] _ IH]; intros s t -> Ht.
  - cbn [fst snd]. rewrite insert_id by done. by destruct s.
  - cbn [fst snd] in *. destruct z as [m' t'].
    eapply rtc_l; [by eapply tr_thread|]. rewrite ids_taken_op, Hc, app_nil_r. cbn [fst snd].
    pose proof (IH (mk_system m' (<[tid := t']> (threads s)) (arrived s) (issued s)) t' eq_refl) as Hx.
    cbn [threads arrived issued] in Hx. rewrite insert_insert_eq in Hx. apply Hx.
    apply lookup_insert_eq.
Qed.

(** Where an operation can stand when it fails: inside its [try], in a [subscribe]
    that has written, or in [send_bye]. *)
Inductive can_fail : thread -> Prop :=
| fail_running t c sid q : running t = Some (c, sid, q) -> can_fail t
| fail_subscribe s : sub_ended s = false -> can_fail (Subscribed s [])
| fail_bye : can_fail (Calling CallBye).

Lemma running_not_calling t c sid q : running t = Some (c, sid, q) -> op_calling t = false.
Proof. by destruct t. Qed.

Lemma abandon_running m t c sid q e :
  running t = Some (c, sid, q) -> abandon m t e = (deregister m sid, Plain (Finished c (Raise e))).
Proof. destruct t; intros E; by simplify_eq/=. Qed.

Lemma abandon_runs m t e : can_fail t -> runs m t (abandon m t e).
Proof.
  destruct 1 as [t c sid q E|s E|].
  - rewrite (abandon_running _ _ _ _ _ _ E).
    apply rtc_l with (m, Leaving c sid q (Raise e)).
    { split; [by eapply moves_quiet, quiet_fail|by eapply running_not_calling]. }
    apply rtc_once. split; [apply moves_leave|done].
  - apply rtc_l with (m, Unrouting (end_subscription s) [] None).
    { split; [apply moves_quiet, quiet_close|done]. }
    apply rtc_once. split; [|done]. apply (moves_unroute m (end_subscription s) [] None).
  - apply rtc_once. split; [by apply moves_quiet, quiet_refuse|done].
Qed.

Lemma write_to_lock_runs m t frame : can_fail t -> runs m t (write_to_lock m t frame).
Proof.
  intros Hf. unfold write_to_lock. destruct (let* ' _ := _ in _) as [[o p]|e].
  - apply rtc_refl.
  - by apply abandon_runs.
Qed.

Lemma open_stream_runs m c sid : runs m (Identified c sid) (open_stream m c sid).
Proof.
  unfold open_stream, register. destruct (closed_error m) as [e|] eqn:Ec.
  - apply rtc_once. split; [by apply moves_closed|done].
  - apply rtc_l with (registered m sid, Registered c sid (next_queue m)).
    { split; [by apply moves_register|done]. }
    apply write_to_lock_runs. by econstructor.
Qed.

Lemma begin_call_runs m c same_loop :
  op_call c = false -> runs m (Calling c) (begin_call m c same_loop).
Proof.
  intros Hc. assert (Hb : plain_move (m, Calling c) (m, Identified c HANDSHAKE_STREAM_ID)).
  { split; [by apply moves_quiet, quiet_begin|done]. }
  assert (Hr : forall e, runs m (Calling c) (m, Plain (Finished c (Raise e)))).
  { intros e. apply rtc_once. split; [by apply moves_quiet, quiet_refuse|done]. }
  destruct c; try done; cbn [begin_call].
  - destruct same_loop; [|apply Hr]. eapply rtc_l; [done|]. apply open_stream_runs.
  - destruct (offered_versions hello); [|apply Hr]. eapply rtc_l; [done|]. apply open_stream_runs.
  - apply write_to_lock_runs. constructor.
Qed.

Lemma settle_runs m t : op_calling t = false -> runs m t (settle m t).
Proof.
  intros Hc. destruct t; try apply rtc_refl; cbn [settle].
  - apply write_to_lock_runs. by econstructor.
  - apply rtc_once. split; [apply moves_leave|done].
  - apply rtc_once. split; [apply moves_unroute|done].
Qed.

(** A wait of the event loop takes an item, expires, or goes on. *)
Lemma aio_next_cases m q timeout ex :
  match aio_next m q timeout ex with
  | NextFrame f m' =>
      exists rest, queues m !! q = Some (Arrived f :: rest) /\ m' = pop m q rest
  | NextRaise e m' =>
      (m' = m /\ e <> ConnectionClosed)
      \/ (exists rest, queues m !! q = Some (Closed e :: rest) /\ m' = pop m q rest)
  | NextBlocks => True
  end.
Proof.
  unfold aio_next. repeat case_match; simplify_eq; eauto; by left.
Qed.

Lemma receive_moves m t e m' t' :
  receive m t e = Some (m', t') -> moves m t m' t' /\ op_calling t' = false.
Proof.
  intros E. destruct t as [c|c sid|c sid q|c sid q fs|c hello auth sid q|c auth w sid q
    |c w sid q|c sid q r|c r|s rs|s rs r]; try done; cbn [receive] in E.
  - pose proof (aio_next_cases m q (call_timeout c) (expired e)) as Hn.
    destruct (aio_next _ _ _ _); simplify_eq.
    + destruct Hn as (rest & Eq & ->).
      split; [eapply moves_frame; [done|done|constructor]|]. unfold collect. by repeat case_match.
    + split; [|done]. destruct Hn as [[-> Hne]|(rest & Eq & ->)]; [apply moves_quiet; by econstructor|].
      eapply moves_sentinel; [done|done|by econstructor].
  - pose proof (aio_next_cases m q None (expired e)) as Hn.
    destruct (aio_next _ _ _ _); simplify_eq.
    + destruct Hn as (rest & Eq & ->). split; [|by case_match].
      eapply moves_frame; [done|done|]. case_match; by econstructor.
    + split; [|done]. destruct Hn as [[-> Hne]|(rest & Eq & ->)]; [apply moves_quiet; by econstructor|].
      eapply moves_sentinel; [done|done|by econstructor].
  - pose proof (aio_next_cases m q None (expired e)) as Hn.
    destruct (aio_next _ _ _ _); simplify_eq.
    + destruct Hn as (rest & Eq & ->).
      case_match; simplify_eq; (split; [|done]); [by eapply moves_auth_ok|].
      eapply moves_frame; [done|done|by econstructor].
    + split; [|done]. destruct Hn as [[-> Hne]|(rest & Eq & ->)]; [apply moves_quiet; by econstructor|].
      eapply moves_sentinel; [done|done|by econstructor].
  - destruct (closes e); simplify_eq; [split; [apply moves_quiet, quiet_close|done]|].
    unfold aio_subscription_next in E. destruct (sub_ended s) eqn:Es; simplify_eq.
    { split; [by apply moves_quiet, quiet_ended|done]. }
    pose proof (aio_next_cases m (sub_queue s) None (expired e)) as Hn.
    destruct (aio_next _ _ _ _); simplify_eq.
    + destruct Hn as (rest & Eq & ->). split; [|by case_match].
      eapply moves_frame; [done|done|]. destruct (ends_stream frame) eqn:Ee; by constructor.
    + split; [|by case_match; simplify_eq].
      destruct Hn as [[-> Hne]|(rest & Eq & ->)]; case_match; simplify_eq;
        first [by apply moves_quiet, quiet_next_raises
              | eapply moves_sentinel; [done|done|by constructor]
              | idtac].
Qed.

(** ** What a task at the lock or in its drain is doing *)

(** A task that stands at a queue, or has ended. *)
Definition waits (t : thread) : bool :=
  match t with
  | Collecting _ _ _ _ | AwaitWelcome _ _ _ _ _ | AwaitAuthOk _ _ _ _ | Subscribed _ _
  | Finished _ _ => true
  | _ => false
  end.

Inductive task_ok : task -> Prop :=
| ok_plain t : waits t = true -> task_ok (Plain t)
| ok_subscribe_failed s e : task_ok (SubscribeFailed s e)
| ok_lock_first c sid q o p :
    call_frame c = Ok (o, p) -> task_ok (AtLock (Registered c sid q) o p)
| ok_lock_auth c auth w sid q p : task_ok (AtLock (SendAuth c auth w sid q) AUTH p)
| ok_lock_bye p : task_ok (AtLock (Calling CallBye) BYE p)
| ok_drain t : can_fail t -> waits t = true \/ t = Calling CallBye -> task_ok (AtDrain t).

#[local] Hint Constructors task_ok : core.

Lemma task_ok_can_fail t k : task_ok k -> k = AtDrain t \/ (exists o p, k = AtLock t o p) -> can_fail t.
Proof.
  intros Hk [->|(o & p & ->)]; inversion Hk; subst; try done; by econstructor.
Qed.

Lemma abandon_ok m t e : can_fail t -> task_ok (snd (abandon m t e)).
Proof.
  destruct 1 as [t c sid q E|s E|]; [|simpl; auto..].
  rewrite (abandon_running _ _ _ _ _ _ E). simpl. auto.
Qed.

Lemma write_to_lock_ok m t frame :
  can_fail t -> (forall o p, frame = Ok (o, p) -> task_ok (AtLock t o p)) ->
  task_ok (snd (write_to_lock m t frame)).
Proof.
  intros Hc Hf. unfold write_to_lock. destruct (let* ' _ := _ in _) as [[o p]|e] eqn:E.
  - inv_binds. destruct a as [o' p']. destruct (py_int_gt _ _) as [[]|]; simplify_eq/=; auto.
  - by apply abandon_ok.
Qed.

Lemma open_stream_ok m c sid : task_ok (snd (open_stream m c sid)).
Proof.
  unfold open_stream. destruct (register m sid) as [[m' q]|e]; [|simpl; auto].
  apply write_to_lock_ok; [by econstructor|auto].
Qed.

Lemma begin_call_ok m c same_loop : task_ok (snd (begin_call m c same_loop)).
Proof.
  destruct c; cbn [begin_call take_stream_id];
    try (destruct same_loop; [apply open_stream_ok|simpl; auto]).
  - destruct (offered_versions hello); [apply open_stream_ok|simpl; auto].
  - apply write_to_lock_ok; [constructor|]. cbn [call_frame]. intros o p Ep. inv_binds. auto.
Qed.

Lemma receive_settle_ok m t e m1 t' m' :
  receive m t e = Some (m1, t') -> task_ok (snd (settle m' t')).
Proof.
  intros E. assert (Ht : waits t' = true \/ match t' with
    | Leaving _ _ _ _ | SendAuth _ _ _ _ _ | Unrouting _ _ _ => True | _ => False end).
  { destruct t; try done; cbn [receive] in E; unfold aio_subscription_next, collect in E;
      repeat case_match; simplify_eq; auto. }
  destruct t'; destruct Ht as [Ht|Ht]; try done; simpl; auto.
  apply write_to_lock_ok; [by econstructor|]. intros o p Ep. inv_binds. auto.
Qed.

Lemma written_ok t o p : task_ok (AtLock t o p) -> task_ok (AtDrain (written t)).
Proof.
  inversion 1; subst; simpl.
  - apply ok_drain; [|left; by destruct c]. destruct c; simpl; by econstructor.
  - apply ok_drain; [by econstructor|by left].
  - apply ok_drain; [constructor|by right].
Qed.

Lemma drained_ok t : task_ok (AtDrain t) -> task_ok (drained t).
Proof. inversion 1 as [| | | | |t' _ [Hw| ->]]; subst; [destruct t|]; simpl; auto. Qed.

Lemma cancel_task_ok m k mk : task_ok k -> cancel_task m k = Some mk -> task_ok (snd mk).
Proof.
  intros Hk. destruct k as [t|t o p|t|s e]; cbn [cancel_task]; intros E; simplify_eq;
    try (apply abandon_ok; eapply task_ok_can_fail; eauto).
  destruct t; cbn [running] in E; try done; simplify_eq; try (apply abandon_ok; by econstructor).
  destruct (sub_ended s); simplify_eq. simpl. auto.
Qed.

Definition tasks_ok (s : aio_system) : Prop := forall tid k, tasks s !! tid = Some k -> task_ok k.

Lemma tasks_ok_with_task s lock tid mk ids :
  tasks_ok s -> task_ok (snd mk) -> tasks_ok (with_task s lock tid mk ids).
Proof.
  intros Hs Hk tid' k. cbn [with_task tasks]. intros [[<- <-]|[_ E]]%lookup_insert_Some; [done|].
  by eapply Hs.
Qed.

Lemma tasks_ok_choose s ch s' : tasks_ok s -> aio_choose s ch = Some s' -> tasks_ok s'.
Proof.
  intros Hs E. destruct ch as [tid c l|tid r|tid f|tid e|tid|ev ts|r|f| |];
    cbn [aio_choose task_choose reader_choose] in E.
  - repeat case_match; simplify_eq. apply tasks_ok_with_task; [done|apply begin_call_ok].
  - destruct (tasks s !! tid) as [[t|t o p|t|s0 e]|] eqn:Et; try done. case_match; simplify_eq.
    pose proof (Hs _ _ Et) as Hk. case_match; apply tasks_ok_with_task; try done.
    + by eapply written_ok.
    + eapply abandon_ok, task_ok_can_fail; eauto.
  - destruct (tasks s !! tid) as [[t|t o p|t|s0 e]|] eqn:Et; simplify_eq.
    pose proof (Hs _ _ Et) as Hk. apply tasks_ok_with_task; [done|].
    destruct f; [eapply abandon_ok, task_ok_can_fail; eauto|by apply drained_ok].
  - destruct (tasks s !! tid) as [[t|t o p|t|s0 e0]|] eqn:Et; try done.
    destruct (receive _ _ _) as [[m t']|] eqn:Er; simplify_eq.
    apply tasks_ok_with_task; [done|by eapply receive_settle_ok].
  - destruct (tasks s !! tid) as [k|] eqn:Et; [|done].
    destruct (cancel_task _ _) as [mk|] eqn:Ec; simplify_eq.
    apply tasks_ok_with_task; [done|]. eapply cancel_task_ok; [|done]. by eapply Hs.
  - repeat case_match; simplify_eq; exact Hs.
  - repeat case_match; simplify_eq; exact Hs.
  - repeat case_match; simplify_eq; exact Hs.
  - repeat case_match; simplify_eq; exact Hs.
  - simplify_eq. exact Hs.
Qed.

(** ** The simulation *)

Lemma abstraction_task s tid k :
  tasks s !! tid = Some k -> threads (abstraction s) !! tid = Some (abs_task k).
Proof. intros E. cbn. by rewrite lookup_fmap, E. Qed.

Lemma receive_calling m t e x : receive m t e = Some x -> op_calling t = false.
Proof. by destruct t. Qed.

(** A task's own run, as transitions of the connection underneath. *)
Lemma with_task_transitions s lock tid k mk ids :
  tasks s !! tid = Some k -> runs (aconn s) (abs_task k) mk -> ids = [] ->
  rtc transition (abstraction s) (abstraction (with_task s lock tid mk ids)).
Proof.
  intros Et Hr ->. pose proof (runs_transitions (abstraction s) tid _ _ Hr (abstraction_task _ _ _ Et)) as Hx.
  cbn [fst snd] in Hx. unfold abstraction, with_task. cbn [aconn tasks aio_arrived aio_issued fst snd]. by rewrite fmap_insert, app_nil_r.
Qed.

(** The acquisition: [Mux]'s write, or for [send_bye] the frame alone. *)
Lemma acquire_transitions s lock tid t o p refused m :
  tasks s !! tid = Some (AtLock t o p) -> task_ok (AtLock t o p) ->
  write_to_drain (aconn s) t o p refused = Ok m ->
  rtc transition (abstraction s) (abstraction (with_task s lock tid (m, AtDrain (written t)) [])).
Proof.
  intros Et Hk E. unfold write_to_drain in E. inv_binds. destruct refused; [done|]. simplify_eq.
  match goal with Hw : write_frame _ = Ok _ |- _ => rename Hw into Hw end.
  inversion Hk; subst; cbn [write_stream running written] in *.
  - eapply with_task_transitions; [done| |done]. apply rtc_once. split; [|done].
    by eapply moves_write.
  - eapply with_task_transitions; [done| |done]. apply rtc_once. split; [|done].
    by eapply moves_auth.
  - apply rtc_once. unfold abstraction, with_task. cbn [fst snd aconn tasks aio_arrived aio_issued].
    rewrite fmap_insert, app_nil_r. rewrite insert_id by (by rewrite lookup_fmap, Et).
    apply (tr_idle (abstraction s)). split_and!; try done. right.
    match goal with Hw : write_frame _ = Ok ?bs |- _ => exists BYE, p, (Whole bs) end. auto.
Qed.

(** The reader routes a frame and puts it into its queue. *)
Lemma put_nowait_transitions s buf f :
  reader (conn s) = Reading ->
  rtc transition s (mk_system (put_nowait (set_read_buf (conn s) buf) f) (threads s)
                      (arrived s ++ [f]) (issued s)).
Proof.
  intros Hr. set (m := set_read_buf (conn s) buf).
  eapply rtc_l; [apply (tr_idle s m), read_buf_idles|].
  assert (Hr' : reader m = Reading) by done.
  eapply rtc_l; [by apply (tr_route (mk_system m (threads s) (arrived s) (issued s)) f)|].
  unfold route_frame, put_nowait. cbn [conn threads arrived issued].
  destruct (routes m !! frame_stream_id f) as [q|] eqn:Eq; [|apply rtc_refl].
  apply rtc_once. set (m' := set_reader m (Routing f q)).
  replace (set_queues m (put (queues m) q (Arrived f))) with (put_frame m' f q).
  - by apply (tr_put (mk_system m' (threads s) (arrived s ++ [f]) (issued s))).
  - unfold put_frame, m', set_reader, set_queues. cbn. by rewrite Hr.
Qed.

Lemma reader_transitions s m lock pg frames :
  rtc transition (abstraction s)
    (mk_system m (abs_task <$> tasks s) (aio_arrived s ++ frames) (aio_issued s)) ->
  rtc transition (abstraction s) (abstraction (with_reader s m lock pg frames)).
Proof. done. Qed.

Lemma reader_idle s m lock pg :
  idles (aconn s) m -> rtc transition (abstraction s) (abstraction (with_reader s m lock pg [])).
Proof.
  intros Hi. unfold abstraction, with_reader. cbn [aconn tasks aio_arrived aio_issued]. rewrite app_nil_r.
  by apply rtc_once, (tr_idle (abstraction s)).
Qed.

Lemma idles_refl m : idles m m.
Proof. split_and!; auto. Qed.

Lemma reader_fails s m e lock pg :
  idles (aconn s) m -> not_routing m ->
  rtc transition (abstraction s) (abstraction (with_reader s (fail_all m e) lock pg [])).
Proof.
  intros Hi Hn. unfold abstraction, with_reader. cbn [aconn tasks aio_arrived aio_issued]. rewrite app_nil_r.
  eapply rtc_l; [by apply (tr_idle (abstraction s))|]. apply rtc_once.
  exact (tr_fail (mk_system m (abs_task <$> tasks s) (aio_arrived s) (aio_issued s)) e Hn).
Qed.

(** The reader of the event loop never stands between its lookup and its put. *)
Definition never_routing (s : aio_system) : Prop := not_routing (aconn s).

Lemma runs_reader m t mk : runs m t mk -> reader (fst mk) = reader m.
Proof.
  unfold runs. intros Hr. remember (m, t) as x eqn:Ex. remember (fst mk, abs_task (snd mk)) as y eqn:Ey.
  assert (Hxy : reader (fst y) = reader (fst x)); [|by subst].
  clear Ex Ey. induction Hr as [|x z y [Hm _] _ IH]; [done|].
  rewrite IH. apply (moves_reader _ _ _ _ Hm).
Qed.

Lemma reader_not_routing m m' : reader m' = reader m -> not_routing m -> not_routing m'.
Proof. unfold not_routing. by intros ->. Qed.

Lemma stopped_not_routing m : reader m = Stopped -> not_routing m.
Proof. unfold not_routing. congruence. Qed.

Lemma put_nowait_reader m f : reader (put_nowait m f) = reader m.
Proof. unfold put_nowait. by case_match. Qed.

(** A call's own steps, from its beginning. *)
Lemma begin_transitions s lock tid c same_loop :
  tasks s !! tid = None ->
  rtc transition (abstraction s)
    (abstraction (with_task s lock tid (begin_call (aconn s) c same_loop)
                    (ids_begun (aconn s) c same_loop)))
  /\ reader (fst (begin_call (aconn s) c same_loop)) = reader (aconn s).
Proof.
  intros Et. set (s1 := mk_system (aconn s) (<[tid := Calling c]> (abs_task <$> tasks s))
    (aio_arrived s) (aio_issued s)).
  assert (Et' : threads (abstraction s) !! tid = None) by (cbn; by rewrite lookup_fmap, Et).
  assert (Hs1 : rtc transition (abstraction s) s1) by by apply rtc_once, (tr_call (abstraction s)).
  assert (Hfin : forall s2 m t mk ids, rtc transition (abstraction s) s2 -> conn s2 = m ->
    threads s2 = <[tid := t]> (abs_task <$> tasks s) -> arrived s2 = aio_arrived s ->
    issued s2 = aio_issued s ++ ids -> runs m t mk ->
    rtc transition (abstraction s) (abstraction (with_task s lock tid mk ids))).
  { intros s2 m t mk ids Hs2 Em Eth Ea Ei Hr. subst m.
    pose proof (runs_transitions s2 tid t _ Hr) as Hx. rewrite Eth, Ea, Ei in Hx.
    rewrite insert_insert_eq in Hx. etrans; [apply Hs2|].
    unfold abstraction, with_task. cbn [aconn tasks aio_arrived aio_issued fst snd]. rewrite fmap_insert. apply Hx. apply lookup_insert_eq. }
  destruct (op_call c) eqn:Hc.
  - destruct same_loop.
    + set (m2 := snd (take_stream_id (aconn s))). set (sid := next_stream_id (aconn s)).
      assert (Ei : ids_begun (aconn s) c true = [sid]) by by destruct c.
      assert (Eb : begin_call (aconn s) c true = open_stream m2 c sid) by by destruct c.
      rewrite Ei, Eb. split.
      * eapply (Hfin (mk_system m2 (<[tid := Identified c sid]> (threads s1)) (arrived s1)
          (issued s1 ++ ids_taken (Calling c) (conn s1)))).
        -- eapply rtc_r; [exact Hs1|]. apply tr_thread with (t := Calling c);
             [apply lookup_insert_eq|by apply moves_take].
        -- done.
        -- cbn. by rewrite insert_insert_eq.
        -- done.
        -- cbn [issued s1 conn]. by destruct c.
        -- apply open_stream_runs.
      * rewrite (runs_reader _ _ _ (open_stream_runs m2 c sid)). done.
    + assert (Eb : begin_call (aconn s) c false = (aconn s, Plain (Finished c (Raise ProtocolError))))
        by by destruct c.
      rewrite Eb. split; [|done]. unfold abstraction, with_task. cbn [aconn tasks aio_arrived aio_issued fst snd].
      rewrite fmap_insert, app_nil_r. by apply rtc_once, (tr_refuse (abstraction s)).
  - pose proof (begin_call_runs (aconn s) c same_loop Hc) as Hr. split; [|by eapply runs_reader].
    assert (Ei : ids_begun (aconn s) c same_loop = []) by (destruct same_loop; by destruct c).
    rewrite Ei. eapply (Hfin s1); [done..| |exact Hr]. by rewrite app_nil_r.
Qed.

Lemma drained_runs m t : task_ok (AtDrain t) -> runs m t (m, drained t).
Proof.
  inversion 1 as [| | | | |t' Hf [Hw| ->]]; subst; [destruct t; try done; apply rtc_refl|].
  apply rtc_once. split; [apply moves_quiet, quiet_bye|done].
Qed.

Lemma cancel_task_runs m k mk : task_ok k -> cancel_task m k = Some mk -> runs m (abs_task k) mk.
Proof.
  intros Hk E. destruct k as [t|t o p|t|sub e]; cbn [cancel_task] in E; simplify_eq.
  - assert (Hr : forall x, running t = Some x -> runs m t (abandon m t CancelledError)).
    { intros [[c sid] q] Er. apply abandon_runs. by econstructor. }
    destruct t; cbn [running] in *; simplify_eq; try by eapply Hr.
    destruct (sub_ended s) eqn:Es; simplify_eq.
    apply rtc_once. split; [by apply moves_quiet, quiet_next_raises|done].
  - apply abandon_runs. eapply task_ok_can_fail; eauto.
  - apply abandon_runs. eapply task_ok_can_fail; eauto.
Qed.

Lemma task_choose_transitions s ch s' :
  tasks_ok s -> never_routing s -> task_choose s ch = Some s' ->
  rtc transition (abstraction s) (abstraction s') /\ reader (aconn s') = reader (aconn s).
Proof.
  intros Hs Hn E. destruct ch as [tid c l|tid r|tid f|tid e|tid|ev ts|r|f| |]; try done;
    cbn [task_choose] in E.
  - case_match; simplify_eq. by apply begin_transitions.
  - destruct (tasks s !! tid) as [[t|t o p|t|s0 e]|] eqn:Et; try done. case_match; simplify_eq.
    pose proof (Hs _ _ Et) as Hk. destruct (write_to_drain _ _ _ _ _) as [m|e] eqn:Ew.
    + split; [by eapply acquire_transitions|]. unfold write_to_drain in Ew. inv_binds.
      by destruct r; simplify_eq.
    + assert (Hr : runs (aconn s) t (abandon (aconn s) t e))
        by (apply abandon_runs; eapply task_ok_can_fail; eauto).
      split; [by eapply with_task_transitions|by eapply runs_reader].
  - destruct (tasks s !! tid) as [[t|t o p|t|s0 e]|] eqn:Et; simplify_eq. pose proof (Hs _ _ Et) as Hk.
    assert (Hr : runs (aconn s) t (match f with None => (aconn s, drained t)
                                   | Some e => abandon (aconn s) t e end)).
    { destruct f; [apply abandon_runs; eapply task_ok_can_fail; eauto|by apply drained_runs]. }
    split; [by eapply with_task_transitions|by eapply runs_reader].
  - destruct (tasks s !! tid) as [[t|t o p|t|s0 e0]|] eqn:Et; try done.
    destruct (receive _ _ _) as [[m t']|] eqn:Er; simplify_eq.
    pose proof (receive_calling _ _ _ _ Er) as Hc0. apply receive_moves in Er as [Hm Hc].
    assert (Hr : runs (aconn s) t (settle m t')).
    { eapply rtc_l; [|by apply settle_runs]. by split. }
    split; [by eapply with_task_transitions|by eapply runs_reader].
  - destruct (tasks s !! tid) as [k|] eqn:Et; [|done].
    destruct (cancel_task _ _) as [mk|] eqn:Ec; simplify_eq.
    apply cancel_task_runs in Ec; [|by eapply Hs].
    split; [by eapply with_task_transitions|by eapply runs_reader].
Qed.

Lemma reader_choose_transitions s ch s' :
  never_routing s -> reader_choose s ch = Some s' ->
  rtc transition (abstraction s) (abstraction s') /\ never_routing s'.
Proof.
  intros Hn E. destruct ch as [tid c l|tid r|tid f|tid e|tid|ev ts|r|f| |]; try done;
    cbn [reader_choose] in E.
  - destruct (reader (aconn s)) eqn:Er; try done. destruct (pong s); try done.
    destruct (aio_read_frame _ _) as [f buf [|]|e buf [|]|]; try done; simplify_eq.
    + destruct (is_opcode f SERVER_PING).
      * split; [apply reader_idle, read_buf_idles|exact Hn].
      * split; [|by eapply reader_not_routing; [apply put_nowait_reader|]].
        by apply (put_nowait_transitions (abstraction s)).
    + split; [|by apply stopped_not_routing].
      apply reader_fails; [apply read_buf_idles|exact Hn].
  - destruct (reader (aconn s)) eqn:Er; try done. destruct (pong s); try done.
    destruct (write_lock s); try done. simplify_eq.
    destruct (let* _ := _ in _) as [m|e] eqn:Ew; (split; [|try exact Hn]).
    + inv_binds. destruct r; simplify_eq. apply reader_idle. split_and!; try done.
      right. match goal with Hw : write_frame (mk_Frame _ _ _ ?pl) = Ok ?bs |- _ =>
        exists CLIENT_PONG, pl, (Whole bs) end. auto.
    + inv_binds. by destruct r; simplify_eq.
    + apply reader_idle, idles_refl.
  - repeat case_match; simplify_eq. split; [apply reader_idle, idles_refl|exact Hn].
  - repeat case_match; simplify_eq; (split; [apply reader_idle, idles_refl|exact Hn]).
  - simplify_eq. split; [|by apply stopped_not_routing].
    apply reader_fails; [apply idles_refl|exact Hn].
Qed.

Lemma aio_invariant timeout s :
  aio_reachable timeout s ->
  allowed timeout (abstraction s) /\ tasks_ok s /\ never_routing s.
Proof.
  intros Hr. refine (rtc_ind_r (fun s => allowed timeout (abstraction s) /\ tasks_ok s /\ never_routing s)
    (aio_start timeout) _ _ s Hr); clear s Hr.
  - split_and!; [|by intros tid k E; simplify_map_eq|by intros f q].
    unfold abstraction. cbn. rewrite fmap_empty. apply rtc_refl.
  - intros s s' _ [ch E] (Ha & Hk & Hn).
    assert (Ht : rtc transition (abstraction s) (abstraction s') /\ never_routing s').
    { destruct ch; cbn [aio_choose] in E;
        try (by eapply reader_choose_transitions);
        (destruct (task_choose_transitions _ _ _ Hk Hn E) as [? Er]; split; [done|]);
        by eapply reader_not_routing. }
    destruct Ht as [Ht Hn']. split_and!; [unfold allowed in *; by etrans|by eapply tasks_ok_choose|done].
Qed.

Lemma aio_reachable_allowed timeout s : aio_reachable timeout s -> allowed timeout (abstraction s).
Proof. intros Hr. by apply aio_invariant. Qed.

(** ** The write lock *)

(** Who stands between a write and the end of its drain. *)
Definition draining (s : aio_system) (h : holder) : Prop :=
  match h with
  | HeldByTask tid => exists t, tasks s !! tid = Some (AtDrain t)
  | HeldByReader => pong s = PongAtDrain
  end.

Definition lock_ok (s : aio_system) : Prop := forall h, write_lock s = Some h <-> draining s h.

(** A task that is not in its drain. *)
Definition undrained (k : task) : Prop := forall t, k <> AtDrain t.

Lemma abandon_undrained m t e : undrained (snd (abandon m t e)).
Proof. intros t'. unfold abandon. by repeat case_match. Qed.

Lemma write_to_lock_undrained m t f : undrained (snd (write_to_lock m t f)).
Proof.
  unfold write_to_lock. destruct (let* ' _ := _ in _) as [[o p]|e]; [done|apply abandon_undrained].
Qed.

Lemma open_stream_undrained m c sid : undrained (snd (open_stream m c sid)).
Proof.
  unfold open_stream. destruct (register _ _) as [[m' q]|]; [apply write_to_lock_undrained|done].
Qed.

Lemma begin_call_undrained m c same_loop : undrained (snd (begin_call m c same_loop)).
Proof.
  destruct c; cbn [begin_call take_stream_id]; try (destruct same_loop; [|done]);
    try apply open_stream_undrained; [|apply write_to_lock_undrained].
  destruct (offered_versions hello); [apply open_stream_undrained|done].
Qed.

Lemma settle_undrained m t : undrained (snd (settle m t)).
Proof. destruct t; try done. apply write_to_lock_undrained. Qed.

Lemma cancel_task_undrained m k mk : cancel_task m k = Some mk -> undrained (snd mk).
Proof.
  destruct k as [t|t o p|t|s e]; cbn [cancel_task]; intros E; simplify_eq;
    try apply abandon_undrained.
  destruct t; cbn [running] in E; try done; simplify_eq; try apply abandon_undrained; try done.
  by destruct (sub_ended s); simplify_eq.
Qed.

(** A task step that neither takes nor gives back the lock. *)
Lemma lock_ok_same s tid mk ids :
  lock_ok s -> (forall t, tasks s !! tid <> Some (AtDrain t)) -> undrained (snd mk) ->
  lock_ok (with_task s (write_lock s) tid mk ids).
Proof.
  intros Hl Ht Hu h. cbn [with_task write_lock]. rewrite (Hl h). destruct h as [tid'|]; [|done].
  cbn [draining with_task tasks]. destruct (decide (tid = tid')) as [<-|Hne].
  - rewrite lookup_insert_eq. split; intros [t E]; [by destruct (Ht t)|].
    injection E as E. by destruct (Hu t).
  - by rewrite lookup_insert_ne.
Qed.

(** The task that holds the lock gives it back. *)
Lemma lock_ok_release s tid t mk ids :
  lock_ok s -> tasks s !! tid = Some (AtDrain t) -> undrained (snd mk) ->
  lock_ok (with_task s None tid mk ids).
Proof.
  intros Hl Ht Hu. assert (Hh : write_lock s = Some (HeldByTask tid)) by (apply Hl; by exists t).
  intros h. split; [done|]. destruct h as [tid'|]; cbn [draining with_task tasks pong].
  - intros [t' [[<- E]|[Hne E]]%lookup_insert_Some]; [by destruct (Hu t')|].
    assert (E' : write_lock s = Some (HeldByTask tid')) by (apply Hl; by exists t').
    congruence.
  - intros E. apply (Hl HeldByReader) in E. congruence.
Qed.

(** A task takes the free lock. *)
Lemma lock_ok_acquire s tid t m ids :
  lock_ok s -> write_lock s = None ->
  lock_ok (with_task s (Some (HeldByTask tid)) tid (m, AtDrain t) ids).
Proof.
  intros Hl Hn h. cbn [with_task write_lock fst snd]. split.
  - intros [= <-]. cbn. exists t. apply lookup_insert_eq.
  - destruct h as [tid'|]; cbn [draining with_task tasks pong fst snd].
    + destruct (decide (tid = tid')) as [<-|Hne]; [done|]. rewrite lookup_insert_ne by done.
      intros E. apply (Hl (HeldByTask tid')) in E. congruence.
    + intros E. apply (Hl HeldByReader) in E. congruence.
Qed.

(** A step of the reader that keeps its place at the lock. *)
Lemma lock_ok_reader s m p frames :
  lock_ok s -> (p = PongAtDrain <-> pong s = PongAtDrain) ->
  lock_ok (with_reader s m (write_lock s) p frames).
Proof.
  intros Hl Hp h. cbn [with_reader write_lock]. rewrite (Hl h). destruct h; [done|]. by symmetry.
Qed.

(** The reader gives the lock back. *)
Lemma lock_ok_reader_release s m frames :
  lock_ok s -> pong s = PongAtDrain -> lock_ok (with_reader s m None NoPong frames).
Proof.
  intros Hl Hp. assert (Hh : write_lock s = Some HeldByReader) by by apply Hl.
  intros h. split; [done|]. destruct h as [tid'|]; [|done]. cbn.
  intros E. apply (Hl (HeldByTask tid')) in E. congruence.
Qed.

Lemma lock_ok_reader_acquire s m frames :
  lock_ok s -> write_lock s = None ->
  lock_ok (with_reader s m (Some HeldByReader) PongAtDrain frames).
Proof.
  intros Hl Hn h. cbn [with_reader write_lock]. split; [by intros [= <-]|].
  destruct h as [tid'|]; [|done]. intros E. apply (Hl (HeldByTask tid')) in E. congruence.
Qed.

Lemma lock_ok_choose s ch s' : lock_ok s -> aio_choose s ch = Some s' -> lock_ok s'.
Proof.
  intros Hl E. destruct ch as [tid c l|tid r|tid f|tid e|tid|ev ts|r|f| |];
    cbn [aio_choose task_choose reader_choose] in E.
  - destruct (tasks s !! tid) as [k|] eqn:Et; simplify_eq.
    apply lock_ok_same; [done|by rewrite Et|apply begin_call_undrained].
  - destruct (tasks s !! tid) as [[t|t o p|t|s0 e]|] eqn:Et; try done.
    destruct (write_lock s) eqn:Ew; simplify_eq. case_match; [by apply lock_ok_acquire|].
    rewrite <- Ew. apply lock_ok_same; [done|by rewrite Et|apply abandon_undrained].
  - destruct (tasks s !! tid) as [[t|t o p|t|s0 e]|] eqn:Et; simplify_eq.
    eapply lock_ok_release; [done|done|].
    destruct f; [apply abandon_undrained|intros t'; by destruct t].
  - destruct (tasks s !! tid) as [[t|t o p|t|s0 e0]|] eqn:Et; try done.
    destruct (receive _ _ _) as [[m t']|]; simplify_eq.
    apply lock_ok_same; [done|by rewrite Et|apply settle_undrained].
  - destruct (tasks s !! tid) as [k|] eqn:Et; [|done].
    destruct (cancel_task _ _) as [mk|] eqn:Ec; simplify_eq.
    apply cancel_task_undrained in Ec.
    destruct k; try (by apply lock_ok_same; [|rewrite Et|]). by eapply lock_ok_release.
  - destruct (reader (aconn s)); try done. destruct (pong s) eqn:Ep; try done.
    destruct (aio_read_frame _ _) as [f buf [|]|e buf [|]|]; try done; simplify_eq;
      repeat case_match; apply lock_ok_reader; try done; by rewrite Ep.
  - destruct (reader (aconn s)); try done. destruct (pong s) eqn:Ep; try done.
    destruct (write_lock s) eqn:Ew; simplify_eq. case_match; [by apply lock_ok_reader_acquire|].
    rewrite <- Ew. apply lock_ok_reader; [done|]. by rewrite Ep.
  - destruct (reader (aconn s)); try done. destruct (pong s) eqn:Ep; simplify_eq.
    by apply lock_ok_reader_release.
  - destruct (reader (aconn s)); try done. destruct (pong s) eqn:Ep; simplify_eq.
    + apply lock_ok_reader; [done|]. by rewrite Ep.
    + by apply lock_ok_reader_release.
  - simplify_eq. by apply lock_ok_reader.
Qed.

Lemma aio_reachable_lock_ok timeout s : aio_reachable timeout s -> lock_ok s.
Proof.
  intros Hr. refine (rtc_ind_r lock_ok (aio_start timeout) _ _ s Hr); clear s Hr.
  - intros [tid|]; split; try done. by intros [t E].
  - intros s s' _ [ch E] Hl. by eapply lock_ok_choose.
Qed.
End AsyncSafety.
