(* ===== verification/AioMuxProperties.v ===== *)
(** * AioMuxProperties

    What the asyncio connection of [AioMux] guarantees: it refines the same
    transitions as the threaded one, so its requests are as isolated; it cleans
    up behind cancelled tasks, the write lock included; and it leaves no request
    hanging once it has failed or been closed. Each is evaluated on a schedule. *)

From S2P Require Import Prelude Frame PyFloat PyValue PyArith PyCompare Cbor CborCodec WireCodec.
From S2P Require Import Opcode WireHandshake WireListing WireEvents Errors Transport Mux MuxMoves.
From S2P Require Import MuxSafety MuxLiveness MuxProperties AioMux AioMuxSafety.
From stdpp Require Import gmap.
#[local] Open Scope Z_scope.

Section AsyncProperties.
Context `{Cbor2}.

Lemma aio_play_reachable timeout s schedule :
  aio_reachable timeout s -> aio_reachable timeout (aio_play s schedule).
Proof.
  unfold aio_play. revert s. induction schedule as [|ch l IH]; intros s Hr; [done|].
  cbn [fold_left]. apply IH. destruct (aio_choose s ch) as [s'|] eqn:E; [|done].
  eapply rtc_r; [done|]. by exists ch.
Qed.

Lemma aio_start_reachable timeout schedule :
  aio_reachable timeout (aio_play (aio_start timeout) schedule).
Proof. apply aio_play_reachable, rtc_refl. Qed.

Lemma aio_play_app s l1 l2 : aio_play s (l1 ++ l2) = aio_play (aio_play s l1) l2.
Proof. apply fold_left_app. Qed.

(** ** Refinement *)

(** C7: refinement: every state the threaded connection can reach, and every state
    the asyncio one can reach with its lock, drains, cancellations and close
    forgotten, is reached by the transitions of [MuxMoves]; what those preserve
    holds of both. *)
Theorem connections_refine_transitions timeout :
  (forall s, reachable timeout s -> allowed timeout s)
  /\ (forall s, aio_reachable timeout s -> allowed timeout (abstraction s)).
Proof. split; intros s; [apply reachable_allowed|apply aio_reachable_allowed]. Qed.

(** C8: requests of an asyncio connection are isolated: however tasks, reader,
    cancellations and the close interleave, the frames a finished request
    returned are exactly the frames that arrived for its own stream during some
    interval, in order and none missing, without an ERROR, the last and only the
    last with EOS; its request frame was written on that stream; and until 2^31
    stream ids have been handed out no other task was ever on that stream. *)
Theorem async_requests_are_isolated timeout s tid c sid frames :
  aio_reachable timeout s ->
  tasks s !! tid = Some (Plain (Finished c (Ok (AnswerFrames sid frames)))) ->
  (exists pre seg post, aio_arrived s = pre ++ seg ++ post /\ frames = on_stream sid seg)
  /\ whole_response frames
  /\ requested (abstraction s) c sid
  /\ (op_call c = true -> zlen (aio_issued s) <= 2 ^ 31 ->
      forall tid' k, tasks s !! tid' = Some k -> op_stream (abs_task k) = Some sid -> tid' = tid).
Proof.
  intros Hr%aio_reachable_allowed Ht. apply abstraction_task in Ht.
  destruct (allowed_threads_inv _ _ Hr _ _ Ht) as ((pre & seg & post & Ha & Hs) & Hw & Hq).
  split_and!; [by exists pre, seg, post|done|done|].
  intros Hc Hn tid' k Hk%abstraction_task Hos.
  eapply (streams_distinct _ (allowed_streams _ _ Hr)); [done..|]. cbn. by rewrite Hc.
Qed.

(** ** Cleaning up *)

(** What a task still has of the connection: its route, or the write lock. *)
Definition task_holds (k : task) : bool :=
  match holds (abs_task k), k with
  | None, AtDrain _ => true
  | None, _ => false
  | Some _, _ => true
  end.

(** C9: nothing is left behind: a route always belongs to a task inside its
    operation or with an open subscription; the write lock is held by exactly the
    task, or the reader, between its write and the end of its drain, so never by
    two; hence once every task has returned, raised or been cancelled, the route
    table is empty and the lock is free or with the reader's heartbeat answer. *)
Theorem async_nothing_left_behind timeout s :
  aio_reachable timeout s ->
  (forall sid q, routes (aconn s) !! sid = Some q ->
     exists tid k, tasks s !! tid = Some k /\ holds (abs_task k) = Some (sid, q))
  /\ (forall tid, write_lock s = Some (HeldByTask tid) <-> exists t, tasks s !! tid = Some (AtDrain t))
  /\ (write_lock s = Some HeldByReader <-> pong s = PongAtDrain)
  /\ ((forall tid k, tasks s !! tid = Some k -> task_holds k = false) ->
      route_count (aconn s) = 0%nat /\ (pong s = NoPong -> write_lock s = None)).
Proof.
  intros Hr. pose proof (allowed_owned _ _ (aio_reachable_allowed _ _ Hr)) as Ho.
  pose proof (aio_reachable_lock_ok _ _ Hr) as Hl.
  assert (Hroute : forall sid q, routes (aconn s) !! sid = Some q ->
    exists tid k, tasks s !! tid = Some k /\ holds (abs_task k) = Some (sid, q)).
  { intros sid q (tid & t & Ht & Hh)%(owned_route _ Ho). cbn in Ht.
    rewrite lookup_fmap in Ht. destruct (tasks s !! tid) as [k|] eqn:Ek; simplify_eq/=.
    by exists tid, k. }
  split_and!; [done|intros tid; apply (Hl (HeldByTask tid))|apply (Hl HeldByReader)|].
  intros Hn. split.
  - unfold route_count. apply map_size_empty_iff, map_empty. intros sid.
    destruct (routes (aconn s) !! sid) as [q|] eqn:E; [|done].
    apply Hroute in E as (tid & k & Hk & Hh). apply Hn in Hk. unfold task_holds in Hk.
    by rewrite Hh in Hk.
  - intros Hp. destruct (write_lock s) as [h|] eqn:E; [|done]. apply Hl in E.
    destruct h as [tid|]; cbn in E; [|congruence]. destruct E as [t Et].
    apply Hn in Et. unfold task_holds in Et. cbn in Et. by case_match.
Qed.

(** ** Failure *)

(** What lets go of the write lock: the end of its holder's drain, or the
    cancellation the reader has pending once the connection is closed. *)
Definition unblock (s : aio_system) : list aio_choice :=
  match write_lock s with
  | None => []
  | Some (HeldByTask tid) => [ADrained tid None]
  | Some HeldByReader => [AReaderCancelled]
  end.

Definition task_finished (k : option task) : bool :=
  match k with Some (Plain (Finished _ _)) => true | _ => false end.

(** What the steps on the way to the queue keep. *)
Definition same_queues (s s' : aio_system) : Prop :=
  queues (aconn s') = queues (aconn s) /\ aio_issued s' = aio_issued s
  /\ reader (aconn s') = reader (aconn s).

Lemma abandon_same m t e :
  queues (fst (abandon m t e)) = queues m /\ reader (fst (abandon m t e)) = reader m.
Proof. unfold abandon. by repeat case_match. Qed.

Lemma same_queues_task s lock tid mk :
  queues (fst mk) = queues (aconn s) -> reader (fst mk) = reader (aconn s) ->
  same_queues s (with_task s lock tid mk []).
Proof. intros Eq Er. split_and!; [done| |done]. cbn. by rewrite app_nil_r. Qed.

Lemma unblock_ok timeout s :
  aio_reachable timeout s -> reader (aconn s) = Stopped ->
  write_lock (aio_play s (unblock s)) = None /\ same_queues s (aio_play s (unblock s))
  /\ (forall tid k, tasks s !! tid = Some k ->
        tasks (aio_play s (unblock s)) !! tid
        = Some (match k with AtDrain t => if write_lock s is Some _ then drained t else k | _ => k end)).
Proof.
  intros Hr Hs. pose proof (aio_reachable_lock_ok _ _ Hr) as Hl. unfold unblock.
  destruct (write_lock s) as [[tid|]|] eqn:E.
  - pose proof (proj1 (Hl _) E) as [t Et]. cbn [aio_play fold_left aio_choose task_choose].
    rewrite Et. cbn [from_option id]. split_and!; [done|by apply same_queues_task|].
    intros tid' k Hk. cbn [from_option id with_task tasks fst snd].
    destruct (decide (tid' = tid)) as [->|Hne]; simplify_eq; [by rewrite lookup_insert_eq|].
    rewrite lookup_insert_ne, Hk by done. destruct k as [| |t'|]; try done.
    assert (E' : write_lock s = Some (HeldByTask tid')) by (apply Hl; by exists t'). congruence.
  - pose proof (proj1 (Hl _) E) as Hp. cbn in Hp.
    cbn [aio_play fold_left aio_choose reader_choose]. rewrite Hs, Hp. cbn [from_option id].
    split_and!; [done|done|]. intros tid k Hk. cbn [from_option id with_reader tasks]. rewrite Hk.
    destruct k as [| |t|]; try done.
    assert (E' : write_lock s = Some (HeldByTask tid)) by (apply Hl; by exists t). congruence.
  - split_and!; [done|by split_and!|]. intros tid k Hk. cbn. rewrite Hk. by destruct k.
Qed.

(** A request on its way to its queue gets there, or ends. *)
Lemma reach_queue timeout s tid k refused failed :
  aio_reachable timeout s -> write_lock s = None -> tasks s !! tid = Some k ->
  request_thread (abs_task k) = true ->
  let s' := aio_play s [AAcquire tid refused; ADrained tid failed] in
  same_queues s s'
  /\ (task_finished (tasks s' !! tid) = true
      \/ exists c sid q frames, tasks s' !! tid = Some (Plain (Collecting c sid q frames))
           /\ op_call c = true /\ queue_of (abs_task k) = Some q).
Proof.
  intros Hr Hw Hk Hq. cbn zeta.
  pose proof (proj1 (proj2 (aio_invariant _ _ Hr)) _ _ Hk) as Hok.
  cbn [aio_play fold_left aio_choose task_choose]. rewrite Hk, Hw.
  inversion Hok as [t Hwt|sub e|c sid q o p Hc|c auth w sid q p|p|t Hf Hwt]; subst k;
    cbn [abs_task] in Hq; try done.
  - cbn [from_option id]. rewrite Hk. cbn [from_option id]. split; [done|]. rewrite Hk.
    destruct t; try done; [right|by left].
    exists c, sid, q, frames. split_and!; [done|by destruct c|done].
  - destruct (write_to_drain _ _ _ _ _) as [m|e] eqn:Ew; cbn [from_option id].
    + assert (Em : queues m = queues (aconn s) /\ reader m = reader (aconn s)).
      { unfold write_to_drain in Ew. inv_binds. by destruct refused; simplify_eq. }
      destruct Em as [Em1 Em2]. unfold request_thread in Hq.
      destruct c as [o' p' t'| | | |]; try done. cbn [with_task tasks aconn fst snd].
      rewrite lookup_insert_eq. cbn [written after_write].
      destruct failed as [e|]; cbn [abandon running from_option id with_task tasks aconn fst snd
        drained]; rewrite lookup_insert_eq; (split; [by split_and!; cbn; rewrite ?app_nil_r|]).
      * by left.
      * right. by exists (CallRequest o' p' t'), sid, q, [].
    + cbn [abandon running with_task tasks aconn fst snd]. rewrite lookup_insert_eq.
      cbn [from_option id with_task tasks aconn fst snd]. rewrite lookup_insert_eq.
      split; [by split_and!; cbn; rewrite ?app_nil_r|by left].
  - pose proof (aio_reachable_lock_ok _ _ Hr (HeldByTask tid)) as Hl. rewrite Hw in Hl.
    destruct Hl as [_ Hl]. discriminate Hl. by exists t.
Qed.

Lemma play_finished s tid es :
  task_finished (tasks s !! tid) = true ->
  task_finished (tasks (aio_play s (map (AReceive tid) es)) !! tid) = true.
Proof.
  revert s. induction es as [|e es IH]; intros s Hf; [done|].
  cbn [aio_play map fold_left aio_choose task_choose]. apply IH.
  destruct (tasks s !! tid) as [[t| | |]|] eqn:Et; try done. destruct t; try done.
  cbn [receive from_option id]. by rewrite Et.
Qed.

(** At its queue, the sentinel ends a request at the latest. *)
Lemma play_collecting tid c sid q es : forall s items frames e,
  tasks s !! tid = Some (Plain (Collecting c sid q frames)) ->
  queues (aconn s) !! q = Some items -> last items = Some (Closed e) ->
  (length items <= length es)%nat ->
  task_finished (tasks (aio_play s (map (AReceive tid) es)) !! tid) = true.
Proof.
  induction es as [|ev es IH]; intros s items frames e Ht Hq Hl Hlen.
  { destruct items; [done|cbn in Hlen; lia]. }
  destruct items as [|item rest]; [done|]. cbn [length map] in *.
  cbn [aio_play fold_left aio_choose task_choose]. rewrite Ht. cbn [receive].
  assert (Hn : (exists x m, aio_next (aconn s) q (call_timeout c) (expired ev) = NextRaise x m)
    \/ exists f, item = Arrived f
         /\ aio_next (aconn s) q (call_timeout c) (expired ev) = NextFrame f (pop (aconn s) q rest)).
  { unfold aio_next. case_match; [left; eauto|]. rewrite Hq. destruct item; eauto. }
  destruct Hn as [(x & m & ->)|(f & -> & ->)].
  - apply play_finished. cbn [settle from_option id with_task tasks fst snd].
    by rewrite lookup_insert_eq.
  - destruct (collect_cases c sid q frames f) as [[r ->]| ->].
    + apply play_finished. cbn [settle from_option id with_task tasks fst snd].
      by rewrite lookup_insert_eq.
    + eapply (IH _ rest).
      * cbn [settle from_option id with_task tasks fst snd]. apply lookup_insert_eq.
      * cbn [settle from_option id with_task aconn fst snd pop set_queues queues].
        apply lookup_insert_eq.
      * by eapply last_sentinel_pop.
      * lia.
Qed.

(** C10: no asyncio request outlives its connection: once the connection has
    failed or been closed, a task inside [request], wherever it waits (for the
    write lock, in its drain, at its queue), finishes once the lock's holder has
    let go and the task has taken as many items as its queue holds, whatever the
    environment does and even without any deadline (up to 2^31 stream ids). *)
Theorem async_no_request_hangs timeout s tid k refused failed es :
  aio_reachable timeout s -> zlen (aio_issued s) <= 2 ^ 31 -> reader (aconn s) = Stopped ->
  tasks s !! tid = Some k -> request_thread (abs_task k) = true ->
  (length (backlog (aconn s) (abs_task k)) <= length es)%nat ->
  task_finished (tasks (aio_play s (unblock s ++ [AAcquire tid refused; ADrained tid failed]
                                      ++ map (AReceive tid) es)) !! tid) = true.
Proof.
  intros Hr Hi Hs Hk Hq Hlen. rewrite !aio_play_app.
  destruct (unblock_ok _ _ Hr Hs) as (Hw1 & (Eq1 & Ei1 & Er1) & Ht1).
  pose proof (aio_play_reachable _ _ (unblock s) Hr) as Hr1.
  set (s1 := aio_play s (unblock s)) in *. pose proof (Ht1 _ _ Hk) as Hk1.
  set (k1 := match k with AtDrain _ => _ | _ => _ end) in Hk1.
  assert (Hab : abs_task k1 = abs_task k).
  { unfold k1. destruct k as [| |t|]; try done. destruct (write_lock s); [|done].
    destruct t; try done. cbn in Hq. pose proof (proj1 (proj2 (aio_invariant _ _ Hr)) _ _ Hk) as Hok.
    inversion Hok as [| | | | |t Hf [Hwt|Hwt]]; subst; [done|]. by injection Hwt as ->. }
  destruct (reach_queue _ _ _ _ refused failed Hr1 Hw1 Hk1) as ((Eq2 & Ei2 & Er2) & Hcases);
    [by rewrite Hab|].
  pose proof (aio_play_reachable _ _ [AAcquire tid refused; ADrained tid failed] Hr1) as Hr2.
  set (s2 := aio_play s1 _) in *.
  destruct Hcases as [Hf|(c & sid & q & frames & Hk2 & Hc & Hqk)]; [by apply play_finished|].
  rewrite Hab in Hqk. unfold backlog in Hlen. rewrite Hqk in Hlen.
  pose proof (aio_reachable_allowed _ _ Hr2) as Ha2.
  destruct (attended_stopped (abstraction s2) sid q) as (items & e & Hits & Hl).
  - by eapply allowed_owned.
  - cbn [abstraction conn]. by rewrite Er2, Er1.
  - eapply (allowed_attended _ _ Ha2); [cbn [abstraction issued]; by rewrite Ei2, Ei1|by apply abstraction_task in Hk2|].
    cbn. by rewrite Hc.
  - cbn [abstraction conn] in Hits. rewrite Eq2, Eq1 in Hits. rewrite Hits in Hlen.
    eapply play_collecting; [done| |done|done]. by rewrite Eq2, Eq1.
Qed.
End AsyncProperties.

(** ** Schedules evaluated *)

Section AsyncSchedules.
Context `{Cbor2}.

Definition undisturbed : env := mk_env false None false.

Definition reads (f : Frame) : aio_choice := ARead [Recv (frame_layout f)] 0.

(** Two requests on the loop, the second held up by the first one's drain, whose
    responses arrive interleaved. *)
Definition async_interleaved : aio_system :=
  aio_play (aio_start None)
    ([ABegin 0 (request_of RECALL_REQ) true; ABegin 1 (request_of RECALL_REQ) true; AAcquire 0 None;
      AAcquire 1 None; ADrained 0 None; AAcquire 1 None; ADrained 1 None]
     ++ map reads [response 3 false x01; response 1 false x02; response 1 true x03; response 3 true x04]
     ++ [AReceive 0 undisturbed; AReceive 1 undisturbed; AReceive 0 undisturbed;
         AReceive 1 undisturbed]).

(** Three requests, cancelled in the drain, at the lock and at the queue. *)
Definition all_cancelled : aio_system :=
  aio_play (aio_start None)
    [ABegin 0 (request_of RECALL_REQ) true; AAcquire 0 None; ADrained 0 None;
     ABegin 1 (request_of RECALL_REQ) true; ABegin 2 (request_of RECALL_REQ) true; AAcquire 1 None;
     ACancel 1; ACancel 2; ACancel 0].

(** A connection closed while one task drains and another waits for the lock. *)
Definition closed_under : aio_system :=
  aio_play (aio_start None)
    [ABegin 0 (request_of RECALL_REQ) true; AAcquire 0 None; ABegin 1 (request_of RECALL_REQ) true; AClose].
End AsyncSchedules.

Lemma async_requests_are_isolated_witness :
  tasks async_interleaved !! 0%nat
  = Some (Plain (Finished (request_of RECALL_REQ)
            (Ok (AnswerFrames 1 [response 1 false x02; response 1 true x03]))))
  /\ whole_response [response 1 false x02; response 1 true x03].
Proof.
  assert (E : tasks async_interleaved !! 0%nat
    = Some (Plain (Finished (request_of RECALL_REQ)
              (Ok (AnswerFrames 1 [response 1 false x02; response 1 true x03])))))
    by (vm_compute; reflexivity).
  split; [exact E|].
  apply (async_requests_are_isolated None async_interleaved 0 (request_of RECALL_REQ) 1
    [response 1 false x02; response 1 true x03] (aio_start_reachable _ _) E).
Defined.

Lemma async_nothing_left_behind_witness :
  map (fun tid => tasks all_cancelled !! tid) [0; 1; 2]%nat
  = replicate 3 (Some (Plain (Finished (request_of RECALL_REQ) (Raise CancelledError))))
  /\ route_count (aconn all_cancelled) = 0%nat /\ write_lock all_cancelled = None.
Proof.
  assert (E : tasks all_cancelled
    = list_to_map (map (fun tid => (tid, Plain (Finished (request_of RECALL_REQ) (Raise CancelledError))))
        [0; 1; 2]%nat)) by (vm_compute; reflexivity).
  destruct (async_nothing_left_behind None all_cancelled (aio_start_reachable _ _)) as (_ & _ & _ & Hn).
  split; [vm_compute; reflexivity|]. destruct Hn as [Hc Hl].
  - intros tid k Hk. rewrite E in Hk. apply elem_of_list_to_map_2 in Hk.
    apply list_elem_of_fmap in Hk as (tid' & [= _ ->] & _). reflexivity.
  - split; [exact Hc|]. apply Hl. vm_compute; reflexivity.
Defined.

Lemma async_no_request_hangs_witness :
  tasks closed_under !! 1%nat
  = Some (AtLock (Registered (request_of RECALL_REQ) 3 1) RECALL_REQ [x61])
  /\ task_finished (tasks (aio_play closed_under
       (unblock closed_under ++ [AAcquire 1 None; ADrained 1 None]
        ++ map (AReceive 1) [undisturbed])) !! 1%nat) = true.
Proof.
  assert (E : tasks closed_under !! 1%nat
    = Some (AtLock (Registered (request_of RECALL_REQ) 3 1) RECALL_REQ [x61]))
    by (vm_compute; reflexivity).
  split; [exact E|].
  apply (async_no_request_hangs None closed_under 1
           (AtLock (Registered (request_of RECALL_REQ) 3 1) RECALL_REQ [x61]) None None [undisturbed] (aio_start_reachable _ _));
    [vm_compute; discriminate|vm_compute; reflexivity|exact E|reflexivity|vm_compute; lia].
Defined.

Lemma connections_refine_transitions_witness :
  tasks all_cancelled !! 0%nat
  = Some (Plain (Finished (request_of RECALL_REQ) (Raise CancelledError)))
  /\ allowed None (abstraction all_cancelled).
Proof.
  split; [vm_compute; reflexivity|].
  exact (proj2 (connections_refine_transitions None) all_cancelled (aio_start_reachable _ _)).
Defined.
