(* ===== verification/Pool.v ===== *)
(** * Pool

    [pool.py] and [aio/pool.py]: a fixed set of connections handed out
    round-robin, with dead members replaced in place. A caller of the threaded
    pool advances by one action at a time (a lock taken or given back, one read or
    write of shared state, one dial); a caller of the asyncio pool by everything
    between two awaits. Connections are known by the number they were opened
    under, and can die at any time. *)

From S2P Require Import Prelude PyFloat PyValue Cbor Errors.
From stdpp Require Import gmap.

(** ** State *)

(** A pool, the connections opened so far (those below [next_conn]) and those of
    them that are closed, and three histories: the slots picked, the replacements
    made (slot, member replaced, member stored), and the connections dialed by
    [get_healthy]. [endpoint] says whether the pool knows where to dial. *)
Record pool : Type := mk_pool {
  clients : list nat;
  counter : nat;
  endpoint : bool;
  reconnect_locks : gmap nat nat;
  next_conn : nat;
  closed : gset nat;
  picks : list nat;
  replaced : list (nat * nat * nat);
  dialed : list nat
}.

(** [Pool.__init__] around connections that are already open. *)
Definition new_pool (members : list nat) (ep : bool) : pool :=
  mk_pool members 0 ep ∅ (S (list_max members)) ∅ [] [] [].

Definition set_lock (p : pool) (l : gmap nat nat) : pool :=
  mk_pool (clients p) (counter p) (endpoint p) l (next_conn p) (closed p) (picks p) (replaced p)
    (dialed p).

(** [size]. *)
Definition pool_size (p : pool) : nat := length (clients p).

(** [client.is_closed]. *)
Definition client_closed (p : pool) (c : nat) : bool := bool_decide (c ∈ closed p).

(** ** Opening and closing *)

Section Connect.
Local Open Scope Z_scope.

(** How an attempt to open members ends, the connections it opened on the way, and
    those of them it has closed again. *)
Record opening : Type := mk_opening {
  opened_pool : result exn (list nat);
  dialed_open : list nat;
  closed_again : list nat
}.

(** [except Exception] catches it: a cancellation is a [BaseException]. *)
Definition is_exception (e : exn) : bool :=
  match e with CancelledError => false | _ => true end.

(** [clients.extend(BrainClient.connect_with(...) for _ in range(size))]: the
    members opened, and the exception of the dial that failed, if one did. *)
Fixpoint extend_clients (size : nat) (dials : nat -> result exn nat) (n : nat)
    : list nat * option exn :=
  match size with
  | O => ([], None)
  | S size =>
      match dials n with
      | Raise e => ([], Some e)
      | Ok c => let '(cs, e) := extend_clients size dials (S n) in (c :: cs, e)
      end
  end.

(** [Pool.connect_with]; [dials n] is how the [n]-th dial ends. *)
Definition connect_with (size : Z) (dials : nat -> result exn nat) : opening :=
  if size <? 1 then mk_opening (Raise ProtocolError) [] []
  else
    match extend_clients (Z.to_nat size) dials 0 with
    | (cs, Some e) => mk_opening (Raise e) cs (if is_exception e then cs else [])
    | (cs, None) => mk_opening (Ok cs) cs []
    end.

(** Whether the caller of [AsyncPool.connect_with] is cancelled, and at which of its
    two awaits: on the [gather] of the dials, or in [_close_all], with the members
    that were closed all the same. *)
Inductive cancellation : Type :=
| NotCancelled
| WhileDialing
| WhileClosing (closed : nat -> bool).

(** The clients and the failures among the results of a [gather]. *)
Definition gathered (results : list (result exn nat)) : list nat :=
  omap (fun r => match r with Ok c => Some c | Raise _ => None end) results.

Definition gathered_failures (results : list (result exn nat)) : list exn :=
  omap (fun r => match r with Ok _ => None | Raise e => Some e end) results.

(** [AsyncPool.connect_with]: [gather] lets every dial end, those it cancels
    included, and a cancelled [gather] raises [CancelledError] in place of its
    results. *)
Definition aio_connect_with (size : Z) (dials : nat -> result exn nat) (cancel : cancellation)
    : opening :=
  if size <? 1 then mk_opening (Raise ProtocolError) [] []
  else
    let results := map dials (seq 0 (Z.to_nat size)) in
    let clients := gathered results in
    match cancel with
    | WhileDialing => mk_opening (Raise CancelledError) clients []
    | _ =>
        match gathered_failures results with
        | e :: _ =>
            match cancel with
            | WhileClosing closed => mk_opening (Raise CancelledError) clients
                                       (filter (fun c => closed c = true) clients)
            | _ => mk_opening (Raise e) clients clients
            end
        | [] => mk_opening (Ok clients) clients []
        end
    end.

End Connect.

(** ** Borrowing *)

(** The operations of a pool. *)
Inductive operation : Type := OpGet | OpGetHealthy | OpClose.

(** Where a caller stands: at [get] or [get_healthy]; with a slot picked; with
    the member of the slot read; waiting for the slot's reconnect lock; holding
    it, before the second read, after it, dialing, storing, and giving the lock
    back; returned; in [close], at slot [i] of the threaded loop, or with the
    members an asyncio [aclose] still has to close; or through with it. *)
Inductive borrower : Type :=
| Getting (healthy : bool)
| Picked (healthy : bool) (idx : nat)
| Checking (idx : nat) (c : nat)
| Waiting (idx : nat)
| Locked (idx : nat)
| Rechecking (idx : nat) (c : nat)
| Dialing (idx : nat)
| Storing (idx : nat) (fresh : nat)
| Unlocking (idx : nat) (r : result exn nat)
| Returned (r : result exn nat)
| Closing (i : nat)
| ClosingAll (remaining : list nat)
| ClosedAll.

Definition begin_operation (op : operation) : borrower :=
  match op with OpGet => Getting false | OpGetHealthy => Getting true | OpClose => Closing 0 end.

(** [next(self._counter) % len(self._clients)], under the pool's lock. *)
Definition pick (p : pool) : pool * result exn nat :=
  let n := counter p in
  match length (clients p) with
  | O => (mk_pool (clients p) (S n) (endpoint p) (reconnect_locks p) (next_conn p) (closed p)
            (picks p) (replaced p) (dialed p), Raise (PyExn ZeroDivisionError))
  | S _ =>
      let idx := (n mod length (clients p))%nat in
      (mk_pool (clients p) (S n) (endpoint p) (reconnect_locks p) (next_conn p) (closed p)
         (picks p ++ [idx]) (replaced p) (dialed p), Ok idx)
  end.

(** [self._clients[idx]]. *)
Definition member (p : pool) (idx : nat) : result exn nat :=
  match clients p !! idx with
  | Some c => Ok c
  | None => Raise (PyExn IndexError)
  end.

(** [BrainClient.connect_with]: a new connection, or an exception. *)
Definition dial (p : pool) (failure : option exn) : pool * result exn nat :=
  match failure with
  | Some e => (p, Raise e)
  | None =>
      (mk_pool (clients p) (counter p) (endpoint p) (reconnect_locks p) (S (next_conn p)) (closed p)
         (picks p) (replaced p) (dialed p ++ [next_conn p]), Ok (next_conn p))
  end.

(** [self._clients[idx] = fresh]. *)
Definition store (p : pool) (idx fresh : nat) : pool :=
  mk_pool (<[idx := fresh]> (clients p)) (counter p) (endpoint p) (reconnect_locks p) (next_conn p)
    (closed p) (picks p)
    (replaced p ++ match clients p !! idx with Some old => [(idx, old, fresh)] | None => [] end)
    (dialed p).

(** A connection that has been opened closes, for whatever reason. *)
Definition dies (p : pool) (c : nat) : pool :=
  mk_pool (clients p) (counter p) (endpoint p) (reconnect_locks p) (next_conn p)
    ({[c]} ∪ closed p) (picks p) (replaced p) (dialed p).

(** One action of caller [tid]; [failure] is the exception of a dial, if it
    fails. [None] while it waits for a lock, or has returned. *)
Definition borrower_step (p : pool) (tid : nat) (b : borrower) (failure : option exn)
    : option (pool * borrower) :=
  match b with
  | Getting healthy =>
      match pick p with
      | (p, Raise e) => Some (p, Returned (Raise e))
      | (p, Ok idx) => Some (p, Picked healthy idx)
      end
  | Picked healthy idx =>
      Some (p, match member p idx with
               | Ok c => if healthy then Checking idx c else Returned (Ok c)
               | Raise e => Returned (Raise e)
               end)
  | Checking idx c =>
      Some (p, if negb (client_closed p c) then Returned (Ok c)
               else if negb (endpoint p) then Returned (Ok c)
               else Waiting idx)
  | Waiting idx =>
      match reconnect_locks p !! idx with
      | Some _ => None
      | None => Some (set_lock p (<[idx := tid]> (reconnect_locks p)), Locked idx)
      end
  | Locked idx =>
      Some (p, match member p idx with
               | Ok c => Rechecking idx c
               | Raise e => Unlocking idx (Raise e)
               end)
  | Rechecking idx c =>
      Some (p, if negb (client_closed p c) then Unlocking idx (Ok c) else Dialing idx)
  | Dialing idx =>
      match dial p failure with
      | (p, Raise e) => Some (p, Unlocking idx (Raise e))
      | (p, Ok fresh) => Some (p, Storing idx fresh)
      end
  | Storing idx fresh => Some (store p idx fresh, Unlocking idx (Ok fresh))
  | Unlocking idx r => Some (set_lock p (delete idx (reconnect_locks p)), Returned r)
  | Closing i =>
      Some match clients p !! i with
           | Some c => (dies p c, Closing (S i))
           | None => (p, ClosedAll)
           end
  | Returned _ | ClosingAll _ | ClosedAll => None
  end.

(** ** The system *)

Record pool_system : Type := mk_pool_system { the_pool : pool; borrowers : gmap nat borrower }.

(** [_close_all], while members are left. *)
Definition still_closing (remaining : list nat) : borrower :=
  match remaining with [] => ClosedAll | _ => ClosingAll remaining end.

(** What happens next in the threaded pool: a call begins, a caller advances, or a
    connection dies. *)
Inductive pool_choice : Type :=
| PBegin (tid : nat) (op : operation)
| PAdvance (tid : nat) (failure : option exn)
| PDies (c : nat).

(** One choice of the scheduler, if the state allows it. *)
Definition pool_choose (s : pool_system) (ch : pool_choice) : option pool_system :=
  match ch with
  | PBegin tid op =>
      match borrowers s !! tid with
      | None => Some (mk_pool_system (the_pool s) (<[tid := begin_operation op]> (borrowers s)))
      | Some _ => None
      end
  | PAdvance tid failure =>
      match borrowers s !! tid with
      | Some b =>
          match borrower_step (the_pool s) tid b failure with
          | Some (p, b) => Some (mk_pool_system p (<[tid := b]> (borrowers s)))
          | None => None
          end
      | None => None
      end
  | PDies c =>
      if bool_decide (c < next_conn (the_pool s))%nat
      then Some (mk_pool_system (dies (the_pool s) c) (borrowers s))
      else None
  end.

Definition threaded_step (s s' : pool_system) : Prop := exists ch, pool_choose s ch = Some s'.

(** What only the callers of the asyncio pool do: one is cancelled while it waits
    for a reconnect lock or for its members to close; an [aclose] begins; it is
    done with one member, whichever [_close_all] gathered. *)
Inductive async_action : Type :=
| GiveUp (tid : nat)
| CloseAll (tid : nat)
| CloseOne (tid : nat) (c : nat).

Definition async_act (s : pool_system) (a : async_action) : option pool_system :=
  match a with
  | GiveUp tid =>
      match borrowers s !! tid with
      | Some (Waiting _) | Some (ClosingAll _) =>
          Some (mk_pool_system (the_pool s)
                  (<[tid := Returned (Raise CancelledError)]> (borrowers s)))
      | _ => None
      end
  | CloseAll tid =>
      match borrowers s !! tid with
      | None => Some (mk_pool_system (the_pool s)
                        (<[tid := still_closing (clients (the_pool s))]> (borrowers s)))
      | Some _ => None
      end
  | CloseOne tid c =>
      match borrowers s !! tid with
      | Some (ClosingAll remaining) =>
          if bool_decide (c ∈ remaining)
          then Some (mk_pool_system (dies (the_pool s) c)
                       (<[tid := still_closing (filter (fun c' => c' <> c) remaining)]> (borrowers s)))
          else None
      | _ => None
      end
  end.

(** A step of either pool. What is proved of every state these lead to holds of
    the threaded pool, whose steps are the first kind, and of the asyncio pool. *)
Inductive pool_step (s s' : pool_system) : Prop :=
| pool_step_threaded ch : pool_choose s ch = Some s' -> pool_step s s'
| pool_step_async a : async_act s a = Some s' -> pool_step s s'.

(** A pool around open connections, no two members the same. *)
Definition pool_reachable (members : list nat) (ep : bool) (s : pool_system) : Prop :=
  NoDup members /\ rtc pool_step (mk_pool_system (new_pool members ep) ∅) s.

Definition pool_play (s : pool_system) (schedule : list pool_choice) : pool_system :=
  fold_left (fun s ch => default s (pool_choose s ch)) schedule s.

(** ** The asyncio pool *)

(** [AsyncPool.get], which does not await. *)
Definition aio_get (p : pool) : pool * result exn nat :=
  match pick p with
  | (p, Raise e) => (p, Raise e)
  | (p, Ok idx) => (p, member p idx)
  end.

(** [AsyncPool.get_healthy] up to the reconnect lock. *)
Definition aio_begin_healthy (p : pool) : pool * borrower :=
  match pick p with
  | (p, Raise e) => (p, Returned (Raise e))
  | (p, Ok idx) =>
      (p, match member p idx with
          | Raise e => Returned (Raise e)
          | Ok c =>
              if negb (client_closed p c) then Returned (Ok c)
              else if negb (endpoint p) then Returned (Ok c)
              else Waiting idx
          end)
  end.

(** With the lock, up to the dial. *)
Definition aio_locked (p : pool) (tid idx : nat) : pool * borrower :=
  match member p idx with
  | Raise e => (p, Returned (Raise e))
  | Ok c =>
      if negb (client_closed p c) then (p, Returned (Ok c))
      else (set_lock p (<[idx := tid]> (reconnect_locks p)), Dialing idx)
  end.

(** From the end of the dial, or its cancellation, to the return. *)
Definition aio_dialed (p : pool) (idx : nat) (failure : option exn) : pool * borrower :=
  match dial p failure with
  | (p, Raise e) => (set_lock p (delete idx (reconnect_locks p)), Returned (Raise e))
  | (p, Ok fresh) =>
      let p := store p idx fresh in
      (set_lock p (delete idx (reconnect_locks p)), Returned (Ok fresh))
  end.

(** What the event loop does next. *)
Inductive aio_pool_choice : Type :=
| QGet (tid : nat)
| QHealthy (tid : nat)
| QLocked (tid : nat)
| QDialed (tid : nat) (failure : option exn)
| QCancel (tid : nat)
| QDies (c : nat)
| QClose (tid : nat)
| QCloseOne (tid : nat) (c : nat).

Definition aio_pool_choose (s : pool_system) (ch : aio_pool_choice) : option pool_system :=
  let set tid '(p, b) := Some (mk_pool_system p (<[tid := b]> (borrowers s))) in
  match ch with
  | QGet tid =>
      match borrowers s !! tid with
      | None => let '(p, r) := aio_get (the_pool s) in set tid (p, Returned r)
      | Some _ => None
      end
  | QHealthy tid =>
      match borrowers s !! tid with
      | None => set tid (aio_begin_healthy (the_pool s))
      | Some _ => None
      end
  | QLocked tid =>
      match borrowers s !! tid with
      | Some (Waiting idx) =>
          match reconnect_locks (the_pool s) !! idx with
          | None => set tid (aio_locked (the_pool s) tid idx)
          | Some _ => None
          end
      | _ => None
      end
  | QDialed tid failure =>
      match borrowers s !! tid with
      | Some (Dialing idx) => set tid (aio_dialed (the_pool s) idx failure)
      | _ => None
      end
  | QCancel tid =>
      match borrowers s !! tid with
      | Some (Dialing idx) => set tid (aio_dialed (the_pool s) idx (Some CancelledError))
      | _ => async_act s (GiveUp tid)
      end
  | QDies c => pool_choose s (PDies c)
  | QClose tid => async_act s (CloseAll tid)
  | QCloseOne tid c => async_act s (CloseOne tid c)
  end.

Definition aio_pool_step (s s' : pool_system) : Prop := exists ch, aio_pool_choose s ch = Some s'.

(** A schedule in which every choice has to be possible. *)
Fixpoint aio_pool_run (s : pool_system) (schedule : list aio_pool_choice) : option pool_system :=
  match schedule with
  | [] => Some s
  | ch :: schedule =>
      match aio_pool_choose s ch with
      | Some s => aio_pool_run s schedule
      | None => None
      end
  end.

(** The choices the threaded pool has no counterpart of. *)
Definition async_only (s : pool_system) (ch : aio_pool_choice) : bool :=
  match ch with
  | QCancel tid => match borrowers s !! tid with Some (Dialing _) => false | _ => true end
  | QClose _ | QCloseOne _ _ => true
  | _ => false
  end.
