(* ===== verification/PoolProperties.v ===== *)
(** * PoolProperties

    What the pool of [Pool] guarantees under any interleaving of its callers with
    each other and with dying connections: connections are handed out in strict
    rotation, a dead member is replaced by exactly one dial, [get_healthy] never
    hands out a connection that was dead when it was called, every call ends, and
    opening a pool leaks nothing. The asyncio pool is a coarser interleaving of
    the same actions. *)

From S2P Require Import Prelude PyFloat PyValue Cbor Errors Pool.
From stdpp Require Import gmap.

(** ** The slots and their locks *)

(** The slot whose reconnect lock a caller holds. *)
Definition in_slot (b : borrower) : option nat :=
  match b with
  | Locked idx | Rechecking idx _ | Dialing idx | Storing idx _ | Unlocking idx _ => Some idx
  | _ => None
  end.

(** The connection a caller has dialed and is about to store. *)
Definition storing (b : borrower) : option nat :=
  match b with Storing _ fresh => Some fresh | _ => None end.

(** The member of the slot is dead. *)
Definition slot_dead (p : pool) (idx : nat) : Prop :=
  exists c, clients p !! idx = Some c /\ c ∈ closed p.

Definition olds (p : pool) : list nat := map (fun r => snd (fst r)) (replaced p).
Definition news (p : pool) : list nat := map snd (replaced p).

Definition borrower_ok (p : pool) (b : borrower) : Prop :=
  match b with
  | Picked _ idx | Checking idx _ | Waiting idx | Locked idx => (idx < length (clients p))%nat
  | Rechecking idx c => clients p !! idx = Some c
  | Dialing idx => slot_dead p idx
  | Storing idx fresh =>
      slot_dead p idx /\ (fresh < next_conn p)%nat /\ (fresh ∉ clients p) /\ (fresh ∉ olds p)
  | ClosingAll remaining => Forall (fun c => (c < next_conn p)%nat) remaining
  | _ => True
  end.

Record pool_ok (members : list nat) (s : pool_system) : Prop := {
  ok_size : length (clients (the_pool s)) = length members;
  ok_known c : c ∈ clients (the_pool s) -> (c < next_conn (the_pool s))%nat;
  ok_distinct : NoDup (clients (the_pool s));
  ok_closed c : c ∈ closed (the_pool s) -> (c < next_conn (the_pool s))%nat;
  ok_lock idx tid : reconnect_locks (the_pool s) !! idx = Some tid
    <-> exists b, borrowers s !! tid = Some b /\ in_slot b = Some idx;
  ok_borrower tid b : borrowers s !! tid = Some b -> borrower_ok (the_pool s) b;
  ok_storing tid1 tid2 b1 b2 fresh : borrowers s !! tid1 = Some b1 -> borrowers s !! tid2 = Some b2 ->
    storing b1 = Some fresh -> storing b2 = Some fresh -> tid1 = tid2;
  ok_replaced old : old ∈ olds (the_pool s) ->
    old ∈ closed (the_pool s) /\ old ∉ clients (the_pool s);
  ok_once : NoDup (olds (the_pool s));
  ok_dialed fresh : fresh ∈ dialed (the_pool s) ->
    fresh ∈ news (the_pool s) \/ exists tid b, borrowers s !! tid = Some b /\ storing b = Some fresh
}.

(** A change of the pool that touches neither members nor locks, nor what was
    opened; connections may have died. *)
Definition pool_same (p p' : pool) : Prop :=
  clients p' = clients p /\ reconnect_locks p' = reconnect_locks p /\ next_conn p' = next_conn p
  /\ replaced p' = replaced p /\ dialed p' = dialed p /\ endpoint p' = endpoint p
  /\ closed p ⊆ closed p' /\ forall c, c ∈ closed p' -> c ∈ closed p \/ (c < next_conn p)%nat.

Lemma pool_same_refl p : pool_same p p.
Proof. split_and!; auto. Qed.

Lemma borrower_ok_same p p' b : pool_same p p' -> borrower_ok p b -> borrower_ok p' b.
Proof.
  intros (Ec & _ & En & Er & _ & _ & Hc & _).
  assert (Hd : forall idx, slot_dead p idx -> slot_dead p' idx).
  { intros idx (c & E & Hin). exists c. rewrite Ec. auto. }
  intros Hb. destruct b; cbn in *; unfold olds in *; rewrite ?Ec, ?En, ?Er; auto.
  destruct Hb as (? & ? & ? & ?). auto.
Qed.

Lemma dies_same p c : (c < next_conn p)%nat -> pool_same p (dies p c).
Proof.
  intros Hc. split_and!; try done; cbn.
  - set_solver.
  - intros c'. rewrite elem_of_union, elem_of_singleton. intros [-> |]; auto.
Qed.

(** A step of one caller that keeps its lock and what it is storing. *)
Lemma pool_ok_same members s p tid b' :
  pool_ok members s -> pool_same (the_pool s) p -> borrower_ok (the_pool s) b' ->
  (forall b, borrowers s !! tid = Some b -> in_slot b' = in_slot b /\ storing b' = storing b) ->
  (borrowers s !! tid = None -> in_slot b' = None /\ storing b' = None) ->
  pool_ok members (mk_pool_system p (<[tid := b']> (borrowers s))).
Proof.
  intros Ho Hp Hb Hs Hn. pose proof Hp as (Ec & El & En & Er & Ed & _ & Hc & Hc').
  assert (Hold : forall tid' b, <[tid := b']> (borrowers s) !! tid' = Some b ->
    in_slot b = None /\ storing b = None
    \/ exists b0, borrowers s !! tid' = Some b0 /\ in_slot b = in_slot b0 /\ storing b = storing b0).
  { intros tid' b [[<- <-]|[Hne E]]%lookup_insert_Some; [|by right; exists b].
    destruct (borrowers s !! tid) as [b0|] eqn:E0; [right; exists b0|left; auto].
    split; [done|]. by apply Hs. }
  assert (Hnew : forall tid' b0, borrowers s !! tid' = Some b0 ->
    exists b, <[tid := b']> (borrowers s) !! tid' = Some b
      /\ in_slot b = in_slot b0 /\ storing b = storing b0).
  { intros tid' b0 E. destruct (decide (tid' = tid)) as [->|Hne].
    - exists b'. rewrite lookup_insert_eq. split; [done|]. by apply Hs.
    - exists b0. by rewrite lookup_insert_ne. }
  split; cbn [the_pool borrowers]; unfold olds, news in *; rewrite ?Ec, ?El, ?En, ?Er, ?Ed; try apply Ho.
  - intros c [Hin|Hlt]%Hc'; [by apply (ok_closed _ _ Ho)|done].
  - intros idx tid'. rewrite (ok_lock _ _ Ho). split.
    + intros (b0 & E & Ei). destruct (Hnew _ _ E) as (b & E' & Ei' & _). exists b.
      split; [done|]. congruence.
    + intros (b & E & Ei). destruct (Hold _ _ E) as [[Ei' _]|(b0 & E0 & Ei' & _)]; [congruence|].
      exists b0. split; [done|]. congruence.
  - intros tid' b [[<- <-]|[Hne E]]%lookup_insert_Some; eapply borrower_ok_same; try done.
    by eapply (ok_borrower _ _ Ho).
  - intros tid1 tid2 b1 b2 fresh H1 H2 S1 S2.
    destruct (Hold _ _ H1) as [[_ E1]|(b3 & E1 & _ & F1)]; [congruence|].
    destruct (Hold _ _ H2) as [[_ E2]|(b4 & E2 & _ & F2)]; [congruence|].
    apply (ok_storing _ _ Ho tid1 tid2 b3 b4 fresh); congruence.
  - intros old Hin. destruct (ok_replaced _ _ Ho old Hin) as [H1 H2]. split; [by apply Hc|done].
  - intros fresh Hin. destruct (ok_dialed _ _ Ho fresh Hin) as [Hin'|(tid' & b0 & E & Es)]; [by left|].
    right. destruct (Hnew _ _ E) as (b & E' & _ & Es'). exists tid', b. split; [done|]. congruence.
Qed.

Lemma pool_ok_dies members s c :
  pool_ok members s -> (c < next_conn (the_pool s))%nat ->
  pool_ok members (mk_pool_system (dies (the_pool s) c) (borrowers s)).
Proof.
  intros Ho Hc. pose proof (dies_same _ _ Hc) as Hp.
  split; cbn [the_pool borrowers]; try apply Ho.
  - intros c'. cbn. rewrite elem_of_union, elem_of_singleton.
    intros [->|Hin]; [done|by apply (ok_closed _ _ Ho)].
  - intros tid b E. eapply borrower_ok_same; [done|]. by eapply (ok_borrower _ _ Ho).
  - intros old Hin. destruct (ok_replaced _ _ Ho old Hin) as [H1 H2].
    split; [|done]. apply elem_of_union. by right.
Qed.

(** A caller takes the free lock of its slot. *)
Lemma pool_ok_acquire members s tid idx :
  pool_ok members s -> borrowers s !! tid = Some (Waiting idx) ->
  reconnect_locks (the_pool s) !! idx = None ->
  pool_ok members (mk_pool_system
    (set_lock (the_pool s) (<[idx := tid]> (reconnect_locks (the_pool s))))
    (<[tid := Locked idx]> (borrowers s))).
Proof.
  intros Ho Et El. split; cbn [the_pool borrowers set_lock]; try apply Ho.
  - cbn. intros idx' tid'. split.
    + intros [[<- <-]|[Hne E]]%lookup_insert_Some; [exists (Locked idx); by rewrite lookup_insert_eq|].
      apply (ok_lock _ _ Ho) in E as (b & E & Ei). exists b.
      rewrite lookup_insert_ne; [done|]. intros ->. by simplify_eq.
    + intros (b & [[<- <-]|[Hne E]]%lookup_insert_Some & Ei).
      { injection Ei as ->. apply lookup_insert_eq. }
      assert (E' : reconnect_locks (the_pool s) !! idx' = Some tid')
        by (apply (ok_lock _ _ Ho); by exists b).
      rewrite lookup_insert_ne; [done|]. congruence.
  - intros tid' b [[<- <-]|[Hne E]]%lookup_insert_Some; [by apply (ok_borrower _ _ Ho tid _ Et)|].
    by apply (ok_borrower _ _ Ho tid').
  - intros tid1 tid2 b1 b2 fresh [[<- <-]|[Hne1 H1]]%lookup_insert_Some
      [[<- <-]|[Hne2 H2]]%lookup_insert_Some S1 S2; try done. by eapply (ok_storing _ _ Ho).
  - intros fresh Hin. destruct (ok_dialed _ _ Ho fresh Hin) as [Hin'|(tid' & b0 & E & Es)]; [by left|].
    right. exists tid', b0. rewrite lookup_insert_ne; [done|]. intros ->. by simplify_eq.
Qed.

(** A caller gives the lock back. *)
Lemma pool_ok_release members s tid idx r :
  pool_ok members s -> borrowers s !! tid = Some (Unlocking idx r) ->
  pool_ok members (mk_pool_system
    (set_lock (the_pool s) (delete idx (reconnect_locks (the_pool s))))
    (<[tid := Returned r]> (borrowers s))).
Proof.
  intros Ho Et. assert (El : reconnect_locks (the_pool s) !! idx = Some tid).
  { apply (ok_lock _ _ Ho). by exists (Unlocking idx r). }
  split; cbn [the_pool borrowers set_lock]; try apply Ho.
  - cbn. intros idx' tid'. split.
    + intros [Hne E]%lookup_delete_Some. apply (ok_lock _ _ Ho) in E as (b & E & Ei). exists b.
      rewrite lookup_insert_ne; [done|]. intros ->. by simplify_eq/=.
    + intros (b & [[<- <-]|[Hne E]]%lookup_insert_Some & Ei); [done|].
      assert (E' : reconnect_locks (the_pool s) !! idx' = Some tid')
        by (apply (ok_lock _ _ Ho); by exists b).
      rewrite lookup_delete_ne; [done|]. congruence.
  - intros tid' b [[<- <-]|[Hne E]]%lookup_insert_Some; [done|]. by apply (ok_borrower _ _ Ho tid').
  - intros tid1 tid2 b1 b2 fresh [[<- <-]|[Hne1 H1]]%lookup_insert_Some
      [[<- <-]|[Hne2 H2]]%lookup_insert_Some S1 S2; try done. by eapply (ok_storing _ _ Ho).
  - intros fresh Hin. destruct (ok_dialed _ _ Ho fresh Hin) as [Hin'|(tid' & b0 & E & Es)]; [by left|].
    right. exists tid', b0. rewrite lookup_insert_ne; [done|]. intros ->. by simplify_eq.
Qed.

(** A dial brings a new connection. *)
Lemma pool_ok_dial members s tid idx :
  pool_ok members s -> borrowers s !! tid = Some (Dialing idx) ->
  pool_ok members (mk_pool_system (fst (dial (the_pool s) None))
    (<[tid := Storing idx (next_conn (the_pool s))]> (borrowers s))).
Proof.
  intros Ho Et. pose proof (ok_borrower _ _ Ho _ _ Et) as Hd. cbn in Hd.
  assert (Hfresh : forall tid' b, borrowers s !! tid' = Some b ->
    storing b <> Some (next_conn (the_pool s))).
  { intros tid' b E Es. pose proof (ok_borrower _ _ Ho _ _ E) as Hb.
    destruct b; simplify_eq/=. lia. }
  split; cbn [the_pool borrowers dial fst]; try apply Ho; cbn.
  - intros c Hc%(ok_known _ _ Ho). lia.
  - intros c Hc%(ok_closed _ _ Ho). lia.
  - intros idx' tid'. rewrite (ok_lock _ _ Ho). split.
    + intros (b & E & Ei). destruct (decide (tid' = tid)) as [->|Hne].
      * simplify_eq/=. eexists. by rewrite lookup_insert_eq.
      * exists b. by rewrite lookup_insert_ne.
    + intros (b & [[<- <-]|[Hne E]]%lookup_insert_Some & Ei); [|by exists b].
      exists (Dialing idx). by simplify_eq/=.
  - intros tid' b [[<- <-]|[Hne E]]%lookup_insert_Some.
    + cbn. split_and!; [done|lia| |].
      * intros Hin%(ok_known _ _ Ho). lia.
      * intros Hin%(ok_replaced _ _ Ho). destruct Hin as [Hin%(ok_closed _ _ Ho) _]. lia.
    + pose proof (ok_borrower _ _ Ho _ _ E) as Hb. destruct b; try done; cbn in *.
      * destruct Hb as (? & ? & ? & ?). split_and!; try done. lia.
      * eapply Forall_impl; [done|]. cbn. lia.
  - intros tid1 tid2 b1 b2 fresh [[<- <-]|[Hne1 H1]]%lookup_insert_Some
      [[<- <-]|[Hne2 H2]]%lookup_insert_Some S1 S2; try done; simplify_eq/=.
    + by destruct (Hfresh _ _ H2).
    + by destruct (Hfresh _ _ H1).
    + by eapply (ok_storing _ _ Ho).
  - intros fresh. rewrite elem_of_app, list_elem_of_singleton. intros [Hin| ->].
    + destruct (ok_dialed _ _ Ho fresh Hin) as [Hin'|(tid' & b0 & E & Es)]; [by left|].
      right. exists tid', b0. rewrite lookup_insert_ne; [done|]. intros ->. by simplify_eq.
    + right. eexists tid, _. by rewrite lookup_insert_eq.
Qed.

(** What the members are after a store. *)
Lemma elem_of_store (l : list nat) i x y old :
  NoDup l -> l !! i = Some old -> x ∉ l -> y ∈ <[i := x]> l <-> y = x \/ (y ∈ l /\ y <> old).
Proof.
  intros Hn Hi Hx. split.
  - intros [j Ej]%list_elem_of_lookup. destruct (decide (j = i)) as [->|Hne].
    + apply list_lookup_insert_Some in Ej as [(_ & <- & _)|[? _]]; [by left|done].
    + rewrite list_lookup_insert_ne in Ej by done. right.
      split; [by eapply list_elem_of_lookup_2|]. intros ->.
      by apply Hne, (NoDup_lookup l j i old).
  - intros [->|[[j Ej]%list_elem_of_lookup Hne]].
    + apply list_elem_of_lookup. exists i. apply list_lookup_insert_eq. by eapply lookup_lt_Some.
    + apply list_elem_of_lookup. exists j. rewrite list_lookup_insert_ne; [done|]. congruence.
Qed.

Lemma NoDup_store (l : list nat) i x : NoDup l -> x ∉ l -> NoDup (<[i := x]> l).
Proof.
  intros Hn Hx. apply NoDup_alt. intros j k y Hj Hk.
  apply list_lookup_insert_Some in Hj as [(<- & <- & _)|[Hj Ej]];
    apply list_lookup_insert_Some in Hk as [(<- & E & _)|[Hk Ek]]; try done.
  - by apply list_elem_of_lookup_2 in Ek.
  - subst. by apply list_elem_of_lookup_2 in Ej.
  - by eapply (NoDup_lookup l).
Qed.

(** A caller stores what it has dialed. *)
Lemma pool_ok_store members s tid idx fresh :
  pool_ok members s -> borrowers s !! tid = Some (Storing idx fresh) ->
  pool_ok members (mk_pool_system (store (the_pool s) idx fresh)
    (<[tid := Unlocking idx (Ok fresh)]> (borrowers s))).
Proof.
  intros Ho Et. destruct (ok_borrower _ _ Ho _ _ Et) as ((old & Hold & Hdead) & Hlt & Hnin & Hnold).
  assert (Hcl : forall c, c ∈ <[idx := fresh]> (clients (the_pool s))
                  <-> c = fresh \/ (c ∈ clients (the_pool s) /\ c <> old)).
  { intros c. by apply elem_of_store; [apply (ok_distinct _ _ Ho)|..]. }
  assert (El : reconnect_locks (the_pool s) !! idx = Some tid)
    by (apply (ok_lock _ _ Ho); by exists (Storing idx fresh)).
  split; cbn [the_pool borrowers store]; unfold olds, news; cbn; rewrite ?Hold, ?map_app; cbn;
    try apply Ho.
  - rewrite length_insert. apply Ho.
  - intros c [->|[Hc _]]%Hcl; [done|by apply (ok_known _ _ Ho)].
  - apply NoDup_store; [apply Ho|done].
  - intros idx' tid'. rewrite (ok_lock _ _ Ho). split.
    + intros (b & E & Ei). destruct (decide (tid' = tid)) as [->|Hne].
      * simplify_eq/=. eexists. by rewrite lookup_insert_eq.
      * exists b. by rewrite lookup_insert_ne.
    + intros (b & [[<- <-]|[Hne E]]%lookup_insert_Some & Ei); [|by exists b].
      exists (Storing idx fresh). by simplify_eq/=.
  - intros tid' b [[<- <-]|[Hne E]]%lookup_insert_Some; [done|].
    pose proof (ok_borrower _ _ Ho _ _ E) as Hb.
    assert (Hother : forall idx', in_slot b = Some idx' -> idx' <> idx).
    { intros idx' Ei ->. apply Hne. assert (E' : reconnect_locks (the_pool s) !! idx = Some tid')
        by (apply (ok_lock _ _ Ho); by exists b). congruence. }
    assert (Hdd : forall idx', idx' <> idx -> slot_dead (the_pool s) idx' ->
      slot_dead (store (the_pool s) idx fresh) idx').
    { intros idx' Hi (c & Hc & Hcd). exists c. cbn. by rewrite list_lookup_insert_ne. }
    destruct b; cbn in *; rewrite ?length_insert; try done.
    + rewrite list_lookup_insert_ne; [done|]. intros ->. by eapply Hother.
    + apply Hdd; [by apply Hother|done].
    + destruct Hb as (Hd & Hl & Hn1 & Hn2). split_and!; [apply Hdd; [by apply Hother|done]|done|..].
      * rewrite Hcl. intros [->|[? _]]; [|done].
        apply Hne. symmetry. by eapply (ok_storing _ _ Ho tid' tid).
      * unfold olds. cbn. rewrite Hold, map_app, elem_of_app. cbn. rewrite list_elem_of_singleton.
        intros [?| ->]; [done|]. by apply Hn1, (list_elem_of_lookup_2 _ idx).
  - intros tid1 tid2 b1 b2 f [[<- <-]|[Hne1 H1]]%lookup_insert_Some
      [[<- <-]|[Hne2 H2]]%lookup_insert_Some S1 S2; try done. by eapply (ok_storing _ _ Ho).
  - intros o. rewrite elem_of_app, list_elem_of_singleton. intros [Ho'| ->].
    + destruct (ok_replaced _ _ Ho o Ho') as [H1 H2]. split; [done|]. rewrite Hcl.
      intros [->|[? _]]; [by apply Hnold|done].
    + split; [done|]. rewrite Hcl. intros [->|[_ ?]]; [|done].
      by apply Hnin, (list_elem_of_lookup_2 _ idx).
  - apply NoDup_app. split_and!; [apply Ho| |apply NoDup_singleton].
    intros o Hin ->%list_elem_of_singleton. destruct (ok_replaced _ _ Ho old Hin) as [_ H2].
    by apply H2, (list_elem_of_lookup_2 _ idx).
  - intros f Hin. rewrite elem_of_app, list_elem_of_singleton.
    destruct (ok_dialed _ _ Ho f Hin) as [Hin'|(tid' & b0 & E & Es)]; [by left; left|].
    destruct (decide (tid' = tid)) as [->|Hne]; [left; right; by simplify_eq/=|].
    right. exists tid', b0. by rewrite lookup_insert_ne.
Qed.

Lemma pick_same p : pool_same p (fst (pick p)).
Proof. unfold pick. destruct (length (clients p)); split_and!; auto. Qed.

Lemma pick_slot p p' idx : pick p = (p', Ok idx) -> (idx < length (clients p))%nat.
Proof.
  unfold pick. destruct (length (clients p)) as [|n] eqn:E; [done|].
  intros Ep. assert (idx = (counter p mod S n)%nat) as -> by congruence.
  by apply Nat.mod_upper_bound.
Qed.

Lemma member_lookup p idx c : member p idx = Ok c <-> clients p !! idx = Some c.
Proof. unfold member. destruct (clients p !! idx); split; congruence. Qed.

(** ** Every choice preserves the invariant *)

Lemma pool_ok_advance members s tid b failure p b' :
  pool_ok members s -> borrowers s !! tid = Some b ->
  borrower_step (the_pool s) tid b failure = Some (p, b') ->
  pool_ok members (mk_pool_system p (<[tid := b']> (borrowers s))).
Proof.
  intros Ho Et E. pose proof (ok_borrower _ _ Ho _ _ Et) as Hb.
  assert (Hquiet : forall p' b1, pool_same (the_pool s) p' -> borrower_ok (the_pool s) b1 ->
    in_slot b1 = in_slot b -> storing b1 = storing b ->
    pool_ok members (mk_pool_system p' (<[tid := b1]> (borrowers s)))).
  { intros p' b1 Hp Hb1 Hi Hs. apply pool_ok_same; [done..| |congruence]. intros b2 E2. by simplify_eq. }
  pose proof (pool_same_refl (the_pool s)) as Hrefl.
  destruct b as [h|h idx|idx c|idx|idx|idx c|idx|idx fresh|idx r|r|i|l|]; cbn [borrower_step] in E;
    try discriminate.
  - pose proof (pick_same (the_pool s)) as Hp. destruct (pick (the_pool s)) as [p1 [idx|e]] eqn:Ep;
      simplify_eq; apply Hquiet; try done. by apply pick_slot in Ep.
  - simplify_eq. apply Hquiet; try done; destruct (member _ _); try done; by destruct h.
  - simplify_eq. by apply Hquiet; repeat case_match.
  - destruct (_ !! idx) eqn:El; simplify_eq. by apply pool_ok_acquire.
  - simplify_eq. apply Hquiet; try done; destruct (member _ _) as [c|] eqn:Em; try done.
    by apply member_lookup.
  - simplify_eq. apply Hquiet; try done; unfold client_closed; case_bool_decide; try done.
    by exists c.
  - destruct failure as [e|]; simplify_eq/=; [by apply Hquiet|]. by apply pool_ok_dial.
  - simplify_eq. by apply pool_ok_store.
  - simplify_eq. by apply pool_ok_release.
  - destruct (clients (the_pool s) !! i) as [c|] eqn:Ec; simplify_eq; apply Hquiet; try done.
    apply dies_same. by eapply (ok_known _ _ Ho), list_elem_of_lookup_2.
Qed.

Lemma still_closing_ok p l : Forall (fun c => (c < next_conn p)%nat) l -> borrower_ok p (still_closing l).
Proof. by destruct l. Qed.

Lemma pool_ok_choose members s ch s' :
  pool_ok members s -> pool_choose s ch = Some s' -> pool_ok members s'.
Proof.
  intros Ho E. destruct ch as [tid op|tid f|c]; cbn [pool_choose] in E.
  - destruct (borrowers s !! tid) eqn:Et; simplify_eq.
    apply pool_ok_same; [done|apply pool_same_refl|by destruct op|congruence|by destruct op].
  - destruct (borrowers s !! tid) as [b|] eqn:Et; [|done].
    destruct (borrower_step _ _ _ _) as [[p b']|] eqn:Eb; simplify_eq. by eapply pool_ok_advance.
  - case_bool_decide; simplify_eq. by apply pool_ok_dies.
Qed.

Lemma pool_ok_async members s a s' :
  pool_ok members s -> async_act s a = Some s' -> pool_ok members s'.
Proof.
  intros Ho E. destruct a as [tid|tid|tid c]; cbn [async_act] in E.
  - destruct (borrowers s !! tid) as [[]|] eqn:Et; simplify_eq;
      (apply pool_ok_same; [done|apply pool_same_refl|done| |done]; intros b Eb; by simplify_eq).
  - destruct (borrowers s !! tid) eqn:Et; simplify_eq.
    apply pool_ok_same; [done|apply pool_same_refl| |congruence|by destruct (clients (the_pool s))].
    apply still_closing_ok. apply Forall_forall. by apply (ok_known _ _ Ho).
  - destruct (borrowers s !! tid) as [[]|] eqn:Et; try done. case_bool_decide as Hin; simplify_eq.
    pose proof (ok_borrower _ _ Ho _ _ Et) as Hb. cbn in Hb.
    apply pool_ok_same; [done| | | |congruence].
    + apply dies_same. by eapply Forall_forall in Hb.
    + apply still_closing_ok. rewrite Forall_forall in Hb |- *.
      intros x [_ Hx]%list_elem_of_filter. by apply Hb.
    + intros b Eb. simplify_eq. by destruct (filter _ _).
Qed.

Lemma pool_ok_step members s s' : pool_ok members s -> pool_step s s' -> pool_ok members s'.
Proof. intros Ho [ch E|a E]; [by eapply pool_ok_choose|by eapply pool_ok_async]. Qed.

Lemma pool_ok_start members ep :
  NoDup members -> pool_ok members (mk_pool_system (new_pool members ep) ∅).
Proof.
  intros Hn. split; cbn [the_pool borrowers new_pool clients reconnect_locks next_conn closed];
    unfold olds, news; cbn; try done.
  - intros c Hc. pose proof (list_max_le members (list_max members)) as [Hm _].
    specialize (Hm (le_n _)). rewrite List.Forall_forall in Hm.
    apply Nat.lt_succ_r, Hm. by apply list_elem_of_In.
  - intros idx tid. split; [by intros ?%lookup_empty_Some|]. intros (b & E & _). by simplify_map_eq.
  - intros old Hin. by apply elem_of_nil in Hin.
  - constructor.
  - intros fresh Hin. by apply elem_of_nil in Hin.
Qed.

Lemma pool_reachable_ok members ep s : pool_reachable members ep s -> pool_ok members s.
Proof.
  intros [Hn Hr]. refine (rtc_ind_r (pool_ok members) _ _ _ s Hr).
  - by apply pool_ok_start.
  - intros s1 s2 _ Hst Ho. by eapply pool_ok_step.
Qed.

(** ** Reconnecting *)

(** C11: a dead member is replaced by one dial: whatever the interleaving, the pool
    keeps its size and never holds a connection twice; at most one caller at a
    time is past the reconnect lock of a slot, and it gives the lock back; every
    member replaced was dead and is replaced once; and every connection
    [get_healthy] dialed has been stored, or is about to be by the caller that
    dialed it, so none is opened to be thrown away. *)
Theorem dead_member_replaced_once members ep s :
  pool_reachable members ep s ->
  pool_size (the_pool s) = length members /\ NoDup (clients (the_pool s))
  /\ (forall idx tid, reconnect_locks (the_pool s) !! idx = Some tid
        <-> exists b, borrowers s !! tid = Some b /\ in_slot b = Some idx)
  /\ NoDup (olds (the_pool s)) /\ (forall old, old ∈ olds (the_pool s) -> old ∈ closed (the_pool s))
  /\ (forall fresh, fresh ∈ dialed (the_pool s) ->
        fresh ∈ news (the_pool s)
        \/ exists tid idx, borrowers s !! tid = Some (Storing idx fresh)).
Proof.
  intros Ho%pool_reachable_ok.
  split_and!.
  - apply (ok_size _ _ Ho).
  - apply (ok_distinct _ _ Ho).
  - apply (ok_lock _ _ Ho).
  - apply (ok_once _ _ Ho).
  - intros old Hin. by apply (ok_replaced _ _ Ho).
  - intros fresh [Hin|(tid & b & E & Es)]%(ok_dialed _ _ Ho); [by left|right].
    exists tid. destruct b; simplify_eq/=. by eexists.
Qed.

(** ** What [get_healthy] hands out *)

(** A caller that will not be handed [c]. *)
Definition avoids (c : nat) (b : borrower) : Prop :=
  match b with
  | Returned (Ok c') | Unlocking _ (Ok c') | Storing _ c' => c' <> c
  | Getting healthy | Picked healthy _ => healthy = true
  | _ => True
  end.

Lemma borrower_step_avoids p tid b f p' b' c :
  c ∈ closed p -> (c < next_conn p)%nat -> endpoint p = true -> avoids c b ->
  borrower_step p tid b f = Some (p', b') ->
  avoids c b' /\ c ∈ closed p' /\ endpoint p' = true.
Proof.
  intros Hc Hlt He Ha E.
  destruct b as [h|h idx|idx c0|idx|idx|idx c0|idx|idx fresh|idx r|r|i|l|]; cbn [borrower_step] in E;
    try discriminate; cbn in Ha.
  - unfold pick in E. by destruct (length (clients p)); simplify_eq.
  - simplify_eq. by destruct (member _ _).
  - simplify_eq. split_and!; try done. unfold client_closed. case_bool_decide; cbn.
    + by rewrite He.
    + congruence.
  - by case_match; simplify_eq.
  - simplify_eq. by destruct (member _ _).
  - simplify_eq. split_and!; try done. unfold client_closed. case_bool_decide; cbn; congruence.
  - destruct f as [e|]; simplify_eq/=; [done|]. split_and!; try done. lia.
  - by simplify_eq.
  - by simplify_eq.
  - case_match; simplify_eq; [|done]. split_and!; try done. cbn. apply elem_of_union. by right.
Qed.

Lemma borrower_step_closed p tid b f p' b' :
  borrower_step p tid b f = Some (p', b') -> closed p ⊆ closed p' /\ endpoint p' = endpoint p.
Proof.
  intros E. destruct b; cbn [borrower_step] in E; simplify_eq; try done;
    unfold pick, dial in E; repeat case_match; simplify_eq; try done.
  split; [|done]. intros x Hx. apply elem_of_union. by right.
Qed.

Lemma pool_step_endpoint s s' :
  pool_step s s' -> endpoint (the_pool s') = endpoint (the_pool s).
Proof.
  intros [ch E|a E]; [destruct ch; cbn [pool_choose] in E|destruct a; cbn [async_act] in E];
    repeat case_match; simplify_eq; try done.
  by eapply borrower_step_closed.
Qed.

Lemma pool_reachable_endpoint members ep s : pool_reachable members ep s -> endpoint (the_pool s) = ep.
Proof.
  intros [_ Hr]. refine (rtc_ind_r (fun s => endpoint (the_pool s) = ep) _ _ _ s Hr); [done|].
  intros s1 s2 _ Hst <-. by eapply pool_step_endpoint.
Qed.

Lemma pool_choose_avoids members s ch s' tid b c :
  pool_ok members s -> pool_choose s ch = Some s' ->
  c ∈ closed (the_pool s) -> endpoint (the_pool s) = true ->
  borrowers s !! tid = Some b -> avoids c b ->
  c ∈ closed (the_pool s') /\ endpoint (the_pool s') = true
  /\ exists b', borrowers s' !! tid = Some b' /\ avoids c b'.
Proof.
  intros Ho E Hc He Et Ha. pose proof (ok_closed _ _ Ho _ Hc) as Hlt.
  destruct ch as [tid' op|tid' f|c']; cbn [pool_choose] in E.
  - destruct (borrowers s !! tid') eqn:E'; simplify_eq. split_and!; try done. exists b.
    split; [|done]. cbn. rewrite lookup_insert_ne; [done|congruence].
  - destruct (borrowers s !! tid') as [b0|] eqn:E'; [|done].
    destruct (borrower_step _ _ _ _) as [[p b1]|] eqn:Eb; simplify_eq. cbn [the_pool borrowers].
    destruct (borrower_step_closed _ _ _ _ _ _ Eb) as [Hp1 Hp2]. specialize (Hp1 _ Hc).
    rewrite He in Hp2. split_and!; try done. destruct (decide (tid' = tid)) as [->|Hne].
    + simplify_eq. exists b1. rewrite lookup_insert_eq. split; [done|].
      apply (borrower_step_avoids _ _ _ _ _ _ c Hc Hlt He Ha Eb).
    + exists b. by rewrite lookup_insert_ne.
  - case_bool_decide; simplify_eq. cbn. split_and!; [apply elem_of_union; by right|done|by exists b].
Qed.

Lemma async_act_avoids s a s' tid b c :
  async_act s a = Some s' ->
  c ∈ closed (the_pool s) -> endpoint (the_pool s) = true ->
  borrowers s !! tid = Some b -> avoids c b ->
  c ∈ closed (the_pool s') /\ endpoint (the_pool s') = true
  /\ exists b', borrowers s' !! tid = Some b' /\ avoids c b'.
Proof.
  intros E Hc He Et Ha. destruct a as [tid'|tid'|tid' c']; cbn [async_act] in E.
  - assert (s' = mk_pool_system (the_pool s)
                   (<[tid' := Returned (Raise CancelledError)]> (borrowers s))) as ->
      by (repeat case_match; simplify_eq; done).
    split_and!; try done. destruct (decide (tid' = tid)) as [->|Hne]; cbn.
    + eexists. by rewrite lookup_insert_eq.
    + exists b. by rewrite lookup_insert_ne.
  - destruct (borrowers s !! tid') eqn:E'; simplify_eq. split_and!; try done. exists b.
    split; [|done]. cbn. rewrite lookup_insert_ne; [done|congruence].
  - destruct (borrowers s !! tid') as [[]|] eqn:E'; try done. case_bool_decide; simplify_eq. cbn.
    split_and!; [apply elem_of_union; by right|done|].
    destruct (decide (tid' = tid)) as [->|Hne].
    + eexists. rewrite lookup_insert_eq. split; [done|]. by destruct (filter _ _).
    + exists b. by rewrite lookup_insert_ne.
Qed.

(** A caller of a pool that does not know where to dial. *)
Definition falls_back (members : list nat) (b : borrower) : Prop :=
  match b with
  | Checking _ c | Returned (Ok c) => c ∈ members
  | Waiting _ | Locked _ | Rechecking _ _ | Dialing _ | Storing _ _ | Unlocking _ _ => False
  | _ => True
  end.

Record fallback (members : list nat) (s : pool_system) : Prop := {
  fallback_endpoint : endpoint (the_pool s) = false;
  fallback_clients : clients (the_pool s) = members;
  fallback_dialed : dialed (the_pool s) = [];
  fallback_borrower tid b : borrowers s !! tid = Some b -> falls_back members b
}.

Lemma fallback_insert members s p tid b :
  fallback members s -> endpoint p = false -> clients p = members -> dialed p = [] ->
  falls_back members b -> fallback members (mk_pool_system p (<[tid := b]> (borrowers s))).
Proof.
  intros Hf He Hc Hd Hb. split; [done..|]. cbn.
  intros tid' b' [[<- <-]|[_ E]]%lookup_insert_Some; [done|by eapply (fallback_borrower _ _ Hf)].
Qed.

Lemma fallback_advance members p tid b f p' b' :
  endpoint p = false -> clients p = members -> dialed p = [] -> falls_back members b ->
  borrower_step p tid b f = Some (p', b') ->
  endpoint p' = false /\ clients p' = members /\ dialed p' = [] /\ falls_back members b'.
Proof.
  intros He Hc Hd Hb E.
  destruct b as [h|h idx|idx c0|idx|idx|idx c0|idx|idx fresh|idx r|r|i|l|]; cbn [borrower_step] in E;
    cbn in Hb; try done.
  - unfold pick in E. by destruct (length (clients p)); simplify_eq.
  - unfold member in E. destruct (clients p !! idx) as [c|] eqn:Ei; simplify_eq; split_and!; try done.
    apply list_elem_of_lookup_2 in Ei. by destruct h.
  - rewrite He in E. cbn in E. simplify_eq. split_and!; try done. by destruct (negb _).
  - by case_match; simplify_eq.
Qed.

Lemma fallback_step members s s' : fallback members s -> pool_step s s' -> fallback members s'.
Proof.
  intros Hf Hst. pose proof Hf as [He Hc Hd Hb].
  destruct Hst as [[tid op|tid f|c] E|[tid|tid|tid c] E]; cbn [pool_choose async_act] in E.
  - destruct (borrowers s !! tid); simplify_eq. apply fallback_insert; try done. by destruct op.
  - destruct (borrowers s !! tid) as [b|] eqn:Et; [|done].
    destruct (borrower_step _ _ _ _) as [[p b']|] eqn:Eb; simplify_eq.
    destruct (fallback_advance _ _ _ _ _ _ _ He eq_refl Hd (Hb _ _ Et) Eb) as (? & ? & ? & ?).
    by apply fallback_insert.
  - case_bool_decide; by simplify_eq.
  - destruct (borrowers s !! tid) as [[]|]; simplify_eq; (apply fallback_insert; try done).
  - destruct (borrowers s !! tid); simplify_eq. apply fallback_insert; try done.
    by destruct (clients (the_pool s)).
  - destruct (borrowers s !! tid) as [[]|]; try done. case_bool_decide; simplify_eq.
    apply fallback_insert; try done. by destruct (filter _ _).
Qed.

Lemma fallback_reachable members s : pool_reachable members false s -> fallback members s.
Proof.
  intros [_ Hr]. refine (rtc_ind_r (fallback members) _ _ _ s Hr).
  - by split.
  - intros s1 s2 _ Hst Hf. by eapply fallback_step.
Qed.

(** C12: a call of [get_healthy] on a pool that knows where to dial never hands out
    a connection that was already dead when it was called, however the other
    callers and further deaths interleave with it; on a pool built without connect
    parameters it dials nothing and replaces nothing, and hands out one of the
    original members, dead or alive. *)
Theorem get_healthy_avoids_the_dead members ep s0 tid s1 s c' :
  pool_reachable members ep s0 ->
  pool_choose s0 (PBegin tid OpGetHealthy) = Some s1 -> rtc pool_step s1 s ->
  borrowers s !! tid = Some (Returned (Ok c')) ->
  (ep = true -> c' ∉ closed (the_pool s0))
  /\ (ep = false -> c' ∈ members /\ clients (the_pool s) = members /\ dialed (the_pool s) = []).
Proof.
  intros Hr E Hs Ht. split.
  - intros -> Hc. pose proof (pool_reachable_endpoint _ _ _ Hr) as He.
    pose proof (pool_reachable_ok _ _ _ Hr) as Ho0. pose proof (pool_ok_choose _ _ _ _ Ho0 E) as Ho1.
    cbn [pool_choose] in E. destruct (borrowers s0 !! tid); simplify_eq.
    assert (Hi : pool_ok members s /\ c' ∈ closed (the_pool s) /\ endpoint (the_pool s) = true
      /\ exists b, borrowers s !! tid = Some b /\ avoids c' b).
    { revert Hs Ht. refine (fun Hs _ => rtc_ind_r (fun s => pool_ok members s
        /\ c' ∈ closed (the_pool s) /\ endpoint (the_pool s) = true
        /\ exists b, borrowers s !! tid = Some b /\ avoids c' b) _ _ _ s Hs).
      - split_and!; try done. exists (Getting true). split; [apply lookup_insert_eq|done].
      - intros s2 s3 _ Hst (Ho & H1 & H2 & b & H3 & H4). split; [by eapply pool_ok_step|].
        destruct Hst; [by eapply pool_choose_avoids|by eapply async_act_avoids]. }
    destruct Hi as (_ & _ & _ & b & Eb & Ha). by simplify_eq/=.
  - intros ->. destruct Hr as [Hn Hr].
    assert (Hf : fallback members s).
    { apply fallback_reachable. split; [done|]. etrans; [done|].
      eapply rtc_l; [by eapply pool_step_threaded|done]. }
    split_and!; [apply (fallback_borrower _ _ Hf _ _ Ht)|apply Hf..].
Qed.

(** ** Rotation *)

(** How often a slot has been picked. *)
Definition picked (p : pool) (idx : nat) : nat := length (filter (eq idx) (picks p)).

Definition rotation (n k : nat) : list nat := map (fun i => i mod n)%nat (seq 0 k).

Lemma rotation_S n k : rotation n (S k) = rotation n k ++ [(k mod n)%nat].
Proof. unfold rotation. by rewrite seq_S, map_app. Qed.

(** The rounds that are over, and the one in progress. *)
Lemma rotation_count n k idx :
  (idx < n)%nat ->
  length (filter (eq idx) (rotation n k))
  = (k / n + if decide (idx < k mod n)%nat then 1 else 0)%nat.
Proof.
  intros Hi. induction k as [|k IH].
  - cbn -[Nat.div Nat.modulo]. rewrite Nat.Div0.mod_0_l, Nat.Div0.div_0_l.
    by rewrite decide_False by lia.
  - rewrite rotation_S, filter_app, length_app, IH. clear IH.
    pose proof (Nat.div_mod k n ltac:(lia)) as Hk. pose proof (Nat.mod_upper_bound k n ltac:(lia)) as Hb.
    rewrite filter_cons. cbn [filter list_filter].
    set (q := (k / n)%nat) in *. set (r := (k mod n)%nat) in *.
    destruct (decide (S r = n)) as [Hn|Hn].
    + assert (Eq : (S k / n = S q)%nat) by (symmetry; apply (Nat.div_unique (S k) n (S q) 0); lia).
      assert (Er : (S k mod n = 0)%nat) by (symmetry; apply (Nat.mod_unique (S k) n (S q) 0); lia).
      rewrite Eq, Er. do 3 case_decide; cbn; lia.
    + assert (Eq : (S k / n = q)%nat) by (symmetry; apply (Nat.div_unique (S k) n q (S r)); lia).
      assert (Er : (S k mod n = S r)%nat) by (symmetry; apply (Nat.mod_unique (S k) n q (S r)); lia).
      rewrite Eq, Er. do 3 case_decide; cbn; lia.
Qed.

Definition picks_ok (members : list nat) (p : pool) : Prop :=
  length (clients p) = length members
  /\ (members <> [] -> picks p = rotation (length members) (counter p)).

Lemma borrower_step_picks members p tid b f p' b' :
  borrower_step p tid b f = Some (p', b') -> picks_ok members p -> picks_ok members p'.
Proof.
  intros E [Hl Hp]. destruct b as [h|h idx|idx c|idx|idx|idx c|idx|idx fresh|idx r|r|i|l|];
    cbn [borrower_step] in E; try discriminate; try (by simplify_eq).
  - unfold pick in E. destruct (length (clients p)) as [|n] eqn:En; simplify_eq.
    + split; [by cbn; rewrite En|]. intros Hne. by destruct members.
    + split; [by cbn; rewrite En|]. intros Hne. cbn [picks counter]. rewrite Hp by done.
      by rewrite rotation_S, <- Hl.
  - by case_match; simplify_eq.
  - by destruct f; simplify_eq/=.
  - simplify_eq. split; [by cbn; rewrite length_insert|done].
  - by case_match; simplify_eq.
Qed.

Lemma pool_reachable_picks members ep s : pool_reachable members ep s -> picks_ok members (the_pool s).
Proof.
  intros [_ Hr]. refine (rtc_ind_r (fun s => picks_ok members (the_pool s)) _ _ _ s Hr); [done|].
  intros s1 s2 _ [ch E|a E] Hp;
    [destruct ch; cbn [pool_choose] in E|destruct a; cbn [async_act] in E];
    repeat case_match; simplify_eq; try done.
  by eapply borrower_step_picks.
Qed.

(** C24: connections are handed out in strict rotation: the [i]-th pick of a pool
    of [n] members, whichever caller makes it, is slot [i mod n]; so no slot is
    ever picked more than once more than another. *)
Theorem round_robin_is_fair members ep s :
  pool_reachable members ep s -> members <> [] ->
  picks (the_pool s) = map (fun i => i mod length members)%nat (seq 0 (counter (the_pool s)))
  /\ forall idx1 idx2, (idx1 < length members)%nat -> (idx2 < length members)%nat ->
       (picked (the_pool s) idx1 <= picked (the_pool s) idx2 + 1)%nat.
Proof.
  intros [_ Hp]%pool_reachable_picks Hne. split; [by apply Hp|]. intros idx1 idx2 H1 H2.
  unfold picked. rewrite Hp, !rotation_count by done. repeat case_decide; lia.
Qed.

(** ** Termination *)

(** How many more actions a caller has at most; [n] is the size of the pool. *)
Definition rank (n : nat) (b : borrower) : nat :=
  match b with
  | Getting _ => 9 | Picked _ _ => 8 | Checking _ _ => 7 | Waiting _ => 6 | Locked _ => 5
  | Rechecking _ _ => 4 | Dialing _ => 3 | Storing _ _ => 2 | Unlocking _ _ => 1
  | Returned _ | ClosedAll => 0
  | Closing i => S (n - i)
  | ClosingAll remaining => S (length remaining)
  end.

Definition total_rank (s : pool_system) : nat :=
  map_fold (fun _ b acc => rank (length (clients (the_pool s))) b + acc)%nat 0 (borrowers s).

(** A caller takes an action of its own. *)
Definition caller_step (s s' : pool_system) : Prop :=
  (exists tid failure, pool_choose s (PAdvance tid failure) = Some s')
  \/ (exists tid c, async_act s (CloseOne tid c) = Some s').

Lemma borrower_step_rank p tid b f p' b' :
  borrower_step p tid b f = Some (p', b') ->
  (rank (length (clients p)) b' < rank (length (clients p)) b)%nat
  /\ length (clients p') = length (clients p).
Proof.
  intros E. destruct b as [h|h idx|idx c|idx|idx|idx c|idx|idx fresh|idx r|r|i|l|];
    cbn [borrower_step] in E; try discriminate; simplify_eq.
  - unfold pick in E. repeat case_match; simplify_eq; cbn; lia.
  - repeat case_match; cbn; lia.
  - repeat case_match; cbn; lia.
  - repeat case_match; simplify_eq; cbn; lia.
  - repeat case_match; cbn; lia.
  - repeat case_match; cbn; lia.
  - destruct f; simplify_eq/=; lia.
  - cbn. rewrite length_insert. lia.
  - cbn. lia.
  - case_match eqn:Ei; simplify_eq; cbn; [apply lookup_lt_Some in Ei|]; lia.
Qed.

Lemma still_closing_rank n l : (rank n (still_closing l) <= S (length l))%nat.
Proof. destruct l; cbn; lia. Qed.

Lemma total_rank_insert s p tid b b' :
  borrowers s !! tid = Some b -> length (clients p) = length (clients (the_pool s)) ->
  (rank (length (clients (the_pool s))) b' < rank (length (clients (the_pool s))) b)%nat ->
  (total_rank (mk_pool_system p (<[tid := b']> (borrowers s))) < total_rank s)%nat.
Proof.
  intros Et El Hr. unfold total_rank. cbn [the_pool borrowers]. rewrite El.
  set (f := fun (_ : nat) b acc => (rank (length (clients (the_pool s))) b + acc)%nat).
  assert (Hf : forall (j1 j2 : nat) z1 z2 (y : nat), f j1 z1 (f j2 z2 y) = f j2 z2 (f j1 z1 y))
    by (intros; unfold f; lia).
  rewrite <- insert_delete_eq, map_fold_insert_L by (intros; apply Hf || apply lookup_delete_eq).
  rewrite (map_fold_delete_L f 0%nat tid b (borrowers s)) by (done || intros; apply Hf).
  unfold f at 1 3. lia.
Qed.

Lemma caller_step_rank s s' : caller_step s s' -> (total_rank s' < total_rank s)%nat.
Proof.
  intros [(tid & f & E)|(tid & c & E)]; cbn [pool_choose async_act] in E.
  - destruct (borrowers s !! tid) as [b|] eqn:Et; [|done].
    destruct (borrower_step _ _ _ _) as [[p b']|] eqn:Eb; simplify_eq.
    apply borrower_step_rank in Eb as [Hr Hl]. by eapply total_rank_insert.
  - destruct (borrowers s !! tid) as [[]|] eqn:Et; try done. case_bool_decide as Hin; simplify_eq.
    eapply total_rank_insert; [done|done|]. eapply Nat.le_lt_trans; [apply still_closing_rank|].
    cbn. apply -> Nat.succ_lt_mono. apply length_filter_lt with c; [done|]. by intros [].
Qed.

(** A caller that has returned. *)
Definition ended (b : borrower) : bool :=
  match b with Returned _ | ClosedAll => true | _ => false end.

Lemma ClosingAll_not_empty s s' :
  (forall tid, borrowers s !! tid <> Some (ClosingAll [])) -> pool_step s s' ->
  forall tid, borrowers s' !! tid <> Some (ClosingAll []).
Proof.
  intros Hs Hst tid. destruct Hst as [[tid' op|tid' f|c] E|[tid'|tid'|tid' c] E];
    cbn [pool_choose async_act] in E.
  - destruct (borrowers s !! tid'); simplify_eq. cbn.
    intros [[-> Eb]|[_ Eb]]%lookup_insert_Some; [by destruct op|by eapply Hs].
  - destruct (borrowers s !! tid') as [b|]; [|done].
    destruct (borrower_step _ _ _ _) as [[p b']|] eqn:Eb; simplify_eq. cbn.
    intros [[-> ->]|[_ E']]%lookup_insert_Some; [|by eapply Hs].
    destruct b; cbn [borrower_step] in Eb; unfold pick, dial in Eb; repeat case_match; simplify_eq.
  - case_bool_decide; simplify_eq. apply Hs.
  - destruct (borrowers s !! tid') as [[]|]; simplify_eq; cbn;
      (intros [[_ Eb]|[_ Eb]]%lookup_insert_Some; [done|by eapply Hs]).
  - destruct (borrowers s !! tid'); simplify_eq. cbn.
    intros [[-> Eb]|[_ Eb]]%lookup_insert_Some; [|by eapply Hs]. by destruct (clients (the_pool s)).
  - destruct (borrowers s !! tid') as [[]|]; try done. case_bool_decide; simplify_eq. cbn.
    intros [[-> Eb]|[_ Eb]]%lookup_insert_Some; [|by eapply Hs]. by destruct (filter _ _).
Qed.

(** C23: every call of a pool ends: the callers of any reachable state take only
    finitely many actions before they have all returned, whether dials succeed or
    fail, and none of them is ever stuck for good: as long as one has not
    returned, one can take an action (no deadlock on the reconnect locks). *)
Theorem pool_calls_terminate members ep s :
  pool_reachable members ep s ->
  Acc (fun s2 s1 => caller_step s1 s2) s
  /\ ((exists tid b, borrowers s !! tid = Some b /\ ended b = false) ->
      exists s', caller_step s s').
Proof.
  intros Hr. split.
  - clear Hr. remember (total_rank s) as n eqn:En. revert s En.
    induction n as [n IH] using lt_wf_ind. intros s ->. constructor. intros s' Hs.
    eapply IH; [by apply caller_step_rank|done].
  - pose proof (pool_reachable_ok _ _ _ Hr) as Ho. intros (tid & b & Et & Hb).
    assert (Hstep : forall tid b, borrowers s !! tid = Some b -> ended b = false ->
      (forall idx, b <> Waiting idx) -> exists s', caller_step s s').
    { clear tid b Et Hb. intros tid b Et Hb Hw. assert (Hdec : (exists l, b = ClosingAll l) \/ (forall l, b <> ClosingAll l))
        by (destruct b; eauto).
      destruct Hdec as [[l ->]|Hn].
      - destruct Hr as [_ Hr]. assert (Hne : forall tid, borrowers s !! tid <> Some (ClosingAll [])).
        { refine (rtc_ind_r (fun s => forall tid, borrowers s !! tid <> Some (ClosingAll [])) _ _ _ s Hr).
          - intros tid'. cbn. by rewrite lookup_empty.
          - intros s1 s2 _ Hst Hs. by eapply ClosingAll_not_empty. }
        destruct l as [|c l]; [by destruct (Hne tid)|]. eexists. right. exists tid, c.
        cbn [async_act]. rewrite Et, bool_decide_eq_true_2 by (by left). done.
      - assert (He : exists p b', borrower_step (the_pool s) tid b None = Some (p, b')).
        { destruct b as [h|h idx|idx c|idx|idx|idx c|idx|idx fresh|idx r|r|i|l|]; cbn [borrower_step] in *;
            try done; eauto.
          - destruct (pick (the_pool s)) as [p [|]]; eauto.
          - by destruct (Hw idx).
          - case_match; eauto.
          - by destruct (Hn l). }
        destruct He as (p & b' & E). eexists. left. exists tid, None. cbn [pool_choose]. by rewrite Et, E. }
    assert (Hdec : (exists idx, b = Waiting idx) \/ (forall idx, b <> Waiting idx))
      by (destruct b; eauto).
    destruct Hdec as [[idx ->]|Hn].
    + destruct (reconnect_locks (the_pool s) !! idx) as [tid'|] eqn:El.
      * apply (ok_lock _ _ Ho) in El as (b & Eb & Hi). eapply Hstep; [done|by destruct b|by intros ? ->].
      * eexists. left. exists tid, None. cbn [pool_choose]. rewrite Et. cbn [borrower_step]. by rewrite El.
    + by eapply Hstep.
Qed.

(** ** Opening *)

Lemma extend_clients_ok size dials n :
  match extend_clients size dials n with
  | (cs, None) => map Ok cs = map dials (seq n size)
  | (cs, Some e) => exists j, (j < size)%nat /\ dials (n + j)%nat = Raise e
                     /\ map Ok cs = map dials (seq n j)
  end.
Proof.
  revert n. induction size as [|size IH]; intros n; [done|]. cbn [extend_clients seq map].
  destruct (dials n) as [c|e] eqn:Ed.
  - specialize (IH (S n)). destruct (extend_clients size dials (S n)) as [cs [e|]].
    + destruct IH as (j & Hj & Ej & Hc). exists (S j). split; [lia|]. cbn [seq map].
      rewrite Nat.add_succ_r, Ed. split; [done|]. by rewrite Hc.
    + cbn [map]. by rewrite IH.
  - exists 0%nat. rewrite Nat.add_0_r. split; [lia|done].
Qed.

Lemma gathered_failures_first (results : list (result exn nat)) e es :
  gathered_failures results = e :: es ->
  exists j, results !! j = Some (Raise e)
    /\ forall i r, (i < j)%nat -> results !! i = Some r -> exists c, r = Ok c.
Proof.
  unfold gathered_failures. induction results as [|[c|e'] results IH]; [done| |].
  - cbn. intros (j & Hj & Hi)%IH. exists (S j). split; [done|].
    intros [|i] r Hlt E; cbn in E; [simplify_eq; eauto|]. eapply (Hi i); [lia|done].
  - cbn. intros [= -> _]. exists 0%nat. split; [done|]. lia.
Qed.

Lemma gathered_all (results : list (result exn nat)) :
  gathered_failures results = [] -> map Ok (gathered results) = results.
Proof.
  unfold gathered, gathered_failures.
  induction results as [|[c|e] results IH]; [done| |done]. cbn. intros E. by rewrite IH.
Qed.

(** The connections a sequence of dials opens. *)
Lemma elem_of_gathered dials n c :
  c ∈ gathered (map dials (seq 0 n)) <-> exists i, (i < n)%nat /\ dials i = Ok c.
Proof.
  unfold gathered. rewrite list_elem_of_omap. split.
  - intros (r & (i & Hr & Hi)%list_elem_of_fmap & E). apply elem_of_seq in Hi.
    exists i. split; [lia|]. destruct r; by simplify_eq.
  - intros (i & Hi & E). exists (Ok c). split; [|done]. apply list_elem_of_fmap.
    exists i. split; [done|]. apply elem_of_seq. lia.
Qed.

(** C25: opening a pool is all or nothing, cancellation apart. Either pool returns
    exactly the [size] connections it dialed, in order and none closed; or it
    raises: [ProtocolError] without a dial when the size is below one, otherwise
    the exception of the first dial that failed, having closed again every
    connection it opened - for the threaded pool, where that is an [Exception], the
    members dialed before the failure, for the asyncio pool every dial that
    succeeded. When the caller of the asyncio pool is cancelled while it waits for
    the dials, [CancelledError] is raised, and every connection that had been opened
    is left open, for nothing closes it; when it is cancelled in [_close_all], those
    whose close had not begun are. *)
Theorem connect_all_or_nothing size dials cancel :
  (let o := connect_with size dials in
   match opened_pool o with
   | Ok cs => dialed_open o = cs /\ closed_again o = []
       /\ map Ok cs = map dials (seq 0 (Z.to_nat size)) /\ (1 <= size)%Z
   | Raise e =>
       ((size < 1)%Z /\ e = ProtocolError /\ dialed_open o = [])
       \/ exists j, (j < Z.to_nat size)%nat /\ dials j = Raise e
            /\ map Ok (dialed_open o) = map dials (seq 0 j)
            /\ (e <> CancelledError -> closed_again o = dialed_open o)
   end)
  /\ (let o := aio_connect_with size dials cancel in
      ((1 <= size)%Z -> forall c, c ∈ dialed_open o
         <-> exists i, (i < Z.to_nat size)%nat /\ dials i = Ok c)
      /\ match opened_pool o with
         | Ok cs => dialed_open o = cs /\ closed_again o = []
             /\ map Ok cs = map dials (seq 0 (Z.to_nat size)) /\ (1 <= size)%Z
         | Raise e =>
             ((size < 1)%Z /\ e = ProtocolError /\ dialed_open o = [])
             \/ (cancel = NotCancelled /\ closed_again o = dialed_open o
                 /\ exists j, (j < Z.to_nat size)%nat /\ dials j = Raise e
                    /\ forall i, (i < j)%nat -> exists c, dials i = Ok c)
             \/ (cancel = WhileDialing /\ e = CancelledError /\ closed_again o = [])
             \/ (exists closed, cancel = WhileClosing closed /\ e = CancelledError
                 /\ closed_again o = filter (fun c => closed c = true) (dialed_open o))
         end).
Proof.
  unfold connect_with, aio_connect_with. destruct (size <? 1)%Z eqn:Es.
  { apply Z.ltb_lt in Es. split; [by left|]. split; [lia|by left]. }
  apply Z.ltb_ge in Es. split.
  - pose proof (extend_clients_ok (Z.to_nat size) dials 0) as Hx.
    destruct (extend_clients _ _ _) as [cs [e|]]; cbn; [|done]. right.
    destruct Hx as (j & Hj & Ej & Hc). exists j. split_and!; try done. by destruct e.
  - set (results := map dials (seq 0 (Z.to_nat size))).
    assert (Hfail : forall e es, gathered_failures results = e :: es ->
      exists j, (j < Z.to_nat size)%nat /\ dials j = Raise e
        /\ forall i, (i < j)%nat -> exists c, dials i = Ok c).
    { intros e es (j & Hj & Hi)%gathered_failures_first. exists j.
      assert (Hlook : forall i r, results !! i = Some r <-> (i < Z.to_nat size)%nat /\ dials i = r).
      { intros i r. unfold results. rewrite list_lookup_fmap, fmap_Some. split.
        - intros (k & [-> Hk]%lookup_seq & ->). done.
        - intros [Hk <-]. exists i. split; [|done]. by apply lookup_seq. }
      apply Hlook in Hj as [Hj Ej]. split_and!; try done.
      intros i Hlt. apply (Hi i (dials i) Hlt), Hlook. split; [lia|done]. }
    split.
    + intros _ c. rewrite <- elem_of_gathered. fold results. by repeat case_match.
    + destruct cancel as [| |closed]; cbn.
      * destruct (gathered_failures results) as [|e es] eqn:Ef; cbn.
        -- split_and!; [done|done|by apply gathered_all|done].
        -- right; left. split_and!; [done..|by eapply Hfail].
      * by right; right; left.
      * destruct (gathered_failures results) as [|e es] eqn:Ef; cbn.
        -- split_and!; [done|done|by apply gathered_all|done].
        -- right; right; right. by exists closed.
Qed.

(** A pool of three whose opening is cancelled once two dials have succeeded: the
    two connections are neither returned nor closed. *)
Lemma cancelled_opening_leaks :
  let o := aio_connect_with 3 (fun n => if decide (n < 2)%nat then Ok n else Raise CancelledError)
             WhileDialing in
  opened_pool o = Raise CancelledError /\ dialed_open o = [0; 1]%nat /\ closed_again o = [].
Proof. vm_compute. done. Qed.

(** ** The asyncio pool *)

Lemma threaded_one s ch s' : pool_choose s ch = Some s' -> rtc threaded_step s s'.
Proof. intros E. apply rtc_once. by exists ch. Qed.

(** A caller's actions in a row. *)
Lemma advance_transitions tid failure p b p' b' bs :
  borrower_step p tid b failure = Some (p', b') -> bs !! tid = Some b ->
  rtc threaded_step (mk_pool_system p bs) (mk_pool_system p' (<[tid := b']> bs)).
Proof.
  intros E Et. apply (threaded_one _ (PAdvance tid failure)). cbn [pool_choose the_pool borrowers].
  by rewrite Et, E.
Qed.

Inductive advances (tid : nat) : pool * borrower -> pool * borrower -> Prop :=
| advances_none x : advances tid x x
| advances_cons p b failure y z :
    borrower_step p tid b failure = Some y -> advances tid y z -> advances tid (p, b) z.

Lemma advances_transitions tid x y bs :
  advances tid x y -> bs !! tid = Some (snd x) ->
  rtc threaded_step (mk_pool_system (fst x) bs) (mk_pool_system (fst y) (<[tid := snd y]> bs)).
Proof.
  intros Ha. revert bs. induction Ha as [x|p b f [p1 b1] z E _ IH]; intros bs Et.
  - by rewrite insert_id.
  - etrans; [by eapply advance_transitions|].
    specialize (IH (<[tid := b1]> bs) ltac:(apply lookup_insert_eq)).
    by rewrite insert_insert_eq in IH.
Qed.

Lemma set_lock_back p idx tid :
  reconnect_locks p !! idx = None ->
  set_lock (set_lock p (<[idx := tid]> (reconnect_locks p)))
    (delete idx (<[idx := tid]> (reconnect_locks p))) = p.
Proof.
  intros E. rewrite delete_insert_id by done. unfold set_lock. by destruct p.
Qed.

Ltac advance f := eapply (advances_cons _ _ _ f); [cbn [borrower_step]|].

Lemma aio_healthy_advances p tid : advances tid (p, Getting true) (aio_begin_healthy p).
Proof.
  unfold aio_begin_healthy. destruct (pick p) as [p1 [idx|e]] eqn:Ep;
    (advance (@None exn); [by rewrite Ep|]); [|constructor]. advance (@None exn); [reflexivity|].
  destruct (member p1 idx) as [c|e]; [|constructor]. advance (@None exn); [reflexivity|]. constructor.
Qed.

Lemma aio_get_advances p tid :
  advances tid (p, Getting false) (fst (aio_get p), Returned (snd (aio_get p))).
Proof.
  unfold aio_get. destruct (pick p) as [p1 [idx|e]] eqn:Ep;
    (advance (@None exn); [by rewrite Ep|]); [|constructor]. advance (@None exn); [reflexivity|].
  destruct (member p1 idx); constructor.
Qed.

Lemma aio_locked_advances p tid idx :
  reconnect_locks p !! idx = None -> advances tid (p, Waiting idx) (aio_locked p tid idx).
Proof.
  intros El. unfold aio_locked. advance (@None exn); [by rewrite El|].
  advance (@None exn); [reflexivity|]. cbn [member clients set_lock].
  change (member (set_lock p _) idx) with (member p idx).
  destruct (member p idx) as [c|e].
  - advance (@None exn); [reflexivity|].
    change (client_closed (set_lock p _) c) with (client_closed p c).
    destruct (negb (client_closed p c)); [|constructor].
    advance (@None exn); [reflexivity|]. cbn [reconnect_locks set_lock].
    rewrite set_lock_back by done. constructor.
  - advance (@None exn); [reflexivity|]. cbn [reconnect_locks set_lock].
    rewrite set_lock_back by done. constructor.
Qed.

Lemma aio_dialed_advances p tid idx failure :
  advances tid (p, Dialing idx) (aio_dialed p idx failure).
Proof.
  unfold aio_dialed. destruct (dial p failure) as [p1 [fresh|e]] eqn:Ed;
    (advance failure; [by rewrite Ed|]).
  - advance (@None exn); [reflexivity|]. advance (@None exn); [reflexivity|]. constructor.
  - advance (@None exn); [reflexivity|]. constructor.
Qed.

(** A step of the asyncio pool that is not a cancelled wait or an [aclose]. *)
Lemma aio_pool_threaded s ch s' :
  aio_pool_choose s ch = Some s' -> async_only s ch = false -> rtc threaded_step s s'.
Proof.
  intros E Ha.
  assert (Hb : forall tid op x, borrowers s !! tid = None ->
    advances tid (the_pool s, begin_operation op) x ->
    rtc threaded_step s (mk_pool_system (fst x) (<[tid := snd x]> (borrowers s)))).
  { intros tid op x Et Hx. eapply rtc_l; [exists (PBegin tid op); cbn; by rewrite Et|].
    eapply advances_transitions in Hx; [|apply (lookup_insert_eq (borrowers s))].
    by rewrite insert_insert_eq in Hx. }
  assert (Hc : forall tid b x, borrowers s !! tid = Some b -> advances tid (the_pool s, b) x ->
    rtc threaded_step s (mk_pool_system (fst x) (<[tid := snd x]> (borrowers s)))).
  { intros tid b x Et Hx. eapply advances_transitions in Hx; [|done]. by destruct s. }
  destruct ch as [tid|tid|tid|tid f|tid|c|tid|tid c]; cbn [aio_pool_choose async_only] in E, Ha; try done.
  - destruct (borrowers s !! tid) eqn:Et; [done|].
    pose proof (Hb tid OpGet _ Et (aio_get_advances _ _)) as Hx.
    destruct (aio_get (the_pool s)). by simplify_eq.
  - destruct (borrowers s !! tid) eqn:Et; [done|].
    pose proof (Hb tid OpGetHealthy _ Et (aio_healthy_advances _ _)) as Hx.
    destruct (aio_begin_healthy (the_pool s)). by simplify_eq.
  - destruct (borrowers s !! tid) as [[]|] eqn:Et; try done.
    destruct (reconnect_locks (the_pool s) !! idx) eqn:El; [done|].
    pose proof (Hc tid _ _ Et (aio_locked_advances _ _ _ El)) as Hx.
    destruct (aio_locked _ _ _). by simplify_eq.
  - destruct (borrowers s !! tid) as [[]|] eqn:Et; try done.
    pose proof (Hc tid _ _ Et (aio_dialed_advances _ _ _ f)) as Hx.
    destruct (aio_dialed _ _ _). by simplify_eq.
  - destruct (borrowers s !! tid) as [[]|] eqn:Et; try done.
    pose proof (Hc tid _ _ Et (aio_dialed_advances _ _ _ (Some CancelledError))) as Hx.
    destruct (aio_dialed _ _ _). by simplify_eq.
  - by eapply threaded_one.
Qed.

(** So the invariants of [pool_step] are those of the asyncio pool too. *)
Lemma aio_pool_allowed s s' : aio_pool_step s s' -> rtc pool_step s s'.
Proof.
  intros [ch E]. destruct (async_only s ch) eqn:Ha.
  - destruct ch as [| | | |tid| |tid|tid c]; cbn [async_only aio_pool_choose] in Ha, E; try done;
      apply rtc_once; [|by eapply pool_step_async..].
    destruct (borrowers s !! tid) as [[]|]; try done; by eapply pool_step_async.
  - apply (rtc_subrel threaded_step); [intros s1 s2 [ch' E']; by eapply pool_step_threaded|].
    by eapply aio_pool_threaded.
Qed.

(** The loop of [Pool.close], from member [i] on. *)
Lemma closing_transitions tid cs i s :
  borrowers s !! tid = Some (Closing i) -> drop i (clients (the_pool s)) = cs ->
  rtc threaded_step s (mk_pool_system (fold_left dies cs (the_pool s))
                         (<[tid := ClosedAll]> (borrowers s))).
Proof.
  revert i s. induction cs as [|c cs IH]; intros i s Et Ed.
  - apply (threaded_one _ (PAdvance tid None)). cbn [pool_choose]. rewrite Et. cbn [borrower_step].
    rewrite (lookup_ge_None_2 (clients (the_pool s)) i); [done|].
    apply (f_equal length) in Ed. rewrite length_drop in Ed. cbn in Ed. lia.
  - assert (Ei : clients (the_pool s) !! i = Some c).
    { pose proof (lookup_drop (clients (the_pool s)) i 0) as El. rewrite Ed, Nat.add_0_r in El. done. }
    assert (Ed' : drop (S i) (clients (the_pool s)) = cs).
    { rewrite (drop_S _ c i Ei) in Ed. by simplify_eq. }
    eapply rtc_l.
    + exists (PAdvance tid None). cbn [pool_choose]. rewrite Et. cbn [borrower_step]. by rewrite Ei.
    + specialize (IH (S i) (mk_pool_system (dies (the_pool s) c) (<[tid := Closing (S i)]> (borrowers s)))).
      cbn [the_pool borrowers clients dies] in IH. rewrite lookup_insert_eq, insert_insert_eq in IH.
      by apply IH.
Qed.

(** Members may close in any order. *)
Lemma fold_dies_clients cs p : clients (fold_left dies cs p) = clients p.
Proof. revert p. induction cs as [|c cs IH]; intros p; [done|]. cbn. by rewrite IH. Qed.

Lemma fold_dies_closed cs p c :
  c ∈ cs \/ c ∈ closed p -> c ∈ closed (fold_left dies cs p).
Proof.
  revert p. induction cs as [|c0 cs IH]; intros p Hc; cbn.
  - destruct Hc as [Hc|Hc]; [by apply elem_of_nil in Hc|done].
  - apply IH. cbn. rewrite elem_of_union, elem_of_singleton.
    rewrite elem_of_cons in Hc. destruct Hc as [[->|Hc]|Hc]; auto.
Qed.

Lemma dies_comm p c c' : dies (dies p c) c' = dies (dies p c') c.
Proof. unfold dies. cbn. by rewrite !(assoc_L union), (comm_L union {[c']}). Qed.

Lemma fold_dies_permutation cs cs' p : cs ≡ₚ cs' -> fold_left dies cs p = fold_left dies cs' p.
Proof.
  intros Hp. revert p. induction Hp as [|c cs cs' _ IH|c c' cs|cs1 cs2 cs3 _ IH1 _ IH2]; intros p; cbn.
  - done.
  - apply IH.
  - by rewrite dies_comm.
  - by rewrite IH1.
Qed.

(** An [aclose] whose members close in the order [cs]. *)
Lemma closing_all_run tid cs remaining s :
  NoDup cs -> cs ≡ₚ remaining -> borrowers s !! tid = Some (still_closing remaining) ->
  aio_pool_run s (map (QCloseOne tid) cs)
  = Some (mk_pool_system (fold_left dies cs (the_pool s)) (<[tid := ClosedAll]> (borrowers s))).
Proof.
  revert remaining s. induction cs as [|c cs IH]; intros remaining s Hn Hp Et.
  - apply Permutation_nil_l in Hp as <-. cbn in Et |- *. rewrite insert_id by done. by destruct s.
  - inversion Hn as [|? ? Hc Hn']; subst.
    assert (Hin : c ∈ remaining) by (rewrite <- Hp; by left).
    destruct remaining as [|c0 remaining]; [by apply elem_of_nil in Hin|]. cbn [still_closing] in Et.
    cbn [map aio_pool_run aio_pool_choose async_act]. rewrite Et, bool_decide_eq_true_2 by done.
    rewrite (IH (filter (fun c' => c' <> c) (c0 :: remaining))); [|done| |].
    + cbn [the_pool borrowers fold_left]. by rewrite insert_insert_eq.
    + rewrite <- Hp, filter_cons_False by (intros Hcc; by apply Hcc).
      assert (Hall : Forall (fun c' => c' <> c) cs).
      { apply Forall_forall. intros x Hx ->. by apply Hc. }
      clear -Hall. induction Hall as [|x l Hx _ IHl]; [done|]. by rewrite filter_cons_True, <- IHl.
    + cbn [borrowers]. apply lookup_insert_eq.
Qed.

(** C26: the asyncio pool refines the threaded one, in what they share. Every step
    of an asyncio caller from one await to the next - [get], [get_healthy] up to the
    lock, with the lock up to the dial, from the end of the dial or its cancellation
    to the return - is a sequence of steps of the threaded pool; and an [aclose]
    whose members close one after the other, in any order, leads where the loop of
    the threaded [close] leads. The steps the threaded pool does not have - the
    cancellation of a wait, and an [aclose] among other steps - change no member,
    slot, lock, counter or dial: at most one connection, which the [aclose] had
    gathered, is closed. *)
Theorem aio_pool_refines_pool members ep s :
  pool_reachable members ep s ->
  (forall ch s', aio_pool_choose s ch = Some s' -> async_only s ch = false -> rtc threaded_step s s')
  /\ (forall tid cs s', borrowers s !! tid = None -> cs ≡ₚ clients (the_pool s) ->
        aio_pool_run s (QClose tid :: map (QCloseOne tid) cs) = Some s' ->
        rtc threaded_step s s' /\ borrowers s' !! tid = Some ClosedAll
        /\ forall c, c ∈ clients (the_pool s') -> c ∈ closed (the_pool s'))
  /\ (forall ch s', aio_pool_choose s ch = Some s' -> async_only s ch = true ->
        exists tid b, borrowers s' = <[tid := b]> (borrowers s)
          /\ (b = Returned (Raise CancelledError) \/ exists remaining, b = still_closing remaining)
          /\ (the_pool s' = the_pool s
              \/ exists c remaining, borrowers s !! tid = Some (ClosingAll remaining)
                   /\ c ∈ remaining /\ the_pool s' = dies (the_pool s) c)).
Proof.
  intros Hr. pose proof (ok_distinct _ _ (pool_reachable_ok _ _ _ Hr)) as Hn. split_and!.
  - intros ch s'. apply aio_pool_threaded.
  - intros tid cs s' Et Hp E. cbn [aio_pool_run aio_pool_choose async_act] in E. rewrite Et in E.
    rewrite (closing_all_run tid cs (clients (the_pool s))) in E;
      [|by rewrite Hp|done|apply lookup_insert_eq].
    cbn [the_pool borrowers] in E. rewrite insert_insert_eq in E. injection E as <-. split_and!.
    + eapply rtc_l; [exists (PBegin tid OpClose); cbn; by rewrite Et|].
      pose proof (closing_transitions tid (clients (the_pool s)) 0
        (mk_pool_system (the_pool s) (<[tid := Closing 0]> (borrowers s)))) as Hc.
      cbn [the_pool borrowers] in Hc. rewrite lookup_insert_eq, insert_insert_eq in Hc.
      rewrite (fold_dies_permutation _ _ _ Hp). by apply Hc.
    + apply lookup_insert_eq.
    + cbn [the_pool]. rewrite fold_dies_clients. intros c Hc. apply fold_dies_closed. left. by rewrite Hp.
  - intros ch s' E Ha. destruct ch as [| | | |tid| |tid|tid c]; cbn [async_only] in Ha; try done;
      cbn [aio_pool_choose] in E.
    + assert (E' : async_act s (GiveUp tid) = Some s') by (by destruct (borrowers s !! tid) as [[]|]).
      exists tid, (Returned (Raise CancelledError)). cbn [async_act] in E'.
      destruct (borrowers s !! tid) as [[]|]; simplify_eq; (split_and!; [done|by left|by left]).
    + cbn [async_act] in E. destruct (borrowers s !! tid); simplify_eq.
      eexists tid, _. split_and!; [done|right; by eexists|by left].
    + cbn [async_act] in E. destruct (borrowers s !! tid) as [[]|] eqn:Et; try done.
      case_bool_decide; simplify_eq.
      eexists tid, _. split_and!; [done|right; by eexists|right; by eauto].
Qed.

(** ** Schedules evaluated *)

Lemma pool_play_steps s schedule : rtc pool_step s (pool_play s schedule).
Proof.
  unfold pool_play. revert s. induction schedule as [|ch l IH]; intros s; [done|]. cbn [fold_left].
  destruct (pool_choose s ch) as [s'|] eqn:E; [|apply IH]. eapply rtc_l; [by apply (pool_step_threaded _ _ ch)|apply IH].
Qed.

(** [n] actions of a caller whose dial, if it comes to one, succeeds. *)
Definition acts (tid n : nat) : list pool_choice := replicate n (PAdvance tid None).

(** Two members, the first dead; two callers land on it and race for its lock. *)
Definition race : pool_system :=
  pool_play (mk_pool_system (new_pool [0; 1]%nat true) ∅)
    ([PDies 0; PBegin 0 OpGetHealthy; PBegin 1 OpGet; PBegin 2 OpGetHealthy]
     ++ acts 0 4 ++ acts 1 2 ++ acts 2 3 ++ acts 2 2 ++ acts 0 5 ++ acts 2 5).

Lemma race_reachable : pool_reachable [0; 1]%nat true race.
Proof. split; [by apply (bool_decide_unpack _)|apply pool_play_steps]. Qed.

Lemma dead_member_replaced_once_witness :
  replaced (the_pool race) = [(0, 0, 2)]%nat /\ dialed (the_pool race) = [2]%nat
  /\ clients (the_pool race) = [2; 1]%nat /\ NoDup (olds (the_pool race)).
Proof.
  split; [vm_compute; reflexivity|]. split; [vm_compute; reflexivity|].
  split; [vm_compute; reflexivity|].
  exact (proj1 (proj2 (proj2 (proj2 (dead_member_replaced_once [0; 1]%nat true race race_reachable))))).
Defined.

Definition before_call : pool_system :=
  pool_play (mk_pool_system (new_pool [0; 1]%nat true) ∅) [PDies 0].

Lemma get_healthy_avoids_the_dead_witness :
  exists s1 s, pool_choose before_call (PBegin 0 OpGetHealthy) = Some s1 /\ rtc pool_step s1 s
    /\ borrowers s !! 0%nat = Some (Returned (Ok 2%nat)) /\ 2%nat <> 0%nat.
Proof.
  eexists. exists (pool_play (mk_pool_system (the_pool before_call) (<[0%nat := Getting true]> ∅)) (acts 0 9)).
  assert (E : pool_choose before_call (PBegin 0 OpGetHealthy)
    = Some (mk_pool_system (the_pool before_call) (<[0%nat := Getting true]> ∅))) by reflexivity.
  split; [exact E|]. split; [apply pool_play_steps|]. split; [vm_compute; reflexivity|].
  intros H2. refine (proj1 (get_healthy_avoids_the_dead [0; 1]%nat true before_call 0 _ _ 2 _ E
    (pool_play_steps _ (acts 0 9)) _) eq_refl _).
  - split; [by apply (bool_decide_unpack _)|apply pool_play_steps].
  - vm_compute; reflexivity.
  - rewrite H2. cbn. apply elem_of_union. left. by apply elem_of_singleton.
Defined.

Lemma round_robin_is_fair_witness :
  picks (the_pool race) = [0; 1; 0]%nat
  /\ (picked (the_pool race) 0 <= picked (the_pool race) 1 + 1)%nat.
Proof.
  split; [vm_compute; reflexivity|].
  apply (round_robin_is_fair [0; 1]%nat true race race_reachable); [discriminate|cbn; lia..].
Defined.

Lemma pool_calls_terminate_witness : Acc (fun s2 s1 => caller_step s1 s2) race.
Proof. exact (proj1 (pool_calls_terminate [0; 1]%nat true race race_reachable)). Defined.

(** The asyncio pool: a caller's dial is cancelled while another waits for it; and
    an [aclose] whose members close in the other order. *)
Definition aio_before : pool_system :=
  pool_play (mk_pool_system (new_pool [0; 1]%nat true) ∅)
    ([PDies 0; PBegin 0 OpGetHealthy; PBegin 1 OpGet; PBegin 2 OpGetHealthy]
     ++ acts 0 6 ++ acts 1 2 ++ acts 2 3).

Lemma aio_pool_refines_pool_witness :
  exists s1 s2,
    aio_pool_choose aio_before (QDialed 0 (Some CancelledError)) = Some s1
    /\ rtc threaded_step aio_before s1
    /\ borrowers s1 !! 0%nat = Some (Returned (Raise CancelledError))
    /\ aio_pool_run aio_before (QClose 7 :: map (QCloseOne 7) [1; 0]%nat) = Some s2
    /\ rtc threaded_step aio_before s2 /\ borrowers s2 !! 7%nat = Some ClosedAll.
Proof.
  destruct (aio_pool_refines_pool [0; 1]%nat true aio_before) as (Hs & Hc & _).
  { split; [by apply (bool_decide_unpack _)|apply pool_play_steps]. }
  destruct (aio_pool_choose aio_before (QDialed 0 (Some CancelledError))) as [s1|] eqn:E1;
    [|by vm_compute in E1].
  destruct (aio_pool_run aio_before (QClose 7 :: map (QCloseOne 7) [1; 0]%nat)) as [s2|] eqn:E2;
    [|by vm_compute in E2].
  exists s1, s2. split; [done|]. split; [by eapply Hs|]. split.
  { assert (Eb : (s ← aio_pool_choose aio_before (QDialed 0 (Some CancelledError));
                  borrowers s !! 0%nat) = Some (Returned (Raise CancelledError)))
      by (vm_compute; reflexivity).
    rewrite E1 in Eb. exact Eb. }
  split; [done|]. destruct (Hc 7%nat [1; 0]%nat s2) as (Hr & Hb & _); [by vm_compute| |done|by split].
  apply Permutation_swap.
Defined.
