(* ===== verification/Client.v ===== *)
(** * Client

    [client.py]: the client over a connection. A verb issues one call of [Mux] and
    makes its result out of what the call returned; it is a value of [program],
    so that a thread of [Mux] can run it under any interleaving. *)

From S2P Require Import Prelude Frame PyFloat PyValue PyArith PyCompare Cbor WireEnums WireCodec Opcode.
From S2P Require Import WireHandshake WireMemory WireRecall WireListing WireTyped WireReasoning.
From S2P Require Import WireEvents WireReads WireMutations WireSpaces Errors Transport Mux.
#[local] Open Scope Z_scope.

(** ** Programs *)

(** One call on the connection, and what becomes of the frames it returns. *)
Record program (A : Type) : Type := mk_program {
  issues : call;
  receives : result exn (list Frame) -> result exn A
}.
Arguments mk_program {A} _ _.
Arguments issues {A} _.
Arguments receives {A} _ _.

(** A verb: it fails before it calls, or it is a program. *)
Definition verb (A : Type) : Type := result exn (program A).

(** A verb that goes on with a pure function. *)
Definition returning {A B} (f : A -> B) (v : verb A) : verb B :=
  let* p := v in
  Ok (mk_program (issues p) (fun r => let* a := receives p r in Ok (f a))).

Section Client.
Context `{Cbor2} `{PyStr}.

(** [frame.opcode != int(resp_opcode)], and the decoding of the payload. *)
Definition decode_response {Resp} `{WirePayload Resp} (resp_opcode : Opcode) (frame : Frame)
    : result exn Resp :=
  if negb (is_opcode frame resp_opcode) then Raise ProtocolError
  else lift_error CborExn (decode_payload (frame_payload frame)).

(** The shape of the single-response verbs, under a deadline. *)
Definition unary_within {Req Resp} `{WirePayload Req} `{WirePayload Resp}
    (timeout : option pyfloat) (req_opcode resp_opcode : Opcode) (request : Req) : verb Resp :=
  let* payload := lift_error PyExn (encode_payload request) in
  Ok (mk_program (CallRequest req_opcode payload timeout)
        (fun r => let* frame := one_frame r in decode_response resp_opcode frame)).

(** [_unary]. *)
Definition unary {Req Resp} `{WirePayload Req} `{WirePayload Resp}
    (req_opcode resp_opcode : Opcode) (request : Req) : verb Resp :=
  unary_within None req_opcode resp_opcode request.

(** [_streamed]. *)
Definition streamed {Req Resp} `{WirePayload Req} `{WirePayload Resp}
    (req_opcode resp_opcode : Opcode) (request : Req) : verb (list Resp) :=
  let* payload := lift_error PyExn (encode_payload request) in
  Ok (mk_program (CallRequest req_opcode payload None)
        (fun r => let* frames := r in map_result (decode_response resp_opcode) frames)).

(** ** The verbs *)

(** [_encode_timeout]. *)
Definition encode_timeout (derived_write_timeout : option pyfloat) (request : EncodeRequest)
    : option pyfloat :=
  if py_eq (EncodeRequest_wait request) (PInt (WaitMode_value WaitMode_DERIVED))
  then derived_write_timeout else None.

Definition encode (derived_write_timeout : option pyfloat) (request : EncodeRequest)
    : verb EncodeResponse :=
  unary_within (encode_timeout derived_write_timeout request) ENCODE_REQ ENCODE_RESP request.

Definition recall_frames (request : RecallRequest) : verb (list RecallResponseFrame) :=
  streamed RECALL_REQ RECALL_RESP request.

(** The drain of [recall]: the memories of every frame, the last frame's kind. *)
Definition drain_recall (frames : list RecallResponseFrame) : RecallAnswer :=
  fold_left (fun answer frame =>
    mk_RecallAnswer (RecallResponseFrame_answer_kind frame)
      (RecallAnswer_memories answer ++ RecallResponseFrame_memories frame))
    frames (mk_RecallAnswer (PStr (AnswerKind_value AnswerKind_NONE)) []).

Definition recall (request : RecallRequest) : verb RecallAnswer :=
  returning drain_recall (recall_frames request).

Definition forget (request : ForgetRequest) : verb ForgetResponse :=
  unary FORGET_REQ FORGET_RESP request.

Definition encode_vector_direct (request : EncodeVectorDirectRequest) : verb EncodeResponse :=
  unary ENCODE_VECTOR_DIRECT_REQ ENCODE_VECTOR_DIRECT_RESP request.

Definition memory_inspect (request : MemoryInspectRequest) : verb MemoryInspectResponse :=
  unary MEMORY_INSPECT_REQ MEMORY_INSPECT_RESP request.

Definition create_entity (request : EntityCreateRequest) : verb EntityCreateResponse :=
  unary ENTITY_CREATE_REQ ENTITY_CREATE_RESP request.

Definition create_statement (request : StatementCreateRequest) : verb StatementCreateResponse :=
  unary STATEMENT_CREATE_REQ STATEMENT_CREATE_RESP request.

Definition update_entity (request : EntityUpdateRequest) : verb EntityUpdateResponse :=
  unary ENTITY_UPDATE_REQ ENTITY_UPDATE_RESP request.

Definition rename_entity (request : EntityRenameRequest) : verb EntityRenameResponse :=
  unary ENTITY_RENAME_REQ ENTITY_RENAME_RESP request.

Definition merge_entities (request : EntityMergeRequest) : verb EntityMergeResponse :=
  unary ENTITY_MERGE_REQ ENTITY_MERGE_RESP request.

Definition unmerge_entity (request : EntityUnmergeRequest) : verb EntityUnmergeResponse :=
  unary ENTITY_UNMERGE_REQ ENTITY_UNMERGE_RESP request.

Definition tombstone_entity (request : EntityTombstoneRequest) : verb EntityTombstoneResponse :=
  unary ENTITY_TOMBSTONE_REQ ENTITY_TOMBSTONE_RESP request.

Definition supersede_statement (request : StatementSupersedeRequest)
    : verb StatementSupersedeResponse :=
  unary STATEMENT_SUPERSEDE_REQ STATEMENT_SUPERSEDE_RESP request.

Definition tombstone_statement (request : StatementTombstoneRequest)
    : verb StatementTombstoneResponse :=
  unary STATEMENT_TOMBSTONE_REQ STATEMENT_TOMBSTONE_RESP request.

Definition retract_statement (request : StatementRetractRequest) : verb StatementRetractResponse :=
  unary STATEMENT_RETRACT_REQ STATEMENT_RETRACT_RESP request.

Definition create_relation (request : RelationCreateRequest) : verb RelationCreateResponse :=
  unary RELATION_CREATE_REQ RELATION_CREATE_RESP request.

Definition get_relation (request : RelationGetRequest) : verb RelationGetResponse :=
  unary RELATION_GET_REQ RELATION_GET_RESP request.

Definition supersede_relation (request : RelationSupersedeRequest)
    : verb RelationSupersedeResponse :=
  unary RELATION_SUPERSEDE_REQ RELATION_SUPERSEDE_RESP request.

Definition tombstone_relation (request : RelationTombstoneRequest)
    : verb RelationTombstoneResponse :=
  unary RELATION_TOMBSTONE_REQ RELATION_TOMBSTONE_RESP request.

Definition upload_schema (request : SchemaUploadRequest) : verb SchemaUploadResponse :=
  unary SCHEMA_UPLOAD_REQ SCHEMA_UPLOAD_RESP request.

Definition query_explain (request : QueryExplainRequest) : verb QueryExplainResponse :=
  unary QUERY_EXPLAIN_REQ QUERY_EXPLAIN_RESP request.

Definition query_trace (request : QueryTraceRequest) : verb QueryTraceResponse :=
  unary QUERY_TRACE_REQ QUERY_TRACE_RESP request.

Definition materialize_procedural (request : MaterializeProceduralRequest)
    : verb MaterializeProceduralResponse :=
  unary MATERIALIZE_PROCEDURAL_REQ MATERIALIZE_PROCEDURAL_RESP request.

Definition create_space (request : SpaceCreateRequest) : verb SpaceCreateResponse :=
  unary SPACE_CREATE_REQ SPACE_CREATE_RESP request.

Definition list_spaces (request : SpaceListRequest) : verb SpaceListResponse :=
  unary SPACE_LIST_REQ SPACE_LIST_RESP request.

Definition delete_space (request : SpaceDeleteRequest) : verb SpaceDeleteResponse :=
  unary SPACE_DELETE_REQ SPACE_DELETE_RESP request.

Definition create_session (request : SessionCreateRequest) : verb SessionCreateResponse :=
  unary SESSION_CREATE_REQ SESSION_CREATE_RESP request.

Definition list_sessions (request : SessionListRequest) : verb SessionListResponse :=
  unary SESSION_LIST_REQ SESSION_LIST_RESP request.

Definition delete_session (request : SessionDeleteRequest) : verb SessionDeleteResponse :=
  unary SESSION_DELETE_REQ SESSION_DELETE_RESP request.

Definition link (request : LinkRequest) : verb LinkResponse := unary LINK_REQ LINK_RESP request.

Definition unlink (request : UnlinkRequest) : verb UnlinkResponse :=
  unary UNLINK_REQ UNLINK_RESP request.

Definition capabilities (request : option GetCapabilitiesRequest) : verb GetCapabilitiesResponse :=
  unary GET_CAPABILITIES_REQ GET_CAPABILITIES_RESP (default (mk_GetCapabilitiesRequest None) request).

Definition extractor_list (request : option ExtractorListRequest)
    : verb ExtractorListResponseFrame :=
  unary EXTRACTOR_LIST_REQ EXTRACTOR_LIST_RESP (default (mk_ExtractorListRequest None) request).

Definition get_entity (request : EntityGetRequest) : verb EntityGetResponse :=
  unary ENTITY_GET_REQ ENTITY_GET_RESP request.

Definition resolve_entity (request : EntityResolveRequest) : verb EntityResolveResponse :=
  unary ENTITY_RESOLVE_REQ ENTITY_RESOLVE_RESP request.

Definition get_statement (request : StatementGetRequest) : verb StatementGetResponse :=
  unary STATEMENT_GET_REQ STATEMENT_GET_RESP request.

Definition get_schema (request : SchemaGetRequest) : verb SchemaGetResponse :=
  unary SCHEMA_GET_REQ SCHEMA_GET_RESP request.

Definition validate_schema (request : SchemaValidateRequest) : verb SchemaValidateResponse :=
  unary SCHEMA_VALIDATE_REQ SCHEMA_VALIDATE_RESP request.

Definition replace_schema (request : SchemaReplaceRequest) : verb SchemaReplaceResponse :=
  unary SCHEMA_REPLACE_REQ SCHEMA_REPLACE_RESP request.

Definition drop_schema (request : SchemaDropRequest) : verb SchemaDropResponse :=
  unary SCHEMA_DROP_REQ SCHEMA_DROP_RESP request.

Definition cancel_stream (target_stream_id : Z) (reason : pyval) : verb CancelStreamAck :=
  unary CANCEL_STREAM CANCEL_STREAM_ACK (mk_CancelStreamRequest (PInt target_stream_id) reason).

Definition txn_begin (request : TxnBeginRequest) : verb TxnBeginResponse :=
  unary TXN_BEGIN TXN_BEGIN_RESP request.

Definition txn_commit (request : TxnCommitRequest) : verb TxnCommitResponse :=
  unary TXN_COMMIT TXN_COMMIT_RESP request.

Definition txn_abort (request : TxnAbortRequest) : verb TxnAbortResponse :=
  unary TXN_ABORT TXN_ABORT_RESP request.

Definition memory_list_frames (request : MemoryListRequest) : verb (list MemoryListResponseFrame) :=
  streamed MEMORY_LIST_REQ MEMORY_LIST_RESP request.

Definition graph_fetch_frames (request : GraphFetchRequest) : verb (list GraphFetchResponseFrame) :=
  streamed GRAPH_FETCH_REQ GRAPH_FETCH_RESP request.

Definition statement_history_frames (request : StatementHistoryRequest)
    : verb (list StatementHistoryResponseFrame) :=
  streamed STATEMENT_HISTORY_REQ STATEMENT_HISTORY_RESP request.

Definition traverse_relations_frames (request : RelationTraverseRequest)
    : verb (list RelationTraverseResponseFrame) :=
  streamed RELATION_TRAVERSE_REQ RELATION_TRAVERSE_RESP request.

Definition plan_frames (request : PlanRequest) : verb (list PlanResponseFrame) :=
  streamed PLAN_REQ PLAN_RESP request.

Definition reason_frames (request : ReasonRequest) : verb (list ReasonResponseFrame) :=
  streamed REASON_REQ REASON_RESP request.

Definition list_entities_frames (request : EntityListRequest)
    : verb (list EntityListResponseFrame) :=
  streamed ENTITY_LIST_REQ ENTITY_LIST_RESP request.

Definition list_statements_frames (request : StatementListRequest)
    : verb (list StatementListResponseFrame) :=
  streamed STATEMENT_LIST_REQ STATEMENT_LIST_RESP request.

Definition list_relations_from_frames (request : RelationListFromRequest)
    : verb (list RelationListFromResponseFrame) :=
  streamed RELATION_LIST_FROM_REQ RELATION_LIST_FROM_RESP request.

Definition list_relations_to_frames (request : RelationListToRequest)
    : verb (list RelationListToResponseFrame) :=
  streamed RELATION_LIST_TO_REQ RELATION_LIST_TO_RESP request.

Definition list_schemas_frames (request : SchemaListRequest)
    : verb (list SchemaListResponseFrame) :=
  streamed SCHEMA_LIST_REQ SCHEMA_LIST_RESP request.

Definition memory_list (request : MemoryListRequest) : verb (list MemoryListItem) :=
  returning (flat_map MemoryListResponseFrame_items) (memory_list_frames request).

Definition graph_fetch (request : GraphFetchRequest) : verb (list GraphNode * list GraphEdge) :=
  returning (fun frames => (flat_map GraphFetchResponseFrame_nodes frames, flat_map GraphFetchResponseFrame_edges frames))
    (graph_fetch_frames request).

Definition statement_history (request : StatementHistoryRequest) : verb (list StatementView) :=
  returning (flat_map StatementHistoryResponseFrame_items) (statement_history_frames request).

Definition traverse_relations (request : RelationTraverseRequest) : verb (list TraversalPathWire) :=
  returning (flat_map RelationTraverseResponseFrame_paths) (traverse_relations_frames request).

Definition plan (request : PlanRequest) : verb (list PlanStep) :=
  returning (flat_map PlanResponseFrame_steps) (plan_frames request).

Definition reason (request : ReasonRequest) : verb (list InferenceStep) :=
  returning (flat_map ReasonResponseFrame_inferences) (reason_frames request).

Definition list_entities (request : EntityListRequest) : verb (list EntityListItem) :=
  returning (flat_map EntityListResponseFrame_items) (list_entities_frames request).

Definition list_statements (request : StatementListRequest) : verb (list StatementView) :=
  returning (flat_map StatementListResponseFrame_items) (list_statements_frames request).

Definition list_relations_from (request : RelationListFromRequest) : verb (list RelationView) :=
  returning (flat_map RelationListFromResponseFrame_items) (list_relations_from_frames request).

Definition list_relations_to (request : RelationListToRequest) : verb (list RelationView) :=
  returning (flat_map RelationListToResponseFrame_items) (list_relations_to_frames request).

Definition list_schemas (request : SchemaListRequest) : verb (list SchemaListItem) :=
  returning (flat_map SchemaListResponseFrame_items) (list_schemas_frames request).

(** [decode_pong]. *)
Definition decode_pong (frames : list Frame) : result exn PongResponse :=
  match frames with
  | [frame] => decode_response PONG frame
  | _ => Raise ProtocolError
  end.

(** [ping]; [time_ns] is the wall clock, used when the caller gives no timestamp. *)
Definition ping (client_timestamp : option pyval) (time_ns : Z) : verb PongResponse :=
  let* payload := lift_error PyExn
                    (encode_payload (mk_PingRequest (default (PInt time_ns) client_timestamp))) in
  Ok (mk_program (CallOnConnection PING payload) (fun r => let* frames := r in decode_pong frames)).

(** [subscribe]: what it calls; the thread of the call then holds the subscription. *)
Definition subscribe (request : SubscribeRequest) : call := CallSubscribe request.

(** ** Connecting *)

Record Auth : Type := mk_Auth { Auth_method : pyval; Auth_credentials : AuthCredentials }.

Definition Auth_token (token : bytes) : Auth :=
  mk_Auth (PInt (AuthMethod_value AuthMethod_TOKEN)) (AuthCredentials_token token).

Definition Auth_mtls (claim : MtlsClaim) : Auth :=
  mk_Auth (PInt (AuthMethod_value AuthMethod_MTLS)) (AuthCredentials_mtls claim).

Record ClientConfig : Type := mk_ClientConfig {
  config_auth : Auth;
  config_client_id : pyval;
  config_supported_versions : pyval;
  config_capabilities : HelloCapabilities;
  config_connect_timeout : option pyfloat;
  config_request_timeout : option pyfloat;
  config_derived_write_timeout : option pyfloat
}.

Definition seconds (n : Z) : option pyfloat := Some (make_float false n 0).

Definition DEFAULT_DERIVED_WRITE_TIMEOUT : option pyfloat := seconds 120.

(** [ClientConfig(auth=auth)]. *)
Definition default_config (auth : Auth) : ClientConfig :=
  mk_ClientConfig auth (PStr "brain-db-sdk-python") (PList [PInt 1])
    (mk_HelloCapabilities (PBool true) (PBool false) (PBool false))
    (seconds 10) (seconds 30) DEFAULT_DERIVED_WRITE_TIMEOUT.

Record ConnectionInfo : Type := mk_ConnectionInfo {
  info_space_id : pyval;
  info_server_id : pyval;
  info_chosen_version : pyval;
  info_connection_id : pyval;
  info_bound_shard_id : pyval;
  info_permissions : SpacePermissions;
  info_namespace : pyval;
  info_server_features : ServerFeatures
}.

(** The call [connect_with] makes on the fresh connection. *)
Definition connect_call (config : ClientConfig) : result exn call :=
  let* versions := lift_error PyExn (py_list (config_supported_versions config)) in
  Ok (CallHandshake
        (mk_HelloPayload (config_client_id config) versions (config_capabilities config) PNone)
        (mk_AuthPayload (Auth_method (config_auth config)) (Auth_credentials (config_auth config)))).

(** The connection it binds the client to. *)
Definition connection_info (welcome : WelcomePayload) (auth_ok : AuthOkPayload) : ConnectionInfo :=
  mk_ConnectionInfo (AuthOkPayload_space_id auth_ok) (WelcomePayload_server_id welcome)
    (WelcomePayload_chosen_version welcome) (WelcomePayload_connection_id welcome)
    (AuthOkPayload_bound_shard_id auth_ok) (AuthOkPayload_permissions auth_ok)
    (AuthOkPayload_namespace auth_ok) (WelcomePayload_server_features welcome).
End Client.
