(* ===== verification/ClientProperties.v ===== *)
(** * ClientProperties

    What the verbs of [Client] do with a connection: each asks under the opcode
    of its name, accepts only the matching response, returns exactly what the
    server encoded, and keeps doing so when other threads share the connection. *)

From S2P Require Import Prelude Frame PyFloat PyValue PyArith PyCompare Cbor CborCodec WireEnums.
From S2P Require Import WireCodec Opcode WireHandshake WireMemory WireRecall WireListing WireTyped.
From S2P Require Import WireReasoning WireEvents WireReads WireMutations WireSpaces Errors.
From S2P Require Import Transport Mux MuxMoves MuxSafety MuxProperties Client.
From stdpp Require Import gmap.
#[local] Open Scope Z_scope.

Section Client.
Context `{HC : Cbor2Conforms} `{PyStr}.

(** ** Specifications of the verbs *)

(** A frame that carries [response] under [resp]. *)
Definition carries {Resp} `{WirePayload Resp} (resp : Opcode) (response : Resp) (f : Frame) : Prop :=
  frame_opcode f = opcode_value resp /\ encode_payload response = Ok (frame_payload f).

(** A response the wire can carry. *)
Definition wire_value {Resp} `{WireLaws Resp} (response : Resp) : Prop :=
  wire_wf response /\ forall m, to_map response = Ok m -> encodable m = true.

(** A verb that sends [prepare request] under [req], waits under [deadline request]
    and takes one frame under [resp]. *)
Definition unary_correct {In Req Resp} `{WirePayload Req} `{WireLaws Resp}
    (v : In -> verb Resp) (prepare : In -> Req) (deadline : In -> option pyfloat)
    (req resp : Opcode) : Prop :=
  response_of req = Some resp
  /\ forall request,
      (forall e, encode_payload (prepare request) = Raise e -> v request = Raise (PyExn e))
      /\ forall payload, encode_payload (prepare request) = Ok payload ->
         exists p, v request = Ok p
           /\ issues p = CallRequest req payload (deadline request)
           /\ (forall e, receives p (Raise e) = Raise e)
           /\ (forall frames, length frames <> 1%nat -> receives p (Ok frames) = Raise ProtocolError)
           /\ (forall f, frame_opcode f <> opcode_value resp ->
                 receives p (Ok [f]) = Raise ProtocolError)
           /\ (forall f response, wire_value response -> carries resp response f ->
                 receives p (Ok [f]) = Ok response).

(** The same for a stream of frames. *)
Definition streamed_correct {Req Resp} `{WirePayload Req} `{WireLaws Resp}
    (v : Req -> verb (list Resp)) (req resp : Opcode) : Prop :=
  response_of req = Some resp
  /\ forall request,
      (forall e, encode_payload request = Raise e -> v request = Raise (PyExn e))
      /\ forall payload, encode_payload request = Ok payload ->
         exists p, v request = Ok p
           /\ issues p = CallRequest req payload None
           /\ (forall e, receives p (Raise e) = Raise e)
           /\ (forall frames responses, Forall wire_value responses ->
                 Forall2 (carries resp) responses frames ->
                 receives p (Ok frames) = Ok responses)
           /\ (forall good f more responses, Forall wire_value responses ->
                 Forall2 (carries resp) responses good -> frame_opcode f <> opcode_value resp ->
                 receives p (Ok (good ++ f :: more)) = Raise ProtocolError).

(** A verb that makes one value of the frames of another. *)
Definition drains {Req Resp A} (v : Req -> verb A) (frames_of : Req -> verb (list Resp))
    (f : list Resp -> A) : Prop :=
  forall request,
    match frames_of request with
    | Raise e => v request = Raise e
    | Ok p => exists p', v request = Ok p' /\ issues p' = issues p
        /\ forall r, receives p' r = match receives p r with
                                     | Ok frames => Ok (f frames)
                                     | Raise e => Raise e
                                     end
    end.

(** ** Lemmas *)

Lemma decode_response_ok {Resp} `{WireLaws Resp} resp (response : Resp) f :
  wire_value response -> carries resp response f -> decode_response resp f = Ok response.
Proof.
  intros [Hw He] [Ho Hp]. unfold decode_response, is_opcode. rewrite Ho, Z.eqb_refl. cbn [negb].
  destruct (lossless_intro Resp response Hw) as (m & Em & Hl).
  destruct (Hl (He m Em)) as (bs & Eb & Ed).
  rewrite Hp in Eb. injection Eb as <-. by rewrite Ed.
Qed.

Lemma decode_response_other {Resp} `{WirePayload Resp} resp f :
  frame_opcode f <> opcode_value resp -> decode_response (Resp := Resp) resp f = Raise ProtocolError.
Proof.
  intros Ho. unfold decode_response, is_opcode. by rewrite (proj2 (Z.eqb_neq _ _) Ho).
Qed.

(** The connection's own deadline. *)
Definition connection_deadline {In} (request : In) : option pyfloat := None.

Lemma unary_is_correct {In Req Resp} `{WirePayload Req} `{WireLaws Resp}
    (v : In -> verb Resp) (prepare : In -> Req) deadline (req resp : Opcode) :
  (forall request, v request = unary_within (deadline request) req resp (prepare request)) ->
  response_of req = Some resp ->
  unary_correct v prepare deadline req resp.
Proof.
  intros Hv Hr. split; [done|]. intros request. rewrite Hv. unfold unary_within. split.
  - by intros e ->.
  - intros payload ->. eexists. split; [done|]. split_and!; cbn; try done.
    + intros frames Hl. by destruct frames as [|f [|g frames]].
    + intros f. apply decode_response_other.
    + intros f response. apply decode_response_ok.
Qed.

Lemma decode_all {Resp} `{WireLaws Resp} resp (responses : list Resp) frames rest :
  Forall wire_value responses -> Forall2 (carries resp) responses frames ->
  map_result (decode_response resp) (frames ++ rest)
  = let* more := map_result (decode_response resp) rest in Ok (responses ++ more).
Proof.
  intros Hw Hf. induction Hf as [|response f responses frames Hc Hf IH]; cbn.
  - by destruct (map_result _ rest).
  - apply Forall_cons in Hw as [Hw1 Hw2]. rewrite (decode_response_ok resp response f) by done.
    cbn. rewrite IH by done. by destruct (map_result _ rest).
Qed.

Lemma streamed_is_correct {Req Resp} `{WirePayload Req} `{WireLaws Resp}
    (v : Req -> verb (list Resp)) (req resp : Opcode) :
  (forall request, v request = streamed req resp request) -> response_of req = Some resp ->
  streamed_correct v req resp.
Proof.
  intros Hv Hr. split; [done|]. intros request. rewrite Hv. unfold streamed. split.
  - by intros e ->.
  - intros payload ->. eexists. split; [done|]. split_and!; cbn; try done.
    + intros frames responses Hw Hf. rewrite <- (app_nil_r frames).
      rewrite (decode_all resp responses) by done. cbn. by rewrite app_nil_r.
    + intros good f more responses Hw Hf Ho. rewrite (decode_all resp responses) by done.
      cbn [map_result]. by rewrite decode_response_other.
Qed.

Lemma returning_drains {Req Resp A} (v : Req -> verb A) (frames_of : Req -> verb (list Resp)) f g :
  (forall request, v request = returning f (frames_of request)) -> (forall l, f l = g l) ->
  drains v frames_of g.
Proof.
  intros Hv Hfg request. rewrite Hv. unfold returning.
  destruct (frames_of request) as [p|e]; [|done]. eexists. split; [done|]. split; [done|].
  intros r. cbn. destruct (receives p r); cbn; [by rewrite Hfg|done].
Qed.

Lemma drain_recall_app frames answer :
  fold_left (fun answer frame =>
    mk_RecallAnswer (RecallResponseFrame_answer_kind frame)
      (RecallAnswer_memories answer ++ RecallResponseFrame_memories frame)) frames answer
  = mk_RecallAnswer
      (match last frames with
       | Some frame => RecallResponseFrame_answer_kind frame
       | None => RecallAnswer_answer_kind answer
       end)
      (RecallAnswer_memories answer ++ concat (map RecallResponseFrame_memories frames)).
Proof.
  revert answer. induction frames as [|f frames IH]; intros [kind memories]; cbn [fold_left].
  - cbn. by rewrite app_nil_r.
  - rewrite IH. cbn [RecallAnswer_answer_kind RecallAnswer_memories map concat].
    rewrite <- app_assoc. f_equal. destruct frames as [|g frames]; [done|].
    change (last (f :: g :: frames)) with (last (g :: frames)).
    destruct (last (g :: frames)) eqn:E; [done|]. by apply last_None in E.
Qed.

(** ** Properties *)

(** The single-response verbs, each with its request and response opcodes. *)
Definition unary_verbs : Prop :=
  unary_correct forget id connection_deadline FORGET_REQ FORGET_RESP /\
  (forall derived : option pyfloat, unary_correct (Client.encode derived) id
    (fun r => if py_eq (EncodeRequest_wait r) (PInt 1) then derived else None)
    ENCODE_REQ ENCODE_RESP) /\
  unary_correct encode_vector_direct id connection_deadline ENCODE_VECTOR_DIRECT_REQ ENCODE_VECTOR_DIRECT_RESP /\
  unary_correct memory_inspect id connection_deadline MEMORY_INSPECT_REQ MEMORY_INSPECT_RESP /\
  unary_correct create_entity id connection_deadline ENTITY_CREATE_REQ ENTITY_CREATE_RESP /\
  unary_correct create_statement id connection_deadline STATEMENT_CREATE_REQ STATEMENT_CREATE_RESP /\
  unary_correct update_entity id connection_deadline ENTITY_UPDATE_REQ ENTITY_UPDATE_RESP /\
  unary_correct rename_entity id connection_deadline ENTITY_RENAME_REQ ENTITY_RENAME_RESP /\
  unary_correct merge_entities id connection_deadline ENTITY_MERGE_REQ ENTITY_MERGE_RESP /\
  unary_correct unmerge_entity id connection_deadline ENTITY_UNMERGE_REQ ENTITY_UNMERGE_RESP /\
  unary_correct tombstone_entity id connection_deadline ENTITY_TOMBSTONE_REQ ENTITY_TOMBSTONE_RESP /\
  unary_correct supersede_statement id connection_deadline STATEMENT_SUPERSEDE_REQ STATEMENT_SUPERSEDE_RESP /\
  unary_correct tombstone_statement id connection_deadline STATEMENT_TOMBSTONE_REQ STATEMENT_TOMBSTONE_RESP /\
  unary_correct retract_statement id connection_deadline STATEMENT_RETRACT_REQ STATEMENT_RETRACT_RESP /\
  unary_correct create_relation id connection_deadline RELATION_CREATE_REQ RELATION_CREATE_RESP /\
  unary_correct get_relation id connection_deadline RELATION_GET_REQ RELATION_GET_RESP /\
  unary_correct supersede_relation id connection_deadline RELATION_SUPERSEDE_REQ RELATION_SUPERSEDE_RESP /\
  unary_correct tombstone_relation id connection_deadline RELATION_TOMBSTONE_REQ RELATION_TOMBSTONE_RESP /\
  unary_correct upload_schema id connection_deadline SCHEMA_UPLOAD_REQ SCHEMA_UPLOAD_RESP /\
  unary_correct query_explain id connection_deadline QUERY_EXPLAIN_REQ QUERY_EXPLAIN_RESP /\
  unary_correct query_trace id connection_deadline QUERY_TRACE_REQ QUERY_TRACE_RESP /\
  unary_correct materialize_procedural id connection_deadline MATERIALIZE_PROCEDURAL_REQ MATERIALIZE_PROCEDURAL_RESP /\
  unary_correct create_space id connection_deadline SPACE_CREATE_REQ SPACE_CREATE_RESP /\
  unary_correct list_spaces id connection_deadline SPACE_LIST_REQ SPACE_LIST_RESP /\
  unary_correct delete_space id connection_deadline SPACE_DELETE_REQ SPACE_DELETE_RESP /\
  unary_correct create_session id connection_deadline SESSION_CREATE_REQ SESSION_CREATE_RESP /\
  unary_correct list_sessions id connection_deadline SESSION_LIST_REQ SESSION_LIST_RESP /\
  unary_correct delete_session id connection_deadline SESSION_DELETE_REQ SESSION_DELETE_RESP /\
  unary_correct link id connection_deadline LINK_REQ LINK_RESP /\
  unary_correct unlink id connection_deadline UNLINK_REQ UNLINK_RESP /\
  unary_correct capabilities (default (mk_GetCapabilitiesRequest None)) connection_deadline GET_CAPABILITIES_REQ GET_CAPABILITIES_RESP /\
  unary_correct extractor_list (default (mk_ExtractorListRequest None)) connection_deadline EXTRACTOR_LIST_REQ EXTRACTOR_LIST_RESP /\
  unary_correct get_entity id connection_deadline ENTITY_GET_REQ ENTITY_GET_RESP /\
  unary_correct resolve_entity id connection_deadline ENTITY_RESOLVE_REQ ENTITY_RESOLVE_RESP /\
  unary_correct get_statement id connection_deadline STATEMENT_GET_REQ STATEMENT_GET_RESP /\
  unary_correct get_schema id connection_deadline SCHEMA_GET_REQ SCHEMA_GET_RESP /\
  unary_correct validate_schema id connection_deadline SCHEMA_VALIDATE_REQ SCHEMA_VALIDATE_RESP /\
  unary_correct replace_schema id connection_deadline SCHEMA_REPLACE_REQ SCHEMA_REPLACE_RESP /\
  unary_correct drop_schema id connection_deadline SCHEMA_DROP_REQ SCHEMA_DROP_RESP /\
  (forall t, unary_correct (fun reason => cancel_stream t reason) (mk_CancelStreamRequest (PInt t)) connection_deadline CANCEL_STREAM CANCEL_STREAM_ACK) /\
  unary_correct txn_begin id connection_deadline TXN_BEGIN TXN_BEGIN_RESP /\
  unary_correct txn_commit id connection_deadline TXN_COMMIT TXN_COMMIT_RESP /\
  unary_correct txn_abort id connection_deadline TXN_ABORT TXN_ABORT_RESP.

Lemma unary_verbs_hold : unary_verbs.
Proof.
  split_and!; try intros t; apply unary_is_correct; done.
Qed.

(** The verbs that flatten a stream. *)
Lemma list_verbs_concatenate :
  drains recall recall_frames
    (fun frames => mk_RecallAnswer
       (match last frames with
        | Some frame => RecallResponseFrame_answer_kind frame
        | None => PStr (AnswerKind_value AnswerKind_NONE)
        end)
       (concat (map RecallResponseFrame_memories frames))) /\
  drains graph_fetch graph_fetch_frames
    (fun frames => (concat (map GraphFetchResponseFrame_nodes frames),
                    concat (map GraphFetchResponseFrame_edges frames))) /\
  drains memory_list memory_list_frames
    (fun frames => concat (map MemoryListResponseFrame_items frames)) /\
  drains statement_history statement_history_frames
    (fun frames => concat (map StatementHistoryResponseFrame_items frames)) /\
  drains traverse_relations traverse_relations_frames
    (fun frames => concat (map RelationTraverseResponseFrame_paths frames)) /\
  drains plan plan_frames
    (fun frames => concat (map PlanResponseFrame_steps frames)) /\
  drains reason reason_frames
    (fun frames => concat (map ReasonResponseFrame_inferences frames)) /\
  drains list_entities list_entities_frames
    (fun frames => concat (map EntityListResponseFrame_items frames)) /\
  drains list_statements list_statements_frames
    (fun frames => concat (map StatementListResponseFrame_items frames)) /\
  drains list_relations_from list_relations_from_frames
    (fun frames => concat (map RelationListFromResponseFrame_items frames)) /\
  drains list_relations_to list_relations_to_frames
    (fun frames => concat (map RelationListToResponseFrame_items frames)) /\
  drains list_schemas list_schemas_frames
    (fun frames => concat (map SchemaListResponseFrame_items frames)).
Proof.
  split_and!; (eapply returning_drains; [intros; reflexivity|]; intros l; cbn);
    try apply flat_map_concat_map.
  - unfold drain_recall. by rewrite drain_recall_app.
  - by rewrite !flat_map_concat_map.
Qed.

(** The streamed verbs, and those that flatten a stream. *)
Definition streamed_verbs : Prop :=
  streamed_correct recall_frames RECALL_REQ RECALL_RESP /\
  streamed_correct memory_list_frames MEMORY_LIST_REQ MEMORY_LIST_RESP /\
  streamed_correct graph_fetch_frames GRAPH_FETCH_REQ GRAPH_FETCH_RESP /\
  streamed_correct statement_history_frames STATEMENT_HISTORY_REQ STATEMENT_HISTORY_RESP /\
  streamed_correct traverse_relations_frames RELATION_TRAVERSE_REQ RELATION_TRAVERSE_RESP /\
  streamed_correct plan_frames PLAN_REQ PLAN_RESP /\
  streamed_correct reason_frames REASON_REQ REASON_RESP /\
  streamed_correct list_entities_frames ENTITY_LIST_REQ ENTITY_LIST_RESP /\
  streamed_correct list_statements_frames STATEMENT_LIST_REQ STATEMENT_LIST_RESP /\
  streamed_correct list_relations_from_frames RELATION_LIST_FROM_REQ RELATION_LIST_FROM_RESP /\
  streamed_correct list_relations_to_frames RELATION_LIST_TO_REQ RELATION_LIST_TO_RESP /\
  streamed_correct list_schemas_frames SCHEMA_LIST_REQ SCHEMA_LIST_RESP /\
  drains recall recall_frames
    (fun frames => mk_RecallAnswer
       (match last frames with
        | Some frame => RecallResponseFrame_answer_kind frame
        | None => PStr (AnswerKind_value AnswerKind_NONE)
        end)
       (concat (map RecallResponseFrame_memories frames))) /\
  drains graph_fetch graph_fetch_frames
    (fun frames => (concat (map GraphFetchResponseFrame_nodes frames),
                    concat (map GraphFetchResponseFrame_edges frames))) /\
  drains memory_list memory_list_frames
    (fun frames => concat (map MemoryListResponseFrame_items frames)) /\
  drains statement_history statement_history_frames
    (fun frames => concat (map StatementHistoryResponseFrame_items frames)) /\
  drains traverse_relations traverse_relations_frames
    (fun frames => concat (map RelationTraverseResponseFrame_paths frames)) /\
  drains plan plan_frames
    (fun frames => concat (map PlanResponseFrame_steps frames)) /\
  drains reason reason_frames
    (fun frames => concat (map ReasonResponseFrame_inferences frames)) /\
  drains list_entities list_entities_frames
    (fun frames => concat (map EntityListResponseFrame_items frames)) /\
  drains list_statements list_statements_frames
    (fun frames => concat (map StatementListResponseFrame_items frames)) /\
  drains list_relations_from list_relations_from_frames
    (fun frames => concat (map RelationListFromResponseFrame_items frames)) /\
  drains list_relations_to list_relations_to_frames
    (fun frames => concat (map RelationListToResponseFrame_items frames)) /\
  drains list_schemas list_schemas_frames
    (fun frames => concat (map SchemaListResponseFrame_items frames)).

Lemma streamed_verbs_hold : streamed_verbs.
Proof.
  pose proof list_verbs_concatenate as Hl.
  do 12 (split; [by apply streamed_is_correct|]). exact Hl.
Qed.

(** C16: every verb is the remote procedure call its name says. A single-response
    verb sends its request under its own opcode, its answer must be one frame
    under the response opcode that belongs to it, any other opcode or number of
    frames is a [ProtocolError], and when the server encodes a response the wire
    can carry, the caller gets that very response; all wait under the connection's
    deadline but ENCODE, which has its own when it asks for derivation. Of a
    streamed verb all frames up to EOS decode, in order, to exactly the responses
    the server encoded, and a frame with a foreign opcode anywhere fails the whole
    call; and the verbs that flatten a stream lose and reorder nothing: they
    return the concatenation of the items of every frame. *)
Theorem verbs_are_remote_calls : unary_verbs /\ streamed_verbs.
Proof. split; [apply unary_verbs_hold|apply streamed_verbs_hold]. Qed.

(** The frames of a finished call are the only one that arrived on its stream. *)
Lemma sole_frame timeout s tid c sid frames f :
  allowed timeout s ->
  threads s !! tid = Some (Finished c (Ok (AnswerFrames sid frames))) ->
  on_stream sid (arrived s) = [f] -> frames = [f].
Proof.
  intros Hr Ht Ha.
  destruct (allowed_threads_inv _ _ Hr _ _ Ht) as ((pre & seg & post & Harr & Hs) & (b & l & E & _) & _).
  rewrite Harr in Ha. unfold on_stream in *. rewrite !filter_app, Hs, E in Ha.
  rewrite E. destruct (filter _ pre) as [|x pre']; cbn in Ha.
  - destruct b as [|x b]; cbn in *; [by injection Ha as -> _|].
    injection Ha as _ Ha. by destruct b.
  - injection Ha as _ Ha. destruct pre'; [|done]. by destruct b.
Qed.

(** A finished single-response call returns the response on its stream. *)
Lemma unary_delivers {Req Resp} `{WirePayload Req} `{WireLaws Resp}
    timeout s tid req resp (request : Req) (response : Resp) p sid frames f :
  reachable timeout s ->
  unary req resp request = Ok p ->
  threads s !! tid = Some (Finished (issues p) (Ok (AnswerFrames sid frames))) ->
  on_stream sid (arrived s) = [f] -> carries resp response f -> wire_value response ->
  receives p (Ok frames) = Ok response.
Proof.
  intros Hr%reachable_allowed Hu Ht Ha Hc Hw. rewrite (sole_frame _ _ _ _ _ _ f Hr Ht Ha).
  unfold unary, unary_within in Hu. inv_binds. cbn. by apply decode_response_ok.
Qed.
End Client.

(** ** Witnesses *)

#[local] Instance sample_str : PyStr := {| str_of_object := fun _ => "" |}.

Definition sample_forget : ForgetRequest := mk_ForgetRequest (PInt 7) (PInt 0) (PBytes [x01]) PNone None.
Definition sample_forgotten : ForgetResponse := mk_ForgetResponse (PInt 7) (PBool false) (PInt 2).

Lemma sample_forgotten_ok : wire_value sample_forgotten.
Proof.
  split; [by vm_compute|]. intros m E. vm_compute in E. injection E as <-. by vm_compute.
Qed.

Definition forget_frame (sid : Z) : Frame :=
  mk_Frame (opcode_value FORGET_RESP) FLAG_EOS sid (bytes_of (encode_payload sample_forgotten)).

Lemma forget_frame_carries sid : carries FORGET_RESP sample_forgotten (forget_frame sid).
Proof. split; [done|]. by vm_compute. Qed.

Definition sample_recall : RecallRequest :=
  mk_RecallRequest (PStr "cue") (PStr "") (PInt 10) (PFloat (FZero false)) PNone PNone PNone PNone
    (PFloat (FZero false)) (PBool true) (PBool false) (PBool true) (PBytes [x01]) PNone (PBool false)
    None (PStr "Space").
Definition sample_answer (final : bool) : RecallResponseFrame :=
  mk_RecallResponseFrame (PStr "None") [] (PBool final) (PInt 0) PNone None.

Lemma sample_answer_ok final : wire_value (sample_answer final).
Proof.
  split.
  { change (RecallResponseFrame_wf (sample_answer final)). unfold RecallResponseFrame_wf.
    split_and!; first [reflexivity|constructor]. }
  intros m E. destruct final; vm_compute in E; injection E as <-; by vm_compute.
Qed.

Definition answer_frame (final : bool) : Frame :=
  mk_Frame (opcode_value RECALL_RESP) (if final then FLAG_EOS else 0) 1
    (bytes_of (encode_payload (sample_answer final))).

Lemma verbs_are_remote_calls_witness :
  (exists p, forget sample_forget = Ok p
     /\ receives p (Ok [forget_frame 1]) = Ok sample_forgotten)
  /\ exists p, recall_frames sample_recall = Ok p
     /\ receives p (Ok [answer_frame false; answer_frame true])
        = Ok [sample_answer false; sample_answer true].
Proof.
  destruct (verbs_are_remote_calls (HC := rfc8949_conforms)) as [[[_ Hu] _] [[_ Hs] _]].
  split.
  - destruct (Hu sample_forget) as [_ Hp]. edestruct Hp as (p & E & _ & _ & _ & _ & Hr);
      [vm_compute; reflexivity|].
    exists p. split; [exact E|]. apply (Hr _ _ sample_forgotten_ok (forget_frame_carries 1)).
  - destruct (Hs sample_recall) as [_ Hp]. edestruct Hp as (p & E & _ & _ & Hr & _);
      [vm_compute; reflexivity|].
    exists p. split; [exact E|]. apply Hr.
    + repeat (apply Forall_cons; split; [apply sample_answer_ok|]). constructor.
    + constructor; [|constructor; [|constructor]]; (split; vm_compute; reflexivity).
Defined.

(** A FORGET and a request of another thread, answered in the other order. *)
Definition busy : system :=
  play None
    (Start 0 (request_of RECALL_REQ)
     :: Start 1 (CallRequest FORGET_REQ (bytes_of (encode_payload sample_forget)) None)
     :: advance 0 3 ++ advance 1 3
     ++ arrives (forget_frame 3) ++ arrives (response 1 true x03)
     ++ advance 0 2 ++ advance 1 2).
