(* ===== verification/SpaceId.v ===== *)
(** * SpaceId

    The identifiers [client.py] makes: [new_id] and [derive_space_id], with what
    they use of the standard library: SHA-1 and the stamping of a UUID. *)

From S2P Require Import Prelude Rfc8949.

(** ** SHA-1 *)

Definition word32 (n : Z) : Z := Z.land n 0xFFFFFFFF.
Definition add32 (a b : Z) : Z := word32 (a + b).
Definition rotl (k x : Z) : Z := Z.lor (word32 (Z.shiftl x k)) (Z.shiftr x (32 - k)).

(** The message, a one bit, zeros up to a multiple of 64 bytes, and the length
    in bits as eight bytes. *)
Definition pad_zeros (len : nat) : nat := (63 - (len + 8) mod 64)%nat.
Definition pad (msg : bytes) : bytes :=
  msg ++ x80 :: repeat x00 (pad_zeros (length msg)) ++ be_bytes 8 (8 * zlen msg).

(** Consecutive pieces of [k] elements. *)
Fixpoint pieces {A} (fuel k : nat) (l : list A) : list (list A) :=
  match fuel with
  | O => []
  | S fuel => match l with [] => [] | _ => take k l :: pieces fuel k (drop k l) end
  end.

Definition words (block : bytes) : list Z := map from_bytes_big (pieces 16 4 block).

(** The schedule, latest word first. *)
Fixpoint extend (n : nat) (w : list Z) : list Z :=
  match n with
  | O => w
  | S n =>
      let at' i := nth i w 0 in
      extend n (rotl 1 (Z.lxor (Z.lxor (at' 2%nat) (at' 7%nat)) (Z.lxor (at' 13%nat) (at' 15%nat))) :: w)
  end.

Definition schedule (block : bytes) : list Z := rev (extend 64 (rev (words block))).

Record sha_state : Type := mk_sha { ha : Z; hb : Z; hc : Z; hd : Z; he : Z }.

Definition round_function (t : nat) (b c d : Z) : Z :=
  if (t <? 20)%nat then Z.lor (Z.land b c) (Z.land (Z.lxor b 0xFFFFFFFF) d)
  else if (t <? 40)%nat then Z.lxor (Z.lxor b c) d
  else if (t <? 60)%nat then Z.lor (Z.lor (Z.land b c) (Z.land b d)) (Z.land c d)
  else Z.lxor (Z.lxor b c) d.

Definition round_constant (t : nat) : Z :=
  if (t <? 20)%nat then 0x5A827999
  else if (t <? 40)%nat then 0x6ED9EBA1
  else if (t <? 60)%nat then 0x8F1BBCDC
  else 0xCA62C1D6.

Definition round (t : nat) (w : Z) (s : sha_state) : sha_state :=
  let temp := word32 (rotl 5 (ha s) + round_function t (hb s) (hc s) (hd s) + he s + round_constant t + w) in
  mk_sha temp (ha s) (rotl 30 (hb s)) (hc s) (hd s).

Fixpoint rounds (t : nat) (ws : list Z) (s : sha_state) : sha_state :=
  match ws with
  | [] => s
  | w :: ws => rounds (S t) ws (round t w s)
  end.

Definition sha_block (s : sha_state) (block : bytes) : sha_state :=
  let r := rounds 0 (schedule block) s in
  mk_sha (add32 (ha s) (ha r)) (add32 (hb s) (hb r)) (add32 (hc s) (hc r)) (add32 (hd s) (hd r))
    (add32 (he s) (he r)).

Definition sha_init : sha_state := mk_sha 0x67452301 0xEFCDAB89 0x98BADCFE 0x10325476 0xC3D2E1F0.

Definition sha_digest (s : sha_state) : bytes :=
  be_bytes 4 (ha s) ++ be_bytes 4 (hb s) ++ be_bytes 4 (hc s) ++ be_bytes 4 (hd s) ++ be_bytes 4 (he s).

(** [hashlib.sha1(msg).digest()]. *)
Definition sha1 (msg : bytes) : bytes :=
  let padded := pad msg in
  sha_digest (fold_left sha_block (pieces (length padded) 64 padded) sha_init).

(** ** UUIDs *)

(** What [UUID(bytes=bs, version=v)] does to the integer of the bytes. *)
Definition stamp (v n : Z) : Z :=
  let n := Z.ldiff n (Z.shiftl 0xC000 48) in
  let n := Z.lor n (Z.shiftl 0x8000 48) in
  let n := Z.ldiff n (Z.shiftl 0xF000 64) in
  Z.lor n (Z.shiftl v 76).

Definition uuid (v : Z) (bs : bytes) : bytes := be_bytes 16 (stamp v (from_bytes_big bs)).

(** [uuid.uuid5(namespace, name).bytes]. *)
Definition uuid5 (namespace : bytes) (name : string) : bytes :=
  uuid 5 (take 16 (sha1 (namespace ++ str_bytes name))).

(** ** The identifiers of the client *)

(** [new_id]; the argument is what [os.urandom(16)] gives. *)
Definition new_id (random : bytes) : bytes := uuid 4 random.

Definition BRAIN_ROOT_NAMESPACE_UUID : bytes :=
  [x6b; x72; x61; x69; x6e; x2d; x73; x70; x61; x63; x65; x2d; x72; x6f; x6f; x74].

(** [derive_space_id]. *)
Definition derive_space_id (namespace space : string) : bytes :=
  let ns := uuid5 BRAIN_ROOT_NAMESPACE_UUID namespace in
  uuid5 ns space.

(** ** Lemmas *)

Lemma length_sha1 msg : length (sha1 msg) = 20%nat.
Proof. unfold sha1, sha_digest. by autorewrite with brain_len. Qed.

(** The hash works on whole blocks: padding fills the last one. *)
Lemma length_pad msg : (length (pad msg) mod 64 = 0)%nat.
Proof.
  unfold pad, pad_zeros. rewrite length_app. cbn [length].
  rewrite length_app, repeat_length, length_be_bytes.
  pose proof (Nat.mod_upper_bound (length msg + 8) 64 ltac:(lia)).
  pose proof (Nat.div_mod_eq (length msg + 8) 64).
  replace (length msg + S (63 - (length msg + 8) mod 64 + 8))%nat
    with ((S ((length msg + 8) / 64)) * 64)%nat by lia.
  apply Nat.Div0.mod_mul.
Qed.

(** A padded message determines the message. *)
Lemma pad_inj m m' : zlen m < 2 ^ 61 -> zlen m' < 2 ^ 61 -> pad m = pad m' -> m = m'.
Proof.
  intros Hm Hm' E.
  assert (El : zlen m = zlen m').
  { apply (f_equal (fun l => from_bytes_big (drop (length l - 8) l))) in E. unfold pad in E.
    assert (D : forall (a : bytes) b n, drop (length (a ++ x80 :: repeat x00 n ++ be_bytes 8 b) - 8)
              (a ++ x80 :: repeat x00 n ++ be_bytes 8 b) = be_bytes 8 b).
    { intros a b n. rewrite (app_assoc a [x80] (repeat x00 n ++ be_bytes 8 b) : a ++ x80 :: _ = _).
      rewrite (app_assoc _ (repeat x00 n)). apply drop_app_length'.
      rewrite !length_app, length_be_bytes. lia. }
    rewrite !D, !from_be_bytes in E. change (256 ^ Z.of_nat 8) with (8 * 2 ^ 61) in E.
    unfold zlen in *. rewrite !Z.mod_small in E by lia. lia. }
  unfold pad in E. apply app_inj_1 in E as [E _]; [done|]. unfold zlen in El. lia.
Qed.

(** The bits of a stamped UUID. *)
Lemma stamp_testbit v n i :
  0 <= v < 16 -> 0 <= i ->
  Z.testbit (stamp v n) i
  = if (i =? 63) then true else if (i =? 62) then false
    else if (76 <=? i) && (i <? 80) then Z.testbit v (i - 76) else Z.testbit n i.
Proof.
  intros Hv Hi. unfold stamp. rewrite Z.lor_spec, Z.ldiff_spec, Z.lor_spec, Z.ldiff_spec.
  rewrite !Z.shiftl_spec by lia.
  assert (Hhigh : forall c k, 0 <= c < 2 ^ k -> 0 <= k -> forall j, k <= j -> Z.testbit c j = false).
  { intros c k Hc Hk j Hj. destruct (Z.eq_dec c 0) as [->|]; [apply Z.bits_0|].
    apply Z.bits_above_log2; [lia|]. apply Z.log2_lt_pow2; [lia|].
    apply (Z.lt_le_trans _ (2 ^ k)); [lia|]. by apply Z.pow_le_mono_r. }
  assert (Hneg : forall c j, j < 0 -> Z.testbit c j = false) by (intros; by apply Z.testbit_neg_r).
  destruct (Z.eqb_spec i 63) as [->|]; [by destruct (Z.testbit n 63)|].
  destruct (Z.eqb_spec i 62) as [->|]; [by destruct (Z.testbit n 62)|].
  destruct (Z.leb_spec 76 i), (Z.ltb_spec i 80); cbn [andb].
  - assert (Hi' : i = 76 \/ i = 77 \/ i = 78 \/ i = 79) by lia.
    assert (Hf : Z.testbit 0xF000 (i - 64) = true) by (by destruct Hi' as [->|[->|[->| ->]]]).
    by rewrite Hf, andb_false_r.
  - rewrite (Hhigh 0xF000 16), (Hhigh 0xC000 16), (Hhigh 0x8000 16), (Hhigh v 4) by lia.
    by rewrite !orb_false_r, !andb_true_r.
  - rewrite (Hneg v) by lia.
    assert (Hf : Z.testbit 0xF000 (i - 64) = false).
    { destruct (Z.ltb_spec i 64); [apply Hneg; lia|].
      assert (Hi' : exists k, (k < 12)%nat /\ i - 64 = Z.of_nat k) by (exists (Z.to_nat (i - 64)); lia).
      destruct Hi' as (k & Hk & ->). by do 12 (destruct k as [|k]; [done|]); lia. }
    assert (Hc : Z.testbit 0xC000 (i - 48) = false /\ Z.testbit 0x8000 (i - 48) = false).
    { destruct (Z.ltb_spec i 48); [split; apply Hneg; lia|].
      destruct (Z.ltb_spec i 64); [|split; apply (Hhigh _ 16); lia].
      assert (Hi' : exists k, (k < 14)%nat /\ i - 48 = Z.of_nat k) by (exists (Z.to_nat (i - 48)); lia).
      destruct Hi' as (k & Hk & ->). by do 14 (destruct k as [|k]; [done|]); lia. }
    destruct Hc as [-> ->]. by rewrite Hf, !orb_false_r, !andb_true_r.
  - lia.
Qed.

(** The 16-byte identifier [id] is [n] with its version and variant stamped: the
    version in bits 76 to 79, the two bits of the variant below bit 64, and
    every other bit of [n]. *)
Definition uuid_shape (v n : Z) (id : bytes) : Prop :=
  length id = 16%nat
  /\ forall i, 0 <= i < 128 ->
       Z.testbit (from_bytes_big id) i
       = if (i =? 63) then true else if (i =? 62) then false
         else if (76 <=? i) && (i <? 80) then Z.testbit v (i - 76) else Z.testbit n i.

Lemma uuid_has_shape v bs : 0 <= v < 16 -> uuid_shape v (from_bytes_big bs) (uuid v bs).
Proof.
  intros Hv. split; [apply length_be_bytes|]. intros i Hi. unfold uuid.
  rewrite from_be_bytes. change (256 ^ Z.of_nat 16) with (2 ^ 128).
  rewrite Z.mod_pow2_bits_low by lia. apply stamp_testbit; lia.
Qed.

(** C36: the identifiers the client makes are UUIDs. [new_id] is sixteen random
    bytes with version 4 and the RFC 4122 variant stamped on them, and keeps every
    other bit. [derive_space_id] hashes the namespace under the root and the space
    under the result, with SHA-1, and stamps version 5 both times; what is hashed
    is a whole number of blocks from which the space can be told (below the 2^61
    bytes the hash can measure); and it gives the value the server's golden test
    pins. *)
Theorem ids_are_uuids :
  (forall random, length random = 16%nat ->
     uuid_shape 4 (from_bytes_big random) (new_id random))
  /\ (forall namespace space,
        let name := BRAIN_ROOT_NAMESPACE_UUID ++ str_bytes namespace in
        let ns := uuid 5 (take 16 (sha1 name)) in
        let spaced := ns ++ str_bytes space in
        uuid_shape 5 (from_bytes_big (take 16 (sha1 name))) ns
        /\ uuid_shape 5 (from_bytes_big (take 16 (sha1 spaced))) (derive_space_id namespace space)
        /\ (length (pad name) mod 64 = 0)%nat /\ (length (pad spaced) mod 64 = 0)%nat
        /\ (forall space', zlen spaced < 2 ^ 61 -> zlen (ns ++ str_bytes space') < 2 ^ 61 ->
              pad spaced = pad (ns ++ str_bytes space') -> str_bytes space = str_bytes space'))
  /\ derive_space_id "acme" "support-bot:user123"
     = [x11; x90; x61; xcc; xb6; xdb; x5c; xde; x8e; xdd; x0c; xef; xa3; x34; x52; xeb]
  /\ derive_space_id "ns_a" "u1" <> derive_space_id "ns_b" "u1".
Proof.
  split; [|split; [|split]].
  - intros random _. by apply uuid_has_shape.
  - intros namespace space name ns spaced.
    split; [by apply uuid_has_shape|]. split; [by apply uuid_has_shape|].
    split; [apply length_pad|]. split; [apply length_pad|].
    intros space' H1 H2 E. by apply pad_inj, app_inv_head in E.
  - by_compute.
  - vm_compute. discriminate.
Qed.

Lemma ids_are_uuids_witness :
  uuid_shape 4 (from_bytes_big BRAIN_ROOT_NAMESPACE_UUID) (new_id BRAIN_ROOT_NAMESPACE_UUID).
Proof. apply (proj1 ids_are_uuids). reflexivity. Defined.

(** The vectors of the standard. *)
Example sha1_vectors :
  map (fun m => from_bytes_big (sha1 (str_bytes m)))
    [""; "abc"; "abcdbcdecdefdefgefghfghighijhijkijkljklmklmnlmnomnopnopq"]
  = [0xda39a3ee5e6b4b0d3255bfef95601890afd80709;
     0xa9993e364706816aba3e25717850c26c9cd0d89d;
     0x84983e441c3bd26ebaae4aa1f95129e5e54670f1].
Proof. by_compute. Qed.
