(* ===== verification/Verbs.v ===== *)
(** * Verbs

    [verbs.py]: the request builders. A builder is a record; a call of one of its
    methods is a step that sets fields and returns the builder. *)

From S2P Require Import Prelude PyFloat PyValue PyArith PyCompare Cbor CborCodec WireEnums WireCodec.
From S2P Require Import Opcode WireHandshake WireMemory WireRecall Errors Transport Mux Client.
From S2P Require Import ClientProperties SpaceId.
#[local] Open Scope Z_scope.

(** [ActAs(namespace=..., space=...)]. *)
Definition acting_as (namespace space : pyval) : ActAs := mk_ActAs namespace space (PInt 0).

(** ** [EncodeBuilder] *)

Record EncodeBuilder : Type := mk_EncodeBuilder {
  eb_text : pyval;
  eb_session_id : pyval;
  eb_occurred_at_unix_nanos : pyval;
  eb_act_as_identity : option ActAs;
  eb_wait_mode : pyval;
  eb_allow_dups : pyval
}.

(** [EncodeBuilder(text)]. *)
Definition new_EncodeBuilder (text : pyval) : EncodeBuilder :=
  mk_EncodeBuilder text (PInt 0) PNone None (PInt (WaitMode_value WaitMode_ACK)) (PBool false).

(** The methods; an argument left out is [None]. *)
Inductive encode_method : Type :=
| EncodeSession (session_id : pyval)
| EncodeOccurredAt (occurred_at_unix_nanos : pyval)
| EncodeWait (mode : option pyval)
| EncodeDerived
| EncodeActAs (namespace space : pyval)
| EncodeAllowDuplicates (allow : option pyval).

Definition encode_step (self : EncodeBuilder) (m : encode_method) : EncodeBuilder :=
  let 'mk_EncodeBuilder text session_id occurred_at act_as wait_mode allow_dups := self in
  match m with
  | EncodeSession s => mk_EncodeBuilder text s occurred_at act_as wait_mode allow_dups
  | EncodeOccurredAt t => mk_EncodeBuilder text session_id t act_as wait_mode allow_dups
  | EncodeWait mode =>
      mk_EncodeBuilder text session_id occurred_at act_as
        (default (PInt (WaitMode_value WaitMode_ACK)) mode) allow_dups
  | EncodeDerived =>
      mk_EncodeBuilder text session_id occurred_at act_as (PInt (WaitMode_value WaitMode_DERIVED))
        allow_dups
  | EncodeActAs namespace space =>
      mk_EncodeBuilder text session_id occurred_at (Some (acting_as namespace space)) wait_mode
        allow_dups
  | EncodeAllowDuplicates allow =>
      mk_EncodeBuilder text session_id occurred_at act_as wait_mode (default (PBool true) allow)
  end.

(** [build()]; [random] is what [new_id] draws. *)
Definition encode_build (self : EncodeBuilder) (random : bytes) : EncodeRequest :=
  mk_EncodeRequest (eb_text self) (eb_session_id self) (PBytes (new_id random)) PNone
    (eb_occurred_at_unix_nanos self) (eb_act_as_identity self) (eb_wait_mode self)
    (eb_allow_dups self).

(** ** [RecallBuilder] *)

Record RecallBuilder : Type := mk_RecallBuilder {
  rb_cue_text : pyval;
  rb_subject_name : pyval;
  rb_max_results : pyval;
  rb_confidence_threshold : pyval;
  rb_session_filter : pyval;
  rb_age_bound_unix_nanos : pyval;
  rb_as_of_record_time_unix_nanos : pyval;
  rb_kind_filter : pyval;
  rb_salience_floor : pyval;
  rb_include_edges : pyval;
  rb_include_graph : pyval;
  rb_include_text : pyval;
  rb_trace_enabled : pyval;
  rb_act_as_identity : option ActAs;
  rb_scope_selector : pyval
}.

(** [RecallBuilder(cue_text)]. *)
Definition new_RecallBuilder (cue_text : pyval) : RecallBuilder :=
  mk_RecallBuilder cue_text (PStr "") (PInt 10) (PFloat (FZero false)) PNone PNone PNone PNone
    (PFloat (FZero false)) (PBool true) (PBool false) (PBool true) (PBool false) None
    (PStr (RecallScope_value RecallScope_SPACE)).

Inductive recall_method : Type :=
| RecallSubject (subject_name : pyval)
| RecallLimit (max_results : pyval)
| RecallAsOf (as_of_record_time_unix_nanos : pyval)
| RecallConfidence (threshold : pyval)
| RecallSessions (sessions : list pyval)
| RecallKinds (kinds : list pyval)
| RecallSalience (floor : pyval)
| RecallEdges (include : pyval)
| RecallGraph (include : pyval)
| RecallText (include : pyval)
| RecallTrace (trace : option pyval)
| RecallWithScope (scope : pyval)
| RecallActAs (namespace space : pyval).

Definition recall_step (self : RecallBuilder) (m : recall_method) : RecallBuilder :=
  let 'mk_RecallBuilder cue subject max confidence sessions age as_of kinds salience edges graph text
         trace act_as scope := self in
  match m with
  | RecallSubject v =>
      mk_RecallBuilder cue v max confidence sessions age as_of kinds salience edges graph text trace
        act_as scope
  | RecallLimit v =>
      mk_RecallBuilder cue subject v confidence sessions age as_of kinds salience edges graph text
        trace act_as scope
  | RecallAsOf v =>
      mk_RecallBuilder cue subject max confidence sessions age v kinds salience edges graph text
        trace act_as scope
  | RecallConfidence v =>
      mk_RecallBuilder cue subject max v sessions age as_of kinds salience edges graph text trace
        act_as scope
  | RecallSessions l =>
      mk_RecallBuilder cue subject max confidence (PList l) age as_of kinds salience edges graph
        text trace act_as scope
  | RecallKinds l =>
      mk_RecallBuilder cue subject max confidence sessions age as_of (PList l) salience edges graph
        text trace act_as scope
  | RecallSalience v =>
      mk_RecallBuilder cue subject max confidence sessions age as_of kinds v edges graph text trace
        act_as scope
  | RecallEdges v =>
      mk_RecallBuilder cue subject max confidence sessions age as_of kinds salience v graph text
        trace act_as scope
  | RecallGraph v =>
      mk_RecallBuilder cue subject max confidence sessions age as_of kinds salience edges v text
        trace act_as scope
  | RecallText v =>
      mk_RecallBuilder cue subject max confidence sessions age as_of kinds salience edges graph v
        trace act_as scope
  | RecallTrace v =>
      mk_RecallBuilder cue subject max confidence sessions age as_of kinds salience edges graph text
        (default (PBool true) v) act_as scope
  | RecallWithScope v =>
      mk_RecallBuilder cue subject max confidence sessions age as_of kinds salience edges graph text
        trace act_as v
  | RecallActAs namespace space =>
      mk_RecallBuilder cue subject max confidence sessions age as_of kinds salience edges graph text
        trace (Some (acting_as namespace space)) scope
  end.

Definition recall_build (self : RecallBuilder) (random : bytes) : RecallRequest :=
  mk_RecallRequest (rb_cue_text self) (rb_subject_name self) (rb_max_results self)
    (rb_confidence_threshold self) (rb_session_filter self) (rb_age_bound_unix_nanos self)
    (rb_as_of_record_time_unix_nanos self) (rb_kind_filter self) (rb_salience_floor self)
    (rb_include_edges self) (rb_include_graph self) (rb_include_text self)
    (PBytes (new_id random)) PNone (rb_trace_enabled self) (rb_act_as_identity self)
    (rb_scope_selector self).

(** ** [ForgetBuilder] *)

Record ForgetBuilder : Type := mk_ForgetBuilder {
  fb_memory_id : pyval;
  fb_mode : pyval;
  fb_act_as_identity : option ActAs
}.

(** [ForgetBuilder(memory_id)]. *)
Definition new_ForgetBuilder (memory_id : pyval) : ForgetBuilder :=
  mk_ForgetBuilder memory_id (PInt (ForgetMode_value ForgetMode_SOFT)) None.

Inductive forget_method : Type :=
| ForgetHard
| ForgetWithMode (mode : pyval)
| ForgetActAs (namespace space : pyval).

Definition forget_step (self : ForgetBuilder) (m : forget_method) : ForgetBuilder :=
  let 'mk_ForgetBuilder memory_id mode act_as := self in
  match m with
  | ForgetHard => mk_ForgetBuilder memory_id (PInt (ForgetMode_value ForgetMode_HARD)) act_as
  | ForgetWithMode mode => mk_ForgetBuilder memory_id mode act_as
  | ForgetActAs namespace space => mk_ForgetBuilder memory_id mode (Some (acting_as namespace space))
  end.

Definition forget_build (self : ForgetBuilder) (random : bytes) : ForgetRequest :=
  mk_ForgetRequest (fb_memory_id self) (fb_mode self) (PBytes (new_id random)) PNone
    (fb_act_as_identity self).

(** ** What a builder builds *)

(** The last of the values the calls set, or the default. *)
Definition latest {M V} (sets : M -> option V) (d : V) (ms : list M) : V :=
  default d (head (omap sets (rev ms))).

Lemma fold_latest {B M V} (step : B -> M -> B) (get : B -> V) (sets : M -> option V) :
  (forall b m, get (step b m) = default (get b) (sets m)) ->
  forall ms b, get (fold_left step ms b) = latest sets (get b) ms.
Proof.
  intros Hstep ms. induction ms as [|m ms IH] using rev_ind; intros b; [done|].
  rewrite fold_left_app. cbn [fold_left]. rewrite Hstep, IH. unfold latest.
  rewrite rev_app_distr. cbn [rev app omap list_omap]. by destruct (sets m).
Qed.

(** The requests, field by field. *)
Definition encode_request (text : pyval) (ms : list encode_method) (random : bytes) : EncodeRequest :=
  mk_EncodeRequest text
    (latest (fun m => match m with EncodeSession s => Some s | _ => None end) (PInt 0) ms)
    (PBytes (new_id random)) PNone
    (latest (fun m => match m with EncodeOccurredAt t => Some t | _ => None end) PNone ms)
    (latest (fun m => match m with EncodeActAs n s => Some (Some (acting_as n s)) | _ => None end)
       None ms)
    (latest (fun m => match m with
                      | EncodeWait mode => Some (default (PInt 0) mode)
                      | EncodeDerived => Some (PInt 1)
                      | _ => None
                      end) (PInt 0) ms)
    (latest (fun m => match m with
                      | EncodeAllowDuplicates allow => Some (default (PBool true) allow)
                      | _ => None
                      end) (PBool false) ms).

Definition recall_request (cue : pyval) (ms : list recall_method) (random : bytes) : RecallRequest :=
  mk_RecallRequest cue
    (latest (fun m => match m with RecallSubject v => Some v | _ => None end) (PStr "") ms)
    (latest (fun m => match m with RecallLimit v => Some v | _ => None end) (PInt 10) ms)
    (latest (fun m => match m with RecallConfidence v => Some v | _ => None end)
       (PFloat (FZero false)) ms)
    (latest (fun m => match m with RecallSessions l => Some (PList l) | _ => None end) PNone ms)
    PNone
    (latest (fun m => match m with RecallAsOf v => Some v | _ => None end) PNone ms)
    (latest (fun m => match m with RecallKinds l => Some (PList l) | _ => None end) PNone ms)
    (latest (fun m => match m with RecallSalience v => Some v | _ => None end)
       (PFloat (FZero false)) ms)
    (latest (fun m => match m with RecallEdges v => Some v | _ => None end) (PBool true) ms)
    (latest (fun m => match m with RecallGraph v => Some v | _ => None end) (PBool false) ms)
    (latest (fun m => match m with RecallText v => Some v | _ => None end) (PBool true) ms)
    (PBytes (new_id random)) PNone
    (latest (fun m => match m with RecallTrace v => Some (default (PBool true) v) | _ => None end)
       (PBool false) ms)
    (latest (fun m => match m with RecallActAs n s => Some (Some (acting_as n s)) | _ => None end)
       None ms)
    (latest (fun m => match m with RecallWithScope v => Some v | _ => None end) (PStr "Space") ms).

Definition forget_request (memory_id : pyval) (ms : list forget_method) (random : bytes)
    : ForgetRequest :=
  mk_ForgetRequest memory_id
    (latest (fun m => match m with
                      | ForgetHard => Some (PInt 1)
                      | ForgetWithMode mode => Some mode
                      | _ => None
                      end) (PInt 0) ms)
    (PBytes (new_id random)) PNone
    (latest (fun m => match m with ForgetActAs n s => Some (Some (acting_as n s)) | _ => None end)
       None ms).

Lemma fold_keeps {B M V} (step : B -> M -> B) (get : B -> V) :
  (forall b m, get (step b m) = get b) -> forall ms b, get (fold_left step ms b) = get b.
Proof.
  intros Hstep ms. induction ms as [|m ms IH]; intros b; [done|]. cbn [fold_left].
  by rewrite IH, Hstep.
Qed.

(** A field of the builder after a chain of calls. *)
Ltac solve_field :=
  lazymatch goal with
  | |- ?get (fold_left ?step ?ms ?b) = latest ?sets _ ?ms =>
      change (get (fold_left step ms b) = latest sets (get b) ms); apply fold_latest
  | |- ?get (fold_left ?step ?ms ?b) = ?v =>
      change (get (fold_left step ms b) = get b); apply fold_keeps
  end; intros [] []; reflexivity.

Lemma encode_builds text ms random :
  encode_build (fold_left encode_step ms (new_EncodeBuilder text)) random
  = encode_request text ms random.
Proof. unfold encode_build, encode_request. f_equal; solve_field. Qed.

Lemma recall_builds cue ms random :
  recall_build (fold_left recall_step ms (new_RecallBuilder cue)) random
  = recall_request cue ms random.
Proof. unfold recall_build, recall_request. f_equal; solve_field. Qed.

Lemma forget_builds memory_id ms random :
  forget_build (fold_left forget_step ms (new_ForgetBuilder memory_id)) random
  = forget_request memory_id ms random.
Proof. unfold forget_build, forget_request. f_equal; solve_field. Qed.

(** ** What is sent *)

Section Sent.
Context `{HC : Cbor2Conforms} `{PyStr}.

(** A verb that issues the call of [req] with [request] as its payload: whoever
    decodes that gets the request back. *)
Definition sends {Req Resp} `{WirePayload Req} (v : verb Resp) (req : Opcode) (request : Req)
    (deadline : option pyfloat) : Prop :=
  exists p payload, v = Ok p /\ issues p = CallRequest req payload deadline
    /\ decode_payload payload = Ok request.

Lemma wire_value_sent {Req} `{WireLaws Req} (request : Req) :
  wire_value request ->
  exists payload, encode_payload request = Ok payload /\ decode_payload payload = Ok request.
Proof.
  intros [Hw He]. destruct (lossless_intro Req request Hw) as (m & Em & Hl). exact (Hl (He m Em)).
Qed.

Lemma unary_sends {Req Resp} `{WireLaws Req} `{WirePayload Resp} (req resp : Opcode)
    (request : Req) deadline :
  wire_value request ->
  sends (unary_within (Resp := Resp) deadline req resp request) req request deadline.
Proof.
  intros (payload & Ep & Ed)%wire_value_sent. unfold sends, unary_within. rewrite Ep.
  by eexists _, payload.
Qed.

Lemma streamed_sends {Req Resp} `{WireLaws Req} `{WirePayload Resp} (req resp : Opcode)
    (request : Req) :
  wire_value request -> sends (streamed (Resp := Resp) req resp request) req request None.
Proof.
  intros (payload & Ep & Ed)%wire_value_sent. unfold sends, streamed. rewrite Ep.
  by eexists _, payload.
Qed.

(** C18: what a chain of builder calls asks for is what the server is sent. Take a
    builder, any methods called on it in any order, and the request it builds:
    each field is the last value a call set for it or its default, the
    transaction is none and the id is the fresh one. Given to its verb, the
    request goes out under the verb's opcode as a payload that decodes to exactly
    that request (arguments the wire can carry), and an ENCODE waits under the
    deadline for derived writes precisely when the last [wait] or [derived] asked
    for derivation. *)
Theorem builders_send_what_was_set :
  (forall text ms random derived,
     let request := encode_request text ms random in
     wire_value request ->
     sends (Client.encode derived (encode_build (fold_left encode_step ms (new_EncodeBuilder text)) random))
       ENCODE_REQ request (if py_eq (EncodeRequest_wait request) (PInt 1) then derived else None))
  /\ (forall cue ms random,
     let request := recall_request cue ms random in
     wire_value request ->
     sends (recall_frames (recall_build (fold_left recall_step ms (new_RecallBuilder cue)) random))
       RECALL_REQ request None)
  /\ (forall memory_id ms random,
     let request := forget_request memory_id ms random in
     wire_value request ->
     sends (forget (forget_build (fold_left forget_step ms (new_ForgetBuilder memory_id)) random))
       FORGET_REQ request None).
Proof.
  split; [|split].
  - intros text ms random derived request Hw. rewrite encode_builds. by apply unary_sends.
  - intros cue ms random request Hw. rewrite recall_builds. by apply streamed_sends.
  - intros memory_id ms random request Hw. rewrite forget_builds. by apply unary_sends.
Qed.
End Sent.

(** ** Witness *)

#[local] Instance sample_str : PyStr := {| str_of_object := fun _ => "" |}.

Definition sample_chain : list encode_method :=
  [EncodeDerived; EncodeSession (PInt 4); EncodeAllowDuplicates None; EncodeActAs (PStr "ns") (PStr "bot");
   EncodeSession (PInt 7)].

Lemma builders_send_what_was_set_witness :
  let request := encode_request (PStr "hi") sample_chain [x01] in
  sends (Client.encode (seconds 120)
           (encode_build (fold_left encode_step sample_chain (new_EncodeBuilder (PStr "hi"))) [x01]))
    ENCODE_REQ request (seconds 120).
Proof.
  apply (proj1 (builders_send_what_was_set (HC := rfc8949_conforms)) (PStr "hi") sample_chain [x01]
           (seconds 120)).
  split; [vm_compute; split_and!; first [reflexivity | by eexists]|]. intros m E. vm_compute in E. injection E as <-. by vm_compute.
Defined.
