(* ===== verification/AioClient.v ===== *)
(** * AioClient

    [aio/client.py]: the client over an asyncio connection. A verb is a coroutine:
    it runs to its next [await], which is an operation of the connection, and goes
    on with what that came to. *)

From S2P Require Import Prelude Frame PyFloat PyValue PyArith PyCompare Cbor WireEnums WireCodec Opcode.
From S2P Require Import WireHandshake WireMemory WireRecall WireListing WireTyped WireReasoning.
From S2P Require Import WireEvents WireReads WireMutations WireSpaces Errors Transport Mux Client.
#[local] Open Scope Z_scope.

(** ** Coroutines *)

(** A coroutine has returned or raised, waits for an operation of the connection,
    or waits for its [aclose]. *)
Inductive coroutine (A : Type) : Type :=
| Return (r : result exn A)
| Await (c : call) (k : result exn answer -> coroutine A)
| AwaitClose (k : coroutine A).
Arguments Return {A} _.
Arguments Await {A} _ _.
Arguments AwaitClose {A} _.

(** [x = await m] and the rest of the body. *)
Fixpoint co_bind {A B} (m : coroutine A) (rest : A -> coroutine B) : coroutine B :=
  match m with
  | Return (Ok a) => rest a
  | Return (Raise e) => Return (Raise e)
  | Await c k => Await c (fun r => co_bind (k r) rest)
  | AwaitClose k => AwaitClose (co_bind k rest)
  end.

Notation "'await' x ':=' m 'in' k" := (co_bind m (fun x => k))
  (at level 10, x name, m at level 100, k at level 200).

(** What [request] returns of the answer of its operation. *)
Definition answer_frames (r : result exn answer) : result exn (list Frame) :=
  match r with
  | Ok (AnswerFrames _ frames) => Ok frames
  | Ok _ => Ok []
  | Raise e => Raise e
  end.

(** [self._conn.request(...)], [request_one], [request_on_connection]. *)
Definition conn_request (opcode : Opcode) (payload : bytes) (timeout : option pyfloat)
    : coroutine (list Frame) :=
  Await (CallRequest opcode payload timeout) (fun r => Return (answer_frames r)).

Definition conn_request_one (opcode : Opcode) (payload : bytes) (timeout : option pyfloat)
    : coroutine Frame :=
  await frames := conn_request opcode payload timeout in
  match frames with
  | [frame] => Return (Ok frame)
  | _ => Return (Raise ProtocolError)
  end.

Definition conn_request_on_connection (opcode : Opcode) (payload : bytes) : coroutine (list Frame) :=
  Await (CallOnConnection opcode payload) (fun r => Return (answer_frames r)).

Section AioClient.
Context `{Cbor2} `{PyStr}.

Definition payload_of {Req} `{WirePayload Req} (request : Req) : coroutine bytes :=
  Return (lift_error PyExn (encode_payload request)).

(** [_unary]. *)
Definition async_unary {Req Resp} `{WirePayload Req} `{WirePayload Resp}
    (req_opcode resp_opcode : Opcode) (request : Req) : coroutine Resp :=
  await payload := payload_of request in
  await frame := conn_request_one req_opcode payload None in
  Return (decode_response resp_opcode frame).

(** The loop of [_streamed]: every frame checked and decoded, in order. *)
Fixpoint decode_frames {Resp} `{WirePayload Resp} (resp_opcode : Opcode) (out : list Resp)
    (frames : list Frame) : coroutine (list Resp) :=
  match frames with
  | [] => Return (Ok out)
  | frame :: frames =>
      match decode_response resp_opcode frame with
      | Ok x => decode_frames resp_opcode (out ++ [x]) frames
      | Raise e => Return (Raise e)
      end
  end.

(** [_streamed]. *)
Definition async_streamed {Req Resp} `{WirePayload Req} `{WirePayload Resp}
    (req_opcode resp_opcode : Opcode) (request : Req) : coroutine (list Resp) :=
  await payload := payload_of request in
  await frames := conn_request req_opcode payload None in
  decode_frames resp_opcode [] frames.

(** ** The verbs *)

(** [_encode_timeout]. *)
Definition async_encode_timeout (derived_write_timeout : option pyfloat) (request : EncodeRequest)
    : option pyfloat :=
  if py_eq (EncodeRequest_wait request) (PInt (WaitMode_value WaitMode_DERIVED))
  then derived_write_timeout else None.

Definition async_encode (derived_write_timeout : option pyfloat) (request : EncodeRequest)
    : coroutine EncodeResponse :=
  await payload := payload_of request in
  await frame := conn_request_one ENCODE_REQ payload
                   (async_encode_timeout derived_write_timeout request) in
  Return (decode_response ENCODE_RESP frame).

Definition async_recall_frames (request : RecallRequest) : coroutine (list RecallResponseFrame) :=
  await payload := payload_of request in
  await frames := conn_request RECALL_REQ payload None in
  decode_frames RECALL_RESP [] frames.

Definition async_forget (request : ForgetRequest) : coroutine ForgetResponse :=
  await payload := payload_of request in
  await frame := conn_request_one FORGET_REQ payload None in
  Return (decode_response FORGET_RESP frame).

Definition async_encode_vector_direct (request : EncodeVectorDirectRequest) : coroutine EncodeResponse :=
  async_unary ENCODE_VECTOR_DIRECT_REQ ENCODE_VECTOR_DIRECT_RESP request.

Definition async_memory_inspect (request : MemoryInspectRequest) : coroutine MemoryInspectResponse :=
  async_unary MEMORY_INSPECT_REQ MEMORY_INSPECT_RESP request.

Definition async_create_entity (request : EntityCreateRequest) : coroutine EntityCreateResponse :=
  async_unary ENTITY_CREATE_REQ ENTITY_CREATE_RESP request.

Definition async_create_statement (request : StatementCreateRequest) : coroutine StatementCreateResponse :=
  async_unary STATEMENT_CREATE_REQ STATEMENT_CREATE_RESP request.

Definition async_update_entity (request : EntityUpdateRequest) : coroutine EntityUpdateResponse :=
  async_unary ENTITY_UPDATE_REQ ENTITY_UPDATE_RESP request.

Definition async_rename_entity (request : EntityRenameRequest) : coroutine EntityRenameResponse :=
  async_unary ENTITY_RENAME_REQ ENTITY_RENAME_RESP request.

Definition async_merge_entities (request : EntityMergeRequest) : coroutine EntityMergeResponse :=
  async_unary ENTITY_MERGE_REQ ENTITY_MERGE_RESP request.

Definition async_unmerge_entity (request : EntityUnmergeRequest) : coroutine EntityUnmergeResponse :=
  async_unary ENTITY_UNMERGE_REQ ENTITY_UNMERGE_RESP request.

Definition async_tombstone_entity (request : EntityTombstoneRequest) : coroutine EntityTombstoneResponse :=
  async_unary ENTITY_TOMBSTONE_REQ ENTITY_TOMBSTONE_RESP request.

Definition async_supersede_statement (request : StatementSupersedeRequest) : coroutine StatementSupersedeResponse :=
  async_unary STATEMENT_SUPERSEDE_REQ STATEMENT_SUPERSEDE_RESP request.

Definition async_tombstone_statement (request : StatementTombstoneRequest) : coroutine StatementTombstoneResponse :=
  async_unary STATEMENT_TOMBSTONE_REQ STATEMENT_TOMBSTONE_RESP request.

Definition async_retract_statement (request : StatementRetractRequest) : coroutine StatementRetractResponse :=
  async_unary STATEMENT_RETRACT_REQ STATEMENT_RETRACT_RESP request.

Definition async_create_relation (request : RelationCreateRequest) : coroutine RelationCreateResponse :=
  async_unary RELATION_CREATE_REQ RELATION_CREATE_RESP request.

Definition async_get_relation (request : RelationGetRequest) : coroutine RelationGetResponse :=
  async_unary RELATION_GET_REQ RELATION_GET_RESP request.

Definition async_supersede_relation (request : RelationSupersedeRequest) : coroutine RelationSupersedeResponse :=
  async_unary RELATION_SUPERSEDE_REQ RELATION_SUPERSEDE_RESP request.

Definition async_tombstone_relation (request : RelationTombstoneRequest) : coroutine RelationTombstoneResponse :=
  async_unary RELATION_TOMBSTONE_REQ RELATION_TOMBSTONE_RESP request.

Definition async_upload_schema (request : SchemaUploadRequest) : coroutine SchemaUploadResponse :=
  async_unary SCHEMA_UPLOAD_REQ SCHEMA_UPLOAD_RESP request.

Definition async_query_explain (request : QueryExplainRequest) : coroutine QueryExplainResponse :=
  async_unary QUERY_EXPLAIN_REQ QUERY_EXPLAIN_RESP request.

Definition async_query_trace (request : QueryTraceRequest) : coroutine QueryTraceResponse :=
  async_unary QUERY_TRACE_REQ QUERY_TRACE_RESP request.

Definition async_materialize_procedural (request : MaterializeProceduralRequest) : coroutine MaterializeProceduralResponse :=
  async_unary MATERIALIZE_PROCEDURAL_REQ MATERIALIZE_PROCEDURAL_RESP request.

Definition async_create_space (request : SpaceCreateRequest) : coroutine SpaceCreateResponse :=
  async_unary SPACE_CREATE_REQ SPACE_CREATE_RESP request.

Definition async_list_spaces (request : SpaceListRequest) : coroutine SpaceListResponse :=
  async_unary SPACE_LIST_REQ SPACE_LIST_RESP request.

Definition async_delete_space (request : SpaceDeleteRequest) : coroutine SpaceDeleteResponse :=
  async_unary SPACE_DELETE_REQ SPACE_DELETE_RESP request.

Definition async_create_session (request : SessionCreateRequest) : coroutine SessionCreateResponse :=
  async_unary SESSION_CREATE_REQ SESSION_CREATE_RESP request.

Definition async_list_sessions (request : SessionListRequest) : coroutine SessionListResponse :=
  async_unary SESSION_LIST_REQ SESSION_LIST_RESP request.

Definition async_delete_session (request : SessionDeleteRequest) : coroutine SessionDeleteResponse :=
  async_unary SESSION_DELETE_REQ SESSION_DELETE_RESP request.

Definition async_link (request : LinkRequest) : coroutine LinkResponse :=
  async_unary LINK_REQ LINK_RESP request.

Definition async_unlink (request : UnlinkRequest) : coroutine UnlinkResponse :=
  async_unary UNLINK_REQ UNLINK_RESP request.

Definition async_capabilities (request : option GetCapabilitiesRequest)
    : coroutine GetCapabilitiesResponse :=
  async_unary GET_CAPABILITIES_REQ GET_CAPABILITIES_RESP (default (mk_GetCapabilitiesRequest None) request).

Definition async_extractor_list (request : option ExtractorListRequest)
    : coroutine ExtractorListResponseFrame :=
  async_unary EXTRACTOR_LIST_REQ EXTRACTOR_LIST_RESP (default (mk_ExtractorListRequest None) request).

Definition async_get_entity (request : EntityGetRequest) : coroutine EntityGetResponse :=
  async_unary ENTITY_GET_REQ ENTITY_GET_RESP request.

Definition async_resolve_entity (request : EntityResolveRequest) : coroutine EntityResolveResponse :=
  async_unary ENTITY_RESOLVE_REQ ENTITY_RESOLVE_RESP request.

Definition async_get_statement (request : StatementGetRequest) : coroutine StatementGetResponse :=
  async_unary STATEMENT_GET_REQ STATEMENT_GET_RESP request.

Definition async_get_schema (request : SchemaGetRequest) : coroutine SchemaGetResponse :=
  async_unary SCHEMA_GET_REQ SCHEMA_GET_RESP request.

Definition async_validate_schema (request : SchemaValidateRequest) : coroutine SchemaValidateResponse :=
  async_unary SCHEMA_VALIDATE_REQ SCHEMA_VALIDATE_RESP request.

Definition async_replace_schema (request : SchemaReplaceRequest) : coroutine SchemaReplaceResponse :=
  async_unary SCHEMA_REPLACE_REQ SCHEMA_REPLACE_RESP request.

Definition async_drop_schema (request : SchemaDropRequest) : coroutine SchemaDropResponse :=
  async_unary SCHEMA_DROP_REQ SCHEMA_DROP_RESP request.

Definition async_cancel_stream (target_stream_id : Z) (reason : pyval) : coroutine CancelStreamAck :=
  async_unary CANCEL_STREAM CANCEL_STREAM_ACK (mk_CancelStreamRequest (PInt target_stream_id) reason).

Definition async_txn_begin (request : TxnBeginRequest) : coroutine TxnBeginResponse :=
  async_unary TXN_BEGIN TXN_BEGIN_RESP request.

Definition async_txn_commit (request : TxnCommitRequest) : coroutine TxnCommitResponse :=
  async_unary TXN_COMMIT TXN_COMMIT_RESP request.

Definition async_txn_abort (request : TxnAbortRequest) : coroutine TxnAbortResponse :=
  async_unary TXN_ABORT TXN_ABORT_RESP request.

Definition async_memory_list_frames (request : MemoryListRequest)
    : coroutine (list MemoryListResponseFrame) :=
  async_streamed MEMORY_LIST_REQ MEMORY_LIST_RESP request.

Definition async_graph_fetch_frames (request : GraphFetchRequest)
    : coroutine (list GraphFetchResponseFrame) :=
  async_streamed GRAPH_FETCH_REQ GRAPH_FETCH_RESP request.

Definition async_statement_history_frames (request : StatementHistoryRequest)
    : coroutine (list StatementHistoryResponseFrame) :=
  async_streamed STATEMENT_HISTORY_REQ STATEMENT_HISTORY_RESP request.

Definition async_traverse_relations_frames (request : RelationTraverseRequest)
    : coroutine (list RelationTraverseResponseFrame) :=
  async_streamed RELATION_TRAVERSE_REQ RELATION_TRAVERSE_RESP request.

Definition async_plan_frames (request : PlanRequest)
    : coroutine (list PlanResponseFrame) :=
  async_streamed PLAN_REQ PLAN_RESP request.

Definition async_reason_frames (request : ReasonRequest)
    : coroutine (list ReasonResponseFrame) :=
  async_streamed REASON_REQ REASON_RESP request.

Definition async_list_entities_frames (request : EntityListRequest)
    : coroutine (list EntityListResponseFrame) :=
  async_streamed ENTITY_LIST_REQ ENTITY_LIST_RESP request.

Definition async_list_statements_frames (request : StatementListRequest)
    : coroutine (list StatementListResponseFrame) :=
  async_streamed STATEMENT_LIST_REQ STATEMENT_LIST_RESP request.

Definition async_list_relations_from_frames (request : RelationListFromRequest)
    : coroutine (list RelationListFromResponseFrame) :=
  async_streamed RELATION_LIST_FROM_REQ RELATION_LIST_FROM_RESP request.

Definition async_list_relations_to_frames (request : RelationListToRequest)
    : coroutine (list RelationListToResponseFrame) :=
  async_streamed RELATION_LIST_TO_REQ RELATION_LIST_TO_RESP request.

Definition async_list_schemas_frames (request : SchemaListRequest)
    : coroutine (list SchemaListResponseFrame) :=
  async_streamed SCHEMA_LIST_REQ SCHEMA_LIST_RESP request.

(** [for frame in frames: items.extend(frame.x)]. *)
Definition extend_all {F A} (field : F -> list A) (frames : list F) : list A :=
  fold_left (fun items frame => items ++ field frame) frames [].

Definition async_recall (request : RecallRequest) : coroutine RecallAnswer :=
  await frames := async_recall_frames request in
  let '(memories, answer_kind) :=
    fold_left (fun '(memories, _) frame =>
        (memories ++ RecallResponseFrame_memories frame, RecallResponseFrame_answer_kind frame))
      frames ([], PStr (AnswerKind_value AnswerKind_NONE)) in
  Return (Ok (mk_RecallAnswer answer_kind memories)).

Definition async_memory_list (request : MemoryListRequest) : coroutine (list MemoryListItem) :=
  await frames := async_memory_list_frames request in
  Return (Ok (extend_all MemoryListResponseFrame_items frames)).

Definition async_graph_fetch (request : GraphFetchRequest) : coroutine (list GraphNode * list GraphEdge) :=
  await frames := async_graph_fetch_frames request in
  Return (Ok (extend_all GraphFetchResponseFrame_nodes frames, extend_all GraphFetchResponseFrame_edges frames)).

Definition async_statement_history (request : StatementHistoryRequest) : coroutine (list StatementView) :=
  await frames := async_statement_history_frames request in
  Return (Ok (extend_all StatementHistoryResponseFrame_items frames)).

Definition async_traverse_relations (request : RelationTraverseRequest) : coroutine (list TraversalPathWire) :=
  await frames := async_traverse_relations_frames request in
  Return (Ok (extend_all RelationTraverseResponseFrame_paths frames)).

Definition async_plan (request : PlanRequest) : coroutine (list PlanStep) :=
  await frames := async_plan_frames request in
  Return (Ok (extend_all PlanResponseFrame_steps frames)).

Definition async_reason (request : ReasonRequest) : coroutine (list InferenceStep) :=
  await frames := async_reason_frames request in
  Return (Ok (extend_all ReasonResponseFrame_inferences frames)).

Definition async_list_entities (request : EntityListRequest) : coroutine (list EntityListItem) :=
  await frames := async_list_entities_frames request in
  Return (Ok (extend_all EntityListResponseFrame_items frames)).

Definition async_list_statements (request : StatementListRequest) : coroutine (list StatementView) :=
  await frames := async_list_statements_frames request in
  Return (Ok (extend_all StatementListResponseFrame_items frames)).

Definition async_list_relations_from (request : RelationListFromRequest) : coroutine (list RelationView) :=
  await frames := async_list_relations_from_frames request in
  Return (Ok (extend_all RelationListFromResponseFrame_items frames)).

Definition async_list_relations_to (request : RelationListToRequest) : coroutine (list RelationView) :=
  await frames := async_list_relations_to_frames request in
  Return (Ok (extend_all RelationListToResponseFrame_items frames)).

Definition async_list_schemas (request : SchemaListRequest) : coroutine (list SchemaListItem) :=
  await frames := async_list_schemas_frames request in
  Return (Ok (extend_all SchemaListResponseFrame_items frames)).

(** [ping]; [time_ns] is the wall clock, used when the caller gives no timestamp. *)
Definition async_ping (client_timestamp : option pyval) (time_ns : Z) : coroutine PongResponse :=
  await payload := payload_of (mk_PingRequest (default (PInt time_ns) client_timestamp)) in
  await frames := conn_request_on_connection PING payload in
  Return (decode_pong frames).

(** [subscribe]: the task of the operation then holds the subscription. *)
Definition async_subscribe (request : SubscribeRequest) : coroutine answer :=
  Await (CallSubscribe request) Return.

(** [AsyncSubscription.unsubscribe]. *)
Definition async_unsubscribe (self : Subscription) : coroutine UnsubscribeResponse :=
  await payload := payload_of (mk_UnsubscribeRequest (PInt (sub_stream_id self))) in
  await frame := conn_request_one UNSUBSCRIBE_REQ payload None in
  if negb (is_opcode frame UNSUBSCRIBE_RESP) then Return (Raise ProtocolError)
  else Return (lift_error CborExn (decode_payload (T := UnsubscribeResponse) (frame_payload frame))).

(** ** Connecting and closing *)

(** [connect_with], on the connection it opens. *)
Definition async_connect_with (config : ClientConfig) : coroutine ConnectionInfo :=
  await versions := Return (lift_error PyExn (py_list (config_supported_versions config))) in
  let hello := mk_HelloPayload (config_client_id config) versions (config_capabilities config) PNone in
  let auth := mk_AuthPayload (Auth_method (config_auth config)) (Auth_credentials (config_auth config)) in
  Await (CallHandshake hello auth) (fun outcome =>
    match outcome with
    | Ok (AnswerHandshake welcome auth_ok) =>
        Return (Ok (mk_ConnectionInfo (AuthOkPayload_space_id auth_ok)
          (WelcomePayload_server_id welcome) (WelcomePayload_chosen_version welcome)
          (WelcomePayload_connection_id welcome) (AuthOkPayload_bound_shard_id auth_ok)
          (AuthOkPayload_permissions auth_ok) (AuthOkPayload_namespace auth_ok)
          (WelcomePayload_server_features welcome)))
    | Ok _ => Return (Raise ProtocolError)
    | Raise e => Return (Raise e)
    end).

(** [aclose]: BYE, and whatever becomes of it, the close of the connection. *)
Definition async_aclose : coroutine unit :=
  Await CallBye (fun sent =>
    AwaitClose (Return (match sent with Ok _ => Ok tt | Raise e => Raise e end))).

End AioClient.
