(* ===== verification/AioClientProperties.v ===== *)
(** * AioClientProperties

    The coroutines of [AioClient] do what the verbs of [Client] do, and over an
    asyncio connection, however its tasks interleave. *)

From S2P Require Import Prelude Frame PyFloat PyValue PyArith PyCompare Cbor CborCodec WireEnums.
From S2P Require Import WireCodec Opcode WireHandshake WireMemory WireRecall WireListing WireTyped.
From S2P Require Import WireReasoning WireEvents WireReads WireMutations WireSpaces Errors.
From S2P Require Import Transport Mux MuxMoves MuxSafety MuxProperties AioMux AioMuxSafety.
From S2P Require Import AioMuxProperties Client ClientProperties AioClient.
From stdpp Require Import gmap.
#[local] Open Scope Z_scope.

Section AioClient.
Context `{HC : Cbor2Conforms} `{PyStr}.

(** A coroutine that fails before it awaits anything exactly when the verb does,
    and otherwise awaits the verb's call once and makes of its outcome what the
    verb makes of it. *)
Definition agrees {A} (c : coroutine A) (v : verb A) : Prop :=
  match v with
  | Raise e => c = Return (Raise e)
  | Ok p => exists k, c = Await (issues p) k
      /\ (forall sid frames, k (Ok (AnswerFrames sid frames)) = Return (receives p (Ok frames)))
      /\ forall e, k (Raise e) = Return (receives p (Raise e))
  end.

(** ** Lemmas *)

Lemma decode_frames_map {Resp} `{WirePayload Resp} resp (frames : list Frame) (out : list Resp) :
  decode_frames resp out frames
  = Return (let* more := map_result (decode_response resp) frames in Ok (out ++ more)).
Proof.
  revert out; induction frames as [|f frames IH]; intros out; cbn [decode_frames map_result].
  - cbn [bind]. by rewrite app_nil_r.
  - destruct (decode_response resp f) as [x|e]; cbn [bind]; [|done]. rewrite IH.
    destruct (map_result _ frames); cbn [bind]; [|done]. by rewrite <- app_assoc.
Qed.

Lemma extend_all_flat_map {F A} (field : F -> list A) frames :
  extend_all field frames = flat_map field frames.
Proof.
  unfold extend_all. enough (E : forall acc, fold_left (fun items frame => items ++ field frame) frames acc
                                   = acc ++ flat_map field frames) by apply E.
  induction frames as [|f frames IH]; intros acc; cbn; [by rewrite app_nil_r|].
  by rewrite IH, <- app_assoc.
Qed.

Lemma unary_agrees {Req Resp} `{WirePayload Req} `{WirePayload Resp} timeout (req resp : Opcode)
    (request : Req) :
  agrees
    (await payload := payload_of request in
     await frame := conn_request_one req payload timeout in
     Return (decode_response (Resp := Resp) resp frame))
    (unary_within timeout req resp request).
Proof.
  unfold payload_of, unary_within. destruct (encode_payload request) as [payload|e]; [|done].
  cbn [lift_error bind]. eexists. split; [reflexivity|]. split; [|done].
  intros sid frames. cbn [receives answer_frames co_bind one_frame bind].
  by destruct frames as [|f [|g frames]].
Qed.

Lemma streamed_agrees {Req Resp} `{WirePayload Req} `{WirePayload Resp} (req resp : Opcode)
    (request : Req) :
  agrees (async_streamed (Resp := Resp) req resp request) (streamed req resp request).
Proof.
  unfold async_streamed, payload_of, streamed. destruct (encode_payload request) as [payload|e]; [|done].
  cbn [lift_error bind]. eexists. split; [reflexivity|]. split; [|done].
  intros sid frames. cbn [receives answer_frames co_bind bind]. rewrite decode_frames_map.
  by destruct (map_result _ frames).
Qed.

(** A coroutine that goes on with a pure function. *)
Lemma returning_agrees {A B} (c : coroutine A) (v : verb A) (f : A -> B) (rest : A -> coroutine B) :
  agrees c v -> (forall a, rest a = Return (Ok (f a))) ->
  agrees (co_bind c rest) (returning f v).
Proof.
  intros Hc Hf. unfold returning. destruct v as [p|e]; cbn [bind agrees] in *; [|by rewrite Hc].
  destruct Hc as (k & -> & Hk & Hr). eexists. split; [reflexivity|]. cbn [receives].
  split; [intros sid frames; rewrite Hk|intros e; rewrite Hr]; cbn [co_bind];
    (destruct (receives p _); cbn [bind]; [by rewrite Hf|done]).
Qed.

Lemma drain_recall_pairs frames memories kind :
  fold_left (fun '(memories, _) frame =>
      (memories ++ RecallResponseFrame_memories frame, RecallResponseFrame_answer_kind frame))
    frames (memories, kind)
  = (fun a => (RecallAnswer_memories a, RecallAnswer_answer_kind a))
      (fold_left (fun answer frame =>
         mk_RecallAnswer (RecallResponseFrame_answer_kind frame)
           (RecallAnswer_memories answer ++ RecallResponseFrame_memories frame))
         frames (mk_RecallAnswer kind memories)).
Proof.
  revert memories kind; induction frames as [|f frames IH]; intros memories kind; [done|].
  cbn [fold_left]. apply IH.
Qed.

Lemma recall_agrees request : agrees (async_recall request) (recall request).
Proof.
  apply returning_agrees; [apply streamed_agrees|]. intros frames.
  rewrite drain_recall_pairs. unfold drain_recall. by destruct (fold_left _ _ _).
Qed.

(** ** Properties *)

Lemma ping_agrees ts now : agrees (async_ping ts now) (ping ts now).
Proof.
  unfold async_ping, payload_of, ping. destruct (encode_payload _) as [payload|e]; [|done].
  cbn [lift_error bind]. eexists. split; [reflexivity|]. by split.
Qed.

(** [Subscription.unsubscribe], as a verb. *)
Definition unsubscribe (subscription : Subscription) : verb UnsubscribeResponse :=
  let* c := unsubscribe_call subscription in Ok (mk_program c unsubscribe_answer).

Lemma unsubscribe_agrees subscription :
  agrees (async_unsubscribe subscription) (unsubscribe subscription).
Proof.
  unfold async_unsubscribe, payload_of, unsubscribe, unsubscribe_call.
  destruct (encode_payload _) as [payload|e]; [|done]. cbn [lift_error bind]. eexists.
  split; [reflexivity|]. split; [|done]. intros sid frames.
  cbn [receives answer_frames co_bind]. unfold unsubscribe_answer, one_frame. cbn [bind].
  destruct frames as [|f [|g frames]]; cbn [bind]; [done| |done]. by destruct (negb _).
Qed.

(** C17: the asyncio client has the verbs of the threaded one. Each coroutine fails
    before it awaits anything exactly when the verb of the same name fails before
    it calls; otherwise it awaits one operation of the connection, the verb's own
    (opcode, payload and deadline), and returns or raises what the verb makes of
    the frames or of the exception that comes back. *)
Theorem async_client_agrees :
  (forall derived request, agrees (async_encode derived request) (Client.encode derived request)) /\
  (forall request, agrees (async_forget request) (forget request)) /\
  (forall request, agrees (async_recall_frames request) (recall_frames request)) /\
  (forall request, agrees (async_encode_vector_direct request) (encode_vector_direct request)) /\
  (forall request, agrees (async_memory_inspect request) (memory_inspect request)) /\
  (forall request, agrees (async_create_entity request) (create_entity request)) /\
  (forall request, agrees (async_create_statement request) (create_statement request)) /\
  (forall request, agrees (async_update_entity request) (update_entity request)) /\
  (forall request, agrees (async_rename_entity request) (rename_entity request)) /\
  (forall request, agrees (async_merge_entities request) (merge_entities request)) /\
  (forall request, agrees (async_unmerge_entity request) (unmerge_entity request)) /\
  (forall request, agrees (async_tombstone_entity request) (tombstone_entity request)) /\
  (forall request, agrees (async_supersede_statement request) (supersede_statement request)) /\
  (forall request, agrees (async_tombstone_statement request) (tombstone_statement request)) /\
  (forall request, agrees (async_retract_statement request) (retract_statement request)) /\
  (forall request, agrees (async_create_relation request) (create_relation request)) /\
  (forall request, agrees (async_get_relation request) (get_relation request)) /\
  (forall request, agrees (async_supersede_relation request) (supersede_relation request)) /\
  (forall request, agrees (async_tombstone_relation request) (tombstone_relation request)) /\
  (forall request, agrees (async_upload_schema request) (upload_schema request)) /\
  (forall request, agrees (async_query_explain request) (query_explain request)) /\
  (forall request, agrees (async_query_trace request) (query_trace request)) /\
  (forall request, agrees (async_materialize_procedural request) (materialize_procedural request)) /\
  (forall request, agrees (async_create_space request) (create_space request)) /\
  (forall request, agrees (async_list_spaces request) (list_spaces request)) /\
  (forall request, agrees (async_delete_space request) (delete_space request)) /\
  (forall request, agrees (async_create_session request) (create_session request)) /\
  (forall request, agrees (async_list_sessions request) (list_sessions request)) /\
  (forall request, agrees (async_delete_session request) (delete_session request)) /\
  (forall request, agrees (async_link request) (link request)) /\
  (forall request, agrees (async_unlink request) (unlink request)) /\
  (forall request, agrees (async_capabilities request) (capabilities request)) /\
  (forall request, agrees (async_extractor_list request) (extractor_list request)) /\
  (forall request, agrees (async_get_entity request) (get_entity request)) /\
  (forall request, agrees (async_resolve_entity request) (resolve_entity request)) /\
  (forall request, agrees (async_get_statement request) (get_statement request)) /\
  (forall request, agrees (async_get_schema request) (get_schema request)) /\
  (forall request, agrees (async_validate_schema request) (validate_schema request)) /\
  (forall request, agrees (async_replace_schema request) (replace_schema request)) /\
  (forall request, agrees (async_drop_schema request) (drop_schema request)) /\
  (forall target reason, agrees (async_cancel_stream target reason) (cancel_stream target reason)) /\
  (forall request, agrees (async_txn_begin request) (txn_begin request)) /\
  (forall request, agrees (async_txn_commit request) (txn_commit request)) /\
  (forall request, agrees (async_txn_abort request) (txn_abort request)) /\
  (forall request, agrees (async_memory_list_frames request) (memory_list_frames request)) /\
  (forall request, agrees (async_graph_fetch_frames request) (graph_fetch_frames request)) /\
  (forall request, agrees (async_statement_history_frames request) (statement_history_frames request)) /\
  (forall request, agrees (async_traverse_relations_frames request) (traverse_relations_frames request)) /\
  (forall request, agrees (async_plan_frames request) (plan_frames request)) /\
  (forall request, agrees (async_reason_frames request) (reason_frames request)) /\
  (forall request, agrees (async_list_entities_frames request) (list_entities_frames request)) /\
  (forall request, agrees (async_list_statements_frames request) (list_statements_frames request)) /\
  (forall request, agrees (async_list_relations_from_frames request) (list_relations_from_frames request)) /\
  (forall request, agrees (async_list_relations_to_frames request) (list_relations_to_frames request)) /\
  (forall request, agrees (async_list_schemas_frames request) (list_schemas_frames request)) /\
  (forall request, agrees (async_recall request) (recall request)) /\
  (forall request, agrees (async_memory_list request) (memory_list request)) /\
  (forall request, agrees (async_graph_fetch request) (graph_fetch request)) /\
  (forall request, agrees (async_statement_history request) (statement_history request)) /\
  (forall request, agrees (async_traverse_relations request) (traverse_relations request)) /\
  (forall request, agrees (async_plan request) (plan request)) /\
  (forall request, agrees (async_reason request) (reason request)) /\
  (forall request, agrees (async_list_entities request) (list_entities request)) /\
  (forall request, agrees (async_list_statements request) (list_statements request)) /\
  (forall request, agrees (async_list_relations_from request) (list_relations_from request)) /\
  (forall request, agrees (async_list_relations_to request) (list_relations_to request)) /\
  (forall request, agrees (async_list_schemas request) (list_schemas request)) /\
  (forall ts now, agrees (async_ping ts now) (ping ts now)) /\
  (forall subscription, agrees (async_unsubscribe subscription) (unsubscribe subscription)).
Proof.
  do 2 (split; [intros; apply unary_agrees|]). split; [intros; apply streamed_agrees|].
  do 41 (split; [intros; apply unary_agrees|]).
  do 11 (split; [intros; apply streamed_agrees|]).
  split; [apply recall_agrees|].
  do 11 (split; [intros; apply returning_agrees;
    [apply streamed_agrees|intros; by rewrite !extend_all_flat_map]|]).
  split; [apply ping_agrees|apply unsubscribe_agrees].
Qed.

(** A finished single-response operation makes its coroutine return the response. *)
Lemma async_unary_delivers {Req Resp} `{WirePayload Req} `{WireLaws Resp}
    timeout s tid req resp (request : Req) (response : Resp) c k sid frames f :
  aio_reachable timeout s ->
  async_unary req resp request = Await c k ->
  tasks s !! tid = Some (Plain (Finished c (Ok (AnswerFrames sid frames)))) ->
  on_stream sid (aio_arrived s) = [f] -> carries resp response f -> wire_value response ->
  k (Ok (AnswerFrames sid frames)) = Return (Ok response).
Proof.
  intros Hr%aio_reachable_allowed Hu Ht%abstraction_task Ha Hc Hw.
  rewrite (sole_frame _ _ _ _ _ _ f Hr Ht Ha).
  unfold async_unary, payload_of in Hu. destruct (encode_payload request) as [payload|e]; [|done].
  cbn in Hu. injection Hu as <- <-. cbn. by rewrite (decode_response_ok resp response).
Qed.

(** C15: end to end, over every interleaving, on threads and on asyncio: when the
    server sent one EOS frame on the stream of a single-response call, a thread
    that ran the call gets exactly the response that frame encodes, and a task
    that ran the operation a coroutine awaits goes on to return it, whatever the
    other threads, tasks, cancellations and streams did. *)
Theorem unary_end_to_end {Req Resp} `{WirePayload Req} `{WireLaws Resp}
    req resp (request : Req) (response : Resp) f :
  carries resp response f -> wire_value response ->
  (forall timeout s tid p sid frames,
     reachable timeout s -> unary req resp request = Ok p ->
     threads s !! tid = Some (Finished (issues p) (Ok (AnswerFrames sid frames))) ->
     on_stream sid (arrived s) = [f] ->
     receives p (Ok frames) = Ok response)
  /\ (forall timeout s tid c k sid frames,
     aio_reachable timeout s -> async_unary req resp request = Await c k ->
     tasks s !! tid = Some (Plain (Finished c (Ok (AnswerFrames sid frames)))) ->
     on_stream sid (aio_arrived s) = [f] ->
     k (Ok (AnswerFrames sid frames)) = Return (Ok response)).
Proof.
  intros Hc Hw. split.
  - intros timeout s tid p sid frames ????. by eapply (unary_delivers timeout s tid req resp request).
  - intros timeout s tid c k sid frames ????.
    by eapply (async_unary_delivers timeout s tid req resp request).
Qed.
End AioClient.

(** ** Witnesses *)

#[local] Existing Instance sample_str.

Lemma async_client_agrees_witness :
  agrees (async_forget sample_forget) (forget sample_forget).
Proof. apply (proj1 (proj2 (async_client_agrees (C := rfc8949_codec)))). Defined.

(** A task that runs the operation of [forget] while another waits. *)
Definition async_busy : aio_system :=
  aio_play (aio_start None)
    ([ABegin 0 (request_of RECALL_REQ) true;
      ABegin 1 (CallRequest FORGET_REQ (bytes_of (encode_payload sample_forget)) None) true;
      AAcquire 0 None; ADrained 0 None; AAcquire 1 None; ADrained 1 None]
     ++ map reads [forget_frame 3; response 1 true x03]
     ++ [AReceive 1 undisturbed; AReceive 0 undisturbed]).

Lemma unary_end_to_end_witness :
  (exists p, forget sample_forget = Ok p
     /\ threads busy !! 1%nat = Some (Finished (issues p) (Ok (AnswerFrames 3 [forget_frame 3])))
     /\ receives p (Ok [forget_frame 3]) = Ok sample_forgotten)
  /\ exists c k, async_forget sample_forget = Await c k
     /\ tasks async_busy !! 1%nat
        = Some (Plain (Finished c (Ok (AnswerFrames 3 [forget_frame 3]))))
     /\ k (Ok (AnswerFrames 3 [forget_frame 3])) = Return (Ok sample_forgotten).
Proof.
  destruct (unary_end_to_end (HC := rfc8949_conforms) FORGET_REQ FORGET_RESP sample_forget
              sample_forgotten (forget_frame 3) (forget_frame_carries 3) sample_forgotten_ok) as [Ht Hs].
  split.
  - eexists. split; [reflexivity|].
    match goal with |- ?T /\ _ => assert (E : T) by (vm_compute; reflexivity) end.
    split; [exact E|]. eapply (Ht None busy 1%nat _ 3 [forget_frame 3] (play_reachable _ _));
      [reflexivity|exact E|vm_compute; reflexivity].
  - do 2 eexists. split; [reflexivity|].
    match goal with |- ?T /\ _ => assert (E : T) by (vm_compute; reflexivity) end.
    split; [exact E|].
    assert (Ea : on_stream 3 (aio_arrived async_busy) = [forget_frame 3]) by (vm_compute; reflexivity).
    exact (Hs None async_busy 1%nat _ _ 3 [forget_frame 3] (aio_start_reachable _ _) eq_refl E Ea).
Defined.
