(* ===== verification/Connect.v ===== *)
(** * Connect

    Opening and closing a connection: [MuxConnection.connect] and [close] of
    [mux.py], their twins in [aio/mux.py], and [connect_with] and [close] of
    [client.py]. What the operating system does with the socket, and how the
    handshake on it ends, are arguments; a ledger says what becomes of the
    socket. *)

From S2P Require Import Prelude Frame PyFloat PyValue PyArith PyCompare Cbor WireEnums WireCodec Opcode.
From S2P Require Import CborCodec WireHandshake Errors Transport Mux MuxMoves MuxSafety MuxProperties.
From S2P Require Import Client ClientProperties.
From stdpp Require Import gmap.
#[local] Open Scope Z_scope.

(** ** The socket *)

(** No socket was opened, it is open, or it has been closed. *)
Inductive socket_state : Set := NoSocket | SocketOpen | SocketClosed.

(** How an attempt to connect ends. *)
Record attempt (A : Type) : Type := mk_attempt {
  outcome : result exn A;
  socket : socket_state
}.
Arguments mk_attempt {A} _ _.
Arguments outcome {A} _.
Arguments socket {A} _.

(** What the environment does: [socket.create_connection], [setsockopt] for
    TCP_NODELAY (which can raise), the start of the reader thread in the
    connection's [__init__] (which raises when no thread can be started), the
    handshake on the connection, and the close of the socket on the way out of a
    failure. *)
Record attempt_env : Type := mk_attempt_env {
  dialing : option exn;
  nodelay : option exn;
  starting : option exn;
  handshaking : result exn (WelcomePayload * AuthOkPayload);
  closing : option exn
}.

(** [MuxConnection.close]. *)
Definition close_socket {A} (env : attempt_env) (r : result exn A) : attempt A :=
  mk_attempt (match closing env with Some e => Raise e | None => r end) SocketClosed.

(** [MuxConnection.connect]. *)
Definition mux_connect (env : attempt_env) : attempt (WelcomePayload * AuthOkPayload) :=
  match dialing env with
  | Some e => mk_attempt (Raise e) NoSocket
  | None =>
      match nodelay env with
      | Some e => mk_attempt (Raise e) SocketOpen
      | None =>
          match starting env with
          | Some e => mk_attempt (Raise e) SocketOpen
          | None =>
              match handshaking env with
              | Ok outcome => mk_attempt (Ok outcome) SocketOpen
              | Raise e => close_socket env (Raise e)
              end
          end
      end
  end.

(** [AsyncMuxConnection.connect]: an [OSError] of [setsockopt] is suppressed, the
    reader is a task of the running loop, which always starts, and the close only
    raises when it is itself cancelled. *)
Definition aio_mux_connect (env : attempt_env) : attempt (WelcomePayload * AuthOkPayload) :=
  match dialing env with
  | Some e => mk_attempt (Raise e) NoSocket
  | None =>
      match nodelay env with
      | Some OSError | None =>
          match handshaking env with
          | Ok outcome => mk_attempt (Ok outcome) SocketOpen
          | Raise e => close_socket env (Raise e)
          end
      | Some e => mk_attempt (Raise e) SocketOpen
      end
  end.

Section Connect.
Context `{Cbor2} `{PyStr}.

(** [BrainClient.connect_with]; [env] gives the environment for the call the
    handshake runs. *)
Definition client_connect_with (config : ClientConfig) (env : call -> attempt_env) : attempt ConnectionInfo :=
  match connect_call config with
  | Raise e => mk_attempt (Raise e) NoSocket
  | Ok c =>
      let a := mux_connect (env c) in
      mk_attempt (let* '(welcome, auth_ok) := outcome a in Ok (connection_info welcome auth_ok))
        (socket a)
  end.

End Connect.

(** [BrainClient.close]: BYE, and whatever becomes of it, the socket is closed. *)
Definition client_close (bye : result exn answer) (env : attempt_env) : attempt unit :=
  close_socket env (match bye with Ok _ => Ok tt | Raise e => Raise e end).

(** ** What connecting guarantees *)

Lemma aio_connect_closes env :
  match outcome (aio_mux_connect env) with
  | Ok o => socket (aio_mux_connect env) = SocketOpen /\ handshaking env = Ok o
  | Raise e => socket (aio_mux_connect env) <> SocketOpen \/ (nodelay env = Some e /\ e <> OSError)
  end.
Proof.
  unfold aio_mux_connect, close_socket. destruct (dialing env); [by left|].
  destruct (nodelay env) as [[]|], (handshaking env), (closing env); cbn;
    first [done | by left | by right].
Qed.

Section Honoured.
Context `{Cbor2} `{PyStr}.

(** C34: connecting is all or nothing and honours the handshake. Let the handshake
    [client_connect_with] asks for be run by any thread of any reachable state of its
    connection, the only handshake answered there. If connecting succeeds the socket
    is open, the client is bound to exactly what the server's WELCOME and AUTH_OK
    say, and the version the server chose is one the HELLO offered; and from the
    handshake's answer on, in every such state, the payload limit it advertised
    decides every write before the socket sees it: a longer payload raises
    [ProtocolError] and sends nothing, one within the limit is given to the socket as
    one EOS frame, a limit of 0 standing for the 24-bit ceiling. If connecting fails,
    no socket is left open, unless it was the socket option that could not be set or
    the reader thread that could not be started, which is raised with the socket left
    behind; on asyncio an [OSError] of the socket option is ignored. *)
Theorem connect_is_sound timeout s tid config env c :
  reachable timeout s -> connect_call config = Ok c ->
  (forall welcome auth_ok, handshaking (env c) = Ok (welcome, auth_ok) ->
     threads s !! tid = Some (Finished c (Ok (AnswerHandshake welcome auth_ok)))) ->
  (forall tid' t', threads s !! tid' = Some t' -> answered t' <> None -> tid' = tid) ->
  let a := client_connect_with config env in
  match outcome a with
  | Ok info =>
      socket a = SocketOpen
      /\ exists welcome auth_ok hello auth offered,
           info = connection_info welcome auth_ok /\ c = CallHandshake hello auth
           /\ offered_versions hello = Ok offered
           /\ py_in (info_chosen_version info) offered = true
           /\ forall n o sid payload refused,
                ServerFeatures_max_payload_size (info_server_features info) = PInt n ->
                0 <= n <= MAX_PAYLOAD_BYTES -> 0 <= sid < 2 ^ 32 ->
                let m := conn s in
                let limit := if n =? 0 then MAX_PAYLOAD_BYTES else n in
                let frame := frame_layout (mk_Frame (opcode_value o) FLAG_EOS sid payload) in
                (limit < zlen payload ->
                 mux_write m o sid payload refused = (m, Raise ProtocolError))
                /\ (zlen payload <= limit ->
                    mux_write m o sid payload refused
                    = match refused with
                      | Some (e, k) => (set_sent m (sent m ++ [Cut frame k]), Raise e)
                      | None => (set_sent m (sent m ++ [Whole frame]), Ok tt)
                      end)
  | Raise e => socket a <> SocketOpen
               \/ (socket a = SocketOpen
                   /\ (nodelay (env c) = Some e \/ (nodelay (env c) = None /\ starting (env c) = Some e)))
  end
  /\ match outcome (aio_mux_connect (env c)) with
     | Ok o => socket (aio_mux_connect (env c)) = SocketOpen /\ handshaking (env c) = Ok o
     | Raise e => socket (aio_mux_connect (env c)) <> SocketOpen
                  \/ (nodelay (env c) = Some e /\ e <> OSError)
     end.
Proof.
  intros Hr Hc Ht Hu a. split.
  - unfold a, client_connect_with. rewrite Hc. unfold mux_connect, close_socket.
    destruct (dialing (env c)) as [e|]; [by cbn; left|].
    destruct (nodelay (env c)) as [e|]; [by cbn; auto|].
    destruct (starting (env c)) as [e|]; [by cbn; auto|].
    destruct (handshaking (env c)) as [[welcome auth_ok]|e]; cbn [outcome socket bind];
      [|destruct (closing (env c)); by left].
    specialize (Ht _ _ eq_refl). split; [done|].
    destruct (handshake_version _ _ _ _ _ _ Hr Ht) as (hello & auth & offered & E1 & E2 & E3).
    exists welcome, auth_ok, hello, auth, offered. split_and!; try done.
    intros n o sid payload refused En Hn Hsid. apply (payload_limit _ welcome); try done.
    by eapply allowed_limit_only; [apply reachable_allowed|..].
  - apply aio_connect_closes.
Qed.
End Honoured.

(** ** Witness *)

#[local] Existing Instance sample_str.

Definition sample_config : ClientConfig := default_config (Auth_token [x61]).

Definition config_call (config : ClientConfig) : call := default CallBye
  (match connect_call config with Ok c => Some c | Raise _ => None end).

(** The handshake of [sample_config], answered. *)
Definition connected : system :=
  play None (Start 0 (config_call sample_config) :: advance 0 3
    ++ arrives (mk_Frame (opcode_value WELCOME) FLAG_EOS 0 (bytes_of (encode_payload sample_welcome)))
    ++ advance 0 2
    ++ arrives (mk_Frame (opcode_value AUTH_OK) FLAG_EOS 0 (bytes_of (encode_payload sample_auth_ok)))
    ++ advance 0 2).

Definition welcoming (_ : call) : attempt_env :=
  mk_attempt_env None None None (Ok (sample_welcome, sample_auth_ok)) None.

Lemma connect_is_sound_witness :
  outcome (client_connect_with sample_config welcoming) = Ok (connection_info sample_welcome sample_auth_ok)
  /\ exists welcome auth_ok hello auth offered,
       connection_info sample_welcome sample_auth_ok = connection_info welcome auth_ok
       /\ config_call sample_config = CallHandshake hello auth
       /\ offered_versions hello = Ok offered /\ py_in (PInt 1) offered = true.
Proof.
  assert (Ec : connect_call sample_config = Ok (config_call sample_config)) by (vm_compute; reflexivity).
  assert (Et : threads connected !! 0%nat = Some (Finished (config_call sample_config)
             (Ok (AnswerHandshake sample_welcome sample_auth_ok)))) by (vm_compute; reflexivity).
  destruct (connect_is_sound None connected 0%nat sample_config welcoming _ (play_reachable _ _) Ec)
    as [(_ & w & a & h & u & o & H1 & H2 & H3 & H4 & _) _].
  - intros welcome auth_ok E. unfold welcoming in E. cbn [handshaking] in E.
    assert (sample_welcome = welcome /\ sample_auth_ok = auth_ok) as [<- <-] by (split; congruence).
    exact Et.
  - intros tid t E _. assert (E' : threads connected !! tid <> None) by congruence.
    revert E'. clear. destruct tid as [|tid]; [done|]. intros E'. destruct E'.
    assert (Hs : Forall (fun p => fst p = 0%nat) (map_to_list (threads connected)))
      by (vm_compute; repeat constructor).
    destruct (threads connected !! S tid) as [t|] eqn:E; [|done].
    apply (elem_of_map_to_list (M := gmap nat)) in E. rewrite Forall_forall in Hs.
    by specialize (Hs _ E).
  - split; [vm_compute; reflexivity|]. exists w, a, h, u, o. exact (conj H1 (conj H2 (conj H3 H4))).
Defined.
