(* ===== verification/HttpContract.v ===== *)
(** * HttpContract

    [contract/http-routes.json]: the manifest the repository checks its HTTP
    clients against, generated there from the server's own router and types. It
    is the specification the HTTP tier is stated against: which documents a
    route accepts and answers, as a type language over JSON values and the
    tables of the manifest in it. Routes of the broker plane, which no client of
    the SDK uses, are left out. *)

From S2P Require Import Prelude PyFloat PyValue Rfc8949 PyText PyDecimal PyJson.
From Stdlib Require Import Strings.Ascii.

(** ** The types of documents *)

(** A shape of the manifest. [JOpt] is an optional value: null, or the value. A
    [JTagged] is an internally tagged union: the tag names the variant, and the
    object has the tag, the fields of the variant and no others. *)
#[warnings="-register-all"]
Inductive jtype : Type :=
| JString
| JInt
| JFloat
| JBool
| JAny
| JDict
| JList (t : jtype)
| JOpt (t : jtype)
| JObj (fields : list (string * bool * jtype))
| JTagged (tag : string) (variants : list (string * list (string * bool * jtype))).

(** A field that is always there, and one that may be left out: [serde] has a
    default for it, or does not write it when it is absent. *)
Definition field : Type := string * bool * jtype.
Definition must (k : string) (t : jtype) : field := (k, true, t).
Definition may (k : string) (t : jtype) : field := (k, false, t).

Definition field_name (f : field) : string := f.1.1.

(** Every key of the object is the tag or a declared field. *)
Definition declared (tag : option string) (fs : list field) (d : list (pyval * pyval)) : bool :=
  forallb (fun kv =>
    match kv.1 with
    | PStr k => bool_decide (tag = Some k) || existsb (fun f => String.eqb (field_name f) k) fs
    | _ => false
    end) d.

(** The value is a document of the type, with nothing in it that the type does
    not declare. A number without a fraction is a [float] too. *)
Fixpoint conforms (t : jtype) (v : pyval) : bool :=
  let fields_of := fix fields_of (fs : list (string * bool * jtype)) (d : list (pyval * pyval)) :=
    match fs with
    | [] => true
    | (k, required, t) :: fs =>
        match dict_get d k with
        | Some x => conforms t x
        | None => negb required
        end && fields_of fs d
    end in
  match t, v with
  | JString, PStr _ => true
  | JInt, PInt _ => true
  | JFloat, PFloat _ | JFloat, PInt _ => true
  | JBool, PBool _ => true
  | JAny, _ => true
  | JDict, PDict _ => true
  | JList t, PList l => forallb (conforms t) l
  | JOpt _, PNone => true
  | JOpt t, v => conforms t v
  | JObj fs, PDict d => fields_of fs d && declared None fs d
  | JTagged tag vs, PDict d =>
      match dict_get d tag with
      | Some (PStr name) =>
          (fix variant (vs : list (string * list (string * bool * jtype))) : bool :=
             match vs with
             | [] => false
             | (n, fs) :: vs =>
                 if String.eqb n name then
                   fields_of fs d && declared (Some tag) fs d
                 else variant vs
             end) vs
      | _ => false
      end
  | _, _ => false
  end.

(** What a query parameter's text may be for a shape. *)
Fixpoint text_conforms (t : jtype) (s : string) : bool :=
  match t with
  | JString | JAny => true
  | JInt => match int_of_str s with Ok _ => true | Raise _ => false end
  | JFloat => match scan_number s with Some (_, "") => true | _ => false end
  | JBool => String.eqb s "true" || String.eqb s "false"
  | JOpt t => text_conforms t s
  | _ => false
  end.

(** The pairs of a query: every one is declared and of its shape, none is
    repeated, and those that must be there are. *)
Definition query_conforms (t : jtype) (pairs : list (string * string)) : bool :=
  match t with
  | JObj fs =>
      forallb (fun '(k, s) => existsb (fun f => String.eqb (field_name f) k && text_conforms f.2 s) fs) pairs
      && bool_decide (NoDup (map fst pairs))
      && forallb (fun '(k, required, _) => negb required || existsb (fun p => String.eqb p.1 k) pairs) fs
  | _ => false
  end.

(** ** Routes *)

(** A path template: fixed segments and parameters. *)
Inductive segment : Type :=
| Lit (s : string)
| Param.

Record route : Type := mk_route {
  handler : string;
  route_method : string;
  template : list segment;
  route_query : option jtype;
  route_body : option jtype;
  route_response : option jtype
}.

(** The arguments a decoded path gives to the parameters of a template. *)
Fixpoint match_template (ts : list segment) (path : list string) : option (list string) :=
  match ts, path with
  | [], [] => Some []
  | Lit s :: ts, p :: path => if String.eqb s p then match_template ts path else None
  | Param :: ts, p :: path =>
      match match_template ts path with Some args => Some (p :: args) | None => None end
  | _, _ => None
  end.

(** ** The manifest *)

Definition CapabilitiesDto : jtype := JObj
  [must "rerank" JBool; must "llm_extractor" JBool; must "classifier_extractor" JBool;
   must "pattern_extractor" JBool; must "schema_namespaces" (JList JString);
   must "vector_dim" JInt].

Definition ListEntitiesQuery : jtype := JObj
  [may "type_id" JInt; may "prefix" JString; may "mention_count_min" JInt;
   may "include_tombstoned" JBool; may "include_merged" JBool; may "limit" (JOpt JInt);
   may "cursor" (JOpt JString)].

Definition EntityDetailDto : jtype := JObj
  [must "entity_id" JString; must "entity_type_id" JInt; must "canonical_name" JString;
   must "aliases" (JList JString); may "attributes" (JOpt JString); must "mention_count" JInt;
   must "created_at_unix_nanos" JInt; must "updated_at_unix_nanos" JInt;
   may "merged_into" (JOpt JString); must "resolved_from" (JList JString)].

Definition ListEntitiesResponseDto : jtype := JObj
  [must "entities" (JList EntityDetailDto); must "count" JInt; may "next_cursor" (JOpt JString)].

Definition CreateEntityBody : jtype := JObj
  [must "entity_type_id" JInt; must "canonical_name" JString; may "aliases" (JList JString)].

Definition CreateEntityResponseDto : jtype := JObj
  [must "entity_id" JString].

Definition ResolveEntityBody : jtype := JObj
  [must "candidate_name" JString; may "resolution_context" JString; may "type_hint" JInt;
   may "allow_create" JBool].

Definition ResolveEntityResponseDto : jtype := JObj
  [must "outcome" JString; must "tier" JInt; must "confidence" JFloat;
   may "entity_id" (JOpt JString); must "candidate_ids" (JList JString)].

Definition TombstoneEntityQuery : jtype := JObj
  [may "reason" (JOpt JString)].

Definition TombstoneEntityResponseDto : jtype := JObj
  [must "tombstoned_at_unix_nanos" JInt].

Definition UpdateEntityBody : jtype := JObj
  [must "canonical_name" JString; may "aliases" (JList JString); may "attributes" (JOpt JString)].

Definition MergeEntityBody : jtype := JObj
  [must "merged" JString; may "confidence" JFloat; may "reason" JString].

Definition MergeEntityResponseDto : jtype := JObj
  [must "audit_id" JString; must "grace_period_seconds" JInt].

Definition ListRelationsQuery : jtype := JObj
  [may "direction" JString; may "type" JString; may "include_superseded" JBool;
   may "include_tombstoned" JBool; may "limit" (JOpt JInt); may "cursor" (JOpt JString)].

Definition RelationDetailDto : jtype := JObj
  [must "relation_id" JString; must "relation_type" JString; must "from_entity" JString;
   must "to_entity" JString; must "confidence" JFloat; must "valid_from_unix_nanos" JInt;
   must "valid_to_unix_nanos" JInt; must "is_symmetric" JBool; may "properties" (JOpt JString);
   must "version" JInt; may "superseded_by" (JOpt JString); may "supersedes" (JOpt JString);
   must "chain_root" JString; must "extractor_id" JInt; must "extracted_at_unix_nanos" JInt;
   must "tombstoned_at_unix_nanos" JInt; must "tombstoned" JBool;
   may "from_name" (JOpt JString); may "to_name" (JOpt JString)].

Definition ListRelationsResponseDto : jtype := JObj
  [must "relations" (JList RelationDetailDto); must "count" JInt;
   may "next_cursor" (JOpt JString)].

Definition RenameEntityBody : jtype := JObj
  [must "new_canonical_name" JString; may "move_to_alias" JBool].

Definition TraverseBody : jtype := JObj
  [may "direction" JString; may "relation_types" (JList JString); may "max_depth" (JOpt JInt);
   may "max_nodes" (JOpt JInt); may "include_superseded" JBool].

Definition TraversalStepDto : jtype := JObj
  [must "relation_id" JString; must "from" JString; must "to" JString;
   must "relation_type" JString; must "depth" JInt].

Definition TraversalPathDto : jtype := JObj
  [must "steps" (JList TraversalStepDto)].

Definition TraverseResponseDto : jtype := JObj
  [must "paths" (JList TraversalPathDto); must "total_paths" JInt; must "truncated" JBool].

Definition UnmergeEntityResponseDto : jtype := JObj
  [must "restored_entity_id" JString].

Definition ExtractorDto : jtype := JObj
  [must "extractor_id" JInt; must "namespace" JString; must "name" JString; must "kind" JInt;
   must "schema_version" JInt; must "created_at_unix_nanos" JInt].

Definition ListExtractorsResponseDto : jtype := JObj
  [must "items" (JList ExtractorDto); must "total" JInt].

Definition GraphFetchQuery : jtype := JObj
  [may "limit" (JOpt JInt); may "cursor" (JOpt JString); may "include_statements" (JOpt JBool);
   may "include_memories" (JOpt JBool); may "include_memory_edges" (JOpt JBool);
   may "include_tombstoned" (JOpt JBool)].

Definition GraphNodeDto : jtype := JObj
  [must "id" JString; must "kind" JString; must "label" JString; must "type_qname" JString].

Definition GraphEdgeDto : jtype := JObj
  [must "from_id" JString; must "to_id" JString; must "kind" JString; must "label" JString].

Definition GraphPageDto : jtype := JObj
  [must "nodes" (JList GraphNodeDto); must "edges" (JList GraphEdgeDto);
   may "next_cursor" (JOpt JString)].

Definition UnlinkBody : jtype := JObj
  [must "source" JString; must "target" JString; must "kind" JString].

Definition UnlinkResponseDto : jtype := JObj
  [must "source" JString; must "target" JString; must "kind" JString; must "removed" JBool].

Definition LinkBody : jtype := JObj
  [must "source" JString; must "target" JString; must "kind" JString; may "weight" JFloat].

Definition LinkResponseDto : jtype := JObj
  [must "source" JString; must "target" JString; must "kind" JString; must "weight" JFloat;
   must "created_at_unix_nanos" JInt; must "already_existed" JBool].

Definition DeleteLlmCredentialDto : jtype := JObj
  [must "deleted" JBool].

Definition LlmCredentialDto : jtype := JObj
  [must "provider" JString; must "model" JString; must "fingerprint" JString;
   must "created_at_unix_secs" JInt].

Definition PutLlmCredentialRequest : jtype := JObj
  [must "provider" JString; must "model" JString; must "api_key" JString].

Definition LlmCredentialCheckDto : jtype := JObj
  [must "status" JString; may "valid" (JOpt JBool); may "reason" (JOpt JString);
   must "provider" JString].

Definition ForgetBody : jtype := JObj
  [must "memory_id" JString; may "hard" JBool].

Definition ForgetResponseDto : jtype := JObj
  [must "memory_id" JString; must "was_already_forgotten" JBool; must "edges_removed" JInt].

Definition MemoryListQuery : jtype := JObj
  [may "limit" (JOpt JInt); may "cursor" (JOpt JString); may "dir" (JOpt JString);
   may "include_tombstoned" (JOpt JBool)].

Definition MemoryListItemDto : jtype := JObj
  [must "memory_id" JString; must "text" JString; must "kind" JInt; must "state" JInt;
   must "created_at_unix_nanos" JInt; must "occurred_at_unix_nanos" JInt;
   must "last_accessed_at_unix_nanos" JInt; must "salience" JFloat; must "access_count" JInt;
   must "statement_count" JInt; must "entity_count" JInt; must "relation_count" JInt].

Definition MemoryListPageDto : jtype := JObj
  [must "items" (JList MemoryListItemDto); may "next_cursor" (JOpt JString)].

Definition EncodeBody : jtype := JObj
  [must "text" JString; may "session" (JOpt JInt); may "occurred_at_unix_nanos" (JOpt JInt)].

Definition EncodeResponseDto : jtype := JObj
  [must "memory_id" JString; must "was_deduplicated" JBool; must "salience" JFloat;
   must "kind" JInt; must "created_at_unix_nanos" JInt; must "auto_edges_added" JInt].

Definition EncodeVectorBody : jtype := JObj
  [must "text" JString; must "vector" (JList JFloat); must "model_fingerprint" JString;
   may "session" (JOpt JInt); may "kind" (JOpt JInt); may "salience_hint" (JOpt JFloat);
   may "deduplicate" JBool].

Definition StageRecordDto : jtype := JObj
  [must "memory_id" JString; must "kind" JInt; must "salience" JFloat;
   must "created_at_unix_nanos" JInt; must "occurred_at_unix_nanos" JInt;
   must "vector_dim" JInt; must "text_len" JInt; must "lsn" JInt].

Definition StageKeywordFieldDto : jtype := JObj
  [must "field" JString; must "terms" (JList JString)].

Definition StageGraphNodeDto : jtype := JObj
  [must "id" JString; must "name" JString; must "kind" JString; must "type_qname" JString].

Definition StageGraphEdgeDto : jtype := JObj
  [must "source" JString; must "target" JString; must "predicate" JString; must "kind" JString;
   must "confidence" JFloat; may "event_at_unix_nanos" (JOpt JInt)].

Definition StageGraphDto : jtype := JObj
  [must "nodes" (JList StageGraphNodeDto); must "edges" (JList StageGraphEdgeDto)].

Definition StageArtifactDto : jtype := JObj
  [must "vector" (JList JFloat); may "record" (JOpt StageRecordDto);
   must "hype_questions" (JList JString); must "keyword_fields" (JList StageKeywordFieldDto);
   may "graph" (JOpt StageGraphDto)].

Definition MemoryEdgeDto : jtype := JObj
  [must "kind" JString; must "direction" JString; must "peer" JString; must "weight" JFloat;
   must "created_at_unix_nanos" JInt; may "annotation" (JOpt JString)].

Definition MemoryInspectDto : jtype := JObj
  [must "memory_id" JString; must "text" JString; must "artifact" StageArtifactDto;
   must "edges" (JList MemoryEdgeDto)].

Definition EndpointSpec : jtype := JObj
  [may "text" (JOpt JString); may "memory_id" (JOpt JString)].

Definition PlanBody : jtype := JObj
  [must "start" EndpointSpec; must "goal" EndpointSpec; may "max_steps" JInt;
   may "max_wall_time_ms" JInt; may "max_branches" JInt; may "strategy" (JOpt JString)].

Definition PlanStepDto : jtype := JObj
  [must "step_index" JInt; must "memory_id" JString; must "text" JString;
   must "transition_kind" JString; must "confidence" JFloat;
   must "estimated_distance_to_goal" JFloat].

Definition PlanResponseDto : jtype := JObj
  [must "steps" (JList PlanStepDto)].

Definition MaterializeProceduralResponseDto : jtype := JObj
  [must "system_block" JString; must "statement_ids" (JList JString);
   must "total_candidates" JInt; must "trimmed_by_budget" JBool].

Definition TimeRangeDto : jtype := JObj
  [may "from_unix_ms" (JOpt JInt); may "to_unix_ms" (JOpt JInt)].

Definition FusionConfigDto : jtype := JObj
  [must "k" JInt; must "semantic_weight" JFloat; must "lexical_weight" JFloat;
   must "graph_weight" JFloat].

Definition QueryBody : jtype := JObj
  [must "text" JString; may "entity_anchor" (JOpt JString); may "kinds" (JList JString);
   may "predicates" (JList JString); may "sessions" (JList JInt);
   may "time_range" (JOpt TimeRangeDto); may "as_of_record_time_unix_nanos" (JOpt JInt);
   may "confidence_min" (JOpt JFloat); may "include_tombstoned" JBool;
   may "include_superseded" JBool; may "limit" (JOpt JInt); may "retrievers" (JList JString);
   may "fusion" (JOpt FusionConfigDto)].

Definition QueryExplainResponseDto : jtype := JObj
  [must "plan_text" JString; must "estimated_cost_ms" JFloat].

Definition QueryTraceResponseDto : jtype := JObj
  [must "trace_text" JString; must "total_latency_ms" JFloat].

Definition ReasonBody : jtype := JObj
  [must "observation" EndpointSpec; may "depth" JInt; may "confidence_threshold" JFloat;
   may "max_inferences" JInt; may "budget_wall_time_ms" JInt].

Definition InferenceStepDto : jtype := JObj
  [must "step_index" JInt; must "claim" JString; must "supporting_memories" (JList JString);
   must "contradicting_memories" (JList JString); must "confidence" JFloat;
   must "inference_kind" JString].

Definition ReasonResponseDto : jtype := JObj
  [must "inferences" (JList InferenceStepDto)].

Definition RecallBody : jtype := JObj
  [must "query" JString; may "max_results" (JOpt JInt); may "subject" (JOpt JString);
   may "scope" (JOpt JString); may "include_trace" (JOpt JBool)].

Definition MemoryHitDto : jtype := JObj
  [must "memory_id" JString; must "text" JString; must "similarity_score" JFloat;
   must "confidence" JFloat; must "salience" JFloat; must "kind" JInt;
   must "created_at_unix_nanos" JInt].

Definition RecallResponseDto : jtype := JObj
  [must "answer_kind" JString; must "memories" (JList MemoryHitDto); may "trace" (JOpt JString)].

Definition CreateRelationBody : jtype := JObj
  [must "relation_type" JString; must "from_entity" JString; must "to_entity" JString;
   may "confidence" JFloat; may "valid_from_unix_nanos" JInt; may "valid_to_unix_nanos" JInt;
   may "extractor_id" JInt; may "session_id" JInt; may "evidence" (JList JString);
   may "properties" (JOpt JString)].

Definition CreateRelationResponseDto : jtype := JObj
  [must "relation_id" JString].

Definition TombstoneRelationQuery : jtype := JObj
  [may "reason" (JOpt JString)].

Definition TombstoneRelationResponseDto : jtype := JObj
  [must "tombstoned_at_unix_nanos" JInt].

Definition GetRelationQuery : jtype := JObj
  [may "follow_supersession" JBool].

(** [SupersedeRelationBody]: the fields of [CreateRelationBody], flattened. *)
Definition SupersedeRelationBody : jtype := CreateRelationBody.

Definition SupersedeRelationResponseDto : jtype := JObj
  [must "new_relation_id" JString; must "version" JInt].

Definition SchemaGetQuery : jtype := JObj
  [may "namespace" JString; may "version" JInt].

Definition SchemaDto : jtype := JObj
  [must "namespace" JString; must "schema_version" JInt; must "schema_document" JString;
   must "uploaded_at_unix_nanos" JInt; must "validator_version" JInt].

Definition SchemaUploadBody : jtype := JObj
  [must "schema_document" JString; may "dry_run" JBool; may "allow_breaking" JBool].

Definition SchemaErrorDto : jtype := JObj
  [must "code" JString; must "message" JString; must "line" JInt; must "column" JInt;
   must "length" JInt; must "severity" JInt].

Definition SchemaUploadDto : jtype := JObj
  [must "namespace" JString; must "schema_version" JInt; must "backward_compatible" JBool;
   must "validation_errors" (JList SchemaErrorDto)].

Definition SchemaReplaceBody : jtype := JObj
  [must "schema_document" JString; must "force_drop_existing" JBool].

Definition SchemaReplaceDto : jtype := JObj
  [must "namespace" JString; must "schema_version" JInt; must "dropped_count" JInt;
   must "validation_errors" (JList SchemaErrorDto)].

Definition SchemaValidateBody : jtype := JObj
  [must "schema_document" JString].

Definition SchemaValidateDto : jtype := JObj
  [must "namespace" JString; must "would_be_version" JInt;
   must "validation_errors" (JList SchemaErrorDto)].

Definition SchemaDropQuery : jtype := JObj
  [may "force" JBool].

Definition SchemaDropResponseDto : jtype := JObj
  [must "namespace" JString; must "schema_version" JInt; must "target_kind" JInt;
   must "target_name" JString; must "dropped" JBool; must "live_rows" JInt;
   must "validation_errors" (JList SchemaErrorDto)].

Definition ListSchemasQuery : jtype := JObj
  [may "limit" (JOpt JInt); may "cursor" (JOpt JString)].

Definition SchemaVersionDto : jtype := JObj
  [must "schema_version" JInt; must "uploaded_at_unix_nanos" JInt;
   must "validator_version" JInt; must "has_source_text" JBool].

Definition ListSchemasResponseDto : jtype := JObj
  [must "namespace" JString; must "items" (JList SchemaVersionDto); must "total" JInt;
   may "next_cursor" (JOpt JString)].

Definition ListSessionsQuery : jtype := JObj
  [may "limit" (JOpt JInt)].

Definition SessionSummaryDto : jtype := JObj
  [must "session_id" JInt; must "created_at_unix_nanos" JInt;
   must "last_active_unix_nanos" JInt; may "title" (JOpt JString); must "memory_count" JInt].

Definition ListSessionsResponseDto : jtype := JObj
  [must "space_id" JString; must "sessions" (JList SessionSummaryDto)].

Definition CreateSessionBody : jtype := JObj
  [must "session_id" JInt; may "title" (JOpt JString)].

Definition SessionProvisionDto : jtype := JObj
  [must "space_id" JString; must "session_id" JInt; must "created" JBool;
   must "created_at_unix_nanos" JInt; must "last_active_unix_nanos" JInt;
   must "memory_count" JInt].

Definition DeleteSessionQuery : jtype := JObj
  [may "hard" JBool].

Definition SessionErasedDto : jtype := JObj
  [must "space_id" JString; must "session_id" JInt; must "existed" JBool;
   must "memories_forgotten" JInt].

Definition SpaceErasedDto : jtype := JObj
  [must "space" JString; must "existed" JBool; must "memories_forgotten" JInt].

Definition ListSpacesQuery : jtype := JObj
  [may "limit" (JOpt JInt)].

Definition SpaceSummaryDto : jtype := JObj
  [must "space" JString; must "created_at_unix_nanos" JInt; must "last_active_unix_nanos" JInt;
   must "memory_count" JInt; must "session_count" JInt].

Definition ListSpacesResponseDto : jtype := JObj
  [must "spaces" (JList SpaceSummaryDto); must "cross_shard_complete" JBool].

Definition SpaceProvisionDto : jtype := JObj
  [must "space" JString; must "created" JBool; must "created_at_unix_nanos" JInt;
   must "last_active_unix_nanos" JInt; must "memory_count" JInt; must "session_count" JInt].

Definition ListStatementsQuery : jtype := JObj
  [may "subject" (JOpt JString); may "predicate" JString; may "kind" (JOpt JString);
   may "min_confidence" JFloat; may "only_current" JBool; may "include_tombstoned" JBool;
   may "limit" (JOpt JInt); may "cursor" (JOpt JString)].

Definition StatementValueDto : jtype := JTagged "type"
  [("text",
    [must "value" JString]);
   ("integer",
    [must "value" JInt]);
   ("float",
    [must "value" JFloat]);
   ("bool",
    [must "value" JBool]);
   ("unix_nanos",
    [must "value" JInt]);
   ("blob",
    [must "value" (JList JInt)])].

Definition StatementObjectDto : jtype := JTagged "kind"
  [("entity",
    [must "id" JString]);
   ("value",
    [must "value" StatementValueDto]);
   ("memory",
    [must "id" JString]);
   ("statement",
    [must "id" JString])].

Definition StatementDetailDto : jtype := JObj
  [must "statement_id" JString; must "kind" JString; must "subject" JString;
   must "predicate" JString; must "object" StatementObjectDto; must "confidence" JFloat;
   must "event_at_unix_nanos" JInt; must "valid_from_unix_nanos" JInt;
   must "valid_to_unix_nanos" JInt; must "tombstoned" JBool; must "version" JInt;
   may "superseded_by" (JOpt JString); may "supersedes" (JOpt JString);
   must "chain_root" JString; must "extractor_id" JInt; must "extracted_at_unix_nanos" JInt;
   must "schema_version" JInt; must "tombstoned_at_unix_nanos" JInt;
   must "tombstone_reason" JInt; may "subject_name" (JOpt JString);
   may "object_name" (JOpt JString)].

Definition ListStatementsResponseDto : jtype := JObj
  [must "statements" (JList StatementDetailDto); must "count" JInt;
   may "next_cursor" (JOpt JString)].

Definition CreateStatementBody : jtype := JObj
  [must "kind" JString; must "subject" JString; must "predicate" JString;
   must "object" StatementObjectDto; may "confidence" JFloat; may "event_at_unix_nanos" JInt;
   may "valid_from_unix_nanos" JInt; may "valid_to_unix_nanos" JInt; may "extractor_id" JInt;
   may "schema_version" JInt; may "session_id" JInt; may "evidence" (JList JString)].

Definition CreateStatementResponseDto : jtype := JObj
  [must "statement_id" JString; may "auto_superseded" (JOpt JString); must "chain_root" JString].

Definition StatementRetireQuery : jtype := JObj
  [may "reason" JInt; may "message" (JOpt JString)].

Definition TombstoneStatementResponseDto : jtype := JObj
  [must "tombstoned_at_unix_nanos" JInt].

Definition GetStatementQuery : jtype := JObj
  [may "follow_supersession" JBool].

Definition StatementHistoryQuery : jtype := JObj
  [may "include_tombstoned" JBool; may "limit" (JOpt JInt); may "cursor" (JOpt JString)].

Definition StatementHistoryResponseDto : jtype := JObj
  [must "items" (JList StatementDetailDto); must "chain_root" JString;
   must "total_versions" JInt; may "next_cursor" (JOpt JString)].

Definition RetractStatementResponseDto : jtype := JObj
  [must "retracted_at_unix_nanos" JInt; must "will_zero_at_unix_nanos" JInt].

(** [SupersedeStatementBody]: the fields of [CreateStatementBody], flattened. *)
Definition SupersedeStatementBody : jtype := CreateStatementBody.

Definition SupersedeStatementResponseDto : jtype := JObj
  [must "new_statement_id" JString; must "chain_root" JString; must "version" JInt].

Definition SubscribeQuery : jtype := JObj
  [may "sessions" (JOpt JString); may "kinds" (JOpt JString); may "memories" (JOpt JString);
   may "include_history" JBool; may "from_lsn" (JOpt JInt); may "max_inflight" (JOpt JInt)].

Definition GraphEventDto : jtype := JTagged "type"
  [("entity_created",
    [must "entity_id" JString; must "entity_type_id" JInt; must "canonical_name" JString]);
   ("entity_updated",
    [must "entity_id" JString; must "entity_type_id" JInt; must "canonical_name" JString;
     must "embedding_version_changed" JBool]);
   ("entity_renamed",
    [must "entity_id" JString; must "old_canonical_name" JString;
     must "new_canonical_name" JString; must "old_moved_to_alias" JBool]);
   ("entity_merged",
    [must "survivor" JString; must "merged" JString; must "audit_id" JString;
     must "confidence" JFloat; must "statements_rerouted" JInt; must "relations_rerouted" JInt]);
   ("entity_unmerged",
    [must "restored_entity_id" JString; must "from_survivor" JString; must "audit_id" JString]);
   ("entity_tombstoned",
    [must "entity_id" JString; must "reason" JString]);
   ("statement_created",
    [must "statement_id" JString; must "kind" JInt; must "subject" JString;
     must "predicate" JString; must "confidence" JFloat]);
   ("statement_superseded",
    [must "old_statement_id" JString; must "new_statement_id" JString; must "chain_root" JString]);
   ("statement_tombstoned",
    [must "statement_id" JString; must "reason" JString]);
   ("relation_created",
    [must "relation_id" JString; must "relation_type" JString; must "from" JString;
     must "to" JString]);
   ("relation_superseded",
    [must "old_relation_id" JString; must "new_relation_id" JString]);
   ("relation_tombstoned",
    [must "relation_id" JString; must "reason" JString]);
   ("schema_updated",
    [must "namespace" JString; must "from_version" JInt; must "to_version" JInt;
     must "backward_compatible" JBool])].

Definition EdgeEventDto : jtype := JObj
  [must "from_kind" JInt; must "from_id" JString; must "to_kind" JInt; must "to_id" JString;
   must "edge_kind_tag" JInt; must "edge_kind_byte" JInt; may "relation_type_id" (JOpt JInt);
   must "weight" JFloat; may "relation_id" (JOpt JString);
   may "superseded_relation_id" (JOpt JString); must "origin" JInt].

Definition StageEventDto : jtype := JTagged "type"
  [("auto_edge",
    [must "edges_written" JInt]);
   ("temporal_edge",
    [must "edges_written" JInt]);
   ("extractor",
    [must "entity_count" JInt; must "statement_count" JInt; must "relation_count" JInt;
     must "error_message" JString]);
   ("hype",
    [must "questions_written" JInt; must "cost_micro_usd" JInt])].

Definition SubscriptionEventDto : jtype := JObj
  [must "event_type" JString; must "memory_id" JString; must "session_id" JInt;
   must "text" JString; must "kind" JInt; must "salience" JFloat;
   must "timestamp_unix_nanos" JInt; must "lsn" JInt; may "graph" (JOpt GraphEventDto);
   may "edge" (JOpt EdgeEventDto); may "stage_kind" (JOpt JString);
   may "stage_outcome" (JOpt JString); may "stage" (JOpt StageEventDto)].

Definition PermissionsDto : jtype := JObj
  [must "can_encode" JBool; must "can_recall" JBool; must "can_plan" JBool;
   must "can_reason" JBool; must "can_forget" JBool; must "can_admin" JBool].

Definition WhoamiDto : jtype := JObj
  [must "namespace" JString; must "space_id" JString; must "permissions" PermissionsDto].

Definition SubscriptionClosedDto : jtype := JObj
  [must "final_lsn" JInt; must "reason" JString].

Definition MaterializeProceduralBody : jtype := JObj
  [may "sessions" (JList JInt); may "top_k" JInt; may "min_confidence" JFloat;
   may "categories" (JList JString)].

Definition CreateSpaceBody : jtype := JObj
  [may "metadata" (JOpt JString)].

(** The routes of the data and credential planes. *)
Definition routes : list route :=
  [mk_route "identity::capabilities" "GET" [Lit "v1"; Lit "capabilities"]
     None None (Some CapabilitiesDto);
   mk_route "entity::list" "GET" [Lit "v1"; Lit "entities"]
     (Some ListEntitiesQuery) None (Some ListEntitiesResponseDto);
   mk_route "entity::create" "POST" [Lit "v1"; Lit "entities"]
     None (Some CreateEntityBody) (Some CreateEntityResponseDto);
   mk_route "entity::resolve" "POST" [Lit "v1"; Lit "entities"; Lit "resolve"]
     None (Some ResolveEntityBody) (Some ResolveEntityResponseDto);
   mk_route "entity::tombstone" "DELETE" [Lit "v1"; Lit "entities"; Param]
     (Some TombstoneEntityQuery) None (Some TombstoneEntityResponseDto);
   mk_route "entity::get" "GET" [Lit "v1"; Lit "entities"; Param]
     None None (Some EntityDetailDto);
   mk_route "entity::update" "PUT" [Lit "v1"; Lit "entities"; Param]
     None (Some UpdateEntityBody) (Some EntityDetailDto);
   mk_route "entity::merge" "POST" [Lit "v1"; Lit "entities"; Param; Lit "merge"]
     None (Some MergeEntityBody) (Some MergeEntityResponseDto);
   mk_route "relation::list" "GET" [Lit "v1"; Lit "entities"; Param; Lit "relations"]
     (Some ListRelationsQuery) None (Some ListRelationsResponseDto);
   mk_route "entity::rename" "POST" [Lit "v1"; Lit "entities"; Param; Lit "rename"]
     None (Some RenameEntityBody) (Some EntityDetailDto);
   mk_route "entity::traverse" "POST" [Lit "v1"; Lit "entities"; Param; Lit "traverse"]
     None (Some TraverseBody) (Some TraverseResponseDto);
   mk_route "entity::unmerge" "POST" [Lit "v1"; Lit "entities"; Param; Lit "unmerge"]
     None None (Some UnmergeEntityResponseDto);
   mk_route "schema::extractors" "GET" [Lit "v1"; Lit "extractors"]
     None None (Some ListExtractorsResponseDto);
   mk_route "graph::fetch" "GET" [Lit "v1"; Lit "graph"]
     (Some GraphFetchQuery) None (Some GraphPageDto);
   mk_route "graph::unlink" "DELETE" [Lit "v1"; Lit "links"]
     None (Some UnlinkBody) (Some UnlinkResponseDto);
   mk_route "graph::link" "POST" [Lit "v1"; Lit "links"]
     None (Some LinkBody) (Some LinkResponseDto);
   mk_route "llm_credential::delete" "DELETE" [Lit "v1"; Lit "llm-credential"]
     None None (Some DeleteLlmCredentialDto);
   mk_route "llm_credential::get" "GET" [Lit "v1"; Lit "llm-credential"]
     None None (Some LlmCredentialDto);
   mk_route "llm_credential::put" "PUT" [Lit "v1"; Lit "llm-credential"]
     None (Some PutLlmCredentialRequest) (Some LlmCredentialDto);
   mk_route "llm_credential::test" "POST" [Lit "v1"; Lit "llm-credential"; Lit "test"]
     None (Some PutLlmCredentialRequest) (Some LlmCredentialCheckDto);
   mk_route "llm_credential::verify" "POST" [Lit "v1"; Lit "llm-credential"; Lit "verify"]
     None None (Some LlmCredentialCheckDto);
   mk_route "memory::forget" "DELETE" [Lit "v1"; Lit "memories"]
     None (Some ForgetBody) (Some ForgetResponseDto);
   mk_route "memory::list" "GET" [Lit "v1"; Lit "memories"]
     (Some MemoryListQuery) None (Some MemoryListPageDto);
   mk_route "memory::encode" "POST" [Lit "v1"; Lit "memories"]
     None (Some EncodeBody) (Some EncodeResponseDto);
   mk_route "memory::encode_vector" "POST" [Lit "v1"; Lit "memories"; Lit "vector"]
     None (Some EncodeVectorBody) (Some EncodeResponseDto);
   mk_route "memory::inspect" "GET" [Lit "v1"; Lit "memories"; Param; Lit "inspect"]
     None None (Some MemoryInspectDto);
   mk_route "reasoning::plan" "POST" [Lit "v1"; Lit "plan"]
     None (Some PlanBody) (Some PlanResponseDto);
   mk_route "memory::materialize_procedural" "POST" [Lit "v1"; Lit "procedural"; Lit "materialize"]
     None None (Some MaterializeProceduralResponseDto);
   mk_route "query::explain" "POST" [Lit "v1"; Lit "query"; Lit "explain"]
     None (Some QueryBody) (Some QueryExplainResponseDto);
   mk_route "query::trace" "POST" [Lit "v1"; Lit "query"; Lit "trace"]
     None (Some QueryBody) (Some QueryTraceResponseDto);
   mk_route "reasoning::reason" "POST" [Lit "v1"; Lit "reason"]
     None (Some ReasonBody) (Some ReasonResponseDto);
   mk_route "memory::recall" "POST" [Lit "v1"; Lit "recall"]
     None (Some RecallBody) (Some RecallResponseDto);
   mk_route "relation::create" "POST" [Lit "v1"; Lit "relations"]
     None (Some CreateRelationBody) (Some CreateRelationResponseDto);
   mk_route "relation::tombstone" "DELETE" [Lit "v1"; Lit "relations"; Param]
     (Some TombstoneRelationQuery) None (Some TombstoneRelationResponseDto);
   mk_route "relation::get" "GET" [Lit "v1"; Lit "relations"; Param]
     (Some GetRelationQuery) None (Some RelationDetailDto);
   mk_route "relation::supersede" "POST" [Lit "v1"; Lit "relations"; Param; Lit "supersede"]
     None (Some SupersedeRelationBody) (Some SupersedeRelationResponseDto);
   mk_route "schema::get" "GET" [Lit "v1"; Lit "schema"]
     (Some SchemaGetQuery) None (Some SchemaDto);
   mk_route "schema::upload" "POST" [Lit "v1"; Lit "schema"]
     None (Some SchemaUploadBody) (Some SchemaUploadDto);
   mk_route "schema::replace" "PUT" [Lit "v1"; Lit "schema"]
     None (Some SchemaReplaceBody) (Some SchemaReplaceDto);
   mk_route "schema::validate" "POST" [Lit "v1"; Lit "schema"; Lit "validate"]
     None (Some SchemaValidateBody) (Some SchemaValidateDto);
   mk_route "schema::drop" "DELETE" [Lit "v1"; Lit "schema"; Param; Param]
     (Some SchemaDropQuery) None (Some SchemaDropResponseDto);
   mk_route "schema::list" "GET" [Lit "v1"; Lit "schemas"]
     (Some ListSchemasQuery) None (Some ListSchemasResponseDto);
   mk_route "session::list" "GET" [Lit "v1"; Lit "sessions"]
     (Some ListSessionsQuery) None (Some ListSessionsResponseDto);
   mk_route "session::create" "POST" [Lit "v1"; Lit "sessions"]
     None (Some CreateSessionBody) (Some SessionProvisionDto);
   mk_route "session::delete" "DELETE" [Lit "v1"; Lit "sessions"; Param]
     (Some DeleteSessionQuery) None (Some SessionErasedDto);
   mk_route "space::delete" "DELETE" [Lit "v1"; Lit "spaces"]
     None None (Some SpaceErasedDto);
   mk_route "space::list" "GET" [Lit "v1"; Lit "spaces"]
     (Some ListSpacesQuery) None (Some ListSpacesResponseDto);
   mk_route "space::create" "POST" [Lit "v1"; Lit "spaces"]
     None None (Some SpaceProvisionDto);
   mk_route "statement::list" "GET" [Lit "v1"; Lit "statements"]
     (Some ListStatementsQuery) None (Some ListStatementsResponseDto);
   mk_route "statement::create" "POST" [Lit "v1"; Lit "statements"]
     None (Some CreateStatementBody) (Some CreateStatementResponseDto);
   mk_route "statement::tombstone" "DELETE" [Lit "v1"; Lit "statements"; Param]
     (Some StatementRetireQuery) None (Some TombstoneStatementResponseDto);
   mk_route "statement::get" "GET" [Lit "v1"; Lit "statements"; Param]
     (Some GetStatementQuery) None (Some StatementDetailDto);
   mk_route "statement::history" "GET" [Lit "v1"; Lit "statements"; Param; Lit "history"]
     (Some StatementHistoryQuery) None (Some StatementHistoryResponseDto);
   mk_route "statement::retract" "POST" [Lit "v1"; Lit "statements"; Param; Lit "retract"]
     (Some StatementRetireQuery) None (Some RetractStatementResponseDto);
   mk_route "statement::supersede" "POST" [Lit "v1"; Lit "statements"; Param; Lit "supersede"]
     None (Some SupersedeStatementBody) (Some SupersedeStatementResponseDto);
   mk_route "subscribe::subscribe" "GET" [Lit "v1"; Lit "subscribe"]
     (Some SubscribeQuery) None (Some SubscriptionEventDto);
   mk_route "identity::whoami" "GET" [Lit "v1"; Lit "whoami"]
     None None (Some WhoamiDto)].

Definition find_route (name : string) : option route :=
  find (fun r => String.eqb (handler r) name) routes.

(** ** Lemmas *)

(** A field of a conforming object. *)
Definition field_ok (f : field) (d : list (pyval * pyval)) : Prop :=
  match dict_get d (field_name f) with
  | Some x => conforms f.2 x = true
  | None => f.1.2 = false
  end.

(** The checks on the fields of an object, as [conforms] makes them. *)
Definition fields_ok (fs : list field) (d : list (pyval * pyval)) : bool :=
  forallb (fun f => match dict_get d (field_name f) with
                    | Some x => conforms f.2 x
                    | None => negb f.1.2
                    end) fs.

Lemma fields_ok_Forall fs d : fields_ok fs d = true <-> Forall (fun f => field_ok f d) fs.
Proof.
  unfold fields_ok, field_ok. induction fs as [|[[k r] t] fs IH]; [by split|]. cbn [forallb].
  rewrite andb_true_iff, Forall_cons, IH. cbn [field_name fst snd].
  destruct (dict_get d k); [done|]. by rewrite negb_true_iff.
Qed.

Lemma conforms_obj_dict fs d : conforms (JObj fs) (PDict d) = fields_ok fs d && declared None fs d.
Proof.
  cbn [conforms]. f_equal. induction fs as [|[[k r] t] fs IH]; [done|].
  unfold fields_ok. cbn [forallb]. by rewrite IH.
Qed.

Lemma conforms_obj fs v :
  conforms (JObj fs) v = true ->
  exists d, v = PDict d /\ Forall (fun f => field_ok f d) fs /\ declared None fs d = true.
Proof.
  destruct v; try done. rewrite conforms_obj_dict.
  intros [H1%fields_ok_Forall H2]%andb_true_iff. by eexists.
Qed.

Lemma conforms_tagged tag vs v :
  conforms (JTagged tag vs) v = true ->
  exists d name fs, v = PDict d /\ dict_get d tag = Some (PStr name) /\ (name, fs) ∈ vs
    /\ Forall (fun f => field_ok f d) fs /\ declared (Some tag) fs d = true.
Proof.
  destruct v; cbn [conforms]; try done. destruct (dict_get d tag) as [[]|] eqn:E; try done.
  induction vs as [|[n fs] vs IH]; [done|]. destruct (String.eqb_spec n s) as [->|Hne].
  - intros [H1 H2]%andb_true_iff. exists d, s, fs. split_and!; try done; [by left|].
    apply fields_ok_Forall. rewrite <- H1. clear. induction fs as [|[[k r] t] fs IH]; [done|].
    unfold fields_ok. cbn [forallb]. by rewrite <- IH.
  - intros H. destruct (IH H) as (d' & name & fs' & Ed & En & Hin & Hr).
    exists d', name, fs'. split_and!; try done; by right || apply Hr.
Qed.

(** A key that is not declared is not there. *)
Lemma undeclared tag fs d k :
  declared tag fs d = true -> tag <> Some k -> Forall (fun f => field_name f <> k) fs ->
  dict_get d k = None.
Proof.
  unfold declared. rewrite forallb_forall. intros H Ht Hfs.
  induction d as [|[k' x] d IH]; [done|].
  specialize (H (k', x) (or_introl eq_refl)) as Hk. cbn [fst] in Hk.
  destruct k' as [| | | |s| | | |]; try done. cbn [dict_get].
  destruct (String.eqb_spec s k) as [->|Hne].
  - exfalso. apply orb_true_iff in Hk as [Hk%bool_decide_eq_true|Hk]; [done|].
    apply existsb_exists in Hk as (f & Hf & Ef%String.eqb_eq). rewrite Forall_forall in Hfs.
    by apply (Hfs f); [apply list_elem_of_In|].
  - apply IH. intros kv Hkv. apply H. by right.
Qed.

Lemma conforms_list t v :
  conforms (JList t) v = true <-> exists l, v = PList l /\ Forall (fun x => conforms t x = true) l.
Proof.
  split.
  - destruct v; cbn [conforms]; try done. intros H. eexists. split; [done|].
    apply Forall_forall. intros x Hx. rewrite forallb_forall in H. by apply H, list_elem_of_In.
  - intros (l & -> & H). cbn [conforms]. apply forallb_forall. intros x Hx.
    rewrite Forall_forall in H. by apply H, list_elem_of_In.
Qed.
