(* ===== verification/HttpTypes.v ===== *)
(** * HttpTypes

    [http/types.py]: the result types of the HTTP tier, each with its record and
    its [from_dict]. Attributes hold what the JSON document held, unconverted;
    [_typed] says that they have the types the dataclass annotates. *)

From S2P Require Import Prelude PyFloat PyValue PyJson HttpContract.

(** ** Readers *)

(** [list(d.get(k, []))]. *)
Definition list_in (d : pyval) (k : string) : pyresult pyval :=
  bind (py_get d k (PList [])) py_list.

(** [[f(x) for x in d.get(k, [])]]. *)
Definition each_in {A} (f : pyval -> pyresult A) (d : pyval) (k : string) : pyresult (list A) :=
  let* v := py_get d k (PList []) in
  let* l := py_iter v in
  map_result f l.

(** [f(d[k])]. *)
Definition nested_in {A} (f : pyval -> pyresult A) (d : pyval) (k : string) : pyresult A :=
  bind (py_getitem d k) f.

(** [f(v) if v is not None else None]. *)
Definition unless_none {A} (f : pyval -> pyresult A) (v : pyval) : pyresult (option A) :=
  if is_none v then Ok None else let* a := f v in Ok (Some a).

(** The test on an optional attribute. *)
Definition if_some {A} (p : A -> bool) (o : option A) : bool :=
  match o with Some a => p a | None => true end.

(** ** [EncodeResult] *)

Record EncodeResult : Type := mk_EncodeResult {
  EncodeResult_memory_id : pyval; EncodeResult_was_deduplicated : pyval;
  EncodeResult_salience : pyval; EncodeResult_kind : pyval;
  EncodeResult_created_at_unix_nanos : pyval; EncodeResult_auto_edges_added : pyval
}.

Definition EncodeResult_from_dict (d : pyval) : pyresult EncodeResult :=
  let* memory_id := py_getitem d "memory_id" in
  let* was_deduplicated := py_getitem d "was_deduplicated" in
  let* salience := py_getitem d "salience" in
  let* kind := py_getitem d "kind" in
  let* created_at_unix_nanos := py_getitem d "created_at_unix_nanos" in
  let* auto_edges_added := py_getitem d "auto_edges_added" in
  Ok (mk_EncodeResult memory_id was_deduplicated salience kind created_at_unix_nanos
    auto_edges_added).

Definition EncodeResult_typed (self : EncodeResult) : bool :=
  conforms JString (EncodeResult_memory_id self)
  && conforms JBool (EncodeResult_was_deduplicated self)
  && conforms JFloat (EncodeResult_salience self) && conforms JInt (EncodeResult_kind self)
  && conforms JInt (EncodeResult_created_at_unix_nanos self)
  && conforms JInt (EncodeResult_auto_edges_added self).

(** ** [MemoryHit] *)

Record MemoryHit : Type := mk_MemoryHit {
  MemoryHit_memory_id : pyval; MemoryHit_text : pyval; MemoryHit_similarity_score : pyval;
  MemoryHit_confidence : pyval; MemoryHit_salience : pyval; MemoryHit_kind : pyval;
  MemoryHit_created_at_unix_nanos : pyval
}.

Definition MemoryHit_from_dict (d : pyval) : pyresult MemoryHit :=
  let* memory_id := py_getitem d "memory_id" in
  let* text := py_getitem d "text" in
  let* similarity_score := py_getitem d "similarity_score" in
  let* confidence := py_getitem d "confidence" in
  let* salience := py_getitem d "salience" in
  let* kind := py_getitem d "kind" in
  let* created_at_unix_nanos := py_getitem d "created_at_unix_nanos" in
  Ok (mk_MemoryHit memory_id text similarity_score confidence salience kind created_at_unix_nanos).

Definition MemoryHit_typed (self : MemoryHit) : bool :=
  conforms JString (MemoryHit_memory_id self) && conforms JString (MemoryHit_text self)
  && conforms JFloat (MemoryHit_similarity_score self)
  && conforms JFloat (MemoryHit_confidence self) && conforms JFloat (MemoryHit_salience self)
  && conforms JInt (MemoryHit_kind self) && conforms JInt (MemoryHit_created_at_unix_nanos self).

(** ** [RecallResult] *)

Record RecallResult : Type := mk_RecallResult {
  RecallResult_answer_kind : pyval; RecallResult_memories : list MemoryHit;
  RecallResult_trace : pyval
}.

Definition RecallResult_from_dict (d : pyval) : pyresult RecallResult :=
  let* answer_kind := py_getitem d "answer_kind" in
  let* memories := each_in MemoryHit_from_dict d "memories" in
  let* trace := py_get d "trace" PNone in
  Ok (mk_RecallResult answer_kind memories trace).

Definition RecallResult_typed (self : RecallResult) : bool :=
  conforms JString (RecallResult_answer_kind self)
  && forallb MemoryHit_typed (RecallResult_memories self)
  && conforms (JOpt JString) (RecallResult_trace self).

(** ** [ForgetResult] *)

Record ForgetResult : Type := mk_ForgetResult {
  ForgetResult_memory_id : pyval; ForgetResult_was_already_forgotten : pyval;
  ForgetResult_edges_removed : pyval
}.

Definition ForgetResult_from_dict (d : pyval) : pyresult ForgetResult :=
  let* memory_id := py_getitem d "memory_id" in
  let* was_already_forgotten := py_getitem d "was_already_forgotten" in
  let* edges_removed := py_getitem d "edges_removed" in
  Ok (mk_ForgetResult memory_id was_already_forgotten edges_removed).

Definition ForgetResult_typed (self : ForgetResult) : bool :=
  conforms JString (ForgetResult_memory_id self)
  && conforms JBool (ForgetResult_was_already_forgotten self)
  && conforms JInt (ForgetResult_edges_removed self).

(** ** [LinkResult] *)

Record LinkResult : Type := mk_LinkResult {
  LinkResult_source : pyval; LinkResult_target : pyval; LinkResult_kind : pyval;
  LinkResult_weight : pyval; LinkResult_created_at_unix_nanos : pyval;
  LinkResult_already_existed : pyval
}.

Definition LinkResult_from_dict (d : pyval) : pyresult LinkResult :=
  let* source := py_getitem d "source" in
  let* target := py_getitem d "target" in
  let* kind := py_getitem d "kind" in
  let* weight := py_getitem d "weight" in
  let* created_at_unix_nanos := py_getitem d "created_at_unix_nanos" in
  let* already_existed := py_getitem d "already_existed" in
  Ok (mk_LinkResult source target kind weight created_at_unix_nanos already_existed).

Definition LinkResult_typed (self : LinkResult) : bool :=
  conforms JString (LinkResult_source self) && conforms JString (LinkResult_target self)
  && conforms JString (LinkResult_kind self) && conforms JFloat (LinkResult_weight self)
  && conforms JInt (LinkResult_created_at_unix_nanos self)
  && conforms JBool (LinkResult_already_existed self).

(** ** [UnlinkResult] *)

Record UnlinkResult : Type := mk_UnlinkResult {
  UnlinkResult_source : pyval; UnlinkResult_target : pyval; UnlinkResult_kind : pyval;
  UnlinkResult_removed : pyval
}.

Definition UnlinkResult_from_dict (d : pyval) : pyresult UnlinkResult :=
  let* source := py_getitem d "source" in
  let* target := py_getitem d "target" in
  let* kind := py_getitem d "kind" in
  let* removed := py_getitem d "removed" in
  Ok (mk_UnlinkResult source target kind removed).

Definition UnlinkResult_typed (self : UnlinkResult) : bool :=
  conforms JString (UnlinkResult_source self) && conforms JString (UnlinkResult_target self)
  && conforms JString (UnlinkResult_kind self) && conforms JBool (UnlinkResult_removed self).

(** ** [PlanStep] *)

Record HttpPlanStep : Type := mk_PlanStep {
  PlanStep_step_index : pyval; PlanStep_memory_id : pyval; PlanStep_text : pyval;
  PlanStep_transition_kind : pyval; PlanStep_confidence : pyval;
  PlanStep_estimated_distance_to_goal : pyval
}.

Definition PlanStep_from_dict (d : pyval) : pyresult HttpPlanStep :=
  let* step_index := py_getitem d "step_index" in
  let* memory_id := py_getitem d "memory_id" in
  let* text := py_getitem d "text" in
  let* transition_kind := py_getitem d "transition_kind" in
  let* confidence := py_getitem d "confidence" in
  let* estimated_distance_to_goal := py_getitem d "estimated_distance_to_goal" in
  Ok (mk_PlanStep step_index memory_id text transition_kind confidence estimated_distance_to_goal).

Definition PlanStep_typed (self : HttpPlanStep) : bool :=
  conforms JInt (PlanStep_step_index self) && conforms JString (PlanStep_memory_id self)
  && conforms JString (PlanStep_text self) && conforms JString (PlanStep_transition_kind self)
  && conforms JFloat (PlanStep_confidence self)
  && conforms JFloat (PlanStep_estimated_distance_to_goal self).

(** ** [PlanResult] *)

Record PlanResult : Type := mk_PlanResult {
  PlanResult_steps : list HttpPlanStep
}.

Definition PlanResult_from_dict (d : pyval) : pyresult PlanResult :=
  let* steps := each_in PlanStep_from_dict d "steps" in
  Ok (mk_PlanResult steps).

Definition PlanResult_typed (self : PlanResult) : bool :=
  forallb PlanStep_typed (PlanResult_steps self).

(** ** [InferenceStep] *)

Record HttpInferenceStep : Type := mk_InferenceStep {
  InferenceStep_step_index : pyval; InferenceStep_claim : pyval;
  InferenceStep_supporting_memories : pyval; InferenceStep_contradicting_memories : pyval;
  InferenceStep_confidence : pyval; InferenceStep_inference_kind : pyval
}.

Definition InferenceStep_from_dict (d : pyval) : pyresult HttpInferenceStep :=
  let* step_index := py_getitem d "step_index" in
  let* claim := py_getitem d "claim" in
  let* supporting_memories := list_in d "supporting_memories" in
  let* contradicting_memories := list_in d "contradicting_memories" in
  let* confidence := py_getitem d "confidence" in
  let* inference_kind := py_getitem d "inference_kind" in
  Ok (mk_InferenceStep step_index claim supporting_memories contradicting_memories confidence
    inference_kind).

Definition InferenceStep_typed (self : HttpInferenceStep) : bool :=
  conforms JInt (InferenceStep_step_index self) && conforms JString (InferenceStep_claim self)
  && conforms (JList JString) (InferenceStep_supporting_memories self)
  && conforms (JList JString) (InferenceStep_contradicting_memories self)
  && conforms JFloat (InferenceStep_confidence self)
  && conforms JString (InferenceStep_inference_kind self).

(** ** [ReasonResult] *)

Record ReasonResult : Type := mk_ReasonResult {
  ReasonResult_inferences : list HttpInferenceStep
}.

Definition ReasonResult_from_dict (d : pyval) : pyresult ReasonResult :=
  let* inferences := each_in InferenceStep_from_dict d "inferences" in
  Ok (mk_ReasonResult inferences).

Definition ReasonResult_typed (self : ReasonResult) : bool :=
  forallb InferenceStep_typed (ReasonResult_inferences self).

(** ** [Permissions] *)

Record Permissions : Type := mk_Permissions {
  Permissions_can_encode : pyval; Permissions_can_recall : pyval; Permissions_can_plan : pyval;
  Permissions_can_reason : pyval; Permissions_can_forget : pyval; Permissions_can_admin : pyval
}.

Definition Permissions_from_dict (d : pyval) : pyresult Permissions :=
  let* can_encode := py_getitem d "can_encode" in
  let* can_recall := py_getitem d "can_recall" in
  let* can_plan := py_getitem d "can_plan" in
  let* can_reason := py_getitem d "can_reason" in
  let* can_forget := py_getitem d "can_forget" in
  let* can_admin := py_getitem d "can_admin" in
  Ok (mk_Permissions can_encode can_recall can_plan can_reason can_forget can_admin).

Definition Permissions_typed (self : Permissions) : bool :=
  conforms JBool (Permissions_can_encode self) && conforms JBool (Permissions_can_recall self)
  && conforms JBool (Permissions_can_plan self) && conforms JBool (Permissions_can_reason self)
  && conforms JBool (Permissions_can_forget self) && conforms JBool (Permissions_can_admin self).

(** ** [Whoami] *)

Record Whoami : Type := mk_Whoami {
  Whoami_namespace : pyval; Whoami_space_id : pyval; Whoami_permissions : Permissions
}.

Definition Whoami_from_dict (d : pyval) : pyresult Whoami :=
  let* namespace := py_getitem d "namespace" in
  let* space_id := py_getitem d "space_id" in
  let* permissions := nested_in Permissions_from_dict d "permissions" in
  Ok (mk_Whoami namespace space_id permissions).

Definition Whoami_typed (self : Whoami) : bool :=
  conforms JString (Whoami_namespace self) && conforms JString (Whoami_space_id self)
  && Permissions_typed (Whoami_permissions self).

(** ** [Capabilities] *)

Record HttpCapabilities : Type := mk_Capabilities {
  Capabilities_rerank : pyval; Capabilities_llm_extractor : pyval;
  Capabilities_classifier_extractor : pyval; Capabilities_pattern_extractor : pyval;
  Capabilities_schema_namespaces : pyval; Capabilities_vector_dim : pyval
}.

Definition Capabilities_from_dict (d : pyval) : pyresult HttpCapabilities :=
  let* rerank := py_getitem d "rerank" in
  let* llm_extractor := py_getitem d "llm_extractor" in
  let* classifier_extractor := py_getitem d "classifier_extractor" in
  let* pattern_extractor := py_getitem d "pattern_extractor" in
  let* schema_namespaces := list_in d "schema_namespaces" in
  let* vector_dim := py_getitem d "vector_dim" in
  Ok (mk_Capabilities rerank llm_extractor classifier_extractor pattern_extractor
    schema_namespaces vector_dim).

Definition Capabilities_typed (self : HttpCapabilities) : bool :=
  conforms JBool (Capabilities_rerank self) && conforms JBool (Capabilities_llm_extractor self)
  && conforms JBool (Capabilities_classifier_extractor self)
  && conforms JBool (Capabilities_pattern_extractor self)
  && conforms (JList JString) (Capabilities_schema_namespaces self)
  && conforms JInt (Capabilities_vector_dim self).

(** ** [EntityDetail] *)

Record EntityDetail : Type := mk_EntityDetail {
  EntityDetail_entity_id : pyval; EntityDetail_entity_type_id : pyval;
  EntityDetail_canonical_name : pyval; EntityDetail_aliases : pyval;
  EntityDetail_mention_count : pyval; EntityDetail_created_at_unix_nanos : pyval;
  EntityDetail_updated_at_unix_nanos : pyval; EntityDetail_merged_into : pyval;
  EntityDetail_resolved_from : pyval; EntityDetail_attributes : pyval
}.

Definition EntityDetail_from_dict (d : pyval) : pyresult EntityDetail :=
  let* entity_id := py_getitem d "entity_id" in
  let* entity_type_id := py_getitem d "entity_type_id" in
  let* canonical_name := py_getitem d "canonical_name" in
  let* aliases := list_in d "aliases" in
  let* mention_count := py_getitem d "mention_count" in
  let* created_at_unix_nanos := py_getitem d "created_at_unix_nanos" in
  let* updated_at_unix_nanos := py_getitem d "updated_at_unix_nanos" in
  let* merged_into := py_get d "merged_into" PNone in
  let* resolved_from := list_in d "resolved_from" in
  let* attributes := py_get d "attributes" PNone in
  Ok (mk_EntityDetail entity_id entity_type_id canonical_name aliases mention_count
    created_at_unix_nanos updated_at_unix_nanos merged_into resolved_from attributes).

Definition EntityDetail_typed (self : EntityDetail) : bool :=
  conforms JString (EntityDetail_entity_id self)
  && conforms JInt (EntityDetail_entity_type_id self)
  && conforms JString (EntityDetail_canonical_name self)
  && conforms (JList JString) (EntityDetail_aliases self)
  && conforms JInt (EntityDetail_mention_count self)
  && conforms JInt (EntityDetail_created_at_unix_nanos self)
  && conforms JInt (EntityDetail_updated_at_unix_nanos self)
  && conforms (JOpt JString) (EntityDetail_merged_into self)
  && conforms (JList JString) (EntityDetail_resolved_from self)
  && conforms (JOpt JString) (EntityDetail_attributes self).

(** ** [ListEntitiesResult] *)

Record ListEntitiesResult : Type := mk_ListEntitiesResult {
  ListEntitiesResult_entities : list EntityDetail; ListEntitiesResult_count : pyval;
  ListEntitiesResult_next_cursor : pyval
}.

Definition ListEntitiesResult_from_dict (d : pyval) : pyresult ListEntitiesResult :=
  let* entities := each_in EntityDetail_from_dict d "entities" in
  let* count := py_getitem d "count" in
  let* next_cursor := py_get d "next_cursor" PNone in
  Ok (mk_ListEntitiesResult entities count next_cursor).

Definition ListEntitiesResult_typed (self : ListEntitiesResult) : bool :=
  forallb EntityDetail_typed (ListEntitiesResult_entities self)
  && conforms JInt (ListEntitiesResult_count self)
  && conforms (JOpt JString) (ListEntitiesResult_next_cursor self).

(** ** [CreateEntityResult] *)

Record CreateEntityResult : Type := mk_CreateEntityResult {
  CreateEntityResult_entity_id : pyval
}.

Definition CreateEntityResult_from_dict (d : pyval) : pyresult CreateEntityResult :=
  let* entity_id := py_getitem d "entity_id" in
  Ok (mk_CreateEntityResult entity_id).

Definition CreateEntityResult_typed (self : CreateEntityResult) : bool :=
  conforms JString (CreateEntityResult_entity_id self).

(** ** [ResolveEntityResult] *)

Record ResolveEntityResult : Type := mk_ResolveEntityResult {
  ResolveEntityResult_outcome : pyval; ResolveEntityResult_tier : pyval;
  ResolveEntityResult_confidence : pyval; ResolveEntityResult_entity_id : pyval;
  ResolveEntityResult_candidate_ids : pyval
}.

Definition ResolveEntityResult_from_dict (d : pyval) : pyresult ResolveEntityResult :=
  let* outcome := py_getitem d "outcome" in
  let* tier := py_getitem d "tier" in
  let* confidence := py_getitem d "confidence" in
  let* entity_id := py_get d "entity_id" PNone in
  let* candidate_ids := list_in d "candidate_ids" in
  Ok (mk_ResolveEntityResult outcome tier confidence entity_id candidate_ids).

Definition ResolveEntityResult_typed (self : ResolveEntityResult) : bool :=
  conforms JString (ResolveEntityResult_outcome self)
  && conforms JInt (ResolveEntityResult_tier self)
  && conforms JFloat (ResolveEntityResult_confidence self)
  && conforms (JOpt JString) (ResolveEntityResult_entity_id self)
  && conforms (JList JString) (ResolveEntityResult_candidate_ids self).

(** ** [TraversalStep] *)

Record TraversalStep : Type := mk_TraversalStep {
  TraversalStep_relation_id : pyval; TraversalStep_from_ : pyval; TraversalStep_to : pyval;
  TraversalStep_relation_type : pyval; TraversalStep_depth : pyval;
  TraversalStep_from_name : pyval; TraversalStep_to_name : pyval
}.

Definition TraversalStep_from_dict (d : pyval) : pyresult TraversalStep :=
  let* relation_id := py_getitem d "relation_id" in
  let* from_ := py_getitem d "from" in
  let* to := py_getitem d "to" in
  let* relation_type := py_getitem d "relation_type" in
  let* depth := py_getitem d "depth" in
  let* from_name := py_get d "from_name" PNone in
  let* to_name := py_get d "to_name" PNone in
  Ok (mk_TraversalStep relation_id from_ to relation_type depth from_name to_name).

Definition TraversalStep_typed (self : TraversalStep) : bool :=
  conforms JString (TraversalStep_relation_id self) && conforms JString (TraversalStep_from_ self)
  && conforms JString (TraversalStep_to self)
  && conforms JString (TraversalStep_relation_type self)
  && conforms JInt (TraversalStep_depth self)
  && conforms (JOpt JString) (TraversalStep_from_name self)
  && conforms (JOpt JString) (TraversalStep_to_name self).

(** ** [TraversalPath] *)

Record TraversalPath : Type := mk_TraversalPath {
  TraversalPath_steps : list TraversalStep
}.

Definition TraversalPath_from_dict (d : pyval) : pyresult TraversalPath :=
  let* steps := each_in TraversalStep_from_dict d "steps" in
  Ok (mk_TraversalPath steps).

Definition TraversalPath_typed (self : TraversalPath) : bool :=
  forallb TraversalStep_typed (TraversalPath_steps self).

(** ** [TraverseResult] *)

Record TraverseResult : Type := mk_TraverseResult {
  TraverseResult_paths : list TraversalPath; TraverseResult_total_paths : pyval;
  TraverseResult_truncated : pyval
}.

Definition TraverseResult_from_dict (d : pyval) : pyresult TraverseResult :=
  let* paths := each_in TraversalPath_from_dict d "paths" in
  let* total_paths := py_getitem d "total_paths" in
  let* truncated := py_getitem d "truncated" in
  Ok (mk_TraverseResult paths total_paths truncated).

Definition TraverseResult_typed (self : TraverseResult) : bool :=
  forallb TraversalPath_typed (TraverseResult_paths self)
  && conforms JInt (TraverseResult_total_paths self)
  && conforms JBool (TraverseResult_truncated self).

(** ** [RelationDetail] *)

Record RelationDetail : Type := mk_RelationDetail {
  RelationDetail_relation_id : pyval; RelationDetail_relation_type : pyval;
  RelationDetail_from_entity : pyval; RelationDetail_to_entity : pyval;
  RelationDetail_confidence : pyval; RelationDetail_valid_from_unix_nanos : pyval;
  RelationDetail_valid_to_unix_nanos : pyval; RelationDetail_is_symmetric : pyval;
  RelationDetail_tombstoned : pyval; RelationDetail_properties : pyval;
  RelationDetail_version : pyval; RelationDetail_superseded_by : pyval;
  RelationDetail_supersedes : pyval; RelationDetail_chain_root : pyval;
  RelationDetail_extractor_id : pyval; RelationDetail_extracted_at_unix_nanos : pyval;
  RelationDetail_tombstoned_at_unix_nanos : pyval; RelationDetail_from_name : pyval;
  RelationDetail_to_name : pyval
}.

Definition RelationDetail_from_dict (d : pyval) : pyresult RelationDetail :=
  let* relation_id := py_getitem d "relation_id" in
  let* relation_type := py_getitem d "relation_type" in
  let* from_entity := py_getitem d "from_entity" in
  let* to_entity := py_getitem d "to_entity" in
  let* confidence := py_getitem d "confidence" in
  let* valid_from_unix_nanos := py_getitem d "valid_from_unix_nanos" in
  let* valid_to_unix_nanos := py_getitem d "valid_to_unix_nanos" in
  let* is_symmetric := py_getitem d "is_symmetric" in
  let* tombstoned := py_getitem d "tombstoned" in
  let* properties := py_get d "properties" PNone in
  let* version := py_get d "version" (PInt 0) in
  let* superseded_by := py_get d "superseded_by" PNone in
  let* supersedes := py_get d "supersedes" PNone in
  let* chain_root := py_get d "chain_root" (PStr "") in
  let* extractor_id := py_get d "extractor_id" (PInt 0) in
  let* extracted_at_unix_nanos := py_get d "extracted_at_unix_nanos" (PInt 0) in
  let* tombstoned_at_unix_nanos := py_get d "tombstoned_at_unix_nanos" (PInt 0) in
  let* from_name := py_get d "from_name" PNone in
  let* to_name := py_get d "to_name" PNone in
  Ok (mk_RelationDetail relation_id relation_type from_entity to_entity confidence
    valid_from_unix_nanos valid_to_unix_nanos is_symmetric tombstoned properties version
    superseded_by supersedes chain_root extractor_id extracted_at_unix_nanos
    tombstoned_at_unix_nanos from_name to_name).

Definition RelationDetail_typed (self : RelationDetail) : bool :=
  conforms JString (RelationDetail_relation_id self)
  && conforms JString (RelationDetail_relation_type self)
  && conforms JString (RelationDetail_from_entity self)
  && conforms JString (RelationDetail_to_entity self)
  && conforms JFloat (RelationDetail_confidence self)
  && conforms JInt (RelationDetail_valid_from_unix_nanos self)
  && conforms JInt (RelationDetail_valid_to_unix_nanos self)
  && conforms JBool (RelationDetail_is_symmetric self)
  && conforms JBool (RelationDetail_tombstoned self)
  && conforms (JOpt JString) (RelationDetail_properties self)
  && conforms JInt (RelationDetail_version self)
  && conforms (JOpt JString) (RelationDetail_superseded_by self)
  && conforms (JOpt JString) (RelationDetail_supersedes self)
  && conforms JString (RelationDetail_chain_root self)
  && conforms JInt (RelationDetail_extractor_id self)
  && conforms JInt (RelationDetail_extracted_at_unix_nanos self)
  && conforms JInt (RelationDetail_tombstoned_at_unix_nanos self)
  && conforms (JOpt JString) (RelationDetail_from_name self)
  && conforms (JOpt JString) (RelationDetail_to_name self).

(** ** [ListRelationsResult] *)

Record ListRelationsResult : Type := mk_ListRelationsResult {
  ListRelationsResult_relations : list RelationDetail; ListRelationsResult_count : pyval;
  ListRelationsResult_next_cursor : pyval
}.

Definition ListRelationsResult_from_dict (d : pyval) : pyresult ListRelationsResult :=
  let* relations := each_in RelationDetail_from_dict d "relations" in
  let* count := py_getitem d "count" in
  let* next_cursor := py_get d "next_cursor" PNone in
  Ok (mk_ListRelationsResult relations count next_cursor).

Definition ListRelationsResult_typed (self : ListRelationsResult) : bool :=
  forallb RelationDetail_typed (ListRelationsResult_relations self)
  && conforms JInt (ListRelationsResult_count self)
  && conforms (JOpt JString) (ListRelationsResult_next_cursor self).

(** ** [StatementValue] *)

Record HttpStatementValue : Type := mk_StatementValue {
  StatementValue_type : pyval; StatementValue_value : pyval
}.

Definition StatementValue_from_dict (d : pyval) : pyresult HttpStatementValue :=
  let* type_ := py_getitem d "type" in
  let* value := py_getitem d "value" in
  Ok (mk_StatementValue type_ value).

Definition StatementValue_typed (self : HttpStatementValue) : bool :=
  conforms JString (StatementValue_type self) && conforms JAny (StatementValue_value self).

(** ** [StatementObject] *)

Record HttpStatementObject : Type := mk_StatementObject {
  StatementObject_kind : pyval; StatementObject_id : pyval;
  StatementObject_value : option HttpStatementValue
}.

Definition StatementObject_from_dict (d : pyval) : pyresult HttpStatementObject :=
  let* value := py_get d "value" PNone in
  let* kind := py_getitem d "kind" in
  let* id := py_get d "id" PNone in
  let* value_ := unless_none StatementValue_from_dict value in
  Ok (mk_StatementObject kind id value_).

Definition StatementObject_typed (self : HttpStatementObject) : bool :=
  conforms JString (StatementObject_kind self)
  && conforms (JOpt JString) (StatementObject_id self)
  && if_some StatementValue_typed (StatementObject_value self).

(** ** [StatementDetail] *)

Record StatementDetail : Type := mk_StatementDetail {
  StatementDetail_statement_id : pyval; StatementDetail_kind : pyval;
  StatementDetail_subject : pyval; StatementDetail_predicate : pyval;
  StatementDetail_object : HttpStatementObject; StatementDetail_confidence : pyval;
  StatementDetail_event_at_unix_nanos : pyval; StatementDetail_valid_from_unix_nanos : pyval;
  StatementDetail_valid_to_unix_nanos : pyval; StatementDetail_tombstoned : pyval;
  StatementDetail_version : pyval; StatementDetail_superseded_by : pyval;
  StatementDetail_supersedes : pyval; StatementDetail_chain_root : pyval;
  StatementDetail_extractor_id : pyval; StatementDetail_extracted_at_unix_nanos : pyval;
  StatementDetail_schema_version : pyval; StatementDetail_tombstoned_at_unix_nanos : pyval;
  StatementDetail_tombstone_reason : pyval; StatementDetail_subject_name : pyval;
  StatementDetail_object_name : pyval
}.

Definition StatementDetail_from_dict (d : pyval) : pyresult StatementDetail :=
  let* statement_id := py_getitem d "statement_id" in
  let* kind := py_getitem d "kind" in
  let* subject := py_getitem d "subject" in
  let* predicate := py_getitem d "predicate" in
  let* object_ := nested_in StatementObject_from_dict d "object" in
  let* confidence := py_getitem d "confidence" in
  let* event_at_unix_nanos := py_getitem d "event_at_unix_nanos" in
  let* valid_from_unix_nanos := py_getitem d "valid_from_unix_nanos" in
  let* valid_to_unix_nanos := py_getitem d "valid_to_unix_nanos" in
  let* tombstoned := py_getitem d "tombstoned" in
  let* version := py_get d "version" (PInt 0) in
  let* superseded_by := py_get d "superseded_by" PNone in
  let* supersedes := py_get d "supersedes" PNone in
  let* chain_root := py_get d "chain_root" (PStr "") in
  let* extractor_id := py_get d "extractor_id" (PInt 0) in
  let* extracted_at_unix_nanos := py_get d "extracted_at_unix_nanos" (PInt 0) in
  let* schema_version := py_get d "schema_version" (PInt 0) in
  let* tombstoned_at_unix_nanos := py_get d "tombstoned_at_unix_nanos" (PInt 0) in
  let* tombstone_reason := py_get d "tombstone_reason" (PInt 0) in
  let* subject_name := py_get d "subject_name" PNone in
  let* object_name := py_get d "object_name" PNone in
  Ok (mk_StatementDetail statement_id kind subject predicate object_ confidence
    event_at_unix_nanos valid_from_unix_nanos valid_to_unix_nanos tombstoned version superseded_by
    supersedes chain_root extractor_id extracted_at_unix_nanos schema_version
    tombstoned_at_unix_nanos tombstone_reason subject_name object_name).

Definition StatementDetail_typed (self : StatementDetail) : bool :=
  conforms JString (StatementDetail_statement_id self)
  && conforms JString (StatementDetail_kind self)
  && conforms JString (StatementDetail_subject self)
  && conforms JString (StatementDetail_predicate self)
  && StatementObject_typed (StatementDetail_object self)
  && conforms JFloat (StatementDetail_confidence self)
  && conforms JInt (StatementDetail_event_at_unix_nanos self)
  && conforms JInt (StatementDetail_valid_from_unix_nanos self)
  && conforms JInt (StatementDetail_valid_to_unix_nanos self)
  && conforms JBool (StatementDetail_tombstoned self)
  && conforms JInt (StatementDetail_version self)
  && conforms (JOpt JString) (StatementDetail_superseded_by self)
  && conforms (JOpt JString) (StatementDetail_supersedes self)
  && conforms JString (StatementDetail_chain_root self)
  && conforms JInt (StatementDetail_extractor_id self)
  && conforms JInt (StatementDetail_extracted_at_unix_nanos self)
  && conforms JInt (StatementDetail_schema_version self)
  && conforms JInt (StatementDetail_tombstoned_at_unix_nanos self)
  && conforms JInt (StatementDetail_tombstone_reason self)
  && conforms (JOpt JString) (StatementDetail_subject_name self)
  && conforms (JOpt JString) (StatementDetail_object_name self).

(** ** [ListStatementsResult] *)

Record ListStatementsResult : Type := mk_ListStatementsResult {
  ListStatementsResult_statements : list StatementDetail; ListStatementsResult_count : pyval;
  ListStatementsResult_next_cursor : pyval
}.

Definition ListStatementsResult_from_dict (d : pyval) : pyresult ListStatementsResult :=
  let* statements := each_in StatementDetail_from_dict d "statements" in
  let* count := py_getitem d "count" in
  let* next_cursor := py_get d "next_cursor" PNone in
  Ok (mk_ListStatementsResult statements count next_cursor).

Definition ListStatementsResult_typed (self : ListStatementsResult) : bool :=
  forallb StatementDetail_typed (ListStatementsResult_statements self)
  && conforms JInt (ListStatementsResult_count self)
  && conforms (JOpt JString) (ListStatementsResult_next_cursor self).

(** ** [GraphNode] *)

Record HttpGraphNode : Type := mk_GraphNode {
  GraphNode_id : pyval; GraphNode_kind : pyval; GraphNode_label : pyval;
  GraphNode_type_qname : pyval
}.

Definition GraphNode_from_dict (d : pyval) : pyresult HttpGraphNode :=
  let* id := py_getitem d "id" in
  let* kind := py_getitem d "kind" in
  let* label := py_getitem d "label" in
  let* type_qname := py_getitem d "type_qname" in
  Ok (mk_GraphNode id kind label type_qname).

Definition GraphNode_typed (self : HttpGraphNode) : bool :=
  conforms JString (GraphNode_id self) && conforms JString (GraphNode_kind self)
  && conforms JString (GraphNode_label self) && conforms JString (GraphNode_type_qname self).

(** ** [GraphEdge] *)

Record HttpGraphEdge : Type := mk_GraphEdge {
  GraphEdge_from_id : pyval; GraphEdge_to_id : pyval; GraphEdge_kind : pyval;
  GraphEdge_label : pyval
}.

Definition GraphEdge_from_dict (d : pyval) : pyresult HttpGraphEdge :=
  let* from_id := py_getitem d "from_id" in
  let* to_id := py_getitem d "to_id" in
  let* kind := py_getitem d "kind" in
  let* label := py_getitem d "label" in
  Ok (mk_GraphEdge from_id to_id kind label).

Definition GraphEdge_typed (self : HttpGraphEdge) : bool :=
  conforms JString (GraphEdge_from_id self) && conforms JString (GraphEdge_to_id self)
  && conforms JString (GraphEdge_kind self) && conforms JString (GraphEdge_label self).

(** ** [GraphPage] *)

Record GraphPage : Type := mk_GraphPage {
  GraphPage_nodes : list HttpGraphNode; GraphPage_edges : list HttpGraphEdge;
  GraphPage_next_cursor : pyval
}.

Definition GraphPage_from_dict (d : pyval) : pyresult GraphPage :=
  let* nodes := each_in GraphNode_from_dict d "nodes" in
  let* edges := each_in GraphEdge_from_dict d "edges" in
  let* next_cursor := py_get d "next_cursor" PNone in
  Ok (mk_GraphPage nodes edges next_cursor).

Definition GraphPage_typed (self : GraphPage) : bool :=
  forallb GraphNode_typed (GraphPage_nodes self) && forallb GraphEdge_typed (GraphPage_edges self)
  && conforms (JOpt JString) (GraphPage_next_cursor self).

(** ** [MemoryListItem] *)

Record HttpMemoryListItem : Type := mk_MemoryListItem {
  MemoryListItem_memory_id : pyval; MemoryListItem_text : pyval; MemoryListItem_kind : pyval;
  MemoryListItem_state : pyval; MemoryListItem_created_at_unix_nanos : pyval;
  MemoryListItem_occurred_at_unix_nanos : pyval;
  MemoryListItem_last_accessed_at_unix_nanos : pyval; MemoryListItem_salience : pyval;
  MemoryListItem_access_count : pyval; MemoryListItem_statement_count : pyval;
  MemoryListItem_entity_count : pyval; MemoryListItem_relation_count : pyval
}.

Definition MemoryListItem_from_dict (d : pyval) : pyresult HttpMemoryListItem :=
  let* memory_id := py_getitem d "memory_id" in
  let* text := py_getitem d "text" in
  let* kind := py_getitem d "kind" in
  let* state := py_getitem d "state" in
  let* created_at_unix_nanos := py_getitem d "created_at_unix_nanos" in
  let* occurred_at_unix_nanos := py_getitem d "occurred_at_unix_nanos" in
  let* last_accessed_at_unix_nanos := py_getitem d "last_accessed_at_unix_nanos" in
  let* salience := py_getitem d "salience" in
  let* access_count := py_getitem d "access_count" in
  let* statement_count := py_getitem d "statement_count" in
  let* entity_count := py_getitem d "entity_count" in
  let* relation_count := py_getitem d "relation_count" in
  Ok (mk_MemoryListItem memory_id text kind state created_at_unix_nanos occurred_at_unix_nanos
    last_accessed_at_unix_nanos salience access_count statement_count entity_count relation_count).

Definition MemoryListItem_typed (self : HttpMemoryListItem) : bool :=
  conforms JString (MemoryListItem_memory_id self) && conforms JString (MemoryListItem_text self)
  && conforms JInt (MemoryListItem_kind self) && conforms JInt (MemoryListItem_state self)
  && conforms JInt (MemoryListItem_created_at_unix_nanos self)
  && conforms JInt (MemoryListItem_occurred_at_unix_nanos self)
  && conforms JInt (MemoryListItem_last_accessed_at_unix_nanos self)
  && conforms JFloat (MemoryListItem_salience self)
  && conforms JInt (MemoryListItem_access_count self)
  && conforms JInt (MemoryListItem_statement_count self)
  && conforms JInt (MemoryListItem_entity_count self)
  && conforms JInt (MemoryListItem_relation_count self).

(** ** [MemoryListPage] *)

Record MemoryListPage : Type := mk_MemoryListPage {
  MemoryListPage_items : list HttpMemoryListItem; MemoryListPage_next_cursor : pyval
}.

Definition MemoryListPage_from_dict (d : pyval) : pyresult MemoryListPage :=
  let* items := each_in MemoryListItem_from_dict d "items" in
  let* next_cursor := py_get d "next_cursor" PNone in
  Ok (mk_MemoryListPage items next_cursor).

Definition MemoryListPage_typed (self : MemoryListPage) : bool :=
  forallb MemoryListItem_typed (MemoryListPage_items self)
  && conforms (JOpt JString) (MemoryListPage_next_cursor self).

(** ** [StageRecord] *)

Record StageRecord : Type := mk_StageRecord {
  StageRecord_memory_id : pyval; StageRecord_kind : pyval; StageRecord_salience : pyval;
  StageRecord_created_at_unix_nanos : pyval; StageRecord_occurred_at_unix_nanos : pyval;
  StageRecord_vector_dim : pyval; StageRecord_text_len : pyval; StageRecord_lsn : pyval
}.

Definition StageRecord_from_dict (d : pyval) : pyresult StageRecord :=
  let* memory_id := py_getitem d "memory_id" in
  let* kind := py_getitem d "kind" in
  let* salience := py_getitem d "salience" in
  let* created_at_unix_nanos := py_getitem d "created_at_unix_nanos" in
  let* occurred_at_unix_nanos := py_getitem d "occurred_at_unix_nanos" in
  let* vector_dim := py_getitem d "vector_dim" in
  let* text_len := py_getitem d "text_len" in
  let* lsn := py_getitem d "lsn" in
  Ok (mk_StageRecord memory_id kind salience created_at_unix_nanos occurred_at_unix_nanos
    vector_dim text_len lsn).

Definition StageRecord_typed (self : StageRecord) : bool :=
  conforms JString (StageRecord_memory_id self) && conforms JInt (StageRecord_kind self)
  && conforms JFloat (StageRecord_salience self)
  && conforms JInt (StageRecord_created_at_unix_nanos self)
  && conforms JInt (StageRecord_occurred_at_unix_nanos self)
  && conforms JInt (StageRecord_vector_dim self) && conforms JInt (StageRecord_text_len self)
  && conforms JInt (StageRecord_lsn self).

(** ** [StageKeywordField] *)

Record StageKeywordField : Type := mk_StageKeywordField {
  StageKeywordField_field : pyval; StageKeywordField_terms : pyval
}.

Definition StageKeywordField_from_dict (d : pyval) : pyresult StageKeywordField :=
  let* field := py_getitem d "field" in
  let* terms := list_in d "terms" in
  Ok (mk_StageKeywordField field terms).

Definition StageKeywordField_typed (self : StageKeywordField) : bool :=
  conforms JString (StageKeywordField_field self)
  && conforms (JList JString) (StageKeywordField_terms self).

(** ** [StageGraphNode] *)

Record StageGraphNode : Type := mk_StageGraphNode {
  StageGraphNode_id : pyval; StageGraphNode_name : pyval; StageGraphNode_kind : pyval;
  StageGraphNode_type_qname : pyval
}.

Definition StageGraphNode_from_dict (d : pyval) : pyresult StageGraphNode :=
  let* id := py_getitem d "id" in
  let* name := py_getitem d "name" in
  let* kind := py_getitem d "kind" in
  let* type_qname := py_getitem d "type_qname" in
  Ok (mk_StageGraphNode id name kind type_qname).

Definition StageGraphNode_typed (self : StageGraphNode) : bool :=
  conforms JString (StageGraphNode_id self) && conforms JString (StageGraphNode_name self)
  && conforms JString (StageGraphNode_kind self)
  && conforms JString (StageGraphNode_type_qname self).

(** ** [StageGraphEdge] *)

Record StageGraphEdge : Type := mk_StageGraphEdge {
  StageGraphEdge_source : pyval; StageGraphEdge_target : pyval; StageGraphEdge_predicate : pyval;
  StageGraphEdge_kind : pyval; StageGraphEdge_confidence : pyval;
  StageGraphEdge_event_at_unix_nanos : pyval
}.

Definition StageGraphEdge_from_dict (d : pyval) : pyresult StageGraphEdge :=
  let* source := py_getitem d "source" in
  let* target := py_getitem d "target" in
  let* predicate := py_getitem d "predicate" in
  let* kind := py_getitem d "kind" in
  let* confidence := py_getitem d "confidence" in
  let* event_at_unix_nanos := py_get d "event_at_unix_nanos" PNone in
  Ok (mk_StageGraphEdge source target predicate kind confidence event_at_unix_nanos).

Definition StageGraphEdge_typed (self : StageGraphEdge) : bool :=
  conforms JString (StageGraphEdge_source self) && conforms JString (StageGraphEdge_target self)
  && conforms JString (StageGraphEdge_predicate self)
  && conforms JString (StageGraphEdge_kind self)
  && conforms JFloat (StageGraphEdge_confidence self)
  && conforms (JOpt JInt) (StageGraphEdge_event_at_unix_nanos self).

(** ** [StageGraph] *)

Record StageGraph : Type := mk_StageGraph {
  StageGraph_nodes : list StageGraphNode; StageGraph_edges : list StageGraphEdge
}.

Definition StageGraph_from_dict (d : pyval) : pyresult StageGraph :=
  let* nodes := each_in StageGraphNode_from_dict d "nodes" in
  let* edges := each_in StageGraphEdge_from_dict d "edges" in
  Ok (mk_StageGraph nodes edges).

Definition StageGraph_typed (self : StageGraph) : bool :=
  forallb StageGraphNode_typed (StageGraph_nodes self)
  && forallb StageGraphEdge_typed (StageGraph_edges self).

(** ** [StageArtifact] *)

Record StageArtifact : Type := mk_StageArtifact {
  StageArtifact_vector : pyval; StageArtifact_record : option StageRecord;
  StageArtifact_hype_questions : pyval; StageArtifact_keyword_fields : list StageKeywordField;
  StageArtifact_graph : option StageGraph
}.

Definition StageArtifact_from_dict (d : pyval) : pyresult StageArtifact :=
  let* record := py_get d "record" PNone in
  let* graph := py_get d "graph" PNone in
  let* vector := list_in d "vector" in
  let* record_ := unless_none StageRecord_from_dict record in
  let* hype_questions := list_in d "hype_questions" in
  let* keyword_fields := each_in StageKeywordField_from_dict d "keyword_fields" in
  let* graph_ := unless_none StageGraph_from_dict graph in
  Ok (mk_StageArtifact vector record_ hype_questions keyword_fields graph_).

Definition StageArtifact_typed (self : StageArtifact) : bool :=
  conforms (JList JFloat) (StageArtifact_vector self)
  && if_some StageRecord_typed (StageArtifact_record self)
  && conforms (JList JString) (StageArtifact_hype_questions self)
  && forallb StageKeywordField_typed (StageArtifact_keyword_fields self)
  && if_some StageGraph_typed (StageArtifact_graph self).

(** ** [MemoryEdge] *)

Record HttpMemoryEdge : Type := mk_MemoryEdge {
  MemoryEdge_kind : pyval; MemoryEdge_direction : pyval; MemoryEdge_peer : pyval;
  MemoryEdge_weight : pyval; MemoryEdge_created_at_unix_nanos : pyval;
  MemoryEdge_annotation : pyval
}.

Definition MemoryEdge_from_dict (d : pyval) : pyresult HttpMemoryEdge :=
  let* kind := py_getitem d "kind" in
  let* direction := py_getitem d "direction" in
  let* peer := py_getitem d "peer" in
  let* weight := py_getitem d "weight" in
  let* created_at_unix_nanos := py_getitem d "created_at_unix_nanos" in
  let* annotation := py_get d "annotation" PNone in
  Ok (mk_MemoryEdge kind direction peer weight created_at_unix_nanos annotation).

Definition MemoryEdge_typed (self : HttpMemoryEdge) : bool :=
  conforms JString (MemoryEdge_kind self) && conforms JString (MemoryEdge_direction self)
  && conforms JString (MemoryEdge_peer self) && conforms JFloat (MemoryEdge_weight self)
  && conforms JInt (MemoryEdge_created_at_unix_nanos self)
  && conforms (JOpt JString) (MemoryEdge_annotation self).

(** ** [MemoryInspect] *)

Record MemoryInspect : Type := mk_MemoryInspect {
  MemoryInspect_memory_id : pyval; MemoryInspect_text : pyval;
  MemoryInspect_artifact : StageArtifact; MemoryInspect_edges : list HttpMemoryEdge
}.

Definition MemoryInspect_from_dict (d : pyval) : pyresult MemoryInspect :=
  let* memory_id := py_getitem d "memory_id" in
  let* text := py_getitem d "text" in
  let* artifact := nested_in StageArtifact_from_dict d "artifact" in
  let* edges := each_in MemoryEdge_from_dict d "edges" in
  Ok (mk_MemoryInspect memory_id text artifact edges).

Definition MemoryInspect_typed (self : MemoryInspect) : bool :=
  conforms JString (MemoryInspect_memory_id self) && conforms JString (MemoryInspect_text self)
  && StageArtifact_typed (MemoryInspect_artifact self)
  && forallb MemoryEdge_typed (MemoryInspect_edges self).

(** ** [SchemaError] *)

Record SchemaError : Type := mk_SchemaError {
  SchemaError_code : pyval; SchemaError_message : pyval; SchemaError_line : pyval;
  SchemaError_column : pyval; SchemaError_length : pyval; SchemaError_severity : pyval
}.

Definition SchemaError_from_dict (d : pyval) : pyresult SchemaError :=
  let* code := py_getitem d "code" in
  let* message := py_getitem d "message" in
  let* line := py_getitem d "line" in
  let* column := py_getitem d "column" in
  let* length := py_getitem d "length" in
  let* severity := py_getitem d "severity" in
  Ok (mk_SchemaError code message line column length severity).

Definition SchemaError_typed (self : SchemaError) : bool :=
  conforms JString (SchemaError_code self) && conforms JString (SchemaError_message self)
  && conforms JInt (SchemaError_line self) && conforms JInt (SchemaError_column self)
  && conforms JInt (SchemaError_length self) && conforms JInt (SchemaError_severity self).

(** ** [Schema] *)

Record Schema : Type := mk_Schema {
  Schema_namespace : pyval; Schema_schema_version : pyval; Schema_schema_document : pyval;
  Schema_uploaded_at_unix_nanos : pyval; Schema_validator_version : pyval
}.

Definition Schema_from_dict (d : pyval) : pyresult Schema :=
  let* namespace := py_getitem d "namespace" in
  let* schema_version := py_getitem d "schema_version" in
  let* schema_document := py_getitem d "schema_document" in
  let* uploaded_at_unix_nanos := py_getitem d "uploaded_at_unix_nanos" in
  let* validator_version := py_getitem d "validator_version" in
  Ok (mk_Schema namespace schema_version schema_document uploaded_at_unix_nanos validator_version).

Definition Schema_typed (self : Schema) : bool :=
  conforms JString (Schema_namespace self) && conforms JInt (Schema_schema_version self)
  && conforms JString (Schema_schema_document self)
  && conforms JInt (Schema_uploaded_at_unix_nanos self)
  && conforms JInt (Schema_validator_version self).

(** ** [SchemaUpload] *)

Record SchemaUpload : Type := mk_SchemaUpload {
  SchemaUpload_namespace : pyval; SchemaUpload_schema_version : pyval;
  SchemaUpload_backward_compatible : pyval; SchemaUpload_validation_errors : list SchemaError
}.

Definition SchemaUpload_from_dict (d : pyval) : pyresult SchemaUpload :=
  let* namespace := py_getitem d "namespace" in
  let* schema_version := py_getitem d "schema_version" in
  let* backward_compatible := py_getitem d "backward_compatible" in
  let* validation_errors := each_in SchemaError_from_dict d "validation_errors" in
  Ok (mk_SchemaUpload namespace schema_version backward_compatible validation_errors).

Definition SchemaUpload_typed (self : SchemaUpload) : bool :=
  conforms JString (SchemaUpload_namespace self)
  && conforms JInt (SchemaUpload_schema_version self)
  && conforms JBool (SchemaUpload_backward_compatible self)
  && forallb SchemaError_typed (SchemaUpload_validation_errors self).

(** ** [SchemaValidate] *)

Record SchemaValidate : Type := mk_SchemaValidate {
  SchemaValidate_namespace : pyval; SchemaValidate_would_be_version : pyval;
  SchemaValidate_validation_errors : list SchemaError
}.

Definition SchemaValidate_from_dict (d : pyval) : pyresult SchemaValidate :=
  let* namespace := py_getitem d "namespace" in
  let* would_be_version := py_getitem d "would_be_version" in
  let* validation_errors := each_in SchemaError_from_dict d "validation_errors" in
  Ok (mk_SchemaValidate namespace would_be_version validation_errors).

Definition SchemaValidate_typed (self : SchemaValidate) : bool :=
  conforms JString (SchemaValidate_namespace self)
  && conforms JInt (SchemaValidate_would_be_version self)
  && forallb SchemaError_typed (SchemaValidate_validation_errors self).

(** ** [SchemaReplace] *)

Record SchemaReplace : Type := mk_SchemaReplace {
  SchemaReplace_namespace : pyval; SchemaReplace_schema_version : pyval;
  SchemaReplace_dropped_count : pyval; SchemaReplace_validation_errors : list SchemaError
}.

Definition SchemaReplace_from_dict (d : pyval) : pyresult SchemaReplace :=
  let* namespace := py_getitem d "namespace" in
  let* schema_version := py_getitem d "schema_version" in
  let* dropped_count := py_getitem d "dropped_count" in
  let* validation_errors := each_in SchemaError_from_dict d "validation_errors" in
  Ok (mk_SchemaReplace namespace schema_version dropped_count validation_errors).

Definition SchemaReplace_typed (self : SchemaReplace) : bool :=
  conforms JString (SchemaReplace_namespace self)
  && conforms JInt (SchemaReplace_schema_version self)
  && conforms JInt (SchemaReplace_dropped_count self)
  && forallb SchemaError_typed (SchemaReplace_validation_errors self).

(** ** [SpaceProvision] *)

Record SpaceProvision : Type := mk_SpaceProvision {
  SpaceProvision_space : pyval; SpaceProvision_created : pyval;
  SpaceProvision_created_at_unix_nanos : pyval; SpaceProvision_last_active_unix_nanos : pyval;
  SpaceProvision_memory_count : pyval; SpaceProvision_session_count : pyval
}.

Definition SpaceProvision_from_dict (d : pyval) : pyresult SpaceProvision :=
  let* space := py_getitem d "space" in
  let* created := py_getitem d "created" in
  let* created_at_unix_nanos := py_getitem d "created_at_unix_nanos" in
  let* last_active_unix_nanos := py_getitem d "last_active_unix_nanos" in
  let* memory_count := py_getitem d "memory_count" in
  let* session_count := py_getitem d "session_count" in
  Ok (mk_SpaceProvision space created created_at_unix_nanos last_active_unix_nanos memory_count
    session_count).

Definition SpaceProvision_typed (self : SpaceProvision) : bool :=
  conforms JString (SpaceProvision_space self) && conforms JBool (SpaceProvision_created self)
  && conforms JInt (SpaceProvision_created_at_unix_nanos self)
  && conforms JInt (SpaceProvision_last_active_unix_nanos self)
  && conforms JInt (SpaceProvision_memory_count self)
  && conforms JInt (SpaceProvision_session_count self).

(** ** [SpaceSummary] *)

Record SpaceSummary : Type := mk_SpaceSummary {
  SpaceSummary_space : pyval; SpaceSummary_created_at_unix_nanos : pyval;
  SpaceSummary_last_active_unix_nanos : pyval; SpaceSummary_memory_count : pyval;
  SpaceSummary_session_count : pyval
}.

Definition SpaceSummary_from_dict (d : pyval) : pyresult SpaceSummary :=
  let* space := py_getitem d "space" in
  let* created_at_unix_nanos := py_getitem d "created_at_unix_nanos" in
  let* last_active_unix_nanos := py_getitem d "last_active_unix_nanos" in
  let* memory_count := py_getitem d "memory_count" in
  let* session_count := py_getitem d "session_count" in
  Ok (mk_SpaceSummary space created_at_unix_nanos last_active_unix_nanos memory_count
    session_count).

Definition SpaceSummary_typed (self : SpaceSummary) : bool :=
  conforms JString (SpaceSummary_space self)
  && conforms JInt (SpaceSummary_created_at_unix_nanos self)
  && conforms JInt (SpaceSummary_last_active_unix_nanos self)
  && conforms JInt (SpaceSummary_memory_count self)
  && conforms JInt (SpaceSummary_session_count self).

(** ** [ListSpacesResult] *)

Record ListSpacesResult : Type := mk_ListSpacesResult {
  ListSpacesResult_spaces : list SpaceSummary; ListSpacesResult_cross_shard_complete : pyval
}.

Definition ListSpacesResult_from_dict (d : pyval) : pyresult ListSpacesResult :=
  let* spaces := each_in SpaceSummary_from_dict d "spaces" in
  let* cross_shard_complete := py_getitem d "cross_shard_complete" in
  Ok (mk_ListSpacesResult spaces cross_shard_complete).

Definition ListSpacesResult_typed (self : ListSpacesResult) : bool :=
  forallb SpaceSummary_typed (ListSpacesResult_spaces self)
  && conforms JBool (ListSpacesResult_cross_shard_complete self).

(** ** [SpaceErased] *)

Record SpaceErased : Type := mk_SpaceErased {
  SpaceErased_space : pyval; SpaceErased_existed : pyval; SpaceErased_memories_forgotten : pyval
}.

Definition SpaceErased_from_dict (d : pyval) : pyresult SpaceErased :=
  let* space := py_getitem d "space" in
  let* existed := py_getitem d "existed" in
  let* memories_forgotten := py_getitem d "memories_forgotten" in
  Ok (mk_SpaceErased space existed memories_forgotten).

Definition SpaceErased_typed (self : SpaceErased) : bool :=
  conforms JString (SpaceErased_space self) && conforms JBool (SpaceErased_existed self)
  && conforms JInt (SpaceErased_memories_forgotten self).

(** ** [SessionProvision] *)

Record SessionProvision : Type := mk_SessionProvision {
  SessionProvision_space_id : pyval; SessionProvision_session_id : pyval;
  SessionProvision_created : pyval; SessionProvision_created_at_unix_nanos : pyval;
  SessionProvision_last_active_unix_nanos : pyval; SessionProvision_memory_count : pyval
}.

Definition SessionProvision_from_dict (d : pyval) : pyresult SessionProvision :=
  let* space_id := py_getitem d "space_id" in
  let* session_id := py_getitem d "session_id" in
  let* created := py_getitem d "created" in
  let* created_at_unix_nanos := py_getitem d "created_at_unix_nanos" in
  let* last_active_unix_nanos := py_getitem d "last_active_unix_nanos" in
  let* memory_count := py_getitem d "memory_count" in
  Ok (mk_SessionProvision space_id session_id created created_at_unix_nanos last_active_unix_nanos
    memory_count).

Definition SessionProvision_typed (self : SessionProvision) : bool :=
  conforms JString (SessionProvision_space_id self)
  && conforms JInt (SessionProvision_session_id self)
  && conforms JBool (SessionProvision_created self)
  && conforms JInt (SessionProvision_created_at_unix_nanos self)
  && conforms JInt (SessionProvision_last_active_unix_nanos self)
  && conforms JInt (SessionProvision_memory_count self).

(** ** [SessionSummary] *)

Record SessionSummary : Type := mk_SessionSummary {
  SessionSummary_session_id : pyval; SessionSummary_created_at_unix_nanos : pyval;
  SessionSummary_last_active_unix_nanos : pyval; SessionSummary_title : pyval;
  SessionSummary_memory_count : pyval
}.

Definition SessionSummary_from_dict (d : pyval) : pyresult SessionSummary :=
  let* session_id := py_getitem d "session_id" in
  let* created_at_unix_nanos := py_getitem d "created_at_unix_nanos" in
  let* last_active_unix_nanos := py_getitem d "last_active_unix_nanos" in
  let* title := py_get d "title" PNone in
  let* memory_count := py_getitem d "memory_count" in
  Ok (mk_SessionSummary session_id created_at_unix_nanos last_active_unix_nanos title memory_count).

Definition SessionSummary_typed (self : SessionSummary) : bool :=
  conforms JInt (SessionSummary_session_id self)
  && conforms JInt (SessionSummary_created_at_unix_nanos self)
  && conforms JInt (SessionSummary_last_active_unix_nanos self)
  && conforms (JOpt JString) (SessionSummary_title self)
  && conforms JInt (SessionSummary_memory_count self).

(** ** [ListSessionsResult] *)

Record ListSessionsResult : Type := mk_ListSessionsResult {
  ListSessionsResult_space_id : pyval; ListSessionsResult_sessions : list SessionSummary
}.

Definition ListSessionsResult_from_dict (d : pyval) : pyresult ListSessionsResult :=
  let* space_id := py_getitem d "space_id" in
  let* sessions := each_in SessionSummary_from_dict d "sessions" in
  Ok (mk_ListSessionsResult space_id sessions).

Definition ListSessionsResult_typed (self : ListSessionsResult) : bool :=
  conforms JString (ListSessionsResult_space_id self)
  && forallb SessionSummary_typed (ListSessionsResult_sessions self).

(** ** [SessionErased] *)

Record SessionErased : Type := mk_SessionErased {
  SessionErased_space_id : pyval; SessionErased_session_id : pyval; SessionErased_existed : pyval;
  SessionErased_memories_forgotten : pyval
}.

Definition SessionErased_from_dict (d : pyval) : pyresult SessionErased :=
  let* space_id := py_getitem d "space_id" in
  let* session_id := py_getitem d "session_id" in
  let* existed := py_getitem d "existed" in
  let* memories_forgotten := py_getitem d "memories_forgotten" in
  Ok (mk_SessionErased space_id session_id existed memories_forgotten).

Definition SessionErased_typed (self : SessionErased) : bool :=
  conforms JString (SessionErased_space_id self) && conforms JInt (SessionErased_session_id self)
  && conforms JBool (SessionErased_existed self)
  && conforms JInt (SessionErased_memories_forgotten self).

(** ** [MergeEntitiesResult] *)

Record MergeEntitiesResult : Type := mk_MergeEntitiesResult {
  MergeEntitiesResult_audit_id : pyval; MergeEntitiesResult_grace_period_seconds : pyval
}.

Definition MergeEntitiesResult_from_dict (d : pyval) : pyresult MergeEntitiesResult :=
  let* audit_id := py_getitem d "audit_id" in
  let* grace_period_seconds := py_getitem d "grace_period_seconds" in
  Ok (mk_MergeEntitiesResult audit_id grace_period_seconds).

Definition MergeEntitiesResult_typed (self : MergeEntitiesResult) : bool :=
  conforms JString (MergeEntitiesResult_audit_id self)
  && conforms JInt (MergeEntitiesResult_grace_period_seconds self).

(** ** [UnmergeEntityResult] *)

Record UnmergeEntityResult : Type := mk_UnmergeEntityResult {
  UnmergeEntityResult_restored_entity_id : pyval
}.

Definition UnmergeEntityResult_from_dict (d : pyval) : pyresult UnmergeEntityResult :=
  let* restored_entity_id := py_getitem d "restored_entity_id" in
  Ok (mk_UnmergeEntityResult restored_entity_id).

Definition UnmergeEntityResult_typed (self : UnmergeEntityResult) : bool :=
  conforms JString (UnmergeEntityResult_restored_entity_id self).

(** ** [TombstoneResult] *)

Record TombstoneResult : Type := mk_TombstoneResult {
  TombstoneResult_tombstoned_at_unix_nanos : pyval
}.

Definition TombstoneResult_from_dict (d : pyval) : pyresult TombstoneResult :=
  let* tombstoned_at_unix_nanos := py_getitem d "tombstoned_at_unix_nanos" in
  Ok (mk_TombstoneResult tombstoned_at_unix_nanos).

Definition TombstoneResult_typed (self : TombstoneResult) : bool :=
  conforms JInt (TombstoneResult_tombstoned_at_unix_nanos self).

(** ** [CreateStatementResult] *)

Record CreateStatementResult : Type := mk_CreateStatementResult {
  CreateStatementResult_statement_id : pyval; CreateStatementResult_auto_superseded : pyval;
  CreateStatementResult_chain_root : pyval
}.

Definition CreateStatementResult_from_dict (d : pyval) : pyresult CreateStatementResult :=
  let* statement_id := py_getitem d "statement_id" in
  let* auto_superseded := py_get d "auto_superseded" PNone in
  let* chain_root := py_getitem d "chain_root" in
  Ok (mk_CreateStatementResult statement_id auto_superseded chain_root).

Definition CreateStatementResult_typed (self : CreateStatementResult) : bool :=
  conforms JString (CreateStatementResult_statement_id self)
  && conforms (JOpt JString) (CreateStatementResult_auto_superseded self)
  && conforms JString (CreateStatementResult_chain_root self).

(** ** [SupersedeStatementResult] *)

Record SupersedeStatementResult : Type := mk_SupersedeStatementResult {
  SupersedeStatementResult_new_statement_id : pyval; SupersedeStatementResult_chain_root : pyval;
  SupersedeStatementResult_version : pyval
}.

Definition SupersedeStatementResult_from_dict (d : pyval) : pyresult SupersedeStatementResult :=
  let* new_statement_id := py_getitem d "new_statement_id" in
  let* chain_root := py_getitem d "chain_root" in
  let* version := py_getitem d "version" in
  Ok (mk_SupersedeStatementResult new_statement_id chain_root version).

Definition SupersedeStatementResult_typed (self : SupersedeStatementResult) : bool :=
  conforms JString (SupersedeStatementResult_new_statement_id self)
  && conforms JString (SupersedeStatementResult_chain_root self)
  && conforms JInt (SupersedeStatementResult_version self).

(** ** [RetractStatementResult] *)

Record RetractStatementResult : Type := mk_RetractStatementResult {
  RetractStatementResult_retracted_at_unix_nanos : pyval;
  RetractStatementResult_will_zero_at_unix_nanos : pyval
}.

Definition RetractStatementResult_from_dict (d : pyval) : pyresult RetractStatementResult :=
  let* retracted_at_unix_nanos := py_getitem d "retracted_at_unix_nanos" in
  let* will_zero_at_unix_nanos := py_getitem d "will_zero_at_unix_nanos" in
  Ok (mk_RetractStatementResult retracted_at_unix_nanos will_zero_at_unix_nanos).

Definition RetractStatementResult_typed (self : RetractStatementResult) : bool :=
  conforms JInt (RetractStatementResult_retracted_at_unix_nanos self)
  && conforms JInt (RetractStatementResult_will_zero_at_unix_nanos self).

(** ** [StatementHistoryResult] *)

Record StatementHistoryResult : Type := mk_StatementHistoryResult {
  StatementHistoryResult_items : list StatementDetail; StatementHistoryResult_chain_root : pyval;
  StatementHistoryResult_total_versions : pyval; StatementHistoryResult_next_cursor : pyval
}.

Definition StatementHistoryResult_from_dict (d : pyval) : pyresult StatementHistoryResult :=
  let* items := each_in StatementDetail_from_dict d "items" in
  let* chain_root := py_getitem d "chain_root" in
  let* total_versions := py_getitem d "total_versions" in
  let* next_cursor := py_get d "next_cursor" PNone in
  Ok (mk_StatementHistoryResult items chain_root total_versions next_cursor).

Definition StatementHistoryResult_typed (self : StatementHistoryResult) : bool :=
  forallb StatementDetail_typed (StatementHistoryResult_items self)
  && conforms JString (StatementHistoryResult_chain_root self)
  && conforms JInt (StatementHistoryResult_total_versions self)
  && conforms (JOpt JString) (StatementHistoryResult_next_cursor self).

(** ** [CreateRelationResult] *)

Record CreateRelationResult : Type := mk_CreateRelationResult {
  CreateRelationResult_relation_id : pyval
}.

Definition CreateRelationResult_from_dict (d : pyval) : pyresult CreateRelationResult :=
  let* relation_id := py_getitem d "relation_id" in
  Ok (mk_CreateRelationResult relation_id).

Definition CreateRelationResult_typed (self : CreateRelationResult) : bool :=
  conforms JString (CreateRelationResult_relation_id self).

(** ** [SupersedeRelationResult] *)

Record SupersedeRelationResult : Type := mk_SupersedeRelationResult {
  SupersedeRelationResult_new_relation_id : pyval; SupersedeRelationResult_version : pyval
}.

Definition SupersedeRelationResult_from_dict (d : pyval) : pyresult SupersedeRelationResult :=
  let* new_relation_id := py_getitem d "new_relation_id" in
  let* version := py_getitem d "version" in
  Ok (mk_SupersedeRelationResult new_relation_id version).

Definition SupersedeRelationResult_typed (self : SupersedeRelationResult) : bool :=
  conforms JString (SupersedeRelationResult_new_relation_id self)
  && conforms JInt (SupersedeRelationResult_version self).

(** ** [SchemaVersion] *)

Record SchemaVersion : Type := mk_SchemaVersion {
  SchemaVersion_schema_version : pyval; SchemaVersion_uploaded_at_unix_nanos : pyval;
  SchemaVersion_validator_version : pyval; SchemaVersion_has_source_text : pyval
}.

Definition SchemaVersion_from_dict (d : pyval) : pyresult SchemaVersion :=
  let* schema_version := py_getitem d "schema_version" in
  let* uploaded_at_unix_nanos := py_getitem d "uploaded_at_unix_nanos" in
  let* validator_version := py_getitem d "validator_version" in
  let* has_source_text := py_getitem d "has_source_text" in
  Ok (mk_SchemaVersion schema_version uploaded_at_unix_nanos validator_version has_source_text).

Definition SchemaVersion_typed (self : SchemaVersion) : bool :=
  conforms JInt (SchemaVersion_schema_version self)
  && conforms JInt (SchemaVersion_uploaded_at_unix_nanos self)
  && conforms JInt (SchemaVersion_validator_version self)
  && conforms JBool (SchemaVersion_has_source_text self).

(** ** [ListSchemasResult] *)

Record ListSchemasResult : Type := mk_ListSchemasResult {
  ListSchemasResult_namespace : pyval; ListSchemasResult_items : list SchemaVersion;
  ListSchemasResult_total : pyval; ListSchemasResult_next_cursor : pyval
}.

Definition ListSchemasResult_from_dict (d : pyval) : pyresult ListSchemasResult :=
  let* namespace := py_getitem d "namespace" in
  let* items := each_in SchemaVersion_from_dict d "items" in
  let* total := py_getitem d "total" in
  let* next_cursor := py_get d "next_cursor" PNone in
  Ok (mk_ListSchemasResult namespace items total next_cursor).

Definition ListSchemasResult_typed (self : ListSchemasResult) : bool :=
  conforms JString (ListSchemasResult_namespace self)
  && forallb SchemaVersion_typed (ListSchemasResult_items self)
  && conforms JInt (ListSchemasResult_total self)
  && conforms (JOpt JString) (ListSchemasResult_next_cursor self).

(** ** [Extractor] *)

Record Extractor : Type := mk_Extractor {
  Extractor_extractor_id : pyval; Extractor_namespace : pyval; Extractor_name : pyval;
  Extractor_kind : pyval; Extractor_schema_version : pyval;
  Extractor_created_at_unix_nanos : pyval
}.

Definition Extractor_from_dict (d : pyval) : pyresult Extractor :=
  let* extractor_id := py_getitem d "extractor_id" in
  let* namespace := py_getitem d "namespace" in
  let* name := py_getitem d "name" in
  let* kind := py_getitem d "kind" in
  let* schema_version := py_getitem d "schema_version" in
  let* created_at_unix_nanos := py_getitem d "created_at_unix_nanos" in
  Ok (mk_Extractor extractor_id namespace name kind schema_version created_at_unix_nanos).

Definition Extractor_typed (self : Extractor) : bool :=
  conforms JInt (Extractor_extractor_id self) && conforms JString (Extractor_namespace self)
  && conforms JString (Extractor_name self) && conforms JInt (Extractor_kind self)
  && conforms JInt (Extractor_schema_version self)
  && conforms JInt (Extractor_created_at_unix_nanos self).

(** ** [ListExtractorsResult] *)

Record ListExtractorsResult : Type := mk_ListExtractorsResult {
  ListExtractorsResult_items : list Extractor; ListExtractorsResult_total : pyval
}.

Definition ListExtractorsResult_from_dict (d : pyval) : pyresult ListExtractorsResult :=
  let* items := each_in Extractor_from_dict d "items" in
  let* total := py_getitem d "total" in
  Ok (mk_ListExtractorsResult items total).

Definition ListExtractorsResult_typed (self : ListExtractorsResult) : bool :=
  forallb Extractor_typed (ListExtractorsResult_items self)
  && conforms JInt (ListExtractorsResult_total self).

(** ** [DropSchemaResult] *)

Record DropSchemaResult : Type := mk_DropSchemaResult {
  DropSchemaResult_namespace : pyval; DropSchemaResult_schema_version : pyval;
  DropSchemaResult_target_kind : pyval; DropSchemaResult_target_name : pyval;
  DropSchemaResult_dropped : pyval; DropSchemaResult_live_rows : pyval;
  DropSchemaResult_validation_errors : list SchemaError
}.

Definition DropSchemaResult_from_dict (d : pyval) : pyresult DropSchemaResult :=
  let* namespace := py_getitem d "namespace" in
  let* schema_version := py_getitem d "schema_version" in
  let* target_kind := py_getitem d "target_kind" in
  let* target_name := py_getitem d "target_name" in
  let* dropped := py_getitem d "dropped" in
  let* live_rows := py_getitem d "live_rows" in
  let* validation_errors := each_in SchemaError_from_dict d "validation_errors" in
  Ok (mk_DropSchemaResult namespace schema_version target_kind target_name dropped live_rows
    validation_errors).

Definition DropSchemaResult_typed (self : DropSchemaResult) : bool :=
  conforms JString (DropSchemaResult_namespace self)
  && conforms JInt (DropSchemaResult_schema_version self)
  && conforms JInt (DropSchemaResult_target_kind self)
  && conforms JString (DropSchemaResult_target_name self)
  && conforms JBool (DropSchemaResult_dropped self)
  && conforms JInt (DropSchemaResult_live_rows self)
  && forallb SchemaError_typed (DropSchemaResult_validation_errors self).

(** ** [MaterializeProceduralResult] *)

Record MaterializeProceduralResult : Type := mk_MaterializeProceduralResult {
  MaterializeProceduralResult_system_block : pyval;
  MaterializeProceduralResult_statement_ids : pyval;
  MaterializeProceduralResult_total_candidates : pyval;
  MaterializeProceduralResult_trimmed_by_budget : pyval
}.

Definition MaterializeProceduralResult_from_dict (d : pyval)
    : pyresult MaterializeProceduralResult :=
  let* system_block := py_getitem d "system_block" in
  let* statement_ids := list_in d "statement_ids" in
  let* total_candidates := py_getitem d "total_candidates" in
  let* trimmed_by_budget := py_getitem d "trimmed_by_budget" in
  Ok (mk_MaterializeProceduralResult system_block statement_ids total_candidates trimmed_by_budget).

Definition MaterializeProceduralResult_typed (self : MaterializeProceduralResult) : bool :=
  conforms JString (MaterializeProceduralResult_system_block self)
  && conforms (JList JString) (MaterializeProceduralResult_statement_ids self)
  && conforms JInt (MaterializeProceduralResult_total_candidates self)
  && conforms JBool (MaterializeProceduralResult_trimmed_by_budget self).

(** ** [QueryExplainResult] *)

Record QueryExplainResult : Type := mk_QueryExplainResult {
  QueryExplainResult_plan_text : pyval; QueryExplainResult_estimated_cost_ms : pyval
}.

Definition QueryExplainResult_from_dict (d : pyval) : pyresult QueryExplainResult :=
  let* plan_text := py_getitem d "plan_text" in
  let* estimated_cost_ms := py_getitem d "estimated_cost_ms" in
  Ok (mk_QueryExplainResult plan_text estimated_cost_ms).

Definition QueryExplainResult_typed (self : QueryExplainResult) : bool :=
  conforms JString (QueryExplainResult_plan_text self)
  && conforms JFloat (QueryExplainResult_estimated_cost_ms self).

(** ** [QueryTraceResult] *)

Record QueryTraceResult : Type := mk_QueryTraceResult {
  QueryTraceResult_trace_text : pyval; QueryTraceResult_total_latency_ms : pyval
}.

Definition QueryTraceResult_from_dict (d : pyval) : pyresult QueryTraceResult :=
  let* trace_text := py_getitem d "trace_text" in
  let* total_latency_ms := py_getitem d "total_latency_ms" in
  Ok (mk_QueryTraceResult trace_text total_latency_ms).

Definition QueryTraceResult_typed (self : QueryTraceResult) : bool :=
  conforms JString (QueryTraceResult_trace_text self)
  && conforms JFloat (QueryTraceResult_total_latency_ms self).

(** ** [LlmCredential] *)

Record LlmCredential : Type := mk_LlmCredential {
  LlmCredential_provider : pyval; LlmCredential_model : pyval; LlmCredential_fingerprint : pyval;
  LlmCredential_created_at_unix_secs : pyval
}.

Definition LlmCredential_from_dict (d : pyval) : pyresult LlmCredential :=
  let* provider := py_getitem d "provider" in
  let* model := py_getitem d "model" in
  let* fingerprint := py_getitem d "fingerprint" in
  let* created_at_unix_secs := py_getitem d "created_at_unix_secs" in
  Ok (mk_LlmCredential provider model fingerprint created_at_unix_secs).

Definition LlmCredential_typed (self : LlmCredential) : bool :=
  conforms JString (LlmCredential_provider self) && conforms JString (LlmCredential_model self)
  && conforms JString (LlmCredential_fingerprint self)
  && conforms JInt (LlmCredential_created_at_unix_secs self).

(** ** [LlmCredentialDeleted] *)

Record LlmCredentialDeleted : Type := mk_LlmCredentialDeleted {
  LlmCredentialDeleted_deleted : pyval
}.

Definition LlmCredentialDeleted_from_dict (d : pyval) : pyresult LlmCredentialDeleted :=
  let* deleted := py_getitem d "deleted" in
  Ok (mk_LlmCredentialDeleted deleted).

Definition LlmCredentialDeleted_typed (self : LlmCredentialDeleted) : bool :=
  conforms JBool (LlmCredentialDeleted_deleted self).

(** ** [LlmCredentialCheck] *)

Record LlmCredentialCheck : Type := mk_LlmCredentialCheck {
  LlmCredentialCheck_status : pyval; LlmCredentialCheck_valid : pyval;
  LlmCredentialCheck_reason : pyval; LlmCredentialCheck_provider : pyval
}.

Definition LlmCredentialCheck_from_dict (d : pyval) : pyresult LlmCredentialCheck :=
  let* status := py_getitem d "status" in
  let* valid := py_get d "valid" PNone in
  let* reason := py_get d "reason" PNone in
  let* provider := py_getitem d "provider" in
  Ok (mk_LlmCredentialCheck status valid reason provider).

Definition LlmCredentialCheck_typed (self : LlmCredentialCheck) : bool :=
  conforms JString (LlmCredentialCheck_status self)
  && conforms (JOpt JBool) (LlmCredentialCheck_valid self)
  && conforms (JOpt JString) (LlmCredentialCheck_reason self)
  && conforms JString (LlmCredentialCheck_provider self).

(** ** [SubscriptionEvent] *)

Record HttpSubscriptionEvent : Type := mk_SubscriptionEvent {
  SubscriptionEvent_event_type : pyval; SubscriptionEvent_memory_id : pyval;
  SubscriptionEvent_session_id : pyval; SubscriptionEvent_text : pyval;
  SubscriptionEvent_kind : pyval; SubscriptionEvent_salience : pyval;
  SubscriptionEvent_timestamp_unix_nanos : pyval; SubscriptionEvent_lsn : pyval;
  SubscriptionEvent_graph : pyval; SubscriptionEvent_edge : pyval;
  SubscriptionEvent_stage_kind : pyval; SubscriptionEvent_stage_outcome : pyval;
  SubscriptionEvent_stage : pyval
}.

Definition SubscriptionEvent_from_dict (d : pyval) : pyresult HttpSubscriptionEvent :=
  let* event_type := py_getitem d "event_type" in
  let* memory_id := py_getitem d "memory_id" in
  let* session_id := py_getitem d "session_id" in
  let* text := py_getitem d "text" in
  let* kind := py_getitem d "kind" in
  let* salience := py_getitem d "salience" in
  let* timestamp_unix_nanos := py_getitem d "timestamp_unix_nanos" in
  let* lsn := py_getitem d "lsn" in
  let* graph_ := py_get d "graph" PNone in
  let* edge := py_get d "edge" PNone in
  let* stage_kind := py_get d "stage_kind" PNone in
  let* stage_outcome := py_get d "stage_outcome" PNone in
  let* stage := py_get d "stage" PNone in
  Ok (mk_SubscriptionEvent event_type memory_id session_id text kind salience timestamp_unix_nanos
    lsn graph_ edge stage_kind stage_outcome stage).

Definition SubscriptionEvent_typed (self : HttpSubscriptionEvent) : bool :=
  conforms JString (SubscriptionEvent_event_type self)
  && conforms JString (SubscriptionEvent_memory_id self)
  && conforms JInt (SubscriptionEvent_session_id self)
  && conforms JString (SubscriptionEvent_text self) && conforms JInt (SubscriptionEvent_kind self)
  && conforms JFloat (SubscriptionEvent_salience self)
  && conforms JInt (SubscriptionEvent_timestamp_unix_nanos self)
  && conforms JInt (SubscriptionEvent_lsn self)
  && conforms (JOpt JDict) (SubscriptionEvent_graph self)
  && conforms (JOpt JDict) (SubscriptionEvent_edge self)
  && conforms (JOpt JString) (SubscriptionEvent_stage_kind self)
  && conforms (JOpt JString) (SubscriptionEvent_stage_outcome self)
  && conforms (JOpt JDict) (SubscriptionEvent_stage self).

(** ** [SubscriptionClosed] *)

Record SubscriptionClosed : Type := mk_SubscriptionClosed {
  SubscriptionClosed_final_lsn : pyval; SubscriptionClosed_reason : pyval
}.

Definition SubscriptionClosed_from_dict (d : pyval) : pyresult SubscriptionClosed :=
  let* final_lsn := py_getitem d "final_lsn" in
  let* reason := py_getitem d "reason" in
  Ok (mk_SubscriptionClosed final_lsn reason).

Definition SubscriptionClosed_typed (self : SubscriptionClosed) : bool :=
  conforms JInt (SubscriptionClosed_final_lsn self)
  && conforms JString (SubscriptionClosed_reason self).
