(* ===== verification/HttpTyped.v ===== *)
(** * HttpTyped

    Every result type of the HTTP tier decodes every document the manifest
    allows for it, to attributes of the annotated types. *)

From S2P Require Import Prelude PyFloat PyValue PyJson HttpContract HttpTypes.

(** ** The interface *)

(** [from_dict] accepts every document of the type and gives a typed object. *)
Class Decodes {A} (dto : jtype) (from_dict : pyval -> pyresult A) (typed : A -> bool) : Prop :=
  decodes : forall d, conforms dto d = true -> exists r, from_dict d = Ok r /\ typed r = true.

(** ** Readers on conforming objects *)

Lemma getitem_must k t d :
  field_ok (must k t) d -> exists v, py_getitem (PDict d) k = Ok v /\ conforms t v = true.
Proof. unfold field_ok. cbn. destruct (dict_get d k) as [v|]; [by exists v|done]. Qed.

Lemma get_must k t d def :
  field_ok (must k t) d -> exists v, py_get (PDict d) k def = Ok v /\ conforms t v = true.
Proof. unfold field_ok. cbn. destruct (dict_get d k) as [v|]; [by exists v|done]. Qed.

Lemma get_may k t d def :
  field_ok (may k t) d -> conforms t def = true ->
  exists v, py_get (PDict d) k def = Ok v /\ conforms t v = true.
Proof. unfold field_ok. cbn. destruct (dict_get d k) as [v|]; [by exists v|by exists def]. Qed.

Lemma get_undeclared tag fs k d def :
  declared tag fs d = true -> tag <> Some k -> Forall (fun f => field_name f <> k) fs ->
  py_get (PDict d) k def = Ok def.
Proof. intros H Ht Hfs. cbn. by rewrite (undeclared tag fs). Qed.

Lemma list_must k t d :
  field_ok (must k (JList t)) d ->
  exists v, list_in (PDict d) k = Ok v /\ conforms (JList t) v = true.
Proof.
  intros H. unfold list_in. destruct (get_must k _ d (PList []) H) as (v & -> & Hv). cbn [bind].
  pose proof Hv as (l & -> & _)%conforms_list. by exists (PList l).
Qed.

Lemma each_must {A} k t d (f : pyval -> pyresult A) typed `{!Decodes t f typed} :
  field_ok (must k (JList t)) d ->
  exists l, each_in f (PDict d) k = Ok l /\ forallb typed l = true.
Proof.
  intros H. unfold each_in. destruct (get_must k _ d (PList []) H) as (v & -> & Hv). cbn [bind].
  apply conforms_list in Hv as (l & -> & Hl). cbn [py_iter bind].
  induction Hl as [|x l Hx _ (rs & IH & Hrs)]; [by exists []|].
  destruct (decodes x Hx) as (r & Er & Hr). exists (r :: rs). cbn [map_result].
  rewrite Er. cbn [bind]. rewrite IH. cbn [bind forallb]. by rewrite Hr, Hrs.
Qed.

Lemma nested_must {A} k t d (f : pyval -> pyresult A) typed `{!Decodes t f typed} :
  field_ok (must k t) d -> exists r, nested_in f (PDict d) k = Ok r /\ typed r = true.
Proof.
  intros H. unfold nested_in. destruct (getitem_must k _ d H) as (v & -> & Hv). cbn [bind].
  by apply decodes.
Qed.

Lemma unless_none_decodes {A} t (f : pyval -> pyresult A) typed `{!Decodes t f typed} v :
  conforms (JOpt t) v = true -> exists o, unless_none f v = Ok o /\ if_some typed o = true.
Proof.
  intros H. unfold unless_none. destruct (is_none v) eqn:E; [by exists None|].
  destruct (decodes (Decodes := _) (typed := typed) v) as (r & -> & Hr); [by destruct v|].
  by exists (Some r).
Qed.

Lemma conforms_opt t v : conforms t v = true -> conforms (JOpt t) v = true.
Proof. by destruct v. Qed.

(** Raw objects: the annotation [dict[str, Any]] allows any. *)
Lemma conforms_obj_any fs v : conforms (JObj fs) v = true -> conforms JDict v = true.
Proof. by intros (d & -> & _)%conforms_obj. Qed.

Lemma conforms_tagged_any tag vs v : conforms (JTagged tag vs) v = true -> conforms JDict v = true.
Proof. by intros (d & name & fs & -> & _)%conforms_tagged. Qed.

Lemma conforms_opt_any t v :
  (forall v, conforms t v = true -> conforms JDict v = true) ->
  conforms (JOpt t) v = true -> conforms (JOpt JDict) v = true.
Proof. intros H. destruct v; try done; apply H. Qed.

Create HintDb http.
#[export] Hint Resolve conforms_opt_any conforms_obj_any conforms_tagged_any : http.

(** ** Automation *)

(** Read one field: find what the document says about the key. *)
Ltac decode_field :=
  lazymatch goal with
  | |- context [py_getitem (PDict ?d) ?k] =>
      match goal with
      | H : field_ok (must k _) d |- _ => destruct (getitem_must _ _ _ H) as (? & -> & ?)
      end
  | |- context [list_in (PDict ?d) ?k] =>
      match goal with
      | H : field_ok (must k _) d |- _ => destruct (list_must _ _ _ H) as (? & -> & ?)
      end
  | |- context [each_in ?f (PDict ?d) ?k] =>
      match goal with
      | H : field_ok (must k _) d |- _ => destruct (each_must _ _ _ f _ H) as (? & -> & ?)
      end
  | |- context [nested_in ?f (PDict ?d) ?k] =>
      match goal with
      | H : field_ok (must k _) d |- _ => destruct (nested_must _ _ _ f _ H) as (? & -> & ?)
      end
  | |- context [py_get (PDict ?d) ?k ?def] =>
      match goal with
      | H : field_ok (must k _) d |- _ => destruct (get_must _ _ _ def H) as (? & -> & ?)
      | H : field_ok (may k _) d |- _ => destruct (get_may _ _ _ def H eq_refl) as (? & -> & ?)
      | H : declared _ _ d = true |- _ =>
          rewrite (get_undeclared _ _ k d def H) by (done || by repeat constructor)
      end
  | |- context [unless_none ?f ?v] =>
      match goal with
      | H : conforms (JOpt _) v = true |- _ => destruct (unless_none_decodes _ f _ v H) as (? & -> & ?)
      end
  end; cbn [bind].

Ltac decode_fields :=
  repeat decode_field; eexists; split; [reflexivity|];
  cbn [forallb]; rewrite ?andb_true_iff; split_and?; try done; eauto with http.

(** Take a conforming object apart and decode it field by field. *)
Ltac decode_object dto from_dict typed :=
  let d := fresh "d" in let H := fresh "H" in let kvs := fresh "kvs" in
  intros d H; unfold dto in H; apply conforms_obj in H as (kvs & -> & H & ?);
  repeat match goal with
  | F : Forall _ (_ :: _) |- _ => apply Forall_cons in F as [? F]
  end; unfold from_dict, typed; decode_fields.

(** ** The types *)

#[export] Instance EncodeResult_decodes :
  Decodes EncodeResponseDto EncodeResult_from_dict EncodeResult_typed.
Proof. decode_object EncodeResponseDto EncodeResult_from_dict EncodeResult_typed. Qed.

#[export] Instance MemoryHit_decodes : Decodes MemoryHitDto MemoryHit_from_dict MemoryHit_typed.
Proof. decode_object MemoryHitDto MemoryHit_from_dict MemoryHit_typed. Qed.

#[export] Instance RecallResult_decodes :
  Decodes RecallResponseDto RecallResult_from_dict RecallResult_typed.
Proof. decode_object RecallResponseDto RecallResult_from_dict RecallResult_typed. Qed.

#[export] Instance ForgetResult_decodes :
  Decodes ForgetResponseDto ForgetResult_from_dict ForgetResult_typed.
Proof. decode_object ForgetResponseDto ForgetResult_from_dict ForgetResult_typed. Qed.

#[export] Instance LinkResult_decodes :
  Decodes LinkResponseDto LinkResult_from_dict LinkResult_typed.
Proof. decode_object LinkResponseDto LinkResult_from_dict LinkResult_typed. Qed.

#[export] Instance UnlinkResult_decodes :
  Decodes UnlinkResponseDto UnlinkResult_from_dict UnlinkResult_typed.
Proof. decode_object UnlinkResponseDto UnlinkResult_from_dict UnlinkResult_typed. Qed.

#[export] Instance PlanStep_decodes : Decodes PlanStepDto PlanStep_from_dict PlanStep_typed.
Proof. decode_object PlanStepDto PlanStep_from_dict PlanStep_typed. Qed.

#[export] Instance PlanResult_decodes :
  Decodes PlanResponseDto PlanResult_from_dict PlanResult_typed.
Proof. decode_object PlanResponseDto PlanResult_from_dict PlanResult_typed. Qed.

#[export] Instance InferenceStep_decodes :
  Decodes InferenceStepDto InferenceStep_from_dict InferenceStep_typed.
Proof. decode_object InferenceStepDto InferenceStep_from_dict InferenceStep_typed. Qed.

#[export] Instance ReasonResult_decodes :
  Decodes ReasonResponseDto ReasonResult_from_dict ReasonResult_typed.
Proof. decode_object ReasonResponseDto ReasonResult_from_dict ReasonResult_typed. Qed.

#[export] Instance Permissions_decodes :
  Decodes PermissionsDto Permissions_from_dict Permissions_typed.
Proof. decode_object PermissionsDto Permissions_from_dict Permissions_typed. Qed.

#[export] Instance Whoami_decodes : Decodes WhoamiDto Whoami_from_dict Whoami_typed.
Proof. decode_object WhoamiDto Whoami_from_dict Whoami_typed. Qed.

#[export] Instance Capabilities_decodes :
  Decodes CapabilitiesDto Capabilities_from_dict Capabilities_typed.
Proof. decode_object CapabilitiesDto Capabilities_from_dict Capabilities_typed. Qed.

#[export] Instance MemoryListItem_decodes :
  Decodes MemoryListItemDto MemoryListItem_from_dict MemoryListItem_typed.
Proof. decode_object MemoryListItemDto MemoryListItem_from_dict MemoryListItem_typed. Qed.

#[export] Instance MemoryListPage_decodes :
  Decodes MemoryListPageDto MemoryListPage_from_dict MemoryListPage_typed.
Proof. decode_object MemoryListPageDto MemoryListPage_from_dict MemoryListPage_typed. Qed.

#[export] Instance StageRecord_decodes :
  Decodes StageRecordDto StageRecord_from_dict StageRecord_typed.
Proof. decode_object StageRecordDto StageRecord_from_dict StageRecord_typed. Qed.

#[export] Instance StageKeywordField_decodes :
  Decodes StageKeywordFieldDto StageKeywordField_from_dict StageKeywordField_typed.
Proof. decode_object StageKeywordFieldDto StageKeywordField_from_dict StageKeywordField_typed. Qed.

#[export] Instance StageGraphNode_decodes :
  Decodes StageGraphNodeDto StageGraphNode_from_dict StageGraphNode_typed.
Proof. decode_object StageGraphNodeDto StageGraphNode_from_dict StageGraphNode_typed. Qed.

#[export] Instance StageGraphEdge_decodes :
  Decodes StageGraphEdgeDto StageGraphEdge_from_dict StageGraphEdge_typed.
Proof. decode_object StageGraphEdgeDto StageGraphEdge_from_dict StageGraphEdge_typed. Qed.

#[export] Instance StageGraph_decodes :
  Decodes StageGraphDto StageGraph_from_dict StageGraph_typed.
Proof. decode_object StageGraphDto StageGraph_from_dict StageGraph_typed. Qed.

#[export] Instance StageArtifact_decodes :
  Decodes StageArtifactDto StageArtifact_from_dict StageArtifact_typed.
Proof. decode_object StageArtifactDto StageArtifact_from_dict StageArtifact_typed. Qed.

#[export] Instance MemoryEdge_decodes :
  Decodes MemoryEdgeDto MemoryEdge_from_dict MemoryEdge_typed.
Proof. decode_object MemoryEdgeDto MemoryEdge_from_dict MemoryEdge_typed. Qed.

#[export] Instance MemoryInspect_decodes :
  Decodes MemoryInspectDto MemoryInspect_from_dict MemoryInspect_typed.
Proof. decode_object MemoryInspectDto MemoryInspect_from_dict MemoryInspect_typed. Qed.

#[export] Instance EntityDetail_decodes :
  Decodes EntityDetailDto EntityDetail_from_dict EntityDetail_typed.
Proof. decode_object EntityDetailDto EntityDetail_from_dict EntityDetail_typed. Qed.

#[export] Instance ListEntitiesResult_decodes :
  Decodes ListEntitiesResponseDto ListEntitiesResult_from_dict ListEntitiesResult_typed.
Proof. decode_object ListEntitiesResponseDto ListEntitiesResult_from_dict ListEntitiesResult_typed. Qed.

#[export] Instance CreateEntityResult_decodes :
  Decodes CreateEntityResponseDto CreateEntityResult_from_dict CreateEntityResult_typed.
Proof. decode_object CreateEntityResponseDto CreateEntityResult_from_dict CreateEntityResult_typed. Qed.

#[export] Instance ResolveEntityResult_decodes :
  Decodes ResolveEntityResponseDto ResolveEntityResult_from_dict ResolveEntityResult_typed.
Proof. decode_object ResolveEntityResponseDto ResolveEntityResult_from_dict ResolveEntityResult_typed. Qed.

#[export] Instance TraversalStep_decodes :
  Decodes TraversalStepDto TraversalStep_from_dict TraversalStep_typed.
Proof. decode_object TraversalStepDto TraversalStep_from_dict TraversalStep_typed. Qed.

#[export] Instance TraversalPath_decodes :
  Decodes TraversalPathDto TraversalPath_from_dict TraversalPath_typed.
Proof. decode_object TraversalPathDto TraversalPath_from_dict TraversalPath_typed. Qed.

#[export] Instance TraverseResult_decodes :
  Decodes TraverseResponseDto TraverseResult_from_dict TraverseResult_typed.
Proof. decode_object TraverseResponseDto TraverseResult_from_dict TraverseResult_typed. Qed.

#[export] Instance RelationDetail_decodes :
  Decodes RelationDetailDto RelationDetail_from_dict RelationDetail_typed.
Proof. decode_object RelationDetailDto RelationDetail_from_dict RelationDetail_typed. Qed.

#[export] Instance ListRelationsResult_decodes :
  Decodes ListRelationsResponseDto ListRelationsResult_from_dict ListRelationsResult_typed.
Proof. decode_object ListRelationsResponseDto ListRelationsResult_from_dict ListRelationsResult_typed. Qed.

#[export] Instance StatementValue_decodes :
  Decodes StatementValueDto StatementValue_from_dict StatementValue_typed.
Proof.
  intros d H. apply conforms_tagged in H as (kvs & name & fs & -> & Ht & Hin & H & _).
  assert (Hv : exists v, dict_get kvs "value" = Some v).
  { repeat (apply elem_of_cons in Hin as [Hin|Hin]; [injection Hin as -> ->;
      apply Forall_cons in H as [H _]; unfold field_ok in H; cbn in H;
      destruct (dict_get kvs "value"); [by eexists|done]|]). by apply elem_of_nil in Hin. }
  destruct Hv as [v Hv]. unfold StatementValue_from_dict. cbn [py_getitem]. rewrite Ht, Hv.
  cbn [bind]. eexists. by split.
Qed.

#[export] Instance StatementObject_decodes :
  Decodes StatementObjectDto StatementObject_from_dict StatementObject_typed.
Proof.
  intros d H. apply conforms_tagged in H as (kvs & name & fs & -> & Ht & Hin & H & Hd).
  assert (Hkind : field_ok (must "kind" JString) kvs) by (unfold field_ok; cbn; by rewrite Ht).
  unfold StatementObject_from_dict, StatementObject_typed.
  repeat (apply elem_of_cons in Hin as [Hin|Hin]; [injection Hin as -> ->;
    apply Forall_cons in H as [H _]|]); [..|by apply elem_of_nil in Hin].
  2: destruct (get_must "value" _ kvs PNone H) as (v & Ev & Hv%conforms_opt); rewrite Ev; cbn [bind].
  all: decode_fields; by apply conforms_opt.
Qed.

#[export] Instance StatementDetail_decodes :
  Decodes StatementDetailDto StatementDetail_from_dict StatementDetail_typed.
Proof. decode_object StatementDetailDto StatementDetail_from_dict StatementDetail_typed. Qed.

#[export] Instance ListStatementsResult_decodes :
  Decodes ListStatementsResponseDto ListStatementsResult_from_dict ListStatementsResult_typed.
Proof. decode_object ListStatementsResponseDto ListStatementsResult_from_dict ListStatementsResult_typed. Qed.

#[export] Instance GraphNode_decodes : Decodes GraphNodeDto GraphNode_from_dict GraphNode_typed.
Proof. decode_object GraphNodeDto GraphNode_from_dict GraphNode_typed. Qed.

#[export] Instance GraphEdge_decodes : Decodes GraphEdgeDto GraphEdge_from_dict GraphEdge_typed.
Proof. decode_object GraphEdgeDto GraphEdge_from_dict GraphEdge_typed. Qed.

#[export] Instance GraphPage_decodes : Decodes GraphPageDto GraphPage_from_dict GraphPage_typed.
Proof. decode_object GraphPageDto GraphPage_from_dict GraphPage_typed. Qed.

#[export] Instance Schema_decodes : Decodes SchemaDto Schema_from_dict Schema_typed.
Proof. decode_object SchemaDto Schema_from_dict Schema_typed. Qed.

#[export] Instance SchemaError_decodes :
  Decodes SchemaErrorDto SchemaError_from_dict SchemaError_typed.
Proof. decode_object SchemaErrorDto SchemaError_from_dict SchemaError_typed. Qed.

#[export] Instance SchemaUpload_decodes :
  Decodes SchemaUploadDto SchemaUpload_from_dict SchemaUpload_typed.
Proof. decode_object SchemaUploadDto SchemaUpload_from_dict SchemaUpload_typed. Qed.

#[export] Instance SchemaValidate_decodes :
  Decodes SchemaValidateDto SchemaValidate_from_dict SchemaValidate_typed.
Proof. decode_object SchemaValidateDto SchemaValidate_from_dict SchemaValidate_typed. Qed.

#[export] Instance SchemaReplace_decodes :
  Decodes SchemaReplaceDto SchemaReplace_from_dict SchemaReplace_typed.
Proof. decode_object SchemaReplaceDto SchemaReplace_from_dict SchemaReplace_typed. Qed.

#[export] Instance SpaceProvision_decodes :
  Decodes SpaceProvisionDto SpaceProvision_from_dict SpaceProvision_typed.
Proof. decode_object SpaceProvisionDto SpaceProvision_from_dict SpaceProvision_typed. Qed.

#[export] Instance SpaceSummary_decodes :
  Decodes SpaceSummaryDto SpaceSummary_from_dict SpaceSummary_typed.
Proof. decode_object SpaceSummaryDto SpaceSummary_from_dict SpaceSummary_typed. Qed.

#[export] Instance ListSpacesResult_decodes :
  Decodes ListSpacesResponseDto ListSpacesResult_from_dict ListSpacesResult_typed.
Proof. decode_object ListSpacesResponseDto ListSpacesResult_from_dict ListSpacesResult_typed. Qed.

#[export] Instance SpaceErased_decodes :
  Decodes SpaceErasedDto SpaceErased_from_dict SpaceErased_typed.
Proof. decode_object SpaceErasedDto SpaceErased_from_dict SpaceErased_typed. Qed.

#[export] Instance SessionProvision_decodes :
  Decodes SessionProvisionDto SessionProvision_from_dict SessionProvision_typed.
Proof. decode_object SessionProvisionDto SessionProvision_from_dict SessionProvision_typed. Qed.

#[export] Instance SessionSummary_decodes :
  Decodes SessionSummaryDto SessionSummary_from_dict SessionSummary_typed.
Proof. decode_object SessionSummaryDto SessionSummary_from_dict SessionSummary_typed. Qed.

#[export] Instance ListSessionsResult_decodes :
  Decodes ListSessionsResponseDto ListSessionsResult_from_dict ListSessionsResult_typed.
Proof. decode_object ListSessionsResponseDto ListSessionsResult_from_dict ListSessionsResult_typed. Qed.

#[export] Instance SessionErased_decodes :
  Decodes SessionErasedDto SessionErased_from_dict SessionErased_typed.
Proof. decode_object SessionErasedDto SessionErased_from_dict SessionErased_typed. Qed.

#[export] Instance MergeEntitiesResult_decodes :
  Decodes MergeEntityResponseDto MergeEntitiesResult_from_dict MergeEntitiesResult_typed.
Proof. decode_object MergeEntityResponseDto MergeEntitiesResult_from_dict MergeEntitiesResult_typed. Qed.

#[export] Instance UnmergeEntityResult_decodes :
  Decodes UnmergeEntityResponseDto UnmergeEntityResult_from_dict UnmergeEntityResult_typed.
Proof. decode_object UnmergeEntityResponseDto UnmergeEntityResult_from_dict UnmergeEntityResult_typed. Qed.

#[export] Instance TombstoneResult_decodes_TombstoneEntityResponseDto :
  Decodes TombstoneEntityResponseDto TombstoneResult_from_dict TombstoneResult_typed.
Proof. decode_object TombstoneEntityResponseDto TombstoneResult_from_dict TombstoneResult_typed. Qed.

#[export] Instance CreateStatementResult_decodes :
  Decodes CreateStatementResponseDto CreateStatementResult_from_dict CreateStatementResult_typed.
Proof. decode_object CreateStatementResponseDto CreateStatementResult_from_dict CreateStatementResult_typed. Qed.

#[export] Instance SupersedeStatementResult_decodes :
  Decodes SupersedeStatementResponseDto SupersedeStatementResult_from_dict SupersedeStatementResult_typed.
Proof. decode_object SupersedeStatementResponseDto SupersedeStatementResult_from_dict SupersedeStatementResult_typed. Qed.

#[export] Instance TombstoneResult_decodes_TombstoneStatementResponseDto :
  Decodes TombstoneStatementResponseDto TombstoneResult_from_dict TombstoneResult_typed.
Proof. decode_object TombstoneStatementResponseDto TombstoneResult_from_dict TombstoneResult_typed. Qed.

#[export] Instance RetractStatementResult_decodes :
  Decodes RetractStatementResponseDto RetractStatementResult_from_dict RetractStatementResult_typed.
Proof. decode_object RetractStatementResponseDto RetractStatementResult_from_dict RetractStatementResult_typed. Qed.

#[export] Instance StatementHistoryResult_decodes :
  Decodes StatementHistoryResponseDto StatementHistoryResult_from_dict StatementHistoryResult_typed.
Proof. decode_object StatementHistoryResponseDto StatementHistoryResult_from_dict StatementHistoryResult_typed. Qed.

#[export] Instance CreateRelationResult_decodes :
  Decodes CreateRelationResponseDto CreateRelationResult_from_dict CreateRelationResult_typed.
Proof. decode_object CreateRelationResponseDto CreateRelationResult_from_dict CreateRelationResult_typed. Qed.

#[export] Instance SupersedeRelationResult_decodes :
  Decodes SupersedeRelationResponseDto SupersedeRelationResult_from_dict SupersedeRelationResult_typed.
Proof. decode_object SupersedeRelationResponseDto SupersedeRelationResult_from_dict SupersedeRelationResult_typed. Qed.

#[export] Instance TombstoneResult_decodes_TombstoneRelationResponseDto :
  Decodes TombstoneRelationResponseDto TombstoneResult_from_dict TombstoneResult_typed.
Proof. decode_object TombstoneRelationResponseDto TombstoneResult_from_dict TombstoneResult_typed. Qed.

#[export] Instance SchemaVersion_decodes :
  Decodes SchemaVersionDto SchemaVersion_from_dict SchemaVersion_typed.
Proof. decode_object SchemaVersionDto SchemaVersion_from_dict SchemaVersion_typed. Qed.

#[export] Instance ListSchemasResult_decodes :
  Decodes ListSchemasResponseDto ListSchemasResult_from_dict ListSchemasResult_typed.
Proof. decode_object ListSchemasResponseDto ListSchemasResult_from_dict ListSchemasResult_typed. Qed.

#[export] Instance Extractor_decodes : Decodes ExtractorDto Extractor_from_dict Extractor_typed.
Proof. decode_object ExtractorDto Extractor_from_dict Extractor_typed. Qed.

#[export] Instance ListExtractorsResult_decodes :
  Decodes ListExtractorsResponseDto ListExtractorsResult_from_dict ListExtractorsResult_typed.
Proof. decode_object ListExtractorsResponseDto ListExtractorsResult_from_dict ListExtractorsResult_typed. Qed.

#[export] Instance DropSchemaResult_decodes :
  Decodes SchemaDropResponseDto DropSchemaResult_from_dict DropSchemaResult_typed.
Proof. decode_object SchemaDropResponseDto DropSchemaResult_from_dict DropSchemaResult_typed. Qed.

#[export] Instance MaterializeProceduralResult_decodes :
  Decodes MaterializeProceduralResponseDto MaterializeProceduralResult_from_dict MaterializeProceduralResult_typed.
Proof. decode_object MaterializeProceduralResponseDto MaterializeProceduralResult_from_dict MaterializeProceduralResult_typed. Qed.

#[export] Instance QueryExplainResult_decodes :
  Decodes QueryExplainResponseDto QueryExplainResult_from_dict QueryExplainResult_typed.
Proof. decode_object QueryExplainResponseDto QueryExplainResult_from_dict QueryExplainResult_typed. Qed.

#[export] Instance QueryTraceResult_decodes :
  Decodes QueryTraceResponseDto QueryTraceResult_from_dict QueryTraceResult_typed.
Proof. decode_object QueryTraceResponseDto QueryTraceResult_from_dict QueryTraceResult_typed. Qed.

#[export] Instance LlmCredential_decodes :
  Decodes LlmCredentialDto LlmCredential_from_dict LlmCredential_typed.
Proof. decode_object LlmCredentialDto LlmCredential_from_dict LlmCredential_typed. Qed.

#[export] Instance LlmCredentialDeleted_decodes :
  Decodes DeleteLlmCredentialDto LlmCredentialDeleted_from_dict LlmCredentialDeleted_typed.
Proof. decode_object DeleteLlmCredentialDto LlmCredentialDeleted_from_dict LlmCredentialDeleted_typed. Qed.

#[export] Instance LlmCredentialCheck_decodes :
  Decodes LlmCredentialCheckDto LlmCredentialCheck_from_dict LlmCredentialCheck_typed.
Proof. decode_object LlmCredentialCheckDto LlmCredentialCheck_from_dict LlmCredentialCheck_typed. Qed.

#[export] Instance SubscriptionEvent_decodes :
  Decodes SubscriptionEventDto SubscriptionEvent_from_dict SubscriptionEvent_typed.
Proof. decode_object SubscriptionEventDto SubscriptionEvent_from_dict SubscriptionEvent_typed. Qed.

#[export] Instance SubscriptionClosed_decodes :
  Decodes SubscriptionClosedDto SubscriptionClosed_from_dict SubscriptionClosed_typed.
Proof. decode_object SubscriptionClosedDto SubscriptionClosed_from_dict SubscriptionClosed_typed. Qed.
