(* ===== verification/HttpCore.v ===== *)
(** * HttpCore

    The transport of the HTTP tier: [http/errors.py], [http/retry.py] and the
    part of [http/client.py] below the verbs. What [urllib.request.urlopen] does
    with a request is an event of the environment, one per attempt. *)

From S2P Require Import Prelude PyFloat PyValue PyArith Rfc8949 PyText PyDecimal PyJson Retry.
From Stdlib Require Import Strings.Ascii.

(** What the interpreter knows and the model does not: the text of a container,
    the text of a decoding error, and whether [urlsplit] finds the authority of a
    URL well-formed (brackets, normalisation), which depends on its version. *)
Class Interpreter : Type := {
  str_of_container : pyval -> string;
  decode_error_text : bytes -> string;
  authority_ok : string -> bool
}.

(** ** Errors *)

Record FieldError : Type := mk_FieldError {
  FieldError_field : string;
  FieldError_message : string;
  FieldError_code : option string
}.

(** [BrainHttpError]; the code and the message come from the server as they
    are. *)
Record BrainHttpError : Type := mk_BrainHttpError {
  status : Z;
  code : pyval;
  message : pyval;
  field_errors : list FieldError;
  retry_after : option pyfloat
}.

(** What a call of the tier can raise: its own error, a built-in exception, or
    [http.client.HTTPException], which is neither an [OSError] nor a
    [ValueError]. *)
Inductive http_exn : Type :=
| HttpExn (e : BrainHttpError)
| HttpPyExn (e : py_error)
| HTTPException.

Definition http_error (st : Z) (c m : string) : BrainHttpError :=
  mk_BrainHttpError st (PStr c) (PStr m) [] None.

(** ** Retry policy *)

Record HttpRetryPolicy : Type := mk_HttpRetryPolicy {
  max_attempts : Z;
  base_delay : pyfloat;
  max_delay : pyfloat
}.

(** The dataclass defaults: 3 attempts, 0.1 s, 2.0 s. *)
Definition default_http_policy : HttpRetryPolicy :=
  mk_HttpRetryPolicy 3 (FFin false 3602879701896397 (-55)) (FFin false 1 1).

(** [HttpRetryPolicy.none]. *)
Definition http_policy_none : HttpRetryPolicy := mk_HttpRetryPolicy 1 (FZero false) (FZero false).

Definition is_retryable_status (st : Z) : bool := (st =? 0) || (st =? 429) || (st =? 503).

Definition should_retry (policy : HttpRetryPolicy) (attempt : Z) (e : BrainHttpError) : bool :=
  (attempt <? max_attempts policy) && is_retryable_status (status e).

Definition http_backoff (policy : HttpRetryPolicy) (attempt : Z) (hint : option pyfloat)
    : pyresult pyfloat :=
  match hint with
  | Some s => Ok (py_min s (max_delay policy))
  | None =>
      if float_leb (base_delay policy) (FZero false) then Ok (FZero false)
      else
        let* p := float_of_int (2 ^ Z.max 0 (attempt - 1)) in
        Ok (py_min (float_mul (base_delay policy) p) (max_delay policy))
  end.

(** ** Requests *)

(** A dict display with string keys, and what it is as a value. *)
Definition fields : Type := list (string * pyval).
Definition obj (d : fields) : pyval := PDict (map (fun '(k, v) => (PStr k, v)) d).

(** [_compact]. *)
Definition compact (d : fields) : fields := List.filter (fun kv => negb (is_none kv.2)) d.

(** [_seg]. *)
Definition seg (value : string) : string := quote value.

(** What a verb asks for: the arguments of [_request]. *)
Record http_call : Type := mk_call {
  call_method : string;
  call_path : string;
  call_body : option fields;
  call_query : option fields;
  idempotent : bool
}.

(** What goes to [urlopen]. *)
Record http_request : Type := mk_http_request {
  req_method : string;
  req_url : string;
  req_headers : list (string * string);
  req_data : option string
}.

(** What [urlopen], and reading the whole answer, come to: an answer without an
    error status, the [HTTPError] of one (with its [Retry-After] header, and its
    body if that can be read), or another exception. *)
Inductive urlopen_result : Type :=
| Answered (body : bytes)
| HTTPError (st : Z) (header : option string) (body : option bytes)
| URLError (reason : string)
| OSErrorRaised (text : string)
| ValueErrorRaised (text : string)
| HTTPExceptionRaised.

Section Interp.
Context `{Interpreter}.

(** [str(v)] of a query value that is not a bool. *)
Definition query_text (v : pyval) : string :=
  match v with
  | PNone => "None"
  | PBool b => if b then "true" else "false"
  | PInt z => str_of_int z
  | PFloat f => float_repr f
  | PStr s => s
  | _ => str_of_container v
  end.

(** The pairs of a query: null values are dropped, booleans are lower-case. *)
Definition query_pairs (query : fields) : list (string * string) :=
  map (fun '(k, v) => (k, query_text v)) (compact query).

(** [_query_string]. *)
Definition query_string (query : option fields) : string :=
  match query with
  | None => ""
  | Some query =>
      match query_pairs query with
      | [] => ""
      | pairs => "?" +:+ urlencode pairs
      end
  end.

(** ** Answers *)

Definition str_get (d : list (pyval * pyval)) (k : string) : option string :=
  match dict_get d k with Some (PStr s) => Some s | _ => None end.

(** [_field_errors]. *)
Definition field_error (item : pyval) : option FieldError :=
  match item with
  | PDict d =>
      match str_get d "field", str_get d "message" with
      | Some f, Some m => Some (mk_FieldError f m (str_get d "code"))
      | _, _ => None
      end
  | _ => None
  end.

Definition field_errors_of (raw : option pyval) : list FieldError :=
  match raw with
  | Some (PList items) => omap field_error items
  | _ => []
  end.

Definition join_fields (fs : list FieldError) : string :=
  String.concat "; " (map (fun f => FieldError_field f +:+ ": " +:+ FieldError_message f) fs).

(** The first of [detail] and [title] that is a string. *)
Definition problem_message (d : list (pyval * pyval)) (message : pyval) : pyval :=
  match str_get d "detail" with
  | Some s => PStr s
  | None => match str_get d "title" with Some s => PStr s | None => message end
  end.

(** What the body of an error says: the code, the message and the fields. *)
Definition error_detail (payload : pyval) (code message : pyval) : pyval * pyval * list FieldError :=
  match payload with
  | PDict d =>
      match dict_get d "error" with
      | Some (PDict err) =>
          (default code (dict_get err "code"), default message (dict_get err "message"), [])
      | _ =>
          match str_get d "code" with
          | Some c =>
              match field_errors_of (dict_get d "errors") with
              | [] => (PStr c, problem_message d message, [])
              | fs => (PStr c, PStr (join_fields fs), fs)
              end
          | None => (code, message, [])
          end
      end
  | _ => (code, message, [])
  end.

(** [_parse_retry_after]: a header that is not an integer is ignored, one too
    large for a float is an [OverflowError] nothing catches. *)
Definition parse_retry_after (header : option string) : pyresult (option pyfloat) :=
  match header with
  | None => Ok None
  | Some raw =>
      match int_of_str raw with
      | Raise _ => Ok None
      | Ok n => let* f := float_of_int n in Ok (Some f)
      end
  end.

(** [_error_from], which raises when [_parse_retry_after] does. *)
Definition error_from (st : Z) (header : option string) (body : option bytes) : http_exn :=
  let c := PStr "http_error" in
  let m := PStr ("HTTP " +:+ str_of_int st) in
  let '(c, m, fs) :=
    match body with
    | None => (c, m, [])
    | Some bs =>
        match bind (decode_strict bs) loads with
        | Ok payload => error_detail payload c m
        | Raise _ => (c, m, [])
        end
    end in
  match parse_retry_after header with
  | Ok hint => HttpExn (mk_BrainHttpError st c m fs hint)
  | Raise e => HttpPyExn e
  end.

Definition transport_error (verb url reason : string) : http_exn :=
  HttpExn (http_error 0 "transport" (verb +:+ " to " +:+ url +:+ " failed: " +:+ reason)).

(** ** The client *)

Record BrainHttpClient : Type := mk_BrainHttpClient {
  base : string;
  api_key : string;
  retry : HttpRetryPolicy
}.

Definition control_byte (b : byte) : bool :=
  let n := byte_to_Z b in ((n <? 0x20) && negb (n =? 9)) || (n =? 0x7F).

(** *** [urllib.parse.urlparse], as far as the scheme *)

Fixpoint lstrip_controls (s : string) : string :=
  match s with
  | String c s' => if (N_of_ascii c <=? 32)%N then lstrip_controls s' else s
  | EmptyString => EmptyString
  end.

Definition unsafe_char (c : ascii) : bool :=
  Ascii.eqb c "009" || Ascii.eqb c "010" || Ascii.eqb c "013".

Fixpoint drop_unsafe (s : string) : string :=
  match s with
  | String c s => if unsafe_char c then drop_unsafe s else String c (drop_unsafe s)
  | EmptyString => EmptyString
  end.

Definition is_alpha (c : ascii) : bool :=
  let n := Z.of_N (N_of_ascii c) in in_range 65 90 n || in_range 97 122 n.

Definition scheme_char (c : ascii) : bool :=
  is_alpha c || is_digit c || Ascii.eqb c "+" || Ascii.eqb c "-" || Ascii.eqb c ".".

Definition lower_char (c : ascii) : ascii :=
  let n := Z.of_N (N_of_ascii c) in
  if in_range 65 90 n then ascii_of_N (Z.to_N (n + 32)) else c.

Fixpoint lower (s : string) : string :=
  match s with String c s => String (lower_char c) (lower s) | EmptyString => EmptyString end.

(** The scheme (empty when there is none) and the rest. *)
Definition split_scheme (url : string) : string * string :=
  let '(scheme, rest) := partition ":" url in
  match scheme with
  | String c _ =>
      if negb (lacks ":" url) && is_alpha c && all_chars scheme_char scheme then (lower scheme, rest)
      else ("", url)
  | EmptyString => ("", url)
  end.

(** The authority: between the two slashes and the next delimiter. *)
Fixpoint until_delimiter (s : string) : string :=
  match s with
  | String c s =>
      if Ascii.eqb c "/" || Ascii.eqb c "?" || Ascii.eqb c "#" then EmptyString
      else String c (until_delimiter s)
  | EmptyString => EmptyString
  end.

(** [urllib.parse.urlparse(url).scheme]. *)
Definition url_scheme (url : string) : pyresult string :=
  let '(scheme, rest) := split_scheme (drop_unsafe (lstrip_controls url)) in
  match rest with
  | String "/" (String "/" rest) =>
      if authority_ok (until_delimiter rest) then Ok scheme else Raise ValueError
  | _ => Ok scheme
  end.

Fixpoint rstrip_slashes (s : string) : string :=
  match s with
  | String c s =>
      match rstrip_slashes s with
      | EmptyString => if Ascii.eqb c "/" then EmptyString else String c EmptyString
      | s => String c s
      end
  | EmptyString => EmptyString
  end.

(** [BrainHttpClient.__init__]. *)
Definition http_client (key base_url : string) (policy : option HttpRetryPolicy)
    : result http_exn BrainHttpClient :=
  if String.eqb key "" then Raise (HttpExn (http_error 0 "config" "api_key is required"))
  else if existsb control_byte (str_bytes key) then
    Raise (HttpExn (http_error 0 "config" "api_key must not contain control characters"))
  else
    let* scheme := lift_error HttpPyExn (url_scheme base_url) in
    if String.eqb scheme "http" || String.eqb scheme "https" then
      Ok (mk_BrainHttpClient (rstrip_slashes base_url) key (default default_http_policy policy))
    else
      Raise (HttpExn (http_error 0 "config"
        ("base_url must be http:// or https://, got "
         +:+ (if String.eqb scheme "" then "no" else scheme) +:+ " scheme"))).

(** *** One request *)

(** What [_request_once] sends; a body that is not JSON raises before that. *)
Definition make_request (self : BrainHttpClient) (c : http_call) : pyresult http_request :=
  let url := base self +:+ call_path c +:+ query_string (call_query c) in
  let* data := match call_body c with
               | None => Ok None
               | Some body => let* text := dumps (obj body) in Ok (Some text)
               end in
  Ok (mk_http_request (call_method c) url
        (("authorization", "Bearer " +:+ api_key self)
         :: match data with Some _ => [("content-type", "application/json")] | None => [] end)
        data).

(** What [_request_once] makes of what [urlopen] came to. *)
Definition read_answer (url : string) (r : urlopen_result) : result http_exn pyval :=
  match r with
  | Answered body =>
      match decode_strict body with
      | Raise _ => Raise (transport_error "request" url (decode_error_text body))
      | Ok "" => Ok (PDict [])
      | Ok text => lift_error HttpPyExn (loads text)
      end
  | HTTPError st header body => Raise (error_from st header body)
  | URLError reason => Raise (transport_error "request" url reason)
  | OSErrorRaised text => Raise (transport_error "request" url text)
  | ValueErrorRaised text => Raise (transport_error "request" url text)
  | HTTPExceptionRaised => Raise HTTPException
  end.

(** [_request_once]. *)
Definition request_once (self : BrainHttpClient) (urlopen : http_request -> urlopen_result)
    (c : http_call) : result http_exn pyval :=
  let* r := lift_error HttpPyExn (make_request self c) in
  read_answer (req_url r) (urlopen r).

(** *** The retry loop *)

(** How a request ends: its outcome, how many attempts it took, and the sleeps
    between them. *)
Record http_run : Type := mk_http_run {
  http_outcome : result http_exn pyval;
  http_calls : Z;
  http_sleeps : list pyfloat
}.

(** The wait after a failed attempt. *)
Definition http_wait (policy : HttpRetryPolicy) (attempt : Z) (e : BrainHttpError) : pyresult pyfloat :=
  let* delay := http_backoff policy attempt (retry_after e) in
  let* _ := time_sleep delay in
  Ok delay.

(** [while True] of [_request], from an attempt on; [once n] is the [n]-th
    [_request_once]. The fuel is the number of attempts the policy allows. *)
Fixpoint request_from (policy : HttpRetryPolicy) (idem : bool) (once : Z -> result http_exn pyval)
    (fuel : nat) (attempt : Z) : http_run :=
  match once attempt with
  | Raise (HttpExn e) =>
      if idem && should_retry policy attempt e then
        match http_wait policy attempt e with
        | Raise pe => mk_http_run (Raise (HttpPyExn pe)) attempt []
        | Ok delay =>
            match fuel with
            | O => mk_http_run (Raise (HttpExn e)) attempt [delay]
            | S fuel =>
                let run := request_from policy idem once fuel (attempt + 1) in
                mk_http_run (http_outcome run) (http_calls run) (delay :: http_sleeps run)
            end
        end
      else mk_http_run (Raise (HttpExn e)) attempt []
  | outcome => mk_http_run outcome attempt []
  end.

(** [_request]; [urlopen n] is what [urlopen] does at the [n]-th attempt. *)
Definition request (self : BrainHttpClient) (urlopen : Z -> http_request -> urlopen_result)
    (c : http_call) : http_run :=
  request_from (retry self) (idempotent c) (fun n => request_once self (urlopen n) c)
    (Z.to_nat (max_attempts (retry self))) 1.

(** ** Streams *)

(** What [_open_stream] sends. *)
Definition stream_request (self : BrainHttpClient) (method path : string) (query : option fields)
    : http_request :=
  mk_http_request method (base self +:+ path +:+ query_string query)
    [("authorization", "Bearer " +:+ api_key self); ("accept", "text/event-stream")] None.

(** What opening a stream comes to: [None] is a response to iterate over. *)
Definition http_open_stream (url : string) (r : urlopen_result) : result http_exn unit :=
  match r with
  | Answered _ => Ok tt
  | HTTPError st header body => Raise (error_from st header body)
  | URLError reason => Raise (transport_error "subscribe" url reason)
  | OSErrorRaised text => Raise (transport_error "subscribe" url text)
  | ValueErrorRaised text => Raise (transport_error "subscribe" url text)
  | HTTPExceptionRaised => Raise HTTPException
  end.

End Interp.
