(* ===== verification/HttpClient.v ===== *)
(** * HttpClient

    [http/client.py], the verbs: what each asks the server for, and the result
    type it makes of the answer. *)

From S2P Require Import Prelude PyFloat PyValue Rfc8949 PyText PyJson HttpContract HttpTypes HttpCore.

(** ** Values of arguments *)

(** An optional argument that may be left out. *)
Definition given {A} (f : A -> pyval) (x : option A) : pyval :=
  match x with Some a => f a | None => PNone end.

(** [f(x) if x else None]: an empty sequence or mapping is left out too. *)
Definition filled {A} (f : list A -> pyval) (x : option (list A)) : pyval :=
  match x with Some (a :: l) => f (a :: l) | _ => PNone end.

(** [v or None]. *)
Definition or_none (v : pyval) : pyval := if py_bool v then v else PNone.

(** [list(l)] and [dict(d)] of homogeneous arguments; a mapping to floats may hold
    integers as well, so it is a mapping to any values, as its [dict] is [obj]. *)
Definition list_of {A} (f : A -> pyval) (l : list A) : pyval := PList (map f l).
Definition dict_of {A} (f : A -> pyval) (d : list (string * A)) : pyval :=
  obj (map (fun '(k, a) => (k, f a)) d).

(** [",".join(l)]. *)
Definition comma_joined (l : list string) : pyval := PStr (String.concat "," l).

(** What a verb asks for, and how it reads the answer. *)
Record http_operation (A : Type) : Type := mk_operation {
  asks : http_call;
  reads : pyval -> pyresult A
}.
Arguments mk_operation {A} _ _.
Arguments asks {A} _.
Arguments reads {A} _ _.

(** ** Shared body builders *)

Definition query_body (text : string) (entity_anchor : option string)
    (kinds predicates : option (list string)) (sessions : option (list Z))
    (time_range : option (list (string * Z))) (as_of_record_time_unix_nanos : option Z)
    (confidence_min : option pyfloat) (include_tombstoned include_superseded : bool)
    (limit : option Z) (retrievers : option (list string)) (fusion : option fields) : fields :=
  compact
    [("text", PStr text); ("entity_anchor", given PStr entity_anchor);
     ("kinds", filled (list_of PStr) kinds); ("predicates", filled (list_of PStr) predicates);
     ("sessions", filled (list_of PInt) sessions);
     ("time_range", filled (dict_of PInt) time_range);
     ("as_of_record_time_unix_nanos", given PInt as_of_record_time_unix_nanos);
     ("confidence_min", given PFloat confidence_min);
     ("include_tombstoned", or_none (PBool include_tombstoned));
     ("include_superseded", or_none (PBool include_superseded)); ("limit", given PInt limit);
     ("retrievers", filled (list_of PStr) retrievers); ("fusion", filled obj fusion)].

Definition statement_body (kind subject predicate : string) (obj_ : fields) (confidence : pyfloat)
    (event_at_unix_nanos valid_from_unix_nanos valid_to_unix_nanos extractor_id : option Z)
    (schema_version session_id : option Z) (evidence : option (list string)) : fields :=
  compact
    [("kind", PStr kind); ("subject", PStr subject); ("predicate", PStr predicate);
     ("object", obj obj_); ("confidence", PFloat confidence);
     ("event_at_unix_nanos", given PInt event_at_unix_nanos);
     ("valid_from_unix_nanos", given PInt valid_from_unix_nanos);
     ("valid_to_unix_nanos", given PInt valid_to_unix_nanos);
     ("extractor_id", given PInt extractor_id); ("schema_version", given PInt schema_version);
     ("session_id", given PInt session_id); ("evidence", filled (list_of PStr) evidence)].

Definition relation_body (relation_type from_entity to_entity : string) (confidence : pyfloat)
    (valid_from_unix_nanos valid_to_unix_nanos extractor_id session_id : option Z)
    (evidence : option (list string)) (properties : option string) : fields :=
  compact
    [("relation_type", PStr relation_type); ("from_entity", PStr from_entity);
     ("to_entity", PStr to_entity); ("confidence", PFloat confidence);
     ("valid_from_unix_nanos", given PInt valid_from_unix_nanos);
     ("valid_to_unix_nanos", given PInt valid_to_unix_nanos);
     ("extractor_id", given PInt extractor_id); ("session_id", given PInt session_id);
     ("evidence", filled (list_of PStr) evidence); ("properties", given PStr properties)].

Definition http_encode (text : string) (session occurred_at : option Z) : http_operation EncodeResult :=
  mk_operation
    (mk_call "POST" "/v1/memories"
      (Some (compact
        [("text", PStr text); ("session", given PInt session);
         ("occurred_at_unix_nanos", given PInt occurred_at)]))
      None true)
    EncodeResult_from_dict.

Definition http_recall (query : string) (max_results : option Z) (subject scope : option string)
    (include_trace : option bool) : http_operation RecallResult :=
  mk_operation
    (mk_call "POST" "/v1/recall"
      (Some (compact
        [("query", PStr query); ("max_results", given PInt max_results);
         ("subject", given PStr subject); ("scope", given PStr scope);
         ("include_trace", given PBool include_trace)]))
      None true)
    RecallResult_from_dict.

Definition http_forget (memory_id : string) (hard : bool) : http_operation ForgetResult :=
  mk_operation
    (mk_call "DELETE" "/v1/memories"
      (Some [("memory_id", PStr memory_id); ("hard", PBool hard)])
      None true)
    ForgetResult_from_dict.

Definition http_link (source target kind : string) (weight : option pyfloat) : http_operation LinkResult :=
  mk_operation
    (mk_call "POST" "/v1/links"
      (Some (compact
        [("source", PStr source); ("target", PStr target); ("kind", PStr kind);
         ("weight", given PFloat weight)]))
      None false)
    LinkResult_from_dict.

Definition http_unlink (source target kind : string) : http_operation UnlinkResult :=
  mk_operation
    (mk_call "DELETE" "/v1/links"
      (Some [("source", PStr source); ("target", PStr target); ("kind", PStr kind)])
      None true)
    UnlinkResult_from_dict.

Definition http_plan (start goal : list (string * string))
    (max_steps max_wall_time_ms max_branches : option Z) (strategy : option string)
    : http_operation PlanResult :=
  mk_operation
    (mk_call "POST" "/v1/plan"
      (Some (compact
        [("start", dict_of PStr start); ("goal", dict_of PStr goal);
         ("max_steps", given PInt max_steps); ("max_wall_time_ms", given PInt max_wall_time_ms);
         ("max_branches", given PInt max_branches); ("strategy", given PStr strategy)]))
      None true)
    PlanResult_from_dict.

Definition http_reason (observation : list (string * string)) (depth : option Z)
    (confidence_threshold : option pyfloat) (max_inferences budget_wall_time_ms : option Z)
    : http_operation ReasonResult :=
  mk_operation
    (mk_call "POST" "/v1/reason"
      (Some (compact
        [("observation", dict_of PStr observation); ("depth", given PInt depth);
         ("confidence_threshold", given PFloat confidence_threshold);
         ("max_inferences", given PInt max_inferences);
         ("budget_wall_time_ms", given PInt budget_wall_time_ms)]))
      None true)
    ReasonResult_from_dict.

Definition whoami : http_operation Whoami :=
  mk_operation
    (mk_call "GET" "/v1/whoami" None None true)
    Whoami_from_dict.

Definition http_capabilities : http_operation HttpCapabilities :=
  mk_operation
    (mk_call "GET" "/v1/capabilities" None None true)
    Capabilities_from_dict.

Definition http_memory_list (limit : option Z) (cursor dir : option string)
    (include_tombstoned : option bool) : http_operation MemoryListPage :=
  mk_operation
    (mk_call "GET" "/v1/memories" None
      (Some (compact
        [("limit", given PInt limit); ("cursor", given PStr cursor); ("dir", given PStr dir);
         ("include_tombstoned", given PBool include_tombstoned)]))
      true)
    MemoryListPage_from_dict.

Definition http_memory_inspect (memory_id : string) : http_operation MemoryInspect :=
  mk_operation
    (mk_call "GET" ("/v1/memories/" +:+ seg memory_id +:+ "/inspect") None None true)
    MemoryInspect_from_dict.

Definition http_list_entities (type_id : option Z) (prefix_ : option string)
    (mention_count_min : option Z) (include_tombstoned include_merged : option bool)
    (limit : option Z) (cursor : option string) : http_operation ListEntitiesResult :=
  mk_operation
    (mk_call "GET" "/v1/entities" None
      (Some (compact
        [("type_id", given PInt type_id); ("prefix", given PStr prefix_);
         ("mention_count_min", given PInt mention_count_min);
         ("include_tombstoned", given PBool include_tombstoned);
         ("include_merged", given PBool include_merged); ("limit", given PInt limit);
         ("cursor", given PStr cursor)]))
      true)
    ListEntitiesResult_from_dict.

Definition http_get_entity (entity_id : string) : http_operation EntityDetail :=
  mk_operation
    (mk_call "GET" ("/v1/entities/" +:+ seg entity_id) None None true)
    EntityDetail_from_dict.

Definition http_create_entity (entity_type_id : Z) (canonical_name : string)
    (aliases : option (list string)) : http_operation CreateEntityResult :=
  mk_operation
    (mk_call "POST" "/v1/entities"
      (Some (compact
        [("entity_type_id", PInt entity_type_id); ("canonical_name", PStr canonical_name);
         ("aliases", given (list_of PStr) aliases)]))
      None false)
    CreateEntityResult_from_dict.

Definition http_resolve_entity (candidate_name : string) (resolution_context : option string)
    (type_hint : option Z) (allow_create : option bool) : http_operation ResolveEntityResult :=
  mk_operation
    (mk_call "POST" "/v1/entities/resolve"
      (Some (compact
        [("candidate_name", PStr candidate_name);
         ("resolution_context", given PStr resolution_context);
         ("type_hint", given PInt type_hint); ("allow_create", given PBool allow_create)]))
      None false)
    ResolveEntityResult_from_dict.

Definition http_traverse_relations (entity_id : string) (direction : option string)
    (relation_types : option (list string)) (max_depth max_nodes : option Z)
    (include_superseded : option bool) : http_operation TraverseResult :=
  mk_operation
    (mk_call "POST" ("/v1/entities/" +:+ seg entity_id +:+ "/traverse")
      (Some (compact
        [("direction", given PStr direction);
         ("relation_types", given (list_of PStr) relation_types);
         ("max_depth", given PInt max_depth); ("max_nodes", given PInt max_nodes);
         ("include_superseded", given PBool include_superseded)]))
      None true)
    TraverseResult_from_dict.

Definition list_relations (entity_id : string) (direction relation_type : option string)
    (include_superseded include_tombstoned : option bool) (limit : option Z)
    (cursor : option string) : http_operation ListRelationsResult :=
  mk_operation
    (mk_call "GET" ("/v1/entities/" +:+ seg entity_id +:+ "/relations") None
      (Some (compact
        [("direction", given PStr direction); ("type", given PStr relation_type);
         ("include_superseded", given PBool include_superseded);
         ("include_tombstoned", given PBool include_tombstoned); ("limit", given PInt limit);
         ("cursor", given PStr cursor)]))
      true)
    ListRelationsResult_from_dict.

Definition http_get_relation (relation_id : string) (follow_supersession : option bool)
    : http_operation RelationDetail :=
  mk_operation
    (mk_call "GET" ("/v1/relations/" +:+ seg relation_id) None
      (Some (compact
        [("follow_supersession", given PBool follow_supersession)]))
      true)
    RelationDetail_from_dict.

Definition http_list_statements (subject predicate kind : option string)
    (min_confidence : option pyfloat) (only_current include_tombstoned : option bool)
    (limit : option Z) (cursor : option string) : http_operation ListStatementsResult :=
  mk_operation
    (mk_call "GET" "/v1/statements" None
      (Some (compact
        [("subject", given PStr subject); ("predicate", given PStr predicate);
         ("kind", given PStr kind); ("min_confidence", given PFloat min_confidence);
         ("only_current", given PBool only_current);
         ("include_tombstoned", given PBool include_tombstoned); ("limit", given PInt limit);
         ("cursor", given PStr cursor)]))
      true)
    ListStatementsResult_from_dict.

Definition http_get_statement (statement_id : string) (follow_supersession : option bool)
    : http_operation StatementDetail :=
  mk_operation
    (mk_call "GET" ("/v1/statements/" +:+ seg statement_id) None
      (Some (compact
        [("follow_supersession", given PBool follow_supersession)]))
      true)
    StatementDetail_from_dict.

Definition http_graph_fetch (limit : option Z) (cursor : option string)
    (include_statements include_memories include_memory_edges include_tombstoned : option bool)
    : http_operation GraphPage :=
  mk_operation
    (mk_call "GET" "/v1/graph" None
      (Some (compact
        [("limit", given PInt limit); ("cursor", given PStr cursor);
         ("include_statements", given PBool include_statements);
         ("include_memories", given PBool include_memories);
         ("include_memory_edges", given PBool include_memory_edges);
         ("include_tombstoned", given PBool include_tombstoned)]))
      true)
    GraphPage_from_dict.

Definition http_get_schema (namespace : option string) (version : option Z) : http_operation Schema :=
  mk_operation
    (mk_call "GET" "/v1/schema" None
      (Some (compact
        [("namespace", given PStr namespace); ("version", given PInt version)]))
      true)
    Schema_from_dict.

Definition http_upload_schema (schema_document : string) (dry_run allow_breaking : option bool)
    : http_operation SchemaUpload :=
  mk_operation
    (mk_call "POST" "/v1/schema"
      (Some (compact
        [("schema_document", PStr schema_document); ("dry_run", given PBool dry_run);
         ("allow_breaking", given PBool allow_breaking)]))
      None false)
    SchemaUpload_from_dict.

Definition http_validate_schema (schema_document : string) : http_operation SchemaValidate :=
  mk_operation
    (mk_call "POST" "/v1/schema/validate"
      (Some [("schema_document", PStr schema_document)])
      None true)
    SchemaValidate_from_dict.

Definition http_replace_schema (schema_document : string) (force_drop_existing : bool)
    : http_operation SchemaReplace :=
  mk_operation
    (mk_call "PUT" "/v1/schema"
      (Some [("schema_document", PStr schema_document);
       ("force_drop_existing", PBool force_drop_existing)])
      None false)
    SchemaReplace_from_dict.

Definition http_create_space (metadata : option string) : http_operation SpaceProvision :=
  mk_operation
    (mk_call "POST" "/v1/spaces"
      (Some (compact
        [("metadata", given PStr metadata)]))
      None true)
    SpaceProvision_from_dict.

Definition http_list_spaces (limit : option Z) : http_operation ListSpacesResult :=
  mk_operation
    (mk_call "GET" "/v1/spaces" None
      (Some (compact
        [("limit", given PInt limit)]))
      true)
    ListSpacesResult_from_dict.

Definition http_delete_space : http_operation SpaceErased :=
  mk_operation
    (mk_call "DELETE" "/v1/spaces" None None true)
    SpaceErased_from_dict.

Definition http_create_session (session_id : Z) (title : option string) : http_operation SessionProvision :=
  mk_operation
    (mk_call "POST" "/v1/sessions"
      (Some (compact
        [("session_id", PInt session_id); ("title", given PStr title)]))
      None true)
    SessionProvision_from_dict.

Definition http_list_sessions (limit : option Z) : http_operation ListSessionsResult :=
  mk_operation
    (mk_call "GET" "/v1/sessions" None
      (Some (compact
        [("limit", given PInt limit)]))
      true)
    ListSessionsResult_from_dict.

Definition http_delete_session (session_id : Z) (hard : bool) : http_operation SessionErased :=
  mk_operation
    (mk_call "DELETE" ("/v1/sessions/" +:+ seg (str_of_int session_id)) None
      (Some (compact
        [("hard", or_none (PBool hard))]))
      true)
    SessionErased_from_dict.

Definition http_update_entity (entity_id canonical_name : string) (aliases : option (list string))
    (attributes : option string) : http_operation EntityDetail :=
  mk_operation
    (mk_call "PUT" ("/v1/entities/" +:+ seg entity_id)
      (Some (compact
        [("canonical_name", PStr canonical_name); ("aliases", filled (list_of PStr) aliases);
         ("attributes", given PStr attributes)]))
      None true)
    EntityDetail_from_dict.

Definition http_rename_entity (entity_id new_canonical_name : string) (move_to_alias : bool)
    : http_operation EntityDetail :=
  mk_operation
    (mk_call "POST" ("/v1/entities/" +:+ seg entity_id +:+ "/rename")
      (Some [("new_canonical_name", PStr new_canonical_name); ("move_to_alias", PBool move_to_alias)])
      None true)
    EntityDetail_from_dict.

Definition http_merge_entities (survivor_id merged : string) (confidence : pyfloat) (reason : string)
    : http_operation MergeEntitiesResult :=
  mk_operation
    (mk_call "POST" ("/v1/entities/" +:+ seg survivor_id +:+ "/merge")
      (Some (compact
        [("merged", PStr merged); ("confidence", PFloat confidence);
         ("reason", or_none (PStr reason))]))
      None false)
    MergeEntitiesResult_from_dict.

Definition http_unmerge_entity (merged_entity_id : string) : http_operation UnmergeEntityResult :=
  mk_operation
    (mk_call "POST" ("/v1/entities/" +:+ seg merged_entity_id +:+ "/unmerge") None None false)
    UnmergeEntityResult_from_dict.

Definition http_tombstone_entity (entity_id : string) (reason : option string)
    : http_operation TombstoneResult :=
  mk_operation
    (mk_call "DELETE" ("/v1/entities/" +:+ seg entity_id) None
      (Some (compact
        [("reason", given PStr reason)]))
      true)
    TombstoneResult_from_dict.

Definition http_create_statement (kind subject predicate : string) (obj_ : fields)
    (confidence : pyfloat)
    (event_at_unix_nanos valid_from_unix_nanos valid_to_unix_nanos extractor_id : option Z)
    (schema_version session_id : option Z) (evidence : option (list string))
    : http_operation CreateStatementResult :=
  mk_operation
    (mk_call "POST" "/v1/statements"
      (Some (statement_body kind subject predicate obj_ confidence event_at_unix_nanos
          valid_from_unix_nanos valid_to_unix_nanos extractor_id schema_version session_id
          evidence))
      None false)
    CreateStatementResult_from_dict.

Definition http_supersede_statement (statement_id kind subject predicate : string) (obj_ : fields)
    (confidence : pyfloat)
    (event_at_unix_nanos valid_from_unix_nanos valid_to_unix_nanos extractor_id : option Z)
    (schema_version session_id : option Z) (evidence : option (list string))
    : http_operation SupersedeStatementResult :=
  mk_operation
    (mk_call "POST" ("/v1/statements/" +:+ seg statement_id +:+ "/supersede")
      (Some (statement_body kind subject predicate obj_ confidence event_at_unix_nanos
          valid_from_unix_nanos valid_to_unix_nanos extractor_id schema_version session_id
          evidence))
      None false)
    SupersedeStatementResult_from_dict.

Definition http_tombstone_statement (statement_id : string) (reason : Z) (message : option string)
    : http_operation TombstoneResult :=
  mk_operation
    (mk_call "DELETE" ("/v1/statements/" +:+ seg statement_id) None
      (Some (compact
        [("reason", or_none (PInt reason)); ("message", given PStr message)]))
      true)
    TombstoneResult_from_dict.

Definition http_retract_statement (statement_id : string) (reason : Z) (message : option string)
    : http_operation RetractStatementResult :=
  mk_operation
    (mk_call "POST" ("/v1/statements/" +:+ seg statement_id +:+ "/retract") None
      (Some (compact
        [("reason", or_none (PInt reason)); ("message", given PStr message)]))
      true)
    RetractStatementResult_from_dict.

Definition http_statement_history (statement_id : string) (include_tombstoned : bool)
    (limit : option Z) (cursor : option string) : http_operation StatementHistoryResult :=
  mk_operation
    (mk_call "GET" ("/v1/statements/" +:+ seg statement_id +:+ "/history") None
      (Some (compact
        [("include_tombstoned", or_none (PBool include_tombstoned)); ("limit", given PInt limit);
         ("cursor", given PStr cursor)]))
      true)
    StatementHistoryResult_from_dict.

Definition http_create_relation (relation_type from_entity to_entity : string) (confidence : pyfloat)
    (valid_from_unix_nanos valid_to_unix_nanos extractor_id session_id : option Z)
    (evidence : option (list string)) (properties : option string)
    : http_operation CreateRelationResult :=
  mk_operation
    (mk_call "POST" "/v1/relations"
      (Some (relation_body relation_type from_entity to_entity confidence valid_from_unix_nanos
          valid_to_unix_nanos extractor_id session_id evidence properties))
      None false)
    CreateRelationResult_from_dict.

Definition http_supersede_relation (relation_id relation_type from_entity to_entity : string)
    (confidence : pyfloat)
    (valid_from_unix_nanos valid_to_unix_nanos extractor_id session_id : option Z)
    (evidence : option (list string)) (properties : option string)
    : http_operation SupersedeRelationResult :=
  mk_operation
    (mk_call "POST" ("/v1/relations/" +:+ seg relation_id +:+ "/supersede")
      (Some (relation_body relation_type from_entity to_entity confidence valid_from_unix_nanos
          valid_to_unix_nanos extractor_id session_id evidence properties))
      None false)
    SupersedeRelationResult_from_dict.

Definition http_tombstone_relation (relation_id : string) (reason : option string)
    : http_operation TombstoneResult :=
  mk_operation
    (mk_call "DELETE" ("/v1/relations/" +:+ seg relation_id) None
      (Some (compact
        [("reason", given PStr reason)]))
      true)
    TombstoneResult_from_dict.

Definition http_list_schemas (limit : option Z) (cursor : option string)
    : http_operation ListSchemasResult :=
  mk_operation
    (mk_call "GET" "/v1/schemas" None
      (Some (compact
        [("limit", given PInt limit); ("cursor", given PStr cursor)]))
      true)
    ListSchemasResult_from_dict.

Definition list_extractors : http_operation ListExtractorsResult :=
  mk_operation
    (mk_call "GET" "/v1/extractors" None None true)
    ListExtractorsResult_from_dict.

Definition http_drop_schema (kind name : string) (force : bool) : http_operation DropSchemaResult :=
  mk_operation
    (mk_call "DELETE" ("/v1/schema/" +:+ seg kind +:+ "/" +:+ seg name) None
      (Some (compact
        [("force", or_none (PBool force))]))
      false)
    DropSchemaResult_from_dict.

Definition encode_vector (text : string) (vector : list pyfloat) (model_fingerprint : string)
    (session kind : option Z) (salience_hint : option pyfloat) (deduplicate : bool)
    : http_operation EncodeResult :=
  mk_operation
    (mk_call "POST" "/v1/memories/vector"
      (Some (compact
        [("text", PStr text); ("vector", list_of PFloat vector);
         ("model_fingerprint", PStr model_fingerprint); ("session", given PInt session);
         ("kind", given PInt kind); ("salience_hint", given PFloat salience_hint);
         ("deduplicate", or_none (PBool deduplicate))]))
      None true)
    EncodeResult_from_dict.

Definition http_materialize_procedural (sessions : option (list Z)) (top_k : option Z)
    (min_confidence : pyfloat) (categories : option (list string))
    : http_operation MaterializeProceduralResult :=
  mk_operation
    (mk_call "POST" "/v1/procedural/materialize"
      (Some (compact
        [("sessions", filled (list_of PInt) sessions); ("top_k", given PInt top_k);
         ("min_confidence", PFloat min_confidence);
         ("categories", filled (list_of PStr) categories)]))
      None true)
    MaterializeProceduralResult_from_dict.

Definition http_query_explain (text : string) (entity_anchor : option string)
    (kinds predicates : option (list string)) (sessions : option (list Z))
    (time_range : option (list (string * Z))) (as_of_record_time_unix_nanos : option Z)
    (confidence_min : option pyfloat) (include_tombstoned include_superseded : bool)
    (limit : option Z) (retrievers : option (list string)) (fusion : option fields)
    : http_operation QueryExplainResult :=
  mk_operation
    (mk_call "POST" "/v1/query/explain"
      (Some (query_body text entity_anchor kinds predicates sessions time_range
          as_of_record_time_unix_nanos confidence_min include_tombstoned include_superseded
          limit retrievers fusion))
      None true)
    QueryExplainResult_from_dict.

Definition http_query_trace (text : string) (entity_anchor : option string)
    (kinds predicates : option (list string)) (sessions : option (list Z))
    (time_range : option (list (string * Z))) (as_of_record_time_unix_nanos : option Z)
    (confidence_min : option pyfloat) (include_tombstoned include_superseded : bool)
    (limit : option Z) (retrievers : option (list string)) (fusion : option fields)
    : http_operation QueryTraceResult :=
  mk_operation
    (mk_call "POST" "/v1/query/trace"
      (Some (query_body text entity_anchor kinds predicates sessions time_range
          as_of_record_time_unix_nanos confidence_min include_tombstoned include_superseded
          limit retrievers fusion))
      None true)
    QueryTraceResult_from_dict.

Definition put_llm_credential (provider model api_key : string) : http_operation LlmCredential :=
  mk_operation
    (mk_call "PUT" "/v1/llm-credential"
      (Some [("provider", PStr provider); ("model", PStr model); ("api_key", PStr api_key)])
      None false)
    LlmCredential_from_dict.

Definition get_llm_credential : http_operation LlmCredential :=
  mk_operation
    (mk_call "GET" "/v1/llm-credential" None None true)
    LlmCredential_from_dict.

Definition delete_llm_credential : http_operation LlmCredentialDeleted :=
  mk_operation
    (mk_call "DELETE" "/v1/llm-credential" None None true)
    LlmCredentialDeleted_from_dict.

Definition test_llm_credential (provider model api_key : string) : http_operation LlmCredentialCheck :=
  mk_operation
    (mk_call "POST" "/v1/llm-credential/test"
      (Some [("provider", PStr provider); ("model", PStr model); ("api_key", PStr api_key)])
      None true)
    LlmCredentialCheck_from_dict.

Definition verify_llm_credential : http_operation LlmCredentialCheck :=
  mk_operation
    (mk_call "POST" "/v1/llm-credential/verify" None None true)
    LlmCredentialCheck_from_dict.

(** ** Running a verb *)

Section Run.
Context `{Interpreter}.

(** [X.from_dict(self._request(...))]. *)
Definition perform {A} (self : BrainHttpClient) (urlopen : Z -> http_request -> urlopen_result)
    (op : http_operation A) : result http_exn A :=
  let* d := http_outcome (request self urlopen (asks op)) in
  lift_error HttpPyExn (reads op d).

(** [subscribe]: the query of the feed, and the request that opens it. *)
Definition subscribe_query (sessions : option (list Z)) (kinds memories : option (list string))
    (include_history : bool) (from_lsn max_inflight : option Z) : fields :=
  compact
    [("sessions", filled (fun l => comma_joined (map str_of_int l)) sessions);
     ("kinds", filled comma_joined kinds); ("memories", filled comma_joined memories);
     ("include_history", or_none (PBool include_history)); ("from_lsn", given PInt from_lsn);
     ("max_inflight", given PInt max_inflight)].

Definition http_subscribe (self : BrainHttpClient) (urlopen : http_request -> urlopen_result)
    (sessions : option (list Z)) (kinds memories : option (list string))
    (include_history : bool) (from_lsn max_inflight : option Z) : result http_exn unit :=
  let r := stream_request self "GET" "/v1/subscribe"
             (Some (subscribe_query sessions kinds memories include_history from_lsn max_inflight)) in
  http_open_stream (req_url r) (urlopen r).

End Run.
