(* ===== verification/Sse.v ===== *)
(** * Sse

    [http/sse.py]: the change feed over Server-Sent Events. The bytes the
    response delivers are events of the environment; the subscription keeps a
    buffer and the frame it is assembling. *)

From S2P Require Import Prelude PyFloat PyValue Rfc8949 PyText PyJson HttpTypes HttpCore.
From Stdlib Require Import Strings.Ascii.

(** ** State *)

Inductive FeedItem : Type :=
| FeedEvent (e : HttpSubscriptionEvent)
| FeedClosed (c : SubscriptionClosed).

(** [_Frame]. *)
Record SseFrame : Type := mk_Frame {
  frame_event : option string;
  frame_data : string
}.

Record SseSubscription : Type := mk_Subscription {
  buf : bytes;
  event : option string;
  data : list string;
  last_event_id : option string;
  closed : bool
}.

(** [Subscription(resp)]. *)
Definition new_subscription : SseSubscription := mk_Subscription [] None [] None false.

(** [close], which closes the response as well. *)
Definition sse_close (self : SseSubscription) : SseSubscription :=
  mk_Subscription (buf self) (event self) (data self) (last_event_id self) true.

(** ** Frames *)

Definition newline : string := String "010" "".

(** One line of the stream: what it does to the state, and the frame it
    dispatches. *)
Definition take_line (self : SseSubscription) (line : string) : SseSubscription * option SseFrame :=
  if String.eqb line "" then
    match data self with
    | [] => (mk_Subscription (buf self) None [] (last_event_id self) (closed self), None)
    | data =>
        (mk_Subscription (buf self) None [] (last_event_id self) (closed self),
         Some (mk_Frame (event self) (String.concat newline data)))
    end
  else if starts_with ":" line then (self, None)
  else
    let '(field, value) := partition ":" line in
    let value := remove_char " " value in
    (if String.eqb field "event" then
       mk_Subscription (buf self) (Some value) (data self) (last_event_id self) (closed self)
     else if String.eqb field "id" then
       mk_Subscription (buf self) (event self) (data self) (Some value) (closed self)
     else if String.eqb field "data" then
       mk_Subscription (buf self) (event self) (data self ++ [value]) (last_event_id self) (closed self)
     else self, None).

(** [raw.rstrip(b"\r").decode("utf-8", "replace")]. *)
Definition decode_line (raw : bytes) : string := decode_replace (rstrip_byte x0d raw).

Definition set_buf (self : SseSubscription) (b : bytes) : SseSubscription :=
  mk_Subscription b (event self) (data self) (last_event_id self) (closed self).

(** The loop of [_take_frame]; every round takes a line off the buffer, so its
    length is enough fuel. *)
Fixpoint take_frame_loop (fuel : nat) (self : SseSubscription) : SseSubscription * option SseFrame :=
  match fuel with
  | O => (self, None)
  | S fuel =>
      match cut_byte x0a (buf self) with
      | None => (self, None)
      | Some (raw, rest) =>
          match take_line (set_buf self rest) (decode_line raw) with
          | (self, Some frame) => (self, Some frame)
          | (self, None) => take_frame_loop fuel self
          end
      end
  end.

(** [_take_frame]. *)
Definition take_frame (self : SseSubscription) : SseSubscription * option SseFrame :=
  take_frame_loop (length (buf self)) self.

(** ** Items *)

Section Interp.
(** The text of a [JSONDecodeError]. *)
Context (json_error_text : string -> string).

(** [_decode]. *)
Definition sse_decode_frame (frame : SseFrame) : result http_exn FeedItem :=
  match loads (frame_data frame) with
  | Raise _ =>
      Raise (HttpExn (http_error 0 "transport"
        ("decode subscription frame: " +:+ json_error_text (frame_data frame))))
  | Ok payload =>
      lift_error HttpPyExn
        (if bool_decide (frame_event frame = Some "closed")
         then let* c := SubscriptionClosed_from_dict payload in Ok (FeedClosed c)
         else let* e := SubscriptionEvent_from_dict payload in Ok (FeedEvent e))
  end.

(** What [self._resp.read(4096)] does next: some bytes, the end of the body, or
    an exception. A closed response is at its end. *)
Inductive read_event : Type :=
| Chunk (bs : bytes)
| Eof
| ReadRaises (e : http_exn).

(** How a call of [__next__] ends; [Waiting] is a read that has not returned. *)
Inductive sse_outcome : Type :=
| Item (i : FeedItem)
| NextRaises (e : http_exn)
| StopIteration
| Waiting.

Definition item_outcome (r : result http_exn FeedItem) : sse_outcome :=
  match r with Ok i => Item i | Raise e => NextRaises e end.

(** [__next__] over the reads to come: its outcome, the state it leaves and the
    reads it has not used. *)
Fixpoint next (reads : list read_event) (self : SseSubscription)
    : sse_outcome * SseSubscription * list read_event :=
  match take_frame self with
  | (self, Some frame) => (item_outcome (sse_decode_frame frame), self, reads)
  | (self, None) =>
      if closed self then (StopIteration, self, reads)
      else
        match reads with
        | [] => (Waiting, self, [])
        | Chunk [] :: reads => (StopIteration, sse_close self, reads)
        | Chunk bs :: reads => next reads (set_buf self (buf self ++ bs))
        | Eof :: reads => (StopIteration, sse_close self, reads)
        | ReadRaises e :: reads => (NextRaises e, self, reads)
        end
  end.

(** The outcomes of so many calls of [__next__], and the state after them. *)
Fixpoint iterate (calls : nat) (reads : list read_event) (self : SseSubscription)
    : list sse_outcome * SseSubscription :=
  match calls with
  | O => ([], self)
  | S calls =>
      let '(o, self, reads) := next reads self in
      let '(os, self) := iterate calls reads self in
      (o :: os, self)
  end.

End Interp.

(** ** Reference: the frames of a whole stream *)

(** The complete lines of a stream of bytes. *)
Fixpoint complete_lines (fuel : nat) (bs : bytes) : list bytes :=
  match fuel with
  | O => []
  | S fuel =>
      match cut_byte x0a bs with
      | None => []
      | Some (raw, rest) => raw :: complete_lines fuel rest
      end
  end.

Definition lines_of (bs : bytes) : list bytes := complete_lines (length bs) bs.

(** Reading the lines one after the other. *)
Fixpoint dispatch (self : SseSubscription) (lines : list bytes) : SseSubscription * list SseFrame :=
  match lines with
  | [] => (self, [])
  | raw :: lines =>
      let '(self, frame) := take_line self (decode_line raw) in
      let '(self, frames) := dispatch self lines in
      (self, match frame with Some f => f :: frames | None => frames end)
  end.

(** The frames in a stream, however it is read. *)
Definition frames_of (bs : bytes) : list SseFrame := (dispatch new_subscription (lines_of bs)).2.

(** ** Lemmas *)

(** *** Lines *)

Lemma complete_lines_fuel fuel fuel' bs :
  (length bs <= fuel)%nat -> (length bs <= fuel')%nat ->
  complete_lines fuel bs = complete_lines fuel' bs.
Proof.
  revert fuel' bs; induction fuel as [|fuel IH]; intros [|fuel'] bs H H'; try done;
    [destruct bs; [done|simpl in *; lia]..|].
  cbn [complete_lines]. destruct (cut_byte x0a bs) as [[raw rest]|] eqn:E; [|done].
  apply cut_byte_length in E. f_equal. apply IH; lia.
Qed.

Lemma lines_of_cut bs raw rest :
  cut_byte x0a bs = Some (raw, rest) -> lines_of bs = raw :: lines_of rest.
Proof.
  intros E. pose proof (cut_byte_length _ _ _ _ E) as Hl. unfold lines_of.
  destruct bs as [|b bs]; [done|]. cbn [length] in *. cbn [complete_lines]. rewrite E. f_equal.
  apply complete_lines_fuel; lia.
Qed.

Lemma lines_of_no_cut bs : cut_byte x0a bs = None -> lines_of bs = [].
Proof. intros E. unfold lines_of. destruct bs; [done|]. cbn [length complete_lines]. by rewrite E. Qed.

Lemma lines_of_app raw rest : x0a ∉ raw -> lines_of (raw ++ x0a :: rest) = raw :: lines_of rest.
Proof. intros H. apply lines_of_cut. by apply cut_byte_app. Qed.

(** *** The buffer *)

(** The buffer is only moved by [_take_frame] and [__next__]. *)
Lemma take_line_set_buf self b line :
  take_line (set_buf self b) line = (set_buf (take_line self line).1 b, (take_line self line).2).
Proof.
  unfold take_line. destruct (String.eqb line ""); [by destruct (data self) eqn:E; cbn; rewrite E|].
  destruct (starts_with ":" line); [done|]. destruct (partition ":" line) as [field value].
  by destruct (String.eqb field "event"), (String.eqb field "id"), (String.eqb field "data").
Qed.

Lemma dispatch_set_buf self b lines :
  dispatch (set_buf self b) lines
  = (set_buf (dispatch self lines).1 b, (dispatch self lines).2).
Proof.
  revert self; induction lines as [|raw lines IH]; intros self; [done|].
  cbn [dispatch]. rewrite take_line_set_buf.
  destruct (take_line self (decode_line raw)) as [self' frame]. cbn [fst snd].
  rewrite IH. by destruct (dispatch self' lines).
Qed.

Lemma take_line_buf self line : buf (take_line self line).1 = buf self.
Proof.
  unfold take_line. destruct (String.eqb line ""); [by destruct (data self)|].
  destruct (starts_with ":" line); [done|]. destruct (partition ":" line) as [field value].
  by destruct (String.eqb field "event"), (String.eqb field "id"), (String.eqb field "data").
Qed.

Lemma take_line_closed self line : closed (take_line self line).1 = closed self.
Proof.
  unfold take_line. destruct (String.eqb line ""); [by destruct (data self)|].
  destruct (starts_with ":" line); [done|]. destruct (partition ":" line) as [field value].
  by destruct (String.eqb field "event"), (String.eqb field "id"), (String.eqb field "data").
Qed.

(** The frames still to come: those of the bytes in the buffer and behind it. *)
Definition to_come (self : SseSubscription) (bs : bytes) : list SseFrame :=
  (dispatch self (lines_of (buf self ++ bs))).2.

(** The id the subscription will have when it has read them. *)
Definition id_to_come (self : SseSubscription) (bs : bytes) : option string :=
  last_event_id (dispatch self (lines_of (buf self ++ bs))).1.

(** [_take_frame] takes the next frame of the stream, or everything that is
    complete in the buffer when no frame is. *)
Lemma take_frame_loop_spec fuel self rest :
  (length (buf self) <= fuel)%nat ->
  let '(self', frame) := take_frame_loop fuel self in
  closed self' = closed self
  /\ (frame = None -> cut_byte x0a (buf self') = None)
  /\ id_to_come self rest = id_to_come self' rest
  /\ to_come self rest
     = match frame with Some f => f :: to_come self' rest | None => to_come self' rest end.
Proof.
  revert self; induction fuel as [|fuel IH]; intros self Hf; cbn [take_frame_loop].
  - assert (buf self = []) as -> by (destruct (buf self); [done|simpl in *; lia]). done.
  - destruct (cut_byte x0a (buf self)) as [[raw rest']|] eqn:E; [|done].
    pose proof (cut_byte_length _ _ _ _ E) as Hlen.
    set (self1 := set_buf self rest').
    assert (Hlines : id_to_come self rest = id_to_come (take_line self1 (decode_line raw)).1 rest
        /\ to_come self rest = match (take_line self1 (decode_line raw)).2 with
                      | Some f => f :: to_come (take_line self1 (decode_line raw)).1 rest
                      | None => to_come (take_line self1 (decode_line raw)).1 rest end).
    { unfold to_come, id_to_come. rewrite take_line_buf. cbn [buf set_buf self1].
      rewrite (lines_of_cut _ raw (rest' ++ rest)) by by apply cut_byte_app_l.
      cbn [dispatch]. unfold self1. rewrite take_line_set_buf. cbn [fst snd].
      destruct (take_line self (decode_line raw)) as [self2 frame]. cbn [fst snd].
      rewrite dispatch_set_buf. cbn [fst snd last_event_id set_buf].
      by destruct (dispatch self2 (lines_of (rest' ++ rest))), frame. }
    destruct Hlines as [-> ->].
    pose proof (take_line_closed self1 (decode_line raw)) as Hc.
    pose proof (take_line_buf self1 (decode_line raw)) as Hb.
    destruct (take_line self1 (decode_line raw)) as [self2 [f|]]; cbn [fst snd] in *; [done|].
    specialize (IH self2). rewrite Hb in IH. specialize (IH ltac:(cbn [buf set_buf self1]; lia)).
    destruct (take_frame_loop fuel self2) as [self3 frame].
    change (closed self1) with (closed self) in Hc. by rewrite <- Hc.
Qed.

Lemma take_frame_spec self rest :
  let '(self', frame) := take_frame self in
  closed self' = closed self
  /\ (frame = None -> cut_byte x0a (buf self') = None)
  /\ id_to_come self rest = id_to_come self' rest
  /\ to_come self rest
     = match frame with Some f => f :: to_come self' rest | None => to_come self' rest end.
Proof. by apply take_frame_loop_spec. Qed.

(** *** Reading *)

(** The chunks of a stream that goes on to its end. *)
Definition chunks (cs : list bytes) : list read_event := map Chunk cs ++ [Eof].

Section Interp.
Context (json_error_text : string -> string).

Abbreviation outcome f := (item_outcome (sse_decode_frame json_error_text f)).

Lemma next_spec cs self :
  Forall (fun c => c <> []) cs -> closed self = false ->
  let '(o, self', reads) := next json_error_text (chunks cs) self in
  match to_come self (concat cs) with
  | [] => o = StopIteration /\ closed self' = true /\ cut_byte x0a (buf self') = None
      /\ id_to_come self (concat cs) = last_event_id self'
  | f :: fs => o = outcome f /\ closed self' = false
      /\ exists cs', reads = chunks cs' /\ Forall (fun c => c <> []) cs' /\ to_come self' (concat cs') = fs
          /\ id_to_come self (concat cs) = id_to_come self' (concat cs')
  end.
Proof.
  revert self; induction cs as [|c cs IH]; intros self Hcs Hc.
  - cbn [chunks map app next concat]. pose proof (take_frame_spec self []) as H.
    destruct (take_frame self) as [self' [f|]]; destruct H as (Hc' & Hn & Hi & ->).
    + split; [done|]. split; [congruence|]. by exists [].
    + rewrite Hc', Hc. unfold to_come. rewrite app_nil_r, lines_of_no_cut by by apply Hn.
      cbn [dispatch snd]. split_and!; try done; [by apply Hn|]. rewrite Hi. unfold id_to_come.
      by rewrite app_nil_r, lines_of_no_cut by by apply Hn.
  - apply Forall_cons in Hcs as [Hne Hcs]. cbn [chunks map app concat].
    change (map Chunk cs ++ [Eof]) with (chunks cs). cbn [next].
    pose proof (take_frame_spec self (c ++ concat cs)) as H.
    destruct (take_frame self) as [self' [f|]]; destruct H as (Hc' & Hn & Hi & ->).
    + split; [done|]. split; [congruence|]. exists (c :: cs). split; [done|].
      split; [by constructor|done].
    + rewrite Hc', Hc, Hi. destruct c as [|b c]; [done|].
      specialize (IH (set_buf self' (buf self' ++ b :: c)) Hcs ltac:(cbn; congruence)).
      replace (to_come self' ((b :: c) ++ concat cs))
        with (to_come (set_buf self' (buf self' ++ b :: c)) (concat cs)).
      * replace (id_to_come self' ((b :: c) ++ concat cs))
          with (id_to_come (set_buf self' (buf self' ++ b :: c)) (concat cs)); [exact IH|].
        unfold id_to_come. cbn [buf set_buf]. by rewrite dispatch_set_buf, <- app_assoc.
      * unfold to_come. cbn [buf set_buf]. by rewrite dispatch_set_buf, <- app_assoc.
Qed.

(** Once it has stopped it stays stopped. *)
Lemma next_stopped reads self :
  closed self = true -> cut_byte x0a (buf self) = None ->
  next json_error_text reads self = (StopIteration, self, reads).
Proof.
  intros Hc Hn. assert (E : take_frame self = (self, None)).
  { unfold take_frame. destruct (length (buf self)); [done|]. cbn [take_frame_loop]. by rewrite Hn. }
  destruct reads as [|r reads]; cbn [next]; by rewrite E, Hc.
Qed.

Lemma iterate_stopped calls reads self :
  closed self = true -> cut_byte x0a (buf self) = None ->
  iterate json_error_text calls reads self = (repeat StopIteration calls, self).
Proof.
  intros Hc Hn. induction calls as [|n IH]; [done|]. cbn [iterate].
  rewrite next_stopped by done. by rewrite IH.
Qed.

Lemma iterate_spec cs self more :
  Forall (fun c => c <> []) cs -> closed self = false ->
  let fs := to_come self (concat cs) in
  let '(os, self') := iterate json_error_text (length fs + S more) (chunks cs) self in
  os = map (fun f => outcome f) fs ++ repeat StopIteration (S more)
  /\ last_event_id self' = id_to_come self (concat cs).
Proof.
  intros Hcs Hc. cbv zeta. remember (to_come self (concat cs)) as fs eqn:E.
  revert cs self E Hcs Hc. induction fs as [|f fs IH]; intros cs self E Hcs Hc;
    cbn [length Nat.add map app iterate]; pose proof (next_spec cs self Hcs Hc) as H; rewrite <- E in H;
    destruct (next _ _ _) as [[o self'] reads].
  - destruct H as (-> & Hc' & Hn & ->). by rewrite iterate_stopped.
  - destruct H as (-> & Hc' & cs' & -> & Hcs' & Hfs & ->).
    specialize (IH cs' self' (eq_sym Hfs) Hcs' Hc'). destruct (iterate _ _ _ _) as [os self''].
    by destruct IH as [-> ->].
Qed.
End Interp.

(** *** Writing *)

(** An event as a server writes it: comments, the event name, the id, the lines
    of the data, and the line ending. *)
Record wire_event : Type := mk_wire_event {
  comments : list string;
  name : option string;
  id : option string;
  text : list string;
  carriage : bool
}.

Definition field_line (k v : string) : string := k +:+ ": " +:+ v.

Definition event_lines (e : wire_event) : list string :=
  map (String ":") (comments e)
  ++ from_option (fun n => [field_line "event" n]) [] (name e)
  ++ from_option (fun i => [field_line "id" i]) [] (id e)
  ++ map (field_line "data") (text e) ++ [""].

Definition line_end (e : wire_event) : bytes := if carriage e then [x0d; x0a] else [x0a].

Definition event_bytes (e : wire_event) : bytes :=
  concat (map (fun l => str_bytes l ++ line_end e) (event_lines e)).

(** A line of the protocol: UTF-8, without a line feed in it or a carriage
    return at its end. *)
Definition line_ok (l : string) : Prop :=
  str_ok l = true /\ (x0a ∉ str_bytes l) /\ last (str_bytes l) <> Some x0d.

Definition event_ok (e : wire_event) : Prop := Forall line_ok (event_lines e).

(** The frame an event stands for; without data it is a keep-alive. *)
Definition event_frames (e : wire_event) : list SseFrame :=
  match text e with
  | [] => []
  | ts => [mk_Frame (name e) (String.concat newline ts)]
  end.

Definition raw_line (e : wire_event) (l : string) : bytes :=
  str_bytes l ++ if carriage e then [x0d] else [].

Lemma decode_raw_line e l : line_ok l -> decode_line (raw_line e l) = l.
Proof.
  intros (Hok & _ & Hl). unfold decode_line, raw_line.
  assert (E : rstrip_byte x0d (str_bytes l ++ if carriage e then [x0d] else []) = str_bytes l).
  { destruct (carriage e); [rewrite rstrip_byte_snoc|rewrite app_nil_r]; by apply rstrip_byte_id. }
  rewrite E. by apply decode_replace_str.
Qed.

Lemma lines_of_event e ls rest :
  Forall line_ok ls ->
  lines_of (concat (map (fun l => str_bytes l ++ line_end e) ls) ++ rest)
  = map (raw_line e) ls ++ lines_of rest.
Proof.
  induction 1 as [|l ls (_ & Hl & _) _ IH]; [done|]. cbn [map concat app].
  replace ((str_bytes l ++ line_end e) ++ concat (map (fun l => str_bytes l ++ line_end e) ls))
    with (raw_line e l ++ x0a :: concat (map (fun l => str_bytes l ++ line_end e) ls)).
  - rewrite <- app_assoc. cbn [app]. rewrite lines_of_app; [by rewrite IH|].
    unfold raw_line. rewrite not_elem_of_app. split; [done|].
    destruct (carriage e); [|apply not_elem_of_nil].
    apply not_elem_of_cons. split; [done|apply not_elem_of_nil].
  - unfold raw_line, line_end. rewrite <- !app_assoc. by destruct (carriage e).
Qed.

Lemma dispatch_app self ls ls' :
  dispatch self (ls ++ ls')
  = let '(self1, fs) := dispatch self ls in
    let '(self2, fs') := dispatch self1 ls' in (self2, fs ++ fs').
Proof.
  revert self; induction ls as [|l ls IH]; intros self; cbn [app dispatch];
    [by destruct (dispatch self ls')|].
  destruct (take_line self (decode_line l)) as [self1 f]. rewrite IH.
  destruct (dispatch self1 ls) as [self2 fs]. destruct (dispatch self2 ls') as [self3 fs'].
  by destruct f.
Qed.

Lemma take_field self k v :
  lacks ":" k = true -> k <> "" ->
  take_line self (field_line k v)
  = (if String.eqb k "event" then
       mk_Subscription (buf self) (Some v) (data self) (last_event_id self) (closed self)
     else if String.eqb k "id" then
       mk_Subscription (buf self) (event self) (data self) (Some v) (closed self)
     else if String.eqb k "data" then
       mk_Subscription (buf self) (event self) (data self ++ [v]) (last_event_id self) (closed self)
     else self, None).
Proof.
  intros Hk Hne. unfold take_line, field_line.
  change (k +:+ ": " +:+ v) with (k +:+ String ":" (String " " v)).
  assert (H1 : String.eqb (k +:+ String ":" (String " " v)) "" = false) by by destruct k.
  assert (H2 : starts_with ":" (k +:+ String ":" (String " " v)) = false).
  { destruct k as [|c k]; [done|].
    change (Ascii.eqb c ":" = false). cbn [lacks] in Hk. by destruct (Ascii.eqb c ":"). }
  rewrite H1, H2, partition_app by done. done.
Qed.

Lemma dispatch_comments self e cs :
  Forall line_ok (map (String ":") cs) -> dispatch self (map (raw_line e) (map (String ":") cs)) = (self, []).
Proof.
  induction cs as [|c cs IH]; [done|]. cbn [map]. intros [Hc Hcs]%Forall_cons.
  cbn [dispatch]. rewrite decode_raw_line by done. cbn. by rewrite IH.
Qed.

Lemma dispatch_data self e ds :
  Forall line_ok (map (field_line "data") ds) ->
  dispatch self (map (raw_line e) (map (field_line "data") ds))
  = (mk_Subscription (buf self) (event self) (data self ++ ds) (last_event_id self) (closed self), []).
Proof.
  revert self; induction ds as [|d ds IH]; intros self;
    [cbn; rewrite app_nil_r; by destruct self|].
  cbn [map]. intros [Hd Hds]%Forall_cons. cbn [dispatch]. rewrite decode_raw_line by done.
  rewrite take_field by done. cbn [String.eqb Ascii.eqb Bool.eqb]. rewrite IH by done. cbn. by rewrite <- app_assoc.
Qed.

(** Reading an event between two events gives its frame, remembers its id and
    leaves nothing else behind. *)
Lemma dispatch_event b lid cl e :
  event_ok e ->
  dispatch (mk_Subscription b None [] lid cl) (map (raw_line e) (event_lines e))
  = (mk_Subscription b None [] (match id e with Some i => Some i | None => lid end) cl, event_frames e).
Proof.
  unfold event_ok, event_lines. rewrite !Forall_app. intros (Hc & Hn & Hi & Hd & Hb).
  rewrite !map_app, dispatch_app, dispatch_comments by done.
  assert (En : forall self, dispatch self (map (raw_line e) (from_option (fun n => [field_line "event" n]) [] (name e)))
    = (mk_Subscription (buf self) (match name e with Some n => Some n | None => event self end)
         (data self) (last_event_id self) (closed self), [])).
  { intros self. destruct (name e) as [n|]; [|by destruct self]. cbn [from_option map dispatch].
    apply Forall_cons in Hn as [Hn _]. by rewrite decode_raw_line, take_field. }
  assert (Ei : forall self, dispatch self (map (raw_line e) (from_option (fun i => [field_line "id" i]) [] (id e)))
    = (mk_Subscription (buf self) (event self)
         (data self) (match id e with Some i => Some i | None => last_event_id self end) (closed self), [])).
  { intros self. destruct (id e) as [i|]; [|by destruct self]. cbn [from_option map dispatch].
    apply Forall_cons in Hi as [Hi _]. by rewrite decode_raw_line, take_field. }
  rewrite dispatch_app, En, dispatch_app, Ei, dispatch_app, dispatch_data by done.
  cbn [map dispatch]. apply Forall_cons in Hb as [Hb _]. rewrite decode_raw_line by done.
  unfold take_line, event_frames. cbn [String.eqb event data buf last_event_id closed app].
  destruct (text e), (name e); done.
Qed.

Lemma dispatch_events b lid cl es :
  Forall event_ok es ->
  dispatch (mk_Subscription b None [] lid cl) (lines_of (concat (map event_bytes es)))
  = (mk_Subscription b None []
       (fold_left (fun lid e => match id e with Some i => Some i | None => lid end) es lid) cl,
     concat (map event_frames es)).
Proof.
  intros H. revert lid. induction H as [|e es He Hes IH]; intros lid; [done|].
  cbn [map concat fold_left]. unfold event_bytes at 1. rewrite lines_of_event by done.
  by rewrite dispatch_app, dispatch_event, IH.
Qed.

(** ** Properties *)

(** C20: however the bytes of a feed are cut into reads, iterating it returns
    exactly the frames of the whole stream, each decoded, in order, and then
    stops for good; and for a stream of events as a server writes them, with
    keep-alive comments between them and either line ending, those frames are
    the events that have data, each with its name and its lines, and the id the
    subscription remembers for a reconnect is the last one sent. *)
Theorem feed_delivers_events json_error_text :
  (forall cs more,
     Forall (fun c => c <> []) cs ->
     let fs := frames_of (concat cs) in
     (iterate json_error_text (length fs + S more) (chunks cs) new_subscription).1
     = map (fun f => item_outcome (sse_decode_frame json_error_text f)) fs ++ repeat StopIteration (S more))
  /\ (forall es cs more,
       Forall event_ok es -> Forall (fun c => c <> []) cs -> concat cs = concat (map event_bytes es) ->
       frames_of (concat cs) = concat (map event_frames es)
       /\ last_event_id
            (iterate json_error_text (length (frames_of (concat cs)) + S more) (chunks cs) new_subscription).2
          = fold_left (fun lid e => match id e with Some i => Some i | None => lid end) es None).
Proof.
  split.
  - intros cs more Hcs. pose proof (iterate_spec json_error_text cs new_subscription more Hcs eq_refl) as H.
    cbv zeta in H |- *. change (to_come new_subscription (concat cs)) with (frames_of (concat cs)) in H.
    destruct (iterate _ _ _ _). by destruct H as [-> _].
  - intros es cs more Hes Hcs E.
    pose proof (iterate_spec json_error_text cs new_subscription more Hcs eq_refl) as H.
    cbv zeta in H. change (to_come new_subscription (concat cs)) with (frames_of (concat cs)) in H.
    destruct (iterate _ _ _ _) as [os self]. destruct H as [_ Hid]. cbn [snd]. rewrite Hid.
    unfold frames_of, id_to_come, new_subscription. cbn [buf app]. rewrite E.
    by rewrite (dispatch_events [] None false es Hes).
Qed.

(** Two events, the first over three lines of data, with a keep-alive between. *)
Definition sample_feed : list wire_event :=
  [mk_wire_event [" hi"] (Some "memory") (Some "7") ["{"; " "; "}"] true;
   mk_wire_event ["keep-alive"] None None [] false;
   mk_wire_event [] (Some "closed") None ["{}"] false].

Lemma feed_delivers_events_witness :
  let cs := map (fun b => [b]) (concat (map event_bytes sample_feed)) in
  frames_of (concat cs) = concat (map event_frames sample_feed)
  /\ last_event_id
       (iterate (fun _ => "") (length (frames_of (concat cs)) + 1) (chunks cs) new_subscription).2
     = Some "7".
Proof.
  intros cs. apply (proj2 (feed_delivers_events (fun _ => "")) sample_feed cs 0%nat).
  - assert (Hl : forall l, str_ok l && bool_decide (x0a ∉ str_bytes l)
        && bool_decide (last (str_bytes l) <> Some x0d) = true -> line_ok l).
    { intros l [[H1 H2%bool_decide_eq_true]%andb_true_iff H3%bool_decide_eq_true]%andb_true_iff. done. }
    repeat constructor; apply Hl; by_compute.
  - apply List.Forall_map, Forall_true. done.
  - unfold cs. induction (concat (map event_bytes sample_feed)) as [|b bs IH]; [done|].
    cbn [map concat app]. by rewrite IH.
Defined.

(** The id is taken over when its line is read, not when its event is: a
    connection lost in between leaves the id of an event no one has seen, and a
    reconnect after it skips that event. *)
Example cut_event_advances_id :
  iterate (fun _ => "") 1
    [Chunk (str_bytes ("id: 7" +:+ newline +:+ "data: {}" +:+ newline)); Eof] new_subscription
  = ([StopIteration],
     mk_Subscription [] None ["{}"] (Some "7") true).
Proof. by_compute. Qed.
