(* ===== verification/HttpProperties.v ===== *)
(** * HttpProperties

    What the HTTP tier guarantees: how often a request is made, what its
    failures are, and that every verb follows the manifest of the server's
    routes in both directions. *)

From S2P Require Import Prelude PyFloat PyValue PyArith Rfc8949 PyText PyDecimal PyJson Retry.
From S2P Require Import HttpContract HttpTypes HttpTyped HttpCore HttpClient.
From Stdlib Require Import Strings.Ascii.

(** ** The retry loop *)

Section Loop.
Context (policy : HttpRetryPolicy) (idem : bool) (once : Z -> result http_exn pyval).

(** Whether the loop goes on after an attempt came to [o]. *)
Definition goes_on (attempt : Z) (o : result http_exn pyval) : option BrainHttpError :=
  match o with
  | Raise (HttpExn e) => if idem && should_retry policy attempt e then Some e else None
  | _ => None
  end.

(** What a run from an attempt on is: every call before the last failed with an
    error worth repeating and was waited on; the last one ends the run. *)
Definition http_run_ok (attempt : Z) (run : http_run) : Prop :=
  attempt <= http_calls run <= Z.max attempt (if idem then max_attempts policy else 1)
  /\ zlen (http_sleeps run) = http_calls run - attempt
  /\ (forall n, attempt <= n < http_calls run ->
        exists e slept, goes_on n (once n) = Some e /\ http_wait policy n e = Ok slept
          /\ http_sleeps run !! Z.to_nat (n - attempt) = Some slept)
  /\ match goes_on (http_calls run) (once (http_calls run)) with
     | None => http_outcome run = once (http_calls run)
     | Some e => exists pe, http_wait policy (http_calls run) e = Raise pe
                            /\ http_outcome run = Raise (HttpPyExn pe)
     end.

Lemma http_run_last attempt o :
  match goes_on attempt (once attempt) with
  | None => o = once attempt
  | Some e => exists pe, http_wait policy attempt e = Raise pe /\ o = Raise (HttpPyExn pe)
  end ->
  http_run_ok attempt (mk_http_run o attempt []).
Proof.
  intros H. split; [cbn; lia|]. split; [cbn; unfold zlen; cbn; lia|].
  split; [cbn; lia|exact H].
Qed.

Lemma request_from_ok fuel attempt :
  max_attempts policy - attempt <= Z.of_nat fuel ->
  http_run_ok attempt (request_from policy idem once fuel attempt).
Proof.
  revert attempt; induction fuel as [|fuel IH]; intros attempt Hfuel; cbn [request_from];
    (destruct (once attempt) as [v|[e|pe|]] eqn:Eo;
      [apply http_run_last; by rewrite Eo| |apply http_run_last; by rewrite Eo..]);
    (destruct (idem && should_retry policy attempt e) eqn:Eg;
      [|apply http_run_last; rewrite Eo; cbn [goes_on]; by rewrite Eg]);
    pose proof Eg as [Hidem [Hlt%Z.ltb_lt _]%andb_true_iff]%andb_true_iff; [lia|].
  destruct (http_wait policy attempt e) as [slept|pe] eqn:Ew;
    [|apply http_run_last; rewrite Eo; cbn [goes_on]; rewrite Eg; by eexists].
  destruct (IH (attempt + 1) ltac:(lia)) as (Hc & Hl & Hn & Hlast).
  set (run := request_from policy idem once fuel (attempt + 1)) in *. rewrite Hidem in *.
  split; [cbn [http_calls]; rewrite Hidem; lia|].
  split; [unfold zlen in *; cbn [length http_calls http_sleeps]; lia|].
  split; [|exact Hlast]. cbn [http_calls http_sleeps]. intros n Hr.
  destruct (decide (n = attempt)) as [->|Hne].
  - exists e, slept. rewrite Z.sub_diag, Eo. cbn [goes_on]. by rewrite Hidem, Eg.
  - destruct (Hn n ltac:(lia)) as (e' & s' & H1 & H2 & H3). exists e', s'.
    split; [done|]. split; [done|].
    by replace (Z.to_nat (n - attempt)) with (S (Z.to_nat (n - (attempt + 1)))) by lia.
Qed.
End Loop.

(** ** What a server receives *)

(** The request as a server reads it: the method, the decoded segments of the
    path, the pairs of the query and the document in the body. *)
Record received : Type := mk_received {
  rec_method : string;
  rec_path : list string;
  rec_query : list (string * string);
  rec_body : option pyval
}.

(** Reading a request to the server at [root]. *)
Definition server_reads (root : string) (r : http_request) : option received :=
  match after root (req_url r) with
  | None => None
  | Some target =>
      let '(path, query) := partition "?" target in
      match split_char "/" path, option_map loads (req_data r) with
      | "" :: segs, None =>
          Some (mk_received (req_method r) (map unquote segs) (parse_qsl query) None)
      | "" :: segs, Some (Ok body) =>
          Some (mk_received (req_method r) (map unquote segs) (parse_qsl query) (Some body))
      | _, _ => None
      end
  end.

(** *** Paths *)

(** The path of a template: its parameters in order, encoded. *)
Fixpoint render (ts : list segment) (args : list string) : string :=
  match ts, args with
  | [Lit s], _ => "/" +:+ s
  | Lit s :: ts, args => "/" +:+ s +:+ render ts args
  | [Param], [a] => "/" +:+ seg a
  | Param :: ts, a :: args => "/" +:+ seg a +:+ render ts args
  | _, _ => ""
  end.

(** The segments, encoded. *)
Fixpoint fill (ts : list segment) (args : list string) : option (list string) :=
  match ts, args with
  | [], [] => Some []
  | Lit s :: ts, args => option_map (cons s) (fill ts args)
  | Param :: ts, a :: args => option_map (cons (seg a)) (fill ts args)
  | _, _ => None
  end.

Definition literal_ok (t : segment) : bool :=
  match t with
  | Lit s => all_chars (fun c => unreserved (Z.of_N (N_of_ascii c))) s
  | Param => true
  end.

Lemma routes_literals : forallb (fun r => forallb literal_ok (template r)) routes = true.
Proof. by vm_compute. Qed.

Lemma percent_decode_plain plus c l :
  unreserved (Z.of_N (N_of_ascii c)) = true ->
  percent_decode plus (c :: l) = byte_of_ascii c :: percent_decode plus l.
Proof.
  destruct c as [[] [] [] [] [] [] [] []]; intros H; vm_compute in H; try discriminate H; reflexivity.
Qed.

Lemma unquote_literal s : literal_ok (Lit s) = true -> unquote s = s.
Proof.
  intros H. unfold unquote, unquote_with. rewrite <- (String.string_of_list_byte_of_string s) at 2.
  f_equal. cbn [literal_ok] in H. induction s as [|c s IH]; [done|]. cbn [all_chars] in H.
  apply andb_true_iff in H as [Hc H]. cbn [String.list_ascii_of_string].
  rewrite percent_decode_plain, IH by done. done.
Qed.

Lemma literal_chars s c :
  literal_ok (Lit s) = true -> unreserved (Z.of_N (N_of_ascii c)) = false -> lacks c s = true.
Proof. intros H Hc. cbn [literal_ok] in H. by eapply all_chars_lacks; [|exact H]. Qed.

Lemma seg_lacks a c : component_char c = false -> lacks c (seg a) = true.
Proof. intros Hc. eapply all_chars_lacks; [exact Hc|apply quote_chars]. Qed.

Lemma fill_segments ts args ps :
  forallb literal_ok ts = true -> fill ts args = Some ps ->
  match_template ts (map unquote ps) = Some args
  /\ Forall (fun p => lacks "/" p = true /\ lacks "?" p = true) ps.
Proof.
  revert args ps; induction ts as [|[s|] ts IH]; intros args ps; cbn [forallb fill].
  - destruct args; [|done]. by intros _ [= <-].
  - intros [Hs Hts]%andb_true_iff. destruct (fill ts args) as [qs|] eqn:E; [|done].
    intros [= <-]. destruct (IH _ _ Hts E) as [Hm Hq]. cbn [map match_template].
    rewrite (unquote_literal s), String.eqb_refl by done. split; [done|].
    constructor; [|done]. by split; apply literal_chars.
  - intros Hts. destruct args as [|a args]; [done|].
    destruct (fill ts args) as [qs|] eqn:E; [|done]. intros [= <-].
    destruct (IH _ _ Hts E) as [Hm Hq]. cbn [map match_template]. rewrite Hm.
    unfold seg at 1. rewrite unquote_quote. split; [done|].
    constructor; [|done]. by split; apply seg_lacks.
Qed.

Lemma render_fill ts args ps :
  ts <> [] -> fill ts args = Some ps -> render ts args = "/" +:+ String.concat "/" ps.
Proof.
  revert args ps; induction ts as [|t ts IH]; intros args ps Hne H; [done|].
  destruct ts as [|t' ts].
  - destruct t as [s|]; cbn [fill] in H.
    + destruct args; [|done]. by injection H as <-.
    + destruct args as [|a [|]]; try done. by injection H as <-.
  - assert (Hcons : forall (p : string) qs, qs <> [] -> "/" +:+ String.concat "/" (p :: qs)
              = "/" +:+ p +:+ "/" +:+ String.concat "/" qs) by (by intros p [|]).
    destruct t as [s|].
    + cbn [fill] in H. fold (fill (t' :: ts) args) in H.
      change (render (Lit s :: t' :: ts) args) with ("/" +:+ s +:+ render (t' :: ts) args).
      change (option_map (cons s) (fill (t' :: ts) args) = Some ps) in H.
      destruct (fill (t' :: ts) args) as [qs|] eqn:E; [|done]. injection H as <-.
      rewrite (IH _ _ ltac:(done) E), Hcons; [done|].
      intros ->. destruct t' as [|]; cbn [fill] in E; [by destruct (fill ts args)|].
      destruct args; [done|]. by destruct (fill ts args).
    + destruct args as [|a args]; [done|].
      change (render (Param :: t' :: ts) (a :: args)) with ("/" +:+ seg a +:+ render (t' :: ts) args).
      change (option_map (cons (seg a)) (fill (t' :: ts) args) = Some ps) in H.
      destruct (fill (t' :: ts) args) as [qs|] eqn:E; [|done]. injection H as <-.
      rewrite (IH _ _ ltac:(done) E), Hcons; [done|].
      intros ->. destruct t' as [|]; cbn [fill] in E; [by destruct (fill ts args)|].
      destruct args; [done|]. by destruct (fill ts args).
Qed.

(** *** Requests *)

Lemma after_app p s : after p (p +:+ s) = Some s.
Proof.
  induction p as [|c p IH]; [done|]. change (String c p +:+ s) with (String c (p +:+ s)).
  cbn [after]. by rewrite Ascii.eqb_refl.
Qed.

Lemma partition_lacks c p : lacks c p = true -> partition c p = (p, "").
Proof.
  induction p as [|c' p IH]; [done|]. cbn [lacks partition].
  intros [H1%negb_true_iff H2]%andb_true_iff. by rewrite H1, IH.
Qed.

Lemma lacks_concat c ps :
  lacks c "/" = true -> Forall (fun p => lacks c p = true) ps -> lacks c (String.concat "/" ps) = true.
Proof.
  intros Hc. induction 1 as [|p ps Hp Hps IH]; [done|]. destruct ps as [|q ps]; [done|].
  change (String.concat "/" (p :: q :: ps)) with (p +:+ "/" +:+ String.concat "/" (q :: ps)).
  by rewrite !lacks_app, Hp, Hc, IH.
Qed.

Section Received.
Context `{HI : Interpreter}.

Lemma query_target path query :
  lacks "?" path = true ->
  exists text, partition "?" (path +:+ query_string query) = (path, text)
    /\ parse_qsl text = query_pairs (default [] query).
Proof.
  intros Hp. destruct query as [q|]; cbn [default query_string].
  - destruct (query_pairs q) as [|kv pairs] eqn:E.
    + exists "". rewrite string_app_nil, partition_lacks by done. done.
    + exists (urlencode (kv :: pairs)).
      change ("?" +:+ urlencode (kv :: pairs)) with (String "?" (urlencode (kv :: pairs))).
      by rewrite partition_app, parse_qsl_urlencode.
  - exists "". rewrite string_app_nil, partition_lacks by done. done.
Qed.

(** What is sent is what is received: the method, each parameter of the path as
    one segment, the pairs of the query and the document. *)
Lemma receive_request self c ts args :
  ts <> [] -> forallb literal_ok ts = true -> is_Some (fill ts args) ->
  call_path c = render ts args ->
  from_option (fun b => json_ok (obj b)) true (call_body c) = true ->
  exists r segs, make_request self c = Ok r
    /\ server_reads (base self) r
       = Some (mk_received (call_method c) segs (query_pairs (default [] (call_query c)))
                 (option_map obj (call_body c)))
    /\ match_template ts segs = Some args.
Proof.
  intros Hne Hlit [ps Hps] Hpath Hbody.
  destruct (fill_segments _ _ _ Hlit Hps) as [Hm Hlacks].
  pose proof (render_fill _ _ _ Hne Hps) as Hr.
  assert (Hps0 : ps <> []).
  { intros ->. destruct ts as [|[] ts]; cbn [fill] in Hps; [done|by destruct (fill ts args)|].
    destruct args; [done|]. by destruct (fill ts args). }
  assert (Hq : lacks "?" (call_path c) = true).
  { rewrite Hpath, Hr. change (lacks "?" (String.concat "/" ps) = true).
    apply lacks_concat; [done|]. by eapply Forall_impl; [exact Hlacks|intros p []]. }
  destruct (query_target (call_path c) (call_query c) Hq) as (text & Ep & Eq).
  assert (Hdata : exists data, match call_body c with
              | None => Ok None
              | Some body => let* text := dumps (obj body) in Ok (Some text)
              end = Ok data
            /\ option_map loads data = option_map (fun b => Ok (obj b)) (call_body c)).
  { destruct (call_body c) as [b|]; [|by exists None]. cbn [from_option] in Hbody.
    destruct (loads_dumps (obj b) Hbody) as (t & Et & El). exists (Some t).
    rewrite Et. cbn [bind option_map]. by rewrite El. }
  destruct Hdata as (data & Ed & El).
  unfold make_request. rewrite Ed. cbn [bind]. eexists _, (map unquote ps).
  split; [reflexivity|]. split; [|done].
  unfold server_reads. cbn [req_url req_data req_method]. rewrite after_app, Ep, El, Eq.
  rewrite Hpath, Hr. change ("/" +:+ String.concat "/" ps) with (String "/" (String.concat "/" ps)).
  cbn [split_char]. change (Ascii.eqb "/" "/") with true. cbv iota.
  rewrite split_char_concat; [|done|by eapply Forall_impl; [exact Hlacks|intros p []]].
  by destruct (call_body c).
Qed.

(** *** Documents built by [_compact] *)

Definition shape_of (fs : list field) (k : string) : option jtype :=
  option_map snd (find (fun f => String.eqb (field_name f) k) fs).

(** An entry of a display: left out, or declared and of its shape. *)
Definition entry_conforms (fs : list field) (kv : string * pyval) : Prop :=
  kv.2 = PNone \/ exists t, shape_of fs kv.1 = Some t /\ conforms t kv.2 = true.

(** A required field is in the display, and never left out. *)
Definition provided (l : fields) (f : field) : Prop :=
  f.1.2 = false \/ exists v, (field_name f, v) ∈ l /\ v <> PNone.

Lemma dict_get_compact l k v :
  NoDup (map fst l) -> (k, v) ∈ l ->
  dict_get (map (fun '(k, v) => (PStr k, v)) (compact l)) k = if is_none v then None else Some v.
Proof.
  unfold compact. induction l as [|[k' v'] l IH]; [by intros _ ?%elem_of_nil|].
  cbn [map fst]. intros [Hk Hnd]%NoDup_cons Hin.
  assert (Hfresh : k = k' -> v = v').
  { intros ->. apply elem_of_cons in Hin as [[= ->]|Hin]; [done|].
    exfalso. apply Hk, list_elem_of_fmap. by exists (k', v). }
  destruct (String.eqb_spec k' k) as [->|Hne].
  - assert (v = v') as -> by by apply Hfresh.
    cbn [List.filter snd]. destruct (is_none v') eqn:E; cbn [negb].
    + destruct (dict_get _ k) as [w|] eqn:Eg; [|done]. exfalso. apply Hk.
      clear - Eg. induction l as [|[k' w'] l IH]; [done|]. cbn [map fst List.filter snd] in *.
      destruct (negb (is_none w')).
      * cbn [map dict_get] in Eg. destruct (String.eqb_spec k' k) as [->|]; [by left|].
        right. by apply IH.
      * right. by apply IH.
    + cbn [map dict_get]. by rewrite String.eqb_refl.
  - assert (Hin' : (k, v) ∈ l) by (apply elem_of_cons in Hin as [[= -> ->]|Hin]; done).
    cbn [List.filter snd]. destruct (negb (is_none v')); [|by apply IH].
    cbn [map dict_get]. rewrite (proj2 (String.eqb_neq _ _)) by done. by apply IH.
Qed.

Lemma shape_of_field fs f :
  NoDup (map field_name fs) -> f ∈ fs -> shape_of fs (field_name f) = Some f.2.
Proof.
  unfold shape_of. induction fs as [|g fs IH]; [by intros _ ?%elem_of_nil|].
  cbn [map find]. intros [Hg Hnd]%NoDup_cons [->|Hf]%elem_of_cons; [by rewrite String.eqb_refl|].
  rewrite (proj2 (String.eqb_neq _ _)); [by apply IH|].
  intros E. apply Hg. rewrite E. apply list_elem_of_fmap. by exists f.
Qed.

Lemma shape_of_declared fs k t :
  shape_of fs k = Some t -> existsb (fun f => String.eqb (field_name f) k) fs = true.
Proof.
  unfold shape_of. destruct (find _ fs) as [f|] eqn:E; [|done]. intros _.
  apply find_some in E as [Hf Ef]. apply existsb_exists. by exists f.
Qed.

(** A display whose entries are of their shapes makes a conforming object. *)
Lemma compact_conforms fs l :
  NoDup (map field_name fs) -> NoDup (map fst l) ->
  Forall (entry_conforms fs) l -> Forall (provided l) fs ->
  conforms (JObj fs) (obj (compact l)) = true.
Proof.
  intros Hnf Hnl Hl Hp. unfold obj. rewrite conforms_obj_dict. apply andb_true_iff. split.
  - apply fields_ok_Forall, Forall_forall. intros f Hf.
    rewrite Forall_forall in Hp. specialize (Hp f Hf). unfold field_ok.
    destruct (decide (field_name f ∈ map fst l)) as [Hin|Hout].
    + apply list_elem_of_fmap in Hin as ([k v] & Ek & Hin). cbn in Ek. subst k.
      rewrite (dict_get_compact l _ v) by done.
      rewrite Forall_forall in Hl. specialize (Hl _ Hin). unfold entry_conforms in Hl. cbn [fst snd] in Hl.
      destruct (is_none v) eqn:Ev.
      * destruct Hp as [Hp|(v' & Hin' & Hv')]; [done|]. exfalso.
        pose proof (dict_get_compact l _ v Hnl Hin) as E1. rewrite Ev in E1.
        rewrite (dict_get_compact l _ v' Hnl Hin') in E1. by destruct v'.
      * destruct Hl as [->|(t & Et & Ht)]; [done|].
        rewrite shape_of_field in Et by done. by injection Et as ->.
    + assert (Hnone : dict_get (map (fun '(k, v) => (PStr k, v)) (compact l)) (field_name f) = None).
      { clear - Hout. unfold compact. induction l as [|[k v] l IH]; [done|].
        cbn [map fst] in Hout. apply not_elem_of_cons in Hout as [Hk Hout]. cbn [List.filter snd].
        destruct (negb (is_none v)); [|by apply IH]. cbn [map dict_get].
        rewrite (proj2 (String.eqb_neq _ _)) by done. by apply IH. }
      rewrite Hnone. destruct Hp as [Hp|(v & Hin & _)]; [done|]. exfalso. apply Hout.
      apply list_elem_of_fmap. by exists (field_name f, v).
  - unfold declared. apply forallb_forall. intros kv Hkv.
    apply in_map_iff in Hkv as ([k v] & <- & Hkv). cbn [fst].
    apply orb_true_iff. right. apply List.filter_In in Hkv as [Hin Hv].
    rewrite Forall_forall in Hl. specialize (Hl (k, v) ltac:(by apply list_elem_of_In)).
    destruct Hl as [Hl|(t & Et & _)]; cbn [fst snd] in *; [by rewrite Hl in Hv|].
    by eapply shape_of_declared.
Qed.

Lemma compact_compact l : compact (compact l) = compact l.
Proof.
  unfold compact. induction l as [|[k v] l IH]; [done|]. cbn [List.filter snd].
  destruct (is_none v) eqn:E; cbn [negb]; [done|]. cbn [List.filter snd]. by rewrite E, IH.
Qed.

(** A query entry: left out, or declared and written as its shape is read. *)
Definition entry_readable (fs : list field) (kv : string * pyval) : Prop :=
  kv.2 = PNone
  \/ exists t, shape_of fs kv.1 = Some t /\ text_conforms t (query_text kv.2) = true.

Lemma compact_readable fs l :
  NoDup (map fst l) -> Forall (entry_readable fs) l -> forallb (fun f => negb f.1.2) fs = true ->
  query_conforms (JObj fs) (query_pairs (compact l)) = true.
Proof.
  intros Hnd Hl Hreq. unfold query_pairs. rewrite compact_compact. cbn [query_conforms].
  rewrite !andb_true_iff. split_and!.
  - apply forallb_forall. intros kv Hkv. apply in_map_iff in Hkv as ([k v] & <- & Hkv).
    apply List.filter_In in Hkv as [Hin Hv]. rewrite Forall_forall in Hl.
    specialize (Hl (k, v) ltac:(by apply list_elem_of_In)).
    destruct Hl as [Hl|(t & Et & Ht)]; cbn [fst snd] in *; [by rewrite Hl in Hv|].
    unfold shape_of in Et. destruct (find _ fs) as [f|] eqn:E; [|done]. injection Et as <-.
    apply find_some in E as [Hf Ef]. apply existsb_exists. exists f. by rewrite Ef.
  - apply bool_decide_eq_true. unfold compact. clear - Hnd.
    induction l as [|[k v] l IH]; [constructor|]. cbn [map fst] in Hnd.
    apply NoDup_cons in Hnd as [Hk Hnd]. cbn [List.filter snd].
    destruct (negb (is_none v)); [|by apply IH]. cbn [map fst]. apply NoDup_cons.
    split; [|by apply IH]. intros Hin. apply Hk. clear - Hin.
    apply list_elem_of_fmap in Hin as ([k' s] & Ek & Hin). cbn in Ek. subst k'.
    apply list_elem_of_fmap in Hin as ([k' w] & [= -> ->] & Hin).
    apply list_elem_of_In, List.filter_In in Hin as [Hin _].
    apply list_elem_of_fmap. exists (k', w). split; [done|]. by apply list_elem_of_In.
  - apply forallb_forall. intros [[k r] t] Hf. rewrite forallb_forall in Hreq.
    specialize (Hreq _ Hf). cbn in Hreq. by rewrite Hreq.
Qed.

(** *** Arguments *)

Lemma list_of_conforms {A} t (f : A -> pyval) l :
  (forall a, conforms t (f a) = true) -> conforms (JList t) (list_of f l) = true.
Proof. intros H. cbn. apply forallb_forall. intros x (a & <- & _)%in_map_iff. apply H. Qed.

(** A float as JSON and a query can write it: finite, of the language. *)
Definition finite (f : pyfloat) : bool := float_in double f && negb (isnan f) && negb (isinf f).

Lemma text_conforms_int z : text_conforms JInt (str_of_int z) = true.
Proof. cbn. by rewrite int_of_str_of_int. Qed.

Lemma text_conforms_float f : finite f = true -> text_conforms JFloat (float_repr f) = true.
Proof.
  unfold finite. rewrite !andb_true_iff, !negb_true_iff. intros [[H1 H2] H3]. cbn.
  rewrite <- (string_app_nil (float_repr f)). by rewrite float_repr_scan.
Qed.

End Received.

(** ** How often a request is made *)

Lemma goes_on_inv policy idem attempt o e :
  goes_on policy idem attempt o = Some e ->
  o = Raise (HttpExn e) /\ idem = true /\ attempt < max_attempts policy
  /\ is_retryable_status (status e) = true.
Proof.
  unfold goes_on, should_retry. destruct o as [|[e'|pe|]]; try done.
  destruct idem, (Z.ltb_spec attempt (max_attempts policy)), (is_retryable_status (status e')) eqn:E;
    try done; by intros [= <-].
Qed.

Lemma http_wait_inv policy attempt e slept :
  http_wait policy attempt e = Ok slept -> http_backoff policy attempt (retry_after e) = Ok slept.
Proof.
  unfold http_wait. destruct (http_backoff _ _ _) as [d|]; [|done]. cbn [bind].
  destruct (time_sleep d); [|done]. by intros [= ->].
Qed.

Lemma http_backoff_hint policy attempt hint slept :
  http_backoff policy attempt hint = Ok slept ->
  from_option (fun h => slept = py_min h (max_delay policy)) True hint.
Proof. destruct hint; [|done]. by intros [= <-]. Qed.

Section Requests.
Context `{HI : Interpreter}.

(** C21: a call runs at most as often as its policy and its verb allow. A
    request makes at least one attempt; one that is not idempotent makes exactly
    one, an idempotent one at most [max_attempts]. Every attempt before the last
    failed with a [BrainHttpError] of status 0, 429 or 503, and was followed by
    exactly one sleep of the time [backoff] computes: the server's Retry-After
    capped at [max_delay] when there is one. The outcome is the last attempt's,
    unchanged, and was not worth repeating or could not be; the one exception is
    a wait that [time.sleep] or the schedule refuses. *)
Theorem http_requests_retry self (urlopen : Z -> http_request -> urlopen_result) c :
  let run := request self urlopen c in
  let once n := request_once self (urlopen n) c in
  let last := http_calls run in
  1 <= last <= Z.max 1 (if idempotent c then max_attempts (retry self) else 1)
  /\ zlen (http_sleeps run) = last - 1
  /\ (forall n, 1 <= n < last ->
        exists e slept, once n = Raise (HttpExn e) /\ is_retryable_status (status e) = true
          /\ http_backoff (retry self) n (retry_after e) = Ok slept
          /\ from_option (fun hint => slept = py_min hint (max_delay (retry self))) True (retry_after e)
          /\ http_sleeps run !! Z.to_nat (n - 1) = Some slept)
  /\ ((http_outcome run = once last
       /\ forall e, once last = Raise (HttpExn e) -> idempotent c = true ->
            is_retryable_status (status e) = true -> max_attempts (retry self) <= last)
      \/ exists e pe, once last = Raise (HttpExn e)
           /\ http_wait (retry self) last e = Raise pe /\ http_outcome run = Raise (HttpPyExn pe)).
Proof.
  intros run once last.
  destruct (request_from_ok (retry self) (idempotent c) once (Z.to_nat (max_attempts (retry self))) 1
              ltac:(lia)) as (Hc & Hl & Hn & Hend).
  change (request_from (retry self) (idempotent c) once _ 1) with run in *. fold last in Hc, Hl, Hn, Hend.
  split; [exact Hc|]. split; [exact Hl|]. split.
  - intros n Hr. destruct (Hn n Hr) as (e & slept & Hg & Hw & Hs).
    apply goes_on_inv in Hg as (Ho & _ & _ & Hst). apply http_wait_inv in Hw.
    exists e, slept. split_and!; [done..| |done]. by apply http_backoff_hint in Hw.
  - destruct (goes_on (retry self) (idempotent c) last (once last)) as [e|] eqn:Hg.
    + destruct Hend as (pe & Hw & Ho). apply goes_on_inv in Hg as (E & _). right. by exists e, pe.
    + left. split; [exact Hend|]. intros e E Hi Hst.
      cbn [goes_on] in Hg. rewrite E in Hg. cbn [goes_on] in Hg. rewrite Hi in Hg. unfold should_retry in Hg.
      rewrite Hst, andb_true_r in Hg. cbn [andb] in Hg. by destruct (Z.ltb_spec last (max_attempts (retry self))).
Qed.
End Requests.

(** ** Failures *)

(** The documents a server reports a failure with: brain-edge's envelope, and
    the problem document of the gateway. *)
Definition envelope (c m : string) : pyval := obj [("error", obj [("code", PStr c); ("message", PStr m)])].

Definition problem_item (f : FieldError) : pyval :=
  obj (compact [("field", PStr (FieldError_field f)); ("message", PStr (FieldError_message f));
                ("code", given PStr (FieldError_code f))]).

Definition problem (c : string) (title detail : option string) (errors : list FieldError) : pyval :=
  obj (compact [("title", given PStr title); ("detail", given PStr detail); ("code", PStr c);
                ("errors", list_of problem_item errors)]).

(** What a caller reads first. *)
Definition headline (st : Z) (title detail : option string) (errors : list FieldError) : string :=
  match errors, detail, title with
  | _ :: _, _, _ => join_fields errors
  | [], Some d, _ => d
  | [], None, Some t => t
  | [], None, None => "HTTP " +:+ str_of_int st
  end.

Lemma field_errors_of_items errors :
  field_errors_of (Some (list_of problem_item errors)) = errors.
Proof.
  unfold field_errors_of, list_of. induction errors as [|[f m [c|]] errors IH]; [done|..];
    cbn [map omap list_omap]; cbn; f_equal; exact IH.
Qed.

Lemma problem_detail st c title detail errors :
  error_detail (problem c title detail errors) (PStr "http_error") (PStr ("HTTP " +:+ str_of_int st))
  = (PStr c, PStr (headline st title detail errors), errors).
Proof.
  unfold problem. pose proof (field_errors_of_items errors) as E.
  change (list_of problem_item errors) with (PList (map problem_item errors)) in *.
  revert E. generalize (map problem_item errors) as items. intros items E.
  destruct title, detail; cbn -[field_errors_of str_of_int String.append join_fields];
    rewrite E; by destruct errors.
Qed.

Lemma decode_strict_raises bs e : decode_strict bs = Raise e -> e = ValueError.
Proof. unfold decode_strict. destruct (utf8_ok bs); congruence. Qed.

(** A header [int] reads and [float] refuses. *)
Lemma parse_retry_after_raises h pe :
  parse_retry_after h = Raise pe ->
  pe = OverflowError /\ exists raw n, h = Some raw /\ int_of_str raw = Ok n
                                      /\ float_of_int n = Raise OverflowError.
Proof.
  unfold parse_retry_after. destruct h as [raw|]; [|done].
  destruct (int_of_str raw) as [n|] eqn:En; [|done].
  destruct (float_of_int n) as [f|e] eqn:Ef; cbn [bind]; [done|]. intros [= <-].
  assert (e = OverflowError) as ->.
  { destruct n as [|p|p]; [done|..]; unfold float_of_int in Ef;
      destruct (odd_part p 0), (round_to _ _); congruence. }
  split; [done|]. by exists raw, n.
Qed.

Lemma error_from_cases st h body :
  (exists c m fs hint, error_from st h body = HttpExn (mk_BrainHttpError st c m fs hint)
                       /\ parse_retry_after h = Ok hint)
  \/ exists pe, error_from st h body = HttpPyExn pe /\ parse_retry_after h = Raise pe.
Proof.
  unfold error_from. destruct (match body with None => _ | Some _ => _ end) as [[c m] fs].
  destruct (parse_retry_after h) as [hint|pe]; [left; by exists c, m, fs, hint|right; by exists pe].
Qed.

Section Failures.
Context `{HI : Interpreter}.

(** C22: what escapes a request. A success answered [200 OK] returns the decoded
    document. Otherwise what is raised is a [BrainHttpError], either with status
    0 and the code "transport" when there was no answer to decode, or with the
    status and the Retry-After of the answer. Three failures alone are not: an
    answer that is not JSON, a Retry-After too large for a float, and
    [http.client.HTTPException]. The error of an edge carries the code and message
    of its envelope, and the one of a gateway the code, the fields and, before
    [detail] and [title], the fields' messages of its problem document, however
    the document was written. *)
Theorem http_failures_are_contained url r :
  match read_answer url r with
  | Ok v => exists body text, r = Answered body /\ decode_strict body = Ok text
              /\ (if String.eqb text "" then v = PDict [] else loads text = Ok v)
  | Raise (HttpExn e) =>
      match r with
      | HTTPError st h _ => status e = st /\ parse_retry_after h = Ok (retry_after e)
      | Answered body => decode_strict body = Raise ValueError
                         /\ status e = 0 /\ code e = PStr "transport" /\ retry_after e = None
      | HTTPExceptionRaised => False
      | _ => status e = 0 /\ code e = PStr "transport" /\ retry_after e = None
      end
  | Raise (HttpPyExn pe) =>
      (exists body text, r = Answered body /\ decode_strict body = Ok text /\ loads text = Raise pe)
      \/ (pe = OverflowError /\ exists st raw n body, r = HTTPError st (Some raw) body
            /\ int_of_str raw = Ok n /\ float_of_int n = Raise OverflowError)
  | Raise HTTPException => r = HTTPExceptionRaised
  end
  /\ (forall st h body hint c m,
        bind (decode_strict body) loads = Ok (envelope c m) -> parse_retry_after h = Ok hint ->
        read_answer url (HTTPError st h (Some body))
        = Raise (HttpExn (mk_BrainHttpError st (PStr c) (PStr m) [] hint)))
  /\ (forall st h body hint c title detail errors,
        bind (decode_strict body) loads = Ok (problem c title detail errors) ->
        parse_retry_after h = Ok hint ->
        read_answer url (HTTPError st h (Some body))
        = Raise (HttpExn (mk_BrainHttpError st (PStr c) (PStr (headline st title detail errors))
                            errors hint))).
Proof.
  split; [|split].
  - destruct r as [body|st h body|x|x|x|]; cbn [read_answer]; try by repeat split.
    + destruct (decode_strict body) as [text|e] eqn:Et;
        [|split_and!; [by apply decode_strict_raises in Et as ->|done..]].
      destruct text as [|ch text']; [by exists body, ""|].
      destruct (loads (String ch text')) as [v|pe] eqn:El; cbn [lift_error]; [|left];
        by exists body, (String ch text').
    + destruct (error_from_cases st h body) as [(c & m & fs & hint & -> & Eh)|(pe & -> & Eh)];
        [done|]. apply parse_retry_after_raises in Eh as (-> & raw & n & -> & En & Ef).
      right. split; [done|]. by exists st, raw, n, body.
  - intros st h body hint c m Eb Eh. cbn [read_answer]. unfold error_from. by rewrite Eb, Eh.
  - intros st h body hint c title detail errors Eb Eh. cbn [read_answer]. unfold error_from.
    by rewrite Eb, problem_detail, Eh.
Qed.
End Failures.

(** ** Witnesses *)

(** An interpreter for the concrete runs. *)
Definition sample_interpreter : Interpreter :=
  Build_Interpreter (fun _ => "[...]") (fun _ => "invalid utf-8") (fun _ => true).

Definition sample_client : BrainHttpClient :=
  mk_BrainHttpClient "http://127.0.0.1:8080" "key" default_http_policy.

(** A server that is busy twice, then answers. *)
Definition busy_twice (n : Z) (_ : http_request) : urlopen_result :=
  if n <? 3 then HTTPError 503 (Some "1") None else Answered (str_bytes "{}").

Lemma http_requests_retry_witness :
  let run := request (H := sample_interpreter) sample_client busy_twice (asks whoami) in
  http_calls run = 3 /\ http_outcome run = Ok (PDict [])
  /\ zlen (http_sleeps run) = http_calls run - 1.
Proof.
  split; [vm_compute; reflexivity|]. split; [vm_compute; reflexivity|].
  exact (proj1 (proj2 (http_requests_retry (HI := sample_interpreter) sample_client busy_twice (asks whoami)))).
Defined.

(** A verb that is not idempotent is not repeated. *)
Example one_attempt :
  let run := request (H := sample_interpreter) sample_client busy_twice
               (asks (http_link "a" "b" "causes" None)) in
  http_calls run = 1 /\ http_sleeps run = [].
Proof. by_compute. Qed.

(** A negative Retry-After replaces the server's error by one of [time.sleep]. *)
Example negative_hint_raises :
  http_outcome (request (H := sample_interpreter) sample_client
                  (fun _ _ => HTTPError 503 (Some "-1") None) (asks whoami))
  = Raise (HttpPyExn ValueError).
Proof. by_compute. Qed.

(** An answer that is not JSON is not a [BrainHttpError]. *)
Example not_json_raises :
  http_outcome (request (H := sample_interpreter) sample_client
                  (fun _ _ => Answered (str_bytes "<html>")) (asks whoami))
  = Raise (HttpPyExn ValueError).
Proof. by_compute. Qed.

Definition sample_fields : list FieldError := [mk_FieldError "email" "must be valid" None].

Lemma http_failures_are_contained_witness :
  read_answer (H := sample_interpreter) "u"
    (HTTPError 422 (Some " 7 ") (Some (str_bytes (String.concat (String quote_mark "")
       ["{"; "code"; ":"; "invalid"; ","; "errors"; ":[{"; "field"; ":"; "email"; ","; "message"; ":";
        "must be valid"; "}]}"]))))
  = Raise (HttpExn (mk_BrainHttpError 422 (PStr "invalid") (PStr "email: must be valid")
                      sample_fields (Some (FFin false 7 0)))).
Proof.
  apply (proj2 (proj2 (http_failures_are_contained (HI := sample_interpreter) "u" (HTTPError 422 None None)))
           422 (Some " 7 ") _ (Some (FFin false 7 0)) "invalid" None None sample_fields);
    vm_compute; reflexivity.
Defined.
