(* ===== verification/HttpVerbs.v ===== *)
(** * HttpVerbs

    The verbs of [http/client.py] against the manifest of the server's routes:
    what each sends is what its route takes, and what its route answers is what
    it reads. *)

From S2P Require Import Prelude PyFloat PyValue PyArith Rfc8949 PyText PyDecimal PyJson Retry.
From S2P Require Import HttpContract HttpTypes HttpTyped HttpCore HttpClient HttpProperties.

(** ** The verbs *)

(** A verb applied to its arguments, with the annotated type of its result. *)
Record any_operation : Type := pack {
  result_of : Type;
  operation_of : http_operation result_of;
  typed_of : result_of -> bool
}.
Arguments pack {result_of} _ _.

Definition asked (op : any_operation) : http_call := asks (operation_of op).

(** The calls a program can make: each verb under the name its route has in the
    manifest, with the parameters of its path and its other arguments, by the names
    they have in the signature and in its order. Arguments that are documents
    themselves have to be of the manifest's type for them, and a float of a query
    has to be finite. *)
Definition optionally {A} (p : A -> bool) (o : option A) : bool := from_option p true o.

Inductive public_verb : string -> list string -> fields -> any_operation -> Prop :=
| verb_encode (text : string) (session occurred_at : option Z) :
    public_verb "memory::encode" []
      [("text", PStr text); ("session", given PInt session);
       ("occurred_at", given PInt occurred_at)]
      (pack (http_encode text session occurred_at) EncodeResult_typed)
| verb_recall (query : string) (max_results : option Z) (subject scope : option string)
    (include_trace : option bool) :
    public_verb "memory::recall" []
      [("query", PStr query); ("max_results", given PInt max_results);
       ("subject", given PStr subject); ("scope", given PStr scope);
       ("include_trace", given PBool include_trace)]
      (pack (http_recall query max_results subject scope include_trace) RecallResult_typed)
| verb_forget (memory_id : string) (hard : bool) :
    public_verb "memory::forget" []
      [("memory_id", PStr memory_id); ("hard", PBool hard)]
      (pack (http_forget memory_id hard) ForgetResult_typed)
| verb_link (source target kind : string) (weight : option pyfloat) :
    public_verb "graph::link" []
      [("source", PStr source); ("target", PStr target); ("kind", PStr kind);
       ("weight", given PFloat weight)]
      (pack (http_link source target kind weight) LinkResult_typed)
| verb_unlink (source target kind : string) :
    public_verb "graph::unlink" []
      [("source", PStr source); ("target", PStr target); ("kind", PStr kind)]
      (pack (http_unlink source target kind) UnlinkResult_typed)
| verb_plan (start goal : list (string * string)) (max_steps max_wall_time_ms max_branches : option Z)
    (strategy : option string) :
    conforms EndpointSpec (dict_of PStr start) = true ->
    conforms EndpointSpec (dict_of PStr goal) = true ->
    public_verb "reasoning::plan" []
      [("start", dict_of PStr start); ("goal", dict_of PStr goal);
       ("max_steps", given PInt max_steps); ("max_wall_time_ms", given PInt max_wall_time_ms);
       ("max_branches", given PInt max_branches); ("strategy", given PStr strategy)]
      (pack (http_plan start goal max_steps max_wall_time_ms max_branches strategy) PlanResult_typed)
| verb_reason (observation : list (string * string)) (depth : option Z)
    (confidence_threshold : option pyfloat) (max_inferences budget_wall_time_ms : option Z) :
    conforms EndpointSpec (dict_of PStr observation) = true ->
    public_verb "reasoning::reason" []
      [("observation", dict_of PStr observation); ("depth", given PInt depth);
       ("confidence_threshold", given PFloat confidence_threshold);
       ("max_inferences", given PInt max_inferences);
       ("budget_wall_time_ms", given PInt budget_wall_time_ms)]
      (pack (http_reason observation depth confidence_threshold max_inferences budget_wall_time_ms) ReasonResult_typed)
| verb_whoami :
    public_verb "identity::whoami" []
      []
      (pack whoami Whoami_typed)
| verb_capabilities :
    public_verb "identity::capabilities" []
      []
      (pack http_capabilities Capabilities_typed)
| verb_memory_list (limit : option Z) (cursor dir : option string) (include_tombstoned : option bool) :
    public_verb "memory::list" []
      [("limit", given PInt limit); ("cursor", given PStr cursor); ("dir", given PStr dir);
       ("include_tombstoned", given PBool include_tombstoned)]
      (pack (http_memory_list limit cursor dir include_tombstoned) MemoryListPage_typed)
| verb_memory_inspect (memory_id : string) :
    public_verb "memory::inspect" [memory_id]
      []
      (pack (http_memory_inspect memory_id) MemoryInspect_typed)
| verb_list_entities (type_id : option Z) (prefix_ : option string) (mention_count_min : option Z)
    (include_tombstoned include_merged : option bool) (limit : option Z) (cursor : option string) :
    public_verb "entity::list" []
      [("type_id", given PInt type_id); ("prefix", given PStr prefix_);
       ("mention_count_min", given PInt mention_count_min);
       ("include_tombstoned", given PBool include_tombstoned);
       ("include_merged", given PBool include_merged); ("limit", given PInt limit);
       ("cursor", given PStr cursor)]
      (pack (http_list_entities type_id prefix_ mention_count_min include_tombstoned include_merged limit
        cursor) ListEntitiesResult_typed)
| verb_get_entity (entity_id : string) :
    public_verb "entity::get" [entity_id]
      []
      (pack (http_get_entity entity_id) EntityDetail_typed)
| verb_create_entity (entity_type_id : Z) (canonical_name : string) (aliases : option (list string)) :
    public_verb "entity::create" []
      [("entity_type_id", PInt entity_type_id); ("canonical_name", PStr canonical_name);
       ("aliases", given (list_of PStr) aliases)]
      (pack (http_create_entity entity_type_id canonical_name aliases) CreateEntityResult_typed)
| verb_resolve_entity (candidate_name : string) (resolution_context : option string) (type_hint : option Z)
    (allow_create : option bool) :
    public_verb "entity::resolve" []
      [("candidate_name", PStr candidate_name);
       ("resolution_context", given PStr resolution_context); ("type_hint", given PInt type_hint);
       ("allow_create", given PBool allow_create)]
      (pack (http_resolve_entity candidate_name resolution_context type_hint allow_create) ResolveEntityResult_typed)
| verb_traverse_relations (entity_id : string) (direction : option string) (relation_types : option (list string))
    (max_depth max_nodes : option Z) (include_superseded : option bool) :
    public_verb "entity::traverse" [entity_id]
      [("direction", given PStr direction);
       ("relation_types", given (list_of PStr) relation_types);
       ("max_depth", given PInt max_depth); ("max_nodes", given PInt max_nodes);
       ("include_superseded", given PBool include_superseded)]
      (pack (http_traverse_relations entity_id direction relation_types max_depth max_nodes
        include_superseded) TraverseResult_typed)
| verb_list_relations (entity_id : string) (direction relation_type : option string)
    (include_superseded include_tombstoned : option bool) (limit : option Z)
    (cursor : option string) :
    public_verb "relation::list" [entity_id]
      [("direction", given PStr direction); ("relation_type", given PStr relation_type);
       ("include_superseded", given PBool include_superseded);
       ("include_tombstoned", given PBool include_tombstoned); ("limit", given PInt limit);
       ("cursor", given PStr cursor)]
      (pack (list_relations entity_id direction relation_type include_superseded include_tombstoned
        limit cursor) ListRelationsResult_typed)
| verb_get_relation (relation_id : string) (follow_supersession : option bool) :
    public_verb "relation::get" [relation_id]
      [("follow_supersession", given PBool follow_supersession)]
      (pack (http_get_relation relation_id follow_supersession) RelationDetail_typed)
| verb_list_statements (subject predicate kind : option string) (min_confidence : option pyfloat)
    (only_current include_tombstoned : option bool) (limit : option Z) (cursor : option string) :
    optionally finite min_confidence = true ->
    public_verb "statement::list" []
      [("subject", given PStr subject); ("predicate", given PStr predicate);
       ("kind", given PStr kind); ("min_confidence", given PFloat min_confidence);
       ("only_current", given PBool only_current);
       ("include_tombstoned", given PBool include_tombstoned); ("limit", given PInt limit);
       ("cursor", given PStr cursor)]
      (pack (http_list_statements subject predicate kind min_confidence only_current include_tombstoned
        limit cursor) ListStatementsResult_typed)
| verb_get_statement (statement_id : string) (follow_supersession : option bool) :
    public_verb "statement::get" [statement_id]
      [("follow_supersession", given PBool follow_supersession)]
      (pack (http_get_statement statement_id follow_supersession) StatementDetail_typed)
| verb_graph_fetch (limit : option Z) (cursor : option string)
    (include_statements include_memories include_memory_edges include_tombstoned : option bool) :
    public_verb "graph::fetch" []
      [("limit", given PInt limit); ("cursor", given PStr cursor);
       ("include_statements", given PBool include_statements);
       ("include_memories", given PBool include_memories);
       ("include_memory_edges", given PBool include_memory_edges);
       ("include_tombstoned", given PBool include_tombstoned)]
      (pack (http_graph_fetch limit cursor include_statements include_memories include_memory_edges
        include_tombstoned) GraphPage_typed)
| verb_get_schema (namespace : option string) (version : option Z) :
    public_verb "schema::get" []
      [("namespace", given PStr namespace); ("version", given PInt version)]
      (pack (http_get_schema namespace version) Schema_typed)
| verb_upload_schema (schema_document : string) (dry_run allow_breaking : option bool) :
    public_verb "schema::upload" []
      [("schema_document", PStr schema_document); ("dry_run", given PBool dry_run);
       ("allow_breaking", given PBool allow_breaking)]
      (pack (http_upload_schema schema_document dry_run allow_breaking) SchemaUpload_typed)
| verb_validate_schema (schema_document : string) :
    public_verb "schema::validate" []
      [("schema_document", PStr schema_document)]
      (pack (http_validate_schema schema_document) SchemaValidate_typed)
| verb_replace_schema (schema_document : string) (force_drop_existing : bool) :
    public_verb "schema::replace" []
      [("schema_document", PStr schema_document);
       ("force_drop_existing", PBool force_drop_existing)]
      (pack (http_replace_schema schema_document force_drop_existing) SchemaReplace_typed)
| verb_create_space (metadata : option string) :
    public_verb "space::create" []
      [("metadata", given PStr metadata)]
      (pack (http_create_space metadata) SpaceProvision_typed)
| verb_list_spaces (limit : option Z) :
    public_verb "space::list" []
      [("limit", given PInt limit)]
      (pack (http_list_spaces limit) ListSpacesResult_typed)
| verb_delete_space :
    public_verb "space::delete" []
      []
      (pack http_delete_space SpaceErased_typed)
| verb_create_session (session_id : Z) (title : option string) :
    public_verb "session::create" []
      [("session_id", PInt session_id); ("title", given PStr title)]
      (pack (http_create_session session_id title) SessionProvision_typed)
| verb_list_sessions (limit : option Z) :
    public_verb "session::list" []
      [("limit", given PInt limit)]
      (pack (http_list_sessions limit) ListSessionsResult_typed)
| verb_delete_session (session_id : Z) (hard : bool) :
    public_verb "session::delete" [str_of_int session_id]
      [("hard", PBool hard)]
      (pack (http_delete_session session_id hard) SessionErased_typed)
| verb_update_entity (entity_id canonical_name : string) (aliases : option (list string))
    (attributes : option string) :
    public_verb "entity::update" [entity_id]
      [("canonical_name", PStr canonical_name); ("aliases", given (list_of PStr) aliases);
       ("attributes", given PStr attributes)]
      (pack (http_update_entity entity_id canonical_name aliases attributes) EntityDetail_typed)
| verb_rename_entity (entity_id new_canonical_name : string) (move_to_alias : bool) :
    public_verb "entity::rename" [entity_id]
      [("new_canonical_name", PStr new_canonical_name); ("move_to_alias", PBool move_to_alias)]
      (pack (http_rename_entity entity_id new_canonical_name move_to_alias) EntityDetail_typed)
| verb_merge_entities (survivor_id merged : string) (confidence : pyfloat) (reason : string) :
    public_verb "entity::merge" [survivor_id]
      [("merged", PStr merged); ("confidence", PFloat confidence); ("reason", PStr reason)]
      (pack (http_merge_entities survivor_id merged confidence reason) MergeEntitiesResult_typed)
| verb_unmerge_entity (merged_entity_id : string) :
    public_verb "entity::unmerge" [merged_entity_id]
      []
      (pack (http_unmerge_entity merged_entity_id) UnmergeEntityResult_typed)
| verb_tombstone_entity (entity_id : string) (reason : option string) :
    public_verb "entity::tombstone" [entity_id]
      [("reason", given PStr reason)]
      (pack (http_tombstone_entity entity_id reason) TombstoneResult_typed)
| verb_create_statement (kind subject predicate : string) (obj_ : fields) (confidence : pyfloat)
    (event_at_unix_nanos valid_from_unix_nanos valid_to_unix_nanos extractor_id : option Z)
    (schema_version session_id : option Z) (evidence : option (list string)) :
    conforms StatementObjectDto (obj obj_) = true ->
    public_verb "statement::create" []
      [("kind", PStr kind); ("subject", PStr subject); ("predicate", PStr predicate);
       ("obj", obj obj_); ("confidence", PFloat confidence);
       ("event_at_unix_nanos", given PInt event_at_unix_nanos);
       ("valid_from_unix_nanos", given PInt valid_from_unix_nanos);
       ("valid_to_unix_nanos", given PInt valid_to_unix_nanos);
       ("extractor_id", given PInt extractor_id); ("schema_version", given PInt schema_version);
       ("session_id", given PInt session_id); ("evidence", given (list_of PStr) evidence)]
      (pack (http_create_statement kind subject predicate obj_ confidence event_at_unix_nanos
        valid_from_unix_nanos valid_to_unix_nanos extractor_id schema_version session_id
        evidence) CreateStatementResult_typed)
| verb_supersede_statement (statement_id kind subject predicate : string) (obj_ : fields) (confidence : pyfloat)
    (event_at_unix_nanos valid_from_unix_nanos valid_to_unix_nanos extractor_id : option Z)
    (schema_version session_id : option Z) (evidence : option (list string)) :
    conforms StatementObjectDto (obj obj_) = true ->
    public_verb "statement::supersede" [statement_id]
      [("kind", PStr kind); ("subject", PStr subject); ("predicate", PStr predicate);
       ("obj", obj obj_); ("confidence", PFloat confidence);
       ("event_at_unix_nanos", given PInt event_at_unix_nanos);
       ("valid_from_unix_nanos", given PInt valid_from_unix_nanos);
       ("valid_to_unix_nanos", given PInt valid_to_unix_nanos);
       ("extractor_id", given PInt extractor_id); ("schema_version", given PInt schema_version);
       ("session_id", given PInt session_id); ("evidence", given (list_of PStr) evidence)]
      (pack (http_supersede_statement statement_id kind subject predicate obj_ confidence
        event_at_unix_nanos valid_from_unix_nanos valid_to_unix_nanos extractor_id schema_version
        session_id evidence) SupersedeStatementResult_typed)
| verb_tombstone_statement (statement_id : string) (reason : Z) (message : option string) :
    public_verb "statement::tombstone" [statement_id]
      [("reason", PInt reason); ("message", given PStr message)]
      (pack (http_tombstone_statement statement_id reason message) TombstoneResult_typed)
| verb_retract_statement (statement_id : string) (reason : Z) (message : option string) :
    public_verb "statement::retract" [statement_id]
      [("reason", PInt reason); ("message", given PStr message)]
      (pack (http_retract_statement statement_id reason message) RetractStatementResult_typed)
| verb_statement_history (statement_id : string) (include_tombstoned : bool) (limit : option Z)
    (cursor : option string) :
    public_verb "statement::history" [statement_id]
      [("include_tombstoned", PBool include_tombstoned); ("limit", given PInt limit);
       ("cursor", given PStr cursor)]
      (pack (http_statement_history statement_id include_tombstoned limit cursor) StatementHistoryResult_typed)
| verb_create_relation (relation_type from_entity to_entity : string) (confidence : pyfloat)
    (valid_from_unix_nanos valid_to_unix_nanos extractor_id session_id : option Z)
    (evidence : option (list string)) (properties : option string) :
    public_verb "relation::create" []
      [("relation_type", PStr relation_type); ("from_entity", PStr from_entity);
       ("to_entity", PStr to_entity); ("confidence", PFloat confidence);
       ("valid_from_unix_nanos", given PInt valid_from_unix_nanos);
       ("valid_to_unix_nanos", given PInt valid_to_unix_nanos);
       ("extractor_id", given PInt extractor_id); ("session_id", given PInt session_id);
       ("evidence", given (list_of PStr) evidence); ("properties", given PStr properties)]
      (pack (http_create_relation relation_type from_entity to_entity confidence valid_from_unix_nanos
        valid_to_unix_nanos extractor_id session_id evidence properties) CreateRelationResult_typed)
| verb_supersede_relation (relation_id relation_type from_entity to_entity : string) (confidence : pyfloat)
    (valid_from_unix_nanos valid_to_unix_nanos extractor_id session_id : option Z)
    (evidence : option (list string)) (properties : option string) :
    public_verb "relation::supersede" [relation_id]
      [("relation_type", PStr relation_type); ("from_entity", PStr from_entity);
       ("to_entity", PStr to_entity); ("confidence", PFloat confidence);
       ("valid_from_unix_nanos", given PInt valid_from_unix_nanos);
       ("valid_to_unix_nanos", given PInt valid_to_unix_nanos);
       ("extractor_id", given PInt extractor_id); ("session_id", given PInt session_id);
       ("evidence", given (list_of PStr) evidence); ("properties", given PStr properties)]
      (pack (http_supersede_relation relation_id relation_type from_entity to_entity confidence
        valid_from_unix_nanos valid_to_unix_nanos extractor_id session_id evidence properties) SupersedeRelationResult_typed)
| verb_tombstone_relation (relation_id : string) (reason : option string) :
    public_verb "relation::tombstone" [relation_id]
      [("reason", given PStr reason)]
      (pack (http_tombstone_relation relation_id reason) TombstoneResult_typed)
| verb_list_schemas (limit : option Z) (cursor : option string) :
    public_verb "schema::list" []
      [("limit", given PInt limit); ("cursor", given PStr cursor)]
      (pack (http_list_schemas limit cursor) ListSchemasResult_typed)
| verb_list_extractors :
    public_verb "schema::extractors" []
      []
      (pack list_extractors ListExtractorsResult_typed)
| verb_drop_schema (kind name : string) (force : bool) :
    public_verb "schema::drop" [kind; name]
      [("force", PBool force)]
      (pack (http_drop_schema kind name force) DropSchemaResult_typed)
| verb_encode_vector (text : string) (vector : list pyfloat) (model_fingerprint : string)
    (session kind : option Z) (salience_hint : option pyfloat) (deduplicate : bool) :
    public_verb "memory::encode_vector" []
      [("text", PStr text); ("vector", list_of PFloat vector);
       ("model_fingerprint", PStr model_fingerprint); ("session", given PInt session);
       ("kind", given PInt kind); ("salience_hint", given PFloat salience_hint);
       ("deduplicate", PBool deduplicate)]
      (pack (encode_vector text vector model_fingerprint session kind salience_hint deduplicate) EncodeResult_typed)
| verb_materialize_procedural (sessions : option (list Z)) (top_k : option Z) (min_confidence : pyfloat)
    (categories : option (list string)) :
    public_verb "memory::materialize_procedural" []
      [("sessions", given (list_of PInt) sessions); ("top_k", given PInt top_k);
       ("min_confidence", PFloat min_confidence); ("categories", given (list_of PStr) categories)]
      (pack (http_materialize_procedural sessions top_k min_confidence categories) MaterializeProceduralResult_typed)
| verb_query_explain (text : string) (entity_anchor : option string) (kinds predicates : option (list string))
    (sessions : option (list Z)) (time_range : option (list (string * Z)))
    (as_of_record_time_unix_nanos : option Z) (confidence_min : option pyfloat)
    (include_tombstoned include_superseded : bool) (limit : option Z)
    (retrievers : option (list string)) (fusion : option fields) :
    optionally (fun d => conforms TimeRangeDto (dict_of PInt d)) time_range = true ->
    optionally (fun d => conforms FusionConfigDto (obj d)) fusion = true ->
    public_verb "query::explain" []
      [("text", PStr text); ("entity_anchor", given PStr entity_anchor);
       ("kinds", given (list_of PStr) kinds); ("predicates", given (list_of PStr) predicates);
       ("sessions", given (list_of PInt) sessions);
       ("time_range", given (dict_of PInt) time_range);
       ("as_of_record_time_unix_nanos", given PInt as_of_record_time_unix_nanos);
       ("confidence_min", given PFloat confidence_min);
       ("include_tombstoned", PBool include_tombstoned);
       ("include_superseded", PBool include_superseded); ("limit", given PInt limit);
       ("retrievers", given (list_of PStr) retrievers); ("fusion", given obj fusion)]
      (pack (http_query_explain text entity_anchor kinds predicates sessions time_range
        as_of_record_time_unix_nanos confidence_min include_tombstoned include_superseded limit
        retrievers fusion) QueryExplainResult_typed)
| verb_query_trace (text : string) (entity_anchor : option string) (kinds predicates : option (list string))
    (sessions : option (list Z)) (time_range : option (list (string * Z)))
    (as_of_record_time_unix_nanos : option Z) (confidence_min : option pyfloat)
    (include_tombstoned include_superseded : bool) (limit : option Z)
    (retrievers : option (list string)) (fusion : option fields) :
    optionally (fun d => conforms TimeRangeDto (dict_of PInt d)) time_range = true ->
    optionally (fun d => conforms FusionConfigDto (obj d)) fusion = true ->
    public_verb "query::trace" []
      [("text", PStr text); ("entity_anchor", given PStr entity_anchor);
       ("kinds", given (list_of PStr) kinds); ("predicates", given (list_of PStr) predicates);
       ("sessions", given (list_of PInt) sessions);
       ("time_range", given (dict_of PInt) time_range);
       ("as_of_record_time_unix_nanos", given PInt as_of_record_time_unix_nanos);
       ("confidence_min", given PFloat confidence_min);
       ("include_tombstoned", PBool include_tombstoned);
       ("include_superseded", PBool include_superseded); ("limit", given PInt limit);
       ("retrievers", given (list_of PStr) retrievers); ("fusion", given obj fusion)]
      (pack (http_query_trace text entity_anchor kinds predicates sessions time_range
        as_of_record_time_unix_nanos confidence_min include_tombstoned include_superseded limit
        retrievers fusion) QueryTraceResult_typed)
| verb_put_llm_credential (provider model api_key : string) :
    public_verb "llm_credential::put" []
      [("provider", PStr provider); ("model", PStr model); ("api_key", PStr api_key)]
      (pack (put_llm_credential provider model api_key) LlmCredential_typed)
| verb_get_llm_credential :
    public_verb "llm_credential::get" []
      []
      (pack get_llm_credential LlmCredential_typed)
| verb_delete_llm_credential :
    public_verb "llm_credential::delete" []
      []
      (pack delete_llm_credential LlmCredentialDeleted_typed)
| verb_test_llm_credential (provider model api_key : string) :
    public_verb "llm_credential::test" []
      [("provider", PStr provider); ("model", PStr model); ("api_key", PStr api_key)]
      (pack (test_llm_credential provider model api_key) LlmCredentialCheck_typed)
| verb_verify_llm_credential :
    public_verb "llm_credential::verify" []
      []
      (pack verify_llm_credential LlmCredentialCheck_typed).

(** ** What following a route means *)

Section Follow.
Context `{HI : Interpreter}.

(** The query a server reads is one its route takes. *)
Definition query_accepted (r : route) (pairs : list (string * string)) : Prop :=
  match route_query r with
  | Some dto => query_conforms dto pairs = true
  | None => pairs = []
  end.

(** The parameters that travel under another name than the signature's. *)
Definition renamed_parameters : list (string * string * string) :=
  [("memory::encode", "occurred_at", "occurred_at_unix_nanos");
   ("relation::list", "relation_type", "type");
   ("statement::create", "obj", "object"); ("statement::supersede", "obj", "object")].

Definition field_of (handler parameter : string) : string :=
  match find (fun '(h, p, _) => String.eqb h handler && String.eqb p parameter)
          renamed_parameters with
  | Some (_, _, name) => name
  | None => parameter
  end.

(** The parameters that are left out when they are empty, false or zero, and not
    only when they are None. *)
Definition query_filters : list string :=
  ["kinds"; "predicates"; "sessions"; "time_range"; "include_tombstoned"; "include_superseded";
   "retrievers"; "fusion"].

Definition dropped_when_empty : list (string * list string) :=
  [("session::delete", ["hard"]); ("entity::update", ["aliases"]); ("entity::merge", ["reason"]);
   ("statement::create", ["evidence"]); ("statement::supersede", ["evidence"]);
   ("relation::create", ["evidence"]); ("relation::supersede", ["evidence"]);
   ("statement::tombstone", ["reason"]); ("statement::retract", ["reason"]);
   ("statement::history", ["include_tombstoned"]); ("schema::drop", ["force"]);
   ("memory::encode_vector", ["deduplicate"]);
   ("memory::materialize_procedural", ["sessions"; "categories"]);
   ("query::explain", query_filters); ("query::trace", query_filters)].

Definition left_out (handler parameter : string) (v : pyval) : bool :=
  is_none v
  || (existsb (fun '(h, ps) => String.eqb h handler && existsb (String.eqb parameter) ps)
        dropped_when_empty && negb (py_bool v)).

(** What the arguments of a verb come to. *)
Definition sent_arguments (handler : string) (named : fields) : fields :=
  omap (fun '(p, v) => if left_out handler p v then None else Some (field_of handler p, v)) named.

(** The value a server reads from the text of a query parameter of a shape, and from
    all the parameters of a query. *)
Fixpoint read_text (t : jtype) (s : string) : option pyval :=
  match t with
  | JString => Some (PStr s)
  | JInt => match int_of_str s with Ok z => Some (PInt z) | Raise _ => None end
  | JFloat => match scan_number s with Some (v, "") => Some v | _ => None end
  | JBool => if String.eqb s "true" then Some (PBool true)
             else if String.eqb s "false" then Some (PBool false) else None
  | JOpt t => read_text t s
  | _ => None
  end.

Definition read_query (t : jtype) (pairs : list (string * string)) : option fields :=
  match t with
  | JObj fs => mapM (fun '(k, s) => t ← shape_of fs k; v ← read_text t s; Some (k, v)) pairs
  | _ => None
  end.

(** The server reads the values of the arguments: in the query where the route
    declares one, in the document otherwise. *)
Definition arguments_received (r : route) (named : fields) (pairs : list (string * string))
    (doc : option pyval) : Prop :=
  match route_query r with
  | Some dto => read_query dto pairs = Some (sent_arguments (handler r) named) /\ doc = None
  | None =>
      pairs = []
      /\ doc = match named with [] => None | _ => Some (obj (sent_arguments (handler r) named)) end
  end.

(** The document a server reads is one its route takes, if the manifest has a
    type for it. *)
Definition body_accepted (r : route) (doc : option pyval) : Prop :=
  match route_body r with
  | Some dto => exists d, doc = Some d /\ conforms dto d = true
  | None => True
  end.

(** Whatever client sends the call, the server reads a request its route takes,
    with the arguments as the parameters of the path and the others as its values. *)
Definition sends_to (r : route) (args : list string) (named : fields) (c : http_call) : Prop :=
  forall self, from_option (fun b => json_ok (obj b)) true (call_body c) = true ->
  exists req segs pairs doc,
    make_request self c = Ok req
    /\ server_reads (base self) req = Some (mk_received (route_method r) segs pairs doc)
    /\ match_template (template r) segs = Some args
    /\ query_accepted r pairs /\ body_accepted r doc
    /\ arguments_received r named pairs doc.

(** Every document the route answers is read, to the annotated types. *)
Definition reads_from (r : route) (op : any_operation) : Prop :=
  forall dto d, route_response r = Some dto -> conforms dto d = true ->
  exists x, reads (operation_of op) d = Ok x /\ typed_of op x = true.

(** An entry of a display is what its argument comes to. *)
Definition entry_sends (handler : string) (kv pv : string * pyval) : Prop :=
  kv.1 = field_of handler pv.1
  /\ kv.2 = if left_out handler pv.1 pv.2 then PNone else pv.2.

Lemma compact_sends h l named :
  Forall2 (entry_sends h) l named -> compact l = sent_arguments h named.
Proof.
  induction 1 as [|[k v] [p a] l named [Ek Ev] _ IH]; [done|]. cbn [fst snd] in *. subst.
  unfold compact, sent_arguments in *. cbn [List.filter snd omap list_omap].
  destruct (left_out h p a) eqn:El; [exact IH|].
  unfold left_out in El. apply orb_false_iff in El as [-> _]. cbn. by rewrite IH.
Qed.

(** A display sent without [_compact] around it. *)
Lemma display_sends h l named :
  Forall (fun kv => is_none (snd kv) = false) l -> Forall2 (entry_sends h) l named ->
  l = sent_arguments h named.
Proof.
  intros Hl Hs. rewrite <- (compact_sends _ _ _ Hs). unfold compact. symmetry. clear named Hs.
  induction Hl as [|[k v] l Hv _ IH]; [done|]. cbn [List.filter snd]. cbn in Hv.
  rewrite Hv. cbn. by rewrite IH.
Qed.

(** An entry of a query: left out, or declared and read back from its text. *)
Definition entry_reads (fs : list field) (kv : string * pyval) : Prop :=
  kv.2 = PNone
  \/ exists t, shape_of fs kv.1 = Some t /\ read_text t (query_text kv.2) = Some kv.2.

Lemma read_query_compact fs l :
  Forall (entry_reads fs) l -> read_query (JObj fs) (query_pairs (compact l)) = Some (compact l).
Proof.
  intros Hl. unfold query_pairs. rewrite compact_compact. cbn [read_query].
  induction Hl as [|[k v] l Hkv _ IH]; [done|]. unfold compact in *. cbn [List.filter snd].
  destruct (is_none v) eqn:En; [exact IH|]. cbn [negb map].
  destruct Hkv as [Hv|(t & Et & Ev)]; cbn [fst snd] in *; [by rewrite Hv in En|].
  cbn [mapM]. rewrite Et. cbn. rewrite Ev. cbn. by rewrite IH.
Qed.

Lemma read_text_int z : read_text JInt (str_of_int z) = Some (PInt z).
Proof. cbn. by rewrite int_of_str_of_int. Qed.

Lemma read_text_float f : finite f = true -> read_text JFloat (float_repr f) = Some (PFloat f).
Proof.
  unfold finite. rewrite !andb_true_iff, !negb_true_iff. intros [[H1 H2] H3]. cbn.
  rewrite <- (string_app_nil (float_repr f)). by rewrite float_repr_scan.
Qed.

Lemma follows {A} (op : http_operation A) typed r args named :
  forallb literal_ok (template r) = true -> template r <> [] -> is_Some (fill (template r) args) ->
  call_path (asks op) = render (template r) args -> call_method (asks op) = route_method r ->
  query_accepted r (query_pairs (default [] (call_query (asks op)))) ->
  body_accepted r (option_map obj (call_body (asks op))) ->
  arguments_received r named (query_pairs (default [] (call_query (asks op))))
    (option_map obj (call_body (asks op))) ->
  from_option (fun dto => Decodes dto (reads op) typed) True (route_response r) ->
  sends_to r args named (asked (pack op typed)) /\ reads_from r (pack op typed).
Proof.
  intros Hlit Hne Hfill Hpath Hm Hq Hb Ha Hr. split.
  - intros self Hjson.
    destruct (receive_request self (asks op) (template r) args Hne Hlit Hfill Hpath Hjson)
      as (req & segs & Er & Ev & Em).
    rewrite Hm in Ev. by eexists req, segs, _, _.
  - intros dto d E Hd. rewrite E in Hr. cbn [from_option] in Hr. by apply Hr.
Qed.
End Follow.

(** *** Automation *)

(** Every element of an explicit list. *)
Ltac each_of tac := repeat (apply List.Forall_cons; [tac|]); apply List.Forall_nil.

(** One entry of a display, by the cases of its argument. *)
Ltac split_arguments :=
  repeat match goal with
  | |- context [filled _ ?o] => is_var o; destruct o as [[|? ?]|]
  | |- context [given _ ?o] => is_var o; destruct o
  | |- context [or_none ?v] => unfold or_none; destruct (py_bool v) eqn:?
  end; cbn [given filled fst snd].

Ltac case_bool :=
  match goal with |- context [PBool ?b] => is_var b; destruct b; reflexivity end.

Ltac solve_shape :=
  first
    [ left; reflexivity
    | right; eexists; split; [reflexivity|];
      first [ reflexivity | assumption | solve [case_bool] | apply list_of_conforms; reflexivity
            | apply text_conforms_int | by apply text_conforms_float
            | exact (text_conforms_int _) ] ].

Ltac solve_entry :=
  first [unfold entry_conforms | unfold entry_readable]; cbn [fst snd]; split_arguments; solve_shape.

Ltac solve_nodup := apply (bool_decide_unpack _); vm_compute; exact I.

Ltac solve_provided :=
  first [ left; reflexivity
        | right; eexists; split;
          [ repeat first [apply list_elem_of_here | apply list_elem_of_further] | discriminate ] ].

(** The display a verb builds, with [_compact] around it. *)
Ltac display_of l :=
  let l := eval cbv beta delta [statement_body relation_body query_body] in l in
  lazymatch l with
  | compact ?l => l
  | _ => l
  end.

Ltac solve_query :=
  cbv beta iota delta [query_accepted route_query];
  lazymatch goal with
  | |- query_conforms ?dto (query_pairs (default [] (call_query (asks ?op)))) = true =>
      let q := eval hnf in (call_query (asks op)) in
      let fs := eval hnf in dto in
      lazymatch q with
      | Some ?q =>
          let l := display_of q in
          change (query_conforms fs (query_pairs (compact l)) = true);
          apply compact_readable; [solve_nodup | each_of solve_entry | reflexivity]
      end
  | |- _ => reflexivity
  end.

Ltac solve_body :=
  cbv beta iota delta [body_accepted route_body];
  lazymatch goal with
  | |- True => exact I
  | |- exists d, option_map obj (call_body (asks ?op)) = Some d /\ conforms ?dto d = true =>
      let b := eval hnf in (call_body (asks op)) in
      let fs := eval hnf in dto in
      lazymatch b with
      | Some ?b =>
          let l := display_of b in
          exists (obj (compact l)); split; [reflexivity|];
          change (conforms fs (obj (compact l)) = true);
          apply compact_conforms;
          [ solve_nodup | solve_nodup | each_of solve_entry
          | each_of solve_provided ]
      end
  end.

(** One entry of a display against its argument. *)
Ltac solve_sends :=
  split; [reflexivity|]; cbn [fst snd]; split_arguments;
  first [ reflexivity
        | match goal with |- context [PBool ?b] => is_var b; destruct b; reflexivity end
        | match goal with E : py_bool ?v = _ |- _ => unfold left_out; rewrite E; reflexivity end ].

Ltac solve_entry_reads :=
  unfold entry_reads; cbn [fst snd]; split_arguments;
  first
    [ left; reflexivity
    | right; eexists; split; [reflexivity|];
      first [ reflexivity | solve [case_bool] | exact (read_text_int _)
            | by apply read_text_float ] ].

Ltac each_pair_of tac := repeat (apply List.Forall2_cons; [tac|]); apply List.Forall2_nil.

Ltac solve_arguments :=
  cbv beta iota delta [arguments_received route_query handler];
  lazymatch goal with
  | |- read_query ?dto (query_pairs (default [] (call_query (asks ?op)))) = _ /\ _ =>
      let q := eval hnf in (call_query (asks op)) in
      let fs := eval hnf in dto in
      lazymatch q with
      | Some ?q =>
          let l := display_of q in
          split; [|reflexivity];
          lazymatch goal with |- _ = ?v => change (read_query fs (query_pairs (compact l)) = v) end;
          etrans; [apply read_query_compact; each_of solve_entry_reads|];
          apply (f_equal Some), compact_sends; each_pair_of solve_sends
      end
  | |- _ /\ option_map obj (call_body (asks ?op)) = _ =>
      split; [reflexivity|];
      let b := eval hnf in (call_body (asks op)) in
      lazymatch b with
      | None => reflexivity
      | Some ?b =>
          let b := eval cbv beta delta [statement_body relation_body query_body] in b in
          lazymatch goal with |- _ = ?v => change (Some (obj b) = v) end;
          apply (f_equal (fun d => Some (obj d)));
          first [ apply compact_sends; each_pair_of solve_sends
                | apply display_sends; [each_of ltac:(exact eq_refl)|each_pair_of solve_sends] ]
      end
  end.

Ltac find_in_manifest :=
  cbv [find_route routes find handler String.eqb Ascii.eqb Bool.eqb]; reflexivity.

Ltac head_of t := lazymatch t with ?f _ => head_of f | _ => t end.

Ltac solve_reads :=
  cbn [from_option route_response];
  lazymatch goal with
  | |- Decodes _ (reads ?op) _ => let h := head_of op in unfold h; cbn [reads]; exact _
  | |- _ => exact I
  end.

Ltac follow_route :=
  eexists; split; [find_in_manifest|]; apply follows;
  [ reflexivity | discriminate | by eexists | reflexivity | reflexivity
  | solve_query | solve_body | solve_arguments | solve_reads ].

(** ** The theorem *)

(** Arguments for a verb of any signature. *)
Ltac least :=
  first [ exact None | exact "" | exact 0 | exact false | exact (@nil string) | exact (@nil pyfloat)
        | exact (@nil (string * string)) | exact (FInf false)
        | exact [("kind", PStr "memory"); ("id", PStr "")] | reflexivity ].

Section Manifest.
Context `{HI : Interpreter}.

(** Every route of the manifest has its verb; the one left is the feed. *)
Lemma every_route_has_a_verb :
  Forall (fun r => handler r = "subscribe::subscribe"
                   \/ exists args named op, public_verb (handler r) args named op) routes.
Proof.
  unfold routes. repeat (apply List.Forall_cons; [|]); [..|apply List.Forall_nil].
  all: first [left; reflexivity | right; cbn [handler]; shelve].
  Unshelve. all: unshelve (eexists; eexists; eexists; econstructor); least.
Qed.

Lemma verb_follows handler args named op :
  public_verb handler args named op ->
  exists r, find_route handler = Some r /\ sends_to r args named (asked op) /\ reads_from r op.
Proof. destruct 1; follow_route. Qed.

(** C19: the client and the server agree on every endpoint but the feed. Take any
    verb of the HTTP client but [subscribe], at arguments of the types it declares:
    those that are documents conform to the manifest's type for them, the floats of
    a query are finite, and the body holds nothing JSON cannot write (no NaN and no
    infinity). Its route is in the manifest of the server's routes; the request it
    makes has the method of that route, and a server that decodes it finds the path
    of the route with exactly the verb's path arguments as its parameters (whatever
    characters they hold), and every other argument with exactly its value under
    its own name (or the one other name its table gives it) and nothing else, in
    the query where the route declares one and in the JSON body otherwise; left
    out are the arguments that are None and, where the verb says so, those that are
    empty. The query has declared parameters of the declared types only, and the
    body is the declared document: every required field, none undeclared, each of
    its type. Conversely every document the route is declared to answer is read by
    the verb, without an error, to a value of the annotated types. And every route
    of the manifest but the feed has such a verb. *)
Theorem verbs_follow_the_manifest :
  (forall handler args named op, public_verb handler args named op ->
     exists r, find_route handler = Some r /\ sends_to r args named (asked op) /\ reads_from r op)
  /\ Forall (fun r => handler r = "subscribe::subscribe"
                      \/ exists args named op, public_verb (handler r) args named op) routes.
Proof. split; [apply verb_follows|apply every_route_has_a_verb]. Qed.
End Manifest.

(** Reading a statement whose id would otherwise open another segment and a query. *)
Lemma verbs_follow_the_manifest_witness :
  (exists r, find_route "statement::get" = Some r
     /\ sends_to (HI := sample_interpreter) r ["a/b?c"] [("follow_supersession", PBool true)]
          (asked (pack (http_get_statement "a/b?c" (Some true)) StatementDetail_typed))
     /\ reads_from r (pack (http_get_statement "a/b?c" (Some true)) StatementDetail_typed))
  /\ call_path (asks (http_get_statement "a/b?c" None)) = "/v1/statements/a%2Fb%3Fc".
Proof.
  split; [|vm_compute; reflexivity].
  apply (proj1 (verbs_follow_the_manifest (HI := sample_interpreter))).
  apply (verb_get_statement "a/b?c" (Some true)).
Defined.
