(* ===== verification/PyDict.v ===== *)
(** * PyDict

    Python's [dict] with string keys, where the order of its items shows, and
    [sorted] on strings: what the development tools of [src/tools] are written
    with. A dict is the list of its items in insertion order, no key twice. *)

From S2P Require Import Prelude.
From Stdlib Require Import Strings.String Sorting.Sorted.
From stdpp Require Import strings sorting sets.

(** ** Dictionaries *)

Definition dict (A : Type) : Type := list (string * A).

Section Dict.
Context {A : Type}.
Implicit Types (d : dict A) (k : string) (v : A).

(** [d.get(k)]. *)
Fixpoint lookup_key k d : option A :=
    match d with
    | [] => None
    | (k', v) :: d => if String.eqb k k' then Some v else lookup_key k d
    end.

(** [d[k] = v]: a key that is there keeps its place. *)
Fixpoint set_key k v d : dict A :=
    match d with
    | [] => [(k, v)]
    | (k', v') :: d => if String.eqb k k' then (k, v) :: d else (k', v') :: set_key k v d
    end.

(** [d.update(e)]. *)
Definition update_keys d (e : dict A) : dict A :=
    fold_left (fun d '(k, v) => set_key k v d) e d.

(** [{k: v for k, v in l}]. *)
Definition dict_from (l : list (string * A)) : dict A := update_keys [] l.

(** [k in d]. *)
Definition has_key k d : bool := match lookup_key k d with Some _ => true | None => false end.

(** It is a dict: no key twice. *)
Definition keys_ok d : Prop := NoDup (map fst d).

Lemma lookup_key_None k d : lookup_key k d = None <-> k ∉ map fst d.
Proof.
    induction d as [|[k' v] d IH]; simpl; [set_solver|].
    destruct (String.eqb_spec k k') as [->|Hk]; [set_solver|].
    rewrite IH. set_solver.
Qed.

Lemma lookup_key_elem k v d : lookup_key k d = Some v -> (k, v) ∈ d.
Proof.
    induction d as [|[k' v'] d IH]; simpl; [done|].
    destruct (String.eqb_spec k k') as [->|Hk]; [|set_solver].
    intros [= ->]. set_solver.
Qed.

Lemma lookup_key_iff k v d : keys_ok d -> lookup_key k d = Some v <-> (k, v) ∈ d.
Proof.
    intros Hd. split; [apply lookup_key_elem|].
    induction d as [|[k' v'] d IH]; simpl; [set_solver|].
    apply NoDup_cons in Hd as [Hk Hd]. rewrite elem_of_cons. intros [[= -> ->]|He].
    - by rewrite String.eqb_refl.
    - destruct (String.eqb_spec k k') as [->|]; [|by apply IH].
      exfalso. apply Hk. apply (list_elem_of_fmap_2 fst) in He. exact He.
Qed.

Lemma has_key_iff k d : has_key k d = true <-> k ∈ map fst d.
Proof.
    unfold has_key. pose proof (lookup_key_None k d) as H.
    destruct (lookup_key k d); split; intros; try done.
    - destruct (decide (k ∈ map fst d)) as [|Hn]; [done|]. by apply H in Hn.
    - by apply H in H1 || tauto.
Qed.

Lemma set_key_new k v d : k ∉ map fst d -> set_key k v d = d ++ [(k, v)].
Proof.
    induction d as [|[k' v'] d IH]; simpl; [done|]. intros Hk.
    destruct (String.eqb_spec k k') as [->|]; [set_solver|].
    rewrite IH; set_solver.
Qed.

Lemma update_keys_app d l : NoDup (map fst d ++ map fst l) -> update_keys d l = d ++ l.
Proof.
    unfold update_keys. revert d. induction l as [|[k v] l IH]; simpl; intros d Hl.
    - by rewrite app_nil_r.
    - rewrite set_key_new.
      + rewrite IH; [by rewrite <-app_assoc|]. rewrite map_app, <-app_assoc. exact Hl.
      + apply NoDup_app in Hl as (_ & Hl & _). intros Hk. apply (Hl k Hk). set_solver.
Qed.

Lemma dict_from_ok l : keys_ok l -> dict_from l = l.
Proof. intros Hl. unfold dict_from. by rewrite update_keys_app. Qed.
End Dict.

(** ** Sorting *)

Definition str_le (s t : string) : Prop := String.leb s t = true.

#[export] Instance str_le_dec : RelDecision str_le.
Proof. intros s t. unfold str_le. apply _. Defined.

(** [sorted(l)] of strings. Code points are in the order of their UTF-8 bytes. *)
Definition py_sorted (l : list string) : list string := merge_sort str_le l.

(** [sorted(d.items())]: no two keys are equal, so no two values are compared. *)
Definition item_le {A} (a b : string * A) : Prop := str_le a.1 b.1.

#[export] Instance item_le_dec {A} : RelDecision (@item_le A).
Proof. intros a b. unfold item_le. apply _. Defined.

Definition sorted_items {A} (d : dict A) : dict A := merge_sort item_le d.

Lemma elem_of_py_sorted l s : s ∈ py_sorted l <-> s ∈ l.
Proof. unfold py_sorted. by rewrite (merge_sort_Permutation str_le l). Qed.

Lemma elem_of_sorted_items {A} (d : dict A) x : x ∈ sorted_items d <-> x ∈ d.
Proof. unfold sorted_items. by rewrite (merge_sort_Permutation item_le d). Qed.

(** ** Reports *)

(** A report is empty when every part of it is. *)
Lemma report_app {A} (l k : list A) : l ++ k = [] <-> l = [] /\ k = [].
Proof. split; [apply app_eq_nil|by intros [-> ->]]. Qed.

Lemma report_loop {A B} (f : A -> list B) (l : list A) :
  flat_map f l = [] <-> forall x, x ∈ l -> f x = [].
Proof.
  induction l as [|x l IH]; simpl; [set_solver|].
  rewrite report_app, IH. setoid_rewrite elem_of_cons. naive_solver.
Qed.

Lemma filter_nil_iff {A} (P : A -> Prop) `{forall x, Decision (P x)} (l : list A) :
  filter P l = [] <-> forall x, x ∈ l -> ~ P x.
Proof.
  split.
  - intros Hl x Hx Hp. apply (not_elem_of_nil x). rewrite <- Hl. by apply list_elem_of_filter.
  - intros Hl. apply elem_of_nil_inv. intros x [Hp Hx]%list_elem_of_filter. by apply (Hl x).
Qed.

Lemma existsb_false_iff {A} (p : A -> bool) (l : list A) :
  existsb p l = false <-> forall x, x ∈ l -> p x = false.
Proof.
  induction l as [|x l IH]; simpl; [set_solver|].
  rewrite orb_false_iff, IH. setoid_rewrite elem_of_cons. naive_solver.
Qed.
