(* ===== verification/ToolText.v ===== *)
(** * ToolText

    How [tools/check_http_contract.py] reads source text: comments blanked out,
    brackets matched, paths normalised, and the types of three languages reduced
    to what can be compared. Text that is cut by position is a list of code
    points; names, paths and types are strings. *)

From S2P Require Import Prelude PyFloat PyValue Rfc8949 PyText PyDict.
From Stdlib Require Import Strings.Ascii.
From stdpp Require Import list sets.
#[local] Open Scope Z_scope.

(** ** [strip_comments] *)

Abbreviation text := (list Z).

(** Where the scan is: in code, in a literal that ends with [q], right after a
    backslash in one, in a line comment, or in a block comment. *)
Inductive scan_mode : Type :=
| InCode
| InLiteral (q : Z)
| Escaped (q : Z)
| InLine
| InBlock.

Section Strip.
Context (quotes : text).

Fixpoint strip_from (mode : scan_mode) (t : text) : text :=
  match t with
  | [] => match mode with InBlock => [32; 32] | _ => [] end
  | c :: rest =>
      match mode with
      | InCode =>
          if decide (c ∈ quotes) then c :: strip_from (InLiteral c) rest
          else match rest with
               | d :: rest' =>
                   if (c =? 47) && (d =? 47) then 32 :: strip_from InLine rest
                   else if (c =? 47) && (d =? 42) then 32 :: strip_from InBlock rest
                   else c :: strip_from InCode rest
               | [] => [c]
               end
      | InLiteral q =>
          if c =? q then c :: strip_from InCode rest
          else if c =? 92 then c :: strip_from (Escaped q) rest
          else c :: strip_from (InLiteral q) rest
      | Escaped q => c :: strip_from (InLiteral q) rest
      | InLine => if c =? 10 then c :: strip_from InCode rest else 32 :: strip_from InLine rest
      | InBlock =>
          match rest with
          | d :: rest' =>
              if (c =? 42) && (d =? 47) then 32 :: 32 :: strip_from InCode rest'
              else (if c =? 10 then c else 32) :: strip_from InBlock rest
          | [] => [if c =? 10 then c else 32; 32; 32]
          end
      end
  end.
End Strip.

Definition strip_comments (t : text) (backtick : bool) : text :=
  strip_from ([34; 39] ++ if backtick then [96] else []) InCode t.

(** ** [_match] *)

Fixpoint match_from (opener closer : Z) (depth : Z) (i : nat) (t : text) : option nat :=
  match t with
  | [] => None
  | c :: t =>
      if c =? opener then match_from opener closer (depth + 1) (S i) t
      else if c =? closer then
        if depth - 1 =? 0 then Some i else match_from opener closer (depth - 1) (S i) t
      else match_from opener closer depth (S i) t
  end.

Definition match_delim (t : text) (start : nat) (opener closer : Z) : nat :=
  default (length t) (match_from opener closer 0 start (drop start t)).

(** ** [normalize] *)

(** [re.sub(r"\$\{[^}]*\}", "{id}", s)], or without the dollar sign; [inside] is
    set from an opening brace that has a closing one to that closing one. *)
Fixpoint sub_holes (dollar inside : bool) (s : string) : string :=
  match s with
  | EmptyString => EmptyString
  | String c s' =>
      if inside then sub_holes dollar (negb (Ascii.eqb c "}")) s'
      else if dollar then
        match s' with
        | String d s'' =>
            if Ascii.eqb c "$" && Ascii.eqb d "{" && negb (lacks "}" s'')
            then "{id}" +:+ sub_holes dollar true s'
            else String c (sub_holes dollar false s')
        | EmptyString => s
        end
      else if Ascii.eqb c "{" && negb (lacks "}" s') then "{id}" +:+ sub_holes dollar true s'
      else String c (sub_holes dollar false s')
  end.

(** [s.replace("{}", "{id}")]. *)
Fixpoint replace_braces (s : string) : string :=
  match s with
  | String "{" (String "}" s) => "{id}" +:+ replace_braces s
  | String c s => String c (replace_braces s)
  | EmptyString => EmptyString
  end.

(** [s.rstrip(c)]. *)
Fixpoint rstrip_char (c : ascii) (s : string) : string :=
  match s with
  | EmptyString => EmptyString
  | String d s =>
      match rstrip_char c s with
      | EmptyString => if Ascii.eqb d c then EmptyString else String d EmptyString
      | s => String d s
      end
  end.

Definition normalize (path : string) : string :=
  let path := sub_holes true false path in
  let path := sub_holes false false path in
  let path := rstrip_char "/" (replace_braces path) in
  if String.eqb path "" then "/" else path.

(** ** Types *)

Fixpoint drop_prefix (p s : string) : option string :=
  match p, s with
  | EmptyString, s => Some s
  | String a p, String b s => if Ascii.eqb a b then drop_prefix p s else None
  | String _ _, EmptyString => None
  end.

(** [s] up to [p] at its end. *)
Fixpoint drop_suffix (p s : string) : option string :=
  if String.eqb s p then Some EmptyString
  else match s with
       | EmptyString => None
       | String c s => option_map (String c) (drop_suffix p s)
       end.

Definition newline : ascii := "010".

(** The group of [re.fullmatch(pre + "(.*)" + post, s)]. *)
Definition full_match (pre post s : string) : option string :=
  match drop_prefix pre s with
  | Some r => match drop_suffix post r with
              | Some m => if lacks newline m then Some m else None
              | None => None
              end
  | None => None
  end.

Definition matches (pre post s : string) : bool :=
  match full_match pre post s with Some _ => true | None => false end.

(** [s.strip()]. *)
Definition py_strip (s : string) : string := strip_right (strip_left s).

(** [{...}.get(s, "?")] of a table of names. *)
Definition kind_of (table : dict string) (s : string) : string := default "?" (lookup_key s table).

(** A type whose wrappers are peeled off until what is left is looked up. Every
    layer is a character at least, so the length of the type is fuel enough. *)
Fixpoint reduce_from (fuel : nat) (peel : string -> option string) (leaf : string -> string) (s : string) : string :=
  match peel s with
  | Some inner => match fuel with S fuel => reduce_from fuel peel leaf inner | O => "?" end
  | None => leaf s
  end.
Definition reduce (peel : string -> option string) (leaf : string -> string) (s : string) : string :=
  reduce_from (String.length s) peel leaf s.

(** [contract_kind]: the body of its loop, what ends it, and the loop. *)
Definition contract_peel : string -> option string := full_match "opt(" ")".
Definition contract_leaf (shape : string) : string :=
  if matches "list(" ")" shape then "list"
  else kind_of [("string", "string"); ("int", "int"); ("float", "float"); ("bool", "bool")] shape.
Definition contract_kind : string -> string := reduce contract_peel contract_leaf.

(** [re.fullmatch(r"[iu](8|16|32|64|128)|usize|isize", ty)]. *)
Definition rust_int (ty : string) : bool :=
  bool_decide (ty ∈ ["i8"; "i16"; "i32"; "i64"; "i128"; "u8"; "u16"; "u32"; "u64"; "u128"; "usize"; "isize"]).

Definition rust_clean (ty : string) : string := py_strip (rstrip_char "," (py_strip ty)).
Definition rust_peel (ty : string) : option string := full_match "Option<" ">" (rust_clean ty).
Definition rust_leaf (ty : string) : string :=
  let ty := rust_clean ty in
  if matches "Vec<" ">" ty then "list"
  else if bool_decide (ty ∈ ["String"; "&str"]) then "string"
  else if rust_int ty then "int"
  else if bool_decide (ty ∈ ["f32"; "f64"]) then "float"
  else if String.eqb ty "bool" then "bool" else "?".
Definition rust_kind : string -> string := reduce rust_peel rust_leaf.

(** [s.strip(...)] of quotes. *)
Definition is_quote (c : ascii) : bool := Ascii.eqb c "034" || Ascii.eqb c "'".
Fixpoint strip_quotes_left (s : string) : string :=
  match s with
  | String c s' => if is_quote c then strip_quotes_left s' else s
  | EmptyString => EmptyString
  end.
Fixpoint strip_quotes_right (s : string) : string :=
  match s with
  | EmptyString => EmptyString
  | String c s =>
      match strip_quotes_right s with
      | EmptyString => if is_quote c then EmptyString else String c EmptyString
      | s => String c s
      end
  end.

(** The group of [re.fullmatch(r"Union\[(.*),\s*None\]", s)]. *)
Definition union_none (s : string) : option string :=
  match drop_prefix "Union[" s with
  | Some r => match drop_suffix "None]" r with
              | Some m => match drop_suffix "," (strip_right m) with
                          | Some m => if lacks newline m then Some m else None
                          | None => None
                          end
              | None => None
              end
  | None => None
  end.

Definition optional_arg (s : string) : option string :=
  match full_match "Optional[" "]" s with Some m => Some m | None => union_none s end.

Definition py_clean (annotation : string) : string :=
  strip_quotes_right (strip_quotes_left (py_strip annotation)).
Definition py_peel (annotation : string) : option string := optional_arg (py_clean annotation).
Definition py_leaf (annotation : string) : string :=
  let annotation := py_clean annotation in
  if existsb (fun pre => matches pre "]" annotation) ["list["; "List["; "Sequence["; "tuple["; "Tuple["]
  then "list"
  else kind_of [("str", "string"); ("int", "int"); ("float", "float"); ("bool", "bool")] annotation.
Definition py_kind : string -> string := reduce py_peel py_leaf.

(** A character of a word, as the identifiers here have them. *)
Definition word_char (c : ascii) : bool :=
  let n := Z.of_N (N_of_ascii c) in is_alnum n || (n =? 95).

(** What follows [\s*\|\s*(null|undefined)\b] at the head of [s]. *)
Definition null_arm (s : string) : option string :=
  match strip_left s with
  | String "|" s =>
      let s := strip_left s in
      let arm w := match drop_prefix w s with
                   | Some (String c r) => if word_char c then None else Some (String c r)
                   | r => r
                   end in
      match arm "null" with Some r => Some r | None => arm "undefined" end
  | _ => None
  end.

(** [re.sub(r"\s*\|\s*(null|undefined)\b", "", s)]. *)
Fixpoint drop_null_arms (fuel : nat) (s : string) : string :=
  match fuel with
  | O => s
  | S fuel =>
      match null_arm s with
      | Some r => drop_null_arms fuel r
      | None => match s with
                | String c s => String c (drop_null_arms fuel s)
                | EmptyString => EmptyString
                end
      end
  end.

Definition ts_kind (ty : string) : string :=
  let ty := rstrip_char ";" (py_strip ty) in
  let ty := py_strip (drop_null_arms (String.length ty) ty) in
  if match drop_suffix "[]" ty with Some _ => true | None => false end
     || matches "Array<" ">" ty || matches "ReadonlyArray<" ">" ty then "list"
  else kind_of [("string", "string"); ("number", "number"); ("bigint", "bigint"); ("boolean", "bool")] ty.

(** ** Names *)

Definition is_upper (c : ascii) : bool := in_range 65 90 (Z.of_N (N_of_ascii c)).
Definition lower_char (c : ascii) : ascii :=
  if is_upper c then ascii_of_N (N_of_ascii c + 32) else c.

(** [re.sub(r"(?<!^)(?=[A-Z])", "_", name).lower()]; [first] at the start. *)
Fixpoint snake_from (first : bool) (name : string) : string :=
  match name with
  | EmptyString => EmptyString
  | String c name =>
      (if is_upper c && negb first then "_" else "") +:+ String (lower_char c) (snake_from false name)
  end.
Definition camel_to_snake (name : string) : string := snake_from true name.

Definition py_wire_name (attr : string) : string :=
  match drop_suffix "_" attr with
  | Some s => if starts_with "_" attr then attr else s
  | None => attr
  end.

(** ** The examples of [tools/test_check_http_contract.py] *)

Example kinds_reduced :
  map contract_kind ["opt(string)"; "list(WidgetDto)"; "opt(TimeRangeDto)"] = ["string"; "list"; "?"]
  /\ map rust_kind ["Option<u64>"; "Vec<String>"; " Option<Option<f32>>,"] = ["int"; "list"; "float"]
  /\ map py_kind ["Optional[str]"; "Union[List[int], None]"; "'bool'"] = ["string"; "list"; "bool"]
  /\ map ts_kind ["string[]"; "bigint"; "bigint | null"; "bigint[]"; "number | undefined;"]
     = ["list"; "bigint"; "bigint"; "list"; "number"]
  /\ map py_wire_name ["from_"; "_private"; "subject"] = ["from"; "_private"; "subject"]
  /\ map camel_to_snake ["createEntity"; "Widget"] = ["create_entity"; "widget"]
  /\ map normalize ["/v1/a/${encodeURIComponent(id)}/b"; "/v1/a/{}/b/"; "/v1/a/{seg(id)}/b"; "/"]
     = ["/v1/a/{id}/b"; "/v1/a/{id}/b"; "/v1/a/{id}/b"; "/"].
Proof. by_compute. Qed.

(** ** Peeling types *)

Lemma reduce_fuel peel leaf s n :
  (forall t u, peel t = Some u -> (String.length u < String.length t)%nat) ->
  (String.length s <= n)%nat -> reduce_from n peel leaf s = reduce peel leaf s.
Proof.
  intros Hp. unfold reduce. remember (String.length s) as k eqn:Hk.
  assert (Hle : (String.length s <= k)%nat) by lia. clear Hk. revert s n Hle.
  induction k as [|k IH]; intros s n Hs Hn.
  - destruct n; [done|]. simpl. destruct (peel s) as [u|] eqn:E; [|done]. apply Hp in E. lia.
  - destruct n as [|n]; [lia|]. simpl. destruct (peel s) as [u|] eqn:E; [|done].
    apply Hp in E. apply IH; lia.
Qed.

Lemma reduce_peel peel leaf s u :
  (forall t v, peel t = Some v -> (String.length v < String.length t)%nat) ->
  peel s = Some u -> reduce peel leaf s = reduce peel leaf u.
Proof.
  intros Hp E. rewrite <- (reduce_fuel peel leaf u (String.length s - 1) Hp) by (apply Hp in E; lia).
  unfold reduce. assert (Hl := Hp _ _ E). destruct (String.length s) eqn:En; [lia|].
  simpl. by rewrite E, Nat.sub_0_r.
Qed.

Lemma drop_prefix_iff p s r : drop_prefix p s = Some r <-> s = p +:+ r.
Proof.
  revert s. induction p as [|a p IH]; intros s; simpl.
  - split; [by intros [= ->]|by intros ->].
  - destruct s as [|b s]; [done|]. destruct (Ascii.eqb_spec a b) as [->|Hn].
    + rewrite IH. split; [by intros ->|by intros [= ->]].
    + split; [done|]. intros [= -> _]. done.
Qed.

Lemma drop_suffix_Some p s r : drop_suffix p s = Some r -> s = r +:+ p.
Proof.
  revert r. induction s as [|c s IH]; intros r; cbn [drop_suffix].
  - destruct p; [|done]. intros Hr. by injection Hr as <-.
  - destruct (String.eqb_spec (String c s) p) as [E|]; [intros Hr; injection Hr as <-; exact E|].
    destruct (drop_suffix p s) as [t|]; [|done]. intros Hr. injection Hr as <-. change (String c t +:+ p) with (String c (t +:+ p)). by rewrite (IH t).
Qed.

Lemma str_length_app s t : String.length (s +:+ t) = (String.length s + String.length t)%nat.
Proof. induction s as [|c s IH]; simpl; [done|]. by rewrite IH. Qed.

Lemma drop_suffix_app p r : drop_suffix p (r +:+ p) = Some r.
Proof.
  induction r as [|c r IH].
  - change ("" +:+ p) with p. destruct p as [|c p]; [done|]. cbn [drop_suffix]. by rewrite String.eqb_refl.
  - change (String c r +:+ p) with (String c (r +:+ p)). cbn [drop_suffix].
    destruct (String.eqb_spec (String c (r +:+ p)) p) as [E|]; [|by rewrite IH].
    exfalso. apply (f_equal String.length) in E. simpl in E. rewrite str_length_app in E. lia.
Qed.

Lemma full_match_iff pre post s m :
  full_match pre post s = Some m <-> s = pre +:+ m +:+ post /\ lacks newline m = true.
Proof.
  unfold full_match. split.
  - destruct (drop_prefix pre s) as [r|] eqn:Ep; [|done]. apply drop_prefix_iff in Ep as ->.
    destruct (drop_suffix post r) as [m'|] eqn:Es; [|done]. apply drop_suffix_Some in Es as ->.
    destruct (lacks newline m') eqn:El; [|done]. intros Hm. injection Hm as <-. done.
  - intros [-> El]. rewrite (proj2 (drop_prefix_iff pre _ _) eq_refl), drop_suffix_app. by rewrite El.
Qed.

Lemma full_match_shorter pre post s m :
  (0 < String.length pre)%nat -> full_match pre post s = Some m -> (String.length m < String.length s)%nat.
Proof. intros Hp [-> _]%full_match_iff. rewrite !str_length_app. lia. Qed.

Lemma strip_left_length s : (String.length (strip_left s) <= String.length s)%nat.
Proof. induction s as [|c s IH]; simpl; [done|]. destruct (is_space c); simpl; lia. Qed.

Lemma strip_right_length s : (String.length (strip_right s) <= String.length s)%nat.
Proof.
  induction s as [|c s IH]; simpl; [done|].
  destruct (strip_right s); [destruct (is_space c)|]; simpl in *; lia.
Qed.

Lemma py_strip_length s : (String.length (py_strip s) <= String.length s)%nat.
Proof. unfold py_strip. pose proof (strip_left_length s). pose proof (strip_right_length (strip_left s)). lia. Qed.

Lemma rstrip_char_length c s : (String.length (rstrip_char c s) <= String.length s)%nat.
Proof.
  induction s as [|d s IH]; simpl; [done|].
  destruct (rstrip_char c s); [destruct (Ascii.eqb d c)|]; simpl in *; lia.
Qed.

Lemma strip_quotes_left_length s : (String.length (strip_quotes_left s) <= String.length s)%nat.
Proof. induction s as [|c s IH]; simpl; [done|]. destruct (is_quote c); simpl; lia. Qed.

Lemma strip_quotes_right_length s : (String.length (strip_quotes_right s) <= String.length s)%nat.
Proof.
  induction s as [|d s IH]; simpl; [done|].
  destruct (strip_quotes_right s); [destruct (is_quote d)|]; simpl in *; lia.
Qed.

(** Every layer is shorter than the type it is peeled off. *)
Lemma contract_peel_shorter t u : contract_peel t = Some u -> (String.length u < String.length t)%nat.
Proof. apply full_match_shorter. simpl. lia. Qed.

Lemma rust_peel_shorter t u : rust_peel t = Some u -> (String.length u < String.length t)%nat.
Proof.
  intros H%full_match_shorter; [|simpl; lia]. unfold rust_clean in H.
  pose proof (py_strip_length t). pose proof (rstrip_char_length "," (py_strip t)).
  pose proof (py_strip_length (rstrip_char "," (py_strip t))). lia.
Qed.

Lemma optional_arg_shorter s u : optional_arg s = Some u -> (String.length u < String.length s)%nat.
Proof.
  unfold optional_arg. destruct (full_match _ _ s) as [m|] eqn:E.
  - intros Hu. injection Hu as <-. apply full_match_shorter in E; [done|simpl; lia].
  - unfold union_none. destruct (drop_prefix _ s) as [r|] eqn:Ep; [|done].
    apply drop_prefix_iff in Ep as ->. destruct (drop_suffix _ r) as [m|] eqn:Es; [|done].
    apply drop_suffix_Some in Es as ->. destruct (drop_suffix _ (strip_right m)) as [m'|] eqn:E'; [|done].
    apply drop_suffix_Some, (f_equal String.length) in E'. destruct (lacks newline m'); [|done].
    intros Hu. injection Hu as <-. pose proof (strip_right_length m).
    rewrite !str_length_app in *. simpl. lia.
Qed.

Lemma py_peel_shorter t u : py_peel t = Some u -> (String.length u < String.length t)%nat.
Proof.
  intros H%optional_arg_shorter. unfold py_clean in H. pose proof (py_strip_length t).
  pose proof (strip_quotes_left_length (py_strip t)).
  pose proof (strip_quotes_right_length (strip_quotes_left (py_strip t))). lia.
Qed.

(** An optional value is compared as the value, in each of the languages. *)
Lemma contract_kind_opt s : lacks newline s = true -> contract_kind ("opt(" +:+ s +:+ ")") = contract_kind s.
Proof. intros Hs. apply reduce_peel; [apply contract_peel_shorter|]. by apply full_match_iff. Qed.

Lemma rust_kind_option ty inner :
  rust_clean ty = "Option<" +:+ inner +:+ ">" -> lacks newline inner = true -> rust_kind ty = rust_kind inner.
Proof.
  intros E Hs. apply reduce_peel; [apply rust_peel_shorter|]. unfold rust_peel.
  rewrite E. by apply full_match_iff.
Qed.

Lemma py_kind_optional ty inner :
  py_clean ty = "Optional[" +:+ inner +:+ "]" -> lacks newline inner = true -> py_kind ty = py_kind inner.
Proof.
  intros E Hs. apply reduce_peel; [apply py_peel_shorter|]. unfold py_peel, optional_arg.
  rewrite E. by rewrite (proj2 (full_match_iff _ _ _ _) (conj eq_refl Hs)).
Qed.

(** ** Comments *)

(** What becomes of a character: it stays, or is blanked; a line end stays. *)
Definition blanked (c d : Z) : Prop := d = c \/ (d = 32 /\ c <> 10).

Lemma strip_from_blanks quotes t : forall mode,
  exists tail, Forall2 blanked t (take (length t) (strip_from quotes mode t))
    /\ drop (length t) (strip_from quotes mode t) = tail /\ (tail = [] \/ tail = [32; 32]).
Proof.
  induction t as [t IH] using (induction_ltof1 _ (@length Z)). unfold ltof in IH.
  assert (Hcons : forall c d rest mode, (length rest < length t)%nat -> blanked c d ->
    exists tail, Forall2 blanked (c :: rest) (take (length (c :: rest)) (d :: strip_from quotes mode rest))
      /\ drop (length (c :: rest)) (d :: strip_from quotes mode rest) = tail /\ (tail = [] \/ tail = [32; 32])).
  { intros c d rest mode Hl Hb. destruct (IH rest Hl mode) as (tail & H1 & H2 & H3).
    exists tail. simpl. split; [by constructor|done]. }
  assert (Hk : forall c, blanked c c) by (by left).
  assert (Hn : forall c, blanked c (if c =? 10 then c else 32)).
  { intros c. destruct (Z.eqb_spec c 10); [by left|by right]. }
  destruct t as [|c rest]; intros mode.
  { destruct mode; [exists []|exists []|exists []|exists []|exists [32; 32]]; (split; [constructor|split; auto]). }
  destruct mode; cbn [strip_from].
  - destruct (decide (c ∈ quotes)); [apply Hcons; [simpl; lia|done]|].
    destruct rest as [|d rest']; [by exists []; split; [repeat constructor; left|split; auto]|].
    destruct ((c =? 47) && (d =? 47)) eqn:E1; [|destruct ((c =? 47) && (d =? 42)) eqn:E2];
      apply Hcons; try (simpl; lia); try done; right;
      [apply andb_true_iff in E1 as [E1%Z.eqb_eq _]|apply andb_true_iff in E2 as [E2%Z.eqb_eq _]]; lia.
  - destruct (c =? q); [|destruct (c =? 92)]; apply Hcons; (simpl; lia) || done.
  - apply Hcons; [simpl; lia|done].
  - destruct (Z.eqb_spec c 10); apply Hcons; try (simpl; lia); [done|by right].
  - destruct rest as [|d rest'].
    + exists [32; 32]. split; [|split; auto]. constructor; [apply Hn|constructor].
    + destruct ((c =? 42) && (d =? 47)) eqn:E; [|apply Hcons; [simpl; lia|apply Hn]].
      apply andb_true_iff in E as [E1%Z.eqb_eq E2%Z.eqb_eq]. subst.
      destruct (IH rest' ltac:(simpl; lia) InCode) as (tail & H1 & H2 & H3).
      exists tail. simpl. split; [|done]. constructor; [by right|]. constructor; [by right|done].
Qed.

(** Nothing but comments is blanked, every line stays where it is, and nothing
    moves; two blanks are added behind a comment that never ends. *)
Lemma strip_comments_blanks t backtick :
  Forall2 blanked t (take (length t) (strip_comments t backtick))
  /\ (drop (length t) (strip_comments t backtick) = [] \/ drop (length t) (strip_comments t backtick) = [32; 32]).
Proof.
  destruct (strip_from_blanks ([34; 39] ++ if backtick then [96] else []) t InCode) as (tail & H1 & H2 & H3).
  split; [exact H1|]. unfold strip_comments. by rewrite H2.
Qed.

Definition chars (s : string) : text := map (fun c => Z.of_N (N_of_ascii c)) (String.list_ascii_of_string s).

(** A link in a literal is no comment; [/*/] is taken for a whole one. *)
Example comments_blanked :
  strip_comments (chars "f('https://x') // see /v1") false = chars "f('https://x')           "
  /\ strip_comments (chars "a /* b */ c") false = chars "a         c"
  /\ strip_comments (chars "a /*/ b */ c") false = chars "a     b */ c"
  /\ strip_comments (chars "a /* b") false = chars "a       ".
Proof. by_compute. Qed.

(** ** Brackets *)

(** Text whose brackets balance. *)
Inductive balanced (o c : Z) : text -> Prop :=
| balanced_nil : balanced o c []
| balanced_char x t : x <> o -> x <> c -> balanced o c t -> balanced o c (x :: t)
| balanced_pair t u : balanced o c t -> balanced o c u -> balanced o c (o :: t ++ c :: u).

Lemma match_from_balanced o c t : o <> c -> balanced o c t -> forall depth i rest,
  0 < depth -> match_from o c depth i (t ++ rest) = match_from o c depth (i + length t) rest.
Proof.
  intros Hoc Ht. induction Ht as [|x t Hxo Hxc Ht IH|t u Ht IHt Hu IHu]; intros depth i rest Hd.
  - simpl. by rewrite Nat.add_0_r.
  - simpl. rewrite (proj2 (Z.eqb_neq x o)), (proj2 (Z.eqb_neq x c)), IH by done. f_equal. lia.
  - simpl. rewrite Z.eqb_refl, <- app_assoc, IHt by lia. simpl.
    rewrite (proj2 (Z.eqb_neq c o)), Z.eqb_refl by done.
    rewrite (proj2 (Z.eqb_neq (depth + 1 - 1) 0)) by lia.
    replace (depth + 1 - 1) with depth by lia. rewrite IHu by done.
    f_equal. rewrite length_app. simpl. lia.
Qed.

(** [_match] finds the bracket that closes the one it starts at. *)
Lemma match_delim_balanced pre body post o c :
  o <> c -> balanced o c body ->
  match_delim (pre ++ o :: body ++ c :: post) (length pre) o c = (length pre + 1 + length body)%nat.
Proof.
  intros Hoc Hb. unfold match_delim. rewrite drop_app_length. simpl. rewrite Z.eqb_refl.
  rewrite (match_from_balanced o c body Hoc Hb) by lia. simpl.
  rewrite (proj2 (Z.eqb_neq c o)), Z.eqb_refl by done. simpl. lia.
Qed.

(** ** Paths *)

(** A path with holes for the identifiers in it, as the clients write it: a hole
    is an expression in braces, of a TypeScript template with a dollar sign. *)
Inductive path_piece : Type :=
| Literal (s : string)
| Hole (expression : string).

Definition render (open : string) (as_is : bool) (t : list path_piece) : string :=
  foldr (fun p s =>
    match p with
    | Literal l => l +:+ s
    | Hole e => open +:+ (if as_is then e else "id") +:+ String "}" s
    end) "" t.

Definition plain (s : string) : bool := lacks "$" s && lacks "{" s && lacks "}" s.
Definition piece_ok (p : path_piece) : Prop :=
  match p with Literal l => plain l = true | Hole e => lacks "}" e = true /\ lacks "$" e = true end.

(** The path as the manifest writes it. *)
Definition manifest_path (t : list path_piece) : string := render "{" false t.

Lemma plain_cons c s : plain (String c s) = true ->
  Ascii.eqb c "$" = false /\ Ascii.eqb c "{" = false /\ Ascii.eqb c "}" = false /\ plain s = true.
Proof.
  unfold plain. cbn [lacks]. rewrite !andb_true_iff, !negb_true_iff. tauto.
Qed.

Lemma sub_holes_literal dollar l s :
  plain l = true -> sub_holes dollar false (l +:+ s) = l +:+ sub_holes dollar false s.
Proof.
  induction l as [|c l IH]; [done|]. intros (Hd & Ho & _ & Hl)%plain_cons.
  change (String c l +:+ ?t) with (String c (l +:+ t)). rewrite <- (IH Hl). cbn [sub_holes].
  rewrite Hd, Ho. destruct dollar; [|done]. by destruct (l +:+ s).
Qed.

Lemma sub_holes_inside dollar e s :
  lacks "}" e = true -> sub_holes dollar true (e +:+ String "}" s) = sub_holes dollar false s.
Proof.
  induction e as [|c e IH]; [done|]. cbn [lacks]. rewrite andb_true_iff, negb_true_iff. intros [Hc He].
  change (String c e +:+ String "}" s) with (String c (e +:+ String "}" s)). cbn [sub_holes].
  rewrite Hc. by apply IH.
Qed.

Lemma lacks_brace e s : lacks "}" (e +:+ String "}" s) = false.
Proof. rewrite lacks_app. cbn [lacks]. by rewrite Ascii.eqb_refl, andb_false_r. Qed.

Lemma sub_holes_hole e s :
  lacks "}" e = true ->
  sub_holes false false ("{" +:+ e +:+ String "}" s) = "{id}" +:+ sub_holes false false s.
Proof.
  intros He. change ("{" +:+ ?t) with (String "{" t). cbn [sub_holes].
  rewrite lacks_brace. simpl. by rewrite sub_holes_inside.
Qed.

Lemma sub_holes_dollar e s :
  lacks "}" e = true ->
  sub_holes true false ("${" +:+ e +:+ String "}" s) = "{id}" +:+ sub_holes true false s.
Proof.
  intros He. change ("${" +:+ ?t) with (String "$" (String "{" t)). cbn [sub_holes].
  rewrite lacks_brace. change (Ascii.eqb "$" "$" && Ascii.eqb "{" "{" && negb false) with true.
  cbv iota. cbn [sub_holes]. change (negb (Ascii.eqb "{" "}")) with true. by rewrite sub_holes_inside.
Qed.

Lemma sub_holes_no_dollar s : lacks "$" s = true -> sub_holes true false s = s.
Proof.
  induction s as [|c s IH]; [done|]. cbn [lacks]. rewrite andb_true_iff, negb_true_iff. intros [Hc Hs].
  cbn [sub_holes]. rewrite Hc. cbn -[sub_holes]. rewrite (IH Hs). by destruct s.
Qed.

Lemma render_literal open as_is l t : render open as_is (Literal l :: t) = l +:+ render open as_is t.
Proof. done. Qed.

Lemma render_hole open as_is e t :
  render open as_is (Hole e :: t) = open +:+ (if as_is then e else "id") +:+ String "}" (render open as_is t).
Proof. done. Qed.

Lemma render_holes t : Forall piece_ok t ->
  sub_holes false false (render "{" true t) = manifest_path t
  /\ sub_holes true false (render "${" true t) = manifest_path t
  /\ sub_holes false false (manifest_path t) = manifest_path t
  /\ lacks "$" (render "{" true t) = true /\ lacks "$" (manifest_path t) = true.
Proof.
  unfold manifest_path. induction 1 as [|p t Hp Ht (I1 & I2 & I3 & I4 & I5)]; [done|].
  destruct p as [l|e]; rewrite ?render_literal, ?render_hole; cbn [piece_ok] in Hp.
  - rewrite !sub_holes_literal, I1, I2, I3 by done. rewrite !lacks_app, I4, I5.
    unfold plain in Hp. rewrite !andb_true_iff in Hp. destruct Hp as [[-> _] _]. done.
  - destruct Hp as [He Hd].
    rewrite !sub_holes_hole, sub_holes_dollar, I1, I2, I3 by done.
    rewrite !lacks_app. cbn [lacks]. rewrite I4, I5, Hd. done.
Qed.

(** However a client spells the holes of a path, it is the manifest's path. *)
Lemma normalize_spellings t : Forall piece_ok t ->
  normalize (render "{" true t) = normalize (manifest_path t)
  /\ normalize (render "${" true t) = normalize (manifest_path t).
Proof.
  intros Ht. destruct (render_holes t Ht) as (H1 & H2 & H3 & H4 & H5). unfold normalize.
  rewrite (sub_holes_no_dollar _ H4), (sub_holes_no_dollar _ H5), H1, H2, H3. done.
Qed.

(** ** Camel case *)

Definition is_lower (c : ascii) : bool := in_range 97 122 (Z.of_N (N_of_ascii c)).
Definition upper_char (c : ascii) : ascii := if is_lower c then ascii_of_N (N_of_ascii c - 32) else c.

(** The name TypeScript has for a name of the wire. *)
Fixpoint to_camel (s : string) : string :=
  match s with
  | String "_" (String c s) => String (upper_char c) (to_camel s)
  | String c s => String c (to_camel s)
  | EmptyString => EmptyString
  end.

(** Small letters and digits, with a small letter after every underscore. *)
Fixpoint snake_ok (s : string) : bool :=
  match s with
  | String "_" (String c s) => is_lower c && snake_ok s
  | String c s => (is_lower c || is_digit c) && snake_ok s
  | EmptyString => true
  end.

Lemma upper_lower c : is_lower c = true -> is_upper (upper_char c) = true /\ lower_char (upper_char c) = c.
Proof. destruct c as [[] [] [] [] [] [] [] []]; vm_compute; intros H; try discriminate H; done. Qed.

Lemma small_char c : is_lower c || is_digit c = true -> is_upper c = false /\ lower_char c = c /\ c <> "_"%char.
Proof. destruct c as [[] [] [] [] [] [] [] []]; vm_compute; intros H; try discriminate H; done. Qed.

(** [camel_to_snake] undoes it. *)
Lemma camel_to_snake_camel s : starts_with "_" s = false -> snake_ok s = true -> camel_to_snake (to_camel s) = s.
Proof.
  unfold camel_to_snake. intros Hu Hs.
  enough (H : forall n s first, (String.length s <= n)%nat -> (first = true -> starts_with "_" s = false) ->
            snake_ok s = true -> snake_from first (to_camel s) = s) by (apply (H (String.length s)); [lia|done|done]).
  clear s Hu Hs. intros n. induction n as [|n IH]; intros s first Hl Hf Hs; [destruct s; [done|simpl in Hl; lia]|].
  destruct s as [|c s]; [done|].
  destruct (decide (c = "_"%char)) as [->|Hc].
  - destruct first; [by specialize (Hf eq_refl)|]. destruct s as [|d s]; [done|].
    cbn [to_camel snake_ok] in *. apply andb_true_iff in Hs as [Hd Hs].
    destruct (upper_lower d Hd) as [Hup Hlow]. cbn [snake_from]. rewrite Hup, Hlow. cbn -[snake_from].
    rewrite IH; [done|simpl in Hl; lia|done|done].
  - assert (E : to_camel (String c s) = String c (to_camel s) /\ snake_ok (String c s) = (is_lower c || is_digit c) && snake_ok s).
    { destruct c as [[] [] [] [] [] [] [] []]; try (split; reflexivity). by destruct Hc. }
    destruct E as [-> E2]. rewrite E2 in Hs. apply andb_true_iff in Hs as [Hc' Hs].
    destruct (small_char c Hc') as (Hup & Hlow & _). cbn [snake_from]. rewrite Hup, Hlow. cbn -[snake_from].
    rewrite IH; [by rewrite andb_false_r || done|simpl in Hl; lia|done|done].
Qed.

(** ** [tools/protocol_manifest.py]: comments and blocks of Rust *)

(** White space, as [str.isspace] has it. *)
Definition unicode_space (c : Z) : bool :=
  in_range 9 13 c || in_range 28 32 c || in_range 0x2000 0x200a c
  || bool_decide (c ∈ [0x85; 0xa0; 0x1680; 0x2028; 0x2029; 0x202f; 0x205f; 0x3000]).

(** The line up to a comment; [escaped] and [in_str] as in the loop. *)
Fixpoint cut_comment (escaped in_str : bool) (line : text) : text :=
  match line with
  | [] => []
  | c :: rest =>
      if escaped then c :: cut_comment false in_str rest
      else if c =? 92 then c :: cut_comment true in_str rest
      else if c =? 34 then c :: cut_comment false (negb in_str) rest
      else if negb in_str && (c =? 47) && match rest with d :: _ => d =? 47 | [] => false end then []
      else c :: cut_comment false in_str rest
  end.

(** [line.rstrip()]. *)
Fixpoint rstrip_line (line : text) : text :=
  match line with
  | [] => []
  | c :: line =>
      match rstrip_line line with
      | [] => if unicode_space c then [] else [c]
      | line => c :: line
      end
  end.

(** [text.split("\n")] and the join that undoes it. *)
Fixpoint split_lines (t : text) : list text :=
  match t with
  | [] => [[]]
  | c :: t =>
      if c =? 10 then [] :: split_lines t
      else match split_lines t with
           | line :: lines => (c :: line) :: lines
           | [] => [[c]]
           end
  end.
Fixpoint join_lines (lines : list text) : text :=
  match lines with
  | [] => []
  | [line] => line
  | line :: lines => line ++ 10 :: join_lines lines
  end.

Definition strip_line_comments (t : text) : text :=
  join_lines (map (fun line => rstrip_line (cut_comment false false line)) (split_lines t)).

(** [block_at]: the body of the braces that open at a position, and where they
    close. *)
Definition block_at (t : text) (open_brace : nat) : result py_error (text * nat) :=
  match match_from 123 125 0 open_brace (drop open_brace t) with
  | Some j => Ok (slice t (open_brace + 1) j, j)
  | None => Raise ValueError
  end.

Lemma block_at_balanced pre body post :
  balanced 123 125 body ->
  block_at (pre ++ 123 :: body ++ 125 :: post) (length pre) = Ok (body, (length pre + 1 + length body)%nat).
Proof.
  intros Hb. unfold block_at. rewrite drop_app_length. cbn [match_from].
  change (123 =? 123) with true. cbv iota.
  rewrite (match_from_balanced 123 125 body ltac:(done) Hb) by lia. cbn [match_from].
  change (125 =? 123) with false. change (125 =? 125) with true. cbv iota. simpl.
  do 2 f_equal; [|lia]. unfold slice. change (123 :: ?t) with ([123] ++ t). rewrite app_assoc.
  rewrite drop_app_length' by (rewrite length_app; simpl; lia).
  rewrite take_app_length' by lia. done.
Qed.

(** Every line keeps its number. *)
Lemma split_join lines : lines <> [] -> Forall (fun line => 10 ∉ line) lines -> split_lines (join_lines lines) = lines.
Proof.
  intros Hne H. induction H as [|line lines Hl Hls IH]; [done|].
  assert (Hone : forall line rest, 10 ∉ line ->
    split_lines (line ++ 10 :: rest) = line :: split_lines rest /\ split_lines line = [line]).
  { clear. induction line as [|c line IH]; intros rest Hl; [done|]. apply not_elem_of_cons in Hl as [Hc Hl].
    destruct (IH rest Hl) as [E1 E2]. simpl. rewrite (proj2 (Z.eqb_neq c 10)) by done. by rewrite E1, E2. }
  destruct lines as [|line' lines]; [apply (Hone line []); done|].
  change (join_lines (line :: line' :: lines)) with (line ++ 10 :: join_lines (line' :: lines)).
  destruct (Hone line (join_lines (line' :: lines)) Hl) as [-> _]. by rewrite IH.
Qed.

Lemma cut_comment_sub line : forall escaped in_str c, c ∈ cut_comment escaped in_str line -> c ∈ line.
Proof.
  induction line as [|d line IH]; intros escaped in_str c; simpl; [done|].
  rewrite elem_of_cons.
  destruct escaped; [|destruct (d =? 92); [|destruct (d =? 34); [|destruct (_ && _ && _)]]];
    rewrite ?elem_of_cons; try (intros [->|Hc]; [by left|right; by eapply IH]).
  by intros ?%not_elem_of_nil.
Qed.

Lemma rstrip_line_sub line c : c ∈ rstrip_line line -> c ∈ line.
Proof.
  induction line as [|d line IH]; simpl; [done|]. rewrite elem_of_cons.
  destruct (rstrip_line line) as [|e l].
  - destruct (unicode_space d); [by intros ?%not_elem_of_nil|]. intros ->%list_elem_of_singleton. by left.
  - intros [->|Hc]%elem_of_cons; [by left|right; by apply IH].
Qed.

Lemma split_lines_no_newline t : split_lines t <> [] /\ Forall (fun line => 10 ∉ line) (split_lines t).
Proof.
  induction t as [|c t [Hne IH]]; simpl; [split; [done|]; constructor; [by apply not_elem_of_nil|constructor]|].
  destruct (Z.eqb_spec c 10) as [->|Hc].
  - split; [done|]. constructor; [by apply not_elem_of_nil|done].
  - destruct (split_lines t) as [|line lines]; [done|]. split; [done|].
    apply Forall_cons in IH as [Hl IH]. constructor; [|done]. apply not_elem_of_cons. by split.
Qed.

Lemma strip_line_comments_lines t :
  split_lines (strip_line_comments t) = map (fun line => rstrip_line (cut_comment false false line)) (split_lines t).
Proof.
  destruct (split_lines_no_newline t) as [Hne Hl]. apply split_join.
  - by destruct (split_lines t).
  - apply Forall_map. eapply Forall_impl; [exact Hl|]. intros line Hn Hc. apply Hn.
    by eapply cut_comment_sub, rstrip_line_sub.
Qed.
