(* ===== verification/WireGate.v ===== *)
(** * WireGate

    [tools/compare_rust.py]: the gate that keeps the SDK's wire types those of
    the server. It reads two manifests, of the server's types and of the SDK's,
    and reports every difference; a build passes when it reports none. Here that
    is proved to be exact: nothing is reported if and only if the SDK declares
    the server's fields, variants and opcodes, in the server's order, with the
    known local additions and nothing else. *)

From S2P Require Import Prelude PyDict.
From stdpp Require Import list sets.
#[local] Open Scope Z_scope.

(** ** Manifests *)

(** What [serde_attrs] finds for a key: its value, or [True]. *)
Inductive attr_value : Type :=
| AttrTrue
| AttrText (s : string).

#[export] Instance attr_value_eq : EqDecision attr_value.
Proof. solve_decision. Defined.

Record manifest_field : Type := mk_manifest_field {
  wire_name : string; wire_type : string; wire_serde : dict attr_value
}.

(** A variant; [variant_struct] are the fields of a variant with named ones. *)
Record wire_variant : Type := mk_wire_variant {
  variant_name : string; variant_discriminant : option Z; variant_payload : option string;
  variant_struct : option (list manifest_field)
}.

Record wire_struct : Type := mk_wire_struct {
  struct_fields : list manifest_field; struct_serde : dict attr_value
}.

Record wire_enum : Type := mk_wire_enum {
  enum_variants : list wire_variant; enum_repr : option string; enum_encoding : string;
  enum_serde : dict attr_value
}.

Record wire_manifest : Type := mk_wire_manifest {
  wire_structs : dict wire_struct; wire_enums : dict wire_enum; wire_opcodes : dict Z
}.

(** ** What is known to differ *)

Definition KNOWN_LOCAL_FIELDS : list (string * string) := [("EncodeVectorDirectRequest", "vector")].
Definition KNOWN_LOCAL_VARIANTS : list (string * string) := [("ErrorCodeWire", "Unknown")].
Definition SDK_LOCAL_TYPES : list string := ["Frame"; "FrameError"; "CborError"].
Definition UNIMPLEMENTED_OPCODE_PREFIXES : list string := ["Admin"].
Definition WIRE_EQUIVALENT_CODECS : list string := ["memory_id_at_rest"; "opt_memory_id_at_rest"].

(** ** The comparison *)

(** A line of the report, by the text it is made with and what it names. *)
Inductive wire_problem : Type :=
| StructUndeclared (name : string)
| StructMissing (name : string) (fields : list string)
| StructExtra (name : string) (fields : list string)
| StructOrder (name : string) (server sdk : list string)
| FieldType (name field server sdk : string)
| FieldSerde (name field key : string)
| EnumUndeclared (name : string)
| EnumEncoding (name server sdk : string)
| EnumRepr (name : string) (server sdk : option string)
| VariantsMissing (name : string) (variants : list string)
| VariantsExtra (name : string) (variants : list string)
| VariantDiscriminant (name variant : string) (server sdk : option Z)
| VariantPayload (name variant : string) (server sdk : option string)
| VariantOrder (name : string)
| OpcodesUnimplemented (names : list string)
| OpcodeUndeclared (name : string) (value : Z)
| OpcodeDiffers (name : string) (server sdk : Z).

(** [if l: problems.append(...)]. *)
Definition unless_empty {A} (l : list A) (p : list A -> wire_problem) : list wire_problem :=
  match l with [] => [] | _ => [p l] end.

(** [bool(v)] of an attribute: [True], and text that is not empty. *)
Definition attr_truthy (v : option attr_value) : bool :=
  match v with
  | None => false
  | Some AttrTrue => true
  | Some (AttrText s) => negb (String.eqb s "")
  end.

(** The keys [cmp_serde] goes through. *)
Definition SERDE_KEYS : list string :=
  ["with"; "skip"; "skip_serializing_if"; "default"; "rename"; "rename_all"].

(** The codec is one whose output is the default's. *)
Definition equivalent_codec (v : option attr_value) : bool :=
  match v with Some (AttrText s) => bool_decide (s ∈ WIRE_EQUIVALENT_CODECS) | _ => false end.

(** One turn of the loop of [cmp_serde]: whether the two values pass. *)
Definition serde_key_ok (key : string) (av bv : option attr_value) : bool :=
  if String.eqb key "skip_serializing_if" then Bool.eqb (attr_truthy av) (attr_truthy bv)
  else (String.eqb key "with" && bool_decide (bv = None) && equivalent_codec av)
       || bool_decide (av = bv).

(** [cmp_serde]: the keys on which the server's [a] and the SDK's [b] differ. *)
Definition cmp_serde (a b : dict attr_value) : list string :=
  flat_map (fun key => if serde_key_ok key (lookup_key key a) (lookup_key key b) then [] else [key])
    SERDE_KEYS.

(** The fields of a struct: the body of the first loop of [compare]. *)
Definition compare_struct (name : string) (srv own : list manifest_field) : list wire_problem :=
  let srv_names := map wire_name srv in
  let own_names := map wire_name own in
  let missing := filter (fun n => n ∉ own_names) srv_names in
  let extra := filter (fun n => (n ∉ srv_names) /\ ((name, n) ∉ KNOWN_LOCAL_FIELDS)) own_names in
  let shared_srv := filter (fun n => n ∈ own_names) srv_names in
  let shared_own := filter (fun n => n ∈ srv_names) own_names in
  let srv_by := dict_from (map (fun f => (wire_name f, f)) srv) in
  unless_empty missing (StructMissing name)
  ++ unless_empty extra (StructExtra name)
  ++ (if decide (shared_srv = shared_own) then [] else [StructOrder name shared_srv shared_own])
  ++ flat_map (fun f =>
       match lookup_key (wire_name f) srv_by with
       | None => []
       | Some g =>
           (if decide (wire_type f = wire_type g) then []
            else [FieldType name (wire_name f) (wire_type g) (wire_type f)])
           ++ map (FieldSerde name (wire_name f)) (cmp_serde (wire_serde g) (wire_serde f))
       end) own.

(** The variants of an enum: the body of the second loop of [compare]. *)
Definition compare_enum (name : string) (srv own : wire_enum) : list wire_problem :=
  let srv_v := dict_from (map (fun v => (variant_name v, v)) (enum_variants srv)) in
  let own_v := dict_from (map (fun v => (variant_name v, v)) (enum_variants own)) in
  let missing := filter (fun n => n ∉ map fst own_v) (map fst srv_v) in
  let extra := filter (fun n => (n ∉ map fst srv_v) /\ ((name, n) ∉ KNOWN_LOCAL_VARIANTS)) (map fst own_v) in
  let srv_order := filter (fun n => n ∈ map fst own_v) (map variant_name (enum_variants srv)) in
  let own_order := filter (fun n => n ∈ map fst srv_v) (map variant_name (enum_variants own)) in
  (if decide (enum_encoding srv = enum_encoding own) then []
   else [EnumEncoding name (enum_encoding srv) (enum_encoding own)])
  ++ (if decide (enum_repr srv = enum_repr own) then []
      else [EnumRepr name (enum_repr srv) (enum_repr own)])
  ++ unless_empty missing (VariantsMissing name)
  ++ unless_empty extra (VariantsExtra name)
  ++ flat_map (fun vn =>
       match lookup_key vn srv_v, lookup_key vn own_v with
       | Some a, Some b =>
           (if decide (variant_discriminant a = variant_discriminant b) then []
            else [VariantDiscriminant name vn (variant_discriminant a) (variant_discriminant b)])
           ++ (if decide (variant_payload a = variant_payload b) then []
               else [VariantPayload name vn (variant_payload a) (variant_payload b)])
       | _, _ => []
       end)
       (py_sorted (filter (fun n => n ∈ map fst own_v) (map fst srv_v)))
  ++ (if String.eqb (enum_encoding own) "int" then
        if decide (srv_order = own_order) then [] else [VariantOrder name]
      else []).

(** [any(n.startswith(p) for p in UNIMPLEMENTED_OPCODE_PREFIXES)]. *)
Definition opted_out (n : string) : bool :=
  existsb (fun p => String.prefix p n) UNIMPLEMENTED_OPCODE_PREFIXES.

(** The opcodes: the rest of [compare]. *)
Definition compare_opcodes (server sdk : dict Z) : list wire_problem :=
  let unimplemented := filter (fun n => (n ∉ map fst sdk) /\ opted_out n = false) (map fst server) in
  unless_empty (py_sorted unimplemented) OpcodesUnimplemented
  ++ flat_map (fun '(name, value) =>
       match lookup_key name server with
       | None => [OpcodeUndeclared name value]
       | Some v => if decide (v = value) then [] else [OpcodeDiffers name v value]
       end) (sorted_items sdk).

Definition compare_rust (server sdk : wire_manifest) : list wire_problem :=
  flat_map (fun '(name, s_def) =>
    if decide (name ∈ SDK_LOCAL_TYPES) then []
    else match lookup_key name (wire_structs server) with
         | None => [StructUndeclared name]
         | Some srv => compare_struct name (struct_fields srv) (struct_fields s_def)
         end) (sorted_items (wire_structs sdk))
  ++ flat_map (fun '(name, e_def) =>
       if decide (name ∈ SDK_LOCAL_TYPES) then []
       else if String.eqb name "Opcode" then []
       else match lookup_key name (wire_enums server) with
            | None => [EnumUndeclared name]
            | Some srv => compare_enum name srv e_def
            end) (sorted_items (wire_enums sdk))
  ++ compare_opcodes (wire_opcodes server) (wire_opcodes sdk).

(** ** What passing means *)

(** The server and the SDK put the same thing on the wire for an attribute, or
    the server's codec is one whose output is the default's. *)
Definition serde_agrees (a b : dict attr_value) : Prop :=
  attr_truthy (lookup_key "skip_serializing_if" a) = attr_truthy (lookup_key "skip_serializing_if" b)
  /\ (forall key, key ∈ ["skip"; "default"; "rename"; "rename_all"] ->
        lookup_key key a = lookup_key key b)
  /\ (lookup_key "with" a = lookup_key "with" b
      \/ lookup_key "with" b = None
         /\ exists codec, lookup_key "with" a = Some (AttrText codec) /\ codec ∈ WIRE_EQUIVALENT_CODECS).

Definition field_agrees (g f : manifest_field) : Prop :=
  wire_name g = wire_name f /\ wire_type g = wire_type f /\ serde_agrees (wire_serde g) (wire_serde f).

(** The SDK's fields are the server's, one by one and in order, with nothing but
    known local fields among them. *)
Definition struct_agrees (name : string) (srv own : list manifest_field) : Prop :=
  Forall2 field_agrees srv (filter (fun f => wire_name f ∈ map wire_name srv) own)
  /\ forall f, f ∈ own -> wire_name f ∉ map wire_name srv -> (name, wire_name f) ∈ KNOWN_LOCAL_FIELDS.

Definition variant_agrees (v w : wire_variant) : Prop :=
  variant_name v = variant_name w /\ variant_discriminant v = variant_discriminant w
  /\ variant_payload v = variant_payload w.

(** The SDK's variants are the server's, with nothing but known local ones
    besides, encoded the same way; in the same order where a variant is its
    number. *)
Definition enum_agrees (name : string) (srv own : wire_enum) : Prop :=
  let names := map variant_name (enum_variants srv) in
  enum_encoding srv = enum_encoding own /\ enum_repr srv = enum_repr own
  /\ (forall v, v ∈ enum_variants srv -> exists w, w ∈ enum_variants own /\ variant_agrees v w)
  /\ (forall w, w ∈ enum_variants own -> variant_name w ∉ names ->
        (name, variant_name w) ∈ KNOWN_LOCAL_VARIANTS)
  /\ (enum_encoding own = "int" ->
      filter (fun n => n ∈ names) (map variant_name (enum_variants own)) = names).

(** Every opcode of the SDK is the server's, by number too, and every opcode of
    the server is the SDK's or of a family the SDK does not speak. *)
Definition opcodes_agree (server sdk : dict Z) : Prop :=
  (forall name value, (name, value) ∈ sdk -> (name, value) ∈ server)
  /\ (forall name, name ∈ map fst server -> name ∉ map fst sdk -> opted_out name = true).

Definition speaks_as (server sdk : wire_manifest) : Prop :=
  (forall name s, (name, s) ∈ wire_structs sdk -> name ∉ SDK_LOCAL_TYPES ->
     exists srv, (name, srv) ∈ wire_structs server
                 /\ struct_agrees name (struct_fields srv) (struct_fields s))
  /\ (forall name e, (name, e) ∈ wire_enums sdk -> name ∉ SDK_LOCAL_TYPES -> name <> "Opcode" ->
        exists srv, (name, srv) ∈ wire_enums server /\ enum_agrees name srv e)
  /\ opcodes_agree (wire_opcodes server) (wire_opcodes sdk).

(** What Rust grants of any manifest: items, fields and variants have names of
    their own. *)
Definition manifest_ok (m : wire_manifest) : Prop :=
  keys_ok (wire_structs m) /\ keys_ok (wire_enums m) /\ keys_ok (wire_opcodes m)
  /\ (forall name s, (name, s) ∈ wire_structs m -> NoDup (map wire_name (struct_fields s)))
  /\ (forall name e, (name, e) ∈ wire_enums m -> NoDup (map variant_name (enum_variants e))).

(** ** Lists of names *)

Lemma unless_empty_nil {A} (l : list A) p : unless_empty l p = [] <-> l = [].
Proof. by destruct l. Qed.

Lemma filter_all {A} (P : A -> Prop) `{forall x, Decision (P x)} (l : list A) :
  (forall x, x ∈ l -> P x) -> filter P l = l.
Proof.
  induction l as [|x l IH]; intros Hl; [done|].
  rewrite filter_cons_True by (apply Hl; set_solver). f_equal. apply IH. set_solver.
Qed.

Lemma filter_map_names {A} (f : A -> string) (P : string -> Prop) `{forall x, Decision (P x)} (l : list A) :
  filter P (map f l) = map f (filter (fun x => P (f x)) l).
Proof.
  induction l as [|x l IH]; [done|]. simpl.
  destruct (decide (P (f x))); [rewrite !filter_cons_True by done|rewrite !filter_cons_False by done];
    simpl; by rewrite IH.
Qed.

Lemma by_name {A} (f : A -> string) (l : list A) x y :
  NoDup (map f l) -> x ∈ l -> y ∈ l -> f x = f y -> x = y.
Proof.
  induction l as [|z l IH]; simpl; [set_solver|]. intros [Hz Hl]%NoDup_cons.
  rewrite !elem_of_cons. intros [->|Hx] [->|Hy] E; try done; [..|by apply IH].
  - exfalso. apply Hz. rewrite E. by apply (list_elem_of_fmap_2 f).
  - exfalso. apply Hz. rewrite <- E. by apply (list_elem_of_fmap_2 f).
Qed.

(** A dict of things by their names. *)
Lemma lookup_by_name {A} (f : A -> string) (l : list A) k x :
  NoDup (map f l) ->
  lookup_key k (dict_from (map (fun y => (f y, y)) l)) = Some x <-> x ∈ l /\ f x = k.
Proof.
  intros Hl.
  assert (Hm : keys_ok (map (fun y => (f y, y)) l)).
  { unfold keys_ok. rewrite map_map. exact Hl. }
  rewrite dict_from_ok, lookup_key_iff by done.
  rewrite list_elem_of_fmap. split.
  - intros (y & [= -> ->] & Hy). done.
  - intros [Hx <-]. by exists x.
Qed.

Lemma keys_by_name {A} (f : A -> string) (l : list A) :
  NoDup (map f l) -> map fst (dict_from (map (fun y => (f y, y)) l)) = map f l.
Proof.
  intros Hl. rewrite dict_from_ok.
  - by rewrite map_map.
  - unfold keys_ok. rewrite map_map. exact Hl.
Qed.

Lemma Forall2_names {A} (f : A -> string) (P : A -> A -> Prop) (l k : list A) :
  map f l = map f k -> (forall x y, x ∈ l -> y ∈ k -> f x = f y -> P x y) -> Forall2 P l k.
Proof.
  revert k. induction l as [|x l IH]; intros [|y k]; simpl; try done. intros [= E El] HP.
  constructor; [apply HP; set_solver|]. apply IH; [done|]. set_solver.
Qed.

(** ** The comparison is exact *)

Lemma serde_key_ok_skip a b :
  serde_key_ok "skip_serializing_if" a b = true <-> attr_truthy a = attr_truthy b.
Proof. unfold serde_key_ok. simpl. apply Bool.eqb_true_iff. Qed.

Lemma serde_key_ok_with a b :
  serde_key_ok "with" a b = true
  <-> a = b \/ b = None /\ exists codec, a = Some (AttrText codec) /\ codec ∈ WIRE_EQUIVALENT_CODECS.
Proof.
  unfold serde_key_ok. simpl. rewrite orb_true_iff, andb_true_iff, !bool_decide_eq_true.
  unfold equivalent_codec. destruct a as [[|s]|]; try rewrite bool_decide_eq_true; naive_solver.
Qed.

Lemma serde_key_ok_other key a b :
  key ∈ ["skip"; "default"; "rename"; "rename_all"] ->
  serde_key_ok key a b = true <-> a = b.
Proof.
  intros Hk. unfold serde_key_ok.
  replace (String.eqb key "skip_serializing_if") with false by (symmetry; set_unfold; naive_solver).
  replace (String.eqb key "with") with false by (symmetry; set_unfold; naive_solver).
  simpl. by rewrite bool_decide_eq_true.
Qed.

Lemma cmp_serde_exact a b : cmp_serde a b = [] <-> serde_agrees a b.
Proof.
  unfold cmp_serde. rewrite report_loop.
  transitivity (forall key, key ∈ SERDE_KEYS -> serde_key_ok key (lookup_key key a) (lookup_key key b) = true).
  { apply forall_proper. intros key. destruct (serde_key_ok _ _ _); naive_solver. }
  unfold serde_agrees. rewrite <- serde_key_ok_skip, <- serde_key_ok_with. split.
  - intros H. split; [by apply H; unfold SERDE_KEYS; set_solver|]. split.
    + intros key Hk. apply (serde_key_ok_other key); [done|]. apply H. unfold SERDE_KEYS. set_solver.
    + by apply H; unfold SERDE_KEYS; set_solver.
  - intros (Hs & Ho & Hw) key Hk.
    destruct (decide (key ∈ ["skip"; "default"; "rename"; "rename_all"])) as [Hr|Hr].
    + apply serde_key_ok_other; [done|]. by apply Ho.
    + unfold SERDE_KEYS in Hk. rewrite !elem_of_cons in Hk. set_unfold. naive_solver.
Qed.

Section Struct.
Context (name : string) (srv own : list manifest_field).
Hypothesis Hsrv : NoDup (map wire_name srv).
Hypothesis Hown : NoDup (map wire_name own).

Abbreviation shared := (filter (fun f => wire_name f ∈ map wire_name srv) own).

Lemma names_exact :
  filter (fun n => n ∉ map wire_name own) (map wire_name srv) = []
  /\ filter (fun n => n ∈ map wire_name own) (map wire_name srv)
     = filter (fun n => n ∈ map wire_name srv) (map wire_name own)
  <-> map wire_name srv = map wire_name shared.
Proof.
  rewrite filter_map_names with (l := own). split.
  - intros [Hm <-]. symmetry. apply filter_all. intros n Hn.
    destruct (decide (n ∈ map wire_name own)) as [|Hx]; [done|].
    by destruct (proj1 (filter_nil_iff _ _) Hm n Hn).
  - intros E.
    assert (Hin : forall n, n ∈ map wire_name srv -> n ∈ map wire_name own).
    { intros n Hn. rewrite E in Hn. apply list_elem_of_fmap in Hn as (f & -> & Hf).
      apply list_elem_of_filter in Hf as [_ Hf]. by apply (list_elem_of_fmap_2 wire_name). }
    split.
    + apply filter_nil_iff. intros n Hn Hx. by apply Hx, Hin.
    + rewrite <- E. by apply filter_all.
Qed.

Lemma compare_struct_exact : compare_struct name srv own = [] <-> struct_agrees name srv own.
Proof.
  unfold compare_struct, struct_agrees.
  rewrite !report_app, !unless_empty_nil, report_loop.
  assert (Hd : forall (T : Type) (a b : list string) (x : T),
    (if decide (a = b) then [] else [x]) = [] <-> a = b) by (intros; destruct (decide _); naive_solver).
  rewrite Hd. split.
  - intros (Hm & Hx & Ho & Hf). assert (E := proj1 names_exact (conj Hm Ho)). split.
    + apply (Forall2_names wire_name); [done|]. intros g f Hg [_ Hfo]%list_elem_of_filter En.
      specialize (Hf f Hfo).
      rewrite (proj2 (lookup_by_name wire_name srv (wire_name f) g Hsrv)) in Hf by done.
      apply report_app in Hf as [Ht Hs]. split; [done|].
      destruct (decide (wire_type f = wire_type g)); [|done]. split; [done|].
      apply cmp_serde_exact. by destruct (cmp_serde _ _).
    + intros f Hfo Hn. destruct (decide ((name, wire_name f) ∈ KNOWN_LOCAL_FIELDS)) as [|Hk]; [done|].
      exfalso. apply (proj1 (filter_nil_iff _ _) Hx (wire_name f)); [|done].
      by apply (list_elem_of_fmap_2 wire_name).
  - intros [Ha Hl].
    assert (E : map wire_name srv = map wire_name shared).
    { clear -Ha. induction Ha as [|g f l k Hgf _ IH]; [done|]. simpl. destruct Hgf as [-> _]. by f_equal. }
    destruct (proj2 names_exact E) as [Hm Ho]. split_and!; try done.
    + apply filter_nil_iff. intros n Hn [Hx Hk].
      apply list_elem_of_fmap in Hn as (f & -> & Hf). by apply Hk, Hl.
    + intros f Hf. destruct (lookup_key _ _) as [g|] eqn:Eg; [|done].
      apply lookup_by_name in Eg as [Hg En]; [|done].
      assert (Hfs : f ∈ shared).
      { apply list_elem_of_filter. split; [|done]. rewrite <- En. by apply (list_elem_of_fmap_2 wire_name). }
      assert (exists g', g' ∈ srv /\ field_agrees g' f) as (g' & Hg' & (En' & Et & Es)).
      { apply list_elem_of_lookup in Hfs as [i Hi].
        destruct (Forall2_lookup_r _ _ _ _ _ Ha Hi) as (g' & Hg' & Hag). exists g'. split; [|done].
        by apply list_elem_of_lookup_2 with i. }
      assert (g = g') as -> by (apply (by_name wire_name srv); [done..|congruence]).
      rewrite decide_True by done. simpl.
      by rewrite (proj2 (cmp_serde_exact _ _) Es).
Qed.
End Struct.

Lemma report_decide {A B} `{EqDecision B} (a b : B) (x : A) :
  (if decide (a = b) then [] else [x]) = [] <-> a = b.
Proof. destruct (decide (a = b)); naive_solver. Qed.

Section Enum.
Context (name : string) (srv own : wire_enum).
Hypothesis Hsrv : NoDup (map variant_name (enum_variants srv)).
Hypothesis Hown : NoDup (map variant_name (enum_variants own)).

Lemma compare_enum_exact : compare_enum name srv own = [] <-> enum_agrees name srv own.
Proof.
  unfold compare_enum, enum_agrees.
  rewrite !(keys_by_name variant_name _ Hsrv), !(keys_by_name variant_name _ Hown).
  rewrite !report_app, !unless_empty_nil, report_loop, !report_decide.
  apply and_iff_compat_l, and_iff_compat_l. split.
  - intros (Hm & Hx & Hv & Ho).
    assert (Hin : forall n, n ∈ map variant_name (enum_variants srv) ->
                            n ∈ map variant_name (enum_variants own)).
    { intros n Hn. destruct (decide (n ∈ map variant_name (enum_variants own))); [done|].
      by destruct (proj1 (filter_nil_iff _ _) Hm n Hn). }
    split_and!.
    + intros v Hv'. assert (Hn := list_elem_of_fmap_2 variant_name _ _ Hv').
      assert (Hn' := Hin _ Hn). apply list_elem_of_fmap in Hn' as (w & En & Hw).
      exists w. split; [done|]. specialize (Hv (variant_name v)).
      rewrite (proj2 (lookup_by_name variant_name _ _ v Hsrv)) in Hv by done.
      rewrite (proj2 (lookup_by_name variant_name _ _ w Hown)) in Hv by done.
      rewrite elem_of_py_sorted, list_elem_of_filter, report_app, !report_decide in Hv.
      destruct Hv as [Hd Hp]; [split; [by apply Hin|done]|]. done.
    + intros w Hw Hn. destruct (decide ((name, variant_name w) ∈ KNOWN_LOCAL_VARIANTS)) as [|Hk]; [done|].
      exfalso. apply (proj1 (filter_nil_iff _ _) Hx (variant_name w)); [|done].
      by apply (list_elem_of_fmap_2 variant_name).
    + intros He. rewrite He in Ho. simpl in Ho. apply report_decide in Ho. rewrite <- Ho.
      by apply filter_all.
  - intros (Hv & Hx & Ho).
    assert (Hin : forall n, n ∈ map variant_name (enum_variants srv) ->
                            n ∈ map variant_name (enum_variants own)).
    { intros n Hn. apply list_elem_of_fmap in Hn as (v & -> & Hv').
      destruct (Hv v Hv') as (w & Hw & -> & _). by apply (list_elem_of_fmap_2 variant_name). }
    split_and!.
    + apply filter_nil_iff. intros n Hn Hn'. by apply Hn', Hin.
    + apply filter_nil_iff. intros n Hn [Hx' Hk].
      apply list_elem_of_fmap in Hn as (w & -> & Hw). by apply Hk, Hx.
    + intros n _.
      destruct (lookup_key n _) as [v|] eqn:Ev; [|done].
      apply lookup_by_name in Ev as [Hv' <-]; [|done].
      destruct (Hv v Hv') as (w & Hw & En & Ed & Ep).
      rewrite (proj2 (lookup_by_name variant_name _ (variant_name v) w Hown)) by done.
      by rewrite !decide_True by done.
    + destruct (String.eqb_spec (enum_encoding own) "int") as [He|]; [|done].
      apply report_decide. rewrite (Ho He). by apply filter_all.
Qed.
End Enum.

Lemma compare_opcodes_exact server sdk :
  keys_ok server -> keys_ok sdk ->
  compare_opcodes server sdk = [] <-> opcodes_agree server sdk.
Proof.
  intros Hs Hk. unfold compare_opcodes, opcodes_agree.
  rewrite report_app, unless_empty_nil, report_loop. rewrite (and_comm (_ = [])).
  apply ZifyClasses.and_morph.
  - split.
    + intros H name value Hin. specialize (H (name, value)). rewrite elem_of_sorted_items in H.
      specialize (H Hin). destruct (lookup_key name server) as [v|] eqn:Ev; [|done].
      apply report_decide in H as ->. by apply lookup_key_elem.
    + intros H [name value] Hin. apply (proj1 (elem_of_sorted_items sdk _)) in Hin.
      rewrite (proj2 (lookup_key_iff name value server Hs) (H _ _ Hin)).
      by rewrite decide_True.
  - split.
    + intros H name Hin Hout. destruct (opted_out name) eqn:E; [done|]. exfalso.
      apply (not_elem_of_nil name). rewrite <- H, elem_of_py_sorted, list_elem_of_filter. done.
    + intros H. apply elem_of_nil_inv. intros name.
      rewrite elem_of_py_sorted, list_elem_of_filter. intros ((Hout & E) & Hin).
      by rewrite (H name Hin Hout) in E.
Qed.

(** ** The gate *)

(** C40: the gate reports nothing if and only if the SDK speaks as the server does:
    each of its structs has the server's fields, with the same types and serde
    attributes, in the same order, and only known local fields besides; each of
    its enums the server's variants, numbers, payloads and encoding; and its
    opcodes are the server's, none left out but those of a family it does not
    speak. The report does not depend on the serde attributes of whole types or
    on the fields inside variants, which put bytes on the wire too. *)
Theorem wire_gate_exact server sdk :
  manifest_ok server -> manifest_ok sdk ->
  (compare_rust server sdk = [] <-> speaks_as server sdk).
Proof.
  intros (Hss & Hse & Hso & Hsf & Hsv) (Hks & Hke & Hko & Hkf & Hkv).
  unfold compare_rust, speaks_as. rewrite !report_app, !report_loop.
  rewrite (compare_opcodes_exact _ _ Hso Hko).
  apply ZifyClasses.and_morph; [|apply ZifyClasses.and_morph; [|done]].
  - split.
    + intros H name s Hs Hn. specialize (H (name, s)). rewrite elem_of_sorted_items, decide_False in H by done.
      specialize (H Hs). destruct (lookup_key name _) as [srv|] eqn:E; [|done].
      apply lookup_key_elem in E. exists srv. split; [done|].
      apply compare_struct_exact; eauto.
    + intros H [name s] Hs. apply (proj1 (elem_of_sorted_items (wire_structs sdk) _)) in Hs.
      destruct (decide _) as [|Hn]; [done|]. destruct (H name s Hs Hn) as (srv & Hsrv & Ha).
      rewrite (proj2 (lookup_key_iff name srv _ Hss) Hsrv). apply compare_struct_exact; eauto.
  - split.
    + intros H name e He Hn Ho. specialize (H (name, e)). rewrite elem_of_sorted_items, decide_False in H by done.
      specialize (H He). destruct (String.eqb_spec name "Opcode"); [done|].
      destruct (lookup_key name _) as [srv|] eqn:E; [|done].
      apply lookup_key_elem in E. exists srv. split; [done|].
      apply compare_enum_exact; eauto.
    + intros H [name e] He. apply (proj1 (elem_of_sorted_items (wire_enums sdk) _)) in He.
      destruct (decide _) as [|Hn]; [done|]. destruct (String.eqb_spec name "Opcode") as [|Ho]; [done|].
      destruct (H name e He Hn Ho) as (srv & Hsrv & Ha).
      rewrite (proj2 (lookup_key_iff name srv _ Hse) Hsrv). apply compare_enum_exact; eauto.
Qed.

(** A request as the server declares it, and as the SDK does: a vector of its own
    and a default codec in place of the server's lenient one. *)
Definition sample_server : wire_manifest := mk_wire_manifest
  [("EncodeVectorDirectRequest",
     mk_wire_struct [mk_manifest_field "memory_id" "u128" [("with", AttrText "memory_id_at_rest")];
                     mk_manifest_field "text" "Option<String>" [("skip_serializing_if", AttrText "Option::is_none")]] [])]
  [("EdgeKindWire", mk_wire_enum [mk_wire_variant "Causes" (Some 0) None None;
                                  mk_wire_variant "Refers" (Some 1) None None] (Some "u8") "int" [])]
  [("AdminStatsReq", 769); ("RecallReq", 33)].

Definition sample_sdk : wire_manifest := mk_wire_manifest
  [("EncodeVectorDirectRequest",
     mk_wire_struct [mk_manifest_field "memory_id" "u128" [];
                     mk_manifest_field "vector" "Vec<f32>" [("skip", AttrTrue)];
                     mk_manifest_field "text" "Option<String>" [("skip_serializing_if", AttrText "is_none")]] []);
   ("Frame", mk_wire_struct [] [])]
  [("EdgeKindWire", mk_wire_enum [mk_wire_variant "Causes" (Some 0) None None;
                                  mk_wire_variant "Refers" (Some 1) None None] (Some "u8") "int" [])]
  [("RecallReq", 33)].

Ltac manifest_ok_tac :=
  split_and!; unfold keys_ok; try (apply (bool_decide_unpack _); vm_compute; exact I);
  intros ? ?; cbn [wire_structs wire_enums sample_server sample_sdk];
  rewrite ?elem_of_cons, ?elem_of_nil; intros Hin; destruct_or? Hin; try done;
  injection Hin as -> ->; apply (bool_decide_unpack _); vm_compute; exact I.

Lemma sample_server_ok : manifest_ok sample_server.
Proof. unfold manifest_ok. manifest_ok_tac. Qed.

Lemma sample_sdk_ok : manifest_ok sample_sdk.
Proof. unfold manifest_ok. manifest_ok_tac. Qed.

Lemma wire_gate_exact_witness :
  manifest_ok sample_server /\ manifest_ok sample_sdk /\ speaks_as sample_server sample_sdk.
Proof.
  refine (conj sample_server_ok (conj sample_sdk_ok _)).
  apply (wire_gate_exact sample_server sample_sdk sample_server_ok sample_sdk_ok).
  vm_compute. reflexivity.
Defined.

(** What the gate says of the SDK when the server moves on. *)
Example gate_reports :
  compare_rust
    (mk_wire_manifest [("EncodeVectorDirectRequest",
       mk_wire_struct [mk_manifest_field "text" "String" []; mk_manifest_field "memory_id" "u64" [];
                       mk_manifest_field "occurred_at" "u64" []] [])]
       [] [("RecallReq", 34); ("ForgetReq", 35)])
    sample_sdk
  = [StructMissing "EncodeVectorDirectRequest" ["occurred_at"];
     StructOrder "EncodeVectorDirectRequest" ["text"; "memory_id"] ["memory_id"; "text"];
     FieldType "EncodeVectorDirectRequest" "memory_id" "u64" "u128";
     FieldType "EncodeVectorDirectRequest" "text" "String" "Option<String>";
     FieldSerde "EncodeVectorDirectRequest" "text" "skip_serializing_if";
     EnumUndeclared "EdgeKindWire"; OpcodesUnimplemented ["ForgetReq"];
     OpcodeDiffers "RecallReq" 34 33].
Proof. by_compute. Qed.

(** The attributes of a whole type and the fields inside a variant change the
    bytes too, and the gate does not look at them. *)
Example gate_is_blind :
  let field t := Some [mk_manifest_field "at" t []] in
  let manifest t case := mk_wire_manifest
    [("WhoamiRequest", mk_wire_struct [mk_manifest_field "act_as" "u64" []] [("rename_all", AttrText case)])]
    [("ClaimWire", mk_wire_enum [mk_wire_variant "Seen" None None (field t)] None "tagged" [])] [] in
  manifest "u64" "camelCase" <> manifest "String" "snake_case"
  /\ compare_rust (manifest "u64" "camelCase") (manifest "String" "snake_case") = [].
Proof. split; [done|by_compute]. Qed.
