(* ===== verification/ContractGate.v ===== *)
(** * ContractGate

    [tools/check_http_contract.py]: the gate that keeps the HTTP clients those of
    the published contract, from the routes, bindings and types its parsers read
    off the sources to its exit status. Here its verdict is proved to be exact:
    it passes if and only if every client takes every route of the contract, and
    what each sends and reads there is what the contract declares. *)

From S2P Require Import Prelude PyFloat PyValue PyArith Rfc8949 PyText PyDict ToolText.
From stdpp Require Import list sets.
#[local] Open Scope Z_scope.

(** ** The contract *)

Record dto_field : Type := mk_dto_field {
  dto_name : string; dto_shape : string;
  dto_flatten : bool; dto_rename : option string; dto_alias : option string
}.

Record contract_route : Type := mk_contract_route {
  cr_method : string; cr_path : string; cr_plane : option string;
  cr_query : option string; cr_request_body : option string; cr_response : option string
}.

Record http_manifest : Type := mk_http_manifest {
  hm_dtos : dict (list dto_field); hm_routes : list contract_route; hm_unparsed : list string
}.

(** A field under the name it has on the wire: its kind, and every name that
    satisfies it. *)
Abbreviation contract_field := (string * list string)%type.

(** [serde.get("rename") or field["name"]]. *)
Definition wire_name_of (f : dto_field) : string :=
  match dto_rename f with
  | Some r => if String.eqb r "" then dto_name f else r
  | None => dto_name f
  end.

(** [if serde.get("alias"): spellings.add(...)]. *)
Definition alias_of (f : dto_field) : list string :=
  match dto_alias f with
  | Some a => if String.eqb a "" then [] else [a]
  | None => []
  end.

Section Fields.
Context (dtos : dict (list dto_field)).

(** [contract_fields]: a DTO is expanded once on a path, so as many levels as
    there are DTOs are enough. *)
Fixpoint contract_fields_from (fuel : nat) (name : string) (seen : list string) : dict contract_field :=
  match fuel with
  | O => []
  | S fuel =>
      if decide (name ∈ seen) then []
      else match lookup_key name dtos with
           | None => []
           | Some fields =>
               let seen := name :: seen in
               fold_left (fun out f =>
                 if dto_flatten f then update_keys out (contract_fields_from fuel (dto_shape f) seen)
                 else let wire := wire_name_of f in
                      set_key wire (contract_kind (dto_shape f), [dto_name f; wire] ++ alias_of f) out)
                 fields []
           end
  end.
Definition contract_fields (name : string) : dict contract_field :=
  contract_fields_from (S (length dtos)) name [].
End Fields.

Definition kinds_agree (contract sdk : string) : bool :=
  if String.eqb contract "?" || String.eqb sdk "?" then true
  else if String.eqb sdk "number" then bool_decide (contract ∈ ["int"; "float"])
  else if String.eqb sdk "bigint" then String.eqb contract "int"
  else String.eqb contract sdk.

(** ** The clients *)

Abbreviation route_key := (string * string)%type.

(** A method of a client bound to a route: the request types its signature
    names, or, of Python, the keys it sends, and the type it returns. *)
Record binding : Type := mk_binding {
  bind_method : string; bind_req : list string; bind_sent : list string; bind_resp : option string
}.

Record sdk_surface : Type := mk_sdk {
  sdk_types : dict (dict string); sdk_bindings : list (route_key * list binding)
}.

(** [sdk["bindings"].get(key, [])]. *)
Definition bindings_of (sdk : sdk_surface) (key : route_key) : list binding :=
  default [] (snd <$> find (fun kb => bool_decide (kb.1 = key)) (sdk_bindings sdk)).

(** ** The report *)

Inductive finding_detail : Type :=
| SdkOnly (where_ name : string)
| EdgeOnly (where_ wire : string)
| Shape (where_ wire edge sdk : string).

Inductive advice : Type :=
| NoMethod (route lang : string)
| ManyMethods (route lang : string) (methods : list string)
| BodyUndeclared (route lang : string)
| ResponseUndeclared (route lang : string) (type : option string).

Record report : Type := mk_report {
  findings : dict (list (string * finding_detail));
  advisory : list advice;
  bound : dict Z;
  fields : dict Z
}.

Definition empty_report : report := mk_report [] [] [] [].

Definition get_list {A} (k : string) (d : dict (list A)) : list A := default [] (lookup_key k d).
Definition get_count (k : string) (d : dict Z) : Z := default 0 (lookup_key k d).

Definition finding (lang label : string) (detail : finding_detail) (rep : report) : report :=
  mk_report (set_key lang (get_list lang (findings rep) ++ [(label, detail)]) (findings rep))
            (advisory rep) (bound rep) (fields rep).
Definition advise (a : advice) (rep : report) : report :=
  mk_report (findings rep) (advisory rep ++ [a]) (bound rep) (fields rep).
Definition count_bound (lang : string) (rep : report) : report :=
  mk_report (findings rep) (advisory rep) (set_key lang (get_count lang (bound rep) + 1) (bound rep))
            (fields rep).
Definition count_field (lang : string) (rep : report) : report :=
  mk_report (findings rep) (advisory rep) (bound rep)
            (set_key lang (get_count lang (fields rep) + 1) (fields rep)).

(** [ALLOWED]: nothing is. *)
Definition ALLOWED : list (string * string * string) := [].

(** ** [compare_route] *)

Definition label_of (route : contract_route) : string :=
  cr_method route +:+ " " +:+ normalize (cr_path route).
Definition key_of (route : contract_route) : route_key :=
  (cr_method route, normalize (cr_path route)).

(** The fields of an optional DTO of the manifest. *)
Definition part_fields (dtos : dict (list dto_field)) (part : option string) : dict contract_field :=
  match part with
  | Some dto => if has_key dto dtos then contract_fields dtos dto else []
  | None => []
  end.

Section Route.
Context (dtos : dict (list dto_field)) (route : contract_route).

Definition expected_req : dict contract_field :=
  update_keys (update_keys [] (part_fields dtos (cr_query route))) (part_fields dtos (cr_request_body route)).
Definition body_shapes : list string := map fst (part_fields dtos (cr_request_body route)).
Definition expected_resp : dict contract_field := part_fields dtos (cr_response route).

(** [next((w for w, (_, sp) in expected_req.items() if name in sp), None)]. *)
Definition spelled_field (name : string) : option (string * contract_field) :=
  find (fun f => bool_decide (name ∈ f.2.2)) expected_req.

(** The loop over what the SDK sends. *)
Definition check_sent (lang : string) (sent : string * string) (rep : report) : report :=
  let '(name, kind) := sent in
  let rep := match spelled_field name with
             | None => if bool_decide ((label_of route, lang, name) ∈ ALLOWED) then rep
                       else finding lang (label_of route) (SdkOnly "request" name) rep
             | Some (wire, (edge, _)) =>
                 if bool_decide (wire ∈ body_shapes) && negb (kinds_agree edge kind)
                 then finding lang (label_of route) (Shape "request" wire edge kind) rep
                 else rep
             end in
  count_field lang rep.

(** The loop over what the edge declares for the request. *)
Definition check_declared (lang : string) (sdk_req : dict string) (f : string * contract_field)
    (rep : report) : report :=
  let '(wire, (_, spellings)) := f in
  if existsb (fun s => has_key s sdk_req) spellings
     || bool_decide ((label_of route, lang, wire) ∈ ALLOWED)
  then rep else finding lang (label_of route) (EdgeOnly "request" wire) rep.

(** [sdk_req], and whether the method sends something. *)
Definition sdk_request (lang : string) (declared : dict (dict string)) (b : binding) : option (dict string) * bool :=
  if String.eqb lang "python" then
    (Some (dict_from (map (fun k => (k, "?")) (bind_sent b))),
     match bind_sent b with [] => false | _ => true end)
  else match bind_req b with
       | [] => (None, false)
       | req => (Some (fold_left (fun d name => update_keys d (get_list name declared)) req []), true)
       end.

Definition check_request (lang : string) (declared : dict (dict string)) (b : binding) (rep : report) : report :=
  let '(sdk_req, sends_something) := sdk_request lang declared b in
  let declares_request := match expected_req with [] => false | _ => true end in
  match sdk_req with
  | Some req =>
      if declares_request then
        let rep := fold_left (fun rep s => check_sent lang s rep) req rep in
        fold_left (fun rep f => check_declared lang req f rep) expected_req rep
      else if sends_something then advise (BodyUndeclared (label_of route) lang) rep else rep
  | None => rep
  end.

(** [sorted(spellings & set(sdk_resp))]. *)
Definition response_hits (spellings : list string) (sdk_resp : dict string) : list string :=
  py_sorted (remove_dups (filter (fun s => s ∈ map fst sdk_resp) spellings)).

Definition check_answered (lang : string) (sdk_resp : dict string) (f : string * contract_field)
    (rep : report) : report :=
  let '(wire, (kind, spellings)) := f in
  let rep := match response_hits spellings sdk_resp with
             | [] => if bool_decide ((label_of route, lang, wire) ∈ ALLOWED) then rep
                     else finding lang (label_of route) (EdgeOnly "response" wire) rep
             | hit :: _ =>
                 let own := default "" (lookup_key hit sdk_resp) in
                 if kinds_agree kind own then rep
                 else finding lang (label_of route) (Shape "response" wire kind own) rep
             end in
  count_field lang rep.

Definition every_spelling : list string := flat_map (fun f => f.2.2) expected_resp.

Definition check_read (lang : string) (f : string * string) (rep : report) : report :=
  let name := f.1 in
  if bool_decide (name ∈ every_spelling) || bool_decide ((label_of route, lang, name) ∈ ALLOWED)
  then rep else finding lang (label_of route) (SdkOnly "response" name) rep.

Definition check_response (lang : string) (declared : dict (dict string)) (b : binding) (rep : report) : report :=
  match match bind_resp b with Some t => lookup_key t declared | None => None end with
  | None =>
      match expected_resp with
      | [] => rep
      | _ => advise (ResponseUndeclared (label_of route) lang (bind_resp b)) rep
      end
  | Some sdk_resp =>
      let rep := fold_left (fun rep f => check_answered lang sdk_resp f rep) expected_resp rep in
      match expected_resp with
      | [] => rep
      | _ => fold_left (fun rep f => check_read lang f rep) sdk_resp rep
      end
  end.

Definition check_sdk (lang : string) (sdk : sdk_surface) (rep : report) : report :=
  match bindings_of sdk (key_of route) with
  | [] => advise (NoMethod (label_of route) lang) rep
  | [b] =>
      let rep := count_bound lang rep in
      let rep := check_request lang (sdk_types sdk) b rep in
      check_response lang (sdk_types sdk) b rep
  | bs => advise (ManyMethods (label_of route) lang (map bind_method bs)) rep
  end.

Definition compare_route (sdks : dict sdk_surface) (rep : report) : report :=
  fold_left (fun rep s => check_sdk s.1 s.2 rep) sdks rep.
End Route.

(** ** [check_fields] and [main] *)

Definition CLIENTS : list string := ["rust"; "python"; "typescript"].

Definition is_broker (route : contract_route) : bool := bool_decide (cr_plane route = Some "broker").

(** The routes of the tenant plane, by method and path. *)
Definition expected_routes (m : http_manifest) : list route_key :=
  remove_dups (map key_of (filter (fun r => is_broker r = false) (hm_routes m))).

(** What the parsers read of each client. *)
Definition surfaces (sdks : string -> sdk_surface) : dict sdk_surface :=
  map (fun lang => (lang, sdks lang)) CLIENTS.

Definition check_routes (m : http_manifest) (sdks : string -> sdk_surface) : report :=
  fold_left (fun rep route =>
    if is_broker route then rep else compare_route (hm_dtos m) route (surfaces sdks) rep)
    (hm_routes m) empty_report.

(** The float [MIN_BOUND_FRACTION], 0.8, and [int(len(expected) * ...)]. *)
Definition MIN_BOUND_FRACTION : pyfloat := FFin false 3602879701896397 (-52).
Definition bound_floor (expected : nat) : Z :=
  match float_of_int (Z.of_nat expected) with
  | Ok n => match float_mul n MIN_BOUND_FRACTION with
            | FFin neg m e => float_trunc neg m e
            | _ => 0
            end
  | Raise _ => 0
  end.

Definition check_fields (m : http_manifest) (sdks : string -> sdk_surface) : report * bool :=
  let rep := check_routes m sdks in
  let floor := bound_floor (length (expected_routes m)) in
  (rep, existsb (fun lang => get_count lang (bound rep) <? floor) CLIENTS).

(** What [routes_in] finds in a client's source, where there is one. *)
Definition route_drift (expected : list route_key) (have : option (list route_key)) : bool :=
  match have with
  | None => true
  | Some have =>
      let missing := filter (fun r => r ∉ have) expected in
      let extra := filter (fun r => String.prefix "/v1/" r.2 = true /\ r ∉ expected) have in
      match missing, extra with [], [] => false | _, _ => true end
  end.

(** The exit status of [main] from the manifest it has read. *)
Definition gate_status (m : http_manifest) (sources : string -> option (list route_key))
    (sdks : string -> sdk_surface) : Z :=
  match hm_unparsed m with
  | _ :: _ => 1
  | [] =>
      let expected := expected_routes m in
      if existsb (fun lang => route_drift expected (sources lang)) CLIENTS then 1
      else
        let '(rep, broken) := check_fields m sdks in
        let drift := existsb (fun f => match f.2 with [] => false | _ => true end) (findings rep) in
        if broken then 1 else if drift then 1 else 0
  end.

(** The directory the clients are under, and the manifest's file: [ROOT] is the
    tool's own repository. *)
Inductive gate_root := ROOT | Directory (path : string).
Inductive manifest_file := Given (path : string) | Vendored (root : gate_root).

#[export] Instance gate_root_eq_dec : EqDecision gate_root.
Proof. solve_decision. Defined.

(** [main]'s loop over the arguments: [prev] is [argv[i - 1]], if [i] is not 0;
    [None] is the exit for a [--root] that nothing follows. *)
Fixpoint parse_argv (prev : option string) (argv : list string) (root : gate_root) (args : list string)
    : option (gate_root * list string) :=
  match argv with
  | [] => Some (root, args)
  | arg :: rest =>
      if decide (arg = "--root") then
        match rest with [] => None | dir :: _ => parse_argv (Some arg) rest (Directory dir) args end
      else if decide (prev = Some "--root") then parse_argv (Some arg) rest root args
      else parse_argv (Some arg) rest root (args ++ [arg])
  end.

(** [main]: [manifests] is what the file at a path holds, [sources] and [sdks]
    what the clients under a directory do. *)
Definition main (argv : list string) (manifests : manifest_file -> http_manifest)
    (sources : gate_root -> string -> option (list route_key))
    (sdks : gate_root -> string -> sdk_surface) : Z :=
  match parse_argv None argv ROOT [] with
  | None => 2
  | Some (root, args) =>
      let path := match args with a :: _ => Given a | [] => Vendored root end in
      gate_status (manifests path) (sources root) (sdks root)
  end.

(** ** What passing means *)

(** No name spells two fields. *)
Definition unambiguous (expected : dict contract_field) : Prop :=
  forall f g name, f ∈ expected -> g ∈ expected -> name ∈ f.2.2 -> name ∈ g.2.2 -> f = g.

(** A type has a field under one of its spellings only. *)
Definition spelled_once (expected : dict contract_field) (resp : dict string) : Prop :=
  forall f a b, f ∈ expected -> a ∈ f.2.2 -> b ∈ f.2.2 -> a ∈ map fst resp -> b ∈ map fst resp -> a = b.

(** Everything sent is declared, with a kind that agrees where it is the body's,
    and everything declared is sent. *)
Definition request_agrees (expected : dict contract_field) (body : list string) (req : dict string) : Prop :=
  (forall name kind, (name, kind) ∈ req ->
     exists f, f ∈ expected /\ name ∈ f.2.2 /\ (f.1 ∈ body -> kinds_agree f.2.1 kind = true))
  /\ (forall f, f ∈ expected -> exists name, name ∈ f.2.2 /\ name ∈ map fst req).

(** Everything the edge answers is read, with a kind that agrees, and everything
    read is answered. *)
Definition response_agrees (expected : dict contract_field) (resp : dict string) : Prop :=
  (forall f, f ∈ expected -> exists name kind,
     name ∈ f.2.2 /\ (name, kind) ∈ resp /\ kinds_agree f.2.1 kind = true)
  /\ (forall name, name ∈ map fst resp -> exists f, f ∈ expected /\ name ∈ f.2.2).

(** What a method sends and what it reads, where the gate can tell. *)
Definition request_of_method (lang : string) (sdk : sdk_surface) (b : binding) : option (dict string) :=
  (sdk_request lang (sdk_types sdk) b).1.
Definition response_of_method (sdk : sdk_surface) (b : binding) : option (dict string) :=
  match bind_resp b with Some t => lookup_key t (sdk_types sdk) | None => None end.

(** The one method of a client on a route sends and reads what the route
    declares; of a client with none, or several, nothing is asked. *)
Definition route_agrees (dtos : dict (list dto_field)) (route : contract_route) (lang : string)
    (sdk : sdk_surface) : Prop :=
  match bindings_of sdk (key_of route) with
  | [b] =>
      (forall req, request_of_method lang sdk b = Some req -> expected_req dtos route <> [] ->
         request_agrees (expected_req dtos route) (body_shapes dtos route) req)
      /\ (forall resp, response_of_method sdk b = Some resp -> expected_resp dtos route <> [] ->
            response_agrees (expected_resp dtos route) resp)
  | _ => True
  end.

(** The contract and the types are dicts, names are not ambiguous. *)
Definition comparable (dtos : dict (list dto_field)) (route : contract_route) (sdk : sdk_surface) : Prop :=
  unambiguous (expected_req dtos route) /\
  forall b resp, b ∈ bindings_of sdk (key_of route) -> response_of_method sdk b = Some resp ->
    keys_ok resp /\ spelled_once (expected_resp dtos route) resp.

(** A client's source has every route of the contract and no other. *)
Definition covers (expected : list route_key) (have : option (list route_key)) : Prop :=
  exists l, have = Some l
    /\ (forall r, r ∈ expected -> r ∈ l)
    /\ (forall r, r ∈ l -> String.prefix "/v1/" r.2 = true -> r ∈ expected).

(** The routes a client has exactly one method for. *)
Definition bound_routes (m : http_manifest) (sdk : sdk_surface) : list contract_route :=
  filter (fun route => is_broker route = false /\ length (bindings_of sdk (key_of route)) = 1%nat) (hm_routes m).

(** ** Checks *)

(** How many findings there are. *)
Definition total (rep : report) : nat := length (flat_map snd (findings rep)).

(** A check never takes a finding back, and adds none exactly when [P]. *)
Definition checks (f : report -> report) (P : Prop) : Prop :=
  forall rep, (total rep <= total (f rep))%nat /\ (total (f rep) = total rep <-> P).

Lemma checks_quiet f : (forall rep, findings (f rep) = findings rep) -> checks f True.
Proof. intros Hf rep. unfold total. rewrite Hf. split; [lia|tauto]. Qed.

Lemma checks_finding lang label detail : checks (finding lang label detail) False.
Proof.
  intros rep. unfold total, finding, get_list. simpl.
  assert (length (flat_map snd (set_key lang (default [] (lookup_key lang (findings rep)) ++ [(label, detail)])
            (findings rep))) = S (length (flat_map snd (findings rep)))) as ->; [|split; lia].
  induction (findings rep) as [|[k l] d IH]; [done|]. simpl.
  destruct (String.eqb lang k); simpl; rewrite !length_app; simpl; lia.
Qed.

Lemma checks_iff f P Q : (P <-> Q) -> checks f P -> checks f Q.
Proof. intros HPQ Hf rep. rewrite <- HPQ. apply Hf. Qed.

Lemma checks_compose f g P Q : checks f P -> checks g Q -> checks (fun rep => g (f rep)) (P /\ Q).
Proof.
  intros Hf Hg rep. destruct (Hf rep) as [Hle Hf']. destruct (Hg (f rep)) as [Hle' Hg'].
  rewrite <- Hf', <- Hg'. split; lia.
Qed.

Lemma checks_fold {A} (f : A -> report -> report) (P : A -> Prop) (l : list A) :
  (forall x, x ∈ l -> checks (f x) (P x)) ->
  checks (fun rep => fold_left (fun rep x => f x rep) l rep) (forall x, x ∈ l -> P x).
Proof.
  induction l as [|x l IH]; intros Hl.
  - eapply checks_iff; [|by apply checks_quiet]. set_solver.
  - simpl. eapply checks_iff; [|apply (checks_compose (f x) _ (P x) (forall y, y ∈ l -> P y))].
    + setoid_rewrite elem_of_cons. naive_solver.
    + apply Hl. set_solver.
    + apply IH. set_solver.
Qed.

Lemma checks_unless (b : bool) f P : checks f P -> checks (fun rep => if b then rep else f rep) (b = true \/ P).
Proof.
  intros Hf. destruct b; [|eapply checks_iff; [|exact Hf]; naive_solver].
  eapply checks_iff; [|by apply checks_quiet]. naive_solver.
Qed.

Lemma checks_count f lang P : checks f P -> checks (fun rep => count_field lang (f rep)) P.
Proof. intros Hf rep. unfold total. simpl. apply Hf. Qed.

Lemma find_spec {A} (p : A -> bool) (l : list A) :
  match find p l with
  | Some x => x ∈ l /\ p x = true
  | None => forall x, x ∈ l -> p x = false
  end.
Proof.
  induction l as [|y l IH]; simpl; [set_solver|].
  destruct (p y) eqn:E; [set_solver|]. destruct (find p l); set_solver.
Qed.

Section RouteChecks.
Context (dtos : dict (list dto_field)) (route : contract_route).
Abbreviation req_fields := (expected_req dtos route).
Abbreviation resp_fields := (expected_resp dtos route).

Lemma checks_sent lang name kind :
  unambiguous req_fields ->
  checks (check_sent dtos route lang (name, kind))
    (exists f, f ∈ req_fields /\ name ∈ f.2.2
               /\ (f.1 ∈ body_shapes dtos route -> kinds_agree f.2.1 kind = true)).
Proof.
  intros Hreq. unfold check_sent. apply checks_count.
  assert (Hs := find_spec (fun f => bool_decide (name ∈ f.2.2)) req_fields).
  unfold spelled_field. destruct (find _ _) as [[wire [edge sp]]|].
  - destruct Hs as [Hin Hsp%bool_decide_eq_true]. simpl in Hsp.
    assert (Hiff : (exists f, f ∈ req_fields /\ name ∈ f.2.2
                     /\ (f.1 ∈ body_shapes dtos route -> kinds_agree f.2.1 kind = true))
                   <-> (wire ∈ body_shapes dtos route -> kinds_agree edge kind = true)).
    { split; [|by exists (wire, (edge, sp))]. intros (f & Hf & Hn & Hk).
      by rewrite (Hreq f (wire, (edge, sp)) name) in Hk by done. }
    eapply checks_iff; [symmetry; exact Hiff|].
    destruct (bool_decide_reflect (wire ∈ body_shapes dtos route)); simpl.
    + destruct (kinds_agree edge kind); simpl.
      * eapply checks_iff; [|by apply checks_quiet]. done.
      * eapply checks_iff; [|apply checks_finding]. naive_solver.
    + eapply checks_iff; [|by apply checks_quiet]. naive_solver.
  - simpl. eapply checks_iff; [|apply checks_finding]. split; [done|].
    intros (f & Hf & Hn & _). specialize (Hs f Hf). by apply bool_decide_eq_false in Hs.
Qed.

Lemma checks_declared lang req f :
  checks (check_declared route lang req f) (exists name, name ∈ f.2.2 /\ name ∈ map fst req).
Proof.
  destruct f as [wire [edge sp]]. unfold check_declared. rewrite orb_false_r.
  eapply checks_iff; [|apply checks_unless, checks_finding].
  rewrite existsb_exists. simpl. setoid_rewrite list_elem_of_In. setoid_rewrite has_key_iff.
  setoid_rewrite <- list_elem_of_In. naive_solver.
Qed.

Lemma checks_request lang declared b :
  unambiguous req_fields ->
  checks (check_request dtos route lang declared b)
    (forall req, (sdk_request lang declared b).1 = Some req -> req_fields <> [] ->
       request_agrees req_fields (body_shapes dtos route) req).
Proof.
  intros Hreq. unfold check_request. destruct (sdk_request lang declared b) as [[req|] sends]; simpl.
  - destruct req_fields as [|f0 fs] eqn:E in |- *.
    + destruct sends; (eapply checks_iff; [|by apply checks_quiet]; naive_solver).
    + rewrite <- E. eapply checks_iff; [|apply checks_compose].
      * instantiate (1 := forall f, f ∈ req_fields -> exists name, name ∈ f.2.2 /\ name ∈ map fst req).
        instantiate (1 := forall x, x ∈ req -> exists f, f ∈ req_fields /\ x.1 ∈ f.2.2
                            /\ (f.1 ∈ body_shapes dtos route -> kinds_agree f.2.1 x.2 = true)).
        unfold request_agrees. split.
        -- intros [Hs Hd] req' [= <-] _. split; [|done]. intros name kind Hin. apply (Hs (name, kind) Hin).
        -- intros H. destruct (H req) as [Hs Hd]; [done|by rewrite E|]. split; [|done].
           intros [name kind] Hin. by apply Hs.
      * apply (checks_fold (fun s => check_sent dtos route lang s)). intros [name kind] _. by apply checks_sent.
      * apply (checks_fold (fun f => check_declared route lang req f)). intros f _. apply checks_declared.
  - eapply checks_iff; [|by apply checks_quiet]. done.
Qed.

Section Response.
Context (lang : string) (resp : dict string).
Hypothesis Hresp : keys_ok resp.
Hypothesis Honce : spelled_once resp_fields resp.

Lemma elem_of_response_hits sp name :
  name ∈ response_hits sp resp <-> name ∈ sp /\ name ∈ map fst resp.
Proof.
  unfold response_hits. rewrite elem_of_py_sorted, elem_of_remove_dups, list_elem_of_filter. tauto.
Qed.

Lemma checks_answered f :
  f ∈ resp_fields ->
  checks (check_answered route lang resp f)
    (exists name kind, name ∈ f.2.2 /\ (name, kind) ∈ resp /\ kinds_agree f.2.1 kind = true).
Proof.
  intros Hf. destruct f as [wire [edge sp]]. unfold check_answered. apply checks_count. simpl.
  assert (Hh := fun name => elem_of_response_hits sp name).
  destruct (response_hits sp resp) as [|hit hits].
  - simpl. eapply checks_iff; [|apply checks_finding]. split; [done|].
    intros (name & kind & Hn & Hin & _). apply (not_elem_of_nil name), Hh. split; [done|].
    by apply (list_elem_of_fmap_2 fst) in Hin.
  - destruct (proj1 (Hh hit)) as [Hs Hk]; [set_solver|].
    destruct (lookup_key hit resp) as [own|] eqn:E; [|by apply lookup_key_None in E]. simpl.
    eapply checks_iff; [|apply checks_unless, checks_finding]. split.
    + intros [Ha|[]]. exists hit, own. split; [done|]. split; [by apply lookup_key_elem|done].
    + intros (name & kind & Hn & Hin & Ha). left.
      assert (name = hit) as ->.
      { apply (Honce (wire, (edge, sp))); [done..| |done]. by apply (list_elem_of_fmap_2 fst) in Hin. }
      apply (lookup_key_iff hit kind resp Hresp) in Hin. congruence.
Qed.

Lemma checks_read_all : resp_fields <> [] ->
  checks (fun rep => fold_left (fun rep f => check_read dtos route lang f rep) resp rep)
    (forall name, name ∈ map fst resp -> exists f, f ∈ resp_fields /\ name ∈ f.2.2).
Proof.
  intros _. eapply checks_iff; [|apply (checks_fold (fun f => check_read dtos route lang f))].
  - instantiate (1 := fun x => x.1 ∈ every_spelling dtos route). simpl. unfold every_spelling.
    setoid_rewrite list_elem_of_fmap. setoid_rewrite list_elem_of_In at 2.
    setoid_rewrite in_flat_map. setoid_rewrite <- list_elem_of_In.
    split; [intros H name (x & -> & Hx); by apply H|intros H x Hx; apply H; by exists x].
  - intros f _. unfold check_read. rewrite orb_false_r.
    eapply checks_iff; [|apply checks_unless, checks_finding]. rewrite bool_decide_eq_true. tauto.
Qed.
End Response.

Lemma checks_response lang sdk b :
  (forall resp, response_of_method sdk b = Some resp -> keys_ok resp /\ spelled_once resp_fields resp) ->
  checks (check_response dtos route lang (sdk_types sdk) b)
    (forall resp, response_of_method sdk b = Some resp -> resp_fields <> [] ->
       response_agrees resp_fields resp).
Proof.
  intros Hok. unfold check_response. fold (response_of_method sdk b).
  destruct (response_of_method sdk b) as [resp|].
  - destruct (Hok resp eq_refl) as [Hk Ho].
    destruct resp_fields as [|f0 fs] eqn:E in |- *.
    + eapply checks_iff; [|by apply checks_quiet]. naive_solver.
    + rewrite <- E. eapply checks_iff; [|apply checks_compose].
      * instantiate (1 := forall name, name ∈ map fst resp -> exists f, f ∈ resp_fields /\ name ∈ f.2.2).
        instantiate (1 := forall f, f ∈ resp_fields -> exists name kind,
          name ∈ f.2.2 /\ (name, kind) ∈ resp /\ kinds_agree f.2.1 kind = true).
        unfold response_agrees. split; [by intros [] ? [= <-] _|]. intros H. apply H; [done|by rewrite E].
      * apply (checks_fold (fun f => check_answered route lang resp f)). intros f. by apply checks_answered.
      * apply checks_read_all. by rewrite E.
  - destruct resp_fields; (eapply checks_iff; [|by apply checks_quiet]; naive_solver).
Qed.
End RouteChecks.

Lemma checks_sdk dtos route lang sdk :
  comparable dtos route sdk ->
  checks (check_sdk dtos route lang sdk) (route_agrees dtos route lang sdk).
Proof.
  intros [Hreq Hresp]. unfold check_sdk, route_agrees, request_of_method.
  destruct (bindings_of sdk (key_of route)) as [|b [|b' bs]] eqn:E; [by apply checks_quiet| |by apply checks_quiet].
  apply (checks_compose (fun rep => check_request dtos route lang (sdk_types sdk) b (count_bound lang rep))
           (check_response dtos route lang (sdk_types sdk) b)).
  - intros rep. destruct (checks_request dtos route lang (sdk_types sdk) b Hreq (count_bound lang rep)) as [Hle Hiff].
    unfold total in *. simpl in *. done.
  - apply checks_response. intros resp Hr. apply (Hresp b); [set_solver|done].
Qed.

(** ** Counts *)

(** A step that leaves the count of bound routes alone. *)
Definition keeps (f : report -> report) : Prop := forall rep, bound (f rep) = bound rep.

Lemma keeps_fold {A} (f : A -> report -> report) (l : list A) rep :
  (forall x, keeps (f x)) -> bound (fold_left (fun rep x => f x rep) l rep) = bound rep.
Proof. intros Hf. revert rep. induction l as [|x l IH]; intros rep; simpl; [done|]. by rewrite IH, Hf. Qed.

Ltac keeps_cases :=
  repeat match goal with
  | |- context [match ?x with _ => _ end] => destruct x; simpl
  end; try reflexivity.

Lemma keeps_request dtos route lang declared b : keeps (check_request dtos route lang declared b).
Proof.
  intros rep. unfold check_request. destruct (sdk_request lang declared b) as [[req|] sends]; [|done].
  destruct (expected_req dtos route) in |- *; [by destruct sends|].
  rewrite (keeps_fold (fun f => check_declared route lang req f)), (keeps_fold (fun s => check_sent dtos route lang s)).
  - done.
  - intros [name kind] rep'. unfold check_sent. simpl. keeps_cases.
  - intros [wire [edge sp]] rep'. unfold check_declared. keeps_cases.
Qed.

Lemma keeps_response dtos route lang declared b : keeps (check_response dtos route lang declared b).
Proof.
  intros rep. unfold check_response. destruct (match bind_resp b with Some t => lookup_key t declared | None => None end) as [resp|].
  - assert (Ha : bound (fold_left (fun rep f => check_answered route lang resp f rep) (expected_resp dtos route) rep)
                 = bound rep).
    { apply (keeps_fold (fun f => check_answered route lang resp f)).
      intros [wire [edge sp]] rep'. unfold check_answered. simpl. keeps_cases. }
    destruct (expected_resp dtos route) eqn:E in |- *; [done|].
    rewrite (keeps_fold (fun f => check_read dtos route lang f)); [by rewrite <- E|].
    intros f rep'. unfold check_read. keeps_cases.
  - by destruct (expected_resp dtos route).
Qed.

Lemma get_count_set lang k v (d : dict Z) :
  get_count lang (set_key k v d) = if String.eqb lang k then v else get_count lang d.
Proof.
  unfold get_count. induction d as [|[k' v'] d IH]; simpl.
  - by destruct (String.eqb lang k).
  - destruct (String.eqb_spec k k') as [->|Hk]; simpl.
    + by destruct (String.eqb lang k').
    + destruct (String.eqb_spec lang k') as [->|]; [|done].
      destruct (String.eqb_spec k' k); [congruence|done].
Qed.

Definition bound_once (sdk : sdk_surface) (route : contract_route) : Z :=
  if decide (length (bindings_of sdk (key_of route)) = 1%nat) then 1 else 0.

Lemma bound_sdk dtos route lang lang' sdk rep :
  get_count lang (bound (check_sdk dtos route lang' sdk rep))
  = get_count lang (bound rep) + if String.eqb lang lang' then bound_once sdk route else 0.
Proof.
  unfold check_sdk, bound_once.
  destruct (bindings_of sdk (key_of route)) as [|b [|b' bs]]; simpl.
  - destruct (String.eqb lang lang'); lia.
  - rewrite keeps_response, keeps_request. simpl. rewrite get_count_set.
    destruct (String.eqb_spec lang lang') as [->|]; lia.
  - destruct (String.eqb lang lang'); lia.
Qed.

Lemma bound_route dtos route sdks lang rep :
  lang ∈ CLIENTS ->
  get_count lang (bound (compare_route dtos route (surfaces sdks) rep))
  = get_count lang (bound rep) + bound_once (sdks lang) route.
Proof.
  intros Hl. unfold compare_route, surfaces, CLIENTS in *. simpl. rewrite !bound_sdk.
  rewrite !elem_of_cons in Hl. destruct Hl as [->|[->|[->|[]%elem_of_nil]]]; simpl; lia.
Qed.

Lemma bound_count m sdks lang :
  lang ∈ CLIENTS -> get_count lang (bound (check_routes m sdks)) = zlen (bound_routes m (sdks lang)).
Proof.
  intros Hl. unfold check_routes, bound_routes.
  enough (H : forall rep, get_count lang (bound (fold_left (fun rep route =>
      if is_broker route then rep else compare_route (hm_dtos m) route (surfaces sdks) rep) (hm_routes m) rep))
    = get_count lang (bound rep) + zlen (filter (fun route => is_broker route = false
        /\ length (bindings_of (sdks lang) (key_of route)) = 1%nat) (hm_routes m)))
    by apply H.
  induction (hm_routes m) as [|route l IH]; intros rep; [unfold zlen; simpl; lia|].
  cbn [fold_left]. rewrite IH. destruct (is_broker route) eqn:Eb.
  - rewrite filter_cons_False by (intros [Hb _]; congruence). done.
  - rewrite bound_route by done. unfold bound_once. destruct (decide _) as [E|E].
    + rewrite filter_cons_True by (split; [exact Eb|exact E]). unfold zlen. simpl. lia.
    + rewrite filter_cons_False by (intros [_ Hn]; by apply E). lia.
Qed.

(** ** The verdict *)

Lemma route_drift_iff expected have : route_drift expected have = false <-> covers expected have.
Proof.
  unfold route_drift, covers. destruct have as [have|]; [|naive_solver].
  assert (Hm := filter_nil_iff (fun r => r ∉ have) expected).
  assert (Hx := filter_nil_iff (fun r => String.prefix "/v1/" r.2 = true /\ r ∉ expected) have).
  destruct (filter (fun r => r ∉ have) expected) as [|r rs], (filter _ have) as [|r' rs']; (split; [intros E|intros (l & [= <-] & H1 & H2)]); try done.
  - exists have. split; [done|]. split.
    + intros r Hr. destruct (decide (r ∈ have)); [done|]. by destruct (proj1 Hm eq_refl r Hr).
    + intros r Hr Hp. destruct (decide (r ∈ expected)); [done|]. destruct (proj1 Hx eq_refl r Hr). by split.
  - assert (r' :: rs' = []); [|done]. apply Hx. intros x Hin [Hp Hn]. by apply Hn, H2.
  - assert (r :: rs = []); [|done]. apply Hm. intros x Hin Hn. by apply Hn, H1.
  - assert (r :: rs = []); [|done]. apply Hm. intros x Hin Hn. by apply Hn, H1.
Qed.

Lemma drift_iff rep :
  existsb (fun f => match f.2 with [] => false | _ => true end) (findings rep) = false <-> total rep = 0%nat.
Proof.
  unfold total. induction (findings rep) as [|[k l] d IH]; simpl; [done|].
  rewrite length_app, orb_false_iff, IH. destruct l; simpl; [naive_solver lia|split; [by intros []|lia]].
Qed.

Lemma check_routes_exact m sdks :
  (forall route, route ∈ hm_routes m -> is_broker route = false ->
     forall lang, lang ∈ CLIENTS -> comparable (hm_dtos m) route (sdks lang)) ->
  total (check_routes m sdks) = 0%nat
  <-> forall route, route ∈ hm_routes m -> is_broker route = false ->
        forall lang, lang ∈ CLIENTS -> route_agrees (hm_dtos m) route lang (sdks lang).
Proof.
  intros Hok. apply (checks_fold (fun route rep =>
    if is_broker route then rep else compare_route (hm_dtos m) route (surfaces sdks) rep)
    (fun route => is_broker route = false -> forall lang, lang ∈ CLIENTS ->
       route_agrees (hm_dtos m) route lang (sdks lang))).
  intros route Hr. destruct (is_broker route) eqn:Eb.
  - eapply checks_iff; [|by apply checks_quiet]. naive_solver.
  - eapply checks_iff; [|apply (checks_fold (fun s => check_sdk (hm_dtos m) route s.1 s.2)
                                  (fun s => route_agrees (hm_dtos m) route s.1 s.2))].
    + unfold surfaces. setoid_rewrite list_elem_of_fmap. naive_solver.
    + intros s Hs. unfold surfaces in Hs. apply list_elem_of_fmap in Hs as (lang & -> & Hl).
      by apply checks_sdk, Hok.
Qed.

(** The comparison, of a manifest that has been read: exit 0 is agreement. *)
Lemma gate_status_exact m sources sdks :
  (forall route, route ∈ hm_routes m -> is_broker route = false ->
     forall lang, lang ∈ CLIENTS -> comparable (hm_dtos m) route (sdks lang)) ->
  gate_status m sources sdks = 0
  <-> hm_unparsed m = []
      /\ (forall lang, lang ∈ CLIENTS -> covers (expected_routes m) (sources lang))
      /\ (forall lang, lang ∈ CLIENTS ->
            bound_floor (length (expected_routes m)) <= zlen (bound_routes m (sdks lang)))
      /\ (forall route, route ∈ hm_routes m -> is_broker route = false ->
            forall lang, lang ∈ CLIENTS -> route_agrees (hm_dtos m) route lang (sdks lang)).
Proof.
  intros Hok. rewrite <- (check_routes_exact m sdks Hok), <- drift_iff.
  assert (Hd : existsb (fun lang => route_drift (expected_routes m) (sources lang)) CLIENTS = false
               <-> forall lang, lang ∈ CLIENTS -> covers (expected_routes m) (sources lang)).
  { setoid_rewrite <- route_drift_iff. apply existsb_false_iff. }
  assert (Hb : existsb (fun lang => get_count lang (bound (check_routes m sdks))
                                      <? bound_floor (length (expected_routes m))) CLIENTS = false
               <-> forall lang, lang ∈ CLIENTS ->
                     bound_floor (length (expected_routes m)) <= zlen (bound_routes m (sdks lang))).
  { rewrite existsb_false_iff. setoid_rewrite Z.ltb_ge.
    split; intros H lang Hl; specialize (H lang Hl); by rewrite bound_count in * by done. }
  rewrite <- Hd, <- Hb. unfold gate_status, check_fields.
  destruct (hm_unparsed m); [|naive_solver lia].
  destruct (existsb _ CLIENTS); [naive_solver lia|].
  destruct (existsb _ CLIENTS); [naive_solver lia|].
  destruct (existsb _ (findings _)); naive_solver lia.
Qed.

(** *** The arguments *)

(** The arguments, each with the one before it. *)
Definition with_previous (prev : option string) (argv : list string) : list (option string * string) :=
  combine (prev :: map Some argv) argv.

Definition after_root (p : option string * string) : Prop := p.1 = Some "--root".
#[export] Instance after_root_dec p : Decision (after_root p).
Proof. unfold after_root. apply _. Defined.

(** The directory [argv] asks for: what follows the last [--root]. *)
Definition asked_root (default : gate_root) (prev : option string) (argv : list string) : gate_root :=
  from_option (fun p => Directory p.2) default (last (filter after_root (with_previous prev argv))).

(** The arguments that are neither a [--root] nor its directory. *)
Definition other_args (prev : option string) (argv : list string) : list string :=
  map snd (filter (fun p => ~ after_root p /\ p.2 <> "--root") (with_previous prev argv)).

(** The manifest [argv] names, or the one vendored in the directory it asks for. *)
Definition asked_manifest (argv : list string) : manifest_file :=
  match other_args None argv with a :: _ => Given a | [] => Vendored (asked_root ROOT None argv) end.

Lemma asked_root_cons default prev a l :
  asked_root default prev (a :: l)
  = asked_root (if decide (prev = Some "--root") then Directory a else default) (Some a) l.
Proof.
  unfold asked_root, with_previous. cbn [combine map]. rewrite filter_cons. unfold after_root at 1. simpl.
  destruct (decide (prev = Some "--root")); [|done]. rewrite last_cons.
  by destruct (last (filter after_root _)).
Qed.

Lemma other_args_cons prev a l :
  other_args prev (a :: l)
  = (if decide (prev <> Some "--root" /\ a <> "--root") then [a] else []) ++ other_args (Some a) l.
Proof.
  unfold other_args, with_previous. cbn [combine map]. rewrite filter_cons. unfold after_root at 1. simpl.
  repeat case_decide; naive_solver.
Qed.

(** The root the loop carries at an argument after [--root] is that argument. *)
Definition root_current (prev : option string) (argv : list string) (root : gate_root) : Prop :=
  match argv with dir :: _ => prev = Some "--root" -> root = Directory dir | [] => True end.

Lemma parse_argv_asked argv : forall prev root args,
  last argv <> Some "--root" -> root_current prev argv root ->
  parse_argv prev argv root args = Some (asked_root root prev argv, args ++ other_args prev argv).
Proof.
  induction argv as [|a l IH]; intros prev root args Hl Hc; [by rewrite app_nil_r|].
  assert (Hl' : last l <> Some "--root") by (by destruct l).
  rewrite asked_root_cons, other_args_cons, app_assoc. cbn [parse_argv].
  replace (if decide (prev = Some "--root") then Directory a else root) with root
    by (case_decide; [by apply Hc|done]).
  destruct (decide (a = "--root")) as [->|Ha].
  - rewrite decide_False by naive_solver. rewrite app_nil_r. destruct l as [|b l]; [done|].
    rewrite IH by done. by rewrite !asked_root_cons, decide_True.
  - assert (root_current (Some a) l root) by (destruct l; [done|intros Hp; by injection Hp]).
    rewrite !IH by done. destruct (decide (prev = Some "--root")) as [Hp|Hp].
    + rewrite decide_False by naive_solver. by rewrite app_nil_r.
    + by rewrite decide_True.
Qed.

Lemma parse_argv_missing argv : forall prev root args,
  last argv = Some "--root" -> parse_argv prev argv root args = None.
Proof.
  induction argv as [|a l IH]; intros prev root args Hl; [done|]. simpl.
  destruct l as [|b l]; [injection Hl as ->; by rewrite decide_True|].
  repeat case_decide; apply IH; done.
Qed.

Lemma gate_status_decides m sources sdks : gate_status m sources sdks = 0 \/ gate_status m sources sdks = 1.
Proof.
  unfold gate_status. destruct (hm_unparsed m); [|by right]. destruct (existsb _ CLIENTS); [by right|].
  destruct (check_fields m sdks) as [rep [|]]; [by right|]. destruct (existsb _ (findings rep)); naive_solver.
Qed.

(** C39: of any command line, [main]'s exit status is 2 if and only if the last
    argument is a [--root]; otherwise it is 0 if and only if the manifest the
    arguments name (the first that is not a [--root] or its directory, and else
    the one vendored under the directory asked for, the last one) and the
    clients under that directory agree: the manifest has no unparsed item, every
    client's source exists and takes exactly the routes that are not the
    broker's, each client has one method bound to as many of them as the floor
    asks, and on each of those routes where a client has one method, everything
    it sends is a declared parameter under one of its spellings, with a kind
    that agrees if it is in the body, every declared parameter is sent, and the
    same holds of what it reads against what the route answers. No method on a
    route or several, a body sent where none is declared and a result type that
    is not declared are only advisories. *)
Theorem contract_gate_exact argv manifests sources sdks :
  let m := manifests (asked_manifest argv) in
  let root := asked_root ROOT None argv in
  (forall route, route ∈ hm_routes m -> is_broker route = false ->
     forall lang, lang ∈ CLIENTS -> comparable (hm_dtos m) route (sdks root lang)) ->
  (main argv manifests sources sdks = 2 <-> last argv = Some "--root")
  /\ (main argv manifests sources sdks = 0
      <-> last argv <> Some "--root"
          /\ hm_unparsed m = []
          /\ (forall lang, lang ∈ CLIENTS -> covers (expected_routes m) (sources root lang))
          /\ (forall lang, lang ∈ CLIENTS ->
                bound_floor (length (expected_routes m)) <= zlen (bound_routes m (sdks root lang)))
          /\ (forall route, route ∈ hm_routes m -> is_broker route = false ->
                forall lang, lang ∈ CLIENTS -> route_agrees (hm_dtos m) route lang (sdks root lang))).
Proof.
  intros m root Hok. unfold main. destruct (decide (last argv = Some "--root")) as [Hl|Hl].
  - rewrite parse_argv_missing by done. naive_solver.
  - rewrite parse_argv_asked by (done || by destruct argv).
    change ([] ++ other_args None argv) with (other_args None argv). cbv zeta.
    change (manifests _) with m. change (asked_root ROOT None argv) with root.
    rewrite <- (gate_status_exact m (sources root) (sdks root)) by done.
    pose proof (gate_status_decides m (sources root) (sdks root)). intuition congruence.
Qed.

(** ** The expansion of flattened fields *)

Section Fuel.
Context (dtos : dict (list dto_field)).

(** The DTOs that have not been seen on the path. *)
Definition unseen (seen : list string) : nat :=
  length (filter (fun n => n ∉ seen) (map fst dtos)).

Lemma unseen_cons name seen :
  name ∈ map fst dtos -> name ∉ seen -> (unseen (name :: seen) < unseen seen)%nat.
Proof.
  unfold unseen. induction (map fst dtos) as [|n l IH]; [by intros ?%not_elem_of_nil|].
  assert (Hle : forall l : list string,
    (length (filter (fun n => n ∉ name :: seen) l) <= length (filter (fun n => n ∉ seen) l))%nat).
  { clear. induction l as [|n l IH]; [done|]. destruct (decide (n ∈ seen)).
    - rewrite !filter_cons_False; [exact IH|set_solver..].
    - rewrite (filter_cons_True (fun n => n ∉ seen) n l) by done. destruct (decide (n = name)) as [->|].
      + rewrite filter_cons_False by set_solver. simpl. lia.
      + rewrite filter_cons_True by set_solver. simpl. lia. }
  intros [->|Hin]%elem_of_cons Hs.
  - rewrite filter_cons_False by set_solver. rewrite filter_cons_True by done. simpl. specialize (Hle l). lia.
  - specialize (IH Hin Hs). destruct (decide (n ∈ seen)).
    + rewrite !filter_cons_False; [exact IH|set_solver..].
    + rewrite (filter_cons_True (fun n => n ∉ seen) n l) by done.
      destruct (decide (n = name)) as [->|].
      * rewrite filter_cons_False by set_solver. simpl. specialize (Hle l). lia.
      * rewrite filter_cons_True by set_solver. simpl. lia.
Qed.

Lemma fold_left_eq {A B} (f g : A -> B -> A) (l : list B) a :
  (forall a b, f a b = g a b) -> fold_left f l a = fold_left g l a.
Proof. intros H. revert a. induction l as [|b l IH]; intros a; simpl; [done|]. by rewrite H, IH. Qed.

(** As many levels as there are DTOs give every field: more change nothing. *)
Lemma contract_fields_fuel n k name seen :
  (unseen seen < n)%nat -> (unseen seen < k)%nat ->
  contract_fields_from dtos n name seen = contract_fields_from dtos k name seen.
Proof.
  revert k name seen. induction n as [|n IH]; intros k name seen Hn Hk; [lia|].
  destruct k as [|k]; [lia|]. cbn [contract_fields_from].
  destruct (decide (name ∈ seen)) as [|Hs]; [done|].
  destruct (lookup_key name dtos) as [fs|] eqn:E; [|done].
  apply fold_left_eq. intros out f. destruct (dto_flatten f); [|done].
  assert (Hu : (unseen (name :: seen) < unseen seen)%nat).
  { apply unseen_cons; [|done]. apply lookup_key_elem in E. by apply (list_elem_of_fmap_2 fst) in E. }
  by rewrite (IH k) by lia.
Qed.

Lemma contract_fields_enough n name :
  (length dtos < n)%nat -> contract_fields_from dtos n name [] = contract_fields dtos name.
Proof.
  intros Hn. assert ((unseen [] <= length dtos)%nat).
  { unfold unseen. etransitivity; [apply length_filter|]. by rewrite length_map. }
  apply contract_fields_fuel; lia.
Qed.
End Fuel.

(** The floor is four fifths of the routes, whatever the float rounds to. *)
Example floor_is_four_fifths :
  forallb (fun n => bound_floor n =? Z.of_nat n * 4 / 5) (seq 0 1000) = true.
Proof. by_compute. Qed.

(** ** The fixture of [tools/test_check_http_contract.py] *)

Definition plain_field (name shape : string) : dto_field := mk_dto_field name shape false None None.

Definition fixture (recall : list dto_field) : http_manifest := mk_http_manifest
  [("RecallBody", recall);
   ("RecallResponseDto", [plain_field "answer_kind" "string"; plain_field "trace" "opt(string)"]);
   ("ListWidgetsQuery", [mk_dto_field "widget_type" "string" false (Some "type") None; plain_field "limit" "opt(int)"]);
   ("ListWidgetsResponseDto", [plain_field "widgets" "list(WidgetDto)"; plain_field "next_cursor" "opt(string)"]);
   ("WidgetDto", [plain_field "widget_id" "string"]);
   ("ThingDto", [plain_field "from" "string"; plain_field "count" "int"]);
   ("SupersedeThingBody", [mk_dto_field "thing" "CreateThingBody" true None None]);
   ("CreateThingBody", [plain_field "label" "string"])]
  [mk_contract_route "POST" "/v1/recall" (Some "tenant") None (Some "RecallBody") (Some "RecallResponseDto");
   mk_contract_route "GET" "/v1/widgets" (Some "tenant") (Some "ListWidgetsQuery") None (Some "ListWidgetsResponseDto");
   mk_contract_route "GET" "/v1/things/{id}" (Some "tenant") None None (Some "ThingDto");
   mk_contract_route "POST" "/v1/things/{id}/supersede" (Some "tenant") None (Some "SupersedeThingBody") (Some "ThingDto");
   mk_contract_route "POST" "/llm/ns/{namespace}/messages" (Some "broker") None None None]
  [].

Definition recall_query : dto_field := mk_dto_field "query" "string" false None (Some "cue").
Definition recall_fields : list dto_field :=
  [recall_query; plain_field "max_results" "opt(int)"; plain_field "scope" "opt(string)"].

Definition fixture_bindings (sent : bool) : list (route_key * list binding) :=
  let b name req keys resp := [mk_binding name (if sent then [] else req) (if sent then keys else []) (Some resp)] in
  [("POST", "/v1/recall", b "recall" ["RecallInput"] ["query"; "max_results"; "include_trace"] "RecallResult");
   ("GET", "/v1/widgets", b "list_widgets" ["ListWidgetsQuery"] ["type"; "limit"] "ListWidgetsResult");
   ("GET", "/v1/things/{id}", b "get_thing" [] [] "Thing");
   ("POST", "/v1/things/{id}/supersede", b "supersede_thing" ["SupersedeThingInput"] ["label"] "Thing")].

Definition fixture_types (int count : string) (recall : dict string) (latency : dict string) : dict (dict string) :=
  [("RecallInput", recall);
   ("RecallResult", [("answer_kind", "string"); ("trace", "string")] ++ latency);
   ("ListWidgetsQuery", [("type", "string"); ("limit", int)]);
   ("ListWidgetsResult", [("widgets", "list"); ("next_cursor", "string")]);
   ("Widget", [("widget_id", "string")]);
   ("Thing", [("from", "string"); ("count", count)]);
   ("SupersedeThingInput", [("label", "string")]);
   ("HttpRetryPolicy", [("max_attempts", int); ("base_url", "string")])].

Definition fixture_sdk (lang : string) : sdk_surface :=
  let int := if String.eqb lang "typescript" then "number" else "int" in
  mk_sdk (fixture_types int "string"
            [("query", "string"); ("max_results", int); ("include_trace", "bool")] [("latency_ms", int)])
         (fixture_bindings (String.eqb lang "python")).

Definition fixture_sources (lang : string) : option (list route_key) := Some (map fst (fixture_bindings true)).

(** What was planted is found, in every client and nothing else. *)
Example fixture_findings :
  let rep := check_routes (fixture recall_fields) fixture_sdk in
  findings rep = map (fun lang => (lang,
    [("POST /v1/recall", SdkOnly "request" "include_trace"); ("POST /v1/recall", EdgeOnly "request" "scope");
     ("POST /v1/recall", SdkOnly "response" "latency_ms");
     ("GET /v1/things/{id}", Shape "response" "count" "int" "string");
     ("POST /v1/things/{id}/supersede", Shape "response" "count" "int" "string")])) CLIENTS
  /\ gate_status (fixture recall_fields) fixture_sources fixture_sdk = 1.
Proof. by_compute. Qed.

(** A client without the drift, and a contract without the field no client has. *)
Definition clean_sdk (lang : string) : sdk_surface :=
  let int := if String.eqb lang "typescript" then "number" else "int" in
  mk_sdk (fixture_types int int [("cue", "string"); ("max_results", int)] [])
         (map (fun kb => (kb.1, map (fun b => mk_binding (bind_method b) (bind_req b)
              (filter (fun k => k <> "include_trace") (bind_sent b)) (bind_resp b)) kb.2))
            (fixture_bindings (String.eqb lang "python"))).
Definition clean_manifest : http_manifest := fixture [recall_query; plain_field "max_results" "opt(int)"].

Definition unambiguous_b (expected : dict contract_field) : bool :=
  forallb (fun f => forallb (fun g => forallb (fun name =>
    negb (bool_decide (name ∈ g.2.2)) || bool_decide (f = g)) f.2.2) expected) expected.

Lemma unambiguous_b_ok expected : unambiguous_b expected = true -> unambiguous expected.
Proof.
  unfold unambiguous_b. rewrite forallb_forall. intros H f g name Hf Hg Hn Hn'.
  specialize (H f (proj1 (list_elem_of_In _ _) Hf)). rewrite forallb_forall in H.
  specialize (H g (proj1 (list_elem_of_In _ _) Hg)). rewrite forallb_forall in H.
  specialize (H name (proj1 (list_elem_of_In _ _) Hn)).
  apply orb_true_iff in H as [H|H]; [|by apply bool_decide_eq_true in H].
  by rewrite bool_decide_eq_true_2 in H.
Qed.

Definition spelled_once_b (expected : dict contract_field) (resp : dict string) : bool :=
  forallb (fun f => bool_decide (length (remove_dups (filter (fun n => n ∈ map fst resp) f.2.2)) <= 1)%nat) expected.

Lemma spelled_once_b_ok expected resp : spelled_once_b expected resp = true -> spelled_once expected resp.
Proof.
  unfold spelled_once_b. rewrite forallb_forall. intros H f a b Hf Ha Hb Ha' Hb'.
  specialize (H f (proj1 (list_elem_of_In _ _) Hf)). apply bool_decide_eq_true in H.
  assert (Ea : a ∈ remove_dups (filter (fun n => n ∈ map fst resp) f.2.2))
    by by rewrite elem_of_remove_dups, list_elem_of_filter.
  assert (Eb : b ∈ remove_dups (filter (fun n => n ∈ map fst resp) f.2.2))
    by by rewrite elem_of_remove_dups, list_elem_of_filter.
  destruct (remove_dups _) as [|x [|y l]]; simpl in H; [by apply not_elem_of_nil in Ea| |lia].
  apply list_elem_of_singleton in Ea, Eb. congruence.
Qed.

Definition comparable_b (dtos : dict (list dto_field)) (route : contract_route) (sdk : sdk_surface) : bool :=
  unambiguous_b (expected_req dtos route)
  && forallb (fun b => match response_of_method sdk b with
                       | Some resp => bool_decide (NoDup (map fst resp)) && spelled_once_b (expected_resp dtos route) resp
                       | None => true
                       end) (bindings_of sdk (key_of route)).

Lemma comparable_b_ok dtos route sdk : comparable_b dtos route sdk = true -> comparable dtos route sdk.
Proof.
  unfold comparable_b. rewrite andb_true_iff, forallb_forall. intros [Hu Hb]. split; [by apply unambiguous_b_ok|].
  intros b resp Hin E. specialize (Hb b (proj1 (list_elem_of_In _ _) Hin)). rewrite E in Hb.
  apply andb_true_iff in Hb as [Hk Ho]. split; [by apply bool_decide_eq_true in Hk|by apply spelled_once_b_ok].
Qed.

Definition all_comparable (m : http_manifest) (sdks : string -> sdk_surface) : bool :=
  forallb (fun route => forallb (fun lang => comparable_b (hm_dtos m) route (sdks lang)) CLIENTS) (hm_routes m).

Lemma all_comparable_ok m sdks : all_comparable m sdks = true ->
  forall route, route ∈ hm_routes m -> is_broker route = false ->
    forall lang, lang ∈ CLIENTS -> comparable (hm_dtos m) route (sdks lang).
Proof.
  unfold all_comparable. rewrite forallb_forall. intros H route Hr _ lang Hl.
  specialize (H route (proj1 (list_elem_of_In _ _) Hr)). rewrite forallb_forall in H.
  apply comparable_b_ok, H. by apply list_elem_of_In.
Qed.

(** The fixture checked out at [fixture], with the clients the drift is in at
    [drifted]; the directories' own manifests are the one without the drift. *)
Definition fixture_manifests (path : manifest_file) : http_manifest :=
  match path with Given _ => fixture recall_fields | Vendored _ => clean_manifest end.
Definition fixture_sdks (root : gate_root) : string -> sdk_surface :=
  if decide (root = Directory "drifted") then fixture_sdk else clean_sdk.

(** The fixture without the drift passes, so every client agrees with it on every
    route; with the drift none does, and without the directory it is not read. *)
Lemma contract_gate_exact_witness :
  (forall route, route ∈ hm_routes clean_manifest -> is_broker route = false ->
     forall lang, lang ∈ CLIENTS -> route_agrees (hm_dtos clean_manifest) route lang (clean_sdk lang))
  /\ main ["--root"; "drifted"; "routes.json"] fixture_manifests (fun _ => fixture_sources) fixture_sdks = 1
  /\ main ["--root"; "drifted"; "--root"] fixture_manifests (fun _ => fixture_sources) fixture_sdks = 2.
Proof.
  split; [|split; vm_compute; reflexivity].
  apply (contract_gate_exact ["--root"; "drifted"; "--root"; "fixture"] fixture_manifests
           (fun _ => fixture_sources) fixture_sdks).
  - apply all_comparable_ok. vm_compute. reflexivity.
  - vm_compute. reflexivity.
Defined.
