(* ===== verification/BindingsGate.v ===== *)
(** * BindingsGate

    [tools/compare_bindings.py]: the gate that keeps the wire types of the Python
    and TypeScript bindings those of the Rust SDK. Types are reduced to shapes,
    which is as much as the three languages have in common; the declarations its
    extractors read off the bindings' sources are arguments. *)

From S2P Require Import Prelude PyFloat PyValue Rfc8949 PyText PyDict ToolText WireGate.
From Stdlib Require Import Strings.Ascii.
From stdpp Require Import list sets.
#[local] Open Scope Z_scope.

(** ** Shapes *)

(** The group of [re.match("^" + pre + "(.+)" + post + "$", s)], of a stripped [s]. *)
Definition wrapped (pre post s : string) : option string :=
  match full_match pre post s with
  | Some m => if String.eqb m "" then None else Some m
  | None => None
  end.

(** [\d+]. *)
Definition digits (s : string) : bool := negb (String.eqb s "") && all_digits s.

(** [re.match(r"^\[u8; ?\d+\]$", ty)]. *)
Definition byte_array (ty : string) : bool :=
  match wrapped "[u8;" "]" ty with
  | Some n => digits (remove_char " " n)
  | None => false
  end.

(** [re.match(r"^[uif]\d+$", ty)]. *)
Definition rust_number (ty : string) : bool :=
  match ty with
  | String c n => bool_decide (c ∈ ["u"; "i"; "f"]%char) && digits n
  | EmptyString => false
  end.

(** The recursion goes into what is wrapped, which is shorter: the length of the
    type is fuel enough. *)
Fixpoint rust_shape_from (fuel : nat) (ty : string) : string :=
  let ty := py_strip ty in
  let sub t := match fuel with S fuel => rust_shape_from fuel t | O => "" end in
  match wrapped "Option<" ">" ty with
  | Some t => "opt(" +:+ sub t +:+ ")"
  | None =>
      match wrapped "Vec<" ">" ty with
      | Some t => if String.eqb (py_strip t) "u8" then "blob" else "list(" +:+ sub (py_strip t) +:+ ")"
      | None =>
          if byte_array ty then "blob"
          else if bool_decide (ty ∈ ["String"; "str"; "&str"]) then "str"
          else if String.eqb ty "bool" then "bool"
          else if rust_number ty then "num" else "scalar"
      end
  end.
Definition rust_shape (ty : string) : string := rust_shape_from (String.length ty) ty.

Fixpoint py_shape_from (fuel : nat) (ty : string) : string :=
  let ty := py_strip ty in
  let sub t := match fuel with S fuel => py_shape_from fuel t | O => "" end in
  match wrapped "Optional[" "]" ty with
  | Some t => "opt(" +:+ sub t +:+ ")"
  | None =>
      match match wrapped "list[" "]" ty with Some t => Some t | None => wrapped "List[" "]" ty end with
      | Some t => "list(" +:+ sub t +:+ ")"
      | None =>
          if bool_decide (ty ∈ ["bytes"; "bytearray"]) then "blob"
          else if String.eqb ty "str" then "str"
          else if String.eqb ty "bool" then "bool"
          else if bool_decide (ty ∈ ["int"; "float"]) then "num" else "scalar"
      end
  end.
Definition py_shape (ty : string) : string := py_shape_from (String.length ty) ty.

(** [re.sub(r"\b" + old + r"\b", new, s)] of a word: of every run of word
    characters that is the word. [run] is the one being read. *)
Fixpoint sub_word (old new run s : string) : string :=
  let flush := if String.eqb run old then new else run in
  match s with
  | EmptyString => flush
  | String c s => if word_char c then sub_word old new (run +:+ String c "") s
                  else flush +:+ String c (sub_word old new "" s)
  end.

Definition leaf_agnostic (shape : string) : string :=
  sub_word "num" "leaf" "" (sub_word "scalar" "leaf" "" shape).

(** [s.replace(old, new)], [old] not empty: [skip] characters of an occurrence are
    still to be passed over. *)
Fixpoint replace_text (old new : string) (skip : nat) (s : string) : string :=
  match s with
  | EmptyString => EmptyString
  | String c s' =>
      match skip with
      | S skip => replace_text old new skip s'
      | O => if String.prefix old s then new +:+ replace_text old new (String.length old - 1) s'
             else String c (replace_text old new 0 s')
      end
  end.

Section Shapes.
Context (ref : wire_manifest).

Definition enum_aware_shape (ty : string) : string :=
  let stripped := py_strip ty in
  let inner := match wrapped "Option<" ">" stripped with
               | Some t => t
               | None => default stripped (wrapped "Vec<" ">" stripped)
               end in
  match lookup_key inner (wire_enums ref) with
  | Some e =>
      if String.eqb (enum_encoding e) "tagged" then
        let has_payload := existsb (fun v => match variant_payload v, variant_struct v with
                                             | None, None => false | _, _ => true end) (enum_variants e) in
        replace_text "scalar" (if has_payload then "str_or_map" else "str") 0 (rust_shape ty)
      else rust_shape ty
  | None => rust_shape ty
  end.
End Shapes.

(** [s[4:-1]]. *)
Definition unwrap_opt (s : string) : string := String.substring 4 (String.length s - 5) s.

Definition is_opt (s : string) : bool := String.prefix "opt(" s.

Fixpoint shapes_compatible_from (fuel : nat) (want got : string) : bool :=
  if String.eqb want got then true
  else if bool_decide (want ∈ ["blob"; "list(leaf)"]) && bool_decide (got ∈ ["blob"; "list(leaf)"]) then true
  else if String.eqb want "str_or_map" && bool_decide (got ∈ ["leaf"; "scalar"]) then true
  else if is_opt want && is_opt got then
    match fuel with S fuel => shapes_compatible_from fuel (unwrap_opt want) (unwrap_opt got) | O => false end
  else false.
Definition shapes_compatible (want got : string) : bool := shapes_compatible_from (String.length want) want got.

(** [re.sub(r"([a-z0-9])([A-Z])", r"\1_\2", s).lower()]; [small] says that a small
    letter or a digit comes right before. *)
Fixpoint snake_runs (small : bool) (s : string) : string :=
  match s with
  | EmptyString => EmptyString
  | String c s =>
      (if small && is_upper c then "_" else "") +:+ String (lower_char c) (snake_runs (is_lower c || is_digit c) s)
  end.
Definition snake (s : string) : string := snake_runs false s.

(** ** What a binding declares *)

Record bound_field : Type := mk_bound_field {
  bf_name : string; bf_shape : string; bf_default : bool
}.

Record bindings : Type := mk_bindings {
  b_structs : dict (list bound_field); b_enums : dict (list (string * Z))
}.

Definition PY_ALIASES : dict string := [("from_", "from")].

Definition EQUIVALENT_TYPES (lang : string) : dict string :=
  if String.eqb lang "typescript" then
    [("EntityUpdateResponse", "EntityViewResponse"); ("EntityRenameResponse", "EntityViewResponse");
     ("StatementTombstoneRequest", "StatementReasonRequest");
     ("StatementRetractRequest", "StatementReasonRequest")]
  else [].

Definition UNNAMED_TYPES (lang : string) : list string :=
  if String.eqb lang "typescript" then ["MtlsClaim"; "Frame"]
  else if String.eqb lang "python" then ["Frame"] else [].

Definition EQUIVALENT_ENUMS (lang : string) : dict (option string) :=
  if String.eqb lang "typescript" || String.eqb lang "python" then
    [("RecallCandidateKind", Some "RankedItemKindWire"); ("RetrieverWire", None)]
  else [].

Definition DOCUMENTED_SUBSETS : list string := ["ErrorCodeWire"; "ErrorCode"].

(** ** The comparison *)

Inductive binding_problem : Type :=
| EquivalenceGone (rust_name other_name : string)
| EquivalenceBroken (rust_name other_name : string) (rust other : list string)
| MissingType (name : string)
| MissingFields (name : string) (fields : list string)
| ExtraFields (name : string) (fields : list string)
| FieldOrder (name : string) (rust other : list string)
| FieldShape (name field rust other : string)
| MissingEnum (name : string)
| MissingVariant (name variant : string)
| WrongDiscriminant (name variant : string) (rust : option Z) (other : Z).

Section Compare.
Context (ref : wire_manifest) (other : bindings) (lang : string).

Definition wire_key (n : string) : string :=
  if String.eqb lang "python" then default n (lookup_key n PY_ALIASES) else snake n.

(** [counterpart]: the name, or the name without [Wire] at its end. *)
Definition counterpart {A} (n : string) (pool : dict A) : option string :=
  if has_key n pool then Some n
  else match drop_suffix "Wire" n with
       | Some m => if negb (String.eqb m "") && has_key m pool then Some m else None
       | None => None
       end.

Definition check_equivalence (e : string * string) : list binding_problem :=
  let '(rust_name, other_name) := e in
  match lookup_key rust_name (wire_structs ref), lookup_key other_name (b_structs other) with
  | Some s, Some fs =>
      let a := map wire_name (struct_fields s) in
      let b := map (fun f => wire_key (bf_name f)) fs in
      if decide (a = b) then [] else [EquivalenceBroken rust_name other_name a b]
  | _, _ => [EquivalenceGone rust_name other_name]
  end.

(** The shapes of one field: what is wanted, and what is declared. *)
Definition shape_ok (f : manifest_field) (g : bound_field) : bool :=
  let want := leaf_agnostic (enum_aware_shape ref (wire_type f)) in
  let got := leaf_agnostic (bf_shape g) in
  let got := if attr_truthy (lookup_key "skip_serializing_if" (wire_serde f))
                && negb (is_opt want) && is_opt got
             then unwrap_opt got else got in
  shapes_compatible want got.

Definition compare_fields_of (name : string) (r_fields : list manifest_field) (o_fields : list bound_field)
    : list binding_problem :=
  let r_names := map wire_name r_fields in
  let o_names := map (fun f => wire_key (bf_name f)) o_fields in
  let missing := filter (fun n => n ∉ o_names) r_names in
  let extra := filter (fun n => n ∉ r_names) o_names in
  let shared_r := filter (fun n => n ∈ o_names) r_names in
  let shared_o := filter (fun n => n ∈ r_names) o_names in
  let defaulted := map (fun f => wire_key (bf_name f)) (filter (fun f => bf_default f = true) o_fields) in
  let o_by := dict_from (map (fun f => (wire_key (bf_name f), f)) o_fields) in
  match missing with [] => [] | _ => [MissingFields name missing] end
  ++ match extra with [] => [] | _ => [ExtraFields name extra] end
  ++ (if decide (shared_r = shared_o) then []
      else if decide (filter (fun n => n ∉ defaulted) shared_r <> filter (fun n => n ∉ defaulted) shared_o
                      \/ defaulted = [])
           then [FieldOrder name shared_r shared_o] else [])
  ++ flat_map (fun f =>
       match lookup_key (wire_name f) o_by with
       | None => []
       | Some g => if shape_ok f g then []
                   else [FieldShape name (wire_name f) (rust_shape (wire_type f)) (bf_shape g)]
       end) r_fields.

Definition compare_type (item : string * wire_struct) : list binding_problem :=
  let '(name, r_def) := item in
  if decide (name ∈ UNNAMED_TYPES lang) then []
  else
    let name := default name (lookup_key name (EQUIVALENT_TYPES lang)) in
    let name := default name (counterpart name (b_structs other)) in
    match lookup_key name (b_structs other) with
    | None => [MissingType name]
    | Some o_fields => compare_fields_of name (struct_fields r_def) o_fields
    end.

(** A name without case and underscores. *)
Fixpoint bare (s : string) : string :=
  match s with
  | EmptyString => EmptyString
  | String c s => if Ascii.eqb c "_" then bare s else String (lower_char c) (bare s)
  end.

Definition compare_variants (name : string) (r_variants : dict (option Z)) (variants : list (string * Z))
    : list binding_problem :=
  let o_variants := dict_from (map (fun v => (bare (snake v.1), v.2)) variants) in
  flat_map (fun v =>
    match lookup_key (bare v.1) o_variants with
    | None => [MissingVariant name v.1]
    | Some got => if decide (v.2 = Some got) then [] else [WrongDiscriminant name v.1 v.2 got]
    end) r_variants.

(** The name an enum is looked up under; [None] when there is none to look up. *)
Definition enum_alias (name : string) : option string :=
  match lookup_key name (EQUIVALENT_ENUMS lang) with
  | Some alias => alias
  | None => Some name
  end.

Definition compare_enum_of (item : string * wire_enum) : list binding_problem :=
  let '(name, r_def) := item in
  let r_variants := dict_from (map (fun v => (variant_name v, variant_discriminant v)) (enum_variants r_def)) in
  if negb (existsb (fun v => match v.2 with Some _ => true | None => false end) r_variants) then []
  else if decide (name ∈ DOCUMENTED_SUBSETS) then []
  else match enum_alias name with
       | None => []
       | Some name =>
           let name := default name (counterpart name (b_enums other)) in
           match lookup_key name (b_enums other) with
           | None => [MissingEnum name]
           | Some variants => compare_variants name r_variants variants
           end
       end.

(** Whether the loops count the type, or the enum, as compared. *)
Definition counts_type (item : string * wire_struct) : bool :=
  negb (bool_decide (item.1 ∈ UNNAMED_TYPES lang))
  && let name := default item.1 (lookup_key item.1 (EQUIVALENT_TYPES lang)) in
     has_key (default name (counterpart name (b_structs other))) (b_structs other).
Definition counts_enum (item : string * wire_enum) : bool :=
  existsb (fun v => match variant_discriminant v with Some _ => true | None => false end) (enum_variants item.2)
  && negb (bool_decide (item.1 ∈ DOCUMENTED_SUBSETS))
  && match enum_alias item.1 with
     | None => false
     | Some name => has_key (default name (counterpart name (b_enums other))) (b_enums other)
     end.

(** The problems, and how many types and enums were compared. *)
Definition compare_bindings : list binding_problem * nat :=
  (flat_map check_equivalence (EQUIVALENT_TYPES lang)
   ++ flat_map compare_type (sorted_items (wire_structs ref))
   ++ flat_map compare_enum_of (sorted_items (wire_enums ref)),
   (length (filter (fun item => counts_type item = true) (wire_structs ref))
    + length (filter (fun item => counts_enum item = true) (wire_enums ref)))%nat).
End Compare.

(** ** Fuel *)

Lemma wrapped_shorter pre post s m :
  (0 < String.length pre)%nat -> wrapped pre post s = Some m -> (String.length m < String.length s)%nat.
Proof.
  unfold wrapped. intros Hp. destruct (full_match pre post s) as [u|] eqn:E; [|done].
  destruct (String.eqb u ""); [done|]. intros H. injection H as <-. by apply full_match_shorter in E.
Qed.

Lemma rust_shape_fuel ty n :
  (String.length ty <= n)%nat -> rust_shape_from n ty = rust_shape ty.
Proof.
  unfold rust_shape. enough (H : forall n k ty, (String.length ty <= n)%nat -> (String.length ty <= k)%nat ->
    rust_shape_from n ty = rust_shape_from k ty) by (intros; by apply H).
  clear. intros n. induction n as [|n IH]; intros k ty Hn Hk.
  - destruct ty; [|simpl in Hn; lia]. destruct k; by vm_compute.
  - pose proof (py_strip_length ty).
    destruct k as [|k]; [destruct ty; [by vm_compute|simpl in Hk; lia]|]. cbn [rust_shape_from].
    destruct (wrapped "Option<" ">" (py_strip ty)) as [t|] eqn:Eo.
    + apply wrapped_shorter in Eo; [|simpl; lia]. by rewrite (IH k) by lia.
    + destruct (wrapped "Vec<" ">" (py_strip ty)) as [t|] eqn:Ev; [|done].
      apply wrapped_shorter in Ev; [|simpl; lia]. pose proof (py_strip_length t).
      by rewrite (IH k) by lia.
Qed.

Lemma py_shape_fuel ty n :
  (String.length ty <= n)%nat -> py_shape_from n ty = py_shape ty.
Proof.
  unfold py_shape. enough (H : forall n k ty, (String.length ty <= n)%nat -> (String.length ty <= k)%nat ->
    py_shape_from n ty = py_shape_from k ty) by (intros; by apply H).
  clear. intros n. induction n as [|n IH]; intros k ty Hn Hk.
  - destruct ty; [|simpl in Hn; lia]. destruct k; by vm_compute.
  - pose proof (py_strip_length ty).
    destruct k as [|k]; [destruct ty; [by vm_compute|simpl in Hk; lia]|]. cbn [py_shape_from].
    destruct (wrapped "Optional[" "]" (py_strip ty)) as [t|] eqn:Eo.
    + apply wrapped_shorter in Eo; [|simpl; lia]. by rewrite (IH k) by lia.
    + destruct (match wrapped "list[" "]" (py_strip ty) with Some t => Some t | None => _ end) as [t|] eqn:Ev; [|done].
      assert ((String.length t < String.length (py_strip ty))%nat).
      { destruct (wrapped "list[" "]" (py_strip ty)) eqn:El.
        - injection Ev as <-. by apply wrapped_shorter in El; [|simpl; lia].
        - by apply wrapped_shorter in Ev; [|simpl; lia]. }
      by rewrite (IH k) by lia.
Qed.

(** ** What passing means *)

(** The fields of a binding's type are those of the Rust type, in its order but
    for those the language forces to the end because they have a default, and
    of a compatible shape each. *)
Definition fields_agree (ref : wire_manifest) (lang : string) (r_fields : list manifest_field)
    (o_fields : list bound_field) : Prop :=
  let key f := wire_key lang (bf_name f) in
  let r_names := map wire_name r_fields in
  let o_names := map key o_fields in
  let defaulted := map key (filter (fun f => bf_default f = true) o_fields) in
  (forall n, n ∈ r_names <-> n ∈ o_names)
  /\ (r_names = o_names
      \/ (defaulted <> [] /\ filter (fun n => n ∉ defaulted) r_names = filter (fun n => n ∉ defaulted) o_names))
  /\ (forall f g, f ∈ r_fields -> g ∈ o_fields -> key g = wire_name f -> shape_ok ref f g = true).

(** Every variant of the Rust enum is there, under its number. *)
Definition variants_agree (r_variants : dict (option Z)) (variants : list (string * Z)) : Prop :=
  forall name number, (name, number) ∈ r_variants -> exists v,
    v ∈ variants /\ bare (snake v.1) = bare name /\ number = Some v.2.

Section Exact.
Context (ref : wire_manifest) (other : bindings) (lang : string).

(** The fields a binding declares for a Rust type, under whatever name. *)
Definition declared_type (name : string) : option (list bound_field) :=
  let name := default name (lookup_key name (EQUIVALENT_TYPES lang)) in
  lookup_key (default name (counterpart name (b_structs other))) (b_structs other).

Definition declared_enum (name : string) : option (list (string * Z)) :=
  lookup_key (default name (counterpart name (b_enums other))) (b_enums other).

Definition bindings_agree : Prop :=
  (forall rust_name other_name, (rust_name, other_name) ∈ EQUIVALENT_TYPES lang ->
     exists s fs, lookup_key rust_name (wire_structs ref) = Some s
       /\ lookup_key other_name (b_structs other) = Some fs
       /\ map wire_name (struct_fields s) = map (fun f => wire_key lang (bf_name f)) fs)
  /\ (forall name s, (name, s) ∈ wire_structs ref -> name ∉ UNNAMED_TYPES lang ->
        exists fs, declared_type name = Some fs /\ fields_agree ref lang (struct_fields s) fs)
  /\ (forall name e alias, (name, e) ∈ wire_enums ref -> name ∉ DOCUMENTED_SUBSETS ->
        (exists v, v ∈ enum_variants e /\ variant_discriminant v <> None) ->
        enum_alias lang name = Some alias ->
        exists vs, declared_enum alias = Some vs
          /\ variants_agree (map (fun v => (variant_name v, variant_discriminant v)) (enum_variants e)) vs).

(** No type of the binding has two fields, no enum two variants, that are one on
    the wire. *)
Definition bindings_ok : Prop :=
  (forall name fs, (name, fs) ∈ b_structs other -> NoDup (map (fun f => wire_key lang (bf_name f)) fs))
  /\ (forall name vs, (name, vs) ∈ b_enums other -> NoDup (map (fun v => bare (snake v.1)) vs)).

Lemma compare_fields_exact name r_fields o_fields :
  NoDup (map (fun f => wire_key lang (bf_name f)) o_fields) ->
  compare_fields_of ref lang name r_fields o_fields = [] <-> fields_agree ref lang r_fields o_fields.
Proof.
  intros Ho. unfold compare_fields_of, fields_agree.
  assert (Hl := fun k g => lookup_by_name (fun f => wire_key lang (bf_name f)) o_fields k g Ho). cbv beta in Hl.
  set (r_names := map wire_name r_fields). set (o_names := map (fun f => wire_key lang (bf_name f)) o_fields) in *.
  set (defaulted := map (fun f => wire_key lang (bf_name f)) (filter (fun f => bf_default f = true) o_fields)).
  assert (Hm : forall (l : list string) (p : list string -> binding_problem),
    match l with [] => [] | _ => [p l] end = [] <-> l = []) by (intros [] ?; split; done).
  rewrite !report_app, (Hm _ (MissingFields name)), (Hm _ (ExtraFields name)), !filter_nil_iff, report_loop.
  assert (Hs : (forall f, f ∈ r_fields ->
      match lookup_key (wire_name f) (dict_from (map (fun f => (wire_key lang (bf_name f), f)) o_fields)) with
      | Some g => if shape_ok ref f g then []
                  else [FieldShape name (wire_name f) (rust_shape (wire_type f)) (bf_shape g)]
      | None => []
      end = []) <-> (forall f g, f ∈ r_fields -> g ∈ o_fields -> wire_key lang (bf_name g) = wire_name f -> shape_ok ref f g = true)).
  { split.
    - intros H f g Hf Hg Hk. specialize (H f Hf).
      rewrite (proj2 (Hl (wire_name f) g) (conj Hg Hk)) in H.
      by destruct (shape_ok ref f g).
    - intros H f Hf. destruct (lookup_key _ _) as [g|] eqn:E; [|done].
      apply Hl in E as [Hg Hk]. by rewrite (H f g). }
  rewrite Hs. clear Hs.
  split.
  - intros (Hmiss & Hext & Hord & Hsh).
    assert (Hin : forall n, n ∈ r_names <-> n ∈ o_names).
    { intros n. split; intros Hn.
      - destruct (decide (n ∈ o_names)); [done|]. by destruct (Hmiss n Hn).
      - destruct (decide (n ∈ r_names)); [done|]. by destruct (Hext n Hn). }
    rewrite (filter_all (fun n => n ∈ o_names) r_names), (filter_all (fun n => n ∈ r_names) o_names) in Hord
      by (intros n; apply Hin).
    split; [done|]. split; [|done]. destruct (decide (r_names = o_names)) as [|Hne]; [by left|right].
    destruct (decide _) as [|Hd] in Hord; [done|]. split; [tauto|].
    destruct (decide (filter (fun n => n ∉ defaulted) r_names = filter (fun n => n ∉ defaulted) o_names)); tauto.
  - intros (Hin & Hord & Hsh).
    rewrite (filter_all (fun n => n ∈ o_names) r_names), (filter_all (fun n => n ∈ r_names) o_names)
      by (intros n; apply Hin).
    split_and!; [intros n Hn Hx; by apply Hx, Hin|intros n Hn Hx; by apply Hx, Hin| |done].
    destruct (decide (r_names = o_names)) as [|Hne]; [done|].
    destruct Hord as [|[Hd He]]; [done|]. rewrite decide_False; [done|]. tauto.
Qed.

Lemma compare_variants_exact name r_variants variants :
  NoDup (map (fun v => bare (snake v.1)) variants) ->
  compare_variants name r_variants variants = [] <-> variants_agree r_variants variants.
Proof.
  intros Hv. unfold compare_variants, variants_agree. rewrite report_loop.
  assert (Hl : forall k n, lookup_key k (dict_from (map (fun v => (bare (snake v.1), v.2)) variants)) = Some n
             <-> exists v, v ∈ variants /\ bare (snake v.1) = k /\ v.2 = n).
  { intros k n. assert (Hk : keys_ok (map (fun v => (bare (snake v.1), v.2)) variants))
      by (unfold keys_ok; rewrite map_map; exact Hv).
    rewrite dict_from_ok, lookup_key_iff, list_elem_of_fmap by done. naive_solver. }
  split.
  - intros H vn number Hin. specialize (H (vn, number) Hin). simpl in H.
    destruct (lookup_key (bare vn) _) as [got|] eqn:E; [|done].
    apply Hl in E as (v & Hvs & Hb & <-). exists v. split_and!; [done..|].
    by destruct (decide (number = Some v.2)).
  - intros H [vn number] Hin. simpl. destruct (H vn number Hin) as (v & Hvs & Hb & ->).
    rewrite (proj2 (Hl (bare vn) v.2)) by (by exists v). by rewrite decide_True.
Qed.

Lemma compare_type_exact name s :
  bindings_ok ->
  compare_type ref other lang (name, s) = []
  <-> (name ∉ UNNAMED_TYPES lang ->
       exists fs, declared_type name = Some fs /\ fields_agree ref lang (struct_fields s) fs).
Proof.
  intros [Hs _]. unfold compare_type, declared_type.
  destruct (decide (name ∈ UNNAMED_TYPES lang)) as [|Hn]; [naive_solver|].
  destruct (lookup_key _ (b_structs other)) as [fs|] eqn:E.
  - rewrite compare_fields_exact by (apply lookup_key_elem in E; by eapply Hs). naive_solver.
  - split; [done|]. intros H. destruct (H Hn) as (fs & ? & _). congruence.
Qed.

Lemma compare_enum_of_exact name e :
  bindings_ok -> NoDup (map variant_name (enum_variants e)) ->
  compare_enum_of other lang (name, e) = []
  <-> (forall alias, name ∉ DOCUMENTED_SUBSETS ->
       (exists v, v ∈ enum_variants e /\ variant_discriminant v <> None) ->
       enum_alias lang name = Some alias ->
       exists vs, declared_enum alias = Some vs
         /\ variants_agree (map (fun v => (variant_name v, variant_discriminant v)) (enum_variants e)) vs).
Proof.
  intros [_ Hb] He. unfold compare_enum_of, declared_enum.
  rewrite dict_from_ok by (unfold keys_ok; rewrite map_map; exact He).
  set (r_variants := map _ (enum_variants e)).
  assert (Hx : existsb (fun v => match v.2 with Some _ => true | None => false end) r_variants = true
               <-> exists v, v ∈ enum_variants e /\ variant_discriminant v <> None).
  { rewrite existsb_exists. unfold r_variants. setoid_rewrite in_map_iff. setoid_rewrite <- list_elem_of_In.
    split.
    - intros (x & (v & <- & Hv) & Hd). exists v. split; [done|]. simpl in Hd. by destruct (variant_discriminant v).
    - intros (v & Hv & Hd). eexists. split; [by exists v|]. simpl. by destruct (variant_discriminant v). }
  setoid_rewrite <- Hx. destruct (existsb _ r_variants); simpl; [|naive_solver].
  destruct (decide (name ∈ DOCUMENTED_SUBSETS)) as [|Hn]; [naive_solver|].
  destruct (enum_alias lang name) as [alias|]; [|naive_solver].
  destruct (lookup_key _ (b_enums other)) as [vs|] eqn:E.
  - rewrite compare_variants_exact by (apply lookup_key_elem in E; by eapply Hb). naive_solver.
  - split; [done|]. intros H. destruct (H alias Hn eq_refl eq_refl) as (? & ? & _). congruence.
Qed.

(** The gate reports nothing if and only if the binding declares what the Rust
    SDK does. *)
Lemma bindings_gate_exact :
  (forall name e, (name, e) ∈ wire_enums ref -> NoDup (map variant_name (enum_variants e))) ->
  bindings_ok -> (compare_bindings ref other lang).1 = [] <-> bindings_agree.
Proof.
  intros He Hok. unfold compare_bindings, bindings_agree. cbn [fst]. rewrite !report_app, !report_loop.
  apply ZifyClasses.and_morph; [|apply ZifyClasses.and_morph].
  - split.
    + intros H rn on Hin. specialize (H (rn, on) Hin). simpl in H.
      destruct (lookup_key rn _) as [s|]; [|done]. destruct (lookup_key on _) as [fs|]; [|done].
      exists s, fs. split_and!; [done..|]. by destruct (decide (_ = _)) in H.
    + intros H [rn on] Hin. simpl. destruct (H rn on Hin) as (s & fs & -> & -> & E). by rewrite decide_True.
  - split.
    + intros H name s Hin. apply compare_type_exact; [done|]. apply H. by apply elem_of_sorted_items.
    + intros H [name s] Hin. apply compare_type_exact; [done|]. intros Hn.
      apply (H name s); [|done]. by apply (elem_of_sorted_items (wire_structs ref)) in Hin.
  - split.
    + intros H name e alias Hin. apply compare_enum_of_exact; [done|by eapply He|]. apply H. by apply elem_of_sorted_items.
    + intros H [name e] Hin. apply (elem_of_sorted_items (wire_enums ref)) in Hin.
      apply compare_enum_of_exact; [done|by eapply He|]. intros alias. by apply (H name e alias).
Qed.
End Exact.

(** ** Examples *)

Example shapes_reduced :
  map rust_shape ["Option<Vec<u8>>"; "Vec<[u8; 16]>"; "Option<Vec<ActAs>>"; "u128"; "[f32; 4]"]
  = ["opt(blob)"; "list(blob)"; "opt(list(scalar))"; "num"; "scalar"]
  /\ map py_shape ["Optional[list[int]]"; "bytes"; "List[ActAs]"; "float"; "Optional[str]"]
     = ["opt(list(num))"; "blob"; "list(scalar)"; "num"; "opt(str)"]
  /\ map leaf_agnostic ["opt(list(scalar))"; "str_or_map"; "num"] = ["opt(list(leaf))"; "str_or_map"; "leaf"]
  /\ map snake ["sessionFilter"; "MemoryKind"; "actAs2Id"] = ["session_filter"; "memory_kind"; "act_as2_id"]
  /\ shapes_compatible "opt(blob)" "opt(list(leaf))" = true
  /\ shapes_compatible "opt(str)" "str" = false.
Proof. by_compute. Qed.

(** The drift the gate was written for: a field missing from a declaration. *)
Example missing_field_reported :
  let ref := mk_wire_manifest
    [("QueryRequest", mk_wire_struct [mk_manifest_field "text" "String" []; mk_manifest_field "from" "u64" [];
                                      mk_manifest_field "session_filter" "Option<Vec<u64>>" []] [])]
    [("RetrieverKindWire", mk_wire_enum [mk_wire_variant "SemanticIndex" (Some 0) None None] (Some "u8") "int" [])] [] in
  compare_bindings ref
    (mk_bindings [("QueryRequest", [mk_bound_field "text" "str" false; mk_bound_field "from_" "opt(num)" true])]
                 [("RetrieverKind", [("SEMANTIC_INDEX", 1)])]) "python"
  = ([MissingFields "QueryRequest" ["session_filter"]; FieldShape "QueryRequest" "from" "num" "opt(num)";
      WrongDiscriminant "RetrieverKind" "SemanticIndex" (Some 0) 1], 2%nat).
Proof. by_compute. Qed.
