(* ===== verification/ApiGate.v ===== *)
(** * ApiGate

    [tools/compare_api.py]: the gate that keeps the verbs and the HTTP types of the
    three SDKs the same. What its extractors read off the sources, the names of
    methods and the fields of types, are arguments. *)

From S2P Require Import Prelude PyDict ToolText BindingsGate.
From stdpp Require Import list sets.
#[local] Open Scope Z_scope.

(** Methods that are there for reasons of a language. *)
Definition LANGUAGE_LOCAL : list string :=
  ["connect_with"; "clone"; "fmt"; "drop"; "default"; "new"; "from"; "into"; "localhost"; "try_new";
   "with_timeout"; "with_retry_policy"; "enter"; "exit"; "aenter"; "aexit"; "dispose"; "symbol_dispose";
   "iter"; "next"; "anext"; "aiter"; "return"; "throw"].

Definition FIELD_LOCAL : list (string * string) := [("TraversalStep", "from"); ("TraversalStep", "from_")].

Definition MINIMUM_SHARED_DTOS : nat := 25.

(** What is extracted: of a language, by its name. *)
Record api_surface : Type := mk_api_surface {
  api_label : string; api_minimum : nat; api_methods : string -> list string
}.

Definition LANGS : list string := ["rust"; "python"; "typescript"].

(** [MINIMUM]: the floor of each surface. *)
Definition MINIMUM : dict nat := [("BrainClient (wire)", 40%nat); ("BrainHttpClient (HTTP)", 15%nat)].

(** The verbs of a language: its methods in snake case, without the local ones. *)
Definition verbs_of (methods : list string) : list string :=
  remove_dups (filter (fun n => n ∉ LANGUAGE_LOCAL) (map snake methods)).

(** [set.intersection] and [set.union] of the sets of the languages. *)
Definition everywhere (sets : list (list string)) (x : string) : bool :=
  forallb (fun s => bool_decide (x ∈ s)) sets.
Definition anywhere (sets : list (list string)) : list string := remove_dups (concat sets).

(** The loop body of [main]: whether the surface fails. *)
Definition surface_fails (s : api_surface) : bool :=
  let sets := map (fun lang => verbs_of (api_methods s lang)) LANGS in
  let missing := filter (fun v => everywhere sets v = false) (anywhere sets) in
  existsb (fun methods => (length methods <? api_minimum s)%nat) sets
  || match missing with [] => false | _ => true end.

(** The types all three languages declare, of the fields of the types of each. *)
Definition shared_dtos (per_lang : string -> dict (list string)) : list string :=
  filter (fun name => forallb (fun lang => has_key name (per_lang lang)) LANGS = true)
    (map fst (per_lang "rust")).

(** [compare_fields]: whether there is drift. *)
Definition compare_dto_fields (per_lang : string -> dict (list string)) : bool :=
  let shared := shared_dtos per_lang in
  if (length shared <? MINIMUM_SHARED_DTOS)%nat then true
  else existsb (fun name =>
         let sets := map (fun lang => default [] (lookup_key name (per_lang lang))) LANGS in
         match filter (fun f => everywhere sets f = false /\ (name, f) ∉ FIELD_LOCAL) (anywhere sets) with
         | [] => false | _ => true end) (py_sorted shared).

(** [SURFACES], with the methods that are extracted of each in a language. *)
Definition SURFACES (methods : string -> string -> list string) : list api_surface :=
  map (fun '(label, minimum) => mk_api_surface label minimum (methods label)) MINIMUM.

(** The exit status of [main]. *)
Definition api_main (methods : string -> string -> list string) (per_lang : string -> dict (list string)) : Z :=
  let failed := existsb surface_fails (SURFACES methods) in
  let drift := compare_dto_fields per_lang in
  if failed || drift then 1 else 0.

(** ** What passing means *)

Definition same_verbs (s : api_surface) : Prop :=
  (forall lang, lang ∈ LANGS -> (api_minimum s <= length (verbs_of (api_methods s lang)))%nat)
  /\ (forall a b v, a ∈ LANGS -> b ∈ LANGS ->
        v ∈ verbs_of (api_methods s a) -> v ∈ verbs_of (api_methods s b)).

Definition same_fields (per_lang : string -> dict (list string)) : Prop :=
  (MINIMUM_SHARED_DTOS <= length (shared_dtos per_lang))%nat
  /\ (forall name a b f fa fb, name ∈ shared_dtos per_lang -> a ∈ LANGS -> b ∈ LANGS ->
        lookup_key name (per_lang a) = Some fa -> lookup_key name (per_lang b) = Some fb ->
        f ∈ fa -> (name, f) ∉ FIELD_LOCAL -> f ∈ fb).

Lemma everywhere_false sets v :
  everywhere sets v = false <-> exists s, s ∈ sets /\ v ∉ s.
Proof.
  unfold everywhere. induction sets as [|s sets IH]; simpl; [set_solver|].
  rewrite andb_false_iff, IH, bool_decide_eq_false. setoid_rewrite elem_of_cons. naive_solver.
Qed.

Lemma elem_of_anywhere sets v : v ∈ anywhere sets <-> exists s, s ∈ sets /\ v ∈ s.
Proof.
  unfold anywhere. rewrite elem_of_remove_dups, !list_elem_of_In, in_concat.
  setoid_rewrite list_elem_of_In. done.
Qed.

(** No element of any set is missing from another one. *)
Lemma none_missing (sets : list (list string)) (P : string -> Prop) `{forall x, Decision (P x)} :
  filter (fun v => everywhere sets v = false /\ P v) (anywhere sets) = []
  <-> forall s t v, s ∈ sets -> t ∈ sets -> v ∈ s -> P v -> v ∈ t.
Proof.
  rewrite filter_nil_iff. setoid_rewrite elem_of_anywhere. setoid_rewrite everywhere_false. split.
  - intros Hf s t v Hs Ht Hv Hp. destruct (decide (v ∈ t)); [done|].
    exfalso. apply (Hf v); [by exists s|]. split; [by exists t|done].
  - intros Hf v (s & Hs & Hv) ((t & Ht & Hn) & Hp). by apply Hn, (Hf s t v).
Qed.

Lemma surface_fails_exact s : surface_fails s = false <-> same_verbs s.
Proof.
  unfold surface_fails, same_verbs. rewrite orb_false_iff.
  set (sets := map (fun lang => verbs_of (api_methods s lang)) LANGS).
  assert (Hin : forall l, l ∈ sets <-> exists lang, lang ∈ LANGS /\ l = verbs_of (api_methods s lang)).
  { intros l. unfold sets. rewrite list_elem_of_fmap. naive_solver. }
  assert (Hm : match filter (fun v => everywhere sets v = false) (anywhere sets) with [] => false | _ => true end = false
               <-> forall a b v, a ∈ sets -> b ∈ sets -> v ∈ a -> v ∈ b).
  { transitivity (filter (fun v => everywhere sets v = false /\ True) (anywhere sets) = []).
    - assert (Ef : forall l : list string, filter (fun v => everywhere sets v = false /\ True) l
                             = filter (fun v => everywhere sets v = false) l).
      { induction l as [|v l IH]; [done|]. destruct (decide (everywhere sets v = false)).
        - by rewrite !filter_cons_True, IH by done.
        - by rewrite !filter_cons_False, IH by tauto. }
      rewrite Ef. by destruct (filter _ _).
    - rewrite none_missing. naive_solver. }
  rewrite Hm. apply ZifyClasses.and_morph.
  - transitivity (forall l, l ∈ sets -> (length l <? api_minimum s)%nat = false).
    + clear. induction sets as [|l sets IH]; simpl; [set_solver|].
      rewrite orb_false_iff, IH. setoid_rewrite elem_of_cons. naive_solver.
    + setoid_rewrite Hin. setoid_rewrite Nat.ltb_ge. naive_solver.
  - setoid_rewrite Hin. naive_solver.
Qed.

Lemma elem_of_shared_dtos per_lang name :
  name ∈ shared_dtos per_lang <-> forall lang, lang ∈ LANGS -> name ∈ map fst (per_lang lang).
Proof.
  unfold shared_dtos. rewrite list_elem_of_filter, forallb_forall. setoid_rewrite <- list_elem_of_In.
  setoid_rewrite has_key_iff. split; [naive_solver|]. intros H. split; [done|]. apply H. set_solver.
Qed.

Lemma compare_dto_fields_exact per_lang : compare_dto_fields per_lang = false <-> same_fields per_lang.
Proof.
  unfold compare_dto_fields, same_fields.
  destruct (Nat.ltb_spec (length (shared_dtos per_lang)) MINIMUM_SHARED_DTOS) as [Hl|Hl]; [split; [done|lia]|].
  split.
  - intros H. split; [lia|]. intros name a b f fa fb Hn Ha Hb Ea Eb Hf Hloc.
    rewrite existsb_false_iff in H. specialize (H name). rewrite elem_of_py_sorted in H. specialize (H Hn).
    set (sets := map _ LANGS) in H.
    assert (Hnone : filter (fun f => everywhere sets f = false /\ (name, f) ∉ FIELD_LOCAL) (anywhere sets) = [])
      by by destruct (filter _ _).
    apply (proj1 (none_missing sets (fun f => (name, f) ∉ FIELD_LOCAL)) Hnone fa fb f); [| |done..].
    + unfold sets. apply list_elem_of_fmap. exists a. by rewrite Ea.
    + unfold sets. apply list_elem_of_fmap. exists b. by rewrite Eb.
  - intros [_ H]. apply existsb_false_iff. intros name Hn. rewrite elem_of_py_sorted in Hn.
    set (sets := map _ LANGS).
    assert (filter (fun f => everywhere sets f = false /\ (name, f) ∉ FIELD_LOCAL) (anywhere sets) = []) as ->; [|done].
    apply (none_missing sets (fun f => (name, f) ∉ FIELD_LOCAL)). unfold sets.
    setoid_rewrite list_elem_of_fmap. intros s t f (a & -> & Ha) (b & -> & Hb) Hf Hloc.
    rewrite elem_of_shared_dtos in Hn.
    destruct (lookup_key name (per_lang a)) as [fa|] eqn:Ea; [|by apply lookup_key_None in Ea; destruct Ea; apply Hn].
    destruct (lookup_key name (per_lang b)) as [fb|] eqn:Eb; [|by apply lookup_key_None in Eb; destruct Eb; apply Hn].
    apply (H name a b f fa fb); try done. by apply elem_of_shared_dtos.
Qed.

(** The gate passes if and only if every surface has enough verbs in every
    language, the same ones, and the types all of them declare, enough of them,
    have the same fields. *)
Lemma api_gate_exact methods per_lang :
  api_main methods per_lang = 0
  <-> (forall s, s ∈ SURFACES methods -> same_verbs s) /\ same_fields per_lang.
Proof.
  unfold api_main. rewrite <- compare_dto_fields_exact. setoid_rewrite <- surface_fails_exact.
  rewrite <- existsb_false_iff.
  destruct (existsb surface_fails (SURFACES methods)), (compare_dto_fields per_lang); simpl; naive_solver lia.
Qed.

(** A verb TypeScript alone has is drift; a spelling or a local name is not. *)
Example verbs_compared :
  let surface ts := mk_api_surface "HTTP" 2 (fun lang =>
    if String.eqb lang "rust" then ["create_entity"; "whoami"; "with_timeout"]
    else if String.eqb lang "python" then ["create_entity"; "whoami"] else ts) in
  surface_fails (surface ["createEntity"; "whoami"; "dispose"]) = false
  /\ surface_fails (surface ["createEntity"; "whoami"; "listThings"]) = true
  /\ surface_fails (surface ["whoami"]) = true.
Proof. by_compute. Qed.
